(* ===== verification/_CoqProject ===== *)
-Q . S2P
Prelude.v
Memory.v
Tables.v
Slots.v
Registry.v
Machine.v
UdsTypes.v
SessionManager.v
ServiceRouter.v
DataManager.v
DtcManager.v
EventHandler.v
RoutineManager.v
UdsHandler.v
SecurityState.v
DiagParser.v
DiagTimer.v
DiagState.v
CanDriver.v
IsoTp.v
J1939.v
NetBuffer.v
Crc.v
Heap.v
Pools.v
E2E.v
AliveMonitor.v
FlowMonitor.v
Watchdog.v
MemoryTest.v
SafetyData.v
Mutex.v
SessionFsm.v
OsTimer.v
Lexer.v
Frontend.v
CommManager.v
DiagMemory.v
SecurityManager.v
DiagSession.v
RouteTable.v
DtcHandler.v
ConfigManager.v
DiagRouter.v
DiagError.v
NetCore.v
DiagTransport.v
NetworkHandler.v
MessageHandler.v
DiagData.v
DiagRoutines.v
Crypto.v
OsCore.v
DiagRecorder.v
CpuMonitor.v
DiagResponse.v
DiagFilter.v
SecurityAccess.v
DataItems.v
Averages.v
TimingMonitor.v
Resources.v
ErrorHistory.v
DiagServices.v
PerfMonitor.v
LogFile.v
DiagLogger.v
CoreSecurity.v
