(* ===== verification/Prelude.v ===== *)
(** * Verification of the CANT automotive runtime

    CANT is a C runtime for automotive control units with a small compiler: a
    diagnostic server (UDS sessions, security access, data identifiers, memory
    access, routines, trouble codes, events), the transports below it (CAN,
    ISO-TP, J1939, a network layer), the safety functions that watch over it
    (end-to-end protection, monitors, memory tests, protected data), the heap,
    pools and operating-system services all of them share, and the front end of
    the language the units are described in.  This library models these parts
    and proves what makes them correct, and, where the code does something else
    than it means to, what it does instead.

    ** How the program is modelled

    Every stateful file of the runtime is a set of functions over static
    variables, protected by a [CriticalSection] that masks interrupts.  The
    statics are a [Record] with the fields of the C struct; a function is a
    computation of the monad [M S A] of [Machine.v], a partial function from the
    statics and the processor to a result, new statics and a new processor.
    [None] is undefined behaviour (NULL or out-of-bounds access); [wp c Q s m]
    says that [c] is defined and its outcome satisfies [Q], so every theorem
    stated with [wp] includes the absence of undefined behaviour and termination.
    A component that calls another one holds its statics and runs it with [zoom].
    Integers are [Z] with the wrap-around of their width written out ([u8],
    [u16], [u32]); counters and indices that an invariant bounds are [nat].
    Callbacks and platform calls are appended to [trace]; callbacks do not call
    back into the component that calls them, except in [DiagTimer.v],
    [DiagState.v], [OsTimer.v] and [DiagLogger.v], where a callback is an arbitrary
    computation or may log.
    A function pointer of a configuration is the boolean "not NULL"; the
    functions of routines, routes and identifiers are arbitrary functions.  The
    add-ons under [diagnostic/] that lock the one mutex of
    [diagnostic/os/critical.c] do so through [HasMutex] of [Mutex.v], in which
    locking a mutex that is held never returns: this is the POSIX branch of the file,
    a mutex of the default kind; the critical section of its Windows branch may be
    entered again, and the theorems about calls that never return do not apply there.
    Statements about calls that may not return use [wlp] ("if it returns"), always
    next to one that says when they do.

    Code that is not in the repository is a parameter of the definitions that use it:
    [common/queue.h] ([FrameQueue]), [validate_transition], [DiagTimer_GetTimestamp],
    [Config_SaveToFile], the platform of [NetCore.v], the STM32 library ([Hal]), the
    non-volatile memory and the control unit ([Nvram], [Hw]), the vehicle's hardware
    ([ext]), the crypto accelerator ([HwCrypto]), the answers of the processor
    ([CpuHardware]), [INVALID_TASK], the constants of the filter chain, the functions
    behind [DiagServices.v] ([External], [Limits]), [OS_GetCPUUsage],
    [calculate_metric_trend], the allocators (an allocation succeeds or not by an
    argument), and of the C library the text of a date and which files can be opened.

    ** The files

    Shared:
    - [Prelude.v]: widths, record update [r <| f := v |>], arrays with a live
      prefix ([memmove_down], [remove_record]), tactics and the hint databases
      [cant] and [cant_len].
    - [Memory.v]: byte-addressed memory as a finite map, with reading, writing
      and comparing ranges.
    - [Tables.v]: a C array with a count, searched linearly, as a finite map
      ([Keyed], [tbl]); [Slots.v]: an array of slots with an "in use" flag;
      [Registry.v]: an array of callbacks with a count.
    - [Machine.v]: [os/critical.c] and [utils/timer.c]; the processor, the monad
      and its weakest precondition; [HasCritical] is the interface of a
      component with a critical section.
    - [Mutex.v]: [diagnostic/os/critical.c] and what logging does to it;
      [LogFile.v]: [diagnostic/logging/diag_logger.c] itself.
    - [Averages.v]: the running average two of the monitors keep.

    The diagnostic server ([diagnostic/]):
    - [UdsTypes.v], [UdsHandler.v]: [uds_handler.c], the request dispatcher with
      its own seed/key exchange.
    - [SessionManager.v], [ServiceRouter.v], [DataManager.v], [DtcManager.v],
      [EventHandler.v], [RoutineManager.v], [CommManager.v]: the managers of the
      same names; the router and the data manager ask the session manager, the
      event handler raises trouble codes.
    - [DiagMemory.v]: [memory_manager.c], guarded access to the address space.
    - [SecurityState.v]: [security_state.c], the security level state machine;
      [SecurityManager.v]: [security_manager.c], a table of them.
    - [DiagParser.v]: [diag_parser.c], the frame format; [DiagTimer.v]:
      [diag_timer.c]; [DiagState.v]: [diag_state.c]; [DiagSession.v]:
      [diag_session.c]; [RouteTable.v]: [route_table.c]; [DiagRouter.v]:
      [diag_router.c]; [DiagError.v]: [diag_error.c]; [DiagResponse.v]:
      [diag_response.c]; [DiagFilter.v]: [diag_filter.c]; [DiagRecorder.v]:
      [diag_recorder.c]; [DiagLogger.v]: [diag_logger.c]; [CoreSecurity.v]:
      [diag_security.c]; [DiagTransport.v]: [diag_transport.c], above the UDS handler.

    Its add-ons ([diagnostic/*/]), under the process-wide mutex:
    - [SessionFsm.v]: [session/session_fsm.c]; [ConfigManager.v]:
      [config/config_manager.c]; [OsTimer.v]: [os/timer.c]; [DiagData.v]:
      [data/diag_data.c]; [DataItems.v]: [data/diag_data_manager.c]; [DiagRoutines.v]:
      [routines/diag_routines.c]; [Crypto.v]: [crypto/crypto_utils.c];
      [SecurityAccess.v]: [security/security_manager.c], over [Crypto.v];
      [TimingMonitor.v]: [timing/timing_monitor.c]; [Resources.v]:
      [resource/resource_manager.c]; [ErrorHistory.v]: [error/error_handler.c];
      [PerfMonitor.v]: [performance/perf_monitor.c]; [DiagServices.v]:
      [services/diag_services.c], over four of the managers.
    - [DtcHandler.v]: [diagnostics/dtc_handler.c], over J1939.

    Transports:
    - [CanDriver.v]: [drivers/can_driver.c] over an abstract queue
      ([FrameQueue]); [CanBus] is what it promises to protocols.
    - [IsoTp.v], [J1939.v]: [protocols/isotp.c] and [protocols/j1939.c] over any
      [CanBus].
    - [NetBuffer.v]: [network/net_buffer.c]; [NetCore.v]: [network/net_core.c],
      [net_interface.c] and [net_protocol.c]; [NetworkHandler.v]:
      [network/network_handler.c] over [hardware/can_driver.c]; [MessageHandler.v]:
      [network/message_handler.c] over it.

    Memory, operating system and safety:
    - [Heap.v]: [memory/memory_manager.c]; [Pools.v]: [mem_pool.c],
      [rt_memory.c] and [network/buffer_manager.c]; [OsCore.v]: [os/os_core.c].
    - [Crc.v]: [utils/crc.c]; [E2E.v], [AliveMonitor.v], [FlowMonitor.v],
      [Watchdog.v], [MemoryTest.v], [SafetyData.v], [CpuMonitor.v]: the files of
      [safety/] of those names.

    The compiler:
    - [Lexer.v]: [compiler/frontend/lexer.c]; [Frontend.v]: [parser.c],
      [middle/ast.c], [middle/types.c] and [analysis/semantic.c].

    ** What the theorems show

    - Timing: timers and the supervisions built on them are exact across the
      32-bit tick wrap-around, except those of [diagnostic/os/timer.c], whose
      deadlines are lost at it; a started timer that is polled fires exactly once, at
      the latest a check interval after its deadline; cyclic alarms expire once a cycle.
    - Refinement: the tables of routes, codes, events, timers, sessions, security
      levels, channels, waiting responses, data and configuration items implement finite
      maps, operation by operation or for every sequence of operations; the hashed route
      table implements stacks; the ring buffer a bounded queue; the error ring the last
      sixteen errors; the heap a best-fit allocator that joins free neighbours;
      the state machine a table of moves; the flow monitor a judge of announced
      checkpoints; the lexer and the parser their grammars.  The moves, the
      grammar and the reactions of a session are written down on their own, not computed
      by the tables of the code.
    - Access: which requests change the security level, that lockouts refuse
      everything and begin exactly at the attempt limit, that a refused request
      reaches no handler, that memory and data are changed only inside an area
      that grants it.
    - Round trips: seed and key, formatting and parsing, segmentation and
      reassembly of ISO-TP messages and of channel fragments, J1939 messages, DM1
      codes, protected messages, writing and reading identifiers, memory,
      configuration values and protected data, tokens and text.
    - Detection: a stuck bit, a silent task, a wrong control flow, corruption of
      protected data, a changed byte of a frame.
    - Equivalence: the table-driven CRCs equal their bit-serial definitions, the
      chunked verification equals equality, the flow validation reachability.
    - Invariants along every run of operations, with tick interrupts in between
      where the code relies on them.
    - Deviations.  Interrupts stay masked after some initialisations, after
      nested entries, after a J1939 claim and after reading protected data.  The
      process-wide mutex makes calls wait for themselves: connecting a network
      interface, logging while a lock is held.  States are never entered (four of
      the six session states, every network connection) or never left (the
      lockout of [diag_session.c], four states of [diag_state.c]).  Codes of
      [dtc_handler.c] never age and DM1 with two or more codes is not sent;
      removed routes stay dead; errors set with the extended call are not
      recorded; ranges that wrap round are accepted.  Partial ISO-TP messages are
      delivered as complete, multi-frame transmissions stop, responses are cut by
      padding removal, an exact fit in the heap overwrites the next header, a
      CRC-32 has 27 bits.  Requests of the transport go through a NULL pointer and
      long responses stick in it; a message of more than eight bytes blocks the CAN
      queue; flow control WAIT sends at once; messages are never acknowledged.  Stored
      texts lose their terminator, secure entries overwrite one another, cached copies
      lag, running averages are rounded down until they stick.  The arithmetic test of the
      processor fails on every processor; a tick that activates a task masks interrupts.
      A session of the add-ons needs no key and may forget its lockout; the lockout of the
      core never ends and its seed is the time.  Budgets grant requests that wrap; range
      checks leak; the text of a message is never written to the log file; a log callback
      that logs may recurse without end.  Profile 1 of the end-to-end protection, a safety
      session that is left, a flow table with a stray successor, rings and histories of
      size 0 are undefined.

    ** Bounds and fuel

    Loops over tables recurse on the number of entries left, so they need no
    fuel.  Where the recursion is not structural the fuel is proved to be enough:
    [Routine_Manager_AbortAll] gets [MAX_ACTIVE_ROUTINES] rounds,
    [Flow_Monitor_ValidateFlow] 257, walks over the heap and its defragmentation
    the number of headers, the receive loops of ISO-TP and J1939 the number of
    pending frames, [Memory_Manager_Verify] the number of started 256-byte
    chunks, a walk along a route chain 32, the skip loop of the lexer the length of the
    text, tokenising one more, the body of the parser two more than the remaining
    characters, the frame scanners of [NetworkHandler.v] and [MessageHandler.v] the bytes
    in the buffer, the flush of [DiagLogger.v] one more than its 32 entries while the
    callbacks do not log.  [timer_delay_ms] gets the list of wake-ups and the theorem says
    at which one it returns.  Table sizes are those of the source.  The one
    floating-point computation is modelled with the Standard Library's [SpecFloat].

    ** What is not modelled

    The interrupt handler of the CAN driver, whose frame transfer is a comment in
    the source; register accesses and inline assembly; printing, and the file and line
    members of development builds; the functions that free an object and call
    [destroy_critical], which does not exist.  Data blocks of the data manager are named
    by their pointers, so blocks that overlap are not represented.

    Whole files: the code generation of the compiler, which is calls of LLVM, and its
    passes over tree nodes that the parser never produces; the older session, network and UDS
    services of [diagnostics/], which the ones modelled replace; [diag_core.c]
    and [diag_protocol.c], glue whose calls do not match the functions the repository
    defines; [diag_system.c], which starts the add-ons in order; [diag_monitor.c], which
    prints; [scheduler/rt_scheduler.c] and
    [watchdog/watchdog.c], threads of the host; [rte/rte_core.c], whose tables no function
    fills; an example configuration, the FlexRay driver and the start-up code.

    This file holds the definitions every other file shares. *)

From stdpp Require Export base tactics option list numbers strings.
From stdpp Require Export gmap.
From Stdlib Require Export ZArith Lia.

#[global] Open Scope Z_scope.

(** ** Machine-width unsigned integers *)

Definition u8 (z : Z) : Z := z mod 2 ^ 8.
Definition u16 (z : Z) : Z := z mod 2 ^ 16.
Definition u32 (z : Z) : Z := z mod 2 ^ 32.
Definition u64 (z : Z) : Z := z mod 2 ^ 64.

#[global] Arguments u8 : simpl never.
#[global] Arguments u16 : simpl never.
#[global] Arguments u32 : simpl never.
#[global] Arguments u64 : simpl never.
#[global] Arguments Z.b2z : simpl never.
#[global] Arguments Z.land : simpl never.
#[global] Arguments Z.lor : simpl never.
#[global] Arguments Z.lxor : simpl never.
#[global] Arguments Z.shiftl : simpl never.
#[global] Arguments Z.shiftr : simpl never.
#[global] Arguments Z.add : simpl never.
#[global] Arguments Z.sub : simpl never.
#[global] Arguments Z.ltb : simpl never.
#[global] Arguments Z.leb : simpl never.
#[global] Arguments Z.eqb : simpl never.
#[global] Arguments Nat.leb : simpl never.
#[global] Arguments Nat.ltb : simpl never.
#[global] Arguments Nat.eqb : simpl never.
#[global] Arguments Nat.sub : simpl never.

(** Largest [uint32_t]. *)
Definition UINT32_MAX : Z := 2 ^ 32 - 1.

Definition is_u8 (z : Z) : Prop := 0 <= z < 2 ^ 8.
Definition is_u16 (z : Z) : Prop := 0 <= z < 2 ^ 16.
Definition is_u32 (z : Z) : Prop := 0 <= z < 2 ^ 32.

#[export] Instance is_u8_dec z : Decision (is_u8 z) := _.
#[export] Instance is_u32_dec z : Decision (is_u32 z) := _.

Create HintDb cant.
Create Rewrite HintDb cant_len.

Lemma u8_range z : is_u8 (u8 z).
Proof. apply Z.mod_pos_bound; lia. Qed.
Lemma u16_range z : is_u16 (u16 z).
Proof. apply Z.mod_pos_bound; lia. Qed.
Lemma u32_range z : is_u32 (u32 z).
Proof. apply Z.mod_pos_bound; lia. Qed.

Lemma u8_small z : is_u8 z -> u8 z = z.
Proof. apply Z.mod_small. Qed.
Lemma u16_small z : is_u16 z -> u16 z = z.
Proof. apply Z.mod_small. Qed.
Lemma u32_small z : is_u32 z -> u32 z = z.
Proof. apply Z.mod_small. Qed.

#[export] Hint Resolve u8_range u16_range u32_range : cant.

(** Elapsed time computed as [uint32_t] subtraction is exact across the
    wrap-around of the counter. *)
Lemma u32_elapsed start n : 0 <= n < 2 ^ 32 -> u32 (u32 (start + n) - start) = n.
Proof.
  intros Hn. unfold u32. rewrite Zminus_mod_idemp_l.
  replace (start + n - start) with n by lia. by apply Z.mod_small.
Qed.

(** A 32-bit counter counts modulo [2 ^ 32]. *)
Lemma u32_succ a : u32 (u32 a + 1) = u32 (a + 1).
Proof. unfold u32. by rewrite Zplus_mod_idemp_l. Qed.

Lemma u32_diff a b : 0 <= a - b < 2 ^ 32 -> u32 (u32 a - u32 b) = a - b.
Proof. intros Hn. unfold u32. rewrite <- Zminus_mod. by apply Z.mod_small. Qed.

Lemma lxor_u32 a b : is_u32 a -> is_u32 b -> is_u32 (Z.lxor a b).
Proof.
  unfold is_u32. intros Ha Hb. assert (0 <= Z.lxor a b) by (apply Z.lxor_nonneg; lia).
  split; [done|]. destruct (decide (Z.lxor a b = 0)) as [->|Hne]; [lia|].
  apply Z.log2_lt_pow2; [lia|]. eapply Z.le_lt_trans; [apply Z.log2_lxor; lia|].
  apply Z.max_lub_lt; [destruct (decide (a = 0)) as [->|]|destruct (decide (b = 0)) as [->|]];
    simpl; try lia; apply Z.log2_lt_pow2; lia.
Qed.

(** ** Record update: [r <| field := v |>] *)

Class Eta (R : Type) := eta : R -> R.
Class Setter {R E} (proj : R -> E) := setf : (E -> E) -> R -> R.
#[global] Arguments setf {R E} proj {_} / f r.

Ltac solve_setter :=
  lazymatch goal with
  | |- @Setter ?R ?E ?p =>
      let et := constr:(ltac:(let i := constr:(_ : Eta R) in
                              let u := eval hnf in i in exact u) : R -> R) in
      let t := constr:(fun (f : E -> E) (r : R) =>
        ltac:(let b := eval cbv beta in (et r) in
              lazymatch b with context [p r] => idtac end;
              lazymatch eval pattern (p r) in b with
              | ?g _ => let c := eval cbv beta in (g (f (p r))) in exact c
              end)) in
      exact t
  end.
#[global] Hint Extern 1 (Setter _) => solve_setter : typeclass_instances.

Declare Scope cant_scope.
Delimit Scope cant_scope with cant.
#[global] Open Scope cant_scope.
Notation "r <| p := v |>" := (setf p (fun _ => v) r)
  (at level 1, left associativity, p at level 10) : cant_scope.
Notation "r <| p ::= f |>" := (setf p f r)
  (at level 1, left associativity, p at level 10) : cant_scope.

(** ** Arrays with a live prefix

    The static tables of the runtime are a C array and a count; entry [i] is
    live when [i < count].  [memmove_down i n a] is
    [memmove(&a[i], &a[i + 1], (n - i - 1) * sizeof a[0])]: the stale last
    entry stays in place. *)

Section arrays.
Context {A : Type}.
Implicit Types (a : list A) (i n : nat).

Definition memmove_down (i n : nat) (a : list A) : list A :=
  take i a ++ take (n - i - 1) (drop (S i) a) ++ drop (n - 1) a.

(** The guarded compaction the record tables use to drop entry [i]. *)
Definition remove_record (i n : nat) (a : list A) : list A :=
  if (i <? n - 1)%nat then memmove_down i n a else a.

(** Index of the first live entry that satisfies [P]. *)
Definition find_idx (P : A -> bool) (n : nat) (a : list A) : option nat :=
  fst <$> list_find P (take n a).

Lemma length_memmove_down i n a :
  (i < n)%nat -> (n <= length a)%nat -> length (memmove_down i n a) = length a.
Proof.
  intros. unfold memmove_down.
  rewrite !length_app, !length_take, !length_drop. lia.
Qed.

Lemma take_memmove_down i n a :
  (i < n)%nat -> (n <= length a)%nat ->
  take (n - 1) (memmove_down i n a) = delete i (take n a).
Proof.
  intros Hi Hn. unfold memmove_down.
  rewrite app_assoc, take_app_length'.
  - rewrite delete_take_drop, take_take, Nat.min_l by lia. f_equal.
    rewrite skipn_firstn_comm. f_equal. lia.
  - rewrite length_app, !length_take, length_drop. lia.
Qed.

Lemma memmove_down_last n a : memmove_down (n - 1) n a = a.
Proof.
  unfold memmove_down. replace (n - (n - 1) - 1)%nat with 0%nat by lia. simpl.
  apply take_drop.
Qed.

Lemma remove_record_memmove i n a : (i < n)%nat -> remove_record i n a = memmove_down i n a.
Proof.
  intros Hi. unfold remove_record. destruct (i <? n - 1)%nat eqn:E; [done|].
  apply Nat.ltb_ge in E. replace i with (n - 1)%nat by lia. by rewrite memmove_down_last.
Qed.

Lemma find_idx_Some P n a i :
  find_idx P n a = Some i <->
  (exists x, a !! i = Some x /\ (i < n)%nat /\ P x = true /\
    forall j y, (j < i)%nat -> a !! j = Some y -> P y = false).
Proof.
  unfold find_idx. rewrite fmap_Some. split.
  - intros [[i' x] [[Hl [HP Hm]]%list_find_Some ->]]; simpl.
    apply lookup_take_Some in Hl as [Hl Hlt]. exists x. split_and!; auto.
    + by apply Is_true_true.
    + intros j y Hj Hy. apply not_true_is_false. intros HPy.
      apply (Hm j y); [|done|by apply Is_true_true].
      apply lookup_take_Some. split; [done|lia].
  - intros (x & Hl & Hlt & HP & Hm). exists (i, x). split; [|done].
    apply list_find_Some. split_and!.
    + by apply lookup_take_Some.
    + by apply Is_true_true.
    + intros j y [Hy Hjn]%lookup_take_Some Hj HPy.
      apply Is_true_true in HPy. rewrite (Hm j y) in HPy; done.
Qed.

Lemma find_idx_None P n a :
  find_idx P n a = None <-> Forall (fun x => P x = false) (take n a).
Proof.
  unfold find_idx. rewrite fmap_None, list_find_None.
  apply Forall_iff. intros x. destruct (P x); naive_solver.
Qed.
End arrays.

(** ** Rings

    An array of which the first [n] slots are a ring holds the last [n] entries of a list,
    entry [i] in slot [i mod n]; one more entry goes to the next slot. *)
Lemma ring_push {A} (h : list A) n (l : list A) e : (0 < n <= length h)%nat ->
  (forall i x, l !! i = Some x -> (length l <= i + n)%nat -> h !! (i mod n)%nat = Some x) ->
  forall i x, (l ++ [e]) !! i = Some x -> (length (l ++ [e]) <= i + n)%nat -> <[(length l mod n)%nat := e]> h !! (i mod n)%nat = Some x.
Proof.
  intros Hn Hr i x Hx Hi. rewrite length_app in Hi. cbn [length] in Hi. pose proof (Nat.mod_upper_bound (length l) n ltac:(lia)) as Hlt.
  destruct (decide (i = length l)) as [->|Hne].
  - rewrite list_lookup_insert_eq by lia. rewrite lookup_app_r, Nat.sub_diag in Hx by lia. exact Hx.
  - assert (Hil : (i < length l)%nat) by (apply lookup_lt_Some in Hx; rewrite length_app in Hx; cbn [length] in Hx; lia).
    rewrite lookup_app_l in Hx by done. rewrite list_lookup_insert_ne; [apply Hr; [done|lia]|]. intros Heq.
    pose proof (Nat.div_mod (length l) n ltac:(lia)) as E1. pose proof (Nat.div_mod i n ltac:(lia)) as E2. rewrite Heq in E1.
    assert (length l / n = i / n)%nat; [|lia]. assert (i / n <= length l / n)%nat by (apply Nat.Div0.div_le_mono; lia). nia.
Qed.

Lemma alter_beyond {A} (f : A -> A) i (l : list A) : (length l <= i)%nat -> alter f i l = l.
Proof.
  intros Hi. apply list_eq. intros j. destruct (decide (i = j)) as [<-|]; [|by rewrite list_lookup_alter_ne].
  by rewrite list_lookup_alter_eq, lookup_ge_None_2.
Qed.

Lemma take_nonempty {A} n (l : list A) :
  (n <= length l)%nat -> bool_decide (take n l = []) = (n =? 0)%nat.
Proof.
  intros Hn. destruct (n =? 0)%nat eqn:E; [apply Nat.eqb_eq in E|apply Nat.eqb_neq in E].
  - subst. by apply bool_decide_true.
  - apply bool_decide_false. intros H%(f_equal length). rewrite length_take in H. simpl in H. lia.
Qed.

Lemma take_app_split {A} i k (l l1 l2 : list A) :
  length l1 = i -> take (i + k) l = l1 ++ l2 -> take i l = l1 /\ take k (drop i l) = l2.
Proof.
  intros Hi Ht. split.
  - transitivity (take i (take (i + k) l)).
    + rewrite take_take. f_equal. lia.
    + rewrite Ht. by apply take_app_length'.
  - transitivity (drop i (take (i + k) l)).
    + rewrite skipn_firstn_comm. f_equal. lia.
    + rewrite Ht. by apply drop_app_length'.
Qed.

Lemma alter_as_insert {A} (f : A -> A) i x (l : list A) :
  l !! i = Some x -> alter f i l = <[i := f x]> l.
Proof.
  intros Hx. rewrite list_insert_alter. apply list_alter_ext; [|done].
  intros y Hy. by simplify_eq.
Qed.

(** The entries before and behind a dropped one, [k] of them behind it. *)
Lemma remove_record_split {A} i k n (a : list A) :
  (i + S k)%nat = n -> (n <= length a)%nat ->
  take i (remove_record i n a) = take i a /\
  take k (drop i (remove_record i n a)) = take k (drop (S i) a).
Proof.
  intros <- Hn. rewrite remove_record_memmove by lia.
  apply take_app_split; [rewrite length_take; lia|].
  replace (i + k)%nat with (i + S k - 1)%nat by lia.
  rewrite take_memmove_down, delete_take_drop, take_take, Nat.min_l, skipn_firstn_comm by lia.
  do 2 f_equal. lia.
Qed.

#[export] Hint Rewrite @length_insert @length_app @length_take @length_drop
  @length_replicate @length_fmap : cant_len.

(** Boolean tests become propositions, impossible branches are closed. *)
Ltac tests :=
  repeat match goal with
  | H : (_ && _)%bool = true |- _ => apply andb_true_iff in H as [? ?]
  | H : (_ || _)%bool = false |- _ => apply orb_false_iff in H as [? ?]
  | H : (_ || _)%bool = true |- _ => apply orb_true_iff in H
  | H : (_ && _)%bool = false |- _ => apply andb_false_iff in H
  | H : negb _ = true |- _ => apply negb_true_iff in H
  | H : negb _ = false |- _ => apply negb_false_iff in H
  | H : (_ <? _) = true |- _ => apply Z.ltb_lt in H
  | H : (_ <? _) = false |- _ => apply Z.ltb_ge in H
  | H : (_ <=? _) = true |- _ => apply Z.leb_le in H
  | H : (_ <=? _) = false |- _ => apply Z.leb_gt in H
  | H : (_ =? _) = true |- _ => apply Z.eqb_eq in H
  | H : (_ =? _) = false |- _ => apply Z.eqb_neq in H
  | H : (_ <? _)%nat = true |- _ => apply Nat.ltb_lt in H
  | H : (_ <? _)%nat = false |- _ => apply Nat.ltb_ge in H
  | H : (_ <=? _)%nat = true |- _ => apply Nat.leb_le in H
  | H : (_ <=? _)%nat = false |- _ => apply Nat.leb_gt in H
  | H : (_ =? _)%nat = true |- _ => apply Nat.eqb_eq in H
  | H : (_ =? _)%nat = false |- _ => apply Nat.eqb_neq in H
  end.
