(* ===== verification/Memory.v ===== *)
(** * Byte memory

    The address space a component reads and writes through pointers: a finite map from
    addresses to bytes.  Reading or writing an address that is not in it is undefined
    behaviour ([None]).  Used by the protected data and by the diagnostic memory manager. *)

From S2P Require Import Prelude.

Fixpoint read_mem (mem : gmap Z Z) (a : Z) (n : nat) : option (list Z) :=
  match n with O => Some [] | S n => b ← mem !! a; l ← read_mem mem (a + 1) n; Some (b :: l) end.
Definition write_byte (mem : gmap Z Z) (a b : Z) : option (gmap Z Z) :=
  match mem !! a with Some _ => Some (<[a := b]> mem) | None => None end.
Fixpoint write_mem (mem : gmap Z Z) (a : Z) (bs : list Z) : option (gmap Z Z) :=
  match bs with [] => Some mem | b :: bs => mem ← write_byte mem a b; write_mem mem (a + 1) bs end.

(** ** Memory regions *)

Definition mapped (mem : gmap Z Z) (a : Z) (n : nat) : Prop := forall k, a <= k < a + Z.of_nat n -> is_Some (mem !! k).
Definition disjoint (a b : Z) (n : nat) : Prop := a + Z.of_nat n <= b \/ b + Z.of_nat n <= a.
(** [mem'] differs from [mem] only in the [n] bytes at [a]. *)
Definition only_at (mem mem' : gmap Z Z) (a : Z) (n : nat) : Prop :=
  forall k, k < a \/ a + Z.of_nat n <= k -> mem' !! k = mem !! k.

Lemma read_mem_ext mem mem' a n :
  (forall k, a <= k < a + Z.of_nat n -> mem' !! k = mem !! k) -> read_mem mem' a n = read_mem mem a n.
Proof.
  revert a. induction n as [|n IH]; intros a Hk; simpl; [done|]. rewrite Hk by lia. rewrite IH; [done|]. intros k Hkk. apply Hk. lia.
Qed.
Lemma read_mem_only mem mem' a b n : only_at mem mem' a n -> disjoint a b n -> read_mem mem' b n = read_mem mem b n.
Proof. intros Ho Hd. apply read_mem_ext. intros k Hk. apply Ho. destruct Hd; lia. Qed.
Lemma read_mem_mapped mem a n : mapped mem a n -> exists bs, read_mem mem a n = Some bs /\ length bs = n.
Proof.
  revert a. induction n as [|n IH]; intros a Hm; simpl; [by exists []|].
  destruct (Hm a ltac:(lia)) as [b Hb]. destruct (IH (a + 1)) as (bs & Hbs & Hl); [intros k Hk; apply Hm; lia|].
  exists (b :: bs). rewrite Hb. simpl. rewrite Hbs. simpl. by rewrite Hl.
Qed.
Lemma read_mem_length mem a n bs : read_mem mem a n = Some bs -> length bs = n.
Proof.
  revert a bs. induction n as [|n IH]; intros a bs Hr; simpl in Hr; [by simplify_eq|].
  apply bind_Some in Hr as (b & _ & (l & Hl & [= <-])%bind_Some). simpl. f_equal. by eapply IH.
Qed.
Lemma read_mem_Forall P mem a n bs : map_Forall (fun _ b => P b) mem -> read_mem mem a n = Some bs -> Forall P bs.
Proof.
  intros Hm. revert a bs. induction n as [|n IH]; intros a bs Hr; simpl in Hr; [by simplify_eq|].
  apply bind_Some in Hr as (b & Hb & (l & Hl & [= <-])%bind_Some). constructor; [by apply (Hm a)|by eapply IH].
Qed.
Lemma only_mapped (mem mem' : gmap Z Z) b n : (forall k, is_Some (mem !! k) -> is_Some (mem' !! k)) -> mapped mem b n -> mapped mem' b n.
Proof. intros Hd Hm k Hk. apply Hd, Hm, Hk. Qed.

Lemma write_mem_spec mem a bs :
  mapped mem a (length bs) -> exists mem', write_mem mem a bs = Some mem' /\ read_mem mem' a (length bs) = Some bs /\
    only_at mem mem' a (length bs) /\ (forall k, is_Some (mem !! k) -> is_Some (mem' !! k)).
Proof.
  revert mem a. induction bs as [|b bs IH]; intros mem a Hm; simpl; [by exists mem|].
  destruct (Hm a ltac:(simpl; lia)) as [b0 Hb]. unfold write_byte. rewrite Hb. simpl.
  destruct (IH (<[a := b]> mem) (a + 1)) as (mem' & Hw & Hr & Ho & Hd).
  { intros k Hk. rewrite lookup_insert_ne by lia. apply Hm. simpl. lia. }
  exists mem'. rewrite Hw. split; [done|]. rewrite Ho by lia. rewrite lookup_insert_eq. simpl. rewrite Hr. split; [done|]. split.
  - intros k Hk. rewrite Ho by (simpl in Hk; lia). rewrite lookup_insert_ne; [done|simpl in Hk; lia].
  - intros k Hk. apply Hd. destruct (decide (k = a)) as [->|]; [rewrite lookup_insert_eq; by eexists|by rewrite lookup_insert_ne].
Qed.

(** A range read in two parts. *)
Lemma read_mem_app mem a n k :
  read_mem mem a (n + k) = x ← read_mem mem a n; y ← read_mem mem (a + Z.of_nat n) k; Some (x ++ y).
Proof.
  revert a. induction n as [|n IH]; intros a; simpl.
  - rewrite Z.add_0_r. by destruct (read_mem mem a k).
  - destruct (mem !! a) as [b|]; [|done]. simpl. rewrite IH.
    replace (a + 1 + Z.of_nat n) with (a + Z.of_nat (S n)) by lia.
    destruct (read_mem mem (a + 1) n); [|done]. simpl. by destruct (read_mem mem _ k).
Qed.

(** ** Little-endian numbers *)

Fixpoint le_value (bs : list Z) : Z := match bs with [] => 0 | b :: bs => b + 256 * le_value bs end.
Fixpoint le_bytes (n : nat) (z : Z) : list Z := match n with O => [] | S n => z mod 256 :: le_bytes n (z / 256) end.

Lemma length_le_bytes n z : length (le_bytes n z) = n.
Proof. revert z. induction n as [|n IH]; intros z; simpl; [done|]. by rewrite IH. Qed.
Lemma le_bytes_value l : Forall is_u8 l -> le_bytes (length l) (le_value l) = l.
Proof.
  induction 1 as [|b l Hb Hl IH]; [done|]. cbn [le_value length le_bytes]. unfold is_u8 in Hb.
  rewrite (Z.mul_comm 256), Z.mod_add, Z.div_add, (Z.mod_small b), (Z.div_small b) by lia.
  by rewrite Z.add_0_l, IH.
Qed.
Lemma le_value_inj l k : Forall is_u8 l -> Forall is_u8 k -> length l = length k -> le_value l = le_value k -> l = k.
Proof. intros Hl Hk E Hv. rewrite <- (le_bytes_value l Hl), <- (le_bytes_value k Hk), E. by rewrite Hv. Qed.
Lemma length_words n l : length (mjoin (le_bytes n <$> l)) = (n * length l)%nat.
Proof.
  induction l as [|z l IH]; [cbn; lia|]. rewrite fmap_cons.
  change (length (le_bytes n z ++ mjoin (le_bytes n <$> l)) = (n * S (length l))%nat). rewrite length_app, length_le_bytes, IH. lia.
Qed.
Lemma le_value_bytes n z : 0 <= z < 256 ^ Z.of_nat n -> le_value (le_bytes n z) = z.
Proof.
  revert z. induction n as [|n IH]; intros z Hz; cbn [le_bytes le_value]; [simpl in Hz; lia|].
  rewrite Nat2Z.inj_succ, Z.pow_succ_r in Hz by lia. rewrite IH.
  - pose proof (Z.div_mod z 256). lia.
  - split; [apply Z.div_pos; lia|]. apply Z.div_lt_upper_bound; lia.
Qed.

(** ** Bytes, their halves, and big-endian numbers *)

Lemma high_half b : is_u8 b -> Z.land (Z.shiftr b 4) 0x0F = b / 16.
Proof.
  unfold is_u8. intros Hb. rewrite Z.shiftr_div_pow2 by lia. change 0x0F with (Z.ones 4).
  rewrite Z.land_ones by lia. apply Z.mod_small. change (2 ^ 4) with 16.
  split; [apply Z.div_pos|apply Z.div_lt_upper_bound]; lia.
Qed.
Lemma low_half b : Z.land b 0x0F = b mod 16.
Proof. change 0x0F with (Z.ones 4). by rewrite Z.land_ones. Qed.
Lemma lor_shift_add n a b : 0 <= n -> 0 <= b < 2 ^ n -> Z.lor (Z.shiftl a n) b = a * 2 ^ n + b.
Proof.
  intros Hn Hb. rewrite <- Z.shiftl_mul_pow2 by done.
  assert (E : Z.land (Z.shiftl a n) b = 0).
  { apply Z.bits_inj'. intros i Hi. rewrite Z.land_spec, Z.bits_0. destruct (decide (i < n)).
    - by rewrite Z.shiftl_spec_low.
    - rewrite <- (Z.mod_small b (2 ^ n)) by done. rewrite Z.mod_pow2_bits_high by lia. apply andb_false_r. }
  by rewrite Z.add_nocarry_lxor, Z.lxor_lor.
Qed.

(** The bytes of a number, the highest first, and the number read from them in 32 bits. *)
Definition be_bytes (n : nat) (z : Z) : list Z := rev (le_bytes n z).
Lemma length_be_bytes n z : length (be_bytes n z) = n.
Proof. unfold be_bytes. by rewrite length_rev, length_le_bytes. Qed.
Lemma be_bytes_S n z : be_bytes (S n) z = be_bytes n (z / 256) ++ [z mod 256].
Proof. done. Qed.
Lemma fold_be_bytes n z : 0 <= z < 256 ^ Z.of_nat n -> foldl (fun v b => Z.lor (u32 (Z.shiftl v 8)) b) 0 (be_bytes n z) = u32 z.
Proof.
  revert z. induction n as [|n IH]; intros z Hz.
  - assert (z = 0) as -> by (simpl in Hz; lia). done.
  - rewrite be_bytes_S, foldl_app. rewrite Nat2Z.inj_succ, Z.pow_succ_r in Hz by lia.
    rewrite IH by (split; [apply Z.div_pos; lia|apply Z.div_lt_upper_bound; lia]).
    cbn [foldl]. unfold u32 at 1 2. pose proof (Z.mod_pos_bound z 256 ltac:(lia)) as Hm. pose proof (Z.div_mod z 256 ltac:(lia)) as Hd.
    set (q := z / 256) in *. set (r := z mod 256) in *.
    replace (Z.shiftl (q mod 2 ^ 32) 8 mod 2 ^ 32) with (Z.shiftl (q mod 2 ^ 24) 8).
    2:{ rewrite !Z.shiftl_mul_pow2 by lia. rewrite Z.mul_mod_idemp_l by lia. change (2 ^ 32) with (2 ^ 24 * 2 ^ 8).
        by rewrite Z.mul_mod_distr_r by lia. }
    rewrite lor_shift_add by lia. unfold u32. apply (Z.mod_unique_pos _ _ (q / 2 ^ 24)).
    + pose proof (Z.mod_pos_bound q (2 ^ 24) ltac:(lia)). lia.
    + pose proof (Z.div_mod q (2 ^ 24) ltac:(lia)). lia.
Qed.
