(* ===== verification/Tables.v ===== *)
(** * Keyed tables

    The service router, routine manager, DTC store, event store and security
    manager each keep a static array of records with a live count, found by
    linear search on a key and compacted with [memmove].  This file relates
    such a table to the finite map it stands for: search is lookup, append is
    insertion, compaction is deletion. *)

From S2P Require Import Prelude.

Class Keyed (A : Type) := key : A -> Z.

Section tables.
Context {A : Type} `{Keyed A}.
Implicit Types (a : list A) (x : A) (k : Z) (i n : nat).

Definition has_key (k : Z) (x : A) : bool := key x =? k.

(** [for (i = 0; i < n; i++) if (a[i].key == k) return i] *)
Definition find_key (k : Z) (n : nat) (a : list A) : option nat :=
  find_idx (has_key k) n a.

(** The map a table stands for, and the invariant under which it does. *)
Definition tbl (n : nat) (a : list A) : gmap Z A :=
  list_to_map ((fun x => (key x, x)) <$> take n a).
Definition tbl_uniq (n : nat) (a : list A) : Prop := NoDup (key <$> take n a).

Lemma find_key_Some k n a i :
  find_key k n a = Some i ->
  exists x, a !! i = Some x /\ (i < n)%nat /\ key x = k.
Proof.
  intros (x & ? & ? & Hk & _)%find_idx_Some. exists x. unfold has_key in Hk. tests. auto.
Qed.

Lemma find_key_None k n a :
  find_key k n a = None <-> k ∉ key <$> take n a.
Proof.
  unfold find_key. rewrite find_idx_None, Forall_forall.
  rewrite list_elem_of_fmap. unfold has_key. split.
  - intros Hf (x & -> & Hx). specialize (Hf x Hx). simpl in Hf. by rewrite Z.eqb_refl in Hf.
  - intros Hn x Hx. apply Z.eqb_neq. intros <-. apply Hn. eauto.
Qed.

Lemma find_key_uniq k n a i x :
  tbl_uniq n a -> a !! i = Some x -> (i < n)%nat -> key x = k ->
  find_key k n a = Some i.
Proof.
  intros Hu Hx Hi Hk. apply find_idx_Some. exists x. unfold has_key.
  split_and!; auto; [by apply Z.eqb_eq|]. intros j y Hj Hy. apply Z.eqb_neq. intros Hyk.
  assert (j = i); [|lia]. eapply (NoDup_lookup (key <$> take n a)); [done| |].
  - rewrite list_lookup_fmap, (proj2 (lookup_take_Some _ _ _ _)) by eauto with lia. done.
  - rewrite list_lookup_fmap, (proj2 (lookup_take_Some _ _ _ _)) by eauto with lia.
    simpl. congruence.
Qed.

Lemma tbl_keys n a : ((fun x => (key x, x)) <$> take n a).*1 = key <$> take n a.
Proof. by rewrite <- list_fmap_compose. Qed.

Lemma tbl_lookup k n a :
  tbl_uniq n a -> tbl n a !! k = find_key k n a ≫= (a !!.).
Proof.
  intros Hu. destruct (find_key k n a) as [i|] eqn:E; simpl.
  - apply find_key_Some in E as (x & Hx & Hi & <-). rewrite Hx.
    apply elem_of_list_to_map.
    + by rewrite tbl_keys.
    + apply list_elem_of_fmap. exists x. split; [done|]. apply list_elem_of_lookup.
      exists i. by apply lookup_take_Some.
  - apply find_key_None in E. apply not_elem_of_list_to_map. by rewrite tbl_keys.
Qed.

(** Appending a record with a fresh key. *)
Lemma take_push n a x :
  (n < length a)%nat -> take (S n) (<[n := x]> a) = take n a ++ [x].
Proof.
  intros Hn. rewrite (take_S_r _ _ x) by (apply list_lookup_insert_eq; done).
  by rewrite take_insert_ge by lia.
Qed.

Lemma tbl_push n a x :
  (n < length a)%nat -> tbl_uniq n a -> find_key (key x) n a = None ->
  tbl_uniq (S n) (<[n := x]> a) /\
  tbl (S n) (<[n := x]> a) = <[key x := x]> (tbl n a).
Proof.
  intros Hn Hu Hf%find_key_None. unfold tbl_uniq, tbl. rewrite take_push by done.
  rewrite !fmap_app. simpl. split.
  - apply NoDup_app. split_and!; [done| |apply NoDup_singleton].
    intros k Hk ->%list_elem_of_singleton. done.
  - rewrite list_to_map_snoc; [done|]. by rewrite tbl_keys.
Qed.

End tables.

(** A search depends on the keys alone. *)
Lemma find_key_keys {A B} `{Keyed A} `{Keyed B} k n (a : list A) (b : list B) :
  key <$> take n a = key <$> take n b -> find_key k n a = find_key k n b.
Proof.
  unfold find_key, find_idx. generalize (take n a) as l. generalize (take n b) as l'. clear.
  intros l' l. revert l'. induction l as [|u l IH]; intros [|v l'] Hl; try done.
  injection Hl as Huv Hl. simpl.
  replace (has_key k u) with (has_key k v) by (unfold has_key; congruence).
  case_decide; [done|]. specialize (IH l' Hl).
  by destruct (list_find (has_key k) l) as [[??]|], (list_find (has_key k) l') as [[??]|]; simplify_eq/=.
Qed.

Section updates.
Context {A : Type} `{Keyed A}.
Implicit Types (a : list A) (x : A) (k : Z) (i n : nat).

(** Overwriting a live record in place, keeping its key. *)
Lemma keys_update n a i x y :
  a !! i = Some y -> key x = key y ->
  key <$> take n (<[i := x]> a) = key <$> take n a.
Proof.
  intros Hy Hk. apply list_eq. intros j. rewrite !list_lookup_fmap.
  destruct (decide (j < n)%nat); [|by rewrite !lookup_take_ge by lia].
  rewrite !lookup_take_lt by done.
  destruct (decide (i = j)) as [->|].
  - rewrite list_lookup_insert_eq by (eapply lookup_lt_Some; eauto). rewrite Hy. simpl. congruence.
  - by rewrite list_lookup_insert_ne by done.
Qed.

Lemma find_key_update n a i x y k :
  a !! i = Some y -> key x = key y -> find_key k n (<[i := x]> a) = find_key k n a.
Proof.
  intros Hy Hk. by eapply find_key_keys, keys_update.
Qed.

Lemma tbl_update n a i x y :
  tbl_uniq n a -> a !! i = Some y -> (i < n)%nat -> key x = key y ->
  tbl_uniq n (<[i := x]> a) /\ tbl n (<[i := x]> a) = <[key x := x]> (tbl n a).
Proof.
  intros Hu Hy Hi Hk. assert (Hu' : tbl_uniq n (<[i:=x]> a))
    by (unfold tbl_uniq; by erewrite keys_update). split; [done|].
  apply map_eq. intros k. rewrite tbl_lookup by done.
  erewrite find_key_update by eauto. destruct (decide (k = key x)) as [->|Hne].
  - rewrite lookup_insert_eq, Hk. erewrite find_key_uniq by eauto. simpl.
    apply list_lookup_insert_eq. eapply lookup_lt_Some; eauto.
  - rewrite lookup_insert_ne, tbl_lookup by done.
    destruct (find_key k n a) as [j|] eqn:E; simpl; [|done].
    apply find_key_Some in E as (z & Hz & _ & <-). apply list_lookup_insert_ne.
    intros ->. congruence.
Qed.

(** Compaction after removal. *)
Lemma map_middle (l r : list A) x :
  NoDup (key <$> l ++ x :: r) ->
  NoDup (key <$> l ++ r) /\
  (list_to_map ((fun x => (key x, x)) <$> l ++ r) : gmap Z A) =
  delete (key x) (list_to_map ((fun x => (key x, x)) <$> l ++ x :: r)).
Proof.
  intros Hu.
  assert (Hp : key <$> (x :: l ++ r) ≡ₚ key <$> l ++ x :: r)
    by (apply fmap_Permutation, Permutation_middle).
  assert (Hu' := Hu). rewrite <- Hp in Hu'. apply NoDup_cons in Hu' as [Hx Hlr].
  split; [done|].
  rewrite (list_to_map_proper ((fun x => (key x, x)) <$> l ++ x :: r)
             ((fun x => (key x, x)) <$> x :: l ++ r)).
  - simpl. rewrite delete_insert_eq, delete_id; [done|].
    apply not_elem_of_list_to_map. by rewrite <- list_fmap_compose.
  - by rewrite <- list_fmap_compose.
  - apply fmap_Permutation. symmetry. apply Permutation_middle.
Qed.

Lemma tbl_remove k n a i :
  (n <= length a)%nat -> tbl_uniq n a -> find_key k n a = Some i ->
  tbl_uniq (n - 1) (memmove_down i n a) /\
  tbl (n - 1) (memmove_down i n a) = delete k (tbl n a).
Proof.
  intros Hn Hu (x & Hx & Hi & <-)%find_key_Some.
  unfold tbl_uniq, tbl in *. rewrite take_memmove_down, delete_take_drop by done.
  assert (Hd : take i (take n a) ++ x :: drop (S i) (take n a) = take n a)
    by (by apply take_drop_middle, lookup_take_Some).
  rewrite <- Hd in Hu. apply map_middle in Hu as [? Hm]. rewrite Hd in Hm. done.
Qed.

(** Removal that moves the last record into the gap. *)
Lemma tbl_swap_remove k n a i y :
  (n <= length a)%nat -> tbl_uniq n a -> find_key k n a = Some i -> a !! (n - 1)%nat = Some y ->
  tbl_uniq (n - 1) (<[i := y]> a) /\ tbl (n - 1) (<[i := y]> a) = delete k (tbl n a).
Proof.
  intros Hn Hu (x & Hx & Hi & <-)%find_key_Some Hy. unfold tbl_uniq, tbl in *.
  assert (Ha : take n a = take (n - 1) a ++ [y]).
  { replace n with (S (n - 1)) at 1 by lia. by apply take_S_r. }
  destruct (decide (i = n - 1)%nat) as [->|Hne].
  - assert (x = y) as -> by congruence. rewrite take_insert_ge by lia. rewrite Ha in Hu |- *.
    destruct (map_middle (take (n - 1) a) [] y Hu) as [H1 H2]. by rewrite app_nil_r in H1, H2.
  - assert (Hd : take n a = take i a ++ x :: drop (S i) (take (n - 1) a) ++ [y]).
    { rewrite Ha, <- (take_drop_middle (take (n - 1) a) i x) at 1 by (apply lookup_take_Some; split; [done|lia]).
      rewrite take_take, Nat.min_l by lia. by rewrite <- app_assoc. }
    assert (Hs : take (n - 1) (<[i := y]> a) = take i a ++ y :: drop (S i) (take (n - 1) a)).
    { rewrite take_insert_lt, insert_take_drop by (rewrite ?length_take; lia).
      by rewrite take_take, Nat.min_l by lia. }
    rewrite Hd in Hu |- *. destruct (map_middle _ _ _ Hu) as [H1 H2]. rewrite Hs.
    assert (Hp : take i a ++ drop (S i) (take (n - 1) a) ++ [y] ≡ₚ take i a ++ y :: drop (S i) (take (n - 1) a)).
    { apply Permutation_app_head. symmetry. apply Permutation_cons_append. }
    split; [by rewrite <- Hp|]. rewrite <- H2. symmetry. apply list_to_map_proper.
    + by rewrite <- list_fmap_compose.
    + by apply fmap_Permutation.
Qed.

(** Removing or rewriting records one by one, keys unchanged. *)
Section filter_map.
Context (f : A -> option A) (Hf : forall x y, f x = Some y -> key y = key x).

Lemma keys_omap_subset (l : list A) k : k ∈ key <$> omap f l -> k ∈ key <$> l.
Proof.
  rewrite !list_elem_of_fmap. intros (y & -> & Hy).
  apply list_elem_of_omap in Hy as (x & Hx & Hxy). exists x. split; [|done]. by apply Hf.
Qed.

Lemma keys_omap_NoDup (l : list A) : NoDup (key <$> l) -> NoDup (key <$> omap f l).
Proof.
  induction l as [|x l IH]; simpl; [done|]. intros [Hx Hl]%NoDup_cons.
  destruct (f x) as [y|] eqn:E; simpl; [|auto]. apply NoDup_cons. split; [|auto].
  rewrite (Hf x y E). intros ?%keys_omap_subset. done.
Qed.

Lemma map_omap (l : list A) :
  NoDup (key <$> l) ->
  list_to_map ((fun x => (key x, x)) <$> omap f l) =
  omap f (list_to_map ((fun x => (key x, x)) <$> l) : gmap Z A).
Proof.
  induction l as [|x l IH]; simpl; [intros _; by rewrite omap_empty|].
  intros [Hx Hl]%NoDup_cons.
  assert (Hn : (list_to_map ((fun x => (key x, x)) <$> l) : gmap Z A) !! key x = None)
    by (apply not_elem_of_list_to_map; by rewrite <- list_fmap_compose).
  destruct (f x) as [y|] eqn:E; simpl.
  - rewrite omap_insert, E, (Hf x y E). f_equal. by apply IH.
  - rewrite omap_insert, E. etrans; [by apply IH|]. symmetry. apply delete_id.
    by rewrite lookup_omap, Hn.
Qed.
End filter_map.

Lemma Forall_memmove_down (P : A -> Prop) i n a : Forall P a -> Forall P (memmove_down i n a).
Proof.
  intros HP. unfold memmove_down. apply Forall_app; split; [by apply Forall_take|].
  apply Forall_app; split; [by apply Forall_take, Forall_drop|by apply Forall_drop].
Qed.

(** A record satisfies a test exactly when the map has a value that does. *)
Lemma tbl_find_none P n a :
  tbl_uniq n a -> find_idx P n a = None <-> map_Forall (fun _ x => P x = false) (tbl n a).
Proof.
  intros Hu. rewrite find_idx_None. split.
  - intros Hf k x Hx. rewrite tbl_lookup in Hx by done. destruct (find_key k n a) as [i|] eqn:E; [|done].
    apply find_key_Some in E as (y & Hy & Hi & _). simpl in Hx. simplify_eq.
    apply (proj1 (Forall_lookup _ _) Hf i). by apply lookup_take_Some.
  - intros Hm. apply Forall_lookup. intros i x [Hx Hi]%lookup_take_Some. apply (Hm (key x)).
    rewrite tbl_lookup by done. by rewrite (find_key_uniq (key x) n a i x).
Qed.

Lemma tbl_size n a : tbl_uniq n a -> (n <= length a)%nat -> size (tbl n a) = n.
Proof.
  intros Hu Hn. unfold tbl. rewrite map_size_list_to_map by (by rewrite tbl_keys).
  rewrite length_fmap, length_take. lia.
Qed.

Lemma length_push n a x : length (<[n := x]> a) = length a.
Proof. apply length_insert. Qed.
End updates.

(** ** Parallel arrays

    A table whose records are split over two arrays that are searched in the
    first and moved together. *)
Section parallel.
Context {A B : Type} `{Keyed A}.
Implicit Types (a : list A) (b : list B) (k : Z) (i n : nat).

#[export] Instance pair_key : Keyed (A * B) := fun p => key p.1.

Lemma zip_keys n a b :
  length a = length b -> key <$> take n (zip a b) = key <$> take n a.
Proof.
  intros Hl. rewrite !fmap_take. f_equal. rewrite <- (fst_zip a b) at 2 by lia.
  by rewrite <- list_fmap_compose.
Qed.
Lemma find_key_zip k n a b :
  length a = length b -> find_key k n (zip a b) = find_key k n a.
Proof. intros Hl. by apply find_key_keys, zip_keys. Qed.
Lemma tbl_uniq_zip n a b : length a = length b -> tbl_uniq n (zip a b) <-> tbl_uniq n a.
Proof. intros Hl. unfold tbl_uniq. by rewrite zip_keys. Qed.
Lemma length_zip_same a b : length a = length b -> length (zip a b) = length a.
Proof. intros Hl. rewrite length_zip_with. lia. Qed.
Lemma zip_lookup a b i x y :
  a !! i = Some x -> b !! i = Some y -> zip a b !! i = Some (x, y).
Proof. intros Hx Hy. apply lookup_zip_with_Some. eauto. Qed.
Lemma zip_insert_r a b i x y :
  a !! i = Some x -> zip a (<[i := y]> b) = <[i := (x, y)]> (zip a b).
Proof. intros Hx. by rewrite (insert_zip_with pair), (list_insert_id a i x). Qed.
Lemma zip_memmove_down i n a b :
  length a = length b ->
  memmove_down i n (zip a b) = zip (memmove_down i n a) (memmove_down i n b).
Proof.
  intros Hl. unfold memmove_down. rewrite !zip_with_app; rewrite ?length_take, ?length_drop; try lia.
  by rewrite !zip_with_drop, !zip_with_take.
Qed.
End parallel.

#[export] Hint Resolve tbl_push tbl_remove tbl_update : cant.
