(* ===== verification/Slots.v ===== *)
(** * Slot arrays

    Timers, state callbacks, monitored tasks and buffers live in fixed arrays
    whose entries are in use or free, in any order, with a count that bounds
    the entries in use.  This file relates such an array to the finite map of the
    entries in use: filling a free slot is insertion, blanking one is deletion. *)

From S2P Require Import Prelude.

Class Slot (A : Type) := { slot_used : A -> bool; slot_key : A -> Z }.

Section slots.
Context {A : Type} `{Slot A}.
Implicit Types (l : list A) (x y : A) (i j n : nat).

Definition used l : list A := filter (fun x => slot_used x = true) l.
Definition slot_map l : gmap Z A := list_to_map ((fun x => (slot_key x, x)) <$> used l).
Definition slots_uniq l : Prop := NoDup (slot_key <$> used l).

(** Index of the first free entry. *)
Definition find_free n l : option nat := find_idx (fun x => negb (slot_used x)) n l.

(** [while (n > 0 && !l[n - 1].used) n--] *)
Fixpoint shrink (n : nat) (l : list A) : nat :=
  match n with
  | O => O
  | S k => match l !! k with
           | Some x => if slot_used x then n else shrink k l
           | None => shrink k l
           end
  end.

(** No entry from [n] on is in use. *)
Definition free_from n l : Prop := Forall (fun x => slot_used x = false) (drop n l).

Lemma used_insert l i x y :
  l !! i = Some y ->
  used l ++ (if slot_used x then [x] else []) ≡ₚ
  (if slot_used y then [y] else []) ++ used (<[i := x]> l).
Proof.
  intros Hy. pose proof (lookup_lt_Some _ _ _ Hy). rewrite insert_take_drop by done.
  rewrite <- (take_drop_middle l i y Hy) at 1. unfold used.
  rewrite !filter_app, !filter_cons.
  do 2 case_decide; destruct (slot_used x), (slot_used y); try done; solve_Permutation.
Qed.

Lemma used_lookup l i x : l !! i = Some x -> slot_used x = true -> x ∈ used l.
Proof.
  intros Hx Hu. apply list_elem_of_filter. split; [done|]. by eapply list_elem_of_lookup_2.
Qed.
Lemma used_inv l x : x ∈ used l -> exists i, l !! i = Some x /\ slot_used x = true.
Proof. intros [Hu [i Hi]%list_elem_of_lookup_1]%list_elem_of_filter. eauto. Qed.

Lemma used_keys l : ((fun x => (slot_key x, x)) <$> used l).*1 = slot_key <$> used l.
Proof. by rewrite <- list_fmap_compose. Qed.

Lemma slot_map_Some l i x :
  slots_uniq l -> l !! i = Some x -> slot_used x = true -> slot_map l !! slot_key x = Some x.
Proof.
  intros Hu Hx Ha. apply elem_of_list_to_map; [by rewrite used_keys|].
  apply list_elem_of_fmap. exists x. split; [done|]. by eapply used_lookup.
Qed.
Lemma slot_map_inv l k x :
  slots_uniq l -> slot_map l !! k = Some x ->
  exists i, l !! i = Some x /\ slot_used x = true /\ slot_key x = k.
Proof.
  intros Hu Hx. apply elem_of_list_to_map in Hx; [|by rewrite used_keys].
  apply list_elem_of_fmap in Hx as (y & [= -> ->] & (i & ? & ?)%used_inv). eauto.
Qed.
Lemma slot_map_None l k : slot_map l !! k = None <-> k ∉ slot_key <$> used l.
Proof. unfold slot_map. by rewrite <- not_elem_of_list_to_map, used_keys. Qed.

Lemma used_uniq_lt l i j x y :
  (i < j)%nat -> l !! i = Some x -> l !! j = Some y ->
  slot_used x = true -> slot_used y = true -> slot_key x = slot_key y -> ~ slots_uniq l.
Proof.
  intros Hlt Hx Hy Hux Huy Hk. unfold slots_uniq, used.
  rewrite <- (take_drop_middle l i x Hx), filter_app, filter_cons, decide_True, fmap_app,
    fmap_cons by done.
  intros (_ & _ & [Hn _]%NoDup_cons)%NoDup_app. apply Hn. rewrite Hk.
  apply list_elem_of_fmap. exists y. split; [done|]. apply list_elem_of_filter. split; [done|].
  apply list_elem_of_lookup. exists (j - S i)%nat. rewrite lookup_drop, <- Hy. f_equal. lia.
Qed.

Lemma used_uniq l i j x y :
  slots_uniq l -> l !! i = Some x -> l !! j = Some y ->
  slot_used x = true -> slot_used y = true -> slot_key x = slot_key y -> i = j.
Proof.
  intros Hu Hx Hy Hux Huy Hk. destruct (Nat.lt_total i j) as [Hlt|[|Hlt]]; [|done|];
    exfalso; eapply used_uniq_lt; eauto.
Qed.

(** Filling a free slot with a fresh key. *)
Lemma slot_fill l i x y :
  l !! i = Some y -> slot_used y = false -> slot_used x = true ->
  slots_uniq l -> slot_map l !! slot_key x = None ->
  slots_uniq (<[i := x]> l) /\ slot_map (<[i := x]> l) = <[slot_key x := x]> (slot_map l).
Proof.
  intros Hy Huy Hux Hu Hn%slot_map_None.
  assert (Hp := used_insert l i x y Hy). rewrite Hux, Huy in Hp. simpl in Hp.
  assert (Hu' : slots_uniq (<[i := x]> l)).
  { unfold slots_uniq. rewrite <- Hp, fmap_app. apply NoDup_app.
    split_and!; [done| |apply NoDup_singleton]. by intros k Hk ->%list_elem_of_singleton. }
  split; [done|]. unfold slot_map.
  rewrite (list_to_map_proper _ ((fun x => (slot_key x, x)) <$> used l ++ [x])).
  - rewrite fmap_app. simpl. rewrite list_to_map_snoc; [done|]. by rewrite used_keys.
  - by rewrite used_keys.
  - by rewrite Hp.
Qed.

(** Blanking a slot in use. *)
Lemma slot_blank l i x y :
  l !! i = Some y -> slot_used y = true -> slot_used x = false -> slots_uniq l ->
  slots_uniq (<[i := x]> l) /\ slot_map (<[i := x]> l) = delete (slot_key y) (slot_map l).
Proof.
  intros Hy Huy Hux Hu. assert (Hp := used_insert l i x y Hy). rewrite Hux, Huy in Hp.
  simpl in Hp. rewrite app_nil_r in Hp.
  assert (Hu' := Hu). unfold slots_uniq in Hu'. rewrite Hp in Hu'. simpl in Hu'.
  apply NoDup_cons in Hu' as [Hx Hu']. split; [done|]. unfold slot_map.
  rewrite (list_to_map_proper ((fun x => (slot_key x, x)) <$> used l)
             ((fun x => (slot_key x, x)) <$> y :: used (<[i := x]> l))).
  - simpl. rewrite delete_insert_eq, delete_id; [done|].
    apply not_elem_of_list_to_map. by rewrite used_keys.
  - by rewrite used_keys.
  - by rewrite Hp.
Qed.

(** Overwriting a slot in use, keeping its key. *)
Lemma slot_update l i x y :
  l !! i = Some y -> slot_used y = true -> slot_used x = true -> slot_key x = slot_key y ->
  slots_uniq l ->
  slots_uniq (<[i := x]> l) /\ slot_map (<[i := x]> l) = <[slot_key x := x]> (slot_map l).
Proof.
  intros Hy Huy Hux Hk Hu. assert (Hp := used_insert l i x y Hy). rewrite Hux, Huy in Hp.
  simpl in Hp.
  assert (Hids : slot_key <$> used (<[i := x]> l) ≡ₚ slot_key <$> used l).
  { apply (Permutation_cons_inv (a := slot_key y)).
    change (slot_key y :: (slot_key <$> used (<[i:=x]> l)))
      with (slot_key <$> y :: used (<[i:=x]> l)).
    rewrite <- Hp, fmap_app. simpl. rewrite Permutation_app_comm. simpl. by rewrite Hk. }
  assert (Hu' : slots_uniq (<[i := x]> l)) by (unfold slots_uniq; by rewrite Hids).
  split; [done|]. apply map_eq. intros k. destruct (decide (k = slot_key x)) as [->|Hne].
  - rewrite lookup_insert_eq. eapply slot_map_Some; [done| |done].
    apply list_lookup_insert_eq. by eapply lookup_lt_Some.
  - rewrite lookup_insert_ne by done. destruct (slot_map l !! k) as [z|] eqn:Ez.
    + apply slot_map_inv in Ez as (j & Hj & Hz & <-); [|done].
      eapply slot_map_Some; [done| |done]. rewrite list_lookup_insert_ne; [done|].
      intros ->. congruence.
    + apply slot_map_None. rewrite Hids. by apply slot_map_None.
Qed.

Lemma shrink_le n l : (shrink n l <= n)%nat.
Proof. induction n as [|n IH]; simpl; [done|]. destruct (l !! n) as [t|]; [destruct (slot_used t)|]; lia. Qed.

Lemma shrink_free n l : free_from n l -> free_from (shrink n l) l.
Proof.
  unfold free_from. induction n as [|n IH]; simpl; [done|]. intros Hd.
  destruct (l !! n) as [t|] eqn:E; [destruct (slot_used t) eqn:Et; [done|]|]; apply IH.
  - rewrite (drop_S _ _ _ E). by constructor.
  - rewrite drop_ge; [done|]. by apply lookup_ge_None.
Qed.

Lemma free_from_used n l i x :
  free_from n l -> l !! i = Some x -> slot_used x = true -> (i < n)%nat.
Proof.
  intros Hd Hx Hu. apply Nat.nle_gt. intros Hge. unfold free_from in Hd.
  rewrite Forall_lookup in Hd. specialize (Hd (i - n)%nat x). rewrite lookup_drop in Hd.
  replace (n + (i - n))%nat with i in Hd by lia. specialize (Hd Hx). congruence.
Qed.
Lemma free_from_mono n n' l : (n <= n')%nat -> free_from n l -> free_from n' l.
Proof.
  intros Hn Hd. unfold free_from in *. replace n' with (n + (n' - n))%nat by lia.
  rewrite <- drop_drop. by apply Forall_drop.
Qed.
Lemma free_from_insert n i x l :
  (i < n)%nat \/ slot_used x = false -> free_from n l -> free_from n (<[i := x]> l).
Proof.
  unfold free_from. intros Hx Hd. destruct (decide (i < n)%nat); [by rewrite drop_insert_lt|].
  rewrite drop_insert_ge by lia. apply Forall_insert; [done|]. destruct Hx; [lia|done].
Qed.

Lemma size_slot_map l : slots_uniq l -> size (slot_map l) = length (used l).
Proof.
  intros Hu. unfold slot_map. rewrite map_size_list_to_map by (by rewrite used_keys).
  by rewrite length_fmap.
Qed.

(** The search for a free entry fails exactly when the map is full. *)
Lemma find_free_size n l :
  slots_uniq l -> length l = n ->
  match find_free n l with
  | Some i => (size (slot_map l) < n)%nat /\ (i < n)%nat /\
              exists x, l !! i = Some x /\ slot_used x = false
  | None => size (slot_map l) = n
  end.
Proof.
  intros Hu Hl. rewrite size_slot_map by done. unfold find_free.
  destruct (find_idx _ _ _) as [i|] eqn:E.
  - apply find_idx_Some in E as (x & Hx & Hi & Ha & _). tests. split_and!; [|done|eauto].
    rewrite <- Hl, <- (take_drop_middle l i x Hx). unfold used.
    rewrite filter_app, filter_cons, decide_False, !length_app by congruence. simpl.
    pose proof (length_filter (fun x => slot_used x = true) (take i l)).
    pose proof (length_filter (fun x => slot_used x = true) (drop (S i) l)). lia.
  - apply find_idx_None in E. rewrite take_ge in E by lia. rewrite <- Hl. unfold used. f_equal.
    revert E. clear. induction 1 as [|x l Hx Hl IH]; [done|]. tests.
    rewrite filter_cons, decide_True by done. by rewrite IH.
Qed.

Lemma used_free l : Forall (fun x => slot_used x = false) l -> used l = [].
Proof.
  induction 1 as [|x l Hx Hl IH]; [done|]. unfold used in *.
  by rewrite filter_cons, decide_False by congruence.
Qed.
End slots.
