(* ===== verification/Registry.v ===== *)
(** * Tables of callbacks

    Handlers and log callbacks are registered in a fixed array of slots with a count: a known
    address gets a new context, another takes the first free slot, and removing one blanks
    its slot and lowers the count past the free slots at the end.  An address is never 0 and
    a slot in use is one whose address is not 0. *)

From S2P Require Import Prelude Slots.

Section registry.
Context {A : Type} `{Slot A} (size : nat).
Implicit Types (l : list A) (x y : A) (n : nat).

Record table_wf l n : Prop := {
  tb_length : length l = size;
  tb_count : (n <= size)%nat;
  tb_uniq : slots_uniq l;
  tb_free : free_from n l;
  tb_slots : Forall (fun x => slot_used x = negb (slot_key x =? 0)) l }.

Lemma table_find l n h : table_wf l n -> h <> 0 ->
  match find_idx (fun x => slot_key x =? h) n l with
  | Some i => exists x, l !! i = Some x /\ (i < n)%nat /\ slot_used x = true /\ slot_key x = h /\ slot_map l !! h = Some x
  | None => slot_map l !! h = None
  end.
Proof.
  intros [Hl Hc Hu Hf Hs] Hh. destruct (find_idx _ _ _) as [i|] eqn:E.
  - apply find_idx_Some in E as (x & Hx & Hi & Hk & _). tests. exists x.
    assert (Ha : slot_used x = true).
    { rewrite (proj1 (Forall_lookup _ _) Hs i x Hx), Hk. by rewrite (proj2 (Z.eqb_neq _ _)). }
    split_and!; try done. rewrite <- Hk. exact (slot_map_Some l i x Hu Hx Ha).
  - destruct (slot_map l !! h) as [x|] eqn:Em; [|done]. exfalso.
    apply slot_map_inv in Em as (i & Hx & Ha & Hk); [|done]. apply find_idx_None in E.
    assert (Hi : (i < n)%nat) by (by eapply free_from_used).
    rewrite Forall_lookup in E. specialize (E i x ltac:(by apply lookup_take_Some)). simpl in E.
    by rewrite Hk, Z.eqb_refl in E.
Qed.
Lemma table_blank l n i x blank : table_wf l n -> l !! i = Some x -> slot_used x = true -> slot_used blank = false -> slot_key blank = 0 ->
  table_wf (<[i := blank]> l) (shrink n (<[i := blank]> l)) /\ slot_map (<[i := blank]> l) = delete (slot_key x) (slot_map l).
Proof.
  intros [Hl Hc Hu Hf Hs] Hx Ha Hb Hk. destruct (slot_blank l i blank x) as [Hu' Hm']; [done..|].
  split; [|done]. constructor; [by rewrite length_insert| |done| |apply Forall_insert; [done|by rewrite Hb, Hk]].
  - pose proof (shrink_le n (<[i := blank]> l)). lia.
  - apply shrink_free. apply free_from_insert; [by right|done].
Qed.
Lemma table_update l n i x y : table_wf l n -> l !! i = Some x -> slot_used x = true -> slot_used y = true -> slot_key y = slot_key x ->
  table_wf (<[i := y]> l) n /\ slot_map (<[i := y]> l) = <[slot_key x := y]> (slot_map l).
Proof.
  intros [Hl Hc Hu Hf Hs] Hx Ha Hy Hk. destruct (slot_update l i y x) as [Hu' Hm']; [done..|]. rewrite Hk in Hm'. split; [|done].
  assert (Hi : (i < n)%nat) by (by eapply free_from_used).
  constructor; [by rewrite length_insert|done|done|apply free_from_insert; [by left|done]|].
  apply Forall_insert; [done|]. pose proof (proj1 (Forall_lookup _ _) Hs i x Hx) as Hax. simpl in Hax. rewrite Hk. congruence.
Qed.
Lemma table_fill l n i x y : table_wf l n -> l !! i = Some x -> slot_used x = false -> slot_used y = true -> slot_key y <> 0 ->
  slot_map l !! slot_key y = None ->
  table_wf (<[i := y]> l) (if (n <=? i)%nat then S i else n) /\ slot_map (<[i := y]> l) = <[slot_key y := y]> (slot_map l).
Proof.
  intros [Hl Hc Hu Hf Hs] Hx Ha Hy Hh Hn. destruct (slot_fill l i y x) as [Hu' Hm']; [done..|]. split; [|done].
  pose proof (lookup_lt_Some _ _ _ Hx).
  constructor; [by rewrite length_insert|destruct (n <=? i)%nat; lia|done| |].
  - apply free_from_insert.
    + left. destruct (n <=? i)%nat eqn:E; tests; lia.
    + eapply free_from_mono; [|exact Hf]. destruct (n <=? i)%nat eqn:E; tests; lia.
  - apply Forall_insert; [done|]. by rewrite (proj2 (Z.eqb_neq _ _)).
Qed.

(** The slots in use lie below the count. *)
Lemma table_used_take l n : table_wf l n -> used (take n l) = used l.
Proof.
  intros [_ _ _ Hf _]. rewrite <- (take_drop n l) at 2. unfold used. rewrite filter_app. pose proof (used_free (drop n l) Hf) as Hu.
  unfold used in Hu. by rewrite Hu, app_nil_r.
Qed.
End registry.
