(* ===== verification/Machine.v ===== *)
(** * Processor, critical sections and software timers

    [src/runtime/os/critical.c] and [src/runtime/utils/timer.c], the two
    services every stateful component of the diagnostic runtime is built on,
    and the effect monad those components are written in.

    The processor is one bit of state, the PRIMASK register: [__get_PRIMASK],
    [__disable_irq] and [__enable_irq] are single instructions that read, set
    and clear it.  The statics of [timer.c] are fields of [Machine].  Calls
    that leave the program (callbacks, platform functions) are appended to
    [trace]; they do not re-enter the component that makes them. *)

From S2P Require Import Prelude.

(** A call to code outside the program, with the values passed to it. *)
Inductive Call := call (callee : string) (args : list Z).

#[export] Instance Call_eq_dec : EqDecision Call.
Proof. solve_decision. Defined.

Record CriticalSection := mkCS { saved_primask : Z; is_locked : bool }.
#[export] Instance eta_CriticalSection : Eta CriticalSection :=
  fun c => mkCS (saved_primask c) (is_locked c).
#[export] Instance CriticalSection_eq_dec : EqDecision CriticalSection.
Proof. solve_decision. Defined.

(** A zero-initialised critical section: C static storage and [memset 0]. *)
Definition cs_zero : CriticalSection := mkCS 0 false.

Record Machine := mkMachine {
  primask : bool;                     (* interrupts masked *)
  system_ticks : Z;                   (* timer_state.system_ticks *)
  tick_frequency_hz : Z;              (* timer_state.tick_frequency_hz *)
  timer_critical : CriticalSection;   (* timer_state.critical *)
  timer_initialized : bool;           (* timer_state.initialized *)
  trace : list Call
}.
#[export] Instance eta_Machine : Eta Machine := fun m =>
  mkMachine (primask m) (system_ticks m) (tick_frequency_hz m)
    (timer_critical m) (timer_initialized m) (trace m).

(** Power-on: interrupts enabled, the initialisers of [timer_state]. *)
Definition boot : Machine := mkMachine false 0 1000 cs_zero false [].

(** ** The effect monad

    [M S A]: a function of a component with statics [S]; [None] is undefined
    behaviour of the C program (a NULL or out-of-bounds access). *)

Definition M (S A : Type) : Type := S -> Machine -> option (A * S * Machine).

#[export] Instance M_ret S : MRet (M S) := fun A a s m => Some (a, s, m).
#[export] Instance M_bind S : MBind (M S) := fun A B f c s m =>
  match c s m with Some (a, s', m') => f a s' m' | None => None end.

Definition get {S} : M S S := fun s m => Some (s, s, m).
Definition modify {S} (f : S -> S) : M S unit := fun s m => Some (tt, f s, m).
Definition fault {S A} : M S A := fun _ _ => None.
Definition on_machine {S A} (f : Machine -> A * Machine) : M S A :=
  fun s m => let '(a, m') := f m in Some (a, s, m').
Definition emit {S} (callee : string) (args : list Z) : M S unit :=
  on_machine (fun m => (tt, m <| trace ::= fun t => t ++ [call callee args] |>)).
(** A callback through a function pointer that may be NULL. *)
Definition callback {S} (registered : bool) (callee : string) (args : list Z) : M S unit :=
  if registered then emit callee args else mret tt.
(** Run an operation of a sub-component. *)
Definition zoom {S T A} (g : S -> T) (p : T -> S -> S) (c : M T A) : M S A :=
  fun s m => match c (g s) m with
             | Some (a, t, m') => Some (a, p t s, m')
             | None => None
             end.

(** Total-correctness weakest precondition: the run is defined and its
    outcome satisfies [Q]. *)
Definition wp {S A} (c : M S A) (Q : A -> S -> Machine -> Prop) (s : S) (m : Machine) : Prop :=
  match c s m with Some (a, s', m') => Q a s' m' | None => False end.

Section wp.
Context {S : Type}.
Implicit Types (s : S) (m : Machine).

Lemma wp_ret {A} (a : A) Q s m : Q a s m -> wp (mret a) Q s m.
Proof. done. Qed.
Lemma wp_bind {A B} (c : M S A) (f : A -> M S B) Q s m :
  wp c (fun a s' m' => wp (f a) Q s' m') s m -> wp (c ≫= f) Q s m.
Proof. unfold wp, mbind, M_bind. destruct (c s m) as [[[a s'] m']|]; done. Qed.
Lemma wp_bind_assoc {A B C} (c : M S A) (f : A -> M S B) (g : B -> M S C) Q s m :
  wp ((c ≫= f) ≫= g) Q s m -> wp (c ≫= fun a => f a ≫= g) Q s m.
Proof. unfold wp, mbind, M_bind. by destruct (c s m) as [[[a s'] m']|]. Qed.
Lemma wp_bind_flat {A B C} (c : M S A) (f : A -> M S B) (g : B -> M S C) Q s m :
  wp (c ≫= fun a => f a ≫= g) Q s m -> wp ((c ≫= f) ≫= g) Q s m.
Proof. unfold wp, mbind, M_bind. by destruct (c s m) as [[[a s'] m']|]. Qed.
Lemma wp_mono {A} (c : M S A) (Q Q' : A -> S -> Machine -> Prop) s m :
  wp c Q s m -> (forall a s' m', Q a s' m' -> Q' a s' m') -> wp c Q' s m.
Proof. unfold wp. destruct (c s m) as [[[a s'] m']|]; auto. Qed.
Lemma wp_and {A} (c : M S A) (Q Q' : A -> S -> Machine -> Prop) s m :
  wp c Q s m -> wp c Q' s m -> wp c (fun a s' m' => Q a s' m' /\ Q' a s' m') s m.
Proof. unfold wp. destruct (c s m) as [[[a s'] m']|]; auto. Qed.
Lemma wp_get Q s m : Q s s m -> wp get Q s m.
Proof. done. Qed.
Lemma wp_modify f Q s m : Q tt (f s) m -> wp (modify f) Q s m.
Proof. done. Qed.
Lemma wp_emit n l Q s m :
  Q tt s (m <| trace ::= fun t => t ++ [call n l] |>) -> wp (emit n l) Q s m.
Proof. done. Qed.
(** Undefined behaviour after a defined prefix. *)
Lemma undefined_bind {A B} (c : M S A) (f : A -> M S B) s m :
  wp c (fun a s' m' => f a s' m' = None) s m -> (c ≫= f) s m = None.
Proof. unfold wp, mbind, M_bind. destruct (c s m) as [[[a s'] m']|]; done. Qed.
Lemma undefined_bind' {A B} (c : M S A) (f : A -> M S B) s m :
  c s m = None -> (c ≫= f) s m = None.
Proof. unfold mbind, M_bind. by intros ->. Qed.
Lemma wp_run {A} (c : M S A) Q s m :
  wp c Q s m -> exists a s' m', c s m = Some (a, s', m') /\ Q a s' m'.
Proof. unfold wp. destruct (c s m) as [[[a s'] m']|]; naive_solver. Qed.
End wp.

Lemma wp_zoom {S T A} (g : S -> T) p (c : M T A) Q s m :
  wp c (fun a t m' => Q a (p t s) m') (g s) m -> wp (zoom g p c) Q s m.
Proof. unfold wp, zoom. by destruct (c (g s) m) as [[[a t] m']|]. Qed.

(** ** os/critical.c

    Every caller passes the address of a static, so the [!cs] guards of
    [init_critical], [enter_critical] and [exit_critical] never fire. *)

Definition init_critical (cs : CriticalSection) : CriticalSection :=
  cs <| saved_primask := 0 |> <| is_locked := false |>.

Definition enter_critical (cs : CriticalSection) (m : Machine) : CriticalSection * Machine :=
  let cs := cs <| saved_primask := Z.b2z (primask m) |> in
  let m := m <| primask := true |> in
  (cs <| is_locked := true |>, m).

Definition exit_critical (cs : CriticalSection) (m : Machine) : CriticalSection * Machine :=
  if negb (is_locked cs) then (cs, m)
  else
    let m := if saved_primask cs =? 0 then m <| primask := false |> else m in
    (cs <| is_locked := false |>, m).

Definition is_in_critical (cs : option CriticalSection) : bool :=
  match cs with Some c => is_locked c | None => false end.

(** A component whose statics contain a [CriticalSection]. *)
Class HasCritical (S : Type) := {
  crit : S -> CriticalSection;
  set_crit : CriticalSection -> S -> S;
  crit_set_crit c s : crit (set_crit c s) = c;
  set_crit_set_crit c d s : set_crit c (set_crit d s) = set_crit c s;
  set_crit_crit s : set_crit (crit s) s = s
}.

Definition enter {S} `{HasCritical S} : M S unit := fun s m =>
  let '(c, m') := enter_critical (crit s) m in Some (tt, set_crit c s, m').
Definition exit {S} `{HasCritical S} : M S unit := fun s m =>
  let '(c, m') := exit_critical (crit s) m in Some (tt, set_crit c s, m').
Definition init_crit {S} `{HasCritical S} : M S unit :=
  modify (fun s => set_crit (init_critical (crit s)) s).

(** ** utils/timer.c *)

Record Timer := mkTimer { start_time : Z; timeout : Z; running : bool }.
#[export] Instance eta_Timer : Eta Timer :=
  fun t => mkTimer (start_time t) (timeout t) (running t).
#[export] Instance Timer_eq_dec : EqDecision Timer.
Proof. solve_decision. Defined.
Definition timer_zero : Timer := mkTimer 0 0 false.

Definition timer_enter (m : Machine) : Machine :=
  let '(c, m') := enter_critical (timer_critical m) m in m' <| timer_critical := c |>.
Definition timer_exit (m : Machine) : Machine :=
  let '(c, m') := exit_critical (timer_critical m) m in m' <| timer_critical := c |>.

Definition SysTick_Handler (m : Machine) : Machine :=
  timer_exit ((timer_enter m) <| system_ticks ::= fun t => u32 (t + 1) |>).

(** [SystemCoreClock] is the system configuration's variable. *)
Definition timer_init (SystemCoreClock : Z) (m : Machine) : Machine :=
  if timer_initialized m then m
  else
    let m := m <| timer_critical ::= init_critical |> in
    let cpu_freq := SystemCoreClock in
    let m := m <| trace ::= fun t =>
               t ++ [call "SysTick_Config" [cpu_freq / tick_frequency_hz m]] |> in
    m <| timer_initialized := true |>.

Definition get_system_time_ms (m : Machine) : Z * Machine :=
  let m := timer_enter m in
  let ticks := system_ticks m in
  let m := timer_exit m in
  (ticks, m).

Definition timer_start (timer : Timer) (timeout_ms : Z) (m : Machine) : Timer * Machine :=
  let m := timer_enter m in
  let timer := timer <| start_time := system_ticks m |>
                     <| timeout := timeout_ms |> <| running := true |> in
  (timer, timer_exit m).

Definition timer_stop (timer : Timer) : Timer := timer <| running := false |>.

Definition timer_expired (timer : Timer) (m : Machine) : bool * Machine :=
  if negb (running timer) then (false, m)
  else
    let m := timer_enter m in
    let current_time := system_ticks m in
    let m := timer_exit m in
    (timeout timer <=? u32 (current_time - start_time timer), m).

Definition timer_remaining (timer : Timer) (m : Machine) : Z * Machine :=
  if negb (running timer) then (0, m)
  else
    let m := timer_enter m in
    let current_time := system_ticks m in
    let m := timer_exit m in
    let elapsed := u32 (current_time - start_time timer) in
    (if timeout timer <=? elapsed then 0 else timeout timer - elapsed, m).

(** The timer calls as effects of a component. *)
Definition now {S} : M S Z := on_machine get_system_time_ms.
Definition timer_init_m {S} (SystemCoreClock : Z) : M S unit :=
  on_machine (fun m => (tt, timer_init SystemCoreClock m)).
Definition start {S} (f : S -> Timer) (p : Timer -> S -> S) (timeout_ms : Z) : M S unit :=
  s ← get;
  t ← on_machine (timer_start (f s) timeout_ms);
  modify (p t).
Definition expired {S} (f : S -> Timer) : M S bool :=
  s ← get; on_machine (timer_expired (f s)).
Definition remaining {S} (f : S -> Timer) : M S Z :=
  s ← get; on_machine (timer_remaining (f s)).

(** The wait loop of [timer_delay_ms].  [wakes] lists, for each [__WFE], how
    many tick interrupts were delivered while it slept; [None] when the list
    ends before the loop does. *)
Fixpoint ticks_delivered (n : nat) (m : Machine) : Machine :=
  match n with
  | O => m
  | S n => if primask m then m else ticks_delivered n (SysTick_Handler m)
  end.
Fixpoint timer_delay_loop (start delay_ms : Z) (wakes : list nat) (m : Machine)
  : option Machine :=
  let '(now, m) := get_system_time_ms m in
  if u32 (now - start) <? delay_ms then
    match wakes with
    | [] => None
    | n :: wakes => timer_delay_loop start delay_ms wakes (ticks_delivered n m)
    end
  else Some m.
Definition timer_delay_ms (delay_ms : Z) (wakes : list nat) (m : Machine) : option Machine :=
  let '(start, m) := get_system_time_ms m in
  timer_delay_loop start delay_ms wakes m.

(** ** Lemmas *)

(** The machine after a timer call: [timer_state.critical] records the mask
    it saw, nothing else changes. *)
Definition settle (m : Machine) : Machine :=
  m <| timer_critical := mkCS (Z.b2z (primask m)) false |>.

Lemma timer_section m : timer_exit (timer_enter m) = settle m.
Proof. by destruct m as [[] ?????]. Qed.
Lemma SysTick_Handler_spec m :
  SysTick_Handler m = settle (m <| system_ticks ::= fun t => u32 (t + 1) |>).
Proof. by destruct m as [[] ?????]. Qed.
Lemma get_system_time_ms_spec m : get_system_time_ms m = (system_ticks m, settle m).
Proof. by destruct m as [[] ?????]. Qed.
Lemma timer_start_spec t d m : timer_start t d m = (mkTimer (system_ticks m) d true, settle m).
Proof. by destruct m as [[] ?????]. Qed.
Lemma timer_expired_spec t m :
  timer_expired t m =
  (running t && (timeout t <=? u32 (system_ticks m - start_time t)),
   if running t then settle m else m).
Proof. by destruct t as [?? []], m as [[] ?????]. Qed.
Lemma timer_remaining_spec t m :
  timer_remaining t m =
  (if running t && negb (timeout t <=? u32 (system_ticks m - start_time t))
   then timeout t - u32 (system_ticks m - start_time t) else 0,
   if running t then settle m else m).
Proof. destruct t as [?? []], m as [[] ?????]; cbn; try done; by destruct (_ <=? _). Qed.

Lemma settle_settle m : settle (settle m) = settle m.
Proof. done. Qed.

Create Rewrite HintDb machine.
#[export] Hint Rewrite SysTick_Handler_spec get_system_time_ms_spec timer_start_spec
  timer_expired_spec timer_remaining_spec settle_settle : machine.

(** Weakest preconditions of the timer calls. *)
Section wp_timer.
Context {S : Type}.
Implicit Types (s : S) (m : Machine).

Lemma wp_now Q s m : Q (system_ticks m) s (settle m) -> wp now Q s m.
Proof. unfold wp, now, on_machine. by rewrite get_system_time_ms_spec. Qed.
Lemma wp_start f p d Q s m :
  Q tt (p (mkTimer (system_ticks m) d true) s) (settle m) -> wp (start f p d) Q s m.
Proof.
  intros HQ. unfold start. apply wp_bind, wp_get, wp_bind.
  unfold wp at 1, on_machine. rewrite timer_start_spec. by apply wp_modify.
Qed.
Lemma wp_expired f Q s m :
  (forall tc, Q (running (f s) && (timeout (f s) <=? u32 (system_ticks m - start_time (f s)))) s
    (m <| timer_critical := tc |>)) -> wp (expired f) Q s m.
Proof.
  intros HQ. unfold expired. apply wp_bind, wp_get.
  unfold wp, on_machine. rewrite timer_expired_spec.
  destruct (running (f s)); [apply HQ|]. specialize (HQ (timer_critical m)). by destruct m.
Qed.
Lemma wp_timer_init clk Q s m :
  (forall tr, Q tt s (m <| timer_critical := if timer_initialized m then timer_critical m else cs_zero |>
               <| timer_initialized := true |> <| trace := trace m ++ tr |>)) ->
  wp (timer_init_m clk) Q s m.
Proof.
  intros HQ. unfold wp, timer_init_m, on_machine, timer_init.
  destruct (timer_initialized m) eqn:E.
  - specialize (HQ []). rewrite app_nil_r in HQ. destruct m; simpl in *. by subst.
  - specialize (HQ [call "SysTick_Config" [clk / tick_frequency_hz m]]). by destruct m.
Qed.
Lemma wp_callback b n l Q s m :
  Q tt s (m <| trace ::= fun t => t ++ if b : bool then [call n l] else [] |>) ->
  wp (callback b n l) Q s m.
Proof.
  intros HQ. destruct b; [done|]. apply wp_ret. simpl in HQ. rewrite app_nil_r in HQ.
  by destruct m.
Qed.
End wp_timer.

(** [n] consecutive tick interrupts. *)
Lemma ticks_after n m :
  is_u32 (system_ticks m) ->
  system_ticks (Nat.iter n SysTick_Handler m) = u32 (system_ticks m + Z.of_nat n).
Proof.
  intros Hm. induction n as [|n IH]; simpl Nat.iter.
  - by rewrite Z.add_0_r, u32_small.
  - rewrite SysTick_Handler_spec. cbn. rewrite IH. unfold u32.
    rewrite Zplus_mod_idemp_l. f_equal. lia.
Qed.

Lemma ticks_primask n m : primask (Nat.iter n SysTick_Handler m) = primask m.
Proof. induction n as [|n IH]; [done|]. rewrite Nat.iter_succ, SysTick_Handler_spec. exact IH. Qed.

(** Entering and leaving a component's section. *)
Section sections.
Context {S : Type} `{HasCritical S}.

Lemma wp_enter Q (s : S) m :
  Q tt (set_crit (mkCS (Z.b2z (primask m)) true) s) (m <| primask := true |>) ->
  wp enter Q s m.
Proof. done. Qed.

Lemma wp_exit (b : bool) Q (s : S) m :
  crit s = mkCS (Z.b2z b) true -> primask m = true ->
  Q tt (set_crit (mkCS (Z.b2z b) false) s) (m <| primask := b |>) ->
  wp exit Q s m.
Proof.
  intros Hc Hm HQ. unfold wp, exit. rewrite Hc.
  destruct m as [pm ?????]; simpl in Hm; subst pm.
  by destruct b.
Qed.

(** An unlocked section makes [exit_critical] a no-op: the mask is not
    restored.  This is the state [init_critical] and [memset] leave behind. *)
Lemma wp_exit_unlocked Q (s : S) m :
  is_locked (crit s) = false -> Q tt s m -> wp exit Q s m.
Proof.
  intros Hc HQ. unfold wp, exit, exit_critical. rewrite Hc; simpl.
  by rewrite set_crit_crit.
Qed.
End sections.

(** ** What holds if a computation returns

    Functions outside the repository may do anything with their own state, not returning
    included; [wlp] says what holds of the outcome, if there is one. *)

Definition wlp {S A} (c : M S A) (Q : A -> S -> Machine -> Prop) (s : S) (m : Machine) : Prop :=
  match c s m with Some (a, s', m') => Q a s' m' | None => True end.

Section wlp.
Context {S : Type}.
Implicit Types (s : S) (m : Machine).

Lemma wlp_ret {A} (a : A) Q s m : Q a s m -> wlp (mret a) Q s m.
Proof. done. Qed.
Lemma wlp_bind {A B} (c : M S A) (f : A -> M S B) Q s m : wlp c (fun a s' m' => wlp (f a) Q s' m') s m -> wlp (c ≫= f) Q s m.
Proof. unfold wlp, mbind, M_bind. by destruct (c s m) as [[[a s'] m']|]. Qed.
Lemma wlp_get Q s m : Q s s m -> wlp get Q s m.
Proof. done. Qed.
Lemma wlp_modify f Q s m : Q tt (f s) m -> wlp (modify f) Q s m.
Proof. done. Qed.
Lemma wlp_fault {A} (Q : A -> S -> Machine -> Prop) s m : wlp fault Q s m.
Proof. done. Qed.
Lemma wlp_mono {A} (c : M S A) (Q Q' : A -> S -> Machine -> Prop) s m :
  wlp c Q s m -> (forall a s' m', Q a s' m' -> Q' a s' m') -> wlp c Q' s m.
Proof. unfold wlp. destruct (c s m) as [[[a s'] m']|]; auto. Qed.
Lemma wlp_wp {A} (c : M S A) Q s m : wp c Q s m -> wlp c Q s m.
Proof. unfold wp, wlp. by destruct (c s m) as [[[a s'] m']|]. Qed.
Lemma wlp_zoom {T A} (g : S -> T) p (c : M T A) Q s m : wlp c (fun a t m' => Q a (p t s) m') (g s) m -> wlp (zoom g p c) Q s m.
Proof. unfold wlp, zoom. by destruct (c (g s) m) as [[[a t] m']|]. Qed.

(** A computation that leaves a part of the state alone. *)
Definition keeps {A B} (f : S -> B) (c : M S A) : Prop := forall s m, wlp c (fun _ s' _ => f s' = f s) s m.
Context {B : Type} (f : S -> B).
Lemma keeps_ret {A} (a : A) : keeps f (mret a).
Proof. intros s m. done. Qed.
Lemma keeps_get : keeps f get.
Proof. intros s m. done. Qed.
Lemma keeps_fault {A} : keeps f (@fault S A).
Proof. intros s m. done. Qed.
Lemma keeps_machine {A} (g : Machine -> A * Machine) : keeps f (on_machine g).
Proof. intros s m. unfold wlp, on_machine. by destruct (g m). Qed.
Lemma keeps_emit n l : keeps f (emit n l).
Proof. apply keeps_machine. Qed.
Lemma keeps_callback b n l : keeps f (callback b n l).
Proof. destruct b; [apply keeps_emit|apply keeps_ret]. Qed.
Lemma keeps_modify g : (forall s, f (g s) = f s) -> keeps f (modify g).
Proof. intros Hg s m. apply Hg. Qed.
Lemma keeps_bind {A C} (c : M S A) (k : A -> M S C) : keeps f c -> (forall a, keeps f (k a)) -> keeps f (c ≫= k).
Proof. intros Hc Hk s m. apply wlp_bind. eapply wlp_mono; [apply Hc|]. intros a s' m' Hs. eapply wlp_mono; [apply Hk|]. intros. congruence. Qed.
End wlp.
Lemma keeps_enter {S B} `{HasCritical S} (f : S -> B) : (forall k s, f (set_crit k s) = f s) -> keeps f enter.
Proof. intros Hf s m. unfold wlp, enter. destruct (enter_critical (crit s) m). apply Hf. Qed.
Lemma keeps_exit {S B} `{HasCritical S} (f : S -> B) : (forall k s, f (set_crit k s) = f s) -> keeps f exit.
Proof. intros Hf s m. unfold wlp, exit. destruct (exit_critical (crit s) m). apply Hf. Qed.

(** One step of symbolic execution; branches are split with their condition
    in the context. *)
Ltac wp_step :=
  match goal with
  | |- wp (mbind _ _) _ _ _ => apply wp_bind
  | |- wp (mret _) _ _ _ => apply wp_ret
  | |- wp get _ _ _ => apply wp_get
  | |- wp (modify _) _ _ _ => apply wp_modify
  | |- wp (emit _ _) _ _ _ => apply wp_emit
  | |- wp now _ _ _ => apply wp_now
  | |- wp (start _ _ _) _ _ _ => apply wp_start
  | |- wp (expired _) _ _ _ => apply wp_expired; intros ?
  | |- wp (callback _ _ _) _ _ _ => apply wp_callback
  | |- wp enter _ _ _ => apply wp_enter
  | |- wp exit _ _ _ => eapply wp_exit; [reflexivity|reflexivity|]
  | |- wp (if ?b then _ else _) _ _ _ => destruct b eqn:?
  | |- wp (match ?b with _ => _ end) _ _ _ => destruct b eqn:?
  end; simpl.
Ltac wp_steps := repeat wp_step.

(** ** Nesting of critical sections

    [run_crit] executes a sequence of [enter_critical]/[exit_critical] calls
    on numbered sections. *)

Inductive CritOp := Enter (id : nat) | Exit (id : nat).

Definition crit_step (op : CritOp) (st : (nat -> CriticalSection) * Machine)
  : (nat -> CriticalSection) * Machine :=
  let '(cs, m) := st in
  match op with
  | Enter i => let '(c, m) := enter_critical (cs i) m in
               (fun j => if decide (j = i) then c else cs j, m)
  | Exit i => let '(c, m) := exit_critical (cs i) m in
              (fun j => if decide (j = i) then c else cs j, m)
  end.
Definition run_crit (ops : list CritOp) (st : (nat -> CriticalSection) * Machine) :=
  foldl (fun st op => crit_step op st) st ops.

(** Well-bracketed calls that never re-enter a section that is open. *)
Inductive bracketed : list nat -> list CritOp -> Prop :=
| bracketed_nil openS : bracketed openS []
| bracketed_section openS i body rest :
    i ∉ openS -> bracketed (i :: openS) body -> bracketed openS rest ->
    bracketed openS (Enter i :: body ++ Exit i :: rest).

Lemma run_crit_app a b st : run_crit (a ++ b) st = run_crit b (run_crit a st).
Proof. apply foldl_app. Qed.

Lemma bracketed_frame openS ops :
  bracketed openS ops -> forall cs m,
  let '(cs', m') := run_crit ops (cs, m) in
  primask m' = primask m /\ forall j, j ∈ openS -> cs' j = cs j.
Proof.
  induction 1 as [openS|openS i body rest Hi Hb IHb Hr IHr]; intros cs m; [done|].
  unfold run_crit at 1; simpl. fold (run_crit (body ++ Exit i :: rest)).
  change (foldl _ ?st ?l) with (run_crit l st). rewrite run_crit_app.
  set (st1 := (_, _)). specialize (IHb (fst st1) (snd st1)). subst st1; simpl in IHb.
  destruct (run_crit body _) as [cs1 m1]. destruct IHb as [Hm1 Hcs1].
  assert (Hci : cs1 i = mkCS (Z.b2z (primask m)) true)
    by (rewrite Hcs1 by set_solver; by rewrite decide_True).
  unfold run_crit at 1; simpl. rewrite Hci.
  change (foldl _ ?st ?l) with (run_crit l st).
  assert (Hst : forall b : bool, primask m1 = true ->
    exit_critical (mkCS (Z.b2z b) true) m1 = (mkCS (Z.b2z b) false, m1 <| primask := b |>)).
  { intros b. destruct m1 as [pm ?????]; simpl. intros ->. by destruct b. }
  rewrite Hst by done.
  specialize (IHr (fun j => if decide (j = i) then mkCS (Z.b2z (primask m)) false else cs1 j)
                (m1 <| primask := primask m |>)).
  destruct (run_crit rest _) as [cs2 m2]. destruct IHr as [Hm2 Hcs2]. split; [done|].
  intros j Hj. assert (j ≠ i) by (intros ->; done).
  rewrite Hcs2, decide_False, Hcs1, decide_False by set_solver. done.
Qed.

(** ** The wait loop *)

Lemma ticks_delivered_masked n m : primask m = true -> ticks_delivered n m = m.
Proof. intros Hm. destruct n; simpl; [done|]. by rewrite Hm. Qed.

Lemma ticks_delivered_unmasked n m :
  primask m = false -> is_u32 (system_ticks m) ->
  primask (ticks_delivered n m) = false /\
  system_ticks (ticks_delivered n m) = u32 (system_ticks m + Z.of_nat n).
Proof.
  revert m. induction n as [|n IH]; intros m Hp Ht; simpl.
  - by rewrite Z.add_0_r, u32_small.
  - rewrite Hp. destruct (IH (SysTick_Handler m)) as [-> ->].
    1,2: rewrite SysTick_Handler_spec; cbn; auto with cant.
    split; [done|]. rewrite SysTick_Handler_spec. cbn. unfold u32.
    rewrite Zplus_mod_idemp_l. f_equal. lia.
Qed.

Definition ticks_of (wakes : list nat) : Z := Z.of_nat (sum_list wakes).

Lemma timer_delay_loop_masked start d wakes m :
  primask m = true -> u32 (system_ticks m - start) < d ->
  timer_delay_loop start d wakes m = None.
Proof.
  revert m. induction wakes as [|n wakes IH]; intros m Hp Hd;
    cbn [timer_delay_loop]; rewrite get_system_time_ms_spec, (proj2 (Z.ltb_lt _ _) Hd); [done|].
  rewrite ticks_delivered_masked by done. by apply IH.
Qed.

Lemma timer_delay_loop_returns start d wakes e m :
  primask m = false -> 0 <= e -> e + ticks_of wakes < 2 ^ 32 ->
  d <= e + ticks_of wakes -> is_u32 start -> system_ticks m = u32 (start + e) ->
  exists k m', timer_delay_loop start d wakes m = Some m' /\
    (k <= length wakes)%nat /\ d <= e + ticks_of (take k wakes) /\
    (forall j, (j < k)%nat -> e + ticks_of (take j wakes) < d) /\
    system_ticks m' = u32 (start + e + ticks_of (take k wakes)) /\
    primask m' = false.
Proof.
  unfold ticks_of.
  revert e m. induction wakes as [|n wakes IH]; intros e m Hp He Hs Hd Hst Ht; simpl in Hs, Hd;
    cbn [timer_delay_loop]; rewrite get_system_time_ms_spec, Ht, u32_elapsed by lia.
  - rewrite (proj2 (Z.ltb_ge _ _)) by lia. exists 0%nat. eexists. split_and!; simpl; auto; try lia.
    cbn. by rewrite Ht, Z.add_0_r.
  - destruct (e <? d) eqn:E; tests.
    + destruct (ticks_delivered_unmasked n (settle m)) as [Hp' Ht']; [done|cbn; rewrite Ht; auto with cant|].
      destruct (IH (e + Z.of_nat n) (ticks_delivered n (settle m))) as (k & m' & -> & Hk & Hdk & Hj & Hm' & ?); auto; try lia.
      { rewrite Ht'. cbn. rewrite Ht. unfold u32. rewrite Zplus_mod_idemp_l. f_equal. lia. }
      exists (S k), m'. simpl. split_and!; auto; try lia.
      * intros [|j] Hjk; simpl; [lia|]. specialize (Hj j). lia.
      * rewrite Hm'. f_equal. lia.
    + exists 0%nat. eexists. split_and!; simpl; auto; try lia.
      cbn. by rewrite Ht, Z.add_0_r.
Qed.

(** ** Properties *)

(** C37. A timer started with timeout [d] and queried after [n] further tick
    interrupts reports expiry exactly when [d <= n], and reports [max 0 (d - n)]
    ms remaining, for every [n] below 2^32 and also when the 32-bit tick
    counter wraps around in between. *)
Theorem timer_deadline_exact t d n m :
  is_u32 (system_ticks m) -> Z.of_nat n < 2 ^ 32 ->
  let '(t', m1) := timer_start t d m in
  let m2 := Nat.iter n SysTick_Handler m1 in
  fst (timer_expired t' m2) = (d <=? Z.of_nat n) /\
  fst (timer_remaining t' m2) = Z.max 0 (d - Z.of_nat n).
Proof.
  intros Hm Hn. rewrite timer_start_spec. cbv zeta.
  rewrite timer_expired_spec, timer_remaining_spec. simpl.
  rewrite ticks_after, u32_elapsed by (done || lia). split; [done|].
  destruct (d <=? Z.of_nat n) eqn:E; tests; simpl; lia.
Qed.

(** Witness of [timer_deadline_exact]: the tick counter wraps during the wait. *)
Lemma timer_deadline_exact_witness :
  is_u32 (2 ^ 32 - 2) /\
  (let '(t', m1) := timer_start timer_zero 5 (boot <| system_ticks := 2 ^ 32 - 2 |>) in
   fst (timer_expired t' (Nat.iter 5 SysTick_Handler m1)) = (5 <=? Z.of_nat 5)
   /\ fst (timer_remaining t' (Nat.iter 5 SysTick_Handler m1)) = Z.max 0 (5 - Z.of_nat 5)).
Proof.
  split; [unfold is_u32; lia|].
  apply (timer_deadline_exact timer_zero 5 5 (boot <| system_ticks := 2 ^ 32 - 2 |>)).
  - vm_compute; split; congruence.
  - reflexivity.
Defined.

(**  Critical sections nest: any well-bracketed sequence of
    [enter_critical]/[exit_critical] calls that never re-enters a section that
    is still open leaves the interrupt mask as it found it. *)
Theorem nested_sections_restore_primask ops cs m :
  bracketed [] ops -> primask (snd (run_crit ops (cs, m))) = primask m.
Proof.
  intros Hb. pose proof (bracketed_frame [] ops Hb cs m) as H.
  destruct (run_crit ops (cs, m)) as [cs' m']. apply H.
Qed.

(** Witness of [nested_sections_restore_primask]: the timer's section inside a
    component's. *)
Lemma nested_sections_restore_primask_witness :
  primask (snd (run_crit [Enter 0; Enter 1; Exit 1; Exit 0] (fun _ => cs_zero, boot))) = false.
Proof.
  apply (nested_sections_restore_primask [Enter 0; Enter 1; Exit 1; Exit 0]).
  apply (bracketed_section [] 0%nat [Enter 1; Exit 1] []); [apply not_elem_of_nil| |constructor].
  apply (bracketed_section [0%nat] 1%nat [] []); [by intros [?|?%elem_of_nil]%elem_of_cons|constructor|constructor].
Defined.

(**  [timer_delay_ms] with interrupts enabled returns at the first wake-up
    at which at least [d] ticks were delivered, and not before; with
    interrupts masked the tick counter cannot move and, for [d > 0], no number
    of wake-ups makes it return. *)
Theorem timer_delay_ms_returns d wakes m :
  is_u32 (system_ticks m) ->
  (primask m = false -> d <= ticks_of wakes -> ticks_of wakes < 2 ^ 32 ->
   exists k m', timer_delay_ms d wakes m = Some m' /\
     (k <= length wakes)%nat /\ d <= ticks_of (take k wakes) /\
     (forall j, (j < k)%nat -> ticks_of (take j wakes) < d) /\
     system_ticks m' = u32 (system_ticks m + ticks_of (take k wakes))) /\
  (primask m = true -> 0 < d -> timer_delay_ms d wakes m = None).
Proof.
  intros Ht. unfold timer_delay_ms. rewrite get_system_time_ms_spec. split.
  - intros Hp Hd Hw.
    destruct (timer_delay_loop_returns (system_ticks m) d wakes 0 (settle m))
      as (k & m' & Hr & Hk & Hdk & Hj & Hm' & _); try done; try lia.
    { cbn. by rewrite Z.add_0_r, u32_small. }
    exists k, m'. rewrite Z.add_0_r in Hm'. split_and!; auto; try lia.
  - intros Hp Hd. apply timer_delay_loop_masked; [done|]. cbn.
    by rewrite Z.sub_diag.
Qed.

(** Witness of [timer_delay_ms_returns]. *)
Lemma timer_delay_ms_returns_witness :
  (exists k m', timer_delay_ms 3 [2; 0; 2; 9]%nat boot = Some m' /\
     (k <= 4)%nat /\ 3 <= ticks_of (take k [2; 0; 2; 9]%nat) /\
     (forall j, (j < k)%nat -> ticks_of (take j [2; 0; 2; 9]%nat) < 3) /\
     system_ticks m' = u32 (0 + ticks_of (take k [2; 0; 2; 9]%nat))) /\
  timer_delay_ms 3 [7; 7]%nat (boot <| primask := true |>) = None.
Proof.
  split.
  - apply (timer_delay_ms_returns 3 [2; 0; 2; 9]%nat boot); vm_compute; try split; congruence.
  - apply (timer_delay_ms_returns 3 [7; 7]%nat (boot <| primask := true |>));
      vm_compute; try split; congruence.
Defined.
