(* ===== verification/UdsTypes.v ===== *)
(** * UDS identifiers and messages

    [src/runtime/diagnostic/uds_handler.h]: session types, service identifiers,
    response codes and the message structure shared by the session manager,
    the service router and the UDS handler.  Enumerations are their C values. *)

From S2P Require Import Prelude.

Definition UDS_SESSION_DEFAULT : Z := 0x01.
Definition UDS_SESSION_PROGRAMMING : Z := 0x02.
Definition UDS_SESSION_EXTENDED_DIAGNOSTIC : Z := 0x03.
Definition UDS_SESSION_SAFETY_SYSTEM : Z := 0x04.

Definition UDS_SID_DIAGNOSTIC_SESSION_CONTROL : Z := 0x10.
Definition UDS_SID_ECU_RESET : Z := 0x11.
Definition UDS_SID_SECURITY_ACCESS : Z := 0x27.
Definition UDS_SID_COMMUNICATION_CONTROL : Z := 0x28.
Definition UDS_SID_TESTER_PRESENT : Z := 0x3E.
Definition UDS_SID_ACCESS_TIMING_PARAMETER : Z := 0x83.
Definition UDS_SID_SECURED_DATA_TRANSMISSION : Z := 0x84.
Definition UDS_SID_CONTROL_DTC_SETTING : Z := 0x85.
Definition UDS_SID_RESPONSE_ON_EVENT : Z := 0x86.
Definition UDS_SID_LINK_CONTROL : Z := 0x87.
Definition UDS_SID_READ_DATA_BY_IDENTIFIER : Z := 0x22.
Definition UDS_SID_READ_MEMORY_BY_ADDRESS : Z := 0x23.
Definition UDS_SID_READ_SCALING_DATA_BY_IDENTIFIER : Z := 0x24.
Definition UDS_SID_READ_DATA_BY_PERIODIC_IDENTIFIER : Z := 0x2A.
Definition UDS_SID_DYNAMICALLY_DEFINE_DATA_IDENTIFIER : Z := 0x2C.
Definition UDS_SID_WRITE_DATA_BY_IDENTIFIER : Z := 0x2E.
Definition UDS_SID_WRITE_MEMORY_BY_ADDRESS : Z := 0x3D.
Definition UDS_SID_CLEAR_DIAGNOSTIC_INFORMATION : Z := 0x14.
Definition UDS_SID_READ_DTC_INFORMATION : Z := 0x19.
Definition UDS_SID_INPUT_OUTPUT_CONTROL_BY_IDENTIFIER : Z := 0x2F.
Definition UDS_SID_ROUTINE_CONTROL : Z := 0x31.
Definition UDS_SID_REQUEST_DOWNLOAD : Z := 0x34.
Definition UDS_SID_REQUEST_UPLOAD : Z := 0x35.
Definition UDS_SID_TRANSFER_DATA : Z := 0x36.
Definition UDS_SID_REQUEST_TRANSFER_EXIT : Z := 0x37.

Definition UDS_RESPONSE_POSITIVE : Z := 0x00.
Definition UDS_RESPONSE_GENERAL_REJECT : Z := 0x10.
Definition UDS_RESPONSE_SERVICE_NOT_SUPPORTED : Z := 0x11.
Definition UDS_RESPONSE_CONDITIONS_NOT_CORRECT : Z := 0x22.
Definition UDS_RESPONSE_SECURITY_ACCESS_DENIED : Z := 0x33.

(** [data] is the bytes behind the pointer, [None] when it is NULL. *)
Record UdsMessage := mkUdsMessage {
  service_id : Z;
  sub_function : Z;
  msg_data : option (list Z);
  msg_length : Z }.
#[export] Instance eta_UdsMessage : Eta UdsMessage := fun r =>
  mkUdsMessage (service_id r) (sub_function r) (msg_data r) (msg_length r).
