(* ===== verification/SessionManager.v ===== *)
(** * Session manager

    [src/runtime/diagnostic/session_manager.c]: the active UDS session, its
    security level and lock, the S3 and P2 timers and the service access
    matrix.  Enumerations are their C values; a function pointer of the
    configuration is the boolean "not NULL", its calls are in the trace. *)

From S2P Require Import Prelude Machine UdsTypes.

Record ServiceAccessEntry := mkAccess {
  sa_service_id : Z; allowed_sessions : Z; required_security : Z }.

Definition service_access_matrix : list ServiceAccessEntry := [
  mkAccess UDS_SID_DIAGNOSTIC_SESSION_CONTROL         0xFFFF 0x00;
  mkAccess UDS_SID_ECU_RESET                          0xFFFE 0x01;
  mkAccess UDS_SID_SECURITY_ACCESS                    0xFFFE 0x00;
  mkAccess UDS_SID_COMMUNICATION_CONTROL              0x000C 0x01;
  mkAccess UDS_SID_TESTER_PRESENT                     0xFFFF 0x00;
  mkAccess UDS_SID_ACCESS_TIMING_PARAMETER            0x000C 0x01;
  mkAccess UDS_SID_SECURED_DATA_TRANSMISSION          0x000C 0x01;
  mkAccess UDS_SID_CONTROL_DTC_SETTING                0x000C 0x01;
  mkAccess UDS_SID_RESPONSE_ON_EVENT                  0x000C 0x01;
  mkAccess UDS_SID_LINK_CONTROL                       0x000C 0x01;
  mkAccess UDS_SID_READ_DATA_BY_IDENTIFIER            0xFFFF 0x00;
  mkAccess UDS_SID_READ_MEMORY_BY_ADDRESS             0x000C 0x01;
  mkAccess UDS_SID_READ_SCALING_DATA_BY_IDENTIFIER    0xFFFF 0x00;
  mkAccess UDS_SID_READ_DATA_BY_PERIODIC_IDENTIFIER   0xFFFF 0x00;
  mkAccess UDS_SID_WRITE_DATA_BY_IDENTIFIER           0x000C 0x01;
  mkAccess UDS_SID_WRITE_MEMORY_BY_ADDRESS            0x000C 0x01;
  mkAccess UDS_SID_CLEAR_DIAGNOSTIC_INFORMATION       0x000C 0x01;
  mkAccess UDS_SID_READ_DTC_INFORMATION               0xFFFF 0x00;
  mkAccess UDS_SID_INPUT_OUTPUT_CONTROL_BY_IDENTIFIER 0x000C 0x01;
  mkAccess UDS_SID_ROUTINE_CONTROL                    0x000C 0x01;
  mkAccess UDS_SID_REQUEST_DOWNLOAD                   0x0002 0x02;
  mkAccess UDS_SID_REQUEST_UPLOAD                     0x0002 0x02;
  mkAccess UDS_SID_TRANSFER_DATA                      0x0002 0x02;
  mkAccess UDS_SID_REQUEST_TRANSFER_EXIT              0x0002 0x02 ].

Record SessionState := mkSessionState {
  active_session : Z;
  session_start_time : Z;
  last_activity_time : Z;
  security_level : Z;
  suppress_response : bool;
  session_locked : bool }.
#[export] Instance eta_SessionState : Eta SessionState := fun s =>
  mkSessionState (active_session s) (session_start_time s) (last_activity_time s)
    (security_level s) (suppress_response s) (session_locked s).
Definition session_state_zero : SessionState := mkSessionState 0 0 0 0 false false.

Record SessionManagerConfig := mkSessionConfig {
  default_p2_timeout_ms : Z;
  extended_p2_timeout_ms : Z;
  s3_timeout_ms : Z;
  enable_session_lock : bool;
  session_change_callback : bool;
  security_change_callback : bool;
  timeout_callback : bool }.
Definition session_config_zero : SessionManagerConfig :=
  mkSessionConfig 0 0 0 false false false false.

Record SessionManager := mkSessionManager {
  sm_config : SessionManagerConfig;
  sm_state : SessionState;
  p2_timer : Timer;
  s3_timer : Timer;
  sm_initialized : bool;
  sm_critical : CriticalSection }.
#[export] Instance eta_SessionManager : Eta SessionManager := fun s =>
  mkSessionManager (sm_config s) (sm_state s) (p2_timer s) (s3_timer s)
    (sm_initialized s) (sm_critical s).
#[export, refine] Instance SessionManager_critical : HasCritical SessionManager :=
  {| crit := sm_critical; set_crit c s := s <| sm_critical := c |> |}.
Proof. all: by intros; destruct s. Defined.

Definition session_manager_zero : SessionManager :=
  mkSessionManager session_config_zero session_state_zero timer_zero timer_zero false cs_zero.

(** Field assignments [session_manager.state.f = v]. *)
Definition sm_set (f : SessionState -> SessionState) : M SessionManager unit :=
  modify (fun s => s <| sm_state ::= f |>).

(** [None]: the index is outside the four-entry matrix, or the shift is
    outside the width of [int]. *)
Definition transition_matrix : list Z := [0xFFFF; 0xFFFF; 0xFFFF; 0xFFFF].
Definition validate_session_transition (current target : Z) : option bool :=
  if (current <? 0) || (target <? 0) || (30 <? target) then None else
  row ← transition_matrix !! Z.to_nat current;
  Some (negb (Z.land row (Z.shiftl 1 target) =? 0)).

Definition find_service_access (service_id : Z) : option ServiceAccessEntry :=
  snd <$> list_find (fun e => sa_service_id e =? service_id) service_access_matrix.

Definition start_s3 : M SessionManager unit :=
  s ← get;
  start s3_timer (fun t s => s <| s3_timer := t |>) (s3_timeout_ms (sm_config s)).

Definition Session_Manager_Init (SystemCoreClock : Z) (config : option SessionManagerConfig)
  : M SessionManager bool :=
  match config with
  | None => mret false
  | Some config =>
    enter;;
    modify (fun s => s <| sm_config := config |>);;
    sm_set (fun st => st <| active_session := UDS_SESSION_DEFAULT |>);;
    t ← now;
    sm_set (fun st => st <| session_start_time := t |> <| last_activity_time := t |>
                         <| security_level := 0 |> <| suppress_response := false |>
                         <| session_locked := false |>);;
    timer_init_m SystemCoreClock;;
    init_crit;;
    (if 0 <? s3_timeout_ms config then start_s3 else mret tt);;
    modify (fun s => s <| sm_initialized := true |>);;
    exit;;
    mret true
  end.

Definition Session_Manager_DeInit : M SessionManager unit :=
  enter;; modify (fun _ => session_manager_zero);; exit.

Definition Session_Manager_ChangeSession (new_session : Z) : M SessionManager bool :=
  s ← get;
  if negb (sm_initialized s) then mret false else
  enter;;
  if session_locked (sm_state s) then exit;; mret false else
  match validate_session_transition (active_session (sm_state s)) new_session with
  | None => fault
  | Some false => exit;; mret false
  | Some true =>
    let old_session := active_session (sm_state s) in
    sm_set (fun st => st <| active_session := new_session |>);;
    t ← now;
    sm_set (fun st => st <| session_start_time := t |> <| last_activity_time := t |>);;
    let old_security := security_level (sm_state s) in
    sm_set (fun st => st <| security_level := 0 |>);;
    callback (session_change_callback (sm_config s)) "session_change_callback"
      [old_session; new_session];;
    callback (security_change_callback (sm_config s)) "security_change_callback"
      [old_security; 0];;
    (if 0 <? s3_timeout_ms (sm_config s) then start_s3 else mret tt);;
    exit;;
    mret true
  end.

Definition Session_Manager_UpdateSecurity (level : Z) : M SessionManager bool :=
  s ← get;
  if negb (sm_initialized s) then mret false else
  enter;;
  if session_locked (sm_state s) then exit;; mret false else
  let old_level := security_level (sm_state s) in
  sm_set (fun st => st <| security_level := level |>);;
  callback (security_change_callback (sm_config s)) "security_change_callback"
    [old_level; level];;
  exit;;
  mret true.

Definition Session_Manager_ProcessTimeout : M SessionManager unit :=
  s ← get;
  if negb (sm_initialized s) then mret tt else
  enter;;
  current_time ← now;
  s3_expired ← (if 0 <? s3_timeout_ms (sm_config s) then expired s3_timer else mret false);
  (if s3_expired && negb (active_session (sm_state s) =? UDS_SESSION_DEFAULT) then
     let old_session := active_session (sm_state s) in
     sm_set (fun st => st <| active_session := UDS_SESSION_DEFAULT |> <| security_level := 0 |>);;
     callback (session_change_callback (sm_config s)) "session_change_callback"
       [old_session; UDS_SESSION_DEFAULT];;
     callback (timeout_callback (sm_config s)) "timeout_callback" []
   else mret tt);;
  p2_expired ← expired p2_timer;
  (if (p2_expired : bool) then callback (timeout_callback (sm_config s)) "timeout_callback" []
   else mret tt);;
  exit.

Definition Session_Manager_IsSessionAllowed (session : Z) : M SessionManager bool :=
  s ← get;
  if negb (sm_initialized s) then mret false else
  match validate_session_transition (active_session (sm_state s)) session with
  | None => fault
  | Some b => mret b
  end.

Definition Session_Manager_IsServiceAllowed (service_id : Z) : M SessionManager bool :=
  s ← get;
  if negb (sm_initialized s) then mret false else
  match find_service_access service_id with
  | None => mret false
  | Some access =>
    let session_allowed :=
      negb (Z.land (allowed_sessions access) (Z.shiftl 1 (active_session (sm_state s))) =? 0) in
    let security_allowed := required_security access <=? security_level (sm_state s) in
    mret (session_allowed && security_allowed)
  end.

Definition Session_Manager_UpdateActivity : M SessionManager unit :=
  s ← get;
  if negb (sm_initialized s) then mret tt else
  enter;;
  t ← now;
  sm_set (fun st => st <| last_activity_time := t |>);;
  (if 0 <? s3_timeout_ms (sm_config s) then start_s3 else mret tt);;
  exit.

Definition Session_Manager_LockSession : M SessionManager bool :=
  s ← get;
  if negb (sm_initialized s) || negb (enable_session_lock (sm_config s)) then mret false else
  enter;; sm_set (fun st => st <| session_locked := true |>);; exit;; mret true.

Definition Session_Manager_UnlockSession : M SessionManager bool :=
  s ← get;
  if negb (sm_initialized s) || negb (enable_session_lock (sm_config s)) then mret false else
  enter;; sm_set (fun st => st <| session_locked := false |>);; exit;; mret true.

Definition Session_Manager_GetState : M SessionManager SessionState :=
  s ← get;
  if sm_initialized s then enter;; s ← get; exit;; mret (sm_state s)
  else mret session_state_zero.

Definition Session_Manager_GetP2Timeout : M SessionManager Z :=
  s ← get;
  mret (if negb (sm_initialized s) then 0
        else if active_session (sm_state s) =? UDS_SESSION_DEFAULT
        then default_p2_timeout_ms (sm_config s) else extended_p2_timeout_ms (sm_config s)).

Definition Session_Manager_GetS3Timeout : M SessionManager Z :=
  s ← get;
  mret (if negb (sm_initialized s) then 0 else s3_timeout_ms (sm_config s)).

Definition Session_Manager_IsSuppressResponse : M SessionManager bool :=
  s ← get;
  mret (if negb (sm_initialized s) then false else suppress_response (sm_state s)).

Definition Session_Manager_SetSuppressResponse (suppress : bool) : M SessionManager unit :=
  s ← get;
  if negb (sm_initialized s) then mret tt else
  enter;; sm_set (fun st => st <| suppress_response := suppress |>);; exit.

(** ** Lemmas *)

Lemma validate_session_transition_ok a n :
  1 <= a <= 3 -> 1 <= n <= 4 -> validate_session_transition a n = Some true.
Proof.
  intros Ha Hn.
  assert (a = 1 \/ a = 2 \/ a = 3) as [-> | [-> | ->]] by lia;
  assert (n = 1 \/ n = 2 \/ n = 3 \/ n = 4) as [-> | [-> | [-> | ->]]] by lia; reflexivity.
Qed.

Lemma validate_session_transition_safety n :
  validate_session_transition UDS_SESSION_SAFETY_SYSTEM n = None.
Proof. unfold validate_session_transition. by case_match. Qed.

(** Split the statics and the machine into their fields. *)
Ltac sm_fields s m :=
  destruct s as [[dp2 ep2 s3t lke scb secb tcb] [a st la sl su lk] p2 s3 ini cs],
    m as [pm tk fr tc ti tr]; simpl in *; subst.
Ltac sm_run :=
  unfold sm_set, start_s3;
  repeat first [rewrite validate_session_transition_ok by done | wp_step].

(** The calls a client makes, and the tick interrupt between them. *)
Inductive SmOp :=
| OpChangeSession (n : Z) | OpUpdateSecurity (level : Z) | OpProcessTimeout
| OpUpdateActivity | OpLockSession | OpUnlockSession | OpGetState | OpSetSuppress (b : bool).

Definition sm_exec (op : SmOp) : M SessionManager unit :=
  match op with
  | OpChangeSession n => Session_Manager_ChangeSession n;; mret tt
  | OpUpdateSecurity l => Session_Manager_UpdateSecurity l;; mret tt
  | OpProcessTimeout => Session_Manager_ProcessTimeout
  | OpUpdateActivity => Session_Manager_UpdateActivity
  | OpLockSession => Session_Manager_LockSession;; mret tt
  | OpUnlockSession => Session_Manager_UnlockSession;; mret tt
  | OpGetState => Session_Manager_GetState;; mret tt
  | OpSetSuppress b => Session_Manager_SetSuppressResponse b
  end.

Inductive sm_step (allowed : SmOp -> Prop)
  : SessionManager * Machine -> SessionManager * Machine -> Prop :=
| sm_call op s m s' m' :
    allowed op -> sm_exec op s m = Some (tt, s', m') -> sm_step allowed (s, m) (s', m')
| sm_tick s m :
    primask m = false -> sm_step allowed (s, m) (s, SysTick_Handler m).

(** Invariants of the step relation: what every allowed call preserves. *)
Lemma sm_invariant allowed (P : SessionManager -> Machine -> Prop) :
  (forall op s m, allowed op -> P s m ->
     match sm_exec op s m with Some (_, s', m') => P s' m' | None => True end) ->
  (forall s m, P s m -> P s (SysTick_Handler m)) ->
  forall x y, rtc (sm_step allowed) x y -> P x.1 x.2 -> P y.1 y.2.
Proof.
  intros Hop Htick x y Hr. induction Hr as [|x y z Hs Hr IH]; [done|].
  intros HP. apply IH. destruct Hs as [op s m s' m' Ha He|s m _]; simpl in *; [|auto].
  specialize (Hop op s m Ha HP). by rewrite He in Hop.
Qed.

Definition defined_or {S A} (c : M S A) (Q : A -> S -> Machine -> Prop) s m : Prop :=
  match c s m with Some (a, s', m') => Q a s' m' | None => True end.
Lemma wp_defined_or {S A} (c : M S A) Q s m : wp c Q s m -> defined_or c Q s m.
Proof. unfold wp, defined_or. by destruct (c s m). Qed.
Lemma defined_or_bind {S A B} (c : M S A) (f : A -> M S B) Q s m :
  defined_or c (fun a s' m' => defined_or (f a) Q s' m') s m -> defined_or (c ≫= f) Q s m.
Proof. unfold defined_or, mbind, M_bind. by destruct (c s m) as [[[??]?]|]. Qed.

(** A locked session changes only by timing out to the default session. *)
Definition frozen (s0 s : SessionManager) : Prop :=
  sm_initialized s = true /\ session_locked (sm_state s) = true /\
  (active_session (sm_state s) = active_session (sm_state s0) \/
   active_session (sm_state s) = UDS_SESSION_DEFAULT) /\
  (security_level (sm_state s) = security_level (sm_state s0) \/
   security_level (sm_state s) = 0).

Lemma frozen_step s0 op s m :
  op ≠ OpUnlockSession -> frozen s0 s ->
  wp (sm_exec op) (fun _ s' _ => frozen s0 s') s m.
Proof.
  intros Hop Hf. unfold frozen in *. destruct op; try done; sm_fields s m;
    destruct Hf as (-> & -> & Hf);
    unfold sm_exec, Session_Manager_ChangeSession, Session_Manager_UpdateSecurity,
      Session_Manager_ProcessTimeout, Session_Manager_UpdateActivity,
      Session_Manager_LockSession, Session_Manager_GetState,
      Session_Manager_SetSuppressResponse; sm_run; tauto.
Qed.

(** The session stays one of the four, the level a byte, the mask as it was. *)
Definition session_wf (mask : bool) (s : SessionManager) (m : Machine) : Prop :=
  sm_initialized s = true /\ 1 <= active_session (sm_state s) <= 4 /\
  is_u8 (security_level (sm_state s)) /\ primask m = mask.

Definition valid_args (op : SmOp) : Prop :=
  match op with
  | OpChangeSession n => 1 <= n <= 4
  | OpUpdateSecurity l => is_u8 l
  | _ => True
  end.

Lemma change_session_undefined n s m :
  sm_initialized s = true -> session_locked (sm_state s) = false ->
  active_session (sm_state s) = UDS_SESSION_SAFETY_SYSTEM ->
  Session_Manager_ChangeSession n s m = None.
Proof.
  intros Hi Hl Ha. sm_fields s m. unfold Session_Manager_ChangeSession, mbind, M_bind. simpl.
  by rewrite validate_session_transition_safety.
Qed.

Lemma session_wf_step mask op s m :
  valid_args op -> session_wf mask s m ->
  defined_or (sm_exec op) (fun _ s' m' => session_wf mask s' m') s m.
Proof.
  intros Hv (Hi & Ha & Hl & Hp). unfold session_wf.
  destruct op as [n|l| | | | | |b]; simpl in Hv.
  1: destruct (decide (session_locked (sm_state s) = false /\
       active_session (sm_state s) = UDS_SESSION_SAFETY_SYSTEM)) as [[Hk Hs]|Hk].
  1: { apply defined_or_bind. unfold defined_or. by rewrite change_session_undefined. }
  all: apply wp_defined_or; sm_fields s m;
    unfold sm_exec, Session_Manager_ChangeSession, Session_Manager_UpdateSecurity,
      Session_Manager_ProcessTimeout, Session_Manager_UpdateActivity,
      Session_Manager_LockSession, Session_Manager_UnlockSession, Session_Manager_GetState,
      Session_Manager_SetSuppressResponse, UDS_SESSION_DEFAULT, UDS_SESSION_SAFETY_SYSTEM in *.
  1: destruct lk; [|assert (1 <= a <= 3) by (destruct (decide (a = 4)); [tauto|lia])].
  all: sm_run; split_and!; auto; unfold is_u8; lia.
Qed.

(** The access decision as a bit test. *)
Lemma land_bit x n : 0 <= n -> negb (Z.land x (Z.shiftl 1 n) =? 0) = Z.testbit x n.
Proof.
  intros Hn. assert (Hb : Z.land x (Z.shiftl 1 n) = if Z.testbit x n then Z.shiftl 1 n else 0).
  { apply Z.bits_inj'. intros i Hi. rewrite Z.land_spec, Z.shiftl_1_l.
    rewrite Z.pow2_bits_eqb by done. destruct (Z.eqb_spec n i) as [->|Hne].
    - destruct (Z.testbit x i); [by rewrite Z.pow2_bits_true|by rewrite Z.bits_0].
    - rewrite andb_false_r. destruct (Z.testbit x n); [|by rewrite Z.bits_0].
      by rewrite Z.pow2_bits_false. }
  rewrite Hb, Z.shiftl_1_l. destruct (Z.testbit x n); [|done].
  apply negb_true_iff, Z.eqb_neq. pose proof (Z.pow_pos_nonneg 2 n). lia.
Qed.

(** ** Properties *)

(** What callers of [Session_Manager_GetState] see. *)
Lemma get_state_wp Q s m :
  (forall c, Q (if sm_initialized s then sm_state s else session_state_zero)
     (s <| sm_critical := c |>) m) ->
  wp Session_Manager_GetState Q s m.
Proof.
  intros HQ. unfold Session_Manager_GetState. destruct s as [cf st p2 s3 [] cs]; simpl in *.
  - wp_steps. destruct m as [pm ?????]. apply HQ.
  - wp_steps. apply HQ.
Qed.

(** C8. [Session_Manager_ChangeSession] from any of the four declared sessions to any of
    the four.  Before [Session_Manager_Init] it answers false and does nothing.
    A locked session is refused with the session state untouched.  From DEFAULT,
    PROGRAMMING or EXTENDED the new session starts now, at security level 0, both
    callbacks are told in order, the S3 timer is restarted when configured, and
    the interrupt mask is restored.  From SAFETY_SYSTEM the call is undefined: the
    transition matrix has four rows and is read at row 4. *)
Theorem change_session_spec n s m :
  1 <= active_session (sm_state s) <= 4 -> 1 <= n <= 4 ->
  if negb (sm_initialized s) then Session_Manager_ChangeSession n s m = Some (false, s, m)
  else if negb (session_locked (sm_state s)) && (active_session (sm_state s) =? UDS_SESSION_SAFETY_SYSTEM)
  then Session_Manager_ChangeSession n s m = None
  else wp (Session_Manager_ChangeSession n) (fun r s' m' =>
    primask m' = primask m /\ system_ticks m' = system_ticks m /\
    if session_locked (sm_state s)
    then r = false /\ sm_state s' = sm_state s /\ trace m' = trace m
    else r = true /\
      sm_state s' = mkSessionState n (system_ticks m) (system_ticks m) 0
                      (suppress_response (sm_state s)) false /\
      s3_timer s' = (if 0 <? s3_timeout_ms (sm_config s)
                     then mkTimer (system_ticks m) (s3_timeout_ms (sm_config s)) true
                     else s3_timer s) /\
      trace m' = (trace m ++
        (if session_change_callback (sm_config s)
         then [call "session_change_callback" [active_session (sm_state s); n]] else [])) ++
        (if security_change_callback (sm_config s)
         then [call "security_change_callback" [security_level (sm_state s); 0]] else [])) s m.
Proof.
  intros Ha Hn. destruct (sm_initialized s) eqn:Hi; simpl.
  - destruct (_ && _) eqn:E.
    + apply andb_true_iff in E as [Hl%negb_true_iff Hs%Z.eqb_eq]. by apply change_session_undefined.
    + sm_fields s m. unfold Session_Manager_ChangeSession, UDS_SESSION_SAFETY_SYSTEM in *. subst.
      destruct lk; [|assert (1 <= a <= 3) by (simpl in E; apply Z.eqb_neq in E; lia)]; sm_run; auto 10.
  - unfold Session_Manager_ChangeSession, mbind, M_bind, get. by rewrite Hi.
Qed.

(** A manager in the extended session, S3 timeout 5000 ms, tick counter [t]. *)
Definition example_session : SessionManager :=
  mkSessionManager (mkSessionConfig 50 500 5000 true true true true)
    (mkSessionState 3 0 0 1 false false) timer_zero timer_zero true cs_zero.

Definition safety_session : SessionManager :=
  example_session <| sm_state ::= fun t => t <| active_session := UDS_SESSION_SAFETY_SYSTEM |> |>.

(** Witness of [change_session_spec]: out of the extended session, and out of
    the safety session. *)
Lemma change_session_spec_witness :
  wp (Session_Manager_ChangeSession 2) (fun r s' m' =>
    primask m' = false /\ system_ticks m' = 0 /\
    r = true /\ sm_state s' = mkSessionState 2 0 0 0 false false /\
    s3_timer s' = mkTimer 0 5000 true /\
    trace m' = [call "session_change_callback" [3; 2]; call "security_change_callback" [1; 0]])
  example_session boot /\
  Session_Manager_ChangeSession 1 safety_session boot = None.
Proof.
  split.
  - refine (change_session_spec 2 example_session boot _ _); simpl; lia.
  - refine (change_session_spec 1 safety_session boot _ _); vm_compute; split; congruence.
Defined.

(**  The S3 supervision: [n] ticks after the last activity
    [Session_Manager_ProcessTimeout] leaves every session for the default one,
    dropping the security level, exactly when [n] has reached the S3 timeout;
    before that it does not touch the session state. *)
Theorem s3_timeout_exact n s m :
  sm_initialized s = true -> 0 < s3_timeout_ms (sm_config s) ->
  is_u32 (system_ticks m) -> Z.of_nat n < 2 ^ 32 ->
  wp Session_Manager_UpdateActivity (fun _ s1 m1 =>
    wp Session_Manager_ProcessTimeout (fun _ s2 _ =>
      if s3_timeout_ms (sm_config s) <=? Z.of_nat n
      then active_session (sm_state s2) = UDS_SESSION_DEFAULT /\
           (active_session (sm_state s) ≠ UDS_SESSION_DEFAULT ->
            security_level (sm_state s2) = 0)
      else sm_state s2 = sm_state s1) s1 (Nat.iter n SysTick_Handler m1)) s m.
Proof.
  intros Hi Hs Ht Hn. sm_fields s m. unfold Session_Manager_UpdateActivity, Session_Manager_ProcessTimeout.
  pose proof (ticks_after n (mkMachine pm tk fr (mkCS (Z.b2z true) false) ti tr) Ht) as Hk.
  simpl system_ticks in Hk at 2.
  sm_run; rewrite ?Hk, ?u32_elapsed in * by lia;
    destruct (s3t <=? Z.of_nat n) eqn:E; simpl in *; tests; auto; try congruence;
    unfold UDS_SESSION_DEFAULT in *; tests; intuition (congruence || lia).
Qed.

(** Witness of [s3_timeout_exact]. *)
Lemma s3_timeout_exact_witness :
  wp Session_Manager_UpdateActivity (fun _ s1 m1 =>
    wp Session_Manager_ProcessTimeout (fun _ s2 _ =>
      if 5000 <=? Z.of_nat 4
      then active_session (sm_state s2) = UDS_SESSION_DEFAULT /\
           (3 ≠ UDS_SESSION_DEFAULT -> security_level (sm_state s2) = 0)
      else sm_state s2 = sm_state s1) s1 (Nat.iter 4 SysTick_Handler m1)) example_session boot.
Proof. apply (s3_timeout_exact 4 example_session boot); simpl; unfold is_u32; simpl; lia || done. Defined.

(**  [Session_Manager_IsServiceAllowed] decides by the matrix: the service
    must have a row, bit [active_session] of the row's bitmap must be set and
    the security level must reach the row's; and by that rule the four
    transfer services (0x34 to 0x37) are refused in the PROGRAMMING session at
    every level while the DEFAULT session grants them at level 2. *)
Theorem service_allowed_matrix sid s m :
  sm_initialized s = true -> 0 <= active_session (sm_state s) ->
  wp (Session_Manager_IsServiceAllowed sid) (fun r s' m' =>
    s' = s /\ m' = m /\
    r = match find_service_access sid with
        | Some e => Z.testbit (allowed_sessions e) (active_session (sm_state s)) &&
                    (required_security e <=? security_level (sm_state s))
        | None => false
        end /\
    (0x34 <= sid <= 0x37 ->
     (active_session (sm_state s) = UDS_SESSION_PROGRAMMING -> r = false) /\
     (active_session (sm_state s) = UDS_SESSION_DEFAULT -> 2 <= security_level (sm_state s) ->
      r = true))) s m.
Proof.
  intros Hi Ha. sm_fields s m. unfold Session_Manager_IsServiceAllowed. wp_steps.
  - rewrite land_bit by done. split_and!; auto.
    intros Hsid. assert (sid = 0x34 \/ sid = 0x35 \/ sid = 0x36 \/ sid = 0x37) as Hc by lia.
    destruct Hc as [-> | [-> | [-> | ->]]]; vm_compute in Heqo; injection Heqo as <-; simpl;
      (split; intros -> || intros -> Hl); try done; by apply Z.leb_le.
  - split_and!; auto. intros Hsid.
    assert (sid = 0x34 \/ sid = 0x35 \/ sid = 0x36 \/ sid = 0x37) as Hc by lia.
    destruct Hc as [-> | [-> | [-> | ->]]]; vm_compute in Heqo; discriminate.
Qed.

(** Witness of [service_allowed_matrix]. *)
Lemma service_allowed_matrix_witness :
  wp (Session_Manager_IsServiceAllowed 0x31) (fun r s' m' =>
    s' = example_session /\ m' = boot /\ r = true /\
    (0x34 <= 0x31 <= 0x37 ->
     (3 = UDS_SESSION_PROGRAMMING -> r = false) /\
     (3 = UDS_SESSION_DEFAULT -> 2 <= 1 -> r = true))) example_session boot.
Proof. apply (service_allowed_matrix 0x31 example_session boot); simpl; lia || done. Defined.

(**  While a session is locked and nobody unlocks it, any sequence of
    calls and tick interrupts keeps it locked; the active session can only
    become the default one (S3 timeout) and the security level can only drop
    to 0. *)
Theorem locked_session_frozen s m s' m' :
  sm_initialized s = true -> session_locked (sm_state s) = true ->
  rtc (sm_step (fun op => op ≠ OpUnlockSession)) (s, m) (s', m') ->
  session_locked (sm_state s') = true /\
  (active_session (sm_state s') = active_session (sm_state s) \/
   active_session (sm_state s') = UDS_SESSION_DEFAULT) /\
  (security_level (sm_state s') = security_level (sm_state s) \/
   security_level (sm_state s') = 0).
Proof.
  intros Hi Hl Hr.
  apply (sm_invariant _ (fun s' _ => frozen s s')) in Hr; [by destruct Hr as (_ & Hr)| |done|].
  - intros op s1 m1 Hop Hf. apply wp_defined_or, frozen_step; auto.
  - unfold frozen. auto.
Qed.

(** Witness of [locked_session_frozen]: a refused session change. *)
Definition locked_example : SessionManager :=
  example_session <| sm_state ::= fun st => st <| session_locked := true |> |>.
Lemma locked_session_frozen_witness :
  exists s' m', rtc (sm_step (fun op => op ≠ OpUnlockSession)) (locked_example, boot) (s', m') /\
  session_locked (sm_state s') = true.
Proof.
  destruct (wp_run (sm_exec (OpChangeSession 2)) (fun _ _ _ => True) locked_example boot I)
    as ([] & s' & m' & He & _).
  assert (Hr : rtc (sm_step (fun op => op ≠ OpUnlockSession)) (locked_example, boot) (s', m'))
    by (eapply rtc_once, sm_call; [|exact He]; done).
  exists s', m'. split; [exact Hr|].
  exact (proj1 (locked_session_frozen locked_example boot s' m' eq_refl eq_refl Hr)).
Defined.

(**  Along every run of calls with arguments in range, ticks interleaved,
    the active session stays one of the four UDS sessions, the security level
    a byte, and the interrupt mask is the one the run started with. *)
Theorem session_run_wf s m s' m' :
  session_wf (primask m) s m -> rtc (sm_step valid_args) (s, m) (s', m') ->
  session_wf (primask m) s' m'.
Proof.
  intros Hw Hr. apply (sm_invariant _ (session_wf (primask m))) in Hr; [done| | |done].
  - intros op s1 m1 Hv Hw1. by apply (session_wf_step (primask m)).
  - intros s1 m1 Hw1. rewrite SysTick_Handler_spec. exact Hw1.
Qed.

(** Witness of [session_run_wf]. *)
Lemma session_run_wf_witness :
  session_wf false example_session boot /\
  exists s' m', rtc (sm_step valid_args) (example_session, boot) (s', m') /\ session_wf false s' m'.
Proof.
  assert (Hw : session_wf false example_session boot)
    by (repeat split; vm_compute; congruence).
  split; [exact Hw|]. exists example_session, (SysTick_Handler boot).
  assert (Hr : rtc (sm_step valid_args) (example_session, boot)
                 (example_session, SysTick_Handler boot)) by (by apply rtc_once, sm_tick).
  split; [exact Hr|]. exact (session_run_wf _ _ _ _ Hw Hr).
Defined.

(**  [Session_Manager_Init] and [Session_Manager_DeInit] return with
    interrupts masked whatever the mask was before: the section is reset to
    unlocked between [enter_critical] and [exit_critical].  The tick interrupt
    is then never delivered. *)
Theorem session_init_masks_interrupts clk cfg s m :
  wp (Session_Manager_Init clk (Some cfg)) (fun r s' m' =>
    r = true /\ sm_initialized s' = true /\ sm_config s' = cfg /\
    sm_state s' = mkSessionState UDS_SESSION_DEFAULT (system_ticks m) (system_ticks m) 0 false false /\
    primask m' = true) s m /\
  wp Session_Manager_DeInit (fun _ s' m' => s' = session_manager_zero /\ primask m' = true) s m.
Proof.
  sm_fields s m. split.
  - unfold Session_Manager_Init, sm_set, start_s3, init_crit.
    repeat first [apply wp_timer_init; intros ? | wp_step
                 | apply wp_exit_unlocked; [reflexivity|]; simpl]; auto.
  - unfold Session_Manager_DeInit. wp_steps. by apply wp_exit_unlocked.
Qed.
