(* ===== verification/ServiceRouter.v ===== *)
(** * Service router

    [src/runtime/diagnostic/service_router.c]: a table of at most 50 routes
    and the dispatch of a request through the session manager's access checks
    to the route's handler.  A handler is arbitrary client code that may use
    the session manager: a computation over its statics. *)

From S2P Require Import Prelude Machine Tables UdsTypes SessionManager.

Definition MAX_ROUTES : nat := 50.

Definition ServiceHandler : Type :=
  UdsMessage -> UdsMessage -> M SessionManager (Z * UdsMessage).

Record ServiceRoute := mkRoute {
  route_service_id : Z;
  handler : option ServiceHandler;
  requires_security : bool;
  min_security_level : Z }.
#[export] Instance ServiceRoute_key : Keyed ServiceRoute := route_service_id.
Definition route_zero : ServiceRoute := mkRoute 0 None false 0.

Record ServiceRouterConfig := mkRouterConfig {
  cfg_routes : option (list ServiceRoute);
  cfg_route_count : nat;
  pre_process_callback : bool;
  post_process_callback : bool }.

Record ServiceRouter := mkRouter {
  sr_config : ServiceRouterConfig;
  routes : list ServiceRoute;
  route_count : nat;
  sr_initialized : bool;
  sr_critical : CriticalSection }.
#[export] Instance eta_ServiceRouter : Eta ServiceRouter := fun s =>
  mkRouter (sr_config s) (routes s) (route_count s) (sr_initialized s) (sr_critical s).

Definition router_zero : ServiceRouter :=
  mkRouter (mkRouterConfig None 0 false false) (replicate MAX_ROUTES route_zero) 0 false cs_zero.

(** The router's statics and those of the session manager it calls. *)
Record RouterCtx := mkRouterCtx { router : ServiceRouter; r_session : SessionManager }.
#[export] Instance eta_RouterCtx : Eta RouterCtx :=
  fun s => mkRouterCtx (router s) (r_session s).
#[export, refine] Instance RouterCtx_critical : HasCritical RouterCtx :=
  {| crit s := sr_critical (router s);
     set_crit c s := s <| router ::= fun r => r <| sr_critical := c |> |> |}.
Proof. all: by intros; destruct s as [[] ?]. Defined.

Definition on_router (f : ServiceRouter -> ServiceRouter) : M RouterCtx unit :=
  modify (fun s => s <| router ::= f |>).
Definition in_session {A} (c : M SessionManager A) : M RouterCtx A :=
  zoom r_session (fun t s => s <| r_session := t |>) c.

Definition find_route (service_id : Z) (s : ServiceRouter) : option nat :=
  find_key service_id (route_count s) (routes s).

(** [memcpy] of [n] routes over the start of the table; the source must hold
    that many. *)
Definition copy_routes (n : nat) (src : list ServiceRoute) : M RouterCtx unit :=
  if (length src <? n)%nat then fault
  else on_router (fun r => r <| routes ::= fun a => take n src ++ drop n a |>
                             <| route_count := n |>).

Definition Service_Router_Init (config : option ServiceRouterConfig) : M RouterCtx bool :=
  match config with
  | None => mret false
  | Some config =>
    enter;;
    on_router (fun r => r <| sr_config := config |>);;
    (match cfg_routes config with
     | Some src =>
       if (0 <? cfg_route_count config)%nat then
         let copy_count := if (cfg_route_count config <=? MAX_ROUTES)%nat
                           then cfg_route_count config else MAX_ROUTES in
         copy_routes copy_count src
       else on_router (fun r => r <| route_count := 0%nat |>)
     | None => on_router (fun r => r <| route_count := 0%nat |>)
     end);;
    init_crit;;
    on_router (fun r => r <| sr_initialized := true |>);;
    exit;;
    mret true
  end.

Definition Service_Router_DeInit : M RouterCtx unit :=
  enter;; on_router (fun _ => router_zero);; exit.

(** The response is the one the handler leaves; the code is the result. *)
Definition Service_Router_ProcessRequest (request response : option UdsMessage)
  : M RouterCtx (Z * option UdsMessage) :=
  s ← get;
  match request, response with
  | Some request, Some response =>
    if negb (sr_initialized (router s)) then
      mret (UDS_RESPONSE_GENERAL_REJECT, Some response) else
    enter;;
    callback (pre_process_callback (sr_config (router s))) "pre_process_callback"
      [service_id request];;
    match find_route (service_id request) (router s) ≫= (routes (router s) !!.) with
    | None => exit;; mret (UDS_RESPONSE_SERVICE_NOT_SUPPORTED, Some response)
    | Some route =>
      allowed ← in_session (Session_Manager_IsServiceAllowed (service_id request));
      if negb allowed then
        exit;; mret (UDS_RESPONSE_CONDITIONS_NOT_CORRECT, Some response) else
      denied ← (if requires_security route then
                  session_state ← in_session Session_Manager_GetState;
                  mret (security_level session_state <? min_security_level route)
                else mret false);
      if (denied : bool) then
        exit;; mret (UDS_RESPONSE_SECURITY_ACCESS_DENIED, Some response) else
      result ← match handler route with
               | Some h => emit "handler" [service_id request];; in_session (h request response)
               | None => mret (UDS_RESPONSE_GENERAL_REJECT, response)
               end;
      callback (post_process_callback (sr_config (router s))) "post_process_callback"
        [service_id request];;
      exit;;
      mret (fst result, Some (snd result))
    end
  | _, _ => mret (UDS_RESPONSE_GENERAL_REJECT, response)
  end.

Definition Service_Router_AddRoute (route : option ServiceRoute) : M RouterCtx bool :=
  s ← get;
  match route with
  | None => mret false
  | Some route =>
    if negb (sr_initialized (router s)) then mret false else
    enter;;
    match find_route (route_service_id route) (router s) with
    | Some _ => exit;; mret false
    | None =>
      if (MAX_ROUTES <=? route_count (router s))%nat then exit;; mret false else
      on_router (fun r => r <| routes ::= <[route_count r := route]> |>
                            <| route_count ::= S |>);;
      exit;;
      mret true
    end
  end.

Definition Service_Router_RemoveRoute (service_id : Z) : M RouterCtx bool :=
  s ← get;
  if negb (sr_initialized (router s)) then mret false else
  enter;;
  match find_route service_id (router s) with
  | None => exit;; mret false
  | Some route_index =>
    (if (route_index <? route_count (router s) - 1)%nat
     then on_router (fun r => r <| routes ::= memmove_down route_index (route_count r) |>)
     else mret tt);;
    on_router (fun r => r <| route_count ::= fun n => (n - 1)%nat |>);;
    exit;;
    mret true
  end.

(** The pointer returned is the route it points to. *)
Definition Service_Router_GetRoute (service_id : Z) : M RouterCtx (option ServiceRoute) :=
  s ← get;
  if negb (sr_initialized (router s)) then mret None else
  enter;;
  let route := find_route service_id (router s) ≫= (routes (router s) !!.) in
  exit;;
  mret route.

Definition Service_Router_GetRouteCount : M RouterCtx nat :=
  s ← get;
  if negb (sr_initialized (router s)) then mret 0%nat else mret (route_count (router s)).

(** ** The table as a finite map *)

Definition router_wf (r : ServiceRouter) : Prop :=
  length (routes r) = MAX_ROUTES /\ (route_count r <= MAX_ROUTES)%nat /\
  tbl_uniq (route_count r) (routes r).
Definition router_map (r : ServiceRouter) : gmap Z ServiceRoute :=
  tbl (route_count r) (routes r).

Lemma router_lookup r k :
  router_wf r -> find_route k r ≫= (routes r !!.) = router_map r !! k.
Proof. intros (_ & _ & Hu). symmetry. by apply tbl_lookup. Qed.

Ltac router_fields c m :=
  destruct c as [[[cr cc pre post] ro n ini cs] [scf sst sp2 ss3 sini scs]],
    m as [pm tk fr tc ti tr]; simpl in *; subst.
Ltac router_run := unfold on_router, in_session; wp_steps.

Lemma add_route_wp route c m :
  sr_initialized (router c) = true -> router_wf (router c) ->
  wp (Service_Router_AddRoute (Some route)) (fun r c' m' =>
    r_session c' = r_session c /\ primask m' = primask m /\ router_wf (router c') /\
    if bool_decide (router_map (router c) !! route_service_id route = None /\
                    (route_count (router c) < MAX_ROUTES)%nat)
    then r = true /\ router_map (router c') = <[route_service_id route := route]> (router_map (router c))
    else r = false /\ router_map (router c') = router_map (router c)) c m.
Proof.
  intros Hi Hw. pose proof (router_lookup _ (route_service_id route) Hw) as Hl.
  destruct Hw as (Hlen & Hn & Hu). router_fields c m.
  unfold Service_Router_AddRoute. router_run; unfold router_wf, router_map in *;
    unfold find_route in *; simpl in *; rewrite ?Heqo in Hl; simpl in Hl; tests.
  - apply find_key_Some in Heqo as (x & Hx & Hin & Hk). rewrite Hx in Hl.
    rewrite bool_decide_eq_false_2 by (rewrite <- Hl; by intros [? _]). by split_and!.
  - rewrite bool_decide_eq_false_2 by (intros [_ ?]; lia). by split_and!.
  - rewrite bool_decide_eq_true_2 by auto.
    destruct (tbl_push n ro route) as [Hu' Hm]; [unfold MAX_ROUTES in *; lia|done|done|].
    rewrite length_insert. unfold MAX_ROUTES in *. split_and!; auto; lia.
Qed.

Lemma remove_route_wp k c m :
  sr_initialized (router c) = true -> router_wf (router c) ->
  wp (Service_Router_RemoveRoute k) (fun r c' m' =>
    r_session c' = r_session c /\ primask m' = primask m /\ router_wf (router c') /\
    r = bool_decide (is_Some (router_map (router c) !! k)) /\
    router_map (router c') = delete k (router_map (router c))) c m.
Proof.
  intros Hi Hw. pose proof (router_lookup _ k Hw) as Hl.
  destruct Hw as (Hlen & Hn & Hu). router_fields c m.
  unfold Service_Router_RemoveRoute. router_run; unfold router_wf, router_map in *;
    unfold find_route in *; simpl in *; rewrite ?Heqo in Hl; simpl in Hl; tests.
  1,2: destruct (tbl_remove k n ro n0) as [Hu' Hm]; [lia|done|done|];
    apply find_key_Some in Heqo as (x & Hx & Hin & Hk); rewrite Hx in Hl; rewrite <- Hl.
  - rewrite length_memmove_down by lia. rewrite bool_decide_eq_true_2 by eauto.
    split_and!; auto; lia.
  - replace n0 with (n - 1)%nat in * by lia. rewrite memmove_down_last in *.
    rewrite bool_decide_eq_true_2 by eauto. split_and!; auto; lia.
  - rewrite <- Hl. rewrite bool_decide_eq_false_2 by (by intros [??]).
    rewrite delete_id by done. by split_and!.
Qed.

Lemma get_route_wp k c m :
  sr_initialized (router c) = true -> router_wf (router c) ->
  wp (Service_Router_GetRoute k) (fun r c' m' =>
    r_session c' = r_session c /\ primask m' = primask m /\ router_wf (router c') /\
    r = router_map (router c) !! k /\ router_map (router c') = router_map (router c)) c m.
Proof.
  intros Hi Hw. pose proof (router_lookup _ k Hw) as Hl. router_fields c m.
  unfold Service_Router_GetRoute. router_run. by split_and!.
Qed.

(** ** Dispatch *)

(** What the session manager answers for a service. *)
Definition service_allowed (s : SessionManager) (sid : Z) : bool :=
  sm_initialized s &&
  match find_service_access sid with
  | Some e => negb (Z.land (allowed_sessions e) (Z.shiftl 1 (active_session (sm_state s))) =? 0) &&
              (required_security e <=? security_level (sm_state s))
  | None => false
  end.

Lemma service_allowed_wp sid Q s m :
  Q (service_allowed s sid) s m -> wp (Session_Manager_IsServiceAllowed sid) Q s m.
Proof.
  intros HQ. unfold service_allowed in HQ. unfold Session_Manager_IsServiceAllowed.
  do 2 wp_step. destruct (sm_initialized s); [|done]. simpl in *.
  by destruct (find_service_access sid).
Qed.

(** Does a routed request pass the route's own security requirement? *)
Definition route_cleared (s : SessionManager) (route : ServiceRoute) : bool :=
  negb (requires_security route &&
        (security_level (if sm_initialized s then sm_state s else session_state_zero) <?
         min_security_level route)).

(** Symbolic execution of the dispatch, with the two session manager calls. *)
Ltac dispatch_run :=
  repeat first
    [ match goal with Hf : _ ≫= _ = _ |- wp _ _ _ _ => rewrite Hf end
    | apply wp_zoom, service_allowed_wp; simpl
    | apply wp_zoom, get_state_wp; intros ?; simpl
    | wp_step ].

(** The code a request is refused with, [None] when it is dispatched. *)
Definition refusal (r : ServiceRouter) (s : SessionManager) (sid : Z) : option Z :=
  match router_map r !! sid with
  | None => Some UDS_RESPONSE_SERVICE_NOT_SUPPORTED
  | Some route =>
    if negb (service_allowed s sid) then Some UDS_RESPONSE_CONDITIONS_NOT_CORRECT
    else if route_cleared s route then None else Some UDS_RESPONSE_SECURITY_ACCESS_DENIED
  end.

(** ** Specification: a bounded finite map *)

Inductive RouteOp := AddRoute (r : ServiceRoute) | RemoveRoute (sid : Z) | GetRoute (sid : Z).
Inductive RouteResult := Done (b : bool) | Found (r : option ServiceRoute).

Definition route_exec (op : RouteOp) : M RouterCtx RouteResult :=
  match op with
  | AddRoute r => b ← Service_Router_AddRoute (Some r); mret (Done b)
  | RemoveRoute k => b ← Service_Router_RemoveRoute k; mret (Done b)
  | GetRoute k => r ← Service_Router_GetRoute k; mret (Found r)
  end.
Fixpoint route_execs (ops : list RouteOp) : M RouterCtx (list RouteResult) :=
  match ops with
  | [] => mret []
  | op :: ops => r ← route_exec op; rs ← route_execs ops; mret (r :: rs)
  end.

Definition spec_exec (op : RouteOp) (mp : gmap Z ServiceRoute) : RouteResult * gmap Z ServiceRoute :=
  match op with
  | AddRoute r =>
    if bool_decide (mp !! route_service_id r = None /\ (size mp < MAX_ROUTES)%nat)
    then (Done true, <[route_service_id r := r]> mp) else (Done false, mp)
  | RemoveRoute k => (Done (bool_decide (is_Some (mp !! k))), delete k mp)
  | GetRoute k => (Found (mp !! k), mp)
  end.
Fixpoint spec_execs (ops : list RouteOp) (mp : gmap Z ServiceRoute)
  : list RouteResult * gmap Z ServiceRoute :=
  match ops with
  | [] => ([], mp)
  | op :: ops => let '(r, mp) := spec_exec op mp in
                 let '(rs, mp) := spec_execs ops mp in (r :: rs, mp)
  end.

Lemma route_exec_refines op c m :
  sr_initialized (router c) = true -> router_wf (router c) ->
  wp (route_exec op) (fun r c' m' =>
    sr_initialized (router c') = true /\ router_wf (router c') /\
    (r, router_map (router c')) = spec_exec op (router_map (router c))) c m.
Proof.
  intros Hi Hw.
  assert (Hini : forall op, wp (route_exec op) (fun _ c' _ => sr_initialized (router c') = true) c m).
  { clear Hw op. intros op. router_fields c m.
    destruct op; unfold route_exec, Service_Router_AddRoute, Service_Router_RemoveRoute,
      Service_Router_GetRoute; router_run; done. }
  specialize (Hini op). unfold wp in Hini |- *.
  destruct (route_exec op c m) as [[[r c'] m']|] eqn:He; [|done]. split; [done|]. clear Hini.
  destruct op as [route|k|k]; unfold route_exec, mbind, M_bind in He; simpl.
  - pose proof (add_route_wp route c m Hi Hw) as (b & c1 & m1 & Hr & _ & _ & Hw' & Hm)%wp_run.
    rewrite Hr in He. injection He as <- <- <-. split; [done|]. unfold router_map in *.
    rewrite tbl_size by (unfold router_wf in *; lia || tauto).
    case_bool_decide; destruct Hm as [-> ->]; done.
  - pose proof (remove_route_wp k c m Hi Hw) as (b & c1 & m1 & Hr & _ & _ & Hw' & -> & Hm)%wp_run.
    rewrite Hr in He. injection He as <- <- <-. by rewrite Hm.
  - pose proof (get_route_wp k c m Hi Hw) as (b & c1 & m1 & Hr & _ & _ & Hw' & -> & Hm)%wp_run.
    rewrite Hr in He. injection He as <- <- <-. by rewrite Hm.
Qed.

(** ** Properties *)

(** C16. The route table refines a finite map with at most [MAX_ROUTES] keys:
    every sequence of [Service_Router_AddRoute], [Service_Router_RemoveRoute]
    and [Service_Router_GetRoute] calls is defined, returns what the map
    returns and leaves a well-formed table that stands for the map. *)
Theorem router_refines_map ops c m :
  sr_initialized (router c) = true -> router_wf (router c) ->
  wp (route_execs ops) (fun rs c' _ =>
    router_wf (router c') /\
    (rs, router_map (router c')) = spec_execs ops (router_map (router c))) c m.
Proof.
  revert c m. induction ops as [|op ops IH]; intros c m Hi Hw; simpl; [done|].
  apply wp_bind. eapply wp_mono; [by apply route_exec_refines|].
  intros r c1 m1 (Hi1 & Hw1 & <-). apply wp_bind. eapply wp_mono; [by apply IH|].
  intros rs c2 m2 (Hw2 & <-). done.
Qed.

(** Router and session manager after their initialisation, no routes. *)
Definition example_router : RouterCtx :=
  mkRouterCtx (router_zero <| sr_initialized := true |>) example_session.

(** Witness of [router_refines_map]. *)
Lemma router_refines_map_witness :
  router_wf (router example_router) /\
  wp (route_execs [AddRoute (mkRoute 0x10 None false 0); GetRoute 0x10; RemoveRoute 0x11])
    (fun rs c' _ => router_wf (router c') /\
      (rs, router_map (router c')) =
      spec_execs [AddRoute (mkRoute 0x10 None false 0); GetRoute 0x10; RemoveRoute 0x11]
        (router_map (router example_router))) example_router boot.
Proof.
  assert (Hw : router_wf (router example_router))
    by (split; [reflexivity|split; [vm_compute; lia|apply NoDup_nil; exact I]]).
  split; [exact Hw|]. apply router_refines_map; [reflexivity|exact Hw].
Defined.

(** C36. A request the router refuses never reaches a handler: with no route,
    without the session manager's permission or below the route's security
    level the answer is exactly the code of the first failing check, the
    response and the session state are untouched, no handler is called and
    the interrupt mask is restored. *)
Theorem refused_request_not_dispatched req resp code c m :
  sr_initialized (router c) = true -> router_wf (router c) ->
  refusal (router c) (r_session c) (service_id req) = Some code ->
  wp (Service_Router_ProcessRequest (Some req) (Some resp)) (fun r c' m' =>
    r = (code, Some resp) /\ sm_state (r_session c') = sm_state (r_session c) /\
    trace m' = trace m ++ (if pre_process_callback (sr_config (router c))
                           then [call "pre_process_callback" [service_id req]] else []) /\
    primask m' = primask m) c m.
Proof.
  intros Hi Hw Hr. unfold refusal in Hr. rewrite <- router_lookup in Hr by done.
  destruct (find_route (service_id req) (router c) ≫= (routes (router c) !!.)) as [route|] eqn:Hf;
    simpl in Hr; unfold route_cleared in Hr.
  all: router_fields c m; unfold Service_Router_ProcessRequest, in_session;
    dispatch_run; rewrite ?Heqb, ?Heqb0, ?Heqb1 in Hr; simpl in Hr; simplify_eq;
    try congruence; auto 10.
Qed.

(** Witness of [refused_request_not_dispatched]: a request without a route. *)
Lemma refused_request_not_dispatched_witness :
  wp (Service_Router_ProcessRequest (Some (mkUdsMessage 0x22 0 None 3)) (Some (mkUdsMessage 0 0 None 0)))
    (fun r c' m' =>
      r = (UDS_RESPONSE_SERVICE_NOT_SUPPORTED, Some (mkUdsMessage 0 0 None 0)) /\
      sm_state (r_session c') = sm_state example_session /\ trace m' = [] /\ primask m' = false)
    example_router boot.
Proof.
  apply (refused_request_not_dispatched (mkUdsMessage 0x22 0 None 3) (mkUdsMessage 0 0 None 0)
           UDS_RESPONSE_SERVICE_NOT_SUPPORTED example_router boot); [reflexivity| |reflexivity].
  split; [reflexivity|split; [vm_compute; lia|apply NoDup_nil; exact I]].
Defined.

(**  A request that passes every check is answered by its route's handler:
    the handler runs exactly once, with interrupts masked and the session
    state of the caller, and the router returns its code and response; the
    post-process callback follows it and the mask is restored. *)
Theorem admitted_request_dispatched req resp route h c m
    (Q : Z * UdsMessage -> SessionManager -> list Call -> Prop) :
  sr_initialized (router c) = true -> router_wf (router c) ->
  refusal (router c) (r_session c) (service_id req) = None ->
  router_map (router c) !! service_id req = Some route -> handler route = Some h ->
  (forall s1 m1, sm_state s1 = sm_state (r_session c) -> primask m1 = true ->
     trace m1 = (trace m ++ (if pre_process_callback (sr_config (router c))
                             then [call "pre_process_callback" [service_id req]] else [])) ++
                [call "handler" [service_id req]] ->
     wp (h req resp) (fun a s2 m2 => primask m2 = true /\ Q a s2 (trace m2)) s1 m1) ->
  wp (Service_Router_ProcessRequest (Some req) (Some resp)) (fun r c' m' =>
    exists a tr, r = (fst a, Some (snd a)) /\ Q a (r_session c') tr /\
      trace m' = tr ++ (if post_process_callback (sr_config (router c))
                        then [call "post_process_callback" [service_id req]] else []) /\
      primask m' = primask m) c m.
Proof.
  intros Hi Hw Hr Hm Hh Hspec. unfold refusal in Hr. rewrite Hm in Hr.
  assert (Hf := router_lookup _ (service_id req) Hw). rewrite Hm in Hf. clear Hm Hw.
  unfold route_cleared in Hr.
  router_fields c m; unfold Service_Router_ProcessRequest, in_session. dispatch_run.
  all: rewrite ?Heqb, ?Heqb0, ?Heqb1 in Hr; simpl in Hr; simplify_eq; try congruence.
  all: apply wp_zoom; simpl; eapply wp_mono; [apply Hspec; reflexivity|];
    intros a s2 [pm2 tk2 fr2 tc2 ti2 tr2] [Hp HQ]; simpl in *; subst; wp_steps; eauto 10.
Qed.

(** A TesterPresent route whose handler echoes the service, and the router
    with that route. *)
Definition echo_handler : ServiceHandler := fun req resp =>
  mret (UDS_RESPONSE_POSITIVE, resp <| service_id := service_id req + 0x40 |>).
Definition echo_route : ServiceRoute := mkRoute 0x3E (Some echo_handler) true 1.
Definition echo_router : RouterCtx :=
  mkRouterCtx (mkRouter (mkRouterConfig None 0 true true)
                 (echo_route :: replicate 49 route_zero) 1 true cs_zero) example_session.

(** Witness of [admitted_request_dispatched]. *)
Lemma admitted_request_dispatched_witness :
  wp (Service_Router_ProcessRequest (Some (mkUdsMessage 0x3E 0 None 2)) (Some (mkUdsMessage 0 0 None 0)))
    (fun r c' m' =>
      exists a tr, r = (fst a, Some (snd a)) /\
        (a = (UDS_RESPONSE_POSITIVE, mkUdsMessage 0x7E 0 None 0) /\
         tr = [call "pre_process_callback" [0x3E]; call "handler" [0x3E]]) /\
        trace m' = tr ++ [call "post_process_callback" [0x3E]] /\ primask m' = false)
    echo_router boot.
Proof.
  apply (admitted_request_dispatched (mkUdsMessage 0x3E 0 None 2) (mkUdsMessage 0 0 None 0)
           echo_route echo_handler echo_router boot
           (fun a _ tr => a = (UDS_RESPONSE_POSITIVE, mkUdsMessage 0x7E 0 None 0) /\
              tr = [call "pre_process_callback" [0x3E]; call "handler" [0x3E]]));
    try reflexivity.
  - split; [reflexivity|split; [vm_compute; lia|apply NoDup_singleton]].
  - intros s1 m1 _ Hp Ht. unfold echo_handler. apply wp_ret. simpl. rewrite Ht. auto.
Defined.
