(* ===== verification/DataManager.v ===== *)
(** * Data manager

    [src/runtime/diagnostic/data_manager.c]: the table of data identifiers and
    the guarded reads and writes behind the UDS data services.

    [data_ptr] points into the application's memory, which several identifiers
    may share: the blocks are a store ([mem]) next to the manager's statics.
    The handlers of an identifier are the integrator's functions; the
    processor's [float] arithmetic is an argument ([FloatOps]) on the four
    bytes of a value. *)

From S2P Require Import Prelude Machine Tables SessionManager.

Definition MAX_IDENTIFIERS : nat := 200.
Definition DATA_ACCESS_READ : Z := 0x01.
Definition DATA_ACCESS_WRITE : Z := 0x02.
Definition DATA_TYPE_FLOAT : Z := 6.
Definition SCALING_NONE : Z := 0.
Definition SCALING_LINEAR : Z := 1.
Definition SCALING_INVERSE : Z := 2.
Definition SCALING_FORMULA : Z := 3.
Definition SCALING_TABLE : Z := 4.

(** A read handler gets the caller's buffer and length and leaves its own. *)
Record DataIdentifier := mkIdentifier {
  did : Z; id_type : Z; id_length : Z; access_rights : Z; id_security_level : Z; scaling : Z;
  data_ptr : option Z;
  read_handler : option (list Z -> Z -> Machine -> bool * list Z * Z);
  write_handler : option (list Z -> Machine -> bool) }.
#[export] Instance DataIdentifier_key : Keyed DataIdentifier := did.
Definition identifier_zero : DataIdentifier := mkIdentifier 0 0 0 0 0 0 None None None.

Record DataManagerConfig := mkDataConfig {
  cfg_identifiers : option (list DataIdentifier); cfg_identifier_count : nat; access_callback : bool }.

Record DataManager := mkDataManager {
  dm_config : DataManagerConfig;
  identifiers : list DataIdentifier;
  identifier_count : nat;
  dm_initialized : bool;
  dm_critical : CriticalSection }.
#[export] Instance eta_DataManager : Eta DataManager := fun s =>
  mkDataManager (dm_config s) (identifiers s) (identifier_count s) (dm_initialized s) (dm_critical s).
Definition data_manager_zero : DataManager :=
  mkDataManager (mkDataConfig None 0 false) (replicate MAX_IDENTIFIERS identifier_zero) 0 false cs_zero.

Record DataCtx := mkDataCtx { dm : DataManager; dm_session : SessionManager; mem : gmap Z (list Z) }.
#[export] Instance eta_DataCtx : Eta DataCtx := fun c => mkDataCtx (dm c) (dm_session c) (mem c).
#[export, refine] Instance DataCtx_critical : HasCritical DataCtx :=
  {| crit c := dm_critical (dm c); set_crit k c := c <| dm ::= fun s => s <| dm_critical := k |> |> |}.
Proof. all: by intros; destruct s as [[] ? ?]. Defined.

Definition on_dm (f : DataManager -> DataManager) : M DataCtx unit := modify (fun c => c <| dm ::= f |>).
Definition ask_session {A} (c : M SessionManager A) : M DataCtx A :=
  zoom dm_session (fun t s => s <| dm_session := t |>) c.

(** [float] arithmetic of the target, on the bytes of one value. *)
Record FloatOps := mkFloatOps {
  times_100 : list Z -> list Z; over_100 : list Z -> list Z;
  is_zero : list Z -> bool; one_over : list Z -> list Z }.

Section data.
Context (fpu : FloatOps).

Definition find_identifier (k : Z) : M DataCtx (option nat) :=
  c ← get; mret (find_key k (identifier_count (dm c)) (identifiers (dm c))).
Definition identifier_at (i : nat) : M DataCtx DataIdentifier :=
  c ← get; match identifiers (dm c) !! i with Some x => mret x | None => fault end.

(** The answer and the buffer after the call; [None] when a [float] is read
    from fewer than four bytes. *)
Definition apply_scaling (identifier : DataIdentifier) (data : list Z) (to_raw : bool)
  : option (bool * list Z) :=
  let on_float f := if (length data <? 4)%nat then None else Some (true, f (take 4 data) ++ drop 4 data) in
  let s := scaling identifier in
  if s =? SCALING_NONE then Some (true, data)
  else if s =? SCALING_LINEAR then
    if id_type identifier =? DATA_TYPE_FLOAT then on_float (if to_raw then times_100 fpu else over_100 fpu)
    else Some (true, data)
  else if s =? SCALING_INVERSE then
    if id_type identifier =? DATA_TYPE_FLOAT
    then on_float (fun x => if is_zero fpu x then x else one_over fpu x)
    else Some (true, data)
  else if (s =? SCALING_FORMULA) || (s =? SCALING_TABLE) then Some (true, data)
  else Some (false, data).

Definition Data_Manager_Init (config : option DataManagerConfig) : M DataCtx bool :=
  match config with
  | None => mret false
  | Some config =>
    enter;;
    on_dm (fun s => s <| dm_config := config |>);;
    (match cfg_identifiers config with
     | Some src =>
       if (0 <? cfg_identifier_count config)%nat then
         let copy_count := if (cfg_identifier_count config <=? MAX_IDENTIFIERS)%nat
                           then cfg_identifier_count config else MAX_IDENTIFIERS in
         if (length src <? copy_count)%nat then fault else
         on_dm (fun s => s <| identifiers ::= fun a => take copy_count src ++ drop copy_count a |>
                           <| identifier_count := copy_count |>)
       else on_dm (fun s => s <| identifier_count := 0%nat |>)
     | None => on_dm (fun s => s <| identifier_count := 0%nat |>)
     end);;
    init_crit;;
    on_dm (fun s => s <| dm_initialized := true |>);;
    exit;;
    mret true
  end.

Definition Data_Manager_DeInit : M DataCtx unit :=
  enter;; on_dm (fun _ => data_manager_zero);; exit.

(** [memcpy] between a block of the store and a buffer. *)
Definition load_block (p : Z) (n : nat) : M DataCtx (list Z) :=
  c ← get;
  match mem c !! p with
  | Some b => if (n <=? length b)%nat then mret (take n b) else fault
  | None => fault
  end.
Definition store_block (p : Z) (d : list Z) : M DataCtx unit :=
  c ← get;
  match mem c !! p with
  | Some b => if (length d <=? length b)%nat
              then modify (fun c => c <| mem ::= <[p := d ++ drop (length d) b]> |>) else fault
  | None => fault
  end.
Definition checked {A} (o : option A) : M DataCtx A :=
  match o with Some a => mret a | None => fault end.

(** [buf] is the caller's buffer and [len] the value of [*length] ([None] for a
    NULL pointer); the answer with both as the call leaves them. *)
Definition Data_Manager_ReadData (k : Z) (out : option (list Z * Z)) : M DataCtx (bool * option (list Z * Z)) :=
  c ← get;
  match out with
  | None => mret (false, None)
  | Some (buf, len) =>
    if negb (dm_initialized (dm c)) then mret (false, out) else
    enter;;
    found ← find_identifier k;
    match found with
    | None => exit;; mret (false, out)
    | Some i =>
      identifier ← identifier_at i;
      if Z.land (access_rights identifier) DATA_ACCESS_READ =? 0 then exit;; mret (false, out) else
      session_state ← ask_session Session_Manager_GetState;
      if security_level session_state <? id_security_level identifier then exit;; mret (false, out) else
      r ← match read_handler identifier with
          | Some h => emit "read_handler" [k];; on_machine (fun m => (h buf len m, m))
          | None =>
            match data_ptr identifier with
            | Some p =>
              if id_length identifier <=? len then
                let n := Z.to_nat (id_length identifier) in
                bytes ← load_block p n;
                if (length buf <? n)%nat then fault else
                mret (true, bytes ++ drop n buf, id_length identifier)
              else mret (false, buf, len)
            | None => mret (false, buf, len)
            end
          end;
      let '(result, buf, len) := r in
      final ← (if (result : bool) then
                 s ← checked (apply_scaling identifier buf false);
                 callback (access_callback (dm_config (dm c))) "access_callback" [k; DATA_ACCESS_READ; 1];;
                 mret s
               else mret (false, buf));
      exit;;
      mret (fst final, Some (snd final, len))
    end
  end.

(** [data] is the caller's buffer, at least [len] bytes; [stack] what the
    [scaled_data] array holds before it is written. *)
Definition Data_Manager_WriteData (stack : list Z) (k : Z) (data : option (list Z)) (len : nat) : M DataCtx bool :=
  c ← get;
  match data with
  | None => mret false
  | Some data =>
    if negb (dm_initialized (dm c)) then mret false else
    enter;;
    found ← find_identifier k;
    match found with
    | None => exit;; mret false
    | Some i =>
      identifier ← identifier_at i;
      if Z.land (access_rights identifier) DATA_ACCESS_WRITE =? 0 then exit;; mret false else
      session_state ← ask_session Session_Manager_GetState;
      if security_level session_state <? id_security_level identifier then exit;; mret false else
      if (256 <? len)%nat then exit;; mret false else
      if (length data <? len)%nat then fault else
      let scaled_data := take len data ++ drop len stack in
      s ← checked (apply_scaling identifier scaled_data true);
      let '(ok, scaled_data) := s in
      if negb (ok : bool) then exit;; mret false else
      result ← match write_handler identifier with
               | Some h => emit "write_handler" (k :: take len scaled_data);;
                           on_machine (fun m => (h (take len scaled_data) m, m))
               | None =>
                 match data_ptr identifier with
                 | Some p =>
                   if Z.of_nat len =? id_length identifier then
                     store_block p (take len scaled_data);; mret true
                   else mret false
                 | None => mret false
                 end
               end;
      callback (result && access_callback (dm_config (dm c))) "access_callback" [k; DATA_ACCESS_WRITE; 1];;
      exit;;
      mret result
    end
  end.

Definition Data_Manager_AddIdentifier (identifier : option DataIdentifier) : M DataCtx bool :=
  c ← get;
  match identifier with
  | None => mret false
  | Some x =>
    if negb (dm_initialized (dm c)) then mret false else
    enter;;
    found ← find_identifier (did x);
    if bool_decide (is_Some found) then exit;; mret false else
    if (MAX_IDENTIFIERS <=? identifier_count (dm c))%nat then exit;; mret false else
    on_dm (fun s => s <| identifiers ::= <[identifier_count s := x]> |> <| identifier_count ::= S |>);;
    exit;;
    mret true
  end.

Definition Data_Manager_RemoveIdentifier (k : Z) : M DataCtx bool :=
  c ← get;
  if negb (dm_initialized (dm c)) then mret false else
  enter;;
  found ← find_identifier k;
  match found with
  | None => exit;; mret false
  | Some index =>
    (if (index <? identifier_count (dm c) - 1)%nat
     then on_dm (fun s => s <| identifiers ::= memmove_down index (identifier_count s) |>)
     else mret tt);;
    on_dm (fun s => s <| identifier_count ::= fun n => (n - 1)%nat |>);;
    exit;;
    mret true
  end.

Definition Data_Manager_GetIdentifier (k : Z) : M DataCtx (option nat) :=
  c ← get;
  if negb (dm_initialized (dm c)) then mret None else
  enter;;
  found ← find_identifier k;
  exit;;
  mret found.

Definition Data_Manager_HasAccess (k access : Z) : M DataCtx bool :=
  c ← get;
  if negb (dm_initialized (dm c)) then mret false else
  enter;;
  found ← find_identifier k;
  match found with
  | None => exit;; mret false
  | Some i =>
    identifier ← identifier_at i;
    session_state ← ask_session Session_Manager_GetState;
    let has_access := negb (Z.land (access_rights identifier) access =? 0) &&
                      (id_security_level identifier <=? security_level session_state) in
    exit;;
    mret has_access
  end.

Definition Data_Manager_GetIdentifierCount : M DataCtx nat :=
  c ← get;
  mret (if negb (dm_initialized (dm c)) then 0%nat else identifier_count (dm c)).
End data.

(** ** The table as a finite map, and who may access it *)

Record data_wf (c : DataCtx) : Prop := {
  dw_length : length (identifiers (dm c)) = MAX_IDENTIFIERS;
  dw_count : (identifier_count (dm c) <= MAX_IDENTIFIERS)%nat;
  dw_uniq : tbl_uniq (identifier_count (dm c)) (identifiers (dm c)) }.
Definition data_map (c : DataCtx) : gmap Z DataIdentifier := tbl (identifier_count (dm c)) (identifiers (dm c)).
(** The level the session manager reports. *)
Definition level (c : DataCtx) : Z :=
  security_level (if sm_initialized (dm_session c) then sm_state (dm_session c) else session_state_zero).
Definition granted (c : DataCtx) (k right : Z) : bool :=
  match data_map c !! k with
  | Some x => negb (Z.land (access_rights x) right =? 0) && (id_security_level x <=? level c)
  | None => false
  end.

Lemma data_lookup c k : data_wf c ->
  find_key k (identifier_count (dm c)) (identifiers (dm c)) ≫= (identifiers (dm c) !!.) = data_map c !! k.
Proof. intros []. symmetry. by apply tbl_lookup. Qed.
Lemma data_map_Some c k x : data_wf c -> data_map c !! k = Some x ->
  exists i, find_key k (identifier_count (dm c)) (identifiers (dm c)) = Some i /\ identifiers (dm c) !! i = Some x.
Proof. intros Hw. rewrite <- data_lookup by done. destruct (find_key _ _ _) as [i|]; naive_solver. Qed.
Lemma data_map_None c k : data_wf c -> data_map c !! k = None ->
  find_key k (identifier_count (dm c)) (identifiers (dm c)) = None.
Proof.
  intros Hw. rewrite <- data_lookup by done. destruct (find_key _ _ _) as [i|] eqn:E; [|done]. simpl.
  apply find_key_Some in E as (x & -> & _). done.
Qed.

(** What a call that finds its identifier sees. *)
Lemma wp_find c k m Q : data_wf c ->
  (forall x i, data_map c !! k = Some x -> identifiers (dm c) !! i = Some x ->
     find_key k (identifier_count (dm c)) (identifiers (dm c)) = Some i -> Q (Some i) c m) ->
  (data_map c !! k = None -> Q None c m) -> wp (find_identifier k) Q c m.
Proof.
  intros Hw HS HN. unfold find_identifier. apply wp_bind, wp_get, wp_ret.
  destruct (data_map c !! k) as [x|] eqn:E.
  - destruct (data_map_Some c k x Hw E) as (i & Hf & Hi). rewrite Hf. eauto.
  - rewrite data_map_None by done. auto.
Qed.
Lemma wp_identifier_at i x c m Q : identifiers (dm c) !! i = Some x -> Q x c m -> wp (identifier_at i) Q c m.
Proof. intros Hi HQ. unfold identifier_at. apply wp_bind, wp_get. by rewrite Hi. Qed.
Lemma wp_level c m (Q : SessionState -> DataCtx -> Machine -> Prop) :
  (forall st k, security_level st = level c -> Q st (c <| dm_session ::= fun s => s <| sm_critical := k |> |>) m) ->
  wp (ask_session Session_Manager_GetState) Q c m.
Proof. intros HQ. apply wp_zoom, get_state_wp. intros k. by apply HQ. Qed.

(** ** Table operations *)

Lemma add_identifier_wp x c m : dm_initialized (dm c) = true -> data_wf c ->
  wp (Data_Manager_AddIdentifier (Some x)) (fun r c' m' =>
    data_wf c' /\ mem c' = mem c /\ primask m' = primask m /\
    if bool_decide (data_map c !! did x = None /\ (size (data_map c) < MAX_IDENTIFIERS)%nat)
    then r = true /\ data_map c' = <[did x := x]> (data_map c) else r = false /\ data_map c' = data_map c) c m.
Proof.
  intros Hi Hw. pose proof Hw as [Hl Hc Hu]. unfold Data_Manager_AddIdentifier. apply wp_bind, wp_get. rewrite Hi. simpl.
  assert (Hsz : size (data_map c) = identifier_count (dm c)) by (apply tbl_size; [done|lia]). rewrite Hsz.
  apply wp_bind, wp_enter, wp_bind, wp_find; [by constructor|..].
  - intros y i Hy _ _. rewrite bool_decide_eq_true_2 by eauto. apply wp_bind. eapply wp_exit; [done|done|]. apply wp_ret.
    rewrite bool_decide_eq_false_2 by (intros [Hn _]; unfold data_map in *; simpl in *; congruence). by split_and!.
  - intros Hn. change (data_map c !! did x = None) in Hn. rewrite bool_decide_eq_false_2 by (by intros []).
    destruct (Nat.leb_spec MAX_IDENTIFIERS (identifier_count (dm c))).
    + apply wp_bind. eapply wp_exit; [done|done|]. apply wp_ret.
      rewrite bool_decide_eq_false_2 by (intros [_ ?]; lia). by split_and!.
    + apply wp_bind, wp_modify, wp_bind. eapply wp_exit; [done|done|]. apply wp_ret.
      destruct (tbl_push (identifier_count (dm c)) (identifiers (dm c)) x) as [Hu' Hm];
        [lia|done|by apply data_map_None|].
      rewrite bool_decide_eq_true_2 by done. split_and!; try done.
      constructor; cbn; rewrite ?length_insert; try done; lia.
Qed.

Lemma remove_identifier_wp k c m : dm_initialized (dm c) = true -> data_wf c ->
  wp (Data_Manager_RemoveIdentifier k) (fun r c' m' =>
    data_wf c' /\ mem c' = mem c /\ primask m' = primask m /\
    r = bool_decide (is_Some (data_map c !! k)) /\ data_map c' = delete k (data_map c)) c m.
Proof.
  intros Hi Hw. pose proof Hw as [Hl Hc Hu]. unfold Data_Manager_RemoveIdentifier. apply wp_bind, wp_get. rewrite Hi. simpl.
  apply wp_bind, wp_enter, wp_bind, wp_find; [by constructor|..].
  - intros x i Hx Hix E. change (data_map c !! k = Some x) in Hx.
    change (find_key k (identifier_count (dm c)) (identifiers (dm c)) = Some i) in E.
    destruct (tbl_remove k (identifier_count (dm c)) (identifiers (dm c)) i) as [Hu' Hm]; [lia|done|done|].
    assert (Hs : is_Some (data_map c !! k)) by eauto.
    assert (Hlt : (i < identifier_count (dm c))%nat) by (by apply find_key_Some in E as (? & _ & ? & _)).
    rewrite bool_decide_eq_true_2 by done.
    destruct (Nat.ltb_spec i (identifier_count (dm c) - 1)).
    + apply wp_bind, wp_modify, wp_bind, wp_modify, wp_bind. eapply wp_exit; [done|done|]. apply wp_ret.
      split_and!; try done. constructor; cbn; rewrite ?length_memmove_down by lia; try done; lia.
    + replace i with (identifier_count (dm c) - 1)%nat in * by lia. rewrite memmove_down_last in *.
      apply wp_bind, wp_ret, wp_bind, wp_modify, wp_bind. eapply wp_exit; [done|done|]. apply wp_ret.
      split_and!; try done. constructor; cbn; try done; lia.
  - intros Hn. change (data_map c !! k = None) in Hn. apply wp_bind. eapply wp_exit; [done|done|]. apply wp_ret.
    rewrite bool_decide_eq_false_2 by (rewrite Hn; by intros []). rewrite delete_id by done. by split_and!.
Qed.

(** ** Access control *)

(** The state two calls may differ in without any visible effect. *)
Definition unchanged (c : DataCtx) (m : Machine) (c' : DataCtx) (m' : Machine) : Prop :=
  mem c' = mem c /\ data_map c' = data_map c /\ trace m' = trace m /\ primask m' = primask m.

Lemma read_refused fpu k out c m : dm_initialized (dm c) = true -> data_wf c ->
  granted c k DATA_ACCESS_READ = false ->
  wp (Data_Manager_ReadData fpu k out) (fun r c' m' => r = (false, out) /\ unchanged c m c' m') c m.
Proof.
  intros Hi Hw Hg. unfold Data_Manager_ReadData. apply wp_bind, wp_get. destruct out as [[buf len]|]; [|by apply wp_ret].
  rewrite Hi. simpl. apply wp_bind, wp_enter, wp_bind, wp_find; [by destruct Hw; constructor|..].
  - intros x i Hx Hix _. change (data_map c !! k = Some x) in Hx. unfold granted in Hg. rewrite Hx in Hg.
    apply wp_bind, (wp_identifier_at i x); [done|]. destruct (Z.land _ _ =? 0); simpl in Hg.
    + apply wp_bind. eapply wp_exit; [done|done|]. by apply wp_ret.
    + apply wp_bind, wp_level. intros st ks Hst. change (security_level st = level c) in Hst.
      rewrite Hst, Z.ltb_antisym, Hg. apply wp_bind. eapply wp_exit; [done|done|]. by apply wp_ret.
  - intros _. apply wp_bind. eapply wp_exit; [done|done|]. by apply wp_ret.
Qed.

Lemma write_refused fpu stack k data len c m : dm_initialized (dm c) = true -> data_wf c ->
  granted c k DATA_ACCESS_WRITE = false ->
  wp (Data_Manager_WriteData fpu stack k data len) (fun r c' m' => r = false /\ unchanged c m c' m') c m.
Proof.
  intros Hi Hw Hg. unfold Data_Manager_WriteData. apply wp_bind, wp_get. destruct data as [d|]; [|by apply wp_ret].
  rewrite Hi. simpl. apply wp_bind, wp_enter, wp_bind, wp_find; [by destruct Hw; constructor|..].
  - intros x i Hx Hix _. change (data_map c !! k = Some x) in Hx. unfold granted in Hg. rewrite Hx in Hg.
    apply wp_bind, (wp_identifier_at i x); [done|]. destruct (Z.land _ _ =? 0); simpl in Hg.
    + apply wp_bind. eapply wp_exit; [done|done|]. by apply wp_ret.
    + apply wp_bind, wp_level. intros st ks Hst. change (security_level st = level c) in Hst.
      rewrite Hst, Z.ltb_antisym, Hg. apply wp_bind. eapply wp_exit; [done|done|]. by apply wp_ret.
  - intros _. apply wp_bind. eapply wp_exit; [done|done|]. by apply wp_ret.
Qed.

Lemma has_access_wp k right c m : dm_initialized (dm c) = true -> data_wf c ->
  wp (Data_Manager_HasAccess k right) (fun r c' m' => r = granted c k right /\ unchanged c m c' m') c m.
Proof.
  intros Hi Hw. unfold Data_Manager_HasAccess. apply wp_bind, wp_get. rewrite Hi. simpl.
  apply wp_bind, wp_enter, wp_bind, wp_find; [by destruct Hw; constructor|..].
  - intros x i Hx Hix _. change (data_map c !! k = Some x) in Hx. unfold granted. rewrite Hx.
    apply wp_bind, (wp_identifier_at i x); [done|]. apply wp_bind, wp_level. intros st ks Hst.
    change (security_level st = level c) in Hst. rewrite Hst.
    apply wp_bind. eapply wp_exit; [done|done|]. by apply wp_ret.
  - intros Hx. change (data_map c !! k = None) in Hx. unfold granted. rewrite Hx.
    apply wp_bind. eapply wp_exit; [done|done|]. by apply wp_ret.
Qed.

(** ** Reading and writing memory *)

(** An identifier that is plain memory at [p]. *)
Definition plain (x : DataIdentifier) (p : Z) (n : nat) : Prop :=
  read_handler x = None /\ write_handler x = None /\ data_ptr x = Some p /\
  id_length x = Z.of_nat n /\ scaling x = SCALING_NONE.

Lemma plain_write_wp fpu stack k x p d b c m : dm_initialized (dm c) = true -> data_wf c ->
  granted c k DATA_ACCESS_WRITE = true -> data_map c !! k = Some x -> plain x p (length d) ->
  (length d <= 256)%nat -> mem c !! p = Some b -> (length d <= length b)%nat ->
  wp (Data_Manager_WriteData fpu stack k (Some d) (length d)) (fun r c' m' =>
    r = true /\ mem c' = <[p := d ++ drop (length d) b]> (mem c) /\ primask m' = primask m /\
    data_wf c' /\ data_map c' = data_map c /\ dm_initialized (dm c') = true /\ level c' = level c) c m.
Proof.
  intros Hi Hw Hg Hx (_ & Hwh & Hp & Hlen & Hs) Hd Hb Hbl. unfold granted in Hg. rewrite Hx in Hg.
  apply andb_prop in Hg as [Hr Hlv]. apply negb_true_iff in Hr.
  unfold Data_Manager_WriteData. apply wp_bind, wp_get. rewrite Hi. simpl.
  apply wp_bind, wp_enter, wp_bind, wp_find; [by destruct Hw; constructor| |intros Hn; change (data_map c !! k = None) in Hn; congruence].
  intros x' i Hx' Hix _. change (data_map c !! k = Some x') in Hx'. rewrite Hx in Hx'. injection Hx' as <-.
  apply wp_bind, (wp_identifier_at i x); [done|]. rewrite Hr. apply wp_bind, wp_level. intros st ks Hst.
  change (security_level st = level c) in Hst. rewrite Hst, Z.ltb_antisym, Hlv. cbn [negb].
  rewrite (proj2 (Nat.ltb_ge 256 (length d))), Nat.ltb_irrefl by done.
  unfold apply_scaling. rewrite Hs, Z.eqb_refl. cbn [checked]. apply wp_bind, wp_ret. cbn [negb].
  rewrite take_app_le, take_take, Nat.min_id, take_ge, Hwh, Hp, Hlen, Z.eqb_refl by (rewrite ?length_take; lia).
  apply wp_bind, wp_bind. unfold store_block. apply wp_bind, wp_get. cbn [mem].
  change (mem (_ <| dm_session ::= _ |>)) with (mem c). rewrite Hb, (proj2 (Nat.leb_le _ _)) by done.
  apply wp_modify, wp_ret, wp_bind, wp_callback, wp_bind. eapply wp_exit; [done|done|]. apply wp_ret.
  destruct Hw. by split_and!; try done; constructor.
Qed.

Lemma plain_read_wp fpu k x p n b buf len c m : dm_initialized (dm c) = true -> data_wf c ->
  granted c k DATA_ACCESS_READ = true -> data_map c !! k = Some x -> plain x p n ->
  mem c !! p = Some b -> (n <= length b)%nat -> (n <= length buf)%nat -> Z.of_nat n <= len ->
  wp (Data_Manager_ReadData fpu k (Some (buf, len))) (fun r c' m' =>
    r = (true, Some (take n b ++ drop n buf, Z.of_nat n)) /\ mem c' = mem c /\ primask m' = primask m) c m.
Proof.
  intros Hi Hw Hg Hx (Hrh & _ & Hp & Hlen & Hs) Hb Hbl Hbuf Hlenr. unfold granted in Hg. rewrite Hx in Hg.
  apply andb_prop in Hg as [Hr Hlv]. apply negb_true_iff in Hr.
  unfold Data_Manager_ReadData. apply wp_bind, wp_get. rewrite Hi. simpl.
  apply wp_bind, wp_enter, wp_bind, wp_find; [by destruct Hw; constructor| |intros Hn; change (data_map c !! k = None) in Hn; congruence].
  intros x' i Hx' Hix _. change (data_map c !! k = Some x') in Hx'. rewrite Hx in Hx'. injection Hx' as <-.
  apply wp_bind, (wp_identifier_at i x); [done|]. rewrite Hr. apply wp_bind, wp_level. intros st ks Hst.
  change (security_level st = level c) in Hst. rewrite Hst, Z.ltb_antisym, Hlv. cbn [negb].
  rewrite Hrh, Hp, Hlen, (proj2 (Z.leb_le _ _)), Nat2Z.id by done.
  apply wp_bind, wp_bind. unfold load_block. apply wp_bind, wp_get.
  change (mem (_ <| dm_session ::= _ |>)) with (mem c). rewrite Hb, (proj2 (Nat.leb_le _ _)) by done.
  apply wp_ret. rewrite (proj2 (Nat.ltb_ge (length buf) n)) by done. apply wp_ret.
  unfold apply_scaling. rewrite Hs, Z.eqb_refl. cbn [checked]. apply wp_bind, wp_bind, wp_ret, wp_bind, wp_callback, wp_ret, wp_bind.
  eapply wp_exit; [done|done|]. by apply wp_ret.
Qed.

(** Access control of the data services: without the access right or below
    the identifier's security level, [ReadData] and [WriteData] answer false,
    touch neither memory nor the caller's buffer, call no handler and restore the
    interrupt mask; [HasAccess] answers exactly that condition. *)
Theorem data_access_control fpu stack k out data len c m :
  dm_initialized (dm c) = true -> data_wf c ->
  (granted c k DATA_ACCESS_READ = false ->
   wp (Data_Manager_ReadData fpu k out) (fun r c' m' => r = (false, out) /\ unchanged c m c' m') c m) /\
  (granted c k DATA_ACCESS_WRITE = false ->
   wp (Data_Manager_WriteData fpu stack k data len) (fun r c' m' => r = false /\ unchanged c m c' m') c m) /\
  (forall right, wp (Data_Manager_HasAccess k right) (fun r c' m' => r = granted c k right /\ unchanged c m c' m') c m).
Proof.
  intros Hi Hw. split_and!.
  - intros Hg. by apply read_refused.
  - intros Hg. by apply write_refused.
  - intros right. by apply has_access_wp.
Qed.

Definition example_fpu : FloatOps := mkFloatOps (fun x => x) (fun x => x) (fun _ => false) (fun x => x).
(** Two identifiers over one block, the second for reading only. *)
Definition example_data (lvl : Z) : DataCtx :=
  mkDataCtx
    (data_manager_zero <| identifiers ::= fun a => [
       mkIdentifier 0xF190 8 3 3 1 SCALING_NONE (Some 0x2000) None None;
       mkIdentifier 0xF191 8 3 1 0 SCALING_NONE (Some 0x2000) None None] ++ drop 2 a |>
       <| identifier_count := 2%nat |> <| dm_initialized := true |>)
    (session_manager_zero <| sm_initialized := true |> <| sm_state ::= fun s => s <| security_level := lvl |> |>)
    {[ 0x2000 := [7; 7; 7; 7] ]}.
Lemma example_data_wf lvl : data_wf (example_data lvl).
Proof.
  constructor; [reflexivity|unfold MAX_IDENTIFIERS; simpl; lia|].
  unfold tbl_uniq. simpl. repeat constructor; set_solver.
Qed.

Lemma data_access_control_witness :
  wp (Data_Manager_WriteData example_fpu (replicate 256 0) 0xF190 (Some [1; 2; 3]) 3)
    (fun r c' m' => r = false /\ unchanged (example_data 0) boot c' m') (example_data 0) boot /\
  wp (Data_Manager_HasAccess 0xF191 DATA_ACCESS_READ)
    (fun r c' m' => r = true /\ unchanged (example_data 0) boot c' m') (example_data 0) boot.
Proof.
  destruct (data_access_control example_fpu (replicate 256 0) 0xF190 None (Some [1; 2; 3]) 3 (example_data 0) boot
              eq_refl (example_data_wf 0)) as (_ & Hwr & _).
  destruct (data_access_control example_fpu (replicate 256 0) 0xF191 None None 3 (example_data 0) boot
              eq_refl (example_data_wf 0)) as (_ & _ & Hacc).
  split; [by apply Hwr|]. exact (Hacc DATA_ACCESS_READ).
Defined.

(** C29. Write then read: writing an unscaled identifier that is plain memory
    stores exactly the bytes given, leaves every other block alone, and any
    readable identifier over the same block, that one or an alias, then reads
    those bytes back. *)
Theorem data_write_then_read fpu stack k k' x x' p d b buf len c m :
  dm_initialized (dm c) = true -> data_wf c ->
  data_map c !! k = Some x -> plain x p (length d) -> granted c k DATA_ACCESS_WRITE = true ->
  data_map c !! k' = Some x' -> plain x' p (length d) -> granted c k' DATA_ACCESS_READ = true ->
  (length d <= 256)%nat -> mem c !! p = Some b -> (length d <= length b)%nat ->
  (length d <= length buf)%nat -> Z.of_nat (length d) <= len ->
  wp (ok ← Data_Manager_WriteData fpu stack k (Some d) (length d);
      r ← Data_Manager_ReadData fpu k' (Some (buf, len));
      mret (ok, r)) (fun o c' m' =>
    o = (true, (true, Some (d ++ drop (length d) buf, Z.of_nat (length d)))) /\
    mem c' = <[p := d ++ drop (length d) b]> (mem c) /\ primask m' = primask m) c m.
Proof.
  intros Hi Hw Hx Hpl Hg Hx' Hpl' Hg' Hd Hb Hbl Hbuf Hlen.
  apply wp_bind. eapply wp_mono; [by eapply plain_write_wp|].
  intros ok c1 m1 (-> & Hm1 & Hpm1 & Hw1 & Hmap1 & Hi1 & Hlv1). apply wp_bind.
  eapply wp_mono.
  - eapply (plain_read_wp fpu k' x' p (length d) (d ++ drop (length d) b)); try done.
    + unfold granted in *. by rewrite Hmap1, Hlv1.
    + by rewrite Hmap1.
    + rewrite Hm1. apply lookup_insert_eq.
    + rewrite length_app. lia.
  - intros r c2 m2 (-> & Hm2 & Hpm2). apply wp_ret. rewrite take_app_length.
    split_and!; [done|by rewrite Hm2|by rewrite Hpm2].
Qed.

Lemma data_write_then_read_witness :
  wp (ok ← Data_Manager_WriteData example_fpu (replicate 256 0) 0xF190 (Some [1; 2; 3]) 3;
      r ← Data_Manager_ReadData example_fpu 0xF191 (Some ([0; 0; 0; 9], 4));
      mret (ok, r)) (fun o c' _ =>
    o = (true, (true, Some ([1; 2; 3; 9], 3))) /\ mem c' !! 0x2000 = Some [1; 2; 3; 7]) (example_data 1) boot.
Proof.
  eapply wp_mono.
  - apply (data_write_then_read example_fpu (replicate 256 0) 0xF190 0xF191
             (mkIdentifier 0xF190 8 3 3 1 SCALING_NONE (Some 0x2000) None None)
             (mkIdentifier 0xF191 8 3 1 0 SCALING_NONE (Some 0x2000) None None)
             0x2000 [1; 2; 3] [7; 7; 7; 7] [0; 0; 0; 9] 4 (example_data 1) boot);
      try reflexivity; try (simpl; lia); try (by split_and!). apply example_data_wf.
  - intros o c' m' (-> & -> & _). split; [done|]. by rewrite lookup_insert_eq.
Defined.
