(* ===== verification/DtcManager.v ===== *)
(** * Diagnostic trouble codes

    [src/runtime/diagnostic/dtc_manager.c]: the table of DTC records, their
    status, severity and ageing, and the freeze frames.  [memory_allocate] is
    not part of the program: whether a request was granted is an argument of
    [DTC_Init], and a granted block is the array the code clears. *)

From S2P Require Import Prelude Machine Tables.

Definition MAX_DTC_COUNT : Z := 1000.
Definition MAX_FREEZE_FRAMES : Z := 10.
Definition MAX_FREEZE_FRAME_SIZE : Z := 100.

Definition DTC_STATUS_TEST_FAILED : Z := 0x01.
Definition DTC_STATUS_CONFIRMED : Z := 0x08.
Definition DTC_STATUS_WARNING_INDICATOR_REQUESTED : Z := 0x80.
Definition DTC_SEVERITY_NO_SEVERITY : Z := 0x00.

(** A pointer to a heap block: NULL, freed, or the block's contents. *)
Inductive Block (A : Type) := Null | Freed | Live (a : A).
Arguments Null {A}. Arguments Freed {A}. Arguments Live {A} a.
Definition load {S A} (b : Block A) : M S A :=
  match b with Live a => mret a | _ => fault end.

(** [ff_data] is the offset of the frame's bytes in the freeze frame buffer. *)
Record FreezeFrameRecord := mkFreezeFrame {
  ff_timestamp : Z; ff_record_number : Z; ff_data : nat; ff_data_size : Z }.

Record DtcRecord := mkDtc {
  dtc_number : Z;
  status_mask : Z;
  severity : Z;
  first_occurrence : Z;
  last_occurrence : Z;
  occurrence_count : Z;
  aging_counter : Z;
  aged_counter : Z;
  freeze_frames : option (list FreezeFrameRecord);
  freeze_frame_count : nat }.
#[export] Instance eta_DtcRecord : Eta DtcRecord := fun r =>
  mkDtc (dtc_number r) (status_mask r) (severity r) (first_occurrence r) (last_occurrence r)
    (occurrence_count r) (aging_counter r) (aged_counter r) (freeze_frames r) (freeze_frame_count r).
#[export] Instance DtcRecord_key : Keyed DtcRecord := dtc_number.
Definition dtc_record_zero : DtcRecord := mkDtc 0 0 0 0 0 0 0 0 None 0.

Record DtcConfig := mkDtcConfig {
  max_dtc_count : Z;
  max_freeze_frames_per_dtc : Z;
  aging_threshold : Z;
  aging_cycle_counter : Z;
  enable_automatic_clearing : bool;
  status_change_callback : bool }.
Definition dtc_config_zero : DtcConfig := mkDtcConfig 0 0 0 0 false false.

Record DtcStorage := mkDtcStorage {
  records : Block (list DtcRecord);
  record_count : nat;
  max_records : nat;
  freeze_frame_buffer : Block (list Z);
  freeze_frame_buffer_size : Z;
  dtc_config : DtcConfig;
  dtc_critical : CriticalSection;
  dtc_initialized : bool }.
#[export] Instance eta_DtcStorage : Eta DtcStorage := fun s =>
  mkDtcStorage (records s) (record_count s) (max_records s) (freeze_frame_buffer s)
    (freeze_frame_buffer_size s) (dtc_config s) (dtc_critical s) (dtc_initialized s).
#[export, refine] Instance DtcStorage_critical : HasCritical DtcStorage :=
  {| crit := dtc_critical; set_crit c s := s <| dtc_critical := c |> |}.
Proof. all: by intros; destruct s. Defined.
Definition dtc_storage_zero : DtcStorage :=
  mkDtcStorage Null 0 0 Null 0 dtc_config_zero cs_zero false.

(** The searches index [records[0 .. record_count)]. *)
Definition find_dtc_record (dtc : Z) : M DtcStorage (option nat) :=
  s ← get;
  if (record_count s =? 0)%nat then mret None else
  rs ← load (records s);
  if (length rs <? record_count s)%nat then fault else
  mret (find_key dtc (record_count s) rs).

Definition validate_dtc (dtc : Z) : M DtcStorage bool :=
  i ← find_dtc_record dtc; mret (bool_decide (is_Some i)).

(** [dtc_storage.records[i]] read and written. *)
Definition get_record (i : nat) : M DtcStorage DtcRecord :=
  s ← get; rs ← load (records s);
  match rs !! i with Some r => mret r | None => fault end.
Definition put_record (i : nat) (r : DtcRecord) : M DtcStorage unit :=
  s ← get; rs ← load (records s);
  if (i <? length rs)%nat then modify (fun s => s <| records := Live (<[i := r]> rs) |>) else fault.

(** Bytes of all stored freeze frames; [None]: a frame behind a NULL or short
    [freeze_frames] array is read. *)
Definition frame_bytes (r : DtcRecord) : option Z :=
  if (freeze_frame_count r =? 0)%nat then Some 0 else
  ffs ← freeze_frames r;
  if (length ffs <? freeze_frame_count r)%nat then None else
  Some (foldr (fun f acc => ff_data_size f + acc) 0 (take (freeze_frame_count r) ffs)).
Fixpoint frames_offset (rs : list DtcRecord) : option Z :=
  match rs with
  | [] => Some 0
  | r :: rs => b ← frame_bytes r; o ← frames_offset rs; Some (u32 (b + o))
  end.

Definition allocate_freeze_frame (i : nat) (size : Z) : M DtcStorage bool :=
  s ← get;
  record ← get_record i;
  if max_freeze_frames_per_dtc (dtc_config s) <=? Z.of_nat (freeze_frame_count record)
  then mret false else
  rs ← load (records s);
  match frames_offset (take (record_count s) rs) with
  | None => fault
  | Some offset =>
    if freeze_frame_buffer_size s <? u32 (offset + size) then mret false else
    match freeze_frames record with
    | None => fault
    | Some ffs =>
      match ffs !! freeze_frame_count record with
      | None => fault
      | Some f =>
        put_record i (record <| freeze_frames :=
          Some (<[freeze_frame_count record :=
                  mkFreezeFrame (ff_timestamp f) (ff_record_number f) (Z.to_nat offset) size]> ffs) |>);;
        mret true
      end
    end
  end.

Definition DTC_Init (records_granted buffer_granted : bool) (config : option DtcConfig)
  : M DtcStorage bool :=
  match config with
  | None => mret false
  | Some config =>
    if (max_dtc_count config =? 0) || (MAX_DTC_COUNT <? max_dtc_count config) ||
       (MAX_FREEZE_FRAMES <? max_freeze_frames_per_dtc config) then mret false else
    enter;;
    let n := Z.to_nat (max_dtc_count config) in
    modify (fun s => s <| records := if records_granted then Live (replicate n dtc_record_zero) else Null |>);;
    if negb records_granted then exit;; mret false else
    let total_freeze_frame_size :=
      u32 (u32 (max_dtc_count config * max_freeze_frames_per_dtc config) * MAX_FREEZE_FRAME_SIZE) in
    modify (fun s => s <| freeze_frame_buffer :=
      if buffer_granted then Live (replicate (Z.to_nat total_freeze_frame_size) 0) else Null |>);;
    if negb buffer_granted then
      emit "memory_free" [];; modify (fun s => s <| records := Freed |>);;
      exit;; mret false else
    modify (fun s => s <| dtc_config := config |> <| record_count := 0%nat |>
                       <| max_records := n |>
                       <| freeze_frame_buffer_size := total_freeze_frame_size |>
                       <| dtc_initialized := true |>);;
    exit;;
    mret true
  end.

(** Freeing a block that is already freed is undefined. *)
Definition free_block {S A} (b : Block A) : M S unit :=
  match b with Null => mret tt | Freed => fault | Live _ => emit "memory_free" [] end.

Definition DTC_DeInit : M DtcStorage unit :=
  enter;;
  s ← get;
  free_block (records s);;
  free_block (freeze_frame_buffer s);;
  modify (fun _ => dtc_storage_zero);;
  exit.

Definition DTC_SetStatus (dtc status : Z) : M DtcStorage bool :=
  s ← get;
  if negb (dtc_initialized s) then mret false else
  enter;;
  found ← find_dtc_record dtc;
  slot ← match found with
         | Some i => mret (Some i)
         | None =>
           if (max_records s <=? record_count s)%nat then mret None else
           let i := record_count s in
           modify (fun s => s <| record_count ::= S |>);;
           record ← get_record i;
           t ← now;
           put_record i (record <| dtc_number := dtc |> <| first_occurrence := t |>);;
           mret (Some i)
         end;
  match slot with
  | None => exit;; mret false
  | Some i =>
    record ← get_record i;
    let old_status := status_mask record in
    t ← now;
    put_record i (record <| status_mask := status |> <| last_occurrence := t |>
                         <| occurrence_count ::= fun c => u32 (c + 1) |>);;
    callback (status_change_callback (dtc_config s)) "status_change_callback"
      [dtc; old_status; status];;
    exit;;
    mret true
  end.

(** The getters search twice: [validate_dtc], then [find_dtc_record]. *)
Definition lookup_dtc {A} (dtc : Z) (default : A) (f : DtcRecord -> A) : M DtcStorage A :=
  s ← get;
  if negb (dtc_initialized s) then mret default else
  valid ← validate_dtc dtc;
  if negb valid then mret default else
  found ← find_dtc_record dtc;
  match found with
  | Some i => r ← get_record i; mret (f r)
  | None => mret default
  end.

Definition DTC_GetStatus (dtc : Z) : M DtcStorage Z := lookup_dtc dtc 0 status_mask.

Definition DTC_GetSeverity (dtc : Z) : M DtcStorage Z :=
  lookup_dtc dtc DTC_SEVERITY_NO_SEVERITY severity.

Definition DTC_GetOccurrenceCount (dtc : Z) : M DtcStorage Z := lookup_dtc dtc 0 occurrence_count.

Definition DTC_IsActive (dtc : Z) : M DtcStorage bool :=
  lookup_dtc dtc false (fun r =>
    negb (Z.land (status_mask r) (Z.lor DTC_STATUS_TEST_FAILED DTC_STATUS_CONFIRMED) =? 0)).

Definition DTC_AddFreezeFrame (dtc : Z) (data : option (list Z)) (size : Z) : M DtcStorage bool :=
  s ← get;
  match data with
  | None => mret false
  | Some data =>
    if negb (dtc_initialized s) || (size =? 0) || (MAX_FREEZE_FRAME_SIZE <? size) then mret false else
    valid ← validate_dtc dtc;
    if negb valid then mret false else
    enter;;
    found ← find_dtc_record dtc;
    match found with
    | None => exit;; mret false
    | Some i =>
      ok ← allocate_freeze_frame i size;
      if negb ok then exit;; mret false else
      record ← get_record i;
      s ← get;
      buf ← load (freeze_frame_buffer s);
      match freeze_frames record ≫= (.!! freeze_frame_count record) with
      | None => fault
      | Some f =>
        if (length data <? Z.to_nat size)%nat || (length buf <? ff_data f + Z.to_nat size)%nat
        then fault else
        modify (fun s => s <| freeze_frame_buffer :=
          Live (take (ff_data f) buf ++ take (Z.to_nat size) data ++
                drop (ff_data f + Z.to_nat size) buf) |>);;
        t ← now;
        put_record i (record <| freeze_frames ::= fmap (<[freeze_frame_count record :=
            mkFreezeFrame t (u16 (Z.of_nat (freeze_frame_count record) + 1)) (ff_data f)
              (ff_data_size f)]>) |>
          <| freeze_frame_count ::= S |>);;
        exit;;
        mret true
      end
    end
  end.

(** The bytes copied out, [None] when no frame was found. *)
Definition DTC_GetFreezeFrame (dtc record_number : Z) (out : bool)
  : M DtcStorage (option (list Z)) :=
  s ← get;
  if negb (dtc_initialized s) || negb out then mret None else
  valid ← validate_dtc dtc;
  if negb valid then mret None else
  enter;;
  found ← find_dtc_record dtc;
  match found with
  | None => exit;; mret None
  | Some i =>
    record ← get_record i;
    res ← (if (freeze_frame_count record =? 0)%nat then mret None else
           match freeze_frames record with
           | None => fault
           | Some ffs =>
             if (length ffs <? freeze_frame_count record)%nat then fault else
             match list_find (fun f => ff_record_number f =? record_number)
                     (take (freeze_frame_count record) ffs) with
             | None => mret None
             | Some (_, f) =>
               s ← get;
               buf ← load (freeze_frame_buffer s);
               mret (Some (take (Z.to_nat (ff_data_size f)) (drop (ff_data f) buf)))
             end
           end);
    exit;;
    mret res
  end.

Definition DTC_ClearAll : M DtcStorage unit :=
  s ← get;
  if negb (dtc_initialized s) then mret tt else
  enter;;
  modify (fun s => s
    <| records := Live (replicate (max_records s) dtc_record_zero) |>
    <| freeze_frame_buffer := Live (replicate (Z.to_nat (freeze_frame_buffer_size s)) 0) |>
    <| record_count := 0%nat |>);;
  exit.

Definition DTC_ClearSingle (dtc : Z) : M DtcStorage bool :=
  s ← get;
  if negb (dtc_initialized s) then mret false else
  valid ← validate_dtc dtc;
  if negb valid then mret false else
  enter;;
  found ← find_dtc_record dtc;
  match found with
  | None => exit;; mret false
  | Some i =>
    s ← get;
    rs ← load (records s);
    modify (fun s => s <| records := Live (remove_record i (record_count s) rs) |>
                       <| record_count ::= fun n => (n - 1)%nat |>);;
    exit;;
    mret true
  end.

Definition DTC_GetCount : M DtcStorage nat := s ← get; mret (record_count s).

(** The record copied to the caller, [None] when there is none; [out] tells
    whether the caller's pointer is not NULL. *)
Definition DTC_GetRecord (dtc : Z) (out : bool) : M DtcStorage (option DtcRecord) :=
  s ← get;
  if negb (dtc_initialized s) || negb out then mret None else
  valid ← validate_dtc dtc;
  if negb valid then mret None else
  enter;;
  found ← find_dtc_record dtc;
  r ← match found with Some i => r ← get_record i; mret (Some r) | None => mret None end;
  exit;;
  mret r.

Definition DTC_GetRecordByIndex (index : nat) (out : bool) : M DtcStorage (option DtcRecord) :=
  s ← get;
  if negb (dtc_initialized s) || negb out || (record_count s <=? index)%nat then mret None else
  enter;;
  r ← get_record index;
  exit;;
  mret (Some r).

(** One record of [DTC_ProcessAging]: [inl] the record to keep, [inr] cleared
    (with the contents left in the slot before the compaction). *)
Definition age_record (cfg : DtcConfig) (r : DtcRecord) : DtcRecord + DtcRecord :=
  if Z.land (status_mask r) DTC_STATUS_CONFIRMED =? 0 then
    let r := r <| aging_counter ::= fun c => u32 (c + 1) |> in
    if aging_threshold cfg <=? aging_counter r then
      let r := r <| aged_counter ::= fun c => u32 (c + 1) |> <| aging_counter := 0 |> in
      if enable_automatic_clearing cfg && (aging_cycle_counter cfg <=? aged_counter r)
      then inr r else inl r
    else inl r
  else inl r.

(** The loop of [DTC_ProcessAging] at index [i] with [k = record_count - i]
    records to go: clearing shortens the table and revisits [i]
    ([i--; i++]), otherwise [i] advances. *)
Fixpoint aging_loop (cfg : DtcConfig) (k i : nat) (rs : list DtcRecord)
  : option (list DtcRecord * nat) :=
  match k with
  | O => Some (rs, i)
  | S k' =>
    r ← rs !! i;
    match age_record cfg r with
    | inl r => aging_loop cfg k' (S i) (<[i := r]> rs)
    | inr r => aging_loop cfg k' i (remove_record i (i + k) (<[i := r]> rs))
    end
  end.

Definition DTC_ProcessAging : M DtcStorage unit :=
  s ← get;
  if negb (dtc_initialized s) then mret tt else
  enter;;
  s ← get;
  rs ← (if (record_count s =? 0)%nat then mret [] else load (records s));
  match aging_loop (dtc_config s) (record_count s) 0 rs with
  | None => fault
  | Some (rs, n) =>
    (if (record_count s =? 0)%nat then mret tt else
     modify (fun s => s <| records := Live rs |> <| record_count := n |>));;
    exit
  end.

Definition DTC_SetSeverity (dtc sev : Z) : M DtcStorage bool :=
  s ← get;
  if negb (dtc_initialized s) then mret false else
  valid ← validate_dtc dtc;
  if negb valid then mret false else
  enter;;
  found ← find_dtc_record dtc;
  match found with
  | Some i => r ← get_record i; put_record i (r <| severity := sev |>);; exit;; mret true
  | None => exit;; mret false
  end.

Definition DTC_UpdateAgingCycle : M DtcStorage unit :=
  s ← get;
  if negb (dtc_initialized s) then mret tt else
  enter;; DTC_ProcessAging;; exit.

(** ** The store as a finite map *)

(** An initialised store: the record array has [max_records] entries, the live
    ones have distinct numbers, and no record has a freeze frame array (no
    operation ever gives it one). *)
Record dtc_wf (s : DtcStorage) (rs : list DtcRecord) : Prop := {
  wf_initialized : dtc_initialized s = true;
  wf_records : records s = Live rs;
  wf_length : length rs = max_records s;
  wf_count : (record_count s <= max_records s)%nat;
  wf_uniq : tbl_uniq (record_count s) rs;
  wf_frames : Forall (fun r => freeze_frames r = None /\ freeze_frame_count r = 0%nat) rs }.

Definition dtc_map (s : DtcStorage) : gmap Z DtcRecord :=
  match records s with Live rs => tbl (record_count s) rs | _ => ∅ end.

Lemma dtc_map_live s rs : records s = Live rs -> dtc_map s = tbl (record_count s) rs.
Proof. unfold dtc_map. by intros ->. Qed.

Section dtc_wp.
Context (s : DtcStorage) (m : Machine) (rs : list DtcRecord).

Lemma wp_get_record i r Q :
  records s = Live rs -> rs !! i = Some r -> Q r s m -> wp (get_record i) Q s m.
Proof. intros Hr Hi HQ. unfold get_record. wp_steps. rewrite Hr; simpl. wp_steps; congruence. Qed.

Lemma wp_put_record i r Q :
  records s = Live rs -> (i < length rs)%nat ->
  Q tt (s <| records := Live (<[i := r]> rs) |>) m -> wp (put_record i r) Q s m.
Proof.
  intros Hr Hi HQ. unfold put_record. wp_steps. rewrite Hr; simpl. wp_steps; [done|tests; lia].
Qed.

Lemma wp_find_dtc_record d Q :
  records s = Live rs -> (record_count s <= length rs)%nat ->
  Q (find_key d (record_count s) rs) s m -> wp (find_dtc_record d) Q s m.
Proof.
  intros Hr Hn HQ. unfold find_dtc_record. wp_steps.
  - tests. rewrite Heqb in HQ. apply HQ.
  - rewrite Hr; simpl. wp_steps; [tests; lia|done].
Qed.

Lemma wp_validate_dtc d Q :
  records s = Live rs -> (record_count s <= length rs)%nat ->
  Q (bool_decide (is_Some (find_key d (record_count s) rs))) s m -> wp (validate_dtc d) Q s m.
Proof. intros Hr Hn HQ. unfold validate_dtc. apply wp_bind, wp_find_dtc_record; auto. Qed.

Lemma wp_lookup_dtc {A} d (x : A) f Q :
  dtc_wf s rs ->
  Q (match dtc_map s !! d with Some r => f r | None => x end) s m ->
  wp (lookup_dtc d x f) Q s m.
Proof.
  intros [Hi Hr Hl Hn Hu _] HQ. rewrite (dtc_map_live s rs Hr), tbl_lookup in HQ by done.
  unfold lookup_dtc. wp_step. wp_step. rewrite Hi; simpl.
  apply wp_bind, wp_validate_dtc; [done|lia|].
  destruct (find_key d (record_count s) rs) as [i|] eqn:E; simpl; [|done].
  apply wp_bind, wp_find_dtc_record; [done|lia|]. rewrite E. simpl in HQ.
  apply find_key_Some in E as (r & Hri & _ & _). rewrite Hri in HQ.
  by eapply wp_bind, wp_get_record.
Qed.
End dtc_wp.

(** Symbolic execution over a live record array. *)
Ltac dtc_step :=
  first
    [ wp_step
    | eapply wp_find_dtc_record; simpl; [reflexivity|lia|]
    | eapply wp_validate_dtc; simpl; [reflexivity|lia|]
    | eapply wp_get_record; simpl;
      [reflexivity|first [eassumption|apply list_lookup_insert_eq; eassumption]|]
    | eapply wp_put_record; simpl;
      [reflexivity|rewrite ?length_insert; eauto using lookup_lt_Some|] ];
  try match goal with Hk : find_key _ _ _ = _ |- wp _ _ _ _ => rewrite Hk end; simpl.
Ltac dtc_steps := repeat dtc_step.

(** Reads do not disturb the store; writes go through the map. *)
Definition touched (r : DtcRecord) (d st t : Z) : DtcRecord :=
  r <| dtc_number := d |> <| status_mask := st |> <| last_occurrence := t |>
    <| occurrence_count ::= fun c => u32 (c + 1) |>.

Lemma insert_frames_none (rs : list DtcRecord) i r :
  Forall (fun r => freeze_frames r = None /\ freeze_frame_count r = 0%nat) rs ->
  freeze_frames r = None /\ freeze_frame_count r = 0%nat ->
  Forall (fun r => freeze_frames r = None /\ freeze_frame_count r = 0%nat) (<[i := r]> rs).
Proof. intros. by apply Forall_insert. Qed.

Lemma set_status_old_wp d st i r s m rs :
  dtc_wf s rs -> find_key d (record_count s) rs = Some i -> rs !! i = Some r ->
  wp (DTC_SetStatus d st) (fun b s' m' =>
    b = true /\ dtc_wf s' (<[i := touched r d st (system_ticks m)]> rs) /\
    dtc_map s' = <[d := touched r d st (system_ticks m)]> (dtc_map s) /\
    record_count s' = record_count s /\ max_records s' = max_records s /\
    dtc_config s' = dtc_config s /\ primask m' = primask m /\ system_ticks m' = system_ticks m) s m.
Proof.
  intros [Hi Hr Hl Hn Hu Hf] Hk Hri. pose proof Hk as (r' & Hr' & Hin & Hd)%find_key_Some.
  rewrite Hri in Hr'; injection Hr' as <-. change (dtc_number r = d) in Hd.
  destruct s as [rs' n mx fb fs cf cs ini], m as [pm tk fr tc ti tr]; simpl in *; subst.
  unfold DTC_SetStatus. dtc_steps.
  destruct (tbl_update n rs i (touched r (dtc_number r) st tk) r) as [Hu' Hm']; auto.
  assert (Hfr := proj1 (Forall_lookup _ _) Hf i r Hri). simpl in Hfr.
  unfold dtc_map; simpl.
  split_and!; auto. split; simpl; rewrite ?length_insert; auto. apply insert_frames_none; auto.
Qed.

Lemma set_status_new_wp d st stale s m rs :
  dtc_wf s rs -> find_key d (record_count s) rs = None ->
  rs !! record_count s = Some stale ->
  let r := (touched stale d st (system_ticks m)) <| first_occurrence := system_ticks m |> in
  wp (DTC_SetStatus d st) (fun b s' m' =>
    b = true /\ dtc_wf s' (<[record_count s := r]> rs) /\
    dtc_map s' = <[d := r]> (dtc_map s) /\
    record_count s' = S (record_count s) /\ max_records s' = max_records s /\
    dtc_config s' = dtc_config s /\ primask m' = primask m /\ system_ticks m' = system_ticks m) s m.
Proof.
  intros [Hi Hr Hl Hn Hu Hf] Hk Hst r. assert (Hlt := lookup_lt_Some _ _ _ Hst).
  destruct s as [rs' n mx fb fs cf cs ini], m as [pm tk fr tc ti tr]; simpl in *; subst.
  unfold DTC_SetStatus. dtc_steps; [tests; lia|]. rewrite list_insert_insert_eq.
  destruct (tbl_push n rs r) as [Hu' Hm']; auto.
  assert (Hfr := proj1 (Forall_lookup _ _) Hf n stale Hst). simpl in Hfr.
  unfold dtc_map; simpl. split_and!; auto.
  split; simpl; rewrite ?length_insert; auto. apply insert_frames_none; auto.
Qed.

Lemma set_status_full_wp d st s m rs :
  dtc_wf s rs -> find_key d (record_count s) rs = None -> record_count s = max_records s ->
  wp (DTC_SetStatus d st) (fun b s' m' =>
    b = false /\ dtc_wf s' rs /\ dtc_map s' = dtc_map s /\
    dtc_config s' = dtc_config s /\ primask m' = primask m /\ system_ticks m' = system_ticks m) s m.
Proof.
  intros [Hi Hr Hl Hn Hu Hf] Hk Hfull.
  destruct s as [rs' n mx fb fs cf cs ini], m as [pm tk fr tc ti tr]; simpl in *; subst.
  unfold DTC_SetStatus. dtc_steps; [|tests; lia]. split_and!; auto. split; simpl; auto.
Qed.

(** ** Removal and ageing *)

Abbreviation no_frames := (fun r => freeze_frames r = None /\ freeze_frame_count r = 0%nat).

Lemma remove_record_spec i n rs :
  (i < n)%nat -> (n <= length rs)%nat ->
  length (remove_record i n rs) = length rs /\
  take (n - 1) (remove_record i n rs) = delete i (take n rs) /\
  (Forall no_frames rs -> Forall no_frames (remove_record i n rs)).
Proof.
  intros Hi Hn. rewrite remove_record_memmove by done.
  split_and!; [by apply length_memmove_down|by apply take_memmove_down|apply Forall_memmove_down].
Qed.

Lemma clear_single_wp d s m rs :
  dtc_wf s rs ->
  wp (DTC_ClearSingle d) (fun b s' m' =>
    b = bool_decide (is_Some (dtc_map s !! d)) /\
    dtc_map s' = delete d (dtc_map s) /\ (exists rs', dtc_wf s' rs') /\
    dtc_config s' = dtc_config s /\ primask m' = primask m) s m.
Proof.
  intros Hw. pose proof Hw as [Hi Hr Hl Hn Hu Hf].
  pose proof (tbl_lookup d _ _ Hu) as Hlk. rewrite <- (dtc_map_live s rs Hr) in Hlk.
  destruct s as [rs' n mx fb fs cf cs ini], m as [pm tk fr tc ti tr]; simpl in *; subst.
  unfold DTC_ClearSingle. destruct (find_key d n rs) as [i|] eqn:Hk; dtc_steps.
  - destruct (remove_record_spec i n rs) as (Hlen & Htk & Hfr);
      [by apply find_key_Some in Hk as (?&?&?&?)|lia|].
    destruct (tbl_remove d n rs i) as [Hu' Hm']; [lia|done|done|].
    apply find_key_Some in Hk as (r & Hri & Hin & Hd). simpl in Hlk.
    rewrite Hri in Hlk. rewrite Hlk.
    unfold dtc_map, tbl_uniq, tbl in *; simpl in *.
    rewrite take_memmove_down in Hu', Hm' by lia.
    split_and!; [done|by rewrite Htk| |done|done].
    exists (remove_record i n rs). constructor; simpl; auto; [lia|].
    unfold tbl_uniq. by rewrite Htk.
  - rewrite Hlk. rewrite delete_id by done. split_and!; auto. by exists rs.
Qed.

Definition kept (cfg : DtcConfig) (r : DtcRecord) : option DtcRecord :=
  match age_record cfg r with inl r => Some r | inr _ => None end.

Lemma age_record_fields cfg r x :
  age_record cfg r = inl x \/ age_record cfg r = inr x ->
  dtc_number x = dtc_number r /\ freeze_frames x = freeze_frames r /\
  freeze_frame_count x = freeze_frame_count r.
Proof.
  unfold age_record. destruct r. simpl.
  intros [Hx|Hx]; repeat case_match; simplify_eq/=; done.
Qed.

Lemma aging_loop_spec cfg k i rs :
  (i + k <= length rs)%nat ->
  exists rs' n, aging_loop cfg k i rs = Some (rs', n) /\ length rs' = length rs /\
    (n <= i + k)%nat /\ take n rs' = take i rs ++ omap (kept cfg) (take k (drop i rs)) /\
    (Forall no_frames rs -> Forall no_frames rs').
Proof.
  revert i rs. induction k as [|k IH]; intros i rs Hk; simpl.
  { exists rs, i. rewrite app_nil_r. split_and!; auto; lia. }
  destruct (lookup_lt_is_Some_2 rs i) as [r Hr]; [lia|]. rewrite Hr; simpl.
  rewrite (drop_S rs r i Hr). simpl. unfold kept at 1.
  assert (Hfr : forall x, age_record cfg r = inl x \/ age_record cfg r = inr x ->
            Forall no_frames rs -> Forall no_frames (<[i := x]> rs)).
  { intros x Hx Hf. apply insert_frames_none; [done|].
    destruct (age_record_fields cfg r x Hx) as (_ & -> & ->).
    by apply (proj1 (Forall_lookup _ _) Hf i). }
  destruct (age_record cfg r) as [x|x] eqn:Ha.
  - destruct (IH (S i) (<[i := x]> rs)) as (rs' & n & -> & Hl & Hn & Ht & Hf);
      [rewrite length_insert; lia|]. rewrite length_insert in Hl.
    exists rs', n. split_and!; auto; [lia|].
    rewrite Ht, drop_insert_lt by lia.
    rewrite (take_S_r _ _ x) by (apply list_lookup_insert_eq; lia).
    rewrite take_insert_ge by lia. by rewrite <- app_assoc.
  - destruct (remove_record_spec i (i + S k) (<[i := x]> rs)) as (Hlen & Htk & Hf1);
      rewrite ?length_insert in *; [lia|lia|].
    destruct (IH i (remove_record i (i + S k) (<[i := x]> rs))) as (rs' & n & -> & Hl & Hn & Ht & Hf);
      [lia|]. exists rs', n. split_and!; auto; [congruence|lia|].
    replace (i + S k - 1)%nat with (i + k)%nat in Htk by lia.
    rewrite delete_take_drop, take_take, Nat.min_l, skipn_firstn_comm in Htk by lia.
    replace (i + S k - S i)%nat with k in Htk by lia.
    rewrite drop_insert_lt, take_insert_ge in Htk by lia.
    apply take_app_split in Htk as [Hti Htk]; [|rewrite length_take; lia].
    by rewrite Ht, Hti, Htk.
Qed.

Lemma process_aging_wp s m rs :
  dtc_wf s rs ->
  wp DTC_ProcessAging (fun _ s' m' =>
    dtc_map s' = omap (kept (dtc_config s)) (dtc_map s) /\ (exists rs', dtc_wf s' rs') /\
    dtc_config s' = dtc_config s /\ max_records s' = max_records s /\
    crit s' = mkCS (Z.b2z (primask m)) false /\ primask m' = primask m) s m.
Proof.
  intros Hw. pose proof Hw as [Hi Hr Hl Hn Hu Hf].
  destruct (aging_loop_spec (dtc_config s) (record_count s) 0 rs)
    as (rs' & n & Ha & Hlen & Hn' & Ht & Hf'); [lia|].
  rewrite drop_0 in Ht. change (take n rs' = omap (kept (dtc_config s)) (take (record_count s) rs)) in Ht.
  assert (Hkey : forall x y, kept (dtc_config s) x = Some y -> key y = key x).
  { intros x y. unfold kept. destruct (age_record _ x) eqn:E; [|done].
    intros [= ->]. by apply (age_record_fields (dtc_config s) x y); left. }
  assert (Hmap := map_omap (kept (dtc_config s)) Hkey _ Hu).
  assert (Hu' := keys_omap_NoDup (kept (dtc_config s)) Hkey _ Hu).
  rewrite <- Ht in Hmap, Hu'.
  destruct s as [rs0 k mx fb fs cf cs ini], m as [pm tk fr tc ti tr]; simpl in *; subst.
  unfold DTC_ProcessAging. wp_steps; try (tests; subst; simplify_eq/=).
  - unfold dtc_map, tbl; simpl. split_and!; auto. exists rs'. by constructor.
  - split_and!; auto. exists rs'. constructor; simpl; auto; lia.
Qed.

Definition dtc_ready (s : DtcStorage) : Prop := exists rs, dtc_wf s rs.

Lemma dtc_size s rs : dtc_wf s rs -> size (dtc_map s) = record_count s.
Proof.
  intros [? Hr Hl Hn Hu _]. rewrite (dtc_map_live s rs Hr). apply tbl_size; [done|lia].
Qed.

Lemma get_status_wp e s m rs :
  dtc_wf s rs ->
  wp (DTC_GetStatus e) (fun v s' m' =>
    v = default 0 (status_mask <$> dtc_map s !! e) /\ s' = s /\ m' = m) s m.
Proof.
  intros Hw. eapply wp_lookup_dtc; [done|]. by destruct (dtc_map s !! e).
Qed.

(** The store as its clients see it: not initialised, or well formed. *)
Definition dtc_ok (s : DtcStorage) : Prop := dtc_initialized s = false \/ dtc_ready s.

Lemma set_status_total d st s m :
  dtc_ok s ->
  wp (DTC_SetStatus d st) (fun _ s' m' =>
    dtc_ok s' /\ primask m' = primask m /\ system_ticks m' = system_ticks m /\
    (dtc_ready s -> is_Some (dtc_map s !! d) \/ (size (dtc_map s) < max_records s)%nat ->
     exists r, dtc_map s' !! d = Some r /\ status_mask r = st)) s m.
Proof.
  intros [Hi|[rs Hw]].
  - unfold DTC_SetStatus. wp_step. wp_step. rewrite Hi. simpl. wp_step. split_and!; auto; [by left|].
    intros [rs [Hi' _]]. congruence.
  - pose proof Hw as [_ Hr Hl Hn Hu _]. rewrite (dtc_size s rs Hw).
    assert (Hlk := tbl_lookup d _ _ Hu). rewrite <- (dtc_map_live s rs Hr) in Hlk.
    destruct (find_key d (record_count s) rs) as [i|] eqn:Hk.
    { pose proof Hk as (r & Hri & _)%find_key_Some.
      eapply wp_mono; [by apply (set_status_old_wp d st i r s m rs)|].
      intros b s' m' (_ & Hw' & Hm & _ & _ & _ & ? & ?). split_and!; auto; [right; by eexists|].
      intros _ _. rewrite Hm, lookup_insert_eq. by eexists. }
    destruct (decide (record_count s < max_records s)%nat) as [Hlt|Hge].
    + destruct (lookup_lt_is_Some_2 rs (record_count s)) as [stale Hst]; [lia|].
      eapply wp_mono; [by apply (set_status_new_wp d st stale s m rs)|].
      intros b s' m' (_ & Hw' & Hm & _ & _ & _ & ? & ?). split_and!; auto; [right; by eexists|].
      intros _ _. rewrite Hm, lookup_insert_eq. by eexists.
    + eapply wp_mono; [apply (set_status_full_wp d st s m rs); auto; lia|].
      intros b s' m' (_ & Hw' & _ & _ & ? & ?). split_and!; auto; [right; by eexists|].
      intros _ [Hs|?]; [|lia]. rewrite Hlk in Hs. by destruct Hs.
Qed.

(** A store with two records, one of them confirmed, in a table of three. *)
Definition example_dtc_config : DtcConfig := mkDtcConfig 3 2 2 1 true true.
Definition example_dtcs : list DtcRecord :=
  [mkDtc 0x100 0x08 0 5 5 1 0 0 None 0; mkDtc 0x200 0x01 0 6 9 4 1 0 None 0; dtc_record_zero].
Definition example_dtc_store : DtcStorage :=
  mkDtcStorage (Live example_dtcs) 2 3 (Live []) 0 example_dtc_config cs_zero true.
Lemma example_dtc_wf : dtc_wf example_dtc_store example_dtcs.
Proof.
  constructor; try reflexivity.
  - simpl; lia.
  - unfold tbl_uniq; simpl. change (key (mkDtc 0x100 0x08 0 5 5 1 0 0 None 0)) with 0x100.
    change (key (mkDtc 0x200 0x01 0 6 9 4 1 0 None 0)) with 0x200.
    apply (bool_decide_unpack _). by vm_compute.
  - repeat constructor.
Qed.

(** ** Properties *)

(** C15. [DTC_SetStatus] implements insertion into a map of at most
    [max_records] codes: it answers [true] exactly when the code is known or
    there is room; then the code's record carries the new status, the current
    time and, for a known code, an incremented occurrence count and otherwise
    unchanged fields; a new code's record is the next free one of the array, with the
    current time as its first occurrence and one more than the occurrence count that
    record last held.  Every other code keeps its record; when it answers [false]
    nothing changes.  The interrupt mask is restored. *)
Theorem dtc_set_status_refines d st s m rs :
  dtc_wf s rs ->
  wp (DTC_SetStatus d st) (fun b s' m' =>
    (b = true <-> is_Some (dtc_map s !! d) \/ (size (dtc_map s) < max_records s)%nat) /\
    (b = false -> dtc_map s' = dtc_map s) /\
    (b = true -> exists r, dtc_map s' = <[d := r]> (dtc_map s) /\
       status_mask r = st /\ last_occurrence r = system_ticks m /\
       (forall r0, dtc_map s !! d = Some r0 -> r = touched r0 d st (system_ticks m)) /\
       (dtc_map s !! d = None -> exists stale, rs !! record_count s = Some stale /\
          r = (touched stale d st (system_ticks m)) <| first_occurrence := system_ticks m |>)) /\
    dtc_ready s' /\ primask m' = primask m) s m.
Proof.
  intros Hw. rewrite (dtc_size s rs Hw). pose proof Hw as [_ Hr Hl Hn Hu _].
  assert (Hlk := tbl_lookup d _ _ Hu). rewrite <- (dtc_map_live s rs Hr) in Hlk.
  destruct (find_key d (record_count s) rs) as [i|] eqn:Hk; simpl in Hlk.
  - pose proof Hk as (r & Hri & _)%find_key_Some. rewrite Hri in Hlk.
    eapply wp_mono; [by apply (set_status_old_wp d st i r s m rs)|].
    intros b s' m' (-> & Hw' & Hm & _ & _ & _ & Hp & _). rewrite Hlk.
    split_and!; try done; [naive_solver| |by eexists].
    intros _. eexists. split_and!; [done|done|done| |done]. by intros r0 [= ->].
  - destruct (decide (record_count s < max_records s)%nat) as [Hlt|Hge].
    + destruct (lookup_lt_is_Some_2 rs (record_count s)) as [stale Hst]; [lia|].
      eapply wp_mono; [by apply (set_status_new_wp d st stale s m rs)|].
      intros b s' m' (-> & Hw' & Hm & _ & _ & _ & Hp & _). rewrite Hlk.
      split_and!; try done; [naive_solver| |by eexists].
      intros _. eexists. split_and!; [done..|]. intros _. by exists stale.
    + eapply wp_mono; [apply (set_status_full_wp d st s m rs); auto; lia|].
      intros b s' m' (-> & Hw' & Hm & _ & Hp & _). rewrite Hlk.
      split_and!; try done; [|by eexists].
      split; [done|]. intros [[? [=]]|?]; lia.
Qed.

(** Witness of [dtc_set_status_refines]: a third code enters the table. *)
Lemma dtc_set_status_refines_witness :
  dtc_wf example_dtc_store example_dtcs /\
  wp (DTC_SetStatus 0x300 0x09) (fun b s' m' =>
    (b = true <-> is_Some (dtc_map example_dtc_store !! 0x300) \/
       (size (dtc_map example_dtc_store) < 3)%nat) /\
    (b = false -> dtc_map s' = dtc_map example_dtc_store) /\
    (b = true -> exists r, dtc_map s' = <[0x300 := r]> (dtc_map example_dtc_store) /\
       status_mask r = 0x09 /\ last_occurrence r = 0 /\
       (forall r0, dtc_map example_dtc_store !! 0x300 = Some r0 -> r = touched r0 0x300 0x09 0) /\
       (dtc_map example_dtc_store !! 0x300 = None -> exists stale,
          example_dtcs !! record_count example_dtc_store = Some stale /\
          r = (touched stale 0x300 0x09 0) <| first_occurrence := 0 |>)) /\
    dtc_ready s' /\ primask m' = false) example_dtc_store boot.
Proof.
  split; [exact example_dtc_wf|].
  exact (dtc_set_status_refines 0x300 0x09 example_dtc_store boot example_dtcs example_dtc_wf).
Defined.

(**  [DTC_ClearSingle] implements removal: it answers whether the code was
    known, and afterwards exactly that code is gone: its status reads 0, every
    other code's status reads as before. *)
Theorem dtc_clear_single_refines d e s m rs :
  dtc_wf s rs ->
  wp (b ← DTC_ClearSingle d; v ← DTC_GetStatus e; mret (b, v)) (fun '(b, v) s' m' =>
    b = bool_decide (is_Some (dtc_map s !! d)) /\
    dtc_map s' = delete d (dtc_map s) /\
    v = (if decide (e = d) then 0 else default 0 (status_mask <$> dtc_map s !! e)) /\
    dtc_ready s' /\ primask m' = primask m) s m.
Proof.
  intros Hw. apply wp_bind. eapply wp_mono; [by apply (clear_single_wp d s m rs)|].
  intros b s' m' (-> & Hm & [rs' Hw'] & _ & Hp). apply wp_bind.
  eapply wp_mono; [by apply (get_status_wp e s' m' rs')|].
  intros v ? ? (-> & -> & ->). apply wp_ret. rewrite Hm.
  split_and!; try done; [|by eexists].
  case_decide; subst; [by rewrite lookup_delete_eq|by rewrite lookup_delete_ne].
Qed.

(** Witness of [dtc_clear_single_refines]. *)
Lemma dtc_clear_single_refines_witness :
  dtc_wf example_dtc_store example_dtcs /\
  wp (b ← DTC_ClearSingle 0x100; v ← DTC_GetStatus 0x200; mret (b, v)) (fun '(b, v) s' m' =>
    b = bool_decide (is_Some (dtc_map example_dtc_store !! 0x100)) /\
    dtc_map s' = delete 0x100 (dtc_map example_dtc_store) /\
    v = (if decide (0x200 = 0x100) then 0
         else default 0 (status_mask <$> dtc_map example_dtc_store !! 0x200)) /\
    dtc_ready s' /\ primask m' = false) example_dtc_store boot.
Proof.
  split; [exact example_dtc_wf|].
  exact (dtc_clear_single_refines 0x100 0x200 example_dtc_store boot example_dtcs example_dtc_wf).
Defined.

(** [DTC_ProcessAging], which deletes records from the array it is
    iterating over, ages every code exactly once: the resulting map is the old
    one with each record replaced by its aged version, or dropped when its
    ageing is complete.  A confirmed code is never touched. *)
Theorem dtc_ageing_refines s m rs :
  dtc_wf s rs ->
  wp DTC_ProcessAging (fun _ s' m' =>
    dtc_map s' = omap (kept (dtc_config s)) (dtc_map s) /\
    (forall d r, dtc_map s !! d = Some r -> Z.land (status_mask r) DTC_STATUS_CONFIRMED ≠ 0 ->
       dtc_map s' !! d = Some r) /\
    dtc_ready s' /\ primask m' = primask m) s m.
Proof.
  intros Hw. eapply wp_mono; [by apply (process_aging_wp s m rs)|].
  intros _ s' m' (Hm & Hw' & _ & _ & _ & Hp). split_and!; try done.
  intros d r Hd Hc. rewrite Hm, lookup_omap, Hd. simpl. unfold kept, age_record.
  by rewrite (proj2 (Z.eqb_neq _ _) Hc).
Qed.

(** Witness of [dtc_ageing_refines]: the second record is aged out. *)
Lemma dtc_ageing_refines_witness :
  dtc_wf example_dtc_store example_dtcs /\
  wp DTC_ProcessAging (fun _ s' m' =>
    dtc_map s' = omap (kept example_dtc_config) (dtc_map example_dtc_store) /\
    (forall d r, dtc_map example_dtc_store !! d = Some r ->
       Z.land (status_mask r) DTC_STATUS_CONFIRMED ≠ 0 -> dtc_map s' !! d = Some r) /\
    dtc_ready s' /\ primask m' = false) example_dtc_store boot.
Proof.
  split; [exact example_dtc_wf|].
  exact (dtc_ageing_refines example_dtc_store boot example_dtcs example_dtc_wf).
Defined.

(**  [DTC_UpdateAgingCycle] enters the store's critical section twice (once
    itself, once in [DTC_ProcessAging]): the inner call overwrites the saved
    mask and unlocks the section, and the function returns with interrupts
    masked although the ageing itself is done correctly. *)
Theorem dtc_update_aging_cycle_masks s m rs :
  dtc_wf s rs ->
  wp DTC_UpdateAgingCycle (fun _ s' m' =>
    dtc_map s' = omap (kept (dtc_config s)) (dtc_map s) /\ primask m' = true) s m.
Proof.
  intros Hw. unfold DTC_UpdateAgingCycle. wp_step. wp_step.
  rewrite (wf_initialized s rs Hw); simpl. apply wp_bind, wp_enter, wp_bind.
  eapply wp_mono; [apply (process_aging_wp _ _ rs); by destruct Hw|].
  intros _ s' m' (Hm & _ & _ & _ & Hc & Hp). apply wp_exit_unlocked; [by rewrite Hc|].
  split; [done|]. by rewrite Hp.
Qed.

(** Witness of [dtc_update_aging_cycle_masks]. *)
Lemma dtc_update_aging_cycle_masks_witness :
  dtc_wf example_dtc_store example_dtcs /\
  wp DTC_UpdateAgingCycle (fun _ s' m' =>
    dtc_map s' = omap (kept example_dtc_config) (dtc_map example_dtc_store) /\ primask m' = true)
    example_dtc_store boot.
Proof.
  split; [exact example_dtc_wf|].
  exact (dtc_update_aging_cycle_masks example_dtc_store boot example_dtcs example_dtc_wf).
Defined.

Lemma frames_offset_none (rs : list DtcRecord) :
  Forall no_frames rs -> frames_offset rs = Some 0.
Proof.
  induction 1 as [|r rs [_ Hr] _ IH]; [done|]. simpl. unfold frame_bytes. rewrite Hr; simpl.
  by rewrite IH.
Qed.

Lemma allocate_without_array i size r s m rs :
  records s = Live rs -> rs !! i = Some r -> no_frames r ->
  frames_offset (take (record_count s) rs) = Some 0 ->
  allocate_freeze_frame i size s m =
    if (0 <? max_freeze_frames_per_dtc (dtc_config s)) && (u32 size <=? freeze_frame_buffer_size s)
    then None else Some (false, s, m).
Proof.
  intros Hr Hi [Hff Hfc] Ho. unfold allocate_freeze_frame, get_record, load, mbind, M_bind, get; simpl.
  rewrite Hr; simpl. rewrite Hi; simpl. rewrite Hfc, Hff, Z.ltb_antisym.
  change (Z.of_nat 0) with 0. destruct (_ <=? 0); simpl; [done|].
  rewrite Ho, Z.add_0_l, Z.ltb_antisym. by destruct (u32 size <=? _).
Qed.

Lemma last_record_survives d r0 s m rs :
  dtc_wf s rs -> find_key d (record_count s) rs = Some (record_count s - 1)%nat ->
  rs !! (record_count s - 1)%nat = Some r0 ->
  wp (DTC_ClearSingle d) (fun _ s' m' =>
    dtc_wf s' rs /\ record_count s' = (record_count s - 1)%nat /\
    find_key d (record_count s') rs = None /\ system_ticks m' = system_ticks m) s m.
Proof.
  intros Hw Hk Hr0. pose proof Hw as [Hi Hr Hl Hn Hu Hf].
  destruct (remove_record_spec (record_count s - 1) (record_count s) rs) as (_ & Htk & _);
    [apply find_key_Some in Hk as (?&?&?&?); lia|lia|].
  destruct (tbl_remove d (record_count s) rs (record_count s - 1)) as [Hu' _]; [lia|done|done|].
  rewrite memmove_down_last in Hu'.
  assert (Hnone : find_key d (record_count s - 1) rs = None).
  { apply find_key_None. intros (r1 & Hd1 & Hin)%list_elem_of_fmap.
    apply list_elem_of_lookup in Hin as [j [Hj Hlt]%lookup_take_Some].
    assert (Hk2 : find_key d (record_count s) rs = Some j)
      by (apply (find_key_uniq d _ rs j r1); auto; lia).
    rewrite Hk in Hk2. simplify_eq. lia. }
  destruct s as [rs' n mx fb fs cf cs ini], m as [pm tk fr tc ti tr]; simpl in *; subst.
  unfold DTC_ClearSingle. dtc_steps. unfold remove_record.
  rewrite Nat.ltb_irrefl. split_and!; auto. constructor; simpl; auto. lia.
Qed.

(**  Clearing a code does not reset its history: [DTC_ClearSingle] on the
    last entry leaves the record's contents in the array, and when the code
    (or any other new one) is reported next, [DTC_SetStatus] reuses that slot
    without zeroing it: the occurrence count continues from the cleared
    record, and severity and ageing counters are inherited. *)
Theorem dtc_cleared_history_inherited d d2 st r0 s m rs :
  dtc_wf s rs -> find_key d (record_count s) rs = Some (record_count s - 1)%nat ->
  rs !! (record_count s - 1)%nat = Some r0 -> d2 = d \/ dtc_map s !! d2 = None ->
  wp (DTC_ClearSingle d;; DTC_SetStatus d2 st) (fun b s' _ =>
    b = true /\ exists r, dtc_map s' !! d2 = Some r /\
      occurrence_count r = u32 (occurrence_count r0 + 1) /\ severity r = severity r0 /\
      aging_counter r = aging_counter r0 /\ aged_counter r = aged_counter r0 /\
      first_occurrence r = system_ticks m) s m.
Proof.
  intros Hw Hk Hr0 Hd2. apply wp_bind.
  assert (Hn2 : find_key d2 (record_count s - 1) rs = None \/ d2 = d).
  { destruct Hd2 as [?|Hd2]; [by right|left]. destruct Hw as [_ Hr Hl Hn Hu _].
    rewrite (dtc_map_live s rs Hr), tbl_lookup in Hd2 by done.
    destruct (find_key d2 (record_count s - 1) rs) as [j|] eqn:E; [|done].
    apply find_key_Some in E as (x & Hx & Hj & <-).
    rewrite (find_key_uniq (key x) (record_count s) rs j x) in Hd2 by (auto; lia).
    simpl in Hd2. congruence. }
  eapply wp_mono; [by apply (last_record_survives d r0 s m rs)|].
  intros _ s' m' (Hw' & Hc & Hnone & Ht). rewrite <- Hc in *.
  eapply wp_mono; [apply (set_status_new_wp d2 st r0 s' m' rs); [done| |done]|].
  { by destruct Hn2 as [?| ->]. }
  intros b s'' m'' (-> & _ & Hm & _). split; [done|]. rewrite Hm, lookup_insert_eq.
  eexists. split; [done|]. simpl. by split_and!.
Qed.

(** Witness of [dtc_cleared_history_inherited]: 0x200 was seen four times, is
    cleared, and its next occurrence is counted as the fifth. *)
Lemma dtc_cleared_history_inherited_witness :
  dtc_wf example_dtc_store example_dtcs /\
  wp (DTC_ClearSingle 0x200;; DTC_SetStatus 0x200 1) (fun b s' _ =>
    b = true /\ exists r, dtc_map s' !! 0x200 = Some r /\
      occurrence_count r = u32 (4 + 1) /\ severity r = 0 /\
      aging_counter r = 1 /\ aged_counter r = 0 /\ first_occurrence r = 0)
    example_dtc_store boot.
Proof.
  split; [exact example_dtc_wf|].
  exact (dtc_cleared_history_inherited 0x200 0x200 1 (mkDtc 0x200 0x01 0 6 9 4 1 0 None 0)
    example_dtc_store boot example_dtcs example_dtc_wf eq_refl eq_refl (or_introl eq_refl)).
Defined.

(**  No operation ever allocates a record's [freeze_frames] array, so
    [DTC_AddFreezeFrame] never stores a frame: in a well-formed store it
    answers [false] on invalid arguments, unknown codes, exhausted limits or a
    full buffer, and on every request that passes those checks it writes
    through a NULL pointer. *)
Theorem dtc_add_freeze_frame_undefined d data size s m rs :
  dtc_wf s rs ->
  let accepted :=
    bool_decide (is_Some data) && negb (size =? 0) && (size <=? MAX_FREEZE_FRAME_SIZE) &&
    bool_decide (is_Some (dtc_map s !! d)) &&
    (0 <? max_freeze_frames_per_dtc (dtc_config s)) &&
    (u32 size <=? freeze_frame_buffer_size s) in
  if accepted then DTC_AddFreezeFrame d data size s m = None
  else wp (DTC_AddFreezeFrame d data size) (fun b s' m' =>
         b = false /\ dtc_map s' = dtc_map s /\ primask m' = primask m) s m.
Proof.
  intros Hw. pose proof Hw as [Hi Hr Hl Hn Hu Hf]. cbv zeta.
  assert (Hlk := tbl_lookup d _ _ Hu). rewrite <- (dtc_map_live s rs Hr) in Hlk.
  destruct data as [data|]; [|wp_steps; by split_and!]. simpl.
  unfold DTC_AddFreezeFrame.
  destruct (size =? 0) eqn:E0; simpl; [wp_step; wp_step; rewrite Hi; by split_and!|].
  destruct (size <=? MAX_FREEZE_FRAME_SIZE) eqn:E1; simpl;
    [|wp_step; wp_step; rewrite Hi; simpl; tests; rewrite (proj2 (Z.ltb_lt _ _)) by lia; by split_and!].
  assert (E1' : (MAX_FREEZE_FRAME_SIZE <? size) = false) by (tests; apply Z.ltb_ge; lia).
  rewrite Hlk.
  assert (Hoff : frames_offset (take (record_count s) rs) = Some 0)
    by (by apply frames_offset_none, Forall_take).
  destruct s as [rs' n mx fb fs cf cs ini], m as [pm tk fr tc ti tr]; simpl in *; subst.
  destruct (find_key d n rs) as [i|] eqn:Hk; simpl.
  2: { wp_step; wp_step. rewrite E1'. dtc_steps. by split_and!. }
  pose proof Hk as (r & Hri & _)%find_key_Some. rewrite Hri; simpl.
  destruct (proj1 (Forall_lookup _ _) Hf i r Hri) as [Hff Hfc].
  assert (Hal := fun cs m => allocate_without_array i size r
    (mkDtcStorage (Live rs) n (length rs) fb fs cf cs true) m rs eq_refl Hri (conj Hff Hfc) Hoff).
  simpl in Hal. destruct (_ && _) eqn:E.
  - apply undefined_bind. wp_step. rewrite E1'; simpl.
    do 3 (apply undefined_bind; dtc_steps; rewrite ?Hk; simpl). apply undefined_bind'. apply Hal.
  - wp_step. wp_step. rewrite E1'; simpl. dtc_steps. unfold wp at 1. rewrite Hal; simpl.
    dtc_steps. by split_and!.
Qed.

Definition example_dtc_store2 : DtcStorage :=
  mkDtcStorage (Live example_dtcs) 2 3 (Live (replicate 600 0)) 600 example_dtc_config cs_zero true.
Lemma example_dtc_wf2 : dtc_wf example_dtc_store2 example_dtcs.
Proof. by destruct example_dtc_wf. Qed.

(** Witness of [dtc_add_freeze_frame_undefined]: a valid request on a known
    code. *)
Lemma dtc_add_freeze_frame_undefined_witness :
  dtc_wf example_dtc_store2 example_dtcs /\
  DTC_AddFreezeFrame 0x100 (Some [1; 2; 3]) 3 example_dtc_store2 boot = None.
Proof.
  split; [exact example_dtc_wf2|].
  exact (dtc_add_freeze_frame_undefined 0x100 (Some [1; 2; 3]) 3 _ boot example_dtcs example_dtc_wf2).
Defined.
