(* ===== verification/EventHandler.v ===== *)
(** * Diagnostic events

    [src/runtime/diagnostic/event_handler.c]: the event table with its data
    buffer, and the DTCs it raises through the DTC manager.  The statics are
    the event store and the DTC store side by side; calls of the DTC manager
    run on the latter ([on_dtc]). *)

From S2P Require Import Prelude Machine Tables DtcManager.

Definition MAX_EVENTS : Z := 1000.
Definition MAX_EVENT_DATA_SIZE : Z := 512.

Inductive DiagEventType := DIAG_EVENT_ERROR | DIAG_EVENT_WARNING | DIAG_EVENT_INFO | DIAG_EVENT_DEBUG.
Inductive DiagEventPriority := DIAG_PRIORITY_HIGH | DIAG_PRIORITY_MEDIUM | DIAG_PRIORITY_LOW.
#[export] Instance DiagEventType_eq_dec : EqDecision DiagEventType.
Proof. solve_decision. Defined.
#[export] Instance DiagEventPriority_eq_dec : EqDecision DiagEventPriority.
Proof. solve_decision. Defined.

(** The [data] pointer of an event: NULL, the caller's bytes, or an offset
    into [event_data_buffer]. *)
Inductive EventData := DNull | DCaller (bytes : list Z) | DBuffer (offset : nat).

Record DiagEventData := mkEvent {
  event_id : Z;
  ev_type : DiagEventType;
  ev_priority : DiagEventPriority;
  ev_timestamp : Z;
  ev_dtc : Z;
  ev_data : EventData;
  ev_data_size : Z;
  ev_description : list Z }.
#[export] Instance eta_DiagEventData : Eta DiagEventData := fun e =>
  mkEvent (event_id e) (ev_type e) (ev_priority e) (ev_timestamp e) (ev_dtc e) (ev_data e)
    (ev_data_size e) (ev_description e).
#[export] Instance DiagEventData_key : Keyed DiagEventData := event_id.
Definition event_zero : DiagEventData :=
  mkEvent 0 DIAG_EVENT_ERROR DIAG_PRIORITY_HIGH 0 0 DNull 0 (replicate 128 0).

Record DiagEventConfig := mkEventConfig {
  cfg_max_events : Z;
  max_event_data_size : Z;
  enable_event_logging : bool;
  enable_auto_dtc : bool;
  event_callback : bool }.
Definition event_config_zero : DiagEventConfig := mkEventConfig 0 0 false false false.

Record EventStorage := mkEventStorage {
  events : Block (list DiagEventData);
  event_count : nat;
  max_events : nat;
  event_data_buffer : Block (list Z);
  event_data_buffer_size : Z;
  ev_config : DiagEventConfig;
  ev_critical : CriticalSection;
  ev_initialized : bool }.
#[export] Instance eta_EventStorage : Eta EventStorage := fun s =>
  mkEventStorage (events s) (event_count s) (max_events s) (event_data_buffer s)
    (event_data_buffer_size s) (ev_config s) (ev_critical s) (ev_initialized s).
Definition event_storage_zero : EventStorage :=
  mkEventStorage Null 0 0 Null 0 event_config_zero cs_zero false.

Record EventCtx := mkEventCtx { ev : EventStorage; dtcs : DtcStorage }.
#[export] Instance eta_EventCtx : Eta EventCtx := fun c => mkEventCtx (ev c) (dtcs c).
#[export, refine] Instance EventCtx_critical : HasCritical EventCtx :=
  {| crit c := ev_critical (ev c); set_crit k c := c <| ev ::= fun s => s <| ev_critical := k |> |> |}.
Proof. all: by intros; destruct s as [[] ?]. Defined.

Definition on_dtc {A} : M DtcStorage A -> M EventCtx A :=
  zoom dtcs (fun d c => c <| dtcs := d |>).
Definition modify_ev (f : EventStorage -> EventStorage) : M EventCtx unit :=
  modify (fun c => c <| ev ::= f |>).

Definition find_event (id : Z) : M EventCtx (option nat) :=
  c ← get;
  if (event_count (ev c) =? 0)%nat then mret None else
  es ← load (events (ev c));
  if (length es <? event_count (ev c))%nat then fault else
  mret (find_key id (event_count (ev c)) es).

Definition validate_event_id (id : Z) : M EventCtx bool :=
  i ← find_event id; mret (bool_decide (is_Some i)).

(** [event_storage.events[i]] read and written. *)
Definition get_event (i : nat) : M EventCtx DiagEventData :=
  c ← get; es ← load (events (ev c));
  match es !! i with Some e => mret e | None => fault end.
Definition put_event (i : nat) (e : DiagEventData) : M EventCtx unit :=
  c ← get; es ← load (events (ev c));
  if (i <? length es)%nat then modify_ev (fun s => s <| events := Live (<[i := e]> es) |>) else fault.

(** The [offset] accumulated over the live events. *)
Definition data_offset (es : list DiagEventData) : Z :=
  foldl (fun o e => u32 (o + ev_data_size e)) 0 es.

Definition allocate_event_data (i : nat) (size : Z) : M EventCtx bool :=
  c ← get;
  if max_event_data_size (ev_config (ev c)) <? size then mret false else
  es ← load (events (ev c));
  let offset := data_offset (take (event_count (ev c)) es) in
  if event_data_buffer_size (ev c) <? u32 (offset + size) then mret false else
  e ← get_event i;
  put_event i (e <| ev_data := DBuffer (Z.to_nat offset) |> <| ev_data_size := size |>);;
  mret true.

Definition Event_Handler_Init (events_granted buffer_granted : bool) (config : option DiagEventConfig)
  : M EventCtx bool :=
  match config with
  | None => mret false
  | Some config =>
    if (cfg_max_events config =? 0) || (MAX_EVENTS <? cfg_max_events config) ||
       (MAX_EVENT_DATA_SIZE <? max_event_data_size config) then mret false else
    enter;;
    let n := Z.to_nat (cfg_max_events config) in
    modify_ev (fun s => s <| events := if events_granted then Live (replicate n event_zero) else Null |>);;
    if negb events_granted then exit;; mret false else
    let total_data_size := u32 (cfg_max_events config * max_event_data_size config) in
    modify_ev (fun s => s <| event_data_buffer :=
      if buffer_granted then Live (replicate (Z.to_nat total_data_size) 0) else Null |>);;
    if negb buffer_granted then
      emit "memory_free" [];; modify_ev (fun s => s <| events := Freed |>);;
      exit;; mret false else
    modify_ev (fun s => s <| ev_config := config |> <| event_count := 0%nat |>
                          <| max_events := n |>
                          <| event_data_buffer_size := total_data_size |>
                          <| ev_initialized := true |>);;
    exit;;
    mret true
  end.

Definition Event_Handler_DeInit : M EventCtx unit :=
  enter;;
  c ← get;
  free_block (events (ev c));;
  free_block (event_data_buffer (ev c));;
  modify_ev (fun _ => event_storage_zero);;
  exit.

(** [strncpy(dst, src, n)]: copies up to the terminator, pads with zeros. *)
Fixpoint until_nul (src : list Z) : list Z :=
  match src with
  | [] => []
  | c :: src => if c =? 0 then [] else c :: until_nul src
  end.
Definition strncpy (dst src : list Z) (n : nat) : list Z :=
  take n (until_nul src ++ replicate n 0) ++ drop n dst.

(** [memcpy(e->data, data, size)].  Only offsets into the data buffer are
    written: a stored caller pointer always has [data_size] 0. *)
Definition store_bytes (dst : EventData) (data : list Z) (size : Z) : M EventCtx unit :=
  match dst with
  | DBuffer off =>
    c ← get;
    buf ← load (event_data_buffer (ev c));
    if (length data <? Z.to_nat size)%nat || (length buf <? off + Z.to_nat size)%nat then fault else
    modify_ev (fun s => s <| event_data_buffer :=
      Live (take off buf ++ take (Z.to_nat size) data ++ drop (off + Z.to_nat size) buf) |>)
  | _ => fault
  end.

(** The bytes the [event->data && event->data_size > 0] test lets through.
    Events are reported with the caller's memory, never with a pointer into
    the buffer. *)
Definition payload (e : DiagEventData) : option (list Z) :=
  match ev_data e with
  | DCaller bytes => if 0 <? ev_data_size e then Some bytes else None
  | _ => None
  end.

(** Lines 124-143: an event that is already in the table, at index [i]. *)
Definition update_existing (i : nat) (event : DiagEventData) : M EventCtx bool :=
  t ← now;
  e ← get_event i;
  put_event i (e <| ev_type := ev_type event |> <| ev_priority := ev_priority event |>
                 <| ev_timestamp := t |>);;
  ok ← match payload event with
       | None => mret true
       | Some bytes =>
         e ← get_event i;
         if ev_data_size event <=? ev_data_size e then
           store_bytes (ev_data e) bytes (ev_data_size event);; mret true
         else
           ok ← allocate_event_data i (ev_data_size event);
           if negb ok then mret false else
           e ← get_event i;
           store_bytes (ev_data e) bytes (ev_data_size event);; mret true
       end;
  if negb ok then mret false else
  e ← get_event i;
  put_event i (e <| ev_description ::= fun d => strncpy d (ev_description event) 127 |>);;
  mret true.

(** Lines 144-163: a new event. *)
Definition add_new (event : DiagEventData) : M EventCtx bool :=
  c ← get;
  if (max_events (ev c) <=? event_count (ev c))%nat then mret false else
  let i := event_count (ev c) in
  put_event i event;;
  t ← now;
  e ← get_event i;
  put_event i (e <| ev_timestamp := t |>);;
  ok ← match payload event with
       | None => mret true
       | Some bytes =>
         ok ← allocate_event_data i (ev_data_size event);
         if negb ok then mret false else
         e ← get_event i;
         store_bytes (ev_data e) bytes (ev_data_size event);; mret true
       end;
  if negb ok then mret false else
  modify_ev (fun s => s <| event_count ::= S |>);;
  mret true.

Definition TEST_FAILED_CONFIRMED : Z := Z.lor DTC_STATUS_TEST_FAILED DTC_STATUS_CONFIRMED.

Definition Event_Handler_ReportEvent (event : option DiagEventData) : M EventCtx bool :=
  c ← get;
  match event with
  | None => mret false
  | Some event =>
    if negb (ev_initialized (ev c)) then mret false else
    enter;;
    existing ← find_event (event_id event);
    stored ← match existing with Some i => update_existing i event | None => add_new event end;
    if negb stored then exit;; mret false else
    (if enable_auto_dtc (ev_config (ev c)) && bool_decide (ev_type event = DIAG_EVENT_ERROR) then
       on_dtc (DTC_SetStatus (ev_dtc event) TEST_FAILED_CONFIRMED);;
       match payload event with
       | Some bytes =>
         on_dtc (DTC_AddFreezeFrame (ev_dtc event) (Some bytes) (ev_data_size event));; mret tt
       | None => mret tt
       end
     else mret tt);;
    callback (event_callback (ev_config (ev c))) "event_callback" [event_id event];;
    exit;;
    mret true
  end.

(** The event copied to the caller, [None] when there is none. *)
Definition Event_Handler_GetEvent (id : Z) (out : bool) : M EventCtx (option DiagEventData) :=
  c ← get;
  if negb (ev_initialized (ev c)) || negb out then mret None else
  valid ← validate_event_id id;
  if negb valid then mret None else
  enter;;
  found ← find_event id;
  e ← match found with Some i => e ← get_event i; mret (Some e) | None => mret None end;
  exit;;
  mret e.

Definition Event_Handler_GetEventCount : M EventCtx nat :=
  c ← get; mret (event_count (ev c)).

Definition Event_Handler_ClearEvents : M EventCtx unit :=
  c ← get;
  if negb (ev_initialized (ev c)) then mret tt else
  enter;;
  modify_ev (fun s => s
    <| events := Live (replicate (max_events s) event_zero) |>
    <| event_data_buffer := Live (replicate (Z.to_nat (event_data_buffer_size s)) 0) |>
    <| event_count := 0%nat |>);;
  exit.

(** The body of the [switch]; logging is an empty block in the source. *)
Definition process_by_type (e : DiagEventData) : M EventCtx unit :=
  c ← get;
  match ev_type e with
  | DIAG_EVENT_ERROR =>
    if enable_auto_dtc (ev_config (ev c))
    then on_dtc (DTC_SetStatus (ev_dtc e) TEST_FAILED_CONFIRMED);; mret tt else mret tt
  | DIAG_EVENT_WARNING =>
    if negb (ev_dtc e =? 0)
    then on_dtc (DTC_SetStatus (ev_dtc e) DTC_STATUS_WARNING_INDICATOR_REQUESTED);; mret tt
    else mret tt
  | DIAG_EVENT_INFO | DIAG_EVENT_DEBUG => mret tt
  end.

Definition Event_Handler_ProcessEvent (id : Z) : M EventCtx bool :=
  c ← get;
  if negb (ev_initialized (ev c)) then mret false else
  valid ← validate_event_id id;
  if negb valid then mret false else
  enter;;
  found ← find_event id;
  match found with
  | Some i => e ← get_event i; process_by_type e
  | None => mret tt
  end;;
  exit;;
  mret (bool_decide (is_Some found)).

(** The unguarded lookups share their shape. *)
Definition lookup_event (id : Z) : M EventCtx (option DiagEventData) :=
  c ← get;
  if negb (ev_initialized (ev c)) then mret None else
  valid ← validate_event_id id;
  if negb valid then mret None else
  found ← find_event id;
  match found with Some i => e ← get_event i; mret (Some e) | None => mret None end.

Definition Event_Handler_GetEventType (id : Z) : M EventCtx DiagEventType :=
  e ← lookup_event id;
  mret (match e with Some e => ev_type e | None => DIAG_EVENT_DEBUG end).

Definition Event_Handler_SetEventPriority (id : Z) (priority : DiagEventPriority) : M EventCtx bool :=
  c ← get;
  if negb (ev_initialized (ev c)) then mret false else
  valid ← validate_event_id id;
  if negb valid then mret false else
  enter;;
  found ← find_event id;
  match found with
  | Some i => e ← get_event i; put_event i (e <| ev_priority := priority |>)
  | None => mret tt
  end;;
  exit;;
  mret (bool_decide (is_Some found)).

(** Whether an event of this type and age still counts. *)
Definition active_at (t : Z) (e : DiagEventData) : bool :=
  let age := u32 (t - ev_timestamp e) in
  match ev_type e with
  | DIAG_EVENT_ERROR => true
  | DIAG_EVENT_WARNING => age <? 3600000
  | DIAG_EVENT_INFO => age <? 600000
  | DIAG_EVENT_DEBUG => age <? 60000
  end.

Definition Event_Handler_IsEventActive (id : Z) : M EventCtx bool :=
  e ← lookup_event id;
  match e with
  | None => mret false
  | Some e => current_time ← now; mret (active_at current_time e)
  end.

(** The loop of [GetActiveEvents] from index [i] with [k] events to go;
    [room] entries are left in the caller's array. *)
Fixpoint collect_active (k i room : nat) : M EventCtx (list DiagEventData) :=
  match k, room with
  | S k', S room' =>
    e ← get_event i;
    active ← Event_Handler_IsEventActive (event_id e);
    if (active : bool)
    then (e ← get_event i; l ← collect_active k' (S i) room'; mret (e :: l))
    else collect_active k' (S i) room
  | _, _ => mret []
  end.

Definition Event_Handler_GetActiveEvents (out : bool) (max : nat) : M EventCtx (list DiagEventData) :=
  c ← get;
  if negb (ev_initialized (ev c)) || negb out || (max =? 0)%nat then mret [] else
  enter;;
  c ← get;
  l ← collect_active (event_count (ev c)) 0 max;
  exit;;
  mret l.

(** The inner processing loop for one priority. *)
Fixpoint process_loop (p : DiagEventPriority) (k i : nat) : M EventCtx unit :=
  match k with
  | O => mret tt
  | S k' =>
    e ← get_event i;
    (if bool_decide (ev_priority e = p)
     then Event_Handler_ProcessEvent (event_id e);; mret tt else mret tt);;
    process_loop p k' (S i)
  end.

(** The clean-up loop: [k = event_count - i]; a removal keeps [i]. *)
Fixpoint cleanup_loop (k i : nat) : M EventCtx unit :=
  match k with
  | O => mret tt
  | S k' =>
    e ← get_event i;
    active ← Event_Handler_IsEventActive (event_id e);
    if (active : bool) then cleanup_loop k' (S i) else
    c ← get;
    es ← load (events (ev c));
    modify_ev (fun s => s
      <| events := Live (remove_record i (event_count s) es) |>
      <| event_count ::= fun n => (n - 1)%nat |>);;
    cleanup_loop k' i
  end.

Definition Event_Handler_ProcessAllEvents : M EventCtx unit :=
  c ← get;
  if negb (ev_initialized (ev c)) then mret tt else
  enter;;
  c ← get;
  process_loop DIAG_PRIORITY_HIGH (event_count (ev c)) 0;;
  process_loop DIAG_PRIORITY_MEDIUM (event_count (ev c)) 0;;
  process_loop DIAG_PRIORITY_LOW (event_count (ev c)) 0;;
  _ ← now;
  cleanup_loop (event_count (ev c)) 0;;
  exit.

(** ** The table as a finite map *)

Record ev_tbl (c : EventCtx) (es : list DiagEventData) : Prop := {
  et_initialized : ev_initialized (ev c) = true;
  et_events : events (ev c) = Live es;
  et_length : length es = max_events (ev c);
  et_count : (event_count (ev c) <= max_events (ev c))%nat;
  et_uniq : tbl_uniq (event_count (ev c)) es }.

Definition ev_map (c : EventCtx) : gmap Z DiagEventData :=
  match events (ev c) with Live es => tbl (event_count (ev c)) es | _ => ∅ end.

Section event_wp.
Context (c : EventCtx) (m : Machine) (es : list DiagEventData).

Lemma wp_get_event i e Q :
  events (ev c) = Live es -> es !! i = Some e -> Q e c m -> wp (get_event i) Q c m.
Proof. intros Hr Hi HQ. unfold get_event. wp_steps. rewrite Hr; simpl. wp_steps; congruence. Qed.

Lemma wp_put_event i e Q :
  events (ev c) = Live es -> (i < length es)%nat ->
  Q tt (c <| ev ::= fun s => s <| events := Live (<[i := e]> es) |> |>) m -> wp (put_event i e) Q c m.
Proof.
  intros Hr Hi HQ. unfold put_event. wp_steps. rewrite Hr; simpl.
  unfold modify_ev. wp_steps; [done|tests; lia].
Qed.

Lemma wp_find_event d Q :
  events (ev c) = Live es -> (event_count (ev c) <= length es)%nat ->
  Q (find_key d (event_count (ev c)) es) c m -> wp (find_event d) Q c m.
Proof.
  intros Hr Hn HQ. unfold find_event. wp_steps.
  - tests. rewrite Heqb in HQ. apply HQ.
  - rewrite Hr; simpl. wp_steps; [tests; lia|done].
Qed.

Lemma wp_validate_event_id d Q :
  events (ev c) = Live es -> (event_count (ev c) <= length es)%nat ->
  Q (bool_decide (is_Some (find_key d (event_count (ev c)) es))) c m -> wp (validate_event_id d) Q c m.
Proof. intros Hr Hn HQ. unfold validate_event_id. apply wp_bind, wp_find_event; auto. Qed.

Lemma wp_lookup_event d Q :
  ev_tbl c es -> Q (ev_map c !! d) c m -> wp (lookup_event d) Q c m.
Proof.
  intros [Hi Hr Hl Hn Hu] HQ. unfold ev_map in HQ. rewrite Hr, tbl_lookup in HQ by done.
  unfold lookup_event. wp_step. wp_step. rewrite Hi; simpl.
  apply wp_bind, wp_validate_event_id; [done|lia|].
  destruct (find_key d (event_count (ev c)) es) as [i|] eqn:E; simpl; [|done].
  apply wp_bind, wp_find_event; [done|lia|]. rewrite E. simpl in HQ.
  apply find_key_Some in E as (r & Hri & _ & _). rewrite Hri in HQ.
  by eapply wp_bind, wp_get_event.
Qed.

(** An event of the table is active when its type and age say so. *)
Lemma wp_is_active i e Q :
  ev_tbl c es -> (i < event_count (ev c))%nat -> es !! i = Some e ->
  (forall tc, Q (active_at (system_ticks m) e) c (m <| timer_critical := tc |>)) ->
  wp (Event_Handler_IsEventActive (event_id e)) Q c m.
Proof.
  intros Ht Hi He HQ. unfold Event_Handler_IsEventActive. apply wp_bind, wp_lookup_event; [done|].
  destruct Ht as [_ Hr Hl Hn Hu]. unfold ev_map. rewrite Hr, tbl_lookup by done.
  rewrite (find_key_uniq (event_id e) _ _ i e) by done. simpl. rewrite He. wp_steps. apply HQ.
Qed.
End event_wp.

Lemma remove_event_tbl c es i e k :
  ev_tbl c es -> (i < event_count (ev c))%nat -> es !! i = Some e ->
  let n := event_count (ev c) in
  ev_tbl (c <| ev ::= fun s => s <| events := Live (remove_record i n es) |>
                                 <| event_count ::= fun n => (n - 1)%nat |> |>) (remove_record i n es) /\
  ((i + S k)%nat = n -> take i (remove_record i n es) = take i es /\
                  take k (drop i (remove_record i n es)) = take k (drop (S i) es)).
Proof.
  intros [Hi Hr Hl Hn Hu] Hin He n. subst n.
  split; [|intros; apply remove_record_split; lia]. rewrite remove_record_memmove by done.
  constructor; simpl; auto; [by rewrite length_memmove_down by lia|lia|].
  apply (tbl_remove (event_id e) (event_count (ev c)) es i); [lia|done|].
  by apply (find_key_uniq _ _ _ i e).
Qed.

Definition still_active (t : Z) (e : DiagEventData) : option DiagEventData :=
  if active_at t e then Some e else None.

Lemma cleanup_loop_wp k i c m es :
  ev_tbl c es -> (i + k)%nat = event_count (ev c) ->
  wp (cleanup_loop k i) (fun _ c' m' => exists es',
    ev_tbl c' es' /\
    take (event_count (ev c')) es' =
      take i es ++ omap (still_active (system_ticks m)) (take k (drop i es)) /\
    crit c' = crit c /\ primask m' = primask m) c m.
Proof.
  revert i c m es. induction k as [|k IH]; intros i c m es Ht Hk; cbn [cleanup_loop].
  { wp_step. exists es. rewrite <- Hk, Nat.add_0_r. simpl. by rewrite app_nil_r. }
  pose proof Ht as [_ Hr Hl Hn _].
  destruct (lookup_lt_is_Some_2 es i) as [e He]; [lia|].
  rewrite (drop_S es e i He). simpl. unfold still_active at 1.
  apply wp_bind. eapply wp_get_event; [done|done|].
  apply wp_bind. apply (wp_is_active _ _ es i e); [done|lia|done|]. intros tc.
  destruct (active_at (system_ticks m) e).
  - eapply wp_mono; [apply (IH (S i) c _ es Ht); lia|].
    intros _ c' m' (es' & Ht' & Hes' & Hc & Hp). exists es'. split_and!; auto.
    rewrite Hes', (take_S_r es i e He), <- app_assoc. done.
  - destruct (remove_event_tbl c es i e k) as [Ht1 Hes1]; [done|lia|done|].
    destruct Hes1 as [Hes1 Hes2]; [lia|]. wp_step. wp_step.
    rewrite Hr. simpl. wp_step. wp_step. unfold modify_ev. wp_step. wp_step.
    eapply wp_mono; [apply (IH i _ _ _ Ht1); simpl; lia|].
    intros _ c' m' (es' & Ht' & Hes' & Hc & Hp). exists es'. split_and!; auto.
    by rewrite Hes', Hes1, Hes2.
Qed.

(** Processing events changes the DTC store only, apart from the section. *)
Lemma on_dtc_set_status d st c m (Q : unit -> EventCtx -> Machine -> Prop) :
  dtc_ok (dtcs c) ->
  (forall dt m', dtc_ok dt -> primask m' = primask m -> system_ticks m' = system_ticks m ->
     Q tt (c <| dtcs := dt |>) m') ->
  wp (on_dtc (DTC_SetStatus d st);; mret tt) Q c m.
Proof.
  intros Hd HQ. apply wp_bind, wp_zoom. eapply wp_mono; [by apply set_status_total|].
  intros b dt m' (? & ? & ? & _). apply wp_ret. by apply HQ.
Qed.

Definition dtc_only (c : EventCtx) (m : Machine) (c' : EventCtx) (m' : Machine) : Prop :=
  ev c' = ev c /\ dtc_ok (dtcs c') /\ primask m' = primask m /\ system_ticks m' = system_ticks m.

Lemma process_by_type_wp e c m :
  dtc_ok (dtcs c) -> wp (process_by_type e) (fun _ c' m' => dtc_only c m c' m') c m.
Proof.
  intros Hd. unfold process_by_type. apply wp_bind, wp_get. unfold dtc_only.
  destruct (ev_type e); repeat case_match; try apply wp_ret; try (by split_and!);
    apply on_dtc_set_status; try done; intros; by split_and!.
Qed.

Lemma process_event_wp i e c m es :
  ev_tbl c es -> (i < event_count (ev c))%nat -> es !! i = Some e -> dtc_ok (dtcs c) ->
  wp (Event_Handler_ProcessEvent (event_id e)) (fun b c' m' => b = true /\
    dtc_only (set_crit (mkCS (Z.b2z (primask m)) false) c) m c' m') c m.
Proof.
  intros [Hi Hr Hl Hn Hu] Hin He Hd.
  assert (Hk := find_key_uniq (event_id e) _ _ i e Hu He Hin eq_refl).
  destruct c as [[ev0 n mx fb fs cf cs ini] dt], m as [pm tk fr tc ti tr]; simpl in *; subst.
  unfold Event_Handler_ProcessEvent. wp_step. wp_step.
  apply wp_bind. eapply wp_validate_event_id; simpl; [done|lia|]. rewrite Hk; simpl.
  wp_step. wp_step. apply wp_bind. eapply wp_find_event; simpl; [done|lia|]. rewrite Hk; simpl.
  apply wp_bind, wp_bind. eapply wp_get_event; simpl; [done|done|].
  eapply wp_mono; [by apply process_by_type_wp|].
  intros _ [ev' dt'] m' (Hev & Hd' & Hp & Htk); simpl in *; subst ev'.
  apply wp_bind. eapply wp_exit; [done|done|]. wp_step. by split_and!.
Qed.

Lemma ev_tbl_eq c c' es k :
  ev_tbl c es -> ev c' = ev (set_crit k c) -> ev_tbl c' es.
Proof. intros [] He. constructor; rewrite He; by destruct c as [[] ?]. Qed.

Definition has_prio (p : DiagEventPriority) (e : DiagEventData) : bool := bool_decide (ev_priority e = p).

Lemma process_loop_wp p k i c m es :
  ev_tbl c es -> (i + k <= event_count (ev c))%nat -> dtc_ok (dtcs c) ->
  wp (process_loop p k i) (fun _ c' m' =>
    dtc_only (if existsb (has_prio p) (take k (drop i es))
              then set_crit (mkCS (Z.b2z (primask m)) false) c else c) m c' m') c m.
Proof.
  revert i c m. induction k as [|k IH]; intros i c m Ht Hk Hd; cbn [process_loop].
  { wp_step. unfold dtc_only. by split_and!. }
  pose proof Ht as [_ Hr Hl Hn _].
  destruct (lookup_lt_is_Some_2 es i) as [e He]; [lia|].
  rewrite (drop_S es e i He). simpl.
  apply wp_bind. eapply wp_get_event; [done|done|]. apply wp_bind.
  change (bool_decide (ev_priority e = p)) with (has_prio p e).
  destruct (has_prio p e); simpl.
  - apply wp_bind. eapply wp_mono; [apply (process_event_wp i e c m es); auto; lia|].
    intros _ c1 m1 (_ & Hev & Hd1 & Hp & Htk). wp_step.
    assert (Ht1 := ev_tbl_eq _ _ _ _ Ht Hev).
    eapply wp_mono; [apply (IH (S i) c1 m1); auto; rewrite Hev; simpl; lia|].
    intros _ c' m' (Hev' & Hd' & Hp' & Htk'). unfold dtc_only. rewrite Hev', Hp', Htk', Hp.
    split_and!; auto. destruct (existsb _ _); simpl; rewrite Hev; by destruct c as [[] ?].
  - wp_step. eapply wp_mono; [apply (IH (S i) c m); auto; lia|]. auto.
Qed.

(** Every event is processed in one of the three passes. *)
Lemma some_pass es :
  existsb (has_prio DIAG_PRIORITY_HIGH) es || existsb (has_prio DIAG_PRIORITY_MEDIUM) es ||
  existsb (has_prio DIAG_PRIORITY_LOW) es = negb (bool_decide (es = [])).
Proof.
  destruct es as [|e es]; [done|]. simpl. unfold has_prio at 1 3 5.
  destruct (ev_priority e); simpl; by rewrite ?orb_true_r.
Qed.

(** One pass over the whole table, in terms of its observable parts. *)
Lemma pass_wp p c m es :
  ev_tbl c es -> dtc_ok (dtcs c) -> primask m = true ->
  wp (process_loop p (event_count (ev c)) 0) (fun _ c' m' =>
    ev_tbl c' es /\ event_count (ev c') = event_count (ev c) /\ dtc_ok (dtcs c') /\
    crit c' = (if existsb (has_prio p) (take (event_count (ev c)) es)
               then mkCS 1 false else crit c) /\
    primask m' = true /\ system_ticks m' = system_ticks m) c m.
Proof.
  intros Ht Hd Hm. eapply wp_mono; [by apply (process_loop_wp p _ 0 c m es)|].
  intros _ c' m' (He & Hd' & Hp & Htk). rewrite drop_0 in He. rewrite Hm in *.
  change (crit c') with (ev_critical (ev c')). rewrite He.
  split_and!; auto; [|by case_match|by case_match].
  destruct Ht; constructor; rewrite He; by case_match.
Qed.

(** ** The data buffer *)

Definition total_size (es : list DiagEventData) : Z :=
  foldr (fun e acc => ev_data_size e + acc) 0 es.

(** Where an event's bytes are. *)
Definition placed (buf : list Z) (e : DiagEventData) : Prop :=
  0 <= ev_data_size e /\
  (0 < ev_data_size e -> exists off, ev_data e = DBuffer off /\
     (off + Z.to_nat (ev_data_size e) <= length buf)%nat).

Record ev_wf (c : EventCtx) (es : list DiagEventData) (buf : list Z) : Prop := {
  ew_tbl : ev_tbl c es;
  ew_buffer : event_data_buffer (ev c) = Live buf;
  ew_size : length buf = Z.to_nat (event_data_buffer_size (ev c));
  ew_bound : 0 <= event_data_buffer_size (ev c) < 2 ^ 31;
  ew_placed : Forall (placed buf) (take (event_count (ev c)) es);
  ew_total : total_size (take (event_count (ev c)) es) <= event_data_buffer_size (ev c) }.

(** What a caller must pass: its own bytes, at least [data_size] of them, or
    no data at all. *)
Definition event_arg (e : DiagEventData) : Prop :=
  is_u16 (ev_data_size e) /\
  match ev_data e with
  | DCaller bytes => ev_data_size e <= Z.of_nat (length bytes)
  | DNull => ev_data_size e = 0
  | DBuffer _ => False
  end.

Lemma data_offset_total es :
  Forall (fun e => 0 <= ev_data_size e) es -> total_size es < 2 ^ 32 ->
  0 <= total_size es /\ data_offset es = total_size es.
Proof.
  intros Hes Hlt. assert (Hp : 0 <= total_size es) by (clear Hlt; induction Hes; simpl; lia).
  split; [done|]. unfold data_offset.
  enough (forall o, 0 <= o -> o + total_size es < 2 ^ 32 ->
    foldl (fun o e => u32 (o + ev_data_size e)) o es = o + total_size es) as H by (apply H; lia).
  clear Hlt Hp. induction Hes as [|e es He Hes IH]; simpl in *; intros o Ho Hlt; [lia|].
  assert (0 <= total_size es) by (clear -Hes; induction Hes; simpl in *; lia).
  rewrite u32_small by (unfold is_u32; lia). rewrite IH; lia.
Qed.

Lemma total_size_update es i e e' :
  es !! i = Some e ->
  total_size (<[i := e']> es) = total_size es - ev_data_size e + ev_data_size e'.
Proof.
  revert i. induction es as [|x es IH]; intros [|i] Hi; simplify_eq/=; [lia|].
  change (list_insert i e' es) with (<[i := e']> es). rewrite (IH i Hi). lia.
Qed.

Lemma total_size_snoc es e : total_size (es ++ [e]) = total_size es + ev_data_size e.
Proof. induction es as [|x es IH]; simpl; [lia|]. rewrite IH. lia. Qed.

(** The buffer after [size] bytes of [data] were copied to offset [off]. *)
Definition splice (off : nat) (data : list Z) (size : Z) (buf : list Z) : list Z :=
  take off buf ++ take (Z.to_nat size) data ++ drop (off + Z.to_nat size) buf.

Lemma splice_spec off data size buf :
  size <= Z.of_nat (length data) -> (off + Z.to_nat size <= length buf)%nat ->
  length (splice off data size buf) = length buf /\
  take (Z.to_nat size) (drop off (splice off data size buf)) = take (Z.to_nat size) data.
Proof.
  intros Hd Hb. unfold splice. split.
  - rewrite !length_app, !length_take, length_drop. lia.
  - rewrite drop_app_length' by (rewrite length_take; lia).
    rewrite take_app_length'; [done|]. rewrite length_take. lia.
Qed.

Lemma wp_store_bytes c m off data size buf Q :
  event_data_buffer (ev c) = Live buf ->
  size <= Z.of_nat (length data) -> (off + Z.to_nat size <= length buf)%nat ->
  Q tt (c <| ev ::= fun s => s <| event_data_buffer := Live (splice off data size buf) |> |>) m ->
  wp (store_bytes (DBuffer off) data size) Q c m.
Proof.
  intros Hb Hd Hl HQ. simpl. wp_step. wp_step. rewrite Hb; simpl.
  wp_step. wp_step. rewrite !(proj2 (Nat.ltb_ge _ _)) by lia. exact HQ.
Qed.

(** There is room for [size] more bytes. *)
Definition room (c : EventCtx) (es : list DiagEventData) (size : Z) : bool :=
  (size <=? max_event_data_size (ev_config (ev c))) &&
  (total_size (take (event_count (ev c)) es) + size <=? event_data_buffer_size (ev c)).

Lemma wp_allocate_event_data c m i e size es buf (Q : bool -> EventCtx -> Machine -> Prop) :
  events (ev c) = Live es -> es !! i = Some e -> is_u16 size ->
  0 <= event_data_buffer_size (ev c) < 2 ^ 31 ->
  Forall (placed buf) (take (event_count (ev c)) es) ->
  total_size (take (event_count (ev c)) es) <= event_data_buffer_size (ev c) ->
  (room c es size = false -> Q false c m) ->
  (room c es size = true ->
   Q true (c <| ev ::= fun s => s <| events := Live (<[i := e
      <| ev_data := DBuffer (Z.to_nat (total_size (take (event_count (ev c)) es))) |>
      <| ev_data_size := size |>]> es) |> |>) m) ->
  wp (allocate_event_data i size) Q c m.
Proof.
  intros Hr Hi Hsz Hb Hpl Htot Hf Ht. unfold allocate_event_data, room in *.
  destruct (data_offset_total (take (event_count (ev c)) es)) as [Hnn Hoff].
  { eapply Forall_impl; [exact Hpl|]. by intros ? []. }
  { lia. }
  wp_step. wp_step. rewrite Z.ltb_antisym.
  destruct (size <=? max_event_data_size (ev_config (ev c))); simpl in *; [|wp_steps; auto].
  rewrite Hr; simpl. wp_step. wp_step. rewrite Hoff, u32_small, Z.ltb_antisym
    by (unfold is_u32, is_u16 in *; lia).
  destruct (_ <=? event_data_buffer_size (ev c)); simpl in *; [|wp_steps; auto].
  apply wp_bind. eapply wp_get_event; [done|done|].
  apply wp_bind. eapply wp_put_event; [done|by eapply lookup_lt_Some|]. wp_step. auto.
Qed.

(** What storing [event] promises: the table stays well formed, and when it
    succeeds exactly the entry of the event changes and its bytes can be read
    back. *)
Definition stored_as (event : DiagEventData) (t : Z) (buf : list Z) (r : DiagEventData) : Prop :=
  ev_type r = ev_type event /\ ev_priority r = ev_priority event /\ ev_timestamp r = t /\
  (forall bytes, payload event = Some bytes -> exists off, ev_data r = DBuffer off /\
     take (Z.to_nat (ev_data_size event)) (drop off buf) = take (Z.to_nat (ev_data_size event)) bytes).

Definition frame (c : EventCtx) (m : Machine) (c' : EventCtx) (m' : Machine) : Prop :=
  ev_config (ev c') = ev_config (ev c) /\ crit c' = crit c /\ dtcs c' = dtcs c /\
  primask m' = primask m /\ system_ticks m' = system_ticks m.

Definition reported (event : DiagEventData) (c : EventCtx) (m : Machine) (b : bool)
    (c' : EventCtx) (m' : Machine) : Prop :=
  frame c m c' m' /\ exists es' buf', ev_wf c' es' buf' /\
  (b = true -> exists r, ev_map c' = <[event_id event := r]> (ev_map c) /\
     stored_as event (system_ticks m) buf' r).

Lemma payload_size e bytes :
  event_arg e -> payload e = Some bytes ->
  0 < ev_data_size e /\ is_u16 (ev_data_size e) /\ ev_data_size e <= Z.of_nat (length bytes).
Proof.
  unfold event_arg, payload. intros [Hu Hd]. destruct (ev_data e); try done.
  destruct (0 <? ev_data_size e) eqn:E; [|done]. intros [= <-]. tests. done.
Qed.
Lemma payload_none e : event_arg e -> payload e = None -> ev_data_size e = 0.
Proof.
  unfold event_arg, payload, is_u16. intros [Hu Hd]. destruct (ev_data e); try done.
  destruct (0 <? ev_data_size e) eqn:E; [done|]. tests. lia.
Qed.

Lemma placed_same_length buf buf' e : length buf' = length buf -> placed buf e -> placed buf' e.
Proof. unfold placed. by intros ->. Qed.

(** A live entry is overwritten and the buffer replaced. *)
Lemma ev_wf_update c es buf i e e' buf' ts :
  ev_wf c es buf -> (i < event_count (ev c))%nat -> es !! i = Some e -> event_id e' = event_id e ->
  length buf' = length buf -> placed buf' e' ->
  total_size (take (event_count (ev c)) es) - ev_data_size e + ev_data_size e'
    <= event_data_buffer_size (ev c) ->
  let c' := c <| ev ::= fun s => s <| events := Live (<[i := e']> es) |>
                                  <| event_data_buffer := Live buf' |> <| ev_critical := ts |> |> in
  ev_wf c' (<[i := e']> es) buf' /\ ev_map c' = <[event_id e' := e']> (ev_map c).
Proof.
  intros [[Hi Hr Hl Hn Hu] Hb Hs Hbd Hpl Htot] Hin He Hid Hlen Hp Ht. cbv zeta.
  destruct (tbl_update (event_count (ev c)) es i e' e) as [Hu' Hm']; auto.
  unfold ev_map; simpl. rewrite Hr. split; [|done].
  constructor; simpl; auto; try congruence.
  - constructor; simpl; rewrite ?length_insert; auto.
  - rewrite take_insert_lt by done. apply Forall_insert; [|done].
    eapply Forall_impl; [exact Hpl|]. intros x. by apply placed_same_length.
  - rewrite take_insert_lt, (total_size_update _ i e) by (try done; by apply lookup_take_Some). done.
Qed.

(** A new entry enters behind the live ones. *)
Lemma ev_wf_push c es buf e buf' ts :
  ev_wf c es buf -> (event_count (ev c) < max_events (ev c))%nat ->
  find_key (event_id e) (event_count (ev c)) es = None ->
  length buf' = length buf -> placed buf' e ->
  total_size (take (event_count (ev c)) es) + ev_data_size e <= event_data_buffer_size (ev c) ->
  let c' := c <| ev ::= fun s => s <| events := Live (<[event_count s := e]> es) |>
     <| event_data_buffer := Live buf' |> <| event_count ::= S |> <| ev_critical := ts |> |> in
  ev_wf c' (<[event_count (ev c) := e]> es) buf' /\ ev_map c' = <[event_id e := e]> (ev_map c).
Proof.
  intros [[Hi Hr Hl Hn Hu] Hb Hs Hbd Hpl Htot] Hlt Hk Hlen Hp Ht. cbv zeta.
  destruct (tbl_push (event_count (ev c)) es e) as [Hu' Hm']; auto; [lia|].
  unfold ev_map; simpl. rewrite Hr. split; [|done].
  constructor; simpl; auto; try congruence.
  - constructor; simpl; rewrite ?length_insert; auto.
  - rewrite take_push by lia. apply Forall_app. split; [|by constructor].
    eapply Forall_impl; [exact Hpl|]. intros x. by apply placed_same_length.
  - rewrite take_push, total_size_snoc by lia. done.
Qed.

(** [event_storage.events[i]] rewritten, as one step on well-formed stores. *)
Lemma wp_put_live c m es buf i e e' (Q : unit -> EventCtx -> Machine -> Prop) :
  ev_wf c es buf -> (i < event_count (ev c))%nat -> es !! i = Some e -> event_id e' = event_id e ->
  ev_data e' = ev_data e -> ev_data_size e' = ev_data_size e ->
  (forall c', ev_wf c' (<[i := e']> es) buf -> ev_map c' = <[event_id e' := e']> (ev_map c) ->
     event_count (ev c') = event_count (ev c) -> max_events (ev c') = max_events (ev c) ->
     event_data_buffer_size (ev c') = event_data_buffer_size (ev c) ->
     total_size (take (event_count (ev c)) (<[i := e']> es)) = total_size (take (event_count (ev c)) es) ->
     frame c m c' m -> Q tt c' m) ->
  wp (put_event i e') Q c m.
Proof.
  intros Hw Hin He Hid Hd Hs HQ. eapply wp_put_event;
    [apply Hw|by eapply lookup_lt_Some|].
  destruct (ev_wf_update c es buf i e e' buf (ev_critical (ev c))) as [Hw' Hm']; auto.
  { assert (Hp := ew_placed _ _ _ Hw). eapply Forall_lookup_1 in Hp; [|by apply lookup_take_Some].
    unfold placed in *. by rewrite Hd, Hs. }
  { rewrite Hs. assert (Ht := ew_total _ _ _ Hw). lia. }
  pose proof (ew_buffer _ _ _ Hw) as Hb.
  destruct c as [[] ?]; simpl in *; subst. apply HQ; auto; [|by split_and!].
  rewrite take_insert_lt, (total_size_update _ i e) by (try done; by apply lookup_take_Some). lia.
Qed.

Definition updates_ok (c : EventCtx) (es : list DiagEventData) (e event : DiagEventData) : bool :=
  match payload event with
  | None => true
  | Some _ => (ev_data_size event <=? ev_data_size e) || room c es (ev_data_size event)
  end.

(** Copying the payload of [event] over the entry [e] at [i]. *)
Lemma store_payload_wp c m es buf i e event (Q : bool -> EventCtx -> Machine -> Prop) :
  ev_wf c es buf -> (i < event_count (ev c))%nat -> es !! i = Some e -> event_arg event ->
  event_id e = event_id event ->
  (forall c' e' es' buf', ev_wf c' es' buf' -> ev_map c' = <[event_id e := e']> (ev_map c) ->
     es' !! i = Some e' -> event_id e' = event_id e -> event_count (ev c') = event_count (ev c) ->
     ev_type e' = ev_type e -> ev_priority e' = ev_priority e -> ev_timestamp e' = ev_timestamp e ->
     (updates_ok c es e event = true -> forall bytes, payload event = Some bytes ->
       exists off, ev_data e' = DBuffer off /\
        take (Z.to_nat (ev_data_size event)) (drop off buf') =
        take (Z.to_nat (ev_data_size event)) bytes) ->
     frame c m c' m -> Q (updates_ok c es e event) c' m) ->
  wp (match payload event with
      | None => mret true
      | Some bytes =>
        e ← get_event i;
        if ev_data_size event <=? ev_data_size e then
          store_bytes (ev_data e) bytes (ev_data_size event);; mret true
        else
          ok ← allocate_event_data i (ev_data_size event);
          if negb ok then mret false else
          e ← get_event i;
          store_bytes (ev_data e) bytes (ev_data_size event);; mret true
      end) Q c m.
Proof.
  intros Hw Hin He Harg Hid HQ. unfold updates_ok in HQ.
  pose proof Hw as [[Hi Hr Hl Hn Hu] Hb Hsz Hbd Hpl Htot].
  assert (Hmap : ev_map c !! event_id e = Some e).
  { unfold ev_map. rewrite Hr, tbl_lookup, (find_key_uniq (event_id e) _ _ i e) by done. done. }
  destruct (payload event) as [bytes|] eqn:Hp.
  2: { wp_step. apply (HQ c e es buf); auto; [by rewrite insert_id|done|by split_and!]. }
  destruct (payload_size event bytes Harg Hp) as (Hpos & Hu16 & Hlb).
  assert (Hpe := Forall_lookup_1 _ _ i e Hpl ltac:(by apply lookup_take_Some)).
  apply wp_bind. eapply wp_get_event; [done|done|]. simpl.
  destruct (ev_data_size event <=? ev_data_size e) eqn:Hle; simpl in HQ; tests.
  - destruct Hpe as [_ (off & Hd & Hoff)]; [lia|]. rewrite Hd.
    destruct (splice_spec off bytes (ev_data_size event) buf) as [Hsl Hst]; [lia|lia|].
    apply wp_bind. eapply wp_store_bytes; [done|done|lia|]. wp_step.
    destruct (ev_wf_update c es buf i e e (splice off bytes (ev_data_size event) buf)
      (ev_critical (ev c))) as [Hw' Hm']; auto; [|lia|].
    { split; [lia|]. intros _. exists off. rewrite Hsl. auto. }
    rewrite list_insert_id in Hw' by done. rewrite list_insert_id in Hm' by done.
    assert (Hc : events (ev c) = Live es) by done.
    destruct c as [[] ?]; simpl in *; subst.
    eapply HQ; [exact Hw'|exact Hm'|exact He|..]; auto; [|by split_and!].
    intros _ ? [= <-]. eauto.
  - apply wp_bind. eapply wp_allocate_event_data; [done..| |]; intros Hroom; rewrite Hroom in HQ; simpl.
    { wp_step. apply (HQ c e es buf); auto; [by rewrite insert_id|done|by split_and!]. }
    unfold room in Hroom. tests.
    destruct (data_offset_total (take (event_count (ev c)) es)) as [Hnn _];
      [eapply Forall_impl; [exact Hpl|]; by intros ? []|lia|].
    assert (Hil : (i < length es)%nat) by (by eapply lookup_lt_Some).
    apply wp_bind. eapply wp_get_event; [done|by apply list_lookup_insert_eq|]. simpl.
    set (off := Z.to_nat (total_size _)).
    destruct (splice_spec off bytes (ev_data_size event) buf) as [Hsl Hst]; [lia|unfold off; lia|].
    apply wp_bind. eapply wp_store_bytes; [done|done|unfold off; lia|]. wp_step. simpl.
    set (e' := {| event_id := _ |}).
    destruct (ev_wf_update c es buf i e e' (splice off bytes (ev_data_size event) buf)
      (ev_critical (ev c))) as [Hw' Hm']; auto; simpl; [| |].
    { split; simpl; [lia|]. intros _. exists off. rewrite Hsl. split; [done|unfold off; lia]. }
    { destruct Hpe as [? _]. lia. }
    eapply (HQ _ e'); [exact Hw'|exact Hm'|by apply list_lookup_insert_eq|..]; auto; [|by split_and!].
    intros _ ? [= <-]. exists off. done.
Qed.

Lemma update_existing_wp c m es buf i e event :
  ev_wf c es buf -> (i < event_count (ev c))%nat -> es !! i = Some e -> event_arg event ->
  event_id e = event_id event ->
  wp (update_existing i event) (fun b c' m' =>
    b = updates_ok c es e event /\ reported event c m b c' m') c m.
Proof.
  intros Hw Hin He Harg Hid. unfold update_existing. wp_step. wp_step.
  apply wp_bind. eapply wp_get_event; [apply Hw|done|]. simpl. set (e1 := {| event_id := _ |}).
  apply wp_bind. eapply (wp_put_live _ _ es buf i e e1); [done..|].
  intros c1 Hw1 Hm1 Hn1 Hx1 Hb1 Ht1 (Hf1 & Hf2 & Hf3 & _).
  assert (Hil : (i < length es)%nat) by (by eapply lookup_lt_Some).
  assert (Hok : updates_ok c1 (<[i := e1]> es) e1 event = updates_ok c es e event).
  { unfold updates_ok, room. by rewrite Hf1, Hb1, Hn1, Ht1. }
  apply wp_bind. eapply (store_payload_wp c1 _ _ buf i e1 event);
    [done|lia|by apply list_lookup_insert_eq|done|done|].
  rewrite Hok. intros c2 e2 es2 buf2 Hw2 Hm2 He2 Hid2 Hn2 Hty Hpr Hts Hby (Hg1 & Hg2 & Hg3 & _).
  destruct (updates_ok c es e event); simpl.
  2: { wp_step. split; [done|]. unfold reported, frame.
       split; [split_and!; first [congruence|done]|].
       eexists _, _. split; [exact Hw2|done]. }
  apply wp_bind. eapply wp_get_event; [apply Hw2|done|]. simpl. set (e3 := {| event_id := _ |}).
  apply wp_bind. eapply (wp_put_live _ _ es2 buf2 i e2 e3); [done|lia|done..|].
  intros c3 Hw3 Hm3 Hn3 Hx3 Hb3 _ (Hh1 & Hh2 & Hh3 & _). wp_step. split; [done|].
  split; [unfold frame; split_and!; first [congruence|done]|].
  eexists _, buf2. split; [exact Hw3|]. intros _. exists e3. split.
  - rewrite Hm3, Hm2, Hm1. change (event_id e3) with (event_id e2). rewrite Hid2.
    change (event_id e1) with (event_id e). by rewrite Hid, !insert_insert_eq.
  - unfold stored_as. simpl. rewrite Hty, Hpr, Hts. split_and!; auto.
Qed.

Definition adds_ok (c : EventCtx) (es : list DiagEventData) (event : DiagEventData) : bool :=
  (event_count (ev c) <? max_events (ev c))%nat &&
  match payload event with None => true | Some _ => room c es (ev_data_size event) end.

(** The slot behind the live entries is scratch space until the count grows. *)
Lemma ev_wf_slot c es buf e ts :
  ev_wf c es buf ->
  ev_wf (c <| ev ::= fun s => s <| events := Live (<[event_count (ev c) := e]> es) |>
                                <| ev_critical := ts |> |>)
        (<[event_count (ev c) := e]> es) buf.
Proof.
  intros [[Hi Hr Hl Hn Hu] Hb Hs Hbd Hpl Htot].
  constructor; simpl; rewrite ?take_insert_ge by lia; auto.
  constructor; simpl; rewrite ?length_insert; auto. unfold tbl_uniq. by rewrite take_insert_ge by lia.
Qed.

Lemma add_new_wp c m es buf event :
  ev_wf c es buf -> find_key (event_id event) (event_count (ev c)) es = None -> event_arg event ->
  wp (add_new event) (fun b c' m' => b = adds_ok c es event /\ reported event c m b c' m') c m.
Proof.
  intros Hw Hk Harg. pose proof Hw as [[Hi Hr Hl Hn Hu] Hb Hsz Hbd Hpl Htot].
  unfold add_new, adds_ok. wp_step. wp_step. rewrite Nat.ltb_antisym.
  destruct (max_events (ev c) <=? event_count (ev c))%nat eqn:Hfull; simpl; tests.
  { wp_step. split; [done|]. split; [by split_and!|]. eexists _, _. split; [exact Hw|done]. }
  apply wp_bind. eapply wp_put_event; [done|lia|]. wp_step. wp_step.
  apply wp_bind. eapply wp_get_event; simpl; [done|apply list_lookup_insert_eq; lia|].
  apply wp_bind. eapply wp_put_event; simpl; [done|rewrite length_insert; lia|]. simpl.
  rewrite list_insert_insert_eq. set (e1 := {| event_id := _ |}).
  assert (Hw1 := ev_wf_slot c es buf e1 (ev_critical (ev c)) Hw).
  set (c1 := {| ev := _; dtcs := _ |}). change (ev_wf c1 (<[event_count (ev c) := e1]> es) buf) in Hw1.
  apply wp_bind. destruct (payload event) as [bytes|] eqn:Hp.
  2: { wp_step. unfold modify_ev. wp_step. wp_step. wp_step. split; [done|].
       assert (Hz := payload_none event Harg Hp).
       destruct (ev_wf_push c es buf e1 buf (ev_critical (ev c))) as [Hw2 Hm2]; auto; simpl; [|lia|].
       { unfold placed; simpl. lia. }
       rewrite <- Hb in Hw2, Hm2. split; [by split_and!|]. eexists _, buf. split; [exact Hw2|].
       intros _. exists e1. split; [exact Hm2|]. unfold stored_as. rewrite Hp. by split_and!. }
  destruct (payload_size event bytes Harg Hp) as (Hpos & Hu16 & Hlb).
  assert (Hr1 : forall z, room c1 (<[event_count (ev c) := e1]> es) z = room c es z)
    by (intros z; unfold room; simpl; by rewrite take_insert_ge).
  apply wp_bind. eapply (wp_allocate_event_data c1 _ _ e1);
    [done|apply list_lookup_insert_eq; lia|done|apply Hw1..| |]; rewrite Hr1; intros Hroom.
  { simpl. wp_step. wp_step. rewrite Hroom. split; [done|]. split; [by split_and!|].
    eexists _, _. split; [exact Hw1|done]. }
  simpl. change (event_count (ev c1)) with (event_count (ev c)). rewrite list_insert_insert_eq, take_insert_ge by lia.
  set (off := Z.to_nat (total_size _)). set (e2 := {| event_id := _ |}).
  pose proof Hroom as Hroom'. unfold room in Hroom'. tests.
  destruct (data_offset_total (take (event_count (ev c)) es)) as [Hnn _];
    [eapply Forall_impl; [exact Hpl|]; by intros ? []|lia|].
  destruct (splice_spec off bytes (ev_data_size event) buf) as [Hsl Hst]; [lia|unfold off; lia|].
  apply wp_bind. eapply wp_get_event; simpl; [done|apply list_lookup_insert_eq; lia|]. simpl.
  apply wp_bind. eapply wp_store_bytes; simpl; [done|done|unfold off; lia|].
  wp_step. unfold modify_ev. wp_step. wp_step. wp_step. rewrite Hroom. split; [done|].
  destruct (ev_wf_push c es buf e2 (splice off bytes (ev_data_size event) buf) (ev_critical (ev c)))
    as [Hw2 Hm2]; auto; simpl; [|].
  { split; simpl; [lia|]. intros _. exists off. rewrite Hsl. split; [done|unfold off; lia]. }
  split; [by split_and!|]. eexists _, _. split; [exact Hw2|].
  intros _. exists e2. split; [exact Hm2|]. unfold stored_as. rewrite Hp. split_and!; auto.
  intros ? [= <-]. by exists off.
Qed.

(** ** Properties *)

(**  [Event_Handler_ProcessAllEvents] handles every event and then removes
    exactly the events that are no longer active (warnings after an hour, info
    events after ten minutes, debug events after a minute, errors never),
    although the clean-up loop deletes from the table it walks; all calls into
    the DTC manager are defined.  When the table is not empty it returns with
    interrupts masked, because [Event_Handler_ProcessEvent] re-enters the
    section that is already open. *)
Theorem process_all_events_spec c m es :
  ev_tbl c es -> dtc_ok (dtcs c) ->
  wp Event_Handler_ProcessAllEvents (fun _ c' m' =>
    ev_map c' = omap (still_active (system_ticks m)) (ev_map c) /\
    (exists es', ev_tbl c' es') /\
    primask m' = primask m || negb (event_count (ev c) =? 0)%nat) c m.
Proof.
  intros Ht Hd. pose proof Ht as [Hi Hr Hl Hn Hu].
  unfold Event_Handler_ProcessAllEvents. wp_step. wp_step. rewrite Hi; simpl.
  apply wp_bind, wp_enter. wp_step. wp_step. change (event_count _) with (event_count (ev c)).
  set (c0 := {| ev := _; dtcs := _ |}). set (m0 := {| primask := true |}).
  assert (Ht0 : ev_tbl c0 es) by (by apply (ev_tbl_eq c c0 es (mkCS (Z.b2z (primask m)) true))).
  apply wp_bind. eapply wp_mono; [by apply (pass_wp _ c0 m0 es)|].
  intros _ c1 m1 (Ht1 & Hn1 & Hd1 & Hc1 & Hp1 & Htk1). change (event_count (ev c0)) with (event_count (ev c)) in *.
  apply wp_bind. rewrite <- Hn1. eapply wp_mono; [by apply (pass_wp _ c1 m1 es)|].
  intros _ c2 m2 (Ht2 & Hn2 & Hd2 & Hc2 & Hp2 & Htk2).
  apply wp_bind. rewrite <- Hn2. eapply wp_mono; [by apply (pass_wp _ c2 m2 es)|].
  intros _ c3 m3 (Ht3 & Hn3 & Hd3 & Hc3 & Hp3 & Htk3).
  wp_step. wp_step. apply wp_bind. rewrite <- Hn3.
  eapply wp_mono; [by apply (cleanup_loop_wp _ 0 _ _ es Ht3)|].
  intros _ c4 m4 (es' & Ht4 & Hes & Hc4 & Hp4). rewrite drop_0 in Hes. simpl in Hes, Hp4.
  rewrite Hn3, Hn2, Hn1, Htk3, Htk2, Htk1 in Hes. change (system_ticks m0) with (system_ticks m) in Hes.
  assert (Hm : forall k, ev_map (set_crit k c4) = omap (still_active (system_ticks m)) (ev_map c)).
  { intros k. unfold ev_map; simpl. rewrite Hr, (et_events c4 es' Ht4). unfold tbl. rewrite Hes.
    apply map_omap; [|done]. intros x y. unfold still_active. destruct (active_at _ x); [by intros [= ->]|done]. }
  assert (Hsp := some_pass (take (event_count (ev c)) es)).
  rewrite Hc3, Hc2, Hc1, Hn2, Hn1 in Hc4. change (event_count (ev c0)) with (event_count (ev c)) in Hc4.
  change (crit c0) with (mkCS (Z.b2z (primask m)) true) in Hc4.
  rewrite take_nonempty in Hsp by lia. rewrite Hn3, Hn2, Hn1, <- Hsp.
  assert (Ht5 : forall k, ev_tbl (set_crit k c4) es') by (by destruct Ht4).
  clear -Hc4 Hp4 Hp3 Hm Ht5. rewrite Hp3 in Hp4.
  destruct (existsb (has_prio DIAG_PRIORITY_LOW) _), (existsb (has_prio DIAG_PRIORITY_MEDIUM) _),
    (existsb (has_prio DIAG_PRIORITY_HIGH) _); simpl;
  try (specialize (Hm (crit c4)); specialize (Ht5 (crit c4)); rewrite set_crit_crit in *;
       apply wp_exit_unlocked; [by rewrite Hc4|]; rewrite orb_true_r; eauto; fail).
  eapply wp_exit; [exact Hc4|done|]. rewrite orb_false_r. eauto.
Qed.

(** A table with a permanent error and an expired debug event. *)
Definition example_events : list DiagEventData :=
  [mkEvent 1 DIAG_EVENT_ERROR DIAG_PRIORITY_LOW 5 0x100 DNull 0 [];
   mkEvent 2 DIAG_EVENT_DEBUG DIAG_PRIORITY_HIGH 5 0 DNull 0 []; event_zero].
Definition example_event_ctx : EventCtx :=
  mkEventCtx
    (mkEventStorage (Live example_events) 2 3 (Live (replicate 24 0)) 24
       (mkEventConfig 3 8 false true true) cs_zero true)
    example_dtc_store.
Lemma example_event_tbl : ev_tbl example_event_ctx example_events.
Proof.
  constructor; try reflexivity; [simpl; lia|]. by apply (bool_decide_unpack _); vm_compute.
Qed.
Lemma example_dtc_ok : dtc_ok (dtcs example_event_ctx).
Proof. right. exists example_dtcs. exact example_dtc_wf. Qed.

(** Witness of [process_all_events_spec]. *)
Lemma process_all_events_spec_witness :
  ev_tbl example_event_ctx example_events /\
  wp Event_Handler_ProcessAllEvents (fun _ c' m' =>
    ev_map c' = omap (still_active 70000) (ev_map example_event_ctx) /\
    (exists es', ev_tbl c' es') /\ primask m' = true)
    example_event_ctx (boot <| system_ticks := 70000 |>).
Proof.
  split; [exact example_event_tbl|].
  exact (process_all_events_spec example_event_ctx (boot <| system_ticks := 70000 |>)
    example_events example_event_tbl example_dtc_ok).
Defined.

Lemma ev_wf_eq c c' es buf k : ev_wf c es buf -> ev c' = ev (set_crit k c) -> ev_wf c' es buf.
Proof.
  intros [Ht Hb Hs Hbd Hpl Htot] He.
  constructor; [by eapply ev_tbl_eq|..]; rewrite He; by destruct c as [[] ?].
Qed.

Definition raises_dtc (c : EventCtx) (event : DiagEventData) : bool :=
  enable_auto_dtc (ev_config (ev c)) && bool_decide (ev_type event = DIAG_EVENT_ERROR).

(** Whether there is a place for the event and its bytes. *)
Definition accepts (c : EventCtx) (es : list DiagEventData) (event : DiagEventData) : bool :=
  match ev_map c !! event_id event with
  | Some e => updates_ok c es e event
  | None => adds_ok c es event
  end.

Lemma store_event_wp c m es buf event :
  ev_wf c es buf -> event_arg event ->
  wp (existing ← find_event (event_id event);
      match existing with Some i => update_existing i event | None => add_new event end)
    (fun b c' m' => b = accepts c es event /\ reported event c m b c' m') c m.
Proof.
  intros Hw Harg. pose proof Hw as [[Hi Hr Hl Hn Hu] Hb Hsz Hbd Hpl Htot].
  assert (Hlk := tbl_lookup (event_id event) _ _ Hu).
  change (tbl (event_count (ev c)) es) with
    (match Live es with Live es => tbl (event_count (ev c)) es | _ => ∅ end) in Hlk.
  rewrite <- Hr in Hlk. change (ev_map c !! event_id event = find_key (event_id event)
    (event_count (ev c)) es ≫= (fun i => es !! i)) in Hlk.
  unfold accepts. rewrite Hlk. apply wp_bind. eapply wp_find_event; [done|lia|].
  destruct (find_key (event_id event) (event_count (ev c)) es) as [i|] eqn:Hk; simpl.
  - apply find_key_Some in Hk as (e & He & Hin & Hid). rewrite He. by eapply update_existing_wp.
  - by eapply add_new_wp.
Qed.

(** The automatic DTC of an accepted event without data. *)
Lemma raise_dtc_wp c c1 m event :
  dtc_ok (dtcs c1) -> (raises_dtc c event = true -> payload event = None) ->
  wp (if raises_dtc c event then
        on_dtc (DTC_SetStatus (ev_dtc event) TEST_FAILED_CONFIRMED);;
        match payload event with
        | Some bytes =>
          on_dtc (DTC_AddFreezeFrame (ev_dtc event) (Some bytes) (ev_data_size event));; mret tt
        | None => mret tt
        end
      else mret tt)
    (fun _ c' m' => ev c' = ev c1 /\ dtc_ok (dtcs c') /\ primask m' = primask m /\
      (raises_dtc c event = true -> dtc_ready (dtcs c1) ->
       is_Some (dtc_map (dtcs c1) !! ev_dtc event) \/
         (size (dtc_map (dtcs c1)) < max_records (dtcs c1))%nat ->
       exists r, dtc_map (dtcs c') !! ev_dtc event = Some r /\ status_mask r = TEST_FAILED_CONFIRMED))
    c1 m.
Proof.
  intros Hd Hsafe. destruct (raises_dtc c event); [|wp_step; by split_and!].
  rewrite Hsafe by done. apply wp_bind, wp_zoom. eapply wp_mono; [by apply set_status_total|].
  intros _ dt m' (? & ? & ? & ?). wp_step. by split_and!.
Qed.

(** [Event_Handler_ReportEvent] implements insertion into a map of events
    with a bounded data buffer.  It answers [true] exactly when the event fits
    ([accepts]: known, or a free entry; its bytes no longer than those stored,
    or within the limits of the buffer).  Then the entry of the event (and no
    other) carries the reported type, priority, the current time and, at its
    offset in the buffer, the reported bytes; an error event with automatic
    DTCs leaves its DTC failed and confirmed.  The store stays well formed
    and the interrupt mask is restored. *)
Theorem report_event_refines c m es buf event :
  ev_wf c es buf -> event_arg event -> dtc_ok (dtcs c) ->
  (raises_dtc c event = true -> payload event = None) ->
  wp (Event_Handler_ReportEvent (Some event)) (fun b c' m' =>
    b = accepts c es event /\ primask m' = primask m /\ dtc_ok (dtcs c') /\
    (exists es' buf', ev_wf c' es' buf' /\
      (b = true -> exists r, ev_map c' = <[event_id event := r]> (ev_map c) /\
         stored_as event (system_ticks m) buf' r)) /\
    (b = true -> raises_dtc c event = true -> dtc_ready (dtcs c) ->
     is_Some (dtc_map (dtcs c) !! ev_dtc event) \/
       (size (dtc_map (dtcs c)) < max_records (dtcs c))%nat ->
     exists r, dtc_map (dtcs c') !! ev_dtc event = Some r /\ status_mask r = TEST_FAILED_CONFIRMED)) c m.
Proof.
  intros Hw Harg Hd Hsafe. unfold Event_Handler_ReportEvent. wp_step. wp_step.
  rewrite (et_initialized _ _ (ew_tbl _ _ _ Hw)); simpl. apply wp_bind, wp_enter.
  set (k := mkCS _ _). assert (Hw0 := ev_wf_eq c (set_crit k c) es buf k Hw eq_refl).
  set (m0 := m <| primask := true |>).
  assert (Hacc : accepts (set_crit k c) es event = accepts c es event) by done.
  apply wp_bind_assoc, wp_bind. eapply wp_mono; [by apply (store_event_wp _ m0 es buf)|].
  intros b c1 m1 [-> ((Hf1 & Hf2 & Hf3 & Hf4 & Hf5) & es1 & buf1 & Hw1 & Hr1)].
  rewrite Hacc in *.
  assert (Hmap : forall dt q, ev_map (set_crit q (c1 <| dtcs := dt |>)) = ev_map c1) by done.
  assert (Hwf : forall dt q, ev_wf (set_crit q (c1 <| dtcs := dt |>)) es1 buf1)
    by (intros dt q; by apply (ev_wf_eq c1 _ es1 buf1 q)).
  destruct (accepts c es event) eqn:Ha; simpl.
  - apply wp_bind. eapply wp_mono; [apply raise_dtc_wp; [by rewrite Hf3|exact Hsafe]|].
    intros _ c2 m2 (He & Hd2 & Hp & Hraise). apply wp_bind, wp_callback, wp_bind.
    destruct c2 as [ev2 dt2]. simpl in He; subst ev2.
    eapply wp_exit; [exact Hf2|by simpl; rewrite Hp|]. wp_step. rewrite Hf3 in Hraise.
    split_and!; auto. exists es1, buf1. split; [apply (Hwf dt2)|exact Hr1].
  - apply wp_bind. eapply wp_exit; [exact Hf2|by rewrite Hf4|]. wp_step.
    split_and!; auto; [by rewrite Hf3| |done]. exists es1, buf1. split; [apply (Hwf (dtcs c1))|done].
Qed.

Definition report_event : DiagEventData :=
  mkEvent 3 DIAG_EVENT_WARNING DIAG_PRIORITY_HIGH 0 0 (DCaller [7; 8; 9]) 3 (replicate 128 0).
Lemma example_event_wf : ev_wf example_event_ctx example_events (replicate 24 0).
Proof.
  constructor; [exact example_event_tbl|reflexivity|reflexivity|simpl; lia| |vm_compute; congruence].
  repeat constructor; simpl; lia.
Qed.
Lemma report_event_arg : event_arg report_event.
Proof. unfold event_arg, is_u16; simpl. lia. Qed.

(** Witness of [report_event_refines]: a third event with three bytes. *)
Lemma report_event_refines_witness :
  ev_wf example_event_ctx example_events (replicate 24 0) /\ event_arg report_event /\
  wp (Event_Handler_ReportEvent (Some report_event)) (fun b c' m' =>
    b = accepts example_event_ctx example_events report_event /\ primask m' = false /\
    dtc_ok (dtcs c') /\
    (exists es' buf', ev_wf c' es' buf' /\
      (b = true -> exists r, ev_map c' = <[3 := r]> (ev_map example_event_ctx) /\
         stored_as report_event 0 buf' r)) /\
    (b = true -> raises_dtc example_event_ctx report_event = true -> dtc_ready (dtcs example_event_ctx) ->
     is_Some (dtc_map (dtcs example_event_ctx) !! 0) \/
       (size (dtc_map (dtcs example_event_ctx)) < 3)%nat ->
     exists r, dtc_map (dtcs c') !! 0 = Some r /\ status_mask r = TEST_FAILED_CONFIRMED))
    example_event_ctx boot.
Proof.
  split_and!; [exact example_event_wf|exact report_event_arg|].
  exact (report_event_refines example_event_ctx boot example_events (replicate 24 0) report_event
    example_event_wf report_event_arg example_dtc_ok (fun H => False_rect _ (diff_false_true H))).
Defined.

(** An error event with data, reported with automatic DTCs enabled, writes
    through the NULL [freeze_frames] array of its DTC. *)
Lemma report_error_with_data_undefined :
  Event_Handler_ReportEvent
    (Some (mkEvent 4 DIAG_EVENT_ERROR DIAG_PRIORITY_HIGH 0 0x100 (DCaller [1; 2]) 2 (replicate 128 0)))
    (example_event_ctx <| dtcs := example_dtc_store2 |>) boot = None.
Proof. by vm_compute. Qed.

(** Buffer space is handed out at the sum of the live sizes.  After an event
    grew (its old bytes are abandoned, its new ones lie beyond that sum) the
    next event is placed on top of it. *)
Definition data_of (e : Z) (bytes : list Z) : DiagEventData :=
  mkEvent e DIAG_EVENT_INFO DIAG_PRIORITY_LOW 0 0 (DCaller bytes) (Z.of_nat (length bytes))
    (replicate 128 0).
Definition bytes_of (c : EventCtx) (id : Z) : option (list Z) :=
  match ev_map c !! id, event_data_buffer (ev c) with
  | Some e, Live buf =>
    match ev_data e with
    | DBuffer off => Some (take (Z.to_nat (ev_data_size e)) (drop off buf))
    | _ => None
    end
  | _, _ => None
  end.
Lemma event_data_overlaps :
  match (Event_Handler_Init true true (Some (mkEventConfig 3 8 false false false));;
         Event_Handler_ReportEvent (Some (data_of 1 [1; 1; 1]));;
         Event_Handler_ReportEvent (Some (data_of 1 [2; 2; 2; 2; 2; 2]));;
         Event_Handler_ReportEvent (Some (data_of 2 [3; 3; 3])))
          (mkEventCtx event_storage_zero dtc_storage_zero) boot with
  | Some (_, c, _) => bytes_of c 1 = Some [2; 2; 2; 3; 3; 3] /\ bytes_of c 2 = Some [3; 3; 3]
  | None => False
  end.
Proof. vm_compute. split; reflexivity. Qed.
