(* ===== verification/RoutineManager.v ===== *)
(** * Routine manager

    [src/runtime/diagnostic/routine_manager.c]: the registered diagnostic
    routines, the instances that are running, their timeouts.  The routines
    themselves are the integrator's: a function pointer is [None] (NULL) or a
    function of its arguments and of the machine it is called on, so that two
    calls may answer differently; each call is recorded in the trace. *)

From S2P Require Import Prelude Machine Tables SessionManager.

Definition MAX_ROUTINES : nat := 32.
Definition MAX_ACTIVE_ROUTINES : nat := 8.

Inductive RoutineStatus :=
  ROUTINE_STATUS_INACTIVE | ROUTINE_STATUS_RUNNING | ROUTINE_STATUS_COMPLETED |
  ROUTINE_STATUS_FAILED | ROUTINE_STATUS_STOPPED.
#[export] Instance RoutineStatus_eq_dec : EqDecision RoutineStatus.
Proof. solve_decision. Defined.
Definition status_value (s : RoutineStatus) : Z :=
  match s with
  | ROUTINE_STATUS_INACTIVE => 0 | ROUTINE_STATUS_RUNNING => 1 | ROUTINE_STATUS_COMPLETED => 2
  | ROUTINE_STATUS_FAILED => 3 | ROUTINE_STATUS_STOPPED => 4
  end.

Record RoutineResult := mkResult { result_code : Z; result_data : list Z }.
#[export] Instance eta_RoutineResult : Eta RoutineResult :=
  fun r => mkResult (result_code r) (result_data r).

Record RoutineDefinition := mkRoutine {
  routine_id : Z;
  rt_security_level : Z;
  timeout_ms : Z;
  start_routine : option (list Z -> Machine -> bool);
  stop_routine : option (Machine -> bool);
  get_result : option (RoutineResult -> Machine -> bool * RoutineResult);
  rt_timeout_callback : bool }.
#[export] Instance RoutineDefinition_key : Keyed RoutineDefinition := routine_id.
Definition routine_zero : RoutineDefinition := mkRoutine 0 0 0 None None None false.

Record RoutineInstance := mkInstance {
  inst_id : Z; inst_status : RoutineStatus; timeout_timer : Timer; last_result_code : Z }.
#[export] Instance eta_RoutineInstance : Eta RoutineInstance := fun i =>
  mkInstance (inst_id i) (inst_status i) (timeout_timer i) (last_result_code i).
#[export] Instance RoutineInstance_key : Keyed RoutineInstance := inst_id.
Definition instance_zero : RoutineInstance := mkInstance 0 ROUTINE_STATUS_INACTIVE timer_zero 0.

Record RoutineManagerConfig := mkRoutineConfig {
  cfg_routines : option (list RoutineDefinition);
  cfg_routine_count : nat;
  status_callback : bool;
  error_callback : bool }.
Definition routine_config_zero : RoutineManagerConfig := mkRoutineConfig None 0 false false.

Record RoutineManager := mkRoutineManager {
  rm_config : RoutineManagerConfig;
  routines : list RoutineDefinition;
  active_routines : list RoutineInstance;
  routine_count : nat;
  active_count : nat;
  rm_initialized : bool;
  rm_critical : CriticalSection }.
#[export] Instance eta_RoutineManager : Eta RoutineManager := fun s =>
  mkRoutineManager (rm_config s) (routines s) (active_routines s) (routine_count s)
    (active_count s) (rm_initialized s) (rm_critical s).
Definition routine_manager_zero : RoutineManager :=
  mkRoutineManager routine_config_zero (replicate MAX_ROUTINES routine_zero)
    (replicate MAX_ACTIVE_ROUTINES instance_zero) 0 0 false cs_zero.

(** The manager's statics next to the session manager it queries. *)
Record RoutineCtx := mkRoutineCtx { rm : RoutineManager; rm_session : SessionManager }.
#[export] Instance eta_RoutineCtx : Eta RoutineCtx := fun c => mkRoutineCtx (rm c) (rm_session c).
#[export, refine] Instance RoutineCtx_critical : HasCritical RoutineCtx :=
  {| crit c := rm_critical (rm c); set_crit k c := c <| rm ::= fun s => s <| rm_critical := k |> |> |}.
Proof. all: by intros; destruct s as [[] ?]. Defined.

Definition on_rm (f : RoutineManager -> RoutineManager) : M RoutineCtx unit :=
  modify (fun c => c <| rm ::= f |>).

(** Reads of the static arrays at an index a search returned. *)
Definition routine_at (i : nat) : M RoutineCtx RoutineDefinition :=
  c ← get; match routines (rm c) !! i with Some r => mret r | None => fault end.
Definition instance_at (i : nat) : M RoutineCtx RoutineInstance :=
  c ← get; match active_routines (rm c) !! i with Some r => mret r | None => fault end.
Definition set_instance (i : nat) (inst : RoutineInstance) : M RoutineCtx unit :=
  c ← get;
  if (i <? length (active_routines (rm c)))%nat
  then on_rm (fun s => s <| active_routines ::= <[i := inst]> |>) else fault.

Definition find_routine (id : Z) : M RoutineCtx (option nat) :=
  c ← get; mret (find_key id (routine_count (rm c)) (routines (rm c))).
Definition find_active_routine (id : Z) : M RoutineCtx (option nat) :=
  c ← get; mret (find_key id (active_count (rm c)) (active_routines (rm c))).

Definition allocate_routine_instance : M RoutineCtx (option nat) :=
  c ← get;
  if (MAX_ACTIVE_ROUTINES <=? active_count (rm c))%nat then mret None else
  on_rm (fun s => s <| active_count ::= S |>);;
  mret (Some (active_count (rm c))).

Definition free_routine_instance (index : nat) : M RoutineCtx unit :=
  c ← get;
  if (active_count (rm c) <=? index)%nat then mret tt else
  on_rm (fun s => s <| active_routines ::= remove_record index (active_count s) |>
                    <| active_count ::= fun n => (n - 1)%nat |>).

(** The integrator's functions. *)
Definition call_stop (r : RoutineDefinition) (f : Machine -> bool) : M RoutineCtx bool :=
  emit "stop_routine" [routine_id r];; on_machine (fun m => (f m, m)).
Definition maybe_stop (r : RoutineDefinition) : M RoutineCtx unit :=
  match stop_routine r with Some f => _ ← call_stop r f; mret tt | None => mret tt end.
Definition call_start (r : RoutineDefinition) (data : list Z) : M RoutineCtx bool :=
  match start_routine r with
  | Some f => emit "start_routine" (routine_id r :: data);; on_machine (fun m => (f data m, m))
  | None => mret false
  end.
Definition call_get_result (r : RoutineDefinition) (result : RoutineResult)
  : M RoutineCtx (bool * RoutineResult) :=
  match get_result r with
  | Some f => emit "get_result" [routine_id r];; on_machine (fun m => (f result m, m))
  | None => mret (false, result)
  end.

Definition Routine_Manager_Init (config : option RoutineManagerConfig) : M RoutineCtx bool :=
  match config with
  | None => mret false
  | Some config =>
    enter;;
    on_rm (fun s => s <| rm_config := config |>);;
    match cfg_routines config with
    | Some rs =>
      if (0 <? cfg_routine_count config)%nat then
        let copy_count := if (cfg_routine_count config <=? MAX_ROUTINES)%nat
                          then cfg_routine_count config else MAX_ROUTINES in
        if (length rs <? copy_count)%nat then fault else
        on_rm (fun s => s <| routines ::= fun old => take copy_count rs ++ drop copy_count old |>
                          <| routine_count := copy_count |>)
      else on_rm (fun s => s <| routine_count := 0%nat |>)
    | None => on_rm (fun s => s <| routine_count := 0%nat |>)
    end;;
    on_rm (fun s => s <| active_count := 0%nat |>);;
    init_crit;;
    on_rm (fun s => s <| rm_initialized := true |>);;
    exit;;
    mret true
  end.

(** The loop of [Routine_Manager_DeInit]. *)
Fixpoint stop_loop (k i : nat) : M RoutineCtx unit :=
  match k with
  | O => mret tt
  | S k' =>
    inst ← instance_at i;
    found ← find_routine (inst_id inst);
    match found with
    | Some j => r ← routine_at j; maybe_stop r
    | None => mret tt
    end;;
    stop_loop k' (S i)
  end.

Definition Routine_Manager_DeInit : M RoutineCtx unit :=
  enter;;
  c ← get;
  stop_loop (active_count (rm c)) 0;;
  on_rm (fun _ => routine_manager_zero);;
  exit.

(** [StartRoutine] from the allocated slot on. *)
Definition start_instance (id : Z) (routine : RoutineDefinition) (data : list Z) (cb : bool) (i : nat)
  : M RoutineCtx bool :=
  inst ← instance_at i;
  set_instance i (mkInstance id ROUTINE_STATUS_RUNNING (timeout_timer inst) 0);;
  (if 0 <? timeout_ms routine then
     inst ← instance_at i;
     t ← on_machine (timer_start (timeout_timer inst) (timeout_ms routine));
     set_instance i (inst <| timeout_timer := t |>)
   else mret tt);;
  result ← call_start routine data;
  (if negb result then free_routine_instance i
   else callback cb "status_callback" [id; status_value ROUTINE_STATUS_RUNNING]);;
  exit;;
  mret result.

Definition Routine_Manager_StartRoutine (id : Z) (data : list Z) : M RoutineCtx bool :=
  c ← get;
  if negb (rm_initialized (rm c)) then mret false else
  enter;;
  found ← find_routine id;
  match found with
  | None => exit;; mret false
  | Some j =>
    routine ← routine_at j;
    state ← zoom rm_session (fun s c => c <| rm_session := s |>) Session_Manager_GetState;
    if security_level state <? rt_security_level routine then exit;; mret false else
    active ← find_active_routine id;
    if bool_decide (is_Some active) then exit;; mret false else
    slot ← allocate_routine_instance;
    match slot with
    | None => exit;; mret false
    | Some i => start_instance id routine data (status_callback (rm_config (rm c))) i
    end
  end.

Definition Routine_Manager_StopRoutine (id : Z) : M RoutineCtx bool :=
  c ← get;
  if negb (rm_initialized (rm c)) then mret false else
  enter;;
  routine ← find_routine id;
  instance ← find_active_routine id;
  match routine, instance with
  | Some j, Some i =>
    routine ← routine_at j;
    result ← match stop_routine routine with Some f => call_stop routine f | None => mret true end;
    (if (result : bool) then
       inst ← instance_at i;
       set_instance i (inst <| inst_status := ROUTINE_STATUS_STOPPED |>);;
       callback (status_callback (rm_config (rm c))) "status_callback"
         [id; status_value ROUTINE_STATUS_STOPPED];;
       free_routine_instance i
     else mret tt);;
    exit;;
    mret result
  | _, _ => exit;; mret false
  end.

(** [result] is the caller's struct, [None] for NULL; the struct after the call
    is returned. *)
Definition Routine_Manager_GetResult (id : Z) (result : option RoutineResult)
  : M RoutineCtx (bool * option RoutineResult) :=
  c ← get;
  match result with
  | None => mret (false, None)
  | Some result =>
    if negb (rm_initialized (rm c)) then mret (false, Some result) else
    enter;;
    routine ← find_routine id;
    instance ← find_active_routine id;
    match routine with
    | None => exit;; mret (false, Some result)
    | Some j =>
      routine ← routine_at j;
      out ← call_get_result routine result;
      final ← match instance with
              | Some i => inst ← instance_at i;
                          mret ((snd out) <| result_code := last_result_code inst |>)
              | None => mret (snd out)
              end;
      exit;;
      mret (fst out, Some final)
    end
  end.

Definition Routine_Manager_GetStatus (id : Z) : M RoutineCtx RoutineStatus :=
  c ← get;
  if negb (rm_initialized (rm c)) then mret ROUTINE_STATUS_INACTIVE else
  enter;;
  instance ← find_active_routine id;
  status ← match instance with
           | Some i => inst ← instance_at i; mret (inst_status inst)
           | None => mret ROUTINE_STATUS_INACTIVE
           end;
  exit;;
  mret status.

Definition Routine_Manager_AddRoutine (routine : option RoutineDefinition) : M RoutineCtx bool :=
  c ← get;
  match routine with
  | None => mret false
  | Some routine =>
    if negb (rm_initialized (rm c)) then mret false else
    enter;;
    found ← find_routine (routine_id routine);
    if bool_decide (is_Some found) then exit;; mret false else
    if (MAX_ROUTINES <=? routine_count (rm c))%nat then exit;; mret false else
    on_rm (fun s => s <| routines ::= <[routine_count s := routine]> |> <| routine_count ::= S |>);;
    exit;;
    mret true
  end.

Definition Routine_Manager_RemoveRoutine (id : Z) : M RoutineCtx bool :=
  c ← get;
  if negb (rm_initialized (rm c)) then mret false else
  enter;;
  found ← find_routine id;
  match found with
  | None => exit;; mret false
  | Some index =>
    instance ← find_active_routine id;
    match instance with
    | Some i => routine ← routine_at index; maybe_stop routine;; free_routine_instance i
    | None => mret tt
    end;;
    on_rm (fun s => s <| routines ::= remove_record index (routine_count s) |>
                      <| routine_count ::= fun n => (n - 1)%nat |>);;
    exit;;
    mret true
  end.

Definition Routine_Manager_GetRoutine (id : Z) : M RoutineCtx (option nat) :=
  c ← get;
  if negb (rm_initialized (rm c)) then mret None else
  enter;;
  routine ← find_routine id;
  exit;;
  mret routine.

(** The loop of [ProcessTimeout]: [k = active_count - i]; a removal keeps [i]. *)
Fixpoint timeout_loop (k i : nat) : M RoutineCtx unit :=
  match k with
  | O => mret tt
  | S k' =>
    inst ← instance_at i;
    found ← find_routine (inst_id inst);
    match found with
    | None => timeout_loop k' (S i)
    | Some j =>
      routine ← routine_at j;
      late ← (if 0 <? timeout_ms routine then on_machine (timer_expired (timeout_timer inst))
              else mret false);
      if negb late then timeout_loop k' (S i) else
      callback (rt_timeout_callback routine) "timeout_callback" [];;
      set_instance i (inst <| inst_status := ROUTINE_STATUS_FAILED |> <| last_result_code := 0xFF |>);;
      c ← get;
      callback (status_callback (rm_config (rm c))) "status_callback"
        [inst_id inst; status_value ROUTINE_STATUS_FAILED];;
      callback (error_callback (rm_config (rm c))) "error_callback" [inst_id inst; 0xFF];;
      maybe_stop routine;;
      free_routine_instance i;;
      timeout_loop k' i
    end
  end.

Definition Routine_Manager_ProcessTimeout : M RoutineCtx unit :=
  c ← get;
  if negb (rm_initialized (rm c)) then mret tt else
  enter;;
  timeout_loop (active_count (rm c)) 0;;
  exit.

Definition Routine_Manager_GetActiveCount : M RoutineCtx nat :=
  c ← get; mret (if negb (rm_initialized (rm c)) then 0%nat else active_count (rm c)).

(** [while (active_count > 0)], with fuel. *)
Fixpoint abort_loop (fuel : nat) : M RoutineCtx unit :=
  c ← get;
  if (active_count (rm c) =? 0)%nat then mret tt else
  match fuel with
  | O => fault
  | S fuel =>
    inst ← instance_at 0;
    found ← find_routine (inst_id inst);
    match found with
    | Some j => r ← routine_at j; maybe_stop r
    | None => mret tt
    end;;
    set_instance 0 (inst <| inst_status := ROUTINE_STATUS_STOPPED |>);;
    callback (status_callback (rm_config (rm c))) "status_callback"
      [inst_id inst; status_value ROUTINE_STATUS_STOPPED];;
    free_routine_instance 0;;
    abort_loop fuel
  end.

#[global] Arguments abort_loop : simpl never.

Definition Routine_Manager_AbortAll : M RoutineCtx unit :=
  c ← get;
  if negb (rm_initialized (rm c)) then mret tt else
  enter;;
  abort_loop MAX_ACTIVE_ROUTINES;;
  exit.

(** ** Registered and running routines as finite maps *)

Definition routine_map (c : RoutineCtx) : gmap Z RoutineDefinition :=
  tbl (routine_count (rm c)) (routines (rm c)).
Definition active_map (c : RoutineCtx) : gmap Z RoutineInstance :=
  tbl (active_count (rm c)) (active_routines (rm c)).

(** An initialised manager: the counts are within the arrays, identifiers are
    distinct, and only registered routines run. *)
Record rm_wf (c : RoutineCtx) : Prop := {
  rw_initialized : rm_initialized (rm c) = true;
  rw_routines : length (routines (rm c)) = MAX_ROUTINES;
  rw_active : length (active_routines (rm c)) = MAX_ACTIVE_ROUTINES;
  rw_count : (routine_count (rm c) <= MAX_ROUTINES)%nat;
  rw_active_count : (active_count (rm c) <= MAX_ACTIVE_ROUTINES)%nat;
  rw_uniq : tbl_uniq (routine_count (rm c)) (routines (rm c));
  rw_active_uniq : tbl_uniq (active_count (rm c)) (active_routines (rm c));
  rw_registered : forall id, is_Some (active_map c !! id) -> is_Some (routine_map c !! id) }.

(** The parts an operation on instances leaves alone. *)
Definition rm_frame (c c' : RoutineCtx) : Prop :=
  rm_config (rm c') = rm_config (rm c) /\ routines (rm c') = routines (rm c) /\
  routine_count (rm c') = routine_count (rm c) /\ rm_session c' = rm_session c /\ crit c' = crit c.

Lemma rm_frame_trans c1 c2 c3 : rm_frame c1 c2 -> rm_frame c2 c3 -> rm_frame c1 c3.
Proof. unfold rm_frame. intuition congruence. Qed.
Lemma rm_frame_routines c c' : rm_frame c c' -> routine_map c' = routine_map c.
Proof. unfold rm_frame, routine_map. intros (_ & -> & -> & _). done. Qed.

Lemma rm_wf_crit k c : rm_wf c -> rm_wf (set_crit k c).
Proof. intros []. by constructor. Qed.

Lemma active_lookup c i inst :
  rm_wf c -> (i < active_count (rm c))%nat -> active_routines (rm c) !! i = Some inst ->
  active_map c !! inst_id inst = Some inst.
Proof.
  intros [] Hi He. unfold active_map.
  rewrite tbl_lookup, (find_key_uniq (inst_id inst) _ _ i inst) by done. done.
Qed.

Section routine_wp.
Context (c : RoutineCtx) (m : Machine).
Hypothesis Hwf : rm_wf c.

Lemma wp_instance_at i inst Q :
  active_routines (rm c) !! i = Some inst -> Q inst c m -> wp (instance_at i) Q c m.
Proof using. intros Hi HQ. unfold instance_at. wp_steps; congruence. Qed.
Lemma wp_routine_at i r Q :
  routines (rm c) !! i = Some r -> Q r c m -> wp (routine_at i) Q c m.
Proof using. intros Hi HQ. unfold routine_at. wp_steps; congruence. Qed.

(** Both searches are map lookups that also tell the index. *)
Lemma wp_find_routine id Q :
  (forall j r, routine_map c !! id = Some r -> routines (rm c) !! j = Some r -> routine_id r = id ->
     find_key id (routine_count (rm c)) (routines (rm c)) = Some j -> Q (Some j) c m) ->
  (routine_map c !! id = None -> find_key id (routine_count (rm c)) (routines (rm c)) = None ->
     Q None c m) ->
  wp (find_routine id) Q c m.
Proof.
  intros Hs Hn. unfold find_routine. wp_steps. unfold routine_map in *.
  rewrite tbl_lookup in Hs, Hn by apply Hwf. destruct (find_key id _ _) as [j|] eqn:Hk; simpl in *.
  - pose proof Hk as (r & Hr & _ & Hid)%find_key_Some. by apply (Hs j r).
  - by apply Hn.
Qed.
Lemma wp_find_active id Q :
  (forall i inst, active_map c !! id = Some inst -> active_routines (rm c) !! i = Some inst ->
     inst_id inst = id -> (i < active_count (rm c))%nat -> Q (Some i) c m) ->
  (active_map c !! id = None -> find_key id (active_count (rm c)) (active_routines (rm c)) = None ->
     Q None c m) ->
  wp (find_active_routine id) Q c m.
Proof.
  intros Hs Hn. unfold find_active_routine. wp_steps. unfold active_map in *.
  rewrite tbl_lookup in Hs, Hn by apply Hwf. destruct (find_key id _ _) as [j|] eqn:Hk; simpl in *.
  - pose proof Hk as (r & Hr & Hi & Hid)%find_key_Some. by apply (Hs j r).
  - by apply Hn.
Qed.

Lemma wp_set_instance i inst inst' Q :
  active_routines (rm c) !! i = Some inst -> (i < active_count (rm c))%nat ->
  inst_id inst' = inst_id inst ->
  (forall c', rm_wf c' -> active_map c' = <[inst_id inst := inst']> (active_map c) ->
     active_routines (rm c') = <[i := inst']> (active_routines (rm c)) ->
     active_count (rm c') = active_count (rm c) -> rm_frame c c' -> Q tt c' m) ->
  wp (set_instance i inst') Q c m.
Proof.
  intros Hi Hin Hid HQ. pose proof (lookup_lt_Some _ _ _ Hi) as Hl. pose proof Hwf as [].
  unfold set_instance. wp_steps; [|tests; lia]. unfold on_rm. wp_steps.
  destruct (tbl_update (active_count (rm c)) (active_routines (rm c)) i inst' inst) as [Hu Hm]; auto.
  change (key inst') with (inst_id inst') in Hm. rewrite Hid in Hm.
  apply HQ; auto; [|by split_and!]. constructor; simpl; rewrite ?length_insert; auto.
  intros id. unfold active_map; simpl. rewrite Hm. intros Hs.
  destruct (decide (id = inst_id inst)) as [->|Hne].
  - apply rw_registered0. erewrite active_lookup; eauto.
  - rewrite lookup_insert_ne in Hs by done. by apply rw_registered0.
Qed.

Lemma wp_free i inst Q :
  active_routines (rm c) !! i = Some inst -> (i < active_count (rm c))%nat ->
  (forall c', rm_wf c' -> active_map c' = delete (inst_id inst) (active_map c) ->
     active_routines (rm c') = remove_record i (active_count (rm c)) (active_routines (rm c)) ->
     active_count (rm c') = (active_count (rm c) - 1)%nat -> rm_frame c c' -> Q tt c' m) ->
  wp (free_routine_instance i) Q c m.
Proof.
  intros Hi Hin HQ. pose proof Hwf as []. unfold free_routine_instance.
  wp_steps; [tests; lia|]. unfold on_rm. wp_steps.
  destruct (tbl_remove (inst_id inst) (active_count (rm c)) (active_routines (rm c)) i) as [Hu Hm];
    [lia|done|by apply (find_key_uniq _ _ _ i inst)|].
  apply HQ; auto; [|unfold active_map; simpl; by rewrite remove_record_memmove|by split_and!].
  constructor; simpl; auto; rewrite ?remove_record_memmove by done;
    [by rewrite length_memmove_down by lia|lia|done|].
  intros id. unfold active_map; simpl. rewrite Hm.
  intros [x [_ Hx]%lookup_delete_Some]. apply rw_registered0. by exists x.
Qed.

Definition stop_calls (r : RoutineDefinition) : list Call :=
  match stop_routine r with Some _ => [call "stop_routine" [routine_id r]] | None => [] end.

Lemma wp_maybe_stop r Q :
  Q tt c (m <| trace ::= fun t => t ++ stop_calls r |>) -> wp (maybe_stop r) Q c m.
Proof using.
  unfold maybe_stop, stop_calls. intros HQ. destruct (stop_routine r); wp_steps.
  - unfold call_stop. wp_steps. exact HQ.
  - simpl in HQ. rewrite app_nil_r in HQ. by destruct m.
Qed.
End routine_wp.

(** The level [Session_Manager_GetState] reports. *)
Definition session_level (c : RoutineCtx) : Z :=
  if sm_initialized (rm_session c) then security_level (sm_state (rm_session c)) else 0.

Lemma wp_get_state c m (Q : SessionState -> RoutineCtx -> Machine -> Prop) :
  (forall st k tc, security_level st = session_level c ->
     Q st (c <| rm_session ::= fun s => s <| sm_critical := k |> |>) (m <| timer_critical := tc |>)) ->
  wp (zoom rm_session (fun s c => c <| rm_session := s |>) Session_Manager_GetState) Q c m.
Proof.
  intros HQ. apply wp_zoom. unfold Session_Manager_GetState. unfold session_level in HQ.
  destruct c as [r [cf st p2 s3 [] cs]], m as [pm tk fr tc ti tr]; simpl in *; wp_steps.
  - by apply (HQ st (mkCS (Z.b2z pm) false) tc).
  - by apply (HQ session_state_zero cs tc).
Qed.

Lemma rm_wf_session c f : rm_wf c -> rm_wf (c <| rm_session ::= f |>).
Proof. intros []. by constructor. Qed.

(** A new instance behind the running ones. *)
Lemma rm_wf_push c inst ts :
  rm_wf c -> (active_count (rm c) < MAX_ACTIVE_ROUTINES)%nat ->
  active_map c !! inst_id inst = None -> is_Some (routine_map c !! inst_id inst) ->
  let c' := c <| rm ::= fun s => s <| active_routines ::= <[active_count s := inst]> |>
                                   <| active_count ::= S |> <| rm_critical := ts |> |> in
  rm_wf c' /\ active_map c' = <[inst_id inst := inst]> (active_map c).
Proof.
  intros Hw Hlt Hn Hr. pose proof Hw as []. cbv zeta.
  assert (Hk : find_key (inst_id inst) (active_count (rm c)) (active_routines (rm c)) = None).
  { unfold active_map in Hn. rewrite tbl_lookup in Hn by done.
    destruct (find_key _ _ _) as [i|] eqn:E; [|done]. simpl in Hn.
    apply find_key_Some in E as (x & Hx & _). congruence. }
  destruct (tbl_push (active_count (rm c)) (active_routines (rm c)) inst) as [Hu Hm]; auto; [lia|].
  split; [|done]. constructor; simpl; rewrite ?length_insert; auto.
  intros id. unfold active_map; simpl. rewrite Hm. intros Hs.
  destruct (decide (id = inst_id inst)) as [->|Hne]; [done|].
  change (key inst) with (inst_id inst) in Hs. rewrite lookup_insert_ne in Hs by done. by apply rw_registered0.
Qed.

Definition start_answer (r : RoutineDefinition) (data : list Z) (m : Machine) : bool :=
  match start_routine r with Some f => f data m | None => false end.
Lemma wp_call_start r data c m (Q : bool -> RoutineCtx -> Machine -> Prop) :
  (forall m', primask m' = primask m -> system_ticks m' = system_ticks m ->
     Q (start_answer r data m') c m') -> wp (call_start r data) Q c m.
Proof.
  intros HQ. unfold call_start, start_answer in *. destruct (start_routine r); wp_steps; apply HQ; done.
Qed.

(** The instance a successful start creates, over whatever the slot held. *)
Definition started (id : Z) (r : RoutineDefinition) (t : Z) (inst : RoutineInstance) : Prop :=
  inst_id inst = id /\ inst_status inst = ROUTINE_STATUS_RUNNING /\ last_result_code inst = 0 /\
  (0 < timeout_ms r -> timeout_timer inst = mkTimer t (timeout_ms r) true).

(** The admission test of [StartRoutine]. *)
Definition startable (c : RoutineCtx) (id : Z) : bool :=
  match routine_map c !! id with
  | Some r => (rt_security_level r <=? session_level c) && bool_decide (active_map c !! id = None) &&
              (active_count (rm c) <? MAX_ACTIVE_ROUTINES)%nat
  | None => false
  end.

Lemma wp_slot i inst inst' c m (Q : unit -> RoutineCtx -> Machine -> Prop) :
  active_routines (rm c) !! i = Some inst ->
  Q tt (c <| rm ::= fun s => s <| active_routines ::= <[i := inst']> |> |>) m ->
  wp (set_instance i inst') Q c m.
Proof.
  intros Hi HQ. apply lookup_lt_Some in Hi. unfold set_instance. wp_steps; [done|tests; lia].
Qed.

Lemma start_instance_wp id r data cb pm c m :
  rm_wf c -> (active_count (rm c) < MAX_ACTIVE_ROUTINES)%nat ->
  active_map c !! id = None -> is_Some (routine_map c !! id) ->
  crit c = mkCS (Z.b2z pm) true -> primask m = true ->
  wp (start_instance id r data cb (active_count (rm c))) (fun b c' m' =>
    rm_wf c' /\ routine_map c' = routine_map c /\ primask m' = pm /\
    (exists m1, b = start_answer r data m1) /\
    (if b then exists inst, started id r (system_ticks m) inst /\
                 active_map c' = <[id := inst]> (active_map c)
     else active_map c' = active_map c)) (c <| rm ::= fun s => s <| active_count ::= S |> |>) m.
Proof.
  intros Hw Hlt Hn Hr Hc Hp. pose proof Hw as []. unfold start_instance.
  destruct (lookup_lt_is_Some_2 (active_routines (rm c)) (active_count (rm c))) as [old Hold]; [lia|].
  apply wp_bind. eapply wp_instance_at; [done|]. apply wp_bind. eapply wp_slot; [done|]. simpl.
  set (c1 := {| rm := _; rm_session := _ |}).
  assert (Htimer : forall Q : unit -> RoutineCtx -> Machine -> Prop,
    (forall inst tc, started id r (system_ticks m) inst ->
       Q tt (c <| rm ::= fun s => s <| active_routines ::= <[active_count s := inst]> |>
                                    <| active_count ::= S |> |>) (m <| timer_critical := tc |>)) ->
    wp (if 0 <? timeout_ms r then
          inst ← instance_at (active_count (rm c));
          t ← on_machine (timer_start (timeout_timer inst) (timeout_ms r));
          set_instance (active_count (rm c)) (inst <| timeout_timer := t |>)
        else mret tt) Q c1 m).
  { intros Q HQ. subst c1. destruct (0 <? timeout_ms r) eqn:Ht; tests.
    - apply wp_bind. eapply wp_instance_at; simpl; [apply list_lookup_insert_eq; lia|].
      apply wp_bind. unfold wp at 1, on_machine. rewrite timer_start_spec. simpl.
      eapply wp_slot; simpl; [apply list_lookup_insert_eq; lia|]. rewrite list_insert_insert_eq.
      by apply (HQ (mkInstance id ROUTINE_STATUS_RUNNING (mkTimer (system_ticks m) (timeout_ms r) true) 0)).
    - wp_step. specialize (HQ (mkInstance id ROUTINE_STATUS_RUNNING (timeout_timer old) 0) (timer_critical m)).
      destruct m. apply HQ. unfold started. simpl. split_and!; auto; lia. }
  apply wp_bind, Htimer. intros inst tc Hst. clear Htimer c1. pose proof Hst as (Hid & _).
  destruct (rm_wf_push c inst (rm_critical (rm c))) as [Hw1 Hm1]; [done|done|by rewrite Hid..|].
  rewrite Hid in Hm1.
  set (c1 := c <| rm ::= _ |>) in *.
  match goal with |- wp _ _ ?s _ => change s with c1 end.
  apply wp_bind, wp_call_start. intros m' Hpm Htk. apply wp_bind.
  destruct (start_answer r data m') eqn:Hans; simpl.
  - apply wp_callback. apply wp_bind. eapply wp_exit; [exact Hc|by simpl; rewrite Hpm|]. wp_step.
    split_and!; auto; [by apply (rm_wf_crit _ c1)|by eexists|]. exists inst. by split.
  - eapply (wp_free c1 _ Hw1 (active_count (rm c)) inst); simpl; [apply list_lookup_insert_eq; lia|lia|].
    intros c2 Hw2 Hm2 _ _ Hfr. apply wp_bind. eapply wp_exit;
      [destruct Hfr as (_&_&_&_& ->); exact Hc|by rewrite Hpm|]. wp_step.
    split_and!; auto; [by apply rm_wf_crit|exact (rm_frame_routines _ _ Hfr)|by eexists|].
    change (active_map c2 = active_map c). by rewrite Hm2, Hm1, Hid, delete_insert_id.
Qed.

(** Leaving the section with an answer. *)
Lemma wp_leave {A} (x : A) pm c m (Q : A -> RoutineCtx -> Machine -> Prop) :
  rm_wf c -> crit c = mkCS (Z.b2z pm) true -> primask m = true ->
  (forall c' m', rm_wf c' -> routine_map c' = routine_map c -> active_map c' = active_map c ->
     primask m' = pm -> trace m' = trace m -> Q x c' m') ->
  wp (exit;; mret x) Q c m.
Proof.
  intros Hw Hc Hm HQ. apply wp_bind. eapply wp_exit; [exact Hc|done|]. wp_step.
  apply HQ; auto. by apply rm_wf_crit.
Qed.

(** Entering it: everything but the section looks the same. *)
Definition same_view (c c' : RoutineCtx) : Prop :=
  routine_map c' = routine_map c /\ active_map c' = active_map c /\
  session_level c' = session_level c /\ active_count (rm c') = active_count (rm c) /\
  active_routines (rm c') = active_routines (rm c) /\
  routine_count (rm c') = routine_count (rm c) /\ rm_config (rm c') = rm_config (rm c).
Lemma wp_enter_rm c m (Q : unit -> RoutineCtx -> Machine -> Prop) :
  rm_wf c ->
  (forall c0, rm_wf c0 -> same_view c c0 -> crit c0 = mkCS (Z.b2z (primask m)) true ->
     Q tt c0 (m <| primask := true |>)) -> wp enter Q c m.
Proof. intros Hw HQ. apply wp_enter, HQ; [by apply rm_wf_crit|by split_and!|done]. Qed.

Lemma start_routine_wp id data c m :
  rm_wf c ->
  wp (Routine_Manager_StartRoutine id data) (fun b c' m' =>
    rm_wf c' /\ routine_map c' = routine_map c /\ primask m' = primask m /\
    (exists m1, b = startable c id && default false ((fun r => start_answer r data m1) <$> routine_map c !! id)) /\
    (if b then exists inst r, routine_map c !! id = Some r /\ started id r (system_ticks m) inst /\
                 active_map c' = <[id := inst]> (active_map c)
     else active_map c' = active_map c)) c m.
Proof.
  intros Hw. unfold Routine_Manager_StartRoutine, startable. wp_step. wp_step.
  rewrite (rw_initialized c Hw); simpl. apply wp_bind, wp_enter_rm; [done|].
  intros c0 Hw0 (<- & <- & <- & Hac & _ & _ & Hcf) Hc0. rewrite <- Hac, <- Hcf.
  apply wp_bind. apply wp_find_routine; [done| |].
  2: { intros Hn _. eapply wp_leave; [done|done|done|]. intros c' m' ? -> -> -> _.
       rewrite Hn. split_and!; auto. by exists m. }
  intros j r Hr Hj Hid _. rewrite Hr; simpl. apply wp_bind. eapply wp_routine_at; [exact Hj|].
  apply wp_bind, wp_get_state. intros st k' tc ->. rewrite Z.ltb_antisym.
  set (c1 := _ <| rm_session ::= _ |>). set (m1 := _ <| timer_critical := _ |>).
  assert (Hw1 : rm_wf c1) by (by apply rm_wf_session).
  change (active_map c0) with (active_map c1). change (routine_map c0) with (routine_map c1) in *.
  destruct (rt_security_level r <=? session_level c0); simpl.
  2: { eapply wp_leave; [done|exact Hc0|done|]. intros c' m' ? -> -> -> _. split_and!; auto. by exists m. }
  apply wp_bind. apply wp_find_active; [done| |].
  { intros i inst Hi _ _ _. eapply wp_leave; [done|exact Hc0|done|]. intros c' m' ? -> -> -> _.
    rewrite Hi. split_and!; auto. exists m. done. }
  intros Hn _. simpl. apply wp_bind. unfold allocate_routine_instance. apply wp_bind, wp_get.
  rewrite Nat.leb_antisym, Hn. change (active_count (rm c1)) with (active_count (rm c0)).
  destruct (active_count (rm c0) <? MAX_ACTIVE_ROUTINES)%nat eqn:Hlt; simpl; tests.
  2: { apply wp_ret. eapply wp_leave; [done|exact Hc0|done|]. intros c' m' ? -> -> -> _. split_and!; auto. by exists m. }
  unfold on_rm. apply wp_bind, wp_modify, wp_ret.
  eapply wp_mono; [apply (start_instance_wp id r data _ (primask m) c1 m1); auto; by exists r|].
  intros b c' m' (Hw' & Hr' & Hp' & [m2 Hb] & Hact). split_and!; auto; [by exists m2|].
  destruct b; [|done]. destruct Hact as (inst & Hs & Ha). by exists inst, r.
Qed.

Lemma stop_routine_wp id c m :
  rm_wf c ->
  wp (Routine_Manager_StopRoutine id) (fun b c' m' =>
    rm_wf c' /\ routine_map c' = routine_map c /\ primask m' = primask m /\
    (b = true -> is_Some (active_map c !! id)) /\
    active_map c' = if b then delete id (active_map c) else active_map c) c m.
Proof.
  intros Hw. unfold Routine_Manager_StopRoutine. wp_step. wp_step.
  rewrite (rw_initialized c Hw); simpl. apply wp_bind, wp_enter_rm; [done|].
  intros c0 Hw0 (<- & <- & _) Hc0.
  assert (Hno : wp (exit;; mret false) (fun b c' m' =>
    rm_wf c' /\ routine_map c' = routine_map c0 /\ primask m' = primask m /\
    (b = true -> is_Some (active_map c0 !! id)) /\
    active_map c' = if b then delete id (active_map c0) else active_map c0) c0 (m <| primask := true |>)).
  { eapply wp_leave; [done|done|done|]. intros c' m' ? -> -> -> _. by split_and!. }
  apply wp_bind. apply wp_find_routine; [done| |intros _ _; apply wp_bind, wp_find_active; auto].
  intros j r _ Hj Hid _. apply wp_bind, wp_find_active; [done| |by intros].
  intros i inst Hact Hi Hii Hin. apply wp_bind. eapply wp_routine_at; [exact Hj|].
  assert (Hstop : forall Q : bool -> RoutineCtx -> Machine -> Prop,
    (forall b m', primask m' = true -> Q b c0 m') ->
    wp (match stop_routine r with Some f => call_stop r f | None => mret true end) Q c0
       (m <| primask := true |>)).
  { intros Q HQ. destruct (stop_routine r); [unfold call_stop|]; wp_steps; by apply HQ. }
  apply wp_bind, Hstop. intros b m' Hm'. destruct b; apply wp_bind.
  - apply wp_bind. eapply wp_instance_at; [exact Hi|].
    apply wp_bind. eapply (wp_set_instance c0 _ Hw0 i inst); [done|done|done|].
    intros c1 Hw1 Hm1 Hr1 Hn1 Hf1. apply wp_bind, wp_callback.
    eapply (wp_free c1 _ Hw1 i); [rewrite Hr1; apply list_lookup_insert_eq; by eapply lookup_lt_Some|lia|].
    simpl. intros c2 Hw2 Hm2 _ _ Hf2. assert (Hf := rm_frame_trans _ _ _ Hf1 Hf2).
    eapply wp_leave; [done|destruct Hf as (_&_&_&_& ->); exact Hc0|done|].
    intros c' m'' ? -> -> -> _. rewrite (rm_frame_routines _ _ Hf), Hm2, Hm1, Hii.
    rewrite delete_insert_eq. split_and!; eauto.
  - wp_step. eapply wp_leave; [done|exact Hc0|done|]. intros c' m'' ? -> -> -> _. by split_and!.
Qed.

Lemma add_routine_wp r c m :
  rm_wf c ->
  wp (Routine_Manager_AddRoutine (Some r)) (fun b c' m' =>
    rm_wf c' /\ active_map c' = active_map c /\ primask m' = primask m /\
    b = bool_decide (routine_map c !! routine_id r = None) && (routine_count (rm c) <? MAX_ROUTINES)%nat /\
    routine_map c' = if b then <[routine_id r := r]> (routine_map c) else routine_map c) c m.
Proof.
  intros Hw. unfold Routine_Manager_AddRoutine. wp_step. wp_step.
  rewrite (rw_initialized c Hw); simpl. apply wp_bind, wp_enter_rm; [done|].
  intros c0 Hw0 (<- & <- & _ & _ & _ & <- & _) Hc0.
  apply wp_bind. apply wp_find_routine; [done| |].
  { intros j r' Hr _ _ _. eapply wp_leave; [done|done|done|]. intros c' m' ? -> -> -> _.
    rewrite Hr. by split_and!. }
  intros Hn Hk. simpl. rewrite Hn, Nat.leb_antisym. simpl.
  destruct (routine_count (rm c0) <? MAX_ROUTINES)%nat eqn:Hlt; simpl; tests.
  2: { eapply wp_leave; [done|done|done|]. intros c' m' ? -> -> -> _. by split_and!. }
  unfold on_rm. apply wp_bind, wp_modify. pose proof Hw0 as [].
  destruct (tbl_push (routine_count (rm c0)) (routines (rm c0)) r) as [Hu Hm]; auto; [lia|].
  set (c1 := _ <| rm ::= _ |>).
  assert (Hm1 : routine_map c1 = <[routine_id r := r]> (routine_map c0)) by exact Hm.
  assert (Hw1 : rm_wf c1).
  { constructor; simpl; rewrite ?length_insert; auto. intros id Hs.
    rewrite Hm1. destruct (decide (id = routine_id r)) as [->|]; [by rewrite lookup_insert_eq|].
    rewrite lookup_insert_ne by done. by apply rw_registered0. }
  eapply wp_leave; [done|exact Hc0|done|]. intros c' m' ? -> -> -> _. by split_and!.
Qed.

(** Removing a registration that no instance uses any more. *)
Lemma rm_wf_unregister c id j r :
  rm_wf c -> find_key id (routine_count (rm c)) (routines (rm c)) = Some j ->
  routines (rm c) !! j = Some r -> active_map c !! id = None ->
  let c' := c <| rm ::= fun s => s <| routines ::= remove_record j (routine_count s) |>
                                  <| routine_count ::= fun n => (n - 1)%nat |> |> in
  rm_wf c' /\ routine_map c' = delete id (routine_map c) /\ active_map c' = active_map c.
Proof.
  intros Hw Hk Hr Hn. pose proof Hw as []. cbv zeta.
  pose proof Hk as (r' & _ & Hj & _)%find_key_Some.
  destruct (tbl_remove id (routine_count (rm c)) (routines (rm c)) j) as [Hu Hm]; [lia|done|done|].
  rewrite <- remove_record_memmove in Hu, Hm by done. split_and!; [|exact Hm|done].
  constructor; simpl; auto; [by rewrite remove_record_memmove, length_memmove_down by lia|lia|].
  intros id' Hs. unfold routine_map; simpl. rewrite Hm.
  change (is_Some (active_map c !! id')) in Hs.
  rewrite lookup_delete_ne; [by apply rw_registered0|]. intros ->. rewrite Hn in Hs. by destruct Hs.
Qed.

Lemma remove_routine_wp id c m :
  rm_wf c ->
  wp (Routine_Manager_RemoveRoutine id) (fun b c' m' =>
    rm_wf c' /\ primask m' = primask m /\ b = bool_decide (is_Some (routine_map c !! id)) /\
    routine_map c' = delete id (routine_map c) /\ active_map c' = delete id (active_map c)) c m.
Proof.
  intros Hw. unfold Routine_Manager_RemoveRoutine. wp_step. wp_step.
  rewrite (rw_initialized c Hw); simpl. apply wp_bind, wp_enter_rm; [done|].
  intros c0 Hw0 (<- & <- & _) Hc0.
  apply wp_bind. apply wp_find_routine; [done| |].
  2: { intros Hn _. eapply wp_leave; [done|done|done|]. intros c' m' ? -> -> -> _.
       assert (active_map c0 !! id = None).
       { apply eq_None_not_Some. intros ?%(rw_registered c0 Hw0). rewrite Hn in *. by destruct H0. }
       rewrite !delete_id, Hn by done. by split_and!. }
  intros j r Hr Hj Hid Hk. rewrite Hr. simpl.
  assert (Hfin : forall c1 m', rm_wf c1 -> rm_frame c0 c1 -> active_map c1 = delete id (active_map c0) ->
    primask m' = true ->
    wp (on_rm (fun s => s <| routines ::= remove_record j (routine_count s) |>
                          <| routine_count ::= fun n => (n - 1)%nat |>);; exit;; mret true)
      (fun b c' m' => rm_wf c' /\ primask m' = primask m /\ b = true /\
        routine_map c' = delete id (routine_map c0) /\ active_map c' = delete id (active_map c0)) c1 m').
  { intros c1 m' Hw1 Hf Ha Hp. assert (Hrm := rm_frame_routines _ _ Hf).
    destruct Hf as (_ & Hf1 & Hf2 & _ & Hf3). unfold on_rm. apply wp_bind, wp_modify.
    destruct (rm_wf_unregister c1 id j r) as (Hw2 & Hr2 & Ha2);
      [done|by rewrite Hf1, Hf2|by rewrite Hf1|by rewrite Ha, lookup_delete_eq|].
    eapply wp_leave; [exact Hw2|rewrite Hc0 in Hf3; exact Hf3|done|].
    intros c' m'' ? -> -> -> _. rewrite Hr2, Ha2, Hrm, Ha. by split_and!. }
  apply wp_bind, wp_find_active; [done| |].
  - intros i inst _ Hi Hii Hin. apply wp_bind, wp_bind. eapply wp_routine_at; [exact Hj|].
    apply wp_bind, wp_maybe_stop. eapply (wp_free c0 _ Hw0 i inst); [done|done|].
    intros c1 Hw1 Ha1 _ _ Hf1. apply Hfin; auto. by rewrite Ha1, Hii.
  - intros Hn _. apply wp_bind, wp_ret. apply Hfin; auto; [by split_and!|by rewrite delete_id].
Qed.

(** ** Timeouts and abort *)

Definition timed_out (c : RoutineCtx) (t : Z) (inst : RoutineInstance) : bool :=
  match routine_map c !! inst_id inst with
  | Some r => (0 <? timeout_ms r) &&
      (running (timeout_timer inst) &&
       (timeout (timeout_timer inst) <=? u32 (t - start_time (timeout_timer inst))))
  | None => false
  end.
Definition keeps_running (c : RoutineCtx) (t : Z) (inst : RoutineInstance) : option RoutineInstance :=
  if timed_out c t inst then None else Some inst.

Lemma wp_late r inst c m (Q : bool -> RoutineCtx -> Machine -> Prop) :
  (forall tc, Q ((0 <? timeout_ms r) && (running (timeout_timer inst) &&
       (timeout (timeout_timer inst) <=? u32 (system_ticks m - start_time (timeout_timer inst)))))
     c (m <| timer_critical := tc |>)) ->
  wp (if 0 <? timeout_ms r then on_machine (timer_expired (timeout_timer inst)) else mret false) Q c m.
Proof.
  intros HQ. destruct (0 <? timeout_ms r); simpl in HQ.
  - unfold wp, on_machine. rewrite timer_expired_spec. destruct (running _); [apply HQ|].
    specialize (HQ (timer_critical m)). by destruct m.
  - apply wp_ret. specialize (HQ (timer_critical m)). by destruct m.
Qed.

(** Dropping the instance at [i] after it was overwritten in place. *)
Lemma drop_overwritten {A} i k n x (a : list A) :
  (i + S k)%nat = n -> (n <= length a)%nat ->
  take i (remove_record i n (<[i := x]> a)) = take i a /\
  take k (drop i (remove_record i n (<[i := x]> a))) = take k (drop (S i) a).
Proof.
  intros Hn Hl. destruct (remove_record_split i k n (<[i := x]> a)) as [-> ->];
    [done|by rewrite length_insert|]. by rewrite take_insert_ge, drop_insert_lt by lia.
Qed.

Lemma timeout_loop_wp k i c m :
  rm_wf c -> (i + k)%nat = active_count (rm c) ->
  wp (timeout_loop k i) (fun _ c' m' =>
    rm_wf c' /\ rm_frame c c' /\ primask m' = primask m /\
    take (active_count (rm c')) (active_routines (rm c')) =
      take i (active_routines (rm c)) ++
      omap (keeps_running c (system_ticks m)) (take k (drop i (active_routines (rm c))))) c m.
Proof.
  revert i c m. induction k as [|k IH]; intros i c m Hw Hk; cbn [timeout_loop].
  { wp_step. rewrite <- Hk, Nat.add_0_r, app_nil_r. by split_and!. }
  pose proof Hw as [].
  destruct (lookup_lt_is_Some_2 (active_routines (rm c)) i) as [inst Hi]; [lia|].
  assert (Hskip : forall tc, timed_out c (system_ticks m) inst = false ->
    wp (timeout_loop k (S i)) (fun _ c' m' => rm_wf c' /\ rm_frame c c' /\ primask m' = primask m /\
      take (active_count (rm c')) (active_routines (rm c')) =
        take i (active_routines (rm c)) ++
        omap (keeps_running c (system_ticks m)) (take (S k) (drop i (active_routines (rm c)))))
      c (m <| timer_critical := tc |>)).
  { intros tc Hto. eapply wp_mono; [apply IH; [done|lia]|].
    intros _ c' m' (Hw' & Hf & Hp & ->). split_and!; auto.
    rewrite (drop_S _ inst i Hi), (take_S_r _ i inst Hi), <- app_assoc. simpl.
    unfold keeps_running at 2. by rewrite Hto. }
  apply wp_bind. eapply wp_instance_at; [exact Hi|]. apply wp_bind, wp_find_routine; [done| |].
  2: { intros Hn _. specialize (Hskip (timer_critical m)). unfold timed_out in Hskip. rewrite Hn in Hskip.
       destruct m. by apply Hskip. }
  intros j r Hr Hj Hid _. apply wp_bind. eapply wp_routine_at; [exact Hj|].
  apply wp_bind, wp_late. intros tc.
  destruct (_ && _) eqn:Hlate; simpl; [|apply Hskip; unfold timed_out; by rewrite Hr].
  apply wp_bind, wp_callback, wp_bind. eapply (wp_set_instance c _ Hw i inst); [done|lia|done|].
  intros c1 Hw1 Ha1 Hr1 Hn1 Hf1. apply wp_bind, wp_get. simpl.
  apply wp_bind, wp_callback, wp_bind, wp_callback, wp_bind, wp_maybe_stop, wp_bind.
  eapply (wp_free c1 _ Hw1 i); [rewrite Hr1; apply list_lookup_insert_eq; by eapply lookup_lt_Some|lia|].
  intros c2 Hw2 Ha2 Hr2 Hn2 Hf2. assert (Hf := rm_frame_trans _ _ _ Hf1 Hf2).
  eapply wp_mono; [apply IH; [done|lia]|]. intros _ c' m' (Hw' & Hf' & Hp' & ->).
  split_and!; [done|by eapply rm_frame_trans|done|]. rewrite Hr2, Hr1, Hn1.
  assert (Hle : (active_count (rm c) <= length (active_routines (rm c)))%nat) by lia.
  rewrite (proj1 (drop_overwritten i k _ _ _ Hk Hle)), (proj2 (drop_overwritten i k _ _ _ Hk Hle)).
  rewrite (drop_S _ inst i Hi). simpl. unfold keeps_running at 2, timed_out.
  rewrite Hr, Hlate. f_equal. f_equal. unfold keeps_running, timed_out. simpl.
  by rewrite (rm_frame_routines _ _ Hf).
Qed.

(** What aborting one instance calls. *)
Definition abort_calls (c : RoutineCtx) (inst : RoutineInstance) : list Call :=
  match routine_map c !! inst_id inst with Some r => stop_calls r | None => [] end ++
  if status_callback (rm_config (rm c))
  then [call "status_callback" [inst_id inst; status_value ROUTINE_STATUS_STOPPED]] else [].

Lemma wp_stop_registered inst c m (Q : unit -> RoutineCtx -> Machine -> Prop) :
  rm_wf c ->
  Q tt c (m <| trace ::= fun t => t ++
       match routine_map c !! inst_id inst with Some r => stop_calls r | None => [] end |>) ->
  wp (found ← find_routine (inst_id inst);
      match found with Some j => r ← routine_at j; maybe_stop r | None => mret tt end) Q c m.
Proof.
  intros Hw HQ. apply wp_bind, wp_find_routine; [done| |].
  - intros j r Hr Hj _ _. apply wp_bind. eapply wp_routine_at; [exact Hj|].
    apply wp_maybe_stop. by rewrite Hr in HQ.
  - intros Hnone _. wp_step. rewrite Hnone in HQ. simpl in HQ. rewrite app_nil_r in HQ. by destruct m.
Qed.

Lemma abort_loop_wp fuel c m :
  rm_wf c -> (active_count (rm c) <= fuel)%nat ->
  wp (abort_loop fuel) (fun _ c' m' =>
    rm_wf c' /\ rm_frame c c' /\ active_count (rm c') = 0%nat /\ primask m' = primask m /\
    trace m' = trace m ++ mjoin (abort_calls c <$> take (active_count (rm c)) (active_routines (rm c)))) c m.
Proof.
  revert c m. induction fuel as [|fuel IH]; intros c m Hw Hn; cbn [abort_loop];
    apply wp_bind, wp_get; destruct (active_count (rm c)) as [|n] eqn:E; try lia; simpl.
  1,2: wp_step; rewrite app_nil_r; by split_and!.
  pose proof Hw as []. destruct (active_routines (rm c)) as [|inst rest] eqn:Ha; [done|].
  assert (Hi : active_routines (rm c) !! 0%nat = Some inst) by (by rewrite Ha).
  change (S n =? 0)%nat with false. cbn iota. apply wp_bind. eapply wp_instance_at; [exact Hi|].
  apply wp_bind_assoc, wp_bind, wp_stop_registered; [done|].
  apply wp_bind. eapply (wp_set_instance c _ Hw 0 inst); [done|lia|done|].
  intros c1 Hw1 Ha1 Hr1 Hn1 Hf1. apply wp_bind, wp_callback, wp_bind.
  eapply (wp_free c1 _ Hw1 0); [by rewrite Hr1, Ha|lia|].
  intros c2 Hw2 Ha2 Hr2 Hn2 Hf2. assert (Hf := rm_frame_trans _ _ _ Hf1 Hf2).
  eapply wp_mono; [apply IH; [done|lia]|]. intros _ c' m' (Hw' & Hf' & Hz & Hp & Htr).
  split_and!; [done|by eapply rm_frame_trans|done|done|]. rewrite Htr, Hn2, Hr2, Hr1, Hn1, E, Ha.
  rewrite remove_record_memmove, take_memmove_down by (simpl in *; lia). simpl.
  rewrite <- !app_assoc. f_equal. rewrite app_assoc.
  change ((_ ++ _) ++ ?x) with (abort_calls c inst ++ x). do 2 f_equal.
  apply list_fmap_ext. intros _ x _.
  unfold abort_calls. rewrite (rm_frame_routines _ _ Hf). by destruct Hf as (-> & _).
Qed.

(** ** Runs of the interface *)

Inductive RoutineOp :=
| OpStart (id : Z) (data : list Z) | OpStop (id : Z) | OpAdd (r : RoutineDefinition)
| OpRemove (id : Z) | OpTimeout | OpAbortAll.

Definition routine_exec (op : RoutineOp) : M RoutineCtx unit :=
  match op with
  | OpStart id data => _ ← Routine_Manager_StartRoutine id data; mret tt
  | OpStop id => _ ← Routine_Manager_StopRoutine id; mret tt
  | OpAdd r => _ ← Routine_Manager_AddRoutine (Some r); mret tt
  | OpRemove id => _ ← Routine_Manager_RemoveRoutine id; mret tt
  | OpTimeout => Routine_Manager_ProcessTimeout
  | OpAbortAll => Routine_Manager_AbortAll
  end.

(** Calls interleaved with timer ticks; the routines behind the function
    pointers may leave anything in the trace. *)
Inductive routine_step : RoutineCtx * Machine -> RoutineCtx * Machine -> Prop :=
| rs_call op c m c' m' :
    routine_exec op c m = Some (tt, c', m') -> routine_step (c, m) (c', m')
| rs_tick c m : routine_step (c, m) (c, SysTick_Handler m)
| rs_trace c m t : routine_step (c, m) (c, m <| trace := t |>).

Lemma process_timeout_wp c m :
  rm_wf c ->
  wp Routine_Manager_ProcessTimeout (fun _ c' m' =>
    rm_wf c' /\ routine_map c' = routine_map c /\ primask m' = primask m /\
    active_map c' = omap (keeps_running c (system_ticks m)) (active_map c)) c m.
Proof.
  intros Hw. unfold Routine_Manager_ProcessTimeout. wp_step. wp_step.
  rewrite (rw_initialized c Hw); simpl. apply wp_bind, wp_enter_rm; [done|].
  intros c0 Hw0 (Hrm & Ham & _ & Hac & _) Hc0. rewrite <- Hac. apply wp_bind.
  eapply wp_mono; [by apply (timeout_loop_wp _ 0)|]. intros _ c1 m1 (Hw1 & Hf & Hp & Ht).
  eapply wp_exit; [destruct Hf as (_&_&_&_& ->); exact Hc0|done|].
  split_and!; [by apply rm_wf_crit|change (routine_map c1 = routine_map c);
    by rewrite (rm_frame_routines _ _ Hf)|done|].
  change (active_map c1 = omap (keeps_running c (system_ticks m)) (active_map c)).
  rewrite <- Ham. unfold active_map, tbl. rewrite Ht, drop_0. simpl.
  replace (keeps_running c (system_ticks m)) with (keeps_running c0 (system_ticks m))
    by (unfold keeps_running, timed_out; by rewrite Hrm).
  apply map_omap; [|apply Hw0]. intros x y. unfold keeps_running.
  destruct (timed_out _ _ x); [done|by intros [= ->]].
Qed.

Lemma abort_all_wp c m :
  rm_wf c ->
  wp Routine_Manager_AbortAll (fun _ c' m' =>
    rm_wf c' /\ routine_map c' = routine_map c /\ primask m' = primask m /\ active_map c' = ∅ /\
    trace m' = trace m ++ mjoin (abort_calls c <$> take (active_count (rm c)) (active_routines (rm c)))) c m.
Proof.
  intros Hw. unfold Routine_Manager_AbortAll. wp_step. wp_step.
  rewrite (rw_initialized c Hw); simpl. apply wp_bind, wp_enter_rm; [done|].
  intros c0 Hw0 (Hrm & Ham & _ & Hac & Har & _ & Hcf) Hc0. apply wp_bind.
  eapply wp_mono; [apply (abort_loop_wp _ c0 _ Hw0), Hw0|].
  intros _ c1 m1 (Hw1 & Hf & Hz & Hp & Ht).
  eapply wp_exit; [destruct Hf as (_&_&_&_& ->); exact Hc0|done|].
  split_and!; [by apply rm_wf_crit|change (routine_map c1 = routine_map c);
    by rewrite (rm_frame_routines _ _ Hf)|done| |].
  - change (active_map c1 = ∅). unfold active_map. by rewrite Hz.
  - change (trace m1 = trace m ++ mjoin (abort_calls c <$> take (active_count (rm c)) (active_routines (rm c)))).
    rewrite Ht, Hac, Har. simpl. do 2 f_equal. apply list_fmap_ext. intros _ x _. unfold abort_calls.
    by rewrite Hrm, Hcf.
Qed.

Lemma routine_exec_wf op c m :
  rm_wf c -> wp (routine_exec op) (fun _ c' m' => rm_wf c' /\ primask m' = primask m) c m.
Proof.
  intros Hw. destruct op; simpl.
  - apply wp_bind. eapply wp_mono; [by apply start_routine_wp|]. intros; apply wp_ret; naive_solver.
  - apply wp_bind. eapply wp_mono; [by apply stop_routine_wp|]. intros; apply wp_ret; naive_solver.
  - apply wp_bind. eapply wp_mono; [by apply add_routine_wp|]. intros; apply wp_ret; naive_solver.
  - apply wp_bind. eapply wp_mono; [by apply remove_routine_wp|]. intros; apply wp_ret; naive_solver.
  - eapply wp_mono; [by apply process_timeout_wp|]. naive_solver.
  - eapply wp_mono; [by apply abort_all_wp|]. naive_solver.
Qed.

(** A level-1 session with one registered, running routine. *)
Definition example_routine : RoutineDefinition :=
  mkRoutine 0x0203 0 100 (Some (fun _ _ => true)) (Some (fun _ => true)) None false.
Definition example_rm : RoutineCtx :=
  mkRoutineCtx
    (mkRoutineManager (mkRoutineConfig None 0 true true)
       (example_routine :: replicate 31 routine_zero)
       (mkInstance 0x0203 ROUTINE_STATUS_RUNNING (mkTimer 0 100 true) 0 :: replicate 7 instance_zero)
       1 1 true cs_zero) example_session.
Lemma example_rm_wf : rm_wf example_rm.
Proof.
  constructor; try reflexivity; try (simpl; unfold MAX_ROUTINES, MAX_ACTIVE_ROUTINES; lia).
  1,2: by apply (bool_decide_unpack _); vm_compute.
  intros id. change (active_map example_rm) with
    ({[0x0203 := mkInstance 0x0203 ROUTINE_STATUS_RUNNING (mkTimer 0 100 true) 0]} : gmap Z RoutineInstance).
  intros [x [<- _]%lookup_singleton_Some]. by exists example_routine.
Qed.

(** ** Properties *)

(** [Routine_Manager_StartRoutine] starts a routine exactly when it is
    registered, the session's security level suffices, it is not running yet,
    fewer than eight routines are running, and its start function accepts;
    then it appears as a running instance with a fresh timeout, and otherwise
    the set of running routines is what it was (a refused start leaves no
    trace of the slot it was tried in).  The interrupt mask is restored. *)
Theorem start_routine_exact id data c m :
  rm_wf c ->
  wp (Routine_Manager_StartRoutine id data) (fun b c' m' =>
    rm_wf c' /\ routine_map c' = routine_map c /\ primask m' = primask m /\
    (exists m1, b = startable c id &&
                default false ((fun r => start_answer r data m1) <$> routine_map c !! id)) /\
    (if b then exists inst r, routine_map c !! id = Some r /\ started id r (system_ticks m) inst /\
                 active_map c' = <[id := inst]> (active_map c)
     else active_map c' = active_map c)) c m.
Proof. intros Hw. by apply start_routine_wp. Qed.

(** Witness of [start_routine_exact]: the routine runs already, the start is
    refused. *)
Lemma start_routine_exact_witness :
  rm_wf example_rm /\
  wp (Routine_Manager_StartRoutine 0x0203 []) (fun b c' m' =>
    rm_wf c' /\ routine_map c' = routine_map example_rm /\ primask m' = false /\
    (exists m1, b = startable example_rm 0x0203 &&
       default false ((fun r => start_answer r [] m1) <$> routine_map example_rm !! 0x0203)) /\
    (if b then exists inst r, routine_map example_rm !! 0x0203 = Some r /\ started 0x0203 r 0 inst /\
                 active_map c' = <[0x0203 := inst]> (active_map example_rm)
     else active_map c' = active_map example_rm)) example_rm boot.
Proof.
  split; [exact example_rm_wf|]. exact (start_routine_exact 0x0203 [] example_rm boot example_rm_wf).
Defined.

(**  [Routine_Manager_ProcessTimeout] removes exactly the instances whose
    routine has a timeout that has elapsed, each once, although it deletes
    from the array it walks; all other instances are left as they were. *)
Theorem process_timeout_exact c m :
  rm_wf c ->
  wp Routine_Manager_ProcessTimeout (fun _ c' m' =>
    rm_wf c' /\ routine_map c' = routine_map c /\ primask m' = primask m /\
    active_map c' = omap (keeps_running c (system_ticks m)) (active_map c)) c m.
Proof. intros Hw. by apply process_timeout_wp. Qed.

(** Witness of [process_timeout_exact]: 100 ms later. *)
Lemma process_timeout_exact_witness :
  rm_wf example_rm /\
  wp Routine_Manager_ProcessTimeout (fun _ c' m' =>
    rm_wf c' /\ routine_map c' = routine_map example_rm /\ primask m' = false /\
    active_map c' = omap (keeps_running example_rm 100) (active_map example_rm))
    example_rm (boot <| system_ticks := 100 |>).
Proof.
  split; [exact example_rm_wf|].
  exact (process_timeout_exact example_rm (boot <| system_ticks := 100 |>) example_rm_wf).
Defined.

(**  [Routine_Manager_AbortAll] terminates (eight rounds are enough), leaves
    no routine running, and has called, in table order, the stop function of
    every running routine and the status callback for it, nothing else. *)
Theorem abort_all_terminates c m :
  rm_wf c ->
  wp Routine_Manager_AbortAll (fun _ c' m' =>
    rm_wf c' /\ active_map c' = ∅ /\ routine_map c' = routine_map c /\ primask m' = primask m /\
    trace m' = trace m ++ mjoin (abort_calls c <$> take (active_count (rm c)) (active_routines (rm c)))) c m.
Proof. intros Hw. eapply wp_mono; [by apply abort_all_wp|]. naive_solver. Qed.

(** Witness of [abort_all_terminates]. *)
Lemma abort_all_terminates_witness :
  rm_wf example_rm /\
  wp Routine_Manager_AbortAll (fun _ c' m' =>
    rm_wf c' /\ active_map c' = ∅ /\ routine_map c' = routine_map example_rm /\ primask m' = false /\
    trace m' = [] ++ mjoin (abort_calls example_rm <$> take 1 (active_routines (rm example_rm))))
    example_rm boot.
Proof.
  split; [exact example_rm_wf|]. exact (abort_all_terminates example_rm boot example_rm_wf).
Defined.

(** C40. Along every run of start, stop, add, remove, timeout and abort calls
    with ticks in between, the manager stays well formed: both tables within
    their bounds and free of duplicates, and a running routine is always
    still registered; the interrupt mask never changes. *)
Theorem routine_run_wf c m c' m' :
  rm_wf c -> rtc routine_step (c, m) (c', m') -> rm_wf c' /\ primask m' = primask m.
Proof.
  intros Hw Hr. remember (c, m) as s eqn:Es. remember (c', m') as s' eqn:Es'.
  revert c m Hw Es. induction Hr as [s|s1 s2 s3 Hs Hr IH]; intros c m Hw ->.
  - by injection Es' as -> ->.
  - inversion Hs as [op c1 m1 c2 m2 He|c1 m1|c1 m1 t]; subst.
    + assert (Hwp := routine_exec_wf op c m Hw). unfold wp in Hwp. rewrite He in Hwp.
      destruct Hwp as [Hw2 <-]. by apply (IH eq_refl c2 m2).
    + assert (primask (SysTick_Handler m) = primask m) as <- by (by rewrite SysTick_Handler_spec).
      by apply (IH eq_refl c (SysTick_Handler m)).
    + exact (IH eq_refl c (m <| trace := t |>) Hw eq_refl).
Qed.

(** Witness of [routine_run_wf]: a tick, then the routine is removed while it
    runs. *)
Lemma routine_run_wf_witness :
  rm_wf example_rm /\ exists c' m', rtc routine_step (example_rm, boot) (c', m') /\
    active_count (rm c') = 0%nat /\ rm_wf c' /\ primask m' = false.
Proof.
  split; [exact example_rm_wf|].
  destruct (wp_run (routine_exec (OpRemove 0x0203)) (fun _ c' _ => active_count (rm c') = 0%nat)
    example_rm (SysTick_Handler boot) eq_refl) as ([] & c' & m' & He & Hn).
  assert (Hr : rtc routine_step (example_rm, boot) (c', m'))
    by (eapply rtc_l; [apply rs_tick|eapply rtc_once, rs_call, He]).
  exists c', m'. split; [exact Hr|]. split; [exact Hn|].
  exact (routine_run_wf example_rm boot c' m' example_rm_wf Hr).
Defined.
