(* ===== verification/UdsHandler.v ===== *)
(** * UDS request handler

    [src/runtime/diagnostic/uds_handler.c]: service access by session, session
    control, seed/key security access with its lockout, ECU reset, data
    identifiers, and the response buffers.  [security_seed] and [expected_key]
    are statics of their own: [UDS_Handler_DeInit] does not clear them.

    The seed is taken from [timer.start_time] of a local that is never
    initialised: its value is an argument ([entropy]) of the operations that
    read it. *)

From S2P Require Import Prelude Machine UdsTypes.

(** A [uint32_t] in memory, least significant byte first. *)
Definition le32 (w : Z) : list Z :=
  [Z.land w 0xFF; Z.land (Z.shiftr w 8) 0xFF; Z.land (Z.shiftr w 16) 0xFF; Z.land (Z.shiftr w 24) 0xFF].
Definition of_le (l : list Z) : Z := foldr (fun b acc => b + 256 * acc) 0 l.

(** [memcpy(&x, &data[off], n)] of an [n]-byte integer. *)
Definition read_le {S} (data : option (list Z)) (off n : nat) : M S Z :=
  match data with
  | Some d => if (off + n <=? length d)%nat then mret (of_le (take n (drop off d))) else fault
  | None => fault
  end.

#[global] Arguments read_le : simpl never.

Record UdsConfig := mkUdsConfig {
  p2_server_max_ms : Z;
  p2_star_server_max_ms : Z;
  s3_client_ms : Z;
  security_delay_ms : Z;
  security_attempt_limit : Z;
  enable_session_timeout : bool;
  session_change_callback : bool;
  security_callback : bool }.
Definition uds_config_zero : UdsConfig := mkUdsConfig 0 0 0 0 0 false false false.

Record UdsHandler := mkUdsHandler {
  uh_config : UdsConfig;
  current_session : Z;
  session_timer : Timer;
  security_delay_timer : Timer;
  security_attempt_count : Z;
  security_level : Z;
  security_locked : bool;
  uh_initialized : bool;
  uh_critical : CriticalSection }.
#[export] Instance eta_UdsHandler : Eta UdsHandler := fun u =>
  mkUdsHandler (uh_config u) (current_session u) (session_timer u) (security_delay_timer u)
    (security_attempt_count u) (security_level u) (security_locked u) (uh_initialized u)
    (uh_critical u).
Definition uds_handler_zero : UdsHandler :=
  mkUdsHandler uds_config_zero 0 timer_zero timer_zero 0 0 false false cs_zero.

Record UdsCtx := mkUdsCtx { uds : UdsHandler; security_seed : Z; expected_key : Z }.
#[export] Instance eta_UdsCtx : Eta UdsCtx := fun c => mkUdsCtx (uds c) (security_seed c) (expected_key c).
#[export, refine] Instance UdsCtx_critical : HasCritical UdsCtx :=
  {| crit c := uh_critical (uds c); set_crit k c := c <| uds ::= fun u => u <| uh_critical := k |> |> |}.
Proof. all: by intros; destruct s as [[] ??]. Defined.
Definition uds_ctx_zero : UdsCtx := mkUdsCtx uds_handler_zero 0 0.

Definition on_uds (f : UdsHandler -> UdsHandler) : M UdsCtx unit := modify (fun c => c <| uds ::= f |>).
Definition start_session_timer : M UdsCtx unit :=
  c ← get;
  start (fun c => session_timer (uds c)) (fun t c => c <| uds ::= fun u => u <| session_timer := t |> |>)
    (s3_client_ms (uh_config (uds c))).

Definition service_access : list (Z * Z) := [
  (UDS_SID_DIAGNOSTIC_SESSION_CONTROL, 0x0F);
  (UDS_SID_ECU_RESET,                  0x0E);
  (UDS_SID_SECURITY_ACCESS,            0x0E);
  (UDS_SID_COMMUNICATION_CONTROL,      0x0C);
  (UDS_SID_TESTER_PRESENT,             0x0F);
  (UDS_SID_READ_DATA_BY_IDENTIFIER,    0x0F);
  (UDS_SID_WRITE_DATA_BY_IDENTIFIER,   0x0C);
  (UDS_SID_ROUTINE_CONTROL,            0x0E);
  (UDS_SID_REQUEST_DOWNLOAD,           0x02);
  (UDS_SID_TRANSFER_DATA,              0x02);
  (UDS_SID_REQUEST_TRANSFER_EXIT,      0x02) ].

(** [1 << (session - 1)] is undefined for a session outside 1 .. 31. *)
Definition validate_service_access (sid session : Z) : M UdsCtx bool :=
  match list_find (fun e => e.1 =? sid) service_access with
  | Some (_, (_, allowed)) =>
    if (1 <=? session) && (session <=? 31)
    then mret (negb (Z.land allowed (Z.shiftl 1 (session - 1)) =? 0)) else fault
  | None => mret false
  end.

Definition calculate_key (seed : Z) : Z :=
  Z.lxor (u32 (Z.lxor seed 0x55AA55AA + 0x12345678)) 0xAA55AA55.

(** The handlers return their verdict and the response as they left it. *)
Definition process_diagnostic_session_control (request response : UdsMessage)
  : M UdsCtx (bool * UdsMessage) :=
  if negb (msg_length request =? 2) then mret (false, response) else
  let new_session := sub_function request in
  if (new_session <? UDS_SESSION_DEFAULT) || (UDS_SESSION_SAFETY_SYSTEM <? new_session)
  then mret (false, response) else
  c ← get;
  let old_session := current_session (uds c) in
  on_uds (fun u => u <| current_session := new_session |>
                     <| security_level := 0 |> <| security_locked := false |>
                     <| security_attempt_count := 0 |>);;
  callback (session_change_callback (uh_config (uds c))) "session_change_callback"
    [old_session; new_session];;
  mret (true, response <| service_id := service_id request + 0x40 |>
                       <| sub_function := sub_function request |> <| msg_length := 2 |>).

(** The lockout test at the head of [process_security_access]: [true] when the
    request is refused. *)
Definition check_lockout : M UdsCtx bool :=
  c ← get;
  if security_locked (uds c) then
    e ← expired (fun c => security_delay_timer (uds c));
    if negb e then mret true else
    on_uds (fun u => u <| security_locked := false |> <| security_attempt_count := 0 |>);;
    mret false
  else mret false.

(** Key verification, the [else] branch of [process_security_access]. *)
Definition verify_key (request response : UdsMessage) : M UdsCtx (bool * UdsMessage) :=
  if negb (msg_length request =? 6) then mret (false, response) else
  received_key ← read_le (msg_data request) 2 4;
  c ← get;
  if received_key =? expected_key c then
    on_uds (fun u => u <| security_level := u8 (sub_function request - 1) |>
                       <| security_attempt_count := 0 |>);;
    c ← get;
    callback (security_callback (uh_config (uds c))) "security_callback"
      [security_level (uds c); 1];;
    mret (true, response <| service_id := service_id request + 0x40 |>
                         <| sub_function := sub_function request |> <| msg_length := 2 |>)
  else
    on_uds (fun u => u <| security_attempt_count ::= fun n => u8 (n + 1) |>);;
    c ← get;
    (if security_attempt_limit (uh_config (uds c)) <=? security_attempt_count (uds c) then
       on_uds (fun u => u <| security_locked := true |>);;
       start (fun c => security_delay_timer (uds c))
         (fun t c => c <| uds ::= fun u => u <| security_delay_timer := t |> |>)
         (security_delay_ms (uh_config (uds c)))
     else mret tt);;
    callback (security_callback (uh_config (uds c))) "security_callback"
      [u8 (sub_function request - 1); 0];;
    mret (false, response).

(** [response->data] is pointed at [security_seed]: its four bytes. *)
Definition process_security_access (SystemCoreClock entropy : Z) (request response : UdsMessage)
  : M UdsCtx (bool * UdsMessage) :=
  if msg_length request <? 2 then mret (false, response) else
  let is_request_seed := Z.land (sub_function request) 0x01 =? 1 in
  refused ← check_lockout;
  if (refused : bool) then mret (false, response) else
  if is_request_seed then
    timer_init_m SystemCoreClock;;
    modify (fun c => c <| security_seed := Z.lxor entropy 0xA5A5A5A5 |>);;
    modify (fun c => c <| expected_key := calculate_key (security_seed c) |>);;
    c ← get;
    mret (true, response <| service_id := service_id request + 0x40 |>
                         <| sub_function := sub_function request |>
                         <| msg_data := Some (le32 (security_seed c)) |> <| msg_length := 6 |>)
  else verify_key request response.

(** The [switch] of [process_ecu_reset] only tells known from unknown kinds. *)
Definition process_ecu_reset (request response : UdsMessage) : M UdsCtx (bool * UdsMessage) :=
  if negb (msg_length request =? 2) then mret (false, response) else
  let response := response <| service_id := service_id request + 0x40 |>
                           <| sub_function := sub_function request |> <| msg_length := 2 |> in
  mret ((sub_function request =? 0x01) || (sub_function request =? 0x02) ||
        (sub_function request =? 0x03), response).

(** The identification strings, as the bytes the code copies. *)
Definition ascii_bytes (s : string) : list Z :=
  (fun a => Z.of_nat (Ascii.nat_of_ascii a)) <$> String.list_ascii_of_string s.
Definition data_of_identifier (did : Z) : option (list Z) :=
  if did =? 0xF190 then Some (ascii_bytes "SAMPLE1234567890" ++ [0])
  else if did =? 0xF19E then Some (ascii_bytes "ECU123456" ++ [0])
  else if did =? 0xF197 then Some (ascii_bytes "HW-V1.0")
  else if did =? 0xF195 then Some (ascii_bytes "SW-V1.0")
  else None.

Definition process_read_data_by_identifier (request response : UdsMessage)
  : M UdsCtx (bool * UdsMessage) :=
  if msg_length request <? 3 then mret (false, response) else
  data_identifier ← read_le (msg_data request) 1 2;
  match data_of_identifier data_identifier with
  | None => mret (false, response)
  | Some bytes =>
    match msg_data response with
    | None => fault
    | Some d =>
      let out := take 2 (le32 data_identifier) ++ bytes in
      if (length d <? length out)%nat then fault else
      mret (true, response <| service_id := service_id request + 0x40 |>
                           <| msg_data := Some (out ++ drop (length out) d) |>
                           <| msg_length := Z.of_nat (length out) |>)
    end
  end.

Definition UDS_Handler_Init (SystemCoreClock : Z) (config : option UdsConfig) : M UdsCtx bool :=
  match config with
  | None => mret false
  | Some config =>
    enter;;
    on_uds (fun u => u <| uh_config := config |> <| current_session := UDS_SESSION_DEFAULT |>
                       <| security_level := 0 |> <| security_locked := false |>
                       <| security_attempt_count := 0 |>);;
    timer_init_m SystemCoreClock;;
    init_crit;;
    (if enable_session_timeout config then start_session_timer else mret tt);;
    on_uds (fun u => u <| uh_initialized := true |>);;
    exit;;
    mret true
  end.

Definition UDS_Handler_DeInit : M UdsCtx unit :=
  enter;; on_uds (fun _ => uds_handler_zero);; exit.

(** The [switch] over the service identifier. *)
Definition dispatch (SystemCoreClock entropy : Z) (request response : UdsMessage)
  : M UdsCtx (bool * UdsMessage) :=
  let sid := service_id request in
  if sid =? UDS_SID_DIAGNOSTIC_SESSION_CONTROL then process_diagnostic_session_control request response
  else if sid =? UDS_SID_SECURITY_ACCESS then process_security_access SystemCoreClock entropy request response
  else if sid =? UDS_SID_ECU_RESET then process_ecu_reset request response
  else if sid =? UDS_SID_READ_DATA_BY_IDENTIFIER then process_read_data_by_identifier request response
  else if sid =? UDS_SID_TESTER_PRESENT then
    mret (true, response <| service_id := service_id request + 0x40 |>
                         <| sub_function := sub_function request |> <| msg_length := 2 |>)
  else mret (false, response).

Definition UDS_Handler_ProcessRequest (SystemCoreClock entropy : Z)
    (request response : option UdsMessage) : M UdsCtx (Z * option UdsMessage) :=
  c ← get;
  match request, response with
  | Some request, Some response =>
    if negb (uh_initialized (uds c)) then mret (UDS_RESPONSE_GENERAL_REJECT, Some response) else
    enter;;
    (if enable_session_timeout (uh_config (uds c)) then start_session_timer else mret tt);;
    c ← get;
    allowed ← validate_service_access (service_id request) (current_session (uds c));
    if negb allowed then exit;; mret (UDS_RESPONSE_SERVICE_NOT_SUPPORTED, Some response) else
    result ← dispatch SystemCoreClock entropy request response;
    exit;;
    mret (if (result : bool * UdsMessage).1 then UDS_RESPONSE_POSITIVE else UDS_RESPONSE_SERVICE_NOT_SUPPORTED,
          Some result.2)
  | _, _ => mret (UDS_RESPONSE_GENERAL_REJECT, response)
  end.

Definition UDS_Handler_IsSessionActive (session : Z) : M UdsCtx bool :=
  c ← get;
  if negb (uh_initialized (uds c)) then mret false else
  enter;;
  let is_active := current_session (uds c) =? session in
  is_active ← (if is_active && enable_session_timeout (uh_config (uds c)) then
                 e ← expired (fun c => session_timer (uds c)); mret (negb e)
               else mret is_active);
  exit;;
  mret is_active.

Definition UDS_Handler_IsSecurityUnlocked (level : Z) : M UdsCtx bool :=
  c ← get;
  if negb (uh_initialized (uds c)) then mret false else
  enter;;
  exit;;
  mret ((security_level (uds c) =? level) && negb (security_locked (uds c))).

Definition UDS_Handler_ProcessTimeout : M UdsCtx unit :=
  c ← get;
  if negb (uh_initialized (uds c)) then mret tt else
  enter;;
  (if enable_session_timeout (uh_config (uds c)) then
     e ← expired (fun c => session_timer (uds c));
     if e && negb (current_session (uds c) =? UDS_SESSION_DEFAULT) then
       on_uds (fun u => u <| current_session := UDS_SESSION_DEFAULT |> <| security_level := 0 |>);;
       callback (session_change_callback (uh_config (uds c))) "session_change_callback"
         [current_session (uds c); UDS_SESSION_DEFAULT]
     else mret tt
   else mret tt);;
  exit.

(** The contents of [response_buffer] up to [total_length]; the buffer has 256
    bytes and nothing is sent (the platform call is commented out). *)
Definition UDS_Handler_SendResponse (response : option UdsMessage) : M UdsCtx (option (list Z)) :=
  c ← get;
  match response with
  | None => mret None
  | Some response =>
    if negb (uh_initialized (uds c)) then mret None else
    let buffer := [u8 (service_id response)] in
    let buffer := if 1 <? msg_length response then buffer ++ [sub_function response] else buffer in
    match msg_data response with
    | Some d =>
      if 2 <? msg_length response then
        let n := Z.to_nat (msg_length response - 2) in
        if (length d <? n)%nat || (256 <? length buffer + n)%nat then fault
        else mret (Some (buffer ++ take n d))
      else mret (Some buffer)
    | None => mret (Some buffer)
    end
  end.

Definition UDS_Handler_SendNegativeResponse (sid response_code : Z) : M UdsCtx (option (list Z)) :=
  c ← get;
  if negb (uh_initialized (uds c)) then mret None else mret (Some [0x7F; u8 sid; u8 response_code]).

Definition UDS_Handler_ResetSession : M UdsCtx unit :=
  c ← get;
  if negb (uh_initialized (uds c)) then mret tt else
  enter;;
  on_uds (fun u => u <| current_session := UDS_SESSION_DEFAULT |> <| security_level := 0 |>
                     <| security_locked := false |> <| security_attempt_count := 0 |>);;
  callback (session_change_callback (uh_config (uds c))) "session_change_callback"
    [current_session (uds c); UDS_SESSION_DEFAULT];;
  exit.

Definition UDS_Handler_IsServiceAllowed (sid : Z) : M UdsCtx bool :=
  c ← get;
  if negb (uh_initialized (uds c)) then mret false else
  enter;;
  is_allowed ← validate_service_access sid (current_session (uds c));
  exit;;
  mret is_allowed.

Definition UDS_Handler_GetSessionTimeout : M UdsCtx Z :=
  c ← get;
  if negb (uh_initialized (uds c)) || negb (enable_session_timeout (uh_config (uds c))) then mret 0 else
  enter;;
  r ← remaining (fun c => session_timer (uds c));
  exit;;
  mret r.

Definition UDS_Handler_UpdateS3Timer : M UdsCtx unit :=
  c ← get;
  if negb (uh_initialized (uds c)) || negb (enable_session_timeout (uh_config (uds c))) then mret tt else
  enter;; start_session_timer;; exit.

(** Static helpers of the file that no function calls. *)
Definition reset_security_access : M UdsCtx unit :=
  modify (fun c => c <| uds ::= fun u => u <| security_level := 0 |> <| security_locked := false |>
                                           <| security_attempt_count := 0 |> |>
                     <| security_seed := 0 |> <| expected_key := 0 |>).
Definition validate_timing_parameters : M UdsCtx bool :=
  c ← get;
  let cfg := uh_config (uds c) in
  mret ((0 <? p2_server_max_ms cfg) && (p2_server_max_ms cfg <? p2_star_server_max_ms cfg) &&
        (0 <? s3_client_ms cfg)).
Definition is_response_pending : M UdsCtx bool := mret false.
Definition handle_session_timeout : M UdsCtx unit :=
  c ← get;
  if negb (current_session (uds c) =? UDS_SESSION_DEFAULT) then
    on_uds (fun u => u <| current_session := UDS_SESSION_DEFAULT |>);;
    reset_security_access;;
    callback (session_change_callback (uh_config (uds c))) "session_change_callback"
      [current_session (uds c); UDS_SESSION_DEFAULT]
  else mret tt.

(** ** Lemmas *)

Definition uds_wf (c : UdsCtx) : Prop :=
  uh_initialized (uds c) = true /\ 1 <= current_session (uds c) <= 4.

(** The access decision for a session in range. *)
Definition access (sid session : Z) : bool :=
  match list_find (fun e => e.1 =? sid) service_access with
  | Some (_, (_, allowed)) => negb (Z.land allowed (Z.shiftl 1 (session - 1)) =? 0)
  | None => false
  end.

Lemma wp_validate sid session c m (Q : bool -> UdsCtx -> Machine -> Prop) :
  1 <= session <= 4 -> Q (access sid session) c m -> wp (validate_service_access sid session) Q c m.
Proof.
  intros Hs HQ. unfold validate_service_access, access in *.
  destruct (list_find _ _) as [[? [? ?]]|]; [|done].
  rewrite !(proj2 (Z.leb_le _ _)) by lia. done.
Qed.

(** What the handlers see: the section entered, the S3 timer restarted. *)
Definition entered (c c0 : UdsCtx) (pm : bool) : Prop :=
  exists t, c0 = set_crit (mkCS (Z.b2z pm) true) (c <| uds ::= fun u => u <| session_timer := t |> |>).

Lemma process_request_wp clk ent req resp c m (Q : Z * option UdsMessage -> UdsCtx -> Machine -> Prop) :
  uds_wf c ->
  (forall c0 tc, entered c c0 (primask m) ->
     if access (service_id req) (current_session (uds c)) then
       wp (dispatch clk ent req resp) (fun r c' m' =>
         crit c' = mkCS (Z.b2z (primask m)) true /\ primask m' = true /\
         Q (if r.1 then UDS_RESPONSE_POSITIVE else UDS_RESPONSE_SERVICE_NOT_SUPPORTED, Some r.2)
           (set_crit (mkCS (Z.b2z (primask m)) false) c') (m' <| primask := primask m |>))
         c0 (m <| primask := true |> <| timer_critical := tc |>)
     else
       Q (UDS_RESPONSE_SERVICE_NOT_SUPPORTED, Some resp)
         (set_crit (mkCS (Z.b2z (primask m)) false) c0) (m <| timer_critical := tc |>)) ->
  wp (UDS_Handler_ProcessRequest clk ent (Some req) (Some resp)) Q c m.
Proof.
  intros [Hi Hs] HQ. unfold UDS_Handler_ProcessRequest. apply wp_bind, wp_get.
  rewrite Hi; simpl. apply wp_bind, wp_enter, wp_bind.
  assert (Hgo : forall c0 tc, entered c c0 (primask m) ->
    wp (c ← get;
        allowed ← validate_service_access (service_id req) (current_session (uds c));
        if negb allowed then exit;; mret (UDS_RESPONSE_SERVICE_NOT_SUPPORTED, Some resp) else
        result ← dispatch clk ent req resp;
        exit;;
        mret (if (result : bool * UdsMessage).1 then UDS_RESPONSE_POSITIVE
              else UDS_RESPONSE_SERVICE_NOT_SUPPORTED, Some result.2))
       Q c0 (m <| primask := true |> <| timer_critical := tc |>)).
  { intros c0 tc He. specialize (HQ c0 tc He). apply wp_bind, wp_get.
    assert (Hcs : current_session (uds c0) = current_session (uds c)) by (destruct He as [t ->]; done).
    assert (Hcr : crit c0 = mkCS (Z.b2z (primask m)) true) by (by destruct He as [t ->]).
    apply wp_bind, wp_validate; rewrite Hcs; [done|].
    destruct (access _ _); simpl.
    - apply wp_bind. eapply wp_mono; [exact HQ|]. intros r c' m' (Hc' & Hm' & HQ').
      apply wp_bind. eapply wp_exit; [exact Hc'|done|]. apply wp_ret. exact HQ'.
    - apply wp_bind. eapply wp_exit; [exact Hcr|done|]. apply wp_ret. by destruct m. }
  destruct (enable_session_timeout _).
  - unfold start_session_timer. apply wp_bind, wp_get, wp_start. apply Hgo. by eexists.
  - apply wp_ret. specialize (Hgo (set_crit (mkCS (Z.b2z (primask m)) true) c) (timer_critical m)).
    destruct m. apply Hgo. exists (session_timer (uds c)). by destruct c as [[] ??].
Qed.

Lemma le32_roundtrip w : is_u32 w -> of_le (le32 w) = w.
Proof.
  intros Hw. unfold of_le, le32. simpl.
  change 0xFF with (Z.ones 8). rewrite !Z.land_ones, !Z.shiftr_div_pow2 by lia.
  change (2 ^ 8) with 256. change (2 ^ 16) with (256 * 256). change (2 ^ 24) with (256 * (256 * 256)).
  rewrite <- !Z.div_div by lia.
  assert (H : w / 256 / 256 / 256 mod 256 = w / 256 / 256 / 256).
  { apply Z.mod_small. unfold is_u32 in Hw. split; [do 3 (apply Z.div_pos; [|lia]); lia|].
    do 3 (apply Z.div_lt_upper_bound; [lia|]). lia. }
  rewrite H. pose proof (Z.div_mod w 256 ltac:(lia)). pose proof (Z.div_mod (w / 256) 256 ltac:(lia)).
  pose proof (Z.div_mod (w / 256 / 256) 256 ltac:(lia)). lia.
Qed.

Lemma calculate_key_u32 seed : is_u32 (calculate_key seed).
Proof. apply lxor_u32; [apply u32_range|unfold is_u32; lia]. Qed.

(** The lockout is in force. *)
Definition locked_out (c : UdsCtx) (m : Machine) : bool :=
  security_locked (uds c) &&
  negb (running (security_delay_timer (uds c)) &&
        (timeout (security_delay_timer (uds c)) <=?
         u32 (system_ticks m - start_time (security_delay_timer (uds c))))).

Lemma wp_check_lockout c m (Q : bool -> UdsCtx -> Machine -> Prop) :
  (forall tc, if locked_out c m then Q true c (m <| timer_critical := tc |>) else
     Q false (c <| uds ::= fun u => u <| security_locked := false |>
        <| security_attempt_count := if security_locked (uds c) then 0 else security_attempt_count u |> |>)
       (m <| timer_critical := tc |>)) ->
  wp check_lockout Q c m.
Proof.
  intros HQ. unfold check_lockout, locked_out in *. apply wp_bind, wp_get.
  destruct (security_locked (uds c)) eqn:Hl; simpl in HQ.
  - apply wp_bind, wp_expired. intros tc. specialize (HQ tc). destruct (negb _); exact HQ.
  - specialize (HQ (timer_critical m)). apply wp_ret. destruct m, c as [[] ??]; simpl in *. by subst.
Qed.

(** Buffers large enough for what the handlers read and write. *)
Definition request_ok (req resp : UdsMessage) (d : list Z) : Prop :=
  msg_data req = Some d /\ (6 <= length d)%nat /\
  exists o, msg_data resp = Some o /\ (19 <= length o)%nat.

(** The key a request carries. *)
Definition key_of (d : list Z) : Z := of_le (take 4 (drop 2 d)).

Lemma wp_read_le {S} d off n (s : S) m (Q : Z -> S -> Machine -> Prop) :
  (off + n <= length d)%nat -> Q (of_le (take n (drop off d))) s m ->
  wp (read_le (Some d) off n) Q s m.
Proof. intros Hd HQ. unfold read_le. by rewrite (proj2 (Nat.leb_le _ _)) by lia. Qed.

(** The three outcomes of key verification. *)
Lemma verify_key_wp req resp d c m (Q : bool * UdsMessage -> UdsCtx -> Machine -> Prop) :
  msg_data req = Some d -> (6 <= length d)%nat ->
  (msg_length req ≠ 6 -> Q (false, resp) c m) ->
  (msg_length req = 6 -> key_of d = expected_key c ->
   forall tr, Q (true, resp <| service_id := service_id req + 0x40 |>
                  <| sub_function := sub_function req |> <| msg_length := 2 |>)
     (c <| uds ::= fun u => u <| security_level := u8 (sub_function req - 1) |>
                              <| security_attempt_count := 0 |> |>) (m <| trace := tr |>)) ->
  (msg_length req = 6 -> key_of d ≠ expected_key c ->
   let n := u8 (security_attempt_count (uds c) + 1) in
   let lock := security_attempt_limit (uh_config (uds c)) <=? n in
   forall tr tc, Q (false, resp)
     (c <| uds ::= fun u => u <| security_attempt_count := n |>
          <| security_locked := if lock then true else security_locked u |>
          <| security_delay_timer := if lock then mkTimer (system_ticks m)
               (security_delay_ms (uh_config u)) true else security_delay_timer u |> |>)
     (m <| trace := tr |> <| timer_critical := tc |>)) ->
  wp (verify_key req resp) Q c m.
Proof.
  intros Hd Hl Hlen Hgood Hbad. unfold verify_key. rewrite Hd.
  destruct (msg_length req =? 6) eqn:E; simpl; tests; [|apply wp_ret; auto].
  apply wp_bind, wp_read_le; [done|]. apply wp_bind, wp_get. fold (key_of d).
  destruct c as [[cf se st dt n lv lk ini cs] sd ek], m as [pm tk fr tc ti tr]. unfold on_uds. simpl in *.
  destruct (key_of d =? ek) eqn:Ek; tests.
  - repeat (apply wp_bind; wp_step). by apply Hgood.
  - specialize (Hbad E Ek). simpl in Hbad.
    destruct (security_attempt_limit cf <=? u8 (n + 1)) eqn:Hlim;
      repeat first [rewrite Hlim; simpl | wp_step]; simpl; apply Hbad.
Qed.

(** How a request may change the security level. *)
Definition level_change (req : UdsMessage) (d : list Z) (c : UdsCtx) (m : Machine) (c' : UdsCtx) : Prop :=
  security_level (uds c') = security_level (uds c) \/
  (service_id req = UDS_SID_DIAGNOSTIC_SESSION_CONTROL /\ security_level (uds c') = 0) \/
  (service_id req = UDS_SID_SECURITY_ACCESS /\ Z.land (sub_function req) 1 ≠ 1 /\
   msg_length req = 6 /\ key_of d = expected_key c /\ locked_out c m = false /\
   security_level (uds c') = u8 (sub_function req - 1)).

Lemma dispatch_safe clk ent req resp d c m :
  uds_wf c -> request_ok req resp d ->
  wp (dispatch clk ent req resp) (fun r c' m' =>
    crit c' = crit c /\ primask m' = primask m /\ uds_wf c' /\ level_change req d c m c') c m.
Proof.
  intros [Hi Hs] (Hd & Hl & o & Ho & Hol). unfold dispatch.
  destruct (service_id req =? UDS_SID_DIAGNOSTIC_SESSION_CONTROL) eqn:E1; tests.
  { unfold process_diagnostic_session_control, on_uds.
    destruct c as [[cf se st dt n lv lk ini cs] sd ek], m as [pm tk fr tc ti tr]; simpl in *.
    wp_steps; unfold uds_wf, level_change; simpl; tests; split_and!; auto;
      unfold UDS_SESSION_DEFAULT, UDS_SESSION_SAFETY_SYSTEM in *; lia. }
  destruct (service_id req =? UDS_SID_SECURITY_ACCESS) eqn:E2; tests.
  { unfold process_security_access. destruct (msg_length req <? 2); [apply wp_ret; by split_and!; [..|left]|].
    apply wp_bind, wp_check_lockout. intros tc0. destruct (locked_out c m) eqn:Hlo.
    { apply wp_ret. split_and!; [done..|by left]. }
    destruct (Z.land (sub_function req) 1 =? 1) eqn:Hodd; tests.
    - apply wp_bind, wp_timer_init. intros tr. wp_steps. split_and!; [done..|by left].
    - eapply (verify_key_wp _ _ d); [done|done|..].
      + intros _. split_and!; [done..|by left].
      + intros H6 Hk tr. split_and!; [done..|]. right; right. by split_and!.
      + intros H6 Hk n lock tr tc. split_and!; [done..|by left]. }
  destruct (service_id req =? UDS_SID_ECU_RESET).
  { unfold process_ecu_reset. wp_steps; (split_and!; [done..|by left]). }
  destruct (service_id req =? UDS_SID_READ_DATA_BY_IDENTIFIER).
  { unfold process_read_data_by_identifier. rewrite Hd, Ho.
    destruct (msg_length req <? 3); [wp_step; split_and!; [done..|by left]|].
    apply wp_bind, wp_read_le; [lia|]. destruct (data_of_identifier _) as [b|] eqn:Eb;
      [|wp_step; split_and!; [done..|by left]].
    assert (Hb : (length b <= 17)%nat).
    { unfold data_of_identifier in Eb. repeat case_match; simplify_eq; vm_compute; lia. }
    rewrite (proj2 (Nat.ltb_ge _ _)); [wp_step; split_and!; [done..|by left]|].
    rewrite length_app, length_take. simpl. lia. }
  wp_steps; (split_and!; [done..|by left]).
Qed.

(** A handler in the extended session, one wrong key away from lockout. *)
Definition example_uds : UdsCtx :=
  mkUdsCtx (mkUdsHandler (mkUdsConfig 50 5000 5000 10000 3 true true true)
    UDS_SESSION_EXTENDED_DIAGNOSTIC (mkTimer 0 5000 true) timer_zero 2 0 false true cs_zero)
    0x11 0x12345678.
Definition key_request (sub : Z) (key : list Z) : UdsMessage :=
  mkUdsMessage UDS_SID_SECURITY_ACCESS sub (Some ([0; 0] ++ key)) 6.
Definition blank_response : UdsMessage := mkUdsMessage 0 0 (Some (replicate 32 0)) 0.
Lemma example_uds_wf : uds_wf example_uds.
Proof. unfold uds_wf; simpl. unfold UDS_SESSION_EXTENDED_DIAGNOSTIC. lia. Qed.

(** ** Properties *)

(** C1. A request with readable and writable buffers is always processed to
    the end, restores the interrupt mask and leaves a session in range; and it
    changes the security level only by a session change (to 0) or by a
    security access request with the expected key outside a lockout (to the
    requested level minus one): no other request unlocks anything. *)
Theorem unlock_needs_key clk ent req resp d c m :
  uds_wf c -> request_ok req resp d ->
  wp (UDS_Handler_ProcessRequest clk ent (Some req) (Some resp)) (fun r c' m' =>
    uds_wf c' /\ primask m' = primask m /\ level_change req d c m c' /\
    (access (service_id req) (current_session (uds c)) = false ->
     r = (UDS_RESPONSE_SERVICE_NOT_SUPPORTED, Some resp))) c m.
Proof.
  intros Hw Hr. apply process_request_wp; [done|]. intros c0 tc [t ->].
  destruct (access _ _).
  - eapply wp_mono; [apply (dispatch_safe _ _ _ _ d); [exact Hw|done]|].
    intros r c' m' (Hc & Hp & Hw' & Hl). split_and!; [exact Hc|exact Hp|exact Hw'|done|exact Hl|done].
  - split_and!; [exact Hw|done|by left|done].
Qed.

(** Witness of [unlock_needs_key]: the right key for level 1. *)
Lemma unlock_needs_key_witness :
  uds_wf example_uds /\
  wp (UDS_Handler_ProcessRequest 0 0 (Some (key_request 2 (le32 0x12345678))) (Some blank_response))
    (fun r c' m' => uds_wf c' /\ primask m' = false /\
      level_change (key_request 2 (le32 0x12345678)) ([0; 0] ++ le32 0x12345678) example_uds boot c' /\
      (access UDS_SID_SECURITY_ACCESS 3 = false ->
       r = (UDS_RESPONSE_SERVICE_NOT_SUPPORTED, Some blank_response))) example_uds boot.
Proof.
  split; [exact example_uds_wf|].
  apply (unlock_needs_key 0 0 (key_request 2 (le32 0x12345678)) blank_response
    ([0; 0] ++ le32 0x12345678) example_uds boot example_uds_wf).
  split; [reflexivity|]. split; [apply Nat.leb_le; reflexivity|].
  exists (replicate 32 0). split; [reflexivity|apply Nat.leb_le; reflexivity].
Defined.

(**  During a lockout every security access request is refused, whatever
    it carries (the right key included), and the security state is left as it
    is: attempts, level, lock, delay timer, seed and key. *)
Theorem lockout_refuses clk ent req resp c m :
  uds_wf c -> locked_out c m = true -> service_id req = UDS_SID_SECURITY_ACCESS ->
  wp (UDS_Handler_ProcessRequest clk ent (Some req) (Some resp)) (fun r c' m' =>
    r = (UDS_RESPONSE_SERVICE_NOT_SUPPORTED, Some resp) /\ primask m' = primask m /\
    security_attempt_count (uds c') = security_attempt_count (uds c) /\
    security_level (uds c') = security_level (uds c) /\ security_locked (uds c') = true /\
    security_delay_timer (uds c') = security_delay_timer (uds c) /\
    security_seed c' = security_seed c /\ expected_key c' = expected_key c) c m.
Proof.
  intros Hw Hlo Hsid. assert (Hlk : security_locked (uds c) = true) by (unfold locked_out in Hlo; by tests).
  apply process_request_wp; [done|]. intros c0 tc [t ->].
  destruct (access _ _); [|by split_and!]. unfold dispatch. rewrite Hsid. cbv zeta.
  change (UDS_SID_SECURITY_ACCESS =? UDS_SID_DIAGNOSTIC_SESSION_CONTROL) with false.
  change (UDS_SID_SECURITY_ACCESS =? UDS_SID_SECURITY_ACCESS) with true. cbv iota. unfold process_security_access.
  destruct (msg_length req <? 2); [apply wp_ret; by split_and!|].
  apply wp_bind, wp_check_lockout. intros tc0.
  match goal with |- if locked_out ?x ?y then _ else _ => change (locked_out x y) with (locked_out c m) end.
  rewrite Hlo. apply wp_ret. by split_and!.
Qed.

(** Witness of [lockout_refuses]: the right key, 9 s into a 10 s lockout. *)
Definition locked_uds : UdsCtx :=
  example_uds <| uds ::= fun u => u <| security_locked := true |>
                                   <| security_delay_timer := mkTimer 0 10000 true |> |>.
Lemma lockout_refuses_witness :
  locked_out locked_uds (boot <| system_ticks := 9000 |>) = true /\
  wp (UDS_Handler_ProcessRequest 0 0 (Some (key_request 2 (le32 0x12345678))) (Some blank_response))
    (fun r c' m' => r = (UDS_RESPONSE_SERVICE_NOT_SUPPORTED, Some blank_response) /\ primask m' = false /\
      security_attempt_count (uds c') = 2 /\ security_level (uds c') = 0 /\
      security_locked (uds c') = true /\ security_delay_timer (uds c') = mkTimer 0 10000 true /\
      security_seed c' = 0x11 /\ expected_key c' = 0x12345678)
    locked_uds (boot <| system_ticks := 9000 |>).
Proof.
  split; [reflexivity|].
  exact (lockout_refuses 0 0 (key_request 2 (le32 0x12345678)) blank_response locked_uds
    (boot <| system_ticks := 9000 |>) example_uds_wf eq_refl eq_refl).
Defined.

(** A security access request that is let through. *)
Lemma security_access_wp clk ent req resp c m (Q : Z * option UdsMessage -> UdsCtx -> Machine -> Prop) :
  uds_wf c -> 2 <= current_session (uds c) -> service_id req = UDS_SID_SECURITY_ACCESS ->
  2 <= msg_length req -> locked_out c m = false ->
  (forall t tc, wp
     (if Z.land (sub_function req) 1 =? 1 then
        timer_init_m clk;;
        modify (fun c => c <| security_seed := Z.lxor ent 0xA5A5A5A5 |>);;
        modify (fun c => c <| expected_key := calculate_key (security_seed c) |>);;
        c ← get;
        mret (true, resp <| service_id := service_id req + 0x40 |>
                         <| sub_function := sub_function req |>
                         <| msg_data := Some (le32 (security_seed c)) |> <| msg_length := 6 |>)
      else verify_key req resp)
     (fun r c' m' => crit c' = mkCS (Z.b2z (primask m)) true /\ primask m' = true /\
        Q (if r.1 then UDS_RESPONSE_POSITIVE else UDS_RESPONSE_SERVICE_NOT_SUPPORTED, Some r.2)
          (set_crit (mkCS (Z.b2z (primask m)) false) c') (m' <| primask := primask m |>))
     (c <| uds ::= fun u => u <| session_timer := t |> <| uh_critical := mkCS (Z.b2z (primask m)) true |>
        <| security_locked := false |>
        <| security_attempt_count := if security_locked u then 0 else security_attempt_count u |> |>)
     (m <| primask := true |> <| timer_critical := tc |>)) ->
  wp (UDS_Handler_ProcessRequest clk ent (Some req) (Some resp)) Q c m.
Proof.
  intros Hw Hs Hsid Hlen Hlo HQ. apply process_request_wp; [done|]. intros c0 tc [t ->].
  assert (Hacc : access (service_id req) (current_session (uds c)) = true).
  { rewrite Hsid. destruct Hw as [_ Hr]. unfold access. simpl.
    destruct (current_session (uds c)) as [|p|p]; try lia.
    destruct p as [[p|p|]|[p|p|]|]; try lia; try reflexivity; destruct p; try lia; reflexivity. }
  rewrite Hacc. unfold dispatch. cbv zeta. rewrite Hsid.
  change (UDS_SID_SECURITY_ACCESS =? UDS_SID_DIAGNOSTIC_SESSION_CONTROL) with false.
  change (UDS_SID_SECURITY_ACCESS =? UDS_SID_SECURITY_ACCESS) with true. cbv iota.
  unfold process_security_access. rewrite (proj2 (Z.ltb_ge _ _)) by lia. cbv zeta.
  apply wp_bind, wp_check_lockout. intros tc0.
  match goal with |- if locked_out ?x ?y then _ else _ => change (locked_out x y) with (locked_out c m) end.
  rewrite Hlo. exact (HQ t tc0).
Qed.

(** A key request with a readable, wrong key. *)
Definition wrong_key (key : Z) (req : UdsMessage) : Prop :=
  service_id req = UDS_SID_SECURITY_ACCESS /\ Z.land (sub_function req) 1 ≠ 1 /\ msg_length req = 6 /\
  exists d, msg_data req = Some d /\ (6 <= length d)%nat /\ key_of d ≠ key.

Fixpoint send_all (clk : Z) (resp : UdsMessage) (reqs : list UdsMessage) : M UdsCtx unit :=
  match reqs with
  | [] => mret tt
  | req :: reqs => UDS_Handler_ProcessRequest clk 0 (Some req) (Some resp);; send_all clk resp reqs
  end.

Lemma wrong_key_wp clk ent req resp c m :
  uds_wf c -> 2 <= current_session (uds c) -> security_locked (uds c) = false ->
  wrong_key (expected_key c) req ->
  let n := u8 (security_attempt_count (uds c) + 1) in
  let lock := security_attempt_limit (uh_config (uds c)) <=? n in
  wp (UDS_Handler_ProcessRequest clk ent (Some req) (Some resp)) (fun r c' m' =>
    r = (UDS_RESPONSE_SERVICE_NOT_SUPPORTED, Some resp) /\
    uds_wf c' /\ current_session (uds c') = current_session (uds c) /\
    uh_config (uds c') = uh_config (uds c) /\
    expected_key c' = expected_key c /\ security_level (uds c') = security_level (uds c) /\
    security_attempt_count (uds c') = n /\ security_locked (uds c') = lock /\
    (lock = true -> security_delay_timer (uds c') =
       mkTimer (system_ticks m) (security_delay_ms (uh_config (uds c))) true) /\
    system_ticks m' = system_ticks m /\ primask m' = primask m) c m.
Proof.
  intros Hw Hs Hl (Hsid & Hev & Hlen & d & Hd & Hdl & Hk) n lock.
  assert (Hlo : locked_out c m = false) by (unfold locked_out; by rewrite Hl).
  apply security_access_wp; auto; [lia|]. intros t tc. simpl. rewrite Hl.
  rewrite (proj2 (Z.eqb_neq _ _) Hev).
  eapply (verify_key_wp _ _ d); [done|done|done|done|]. intros _ _. simpl.
  fold n. fold lock. intros tr tc'. split_and!; try done; try apply Hw.
  - by destruct lock.
  - by intros ->.
Qed.

Lemma send_wrong_keys_wp clk resp reqs c m :
  uds_wf c -> 2 <= current_session (uds c) -> security_locked (uds c) = false ->
  0 <= security_attempt_count (uds c) ->
  security_attempt_count (uds c) + Z.of_nat (length reqs) <= security_attempt_limit (uh_config (uds c)) <= 255 ->
  security_attempt_count (uds c) < security_attempt_limit (uh_config (uds c)) ->
  Forall (wrong_key (expected_key c)) reqs ->
  wp (send_all clk resp reqs) (fun _ c' m' =>
    uds_wf c' /\ security_level (uds c') = security_level (uds c) /\
    security_attempt_count (uds c') = security_attempt_count (uds c) + Z.of_nat (length reqs) /\
    security_locked (uds c') =
      (security_attempt_limit (uh_config (uds c)) <=? security_attempt_count (uds c) + Z.of_nat (length reqs)) /\
    (security_locked (uds c') = true -> security_delay_timer (uds c') =
       mkTimer (system_ticks m) (security_delay_ms (uh_config (uds c))) true) /\
    system_ticks m' = system_ticks m /\ primask m' = primask m) c m.
Proof.
  revert c m. induction reqs as [|req reqs IH]; intros c m Hw Hs Hl H0 Hlim Hlt Hwr; cbn [send_all].
  - wp_step. rewrite Z.add_0_r. split_and!; auto; [|by rewrite Hl].
    rewrite Hl. symmetry. apply Z.leb_gt. done.
  - apply Forall_cons in Hwr as [Hreq Hrest]. cbn [length] in *.
    apply wp_bind. eapply wp_mono; [by apply (wrong_key_wp clk 0 req resp c m)|].
    intros _ c1 m1 (_ & Hw1 & Hs1 & Hcf & Hek & Hlv & Hn1 & Hl1 & Hd1 & Ht1 & Hp1).
    rewrite u8_small in Hn1, Hl1, Hd1 by (unfold is_u8; lia).
    destruct (decide (reqs = [])) as [->|Hne].
    + cbn [send_all]. wp_step. cbn [length]. change (Z.of_nat 1) with 1.
      split_and!; auto. rewrite Hl1. exact Hd1.
    + assert (0 < Z.of_nat (length reqs)) by (destruct reqs; [done|simpl; lia]).
      eapply wp_mono; [apply (IH c1 m1); auto; rewrite ?Hs1, ?Hcf, ?Hn1, ?Hek; try lia; [|done]|].
      { rewrite Hl1. apply Z.leb_gt. lia. }
      rewrite Hcf, Hn1, Hlv, Ht1, Hp1. intros _ c' m' (? & ? & Hn' & Hl' & ? & ? & ?).
      replace (security_attempt_count (uds c) + Z.of_nat (S (length reqs)))
        with (security_attempt_count (uds c) + 1 + Z.of_nat (length reqs)) by lia. by split_and!.
Qed.

(** C9. Exactly [security_attempt_limit] consecutive wrong keys lead to a
    lockout: after fewer the handler is not locked, with the last one it is,
    and the delay timer has just been started; the security level is
    untouched throughout. *)
Theorem lockout_after_limit clk resp reqs c m :
  uds_wf c -> 2 <= current_session (uds c) -> security_locked (uds c) = false ->
  security_attempt_count (uds c) = 0 ->
  0 < security_attempt_limit (uh_config (uds c)) <= 255 ->
  Z.of_nat (length reqs) <= security_attempt_limit (uh_config (uds c)) ->
  Forall (wrong_key (expected_key c)) reqs ->
  wp (send_all clk resp reqs) (fun _ c' m' =>
    security_level (uds c') = security_level (uds c) /\
    security_locked (uds c') = (Z.of_nat (length reqs) =? security_attempt_limit (uh_config (uds c))) /\
    (security_locked (uds c') = true -> security_delay_timer (uds c') =
       mkTimer (system_ticks m) (security_delay_ms (uh_config (uds c))) true) /\
    primask m' = primask m) c m.
Proof.
  intros Hw Hs Hl H0 Hlim Hn Hwr. eapply wp_mono; [apply send_wrong_keys_wp; auto; lia|].
  intros _ c' m' (_ & Hlv & _ & Hl' & Hd & _ & Hp). split_and!; auto. rewrite Hl', H0, Z.add_0_l.
  destruct (Z.of_nat (length reqs) =? _) eqn:E; tests; [apply Z.leb_le|apply Z.leb_gt]; lia.
Qed.

(** Witness of [lockout_after_limit]: three wrong keys. *)
Definition fresh_uds : UdsCtx := example_uds <| uds ::= fun u => u <| security_attempt_count := 0 |> |>.
Lemma lockout_after_limit_witness :
  wp (send_all 0 blank_response (replicate 3 (key_request 2 [1; 2; 3; 4]))) (fun _ c' m' =>
    security_level (uds c') = 0 /\ security_locked (uds c') = (3 =? 3) /\
    (security_locked (uds c') = true -> security_delay_timer (uds c') = mkTimer 0 10000 true) /\
    primask m' = false) fresh_uds boot.
Proof.
  apply (lockout_after_limit 0 blank_response (replicate 3 (key_request 2 [1; 2; 3; 4])) fresh_uds boot).
  - exact example_uds_wf.
  - simpl. unfold UDS_SESSION_EXTENDED_DIAGNOSTIC. lia.
  - reflexivity.
  - reflexivity.
  - simpl. lia.
  - simpl. lia.
  - repeat constructor; try (vm_compute; congruence);
      (eexists; split; [reflexivity|]; split; [apply Nat.leb_le; reflexivity|vm_compute; congruence]).
Defined.

(**  The seed/key exchange completes: in any non-default session outside a
    lockout, a seed request is answered with four seed bytes, and the key
    computed from exactly those bytes with [calculate_key], sent with the next
    (even) sub-function, unlocks the requested level. *)
Theorem seed_key_roundtrip clk ent resp1 resp2 sub c m :
  uds_wf c -> 2 <= current_session (uds c) -> locked_out c m = false -> is_u32 ent ->
  0 < sub < 255 -> Z.land sub 1 = 1 -> Z.land (sub + 1) 1 = 0 ->
  wp (r ← UDS_Handler_ProcessRequest clk ent
            (Some (mkUdsMessage UDS_SID_SECURITY_ACCESS sub None 2)) (Some resp1);
      match r with
      | (_, Some (mkUdsMessage _ _ (Some seed) _)) =>
        UDS_Handler_ProcessRequest clk 0
          (Some (key_request (sub + 1) (le32 (calculate_key (of_le seed))))) (Some resp2)
      | _ => fault
      end) (fun r c' m' =>
    r.1 = UDS_RESPONSE_POSITIVE /\ security_level (uds c') = sub /\
    security_locked (uds c') = false /\ security_attempt_count (uds c') = 0) c m.
Proof.
  intros Hw Hs Hlo Hent Hsub Hodd Heven.
  assert (Hseed : is_u32 (Z.lxor ent 0xA5A5A5A5)) by (apply lxor_u32; [done|unfold is_u32; lia]).
  apply wp_bind, security_access_wp; auto; [simpl; lia|]. intros t tc. simpl. rewrite Hodd. simpl.
  apply wp_bind, wp_timer_init. intros tr. wp_steps. split_and!; [done..|].
  apply security_access_wp; try done. intros t' tc'. simpl. rewrite Heven. simpl.
  eapply (verify_key_wp _ _ ([0; 0] ++ le32 (calculate_key (of_le (le32 (Z.lxor ent 0xA5A5A5A5))))));
    [done|simpl; lia|done| |].
  - intros _ _ tr'. split_and!; try done. simpl. replace (sub + 1 - 1) with sub by lia.
    apply u8_small. unfold is_u8. lia.
  - intros _ Hk. exfalso. apply Hk. unfold key_of.
    change (take 4 (drop 2 ([0; 0] ++ le32 ?x))) with (le32 x).
    rewrite le32_roundtrip by apply calculate_key_u32. by rewrite le32_roundtrip.
Qed.

(** Witness of [seed_key_roundtrip]. *)
Lemma seed_key_roundtrip_witness :
  wp (r ← UDS_Handler_ProcessRequest 0 0xDEADBEEF
            (Some (mkUdsMessage UDS_SID_SECURITY_ACCESS 1 None 2)) (Some blank_response);
      match r with
      | (_, Some (mkUdsMessage _ _ (Some seed) _)) =>
        UDS_Handler_ProcessRequest 0 0
          (Some (key_request (1 + 1) (le32 (calculate_key (of_le seed))))) (Some blank_response)
      | _ => fault
      end) (fun r c' m' =>
    r.1 = UDS_RESPONSE_POSITIVE /\ security_level (uds c') = 1 /\
    security_locked (uds c') = false /\ security_attempt_count (uds c') = 0) example_uds boot.
Proof.
  apply (seed_key_roundtrip 0 0xDEADBEEF blank_response blank_response 1 example_uds boot).
  - exact example_uds_wf.
  - simpl. unfold UDS_SESSION_EXTENDED_DIAGNOSTIC. lia.
  - reflexivity.
  - unfold is_u32. lia.
  - lia.
  - reflexivity.
  - reflexivity.
Defined.

(**  The key is bound neither to a seed request nor to the level it was
    requested for: whatever [expected_key] holds (0 after power-on, the last
    one forever after), a request carrying it unlocks the level of its own
    sub-function, and the key stays valid for the next request. *)
Theorem key_accepted_for_any_level clk ent req resp d c m :
  uds_wf c -> 2 <= current_session (uds c) -> locked_out c m = false ->
  service_id req = UDS_SID_SECURITY_ACCESS -> Z.land (sub_function req) 1 ≠ 1 ->
  msg_length req = 6 -> msg_data req = Some d -> (6 <= length d)%nat -> key_of d = expected_key c ->
  wp (UDS_Handler_ProcessRequest clk ent (Some req) (Some resp)) (fun r c' m' =>
    r.1 = UDS_RESPONSE_POSITIVE /\ security_level (uds c') = u8 (sub_function req - 1) /\
    expected_key c' = expected_key c) c m.
Proof.
  intros Hw Hs Hlo Hsid Hev Hlen Hd Hdl Hk. apply security_access_wp; auto; [lia|].
  intros t tc. rewrite (proj2 (Z.eqb_neq _ _) Hev).
  eapply (verify_key_wp _ _ d); [done|done|done| |by intros].
  intros _ _ tr. by split_and!.
Qed.

(** Witness of [key_accepted_for_any_level]: level 253 from power-on, without
    any seed, with the key 0. *)
Definition poweron_uds : UdsCtx := mkUdsCtx (uds example_uds) 0 0.
Lemma key_accepted_for_any_level_witness :
  wp (UDS_Handler_ProcessRequest 0 0 (Some (key_request 254 [0; 0; 0; 0])) (Some blank_response))
    (fun r c' m' => r.1 = UDS_RESPONSE_POSITIVE /\ security_level (uds c') = u8 (254 - 1) /\
      expected_key c' = expected_key poweron_uds) poweron_uds boot.
Proof.
  refine (key_accepted_for_any_level 0 0 (key_request 254 [0; 0; 0; 0]) blank_response
    [0; 0; 0; 0; 0; 0] poweron_uds boot example_uds_wf _ eq_refl eq_refl _ eq_refl eq_refl _ eq_refl).
  - simpl. unfold UDS_SESSION_EXTENDED_DIAGNOSTIC. lia.
  - vm_compute. congruence.
  - simpl. lia.
Defined.

(**  A session control request for a session in range always succeeds,
    enters that session and resets the security level, and also the lockout
    and the attempt counter: a lockout ends with the next session request. *)
Theorem session_control_lifts_lockout clk ent req resp c m :
  uds_wf c -> service_id req = UDS_SID_DIAGNOSTIC_SESSION_CONTROL -> msg_length req = 2 ->
  1 <= sub_function req <= 4 ->
  wp (UDS_Handler_ProcessRequest clk ent (Some req) (Some resp)) (fun r c' m' =>
    r = (UDS_RESPONSE_POSITIVE, Some (mkUdsMessage (UDS_SID_DIAGNOSTIC_SESSION_CONTROL + 0x40)
           (sub_function req) (msg_data resp) 2)) /\
    current_session (uds c') = sub_function req /\ security_level (uds c') = 0 /\
    security_locked (uds c') = false /\ security_attempt_count (uds c') = 0 /\
    primask m' = primask m) c m.
Proof.
  intros Hw Hsid Hlen Hsub. apply process_request_wp; [done|]. intros c0 tc [t ->].
  assert (Hacc : access (service_id req) (current_session (uds c)) = true).
  { rewrite Hsid. destruct Hw as [_ Hr]. unfold access. simpl.
    destruct (current_session (uds c)) as [|p|p]; try lia.
    destruct p as [[p|p|]|[p|p|]|]; try lia; try reflexivity; destruct p; try lia; reflexivity. }
  rewrite Hacc. unfold dispatch. cbv zeta. rewrite Hsid, Z.eqb_refl. cbv iota.
  unfold process_diagnostic_session_control. rewrite Hlen. cbv zeta.
  rewrite (proj2 (Z.ltb_ge _ _)), (proj2 (Z.ltb_ge _ _))
    by (unfold UDS_SESSION_DEFAULT, UDS_SESSION_SAFETY_SYSTEM; lia).
  unfold on_uds. wp_steps; try done. rewrite Hsid. by split_and!.
Qed.

(** Witness of [session_control_lifts_lockout]. *)
Lemma session_control_lifts_lockout_witness :
  wp (UDS_Handler_ProcessRequest 0 0
        (Some (mkUdsMessage UDS_SID_DIAGNOSTIC_SESSION_CONTROL 3 None 2)) (Some blank_response))
    (fun r c' m' =>
      r = (UDS_RESPONSE_POSITIVE, Some (mkUdsMessage (UDS_SID_DIAGNOSTIC_SESSION_CONTROL + 0x40) 3
             (msg_data blank_response) 2)) /\
      current_session (uds c') = 3 /\ security_level (uds c') = 0 /\
      security_locked (uds c') = false /\ security_attempt_count (uds c') = 0 /\
      primask m' = false) locked_uds boot.
Proof.
  apply (session_control_lifts_lockout 0 0
    (mkUdsMessage UDS_SID_DIAGNOSTIC_SESSION_CONTROL 3 None 2) blank_response locked_uds boot
    example_uds_wf eq_refl eq_refl).
  simpl. lia.
Defined.

(**  [UDS_Handler_SendResponse] formats the service, the sub-function and
    [length - 2] data bytes; with enough data behind the pointer it is defined
    exactly when [length] is at most 256, beyond which it writes past its
    256-byte stack buffer. *)
Theorem send_response_bounds resp d c m :
  uh_initialized (uds c) = true -> msg_data resp = Some d -> 2 < msg_length resp ->
  msg_length resp - 2 <= Z.of_nat (length d) ->
  UDS_Handler_SendResponse (Some resp) c m =
    if msg_length resp <=? 256
    then Some (Some (u8 (service_id resp) :: sub_function resp ::
                     take (Z.to_nat (msg_length resp - 2)) d), c, m)
    else None.
Proof.
  intros Hi Hd H2 Hl. unfold UDS_Handler_SendResponse, mbind, M_bind, get. rewrite Hi, Hd. simpl.
  rewrite (proj2 (Z.ltb_lt 1 _)), (proj2 (Z.ltb_lt 2 _)) by lia.
  rewrite (proj2 (Nat.ltb_ge _ _)) by lia. simpl.
  destruct (msg_length resp <=? 256) eqn:E; tests.
  - by rewrite (proj2 (Nat.ltb_ge _ _)) by lia.
  - by rewrite (proj2 (Nat.ltb_lt _ _)) by lia.
Qed.

(** Witness of [send_response_bounds]. *)
Lemma send_response_bounds_witness :
  UDS_Handler_SendResponse (Some (mkUdsMessage 0x67 1 (Some [10; 20; 30; 40]) 6)) example_uds boot =
    Some (Some [0x67; 1; 10; 20; 30; 40], example_uds, boot).
Proof.
  apply (send_response_bounds (mkUdsMessage 0x67 1 (Some [10; 20; 30; 40]) 6) [10; 20; 30; 40]
    example_uds boot); try reflexivity; simpl; lia.
Defined.
