(* ===== verification/SecurityState.v ===== *)
(** * Security state machine of one access level

    [src/runtime/diagnostic/security_state.c]: seed, key, attempts and the
    delay after too many wrong keys.  [get_timestamp] returns the
    [start_time] of a local [Timer] that nothing initialises; each value it
    returns is an argument ([ts]) of the operation that asks for it.  The
    context is the object behind the caller's pointer, [None] for NULL. *)

From S2P Require Import Prelude Machine.

Definition SECURITY_DELAY_MS : Z := 10000.
Definition MAX_ATTEMPTS : Z := 3.
Definition SEED_KEY_MAGIC : Z := 0x5C731A9B.

Inductive SecurityState :=
  SECURITY_STATE_LOCKED | SECURITY_STATE_SEED_SENT | SECURITY_STATE_UNLOCKED |
  SECURITY_STATE_DELAY_ACTIVE.
#[export] Instance SecurityState_eq_dec : EqDecision SecurityState.
Proof. solve_decision. Defined.

Record SecurityStateContext := mkSecurity {
  level : Z; state : SecurityState; timestamp : Z; seed : Z; attempts : Z; delay_end : Z }.
#[export] Instance eta_SecurityStateContext : Eta SecurityStateContext := fun c =>
  mkSecurity (level c) (state c) (timestamp c) (seed c) (attempts c) (delay_end c).

Definition Ctx := option SecurityStateContext.

(** Overwrite fields of the object behind the pointer. *)
Definition set_ctx (f : SecurityStateContext -> SecurityStateContext) : M Ctx unit :=
  modify (fmap f).

Section security.
Context (SystemCoreClock : Z).

Definition get_timestamp (ts : Z) : M Ctx Z := timer_init_m SystemCoreClock;; mret ts.

Definition calculate_key (seed : Z) : Z :=
  let key := seed in
  let key := Z.lxor key SEED_KEY_MAGIC in
  let key := u32 (Z.lor (u32 (Z.shiftl key 13)) (Z.shiftr key 19) + 0x4D34F521) in
  let key := Z.lxor key (Z.shiftr key 7) in
  let key := u32 (key + u32 (Z.shiftl key 11)) in
  let key := Z.lxor key (Z.shiftr key 5) in
  key.

Definition Security_State_Init (ts lvl : Z) : M Ctx bool :=
  c ← get;
  match c with
  | None => mret false
  | Some ctx =>
    set_ctx (fun ctx => ctx <| level := lvl |> <| state := SECURITY_STATE_LOCKED |>);;
    t ← get_timestamp ts;
    set_ctx (fun ctx => ctx <| timestamp := t |> <| seed := 0 |> <| attempts := 0 |>
                            <| delay_end := 0 |>);;
    mret true
  end.

(** [ts1] is the time compared with the end of the delay, [ts2] the one the
    seed is made of; the seed written through the caller's pointer is
    returned. *)
Definition Security_State_RequestSeed (ts1 ts2 : Z) (out : bool) : M Ctx (option Z) :=
  c ← get;
  match c with
  | None => mret None
  | Some ctx =>
    if negb out then mret None else
    delayed ← (if decide (state ctx = SECURITY_STATE_DELAY_ACTIVE) then
                 t ← get_timestamp ts1;
                 if t <? delay_end ctx then mret true else
                 set_ctx (fun ctx => ctx <| state := SECURITY_STATE_LOCKED |>);; mret false
               else mret false);
    if (delayed : bool) then mret None else
    c ← get;
    if decide (state <$> c = Some SECURITY_STATE_LOCKED) then
      t ← get_timestamp ts2;
      set_ctx (fun ctx => ctx <| timestamp := t |>
        <| seed := Z.lxor t (u32 (SEED_KEY_MAGIC + level ctx)) |>);;
      c ← get;
      set_ctx (fun ctx => ctx <| state := SECURITY_STATE_SEED_SENT |>);;
      mret (seed <$> c)
    else mret None
  end.

Definition Security_State_ValidateKey (ts key : Z) : M Ctx bool :=
  c ← get;
  match c with
  | None => mret false
  | Some ctx =>
    if decide (state ctx = SECURITY_STATE_SEED_SENT) then
      if key =? calculate_key (seed ctx) then
        set_ctx (fun ctx => ctx <| state := SECURITY_STATE_UNLOCKED |> <| attempts := 0 |>);;
        mret true
      else
        set_ctx (fun ctx => ctx <| attempts ::= fun n => u32 (n + 1) |>);;
        (if MAX_ATTEMPTS <=? u32 (attempts ctx + 1) then
           set_ctx (fun ctx => ctx <| state := SECURITY_STATE_DELAY_ACTIVE |>);;
           t ← get_timestamp ts;
           set_ctx (fun ctx => ctx <| delay_end := u32 (t + SECURITY_DELAY_MS) |> <| attempts := 0 |>)
         else set_ctx (fun ctx => ctx <| state := SECURITY_STATE_LOCKED |>));;
        mret false
    else mret false
  end.

Definition Security_State_Lock : M Ctx bool :=
  c ← get;
  match c with
  | None => mret false
  | Some _ =>
    set_ctx (fun ctx => ctx <| state := SECURITY_STATE_LOCKED |> <| attempts := 0 |> <| seed := 0 |>);;
    mret true
  end.

Definition Security_State_ProcessTimeout (ts : Z) : M Ctx bool :=
  c ← get;
  match c with
  | None => mret false
  | Some ctx =>
    if decide (state ctx = SECURITY_STATE_DELAY_ACTIVE) then
      t ← get_timestamp ts;
      if delay_end ctx <=? t then
        set_ctx (fun ctx => ctx <| state := SECURITY_STATE_LOCKED |>);; mret true
      else mret false
    else mret false
  end.

Definition Security_State_GetState : M Ctx SecurityState :=
  c ← get; mret (default SECURITY_STATE_LOCKED (state <$> c)).
End security.

(** ** The machine as a transition system *)

Inductive SecOp :=
| OpInit (ts lvl : Z) | OpSeed (ts1 ts2 : Z) | OpKey (ts key : Z) | OpLock | OpTimeout (ts : Z).

Definition sec_exec (clk : Z) (op : SecOp) : M Ctx unit :=
  match op with
  | OpInit ts l => _ ← Security_State_Init clk ts l; mret tt
  | OpSeed ts1 ts2 => _ ← Security_State_RequestSeed clk ts1 ts2 true; mret tt
  | OpKey ts key => _ ← Security_State_ValidateKey clk ts key; mret tt
  | OpLock => _ ← Security_State_Lock; mret tt
  | OpTimeout ts => _ ← Security_State_ProcessTimeout clk ts; mret tt
  end.

(** What one operation does to the context. *)
Definition sec_next (op : SecOp) (c : SecurityStateContext) : SecurityStateContext :=
  match op with
  | OpInit ts l => mkSecurity l SECURITY_STATE_LOCKED ts 0 0 0
  | OpSeed ts1 ts2 =>
    let blocked := bool_decide (state c = SECURITY_STATE_DELAY_ACTIVE) && (ts1 <? delay_end c) in
    if blocked then c else
    match state c with
    | SECURITY_STATE_LOCKED | SECURITY_STATE_DELAY_ACTIVE =>
      mkSecurity (level c) SECURITY_STATE_SEED_SENT ts2
        (Z.lxor ts2 (u32 (SEED_KEY_MAGIC + level c))) (attempts c) (delay_end c)
    | _ => c
    end
  | OpKey ts key =>
    match state c with
    | SECURITY_STATE_SEED_SENT =>
      if key =? calculate_key (seed c)
      then c <| state := SECURITY_STATE_UNLOCKED |> <| attempts := 0 |>
      else if MAX_ATTEMPTS <=? u32 (attempts c + 1)
      then c <| state := SECURITY_STATE_DELAY_ACTIVE |> <| attempts := 0 |>
             <| delay_end := u32 (ts + SECURITY_DELAY_MS) |>
      else c <| state := SECURITY_STATE_LOCKED |> <| attempts := u32 (attempts c + 1) |>
    | _ => c
    end
  | OpLock => c <| state := SECURITY_STATE_LOCKED |> <| attempts := 0 |> <| seed := 0 |>
  | OpTimeout ts =>
    if bool_decide (state c = SECURITY_STATE_DELAY_ACTIVE) && (delay_end c <=? ts)
    then c <| state := SECURITY_STATE_LOCKED |> else c
  end.

(** The code implements the transition function; NULL is left alone. *)
Lemma sec_exec_next clk op c m :
  wp (sec_exec clk op) (fun _ c' m' => c' = Some (sec_next op c) /\ primask m' = primask m) (Some c) m.
Proof.
  destruct op as [ts l|ts1 ts2|ts key| |ts], c as [l0 st t s a de]; destruct m as [pm tk fr tc ti tr];
    unfold sec_exec, Security_State_Init, Security_State_RequestSeed, Security_State_ValidateKey,
      Security_State_Lock, Security_State_ProcessTimeout, get_timestamp, set_ctx.
  - repeat first [apply wp_timer_init; intros ?; simpl | wp_step]. done.
  - destruct st; repeat first [apply wp_timer_init; intros ?; simpl | progress case_decide; simpl | wp_step];
      try done; tests; simpl; try done; rewrite ?bool_decide_true by done; simpl;
      rewrite ?(proj2 (Z.ltb_lt _ _)), ?(proj2 (Z.ltb_ge _ _)) by lia; done.
  - destruct st; simpl; repeat first [apply wp_timer_init; intros ?; simpl | progress case_decide; simpl | wp_step];
      try done; simpl in *; try (by rewrite Heqb); rewrite ?Heqb, ?Heqb0; done.
  - repeat wp_step. done.
  - destruct st; simpl; repeat first [apply wp_timer_init; intros ?; simpl | progress case_decide; simpl | wp_step];
      try done; simpl; rewrite ?bool_decide_true by done; simpl; rewrite ?Heqb; done.
Qed.

Fixpoint sec_run (clk : Z) (ops : list SecOp) : M Ctx unit :=
  match ops with [] => mret tt | op :: ops => sec_exec clk op;; sec_run clk ops end.

Lemma sec_run_next clk ops c m :
  wp (sec_run clk ops) (fun _ c' m' =>
    c' = Some (foldl (fun c op => sec_next op c) c ops) /\ primask m' = primask m) (Some c) m.
Proof.
  revert c m. induction ops as [|op ops IH]; intros c m; simpl; [done|].
  apply wp_bind. eapply wp_mono; [apply sec_exec_next|]. intros _ c' m' [-> Hp].
  eapply wp_mono; [apply IH|]. intros _ ? ? [-> ?]. by rewrite <- Hp.
Qed.

(** ** Bit-level facts about the key *)

Lemma u32_testbit x i : 0 <= i < 32 -> Z.testbit (u32 x) i = Z.testbit x i.
Proof. intros Hi. unfold u32. apply Z.mod_pow2_bits_low. lia. Qed.
Lemma is_u32_testbit x i : is_u32 x -> 32 <= i -> Z.testbit x i = false.
Proof.
  intros Hx Hi. rewrite <- (u32_small x Hx). unfold u32. apply Z.mod_pow2_bits_high. lia.
Qed.
Lemma u32_bits_inj x y :
  is_u32 x -> is_u32 y -> (forall i, 0 <= i < 32 -> Z.testbit x i = Z.testbit y i) -> x = y.
Proof.
  intros Hx Hy H. apply Z.bits_inj_iff'. intros i Hi.
  destruct (decide (i < 32)); [apply H; lia|]. rewrite !is_u32_testbit by (done || lia). done.
Qed.

(** [x ^= x >> k] loses nothing. *)
Lemma xorshift_inj k x y :
  0 < k -> is_u32 x -> is_u32 y ->
  Z.lxor x (Z.shiftr x k) = Z.lxor y (Z.shiftr y k) -> x = y.
Proof.
  intros Hk Hx Hy H. apply u32_bits_inj; [done..|].
  enough (forall n i, 32 <= i + Z.of_nat n -> 0 <= i -> Z.testbit x i = Z.testbit y i) as Hn
    by (intros i Hi; apply (Hn 32%nat); lia).
  intros n. induction n as [|n IH]; intros i Hi H0.
  - rewrite !is_u32_testbit by (done || lia). done.
  - assert (Hb : Z.testbit (Z.lxor x (Z.shiftr x k)) i = Z.testbit (Z.lxor y (Z.shiftr y k)) i)
      by (by rewrite H).
    rewrite !Z.lxor_spec, !Z.shiftr_spec, (IH (i + k)) in Hb by lia.
    by destruct (Z.testbit x i), (Z.testbit y i), (Z.testbit y (i + k)).
Qed.

(** The rotation by 13. *)
Lemma rotl13_inj x y :
  is_u32 x -> is_u32 y ->
  Z.lor (u32 (Z.shiftl x 13)) (Z.shiftr x 19) = Z.lor (u32 (Z.shiftl y 13)) (Z.shiftr y 19) -> x = y.
Proof.
  intros Hx Hy H. apply u32_bits_inj; [done..|]. intros i Hi.
  assert (Hrot : forall z, is_u32 z -> Z.testbit z i =
    Z.testbit (Z.lor (u32 (Z.shiftl z 13)) (Z.shiftr z 19)) (if decide (i < 19) then i + 13 else i - 19)).
  { intros z Hz. rewrite Z.lor_spec, Z.shiftr_spec by (case_decide; lia). case_decide.
    - rewrite u32_testbit, Z.shiftl_spec by lia. replace (i + 13 - 13) with i by lia.
      rewrite (is_u32_testbit z (i + 13 + 19)) by (done || lia). by rewrite orb_false_r.
    - rewrite u32_testbit, Z.shiftl_spec_low by lia. simpl. f_equal. lia. }
  rewrite (Hrot x Hx), (Hrot y Hy). by rewrite H.
Qed.

(** Adding a constant, and [x += x << 11]. *)
Lemma u32_eq_sub a b : u32 a = u32 b -> (a - b) mod 2 ^ 32 = 0.
Proof. unfold u32. intros H. by rewrite Zminus_mod, H, Z.sub_diag. Qed.
Lemma u32_inj_of_multiple x y z : is_u32 x -> is_u32 y -> x - y = 2 ^ 32 * z -> x = y.
Proof. unfold is_u32. intros. destruct (decide (z = 0)); [lia|]. nia. Qed.
Lemma add_const_inj k x y : is_u32 x -> is_u32 y -> u32 (x + k) = u32 (y + k) -> x = y.
Proof.
  intros Hx Hy H%u32_eq_sub. apply Z.mod_divide in H as [z Hz]; [|lia].
  apply (u32_inj_of_multiple x y z); [done..|lia].
Qed.
Lemma mul2049_inj x y :
  is_u32 x -> is_u32 y ->
  u32 (x + u32 (Z.shiftl x 11)) = u32 (y + u32 (Z.shiftl y 11)) -> x = y.
Proof.
  intros Hx Hy. unfold u32. rewrite !Zplus_mod_idemp_r, !Z.shiftl_mul_pow2 by lia. intros H.
  apply u32_eq_sub, Z.mod_divide in H as [z Hz]; [|lia].
  assert (Hd : (2 ^ 32 | x - y)).
  { apply (Z.gauss _ 2049); [exists z; lia|]. apply Z.bezout_1_gcd. exists (-2), 4192257.
    vm_compute. reflexivity. }
  destruct Hd as [w Hw]. apply (u32_inj_of_multiple x y w); [done..|lia].
Qed.

Lemma shiftr_u32 x k : is_u32 x -> 0 <= k -> is_u32 (Z.shiftr x k).
Proof.
  unfold is_u32. intros Hx Hk. rewrite Z.shiftr_div_pow2 by done.
  assert (0 < 2 ^ k) by (apply Z.pow_pos_nonneg; lia). split; [apply Z.div_pos; lia|].
  apply Z.div_lt_upper_bound; nia.
Qed.
Lemma rotl13_u32 x : is_u32 x -> is_u32 (Z.lor (u32 (Z.shiftl x 13)) (Z.shiftr x 19)).
Proof.
  intros Hx. assert (Ha := u32_range (Z.shiftl x 13)). assert (Hb := shiftr_u32 x 19 Hx ltac:(lia)).
  unfold is_u32 in *. split; [apply Z.lor_nonneg; lia|].
  destruct (decide (Z.lor (u32 (Z.shiftl x 13)) (Z.shiftr x 19) = 0)) as [->|Hne]; [lia|].
  assert (0 <= Z.lor (u32 (Z.shiftl x 13)) (Z.shiftr x 19)) by (apply Z.lor_nonneg; lia).
  apply Z.log2_lt_pow2; [lia|]. rewrite Z.log2_lor by lia.
  apply Z.max_lub_lt; (eapply Z.le_lt_trans; [apply Z.log2_le_mono, Z.lt_le_pred; apply Ha || apply Hb|]);
    vm_compute; reflexivity.
Qed.

(** ** Properties *)

(**  [calculate_key] is injective on 32-bit seeds: the xor, rotation,
    addition and xor-shift steps lose no information, so every seed has a key
    that no other seed has. *)
Theorem seed_key_injective s1 s2 :
  is_u32 s1 -> is_u32 s2 -> calculate_key s1 = calculate_key s2 -> s1 = s2.
Proof.
  intros H1 H2 H. assert (Hm : is_u32 SEED_KEY_MAGIC) by (unfold is_u32, SEED_KEY_MAGIC; lia).
  assert (Hx1 := lxor_u32 _ _ H1 Hm). assert (Hx2 := lxor_u32 _ _ H2 Hm). unfold calculate_key in H.
  assert (Hxs : forall k z, is_u32 z -> 0 <= k -> is_u32 (Z.lxor z (Z.shiftr z k)))
    by (intros; apply lxor_u32; auto using shiftr_u32).
  apply (xorshift_inj 5), mul2049_inj, (xorshift_inj 7), add_const_inj, rotl13_inj in H;
    auto using rotl13_u32, u32_range with lia.
  rewrite <- (Z.lxor_0_r s1), <- (Z.lxor_0_r s2), <- (Z.lxor_nilpotent SEED_KEY_MAGIC), <- !Z.lxor_assoc.
  by rewrite H.
Qed.

(** Witness of [seed_key_injective]. *)
Lemma seed_key_injective_witness : calculate_key 1 = calculate_key 1 /\ 1 = 1.
Proof.
  split; [reflexivity|].
  exact (seed_key_injective 1 1 ltac:(unfold is_u32; lia) ltac:(unfold is_u32; lia) eq_refl).
Defined.

(** The operations a tester can trigger, before time [t]. *)
Definition before (t : Z) (op : SecOp) : Prop :=
  match op with
  | OpSeed ts1 _ => ts1 < t
  | OpKey _ _ => True
  | OpTimeout ts => ts < t
  | OpInit _ _ | OpLock => False
  end.

(** A seed request answered by a wrong key. *)
Lemma strike lvl t key ts sd n de :
  key ≠ calculate_key (Z.lxor t (u32 (SEED_KEY_MAGIC + lvl))) ->
  sec_next (OpKey t key) (sec_next (OpSeed t t) (mkSecurity lvl SECURITY_STATE_LOCKED ts sd n de)) =
  if MAX_ATTEMPTS <=? u32 (n + 1)
  then mkSecurity lvl SECURITY_STATE_DELAY_ACTIVE t (Z.lxor t (u32 (SEED_KEY_MAGIC + lvl))) 0
         (u32 (t + SECURITY_DELAY_MS))
  else mkSecurity lvl SECURITY_STATE_LOCKED t (Z.lxor t (u32 (SEED_KEY_MAGIC + lvl))) (u32 (n + 1)) de.
Proof.
  intros Hk%Z.eqb_neq. unfold sec_next. cbn [state seed level attempts].
  rewrite bool_decide_false by done. cbn [andb state seed level attempts]. by rewrite Hk.
Qed.

(**  Three wrong keys start the delay, and it is enforced: whatever seed,
    key and timeout operations follow before [delay_end], the level stays in
    the delay state and nothing in the context changes.  (The end of the delay
    must not wrap around the 32-bit clock.) *)
Theorem three_wrong_keys_delay clk lvl t1 t2 t3 k1 k2 k3 ops c m :
  let s t := Z.lxor t (u32 (SEED_KEY_MAGIC + lvl)) in
  level c = lvl -> state c = SECURITY_STATE_LOCKED -> attempts c = 0 ->
  k1 ≠ calculate_key (s t1) -> k2 ≠ calculate_key (s t2) -> k3 ≠ calculate_key (s t3) ->
  0 <= t3 -> t3 + SECURITY_DELAY_MS < 2 ^ 32 ->
  Forall (before (t3 + SECURITY_DELAY_MS)) ops ->
  wp (sec_run clk ([OpSeed t1 t1; OpKey t1 k1; OpSeed t2 t2; OpKey t2 k2; OpSeed t3 t3; OpKey t3 k3] ++ ops))
    (fun _ c' m' =>
      c' = Some (mkSecurity lvl SECURITY_STATE_DELAY_ACTIVE t3 (s t3) 0 (t3 + SECURITY_DELAY_MS)) /\
      primask m' = primask m) (Some c) m.
Proof.
  intros s Hlv Hst Hat Hk1 Hk2 Hk3 Ht0 Ht Hops. eapply wp_mono; [apply sec_run_next|].
  intros _ c' m' [-> Hp]. split; [|done]. rewrite foldl_app.
  destruct c as [l st ts sd at_ de]. simpl in Hlv, Hst, Hat. subst l st at_. cbn [foldl].
  rewrite (strike lvl t1 k1) by done. change (MAX_ATTEMPTS <=? u32 (0 + 1)) with false. cbv iota.
  rewrite (strike lvl t2 k2) by done.
  change (MAX_ATTEMPTS <=? u32 (u32 (0 + 1) + 1)) with false. cbv iota.
  rewrite (strike lvl t3 k3) by done.
  change (MAX_ATTEMPTS <=? u32 (u32 (u32 (0 + 1) + 1) + 1)) with true. cbv iota.
  rewrite (u32_small (t3 + _)) by (unfold is_u32, SECURITY_DELAY_MS in *; lia).
  change (Z.lxor t3 _) with (s t3).
  f_equal. induction Hops as [|op ops Hop Hops IH]; [done|]. simpl.
  replace (sec_next op _) with
    (mkSecurity lvl SECURITY_STATE_DELAY_ACTIVE t3 (s t3) 0 (t3 + SECURITY_DELAY_MS)); [done|].
  destruct op; simpl in *; try done.
  - by rewrite (proj2 (Z.ltb_lt _ _)).
  - by rewrite (proj2 (Z.leb_gt _ _)).
Qed.

(** Witness of [three_wrong_keys_delay]: a seed request and the right key one
    tick before the end. *)
Lemma three_wrong_keys_delay_witness :
  wp (sec_run 0 ([OpSeed 5 5; OpKey 5 0; OpSeed 6 6; OpKey 6 0; OpSeed 7 7; OpKey 7 0] ++
       [OpSeed 10006 10006; OpTimeout 10006; OpKey 10006 (calculate_key 7)]))
    (fun _ c' m' =>
      c' = Some (mkSecurity 1 SECURITY_STATE_DELAY_ACTIVE 7
             (Z.lxor 7 (u32 (SEED_KEY_MAGIC + 1))) 0 (7 + SECURITY_DELAY_MS)) /\
      primask m' = false) (Some (mkSecurity 1 SECURITY_STATE_LOCKED 0 0 0 0)) boot.
Proof.
  apply (three_wrong_keys_delay 0 1 5 6 7 0 0 0 _ (mkSecurity 1 SECURITY_STATE_LOCKED 0 0 0 0) boot);
    try reflexivity; try (vm_compute; congruence).
  repeat constructor; simpl; unfold SECURITY_DELAY_MS; lia.
Defined.

(**  A level is unlocked only by the key of the seed it last handed out:
    an operation takes a level that is not unlocked to the unlocked state
    exactly when it is a key operation, made in the seed-sent state, with
    exactly that key; and a seed is answered by at most one key: right or
    wrong, the next one needs a new seed. *)
Theorem unlock_only_by_key clk op c c' m m' :
  state c ≠ SECURITY_STATE_UNLOCKED -> sec_exec clk op (Some c) m = Some (tt, Some c', m') ->
  (state c' = SECURITY_STATE_UNLOCKED <->
   exists ts key, op = OpKey ts key /\ state c = SECURITY_STATE_SEED_SENT /\
     key = calculate_key (seed c)) /\
  (forall ts key, op = OpKey ts key -> state c' ≠ SECURITY_STATE_SEED_SENT).
Proof.
  intros Hst He. assert (Hwp := sec_exec_next clk op c m). unfold wp in Hwp. rewrite He in Hwp.
  destruct Hwp as [[= ->] _].
  assert (Hno : forall c1, state c1 ≠ SECURITY_STATE_UNLOCKED -> (forall ts key, op ≠ OpKey ts key) ->
    (state c1 = SECURITY_STATE_UNLOCKED <->
     exists ts key, op = OpKey ts key /\ state c = SECURITY_STATE_SEED_SENT /\
       key = calculate_key (seed c)) /\
    (forall ts key, op = OpKey ts key -> state c1 ≠ SECURITY_STATE_SEED_SENT)).
  { intros c1 H1 H2. split; [split; [done|]|by intros ts key ?%H2]. intros (ts & key & ?%H2 & _). done. }
  destruct op as [ts l|ts1 ts2|ts key| |ts]; cbn [sec_next]; try (apply Hno; [|done]).
  - done.
  - destruct (_ && _); [done|]. by destruct (state c) eqn:E; simpl; rewrite ?E.
  - destruct (state c) eqn:Hs; try (split; [split; [congruence|by intros (?&?&_&?&_)]|congruence]).
    destruct (key =? calculate_key (seed c)) eqn:Hk; tests.
    + split; [|done]. split; [by eauto|done].
    + destruct (MAX_ATTEMPTS <=? _); (split; [|done]); (split; [done|]); intros (?&?&[= -> ->]&_&?); done.
  - done.
  - by destruct (_ && _).
Qed.

(** Witness of [unlock_only_by_key]. *)
Lemma unlock_only_by_key_witness :
  exists c' m', sec_exec 0 (OpKey 0 (calculate_key 9))
    (Some (mkSecurity 1 SECURITY_STATE_SEED_SENT 0 9 0 0)) boot = Some (tt, Some c', m') /\
  (state c' = SECURITY_STATE_UNLOCKED <->
   exists ts key, OpKey 0 (calculate_key 9) = OpKey ts key /\
     SECURITY_STATE_SEED_SENT = SECURITY_STATE_SEED_SENT /\ key = calculate_key 9).
Proof.
  eexists _, _. split; [vm_compute; reflexivity|].
  refine (proj1 (unlock_only_by_key 0 (OpKey 0 (calculate_key 9))
    (mkSecurity 1 SECURITY_STATE_SEED_SENT 0 9 0 0) _ boot _ _ _)); [done|vm_compute; reflexivity].
Defined.

(**  The deadline is compared as a plain 32-bit number.  When it wraps
    around the clock, the delay is over at once: a seed is handed out in the
    same tick the third wrong key was refused. *)
Theorem delay_lost_at_wraparound clk lvl t key a sd de m :
  is_u32 t -> 2 ^ 32 <= t + SECURITY_DELAY_MS -> a = 2 -> key ≠ calculate_key sd ->
  wp (sec_run clk [OpKey t key; OpSeed t t]) (fun _ c' _ =>
    state <$> c' = Some SECURITY_STATE_SEED_SENT)
    (Some (mkSecurity lvl SECURITY_STATE_SEED_SENT t sd a de)) m.
Proof.
  intros Ht Hw -> Hk. eapply wp_mono; [apply sec_run_next|]. intros _ c' m' [-> _]. simpl.
  rewrite (proj2 (Z.eqb_neq _ _)) by done. change (MAX_ATTEMPTS <=? u32 (2 + 1)) with true. simpl.
  assert (Hu : u32 (t + SECURITY_DELAY_MS) = t + SECURITY_DELAY_MS - 2 ^ 32).
  { unfold u32, is_u32, SECURITY_DELAY_MS in *. symmetry. apply Z.mod_unique with 1; lia. }
  rewrite Hu. rewrite (proj2 (Z.ltb_ge _ _)) by (unfold is_u32, SECURITY_DELAY_MS in *; lia). done.
Qed.

(** Witness of [delay_lost_at_wraparound]. *)
Lemma delay_lost_at_wraparound_witness :
  wp (sec_run 0 [OpKey (2 ^ 32 - 1) 0; OpSeed (2 ^ 32 - 1) (2 ^ 32 - 1)]) (fun _ c' _ =>
    state <$> c' = Some SECURITY_STATE_SEED_SENT)
    (Some (mkSecurity 1 SECURITY_STATE_SEED_SENT (2 ^ 32 - 1) 5 2 0)) boot.
Proof.
  apply (delay_lost_at_wraparound 0 1 (2 ^ 32 - 1) 0 2 5 0 boot); try reflexivity.
  - unfold is_u32. lia.
  - vm_compute. congruence.
  - vm_compute. congruence.
Defined.
