(* ===== verification/DiagParser.v ===== *)
(** * Diagnostic message parser

    [src/runtime/diagnostic/diag_parser.c]: the frame
    [version | length | service | data .. | checksum], its parser and its
    formatter.  The two preprocessor switches are arguments; the allocator
    ([MEMORY_ALLOC]) is a predicate on the requested size and the timestamp is
    an argument.  [None] is an access outside a buffer.  Log output is left
    out. *)

From S2P Require Import Prelude.

Definition FORMAT_VERSION : Z := 0x01.
Definition MIN_MESSAGE_LENGTH : Z := 4.
Definition MAX_MESSAGE_LENGTH : Z := 4095.
Definition HEADER_SIZE : Z := 3.
Definition CHECKSUM_SIZE : Z := 1.
Definition MSG_TYPE_CUSTOM_START : Z := 0xF0.
Definition MSG_TYPE_DEBUG : Z := 0xFD.

Definition DIAG_SID_DIAGNOSTIC_CONTROL : Z := 0x10.
Definition DIAG_SID_ECU_RESET : Z := 0x11.
Definition DIAG_SID_SECURITY_ACCESS : Z := 0x27.
Definition DIAG_SID_READ_DATA_BY_ID : Z := 0x22.
Definition DIAG_SID_WRITE_DATA_BY_ID : Z := 0x2E.
Definition DIAG_RESP_POSITIVE : Z := 0x40.

Inductive DiagParserResult :=
  PARSER_RESULT_OK | PARSER_RESULT_INVALID_FORMAT | PARSER_RESULT_INVALID_LENGTH
| PARSER_RESULT_INVALID_SERVICE | PARSER_RESULT_INVALID_SUBFUNC | PARSER_RESULT_ERROR.
#[export] Instance DiagParserResult_eq_dec : EqDecision DiagParserResult.
Proof. solve_decision. Defined.

Record DiagMessage := mkDiagMessage {
  msg_id : Z; service_id : Z; sub_function : Z; msg_data : option (list Z); msg_length : Z;
  msg_timestamp : Z; msg_session : Z; msg_security : Z }.
#[export] Instance eta_DiagMessage : Eta DiagMessage := fun m =>
  mkDiagMessage (msg_id m) (service_id m) (sub_function m) (msg_data m) (msg_length m)
    (msg_timestamp m) (msg_session m) (msg_security m).
Definition message_zero : DiagMessage := mkDiagMessage 0 0 0 None 0 0 0 0.

Record DiagResponse := mkDiagResponse {
  resp_id : Z; resp_service_id : Z; resp_code : Z; resp_data : option (list Z); resp_length : Z;
  resp_timestamp : Z; success : bool }.
#[export] Instance eta_DiagResponse : Eta DiagResponse := fun r =>
  mkDiagResponse (resp_id r) (resp_service_id r) (resp_code r) (resp_data r) (resp_length r)
    (resp_timestamp r) (success r).
Definition response_zero : DiagResponse := mkDiagResponse 0 0 0 None 0 0 false.

Record ServiceEntry := mkServiceEntry { svc_id : Z; min_length : Z; has_subfunc : bool; svc_name : string }.
(** Up to the entry whose name is NULL. *)
Definition service_table : list ServiceEntry := [
  mkServiceEntry DIAG_SID_DIAGNOSTIC_CONTROL 2 true "DiagnosticControl";
  mkServiceEntry DIAG_SID_ECU_RESET 2 true "ECUReset";
  mkServiceEntry DIAG_SID_SECURITY_ACCESS 2 true "SecurityAccess";
  mkServiceEntry DIAG_SID_READ_DATA_BY_ID 3 false "ReadDataById";
  mkServiceEntry DIAG_SID_WRITE_DATA_BY_ID 4 false "WriteDataById";
  mkServiceEntry MSG_TYPE_DEBUG 2 false "DebugMessage" ].

Definition parser_error_msgs : list string :=
  ["OK"; "Invalid message format"; "Invalid message length"; "Unsupported service ID";
   "Unsupported sub-function"; "Internal parser error"]%string.
Definition result_value (r : DiagParserResult) : nat :=
  match r with
  | PARSER_RESULT_OK => 0 | PARSER_RESULT_INVALID_FORMAT => 1 | PARSER_RESULT_INVALID_LENGTH => 2
  | PARSER_RESULT_INVALID_SERVICE => 3 | PARSER_RESULT_INVALID_SUBFUNC => 4 | PARSER_RESULT_ERROR => 5
  end.
Definition DiagParser_GetResultString (result : nat) : string :=
  match parser_error_msgs !! result with Some s => s | None => "Unknown error" end.

(** [data[i]] *)
Definition at_ (data : list Z) (i : Z) : option Z :=
  if (0 <=? i) && (i <? Z.of_nat (length data)) then data !! Z.to_nat i else None.
(** The [n] bytes from [&data[off]] on. *)
Definition bytes_at (data : list Z) (off n : Z) : option (list Z) :=
  if (0 <=? off) && (0 <=? n) && (off + n <=? Z.of_nat (length data))
  then Some (take (Z.to_nat n) (drop (Z.to_nat off) data)) else None.

Section parser.
Context (DEVELOPMENT_BUILD STRICT_CHECKSUM : bool) (alloc : Z -> bool) (now : Z).

(** [~sum + 1] is computed in [int]. *)
Definition calculate_checksum (data : list Z) (len : Z) : option Z :=
  bytes ← bytes_at data 0 len;
  let sum := fold_left (fun sum b => u8 (sum + b)) bytes 0 in
  Some (u8 (Z.lnot sum + 1)).

Definition validate_message_format (data : list Z) (len : Z) : option bool :=
  version ← at_ data 0;
  if negb (version =? FORMAT_VERSION) then Some false else
  expected_checksum ← at_ data (u32 (len - 1));
  calculated_checksum ← calculate_checksum data (u32 (len - 1));
  Some (negb (negb (expected_checksum =? calculated_checksum) && STRICT_CHECKSUM)).

(** The loop over [service_table]: not found, found, or too short. *)
Fixpoint find_service (sid len : Z) (table : list ServiceEntry) : option bool :=
  match table with
  | [] => Some false
  | e :: table =>
    if svc_id e =? sid then if len <? min_length e then None else Some true
    else find_service sid len table
  end.

(** [None] outside the buffer; otherwise the answer and [message->sub_function]. *)
Definition parse_service_parameters (sid : Z) (data : list Z) (len : Z) (message : DiagMessage)
  : option (bool * DiagMessage) :=
  if (sid =? DIAG_SID_DIAGNOSTIC_CONTROL) || (sid =? DIAG_SID_ECU_RESET) || (sid =? DIAG_SID_SECURITY_ACCESS) then
    if len <? HEADER_SIZE + 1 then Some (false, message) else
    sub ← at_ data HEADER_SIZE;
    Some (true, message <| sub_function := sub |>)
  else if (sid =? DIAG_SID_READ_DATA_BY_ID) || (sid =? DIAG_SID_WRITE_DATA_BY_ID) then
    if len <? HEADER_SIZE + 2 then Some (false, message) else
    Some (true, message <| sub_function := 0 |>)
  else if sid =? MSG_TYPE_DEBUG then
    if DEVELOPMENT_BUILD then Some (true, message <| sub_function := 0 |>) else Some (false, message)
  else if MSG_TYPE_CUSTOM_START <=? sid then Some (true, message <| sub_function := 0 |>)
  else Some (false, message).

Definition DiagParser_ParseRequest (data : option (list Z)) (len : Z) (message : option DiagMessage)
  : option (DiagParserResult * option DiagMessage) :=
  match data, message with
  | Some data, Some message =>
    if len <? MIN_MESSAGE_LENGTH then Some (PARSER_RESULT_INVALID_LENGTH, Some message) else
    let message := message_zero in
    _ ← at_ data 1;
    ok ← validate_message_format data len;
    if negb ok then Some (PARSER_RESULT_INVALID_FORMAT, Some message) else
    sid ← at_ data 2;
    match find_service sid len service_table with
    | None => Some (PARSER_RESULT_INVALID_LENGTH, Some message)
    | Some service_found =>
      let service_found := service_found || (DEVELOPMENT_BUILD && (MSG_TYPE_CUSTOM_START <=? sid)) in
      if negb service_found then Some (PARSER_RESULT_INVALID_SERVICE, Some message) else
      '(ok, message) ← parse_service_parameters sid data len message;
      if negb ok then Some (PARSER_RESULT_INVALID_SUBFUNC, Some message) else
      let data_length := u32 (len - HEADER_SIZE - CHECKSUM_SIZE) in
      if negb (alloc data_length) then Some (PARSER_RESULT_ERROR, Some message) else
      bytes ← bytes_at data HEADER_SIZE data_length;
      Some (PARSER_RESULT_OK, Some (message <| msg_data := Some bytes |> <| msg_length := data_length |>
                                            <| service_id := sid |> <| msg_timestamp := now |>))
    end
  | _, _ => Some (PARSER_RESULT_INVALID_LENGTH, message)
  end.

(** [while (length > 0 && data[length-1] == 0xFF) length--] *)
Fixpoint strip_padding (data : list Z) (len : nat) : option nat :=
  match len with
  | O => Some O
  | S n => last ← at_ data (Z.of_nat n); if last =? 0xFF then strip_padding data n else Some (S n)
  end.

Definition DiagParser_ParseResponse (data : option (list Z)) (len : Z) (response : option DiagResponse)
  : option (DiagParserResult * option DiagResponse) :=
  match data, response with
  | Some data, Some response =>
    if len <? MIN_MESSAGE_LENGTH then Some (PARSER_RESULT_INVALID_LENGTH, Some response) else
    let response := response_zero in
    n ← strip_padding data (Z.to_nat len);
    let len := Z.of_nat n in
    ok ← validate_message_format data len;
    if negb ok then Some (PARSER_RESULT_INVALID_FORMAT, Some response) else
    sid ← at_ data 2;
    code ← at_ data 3;
    let response := response <| resp_service_id := sid |> <| resp_code := code |>
                             <| success := code =? DIAG_RESP_POSITIVE |> in
    let data_length := u32 (len - HEADER_SIZE - 2) in
    if 0 <? data_length then
      if negb (alloc data_length) then Some (PARSER_RESULT_ERROR, Some response) else
      bytes ← bytes_at data (HEADER_SIZE + 1) data_length;
      Some (PARSER_RESULT_OK, Some (response <| resp_data := Some bytes |> <| resp_length := data_length |>
                                             <| resp_timestamp := now |>))
    else Some (PARSER_RESULT_OK, Some (response <| resp_timestamp := now |>))
  | _, _ => Some (PARSER_RESULT_INVALID_LENGTH, response)
  end.

(** [buffer[i] = v] and [memcpy(&buffer[off], src, n)]. *)
Definition put (buffer : list Z) (i v : Z) : option (list Z) :=
  if (0 <=? i) && (i <? Z.of_nat (length buffer)) then Some (<[Z.to_nat i := v]> buffer) else None.
Definition put_bytes (buffer : list Z) (off : Z) (src : option (list Z)) (n : Z) : option (list Z) :=
  src ← src;
  bytes ← bytes_at src 0 n;
  if off + n <=? Z.of_nat (length buffer)
  then Some (take (Z.to_nat off) buffer ++ bytes ++ drop (Z.to_nat (off + n)) buffer) else None.

(** The answer, the buffer and the length stored through [length]. *)
Definition DiagParser_FormatRequest (message : option DiagMessage) (buffer : option (list Z)) (out : bool)
  : option (option (list Z * Z)) :=
  match message, buffer with
  | Some message, Some buffer =>
    if negb out then Some None else
    let total_length := u32 (HEADER_SIZE + msg_length message + CHECKSUM_SIZE) in
    if MAX_MESSAGE_LENGTH <? total_length then Some None else
    buffer ← put buffer 0 FORMAT_VERSION;
    buffer ← put buffer 1 (u8 (msg_length message));
    buffer ← put buffer 2 (service_id message);
    buffer ← (if 0 <? msg_length message then put_bytes buffer HEADER_SIZE (msg_data message) (msg_length message)
              else Some buffer);
    sum ← calculate_checksum buffer (u32 (total_length - 1));
    buffer ← put buffer (u32 (total_length - 1)) sum;
    Some (Some (buffer, total_length))
  | _, _ => Some None
  end.
End parser.

(** ** Buffers *)

Lemma at_ok data i : 0 <= i < Z.of_nat (length data) -> exists b, at_ data i = Some b /\ data !! Z.to_nat i = Some b.
Proof.
  intros Hi. unfold at_. rewrite (proj2 (Z.leb_le _ _)), (proj2 (Z.ltb_lt _ _)) by lia. cbn [andb].
  destruct (lookup_lt_is_Some_2 data (Z.to_nat i)) as [b ->]; [lia|]. eauto.
Qed.
Lemma at_app l x r i : i = Z.of_nat (length l) -> at_ (l ++ x :: r) i = Some x.
Proof.
  intros ->. destruct (at_ok (l ++ x :: r) (Z.of_nat (length l))) as (b & -> & Hb); [rewrite length_app; simpl; lia|].
  rewrite Nat2Z.id, list_lookup_middle in Hb; done.
Qed.
Lemma bytes_at_ok data off n : 0 <= off -> 0 <= n -> off + n <= Z.of_nat (length data) ->
  bytes_at data off n = Some (take (Z.to_nat n) (drop (Z.to_nat off) data)).
Proof. intros. unfold bytes_at. by rewrite !(proj2 (Z.leb_le _ _)) by lia. Qed.
Lemma bytes_at_app l d r off n : off = Z.of_nat (length l) -> n = Z.of_nat (length d) ->
  bytes_at (l ++ d ++ r) off n = Some d.
Proof.
  intros -> ->. rewrite bytes_at_ok by (rewrite ?length_app; lia).
  by rewrite !Nat2Z.id, drop_app_length, take_app_length.
Qed.
Lemma put_app l x r i v : i = Z.of_nat (length l) -> put (l ++ x :: r) i v = Some (l ++ v :: r).
Proof.
  intros ->. unfold put. rewrite length_app. simpl.
  rewrite (proj2 (Z.leb_le _ _)), (proj2 (Z.ltb_lt _ _)) by lia. by rewrite Nat2Z.id, insert_app_r_alt, Nat.sub_diag by lia.
Qed.
Lemma put_0 x r v : put (x :: r) 0 v = Some (v :: r).
Proof. by apply (put_app []). Qed.
Lemma put_1 a x r v : put (a :: x :: r) 1 v = Some (a :: v :: r).
Proof. by apply (put_app [a]). Qed.
Lemma put_2 a b x r v : put (a :: b :: x :: r) 2 v = Some (a :: b :: v :: r).
Proof. by apply (put_app [a; b]). Qed.
Lemma put_bytes_app l pre r d off n :
  off = Z.of_nat (length l) -> n = Z.of_nat (length d) -> length pre = length d ->
  put_bytes (l ++ pre ++ r) off (Some d) n = Some (l ++ d ++ r).
Proof.
  intros -> -> Hp. unfold put_bytes. cbn [mbind option_bind].
  rewrite bytes_at_ok by lia. cbn [mbind option_bind]. rewrite !length_app, (proj2 (Z.leb_le _ _)) by lia.
  rewrite Z2Nat.inj_add, !Nat2Z.id, take_app_length, <- drop_drop, drop_app_length, <- Hp, drop_app_length by lia.
  simpl. by rewrite drop_0, take_ge by lia.
Qed.

(** ** Checksum *)

Definition sum_z (l : list Z) : Z := foldr Z.add 0 l.
Lemma sum_z_app l r : sum_z (l ++ r) = sum_z l + sum_z r.
Proof. unfold sum_z. rewrite foldr_app. induction l; simpl in *; lia. Qed.
Lemma fold_sum l : forall a, is_u8 a -> fold_left (fun sum b => u8 (sum + b)) l a = u8 (a + sum_z l).
Proof.
  induction l as [|b l IH]; intros a Ha; simpl; [by rewrite Z.add_0_r, u8_small|].
  rewrite IH by auto with cant. unfold u8. rewrite Zplus_mod_idemp_l. f_equal. lia.
Qed.
Lemma checksum_ok data n : 0 <= n <= Z.of_nat (length data) ->
  calculate_checksum data n = Some (u8 (- sum_z (take (Z.to_nat n) data))).
Proof.
  intros Hn. unfold calculate_checksum. rewrite bytes_at_ok by lia. cbn [mbind option_bind]. f_equal.
  rewrite fold_sum by (unfold is_u8; lia). rewrite drop_0, Z.add_0_l. unfold u8.
  replace (Z.lnot (sum_z (take (Z.to_nat n) data) mod 2 ^ 8) + 1) with (- (sum_z (take (Z.to_nat n) data) mod 2 ^ 8))
    by (unfold Z.lnot; lia).
  rewrite <- (Z.sub_0_l (_ mod _)), Zminus_mod_idemp_r. f_equal.
Qed.

(** A byte and the checksum of what precedes it agree exactly when everything
    adds up to a multiple of 256. *)
Lemma checksum_sum c s : is_u8 c -> c = u8 (- s) <-> (s + c) mod 256 = 0.
Proof.
  unfold is_u8, u8. change (2 ^ 8) with 256. intros Hc. split.
  - intros ->. rewrite Zplus_mod_idemp_r. by replace (s + - s) with 0 by lia.
  - intros Hs. rewrite <- (Z.mod_small c 256) at 1 by lia.
    apply Z.mod_divide in Hs as [k Hk]; [|lia]. replace c with (- s + k * 256) by lia. by rewrite Z_mod_plus_full.
Qed.

Definition bytes (l : list Z) : Prop := Forall is_u8 l.

Lemma validate_ok strict data len : 1 <= len <= Z.of_nat (length data) -> len < 2 ^ 32 ->
  exists v c, data !! 0%nat = Some v /\ data !! Z.to_nat (len - 1) = Some c /\
    validate_message_format strict data len = Some ((v =? FORMAT_VERSION) &&
      (negb strict || (c =? u8 (- sum_z (take (Z.to_nat (len - 1)) data))))).
Proof.
  intros Hlen H32. destruct (at_ok data 0) as (v & Hv & Hv'); [lia|].
  destruct (at_ok data (len - 1)) as (c & Hc & Hc'); [lia|]. exists v, c. split_and!; [done..|].
  unfold validate_message_format. rewrite Hv. cbn [mbind option_bind].
  destruct (v =? FORMAT_VERSION); simpl; [|done].
  rewrite u32_small by (unfold is_u32; lia). rewrite Hc, checksum_ok by lia. simpl.
  by destruct (_ =? _), strict.
Qed.
(** The checksum test of a frame of bytes. *)
Lemma checksum_valid data len c : bytes data -> 1 <= len -> data !! Z.to_nat (len - 1) = Some c ->
  (c =? u8 (- sum_z (take (Z.to_nat (len - 1)) data))) = true <-> sum_z (take (Z.to_nat len) data) mod 256 = 0.
Proof.
  intros Hb Hlen Hc. assert (Hcu : is_u8 c) by (eapply Forall_lookup_1; eauto).
  rewrite Z.eqb_eq, checksum_sum by done. replace (Z.to_nat len) with (S (Z.to_nat (len - 1))) by lia.
  rewrite (take_S_r data _ c Hc), sum_z_app. simpl. by rewrite Z.add_0_r.
Qed.

(** ** Requests *)

Definition has_sub (sid : Z) : bool :=
  (sid =? DIAG_SID_DIAGNOSTIC_CONTROL) || (sid =? DIAG_SID_ECU_RESET) || (sid =? DIAG_SID_SECURITY_ACCESS).
Definition has_did (sid : Z) : bool := (sid =? DIAG_SID_READ_DATA_BY_ID) || (sid =? DIAG_SID_WRITE_DATA_BY_ID).
(** The services a build accepts, by frame length. *)
Definition supported (dev : bool) (sid len : Z) : bool :=
  has_sub sid || (has_did sid && (5 <=? len)) || (dev && (MSG_TYPE_CUSTOM_START <=? sid)).

Lemma find_service_eq sid len : 4 <= len ->
  find_service sid len service_table = Some (has_sub sid || has_did sid || (sid =? MSG_TYPE_DEBUG)).
Proof.
  intros Hlen. cbn [service_table find_service svc_id min_length]. unfold has_sub, has_did.
  rewrite !(Z.eqb_sym _ sid), !(proj2 (Z.ltb_ge _ _)) by lia.
  repeat destruct (_ =? _); done.
Qed.

Ltac finish := eexists; split_and!; try done; intros; first [discriminate|by auto].
Lemma parse_parameters_eq dev sid data len m x :
  4 <= len -> at_ data 3 = Some x ->
  exists m', parse_service_parameters dev sid data len m =
    Some (has_sub sid || (has_did sid && (5 <=? len)) ||
          (negb (has_sub sid || has_did sid) && (MSG_TYPE_CUSTOM_START <=? sid) && (dev || negb (sid =? MSG_TYPE_DEBUG))), m') /\
    msg_data m' = msg_data m /\
    (has_sub sid = true -> m' = m <| sub_function := x |>) /\
    (has_sub sid = false -> sub_function m = 0 -> m' = m).
Proof.
  intros Hlen Hx. unfold parse_service_parameters.
  change ((sid =? DIAG_SID_DIAGNOSTIC_CONTROL) || (sid =? DIAG_SID_ECU_RESET) || (sid =? DIAG_SID_SECURITY_ACCESS))
    with (has_sub sid).
  change ((sid =? DIAG_SID_READ_DATA_BY_ID) || (sid =? DIAG_SID_WRITE_DATA_BY_ID)) with (has_did sid).
  unfold HEADER_SIZE. assert (Hz : sub_function m = 0 -> m <| sub_function := 0 |> = m)
    by (destruct m; simpl; by intros ->).
  destruct (has_sub sid); [|destruct (has_did sid)].
  - rewrite (proj2 (Z.ltb_ge _ _)) by lia. rewrite Hx. cbn. finish.
  - destruct (Z.ltb_spec len (3 + 2)), (Z.leb_spec 5 len); try lia; cbn; finish.
  - cbn. destruct (Z.eqb_spec sid MSG_TYPE_DEBUG) as [->|]; [destruct dev; cbn; finish|].
    destruct (MSG_TYPE_CUSTOM_START <=? sid); cbn; rewrite ?orb_true_r; finish.
Qed.

Lemma services_disjoint sid : has_sub sid || has_did sid = true -> (MSG_TYPE_CUSTOM_START <=? sid) = false.
Proof.
  unfold has_sub, has_did. intros Hs. apply Z.leb_gt. unfold MSG_TYPE_CUSTOM_START.
  repeat (apply orb_prop in Hs as [Hs|Hs]); apply Z.eqb_eq in Hs; subst; done.
Qed.

(** The parser on a frame that is long enough: one case per outcome. *)
Lemma parse_request_eq dev strict alloc now data len m0 : 4 <= len <= Z.of_nat (length data) -> len < 2 ^ 32 ->
  exists v sid x c,
    data !! 0%nat = Some v /\ data !! 2%nat = Some sid /\ data !! 3%nat = Some x /\
    data !! Z.to_nat (len - 1) = Some c /\
    let valid := (v =? FORMAT_VERSION) && (negb strict || (c =? u8 (- sum_z (take (Z.to_nat (len - 1)) data)))) in
    exists r m', DiagParser_ParseRequest dev strict alloc now (Some data) len (Some m0) = Some (r, Some m') /\
      (r = PARSER_RESULT_OK <-> valid && supported dev sid len && alloc (len - 4) = true) /\
      (r = PARSER_RESULT_INVALID_FORMAT <-> valid = false) /\
      (r = PARSER_RESULT_OK ->
        m' = mkDiagMessage 0 sid (if has_sub sid then x else 0)
               (Some (take (Z.to_nat (len - 4)) (drop 3 data))) (len - 4) now 0 0) /\
      (r <> PARSER_RESULT_OK -> msg_data m' = None).
Proof.
  intros Hlen H32. destruct (validate_ok strict data len) as (v & c & Hv & Hc & Hval); [lia..|].
  destruct (at_ok data 1) as (l1 & Hl1 & _); [lia|]. destruct (at_ok data 2) as (sid & Hsid & Hsid'); [lia|].
  destruct (at_ok data 3) as (x & Hx & Hx'); [lia|]. exists v, sid, x, c. split_and!; [done..|]. cbv zeta.
  set (valid := (v =? FORMAT_VERSION) && _) in *. unfold DiagParser_ParseRequest, MIN_MESSAGE_LENGTH.
  rewrite (proj2 (Z.ltb_ge _ _)) by lia. rewrite Hl1, Hval. cbn [mbind option_bind].
  destruct valid; cbn [negb andb]; [|by do 2 eexists; split_and!].
  rewrite Hsid. cbn [mbind option_bind]. rewrite find_service_eq by lia.
  destruct (parse_parameters_eq dev sid data len message_zero x) as (m' & Hp & Hd & Hm1 & Hm3); [lia|done|].
  unfold supported. assert (Hdj := services_disjoint sid).
  destruct (has_sub sid || has_did sid || (sid =? MSG_TYPE_DEBUG) || dev && (MSG_TYPE_CUSTOM_START <=? sid)) eqn:Ef;
    cbn [negb]; cycle 1.
  { do 2 eexists. split_and!; [done|..]; try done. split; [done|]. intros Hs. exfalso.
    destruct (has_sub sid), (has_did sid), (sid =? MSG_TYPE_DEBUG), dev, (MSG_TYPE_CUSTOM_START <=? sid); done. }
  rewrite Hp. cbn [mbind option_bind].
  replace (has_sub sid || has_did sid && (5 <=? len) || _)
    with (has_sub sid || has_did sid && (5 <=? len) || dev && (MSG_TYPE_CUSTOM_START <=? sid)); cycle 1.
  { destruct (has_sub sid), (has_did sid), (Z.eqb_spec sid MSG_TYPE_DEBUG) as [->|], dev, (5 <=? len),
      (MSG_TYPE_CUSTOM_START <=? _); try done; try (by specialize (Hdj eq_refl)). }
  destruct (has_sub sid || has_did sid && (5 <=? len) || dev && (MSG_TYPE_CUSTOM_START <=? sid)); cbn [negb andb];
    [|by do 2 eexists; split_and!].
  replace (len - HEADER_SIZE - CHECKSUM_SIZE) with (len - 4) by (unfold HEADER_SIZE, CHECKSUM_SIZE; lia).
  rewrite u32_small by (unfold is_u32; lia).
  destruct (alloc (len - 4)); cbn [negb]; [|by do 2 eexists; split_and!].
  rewrite bytes_at_ok by (unfold HEADER_SIZE; lia). cbn [mbind option_bind].
  do 2 eexists. split; [reflexivity|]. split_and!; try done.
  intros _. destruct (has_sub sid) eqn:Es; [rewrite Hm1 by done|rewrite Hm3 by done]; done.
Qed.

(** ** Formatting *)

Definition frame_head (sid : Z) (d : list Z) : list Z := [FORMAT_VERSION; u8 (Z.of_nat (length d)); sid] ++ d.
Definition frame_of (sid : Z) (d : list Z) : list Z := frame_head sid d ++ [u8 (- sum_z (frame_head sid d))].

Lemma split_buffer (buffer : list Z) n : (4 + n <= length buffer)%nat ->
  exists b0 b1 b2 pre x post, buffer = [b0; b1; b2] ++ pre ++ x :: post /\ length pre = n.
Proof.
  intros Hb. do 3 (destruct buffer as [|? buffer]; [simpl in Hb; lia|]). simpl in Hb.
  destruct (lookup_lt_is_Some_2 buffer n) as [x Hx]; [lia|].
  exists z, z0, z1, (take n buffer), x, (drop (S n) buffer). split; [|rewrite length_take; lia].
  simpl. by rewrite take_drop_middle.
Qed.

Lemma format_request_eq m d buffer :
  msg_data m = Some d -> msg_length m = Z.of_nat (length d) -> (length d <= 4091)%nat ->
  (4 + length d <= length buffer)%nat ->
  exists rest, DiagParser_FormatRequest (Some m) (Some buffer) true =
    Some (Some (frame_of (service_id m) d ++ rest, Z.of_nat (length d) + 4)).
Proof.
  intros Hd Hl Hmax Hb. destruct (split_buffer buffer (length d) Hb) as (b0 & b1 & b2 & pre & x & post & -> & Hp).
  exists post. unfold DiagParser_FormatRequest, HEADER_SIZE, CHECKSUM_SIZE, MAX_MESSAGE_LENGTH. cbn [negb].
  rewrite Hl, u32_small by (unfold is_u32; lia). rewrite (proj2 (Z.ltb_ge _ _)) by lia. simpl app.
  rewrite put_0; cbn [mbind option_bind]. rewrite put_1; cbn [mbind option_bind]. rewrite put_2; cbn [mbind option_bind].
  set (h := [FORMAT_VERSION; u8 (Z.of_nat (length d)); service_id m]).
  change (FORMAT_VERSION :: u8 (Z.of_nat (length d)) :: service_id m :: pre ++ x :: post)
    with (h ++ pre ++ x :: post).
  replace (if 0 <? Z.of_nat (length d) then _ else _) with (Some (h ++ d ++ x :: post)); cycle 1.
  { destruct (Z.ltb_spec 0 (Z.of_nat (length d))); [by rewrite Hd, put_bytes_app|].
    destruct d, pre; simpl in *; done || lia. }
  cbn [mbind option_bind]. rewrite (u32_small (_ - 1)) by (unfold is_u32; lia).
  rewrite app_assoc. change (h ++ d) with (frame_head (service_id m) d).
  assert (Hh : length (frame_head (service_id m) d) = (3 + length d)%nat) by done.
  rewrite checksum_ok by (rewrite length_app, Hh; simpl; lia). cbn [mbind option_bind].
  rewrite put_app by lia. cbn [mbind option_bind]. rewrite take_app_le, take_ge by lia.
  unfold frame_of. rewrite <- app_assoc.
  by replace (3 + Z.of_nat (length d) + 1) with (Z.of_nat (length d) + 4) by lia.
Qed.

(** Round trip: a request that fits and whose service the build supports,
    formatted into any large enough buffer, is parsed back with its service and
    data, with and without strict checksums.  The sub-function is not transmitted:
    the one parsed is the first data byte for a service that has one, else 0. *)
Theorem format_parse_roundtrip dev strict alloc now m d buffer m0 :
  msg_data m = Some d -> msg_length m = Z.of_nat (length d) -> (1 <= length d <= 4091)%nat ->
  (4 + length d <= length buffer)%nat -> supported dev (service_id m) (Z.of_nat (length d) + 4) = true ->
  alloc (Z.of_nat (length d)) = true ->
  exists buffer' len,
    DiagParser_FormatRequest (Some m) (Some buffer) true = Some (Some (buffer', len)) /\
    DiagParser_ParseRequest dev strict alloc now (Some buffer') len (Some m0) =
      Some (PARSER_RESULT_OK,
            Some (mkDiagMessage 0 (service_id m) (if has_sub (service_id m) then hd 0 d else 0)
                    (Some d) (Z.of_nat (length d)) now 0 0)).
Proof.
  intros Hd Hl Hn Hb Hs Ha. destruct (format_request_eq m d buffer) as [rest Hf]; [done|done|lia|done|].
  do 2 eexists. split; [exact Hf|]. destruct d as [|y d]; [simpl in Hn; lia|].
  remember (length (y :: d)) as n eqn:En. set (f := frame_of (service_id m) (y :: d)).
  assert (Hlf : length f = (4 + n)%nat) by (unfold f, frame_of, frame_head; rewrite !length_app; simpl; simpl in En; lia).
  destruct (parse_request_eq dev strict alloc now (f ++ rest) (Z.of_nat n + 4) m0)
    as (v & sid & x & c & Hv & Hsid & Hx & Hc & r & m' & Hp & Hok & _ & Hm & _); [rewrite length_app; lia|lia|].
  injection Hv as <-. injection Hsid as <-. injection Hx as <-.
  assert (Hhead : take (Z.to_nat (Z.of_nat n + 4 - 1)) (f ++ rest) = frame_head (service_id m) (y :: d)).
  { unfold f, frame_of. rewrite <- app_assoc, take_app_le, take_ge; unfold frame_head; simpl; simpl in En; lia || done. }
  assert (Hck : c = u8 (- sum_z (frame_head (service_id m) (y :: d)))).
  { unfold f, frame_of in Hc. rewrite <- app_assoc in Hc.
    rewrite lookup_app_r in Hc by (unfold frame_head; simpl; simpl in En; lia).
    replace (Z.to_nat (Z.of_nat n + 4 - 1) - length (frame_head (service_id m) (y :: d)))%nat with 0%nat in Hc
      by (unfold frame_head; simpl; simpl in En; lia). by injection Hc. }
  rewrite Hhead, <- Hck, !Z.eqb_refl, orb_true_r, Hs in Hok. cbn [andb] in Hok.
  replace (Z.of_nat n + 4 - 4) with (Z.of_nat n) in * by lia. rewrite Ha in Hok.
  destruct Hok as [_ Hr]. specialize (Hr eq_refl). rewrite Hp, Hr, (Hm Hr). do 4 f_equal.
  rewrite Nat2Z.id. unfold f, frame_of, frame_head. simpl. rewrite <- app_assoc, En. simpl.
  by rewrite take_app_length.
Qed.

Lemma format_parse_roundtrip_witness :
  exists buffer' len,
    DiagParser_FormatRequest (Some (mkDiagMessage 0 0x22 0 (Some [0xF1; 0x90]) 2 0 0 0))
      (Some (replicate 16 0)) true = Some (Some (buffer', len)) /\
    DiagParser_ParseRequest false true (fun n => n <? 4096) 77 (Some buffer') len (Some message_zero) =
      Some (PARSER_RESULT_OK, Some (mkDiagMessage 0 0x22 0 (Some [0xF1; 0x90]) 2 77 0 0)).
Proof.
  apply (format_parse_roundtrip false true (fun n => n <? 4096) 77
           (mkDiagMessage 0 0x22 0 (Some [0xF1; 0x90]) 2 0 0 0) [0xF1; 0x90] (replicate 16 0) message_zero);
    try reflexivity; simpl; lia.
Defined.

(** [DiagParser_ParseRequest] never reads outside a buffer of the stated
    length.  It answers OK exactly when the version is right, the service is
    supported, the allocation succeeds and, under STRICT_CHECKSUM, the bytes add
    up to a multiple of 256; the message then holds the bytes between header and
    checksum.  Any other answer leaves the data pointer NULL. *)
Theorem parse_request_exact dev strict alloc now data len m0 :
  bytes data -> 4 <= len <= Z.of_nat (length data) -> len < 2 ^ 32 ->
  exists r m', DiagParser_ParseRequest dev strict alloc now (Some data) len (Some m0) = Some (r, Some m') /\
    (r = PARSER_RESULT_OK <->
       data !! 0%nat = Some FORMAT_VERSION /\
       (strict = true -> sum_z (take (Z.to_nat len) data) mod 256 = 0) /\
       supported dev (nth 2 data 0) len = true /\ alloc (len - 4) = true) /\
    (r = PARSER_RESULT_OK ->
       service_id m' = nth 2 data 0 /\ msg_data m' = Some (take (Z.to_nat (len - 4)) (drop 3 data)) /\
       msg_length m' = len - 4) /\
    (r <> PARSER_RESULT_OK -> msg_data m' = None).
Proof.
  intros Hb Hlen H32. destruct (parse_request_eq dev strict alloc now data len m0 Hlen H32)
    as (v & sid & x & c & Hv & Hsid & _ & Hc & r & m' & Hp & Hok & _ & Hm & Hno).
  assert (Hn : nth 2 data 0 = sid) by (rewrite nth_lookup, Hsid; done).
  exists r, m'. split_and!; [done| |intros Hr; rewrite (Hm Hr), Hn; done|done].
  rewrite Hok, Hv, Hn, !andb_true_iff, orb_true_iff, (checksum_valid data len c Hb ltac:(lia) Hc), Z.eqb_eq.
  destruct strict; naive_solver.
Qed.

Lemma parse_request_exact_witness :
  let data := [0x01; 0x02; 0x22; 0xF1; 0x90; 0x5A; 0xAA] in
  exists r m', DiagParser_ParseRequest false true (fun _ => true) 9 (Some data) 6 (Some message_zero) = Some (r, Some m') /\
    r = PARSER_RESULT_OK /\ msg_data m' = Some [0xF1; 0x90].
Proof.
  intros data. destruct (parse_request_exact false true (fun _ => true) 9 data 6 message_zero) as (r & m' & Hp & Hok & Hd & _).
  - repeat constructor; discriminate.
  - simpl. lia.
  - lia.
  - exists r, m'. assert (Hr : r = PARSER_RESULT_OK) by (apply Hok; repeat split).
    split_and!; [done|done|]. by destruct (Hd Hr) as (_ & -> & _).
Defined.

Lemma sum_insert l : forall i a b, l !! i = Some a -> sum_z (<[i := b]> l) = sum_z l - a + b.
Proof.
  induction l as [|y l IH]; intros [|i] a b Hi; simplify_eq/=; [lia|]. rewrite (IH i a b Hi). lia.
Qed.

(** Under STRICT_CHECKSUM a frame of at least four bytes that was accepted and
    then had any one of its bytes changed, the checksum included, is refused as
    malformed; so no such change is taken for a request. *)
Theorem strict_checksum_detects_change dev alloc now data len i b m0 m1 m' :
  bytes data -> 4 <= len <= Z.of_nat (length data) -> len < 2 ^ 32 ->
  DiagParser_ParseRequest dev true alloc now (Some data) len (Some m0) = Some (PARSER_RESULT_OK, m') ->
  (i < Z.to_nat len)%nat -> is_u8 b -> data !! i <> Some b ->
  exists m2, DiagParser_ParseRequest dev true alloc now (Some (<[i := b]> data)) len (Some m1) =
    Some (PARSER_RESULT_INVALID_FORMAT, Some m2).
Proof.
  intros Hb Hlen H32 Hp Hi Hbu Hne.
  destruct (lookup_lt_is_Some_2 data i) as [a Ha]; [lia|].
  assert (Hau : is_u8 a) by (eapply Forall_lookup_1; eauto).
  assert (Hb2 : bytes (<[i := b]> data)) by (by apply Forall_insert).
  destruct (parse_request_eq dev true alloc now data len m0 Hlen H32)
    as (w & sid & x & c & _ & _ & _ & Hc & q & m2 & Hq & Hok & _).
  destruct (parse_request_eq dev true alloc now (<[i := b]> data) len m1 ltac:(by rewrite length_insert) H32)
    as (w' & sid' & x' & c' & _ & _ & _ & Hc' & q' & m2' & Hq' & _ & Hbad & _).
  rewrite Hq in Hp. injection Hp as -> _. destruct Hok as [Hok _]. specialize (Hok eq_refl).
  apply andb_prop in Hok as [Hok _]. apply andb_prop in Hok as [Hok _]. apply andb_prop in Hok as [_ Hsum].
  cbn [negb orb] in Hsum. rewrite (checksum_valid data len c Hb ltac:(lia) Hc) in Hsum.
  exists m2'. rewrite Hq'. do 2 f_equal. apply Hbad. apply andb_false_iff. right. cbn [negb orb].
  apply not_true_is_false. rewrite (checksum_valid _ len c' Hb2 ltac:(lia) Hc').
  rewrite take_insert_lt, (sum_insert _ i a b) by (rewrite ?lookup_take_lt by lia; done || lia).
  apply Z.mod_divide in Hsum as [k Hk]; [|lia]. rewrite Hk. intros Hz. apply Z.mod_divide in Hz as [k' Hk']; [|lia].
  apply Hne. rewrite Ha. f_equal. unfold is_u8 in *. lia.
Qed.

Lemma strict_checksum_detects_change_witness :
  exists m2, DiagParser_ParseRequest false true (fun _ => true) 9 (Some [0x01; 0x02; 0x22; 0xF1; 0x91; 0x5A]) 6
    (Some message_zero) = Some (PARSER_RESULT_INVALID_FORMAT, Some m2).
Proof.
  apply (strict_checksum_detects_change false (fun _ => true) 9 [0x01; 0x02; 0x22; 0xF1; 0x90; 0x5A] 6 4 0x91
           message_zero message_zero (Some (mkDiagMessage 0 0x22 0 (Some [0xF1; 0x90]) 2 9 0 0))).
  - repeat constructor; discriminate.
  - simpl. lia.
  - lia.
  - reflexivity.
  - vm_compute. lia.
  - split; lia.
  - discriminate.
Defined.

(** ** Responses *)

Lemma strip_padding_app l c k : c <> 0xFF -> forall rest,
  strip_padding ((l ++ [c]) ++ replicate k 0xFF ++ rest) (length l + 1 + k) = Some (length l + 1)%nat.
Proof.
  intros Hc. induction k as [|k IH]; intros rest.
  - rewrite Nat.add_0_r, Nat.add_1_r. cbn [strip_padding replicate app]. rewrite <- app_assoc. cbn [app].
    rewrite (at_app l c) by done. cbn [mbind option_bind]. by rewrite (proj2 (Z.eqb_neq _ _) Hc).
  - replace (length l + 1 + S k)%nat with (S (length l + 1 + k)) by lia. cbn [strip_padding].
    rewrite replicate_S_end, <- (app_assoc _ [0xFF]). cbn [app]. rewrite (app_assoc _ (replicate k 0xFF)).
    rewrite (at_app ((l ++ [c]) ++ replicate k 0xFF) 0xFF) by (rewrite !length_app, length_replicate; simpl; lia).
    cbn [mbind option_bind Z.eqb Pos.eqb]. rewrite <- app_assoc. apply IH.
Qed.

(** The parser on a response [v, lb, sid, code, d .., c] that ends the stripped
    buffer. *)
Lemma parse_response_eq strict alloc now v lb sid code d c rest len n r0 :
  let data := [v; lb; sid; code] ++ d ++ [c] ++ rest in
  4 <= Z.of_nat len < 2 ^ 32 -> n = (5 + length d)%nat -> Z.of_nat n < 2 ^ 32 ->
  strip_padding data len = Some n ->
  DiagParser_ParseResponse strict alloc now (Some data) (Z.of_nat len) (Some r0) =
    if (v =? FORMAT_VERSION) && (negb strict || (c =? u8 (- sum_z ([v; lb; sid; code] ++ d)))) then
      if (0 <? Z.of_nat (length d)) && negb (alloc (Z.of_nat (length d))) then
        Some (PARSER_RESULT_ERROR, Some (mkDiagResponse 0 sid code None 0 0 (code =? DIAG_RESP_POSITIVE)))
      else Some (PARSER_RESULT_OK, Some (mkDiagResponse 0 sid code
                   (if 0 <? Z.of_nat (length d) then Some d else None) (Z.of_nat (length d)) now
                   (code =? DIAG_RESP_POSITIVE)))
    else Some (PARSER_RESULT_INVALID_FORMAT, Some response_zero).
Proof.
  intros data Hlen Hn H32 Hstrip. unfold DiagParser_ParseResponse, MIN_MESSAGE_LENGTH.
  rewrite (proj2 (Z.ltb_ge _ _)) by lia. rewrite Nat2Z.id, Hstrip. cbn [mbind option_bind].
  assert (Hl : (n <= length data)%nat) by (unfold data; rewrite !length_app; simpl; lia).
  destruct (validate_ok strict data (Z.of_nat n)) as (v' & c' & Hv & Hc & ->); [lia..|].
  injection Hv as <-. replace (Z.to_nat (Z.of_nat n - 1)) with (length ([v; lb; sid; code] ++ d)) in * by (simpl; lia).
  assert (Ht : take (length ([v; lb; sid; code] ++ d)) data = [v; lb; sid; code] ++ d)
    by (unfold data; by rewrite app_assoc, take_app_length).
  assert (c' = c) as -> by (unfold data in Hc; rewrite app_assoc in Hc; change ([c] ++ rest) with (c :: rest) in Hc;
    rewrite list_lookup_middle in Hc by done; by injection Hc).
  rewrite Ht. cbn [mbind option_bind]. destruct (_ && _); cbn [negb]; [|done].
  assert (at_ data 2 = Some sid) as -> by (by apply (at_app [v; lb])).
  assert (at_ data 3 = Some code) as -> by (by apply (at_app [v; lb; sid])). cbn [mbind option_bind].
  replace (Z.of_nat n - HEADER_SIZE - 2) with (Z.of_nat (length d)) by (unfold HEADER_SIZE; lia).
  rewrite u32_small by (unfold is_u32; lia).
  destruct (Z.ltb_spec 0 (Z.of_nat (length d))) as [Hd|Hd]; cbn [andb].
  - destruct (alloc _); cbn [negb]; [|done].
    unfold data. rewrite bytes_at_app by done. done.
  - by replace (Z.of_nat (length d)) with 0 by lia.
Qed.

Definition response_head (lb sid code : Z) (d : list Z) : list Z := [FORMAT_VERSION; lb; sid; code] ++ d.

(** A well-formed response, whatever 0xFF padding follows it, is parsed
    with its service, code and data, unless its checksum is 0xFF: then the
    checksum is taken for padding, and the response is refused under
    STRICT_CHECKSUM and otherwise accepted without its last data byte. *)
Theorem parse_response_exact strict alloc now lb sid code d y pad rest r0 :
  bytes (response_head lb sid code (d ++ [y])) -> (0 < length d <= 4089)%nat -> Z.of_nat pad < 1000000 ->
  (forall n, 0 <= n <= 4090 -> alloc n = true) ->
  let head := response_head lb sid code (d ++ [y]) in
  let ck := u8 (- sum_z head) in
  let data := head ++ [ck] ++ replicate pad 0xFF ++ rest in
  let parsed := DiagParser_ParseResponse strict alloc now (Some data) (Z.of_nat (length head + 1 + pad)) (Some r0) in
  let answer bytes := Some (PARSER_RESULT_OK, Some (mkDiagResponse 0 sid code (Some bytes)
                              (Z.of_nat (length bytes)) now (code =? DIAG_RESP_POSITIVE))) in
  (ck <> 0xFF -> parsed = answer (d ++ [y])) /\
  (ck = 0xFF -> y <> 0xFF ->
     parsed = if strict then Some (PARSER_RESULT_INVALID_FORMAT, Some response_zero) else answer d).
Proof.
  intros Hb Hd Hpad Halloc head ck data parsed answer.
  assert (Hlh : length head = (4 + length d + 1)%nat) by (unfold head, response_head; rewrite !length_app; simpl; lia).
  split.
  - intros Hck. unfold parsed. replace data with ([FORMAT_VERSION; lb; sid; code] ++ (d ++ [y]) ++ [ck] ++ replicate pad 0xFF ++ rest)
      by (unfold data, head, response_head; by rewrite <- !app_assoc).
    erewrite parse_response_eq; [|lia|reflexivity|rewrite length_app; simpl; lia|].
    + change ([FORMAT_VERSION; lb; sid; code] ++ d ++ [y]) with head. fold ck. rewrite !Z.eqb_refl, orb_true_r.
      cbn [andb]. rewrite Halloc, andb_false_r by (rewrite length_app; simpl; lia).
      rewrite (proj2 (Z.ltb_lt _ _)) by (rewrite length_app; simpl; lia). done.
    + rewrite app_assoc. change ([FORMAT_VERSION; lb; sid; code] ++ d ++ [y]) with head. rewrite app_assoc.
      rewrite strip_padding_app by done. rewrite Hlh, length_app. simpl. f_equal. lia.
  - intros Hck Hy. unfold parsed.
    replace data with ([FORMAT_VERSION; lb; sid; code] ++ d ++ [y] ++ replicate (S pad) 0xFF ++ rest)
      by (unfold data, head, response_head; rewrite Hck, <- !app_assoc; done).
    erewrite parse_response_eq; [|lia|reflexivity|lia|].
    + assert (Hne : (y =? u8 (- sum_z ([FORMAT_VERSION; lb; sid; code] ++ d))) = false).
      { apply Z.eqb_neq. intros E. unfold ck, head, response_head in Hck.
        rewrite app_assoc, sum_z_app in Hck. simpl sum_z at 2 in Hck.
        unfold u8 in *. change (2 ^ 8) with 256 in *.
        generalize dependent (sum_z ([FORMAT_VERSION; lb; sid; code] ++ d)). intros s Hs Hy'.
        Z.div_mod_to_equations. lia. }
      rewrite Hne, Z.eqb_refl, orb_false_r. cbn [andb]. destruct strict; cbn [negb]; [done|].
      rewrite Halloc, andb_false_r, (proj2 (Z.ltb_lt _ _)) by lia. done.
    + rewrite !app_assoc, <- (app_assoc _ _ rest).
      replace (length head + 1 + pad)%nat with (length ([FORMAT_VERSION; lb; sid; code] ++ d) + 1 + S pad)%nat
        by (rewrite Hlh, length_app; simpl; lia).
      rewrite strip_padding_app by done. rewrite length_app. simpl. f_equal. lia.
Qed.

Lemma parse_response_exact_witness :
  DiagParser_ParseResponse true (fun n => n <=? 4096) 5
    (Some [0x01; 0x03; 0x22; 0x40; 0xF1; 0x90; 0x1A; 0xFF; 0xFF]) 9 (Some response_zero) =
    Some (PARSER_RESULT_INVALID_FORMAT, Some response_zero) /\
  DiagParser_ParseResponse true (fun n => n <=? 4096) 5
    (Some [0x01; 0x03; 0x22; 0x40; 0xF1; 0x90; 0x1B; 0xFE; 0xFF]) 9 (Some response_zero) =
    Some (PARSER_RESULT_OK, Some (mkDiagResponse 0 0x22 0x40 (Some [0xF1; 0x90; 0x1B]) 3 5 true)).
Proof.
  assert (Halloc : forall n, 0 <= n <= 4090 -> (n <=? 4096) = true) by (intros n Hn; apply Z.leb_le; lia).
  split.
  - apply (parse_response_exact true (fun n => n <=? 4096) 5 0x03 0x22 0x40 [0xF1; 0x90] 0x1A 1 [] response_zero);
      [repeat constructor; discriminate|simpl; lia|lia|done|reflexivity|discriminate].
  - apply (parse_response_exact true (fun n => n <=? 4096) 5 0x03 0x22 0x40 [0xF1; 0x90] 0x1B 1 [] response_zero);
      [repeat constructor; discriminate|simpl; lia|lia|done|discriminate].
Defined.
