(* ===== verification/DiagTimer.v ===== *)
(** * Diagnostic timers

    [diagnostic/diag_timer.c]: 32 timer slots, addressed by an identifier that
    [DiagTimer_Start] hands out, and polled by [DiagTimer_Process], which calls
    the callback of every timer that is due and stops it.

    The clock is the host's [gettimeofday]; [Timers] is the file's static
    [timer_mgr] together with it.  A component that uses timers holds a
    [Timers] ([HasTimers]).  Callbacks are arbitrary computations of that
    component: they may start and stop timers while [DiagTimer_Process] walks
    the slots. *)

From S2P Require Import Prelude Slots Machine.

Definition MAX_TIMERS : nat := 32.
Definition TIMER_CHECK_INTERVAL : Z := 5.

Inductive DiagTimerType :=
  TIMER_TYPE_REQUEST | TIMER_TYPE_SESSION | TIMER_TYPE_SECURITY | TIMER_TYPE_TESTER_PRESENT.
Inductive TimerState := TIMER_STATE_INACTIVE | TIMER_STATE_RUNNING | TIMER_STATE_EXPIRED.
#[export] Instance TimerState_eq_dec : EqDecision TimerState.
Proof. solve_decision. Defined.

(** [tm_callback] and [tm_context] are addresses, 0 for NULL. *)
Record Timer := mkTimer {
  tm_id : Z;
  tm_type : DiagTimerType;
  tm_timeout_ms : Z;
  tm_start_time : Z;
  tm_state : TimerState;
  tm_callback : Z;
  tm_context : Z;
  tm_active : bool
}.
#[export] Instance eta_Timer : Eta Timer := fun t =>
  mkTimer (tm_id t) (tm_type t) (tm_timeout_ms t) (tm_start_time t) (tm_state t)
    (tm_callback t) (tm_context t) (tm_active t).
#[export] Instance Timer_Slot : Slot Timer := { slot_used := tm_active; slot_key := tm_id }.
(** A slot after [memset 0]. *)
Definition timer_blank : Timer :=
  mkTimer 0 TIMER_TYPE_REQUEST 0 0 TIMER_STATE_INACTIVE 0 0 false.

Record TimerManager := mkTimerManager {
  timers : list Timer;
  timer_count : nat;
  next_id : Z;
  last_check : Z;
  tm_initialized : bool
}.
#[export] Instance eta_TimerManager : Eta TimerManager := fun g =>
  mkTimerManager (timers g) (timer_count g) (next_id g) (last_check g) (tm_initialized g).
Definition timer_mgr_zero : TimerManager :=
  mkTimerManager (replicate MAX_TIMERS timer_blank) 0 0 0 false.

Record Timeval := mkTimeval { tv_sec : Z; tv_usec : Z }.
Record Timers := mkTimers { timer_mgr : TimerManager; clock : Timeval }.
#[export] Instance eta_Timers : Eta Timers := fun s => mkTimers (timer_mgr s) (clock s).

(** Milliseconds of the host clock, before truncation. *)
Definition millis (tv : Timeval) : Z := tv_sec tv * 1000 + tv_usec tv / 1000.
Definition get_timestamp (s : Timers) : Z := u32 (millis (clock s)).

Definition set_timer (i : nat) (t : Timer) (g : TimerManager) : TimerManager :=
  g <| timers ::= <[i := t]> |>.

Definition DiagTimer_Init (s : Timers) : bool * Timers :=
  if tm_initialized (timer_mgr s) then (false, s)
  else
    let g := timer_mgr_zero <| next_id := 1 |> <| last_check := get_timestamp s |>
               <| tm_initialized := true |> in
    (true, s <| timer_mgr := g |>).

Definition is_timer (timer_id : Z) (t : Timer) : bool := tm_active t && (tm_id t =? timer_id).
Definition find_timer (timer_id : Z) (g : TimerManager) : option nat :=
  if negb (tm_initialized g) || (timer_id =? 0) then None
  else find_idx (is_timer timer_id) (timer_count g) (timers g).

Definition DiagTimer_Start (type : DiagTimerType) (timeout_ms callback context : Z) (s : Timers)
  : Z * Timers :=
  let g := timer_mgr s in
  if negb (tm_initialized g) || (callback =? 0) || (timeout_ms =? 0) then (0, s)
  else
    let timeout_ms := if timeout_ms <? TIMER_CHECK_INTERVAL then TIMER_CHECK_INTERVAL
                      else timeout_ms in
    match find_free MAX_TIMERS (timers g) with
    | None => (0, s)
    | Some slot =>
        let timer := mkTimer (next_id g) type timeout_ms (get_timestamp s) TIMER_STATE_RUNNING
                       callback context true in
        let g := (set_timer slot timer g) <| next_id ::= fun n => u32 (n + 1) |> in
        let g := if (timer_count g <=? slot)%nat then g <| timer_count := S slot |> else g in
        let g := if next_id g =? 0 then g <| next_id := 1 |> else g in
        (tm_id timer, s <| timer_mgr := g |>)
    end.

(** The loop that lowers the count over the free slots at the end is [shrink]. *)
Definition DiagTimer_Stop (timer_id : Z) (s : Timers) : Timers :=
  match find_timer timer_id (timer_mgr s) with
  | None => s
  | Some i =>
      let g := set_timer i timer_blank (timer_mgr s) in
      s <| timer_mgr := g <| timer_count := shrink (timer_count g) (timers g) |> |>
  end.

Definition DiagTimer_Reset (timer_id : Z) (s : Timers) : Timers :=
  match find_timer timer_id (timer_mgr s) with
  | None => s
  | Some i =>
      match timers (timer_mgr s) !! i with
      | Some t => s <| timer_mgr ::= set_timer i
                    (t <| tm_start_time := get_timestamp s |> <| tm_state := TIMER_STATE_RUNNING |>) |>
      | None => s
      end
  end.

(** [for (i = 0; i < MAX_TIMERS; i++) if (timers[i].active) DiagTimer_Stop(timers[i].id)] *)
Fixpoint stop_all (n i : nat) (s : Timers) : Timers :=
  match n with
  | O => s
  | S n =>
      let s := match timers (timer_mgr s) !! i with
               | Some t => if tm_active t then DiagTimer_Stop (tm_id t) s else s
               | None => s
               end in
      stop_all n (S i) s
  end.
Definition DiagTimer_Deinit (s : Timers) : Timers :=
  if negb (tm_initialized (timer_mgr s)) then s
  else (stop_all MAX_TIMERS 0 s) <| timer_mgr := timer_mgr_zero |>.

(** ** Polling *)

(** A component that holds the timers. *)
Class HasTimers (S : Type) := {
  get_timers : S -> Timers;
  set_timers : Timers -> S -> S;
  get_set_timers t s : get_timers (set_timers t s) = t
}.
#[export] Instance Timers_HasTimers : HasTimers Timers := {
  get_timers s := s; set_timers t _ := t; get_set_timers t _ := eq_refl }.

Definition is_due (now : Z) (t : Timer) : bool :=
  tm_active t && bool_decide (tm_state t = TIMER_STATE_RUNNING)
  && (tm_timeout_ms t <=? u32 (now - tm_start_time t)).

Section process.
Context {S : Type} `{HasTimers S}.
(** What runs when the function at an address is called with a timer
    identifier and a context. *)
Context (run_callback : Z -> Z -> Z -> M S unit).

Definition timers_op {A} (f : Timers -> A * Timers) : M S A := fun s m =>
  let '(a, t) := f (get_timers s) in Some (a, set_timers t s, m).

Definition slot (i : nat) : M S Timer :=
  s ← get; match timers (timer_mgr (get_timers s)) !! i with Some t => mret t | None => fault end.

(** Body of the loop for slot [i]; the pointer [timer] is re-read after the
    callback. *)
Definition process_slot (now : Z) (i : nat) : M S unit :=
  timer ← slot i;
  if is_due now timer then
    timers_op (fun s => (tt, s <| timer_mgr ::=
      set_timer i (timer <| tm_state := TIMER_STATE_EXPIRED |>) |>));;
    (if negb (tm_callback timer =? 0)
     then run_callback (tm_callback timer) (tm_id timer) (tm_context timer) else mret tt);;
    timer ← slot i;
    timers_op (fun s => (tt, DiagTimer_Stop (tm_id timer) s))
  else mret tt.

(** [for (i = 0; i < timer_count; i++)], [n] slots being left; a count beyond
    the array would be an access out of bounds. *)
Fixpoint process_loop (now : Z) (n i : nat) : M S unit :=
  s ← get;
  if (i <? timer_count (timer_mgr (get_timers s)))%nat then
    match n with
    | O => fault
    | Datatypes.S n => process_slot now i;; process_loop now n (Datatypes.S i)
    end
  else mret tt.

Definition DiagTimer_Process : M S unit :=
  s ← get;
  let g := timer_mgr (get_timers s) in
  if negb (tm_initialized g) then mret tt
  else
    let current_time := get_timestamp (get_timers s) in
    let elapsed := u32 (current_time - last_check g) in
    if elapsed <? TIMER_CHECK_INTERVAL then mret tt
    else
      timers_op (fun s => (tt, s <| timer_mgr ::= fun g => g <| last_check := current_time |> |>));;
      process_loop current_time MAX_TIMERS 0.
End process.

Lemma wp_timers_op {S} `{HasTimers S} {A} (f : Timers -> A * Timers) Q (s : S) m :
  Q (f (get_timers s)).1 (set_timers (f (get_timers s)).2 s) m -> wp (timers_op f) Q s m.
Proof. unfold wp, timers_op. by destruct (f (get_timers s)). Qed.

(** ** Invariants

    [shape]: the array has its size and no slot behind the count is in use.
    [wf]: additionally every slot is blank or a running timer, and the live
    identifiers are distinct. *)

Definition shape (s : Timers) : Prop :=
  let g := timer_mgr s in
  length (timers g) = MAX_TIMERS /\ (timer_count g <= MAX_TIMERS)%nat /\
  free_from (timer_count g) (timers g).

Definition timer_ok (t : Timer) : Prop :=
  t = timer_blank \/
  tm_active t = true /\ tm_state t = TIMER_STATE_RUNNING /\
  is_u32 (tm_id t) /\ tm_id t <> 0 /\ tm_callback t <> 0 /\
  TIMER_CHECK_INTERVAL <= tm_timeout_ms t /\ is_u32 (tm_start_time t).

Definition wf (s : Timers) : Prop :=
  shape s /\ tm_initialized (timer_mgr s) = true /\
  is_u32 (next_id (timer_mgr s)) /\ next_id (timer_mgr s) <> 0 /\
  Forall timer_ok (timers (timer_mgr s)) /\ slots_uniq (timers (timer_mgr s)).

(** The timers as a finite map from identifiers. *)
Definition timer_map (s : Timers) : gmap Z Timer :=
  slot_map (timers (timer_mgr s)).

Lemma inactive_behind s i t :
  shape s -> timers (timer_mgr s) !! i = Some t -> tm_active t = true ->
  (i < timer_count (timer_mgr s))%nat.
Proof. intros (_ & _ & Hd) Ht Ha. by eapply free_from_used. Qed.

(** Search by identifier finds the one live slot that has it. *)
Lemma find_timer_live s i t :
  wf s -> timers (timer_mgr s) !! i = Some t -> tm_active t = true ->
  find_timer (tm_id t) (timer_mgr s) = Some i.
Proof.
  intros (Hsh & Hin & _ & _ & Hok & Hu) Ht Ha. unfold find_timer.
  rewrite Forall_lookup in Hok. destruct (Hok _ _ Ht) as [->|(_ & _ & _ & Hid & _)]; [done|].
  rewrite Hin, (proj2 (Z.eqb_neq _ _) Hid). simpl. apply find_idx_Some. exists t.
  split_and!; [done|by eapply inactive_behind| |].
  - unfold is_timer. by rewrite Ha, Z.eqb_refl.
  - intros j u Hj Hu'. unfold is_timer. destruct (tm_active u) eqn:Eu; [|done]. simpl.
    apply Z.eqb_neq. intros Hid'. assert (j = i) by (eapply used_uniq; eauto). lia.
Qed.

Lemma find_timer_Some x s i :
  find_timer x (timer_mgr s) = Some i ->
  exists t, timers (timer_mgr s) !! i = Some t /\ tm_active t = true /\ tm_id t = x /\
    (i < timer_count (timer_mgr s))%nat.
Proof.
  unfold find_timer. destruct (_ || _); [done|]. intros (t & ? & ? & Hp & _)%find_idx_Some.
  unfold is_timer in Hp. tests. eauto.
Qed.

Lemma timer_map_lookup s i t :
  wf s -> timers (timer_mgr s) !! i = Some t -> tm_active t = true ->
  timer_map s !! tm_id t = Some t.
Proof. intros (_ & _ & _ & _ & _ & Hu) Ht Ha. exact (slot_map_Some _ i t Hu Ht Ha). Qed.

Lemma find_timer_None x s :
  wf s -> find_timer x (timer_mgr s) = None -> timer_map s !! x = None.
Proof.
  intros Hw Hf. destruct (timer_map s !! x) as [t|] eqn:E; [|done].
  apply slot_map_inv in E as (i & Hi & Ha & <-); [|apply Hw].
  pose proof (find_timer_live s i t Hw Hi Ha). simpl in Hf. congruence.
Qed.

(** Blanking a live slot. *)
Lemma stop_slot s i t :
  wf s -> timers (timer_mgr s) !! i = Some t -> tm_active t = true ->
  let s' := DiagTimer_Stop (tm_id t) s in
  wf s' /\ timers (timer_mgr s') = <[i := timer_blank]> (timers (timer_mgr s)) /\
  timer_map s' = delete (tm_id t) (timer_map s) /\ clock s' = clock s /\
  last_check (timer_mgr s') = last_check (timer_mgr s).
Proof.
  intros Hw Ht Ha. unfold DiagTimer_Stop. erewrite find_timer_live by eauto. simpl.
  destruct Hw as ((Hl & Hc & Hd) & Hin & Hn & Hn0 & Hok & Hu).
  destruct (slot_blank (timers (timer_mgr s)) i timer_blank t) as [Hu' Hm]; [done..|].
  split_and!; try done. split_and!; simpl; auto.
  - split_and!; simpl; [by rewrite length_insert|..].
    + pose proof (shrink_le (timer_count (timer_mgr s))
        (<[i:=timer_blank]> (timers (timer_mgr s)))). lia.
    + apply shrink_free, free_from_insert; [by right|done].
  - apply Forall_insert; [done|]. by left.
Qed.

Lemma stop_absent x s : find_timer x (timer_mgr s) = None -> DiagTimer_Stop x s = s.
Proof. unfold DiagTimer_Stop. by intros ->. Qed.

(** The slot [DiagTimer_Start] fills. *)
Definition started (type : DiagTimerType) (timeout_ms callback context : Z) (s : Timers) : Timer :=
  mkTimer (next_id (timer_mgr s)) type (Z.max TIMER_CHECK_INTERVAL timeout_ms) (get_timestamp s)
    TIMER_STATE_RUNNING callback context true.
Definition id_after (n : Z) : Z := if u32 (n + 1) =? 0 then 1 else u32 (n + 1).

Lemma start_slot ty d cb cx s i :
  wf s -> is_u32 d -> d <> 0 -> cb <> 0 ->
  timer_map s !! next_id (timer_mgr s) = None ->
  find_free MAX_TIMERS (timers (timer_mgr s)) = Some i ->
  let t := started ty d cb cx s in
  let '(id, s') := DiagTimer_Start ty d cb cx s in
  id = next_id (timer_mgr s) /\ wf s' /\
  timers (timer_mgr s') = <[i := t]> (timers (timer_mgr s)) /\
  timer_map s' = <[id := t]> (timer_map s) /\ clock s' = clock s /\
  last_check (timer_mgr s') = last_check (timer_mgr s) /\
  next_id (timer_mgr s') = id_after id.
Proof.
  intros Hw Hd Hd0 Hcb Hfresh Hi. assert (Hw' := Hw).
  destruct Hw' as ((Hl & Hc & Hdr) & Hin & Hn & Hn0 & Hok & Hu).
  unfold DiagTimer_Start. rewrite Hin, (proj2 (Z.eqb_neq _ _) Hcb), (proj2 (Z.eqb_neq _ _) Hd0), Hi.
  simpl. replace (if d <? TIMER_CHECK_INTERVAL then _ else _) with (Z.max TIMER_CHECK_INTERVAL d)
    by (destruct (Z.ltb_spec d TIMER_CHECK_INTERVAL); lia).
  fold (started ty d cb cx s). set (t := started ty d cb cx s).
  pose proof (find_free_size MAX_TIMERS _ Hu Hl) as Hfree. rewrite Hi in Hfree.
  destruct Hfree as (_ & Hilt & u & Hu' & Hua).
  destruct (slot_fill (timers (timer_mgr s)) i t u) as [Hu1 Hm]; [done..|].
  set (g := if next_id _ =? 0 then _ else _).
  assert (Hg : g = mkTimerManager (<[i := t]> (timers (timer_mgr s)))
    (Nat.max (timer_count (timer_mgr s)) (S i)) (id_after (next_id (timer_mgr s)))
    (last_check (timer_mgr s)) true).
  { unfold g, id_after, set_timer.
    destruct (Nat.leb_spec (timer_count (timer_mgr s)) i); simpl;
      (destruct (_ =? 0); unfold setf; simpl; rewrite <- Hin; f_equal; lia). }
  rewrite Hg. clear g Hg.
  split_and!; [done|split_and!; simpl; try done|..]; simpl; try done.
  - split_and!; simpl; [by rewrite length_insert|lia|].
    apply free_from_insert; [left; lia|]. eapply free_from_mono; [|done]. lia.
  - unfold id_after. destruct (_ =? 0); auto with cant. unfold is_u32; lia.
  - unfold id_after. destruct (_ =? 0) eqn:E; tests; lia.
  - apply Forall_insert; [done|]. right. unfold t, started; simpl.
    split_and!; try done; [lia|]. apply u32_range.
Qed.

Lemma reset_slot s i t :
  wf s -> timers (timer_mgr s) !! i = Some t -> tm_active t = true ->
  let t' := t <| tm_start_time := get_timestamp s |> in
  let s' := DiagTimer_Reset (tm_id t) s in
  wf s' /\ timers (timer_mgr s') = <[i := t']> (timers (timer_mgr s)) /\
  timer_map s' = <[tm_id t := t']> (timer_map s) /\ clock s' = clock s /\
  next_id (timer_mgr s') = next_id (timer_mgr s).
Proof.
  intros Hw Ht Ha. assert (Hw' := Hw).
  destruct Hw' as ((Hl & Hc & Hd) & Hin & Hn & Hn0 & Hok & Hu).
  unfold DiagTimer_Reset. erewrite find_timer_live by eauto. rewrite Ht.
  assert (Hokt : timer_ok t) by (rewrite Forall_lookup in Hok; eauto).
  destruct Hokt as [->|(_ & Hst & Hid)]; [done|].
  set (t' := t <| tm_start_time := _ |>).
  replace (_ <| tm_state := _ |>) with t'
    by (unfold t'; destruct t; simpl in *; by subst).
  destruct (slot_update (timers (timer_mgr s)) i t' t) as [Hu' Hm]; [done..|].
  split_and!; simpl; try done. split_and!; simpl; try done.
  - split_and!; simpl; [by rewrite length_insert|done|].
    apply free_from_insert; [|done]. left. eapply inactive_behind; [by split_and!|done|done].
  - apply Forall_insert; [done|]. right. unfold t'; simpl. split_and!; try naive_solver.
    apply u32_range.
Qed.

(** ** Polling with callbacks that leave the timers alone *)

(** A callback outside the program. *)
Definition log_callback (f x c : Z) : M Timers unit := emit "timer" [f; x; c].
Definition fired (t : Timer) : Call := call "timer" [tm_callback t; tm_id t; tm_context t].
Definition after_poll (now : Z) (t : Timer) : Timer := if is_due now t then timer_blank else t.
Definition due (now : Z) (l : list Timer) : list Timer := filter (fun t => is_due now t = true) l.

Lemma is_due_active now t : is_due now t = true -> tm_active t = true.
Proof. unfold is_due. intros H. by tests. Qed.

Lemma due_inactive now l :
  Forall (fun t => tm_active t = false) l -> due now l = [] /\ after_poll now <$> l = l.
Proof.
  induction 1 as [|t l Ht Hl [IH1 IH2]]; [done|].
  assert (Hd : is_due now t = false) by (unfold is_due; by rewrite Ht).
  split.
  - unfold due in *. by rewrite filter_cons, decide_False, IH1 by (by rewrite Hd).
  - rewrite fmap_cons, IH2. unfold after_poll. by rewrite Hd.
Qed.

(** Stopping a slot whose state is already EXPIRED. *)
Lemma stop_expired s i t :
  wf s -> timers (timer_mgr s) !! i = Some t -> tm_active t = true ->
  DiagTimer_Stop (tm_id t)
    (s <| timer_mgr ::= set_timer i (t <| tm_state := TIMER_STATE_EXPIRED |>) |>) =
  DiagTimer_Stop (tm_id t) s.
Proof.
  intros Hw Ht Ha. assert (Hf := find_timer_live _ _ _ Hw Ht Ha).
  unfold DiagTimer_Stop. rewrite Hf.
  set (t' := t <| tm_state := _ |>).
  assert (find_timer (tm_id t) (set_timer i t' (timer_mgr s)) = Some i) as Hf'.
  { revert Hf. unfold find_timer, set_timer; simpl. destruct (_ || _); [done|].
    intros (u & Hu & Hi & Hp & Hmin)%find_idx_Some. apply find_idx_Some.
    simplify_eq. exists t'. split_and!; auto.
    - apply list_lookup_insert_eq. by eapply lookup_lt_Some.
    - intros j v Hj Hv. rewrite list_lookup_insert_ne in Hv by lia. eauto. }
  simpl. rewrite Hf'. unfold set_timer, setf; simpl. by rewrite list_insert_insert_eq.
Qed.

Lemma process_loop_exact now n i s m :
  wf s -> (n + i)%nat = MAX_TIMERS ->
  wp (process_loop log_callback now n i) (fun _ s' m' =>
    wf s' /\ clock s' = clock s /\ last_check (timer_mgr s') = last_check (timer_mgr s) /\
    next_id (timer_mgr s') = next_id (timer_mgr s) /\
    timers (timer_mgr s') = take i (timers (timer_mgr s)) ++
      (after_poll now <$> drop i (timers (timer_mgr s))) /\
    m' = m <| trace ::= fun t => t ++ (fired <$> due now (drop i (timers (timer_mgr s)))) |>) s m.
Proof.
  revert i s m. induction n as [|n IH]; intros i s m Hw Hni; simpl; apply wp_bind, wp_get; simpl;
    destruct (Nat.ltb_spec i (timer_count (timer_mgr s))) as [Hi|Hi];
    try (destruct Hw as ((? & ? & ?) & _); lia).
  1,3: apply wp_ret; destruct Hw as ((Hl & Hc & Hd) & Hw);
    assert (Hd' : Forall (fun t => tm_active t = false) (drop i (timers (timer_mgr s))))
      by (replace i with (timer_count (timer_mgr s) + (i - timer_count (timer_mgr s)))%nat by lia;
          rewrite <- drop_drop; by apply Forall_drop);
    destruct (due_inactive now _ Hd') as [-> ->]; rewrite take_drop; simpl;
    rewrite app_nil_r; split_and!; try done; by destruct m.
  destruct (lookup_lt_is_Some_2 (timers (timer_mgr s)) i) as [t Ht];
    [destruct Hw as ((-> & ? & ?) & _); lia|].
  rewrite (drop_S _ _ _ Ht). unfold due at 1. rewrite filter_cons. fold (due now).
  apply wp_bind. unfold process_slot, slot. apply wp_bind, wp_bind, wp_get. simpl. rewrite Ht.
  apply wp_ret.
  destruct (is_due now t) eqn:Edue.
  - assert (Ha := is_due_active _ _ Edue). rewrite decide_True by done.
    destruct (stop_slot s i t Hw Ht Ha) as (Hw' & Hl' & _ & Hc' & Hlc').
    assert (Hcb : tm_callback t <> 0).
    { destruct Hw as (_ & _ & _ & _ & Hok & _). rewrite Forall_lookup in Hok.
      destruct (Hok _ _ Ht) as [->|]; [done|naive_solver]. }
    apply wp_bind. unfold wp at 1, timers_op. simpl. apply wp_bind.
    rewrite (proj2 (Z.eqb_neq _ _) Hcb). simpl. apply wp_emit, wp_bind, wp_bind, wp_get. simpl.
    rewrite list_lookup_insert_eq by (by eapply lookup_lt_Some). apply wp_ret.
    assert (Hse := stop_expired s i t Hw Ht Ha). unfold wp at 1, timers_op. simpl in Hse |- *.
    rewrite Hse.
    eapply wp_mono; [apply IH; [done|lia]|]. simpl.
    intros _ s' m' (? & Hc2 & Hlc2 & Hn2 & Hl2 & ->). split_and!; [done|congruence|congruence|..].
    + rewrite Hn2. unfold DiagTimer_Stop. by destruct (find_timer _ _).
    + rewrite Hl2, Hl'. rewrite (take_S_r _ _ timer_blank)
        by (apply list_lookup_insert_eq; by eapply lookup_lt_Some).
      rewrite take_insert_ge, drop_insert_lt by lia. rewrite <- app_assoc. simpl.
      replace (after_poll now t) with timer_blank by (unfold after_poll; by rewrite Edue). done.
    + rewrite Hl', drop_insert_lt by lia. unfold setf; simpl. by rewrite <- app_assoc.
  - rewrite decide_False by done. apply wp_ret.
    eapply wp_mono; [apply IH; [done|lia]|]. simpl.
    intros _ s' m' (? & ? & ? & ? & Hl2 & ->). split_and!; try done.
    rewrite Hl2, (take_S_r _ _ t Ht), <- app_assoc. simpl.
    replace (after_poll now t) with t by (unfold after_poll; by rewrite Edue). done.
Qed.

Definition too_early (s : Timers) : bool :=
  u32 (get_timestamp s - last_check (timer_mgr s)) <? TIMER_CHECK_INTERVAL.

Lemma process_step s m :
  wf s ->
  wp (DiagTimer_Process log_callback) (fun _ s' m' =>
    let now := get_timestamp s in
    wf s' /\ clock s' = clock s /\ next_id (timer_mgr s') = next_id (timer_mgr s) /\
    last_check (timer_mgr s') = (if too_early s then last_check (timer_mgr s) else now) /\
    timers (timer_mgr s') = (if too_early s then timers (timer_mgr s)
                             else after_poll now <$> timers (timer_mgr s)) /\
    m' = m <| trace ::= fun t => t ++ if too_early s then []
                               else fired <$> due now (timers (timer_mgr s)) |>) s m.
Proof.
  intros Hw. unfold DiagTimer_Process. apply wp_bind, wp_get. cbn -[process_loop MAX_TIMERS].
  destruct (tm_initialized (timer_mgr s)) eqn:E; [|destruct Hw as (_ & ? & _); congruence].
  unfold too_early. cbn -[process_loop MAX_TIMERS]. destruct (_ <? _).
  { apply wp_ret. rewrite app_nil_r. split_and!; try done. by destruct m. }
  apply wp_bind, wp_timers_op. cbn -[process_loop MAX_TIMERS].
  set (s1 := mkTimers _ _). assert (Hw1 : wf s1) by exact Hw.
  eapply wp_mono; [apply (process_loop_exact _ _ 0 s1); done|]. simpl.
  intros _ s' m' (? & ? & ? & ? & -> & ->). rewrite drop_0. done.
Qed.

(** The clock moves on and the application polls. *)
Definition poll (tv : Timeval) : M Timers unit :=
  modify (fun s => s <| clock := tv |>);; DiagTimer_Process log_callback.
Fixpoint polls (ts : list Timeval) : M Timers unit :=
  match ts with [] => mret tt | tv :: ts => poll tv;; polls ts end.
(** Poll times never go back. *)
Fixpoint monotone (from : Z) (ts : list Timeval) : Prop :=
  match ts with [] => True | tv :: ts => from <= millis tv /\ monotone (millis tv) ts end.
Fixpoint last_time (from : Z) (ts : list Timeval) : Z :=
  match ts with [] => from | tv :: ts => last_time (millis tv) ts end.

Lemma monotone_last c ts : monotone c ts -> c <= last_time c ts.
Proof.
  revert c. induction ts as [|tv ts IH]; simpl; intros c; [lia|].
  intros [Hc Hm]. specialize (IH _ Hm). lia.
Qed.

(** How often a timer's callback was called. *)
Definition calls (t : Timer) (tr : list Call) : nat := length (filter (fun c => c = fired t) tr).

Lemma calls_app t a b : calls t (a ++ b) = (calls t a + calls t b)%nat.
Proof. unfold calls. by rewrite filter_app, length_app. Qed.

Lemma due_live now l : used (after_poll now <$> l) ⊆ used l /\ due now l ⊆ used l.
Proof.
  unfold used, due. split; intros t; rewrite !list_elem_of_filter.
  - intros [Ha (u & -> & Hu)%list_elem_of_fmap]. revert Ha. unfold after_poll.
    by destruct (is_due now u).
  - intros [Hd Ht]. split; [by eapply is_due_active|done].
Qed.

Lemma calls_not_live t now l :
  tm_id t ∉ tm_id <$> used l -> calls t (fired <$> due now l) = 0%nat.
Proof.
  intros Hn. unfold calls. apply length_zero_iff_nil, elem_of_nil_inv.
  intros c [Hc (u & -> & Hu)%list_elem_of_fmap]%list_elem_of_filter. injection Hc as _ Hid _. apply Hn. apply list_elem_of_fmap.
  exists u. split; [done|]. by apply (due_live now l).
Qed.

Lemma polls_quiet t ts s m :
  wf s -> tm_id t ∉ tm_id <$> used (timers (timer_mgr s)) ->
  wp (polls ts) (fun _ s' m' => wf s' /\ calls t (trace m') = calls t (trace m) /\
    tm_id t ∉ tm_id <$> used (timers (timer_mgr s'))) s m.
Proof.
  revert s m. induction ts as [|tv ts IH]; intros s m Hw Hn; simpl; [by apply wp_ret|].
  apply wp_bind. unfold poll. apply wp_bind, wp_modify. simpl.
  set (s1 := mkTimers _ _). assert (Hw1 : wf s1) by exact Hw.
  eapply wp_mono; [apply (process_step s1); done|].
  intros _ s2 m2 (Hw2 & _ & _ & _ & Hl & ->).
  eapply wp_mono; [apply IH; [done|]|].
  - rewrite Hl. destruct (too_early s1); [done|]. intros (u & Hu & Hu')%list_elem_of_fmap.
    apply Hn, list_elem_of_fmap. exists u. split; [done|]. by apply (proj1 (due_live (get_timestamp s1) (timers (timer_mgr s1)))).
  - simpl. intros _ s3 m3 (? & -> & ?). split_and!; try done. rewrite calls_app.
    destruct (too_early s1); [done|]. rewrite calls_not_live by done. lia.
Qed.

Lemma after_poll_id now (l : list Timer) i t :
  l !! i = Some t -> is_due now t = false -> (after_poll now <$> l) !! i = Some t.
Proof. intros Ht Hd. rewrite list_lookup_fmap, Ht. simpl. unfold after_poll. by rewrite Hd. Qed.

Lemma calls_due now (l : list Timer) i t :
  slots_uniq l -> l !! i = Some t -> tm_active t = true ->
  calls t (fired <$> due now l) = (if is_due now t then 1 else 0)%nat /\
  (is_due now t = true -> tm_id t ∉ tm_id <$> used (after_poll now <$> l)).
Proof.
  intros Hu Ht Ha.
  assert (Hother : forall j u, l !! j = Some u -> tm_active u = true -> tm_id u = tm_id t -> j = i)
    by (intros; eapply used_uniq; eauto).
  split.
  - rewrite <- (take_drop_middle l i t Ht). unfold due, calls.
    rewrite filter_app, filter_cons, fmap_app, filter_app, length_app.
    assert (Hq : forall k, (forall j u, k !! j = Some u -> tm_active u = true -> tm_id u <> tm_id t) ->
      length (filter (fun c => c = fired t) (fired <$> filter (fun t => is_due now t = true) k)) = 0%nat).
    { intros k Hk. apply (calls_not_live t now k). intros (u & Hu' & Hin)%list_elem_of_fmap.
      apply used_inv in Hin as (j & Hj & Hau). by apply (Hk j u). }
    rewrite Hq by (intros j u [Hj Hji]%lookup_take_Some Hau Hid;
                   pose proof (Hother _ _ Hj Hau Hid); lia).
    assert (Hd0 : forall j u, drop (S i) l !! j = Some u -> tm_active u = true -> tm_id u <> tm_id t)
      by (intros j u Hj Hau Hid; rewrite lookup_drop in Hj; pose proof (Hother _ _ Hj Hau Hid); lia).
    case_decide as Hd; [rewrite Hd, fmap_cons, filter_cons, decide_True by done; simpl
                       |apply not_true_is_false in Hd; rewrite Hd; simpl]; by rewrite Hq.
  - intros Hd (u & Hid & Hin)%list_elem_of_fmap.
    apply used_inv in Hin as (j & Hj & Hau).
    rewrite list_lookup_fmap in Hj. destruct (l !! j) as [v|] eqn:Ev; [|done]. simpl in Hj.
    simplify_eq. unfold after_poll in Hau, Hid. destruct (is_due now v) eqn:Edv; [done|].
    assert (j = i) as -> by (eapply Hother; eauto; done). congruence.
Qed.

(** A running timer started at [T0] and checked last at [L], both before the
    present time [c]. *)
Lemma polls_fire t i d T0 L c ts s m :
  wf s -> timers (timer_mgr s) !! i = Some t -> tm_active t = true ->
  tm_timeout_ms t = d -> tm_start_time t = u32 T0 -> last_check (timer_mgr s) = u32 L ->
  T0 <= c -> L <= c -> L < T0 + d ->
  monotone c ts -> last_time c ts < T0 + 2 ^ 32 -> last_time c ts < L + 2 ^ 32 ->
  wp (polls ts) (fun _ s' m' => wf s' /\
    (last_time c ts < T0 + d ->
     calls t (trace m') = calls t (trace m) /\ timers (timer_mgr s') !! i = Some t) /\
    (ts <> [] -> T0 + d + TIMER_CHECK_INTERVAL <= last_time c ts ->
     calls t (trace m') = S (calls t (trace m)) /\
     tm_id t ∉ tm_id <$> used (timers (timer_mgr s')))) s m.
Proof.
  revert s m L c. induction ts as [|tv ts IH]; intros s m L c Hw Ht Ha Hd Hst Hlc Hc HL HLd Hm Hb1 Hb2.
  { by apply wp_ret. }
  simpl in Hm, Hb1, Hb2. destruct Hm as [Hcm Hm]. pose proof (monotone_last _ _ Hm) as Hlast.
  simpl. apply wp_bind. unfold poll. apply wp_bind, wp_modify. simpl.
  set (s1 := mkTimers _ _). assert (Hw1 : wf s1) by exact Hw.
  assert (Hdue : is_due (get_timestamp s1) t = (d <=? millis tv - T0)).
  { assert (timer_ok t) as [->|(_ & Hr & _)]
      by (destruct Hw as (_ & _ & _ & _ & Hok & _); rewrite Forall_lookup in Hok; eauto); [done|].
    unfold is_due, get_timestamp, s1. simpl. rewrite Ha, Hr, Hst, Hd, bool_decide_true by done. simpl.
    by rewrite u32_diff by lia. }
  assert (Hearly : too_early s1 = (millis tv - L <? TIMER_CHECK_INTERVAL)).
  { unfold too_early, get_timestamp, s1. simpl. by rewrite Hlc, u32_diff by lia. }
  eapply wp_mono; [apply (process_step s1); done|].
  intros _ s2 m2 (Hw2 & _ & _ & Hlc2 & Hl2 & ->). rewrite Hearly in *.
  destruct (Z.ltb_spec (millis tv - L) TIMER_CHECK_INTERVAL) as [He|He].
  - eapply wp_mono; [apply (IH s2 _ L (millis tv)); auto; try lia|].
    + by rewrite Hl2.
    + by rewrite Hlc2.
    + simpl. rewrite calls_app. simpl. intros _ s3 m3 (? & H1 & H2). split_and!; [done|..].
      * intros Hlt. destruct (H1 Hlt) as [-> ?]. split; [unfold calls; simpl; lia|done].
      * intros _ Hge. destruct ts as [|tv' ts']; [simpl in *; unfold TIMER_CHECK_INTERVAL in *; lia|].
        destruct H2 as [-> ?]; [done|done|]. split; [unfold calls; simpl; lia|done].
  - destruct (calls_due (get_timestamp s1) _ i t (proj2 (proj2 (proj2 (proj2 (proj2 Hw))))) Ht Ha)
      as [Hcalls Hgone].
    rewrite Hdue in *. destruct (Z.leb_spec d (millis tv - T0)) as [Hge|Hlt].
    + eapply wp_mono; [apply (polls_quiet t); [done|rewrite Hl2; by apply Hgone]|]. simpl.
      intros _ s3 m3 (? & -> & ?). split_and!; [done|lia|]. intros _ _. split; [|done].
      rewrite calls_app. change (timers (timer_mgr s1)) with (timers (timer_mgr s)). lia.
    + eapply wp_mono; [apply (IH s2 _ (millis tv) (millis tv)); auto; try lia|].
      * rewrite Hl2. by apply after_poll_id.
      * simpl. rewrite calls_app. change (timers (timer_mgr s1)) with (timers (timer_mgr s)).
        rewrite Hcalls, Nat.add_0_r. intros _ s3 m3 (? & H1 & H2). split_and!; [done|done|].
        intros _ Hge. destruct ts as [|tv' ts']; [simpl in *; unfold TIMER_CHECK_INTERVAL in *; lia|].
        by apply H2.
Qed.

Lemma free_slot s :
  wf s ->
  match find_free MAX_TIMERS (timers (timer_mgr s)) with
  | Some _ => (size (timer_map s) < MAX_TIMERS)%nat
  | None => size (timer_map s) = MAX_TIMERS
  end.
Proof.
  intros ((Hl & _) & _ & _ & _ & _ & Hu). pose proof (find_free_size MAX_TIMERS _ Hu Hl) as Hf.
  unfold timer_map. destruct (find_free _ _); [by destruct Hf|done].
Qed.

(** A timer started with [DiagTimer_Init] behind it and fewer than 2^32 - 1
    earlier starts gets a fresh identifier: live identifiers are below the
    next one. *)
Inductive timer_run : nat -> Timers -> Prop :=
| run_init s : tm_initialized (timer_mgr s) = false -> timer_run 0 (DiagTimer_Init s).2
| run_start n s ty d cb cx :
    timer_run n s -> is_u32 d -> timer_run (S n) (DiagTimer_Start ty d cb cx s).2
| run_stop n s x : timer_run n s -> timer_run n (DiagTimer_Stop x s)
| run_reset n s x : timer_run n s -> timer_run n (DiagTimer_Reset x s)
| run_poll n s tv m s' m' :
    timer_run n s -> poll tv s m = Some (tt, s', m') -> timer_run n s'.

Definition below_next (s : Timers) : Prop :=
  map_Forall (fun id _ => id < next_id (timer_mgr s)) (timer_map s).

Lemma stop_wf x s : wf s ->
  wf (DiagTimer_Stop x s) /\ timer_map (DiagTimer_Stop x s) = delete x (timer_map s).
Proof.
  intros Hw. destruct (find_timer x (timer_mgr s)) as [i|] eqn:E.
  - apply find_timer_Some in E as (t & Ht & Ha & <- & _). by edestruct stop_slot as (? & _ & ? & _).
  - rewrite stop_absent by done. split; [done|]. symmetry. apply delete_id.
    by apply find_timer_None.
Qed.

Lemma stop_next x s : next_id (timer_mgr (DiagTimer_Stop x s)) = next_id (timer_mgr s).
Proof. unfold DiagTimer_Stop. by destruct (find_timer _ _). Qed.

Lemma reset_wf x s : wf s ->
  wf (DiagTimer_Reset x s) /\ next_id (timer_mgr (DiagTimer_Reset x s)) = next_id (timer_mgr s) /\
  timer_map (DiagTimer_Reset x s) =
    alter (fun t => t <| tm_start_time := get_timestamp s |>) x (timer_map s).
Proof.
  intros Hw. destruct (find_timer x (timer_mgr s)) as [i|] eqn:E.
  - apply find_timer_Some in E as (t & Ht & Ha & <- & _).
    destruct (reset_slot s i t Hw Ht Ha) as (? & _ & -> & _ & ?). split_and!; try done.
    apply map_eq. intros k. destruct (decide (k = tm_id t)) as [->|].
    + rewrite lookup_insert_eq, lookup_alter_eq. by erewrite timer_map_lookup.
    + by rewrite lookup_insert_ne, lookup_alter_ne.
  - unfold DiagTimer_Reset. rewrite E. split_and!; try done.
    apply map_eq. intros k. destruct (decide (k = x)) as [->|]; [|by rewrite lookup_alter_ne].
    rewrite lookup_alter_eq. destruct (stop_wf x s Hw) as [_ Hm].
    rewrite stop_absent in Hm by done. rewrite Hm. by rewrite lookup_delete_eq.
Qed.

Lemma start_full ty d cb cx s :
  wf s -> size (timer_map s) = MAX_TIMERS -> DiagTimer_Start ty d cb cx s = (0, s).
Proof.
  intros Hw Hf. unfold DiagTimer_Start. destruct (_ || _); [done|].
  pose proof (free_slot s Hw) as Hs. destruct (find_free _ _); [lia|done].
Qed.

Lemma start_refused ty d cb cx s :
  cb = 0 \/ d = 0 -> DiagTimer_Start ty d cb cx s = (0, s).
Proof.
  intros H. unfold DiagTimer_Start. destruct (_ || _) eqn:E; [done|]. tests. destruct H; congruence.
Qed.

Lemma poll_wf tv s m :
  wf s -> wp (poll tv) (fun _ s' _ => wf s' /\ next_id (timer_mgr s') = next_id (timer_mgr s) /\
    timer_map s' ⊆ timer_map s) s m.
Proof.
  intros Hw. unfold poll. apply wp_bind, wp_modify. simpl.
  set (s1 := mkTimers _ _). assert (Hw1 : wf s1) by exact Hw.
  eapply wp_mono; [apply (process_step s1); done|].
  intros _ s' m' (Hw' & _ & Hn & _ & Hl & _). split_and!; try done.
  apply map_subseteq_spec. intros k t Hk.
  apply slot_map_inv in Hk as (i & Hi & Ha & <-); [|apply Hw'].
  assert (t ∈ used (timers (timer_mgr s))) as (j & Hj & _)%used_inv.
  { assert (Ht := used_lookup _ _ _ Hi Ha). revert Ht. rewrite Hl. destruct (too_early s1); [done|].
    apply (due_live (get_timestamp s1) (timers (timer_mgr s1))). }
  by apply (timer_map_lookup s j).
Qed.

Lemma init_wf s :
  tm_initialized (timer_mgr s) = false ->
  wf (DiagTimer_Init s).2 /\ timer_map (DiagTimer_Init s).2 = ∅ /\
  next_id (timer_mgr (DiagTimer_Init s).2) = 1.
Proof.
  intros Hi. unfold DiagTimer_Init. rewrite Hi. split_and!; [|done|done].
  split_and!; simpl; try done; try (unfold is_u32; lia).
  - split_and!; simpl; [done|unfold MAX_TIMERS; lia|by repeat constructor].
  - repeat (constructor; [by left|]). constructor.
  - apply NoDup_nil_2.
Qed.

Lemma timer_run_below n s :
  timer_run n s -> (Z.of_nat n < 2 ^ 32 - 1) ->
  wf s /\ below_next s /\ next_id (timer_mgr s) <= Z.of_nat n + 1.
Proof.
  induction 1 as [s Hi|n s ty d cb cx Hr IH Hd|n s x Hr IH|n s x Hr IH|n s tv m s' m' Hr IH Hp];
    intros Hn; [|destruct IH as (Hw & Hb & Hx); [lia|]..].
  - destruct (init_wf s Hi) as (? & Hm & Hn1). unfold below_next. rewrite Hm, Hn1. by split_and!.
  - destruct (decide (cb = 0 \/ d = 0)) as [Hz|Hz].
    { rewrite start_refused by done. split_and!; try done. simpl. lia. }
    pose proof (free_slot s Hw) as Hf.
    destruct (find_free _ _) as [i|] eqn:E;
      [|rewrite start_full by done; split_and!; try done; simpl; lia].
    assert (Hfresh : timer_map s !! next_id (timer_mgr s) = None).
    { destruct (timer_map s !! _) as [t|] eqn:Et; [|done]. specialize (Hb _ _ Et). simpl in Hb. lia. }
    pose proof (start_slot ty d cb cx s i Hw Hd ltac:(naive_solver) ltac:(naive_solver) Hfresh E) as Hs.
    destruct (DiagTimer_Start ty d cb cx s) as [id s']. simpl.
    destruct Hs as (-> & Hw' & _ & Hm & _ & _ & Hid).
    assert (Hu : u32 (next_id (timer_mgr s) + 1) = next_id (timer_mgr s) + 1).
    { apply u32_small. destruct Hw as (_ & _ & [? ?] & _). unfold is_u32. lia. }
    assert (Hid' : next_id (timer_mgr s') = next_id (timer_mgr s) + 1).
    { rewrite Hid. unfold id_after. rewrite Hu. destruct Hw as (_ & _ & [? ?] & _).
      destruct (Z.eqb_spec (next_id (timer_mgr s) + 1) 0); lia. }
    split_and!; [done| |lia]. unfold below_next. rewrite Hm, Hid'.
    apply map_Forall_insert_2; [lia|]. eapply map_Forall_impl; [done|]. simpl. lia.
  - destruct (stop_wf x s Hw) as [? Hm]. unfold below_next. rewrite Hm, stop_next.
    split_and!; try done. by apply map_Forall_delete.
  - destruct (reset_wf x s Hw) as (? & Hx' & Hm). unfold below_next. rewrite Hm, Hx'.
    split_and!; try done. intros k t. rewrite lookup_alter_Some.
    intros [(-> & u & Hu & _)|[_ Hu]]; by specialize (Hb _ _ Hu).
  - pose proof (poll_wf tv s m Hw) as Hp'. unfold wp in Hp'. rewrite Hp in Hp'.
    destruct Hp' as (? & Hx' & Hsub). rewrite Hx'. split_and!; try done.
    unfold below_next. rewrite Hx'. intros k t Hk. eapply Hb. by eapply map_subseteq_spec.
Qed.

(** ** Properties *)

(** C11. The timer slots implement a finite map from identifiers to timers:
    [DiagTimer_Start] adds a timer under the next identifier, with at least the
    check interval as timeout, and fails without effect exactly when an
    argument is NULL or zero or all 32 slots are taken; [DiagTimer_Stop] removes the
    identifier and [DiagTimer_Reset] restarts it, and neither does anything to an
    unknown one; all keep the invariant. *)
Theorem diag_timer_refines_map s :
  wf s -> timer_map s !! next_id (timer_mgr s) = None ->
  (forall ty d cb cx, is_u32 d ->
    let '(id, s') := DiagTimer_Start ty d cb cx s in
    wf s' /\
    if decide (d = 0 \/ cb = 0 \/ size (timer_map s) = MAX_TIMERS) then id = 0 /\ s' = s
    else id = next_id (timer_mgr s) /\
         timer_map s' = <[id := started ty d cb cx s]> (timer_map s)) /\
  (forall x, wf (DiagTimer_Stop x s) /\ timer_map (DiagTimer_Stop x s) = delete x (timer_map s)) /\
  (forall x, wf (DiagTimer_Reset x s) /\ timer_map (DiagTimer_Reset x s) =
     alter (fun t => t <| tm_start_time := get_timestamp s |>) x (timer_map s)).
Proof.
  intros Hw Hfresh. split_and!; [|by intros x; apply stop_wf|].
  - intros ty d cb cx Hd. case_decide as Hc.
    + enough (DiagTimer_Start ty d cb cx s = (0, s)) as -> by done.
      destruct Hc as [->|[->|Hf]]; [by apply start_refused; right|by apply start_refused; left|].
      by apply start_full.
    + pose proof (free_slot s Hw) as Hf. destruct (find_free _ _) as [i|] eqn:E; [|naive_solver].
      pose proof (start_slot ty d cb cx s i Hw Hd ltac:(naive_solver) ltac:(naive_solver) Hfresh E) as Hs.
      destruct (DiagTimer_Start ty d cb cx s). naive_solver.
  - intros x. by destruct (reset_wf x s Hw) as (? & _ & ?).
Qed.

(** A manager with the timers 1 (callback 7, 100 ms) and 2 (callback 8, 3 ms),
    started at time 1000 ms. *)
Definition two_timers : Timers :=
  let s := (DiagTimer_Init (mkTimers timer_mgr_zero (mkTimeval 1 0))).2 in
  (DiagTimer_Start TIMER_TYPE_SESSION 3 8 0
     (DiagTimer_Start TIMER_TYPE_REQUEST 100 7 0 s).2).2.
Lemma two_timers_run : timer_run 2 two_timers.
Proof. repeat constructor; unfold is_u32; lia. Qed.

(** Witness of [diag_timer_refines_map]: stopping timer 1 of two. *)
Lemma diag_timer_refines_map_witness :
  timer_map (DiagTimer_Stop 1 two_timers) = delete 1 (timer_map two_timers).
Proof.
  apply (diag_timer_refines_map two_timers).
  - by apply (timer_run_below 2 two_timers two_timers_run).
  - reflexivity.
Defined.



(** The callbacks of a component keep the shape of the timer array. *)
Definition keeps_shape {S} `{HasTimers S} (run : Z -> Z -> Z -> M S unit) : Prop :=
  forall f x c (s : S) m, shape (get_timers s) ->
    wp (run f x c) (fun _ s' _ => shape (get_timers s')) s m.

Lemma stop_shape x s : shape s -> shape (DiagTimer_Stop x s).
Proof.
  intros (Hl & Hc & Hd). unfold DiagTimer_Stop. destruct (find_timer _ _) as [i|]; [|done].
  split_and!; simpl; [by rewrite length_insert|..].
  - pose proof (shrink_le (timer_count (timer_mgr s))
      (<[i:=timer_blank]> (timers (timer_mgr s)))). lia.
  - apply shrink_free, free_from_insert; [by right|done].
Qed.

Lemma start_shape ty d cb cx s : shape s -> shape (DiagTimer_Start ty d cb cx s).2.
Proof.
  intros (Hl & Hc & Hd). unfold DiagTimer_Start. destruct (_ || _); [done|].
  destruct (find_free _ _) as [i|] eqn:E; [|done]. cbv zeta. cbn [snd].
  apply find_idx_Some in E as (u & Hu & Hi & _).
  destruct (Nat.leb_spec (timer_count (set_timer i (mkTimer (next_id (timer_mgr s)) ty
    (if d <? TIMER_CHECK_INTERVAL then TIMER_CHECK_INTERVAL else d) (get_timestamp s)
    TIMER_STATE_RUNNING cb cx true) (timer_mgr s)) <| next_id ::= fun n => u32 (n + 1) |>) i);
    simpl in *; destruct (_ =? 0); (split_and!; simpl; [by rewrite length_insert|lia|]).
  all: apply free_from_insert; [left; lia|]; eapply free_from_mono; [|done]; lia.
Qed.

Lemma process_slot_shape {S} `{HasTimers S} (run : Z -> Z -> Z -> M S unit) now i s m :
  keeps_shape run -> shape (get_timers s) -> (i < MAX_TIMERS)%nat ->
  wp (process_slot run now i) (fun _ s' _ => shape (get_timers s')) s m.
Proof.
  intros Hrun Hs Hi. unfold process_slot, slot.
  apply wp_bind, wp_bind, wp_get.
  destruct (lookup_lt_is_Some_2 (timers (timer_mgr (get_timers s))) i) as [t Ht];
    [destruct Hs as (-> & _); done|]. rewrite Ht. apply wp_ret.
  destruct (is_due now t) eqn:Ed; [|by apply wp_ret].
  apply wp_bind, wp_timers_op, wp_bind. cbn [fst snd].
  eapply (wp_mono _ (fun _ s' _ => shape (get_timers s'))).
  - assert (Hs1 : forall t, tm_active t = true ->
      shape ((get_timers s) <| timer_mgr ::= set_timer i t |>)).
    { intros t' Ha'. pose proof (inactive_behind _ _ _ Hs Ht (is_due_active _ _ Ed)).
      destruct Hs as (Hl & Hc & Hd). split_and!; simpl; [by rewrite length_insert|done|].
      apply free_from_insert; [by left|done]. }
    assert (Ha := is_due_active _ _ Ed).
    destruct (negb _); [apply Hrun|apply wp_ret]; rewrite get_set_timers; by apply Hs1.
  - intros _ s1 m1 Hs1. apply wp_bind, wp_bind, wp_get.
    destruct (lookup_lt_is_Some_2 (timers (timer_mgr (get_timers s1))) i) as [t1 Ht1];
      [destruct Hs1 as (-> & _); done|]. rewrite Ht1. apply wp_ret, wp_timers_op.
    cbn [fst snd]. rewrite get_set_timers. by apply stop_shape.
Qed.

Lemma process_loop_shape {S} `{HasTimers S} (run : Z -> Z -> Z -> M S unit) now n i s m :
  keeps_shape run -> shape (get_timers s) -> (n + i)%nat = MAX_TIMERS ->
  wp (process_loop run now n i) (fun _ s' _ => shape (get_timers s')) s m.
Proof.
  intros Hrun. revert i s m. induction n as [|n IH]; intros i s m Hs Hn;
    cbn [process_loop]; apply wp_bind, wp_get;
    destruct (Nat.ltb_spec i (timer_count (timer_mgr (get_timers s)))); try (by apply wp_ret).
  - destruct Hs as (_ & ? & _). lia.
  - apply wp_bind. eapply wp_mono; [apply process_slot_shape; [done|done|lia]|].
    intros ? s' m' Hs'. apply IH; [done|lia].
Qed.

(**  [DiagTimer_Process] ends without undefined behaviour for arbitrary
    callbacks, even ones that start, stop and restart timers while the slots are
    walked: it visits at most the 32 slots, and the array keeps its shape.  The
    callbacks only have to keep the shape themselves, as every composition of
    [DiagTimer_Start] and [DiagTimer_Stop] does. *)
Theorem process_any_callback {S} `{HasTimers S} (run : Z -> Z -> Z -> M S unit) s m :
  keeps_shape run -> shape (get_timers s) ->
  wp (DiagTimer_Process run) (fun _ s' _ => shape (get_timers s')) s m.
Proof.
  intros Hrun Hs. unfold DiagTimer_Process. apply wp_bind, wp_get.
  destruct (negb _); [by apply wp_ret|]. destruct (_ <? _); [by apply wp_ret|].
  apply wp_bind, wp_timers_op, process_loop_shape; [done| |done]. cbn [snd].
  by rewrite get_set_timers.
Qed.

(** A callback that restarts its own timer: stop, then start again. *)
Definition restart_callback (f x c : Z) : M Timers unit :=
  emit "timer" [f; x; c];;
  timers_op (fun s => (tt, DiagTimer_Stop x s));;
  timers_op (fun s => (tt, (DiagTimer_Start TIMER_TYPE_REQUEST 10 f c s).2)).

Lemma restart_keeps_shape : keeps_shape restart_callback.
Proof.
  intros f x c s m Hs. unfold restart_callback. apply wp_bind, wp_emit, wp_bind, wp_timers_op.
  apply wp_timers_op. by apply start_shape, stop_shape.
Qed.

Lemma shape_clock s tv : shape s -> shape (s <| clock := tv |>).
Proof. done. Qed.
Lemma two_timers_shape : shape two_timers.
Proof. by apply (timer_run_below 2 two_timers two_timers_run). Qed.

(** Witness of [process_any_callback]: both timers are due and their callbacks
    restart them. *)
Lemma process_any_callback_witness :
  wp (DiagTimer_Process restart_callback) (fun _ s' _ => shape s')
    (two_timers <| clock := mkTimeval 5 0 |>) boot.
Proof.
  apply (process_any_callback restart_callback (two_timers <| clock := mkTimeval 5 0 |>) boot
    restart_keeps_shape (shape_clock _ _ two_timers_shape)).
Defined.

(**  A timer restarted from its own callback may be lost: stopping it frees
    the slot the walk stands on; when all lower slots are taken the new timer is
    placed there, and the stop that follows the callback removes the new timer.
    With both timers of [two_timers] due and restarted, the restart of the first (as timer
    3) is lost and only the restart of the second (as timer 4) is left. *)
Theorem restart_in_callback_lost :
  match DiagTimer_Process restart_callback (two_timers <| clock := mkTimeval 5 0 |>) boot with
  | Some (_, s', m') =>
      trace m' = [call "timer" [7; 1; 0]; call "timer" [8; 2; 0]] /\
      tm_id <$> used (timers (timer_mgr s')) = [4] /\ next_id (timer_mgr s') = 5
  | None => False
  end.
Proof. vm_compute. repeat split. Qed.

(**  Identifiers are not reused while in use: in every run of starts,
    stops, resets and polls from [DiagTimer_Init] with fewer than 2^32 - 1 starts
    the invariant holds, every live identifier is below the next one, and the next
    one is free. *)
Theorem timer_ids_fresh n s :
  timer_run n s -> Z.of_nat n < 2 ^ 32 - 1 ->
  wf s /\ below_next s /\ timer_map s !! next_id (timer_mgr s) = None.
Proof.
  intros Hr Hn. destruct (timer_run_below n s Hr Hn) as (? & Hb & _). split_and!; try done.
  destruct (timer_map s !! _) as [t|] eqn:E; [|done]. specialize (Hb _ _ E). simpl in Hb. lia.
Qed.

(** Witness of [timer_ids_fresh]. *)
Lemma timer_ids_fresh_witness :
  wf two_timers /\ below_next two_timers /\ timer_map two_timers !! 3 = None.
Proof. apply (timer_ids_fresh 2 two_timers two_timers_run). reflexivity. Defined.
