(* ===== verification/DiagState.v ===== *)
(** * Diagnostic state machine

    [diagnostic/diag_state.c]: the current state, the transition logic
    ([determine_next_state]), the callbacks told of every transition, the custom
    states an integrator registers, and a ring of the last 32 transitions.  Every
    transition is supervised by a timer of [diag_timer.c].

    Not in the repository, and therefore arguments: [validate_transition] (declared
    in the file, defined nowhere) and [DiagTimer_GetTimestamp].  State callbacks and
    the functions of custom states are the integrator's; they are arbitrary
    computations over the statics, so they may call back into the state machine. *)

From S2P Require Import Prelude Tables Slots Machine DiagTimer.

Definition MAX_TRANSITION_HISTORY : nat := 32.
Definition MAX_STATE_CALLBACKS : nat := 16.
Definition MAX_CUSTOM_STATES : nat := 8.
Definition STATE_TRANSITION_TIMEOUT : Z := 5000.

(** [DiagState]: integers, since custom states start at 0x80. *)
Definition STATE_UNINIT : Z := 0.
Definition STATE_IDLE : Z := 1.
Definition STATE_SESSION_STARTING : Z := 2.
Definition STATE_SESSION_ACTIVE : Z := 3.
Definition STATE_SESSION_ENDING : Z := 4.
Definition STATE_SECURITY_PENDING : Z := 5.
Definition STATE_SECURITY_ACTIVE : Z := 6.
Definition STATE_ERROR : Z := 7.
Definition STATE_RESET_PENDING : Z := 8.
Definition STATE_SUSPENDED : Z := 9.
Definition STATE_CUSTOM_START : Z := 0x80.

Inductive DiagStateEvent :=
  STATE_EVENT_NONE | STATE_EVENT_INIT | STATE_EVENT_DEINIT | STATE_EVENT_SESSION_START
| STATE_EVENT_SESSION_END | STATE_EVENT_SECURITY_ACCESS | STATE_EVENT_SECURITY_LOCK
| STATE_EVENT_MESSAGE_RECEIVED | STATE_EVENT_RESPONSE_SENT | STATE_EVENT_TIMEOUT
| STATE_EVENT_ERROR | STATE_EVENT_RESET | STATE_EVENT_TESTER_PRESENT
| STATE_EVENT_CUSTOM (n : Z).
#[export] Instance DiagStateEvent_eq_dec : EqDecision DiagStateEvent.
Proof. solve_decision. Defined.
Definition event_code (e : DiagStateEvent) : Z :=
  match e with
  | STATE_EVENT_NONE => 0 | STATE_EVENT_INIT => 1 | STATE_EVENT_DEINIT => 2
  | STATE_EVENT_SESSION_START => 3 | STATE_EVENT_SESSION_END => 4
  | STATE_EVENT_SECURITY_ACCESS => 5 | STATE_EVENT_SECURITY_LOCK => 6
  | STATE_EVENT_MESSAGE_RECEIVED => 7 | STATE_EVENT_RESPONSE_SENT => 8
  | STATE_EVENT_TIMEOUT => 9 | STATE_EVENT_ERROR => 10 | STATE_EVENT_RESET => 11
  | STATE_EVENT_TESTER_PRESENT => 12 | STATE_EVENT_CUSTOM n => 0x80 + n
  end.
Definition STATE_EVENT_CUSTOM_START : DiagStateEvent := STATE_EVENT_CUSTOM 0.

(** [DiagStateResult], the codes a custom handler may also return as a state. *)
Definition STATE_RESULT_OK : Z := 0.
Definition STATE_RESULT_INVALID_STATE : Z := 1.
Definition STATE_RESULT_ERROR : Z := 4.
Definition STATE_RESULT_BUSY : Z := 5.

(** -1 = invalid transition, 1 = valid transition *)
Definition state_transition_matrix : list (list Z) :=
  [ [0; 1; -1; -1; -1; -1; -1; 1];
    [-1; 0; 1; -1; -1; 1; -1; 1];
    [-1; 1; 0; 1; -1; -1; -1; 1];
    [-1; -1; -1; 0; 1; 1; -1; 1];
    [-1; 1; -1; -1; 0; -1; -1; 1];
    [-1; 1; -1; -1; -1; 0; 1; 1];
    [-1; -1; -1; -1; -1; -1; 0; 1];
    [-1; 1; -1; -1; -1; -1; -1; 0] ].

Record DiagStateTransition := mkTransition {
  from_state : Z; to_state : Z; tr_event : DiagStateEvent; tr_timestamp : Z; tr_data : Z }.
Definition transition_zero : DiagStateTransition := mkTransition 0 0 STATE_EVENT_NONE 0 0.

Record StateCallback := mkStateCallback { cb_callback : Z; cb_context : Z; cb_active : bool }.
#[export] Instance eta_StateCallback : Eta StateCallback := fun c =>
  mkStateCallback (cb_callback c) (cb_context c) (cb_active c).
#[export] Instance StateCallback_Slot : Slot StateCallback :=
  { slot_used := cb_active; slot_key := cb_callback }.
Definition state_callback_zero : StateCallback := mkStateCallback 0 0 false.

(** The function pointers are addresses, 0 for NULL. *)
Record DiagCustomStateHandler := mkCustom {
  cs_state : Z; cs_enter : Z; cs_exit : Z; cs_handle_event : Z }.
#[export] Instance DiagCustomStateHandler_keyed : Keyed DiagCustomStateHandler := cs_state.
Definition custom_zero : DiagCustomStateHandler := mkCustom 0 0 0 0.

Record StateMachine := mkStateMachine {
  current_state : Z;
  history : list DiagStateTransition;
  history_index : nat;
  callbacks : list StateCallback;
  callback_count : nat;
  custom_states : list DiagCustomStateHandler;
  custom_state_count : nat;
  state_entry_time : Z;
  last_error : Z;
  transition_in_progress : bool;
  ds_initialized : bool
}.
#[export] Instance eta_StateMachine : Eta StateMachine := fun s =>
  mkStateMachine (current_state s) (history s) (history_index s) (callbacks s)
    (callback_count s) (custom_states s) (custom_state_count s) (state_entry_time s)
    (last_error s) (transition_in_progress s) (ds_initialized s).
Definition state_machine_zero : StateMachine :=
  mkStateMachine STATE_UNINIT (replicate MAX_TRANSITION_HISTORY transition_zero) 0
    (replicate MAX_STATE_CALLBACKS state_callback_zero) 0
    (replicate MAX_CUSTOM_STATES custom_zero) 0 0 0 false false.

(** The statics of [diag_state.c] and of [diag_timer.c]. *)
Record DS := mkDS { state_machine : StateMachine; ds_timers : Timers }.
#[export] Instance eta_DS : Eta DS := fun s => mkDS (state_machine s) (ds_timers s).
#[export] Instance DS_HasTimers : HasTimers DS := {
  get_timers := ds_timers;
  set_timers t s := s <| ds_timers := t |>;
  get_set_timers t s := eq_refl }.

Definition on_sm (f : StateMachine -> StateMachine) : M DS unit :=
  modify (fun s => s <| state_machine ::= f |>).
Definition DIAG_ERROR_SET (code : Z) : M DS unit := emit "DiagError_Set" [code].
Definition ERROR_TIMING_INVALID : Z := 0x4003.
Definition ERROR_SYSTEM_NOT_INITIALIZED : Z := 0x6001.
Definition ERROR_SYSTEM_ALREADY_INITIALIZED : Z := 0x6002.
Definition ERROR_SYSTEM_RESOURCE_BUSY : Z := 0x6003.

(** ** The pure parts *)

Definition find_custom (st : Z) (s : StateMachine) : option nat :=
  find_key st (custom_state_count s) (custom_states s).

(** [switch (current)] for the built-in states. *)
Definition next_builtin (current : Z) (event : DiagStateEvent) : Z :=
  if current =? STATE_UNINIT then
    match event with STATE_EVENT_INIT => STATE_IDLE | _ => current end
  else if current =? STATE_IDLE then
    match event with
    | STATE_EVENT_SESSION_START => STATE_SESSION_STARTING
    | STATE_EVENT_SECURITY_ACCESS => STATE_SECURITY_PENDING
    | STATE_EVENT_ERROR => STATE_ERROR
    | STATE_EVENT_DEINIT => STATE_UNINIT
    | _ => current
    end
  else if current =? STATE_SESSION_STARTING then
    match event with
    | STATE_EVENT_MESSAGE_RECEIVED => STATE_SESSION_ACTIVE
    | STATE_EVENT_TIMEOUT => STATE_ERROR
    | STATE_EVENT_ERROR => STATE_ERROR
    | _ => current
    end
  else if current =? STATE_SESSION_ACTIVE then
    match event with
    | STATE_EVENT_SESSION_END => STATE_SESSION_ENDING
    | STATE_EVENT_SECURITY_ACCESS => STATE_SECURITY_PENDING
    | STATE_EVENT_ERROR => STATE_ERROR
    | STATE_EVENT_TIMEOUT => STATE_SESSION_ENDING
    | _ => current
    end
  else if current =? STATE_SECURITY_PENDING then
    match event with
    | STATE_EVENT_MESSAGE_RECEIVED => STATE_SECURITY_ACTIVE
    | STATE_EVENT_TIMEOUT => STATE_IDLE
    | STATE_EVENT_ERROR => STATE_ERROR
    | _ => current
    end
  else if current =? STATE_ERROR then
    match event with STATE_EVENT_RESET => STATE_IDLE | _ => current end
  else current.

Definition DiagState_IsTransitionAllowed (from to : Z) (s : StateMachine) : bool :=
  if (STATE_CUSTOM_START <=? from) || (STATE_CUSTOM_START <=? to) then
    match find_custom from s with Some _ => true | None => false end
  else if (8 <=? from) || (8 <=? to) then false
  else match (state_transition_matrix !! Z.to_nat from) ≫= (.!! Z.to_nat to) with
       | Some v => 0 <? v
       | None => false
       end.

Definition DiagState_GetCurrent (s : StateMachine) : Z :=
  if ds_initialized s then current_state s else STATE_UNINIT.

(** The entries [DiagState_DumpTransitionHistory] prints, in its order:
    [idx = (history_index - 1 - i) % 32], unstamped entries skipped. *)
Definition DiagState_DumpTransitionHistory (s : StateMachine) : list DiagStateTransition :=
  if negb (ds_initialized s) then []
  else
    omap (fun i =>
      let idx := u32 (Z.of_nat (history_index s) - 1 - Z.of_nat i)
                   mod Z.of_nat MAX_TRANSITION_HISTORY in
      trans ← history s !! Z.to_nat idx;
      if tr_timestamp trans =? 0 then None else Some trans)
      (seq 0 MAX_TRANSITION_HISTORY).

(** [memcpy] into the ring, then advance. *)
Definition record_transition (t : DiagStateTransition) (sm : StateMachine) : StateMachine :=
  sm <| history ::= <[history_index sm := t]> |>
     <| history_index := ((history_index sm + 1) mod MAX_TRANSITION_HISTORY)%nat |>.

Definition state_strings : list string :=
  ["UNINIT"; "IDLE"; "SESSION_STARTING"; "SESSION_ACTIVE";
   "SESSION_ENDING"; "SECURITY_PENDING"; "SECURITY_ACTIVE"; "ERROR"]%string.
Definition DiagState_GetStateString (st : Z) : string + Z :=
  if STATE_CUSTOM_START <=? st then inr (st - STATE_CUSTOM_START)
  else inl (default "UNKNOWN_STATE"%string (state_strings !! Z.to_nat st)).

Definition DiagState_RegisterCallback (cb context : Z) : M DS bool :=
  s ← get;
  let sm := state_machine s in
  if negb (ds_initialized sm) || (cb =? 0) then mret false
  else
    match find_idx (fun c => cb_callback c =? cb) (callback_count sm) (callbacks sm) with
    | Some i =>
        on_sm (fun sm => sm <| callbacks ::= alter (fun c =>
          c <| cb_context := context |> <| cb_active := true |>) i |>);;
        mret true
    | None =>
        match find_free MAX_STATE_CALLBACKS (callbacks sm) with
        | Some i =>
            on_sm (fun sm => sm <| callbacks ::= <[i := mkStateCallback cb context true]> |>);;
            (if (callback_count sm <=? i)%nat
             then on_sm (fun sm => sm <| callback_count := S i |>) else mret tt);;
            mret true
        | None =>
            DIAG_ERROR_SET ERROR_SYSTEM_RESOURCE_BUSY;;
            mret false
        end
    end.

Definition DiagState_UnregisterCallback (cb : Z) : M DS unit :=
  s ← get;
  let sm := state_machine s in
  if negb (ds_initialized sm) || (cb =? 0) then mret tt
  else
    match find_idx (fun c => cb_callback c =? cb) (callback_count sm) (callbacks sm) with
    | Some i =>
        on_sm (fun sm => sm <| callbacks ::= <[i := state_callback_zero]> |>);;
        on_sm (fun sm => sm <| callback_count := shrink (callback_count sm) (callbacks sm) |>)
    | None => mret tt
    end.

Definition DiagState_RegisterCustomState (handler : option DiagCustomStateHandler) : M DS bool :=
  s ← get;
  let sm := state_machine s in
  match handler with
  | None => mret false
  | Some h =>
      if negb (ds_initialized sm) || (cs_state h <? STATE_CUSTOM_START) then mret false
      else
        match find_custom (cs_state h) sm with
        | Some i => on_sm (fun sm => sm <| custom_states ::= <[i := h]> |>);; mret true
        | None =>
            if (MAX_CUSTOM_STATES <=? custom_state_count sm)%nat then
              DIAG_ERROR_SET ERROR_SYSTEM_RESOURCE_BUSY;; mret false
            else
              on_sm (fun sm => sm <| custom_states ::= <[custom_state_count sm := h]> |>);;
              on_sm (fun sm => sm <| custom_state_count ::= S |>);;
              mret true
        end
  end.

(** ** The operations that call functions of the integrator *)

Section machine.
(** A state callback, by address, with the transition and its context. *)
Context (run_callback : Z -> DiagStateTransition -> Z -> M DS unit).
(** [handle_event] and [exit] of custom states, by address. *)
Context (run_handler : Z -> DiagStateEvent -> Z -> M DS Z).
Context (run_exit : Z -> M DS unit).
Context (validate_transition : Z -> Z -> Z).
Context (DiagTimer_GetTimestamp : Timers -> Z).

Definition timestamp : M DS Z := s ← get; mret (DiagTimer_GetTimestamp (ds_timers s)).

(** [custom_states[i].handle_event(event, data)], without a NULL check. *)
Definition call_handler (h : DiagCustomStateHandler) (event : DiagStateEvent) (data : Z) : M DS Z :=
  if cs_handle_event h =? 0 then fault else run_handler (cs_handle_event h) event data.

(** [for (i = 0; i < callback_count; i++)], [n] slots being left. *)
Fixpoint notify_loop (t : DiagStateTransition) (n i : nat) : M DS unit :=
  s ← get;
  if (i <? callback_count (state_machine s))%nat then
    match n, callbacks (state_machine s) !! i with
    | S n, Some c =>
        (if cb_active c && negb (cb_callback c =? 0)
         then run_callback (cb_callback c) t (cb_context c) else mret tt);;
        notify_loop t n (S i)
    | _, _ => fault
    end
  else mret tt.
Definition notify_state_change (t : DiagStateTransition) : M DS unit :=
  notify_loop t MAX_STATE_CALLBACKS 0.

Definition DiagState_Init : M DS bool :=
  s ← get;
  if ds_initialized (state_machine s) then
    DIAG_ERROR_SET ERROR_SYSTEM_ALREADY_INITIALIZED;; mret false
  else
    now ← timestamp;
    on_sm (fun _ => state_machine_zero <| state_entry_time := now |> <| ds_initialized := true |>);;
    mret true.

Definition DiagState_Deinit : M DS unit :=
  s ← get;
  if negb (ds_initialized (state_machine s)) then mret tt
  else
    now ← timestamp;
    notify_state_change (mkTransition (current_state (state_machine s)) STATE_UNINIT
                           STATE_EVENT_DEINIT now 0);;
    on_sm (fun sm => sm
      <| callbacks := replicate MAX_STATE_CALLBACKS state_callback_zero |>
      <| custom_states := replicate MAX_CUSTOM_STATES custom_zero |>
      <| callback_count := 0%nat |> <| custom_state_count := 0%nat |>
      <| ds_initialized := false |>).

Definition determine_next_state (current : Z) (event : DiagStateEvent) : M DS Z :=
  if STATE_CUSTOM_START <=? current then
    s ← get;
    match find_custom current (state_machine s) with
    | Some i =>
        h ← match custom_states (state_machine s) !! i with Some h => mret h | None => fault end;
        result ← call_handler h event 0;
        mret (if 0 <=? result then result else current)
    | None => mret current
    end
  else mret (next_builtin current event).

(** Address of [handle_transition_timeout] and of the transition on the stack. *)
Definition HANDLE_TRANSITION_TIMEOUT : Z := 1.
Definition TRANSITION_ADDR : Z := 1.

Definition DiagState_HandleEvent (event : DiagStateEvent) (data : Z) : M DS Z :=
  s ← get;
  let sm := state_machine s in
  if negb (ds_initialized sm) then
    DIAG_ERROR_SET ERROR_SYSTEM_NOT_INITIALIZED;; mret STATE_RESULT_ERROR
  else if transition_in_progress sm then mret STATE_RESULT_BUSY
  else
    match (if STATE_CUSTOM_START <=? current_state sm
           then find_custom (current_state sm) sm ≫= (custom_states sm !!.) else None) with
    | Some h => call_handler h event data
    | None =>
        next_state ← determine_next_state (current_state sm) event;
        s ← get;
        let current := current_state (state_machine s) in
        if next_state =? current then mret STATE_RESULT_OK
        else
          let result := validate_transition current next_state in
          if negb (result =? STATE_RESULT_OK) then
            DIAG_ERROR_SET ERROR_SYSTEM_RESOURCE_BUSY;; mret result
          else
            on_sm (fun sm => sm <| transition_in_progress := true |>);;
            now ← timestamp;
            let transition := mkTransition current next_state event now data in
            timer_id ← timers_op (DiagTimer_Start TIMER_TYPE_REQUEST STATE_TRANSITION_TIMEOUT
                                    HANDLE_TRANSITION_TIMEOUT TRANSITION_ADDR);
            if timer_id =? 0 then
              on_sm (fun sm => sm <| transition_in_progress := false |>);;
              DIAG_ERROR_SET ERROR_TIMING_INVALID;;
              mret STATE_RESULT_ERROR
            else
              notify_state_change transition;;
              on_sm (fun sm => sm <| current_state := next_state |>
                <| state_entry_time := tr_timestamp transition |>
                <| transition_in_progress := false |>);;
              on_sm (record_transition transition);;
              timers_op (fun t => (tt, DiagTimer_Stop timer_id t));;
              mret STATE_RESULT_OK
    end.

Definition DiagState_ForceState (st data : Z) : M DS Z :=
  s ← get;
  let sm := state_machine s in
  if negb (ds_initialized sm) then mret STATE_RESULT_ERROR
  else if transition_in_progress sm then mret STATE_RESULT_BUSY
  else
    now ← timestamp;
    let transition := mkTransition (current_state sm) st STATE_EVENT_CUSTOM_START now data in
    notify_state_change transition;;
    on_sm (fun sm => sm <| current_state := st |> <| state_entry_time := tr_timestamp transition |>);;
    on_sm (record_transition transition);;
    mret STATE_RESULT_OK.

Definition handle_transition_timeout (context : Z) : M DS unit :=
  s ← get;
  if (context =? 0) || negb (transition_in_progress (state_machine s)) then mret tt
  else
    now ← timestamp;
    notify_state_change (mkTransition (current_state (state_machine s)) STATE_ERROR
                           STATE_EVENT_TIMEOUT now 0);;
    on_sm (fun sm => sm <| current_state := STATE_ERROR |> <| transition_in_progress := false |>);;
    DIAG_ERROR_SET ERROR_TIMING_INVALID.

Definition DiagState_GetTimeInState : M DS Z :=
  s ← get;
  if negb (ds_initialized (state_machine s)) then mret 0
  else
    now ← timestamp;
    mret (u32 (now - state_entry_time (state_machine s))).

Definition DiagState_UnregisterCustomState (st : Z) : M DS unit :=
  s ← get;
  let sm := state_machine s in
  if negb (ds_initialized sm) || (st <? STATE_CUSTOM_START) then mret tt
  else
    match find_custom st sm with
    | None => mret tt
    | Some i =>
        h ← match custom_states sm !! i with Some h => mret h | None => fault end;
        (if (current_state sm =? st) && negb (cs_exit h =? 0) then run_exit (cs_exit h) else mret tt);;
        on_sm (fun sm => sm <| custom_states ::= remove_record i (custom_state_count sm) |>);;
        on_sm (fun sm => sm <| custom_state_count ::= fun n => (n - 1)%nat |>)
    end.
End machine.

(** ** Invariant *)

Definition sm_wf (sm : StateMachine) : Prop :=
  length (history sm) = MAX_TRANSITION_HISTORY /\
  (history_index sm < MAX_TRANSITION_HISTORY)%nat /\
  length (callbacks sm) = MAX_STATE_CALLBACKS /\
  (callback_count sm <= MAX_STATE_CALLBACKS)%nat /\
  free_from (callback_count sm) (callbacks sm) /\
  Forall (fun c => c = state_callback_zero \/ cb_active c = true /\ cb_callback c <> 0)
    (callbacks sm) /\
  slots_uniq (callbacks sm) /\
  length (custom_states sm) = MAX_CUSTOM_STATES /\
  (custom_state_count sm <= MAX_CUSTOM_STATES)%nat /\
  tbl_uniq (custom_state_count sm) (custom_states sm).

(** The registered callbacks and custom states as finite maps. *)
Definition callback_map (sm : StateMachine) : gmap Z StateCallback := slot_map (callbacks sm).
Definition custom_map (sm : StateMachine) : gmap Z DiagCustomStateHandler :=
  tbl (custom_state_count sm) (custom_states sm).

(** ** Notification *)

(** Callbacks outside the program. *)
Definition log_state (f : Z) (t : DiagStateTransition) (c : Z) : M DS unit :=
  emit "state" [f; from_state t; to_state t; event_code (tr_event t); tr_timestamp t; c].
Definition told (t : DiagStateTransition) (c : StateCallback) : Call :=
  call "state" [cb_callback c; from_state t; to_state t; event_code (tr_event t);
                tr_timestamp t; cb_context c].

Lemma wp_notify_loop t n i Q s m :
  sm_wf (state_machine s) -> (n + i)%nat = MAX_STATE_CALLBACKS ->
  Q tt s (m <| trace ::= fun tr => tr ++ (told t <$> used (drop i (callbacks (state_machine s)))) |>) ->
  wp (notify_loop log_state t n i) Q s m.
Proof.
  intros Hw. assert (Hw' := Hw). destruct Hw' as (_ & _ & Hl & Hc & Hf & Hok & _).
  revert i m. induction n as [|n IH]; intros i m Hn HQ; cbn [notify_loop]; apply wp_bind, wp_get;
    destruct (Nat.ltb_spec i (callback_count (state_machine s))) as [Hi|Hi]; [lia| | |].
  1,3: apply wp_ret; rewrite used_free in HQ by (by eapply free_from_mono);
    simpl in HQ; rewrite app_nil_r in HQ; by destruct m.
  destruct (lookup_lt_is_Some_2 (callbacks (state_machine s)) i) as [c Hci]; [lia|]. rewrite Hci.
  rewrite (drop_S _ _ _ Hci) in HQ. unfold used in HQ. rewrite filter_cons in HQ.
  rewrite Forall_lookup in Hok. apply wp_bind.
  destruct (Hok _ _ Hci) as [->|[Ha Hne]]; simpl in HQ.
  - simpl. apply wp_ret, IH; [lia|done].
  - rewrite decide_True in HQ by done. rewrite Ha, (proj2 (Z.eqb_neq _ _) Hne). simpl.
    apply wp_emit, IH; [lia|]. unfold setf in *; simpl in *. by rewrite <- app_assoc.
Qed.

Lemma wp_notify t Q s m :
  sm_wf (state_machine s) ->
  Q tt s (m <| trace ::= fun tr => tr ++ (told t <$> used (callbacks (state_machine s))) |>) ->
  wp (notify_state_change log_state t) Q s m.
Proof. intros Hw HQ. apply wp_notify_loop; [done|done|]. by rewrite drop_0. Qed.

(** ** Events *)

Lemma start_then_stop ty d cb cx t :
  wf t -> timer_map t !! next_id (timer_mgr t) = None ->
  is_u32 d -> d <> 0 -> cb <> 0 ->
  if (size (timer_map t) =? MAX_TIMERS)%nat then DiagTimer_Start ty d cb cx t = (0, t)
  else exists t1, DiagTimer_Start ty d cb cx t = (next_id (timer_mgr t), t1) /\
    next_id (timer_mgr t) <> 0 /\
    let t2 := DiagTimer_Stop (next_id (timer_mgr t)) t1 in
    wf t2 /\ timer_map t2 = timer_map t /\ clock t2 = clock t /\
    next_id (timer_mgr t2) = id_after (next_id (timer_mgr t)).
Proof.
  intros Hw Hfresh Hd Hd0 Hcb. destruct (Nat.eqb_spec (size (timer_map t)) MAX_TIMERS) as [He|He].
  - by apply start_full.
  - pose proof (free_slot t Hw) as Hf. destruct (find_free _ _) as [i|] eqn:E; [|done].
    pose proof (start_slot ty d cb cx t i Hw Hd Hd0 Hcb Hfresh E) as Hs.
    destruct (DiagTimer_Start ty d cb cx t) as [id t1].
    destruct Hs as (-> & Hw1 & _ & Hm1 & Hck & _ & Hnx). exists t1. cbv zeta.
    destruct (stop_wf (next_id (timer_mgr t)) t1 Hw1) as [? Hm].
    split_and!; [done|by apply Hw|done|..].
    + rewrite Hm, Hm1. by apply delete_insert_id.
    + rewrite <- Hck. unfold DiagTimer_Stop. by destruct (find_timer _ _).
    + by rewrite stop_next.
Qed.

(** The timers are usable: the invariant, and an identifier to hand out. *)
Definition timers_ready (t : Timers) : Prop :=
  wf t /\ timer_map t !! next_id (timer_mgr t) = None.

Section events.
Context (run_handler : Z -> DiagStateEvent -> Z -> M DS Z).
Context (validate_transition : Z -> Z -> Z).
Context (DiagTimer_GetTimestamp : Timers -> Z).
Abbreviation HandleEvent := (DiagState_HandleEvent log_state run_handler validate_transition
                           DiagTimer_GetTimestamp).
Abbreviation ForceState := (DiagState_ForceState log_state DiagTimer_GetTimestamp).

(** The state machine after a transition. *)
Definition moved (t : DiagStateTransition) (sm : StateMachine) : StateMachine :=
  record_transition t (sm <| current_state := to_state t |>
    <| state_entry_time := tr_timestamp t |> <| transition_in_progress := false |>).

Lemma handle_event_wp event data s m :
  let sm := state_machine s in
  let next := next_builtin (current_state sm) event in
  let t := mkTransition (current_state sm) next event (DiagTimer_GetTimestamp (ds_timers s)) data in
  sm_wf sm -> timers_ready (ds_timers s) ->
  ds_initialized sm = true -> transition_in_progress sm = false ->
  current_state sm < STATE_CUSTOM_START ->
  wp (HandleEvent event data) (fun r s' m' =>
    if next =? current_state sm then r = STATE_RESULT_OK /\ s' = s /\ m' = m
    else if negb (validate_transition (current_state sm) next =? STATE_RESULT_OK) then
      r = validate_transition (current_state sm) next /\ s' = s /\
      trace m' = trace m ++ [call "DiagError_Set" [ERROR_SYSTEM_RESOURCE_BUSY]]
    else if (size (timer_map (ds_timers s)) =? MAX_TIMERS)%nat then
      r = STATE_RESULT_ERROR /\ s' = s /\
      trace m' = trace m ++ [call "DiagError_Set" [ERROR_TIMING_INVALID]]
    else
      r = STATE_RESULT_OK /\ state_machine s' = moved t sm /\
      trace m' = trace m ++ (told t <$> used (callbacks sm)) /\
      wf (ds_timers s') /\ timer_map (ds_timers s') = timer_map (ds_timers s) /\
      clock (ds_timers s') = clock (ds_timers s) /\
      next_id (timer_mgr (ds_timers s')) = id_after (next_id (timer_mgr (ds_timers s)))) s m.
Proof.
  intros sm next t Hw [Hwt Hfresh] Hi Hp Hc. unfold DiagState_HandleEvent.
  apply wp_bind, wp_get. fold sm. rewrite Hi, Hp. simpl.
  assert (Hc' : (STATE_CUSTOM_START <=? current_state sm) = false) by (apply Z.leb_gt; done).
  rewrite Hc'. apply wp_bind. unfold determine_next_state. rewrite Hc'. apply wp_ret, wp_bind, wp_get.
  fold sm next. destruct (next =? current_state sm); [by apply wp_ret|].
  destruct (negb _); [by apply wp_bind, wp_emit, wp_ret|].
  apply wp_bind, wp_modify, wp_bind, wp_bind, wp_get, wp_ret, wp_bind, wp_timers_op. simpl.
  pose proof (start_then_stop TIMER_TYPE_REQUEST STATE_TRANSITION_TIMEOUT
    HANDLE_TRANSITION_TIMEOUT TRANSITION_ADDR (ds_timers s) Hwt Hfresh) as Hst.
  destruct (size (timer_map (ds_timers s)) =? MAX_TIMERS)%nat.
  - rewrite Hst by done. simpl. apply wp_bind, wp_modify, wp_bind, wp_emit, wp_ret.
    split_and!; try done. subst sm. destruct s as [[] ?]; simpl in *. by subst.
  - destruct Hst as (t1 & -> & Hne & Hw1 & Hm1 & Hck & Hnx); [done..|]. cbn [fst snd].
    rewrite (proj2 (Z.eqb_neq _ _) Hne). apply wp_bind, wp_notify; [exact Hw|].
    apply wp_bind, wp_modify, wp_bind, wp_modify, wp_bind, wp_timers_op, wp_ret. simpl.
    split_and!; try done.
Qed.

Lemma force_state_wp st data s m :
  let sm := state_machine s in
  let t := mkTransition (current_state sm) st STATE_EVENT_CUSTOM_START
             (DiagTimer_GetTimestamp (ds_timers s)) data in
  sm_wf sm -> ds_initialized sm = true -> transition_in_progress sm = false ->
  wp (ForceState st data) (fun r s' m' =>
    r = STATE_RESULT_OK /\ s' = s <| state_machine := moved t sm |> /\
    trace m' = trace m ++ (told t <$> used (callbacks sm))) s m.
Proof.
  intros sm t Hw Hi Hp. unfold DiagState_ForceState. apply wp_bind, wp_get. fold sm.
  rewrite Hi, Hp. simpl. apply wp_bind, wp_bind, wp_get, wp_ret, wp_bind, wp_notify; [exact Hw|].
  apply wp_bind, wp_modify, wp_bind, wp_modify, wp_ret. split_and!; try done.
  subst sm. destruct s as [[] ?]; simpl in *. by subst.
Qed.
End events.

Lemma moved_wf t sm : sm_wf sm -> sm_wf (moved t sm).
Proof.
  intros (? & ? & Hw). unfold sm_wf, moved, record_transition. cbn -[Nat.modulo].
  rewrite length_insert. split; [done|]. split; [|exact Hw]. by apply Nat.mod_upper_bound.
Qed.

(** ** The history ring *)

(** [ring h n l]: the last entries of [l], newest first, behind index [n]. *)
Definition ring_index (n i : nat) : nat :=
  Z.to_nat (u32 (Z.of_nat n - 1 - Z.of_nat i) mod Z.of_nat MAX_TRANSITION_HISTORY).

Lemma ring_index_mod n i :
  ring_index n i = Z.to_nat ((Z.of_nat n - 1 - Z.of_nat i) mod 32).
Proof.
  unfold ring_index, u32. f_equal. change (Z.of_nat MAX_TRANSITION_HISTORY) with 32.
  apply Z.mod_mod_divide. by exists (2 ^ 27).
Qed.

Definition is_ring (sm : StateMachine) (l : list DiagStateTransition) : Prop :=
  (history_index sm < MAX_TRANSITION_HISTORY)%nat /\
  length (history sm) = MAX_TRANSITION_HISTORY /\
  forall i, (i < MAX_TRANSITION_HISTORY)%nat ->
    history sm !! ring_index (history_index sm) i = Some (default transition_zero (reverse l !! i)).

Lemma is_ring_record sm l t : is_ring sm l -> is_ring (record_transition t sm) (l ++ [t]).
Proof.
  intros (Hi & Hl & Hr). unfold MAX_TRANSITION_HISTORY in *.
  unfold is_ring, record_transition. cbn -[Nat.modulo]. rewrite length_insert.
  split_and!; [apply Nat.mod_upper_bound; done|done|]. intros i Hlt.
  assert (Hidx : ring_index ((history_index sm + 1) mod 32) i =
    if decide (i = 0)%nat then history_index sm else ring_index (history_index sm) (i - 1)).
  { rewrite !ring_index_mod. rewrite Nat2Z.inj_mod. simpl.
    case_decide; Z.div_mod_to_equations; lia. }
  unfold MAX_TRANSITION_HISTORY in *. rewrite Hidx, reverse_app. simpl. case_decide as H0.
  - subst i. rewrite list_lookup_insert_eq by lia. done.
  - rewrite list_lookup_insert_ne.
    + rewrite Hr by lia. destruct i as [|i]; [lia|]. simpl. do 3 f_equal. lia.
    + rewrite ring_index_mod. intros Heq. Z.div_mod_to_equations. lia.
Qed.

Lemma dump_ring sm l :
  is_ring sm l -> ds_initialized sm = true -> Forall (fun t => tr_timestamp t <> 0) l ->
  DiagState_DumpTransitionHistory sm = take MAX_TRANSITION_HISTORY (reverse l).
Proof.
  intros (Hi & Hl & Hr) Hin Hts. unfold DiagState_DumpTransitionHistory. rewrite Hin. simpl negb.
  assert (Hrev : Forall (fun t => tr_timestamp t <> 0) (reverse l)) by (by apply Forall_reverse).
  revert Hr Hrev. generalize (reverse l) as r. intros r Hr Hrev.
  transitivity (omap (fun i => r !! i) (seq 0 MAX_TRANSITION_HISTORY)).
  - apply list_omap_ext, Forall_Forall2_diag, Forall_forall. intros i [_ Hlt]%elem_of_seq.
    fold (ring_index (history_index sm) i). rewrite Hr by lia. simpl.
    destruct (r !! i) as [t|] eqn:E; simpl; [|done].
    rewrite Forall_lookup in Hrev. specialize (Hrev _ _ E). by rewrite (proj2 (Z.eqb_neq _ _) Hrev).
  - clear. generalize MAX_TRANSITION_HISTORY as n. revert r.
    assert (H : forall n k (r : list DiagStateTransition),
      omap (fun i => r !! i) (seq k n) = take n (drop k r)).
    { induction n as [|n IH]; intros k r; simpl; [done|]. rewrite IH.
      destruct (r !! k) as [t|] eqn:E; [by rewrite (drop_S _ _ _ E)|].
      apply lookup_ge_None in E. by rewrite !drop_ge, !take_nil by lia. }
    intros r n. by rewrite H, drop_0.
Qed.

(** ** Runs of events *)

(** The moves of the machine, one by one: state, event, next state.  What is not
    listed is ignored. *)
Definition moves : list (Z * DiagStateEvent * Z) :=
  [ (STATE_UNINIT, STATE_EVENT_INIT, STATE_IDLE);
    (STATE_IDLE, STATE_EVENT_SESSION_START, STATE_SESSION_STARTING);
    (STATE_IDLE, STATE_EVENT_SECURITY_ACCESS, STATE_SECURITY_PENDING);
    (STATE_IDLE, STATE_EVENT_ERROR, STATE_ERROR);
    (STATE_IDLE, STATE_EVENT_DEINIT, STATE_UNINIT);
    (STATE_SESSION_STARTING, STATE_EVENT_MESSAGE_RECEIVED, STATE_SESSION_ACTIVE);
    (STATE_SESSION_STARTING, STATE_EVENT_TIMEOUT, STATE_ERROR);
    (STATE_SESSION_STARTING, STATE_EVENT_ERROR, STATE_ERROR);
    (STATE_SESSION_ACTIVE, STATE_EVENT_SESSION_END, STATE_SESSION_ENDING);
    (STATE_SESSION_ACTIVE, STATE_EVENT_TIMEOUT, STATE_SESSION_ENDING);
    (STATE_SESSION_ACTIVE, STATE_EVENT_SECURITY_ACCESS, STATE_SECURITY_PENDING);
    (STATE_SESSION_ACTIVE, STATE_EVENT_ERROR, STATE_ERROR);
    (STATE_SECURITY_PENDING, STATE_EVENT_MESSAGE_RECEIVED, STATE_SECURITY_ACTIVE);
    (STATE_SECURITY_PENDING, STATE_EVENT_TIMEOUT, STATE_IDLE);
    (STATE_SECURITY_PENDING, STATE_EVENT_ERROR, STATE_ERROR);
    (STATE_ERROR, STATE_EVENT_RESET, STATE_IDLE) ].
Definition move (cur : Z) (e : DiagStateEvent) : Z :=
  match List.find (fun x => bool_decide (x.1 = (cur, e))) moves with
  | Some x => x.2
  | None => cur
  end.

Lemma next_builtin_moves cur e : next_builtin cur e = move cur e.
Proof.
  unfold next_builtin.
  repeat match goal with |- context [cur =? ?k] => destruct (Z.eqb_spec cur k) as [->|?];
    [by destruct e|] end.
  unfold move.
  destruct (List.find _ moves) as [x|] eqn:Hx; [|done]. apply find_some in Hx as [Hx Heq%bool_decide_eq_true].
  repeat (destruct Hx as [<-|Hx]; [injection Heq; intros; congruence|]). done.
Qed.

(** What a sequence of timed events does to the abstract state. *)
Definition step_state (validate : Z -> Z -> Z) (cur : Z) (e : DiagStateEvent) : Z :=
  let n := move cur e in
  if validate cur n =? STATE_RESULT_OK then n else cur.

Record Stimulus := mkStimulus { st_clock : Timeval; st_event : DiagStateEvent; st_data : Z }.

Fixpoint transitions (validate : Z -> Z -> Z) (stamp : Timeval -> Z) (cur : Z) (l : list Stimulus)
  : list DiagStateTransition :=
  match l with
  | [] => []
  | x :: l =>
      let n := step_state validate cur (st_event x) in
      (if n =? cur then [] else [mkTransition cur n (st_event x) (stamp (st_clock x)) (st_data x)])
      ++ transitions validate stamp n l
  end.
Definition final_state (validate : Z -> Z -> Z) (cur : Z) (l : list Stimulus) : Z :=
  foldl (fun c x => step_state validate c (st_event x)) cur l.

Lemma transitions_stamped v stamp cur l :
  Forall (fun x => stamp (st_clock x) <> 0) l ->
  Forall (fun t => tr_timestamp t <> 0) (transitions v stamp cur l).
Proof.
  intros Hl. revert cur. induction Hl as [|x l Hx _ IH]; intros cur; simpl; [constructor|].
  destruct (step_state _ _ _ =? cur); simpl; [apply IH|by constructor; [|apply IH]].
Qed.

(** The notifications among the calls. *)
Definition is_note (c : Call) : bool := let '(call f _) := c in bool_decide (f = "state"%string).
Definition notes (tr : list Call) : list Call := filter (fun c => is_note c = true) tr.

Lemma notes_app a b : notes (a ++ b) = notes a ++ notes b.
Proof. apply filter_app. Qed.
Lemma notes_told t l : notes (told t <$> l) = told t <$> l.
Proof.
  induction l as [|c l IH]; [done|]. unfold notes in *. simpl.
  rewrite filter_cons, decide_True by done. by f_equal.
Qed.

Lemma next_builtin_builtin cur e :
  cur < STATE_CUSTOM_START -> next_builtin cur e < STATE_CUSTOM_START.
Proof.
  intros Hc. unfold next_builtin.
  repeat match goal with |- context [if ?b then _ else _] => destruct b end;
    destruct e; unfold STATE_CUSTOM_START in *; try done; lia.
Qed.

Section run.
Context (run_handler : Z -> DiagStateEvent -> Z -> M DS Z).
Context (validate_transition : Z -> Z -> Z).
Context (DiagTimer_GetTimestamp : Timers -> Z).
(** The timestamp function reads the clock and nothing else. *)
Context (stamp : Timeval -> Z) (Hstamp : forall t, DiagTimer_GetTimestamp t = stamp (clock t)).

Fixpoint run_events (l : list Stimulus) : M DS unit :=
  match l with
  | [] => mret tt
  | x :: l =>
      modify (fun s => s <| ds_timers ::= fun t => t <| clock := st_clock x |> |>);;
      DiagState_HandleEvent log_state run_handler validate_transition DiagTimer_GetTimestamp
        (st_event x) (st_data x);;
      run_events l
  end.

(** Ready for [n] more transitions. *)
Definition ready (n : nat) (s : DS) : Prop :=
  sm_wf (state_machine s) /\ ds_initialized (state_machine s) = true /\
  transition_in_progress (state_machine s) = false /\
  current_state (state_machine s) < STATE_CUSTOM_START /\
  wf (ds_timers s) /\ below_next (ds_timers s) /\
  (size (timer_map (ds_timers s)) < MAX_TIMERS)%nat /\
  next_id (timer_mgr (ds_timers s)) + Z.of_nat n < 2 ^ 32.

Lemma below_next_fresh t : below_next t -> timer_map t !! next_id (timer_mgr t) = None.
Proof.
  intros Hb. destruct (timer_map t !! _) as [x|] eqn:E; [|done].
  specialize (Hb _ _ E). simpl in Hb. lia.
Qed.

Lemma event_step x n s m l :
  ready (S n) s -> is_ring (state_machine s) l ->
  let cur := current_state (state_machine s) in
  let t := transitions validate_transition stamp cur [x] in
  wp (modify (fun s => s <| ds_timers ::= fun t => t <| clock := st_clock x |> |>);;
      DiagState_HandleEvent log_state run_handler validate_transition DiagTimer_GetTimestamp
        (st_event x) (st_data x)) (fun _ s' m' =>
    ready n s' /\ is_ring (state_machine s') (l ++ t) /\
    current_state (state_machine s') = step_state validate_transition cur (st_event x) /\
    callbacks (state_machine s') = callbacks (state_machine s) /\
    notes (trace m') = notes (trace m) ++
      concat ((fun t => told t <$> used (callbacks (state_machine s))) <$> t) /\
    timer_map (ds_timers s') = timer_map (ds_timers s)) s m.
Proof.
  intros (Hw & Hi & Hp & Hc & Hwt & Hb & Hsz & Hn) Hr cur t.
  apply wp_bind, wp_modify. set (s1 := s <| ds_timers ::= _ |>).
  assert (Hready : timers_ready (ds_timers s1)) by (split; [exact Hwt|exact (below_next_fresh _ Hb)]).
  eapply wp_mono; [by apply (handle_event_wp _ _ _ _ _ s1)|]. simpl. fold cur.
  intros r s' m'. rewrite Hstamp. unfold t, transitions, step_state. rewrite <- next_builtin_moves.
  destruct (Z.eqb_spec (next_builtin cur (st_event x)) cur) as [He|He].
  { intros (_ & -> & ->). rewrite He. replace (if _ =? _ then cur else cur) with cur
      by (by destruct (_ =? _)). rewrite Z.eqb_refl, !app_nil_r.
    split_and!; try done. split_and!; try done. simpl. lia. }
  destruct (Z.eqb_spec (validate_transition cur (next_builtin cur (st_event x))) STATE_RESULT_OK) as [Hv|Hv];
    simpl.
  2: { intros (_ & -> & ->). rewrite Z.eqb_refl, notes_app. simpl. rewrite !app_nil_r.
       split_and!; try done. split_and!; try done. simpl. lia. }
  change (timer_map (mkTimers (timer_mgr (ds_timers s)) (st_clock x))) with (timer_map (ds_timers s)).
  rewrite (proj2 (Nat.eqb_neq _ _)) by lia.
  intros (_ & Hsm & Htr & Hw' & Hm' & _ & Hnx).
  rewrite (proj2 (Z.eqb_neq _ _) He). simpl. rewrite app_nil_r.
  assert (Hnx' : next_id (timer_mgr (ds_timers s')) = next_id (timer_mgr (ds_timers s)) + 1).
  { rewrite Hnx. destruct Hwt as (_ & _ & [? ?] & _). unfold id_after.
    rewrite u32_small by (unfold is_u32; lia).
    by rewrite (proj2 (Z.eqb_neq _ _)) by lia. }
  split_and!; try done.
  - unfold ready. rewrite Hsm. split_and!; try done.
    + by apply moved_wf.
    + by apply next_builtin_builtin.
    + unfold below_next. rewrite Hm', Hnx'. eapply map_Forall_impl; [exact Hb|]. simpl. lia.
    + by rewrite Hm'.
    + rewrite Hnx'. lia.
  - rewrite Hsm. by apply is_ring_record.
  - by rewrite Hsm.
  - by rewrite Hsm.
  - rewrite Htr, notes_app, notes_told. done.
Qed.

Lemma events_run l n s m past :
  ready (length l + n) s -> is_ring (state_machine s) past ->
  let cur := current_state (state_machine s) in
  let ts := transitions validate_transition stamp cur l in
  wp (run_events l) (fun _ s' m' =>
    ready n s' /\ is_ring (state_machine s') (past ++ ts) /\
    current_state (state_machine s') = final_state validate_transition cur l /\
    notes (trace m') = notes (trace m) ++
      concat ((fun t => told t <$> used (callbacks (state_machine s))) <$> ts) /\
    timer_map (ds_timers s') = timer_map (ds_timers s)) s m.
Proof.
  revert s m past. induction l as [|x l IH]; intros s m past Hrd Hr cur ts; cbn [run_events].
  { apply wp_ret. simpl. by rewrite !app_nil_r. }
  apply wp_bind_assoc, wp_bind. eapply wp_mono; [by apply (event_step x (length l + n) s m past)|].
  intros _ s1 m1 (Hrd1 & Hr1 & Hc1 & Hcb1 & Htr1 & Hm1).
  eapply wp_mono; [apply (IH s1 m1 _ Hrd1 Hr1)|].
  intros _ s2 m2 (? & Hr2 & Hc2 & Htr2 & Hm2). unfold ts, cur. cbn [transitions].
  rewrite Hc1 in *. split_and!; [done|..].
  - revert Hr2. cbn [transitions]. rewrite app_nil_r, <- app_assoc. done.
  - by rewrite Hc2.
  - rewrite Htr2, Htr1, Hcb1. cbn [transitions].
    rewrite app_nil_r, fmap_app, concat_app, <- app_assoc. done.
  - congruence.
Qed.
End run.

(** ** Registration *)

Lemma find_callback sm cb :
  sm_wf sm -> cb <> 0 ->
  match find_idx (fun c => cb_callback c =? cb) (callback_count sm) (callbacks sm) with
  | Some i => exists c, callbacks sm !! i = Some c /\ cb_active c = true /\ cb_callback c = cb /\
                (i < callback_count sm)%nat
  | None => callback_map sm !! cb = None
  end.
Proof.
  intros (_ & _ & Hl & Hc & Hf & Hok & Hu & _) Hcb. rewrite Forall_lookup in Hok.
  destruct (find_idx _ _ _) as [i|] eqn:E.
  - apply find_idx_Some in E as (c & Hc' & Hi & He & _). tests. exists c.
    destruct (Hok _ _ Hc') as [->|[Ha _]]; [done|]. by split_and!.
  - apply find_idx_None in E. rewrite Forall_lookup in E.
    destruct (callback_map sm !! cb) as [c|] eqn:Em; [|done].
    apply slot_map_inv in Em as (i & Hi & Ha & Hk); [|done].
    specialize (E i c). rewrite lookup_take_Some in E.
    assert (i < callback_count sm)%nat by (by eapply free_from_used).
    specialize (E (conj Hi ltac:(done))). simpl in *. tests. congruence.
Qed.

(** Writing a slot below the count or at it. *)
Lemma callbacks_put sm i c n :
  sm_wf sm -> (i < n)%nat -> (callback_count sm <= n <= MAX_STATE_CALLBACKS)%nat ->
  cb_active c = true -> cb_callback c <> 0 -> slots_uniq (<[i := c]> (callbacks sm)) ->
  sm_wf (sm <| callbacks ::= <[i := c]> |> <| callback_count := n |>).
Proof.
  intros (? & ? & Hl & Hc & Hf & Hok & Hu & Hrest) Hi Hn Ha Hne Hu'. unfold sm_wf; simpl.
  rewrite length_insert. split_and!; try done; try lia; try apply Hrest.
  - apply free_from_insert; [by left|]. eapply free_from_mono; [|done]. lia.
  - apply Forall_insert; [done|]. by right.
Qed.

Lemma register_callback_wp cb cx s m :
  let sm := state_machine s in
  sm_wf sm -> ds_initialized sm = true ->
  wp (DiagState_RegisterCallback cb cx) (fun ok s' m' =>
    sm_wf (state_machine s') /\ ds_timers s' = ds_timers s /\
    current_state (state_machine s') = current_state sm /\
    if decide (cb <> 0 /\ (is_Some (callback_map sm !! cb) \/
                           size (callback_map sm) < MAX_STATE_CALLBACKS)%nat)
    then ok = true /\ m' = m /\
         callback_map (state_machine s') = <[cb := mkStateCallback cb cx true]> (callback_map sm)
    else ok = false /\ s' = s) s m.
Proof.
  intros sm Hw Hi. unfold DiagState_RegisterCallback. apply wp_bind, wp_get. fold sm. rewrite Hi. simpl.
  destruct (Z.eqb_spec cb 0) as [->|Hcb]; [apply wp_ret; rewrite decide_False by naive_solver; by split_and!|].
  pose proof (find_callback sm cb Hw Hcb) as Hf.
  assert (Hw' := Hw). destruct Hw' as (_ & _ & Hl & Hc & Hff & Hok & Hu & _).
  destruct (find_idx _ _ _) as [i|].
  - destruct Hf as (c & Hci & Ha & Hk & Hilt).
    apply wp_bind, wp_modify, wp_ret. simpl. fold sm. set (c' := mkStateCallback cb cx true).
    replace (alter _ i (callbacks sm)) with (<[i := c']> (callbacks sm))
      by (rewrite (alter_as_insert _ _ _ _ Hci); f_equal; destruct c; simpl in *; by subst).
    destruct (slot_update (callbacks sm) i c' c) as [Hu' Hm]; [done..|].
    pose proof (slot_map_Some (callbacks sm) i c Hu Hci) as Hin. simpl in Hin. rewrite Hk in Hin.
    rewrite decide_True by (split; [done|]; left; exists c; by apply Hin).
    split_and!; try done.
    pose proof (callbacks_put sm i c' (callback_count sm) Hw) as Hput. by apply Hput.
  - pose proof (find_free_size MAX_STATE_CALLBACKS _ Hu Hl) as Hfree.
    destruct (find_free _ _) as [i|].
    + destruct Hfree as (Hsz & Hilt & y & Hy & Huy). set (c' := mkStateCallback cb cx true).
      destruct (slot_fill (callbacks sm) i c' y) as [Hu' Hm]; [done..|].
      assert (Hd : cb <> 0 /\ (is_Some (callback_map sm !! cb) \/
        size (callback_map sm) < MAX_STATE_CALLBACKS)%nat) by (split; [done|]; by right).
      apply wp_bind, wp_modify. destruct (Nat.leb_spec (callback_count sm) i) as [Hle|Hlt].
      * apply wp_bind, wp_modify, wp_ret. rewrite decide_True by done. simpl. fold sm. split_and!; try done.
        pose proof (callbacks_put sm i c' (S i) Hw) as Hput. apply Hput; try done; lia.
      * apply wp_bind, wp_ret, wp_ret. rewrite decide_True by done. simpl. fold sm. split_and!; try done.
        pose proof (callbacks_put sm i c' (callback_count sm) Hw) as Hput. by apply Hput.
    + apply wp_bind, wp_emit, wp_ret.
      rewrite decide_False by (intros [_ [[? ?]|?]]; [congruence|unfold callback_map in *; lia]).
      by split_and!.
Qed.

Lemma unregister_callback_wp cb s m :
  let sm := state_machine s in
  sm_wf sm -> ds_initialized sm = true -> cb <> 0 ->
  wp (DiagState_UnregisterCallback cb) (fun _ s' m' =>
    sm_wf (state_machine s') /\ ds_timers s' = ds_timers s /\ m' = m /\
    current_state (state_machine s') = current_state sm /\
    callback_map (state_machine s') = delete cb (callback_map sm)) s m.
Proof.
  intros sm Hw Hi Hcb. unfold DiagState_UnregisterCallback. apply wp_bind, wp_get. fold sm.
  rewrite Hi, (proj2 (Z.eqb_neq _ _) Hcb). simpl.
  pose proof (find_callback sm cb Hw Hcb) as Hf.
  assert (Hw' := Hw). destruct Hw' as (? & ? & Hl & Hc & Hff & Hok & Hu & Hrest).
  destruct (find_idx _ _ _) as [i|].
  - destruct Hf as (c & Hci & Ha & <- & Hilt). apply wp_bind, wp_modify, wp_modify. simpl. fold sm.
    destruct (slot_blank (callbacks sm) i state_callback_zero c) as [Hu' Hm]; [done..|].
    split_and!; try done. unfold sm_wf; simpl. rewrite length_insert.
    split_and!; try done; try apply Hrest.
    + pose proof (shrink_le (callback_count sm) (<[i := state_callback_zero]> (callbacks sm))). lia.
    + apply shrink_free, free_from_insert; [by right|done].
    + apply Forall_insert; [done|by left].
  - apply wp_ret. split_and!; try done. by rewrite delete_id.
Qed.

Lemma custom_wf sm a n :
  sm_wf sm -> length a = MAX_CUSTOM_STATES -> (n <= MAX_CUSTOM_STATES)%nat -> tbl_uniq n a ->
  sm_wf (sm <| custom_states := a |> <| custom_state_count := n |>).
Proof.
  intros (? & ? & ? & ? & ? & ? & ? & ? & ? & ?) ???. unfold sm_wf; simpl. by split_and!.
Qed.

Lemma register_custom_wp h s m :
  let sm := state_machine s in
  sm_wf sm -> ds_initialized sm = true ->
  wp (DiagState_RegisterCustomState (Some h)) (fun ok s' m' =>
    sm_wf (state_machine s') /\ ds_timers s' = ds_timers s /\
    if decide (STATE_CUSTOM_START <= cs_state h /\
               (is_Some (custom_map sm !! cs_state h) \/ size (custom_map sm) < MAX_CUSTOM_STATES)%nat)
    then ok = true /\ custom_map (state_machine s') = <[cs_state h := h]> (custom_map sm)
    else ok = false /\ s' = s) s m.
Proof.
  intros sm Hw Hi. unfold DiagState_RegisterCustomState. apply wp_bind, wp_get. fold sm.
  rewrite Hi. simpl. assert (Hw' := Hw). destruct Hw' as (_ & _ & _ & _ & _ & _ & _ & Hl & Hc & Hu).
  destruct (Z.ltb_spec (cs_state h) STATE_CUSTOM_START) as [Hlt|Hge].
  { apply wp_ret. rewrite decide_False by lia. by split_and!. }
  unfold custom_map. rewrite tbl_lookup, tbl_size by (done || lia).
  unfold find_custom. destruct (find_key _ _ _) as [i|] eqn:E.
  - destruct (find_key_Some _ _ _ _ E) as (y & Hy & Hilt & Hk). simpl. rewrite Hy.
    destruct (tbl_update (custom_state_count sm) (custom_states sm) i h y) as [Hu' Hm];
      [done..|].
    apply wp_bind, wp_modify, wp_ret. rewrite decide_True by eauto. simpl. fold sm.
    split_and!; try done.
    pose proof (custom_wf sm (<[i:=h]> (custom_states sm)) (custom_state_count sm) Hw) as Hcw.
    apply Hcw; [by rewrite length_insert|done|done].
  - simpl. destruct (Nat.leb_spec MAX_CUSTOM_STATES (custom_state_count sm)) as [Hf|Hf].
    + apply wp_bind, wp_emit, wp_ret.
      rewrite decide_False by (intros [_ [[? ?]|?]]; [done|lia]). by split_and!.
    + destruct (tbl_push (custom_state_count sm) (custom_states sm) h) as [Hu' Hm]; [lia|done|done|].
      apply wp_bind, wp_modify, wp_bind, wp_modify, wp_ret.
      rewrite decide_True by (split; [done|right; lia]). simpl. fold sm. split_and!; try done.
      pose proof (custom_wf sm (<[custom_state_count sm:=h]> (custom_states sm))
        (S (custom_state_count sm)) Hw) as Hcw.
      apply Hcw; [by rewrite length_insert|lia|done].
Qed.

Lemma unregister_custom_wp (run_exit : Z -> M DS unit) st s m :
  let sm := state_machine s in
  sm_wf sm -> ds_initialized sm = true -> STATE_CUSTOM_START <= st ->
  (forall f s m, run_exit f s m = Some (tt, s, m <| trace ::= fun t => t ++ [call "exit" [f]] |>)) ->
  wp (DiagState_UnregisterCustomState run_exit st) (fun _ s' m' =>
    sm_wf (state_machine s') /\ ds_timers s' = ds_timers s /\
    custom_map (state_machine s') = delete st (custom_map sm)) s m.
Proof.
  intros sm Hw Hi Hst Hex. unfold DiagState_UnregisterCustomState. apply wp_bind, wp_get. fold sm.
  rewrite Hi, (proj2 (Z.ltb_ge _ _) Hst). simpl.
  assert (Hw' := Hw). destruct Hw' as (_ & _ & _ & _ & _ & _ & _ & Hl & Hc & Hu).
  unfold find_custom. destruct (find_key _ _ _) as [i|] eqn:E.
  - destruct (find_key_Some _ _ _ _ E) as (y & Hy & Hilt & _). rewrite Hy.
    destruct (tbl_remove st (custom_state_count sm) (custom_states sm) i) as [Hu' Hm];
      [lia|done|done|]. rewrite <- remove_record_memmove in Hu', Hm by done.
    assert (HQ : forall m, wp (on_sm (fun sm => sm <| custom_states ::= remove_record i (custom_state_count sm) |>);;
        on_sm (fun sm => sm <| custom_state_count ::= fun n => (n - 1)%nat |>)) (fun _ s' m' =>
      sm_wf (state_machine s') /\ ds_timers s' = ds_timers s /\
      custom_map (state_machine s') = delete st (custom_map sm)) s m).
    { intros m0. apply wp_bind, wp_modify, wp_modify. simpl. fold sm. split_and!; try done.
      pose proof (custom_wf sm (remove_record i (custom_state_count sm) (custom_states sm))
        (custom_state_count sm - 1) Hw) as Hcw.
      apply Hcw; [|lia|done]. rewrite remove_record_memmove, length_memmove_down by lia. done. }
    apply wp_bind, wp_ret, wp_bind. destruct (_ && _); [|by apply wp_ret].
    unfold wp at 1. rewrite Hex. apply HQ.
  - apply wp_ret. split_and!; try done. symmetry. apply delete_id. unfold custom_map.
    rewrite tbl_lookup by done. fold sm. by rewrite E.
Qed.

(** ** Callbacks that raise events *)

(** A state callback that raises an event of its own. *)
Definition raising (rh : Z -> DiagStateEvent -> Z -> M DS Z) (v : Z -> Z -> Z) (ts : Timers -> Z)
  (e : DiagStateEvent) (d : Z) (f : Z) (t : DiagStateTransition) (c : Z) : M DS unit :=
  log_state f t c;; DiagState_HandleEvent log_state rh v ts e d;; mret tt.

Lemma raising_busy rh v ts e d f t c s m :
  ds_initialized (state_machine s) = true -> transition_in_progress (state_machine s) = true ->
  raising rh v ts e d f t c s m = log_state f t c s m.
Proof.
  intros Hi Hp. unfold raising, DiagState_HandleEvent. unfold mbind, M_bind, get. simpl.
  by rewrite Hi, Hp.
Qed.

Lemma notify_raising rh v ts e d t n i s m :
  ds_initialized (state_machine s) = true -> transition_in_progress (state_machine s) = true ->
  notify_loop (raising rh v ts e d) t n i s m = notify_loop log_state t n i s m.
Proof.
  intros Hi Hp. revert i m. induction n as [|n IH]; intros i m; [done|].
  cbn [notify_loop]. unfold mbind, M_bind, get.
  destruct (i <? callback_count (state_machine s))%nat; [|done].
  destruct (callbacks (state_machine s) !! i) as [c|]; [|done].
  destruct (_ && _).
  - rewrite raising_busy by done. unfold log_state, emit, on_machine. apply IH.
  - apply IH.
Qed.

(** ** Properties *)

(** C6. The state machine follows the table [moves].  For every list of timed
    events, from an initialised machine that is not busy, in a built-in state and
    with an empty history: the final state is the fold of the listed moves that
    [validate_transition] accepts; every registered (listening) callback is told
    every transition, in order, and nothing else; the history dump lists the last 32
    transitions, newest first (whatever the 32-bit index arithmetic does); and the
    supervision timers are all returned.  A timer slot must be free, the timer ids
    must not wrap and the timestamps must not be zero. *)
Theorem event_run_refines run_handler validate_transition DiagTimer_GetTimestamp stamp l s m :
  (forall t, DiagTimer_GetTimestamp t = stamp (clock t)) ->
  Forall (fun x => stamp (st_clock x) <> 0) l ->
  ready (length l) s -> is_ring (state_machine s) [] ->
  let cur := current_state (state_machine s) in
  let ts := transitions validate_transition stamp cur l in
  wp (run_events run_handler validate_transition DiagTimer_GetTimestamp l) (fun _ s' m' =>
    current_state (state_machine s') = final_state validate_transition cur l /\
    notes (trace m') = notes (trace m) ++
      concat ((fun t => told t <$> used (callbacks (state_machine s))) <$> ts) /\
    DiagState_DumpTransitionHistory (state_machine s') =
      take MAX_TRANSITION_HISTORY (reverse ts) /\
    timer_map (ds_timers s') = timer_map (ds_timers s)) s m.
Proof.
  intros Hstamp Hnz Hr Hring cur ts.
  eapply wp_mono; [apply (events_run _ _ _ _ Hstamp l 0 s m []); [by rewrite Nat.add_0_r|done]|].
  intros _ s' m' (Hr' & Hring' & ? & ? & ?). split_and!; try done.
  apply dump_ring; [done|apply Hr'|]. by apply transitions_stamped.
Qed.

(** [validate_transition] by the transition matrix, as the comment above the
    matrix describes it. *)
Definition validate_by_matrix (from to : Z) : Z :=
  if DiagState_IsTransitionAllowed from to state_machine_zero
  then STATE_RESULT_OK else STATE_RESULT_INVALID_STATE.

(** A machine after [DiagState_Init] with one callback, and 40 stimuli. *)
Definition demo_ds : DS :=
  mkDS (state_machine_zero <| ds_initialized := true |>
          <| callbacks ::= <[0%nat := mkStateCallback 9 4 true]> |> <| callback_count := 1%nat |>)
    two_timers.
Definition demo_stimuli : list Stimulus :=
  (fun e => mkStimulus (mkTimeval 2 0) e 0) <$>
    (STATE_EVENT_INIT :: concat (replicate 20 [STATE_EVENT_ERROR; STATE_EVENT_RESET])).

Lemma demo_wf : sm_wf (state_machine demo_ds).
Proof.
  unfold sm_wf. split_and!; [done|vm_compute; lia|done|vm_compute; lia|..].
  - vm_compute. by repeat constructor.
  - constructor; [right; by split|]. repeat (constructor; [by left|]). constructor.
  - unfold slots_uniq. vm_compute. apply NoDup_singleton.
  - done.
  - vm_compute. lia.
  - constructor.
Qed.

Lemma demo_ready : ready (length demo_stimuli) demo_ds /\ is_ring (state_machine demo_ds) [].
Proof.
  destruct (timer_run_below 2 two_timers two_timers_run) as (Hw & Hb & Hn); [done|].
  split.
  - split_and!; [exact demo_wf|done|done|done|exact Hw|exact Hb|..].
    + change (size (timer_map (ds_timers demo_ds))) with 2%nat. unfold MAX_TIMERS. lia.
    + reflexivity.
  - split_and!; [vm_compute; lia|done|]. intros i Hi. rewrite ring_index_mod.
    cbn -[Z.to_nat Z.modulo replicate]. apply lookup_replicate. split; [done|].
    unfold MAX_TRANSITION_HISTORY. Z.div_mod_to_equations. lia.
Qed.

(** Witness of [event_run_refines]: 41 events, so the ring has wrapped. *)
Lemma event_run_refines_witness :
  wp (run_events (fun _ _ _ => mret 0) validate_by_matrix get_timestamp demo_stimuli)
    (fun _ s' m' => current_state (state_machine s') = STATE_IDLE /\
       length (notes (trace m')) = 41%nat /\
       length (DiagState_DumpTransitionHistory (state_machine s')) = 32%nat) demo_ds boot.
Proof.
  eapply wp_mono.
  - apply (event_run_refines (fun _ _ _ => mret 0) validate_by_matrix get_timestamp
      (fun tv => u32 (millis tv)) demo_stimuli demo_ds boot).
    + reflexivity.
    + apply Forall_fmap, Forall_forall. intros e _. vm_compute. congruence.
    + apply demo_ready.
    + apply demo_ready.
  - intros _ s' m' (-> & -> & -> & _). vm_compute. repeat split.
Defined.

(**  A callback that raises an event while it is told a transition changes
    nothing: the event is refused as busy, and handling an event with such callbacks
    is exactly handling it with callbacks that only listen. *)
Theorem reentrant_event_refused rh v ts e d event data s m :
  ds_initialized (state_machine s) = true -> current_state (state_machine s) < STATE_CUSTOM_START ->
  DiagState_HandleEvent (raising rh v ts e d) rh v ts event data s m =
  DiagState_HandleEvent log_state rh v ts event data s m.
Proof.
  intros Hi Hc. unfold DiagState_HandleEvent, determine_next_state.
  unfold mbind, M_bind, get. rewrite Hi. simpl. destruct (transition_in_progress _); [done|].
  rewrite (proj2 (Z.leb_gt _ _) Hc). simpl. destruct (_ =? current_state _); [done|].
  destruct (negb _); [done|]. unfold on_sm, modify, timestamp, timers_op, mbind, M_bind, get. simpl.
  destruct (DiagTimer_Start _ _ _ _ _) as [id t1]. destruct (id =? 0); [done|].
  unfold notify_state_change. rewrite notify_raising; done.
Qed.

(** Witness of [reentrant_event_refused]. *)
Lemma reentrant_event_refused_witness :
  (DiagState_HandleEvent (raising (fun _ _ _ => mret 0) validate_by_matrix get_timestamp
      STATE_EVENT_ERROR 0) (fun _ _ _ => mret 0) validate_by_matrix get_timestamp
      STATE_EVENT_INIT 0 demo_ds boot =
   DiagState_HandleEvent log_state (fun _ _ _ => mret 0) validate_by_matrix get_timestamp
      STATE_EVENT_INIT 0 demo_ds boot).
Proof. apply (reentrant_event_refused _ _ _ _ _ _ _ demo_ds); [reflexivity|reflexivity]. Defined.

(**  The logic against the matrix: every transition [determine_next_state]
    asks for between built-in states is marked valid in the transition matrix, with
    the one exception of DEINIT in the idle state, which asks for UNINIT. *)
Theorem logic_within_matrix cur event sm :
  0 <= cur < STATE_CUSTOM_START -> next_builtin cur event <> cur ->
  DiagState_IsTransitionAllowed cur (next_builtin cur event) sm =
  negb ((cur =? STATE_IDLE) && bool_decide (event = STATE_EVENT_DEINIT)).
Proof.
  intros Hc Hne. unfold next_builtin in *.
  repeat match goal with
  | |- context [cur =? ?k] => destruct (Z.eqb_spec cur k); [subst cur; by destruct event|]
  end; done.
Qed.

(** Witness of [logic_within_matrix]. *)
Lemma logic_within_matrix_witness :
  DiagState_IsTransitionAllowed STATE_IDLE (next_builtin STATE_IDLE STATE_EVENT_DEINIT)
    state_machine_zero = false.
Proof.
  apply (logic_within_matrix STATE_IDLE STATE_EVENT_DEINIT state_machine_zero).
  - vm_compute. split; congruence.
  - vm_compute. congruence.
Defined.

(**  Recovery: from a built-in state some sequence of events leads to the
    idle state exactly when the state is none of SESSION_ENDING, SECURITY_ACTIVE,
    RESET_PENDING and SUSPENDED; in those four no event has any effect, although the
    matrix allows SESSION_ENDING to return to idle. *)
Theorem idle_recoverable cur :
  0 <= cur <= STATE_SUSPENDED ->
  (exists es, foldl next_builtin cur es = STATE_IDLE) <->
  cur ∉ [STATE_SESSION_ENDING; STATE_SECURITY_ACTIVE; STATE_RESET_PENDING; STATE_SUSPENDED].
Proof.
  intros Hc. split.
  - intros [es He] Hin.
    assert (Hstay : forall es, foldl next_builtin cur es = cur).
    { clear - Hin. induction es as [|e es IH]; [done|]. simpl.
      replace (next_builtin cur e) with cur; [done|].
      repeat (apply elem_of_cons in Hin as [->|Hin]; [by destruct e|]). by apply elem_of_nil in Hin. }
    rewrite Hstay in He. subst cur. vm_compute in Hin.
    repeat (apply elem_of_cons in Hin as [?|Hin]; [done|]). by apply elem_of_nil in Hin.
  - intros Hn. assert (cur ∈ [0; 1; 2; 3; 5; 7]) as Hin.
    { unfold STATE_SUSPENDED in Hc. rewrite !not_elem_of_cons in Hn. destruct Hn as (? & ? & ? & ? & _).
      unfold STATE_SESSION_ENDING, STATE_SECURITY_ACTIVE, STATE_RESET_PENDING, STATE_SUSPENDED in *.
      rewrite !elem_of_cons. lia. }
    repeat (apply elem_of_cons in Hin as [->|Hin]); try by apply elem_of_nil in Hin.
    + by exists [STATE_EVENT_INIT].
    + by exists [].
    + by exists [STATE_EVENT_ERROR; STATE_EVENT_RESET].
    + by exists [STATE_EVENT_ERROR; STATE_EVENT_RESET].
    + by exists [STATE_EVENT_TIMEOUT].
    + by exists [STATE_EVENT_RESET].
Qed.

(** Witness of [idle_recoverable]: no sequence of events leaves a session that
    is ending. *)
Lemma idle_recoverable_witness :
  ~ exists es, foldl next_builtin STATE_SESSION_ENDING es = STATE_IDLE.
Proof.
  intros H. apply (idle_recoverable STATE_SESSION_ENDING) in H.
  - apply H. by left.
  - vm_compute. split; congruence.
Defined.

(**  The callback and custom-state tables implement finite maps: registering
    inserts or replaces and fails without effect exactly for NULL, a state below
    the custom range or a full table; unregistering deletes; the invariant is kept and
    neither the current state nor the timers change. *)
Theorem registries_refine_maps s m :
  let sm := state_machine s in
  sm_wf sm -> ds_initialized sm = true ->
  (forall cb cx, wp (DiagState_RegisterCallback cb cx) (fun ok s' _ =>
     sm_wf (state_machine s') /\
     current_state (state_machine s') = current_state sm /\
     if decide (cb <> 0 /\ (is_Some (callback_map sm !! cb) \/
                            size (callback_map sm) < MAX_STATE_CALLBACKS)%nat)
     then ok = true /\
          callback_map (state_machine s') = <[cb := mkStateCallback cb cx true]> (callback_map sm)
     else ok = false /\ s' = s) s m) /\
  (forall cb, cb <> 0 -> wp (DiagState_UnregisterCallback cb) (fun _ s' _ =>
     sm_wf (state_machine s') /\
     callback_map (state_machine s') = delete cb (callback_map sm)) s m) /\
  (forall h, wp (DiagState_RegisterCustomState (Some h)) (fun ok s' _ =>
     sm_wf (state_machine s') /\
     if decide (STATE_CUSTOM_START <= cs_state h /\
                (is_Some (custom_map sm !! cs_state h) \/
                 size (custom_map sm) < MAX_CUSTOM_STATES)%nat)
     then ok = true /\ custom_map (state_machine s') = <[cs_state h := h]> (custom_map sm)
     else ok = false /\ s' = s) s m) /\
  (forall st, STATE_CUSTOM_START <= st ->
     wp (DiagState_UnregisterCustomState (fun f => emit "exit" [f]) st) (fun _ s' _ =>
       sm_wf (state_machine s') /\
       custom_map (state_machine s') = delete st (custom_map sm)) s m).
Proof.
  intros sm Hw Hi. split_and!.
  - intros cb cx. eapply wp_mono; [by apply register_callback_wp|]. simpl.
    intros ok s' m' (? & _ & ? & H). split_and!; try done. fold sm in H. case_decide; naive_solver.
  - intros cb Hcb. eapply wp_mono; [by apply unregister_callback_wp|]. naive_solver.
  - intros h. eapply wp_mono; [by apply register_custom_wp|]. simpl.
    intros ok s' m' (? & _ & H). split_and!; try done.
  - intros st Hst. eapply wp_mono; [by apply unregister_custom_wp|]. naive_solver.
Qed.

(** Witness of [registries_refine_maps]. *)
Lemma registries_refine_maps_witness :
  wp (DiagState_UnregisterCallback 9) (fun _ s' _ =>
    callback_map (state_machine s') = delete 9 (callback_map (state_machine demo_ds))) demo_ds boot.
Proof.
  eapply wp_mono; [apply (registries_refine_maps demo_ds boot demo_wf eq_refl); congruence|].
  intros _ s' m' [_ H]. exact H.
Defined.
