(* ===== verification/CanDriver.v ===== *)
(** * CAN driver

    [src/runtime/drivers/can_driver.c] without its interrupt handler: the
    driver's state machine, its two frame queues and the acceptance filters.
    [Queue] comes from [common/queue.h], which the repository does not contain,
    so it is an interface ([FrameQueue]) with the behaviour of a bounded FIFO.
    Register writes are calls of the trace; the answer of the controller to the
    reset request is an argument.

    [CanBus] is what the protocols above the driver rely on; the driver
    discharges it for every queue. *)

From S2P Require Import Prelude Machine.

(** [data] has 64 bytes. *)
Record CANFrame := mkCANFrame {
  id : Z; dlc : Z; is_extended : bool; is_fd : bool; is_remote : bool;
  frame_data : list Z; frame_timestamp : Z }.
(** [CANFrame f = { .id = .., .is_extended = .., .dlc = .. }] and its data. *)
Definition mkFrame (i l : Z) (ext : bool) (d : list Z) : CANFrame := mkCANFrame i l ext false false d 0.

Record CANConfig := mkCANConfig {
  base_address : Z; interrupt_num : Z; bitrate : Z; sample_point : Z; fd_enabled : bool;
  auto_retransmit : bool; tx_mailboxes : Z; rx_mailboxes : Z }.

Inductive CANState :=
  CAN_STATE_UNINIT | CAN_STATE_STOPPED | CAN_STATE_STARTED | CAN_STATE_SLEEP
| CAN_STATE_ERROR_ACTIVE | CAN_STATE_ERROR_PASSIVE | CAN_STATE_BUS_OFF.
#[export] Instance CANState_eq_dec : EqDecision CANState.
Proof. solve_decision. Defined.

Inductive CANError :=
  CAN_ERROR_NONE | CAN_ERROR_STUFF | CAN_ERROR_FORM | CAN_ERROR_ACK | CAN_ERROR_BIT1
| CAN_ERROR_BIT0 | CAN_ERROR_CRC | CAN_ERROR_SOFTWARE | CAN_ERROR_HARDWARE.

Record CANStats := mkCANStats {
  tx_count : Z; rx_count : Z; error_count : Z; overflow_count : Z; bus_off_count : Z;
  tx_error_counter : Z; rx_error_counter : Z }.

(** A queue of frames, first in first out; [queue_push] answers [false] when it
    has no room. *)
Class FrameQueue (Q : Type) := {
  queue_new : nat -> Q;
  queue_push : CANFrame -> Q -> bool * Q;
  queue_pop : Q -> option (CANFrame * Q);
  queue_clear : Q -> Q;
  items : Q -> list CANFrame;
  queue_new_empty n : items (queue_new n) = [];
  queue_push_back f q : items (snd (queue_push f q)) = items q ++ if fst (queue_push f q) then [f] else [];
  queue_pop_front q : match queue_pop q with
                      | None => items q = []
                      | Some (f, q') => items q = f :: items q'
                      end;
  queue_clear_empty q : items (queue_clear q) = [] }.

(** A bounded list. *)
Record ListQueue := mkListQueue { queued : list CANFrame; queue_capacity : nat }.
#[export, refine] Instance ListQueue_queue : FrameQueue ListQueue := {|
  queue_new := mkListQueue [];
  queue_push f q := if (length (queued q) <? queue_capacity q)%nat
                    then (true, mkListQueue (queued q ++ [f]) (queue_capacity q)) else (false, q);
  queue_pop q := match queued q with
                 | [] => None
                 | f :: fs => Some (f, mkListQueue fs (queue_capacity q))
                 end;
  queue_clear q := mkListQueue [] (queue_capacity q);
  items := queued |}.
Proof.
  - done.
  - intros f [q n]; simpl. destruct (_ <? _)%nat; simpl; by rewrite ?app_nil_r.
  - by intros [[|f fs] n].
  - done.
Defined.

(** One acceptance filter: [ids[i]], [masks[i]], [is_extended[i]]. *)
Record Filter := mkFilter { f_id : Z; f_mask : Z; f_extended : bool }.

(** Without the register pointer, whose writes are in the trace, and the
    interrupt flags, which nothing here changes. *)
Record CANDriver (Q : Type) := mkCANDriver {
  can_config : CANConfig; can_state : CANState; last_error : CANError; statistics : CANStats;
  tx_queue : Q; rx_queue : Q;
  filters : list Filter;      (* the three arrays, [filters.capacity] long *)
  filter_count : nat; filter_capacity : nat;
  can_critical : CriticalSection }.
Arguments mkCANDriver {Q}. Arguments can_config {Q}. Arguments can_state {Q}. Arguments last_error {Q}.
Arguments statistics {Q}. Arguments tx_queue {Q}. Arguments rx_queue {Q}. Arguments filters {Q}.
Arguments filter_count {Q}. Arguments filter_capacity {Q}. Arguments can_critical {Q}.
#[export] Instance eta_CANDriver Q : Eta (CANDriver Q) := fun d =>
  mkCANDriver (can_config d) (can_state d) (last_error d) (statistics d) (tx_queue d) (rx_queue d)
    (filters d) (filter_count d) (filter_capacity d) (can_critical d).
#[export, refine] Instance CANDriver_critical Q : HasCritical (CANDriver Q) :=
  {| crit := can_critical; set_crit c d := d <| can_critical := c |> |}.
Proof. all: by intros; destruct s. Defined.

Section driver.
Context {Q : Type} `{FrameQueue Q}.
Implicit Types d : CANDriver Q.

Definition CAN_MCR : Z := 0x00.
Definition CAN_CTRL1 : Z := 0x04.
Definition CAN_RXMGMASK : Z := 0x10.
Definition CAN_IMASK1 : Z := 0x28.
Definition write_reg (reg value : Z) : M (CANDriver Q) unit := emit "can_base" [reg; value].

(** [acked]: whether the controller cleared its reset bit within the polls. *)
Definition configure_hardware (acked : bool) : M (CANDriver Q) bool :=
  write_reg CAN_MCR 0x5000000F;;
  if negb acked then modify (fun d => d <| last_error := CAN_ERROR_HARDWARE |>);; mret false else
  d ← get;
  let ctrl1 := if fd_enabled (can_config d) then 0x00800000 else 0 in
  let clock := 80000000 in
  if bitrate (can_config d) =? 0 then fault else
  let tq := clock / bitrate (can_config d) in
  let prop_seg := u32 (tq * sample_point (can_config d)) / 100 in
  let phase_seg1 := prop_seg / 2 in
  let phase_seg2 := u32 (tq - prop_seg - 1) in
  let ctrl1 := Z.lor ctrl1 (Z.lor (Z.lor (u32 (phase_seg2 - 1)) (u32 (Z.shiftl (u32 (phase_seg1 - 1)) 8)))
                                  (u32 (Z.shiftl (u32 (prop_seg - 1)) 16))) in
  write_reg CAN_CTRL1 ctrl1;;
  write_reg CAN_IMASK1 0xFFFFFFFF;;
  mret true.

(** [granted]: whether every allocation succeeded (each failure path answers
    NULL). *)
Definition can_create (granted : bool) (config : option CANConfig) : option (CANDriver Q) :=
  match config with
  | None => None
  | Some cfg =>
    if negb granted then None else
    Some (mkCANDriver cfg CAN_STATE_STOPPED CAN_ERROR_NONE (mkCANStats 0 0 0 0 0 0 0)
            (queue_new 32) (queue_new 32) (replicate 16 (mkFilter 0 0 false)) 0 16 (init_critical cs_zero))
  end.

Definition can_start (acked : bool) : M (CANDriver Q) bool :=
  d ← get;
  if negb (bool_decide (can_state d = CAN_STATE_STOPPED)) then mret false else
  ok ← configure_hardware acked;
  if negb ok then mret false else
  modify (fun d => d <| can_state := CAN_STATE_STARTED |>);;
  mret true.

(** [mcr]: the control register before [can_base[CAN_MCR] |= 0x80000000]. *)
Definition can_stop (mcr : Z) : M (CANDriver Q) unit :=
  d ← get;
  if bool_decide (can_state d = CAN_STATE_STOPPED) then mret tt else
  enter;;
  write_reg CAN_MCR (Z.lor mcr 0x80000000);;
  modify (fun d => d <| tx_queue ::= queue_clear |> <| rx_queue ::= queue_clear |>
                     <| can_state := CAN_STATE_STOPPED |>);;
  exit.

Definition driver_transmit (frame : CANFrame) (timeout_ms : Z) : M (CANDriver Q) bool :=
  d ← get;
  if negb (bool_decide (can_state d = CAN_STATE_STARTED)) then mret false else
  enter;;
  d ← get;
  let '(result, q) := queue_push frame (tx_queue d) in
  modify (fun d => d <| tx_queue := q |>);;
  exit;;
  mret result.

Definition driver_receive (timeout_ms : Z) : M (CANDriver Q) (option CANFrame) :=
  d ← get;
  if negb (bool_decide (can_state d = CAN_STATE_STARTED)) then mret None else
  match queue_pop (rx_queue d) with
  | None => mret None
  | Some (f, q) => modify (fun d => d <| rx_queue := q |>);; mret (Some f)
  end.

Definition can_get_state (d : option (CANDriver Q)) : CANState :=
  match d with Some d => can_state d | None => CAN_STATE_UNINIT end.
Definition can_get_last_error (d : option (CANDriver Q)) : CANError :=
  match d with Some d => last_error d | None => CAN_ERROR_NONE end.

Definition can_get_statistics (out : bool) : M (CANDriver Q) (option CANStats) :=
  if negb out then mret None else
  enter;;
  d ← get;
  exit;;
  mret (Some (statistics d)).

Definition can_set_filter (fid mask : Z) (ext : bool) : M (CANDriver Q) bool :=
  enter;;
  d ← get;
  if (filter_capacity d <=? filter_count d)%nat then exit;; mret false else
  if (length (filters d) <=? filter_count d)%nat then fault else
  modify (fun d => d <| filters ::= fun l => <[filter_count d := mkFilter fid mask ext]> l |>
                     <| filter_count ::= fun n => S n |>);;
  exit;;
  mret true.

Definition can_clear_filters : M (CANDriver Q) unit :=
  enter;;
  modify (fun d => d <| filter_count := O |>);;
  write_reg CAN_RXMGMASK 0xFFFFFFFF;;
  exit.
End driver.

(** ** What the protocols rely on *)

(** Received frames come out once, in the order they arrived; a transmission
    takes nothing from that queue, and appends its frame and answers true exactly
    when the bus accepts it; neither call leaves a trace on the processor. *)
Class CanBus (D : Type) := {
  can_transmit : CANFrame -> Z -> M D bool;
  can_receive : Z -> M D (option CANFrame);
  pending : D -> list CANFrame;
  sent : D -> list CANFrame;
  accepts : CANFrame -> D -> bool;
  can_receive_fifo t d m :
    wp (can_receive t) (fun o d' m' => m' = m /\
      match o with
      | None => d' = d /\ pending d = []
      | Some f => pending d = f :: pending d' /\ sent d' = sent d
      end) d m;
  can_transmit_appends f t d m :
    wp (can_transmit f t) (fun ok d' m' => m' = m /\ ok = accepts f d /\ pending d' = pending d /\
      sent d' = sent d ++ if ok : bool then [f] else []) d m }.

Lemma primask_restored m : m <| primask := true |> <| primask := primask m |> = m.
Proof. by destruct m. Qed.

(** The driver keeps that promise; frames of a driver that is not started are
    out of reach.  It accepts a frame when it is started and its queue has room. *)
#[export, refine] Instance CANDriver_bus {Q} `{FrameQueue Q} : CanBus (CANDriver Q) := {|
  can_transmit := driver_transmit;
  can_receive := driver_receive;
  pending d := if bool_decide (can_state d = CAN_STATE_STARTED) then items (rx_queue d) else [];
  sent d := items (tx_queue d);
  accepts f d := bool_decide (can_state d = CAN_STATE_STARTED) && (queue_push f (tx_queue d)).1 |}.
Proof.
  - intros t d m. unfold driver_receive. apply wp_bind, wp_get.
    destruct (bool_decide _) eqn:E; simpl; [|by apply wp_ret].
    assert (Hpop := queue_pop_front (rx_queue d)). destruct (queue_pop (rx_queue d)) as [[f q]|].
    + apply wp_bind, wp_modify, wp_ret. cbn. rewrite E. by split_and!.
    + by apply wp_ret.
  - intros f t d m. unfold driver_transmit. apply wp_bind, wp_get.
    destruct (bool_decide _) eqn:E; cbn [negb].
    + apply wp_bind, wp_enter, wp_bind, wp_get.
      assert (Hpush := queue_push_back f (tx_queue d)).
      change (tx_queue (set_crit (mkCS (Z.b2z (primask m)) true) d)) with (tx_queue d).
      destruct (queue_push f (tx_queue d)) as [ok q]. apply wp_bind, wp_modify, wp_bind.
      eapply wp_exit; [done|done|]. apply wp_ret. cbn. rewrite E. split_and!; [apply primask_restored|done..].
    + apply wp_ret. rewrite E, app_nil_r. done.
Defined.

(** ** Invariant *)

Record can_wf {Q} (d : CANDriver Q) : Prop := {
  cw_capacity : filter_capacity d = 16%nat;
  cw_filters : length (filters d) = 16%nat;
  cw_count : (filter_count d <= 16)%nat }.

(** ** Abstract driver

    What a user sees: the state, the frames waiting in each direction and the
    filters in force. *)
Record Bus := mkBus { b_state : CANState; b_tx : list CANFrame; b_rx : list CANFrame; b_filters : list Filter }.
Inductive CanOp :=
| OStart (acked : bool) | OStop (mcr : Z) | OTransmit (f : CANFrame) | OReceive
| OSetFilter (fid mask : Z) (ext : bool) | OClearFilters.
Inductive CanRes := RUnit | RBool (b : bool) | RFrame (o : option CANFrame).

Inductive bus_step : CanOp -> CanRes -> Bus -> Bus -> Prop :=
| bus_start tx rx fl acked :
    bus_step (OStart acked) (RBool acked) (mkBus CAN_STATE_STOPPED tx rx fl)
      (mkBus (if acked then CAN_STATE_STARTED else CAN_STATE_STOPPED) tx rx fl)
| bus_start_refused st tx rx fl acked :
    st <> CAN_STATE_STOPPED ->
    bus_step (OStart acked) (RBool false) (mkBus st tx rx fl) (mkBus st tx rx fl)
| bus_stop st tx rx fl mcr :
    st <> CAN_STATE_STOPPED ->
    bus_step (OStop mcr) RUnit (mkBus st tx rx fl) (mkBus CAN_STATE_STOPPED [] [] fl)
| bus_stop_again tx rx fl mcr :
    bus_step (OStop mcr) RUnit (mkBus CAN_STATE_STOPPED tx rx fl) (mkBus CAN_STATE_STOPPED tx rx fl)
| bus_transmit tx rx fl f (ok : bool) :
    bus_step (OTransmit f) (RBool ok) (mkBus CAN_STATE_STARTED tx rx fl)
      (mkBus CAN_STATE_STARTED (tx ++ if ok then [f] else []) rx fl)
| bus_transmit_refused st tx rx fl f :
    st <> CAN_STATE_STARTED ->
    bus_step (OTransmit f) (RBool false) (mkBus st tx rx fl) (mkBus st tx rx fl)
| bus_receive tx rx fl f :
    bus_step OReceive (RFrame (Some f)) (mkBus CAN_STATE_STARTED tx (f :: rx) fl) (mkBus CAN_STATE_STARTED tx rx fl)
| bus_receive_none st tx rx fl :
    st <> CAN_STATE_STARTED \/ rx = [] ->
    bus_step OReceive (RFrame None) (mkBus st tx rx fl) (mkBus st tx rx fl)
| bus_set_filter st tx rx fl i k e :
    (length fl < 16)%nat ->
    bus_step (OSetFilter i k e) (RBool true) (mkBus st tx rx fl) (mkBus st tx rx (fl ++ [mkFilter i k e]))
| bus_set_filter_full st tx rx fl i k e :
    length fl = 16%nat ->
    bus_step (OSetFilter i k e) (RBool false) (mkBus st tx rx fl) (mkBus st tx rx fl)
| bus_clear_filters st tx rx fl :
    bus_step OClearFilters RUnit (mkBus st tx rx fl) (mkBus st tx rx []).
Create HintDb can_bus.
#[export] Hint Constructors bus_step : can_bus.

Section refinement.
Context {Q : Type} `{FrameQueue Q}.
Implicit Types d : CANDriver Q.

Definition bus d : Bus :=
  mkBus (can_state d) (items (tx_queue d)) (items (rx_queue d)) (take (filter_count d) (filters d)).
Definition can_exec (op : CanOp) : M (CANDriver Q) CanRes :=
  match op with
  | OStart acked => b ← can_start acked; mret (RBool b)
  | OStop mcr => can_stop mcr;; mret RUnit
  | OTransmit f => b ← driver_transmit f 0; mret (RBool b)
  | OReceive => o ← driver_receive 0; mret (RFrame o)
  | OSetFilter i k e => b ← can_set_filter i k e; mret (RBool b)
  | OClearFilters => can_clear_filters;; mret RUnit
  end.

(** The steps of one call: the invariant, the abstract step, the mask. *)
Definition exec_ok op d m (r : CanRes) d' (m' : Machine) : Prop :=
  can_wf d' /\ bus_step op r (bus d) (bus d') /\ primask m' = primask m /\ can_config d' = can_config d.

Lemma can_start_exec acked d m : can_wf d -> bitrate (can_config d) <> 0 ->
  wp (can_start acked) (fun b => exec_ok (OStart acked) d m (RBool b)) d m.
Proof.
  intros [] Hb. unfold can_start. apply wp_bind, wp_get. case_bool_decide as E; simpl.
  - unfold configure_hardware. apply wp_bind, wp_bind, wp_emit. destruct acked; simpl.
    + apply wp_bind, wp_get. rewrite (proj2 (Z.eqb_neq _ _) Hb).
      apply wp_bind, wp_emit, wp_bind, wp_emit, wp_ret. simpl. apply wp_bind, wp_modify, wp_ret.
      split_and!; [done| |done|done]. unfold bus. rewrite E. apply (bus_start _ _ _ true).
    + apply wp_bind, wp_modify, wp_ret. simpl. apply wp_ret.
      split_and!; [done| |done|done]. unfold bus. cbn. rewrite E. apply (bus_start _ _ _ false).
  - apply wp_ret. split_and!; [done|by constructor|done|done].
Qed.

Lemma can_stop_exec mcr d m : can_wf d ->
  wp (can_stop mcr) (fun _ => exec_ok (OStop mcr) d m RUnit) d m.
Proof.
  intros []. unfold can_stop. apply wp_bind, wp_get. case_bool_decide as E; simpl.
  - apply wp_ret. split_and!; [done| |done|done]. unfold bus. rewrite E. constructor.
  - apply wp_bind, wp_enter, wp_bind, wp_emit, wp_bind, wp_modify. eapply wp_exit; [done|done|].
    split_and!; [done| |done|done]. unfold bus. cbn. rewrite !queue_clear_empty. by constructor.
Qed.

Lemma driver_transmit_exec f d m : can_wf d ->
  wp (driver_transmit f 0) (fun b => exec_ok (OTransmit f) d m (RBool b)) d m.
Proof.
  intros []. unfold driver_transmit. apply wp_bind, wp_get. case_bool_decide as E; cbn [negb].
  - apply wp_bind, wp_enter, wp_bind, wp_get. assert (Hp := queue_push_back f (tx_queue d)).
    change (tx_queue (set_crit (mkCS (Z.b2z (primask m)) true) d)) with (tx_queue d).
    destruct (queue_push f (tx_queue d)) as [ok q]. apply wp_bind, wp_modify, wp_bind.
    eapply wp_exit; [done|done|]. apply wp_ret. split_and!; [done| |done|done].
    unfold bus. cbn in *. rewrite E, Hp. constructor.
  - apply wp_ret. split_and!; [done|by constructor|done|done].
Qed.

Lemma driver_receive_exec d m : can_wf d ->
  wp (driver_receive 0) (fun o => exec_ok OReceive d m (RFrame o)) d m.
Proof.
  intros []. unfold driver_receive. apply wp_bind, wp_get. case_bool_decide as E; cbn [negb].
  - assert (Hp := queue_pop_front (rx_queue d)). destruct (queue_pop (rx_queue d)) as [[f q]|].
    + apply wp_bind, wp_modify, wp_ret. split_and!; [done| |done|done].
      unfold bus. cbn. rewrite E, Hp. constructor.
    + apply wp_ret. split_and!; [done| |done|done]. constructor. by right.
  - apply wp_ret. split_and!; [done| |done|done]. constructor. by left.
Qed.

Lemma can_set_filter_exec i k e d m : can_wf d ->
  wp (can_set_filter i k e) (fun b => exec_ok (OSetFilter i k e) d m (RBool b)) d m.
Proof.
  intros [Hc Hl Hn]. unfold can_set_filter. apply wp_bind, wp_enter, wp_bind, wp_get. cbn.
  rewrite Hc, Hl. destruct (Nat.leb_spec 16 (filter_count d)).
  - apply wp_bind. eapply wp_exit; [done|done|]. apply wp_ret. split_and!; [done| |done|done].
    apply bus_set_filter_full. rewrite length_take. lia.
  - apply wp_bind, wp_modify, wp_bind. eapply wp_exit; [done|done|]. apply wp_ret.
    split_and!; [constructor; cbn; rewrite ?length_insert; lia| |done|done].
    unfold bus. cbn -[take]. erewrite take_S_r by (apply list_lookup_insert_eq; lia).
    rewrite take_insert_ge by lia. constructor. rewrite length_take. lia.
Qed.

Lemma can_clear_filters_exec d m : can_wf d ->
  wp can_clear_filters (fun _ => exec_ok OClearFilters d m RUnit) d m.
Proof.
  intros [Hc Hl Hn]. unfold can_clear_filters. apply wp_bind, wp_enter, wp_bind, wp_modify, wp_bind, wp_emit.
  eapply wp_exit; [done|done|]. split_and!; [constructor; cbn; lia|constructor|done|done].
Qed.

(** The CAN driver refines a bus with two FIFO queues and at most 16
    filters: every call runs without undefined behaviour, keeps the driver's
    invariant, restores the interrupt mask and is a step of the abstract bus;
    in particular frames only move while the driver is started and stopping it
    discards what was queued. *)
Theorem can_driver_refines_bus op d m :
  can_wf d -> bitrate (can_config d) <> 0 ->
  wp (can_exec op) (fun r d' m' =>
    can_wf d' /\ bus_step op r (bus d) (bus d') /\ primask m' = primask m /\
    can_config d' = can_config d) d m.
Proof.
  intros Hwf Hb. destruct op; cbn [can_exec]; apply wp_bind.
  - eapply wp_mono; [by apply can_start_exec|]. intros; by apply wp_ret.
  - eapply wp_mono; [by apply can_stop_exec|]. intros; by apply wp_ret.
  - eapply wp_mono; [by apply driver_transmit_exec|]. intros; by apply wp_ret.
  - eapply wp_mono; [by apply driver_receive_exec|]. intros; by apply wp_ret.
  - eapply wp_mono; [by apply can_set_filter_exec|]. intros; by apply wp_ret.
  - eapply wp_mono; [by apply can_clear_filters_exec|]. intros; by apply wp_ret.
Qed.
End refinement.

Definition example_can_config : CANConfig := mkCANConfig 0x40304000 25 500000 80 false true 4 4.
Definition started_driver (rx tx : list CANFrame) : CANDriver ListQueue :=
  mkCANDriver example_can_config CAN_STATE_STARTED CAN_ERROR_NONE (mkCANStats 0 0 0 0 0 0 0)
    (mkListQueue tx 1000) (mkListQueue rx 1000) (replicate 16 (mkFilter 0 0 false)) 0 16 cs_zero.

Lemma can_driver_refines_bus_witness :
  can_create true (Some example_can_config) =
    Some ((started_driver [] []) <| can_state := CAN_STATE_STOPPED |> <| tx_queue := mkListQueue [] 32 |>
            <| rx_queue := mkListQueue [] 32 |>) /\
  wp (can_exec (OSetFilter 0x7E0 0x7FF false)) (fun r d' _ =>
    can_wf d' /\ bus_step (OSetFilter 0x7E0 0x7FF false) r (bus (started_driver [] [])) (bus d'))
    (started_driver [] []) boot.
Proof.
  split; [reflexivity|].
  eapply wp_mono; [apply (can_driver_refines_bus (OSetFilter 0x7E0 0x7FF false) (started_driver [] []) boot)|].
  - constructor; vm_compute; lia.
  - discriminate.
  - intros r d' m' (? & ? & _). done.
Defined.
