(* ===== verification/IsoTp.v ===== *)
(** * ISO-TP transport

    [src/runtime/protocols/isotp.c]: segmentation of a message into CAN frames
    and its reassembly.  The driver below it is used through [CanBus], the
    interface that [CanDriver.v] discharges.  [size_t] is 32 bits wide. *)

From S2P Require Import Prelude Machine CanDriver.

Definition ISOTP_MAX_PAYLOAD : Z := 4095.
Definition ISOTP_SINGLE_FRAME : Z := 0.
Definition ISOTP_FIRST_FRAME : Z := 1.
Definition ISOTP_CONSECUTIVE_FRAME : Z := 2.
Definition ISOTP_FLOW_CONTROL : Z := 3.

Record ISOTPConfig := mkIsotpConfig {
  rx_id : Z; tx_id : Z; extended_addressing : bool; stmin : Z; blocksize : Z; isotp_timeout_ms : Z }.

Record TxState := mkTx {
  tx_buffer : list Z; tx_length : Z; tx_offset : Z; tx_sequence : Z; tx_timer : Timer; waiting_fc : bool;
  block_counter : Z }.
#[export] Instance eta_TxState : Eta TxState := fun t =>
  mkTx (tx_buffer t) (tx_length t) (tx_offset t) (tx_sequence t) (tx_timer t) (waiting_fc t) (block_counter t).
Record RxState := mkRx {
  rx_buffer : list Z; rx_length : Z; rx_offset : Z; rx_sequence : Z; rx_timer : Timer; receiving_multi : bool }.
#[export] Instance eta_RxState : Eta RxState := fun r =>
  mkRx (rx_buffer r) (rx_length r) (rx_offset r) (rx_sequence r) (rx_timer r) (receiving_multi r).

Record ISOTP (D : Type) := mkIsotp {
  can_driver : D; config : ISOTPConfig; tx_state : TxState; rx_state : RxState;
  isotp_critical : CriticalSection }.
Arguments mkIsotp {D}. Arguments can_driver {D}. Arguments config {D}. Arguments tx_state {D}.
Arguments rx_state {D}. Arguments isotp_critical {D}.
#[export] Instance eta_ISOTP D : Eta (ISOTP D) := fun s =>
  mkIsotp (can_driver s) (config s) (tx_state s) (rx_state s) (isotp_critical s).
#[export, refine] Instance ISOTP_critical D : HasCritical (ISOTP D) :=
  {| crit := isotp_critical; set_crit c s := s <| isotp_critical := c |> |}.
Proof. all: by intros; destruct s. Defined.

(** [memcpy(dst + off, src, n)], undefined outside either array. *)
Definition copy_to (dst : list Z) (off : Z) (src : list Z) (n : Z) : option (list Z) :=
  let o := Z.to_nat off in let k := Z.to_nat n in
  if (o + k <=? length dst)%nat && (k <=? length src)%nat
  then Some (take o dst ++ take k src ++ drop (o + k) dst) else None.

Section isotp.
Context {D : Type} `{CanBus D}.
Implicit Types s : ISOTP D.

Definition checked {A} (o : option A) : M (ISOTP D) A :=
  match o with Some a => mret a | None => fault end.
Definition on_bus {A} : M D A -> M (ISOTP D) A := zoom can_driver (fun d s => s <| can_driver := d |>).
Definition transmit (f : CANFrame) : M (ISOTP D) bool :=
  s ← get; on_bus (can_transmit f (isotp_timeout_ms (config s))).

Definition zero_frame : list Z := replicate 64 0.

Definition send_single_frame (data : list Z) (length : Z) : M (ISOTP D) bool :=
  s ← get;
  d ← checked (copy_to (<[0%nat := u8 (Z.lor (Z.shiftl ISOTP_SINGLE_FRAME 4) length)]> zero_frame)
                 1 data length);
  transmit (mkFrame (tx_id (config s)) (u8 (length + 1)) false d).

Definition send_first_frame (data : list Z) (length : Z) : M (ISOTP D) bool :=
  s ← get;
  let head := [Z.lor (Z.shiftl ISOTP_FIRST_FRAME 4) (Z.land (Z.shiftr length 8) 0x0F);
               Z.land length 0xFF] in
  d ← checked (copy_to (head ++ drop 2 zero_frame) 2 data 6);
  modify (fun s => s <| tx_state ::= fun t => t <| tx_length := length |> <| tx_offset := 6 |>
                                               <| tx_sequence := 1 |> <| waiting_fc := true |> |>);;
  start (fun s => tx_timer (tx_state s)) (fun t s => s <| tx_state ::= fun x => x <| tx_timer := t |> |>)
    (isotp_timeout_ms (config s));;
  transmit (mkFrame (tx_id (config s)) 8 false d).

(** Defined in the file, called by nothing. *)
Definition send_consecutive_frame : M (ISOTP D) bool :=
  s ← get;
  let tx := tx_state s in
  let remaining := u32 (tx_length tx - tx_offset tx) in
  let segment_size := if 7 <? remaining then 7 else remaining in
  d ← checked (copy_to (<[0%nat := u8 (Z.lor (Z.shiftl ISOTP_CONSECUTIVE_FRAME 4) (tx_sequence tx))]> zero_frame)
                 1 (drop (Z.to_nat (tx_offset tx)) (tx_buffer tx)) segment_size);
  modify (fun s => s <| tx_state ::= fun t => t <| tx_offset ::= fun o => u32 (o + segment_size) |>
                       <| tx_sequence ::= fun q => Z.land (q + 1) 0x0F |> |>);;
  transmit (mkFrame (tx_id (config s)) (u8 (segment_size + 1)) false d).

(** [frame->data[i]] of a received frame. *)
Definition byte (f : CANFrame) (i : nat) : Z := nth i (frame_data f) 0.

Definition set_rx (g : RxState -> RxState) : M (ISOTP D) unit := modify (fun s => s <| rx_state ::= g |>).

Definition process_single_frame (f : CANFrame) : M (ISOTP D) unit :=
  let length := Z.land (byte f 0) 0x0F in
  if (0 <? length) && (length <=? 7) then
    s ← get;
    b ← checked (copy_to (rx_buffer (rx_state s)) 0 (drop 1 (frame_data f)) length);
    set_rx (fun r => r <| rx_buffer := b |> <| rx_length := length |> <| receiving_multi := false |>)
  else mret tt.

Definition process_first_frame (f : CANFrame) : M (ISOTP D) unit :=
  let length := Z.lor (Z.shiftl (Z.land (byte f 0) 0x0F) 8) (byte f 1) in
  if (0 <? length) && (length <=? ISOTP_MAX_PAYLOAD) then
    s ← get;
    b ← checked (copy_to (rx_buffer (rx_state s)) 0 (drop 2 (frame_data f)) 6);
    set_rx (fun r => r <| rx_buffer := b |> <| rx_length := length |> <| rx_offset := 6 |>
                       <| rx_sequence := 1 |> <| receiving_multi := true |>);;
    let fc := [Z.shiftl ISOTP_FLOW_CONTROL 4; blocksize (config s); u8 (stmin (config s))] in
    _ ← transmit (mkFrame (tx_id (config s)) 3 false (fc ++ drop 3 zero_frame));
    mret tt
  else mret tt.

Definition process_consecutive_frame (f : CANFrame) : M (ISOTP D) unit :=
  s ← get;
  let rx := rx_state s in
  if negb (receiving_multi rx) then mret tt else
  let sequence := Z.land (byte f 0) 0x0F in
  if negb (sequence =? rx_sequence rx) then set_rx (fun r => r <| receiving_multi := false |>) else
  let remaining := u32 (rx_length rx - rx_offset rx) in
  let segment_size := if 7 <? remaining then 7 else remaining in
  b ← checked (copy_to (rx_buffer rx) (rx_offset rx) (drop 1 (frame_data f)) segment_size);
  set_rx (fun r => r <| rx_buffer := b |> <| rx_offset ::= fun o => u32 (o + segment_size) |>
                     <| rx_sequence ::= fun q => Z.land (q + 1) 0x0F |>);;
  s ← get;
  if rx_length (rx_state s) <=? rx_offset (rx_state s)
  then set_rx (fun r => r <| receiving_multi := false |>) else mret tt.

Definition process_frame (f : CANFrame) : M (ISOTP D) unit :=
  s ← get;
  if id f =? rx_id (config s) then
    let pci := Z.shiftr (byte f 0) 4 in
    if pci =? ISOTP_SINGLE_FRAME then process_single_frame f
    else if pci =? ISOTP_FIRST_FRAME then process_first_frame f
    else if pci =? ISOTP_CONSECUTIVE_FRAME then process_consecutive_frame f
    else mret tt
  else mret tt.

(** [while (can_receive(...))], with fuel. *)
Fixpoint receive_loop (fuel : nat) : M (ISOTP D) unit :=
  o ← on_bus (can_receive 0);
  match o with
  | None => mret tt
  | Some f =>
    match fuel with
    | O => fault
    | S fuel => process_frame f;; receive_loop fuel
    end
  end.

Definition isotp_process : M (ISOTP D) unit :=
  enter;;
  s ← get;
  receive_loop (length (pending (can_driver s)));;
  s ← get;
  (if waiting_fc (tx_state s) then
     e ← expired (fun s => tx_timer (tx_state s));
     if (e : bool) then modify (fun s => s <| tx_state ::= fun t => t <| waiting_fc := false |> |>) else mret tt
   else mret tt);;
  exit.

Definition isotp_transmit (data : option (list Z)) (len : Z) : M (ISOTP D) bool :=
  match data with
  | None => mret false
  | Some data =>
    if (len =? 0) || (ISOTP_MAX_PAYLOAD <? len) then mret false else
    enter;;
    result ← (if len <=? 7 then send_single_frame data len
              else
                s ← get;
                b ← checked (copy_to (tx_buffer (tx_state s)) 0 data len);
                modify (fun s => s <| tx_state ::= fun t => t <| tx_buffer := b |> |>);;
                send_first_frame data len);
    exit;;
    mret result
  end.

(** The message stored through the caller's pointers, [None] when the call
    answers [false]. *)
Definition isotp_receive (out : bool) : M (ISOTP D) (option (list Z)) :=
  if negb out then mret None else
  enter;;
  s ← get;
  let rx := rx_state s in
  if negb (receiving_multi rx) && (0 <? rx_length rx) then
    if (length (rx_buffer rx) <? Z.to_nat (rx_length rx))%nat then fault else
    set_rx (fun r => r <| rx_length := 0 |>);;
    exit;;
    mret (Some (take (Z.to_nat (rx_length rx)) (rx_buffer rx)))
  else exit;; mret None.

(** [granted]: whether [calloc] returned memory. *)
Definition isotp_create (granted : bool) (d : option D) (cfg : option ISOTPConfig) : option (ISOTP D) :=
  match d, cfg with
  | Some d, Some cfg =>
    if negb granted then None else
    Some (mkIsotp d cfg (mkTx (replicate 4095 0) 0 0 0 timer_zero false 0)
            (mkRx (replicate 4095 0) 0 0 0 timer_zero false) (init_critical cs_zero))
  | _, _ => None
  end.

(** ** Reception is memory safe *)

Definition frame_ok (f : CANFrame) : Prop := length (frame_data f) = 64%nat.

Record rx_ok (r : RxState) : Prop := {
  ro_buffer : length (rx_buffer r) = 4095%nat;
  ro_length : 0 <= rx_length r <= ISOTP_MAX_PAYLOAD;
  ro_offset : 0 <= rx_offset r;
  ro_multi : receiving_multi r = true ->
    rx_offset r <= rx_length r \/ (rx_length r < 6 /\ rx_offset r = 6) }.

Definition is_flow_control (s : ISOTP D) (f : CANFrame) : Prop :=
  id f = tx_id (config s) /\ dlc f = 3 /\ byte f 0 = 0x30.

Lemma copy_to_ok dst off src n :
  (Z.to_nat off + Z.to_nat n <= length dst)%nat -> (Z.to_nat n <= length src)%nat ->
  copy_to dst off src n =
  Some (take (Z.to_nat off) dst ++ take (Z.to_nat n) src ++ drop (Z.to_nat off + Z.to_nat n) dst).
Proof. intros. unfold copy_to. by rewrite !(proj2 (Nat.leb_le _ _)) by lia. Qed.
Lemma copied_length (dst src : list Z) (o k : nat) :
  (o + k <= length dst)%nat -> (k <= length src)%nat ->
  length (take o dst ++ take k src ++ drop (o + k) dst) = length dst.
Proof. intros. rewrite !length_app, !length_take, length_drop. lia. Qed.

(** The two calls of the driver, seen through the interface. *)
Lemma wp_transmit f s m (Q : bool -> ISOTP D -> Machine -> Prop) :
  (forall ok d, pending d = pending (can_driver s) ->
     sent d = sent (can_driver s) ++ (if ok : bool then [f] else []) ->
     Q ok (s <| can_driver := d |>) m) -> wp (transmit f) Q s m.
Proof.
  intros HQ. unfold transmit. apply wp_bind, wp_get, wp_zoom.
  eapply wp_mono; [apply can_transmit_appends|]. intros ok d m' (-> & _ & Hp & Hs). by apply HQ.
Qed.
Lemma wp_receive s m (Q : option CANFrame -> ISOTP D -> Machine -> Prop) :
  (pending (can_driver s) = [] -> Q None s m) ->
  (forall f d, pending (can_driver s) = f :: pending d -> sent d = sent (can_driver s) ->
     Q (Some f) (s <| can_driver := d |>) m) -> wp (on_bus (can_receive 0)) Q s m.
Proof.
  intros HN HS. apply wp_zoom. eapply wp_mono; [apply can_receive_fifo|].
  intros [f|] d m' (-> & Hd).
  - apply HS; apply Hd.
  - destruct Hd as [-> Hp]. specialize (HN Hp). by destruct s.
Qed.

(** A received frame only touches the reception state and may send one flow
    control frame. *)
Definition received (s : ISOTP D) (s' : ISOTP D) : Prop :=
  config s' = config s /\ tx_state s' = tx_state s /\ crit s' = crit s /\
  pending (can_driver s') = pending (can_driver s) /\
  exists l, sent (can_driver s') = sent (can_driver s) ++ l /\ Forall (is_flow_control s) l.

Lemma received_refl s : received s s.
Proof. split_and!; try done. exists []. by rewrite app_nil_r. Qed.
Lemma received_rx s s' :
  config s' = config s -> tx_state s' = tx_state s -> crit s' = crit s ->
  can_driver s' = can_driver s -> received s s'.
Proof. intros ? ? ? E. split_and!; rewrite ?E; try done. exists []. by rewrite app_nil_r. Qed.

Lemma process_frame_wp f s m :
  frame_ok f -> rx_ok (rx_state s) ->
  wp (process_frame f) (fun _ s' m' => rx_ok (rx_state s') /\ received s s' /\ m' = m) s m.
Proof.
  intros Hf Hr. unfold frame_ok in Hf. pose proof Hr as [Hb Hl Ho Hm]. unfold ISOTP_MAX_PAYLOAD in *.
  unfold process_frame. apply wp_bind, wp_get. destruct (id f =? rx_id (config s));
    [|apply wp_ret; by split_and!; [|apply received_refl|]].
  destruct (Z.shiftr (byte f 0) 4 =? ISOTP_SINGLE_FRAME).
  { unfold process_single_frame. destruct (_ && _) eqn:E; tests;
      [|apply wp_ret; by split_and!; [|apply received_refl|]].
    apply wp_bind, wp_get, wp_bind. rewrite copy_to_ok by (rewrite ?length_drop; lia).
    apply wp_ret, wp_modify. split_and!; [|by apply received_rx|done].
    constructor; cbn -[take drop]; [rewrite copied_length; rewrite ?length_drop; lia|unfold ISOTP_MAX_PAYLOAD; lia|done|done]. }
  destruct (Z.shiftr (byte f 0) 4 =? ISOTP_FIRST_FRAME).
  { unfold process_first_frame. destruct (_ && _) eqn:E; tests;
      [|apply wp_ret; by split_and!; [|apply received_refl|]].
    apply wp_bind, wp_get, wp_bind. rewrite copy_to_ok by (rewrite ?length_drop; lia).
    apply wp_ret, wp_bind, wp_modify, wp_bind, wp_transmit. intros ok d Hp Hs. apply wp_ret.
    split_and!; [|split_and!; try done|done].
    - constructor; cbn -[take drop]; [rewrite copied_length; rewrite ?length_drop; lia|unfold ISOTP_MAX_PAYLOAD in *; lia|done|lia].
    - exists (if ok then [mkFrame (tx_id (config s)) 3 false
        ([Z.shiftl ISOTP_FLOW_CONTROL 4; blocksize (config s); u8 (stmin (config s))] ++ drop 3 zero_frame)] else []).
      split; [done|]. destruct ok; repeat constructor. }
  destruct (Z.shiftr (byte f 0) 4 =? ISOTP_CONSECUTIVE_FRAME);
    [|apply wp_ret; by split_and!; [|apply received_refl|]].
  unfold process_consecutive_frame. apply wp_bind, wp_get.
  destruct (receiving_multi (rx_state s)) eqn:Em; simpl;
    [|apply wp_ret; by split_and!; [|apply received_refl|]].
  destruct (negb (_ =? rx_sequence (rx_state s))).
  { apply wp_modify. split_and!; [by constructor; simpl|by apply received_rx|done]. }
  set (rem := u32 (rx_length (rx_state s) - rx_offset (rx_state s))).
  set (seg := if 7 <? rem then 7 else rem).
  assert (Hseg : 0 <= seg <= 7 /\ rx_offset (rx_state s) + seg <= 4095).
  { assert (Hrem : 0 <= rem) by apply u32_range. destruct (Hm eq_refl) as [Hle|[Hlt Heq]].
    - assert (rem = rx_length (rx_state s) - rx_offset (rx_state s)) by (apply u32_small; unfold is_u32; lia).
      unfold seg. destruct (7 <? rem) eqn:E; tests; lia.
    - unfold seg. destruct (7 <? rem) eqn:E; tests; lia. }
  apply wp_bind. rewrite copy_to_ok by (rewrite ?length_drop; lia). apply wp_ret, wp_bind, wp_modify.
  apply wp_bind, wp_get. simpl. rewrite u32_small by (unfold is_u32; lia).
  destruct (rx_length (rx_state s) <=? _) eqn:E; tests.
  - apply wp_modify. split_and!; [|by apply received_rx|done].
    constructor; cbn -[take drop]; [rewrite copied_length; rewrite ?length_drop; lia|done|lia|done].
  - apply wp_ret. split_and!; [|by apply received_rx|done].
    constructor; cbn -[take drop]; [rewrite copied_length; rewrite ?length_drop; lia|done|lia|lia].
Qed.

Lemma receive_loop_wp fuel s m :
  length (pending (can_driver s)) = fuel -> Forall frame_ok (pending (can_driver s)) ->
  rx_ok (rx_state s) ->
  wp (receive_loop fuel) (fun _ s' m' =>
    rx_ok (rx_state s') /\ pending (can_driver s') = [] /\ tx_state s' = tx_state s /\
    crit s' = crit s /\ config s' = config s /\ m' = m /\
    exists l, sent (can_driver s') = sent (can_driver s) ++ l /\ Forall (is_flow_control s) l) s m.
Proof.
  revert s. induction fuel as [|fuel IH]; intros s Hl Hok Hr; cbn [receive_loop];
    apply wp_bind, wp_receive; try (intros f d Hp Hs); try intros Hp; rewrite Hp in *.
  - apply wp_ret. split_and!; auto. exists []. by rewrite app_nil_r.
  - done.
  - done.
  - injection Hl as Hl. apply Forall_cons in Hok as [Hf Hok]. apply wp_bind.
    eapply wp_mono; [by apply process_frame_wp|].
    intros _ s1 m1 (Hr1 & (Hc & Ht & Hcr & Hp1 & l & Hl1 & Hfc) & ->). simpl in *.
    eapply wp_mono; [apply IH; rewrite ?Hp1; auto|].
    intros _ s2 m2 (? & ? & Ht2 & Hcr2 & Hc2 & -> & l2 & Hl2 & Hfc2).
    split_and!; auto; [by rewrite Ht2|by rewrite Hcr2|by rewrite Hc2|].
    exists (l ++ l2). rewrite Hl2, Hl1, Hs, app_assoc. split; [done|]. apply Forall_app. split; [done|].
    eapply Forall_impl; [exact Hfc2|]. unfold is_flow_control. by rewrite Hc.
Qed.
(** ** Segmentation and reassembly *)

(** Send what the first frame left: [k] calls of [send_consecutive_frame]. *)
Fixpoint send_rest (k : nat) : M (ISOTP D) bool :=
  match k with
  | O => mret true
  | S k => ok ← send_consecutive_frame; rest ← send_rest k; mret (ok && rest)
  end.
Definition consecutive_frames (n : nat) : nat := if (n <=? 7)%nat then 0 else (n / 7)%nat.
Definition send_message (p : list Z) : M (ISOTP D) bool :=
  ok ← isotp_transmit (Some p) (Z.of_nat (length p));
  rest ← send_rest (consecutive_frames (length p));
  mret (ok && rest).
Definition receive_message : M (ISOTP D) (option (list Z)) :=
  isotp_process;; isotp_receive true.

(** Facts on the few header bytes, by evaluation of all their values. *)
Lemma below (n : nat) (P : Z -> bool) :
  forallb (fun i => P (Z.of_nat i)) (seq 0 n) = true ->
  forall z, 0 <= z < Z.of_nat n -> P z = true.
Proof.
  intros Hall z Hz. rewrite forallb_forall in Hall. rewrite <- (Z2Nat.id z) by lia.
  apply Hall, in_seq. lia.
Qed.
Definition cf_head (q : Z) : Z := u8 (Z.lor (Z.shiftl ISOTP_CONSECUTIVE_FRAME 4) q).
Lemma cf_head_ok q : 0 <= q < 16 -> Z.shiftr (cf_head q) 4 = 2 /\ Z.land (cf_head q) 0x0F = q.
Proof.
  intros Hq. pose proof (below 16 (fun q => (Z.shiftr (cf_head q) 4 =? 2) && (Z.land (cf_head q) 0x0F =? q))
    eq_refl q Hq) as E. cbv beta in E. tests. done.
Qed.
Lemma next_seq q : 0 <= q < 16 -> 0 <= Z.land (q + 1) 0x0F < 16.
Proof.
  intros Hq. pose proof (below 16 (fun q => (0 <=? Z.land (q + 1) 0x0F) && (Z.land (q + 1) 0x0F <? 16))
    eq_refl q Hq) as E. cbv beta in E. tests. done.
Qed.
Lemma sf_head_ok n : 0 <= n < 8 ->
  Z.shiftr (u8 (Z.lor (Z.shiftl ISOTP_SINGLE_FRAME 4) n)) 4 = 0 /\
  Z.land (u8 (Z.lor (Z.shiftl ISOTP_SINGLE_FRAME 4) n)) 0x0F = n.
Proof.
  intros Hn. pose proof (below 8 (fun n => let h := u8 (Z.lor (Z.shiftl ISOTP_SINGLE_FRAME 4) n) in
    (Z.shiftr h 4 =? 0) && (Z.land h 0x0F =? n)) eq_refl n Hn) as E. cbv beta zeta in E. tests. done.
Qed.
Definition ff_head (n : Z) : Z := Z.lor (Z.shiftl ISOTP_FIRST_FRAME 4) (Z.land (Z.shiftr n 8) 0x0F).
Lemma ff_head_ok n : 0 <= n < 4096 ->
  Z.shiftr (ff_head n) 4 = 1 /\ Z.lor (Z.shiftl (Z.land (ff_head n) 0x0F) 8) (Z.land n 0xFF) = n.
Proof.
  intros Hn. pose proof (below 4096 (fun n => (Z.shiftr (ff_head n) 4 =? 1) &&
    (Z.lor (Z.shiftl (Z.land (ff_head n) 0x0F) 8) (Z.land n 0xFF) =? n)) ltac:(vm_compute; reflexivity) n Hn) as E.
  cbv beta in E. tests. done.
Qed.

(** The size of the segment at offset [off]. *)
Definition segment (p : list Z) (off : nat) : nat := Nat.min 7 (length p - off).
#[local] Arguments segment : simpl never.

(** A frame with header byte [h] and the bytes [seg] behind it. *)
Definition carries (cid h : Z) (seg : list Z) (f : CANFrame) : Prop :=
  id f = cid /\ frame_ok f /\ byte f 0 = h /\ take (length seg) (drop 1 (frame_data f)) = seg.
(** The consecutive frames of the message [p] from offset [off] on. *)
Fixpoint tail_frames (cid : Z) (p : list Z) (off : nat) (q : Z) (fs : list CANFrame) : Prop :=
  match fs with
  | [] => off = length p
  | f :: fs => (off < length p)%nat /\ carries cid (cf_head q) (take 7 (drop off p)) f /\
               tail_frames cid p (off + segment p off) (Z.land (q + 1) 0x0F) fs
  end.

Lemma carries_ok cid h seg :
  (length seg <= 63)%nat -> forall l,
  carries cid h seg (mkFrame cid l false (take 1 (<[0%nat := h]> zero_frame) ++ seg ++ drop (1 + length seg) zero_frame)).
Proof.
  intros Hl l. change (take 1 (<[0%nat := h]> zero_frame)) with [h].
  assert (Hz : length (drop (1 + length seg) zero_frame) = (63 - length seg)%nat).
  { rewrite length_drop. unfold zero_frame. rewrite length_replicate. lia. }
  revert Hz. generalize (drop (1 + length seg) zero_frame). intros z Hz.
  unfold carries, frame_ok. simpl. rewrite length_app, drop_0, take_app_length. split_and!; auto. lia.
Qed.

Lemma take_segment (p : list Z) off :
  (off <= length p)%nat -> forall rest,
  take (segment p off) (drop off (p ++ rest)) = take 7 (drop off p).
Proof.
  intros Hoff rest. unfold segment. rewrite drop_app_le, take_app_le by (rewrite ?length_drop; lia).
  destruct (decide (7 <= length p - off)%nat); [by rewrite Nat.min_l|].
  rewrite Nat.min_r, !take_ge by (rewrite ?length_drop; lia). done.
Qed.

(** The sender between two consecutive frames. *)
Definition sending (p : list Z) (off : nat) (q : Z) (t : TxState) : Prop :=
  (exists rest, tx_buffer t = p ++ rest) /\ tx_length t = Z.of_nat (length p) /\
  tx_offset t = Z.of_nat off /\ tx_sequence t = q.

Lemma send_consecutive_wp p off q s m :
  sending p off q (tx_state s) -> (length p <= 4095)%nat -> (off < length p)%nat ->
  wp send_consecutive_frame (fun ok s' _ =>
    config s' = config s /\
    sending p (off + segment p off) (Z.land (q + 1) 0x0F) (tx_state s') /\
    exists f, carries (tx_id (config s)) (cf_head q) (take 7 (drop off p)) f /\
      sent (can_driver s') = sent (can_driver s) ++ if ok : bool then [f] else []) s m.
Proof.
  intros ([rest Hbuf] & Hlen & Hoff & Hq) Hn Hlt.
  assert (Hk : (segment p off <= 7 /\ off + segment p off <= length p)%nat) by (unfold segment; lia).
  unfold send_consecutive_frame. apply wp_bind, wp_get, wp_bind.
  rewrite Hlen, Hoff, Hq, Hbuf, u32_small by (unfold is_u32; lia).
  replace (if 7 <? Z.of_nat (length p) - Z.of_nat off then 7 else Z.of_nat (length p) - Z.of_nat off)
    with (Z.of_nat (segment p off)) by (unfold segment; destruct (7 <? _) eqn:E; tests; lia).
  rewrite copy_to_ok by (rewrite ?length_insert, ?length_drop, ?length_app; unfold zero_frame; rewrite ?length_replicate; lia).
  rewrite !Nat2Z.id, take_segment by lia. apply wp_ret, wp_bind, wp_modify, wp_transmit. intros ok d _ Hs.
  split_and!; [done| |].
  { split_and!; cbn -[Z.land]; [by exists rest|done| |by rewrite Hq].
    rewrite Hoff, u32_small; unfold is_u32; lia. }
  eexists. split; [|exact Hs].
  pose proof (carries_ok (tx_id (config s)) (cf_head q) (take 7 (drop off p))) as Hc.
  rewrite length_take, length_drop in Hc. apply Hc. lia.
Qed.

(** Every transmission accepted: the whole tail of the message is sent. *)
Lemma send_rest_wp p k : (length p <= 4095)%nat -> forall off q s m,
  sending p off q (tx_state s) -> (off <= length p)%nat ->
  (length p - off <= 7 * k < length p - off + 7)%nat ->
  wp (send_rest k) (fun ok s' _ =>
    exists l, sent (can_driver s') = sent (can_driver s) ++ l /\
      (ok = true -> tail_frames (tx_id (config s)) p off q l)) s m.
Proof.
  intros Hn. induction k as [|k IH]; intros off q s m Hs Hoff Hk.
  - apply wp_ret. exists []. rewrite app_nil_r. split; [done|]. intros _. simpl. lia.
  - simpl. apply wp_bind. eapply wp_mono; [apply (send_consecutive_wp p off q); auto; lia|].
    intros ok s1 m1 (Hc & Hs1 & f & Hf & Hsent). apply wp_bind.
    eapply wp_mono; [apply (IH _ _ _ _ Hs1); unfold segment; lia|]. intros ok' s2 m2 (l & Hl & Htail).
    apply wp_ret. exists ((if ok then [f] else []) ++ l). rewrite Hl, Hsent, app_assoc. split; [done|].
    intros Hok. apply andb_prop in Hok as [-> ->]. simpl. split_and!; [lia|done|].
    rewrite <- Hc. by apply Htail.
Qed.

(** The receiver after the first [off] bytes of [p]. *)
Definition receiving (p : list Z) (off : nat) (q : Z) (r : RxState) : Prop :=
  (exists rest, rx_buffer r = take off p ++ rest) /\ length (rx_buffer r) = 4095%nat /\
  rx_length r = Z.of_nat (length p) /\ rx_offset r = Z.of_nat off /\ rx_sequence r = q /\
  receiving_multi r = (off <? length p)%nat.

Lemma process_consecutive_wp p off q f s m :
  receiving p off q (rx_state s) -> (length p <= 4095)%nat -> 0 <= q < 16 -> (off < length p)%nat ->
  carries (rx_id (config s)) (cf_head q) (take 7 (drop off p)) f ->
  wp (process_frame f) (fun _ s' _ =>
    receiving p (off + segment p off) (Z.land (q + 1) 0x0F) (rx_state s')) s m.
Proof.
  intros ([rest Hbuf] & Hbl & Hlen & Hoff & Hseq & Hm) Hn Hq Hlt (Hid & Hf & Hhead & Hseg).
  destruct (cf_head_ok q Hq) as [Hpci Hland]. unfold frame_ok in Hf.
  set (k := segment p off). assert (Hk : (k <= 7 /\ off + k <= length p)%nat) by (unfold k, segment; lia).
  unfold process_frame. apply wp_bind, wp_get. rewrite Hid, Z.eqb_refl, Hhead, Hpci. simpl.
  unfold process_consecutive_frame. apply wp_bind, wp_get.
  rewrite Hm, (proj2 (Nat.ltb_lt _ _) Hlt), Hhead, Hland, Hseq, Z.eqb_refl, Hlen, Hoff. cbn [negb].
  rewrite u32_small by (unfold is_u32; lia).
  replace (if 7 <? Z.of_nat (length p) - Z.of_nat off then 7 else Z.of_nat (length p) - Z.of_nat off)
    with (Z.of_nat (segment p off)) by (unfold segment; destruct (7 <? _) eqn:E; tests; lia).
  fold k.
  rewrite length_take, length_drop in Hseg. change (Nat.min 7 (length p - off)) with k in Hseg.
  apply wp_bind. rewrite copy_to_ok by (rewrite ?length_drop; lia). rewrite !Nat2Z.id, Hseg.
  apply wp_ret, wp_bind, wp_modify, wp_bind, wp_get. cbn -[take drop k].
  rewrite Hoff, Hlen, u32_small by (unfold is_u32; lia).
  assert (Hnew : take off (rx_buffer (rx_state s)) ++ take 7 (drop off p) ++ drop (off + k) (rx_buffer (rx_state s)) =
                 take (off + k) p ++ drop (off + k) (rx_buffer (rx_state s))).
  { rewrite Hbuf at 1. rewrite take_app_le, take_take, Nat.min_id by (rewrite length_take; lia).
    rewrite app_assoc. f_equal. unfold k. rewrite <- take_take_drop. f_equal.
    pose proof (take_segment p off ltac:(lia) []) as Hs. by rewrite app_nil_r in Hs. }
  assert (Hl : length (take (off + k) p ++ drop (off + k) (rx_buffer (rx_state s))) = 4095%nat).
  { rewrite length_app, length_take, length_drop. lia. }
  destruct (_ <=? _) eqn:E; tests.
  - apply wp_modify. split_and!; cbn -[take drop Z.land]; rewrite ?Hnew, ?Hseq; eauto; try lia.
    symmetry. apply Nat.ltb_ge. lia.
  - apply wp_ret. split_and!; cbn -[take drop Z.land]; rewrite ?Hnew, ?Hseq; eauto; try lia.
    rewrite Hm. transitivity true; [|symmetry]; apply Nat.ltb_lt; lia.
Qed.

Lemma receive_tail_wp p fs : (length p <= 4095)%nat -> forall off q s m,
  receiving p off q (rx_state s) -> 0 <= q < 16 -> (off <= length p)%nat ->
  tail_frames (rx_id (config s)) p off q fs -> pending (can_driver s) = fs ->
  rx_ok (rx_state s) ->
  wp (receive_loop (length fs)) (fun _ s' _ =>
    exists q', receiving p (length p) q' (rx_state s')) s m.
Proof.
  intros Hn. induction fs as [|f fs IH]; intros off q s m Hr Hq Hoff Htail Hp Hok;
    cbn [receive_loop length tail_frames] in *;
    apply wp_bind, wp_receive; try (intros g d Hp' _); try intros Hp'; rewrite Hp in Hp'; try done.
  - apply wp_ret. subst off. eauto.
  - injection Hp' as <- Hd. destruct Htail as (Hlt & Hc & Htail). apply wp_bind.
    assert (Hfok : frame_ok f) by apply Hc.
    match goal with |- wp _ _ ?s0 _ =>
      assert (W1 := process_frame_wp f s0 m Hfok Hok);
      assert (W2 := process_consecutive_wp p off q f s0 m Hr Hn Hq Hlt Hc) end.
    apply (wp_mono _ _ _ _ _ (wp_and _ _ _ _ _ W1 W2)).
    intros _ s1 m1 [(Hok1 & (Hcfg & _ & _ & Hp1 & _) & _) Hr1].
    eapply IH; [exact Hr1|by apply next_seq|unfold segment; lia| | |done]; [rewrite Hcfg|rewrite Hp1]; done.
Qed.

Definition sf_head (n : Z) : Z := u8 (Z.lor (Z.shiftl ISOTP_SINGLE_FRAME 4) n).
Definition first_frame (cid : Z) (p : list Z) (f : CANFrame) : Prop :=
  id f = cid /\ frame_ok f /\ byte f 0 = ff_head (Z.of_nat (length p)) /\
  byte f 1 = Z.land (Z.of_nat (length p)) 0xFF /\ take 6 (drop 2 (frame_data f)) = take 6 p.
(** The frames of one message. *)
Definition message_frames (cid : Z) (p : list Z) (fs : list CANFrame) : Prop :=
  match fs with
  | [] => False
  | f :: fs => if (length p <=? 7)%nat
               then fs = [] /\ carries cid (sf_head (Z.of_nat (length p))) p f
               else first_frame cid p f /\ tail_frames cid p 6 1 fs
  end.

Lemma tail_frames_ok cid p fs : forall off q, tail_frames cid p off q fs -> Forall frame_ok fs.
Proof. induction fs as [|f fs IH]; intros off q Ht; constructor; [apply Ht|eapply IH, Ht]. Qed.
Lemma message_frames_ok cid p fs : message_frames cid p fs -> Forall frame_ok fs.
Proof.
  destruct fs as [|f fs]; [done|]. simpl. destruct (_ <=? _)%nat.
  - intros [-> Hc]. repeat constructor. apply Hc.
  - intros [Hf Ht]. constructor; [apply Hf|by eapply tail_frames_ok].
Qed.

Lemma first_frame_built cid p l : (7 < length p)%nat ->
  first_frame cid p (mkFrame cid l false
    (take 2 ([ff_head (Z.of_nat (length p)); Z.land (Z.of_nat (length p)) 0xFF] ++ drop 2 zero_frame) ++
     take 6 p ++ drop 8 ([ff_head (Z.of_nat (length p)); Z.land (Z.of_nat (length p)) 0xFF] ++ drop 2 zero_frame))).
Proof.
  intros Hn. unfold first_frame, frame_ok. do 6 (destruct p as [|? p]; [simpl in Hn; lia|]). done.
Qed.
Lemma send_message_wp p s m :
  (1 <= length p <= 4095)%nat -> length (tx_buffer (tx_state s)) = 4095%nat ->
  wp (send_message p) (fun ok s' _ =>
    exists l, sent (can_driver s') = sent (can_driver s) ++ l /\
      (ok = true -> message_frames (tx_id (config s)) p l)) s m.
Proof.
  intros Hn Hb. unfold send_message, isotp_transmit, ISOTP_MAX_PAYLOAD, consecutive_frames.
  apply wp_bind. destruct (_ || _) eqn:E; tests; [lia..|]. apply wp_bind, wp_enter.
  destruct (Nat.leb_spec (length p) 7) as [Hle|Hgt].
  - rewrite (proj2 (Z.leb_le _ _)) by lia. apply wp_bind. unfold send_single_frame. apply wp_bind, wp_get, wp_bind.
    rewrite copy_to_ok by (rewrite ?length_insert; unfold zero_frame; rewrite ?length_replicate; lia).
    rewrite !Nat2Z.id, (take_ge p) by lia. apply wp_ret, wp_transmit. intros ok d _ Hs.
    apply wp_bind. eapply wp_exit; [done|done|]. apply wp_ret, wp_bind, wp_ret, wp_ret.
    eexists. split; [exact Hs|]. rewrite andb_true_r. intros ->. simpl.
    rewrite (proj2 (Nat.leb_le _ _) Hle). split; [done|]. apply carries_ok. lia.
  - rewrite (proj2 (Z.leb_gt _ _)) by lia. apply wp_bind, wp_bind, wp_get, wp_bind.
    rewrite copy_to_ok by (cbn -[Z.to_nat]; lia). rewrite Nat2Z.id, (take_ge p) by lia. cbn [Z.to_nat take app Nat.add].
    apply wp_ret, wp_bind, wp_modify. unfold send_first_frame. apply wp_bind, wp_get, wp_bind.
    rewrite copy_to_ok by (change (Z.to_nat 6) with 6%nat; first [lia|cbn; lia]).
    apply wp_ret, wp_bind, wp_modify, wp_bind, wp_start, wp_transmit. intros ok d _ Hs.
    apply wp_bind. eapply wp_exit; [done|done|]. apply wp_ret, wp_bind.
    assert (Hdiv := Nat.div_mod_eq (length p) 7). assert (Hmod := Nat.mod_upper_bound (length p) 7 ltac:(lia)).
    eapply wp_mono; [apply (send_rest_wp p _ ltac:(lia) 6 1); [|lia|lia]|].
    { split_and!; try done. by eexists. }
    intros ok' s' m' (l & Hl & Htail). apply wp_ret.
    eexists. split.
    { etransitivity; [exact Hl|]. etransitivity; [apply (f_equal (fun x => x ++ l)); exact Hs|].
      rewrite <- app_assoc. reflexivity. }
    intros Hok. apply andb_prop in Hok as [-> ->]. simpl. rewrite (proj2 (Nat.leb_gt _ _) Hgt).
    split; [|by apply Htail]. by apply first_frame_built.
Qed.

(** A complete message waits for [isotp_receive]. *)
Definition delivered (p : list Z) (r : RxState) : Prop :=
  (exists rest, rx_buffer r = p ++ rest) /\ rx_length r = Z.of_nat (length p) /\ receiving_multi r = false.

Lemma receiving_delivered p q r : receiving p (length p) q r -> delivered p r.
Proof.
  intros ([rest Hb] & _ & Hl & _ & _ & Hm). rewrite take_ge in Hb by lia.
  split_and!; eauto. rewrite Hm. apply Nat.ltb_irrefl.
Qed.

Lemma process_first_wp p f s m :
  (7 < length p <= 4095)%nat -> length (rx_buffer (rx_state s)) = 4095%nat ->
  first_frame (rx_id (config s)) p f ->
  wp (process_frame f) (fun _ s' _ => receiving p 6 1 (rx_state s') /\
    rx_buffer (rx_state s') = take 6 p ++ drop 6 (rx_buffer (rx_state s))) s m.
Proof.
  intros Hn Hb (Hid & Hf & H0 & H1 & Hseg). unfold frame_ok in Hf.
  destruct (ff_head_ok (Z.of_nat (length p)) ltac:(lia)) as [Hpci Hlen].
  unfold process_frame. apply wp_bind, wp_get. rewrite Hid, Z.eqb_refl, H0, Hpci.
  cbn [Z.eqb Pos.eqb ISOTP_SINGLE_FRAME ISOTP_FIRST_FRAME].
  unfold process_first_frame. rewrite H0, H1, Hlen. unfold ISOTP_MAX_PAYLOAD.
  rewrite (proj2 (Z.ltb_lt _ _)), (proj2 (Z.leb_le _ _)) by lia. cbn [andb].
  apply wp_bind, wp_get, wp_bind. rewrite copy_to_ok by (rewrite ?length_drop; change (Z.to_nat 6) with 6%nat; lia).
  change (Z.to_nat 6) with 6%nat. rewrite Hseg.
  apply wp_ret, wp_bind, wp_modify, wp_bind, wp_transmit. intros ok d _ _. apply wp_ret.
  split; [|done]. split_and!; try done; cbn -[take drop].
  - by eexists.
  - rewrite !length_app, !length_take, length_drop. lia.
  - symmetry. apply Nat.ltb_lt. lia.
Qed.

Lemma process_single_wp p f s m :
  (1 <= length p <= 7)%nat -> length (rx_buffer (rx_state s)) = 4095%nat ->
  carries (rx_id (config s)) (sf_head (Z.of_nat (length p))) p f ->
  wp (process_frame f) (fun _ s' _ => delivered p (rx_state s')) s m.
Proof.
  intros Hn Hb (Hid & Hf & H0 & Hseg). unfold frame_ok in Hf.
  destruct (sf_head_ok (Z.of_nat (length p)) ltac:(lia)) as [Hpci Hlen].
  unfold process_frame. apply wp_bind, wp_get. rewrite Hid, Z.eqb_refl, H0. unfold sf_head. rewrite Hpci.
  cbn [Z.eqb ISOTP_SINGLE_FRAME]. unfold process_single_frame. rewrite H0. unfold sf_head. rewrite Hlen.
  rewrite (proj2 (Z.ltb_lt _ _)), (proj2 (Z.leb_le _ _)) by lia. cbn [andb].
  apply wp_bind, wp_get, wp_bind. rewrite copy_to_ok by (rewrite ?length_drop; cbn -[Z.to_nat]; lia).
  rewrite !Nat2Z.id, Hseg. apply wp_ret, wp_modify. split_and!; try done. by eexists.
Qed.

(** The receive loop on the frames of a message. *)
Lemma receive_frames_wp p fs s m :
  (1 <= length p <= 4095)%nat -> rx_ok (rx_state s) ->
  message_frames (rx_id (config s)) p fs -> pending (can_driver s) = fs ->
  wp (receive_loop (length fs)) (fun _ s' _ => delivered p (rx_state s')) s m.
Proof.
  intros Hn Hok Hfs Hp. destruct fs as [|f fs]; [done|]. cbn [receive_loop length].
  apply wp_bind, wp_receive; [congruence|]. intros g d Hp' _. rewrite Hp in Hp'. injection Hp' as <- Hd.
  assert (Hfok : frame_ok f) by (apply message_frames_ok in Hfs; by inversion Hfs).
  apply wp_bind. simpl in Hfs.
  match goal with |- wp _ _ ?s0 _ => assert (W1 := process_frame_wp f s0 m Hfok Hok) end.
  destruct (Nat.leb_spec (length p) 7).
  - destruct Hfs as [-> Hc].
    match goal with |- wp _ _ ?s0 _ =>
      assert (W2 := process_single_wp p f s0 m ltac:(lia) (ro_buffer _ Hok) Hc) end.
    apply (wp_mono _ _ _ _ _ (wp_and _ _ _ _ _ W1 W2)).
    intros _ s1 m1 [(_ & (_ & _ & _ & Hp1 & _) & _) Hdel]. cbn [receive_loop length].
    apply wp_bind, wp_receive; [by intros; apply wp_ret|].
    intros g d1 Hp2. rewrite Hp1 in Hp2. cbn in Hp2. rewrite <- Hd in Hp2. done.
  - destruct Hfs as [Hf Ht].
    match goal with |- wp _ _ ?s0 _ =>
      assert (W2 := process_first_wp p f s0 m ltac:(lia) (ro_buffer _ Hok) Hf) end.
    apply (wp_mono _ _ _ _ _ (wp_and _ _ _ _ _ W1 W2)).
    intros _ s1 m1 [(Hok1 & (Hcfg & _ & _ & Hp1 & _) & _) [Hr _]].
    eapply wp_mono; [eapply (receive_tail_wp p fs ltac:(lia) 6 1); eauto; try lia; [by rewrite Hcfg|by rewrite Hp1]|].
    intros _ s2 m2 [q' Hq]. by eapply receiving_delivered.
Qed.

(** [isotp_process] around its loop. *)
Lemma isotp_process_wp s m :
  Forall frame_ok (pending (can_driver s)) -> rx_ok (rx_state s) ->
  forall (Q : RxState -> Prop),
  (forall m0, wp (receive_loop (length (pending (can_driver s)))) (fun _ s' _ => Q (rx_state s'))
     (set_crit (mkCS (Z.b2z (primask m)) true) s) m0) ->
  wp isotp_process (fun _ s' m' =>
    Q (rx_state s') /\ rx_ok (rx_state s') /\ pending (can_driver s') = [] /\ primask m' = primask m /\
    system_ticks m' = system_ticks m /\ config s' = config s /\
    tx_state s' = (tx_state s) <| waiting_fc := waiting_fc (tx_state s) &&
      negb (running (tx_timer (tx_state s)) &&
        (timeout (tx_timer (tx_state s)) <=? u32 (system_ticks m - start_time (tx_timer (tx_state s))))) |> /\
    exists l, sent (can_driver s') = sent (can_driver s) ++ l /\ Forall (is_flow_control s) l) s m.
Proof.
  intros Hfs Hok Q Hloop. unfold isotp_process. apply wp_bind, wp_enter, wp_bind, wp_get, wp_bind.
  match goal with |- wp _ _ ?s0 ?m0 =>
    assert (W1 := receive_loop_wp _ s0 m0 eq_refl Hfs Hok); assert (W2 := Hloop m0) end.
  apply (wp_mono _ _ _ _ _ (wp_and _ _ _ _ _ W1 W2)).
  intros _ s1 m1 [(Hr & Hp & Ht & Hc & Hcfg & -> & Hl) HQ]. cbn in Ht, Hc, Hcfg, Hl.
  apply wp_bind, wp_get, wp_bind. rewrite Ht. destruct (waiting_fc (tx_state s)) eqn:Ew.
  - apply wp_bind, wp_expired. intros tc. rewrite Ht. cbn [system_ticks].
    destruct (_ && _) eqn:Ee; [apply wp_modify|apply wp_ret]; (eapply wp_exit; [exact Hc|done|]);
      split_and!; try done; cbn; rewrite ?Ht; try done; destruct (tx_state s); cbn in *; by subst.
  - apply wp_ret. eapply wp_exit; [exact Hc|done|]. split_and!; try done.
    cbn. rewrite Ht. destruct (tx_state s); cbn in *; by subst.
Qed.

Lemma receive_message_wp p s m :
  Forall frame_ok (pending (can_driver s)) -> rx_ok (rx_state s) -> (0 < length p)%nat ->
  (forall m0, wp (receive_loop (length (pending (can_driver s)))) (fun _ s' _ => delivered p (rx_state s'))
     (set_crit (mkCS (Z.b2z (primask m)) true) s) m0) ->
  wp receive_message (fun o s' m' => o = Some p /\ primask m' = primask m /\ rx_length (rx_state s') = 0) s m.
Proof.
  intros Hfs Hok Hn Hloop. unfold receive_message. apply wp_bind.
  eapply wp_mono; [by apply (isotp_process_wp s m Hfs Hok (delivered p))|].
  intros _ s1 m1 (([rest Hb] & Hlen & Hm) & _ & _ & Hpm & _). unfold isotp_receive. cbn [negb].
  apply wp_bind, wp_enter, wp_bind, wp_get. cbn [rx_state set_crit]. cbn. rewrite Hm, Hlen, Hb.
  rewrite (proj2 (Z.ltb_lt _ _)) by lia. rewrite Nat2Z.id, length_app, (proj2 (Nat.ltb_ge _ _)) by lia.
  cbn [negb andb]. apply wp_bind, wp_modify, wp_bind. eapply wp_exit; [done|done|]. apply wp_ret.
  rewrite take_app_length. done.
Qed.

(** The first frame, then a frame out of sequence: the loop stops reassembling. *)
Lemma broken_tail_wp p q f g s m :
  (7 < length p <= 4095)%nat -> rx_ok (rx_state s) -> pending (can_driver s) = [f; g] ->
  first_frame (rx_id (config s)) p f -> id g = rx_id (config s) ->
  0 <= q < 16 -> q <> 1 -> byte g 0 = cf_head q ->
  wp (receive_loop 2) (fun _ s' _ =>
    delivered (take 6 p ++ take (length p - 6) (drop 6 (rx_buffer (rx_state s)))) (rx_state s')) s m.
Proof.
  intros Hn Hok Hp Hf Hid Hq Hne Hhead. assert (Hbl := ro_buffer _ Hok). cbn [receive_loop].
  apply wp_bind, wp_receive; [congruence|]. intros f' d Hp' _. rewrite Hp in Hp'. injection Hp' as <- Hd.
  apply wp_bind.
  match goal with |- wp _ _ ?s0 _ =>
    assert (W1 := process_frame_wp f s0 m (proj1 (proj2 Hf)) Hok);
    assert (W2 := process_first_wp p f s0 m ltac:(lia) Hbl Hf) end.
  apply (wp_mono _ _ _ _ _ (wp_and _ _ _ _ _ W1 W2)).
  intros _ s1 m1 [(_ & (Hcfg & _ & _ & Hp1 & _) & _) [(_ & _ & Hlen & _ & Hseq & Hm) Hbuf]].
  cbn in Hcfg, Hp1, Hbuf. rewrite <- Hd in Hp1.
  apply wp_bind, wp_receive; [congruence|]. intros g' d1 Hp2 _. rewrite Hp1 in Hp2. injection Hp2 as <- Hd1.
  apply wp_bind. destruct (cf_head_ok q Hq) as [Hpci Hland].
  unfold process_frame. apply wp_bind, wp_get. rewrite (proj2 (Z.eqb_eq _ _)) by (by rewrite Hid, <- Hcfg).
  rewrite Hhead, Hpci.
  cbn [Z.eqb Pos.eqb ISOTP_SINGLE_FRAME ISOTP_FIRST_FRAME ISOTP_CONSECUTIVE_FRAME].
  unfold process_consecutive_frame. apply wp_bind, wp_get.
  match goal with |- context [rx_state ?s0] => change (rx_state s0) with (rx_state s1) end.
  rewrite Hm, (proj2 (Nat.ltb_lt _ _)), Hhead, Hland, Hseq, (proj2 (Z.eqb_neq q 1)) by lia.
  apply wp_modify. apply wp_bind, wp_receive; [intros _|by intros ? ? ?; cbn in *; congruence].
  apply wp_ret. split_and!; cbn -[take drop]; [|rewrite Hlen, length_app, !length_take, length_drop; lia|done].
  exists (drop (length p - 6) (drop 6 (rx_buffer (rx_state s)))).
  by rewrite Hbuf, <- app_assoc, take_drop.
Qed.

End isotp.

(** Two nodes on one bus, the sender with an empty transmit queue. *)
Definition node (rx tx : Z) (fs : list CANFrame) : ISOTP (CANDriver ListQueue) :=
  mkIsotp (started_driver fs []) (mkIsotpConfig rx tx false 10 8 1000)
    (mkTx (replicate 4095 0) 0 0 0 timer_zero false 0) (mkRx (replicate 4095 0xEE) 0 0 0 timer_zero false) cs_zero.
Lemma node_rx_ok rx tx fs : rx_ok (rx_state (node rx tx fs)).
Proof. by constructor; unfold ISOTP_MAX_PAYLOAD. Qed.
Definition twenty : list Z := map Z.of_nat (seq 1 20).
Definition frames_of_twenty : list CANFrame :=
  match send_message twenty (node 0x7E0 0x7E8 []) boot with
  | Some (_, s, _) => sent (can_driver s)
  | None => []
  end.

(** Whatever frames arrive, well formed or not, [isotp_process] never
    reads or writes outside its buffers, empties the driver's queue, keeps the
    reception state consistent and restores the interrupt mask.  All it ever
    sends are flow-control frames and the transmission offset never moves, so
    a multi-frame transmission is not continued after its first frame. *)
Theorem isotp_process_safe {D} `{CanBus D} (s : ISOTP D) m :
  Forall frame_ok (pending (can_driver s)) -> rx_ok (rx_state s) ->
  wp isotp_process (fun _ s' m' =>
    rx_ok (rx_state s') /\ pending (can_driver s') = [] /\ primask m' = primask m /\
    config s' = config s /\
    tx_state s' = (tx_state s) <| waiting_fc := waiting_fc (tx_state s) &&
      negb (running (tx_timer (tx_state s)) &&
        (timeout (tx_timer (tx_state s)) <=? u32 (system_ticks m - start_time (tx_timer (tx_state s))))) |> /\
    exists l, sent (can_driver s') = sent (can_driver s) ++ l /\ Forall (is_flow_control s) l) s m.
Proof.
  intros Hfs Hok. eapply wp_mono; [apply (isotp_process_wp s m Hfs Hok (fun _ => True))|].
  - intros m0. eapply wp_mono; [by apply receive_loop_wp|]. done.
  - naive_solver.
Qed.
Lemma isotp_process_safe_witness :
  let s := node 0x7E8 0x7E0 (frames_of_twenty ++ [mkFrame 0x7E8 0 false (replicate 64 0xFF)]) in
  wp isotp_process (fun _ s' m' =>
    rx_ok (rx_state s') /\ pending (can_driver s') = [] /\ primask m' = false) s boot.
Proof.
  intros s. eapply wp_mono; [apply (isotp_process_safe s boot)|].
  - vm_compute. repeat constructor.
  - apply node_rx_ok.
  - intros _ s' m' (? & ? & ? & _). done.
Defined.

(** C2. Segmentation and reassembly: when the driver accepts every frame, the
    frames that [isotp_transmit] and the following [send_consecutive_frame]
    calls build for a message of 1 to 4095 bytes are exactly what a receiver
    listening on that identifier needs: one [isotp_process] and
    [isotp_receive] give the message back, with the interrupt mask restored. *)
Theorem isotp_round_trip {D} `{CanBus D} (p : list Z) (s : ISOTP D) m :
  (1 <= length p <= 4095)%nat -> length (tx_buffer (tx_state s)) = 4095%nat ->
  wp (send_message p) (fun ok s' _ =>
    exists l, sent (can_driver s') = sent (can_driver s) ++ l /\
      (ok = true -> forall (r : ISOTP D) m', rx_ok (rx_state r) ->
        rx_id (config r) = tx_id (config s) -> pending (can_driver r) = l ->
        wp receive_message (fun o r' m'' =>
          o = Some p /\ primask m'' = primask m' /\ rx_length (rx_state r') = 0) r m')) s m.
Proof.
  intros Hn Hb. eapply wp_mono; [by apply send_message_wp|].
  intros ok s' _ (l & Hl & Hfs). exists l. split; [done|]. intros Hok r m' Hr Hid Hp.
  specialize (Hfs Hok). rewrite <- Hid in Hfs.
  apply receive_message_wp; [rewrite Hp; by eapply message_frames_ok|done|lia|].
  intros m0. rewrite Hp. by apply receive_frames_wp.
Qed.
Lemma isotp_round_trip_witness :
  length frames_of_twenty = 3%nat /\
  wp (send_message twenty) (fun ok s' _ =>
    ok = true /\
    wp receive_message (fun o _ _ => o = Some twenty) (node 0x7E8 0x7E0 (sent (can_driver s'))) boot)
    (node 0x7E0 0x7E8 []) boot.
Proof.
  split; [by vm_compute|].
  eapply wp_mono; [apply wp_and; [apply (isotp_round_trip twenty (node 0x7E0 0x7E8 []) boot)|]|].
  - vm_compute. lia.
  - reflexivity.
  - assert (E : wp (send_message twenty) (fun ok _ _ => ok = true) (node 0x7E0 0x7E8 []) boot)
      by (vm_compute; reflexivity). exact E.
  - intros ok s' _ [(l & Hl & Hrt) ->]. split; [done|].
    eapply wp_mono; [apply (Hrt eq_refl); [apply node_rx_ok|reflexivity|]|].
    + exact Hl.
    + intros o _ m' (? & _). done.
Defined.

(** A lost consecutive frame is not reported: after the first frame of a
    message and a consecutive frame with the wrong sequence number,
    [isotp_receive] answers with a message of the announced length whose first
    six bytes were received and whose other bytes are what the buffer held
    before. *)
Theorem isotp_sequence_error_delivers_stale_bytes {D} `{CanBus D} (p : list Z) q f g (r : ISOTP D) m :
  (7 < length p <= 4095)%nat -> rx_ok (rx_state r) -> pending (can_driver r) = [f; g] ->
  first_frame (rx_id (config r)) p f ->
  id g = rx_id (config r) -> frame_ok g -> 0 <= q < 16 -> q <> 1 -> byte g 0 = cf_head q ->
  wp receive_message (fun o _ _ =>
    o = Some (take 6 p ++ take (length p - 6) (drop 6 (rx_buffer (rx_state r))))) r m.
Proof.
  intros Hn Hok Hp Hf Hid Hg Hq Hne Hhead. assert (Hbl := ro_buffer _ Hok).
  assert (Hlen : length (take 6 p ++ take (length p - 6) (drop 6 (rx_buffer (rx_state r)))) = length p).
  { rewrite length_app, !length_take, length_drop. lia. }
  eapply wp_mono; [apply (receive_message_wp (take 6 p ++ take (length p - 6) (drop 6 (rx_buffer (rx_state r)))))|].
  - rewrite Hp. repeat constructor; [apply Hf|done].
  - done.
  - lia.
  - intros m0. rewrite Hp.
    exact (broken_tail_wp p q f g (set_crit (mkCS (Z.b2z (primask m)) true) r) m0 Hn Hok Hp Hf Hid Hq Hne Hhead).
  - naive_solver.
Qed.
Lemma isotp_sequence_error_delivers_stale_bytes_witness :
  exists f g h, frames_of_twenty = [f; g; h] /\
  wp receive_message (fun o _ _ => o = Some ([1; 2; 3; 4; 5; 6] ++ replicate 14 0xEE))
    (node 0x7E8 0x7E0 [f; h]) boot.
Proof.
  do 3 eexists. split; [vm_compute; reflexivity|].
  eapply wp_mono; [eapply (isotp_sequence_error_delivers_stale_bytes twenty 2)|].
  - vm_compute. lia.
  - apply node_rx_ok.
  - reflexivity.
  - vm_compute. auto 10.
  - reflexivity.
  - reflexivity.
  - lia.
  - lia.
  - reflexivity.
  - intros o s' m' ->. reflexivity.
Defined.
