(* ===== verification/J1939.v ===== *)
(** * J1939 protocol

    [src/runtime/protocols/j1939.c] over any [CanBus]: messages of up to eight bytes in
    one frame, address claiming and the beginnings of the transport protocol.  The
    transport buffer is never read or written and is left out, as is [j1939_destroy]. *)

From S2P Require Import Prelude Machine CanDriver.

Definition J1939_BROADCAST_ADDRESS : Z := 255.
Definition J1939_PGN_ADDRESS_CLAIMED : Z := 0xEE00.
Definition J1939_PGN_REQUEST : Z := 0xEA00.

Record J1939Config := mkJ1939Config {
  address : Z; name : list Z; manufacturer_code : Z; support_address_claim : bool; request_timeout_ms : Z }.
Record J1939Message := mkMessage {
  pgn : Z; priority : Z; source_address : Z; destination_address : Z; msg_data : list Z; msg_length : Z }.
#[export] Instance eta_J1939Message : Eta J1939Message := fun x =>
  mkMessage (pgn x) (priority x) (source_address x) (destination_address x) (msg_data x) (msg_length x).

Record Transport := mkTransport {
  tp_length : Z; tp_offset : Z; tp_pgn : Z; tp_source : Z; tp_timeout : Timer; in_progress : bool }.
#[export] Instance eta_Transport : Eta Transport := fun t =>
  mkTransport (tp_length t) (tp_offset t) (tp_pgn t) (tp_source t) (tp_timeout t) (in_progress t).
(** [address_changed_callback] is whether it is registered. *)
Record J1939Handler (D : Type) := mkJ1939 {
  j_driver : D; j_config : J1939Config; current_address : Z; address_claimed : bool; claim_timer : Timer;
  address_changed_callback : bool; transport : Transport; j_critical : CriticalSection }.
Arguments mkJ1939 {D}. Arguments j_driver {D}. Arguments j_config {D}. Arguments current_address {D}.
Arguments address_claimed {D}. Arguments claim_timer {D}. Arguments address_changed_callback {D}.
Arguments transport {D}. Arguments j_critical {D}.
#[export] Instance eta_J1939Handler D : Eta (J1939Handler D) := fun h =>
  mkJ1939 (j_driver h) (j_config h) (current_address h) (address_claimed h) (claim_timer h)
    (address_changed_callback h) (transport h) (j_critical h).
#[export, refine] Instance J1939_critical D : HasCritical (J1939Handler D) :=
  {| crit := j_critical; set_crit c h := h <| j_critical := c |> |}.
Proof. all: by intros; destruct s. Defined.

Definition compose_can_id (priority pgn source : Z) : Z :=
  Z.lor (Z.lor (u32 (Z.shiftl priority 26)) (u32 (Z.shiftl pgn 8))) source.
Definition decompose_can_id (can_id : Z) : Z * Z * Z :=
  (Z.land (Z.shiftr can_id 26) 0x07, Z.land (Z.shiftr can_id 8) 0x3FFFF, Z.land can_id 0xFF).

Section j1939.
Context {D : Type} `{CanBus D}.
Implicit Types h : J1939Handler D.

Definition on_bus {A} : M D A -> M (J1939Handler D) A := zoom j_driver (fun d h => h <| j_driver := d |>).
Definition set_transport (g : Transport -> Transport) : M (J1939Handler D) unit :=
  modify (fun h => h <| transport ::= g |>).

Definition start_transport_session (message : J1939Message) : M (J1939Handler D) bool :=
  h ← get;
  if in_progress (transport h) then mret false else
  set_transport (fun t => t <| tp_length := msg_length message |> <| tp_offset := 0 |> <| tp_pgn := pgn message |>
                            <| tp_source := source_address message |> <| in_progress := true |>);;
  start (fun h => tp_timeout (transport h)) (fun t h => h <| transport ::= fun x => x <| tp_timeout := t |> |>)
    (request_timeout_ms (j_config h));;
  mret true.

(** A frame's data is 64 bytes, zero where it is not set. *)
Definition j1939_transmit (message : J1939Message) : M (J1939Handler D) bool :=
  enter;;
  h ← get;
  result ← (if msg_length message <=? 8 then
              let n := Z.to_nat (msg_length message) in
              if (length (msg_data message) <? n)%nat then fault else
              on_bus (can_transmit (mkFrame (compose_can_id (priority message) (pgn message) (current_address h))
                (msg_length message) true (take n (msg_data message) ++ replicate (64 - n) 0)) 100)
            else start_transport_session message);
  exit;;
  mret result.

Definition send_address_claim : M (J1939Handler D) bool :=
  h ← get;
  if (length (name (j_config h)) <? 8)%nat then fault else
  j1939_transmit (mkMessage J1939_PGN_ADDRESS_CLAIMED 6 (current_address h) J1939_BROADCAST_ADDRESS
    (take 8 (name (j_config h)) ++ replicate 1777 0) 8).

(** Of the commands only the connection abort does something. *)
Definition process_transport_packet (f : CANFrame) : M (J1939Handler D) unit :=
  if nth 0 (frame_data f) 0 =? 0xFF then set_transport (fun t => t <| in_progress := false |>) else mret tt.

(** The caller's message is [message]; [None] when the answer is [false]. *)
Definition j1939_receive (message : J1939Message) (timeout_ms : Z) : M (J1939Handler D) (option J1939Message) :=
  o ← on_bus (can_receive timeout_ms);
  match o with
  | None => mret None
  | Some f =>
      let '(p, n, s) := decompose_can_id (id f) in
      let k := Z.to_nat (dlc f) in
      if (length (frame_data f) <? k)%nat || (length (msg_data message) <? k)%nat then fault else
      mret (Some (message <| priority := p |> <| pgn := n |> <| source_address := s |> <| msg_length := dlc f |>
                          <| msg_data := take k (frame_data f) ++ drop k (msg_data message) |>))
  end.

Definition process_frame (f : CANFrame) : M (J1939Handler D) unit :=
  h ← get;
  if Z.shiftr (id f) 8 =? J1939_PGN_ADDRESS_CLAIMED then
    if nth 7 (frame_data f) 0 <? current_address h then
      modify (fun h => h <| current_address ::= fun a => u8 (a + 1) |>);;
      h ← get;
      callback (address_changed_callback h) "address_changed_callback" [current_address h];;
      modify (fun h => h <| address_claimed := false |>)
    else mret tt
  else if dlc f =? 8 then process_transport_packet f
  else mret tt.

(** [while (can_receive(...))], with fuel. *)
Fixpoint receive_loop (fuel : nat) : M (J1939Handler D) unit :=
  o ← on_bus (can_receive 0);
  match o with
  | None => mret tt
  | Some f => match fuel with O => fault | S fuel => process_frame f;; receive_loop fuel end
  end.

Definition start_claim_timer : M (J1939Handler D) unit :=
  start claim_timer (fun t h => h <| claim_timer := t |>) 1250.
Definition j1939_process : M (J1939Handler D) unit :=
  enter;;
  h ← get;
  (if support_address_claim (j_config h) && negb (address_claimed h) then
     e ← expired claim_timer;
     if e : bool then send_address_claim;; start_claim_timer else mret tt
   else mret tt);;
  h ← get;
  receive_loop (length (pending (j_driver h)));;
  exit.

Definition j1939_claim_address : M (J1939Handler D) bool :=
  enter;;
  modify (fun h => h <| address_claimed := false |>);;
  result ← send_address_claim;
  start_claim_timer;;
  exit;;
  mret result.

Definition j1939_request_pgn (requested destination : Z) : M (J1939Handler D) bool :=
  h ← get;
  j1939_transmit (mkMessage J1939_PGN_REQUEST 6 (current_address h) destination
    ([Z.land requested 0xFF; Z.land (Z.shiftr requested 8) 0xFF; Z.land (Z.shiftr requested 16) 0xFF] ++ replicate 1782 0) 3).

Definition j1939_set_address_changed_callback (registered : bool) : M (J1939Handler D) unit :=
  modify (fun h => h <| address_changed_callback := registered |>).

(** [granted]: whether [calloc] returned memory. *)
Definition j1939_create (granted : bool) (d : option D) (cfg : option J1939Config) : option (J1939Handler D) :=
  match d, cfg with
  | Some d, Some cfg =>
      if granted then
        Some (mkJ1939 d cfg (address cfg) false timer_zero false (mkTransport 0 0 0 0 timer_zero false)
                (init_critical cs_zero))
      else None
  | _, _ => None
  end.
End j1939.

(** ** Identifiers *)

Lemma bits_below z n i : 0 <= z < 2 ^ n -> n <= i -> Z.testbit z i = false.
Proof.
  intros Hz Hi. destruct (decide (n < 0)) as [Hn|Hn]; [rewrite Z.pow_neg_r in Hz by done; lia|].
  rewrite <- (Z.mod_small z (2 ^ n)) by done. by apply Z.mod_pow2_bits_high; lia.
Qed.
Lemma shift_small z n k : 0 <= z < 2 ^ n -> 0 <= n -> 0 <= k -> n + k <= 32 -> u32 (Z.shiftl z k) = Z.shiftl z k.
Proof.
  intros Hz Hn Hk Hle. apply u32_small. unfold is_u32. rewrite Z.shiftl_mul_pow2 by done.
  assert (2 ^ n * 2 ^ k <= 2 ^ 32) by (rewrite <- Z.pow_add_r by done; apply Z.pow_le_mono_r; lia). nia.
Qed.

Lemma land_ones_eq a b n : 0 <= n -> 0 <= b < 2 ^ n -> (forall i, 0 <= i < n -> Z.testbit a i = Z.testbit b i) ->
  Z.land a (Z.ones n) = b.
Proof.
  intros Hn Hb Hab. apply Z.bits_inj'. intros i Hi. rewrite Z.land_spec.
  destruct (decide (i < n)) as [Hlt|Hge].
  - rewrite Z.ones_spec_low, andb_true_r by lia. apply Hab. lia.
  - rewrite Z.ones_spec_high, andb_false_r by lia. symmetry. by apply (bits_below b n); lia.
Qed.

(** Packing and unpacking an identifier. *)
Lemma can_id_round_trip p n s :
  0 <= p < 2 ^ 3 -> 0 <= n < 2 ^ 18 -> 0 <= s < 2 ^ 8 -> decompose_can_id (compose_can_id p n s) = (p, n, s).
Proof.
  intros Hp Hn Hs. unfold decompose_can_id, compose_can_id.
  rewrite (shift_small p 3 26), (shift_small n 18 8) by lia.
  assert (Hb : forall i, 0 <= i -> Z.testbit (Z.lor (Z.lor (Z.shiftl p 26) (Z.shiftl n 8)) s) i =
    Z.testbit p (i - 26) || Z.testbit n (i - 8) || Z.testbit s i).
  { intros i Hi. by rewrite !Z.lor_spec, !Z.shiftl_spec. }
  change 0x07 with (Z.ones 3). change 0x3FFFF with (Z.ones 18). change 0xFF with (Z.ones 8). repeat f_equal.
  - apply land_ones_eq; [done..|]. intros i Hi. rewrite Z.shiftr_spec, Hb by lia.
    rewrite (bits_below n 18), (bits_below s 8), !orb_false_r by lia. f_equal. lia.
  - apply land_ones_eq; [done..|]. intros i Hi. rewrite Z.shiftr_spec, Hb by lia.
    rewrite (Z.testbit_neg_r p), (bits_below s 8), orb_false_r by lia. simpl. f_equal. lia.
  - apply land_ones_eq; [done..|]. intros i Hi. rewrite Hb by lia.
    by rewrite (Z.testbit_neg_r p), (Z.testbit_neg_r n) by lia.
Qed.

(** The priority stays in the identifier when the source is shifted out. *)
Lemma claim_id_shifted a : 0 <= a < 2 ^ 8 ->
  Z.shiftr (compose_can_id 6 J1939_PGN_ADDRESS_CLAIMED a) 8 = 0x18EE00.
Proof.
  intros Ha. unfold compose_can_id. rewrite Z.shiftr_lor.
  assert (Z.shiftr a 8 = 0) as -> by (rewrite Z.shiftr_div_pow2 by done; by apply Z.div_small). by vm_compute.
Qed.

Section j1939_proofs.
Context {D : Type} `{CanBus D}.
Implicit Types h : J1939Handler D.

(** ** Sending and receiving one frame *)

Lemma wp_bus_transmit f t Q h m :
  (forall ok d, ok = accepts f (j_driver h) -> pending d = pending (j_driver h) -> sent d = sent (j_driver h) ++ (if ok : bool then [f] else []) ->
    Q ok (h <| j_driver := d |>) m) -> wp (on_bus (can_transmit f t)) Q h m.
Proof.
  intros HQ. apply wp_zoom. eapply wp_mono; [apply can_transmit_appends|]. intros ok d m' (-> & Ho & Hp & Hs). by apply HQ.
Qed.
Lemma wp_bus_receive t Q h m :
  (pending (j_driver h) = [] -> Q None h m) ->
  (forall f d, pending (j_driver h) = f :: pending d -> sent d = sent (j_driver h) -> Q (Some f) (h <| j_driver := d |>) m) ->
  wp (on_bus (can_receive t)) Q h m.
Proof.
  intros Hn Hs. apply wp_zoom. eapply wp_mono; [apply can_receive_fifo|]. intros [f|] d m' (-> & Hd).
  - destruct Hd. by apply Hs.
  - destruct Hd as [-> Hd]. specialize (Hn Hd). by destruct h.
Qed.

(** The frame of a short message. *)
Definition frame_of (a : Z) (x : J1939Message) : CANFrame :=
  mkFrame (compose_can_id (priority x) (pgn x) a) (msg_length x) true
    (take (Z.to_nat (msg_length x)) (msg_data x) ++ replicate (64 - Z.to_nat (msg_length x)) 0).

(** Sending inside or outside a section: the statement [h0] before, the mask of the inner
    section saved over the outer one. *)
Lemma transmit_short_spec x h m :
  0 <= msg_length x <= 8 -> (Z.to_nat (msg_length x) <= length (msg_data x))%nat ->
  wp (j1939_transmit x) (fun ok h' m' => m' = m /\ ok = accepts (frame_of (current_address h) x) (j_driver h) /\ exists d,
    h' = h <| j_driver := d |> <| j_critical := mkCS (Z.b2z (primask m)) false |> /\ pending d = pending (j_driver h) /\
    sent d = sent (j_driver h) ++ if ok : bool then [frame_of (current_address h) x] else []) h m.
Proof.
  intros Hl Hd. unfold j1939_transmit. apply wp_bind, wp_enter, wp_bind, wp_get, wp_bind.
  rewrite (proj2 (Z.leb_le _ _)) by lia. rewrite (proj2 (Nat.ltb_ge _ _)) by lia.
  apply wp_bus_transmit. intros ok d Ho Hp Hs. apply wp_bind. eapply wp_exit; [reflexivity|done|]. apply wp_ret.
  split; [apply primask_restored|]. split; [done|]. exists d. split_and!; [by destruct h|done|done].
Qed.

(** C30. Messages of up to eight bytes survive the bus: what one node transmits and the bus
    accepts, a node that takes the frame from its queue receives with the same priority,
    parameter group, length and data, and with the sender's address as the source.  The
    destination address is not sent. *)
Theorem j1939_round_trip (x y : J1939Message) h r m :
  0 <= priority x < 8 -> 0 <= pgn x < 2 ^ 18 -> 0 <= current_address h < 256 -> 0 <= msg_length x <= 8 ->
  length (msg_data x) = 1785%nat -> length (msg_data y) = 1785%nat ->
  wp (j1939_transmit x) (fun ok h' m' => primask m' = primask m /\
    if ok : bool then exists f, sent (j_driver h') = sent (j_driver h) ++ [f] /\
      (head (pending (j_driver r)) = Some f ->
       wp (j1939_receive y 0) (fun o r' _ =>
         pending (j_driver r) = f :: pending (j_driver r') /\
         exists z, o = Some z /\ priority z = priority x /\ pgn z = pgn x /\ source_address z = current_address h /\
           destination_address z = destination_address y /\ msg_length z = msg_length x /\
           take (Z.to_nat (msg_length x)) (msg_data z) = take (Z.to_nat (msg_length x)) (msg_data x)) r m')
    else sent (j_driver h') = sent (j_driver h)) h m.
Proof.
  intros Hp Hg Ha Hl Hx Hy. eapply wp_mono; [apply transmit_short_spec; [done|lia]|].
  intros ok h' m' (-> & _ & d & -> & _ & Hs). split; [done|]. destruct ok; [|by rewrite app_nil_r in Hs].
  exists (frame_of (current_address h) x). split; [done|]. intros Hhead. unfold j1939_receive.
  apply wp_bind, wp_bus_receive; [intros E; by rewrite E in Hhead|]. intros f d' Hp' _.
  rewrite Hp' in Hhead. injection Hhead as ->. unfold frame_of at 1. cbn [id mkFrame].
  rewrite can_id_round_trip by done. cbn [dlc frame_data frame_of mkFrame].
  set (n := Z.to_nat (msg_length x)). assert (Hn : (n <= 8)%nat) by (unfold n; lia).
  rewrite length_app, length_take, length_replicate, Hx, Hy, (proj2 (Nat.ltb_ge _ _)), (proj2 (Nat.ltb_ge _ _)) by lia.
  apply wp_ret. split; [done|]. eexists. split_and!; [done..|]. cbn [msg_data msg_length setf].
  rewrite take_app_le by (rewrite length_take, length_app, length_take; lia).
  rewrite take_take, Nat.min_id, take_app_le by (rewrite length_take; lia). by rewrite take_take, Nat.min_id.
Qed.

(** A longer message opens a session unless one is open, and sends nothing. *)
Lemma transmit_long_spec x h m :
  8 < msg_length x ->
  wp (j1939_transmit x) (fun ok h' m' => ok = negb (in_progress (transport h)) /\ j_driver h' = j_driver h /\
    in_progress (transport h') = true /\ primask m' = primask m) h m.
Proof.
  intros Hl. unfold j1939_transmit, start_transport_session, set_transport. apply wp_bind, wp_enter, wp_bind, wp_get, wp_bind.
  rewrite (proj2 (Z.leb_gt _ _)) by lia. apply wp_bind, wp_get.
  change (in_progress (transport (set_crit (mkCS (Z.b2z (primask m)) true) h))) with (in_progress (transport h)).
  destruct (in_progress (transport h)) eqn:E.
  - apply wp_ret, wp_bind. eapply wp_exit; [reflexivity|done|]. by apply wp_ret.
  - apply wp_bind, wp_modify, wp_bind, wp_start, wp_ret, wp_bind. eapply wp_exit; [reflexivity|done|]. by apply wp_ret.
Qed.
(** It is accepted once, and every later one is refused. *)
Lemma long_message_not_sent x h m :
  8 < msg_length x -> in_progress (transport h) = false ->
  wp (ok ← j1939_transmit x; ok' ← j1939_transmit x; mret (ok, ok')) (fun r h' m' => r = (true, false) /\
    j_driver h' = j_driver h /\ in_progress (transport h') = true /\ primask m' = primask m) h m.
Proof.
  intros Hl Hi. apply wp_bind. eapply wp_mono; [by apply transmit_long_spec|]. intros ok h1 m1 (-> & Hd & Hi1 & Hm).
  apply wp_bind. eapply wp_mono; [by apply transmit_long_spec|]. intros ok h2 m2 (-> & Hd2 & Hi2 & Hm2).
  apply wp_ret. rewrite Hi, Hi1. split_and!; [done|congruence..].
Qed.

(** ** Claiming an address *)

Lemma send_claim_spec h m :
  length (name (j_config h)) = 8%nat ->
  wp send_address_claim (fun ok h' m' => m' = m /\ exists d,
    h' = h <| j_driver := d |> <| j_critical := mkCS (Z.b2z (primask m)) false |> /\ pending d = pending (j_driver h) /\
    sent d = sent (j_driver h) ++ if ok : bool then
      [mkFrame (compose_can_id 6 J1939_PGN_ADDRESS_CLAIMED (current_address h)) 8 true
         (name (j_config h) ++ replicate 56 0)] else []) h m.
Proof.
  intros Hn. unfold send_address_claim. apply wp_bind, wp_get. rewrite (proj2 (Nat.ltb_ge _ _)) by lia.
  eapply wp_mono; [apply transmit_short_spec; [done|]|].
  - cbn [msg_data msg_length]. rewrite length_app, length_take, length_replicate. lia.
  - intros ok h' m' (-> & _ & d & -> & Hp & Hs). split; [done|]. exists d. split_and!; [done..|]. rewrite Hs. f_equal. destruct ok; [|done].
    unfold frame_of. cbn [priority pgn msg_length msg_data]. change (Z.to_nat 8) with 8%nat.
    rewrite take_app_length' by (rewrite length_take; lia). by rewrite take_ge by lia.
Qed.

(** Claiming an address sends one frame with the node's name and then leaves
    interrupts masked, whatever they were before: the transmission closes the critical
    section it shares with its caller. *)
Theorem claim_masks_interrupts h m :
  length (name (j_config h)) = 8%nat ->
  wp j1939_claim_address (fun ok h' m' => primask m' = true /\ address_claimed h' = false /\
    sent (j_driver h') = sent (j_driver h) ++ if ok : bool then
      [mkFrame (compose_can_id 6 J1939_PGN_ADDRESS_CLAIMED (current_address h)) 8 true
         (name (j_config h) ++ replicate 56 0)] else []) h m.
Proof.
  intros Hn. unfold j1939_claim_address, start_claim_timer. apply wp_bind, wp_enter, wp_bind, wp_modify, wp_bind.
  eapply wp_mono; [by apply send_claim_spec|]. intros ok h' m' (-> & d & -> & _ & Hs).
  apply wp_bind, wp_start, wp_bind. apply wp_exit_unlocked; [done|]. apply wp_ret. by split_and!.
Qed.

(** ** Receiving *)

(** What a frame does to the address, the claim and the transport. *)
Definition is_claim (f : CANFrame) : bool := Z.shiftr (id f) 8 =? J1939_PGN_ADDRESS_CLAIMED.
Definition loses (f : CANFrame) (a : Z) : bool := is_claim f && (nth 7 (frame_data f) 0 <? a).
Definition aborts (f : CANFrame) : bool := negb (is_claim f) && (dlc f =? 8) && (nth 0 (frame_data f) 0 =? 0xFF).
Definition addresses (fs : list CANFrame) (a : Z) : Z := foldl (fun a f => if loses f a then u8 (a + 1) else a) a fs.

Lemma process_frame_spec f h m :
  wp (process_frame f) (fun _ h' m' => primask m' = primask m /\ j_driver h' = j_driver h /\ j_critical h' = j_critical h /\
    current_address h' = (if loses f (current_address h) then u8 (current_address h + 1) else current_address h) /\
    in_progress (transport h') = in_progress (transport h) && negb (aborts f)) h m.
Proof.
  unfold process_frame, process_transport_packet, set_transport, loses, aborts, is_claim. apply wp_bind, wp_get.
  destruct (Z.shiftr _ _ =? _) eqn:E; cbn [andb negb].
  - destruct (_ <? _); [|apply wp_ret; by rewrite andb_true_r].
    apply wp_bind, wp_modify, wp_bind, wp_get, wp_bind, wp_callback, wp_modify. by rewrite andb_true_r.
  - destruct (dlc f =? 8); [|apply wp_ret; by rewrite andb_true_r]. cbn [andb].
    destruct (_ =? 0xFF); [apply wp_modify; by rewrite andb_false_r|apply wp_ret; by rewrite andb_true_r].
Qed.

Lemma receive_loop_spec fuel h m :
  length (pending (j_driver h)) = fuel ->
  wp (receive_loop fuel) (fun _ h' m' => primask m' = primask m /\ pending (j_driver h') = [] /\
    sent (j_driver h') = sent (j_driver h) /\ j_critical h' = j_critical h /\
    current_address h' = addresses (pending (j_driver h)) (current_address h) /\
    in_progress (transport h') = in_progress (transport h) && negb (existsb aborts (pending (j_driver h)))) h m.
Proof.
  revert h m. induction fuel as [|fuel IH]; intros h m Hf; simpl; apply wp_bind, wp_bus_receive.
  - intros Hp. apply wp_ret. rewrite Hp. by rewrite andb_true_r.
  - intros f d Hp. by rewrite Hp in Hf.
  - intros Hp. by rewrite Hp in Hf.
  - intros f d Hp Hs. rewrite Hp in *. injection Hf as Hf. apply wp_bind. eapply wp_mono; [apply process_frame_spec|].
    intros [] h1 m1 (Hm1 & Hd1 & Hc1 & Ha1 & Hi1). simpl in *. eapply wp_mono; [apply (IH h1 m1); by rewrite Hd1|].
    intros [] h2 m2 (Hm2 & Hp2 & Hs2 & Hc2 & Ha2 & Hi2). rewrite Hd1 in *. simpl in *. split_and!; try congruence.
    rewrite Hi2, Hi1, negb_orb. by rewrite andb_assoc.
Qed.

(** [j1939_process], when no claim is due, takes every frame from the driver, moves
    the address once for each claim that wins against it, ends the transport when an abort
    arrives, sends nothing and restores the interrupt mask. *)
Theorem j1939_process_drains h m :
  support_address_claim (j_config h) = false \/ address_claimed h = true \/ running (claim_timer h) = false ->
  wp j1939_process (fun _ h' m' => primask m' = primask m /\ pending (j_driver h') = [] /\
    sent (j_driver h') = sent (j_driver h) /\
    current_address h' = addresses (pending (j_driver h)) (current_address h) /\
    in_progress (transport h') = in_progress (transport h) && negb (existsb aborts (pending (j_driver h)))) h m.
Proof.
  intros Hno. unfold j1939_process. apply wp_bind, wp_enter, wp_bind, wp_get, wp_bind.
  assert (Hskip : forall Q m0, (forall tc, Q tt (h <| j_critical := mkCS (Z.b2z (primask m)) true |>) (m0 <| timer_critical := tc |>)) ->
    wp (if support_address_claim (j_config h) && negb (address_claimed h)
        then e ← expired claim_timer; if e : bool then send_address_claim;; start_claim_timer else mret tt else mret tt) Q
       (h <| j_critical := mkCS (Z.b2z (primask m)) true |>) m0).
  { intros Q m0 HQ. destruct (_ && _) eqn:E; [|apply wp_ret; specialize (HQ (timer_critical m0)); by destruct m0].
    apply wp_bind, wp_expired. intros tc. cbn. destruct Hno as [Hno|[Hno|Hno]]; rewrite Hno in *; [done|by rewrite andb_false_r in E|].
    apply wp_ret. apply HQ. }
  apply Hskip. intros tc. apply wp_bind, wp_get, wp_bind. eapply wp_mono; [by apply receive_loop_spec|].
  intros [] h' m' (Hm & Hp & Hs & Hc & Ha & Hi). eapply wp_exit; [exact Hc|done|]. by split_and!.
Qed.

(** A claim that this code sends is not recognised by this code: the comparison is with the
    priority still in the identifier, so the address does not move and the name's first byte
    is taken for a transport command. *)
Lemma own_claims_ignored n a b : 0 <= a < 256 ->
  addresses [mkFrame (compose_can_id 6 J1939_PGN_ADDRESS_CLAIMED a) 8 true n] b = b /\
  aborts (mkFrame (compose_can_id 6 J1939_PGN_ADDRESS_CLAIMED a) 8 true n) = (nth 0 n 0 =? 0xFF).
Proof.
  intros Ha. unfold addresses, loses, aborts, is_claim. cbn [id mkFrame foldl dlc frame_data]. by rewrite claim_id_shifted.
Qed.
End j1939_proofs.

(** ** Two nodes *)

Definition node (a : Z) (fs : list CANFrame) : J1939Handler (CANDriver ListQueue) :=
  mkJ1939 (started_driver fs []) (mkJ1939Config a (map Z.of_nat (seq 1 8)) 0 true 500) a false timer_zero true
    (mkTransport 0 0 0 0 timer_zero false) cs_zero.
Definition engine_speed : J1939Message := mkMessage 0xF004 3 0x21 0xFF ([1; 2; 3; 4; 5; 6; 7; 8] ++ replicate 1777 0) 8.
Definition blank_message : J1939Message := mkMessage 0 0 0 0 (replicate 1785 0) 0.
Definition engine_frame : CANFrame := frame_of 0x21 engine_speed.

Lemma j1939_round_trip_witness :
  wp (j1939_transmit engine_speed) (fun ok _ m' => if ok : bool then
    wp (j1939_receive blank_message 0) (fun o _ _ => exists z, o = Some z /\ pgn z = 0xF004 /\ source_address z = 0x21)
      (node 0x30 [engine_frame]) m' else False) (node 0x21 []) boot.
Proof.
  assert (Hok : wp (j1939_transmit engine_speed) (fun ok h' _ => ok = true /\ sent (j_driver h') = [engine_frame])
    (node 0x21 []) boot) by (by vm_compute).
  eapply wp_mono; [apply wp_and; [exact Hok|apply (j1939_round_trip engine_speed blank_message (node 0x21 []) (node 0x30 [engine_frame]) boot)]|].
  1-6: vm_compute; done.
  intros ok h' m' [[-> Hsent] [_ (f & Hf & Hrecv)]]. rewrite Hsent in Hf. injection Hf as <-.
  eapply wp_mono; [by apply Hrecv|]. intros o r' m2 (_ & z & -> & _ & Hp & Hs & _). exists z. by rewrite Hp, Hs.
Defined.
Lemma claim_masks_interrupts_witness :
  wp j1939_claim_address (fun _ _ m' => primask m' = true) (node 0x21 []) boot.
Proof. eapply wp_mono; [by apply (claim_masks_interrupts (node 0x21 []) boot)|]. by intros ok h' m' (? & _). Defined.
Lemma j1939_process_drains_witness :
  wp j1939_process (fun _ h' m' => primask m' = false /\ current_address h' = 0x22)
    (node 0x21 [mkFrame (compose_can_id 0 J1939_PGN_ADDRESS_CLAIMED 5) 8 true (replicate 64 1)]) boot.
Proof.
  eapply wp_mono; [apply (j1939_process_drains (node 0x21 [mkFrame (compose_can_id 0 J1939_PGN_ADDRESS_CLAIMED 5) 8 true (replicate 64 1)]) boot)|].
  - by right; right.
  - intros [] h' m' (-> & _ & _ & -> & _). by vm_compute.
Defined.
