(* ===== verification/NetBuffer.v ===== *)
(** * Network ring buffer

    [src/runtime/network/net_buffer.c] over the process-wide mutex of
    [src/runtime/diagnostic/os/critical.c] (the POSIX branch).  Indices and
    counts are at most [size], a [uint32_t], in every state the operations
    reach from [NetBuffer_Init], so none of the unsigned computations wraps and
    they are written on [nat]; [uint32_t] subtractions are guarded by the
    invariant proved below.  Log calls are recorded in the trace. *)

From S2P Require Import Prelude Machine.

Record NetBuffer := mkNetBuffer {
  data : option (list Z);
  size : nat;
  read_index : nat;
  write_index : nat;
  count : nat;
  overflow : bool }.
#[export] Instance eta_NetBuffer : Eta NetBuffer := fun b =>
  mkNetBuffer (data b) (size b) (read_index b) (write_index b) (count b) (overflow b).

(** The object behind the caller's pointer and the mutex. *)
Record NetCtx := mkNetCtx { nb : option NetBuffer; mutex : bool }.
#[export] Instance eta_NetCtx : Eta NetCtx := fun c => mkNetCtx (nb c) (mutex c).

(** Locking a mutex this thread holds deadlocks; unlocking one it does not
    hold is undefined. *)
Definition enter_critical : M NetCtx unit :=
  c ← get; if mutex c then fault else modify (fun c => c <| mutex := true |>).
Definition exit_critical : M NetCtx unit :=
  c ← get; if mutex c then modify (fun c => c <| mutex := false |>) else fault.

Definition set_nb (f : NetBuffer -> NetBuffer) : M NetCtx unit := modify (fun c => c <| nb ::= fmap f |>).

Definition NetBuffer_Reset : M NetCtx unit :=
  set_nb (fun b => b <| read_index := 0%nat |> <| write_index := 0%nat |> <| count := 0%nat |>
                     <| overflow := false |> <| data ::= fmap (fun _ => replicate (size b) 0) |>).

(** [granted]: what [malloc] returned, uninitialised bytes or NULL. *)
Definition NetBuffer_Init (granted : option (list Z)) (sz : nat) : M NetCtx bool :=
  c ← get;
  match nb c with
  | None => mret false
  | Some b =>
    if (sz =? 0)%nat then mret false else
    set_nb (fun b => b <| data := granted |>);;
    match granted with
    | None => emit "Logger_Log" [];; mret false
    | Some _ =>
      set_nb (fun b => b <| size := sz |>);;
      NetBuffer_Reset;;
      emit "Logger_Log" [];;
      mret true
    end
  end.

Definition NetBuffer_Deinit : M NetCtx unit :=
  set_nb (fun b => b <| data := None |> <| size := 0%nat |> <| read_index := 0%nat |>
                     <| write_index := 0%nat |> <| count := 0%nat |> <| overflow := false |>).

Definition NetBuffer_GetFree (b : option NetBuffer) : nat :=
  match b with Some b => (size b - count b)%nat | None => 0%nat end.
Definition NetBuffer_GetAvailable (b : option NetBuffer) : nat :=
  match b with Some b => count b | None => 0%nat end.
Definition NetBuffer_IsEmpty (b : option NetBuffer) : bool :=
  match b with Some b => (count b =? 0)%nat | None => true end.
Definition NetBuffer_IsFull (b : option NetBuffer) : bool :=
  match b with Some b => (size b <=? count b)%nat | None => true end.
Definition NetBuffer_HasOverflowed (b : option NetBuffer) : bool :=
  match b with Some b => overflow b | None => false end.

(** [memcpy(dst + off, src, n)]; [None] when it leaves either array. *)
Definition memcpy (dst : list Z) (off : nat) (src : list Z) (n : nat) : option (list Z) :=
  if (off + n <=? length dst)%nat && (n <=? length src)%nat
  then Some (take off dst ++ take n src ++ drop (off + n) dst) else None.
Definition checked {A} (o : option A) : M NetCtx A :=
  match o with Some a => mret a | None => fault end.

Definition NetBuffer_Write (src : option (list Z)) (len : nat) : M NetCtx bool :=
  c ← get;
  match nb c, nb c ≫= data, src with
  | Some b, Some d, Some src =>
    if (len =? 0)%nat then mret false else
    enter_critical;;
    if (NetBuffer_GetFree (Some b) <? len)%nat then
      set_nb (fun b => b <| overflow := true |>);;
      exit_critical;; emit "Logger_Log" [];; mret false
    else
    let first_chunk := (size b - write_index b)%nat in
    (if (len <=? first_chunk)%nat then
       d' ← checked (memcpy d (write_index b) src len);
       let w := (write_index b + len)%nat in
       set_nb (fun b => b <| data := Some d' |>
                          <| write_index := if (size b <=? w)%nat then 0%nat else w |>)
     else
       d1 ← checked (memcpy d (write_index b) src first_chunk);
       d2 ← checked (memcpy d1 0 (drop first_chunk src) (len - first_chunk));
       set_nb (fun b => b <| data := Some d2 |> <| write_index := (len - first_chunk)%nat |>));;
    set_nb (fun b => b <| count ::= fun n => (n + len)%nat |>);;
    exit_critical;;
    mret true
  | _, _, _ => mret false
  end.

(** The bytes from [read_index] on, around the end of the array. *)
Definition copy_out (b : NetBuffer) (d : list Z) (len : nat) : option (list Z) :=
  let first_chunk := (size b - read_index b)%nat in
  if (len <=? first_chunk)%nat then
    if (read_index b + len <=? length d)%nat then Some (take len (drop (read_index b) d)) else None
  else
    if (read_index b + first_chunk <=? length d)%nat && (len - first_chunk <=? length d)%nat
    then Some (take first_chunk (drop (read_index b) d) ++ take (len - first_chunk) d) else None.

(** The bytes stored through the caller's pointer, [None] when the call
    answers [false]; [out]: the pointer is not NULL. *)
Definition NetBuffer_Read (out : bool) (len : nat) : M NetCtx (option (list Z)) :=
  c ← get;
  match nb c, nb c ≫= data with
  | Some b, Some d =>
    if negb out || (len =? 0)%nat then mret None else
    enter_critical;;
    if (count b <? len)%nat then exit_critical;; mret None else
    bytes ← checked (copy_out b d len);
    let first_chunk := (size b - read_index b)%nat in
    (if (len <=? first_chunk)%nat then
       let r := (read_index b + len)%nat in
       set_nb (fun b => b <| read_index := if (size b <=? r)%nat then 0%nat else r |>)
     else set_nb (fun b => b <| read_index := (len - first_chunk)%nat |>));;
    set_nb (fun b => b <| count ::= fun n => (n - len)%nat |>);;
    exit_critical;;
    mret (Some bytes)
  | _, _ => mret None
  end.

Definition NetBuffer_Peek (out : bool) (len : nat) : M NetCtx (option (list Z)) :=
  c ← get;
  match nb c, nb c ≫= data with
  | Some b, Some d =>
    if negb out || (len =? 0)%nat then mret None else
    enter_critical;;
    if (count b <? len)%nat then exit_critical;; mret None else
    bytes ← checked (copy_out b d len);
    exit_critical;;
    mret (Some bytes)
  | _, _ => mret None
  end.

(** ** The queue a buffer stands for *)

Record nb_wf (b : NetBuffer) (d : list Z) : Prop := {
  nw_data : data b = Some d;
  nw_size : length d = size b;
  nw_pos : (0 < size b)%nat;
  nw_read : (read_index b < size b)%nat;
  nw_count : (count b <= size b)%nat;
  nw_write : write_index b = ((read_index b + count b) mod size b)%nat }.

(** The [n] bytes from index [r] on, around the end. *)
Definition ring (d : list Z) (r n : nat) : list Z :=
  (fun i => d !!! ((r + i) mod length d)%nat) <$> seq 0 n.
Definition contents (b : NetBuffer) : list Z :=
  match data b with Some d => ring d (read_index b) (count b) | None => [] end.

Lemma mod_wrap a s : (0 < s)%nat -> (a < 2 * s)%nat -> (a mod s = if a <? s then a else a - s)%nat.
Proof.
  intros Hs Ha. destruct (a <? s)%nat eqn:E; tests; [by apply Nat.mod_small|].
  symmetry. apply (Nat.mod_unique a s 1); lia.
Qed.

Lemma ring_lookup d r n i : (i < n)%nat -> ring d r n !! i = Some (d !!! ((r + i) mod length d)%nat).
Proof.
  intros Hi. unfold ring. rewrite list_lookup_fmap, lookup_seq_lt by done. done.
Qed.
Lemma length_ring d r n : length (ring d r n) = n.
Proof. unfold ring. by rewrite length_fmap, length_seq. Qed.

(** Dropping from the front moves the start; taking shortens. *)
Lemma ring_drop d r n k :
  (0 < length d)%nat -> (k <= n)%nat -> drop k (ring d r n) = ring d ((r + k) mod length d) (n - k).
Proof.
  intros Hd Hk. apply list_eq. intros i. rewrite lookup_drop.
  destruct (decide (i < n - k)%nat).
  - rewrite !ring_lookup by lia. rewrite Nat.Div0.add_mod_idemp_l. do 3 f_equal. lia.
  - rewrite !lookup_ge_None_2 by (rewrite length_ring; lia). done.
Qed.
Lemma ring_take d r n k : (k <= n)%nat -> take k (ring d r n) = ring d r k.
Proof.
  intros Hk. apply list_eq. intros i. destruct (decide (i < k)%nat).
  - rewrite lookup_take_lt, !ring_lookup by lia. done.
  - rewrite lookup_take_ge by lia. rewrite lookup_ge_None_2 by (rewrite length_ring; lia). done.
Qed.

(** The two-part copy reads the ring. *)
Lemma copy_out_ring b d len :
  nb_wf b d -> (len <= count b)%nat -> copy_out b d len = Some (ring d (read_index b) len).
Proof.
  intros [Hd Hs Hp Hr Hc Hw] Hl. unfold copy_out.
  destruct (len <=? size b - read_index b)%nat eqn:E; tests.
  - rewrite (proj2 (Nat.leb_le _ _)) by lia. f_equal. apply list_eq. intros i.
    destruct (decide (i < len)%nat).
    + rewrite lookup_take_lt, lookup_drop, ring_lookup, mod_wrap by lia.
      rewrite Hs, (proj2 (Nat.ltb_lt _ _)) by lia. apply list_lookup_lookup_total_lt. lia.
    + rewrite lookup_take_ge, lookup_ge_None_2 by (rewrite ?length_ring; lia). done.
  - rewrite !(proj2 (Nat.leb_le _ _)) by lia. simpl. f_equal.
    apply list_eq. intros i. destruct (decide (i < len)%nat).
    2: { rewrite !lookup_ge_None_2; [done|rewrite length_ring; lia|].
         rewrite length_app, !length_take, length_drop. lia. }
    rewrite ring_lookup, mod_wrap, Hs by lia.
    destruct (read_index b + i <? size b)%nat eqn:E'; tests.
    + rewrite lookup_app_l by (rewrite length_take, length_drop; lia).
      rewrite lookup_take_lt, lookup_drop by lia. apply list_lookup_lookup_total_lt. lia.
    + rewrite lookup_app_r by (rewrite length_take, length_drop; lia).
      rewrite length_take, length_drop, lookup_take_lt by lia.
      replace (i - _ `min` _)%nat with (read_index b + i - size b)%nat by lia.
      apply list_lookup_lookup_total_lt. lia.
Qed.

Lemma memcpy_spec dst off src n :
  (off + n <= length dst)%nat -> (n <= length src)%nat ->
  exists d', memcpy dst off src n = Some d' /\ length d' = length dst /\
    forall j, (j < length dst)%nat ->
      d' !! j = if (off <=? j)%nat && (j <? off + n)%nat then src !! (j - off)%nat else dst !! j.
Proof.
  intros Ho Hn. unfold memcpy. rewrite !(proj2 (Nat.leb_le _ _)) by lia. simpl.
  eexists. split; [done|]. split; [rewrite !length_app, !length_take, length_drop; lia|]. intros j Hj.
  destruct (off <=? j)%nat eqn:E1; tests; simpl.
  - rewrite lookup_app_r, length_take, Nat.min_l by (rewrite ?length_take; lia).
    destruct (j <? off + n)%nat eqn:E2; tests.
    + rewrite lookup_app_l, lookup_take_lt by (rewrite ?length_take; lia). done.
    + rewrite lookup_app_r, length_take, Nat.min_l, lookup_drop by (rewrite ?length_take; lia).
      f_equal. lia.
  - rewrite lookup_app_l, lookup_take_lt by (rewrite ?length_take; lia). done.
Qed.

(** A copy into the ring that hits exactly the places behind the contents. *)
Lemma ring_append d d' r n src len :
  (0 < length d)%nat -> (r < length d)%nat -> (n + len <= length d)%nat -> (len <= length src)%nat ->
  length d' = length d ->
  (forall i, (i < n + len)%nat ->
     d' !! ((r + i) mod length d)%nat =
     if (i <? n)%nat then d !! ((r + i) mod length d)%nat else src !! (i - n)%nat) ->
  ring d' r (n + len) = ring d r n ++ take len src.
Proof.
  intros Hd Hr Hn Hl Hlen Hd'. apply list_eq. intros i. destruct (decide (i < n + len)%nat) as [Hi|Hi].
  2: { rewrite !lookup_ge_None_2; [done|rewrite length_app, length_ring, length_take; lia|].
       rewrite length_ring. lia. }
  assert (Hm : ((r + i) mod length d < length d)%nat) by (apply Nat.mod_upper_bound; lia).
  rewrite ring_lookup, Hlen by done. rewrite list_lookup_total_alt, (Hd' i Hi).
  destruct (i <? n)%nat eqn:E; tests.
  - rewrite lookup_app_l, ring_lookup by (rewrite ?length_ring; lia).
    by rewrite list_lookup_total_alt.
  - rewrite lookup_app_r, length_ring, lookup_take_lt by (rewrite ?length_ring; lia).
    destruct (lookup_lt_is_Some_2 src (i - n)) as [x ->]; [lia|]. done.
Qed.

(** What both branches of [NetBuffer_Write] store. *)
Definition write_data (b : NetBuffer) (d src : list Z) (len : nat) : option (list Z) :=
  let first_chunk := (size b - write_index b)%nat in
  if (len <=? first_chunk)%nat then memcpy d (write_index b) src len
  else d1 ← memcpy d (write_index b) src first_chunk;
       memcpy d1 0 (drop first_chunk src) (len - first_chunk).

Lemma write_data_ring b d src len :
  nb_wf b d -> (count b + len <= size b)%nat -> (len <= length src)%nat ->
  exists d', write_data b d src len = Some d' /\ length d' = length d /\
    ring d' (read_index b) (count b + len) = ring d (read_index b) (count b) ++ take len src.
Proof.
  intros [Hd Hs Hp Hr Hc Hw] Hl Hsrc. unfold write_data.
  rewrite mod_wrap in Hw by lia.
  assert (Hww : (write_index b < size b)%nat)
    by (rewrite Hw; destruct (_ <? _)%nat eqn:E; tests; lia).
  destruct (len <=? size b - write_index b)%nat eqn:E; tests.
  - destruct (memcpy_spec d (write_index b) src len) as (d' & -> & Hlen & Hd'); [lia|lia|].
    exists d'. split_and!; auto. apply ring_append; auto; try lia. intros i Hi.
    rewrite mod_wrap, Hs by lia.
    rewrite Hd' by (destruct (read_index b + i <? size b)%nat eqn:E'; tests; lia).
    destruct (i <? count b)%nat eqn:Ei, (read_index b + i <? size b)%nat eqn:E',
      (read_index b + count b <? size b)%nat eqn:E''; tests; rewrite Hw in *.
    all: first [rewrite (proj2 (Nat.leb_gt _ _)) by lia; done
      | rewrite (proj2 (Nat.leb_le _ _)), (proj2 (Nat.ltb_ge _ _)) by lia; done
      | rewrite (proj2 (Nat.leb_le _ _)), (proj2 (Nat.ltb_lt _ _)) by lia; simpl; f_equal; lia | lia].
  - destruct (memcpy_spec d (write_index b) src (size b - write_index b)) as (d1 & Hm1 & Hlen1 & Hd1); [lia|lia|].
    destruct (memcpy_spec d1 0 (drop (size b - write_index b) src) (len - (size b - write_index b)))
      as (d' & Hm' & Hlen & Hd'); [lia|rewrite length_drop; lia|].
    exists d'. simpl. rewrite Hm1. simpl. split_and!; [done|congruence|]. apply ring_append; auto; try lia.
    intros i Hi. rewrite mod_wrap, Hs by lia.
    rewrite Hd' by (destruct (read_index b + i <? size b)%nat eqn:E'; tests; lia).
    rewrite Hd1 by (destruct (read_index b + i <? size b)%nat eqn:E'; tests; lia).
    rewrite lookup_drop.
    destruct (i <? count b)%nat eqn:Ei, (read_index b + i <? size b)%nat eqn:E',
      (read_index b + count b <? size b)%nat eqn:E''; tests; rewrite Hw in *;
      rewrite (proj2 (Nat.leb_le 0 _)) by lia; simpl.
    all: first [lia
      | rewrite (proj2 (Nat.ltb_lt _ (len - _))) by lia; f_equal; lia
      | rewrite (proj2 (Nat.ltb_ge _ (len - _))), (proj2 (Nat.leb_gt _ _)) by lia; done
      | rewrite (proj2 (Nat.ltb_ge _ (len - _))), (proj2 (Nat.leb_le _ _)),
          (proj2 (Nat.ltb_lt _ _)) by lia; simpl; f_equal; lia
      | rewrite (proj2 (Nat.ltb_ge _ (len - _))), (proj2 (Nat.leb_le _ _)),
          (proj2 (Nat.ltb_ge _ _)) by lia; done].
Qed.

(** A bounded queue with a sticky overflow flag. *)
Record Queue := mkQueue { q_bytes : list Z; q_overflow : bool }.
Inductive QOp := QWrite (bytes : list Z) | QRead (n : nat) | QPeek (n : nat).
Inductive QRes := Written (ok : bool) | Got (bytes : option (list Z)).
Definition q_step (cap : nat) (op : QOp) (q : Queue) : QRes * Queue :=
  match op with
  | QWrite bs =>
    if (length bs =? 0)%nat then (Written false, q)
    else if (length (q_bytes q) + length bs <=? cap)%nat
    then (Written true, mkQueue (q_bytes q ++ bs) (q_overflow q))
    else (Written false, mkQueue (q_bytes q) true)
  | QRead n =>
    if (n =? 0)%nat || (length (q_bytes q) <? n)%nat then (Got None, q)
    else (Got (Some (take n (q_bytes q))), mkQueue (drop n (q_bytes q)) (q_overflow q))
  | QPeek n =>
    if (n =? 0)%nat || (length (q_bytes q) <? n)%nat then (Got None, q)
    else (Got (Some (take n (q_bytes q))), q)
  end.
Fixpoint q_run (cap : nat) (ops : list QOp) (q : Queue) : list QRes * Queue :=
  match ops with
  | [] => ([], q)
  | op :: ops => let '(r, q) := q_step cap op q in let '(rs, q) := q_run cap ops q in (r :: rs, q)
  end.

Definition nb_exec (op : QOp) : M NetCtx QRes :=
  match op with
  | QWrite bs => ok ← NetBuffer_Write (Some bs) (length bs); mret (Written ok)
  | QRead n => r ← NetBuffer_Read true n; mret (Got r)
  | QPeek n => r ← NetBuffer_Peek true n; mret (Got r)
  end.
Fixpoint nb_run (ops : list QOp) : M NetCtx (list QRes) :=
  match ops with
  | [] => mret []
  | op :: ops => r ← nb_exec op; rs ← nb_run ops; mret (r :: rs)
  end.

(** The buffer implements the queue. *)
Definition implements (c : NetCtx) (q : Queue) (cap : nat) : Prop :=
  mutex c = false /\ exists b d, nb c = Some b /\ nb_wf b d /\ size b = cap /\
    contents b = q_bytes q /\ overflow b = q_overflow q.

Lemma contents_ring b d : nb_wf b d -> contents b = ring d (read_index b) (count b).
Proof. intros []. unfold contents. by rewrite nw_data0. Qed.

Lemma wp_lock b m (Q : unit -> NetCtx -> Machine -> Prop) :
  Q tt (mkNetCtx b true) m -> wp enter_critical Q (mkNetCtx b false) m.
Proof. done. Qed.
Lemma wp_unlock b m (Q : unit -> NetCtx -> Machine -> Prop) :
  Q tt (mkNetCtx b false) m -> wp exit_critical Q (mkNetCtx b true) m.
Proof. done. Qed.
Lemma wp_set_nb f b k m (Q : unit -> NetCtx -> Machine -> Prop) :
  Q tt (mkNetCtx (Some (f b)) k) m -> wp (set_nb f) Q (mkNetCtx (Some b) k) m.
Proof. done. Qed.
Ltac nb_step :=
  lazymatch goal with
  | |- wp enter_critical _ _ _ => apply wp_lock
  | |- wp exit_critical _ _ _ => apply wp_unlock
  | |- wp (set_nb _) _ _ _ => apply wp_set_nb
  | |- _ => wp_step
  end; simpl.

Lemma write_wp bs q cap c m :
  implements c q cap ->
  wp (NetBuffer_Write (Some bs) (length bs)) (fun ok c' m' =>
    Written ok = fst (q_step cap (QWrite bs) q) /\ implements c' (snd (q_step cap (QWrite bs) q)) cap /\
    primask m' = primask m) c m.
Proof.
  intros [Hmx (b & d & Hb & Hw & Hcap & Hq & Ho)]. pose proof Hw as [Hd Hs Hp Hr Hc Hwr].
  assert (Hlen : length (q_bytes q) = count b) by (by rewrite <- Hq, (contents_ring b d Hw), length_ring).
  destruct c as [? mx]; simpl in *; subst. unfold q_step. rewrite Hlen.
  unfold NetBuffer_Write. wp_step. wp_step. rewrite Hd.
  destruct (length bs =? 0)%nat eqn:E0; tests.
  { wp_step. split_and!; try done. split; [done|]. exists b, d. by split_and!. }
  nb_step. nb_step.
  destruct (count b + length bs <=? size b)%nat eqn:E; tests.
  2: { rewrite (proj2 (Nat.ltb_lt _ _)) by (simpl; lia). repeat nb_step.
       split_and!; try done. split; [done|]. exists (b <| overflow := true |>), d. split_and!; try done. }
  rewrite (proj2 (Nat.ltb_ge _ _)) by (simpl; lia).
  destruct (write_data_ring b d bs (length bs)) as (d' & Hwd & Hlen' & Hring); [done|lia|lia|].
  set (b' := mkNetBuffer (Some d') (size b) (read_index b)
     ((read_index b + (count b + length bs)) mod size b)%nat (count b + length bs) (overflow b)).
  assert (Hw' : nb_wf b' d') by (constructor; simpl; auto; congruence).
  assert (Hi : implements (mkNetCtx (Some b') false) (mkQueue (q_bytes q ++ bs) (q_overflow q)) (size b)).
  { split; [done|]. exists b', d'. split_and!; auto. rewrite (contents_ring b' d' Hw'). simpl.
    rewrite Hring, firstn_all, <- (contents_ring b d Hw), Hq. done. }
  assert (Hgoal : forall w, w = (if read_index b + (count b + length bs) <? size b
      then read_index b + (count b + length bs) else read_index b + (count b + length bs) - size b)%nat ->
    mkNetBuffer (Some d') (size b) (read_index b) w (count b + length bs) (overflow b) = b')
    by (intros w ->; unfold b'; by rewrite mod_wrap by lia).
  unfold write_data in Hwd. rewrite mod_wrap in Hwr by lia.
  assert (Hww : (write_index b < size b)%nat) by (rewrite Hwr; destruct (_ <? _)%nat eqn:?; tests; lia).
  destruct (length bs <=? size b - write_index b)%nat eqn:Ef; tests.
  - rewrite Hwd. repeat nb_step.
    all: rewrite Hgoal; [split_and!; [done|exact Hi|done]|];
      destruct (read_index b + count b <? size b)%nat eqn:E1,
        (read_index b + (count b + length bs) <? size b)%nat eqn:E2,
        (size b <=? write_index b + length bs)%nat eqn:E3; tests; lia.
  - destruct (memcpy d _ bs _) as [d1|]; [|done]. simpl in Hwd. do 3 nb_step. rewrite Hwd.
    repeat nb_step.
    all: rewrite Hgoal; [split_and!; [done|exact Hi|done]|];
      destruct (read_index b + count b <? size b)%nat eqn:E1,
        (read_index b + (count b + length bs) <? size b)%nat eqn:E2; tests; lia.
Qed.

Lemma peek_wp n q cap c m :
  implements c q cap ->
  wp (NetBuffer_Peek true n) (fun r c' m' =>
    Got r = fst (q_step cap (QPeek n) q) /\ implements c' (snd (q_step cap (QPeek n) q)) cap /\
    primask m' = primask m) c m.
Proof.
  intros [Hmx (b & d & Hb & Hw & Hcap & Hq & Ho)]. pose proof Hw as [Hd Hs Hp Hr Hc Hwr].
  assert (Hlen : length (q_bytes q) = count b) by (by rewrite <- Hq, (contents_ring b d Hw), length_ring).
  destruct c as [? mx]; simpl in *; subst. unfold q_step. rewrite Hlen.
  assert (Hi : implements (mkNetCtx (Some b) false) q (size b)) by (split; [done|]; exists b, d; by split_and!).
  unfold NetBuffer_Peek. wp_step. wp_step. rewrite Hd.
  destruct (n =? 0)%nat; simpl; [by wp_step; split_and!|]. nb_step. nb_step.
  destruct (count b <? n)%nat eqn:E; [by repeat nb_step; split_and!|]. tests.
  rewrite (copy_out_ring b d n) by done. repeat nb_step. split_and!; try done.
  by rewrite <- Hq, (contents_ring b d Hw), ring_take.
Qed.

Lemma read_wp n q cap c m :
  implements c q cap ->
  wp (NetBuffer_Read true n) (fun r c' m' =>
    Got r = fst (q_step cap (QRead n) q) /\ implements c' (snd (q_step cap (QRead n) q)) cap /\
    primask m' = primask m) c m.
Proof.
  intros [Hmx (b & d & Hb & Hw & Hcap & Hq & Ho)]. pose proof Hw as [Hd Hs Hp Hr Hc Hwr].
  assert (Hlen : length (q_bytes q) = count b) by (by rewrite <- Hq, (contents_ring b d Hw), length_ring).
  destruct c as [? mx]; simpl in *; subst. unfold q_step. rewrite Hlen.
  assert (Hi : implements (mkNetCtx (Some b) false) q (size b)) by (split; [done|]; exists b, d; by split_and!).
  unfold NetBuffer_Read. wp_step. wp_step. rewrite Hd.
  destruct (n =? 0)%nat; simpl; [by wp_step; split_and!|]. nb_step. nb_step.
  destruct (count b <? n)%nat eqn:E; [by repeat nb_step; split_and!|]. tests.
  rewrite (copy_out_ring b d n) by done.
  set (b' := mkNetBuffer (data b) (size b) ((read_index b + n) mod size b)%nat (write_index b)
               (count b - n) (overflow b)).
  assert (Hw' : nb_wf b' d).
  { constructor; simpl; auto; [by apply Nat.mod_upper_bound; lia|lia|].
    rewrite Hwr, Nat.Div0.add_mod_idemp_l. f_equal. lia. }
  assert (Hi' : implements (mkNetCtx (Some b') false) (mkQueue (drop n (q_bytes q)) (q_overflow q)) (size b)).
  { split; [done|]. exists b', d. split_and!; auto. rewrite (contents_ring b' d Hw'). simpl.
    by rewrite <- Hq, (contents_ring b d Hw), ring_drop, Hs by lia. }
  assert (Hgoal : forall r, r = (if read_index b + n <? size b then read_index b + n
      else read_index b + n - size b)%nat ->
    mkNetBuffer (data b) (size b) r (write_index b) (count b - n) (overflow b) = b')
    by (intros r ->; unfold b'; by rewrite mod_wrap by lia).
  nb_step. nb_step.
  destruct (n <=? size b - read_index b)%nat eqn:E1; tests; repeat nb_step; rewrite Hgoal.
  1,3: split_and!; [by rewrite <- Hq, (contents_ring b d Hw), ring_take by lia|exact Hi'|done].
  all: destruct (read_index b + n <? size b)%nat eqn:E2; tests; try lia;
    destruct (size b <=? read_index b + n)%nat eqn:E3; tests; lia.
Qed.

(** ** Properties *)

(** C3. The ring buffer is a bounded FIFO queue of bytes: for every sequence of
    writes, reads and peeks, whatever their sizes and wherever the indices
    wrap around the end of the array, each call answers exactly what a queue
    of that capacity would answer (all or nothing, bytes in order), the
    overflow flag records whether a write was ever refused for lack of room,
    no access leaves the array, and the mutex is free afterwards. *)
Theorem net_buffer_is_fifo ops q cap c m :
  implements c q cap ->
  wp (nb_run ops) (fun rs c' m' =>
    rs = fst (q_run cap ops q) /\ implements c' (snd (q_run cap ops q)) cap /\
    primask m' = primask m) c m.
Proof.
  revert q c m. induction ops as [|op ops IH]; intros q c m Hi; simpl; [done|].
  assert (Hop : wp (nb_exec op) (fun r c' m' => r = fst (q_step cap op q) /\
    implements c' (snd (q_step cap op q)) cap /\ primask m' = primask m) c m).
  { destruct op as [bs|n|n]; unfold nb_exec; apply wp_bind.
    - eapply wp_mono; [by apply (write_wp bs q cap)|]. intros. by apply wp_ret.
    - eapply wp_mono; [by apply (read_wp n q cap)|]. intros. by apply wp_ret.
    - eapply wp_mono; [by apply (peek_wp n q cap)|]. intros. by apply wp_ret. }
  apply wp_bind. eapply wp_mono; [exact Hop|]. intros r c1 m1 (-> & Hi1 & Hp1).
  destruct (q_step cap op q) as [r q1]. apply wp_bind. eapply wp_mono; [by apply (IH q1)|].
  intros rs c2 m2 (-> & Hi2 & Hp2). destruct (q_run cap ops q1) as [rs q2]. apply wp_ret.
  split_and!; [done|done|congruence].
Qed.

(** [NetBuffer_Init] establishes the empty queue. *)
Lemma init_empty granted sz b m :
  length granted = sz -> (0 < sz)%nat ->
  wp (NetBuffer_Init (Some granted) sz) (fun ok c' m' =>
    ok = true /\ implements c' (mkQueue [] false) sz) (mkNetCtx (Some b) false) m.
Proof.
  intros Hl Hp. unfold NetBuffer_Init, NetBuffer_Reset. wp_step. wp_step.
  rewrite (proj2 (Nat.eqb_neq _ _)) by lia. repeat nb_step. split; [done|].
  split; [done|]. eexists _, (replicate sz 0). split; [done|]. split; [|done].
  constructor; simpl; auto; [by rewrite length_replicate|lia|].
  by rewrite Nat.Div0.mod_0_l.
Qed.

Definition example_ring : NetCtx :=
  mkNetCtx (Some (mkNetBuffer (Some [7; 0; 5; 6]) 4 2 1 3 false)) false.
Lemma example_ring_implements : implements example_ring (mkQueue [5; 6; 7] false) 4.
Proof.
  split; [done|]. eexists _, [7; 0; 5; 6]. split; [reflexivity|]. split; [|by vm_compute].
  constructor; simpl; auto; lia.
Qed.

(** Witness of [net_buffer_is_fifo]: contents that wrap around the end. *)
Lemma net_buffer_is_fifo_witness :
  implements example_ring (mkQueue [5; 6; 7] false) 4 /\
  wp (nb_run [QRead 2; QWrite [8; 9]; QPeek 3; QWrite [1; 2]; QRead 3]) (fun rs c' m' =>
    rs = [Got (Some [5; 6]); Written true; Got (Some [7; 8; 9]); Written false; Got (Some [7; 8; 9])] /\
    implements c' (mkQueue [] true) 4 /\ primask m' = false) example_ring boot.
Proof.
  split; [exact example_ring_implements|].
  exact (net_buffer_is_fifo [QRead 2; QWrite [8; 9]; QPeek 3; QWrite [1; 2]; QRead 3]
    (mkQueue [5; 6; 7] false) 4 example_ring boot example_ring_implements).
Defined.
