(* ===== verification/Crc.v ===== *)
(** * Checksums

    [src/runtime/utils/crc.c]: table-driven CRC-8, CRC-16, CRC-32 and CRC-64.
    The tables are statics that are zero until [crc_init] or
    [crc_set_polynomial] fills them. *)

From S2P Require Import Prelude Machine.

Record CrcState := mkCrc {
  polynomial : Z;
  initial_value : Z;
  final_xor : Z;
  crc_critical : CriticalSection;
  crc_initialized : bool;
  crc8_table : list Z;
  crc16_table : list Z;
  crc32_table : list Z;
  crc64_table : list Z }.
#[export] Instance eta_CrcState : Eta CrcState := fun s =>
  mkCrc (polynomial s) (initial_value s) (final_xor s) (crc_critical s) (crc_initialized s)
    (crc8_table s) (crc16_table s) (crc32_table s) (crc64_table s).
#[export, refine] Instance CrcState_critical : HasCritical CrcState :=
  {| crit := crc_critical; set_crit c s := s <| crc_critical := c |> |}.
Proof. all: by intros; destruct s. Defined.
Definition crc_state_boot : CrcState :=
  mkCrc 0x04C11DB7 0xFFFFFFFF 0xFFFFFFFF cs_zero false
    (replicate 256 0) (replicate 256 0) (replicate 256 0) (replicate 256 0).

Definition poly64 : Z := 0x42F0E1EBA9EA3693.

(** One round of the inner loops. *)
Definition step8 (crc : Z) : Z :=
  u8 (Z.lxor (Z.shiftl crc 1) (if Z.land crc 0x80 =? 0 then 0 else 0x07)).
Definition step16 (crc : Z) : Z :=
  u16 (Z.lxor (Z.shiftl crc 1) (if Z.land crc 0x8000 =? 0 then 0 else 0x1021)).
Definition step_right (poly crc : Z) : Z :=
  Z.lxor (Z.shiftr crc 1) (if Z.land crc 1 =? 0 then 0 else poly).

Definition table (f : Z -> Z) : list Z := (fun i => f (Z.of_nat i)) <$> seq 0 256.

#[global] Arguments table : simpl never.

Definition init_crc_tables (s : CrcState) : CrcState :=
  s <| crc8_table := table (fun i => Nat.iter 8 step8 i) |>
    <| crc16_table := table (fun i => Nat.iter 8 step16 (u16 (Z.shiftl i 8))) |>
    <| crc32_table := table (fun i => Nat.iter 8 (step_right (polynomial s)) i) |>
    <| crc64_table := table (fun i => Nat.iter 8 (step_right poly64) i) |>.

Definition crc_init : M CrcState unit :=
  s ← get;
  if crc_initialized s then mret tt else
  init_crit;;
  modify init_crc_tables;;
  modify (fun s => s <| crc_initialized := true |>).

Definition crc_set_polynomial (poly : Z) : M CrcState unit :=
  enter;;
  modify (fun s => s <| polynomial := poly |>);;
  modify init_crc_tables;;
  exit.

Definition crc_set_initial_value (initial : Z) : M CrcState unit :=
  enter;; modify (fun s => s <| initial_value := initial |>);; exit.

Definition crc_set_final_xor (x : Z) : M CrcState unit :=
  enter;; modify (fun s => s <| final_xor := x |>);; exit.

(** [table[i]]; [None] outside the 256 entries. *)
Definition entry (t : list Z) (i : Z) : option Z := if i <? 0 then None else t !! Z.to_nat i.

(** The loops over the bytes; [None] stands for an access outside a table. *)
Definition crc_loop (f : Z -> Z -> option Z) (bytes : list Z) (init : Z) : option Z :=
  foldl (fun acc b => crc ← acc; f crc b) (Some init) bytes.

(** [data] NULL or [length] 0 answer 0. *)
Definition with_bytes (data : option (list Z)) (k : list Z -> option Z) : option Z :=
  match data with
  | Some (b :: bs) => k (b :: bs)
  | _ => Some 0
  end.

#[global] Arguments with_bytes : simpl never.

Definition calculate_crc8 (s : CrcState) (data : option (list Z)) : option Z :=
  with_bytes data (fun bytes =>
    crc_loop (fun crc b => entry (crc8_table s) (Z.lxor crc b)) bytes 0).

Definition calculate_crc16 (s : CrcState) (data : option (list Z)) : option Z :=
  with_bytes data (fun bytes =>
    crc_loop (fun crc b =>
      t ← entry (crc16_table s) (Z.lxor (Z.shiftr crc 8) b);
      Some (u16 (Z.lxor (Z.shiftl crc 8) t))) bytes 0xFFFF).

Definition calculate_crc32 (s : CrcState) (data : option (list Z)) : option Z :=
  with_bytes data (fun bytes =>
    crc ← crc_loop (fun crc b =>
      t ← entry (crc32_table s) (Z.lxor (Z.land crc 0xFF) b);
      Some (Z.lxor (Z.shiftr crc 8) t)) bytes (initial_value s);
    Some (Z.lxor crc (final_xor s))).

Definition calculate_crc64 (s : CrcState) (data : option (list Z)) : option Z :=
  with_bytes data (fun bytes =>
    crc_loop (fun crc b =>
      t ← entry (crc64_table s) (Z.lxor (Z.land crc 0xFF) b);
      Some (Z.lxor (Z.shiftr crc 8) t)) bytes 0xFFFFFFFFFFFFFFFF).

(** ** Bit-serial reference *)

(** One byte fed bit by bit, least significant bit first. *)
Definition feed_right (poly crc b : Z) : Z := Nat.iter 8 (step_right poly) (Z.lxor crc b).
(** Most significant bit first. *)
Definition feed8 (crc b : Z) : Z := Nat.iter 8 step8 (Z.lxor crc b).
Definition feed16 (crc b : Z) : Z := Nat.iter 8 step16 (Z.lxor crc (Z.shiftl b 8)).

Definition tables_ready (s : CrcState) : Prop := s = init_crc_tables s.
Definition is_byte (b : Z) : Prop := is_u8 b.

Lemma entry_table f i : is_u8 i -> entry (table f) i = Some (f i).
Proof.
  unfold is_u8, entry, table. intros Hi. rewrite (proj2 (Z.ltb_ge _ _)) by lia.
  rewrite list_lookup_fmap, lookup_seq_lt by lia. simpl. f_equal. f_equal. lia.
Qed.

(** Equations between exclusive ors. *)
Ltac xor_solve :=
  apply Z.bits_inj'; intros ? ?; rewrite ?Z.lxor_spec, ?Z.bits_0;
  repeat match goal with |- context [Z.testbit ?x ?i] => destruct (Z.testbit x i) end; done.

Lemma land_one_bit x k : 0 <= k -> (Z.land x (2 ^ k) =? 0) = negb (Z.testbit x k).
Proof.
  intros Hk. destruct (Z.testbit x k) eqn:E; simpl.
  - apply Z.eqb_neq. intros H. apply (f_equal (fun z => Z.testbit z k)) in H.
    rewrite Z.land_spec, Z.pow2_bits_true, Z.bits_0, E in H by done. done.
  - apply Z.eqb_eq. apply Z.bits_inj'. intros i Hi. rewrite Z.land_spec, Z.bits_0.
    destruct (decide (i = k)) as [->|]; [by rewrite E|].
    rewrite Z.pow2_bits_false by done. apply andb_false_r.
Qed.

Section reflected.
Context (poly : Z).

Lemma step_right_alt x :
  step_right poly x = Z.lxor (Z.shiftr x 1) (if Z.testbit x 0 then poly else 0).
Proof.
  unfold step_right. change 1 with (2 ^ 0) at 2. rewrite land_one_bit by done. by destruct (Z.testbit x 0).
Qed.

Lemma step_right_lxor x y :
  step_right poly (Z.lxor x y) = Z.lxor (step_right poly x) (step_right poly y).
Proof.
  rewrite !step_right_alt, Z.shiftr_lxor, Z.lxor_spec.
  destruct (Z.testbit x 0), (Z.testbit y 0); simpl; xor_solve.
Qed.
Lemma iter_step_right_lxor n x y :
  Nat.iter n (step_right poly) (Z.lxor x y) =
  Z.lxor (Nat.iter n (step_right poly) x) (Nat.iter n (step_right poly) y).
Proof. induction n as [|n IH]; simpl; [done|]. by rewrite IH, step_right_lxor. Qed.

(** A register whose low [n] bits are zero is only shifted. *)
Lemma iter_step_right_high n x :
  (forall i, 0 <= i < Z.of_nat n -> Z.testbit x i = false) ->
  Nat.iter n (step_right poly) x = Z.shiftr x (Z.of_nat n).
Proof.
  induction n as [|n IH]; intros Hx; [by rewrite Z.shiftr_0_r|].
  change (Nat.iter (S n) ?f x) with (f (Nat.iter n f x)). rewrite IH by (intros; apply Hx; lia).
  rewrite step_right_alt, Z.shiftr_spec, Hx by lia.
  rewrite Z.lxor_0_r, Z.shiftr_shiftr by lia. f_equal. lia.
Qed.

(** The table step is eight bit steps. *)
Lemma table_step_right crc b :
  is_u8 b ->
  Z.lxor (Z.shiftr crc 8) (Nat.iter 8 (step_right poly) (Z.lxor (Z.land crc 0xFF) b)) =
  feed_right poly crc b.
Proof.
  intros Hb. unfold feed_right.
  assert (Hsplit : Z.lxor crc b =
    Z.lxor (Z.shiftl (Z.shiftr crc 8) 8) (Z.lxor (Z.land crc 0xFF) b)).
  { rewrite <- Z.lxor_assoc. f_equal. apply Z.bits_inj'. intros i Hi.
    change 0xFF with (Z.ones 8). rewrite Z.lxor_spec, Z.land_spec, Z.shiftl_spec by lia.
    destruct (decide (i < 8)).
    - rewrite (Z.testbit_neg_r _ (i - 8)), Z.ones_spec_low by lia. by rewrite andb_true_r.
    - rewrite Z.shiftr_spec, Z.ones_spec_high, andb_false_r, xorb_false_r by lia. f_equal. lia. }
  assert (Hhigh : Nat.iter 8 (step_right poly) (Z.shiftl (Z.shiftr crc 8) 8) = Z.shiftr crc 8).
  { rewrite (iter_step_right_high 8 (Z.shiftl (Z.shiftr crc 8) 8)).
    - change (Z.of_nat 8) with 8. rewrite Z.shiftr_shiftl_l, Z.sub_diag by lia. apply Z.shiftl_0_r.
    - intros i Hi. rewrite Z.shiftl_spec_low by lia. done. }
  by rewrite Hsplit, (iter_step_right_lxor 8 (Z.shiftl _ _)), Hhigh.
Qed.
End reflected.

Lemma land_ff_u8 x : is_u8 (Z.land x 0xFF).
Proof. change 0xFF with (Z.ones 8). rewrite Z.land_ones by lia. apply u8_range. Qed.
Lemma lxor_u8 a b : is_u8 a -> is_u8 b -> is_u8 (Z.lxor a b).
Proof.
  unfold is_u8. intros Ha Hb. assert (0 <= Z.lxor a b) by (apply Z.lxor_nonneg; lia).
  split; [done|]. destruct (decide (Z.lxor a b = 0)) as [->|Hne]; [lia|].
  apply Z.log2_lt_pow2; [lia|]. eapply Z.le_lt_trans; [apply Z.log2_lxor; lia|].
  apply Z.max_lub_lt; [destruct (decide (a = 0)) as [->|]|destruct (decide (b = 0)) as [->|]];
    simpl; try lia; apply Z.log2_lt_pow2; lia.
Qed.

(** A byte loop whose step is always defined is a fold. *)
Lemma crc_loop_fold (f : Z -> Z -> option Z) (g : Z -> Z -> Z) (P : Z -> Prop) bytes init :
  P init -> Forall is_byte bytes ->
  (forall crc b, P crc -> is_byte b -> f crc b = Some (g crc b) /\ P (g crc b)) ->
  crc_loop f bytes init = Some (foldl g init bytes).
Proof.
  intros Hi Hb Hf. unfold crc_loop. revert init Hi. induction Hb as [|b bytes Hb _ IH]; intros init Hi; [done|].
  simpl. destruct (Hf init b Hi Hb) as [-> Hp]. by apply IH.
Qed.

(** ** The left-shifting CRC-16 *)

Lemma step16_alt x :
  step16 x = Z.lxor (u16 (Z.shiftl x 1)) (if Z.testbit x 15 then 0x1021 else 0).
Proof.
  unfold step16. change 0x8000 with (2 ^ 15). rewrite land_one_bit by done.
  apply Z.bits_inj'. intros i Hi. unfold u16.
  destruct (decide (i < 16)).
  - rewrite Z.mod_pow2_bits_low, !Z.lxor_spec, Z.mod_pow2_bits_low by lia. by destruct (Z.testbit x 15).
  - rewrite Z.mod_pow2_bits_high, Z.lxor_spec, Z.mod_pow2_bits_high by lia.
    destruct (Z.testbit x 15); simpl; [|by rewrite Z.bits_0].
    change 0x1021 with (u16 0x1021). unfold u16. by rewrite Z.mod_pow2_bits_high by lia.
Qed.
Lemma u16_lxor x y : u16 (Z.lxor x y) = Z.lxor (u16 x) (u16 y).
Proof.
  apply Z.bits_inj'. intros i Hi. unfold u16. rewrite Z.lxor_spec. destruct (decide (i < 16)).
  - by rewrite !Z.mod_pow2_bits_low, Z.lxor_spec by lia.
  - by rewrite !Z.mod_pow2_bits_high by lia.
Qed.
Lemma step16_lxor x y : step16 (Z.lxor x y) = Z.lxor (step16 x) (step16 y).
Proof.
  rewrite !step16_alt, Z.shiftl_lxor, u16_lxor, Z.lxor_spec.
  destruct (Z.testbit x 15), (Z.testbit y 15); simpl; xor_solve.
Qed.
Lemma iter_step16_lxor n x y :
  Nat.iter n step16 (Z.lxor x y) = Z.lxor (Nat.iter n step16 x) (Nat.iter n step16 y).
Proof. induction n as [|n IH]; simpl; [done|]. by rewrite IH, step16_lxor. Qed.

Lemma iter_step16_range n x : is_u16 (Nat.iter (S n) step16 x).
Proof. apply u16_range. Qed.

(** A register below 256 is only shifted: all 256 values. *)
Lemma iter_step16_low x : is_u8 x -> Nat.iter 8 step16 x = Z.shiftl x 8.
Proof.
  intros Hx. assert (Hall : forallb (fun i => Nat.iter 8 step16 (Z.of_nat i) =? Z.shiftl (Z.of_nat i) 8)
    (seq 0 256) = true) by (vm_compute; reflexivity).
  rewrite forallb_forall in Hall. specialize (Hall (Z.to_nat x)).
  unfold is_u8 in Hx. rewrite Z2Nat.id in Hall by lia. apply Z.eqb_eq, Hall, in_seq. lia.
Qed.

Lemma table_step16 crc b :
  is_u16 crc -> is_u8 b ->
  u16 (Z.lxor (Z.shiftl crc 8) (Nat.iter 8 step16 (u16 (Z.shiftl (Z.lxor (Z.shiftr crc 8) b) 8)))) =
  feed16 crc b.
Proof.
  intros Hc Hb. unfold feed16.
  assert (Hhi : is_u8 (Z.shiftr crc 8)).
  { unfold is_u8, is_u16 in *. rewrite Z.shiftr_div_pow2 by lia.
    split; [apply Z.div_pos; lia|apply Z.div_lt_upper_bound; lia]. }
  assert (Hi : u16 (Z.shiftl (Z.lxor (Z.shiftr crc 8) b) 8) = Z.shiftl (Z.lxor (Z.shiftr crc 8) b) 8).
  { apply u16_small. assert (H := lxor_u8 _ _ Hhi Hb). unfold is_u8, is_u16 in *.
    rewrite Z.shiftl_mul_pow2 by lia. lia. }
  assert (Hsplit : Z.lxor crc (Z.shiftl b 8) =
    Z.lxor (Z.shiftl (Z.lxor (Z.shiftr crc 8) b) 8) (Z.land crc 0xFF)).
  { rewrite Z.shiftl_lxor. change 0xFF with (Z.ones 8). apply Z.bits_inj'. intros i Hi0.
    rewrite !Z.lxor_spec, Z.land_spec, !Z.shiftl_spec by lia. destruct (decide (i < 8)).
    - rewrite !(Z.testbit_neg_r _ (i - 8)), Z.ones_spec_low by lia.
      by destruct (Z.testbit crc i).
    - rewrite Z.shiftr_spec, Z.ones_spec_high, andb_false_r, xorb_false_r by lia.
      replace (i - 8 + 8) with i by lia. done. }
  rewrite Hi, Hsplit, (iter_step16_lxor 8 (Z.shiftl _ _) (Z.land _ _)), (iter_step16_low (Z.land _ _))
    by apply land_ff_u8.
  assert (Hlow : u16 (Z.shiftl crc 8) = Z.shiftl (Z.land crc 0xFF) 8).
  { apply Z.bits_inj'. intros i Hi0. unfold u16. change 0xFF with (Z.ones 8).
    rewrite (Z.shiftl_spec (Z.land _ _)) by lia. destruct (decide (i < 16)).
    - rewrite Z.mod_pow2_bits_low, Z.shiftl_spec, Z.land_spec by lia.
      destruct (decide (i < 8)); [by rewrite !(Z.testbit_neg_r _ (i - 8)) by lia|].
      rewrite Z.ones_spec_low by lia. by rewrite andb_true_r.
    - rewrite Z.mod_pow2_bits_high, Z.land_spec, Z.ones_spec_high by lia. by rewrite andb_false_r. }
  rewrite u16_lxor, Hlow, (u16_small _ (iter_step16_range 7 _)). apply Z.lxor_comm.
Qed.

(** The register never outgrows the polynomial. *)
Lemma lxor_below k a b : 0 <= k -> 0 <= a < 2 ^ k -> 0 <= b < 2 ^ k -> 0 <= Z.lxor a b < 2 ^ k.
Proof.
  intros Hk Ha Hb. assert (0 <= Z.lxor a b) by (apply Z.lxor_nonneg; lia). split; [done|].
  rewrite <- (Z.mod_small a (2 ^ k)), <- (Z.mod_small b (2 ^ k)) by done.
  assert (Hm : Z.lxor (a mod 2 ^ k) (b mod 2 ^ k) = Z.lxor (a mod 2 ^ k) (b mod 2 ^ k) mod 2 ^ k).
  { apply Z.bits_inj'. intros i Hi. destruct (decide (i < k)).
    - by rewrite Z.mod_pow2_bits_low by lia.
    - by rewrite Z.mod_pow2_bits_high, Z.lxor_spec, !Z.mod_pow2_bits_high by lia. }
  rewrite Hm. apply Z.mod_pos_bound. lia.
Qed.

Lemma step_right_below poly k x :
  0 <= k -> 0 <= poly < 2 ^ k -> 0 <= x < 2 ^ (k + 1) -> 0 <= step_right poly x < 2 ^ k.
Proof.
  intros Hk Hp Hx. unfold step_right. apply lxor_below; [done| |by destruct (_ =? 0); lia].
  rewrite Z.shiftr_div_pow2 by lia. rewrite Z.pow_add_r in Hx by lia. change (2 ^ 1) with 2 in *.
  split; [apply Z.div_pos; lia|apply Z.div_lt_upper_bound; lia].
Qed.

(** Eight steps take a register of up to [k + 8] bits below [2^k]. *)
Lemma iter_step_right_below poly k n x :
  0 <= k -> 0 <= poly < 2 ^ k -> 0 <= x < 2 ^ (k + Z.of_nat n) ->
  0 <= Nat.iter n (step_right poly) x < 2 ^ k.
Proof.
  intros Hk Hp. revert x. induction n as [|n IH]; intros x Hx; [by rewrite Z.add_0_r in Hx|].
  rewrite Nat.iter_succ_r. apply IH. apply step_right_below; [lia| |].
  - split; [lia|]. eapply Z.lt_le_trans; [apply Hp|]. apply Z.pow_le_mono_r; lia.
  - replace (k + Z.of_nat n + 1) with (k + Z.of_nat (S n)) by lia. done.
Qed.

Lemma with_bytes_some bytes k : bytes ≠ [] -> with_bytes (Some bytes) k = k bytes.
Proof. by destruct bytes. Qed.

#[local] Arguments Nat.iter : simpl never.

(** ** Properties *)

(** C38. After initialisation and any later choice of polynomial, the four
    table-driven routines compute, for every non-empty byte string, exactly
    the bit-serial CRCs their tables are made of: CRC-8 (0x07) and CRC-16
    (0x1021) most significant bit first, CRC-32 (the configured polynomial,
    initial value and final exclusive-or) and CRC-64 least significant bit
    first; no table access is out of range. *)
Theorem crc_tables_match_bitwise poly s m :
  crc_initialized s = false ->
  wp (crc_init;; crc_set_polynomial poly) (fun _ s' m' =>
    primask m' = primask m /\
    forall bytes, bytes ≠ [] -> Forall is_byte bytes ->
      calculate_crc8 s' (Some bytes) = Some (foldl feed8 0 bytes) /\
      calculate_crc16 s' (Some bytes) = Some (foldl feed16 0xFFFF bytes) /\
      calculate_crc32 s' (Some bytes) =
        Some (Z.lxor (foldl (feed_right poly) (initial_value s) bytes) (final_xor s)) /\
      calculate_crc64 s' (Some bytes) =
        Some (foldl (feed_right poly64) 0xFFFFFFFFFFFFFFFF bytes)) s m.
Proof.
  intros Hi. unfold crc_init, crc_set_polynomial, init_crit.
  destruct s as [pl iv fx cs ini t8 t16 t32 t64], m as [pm tk fr tc ti tr]; simpl in Hi; subst.
  wp_steps. split; [done|]. intros bytes Hne Hb.
  unfold calculate_crc8, calculate_crc16, calculate_crc32, calculate_crc64.
  rewrite !with_bytes_some by done.
  cbn [crc8_table crc16_table crc32_table crc64_table initial_value final_xor].
  split_and!.
  - apply (crc_loop_fold _ feed8 is_u8); [unfold is_u8; lia|assumption|].
    intros crc x Hc Hx. rewrite entry_table by (by apply lxor_u8). split; [unfold feed8; reflexivity|].
    unfold feed8. apply (u8_range (Z.lxor _ _)).
  - apply (crc_loop_fold _ feed16 is_u16); [unfold is_u16; lia|assumption|]. intros crc x Hc Hx.
    assert (is_u8 (Z.shiftr crc 8)).
    { unfold is_u8, is_u16 in *. rewrite Z.shiftr_div_pow2 by lia.
      split; [apply Z.div_pos; lia|apply Z.div_lt_upper_bound; lia]. }
    rewrite entry_table by (by apply lxor_u8). cbn [mbind option_bind].
    rewrite table_step16 by assumption. split; [reflexivity|]. apply (iter_step16_range 7).
  - rewrite (crc_loop_fold _ (feed_right poly) (fun _ => True)); [reflexivity|exact I|assumption|].
    intros crc x _ Hx. rewrite entry_table by (apply lxor_u8; [apply land_ff_u8|done]).
    cbn [mbind option_bind]. rewrite table_step_right by assumption. exact (conj eq_refl I).
  - rewrite (crc_loop_fold _ (feed_right poly64) (fun _ => True)); [reflexivity|exact I|assumption|].
    intros crc x _ Hx. rewrite entry_table by (apply lxor_u8; [apply land_ff_u8|done]).
    cbn [mbind option_bind]. rewrite table_step_right by assumption. exact (conj eq_refl I).
Qed.

(** Witness of [crc_tables_match_bitwise]. *)
Lemma crc_tables_match_bitwise_witness :
  wp (crc_init;; crc_set_polynomial 0xEDB88320) (fun _ s' m' =>
    primask m' = false /\
    forall bytes, bytes ≠ [] -> Forall is_byte bytes ->
      calculate_crc8 s' (Some bytes) = Some (foldl feed8 0 bytes) /\
      calculate_crc16 s' (Some bytes) = Some (foldl feed16 0xFFFF bytes) /\
      calculate_crc32 s' (Some bytes) =
        Some (Z.lxor (foldl (feed_right 0xEDB88320) 0xFFFFFFFF bytes) 0xFFFFFFFF) /\
      calculate_crc64 s' (Some bytes) =
        Some (foldl (feed_right poly64) 0xFFFFFFFFFFFFFFFF bytes)) crc_state_boot boot.
Proof. exact (crc_tables_match_bitwise 0xEDB88320 crc_state_boot boot eq_refl). Defined.

(**  With the default polynomial the CRC-32 has only 27 significant bits:
    0x04C11DB7 is the unreflected form used in a reflected (right-shifting)
    register, its highest set bit is 26, and after the first byte the register
    never reaches 2^27 again; with the default final exclusive-or the top five
    bits of every checksum are therefore set. *)
Theorem crc32_default_loses_bits s bytes m :
  crc_initialized s = false -> polynomial s = 0x04C11DB7 -> is_u32 (initial_value s) ->
  bytes ≠ [] -> Forall is_byte bytes ->
  wp crc_init (fun _ s' _ => exists crc,
    calculate_crc32 s' (Some bytes) = Some (Z.lxor crc (final_xor s)) /\ 0 <= crc < 2 ^ 27) s m.
Proof.
  intros Hi Hp Hiv Hne Hb. unfold crc_init, init_crit.
  destruct s as [pl iv fx cs ini t8 t16 t32 t64], m as [pm tk fr tc ti tr]; simpl in Hi, Hp, Hiv; subst.
  wp_steps. unfold calculate_crc32. rewrite with_bytes_some by done. cbn [crc32_table initial_value final_xor polynomial].
  rewrite (crc_loop_fold _ (feed_right 0x04C11DB7) (fun _ => True)); [|exact I|assumption|].
  - cbn [mbind option_bind]. eexists. split; [reflexivity|].
    assert (Hfeed : forall n crc x, 0 <= n <= 35 -> 0 <= crc < 2 ^ n -> is_byte x ->
      0 <= feed_right 0x04C11DB7 crc x < 2 ^ 27).
    { intros n crc x Hn Hc Hx. unfold feed_right.
      apply (iter_step_right_below _ 27); [lia|lia|]. apply lxor_below; [lia| |unfold is_byte, is_u8 in Hx; lia].
      split; [lia|]. eapply Z.lt_le_trans; [apply Hc|]. apply Z.pow_le_mono_r; lia. }
    destruct Hb as [|b bs Hb1 Hbs]; [done|]. cbn [foldl].
    assert (H0 := Hfeed 32 iv b ltac:(lia) Hiv Hb1). revert H0. clear Hne Hb1.
    generalize (feed_right 0x04C11DB7 iv b) as crc. induction Hbs as [|x bs Hx _ IH]; intros crc Hc; [done|].
    cbn [foldl]. apply IH. apply (Hfeed 27); [lia|done|done].
  - intros crc x _ Hx. rewrite entry_table by (apply lxor_u8; [apply land_ff_u8|done]).
    cbn [mbind option_bind]. rewrite table_step_right by assumption. exact (conj eq_refl I).
Qed.

(** Witness of [crc32_default_loses_bits]: the standard check string; the
    result is not the CRC-32 check value 0xCBF43926. *)
Lemma crc32_default_loses_bits_witness :
  wp crc_init (fun _ s' _ => exists crc,
    calculate_crc32 s' (Some [0x31; 0x32; 0x33; 0x34; 0x35; 0x36; 0x37; 0x38; 0x39]) =
      Some (Z.lxor crc 0xFFFFFFFF) /\ 0 <= crc < 2 ^ 27) crc_state_boot boot.
Proof.
  apply (crc32_default_loses_bits crc_state_boot [0x31; 0x32; 0x33; 0x34; 0x35; 0x36; 0x37; 0x38; 0x39] boot).
  - reflexivity.
  - reflexivity.
  - unfold is_u32. simpl. lia.
  - done.
  - repeat constructor; unfold is_byte, is_u8; lia.
Defined.

(** With the reflected polynomial the same code computes the standard check
    value. *)
Lemma crc32_check_value :
  match (crc_init;; crc_set_polynomial 0xEDB88320) crc_state_boot boot with
  | Some (_, s, _) =>
    calculate_crc32 s (Some [0x31; 0x32; 0x33; 0x34; 0x35; 0x36; 0x37; 0x38; 0x39]) = Some 0xCBF43926
  | None => False
  end.
Proof. vm_compute. reflexivity. Qed.
