(* ===== verification/Heap.v ===== *)
(** * Heap and block pools

    [memory/memory_manager.c]: a heap of blocks with header and footer, kept in a
    doubly linked list in address order, allocated by best fit with splitting and
    freed with coalescing; and up to 16 pools of fixed-size blocks tried first.

    Addresses are integers, 0 is NULL.  [headers] is the memory seen as [MemBlock]
    structures: the headers of the blocks of the list and of the pool blocks handed
    out so far.  A header whose block is merged away becomes plain memory, which
    the next owner may overwrite; reading it as a header (freeing a pointer that was
    already merged away) is a fault.  [footers] holds the guard words; memory that was
    never written as a guard holds [junk], an arbitrary function; user bytes are not
    modelled.  Writing a header outside the heap, or over another header, is a fault,
    like any other undefined behaviour.  Structure sizes are those of an LP64 target. *)

From S2P Require Import Prelude Tables Machine.

Definition GUARD_PATTERN : Z := 0xDEADBEEF.
Definition SIZEOF_MEMBLOCK : Z := 48.
Definition SIZEOF_FOOTER : Z := 4.
Definition BLOCK_OVERHEAD : Z := SIZEOF_MEMBLOCK + SIZEOF_FOOTER.
Definition MIN_BLOCK_SIZE : Z := SIZEOF_MEMBLOCK + SIZEOF_FOOTER.
Definition MAX_POOLS : nat := 16.
Definition SIZEOF_POINTER : Z := 8.

Definition MEM_BLOCK_FREE : Z := 0.
Definition MEM_BLOCK_USED : Z := 1.
Definition MEM_BLOCK_POOL : Z := 2.

Record MemBlock := mkBlock {
  mb_size : Z; mb_flags : Z; mb_file : Z; mb_line : Z; mb_next : Z; mb_prev : Z; guard_front : Z }.
#[export] Instance eta_MemBlock : Eta MemBlock := fun b =>
  mkBlock (mb_size b) (mb_flags b) (mb_file b) (mb_line b) (mb_next b) (mb_prev b) (guard_front b).

Record MemoryPool := mkPool {
  pool_memory : Z; block_size : Z; block_count : Z; free_blocks : nat;
  free_list : list Z; block_used : list bool }.
#[export] Instance eta_MemoryPool : Eta MemoryPool := fun p =>
  mkPool (pool_memory p) (block_size p) (block_count p) (free_blocks p) (free_list p) (block_used p).

Record MemConfig := mkMemConfig {
  heap_size : Z;
  pool_sizes : option (list Z);
  pool_counts : option (list Z);
  cfg_pool_count : nat;
  enable_guards : bool;
  enable_tracking : bool;
  enable_stats : bool }.
Record MemStats := mkMemStats {
  total_allocated : Z; total_freed : Z; current_usage : Z; peak_usage : Z;
  allocation_count : Z; free_count : Z; pool_allocations : Z; heap_allocations : Z;
  fragmentation : Z }.
#[export] Instance eta_MemStats : Eta MemStats := fun s =>
  mkMemStats (total_allocated s) (total_freed s) (current_usage s) (peak_usage s)
    (allocation_count s) (free_count s) (pool_allocations s) (heap_allocations s) (fragmentation s).
Definition stats_zero : MemStats := mkMemStats 0 0 0 0 0 0 0 0 0.
Definition config_zero : MemConfig := mkMemConfig 0 None None 0 false false false.

Record Heap := mkHeap {
  config : MemConfig;
  heap_memory : Z;
  first_block : Z;
  last_block : Z;
  pools : list MemoryPool;          (* pools[0 .. pool_count - 1] *)
  stats : MemStats;
  mm_initialized : bool;
  headers : gmap Z MemBlock;        (* memory *)
  footers : gmap Z Z;
  mutex : bool }.
#[export] Instance eta_Heap : Eta Heap := fun h =>
  mkHeap (config h) (heap_memory h) (first_block h) (last_block h) (pools h) (stats h)
    (mm_initialized h) (headers h) (footers h) (mutex h).

(** [diagnostic/os/critical.c]: locking a mutex this thread holds deadlocks. *)
Definition enter_critical : M Heap unit :=
  h ← get; if mutex h then fault else modify (fun h => h <| mutex := true |>).
Definition exit_critical : M Heap unit :=
  h ← get; if mutex h then modify (fun h => h <| mutex := false |>) else fault.

(** ** Headers *)

(** [block->field] for a block whose header is in memory. *)
Definition header (a : Z) : M Heap MemBlock :=
  h ← get; match headers h !! a with Some b => mret b | None => fault end.
Definition set_header (a : Z) (f : MemBlock -> MemBlock) : M Heap unit :=
  b ← header a; modify (fun h => h <| headers ::= <[a := f b]> |>).

(** No other header shares a byte with one at [a]. *)
Definition clear_of (a : Z) (hs : gmap Z MemBlock) : bool :=
  bool_decide (map_Forall (fun k _ => k = a \/ k + SIZEOF_MEMBLOCK <= a \/ a + SIZEOF_MEMBLOCK <= k) hs).
Definition in_heap (a n : Z) (h : Heap) : bool :=
  (heap_memory h <=? a) && (a + n <=? heap_memory h + heap_size (config h)).
(** A header written in the middle of the heap. *)
Definition new_header (a : Z) (b : MemBlock) : M Heap unit :=
  h ← get;
  if in_heap a SIZEOF_MEMBLOCK h && clear_of a (headers h)
  then modify (fun h => h <| headers ::= <[a := b]> |>) else fault.

Definition is_used (b : MemBlock) : bool := negb (Z.land (mb_flags b) MEM_BLOCK_USED =? 0).
Definition is_pool (b : MemBlock) : bool := negb (Z.land (mb_flags b) MEM_BLOCK_POOL =? 0).

Section memory.
(** What a word of memory holds that was never written as a guard. *)
Context (junk : Z -> Z).

Definition is_valid_block (a : Z) (b : MemBlock) (h : Heap) : bool :=
  negb (a =? 0) && (heap_memory h <=? a) && (a <? heap_memory h + heap_size (config h))
  && negb (mb_size b =? 0) && (mb_size b <=? u64 (heap_size (config h) - BLOCK_OVERHEAD)).

Definition footer_addr (a : Z) (b : MemBlock) : Z := a + SIZEOF_MEMBLOCK + mb_size b.

Definition setup_block_guards (a : Z) : M Heap unit :=
  h ← get;
  if negb (enable_guards (config h)) || (a =? 0) then mret tt
  else
    set_header a (fun b => b <| guard_front := GUARD_PATTERN |>);;
    b ← header a;
    modify (fun h => h <| footers ::= <[footer_addr a b := GUARD_PATTERN]> |>).

Definition check_block_guards (a : Z) (b : MemBlock) (h : Heap) : bool :=
  if negb (enable_guards (config h)) || (a =? 0) then false
  else if negb (guard_front b =? GUARD_PATTERN) then false
  else default (junk (footer_addr a b)) (footers h !! footer_addr a b) =? GUARD_PATTERN.

(** ** Pools *)

Definition find_suitable_pool (sz : Z) (h : Heap) : option nat :=
  find_idx (fun p => (sz <=? block_size p) && (0 <? free_blocks p)%nat) (length (pools h)) (pools h).

(** The index part of [allocate_from_pool]: the block taken and the pool. *)
Definition pool_take (p : MemoryPool) : option (Z * MemoryPool) :=
  match free_blocks p with
  | O => None
  | S n => i ← free_list p !! n;
           Some (i, p <| free_blocks := n |> <| block_used ::= <[Z.to_nat i := true]> |>)
  end.
Definition pool_block (p : MemoryPool) (i : Z) : Z := pool_memory p + i * block_size p.

Definition put_pool (k : nat) (p : MemoryPool) : M Heap unit :=
  modify (fun h => h <| pools ::= <[k := p]> |>).

Definition allocate_from_pool (k : nat) (file line : Z) : M Heap Z :=
  h ← get;
  p ← match pools h !! k with Some p => mret p | None => fault end;
  if (free_blocks p =? 0)%nat then mret 0
  else
    match pool_take p with
    | None => fault
    | Some (i, p') =>
        put_pool k p';;
        let a := pool_block p i in
        let old := default (mkBlock 0 0 0 0 0 0 0) (headers h !! a) in
        modify (fun h => h <| headers ::= <[a := old
          <| mb_size := u32 (block_size p - BLOCK_OVERHEAD) |>
          <| mb_flags := Z.lor MEM_BLOCK_POOL MEM_BLOCK_USED |>
          <| mb_file := file |> <| mb_line := line |>]> |>);;
        setup_block_guards a;;
        mret (a + SIZEOF_MEMBLOCK)
    end.

(** [(block_ptr - pool_memory) / block_size], a signed division, cut to 32 bits. *)
Definition pool_index (p : MemoryPool) (ptr : Z) : Z :=
  u32 (Z.quot (ptr - SIZEOF_MEMBLOCK - pool_memory p) (block_size p)).

(** [None]: division by zero; [Some None]: [false]. *)
Definition free_to_pool (p : MemoryPool) (ptr : Z) : option (option MemoryPool) :=
  if block_size p =? 0 then None
  else
    let i := pool_index p ptr in
    if block_count p <=? i then Some None
    else if negb (default false (block_used p !! Z.to_nat i)) then Some None
    else Some (Some (p <| block_used ::= <[Z.to_nat i := false]> |>
                       <| free_list ::= <[free_blocks p := i]> |>
                       <| free_blocks ::= S |>)).

(** [for (i = 0; i < pool_count; i++) if (free_to_pool(&pools[i], ptr)) ...] *)
Fixpoint free_to_pools (ps : list MemoryPool) (ptr : Z) : option (option (list MemoryPool)) :=
  match ps with
  | [] => Some None
  | p :: ps => r ← free_to_pool p ptr;
               match r with
               | Some p' => Some (Some (p' :: ps))
               | None => r ← free_to_pools ps ptr;
                         Some (match r with Some ps' => Some (p :: ps') | None => None end)
               end
  end.

(** ** Heap blocks *)

(** [for (block = first_block; block != NULL; block = block->next)] with the
    best candidate so far; the fuel is the number of headers in memory. *)
Fixpoint best_fit_loop (fuel : nat) (sz a best best_size : Z) (hs : gmap Z MemBlock) : option Z :=
  if a =? 0 then Some best
  else
    match fuel, hs !! a with
    | S fuel, Some b =>
        if negb (is_used b) && (sz <=? mb_size b) && (mb_size b <? best_size) then
          if mb_size b =? sz then Some a
          else best_fit_loop fuel sz (mb_next b) a (mb_size b) hs
        else best_fit_loop fuel sz (mb_next b) best best_size hs
    | _, _ => None
    end.
Definition list_fuel (h : Heap) : nat := size (headers h).
Definition find_best_fit (sz : Z) : M Heap Z :=
  h ← get;
  match best_fit_loop (list_fuel h) sz (first_block h) 0 UINT32_MAX (headers h) with
  | Some a => mret a | None => fault end.

Definition split_block (a sz : Z) : M Heap unit :=
  b ← header a;
  let remaining := u32 (mb_size b - sz - BLOCK_OVERHEAD) in
  if remaining <? MIN_BLOCK_SIZE then mret tt
  else
    let new_block := a + SIZEOF_MEMBLOCK + sz + SIZEOF_FOOTER in
    new_header new_block (mkBlock (u32 (remaining - BLOCK_OVERHEAD)) MEM_BLOCK_FREE 0 0
                            (mb_next b) a 0);;
    b ← header a;
    (if negb (mb_next b =? 0) then set_header (mb_next b) (fun n => n <| mb_prev := new_block |>)
     else modify (fun h => h <| last_block := new_block |>));;
    set_header a (fun b => b <| mb_next := new_block |> <| mb_size := sz |>).

Definition drop_header (a : Z) : M Heap unit := modify (fun h => h <| headers ::= delete a |>).

(** [block] takes over [next], the block behind it. *)
Definition absorb (a next : Z) : M Heap unit :=
  n ← header next;
  set_header a (fun b => b <| mb_size := u32 (mb_size b + mb_size n + BLOCK_OVERHEAD) |>
                           <| mb_next := mb_next n |>);;
  drop_header next;;
  if negb (mb_next n =? 0) then set_header (mb_next n) (fun n => n <| mb_prev := a |>)
  else modify (fun h => h <| last_block := a |>).

Definition on_stats (f : MemStats -> MemStats) : M Heap unit :=
  h ← get; if enable_stats (config h) then modify (fun h => h <| stats ::= f |>) else mret tt.
Definition count_alloc (sz : Z) (s : MemStats) : MemStats :=
  let s := s <| total_allocated ::= fun n => u32 (n + sz) |>
             <| current_usage ::= fun n => u32 (n + sz) |>
             <| allocation_count ::= fun n => u32 (n + 1) |> in
  s <| peak_usage := if peak_usage s <? current_usage s then current_usage s else peak_usage s |>.
Definition count_free (sz : Z) (s : MemStats) : MemStats :=
  s <| total_freed ::= fun n => u32 (n + sz) |> <| current_usage ::= fun n => u32 (n - sz) |>
    <| free_count ::= fun n => u32 (n + 1) |>.

(** [(size + sizeof(void* ) - 1) & ALIGNMENT_MASK], cut to 32 bits. *)
Definition align_size (sz : Z) : Z := u32 (Z.land (sz + SIZEOF_POINTER - 1) (Z.lnot (SIZEOF_POINTER - 1))).

Definition heap_alloc (size0 file line : Z) : M Heap Z :=
  let sz := align_size size0 in
  a ← find_best_fit sz;
  if a =? 0 then exit_critical;; mret 0
  else
    split_block a sz;;
    set_header a (fun b => b <| mb_flags := MEM_BLOCK_USED |> <| mb_file := file |> <| mb_line := line |>);;
    setup_block_guards a;;
    on_stats (fun s => (count_alloc sz s) <| heap_allocations ::= fun n => u32 (n + 1) |>);;
    exit_critical;;
    mret (a + SIZEOF_MEMBLOCK).

Definition Memory_Alloc (sz file line : Z) : M Heap Z :=
  h ← get;
  if negb (mm_initialized h) || (sz =? 0) then mret 0
  else
    enter_critical;;
    ptr ← (match find_suitable_pool (u32 (sz + BLOCK_OVERHEAD)) h with
           | Some k => allocate_from_pool k file line
           | None => mret 0
           end);
    if negb (ptr =? 0) then
      on_stats (fun s => (count_alloc sz s) <| pool_allocations ::= fun n => u32 (n + 1) |>);;
      exit_critical;;
      mret ptr
    else heap_alloc sz file line.

(** Merging with the neighbours in [Memory_Free]. *)
Definition coalesce (a : Z) : M Heap unit :=
  b ← header a;
  (if negb (mb_next b =? 0) then
     n ← header (mb_next b);
     if negb (is_used n) then absorb a (mb_next b) else mret tt
   else mret tt);;
  b ← header a;
  if negb (mb_prev b =? 0) then
    p ← header (mb_prev b);
    if negb (is_used p) then absorb (mb_prev b) a else mret tt
  else mret tt.

Definition heap_free (a : Z) : M Heap unit :=
  h ← get;
  b ← header a;
  if negb (is_valid_block a b h) || negb (is_used b) || negb (check_block_guards a b h)
  then exit_critical
  else
    on_stats (count_free (mb_size b));;
    set_header a (fun b => b <| mb_flags := MEM_BLOCK_FREE |> <| mb_file := 0 |> <| mb_line := 0 |>);;
    coalesce a;;
    exit_critical.

Definition Memory_Free (ptr : Z) : M Heap unit :=
  h ← get;
  if negb (mm_initialized h) || (ptr =? 0) then mret tt
  else
    enter_critical;;
    let a := ptr - SIZEOF_MEMBLOCK in
    b ← header a;
    match (if is_pool b then free_to_pools (pools h) ptr else Some None) with
    | Some (Some ps) =>
        modify (fun h => h <| pools := ps |>);;
        on_stats (count_free (mb_size b));;
        exit_critical
    | Some None => heap_free a
    | None => fault
    end.

Definition Memory_Calloc (count sz file line : Z) : M Heap Z :=
  if (count =? 0) || (sz =? 0) then mret 0
  else
    let total := count * sz in
    if UINT32_MAX <? total then mret 0 else Memory_Alloc total file line.

(** The word in front of the aligned pointer receives the raw pointer. *)
Definition Memory_AllocAligned (sz alignment file line : Z) : M Heap Z :=
  h ← get;
  if negb (mm_initialized h) || (sz =? 0) || (alignment =? 0) then mret 0
  else if negb (Z.land alignment (alignment - 1) =? 0) then mret 0
  else
    raw ← Memory_Alloc (u32 (sz + alignment + SIZEOF_POINTER)) file line;
    if raw =? 0 then mret 0
    else mret (Z.land (raw + SIZEOF_POINTER + alignment - 1) (u32 (Z.lnot (alignment - 1)))).

Definition Memory_Realloc (ptr sz file line : Z) : M Heap Z :=
  h ← get;
  if negb (mm_initialized h) then mret 0
  else if ptr =? 0 then Memory_Alloc sz file line
  else if sz =? 0 then Memory_Free ptr;; mret 0
  else
    enter_critical;;
    let a := ptr - SIZEOF_MEMBLOCK in
    b ← header a;
    if is_pool b then
      exit_critical;;
      new_ptr ← Memory_Alloc sz file line;
      (if negb (new_ptr =? 0) then Memory_Free ptr else mret tt);;
      mret new_ptr
    else if negb (is_valid_block a b h) || negb (check_block_guards a b h) then
      exit_critical;; mret 0
    else
      let sz := align_size sz in
      if sz <=? mb_size b then
        (if sz <? mb_size b then split_block a sz else mret tt);;
        exit_critical;;
        mret ptr
      else
        fits ← (if negb (mb_next b =? 0) then
                  n ← header (mb_next b);
                  mret (negb (is_used n) && (sz <=? u32 (mb_size b + mb_size n) + BLOCK_OVERHEAD))
                else mret false);
        if fits : bool then
          absorb a (mb_next b);;
          split_block a sz;;
          exit_critical;;
          mret ptr
        else
          exit_critical;;
          new_ptr ← Memory_Alloc sz file line;
          if new_ptr =? 0 then mret 0
          else Memory_Free ptr;; mret new_ptr.

(** ** Start and inspection *)

(** One pool of [Memory_Init]: what the three [malloc] calls returned. *)
Record PoolGrant := mkGrant { g_memory : Z; g_free_list : bool; g_block_used : bool }.
Definition init_pool (sz cnt : Z) (g : PoolGrant) : option MemoryPool :=
  if g_memory g =? 0 then None
  else if negb (g_free_list g) || negb (g_block_used g) then None
  else Some (mkPool (g_memory g) sz cnt (Z.to_nat cnt) (Z.of_nat <$> seq 0 (Z.to_nat cnt))
               (replicate (Z.to_nat cnt) false)).
Fixpoint init_pools (n : nat) (sizes counts : list Z) (grants : nat -> PoolGrant) (i : nat)
  : option (list MemoryPool) :=
  match n, sizes, counts with
  | O, _, _ => Some []
  | S n, sz :: sizes, cnt :: counts =>
      ps ← init_pools n sizes counts grants (S i);
      Some (match init_pool sz cnt (grants i) with Some p => p :: ps | None => ps end)
  | _, _, _ => None
  end.

(** [heap]: what [malloc(heap_size)] returned, 0 for NULL. *)
Definition Memory_Init (cfg : option MemConfig) (heap : Z) (grants : nat -> PoolGrant) : M Heap bool :=
  match cfg with
  | None => mret false
  | Some c =>
      if heap_size c <? MIN_BLOCK_SIZE then mret false
      else
        modify (fun h => mkHeap c heap 0 0 [] stats_zero false (headers h) (footers h) (mutex h));;
        if heap =? 0 then mret false
        else
          modify (fun h => h <| first_block := heap |>
            <| headers ::= <[heap := mkBlock (u32 (heap_size c - BLOCK_OVERHEAD)) MEM_BLOCK_FREE 0 0 0 0 0]> |>
            <| last_block := heap |>);;
          (match pool_sizes c, pool_counts c with
           | Some sizes, Some counts =>
               match init_pools (Nat.min (cfg_pool_count c) MAX_POOLS) sizes counts grants 0 with
               | Some ps => modify (fun h => h <| pools := ps |>)
               | None => fault
               end
           | _, _ => mret tt
           end);;
          modify (fun h => h <| mm_initialized := true |>);;
          mret true
  end.

(** Folding over the block list, [None] when it does not end. *)
Fixpoint blocks_from (fuel : nat) (a : Z) (hs : gmap Z MemBlock) : option (list (Z * MemBlock)) :=
  if a =? 0 then Some []
  else
    match fuel, hs !! a with
    | S fuel, Some b => l ← blocks_from fuel (mb_next b) hs; Some ((a, b) :: l)
    | _, _ => None
    end.
Definition block_list : M Heap (list (Z * MemBlock)) :=
  h ← get;
  match blocks_from (list_fuel h) (first_block h) (headers h) with Some l => mret l | None => fault end.

Definition Memory_GetStats : M Heap (option MemStats) :=
  h ← get;
  if negb (mm_initialized h) then mret None
  else
    enter_critical;;
    l ← block_list;
    let free := filter (fun x => is_used x.2 = false) l in
    let total_free := foldl (fun t x => u32 (t + mb_size x.2)) 0 free in
    let largest_free := foldl (fun t x => Z.max t (mb_size x.2)) 0 free in
    let s := (stats h) <| fragmentation :=
      if 0 <? total_free then u32 (100 - u64 (largest_free * 100) / total_free) else 0 |> in
    exit_critical;;
    mret (Some s).

(** One block of [Memory_CheckIntegrity]; [None] reads a missing header. *)
Definition check_block (h : Heap) (a : Z) (b : MemBlock) : option bool :=
  if negb (is_valid_block a b h) then Some false
  else if is_used b && negb (check_block_guards a b h) then Some false
  else if negb (mb_next b =? 0) then
    n ← headers h !! mb_next b;
    Some (mb_prev n =? a)
  else Some (a =? last_block h).
Fixpoint check_blocks (fuel : nat) (h : Heap) (a total : Z) : option (bool * Z) :=
  if a =? 0 then Some (true, total)
  else
    match fuel, headers h !! a with
    | S fuel, Some b =>
        ok ← check_block h a b;
        if ok : bool then check_blocks fuel h (mb_next b) (u32 (total + mb_size b + BLOCK_OVERHEAD))
        else Some (false, total)
    | _, _ => None
    end.
Definition check_pool (h : Heap) (p : MemoryPool) : option bool :=
  ok ← foldr (fun j (r : option bool) =>
         if default false (block_used p !! j) then
           b ← headers h !! pool_block p (Z.of_nat j);
           if check_block_guards (pool_block p (Z.of_nat j)) b h then r else Some false
         else r) (Some true) (seq 0 (Z.to_nat (block_count p)));
  Some (ok && forallb (fun e => e <? block_count p) (take (free_blocks p) (free_list p))).
Fixpoint check_pools (h : Heap) (ps : list MemoryPool) : option bool :=
  match ps with
  | [] => Some true
  | p :: ps => ok ← check_pool h p; if ok : bool then check_pools h ps else Some false
  end.
Definition Memory_CheckIntegrity : M Heap bool :=
  h ← get;
  if negb (mm_initialized h) then mret false
  else
    enter_critical;;
    match check_blocks (list_fuel h) h (first_block h) 0 with
    | None => fault
    | Some (ok, total_size) =>
        let ok := ok && negb (heap_size (config h) <? total_size) in
        match (if ok then check_pools h (pools h) else Some false) with
        | None => fault
        | Some ok => exit_critical;; mret ok
        end
    end.

(** [while (block && block->next)] of [Memory_Defragment]: merges or advances. *)
Fixpoint defrag_pass (fuel : nat) (a : Z) (merged : bool) : M Heap bool :=
  if a =? 0 then mret merged
  else
    b ← header a;
    if mb_next b =? 0 then mret merged
    else
      match fuel with
      | O => fault
      | S fuel =>
          n ← header (mb_next b);
          if negb (is_used b) && negb (is_used n) then
            absorb a (mb_next b);; defrag_pass fuel a true
          else defrag_pass fuel (mb_next b) merged
      end.
Fixpoint defrag_loop (fuel : nat) : M Heap unit :=
  match fuel with
  | O => fault
  | S fuel =>
      h ← get;
      merged ← defrag_pass (list_fuel h) (first_block h) false;
      if merged : bool then defrag_loop fuel else mret tt
  end.
Definition Memory_Defragment : M Heap unit :=
  h ← get;
  if negb (mm_initialized h) then mret tt
  else
    enter_critical;;
    defrag_loop (S (list_fuel h));;
    exit_critical.

Definition used_pool_blocks (p : MemoryPool) : list Z :=
  (fun j => pool_block p (Z.of_nat j)) <$>
    filter (fun j => default false (block_used p !! j) = true) (seq 0 (Z.to_nat (block_count p))).
Fixpoint report_all (l : list Z) : M Heap unit :=
  match l with [] => mret tt | a :: l => emit "leak" [a];; report_all l end.
Definition Memory_TrackLeaks (has_callback : bool) : M Heap unit :=
  h ← get;
  if negb (mm_initialized h) || negb has_callback then mret tt
  else
    enter_critical;;
    l ← block_list;
    report_all (fst <$> filter (fun x => is_used x.2 = true) l);;
    report_all (concat (used_pool_blocks <$> pools h));;
    exit_critical.

Definition Memory_Deinit : M Heap unit :=
  h ← get;
  if negb (mm_initialized h) then mret tt
  else
    enter_critical;;
    (if enable_tracking (config h) then Memory_TrackLeaks true else mret tt);;
    modify (fun h => mkHeap config_zero 0 0 0 [] stats_zero false ∅ ∅ (mutex h));;
    exit_critical.
End memory.

(** ** The block list

    [seg hs p l n]: in memory [hs], [l] lists consecutive blocks with their
    headers, linked both ways, after block [p] and before block [n]. *)

Definition hd (l : list (Z * MemBlock)) (n : Z) : Z := match l with [] => n | x :: _ => x.1 end.
Definition lst (p : Z) (l : list (Z * MemBlock)) : Z := foldl (fun _ x => x.1) p l.

Fixpoint seg (hs : gmap Z MemBlock) (p : Z) (l : list (Z * MemBlock)) (n : Z) : Prop :=
  match l with
  | [] => True
  | x :: l => hs !! x.1 = Some x.2 /\ mb_prev x.2 = p /\ mb_next x.2 = hd l n /\ seg hs x.1 l n
  end.

(** [laid lo hi l]: the blocks lie between [lo] and [hi] in order, each with its
    header, its bytes and its footer. *)
Definition block_end (x : Z * MemBlock) : Z := x.1 + BLOCK_OVERHEAD + mb_size x.2.
Fixpoint laid (lo hi : Z) (l : list (Z * MemBlock)) : Prop :=
  match l with
  | [] => lo <= hi
  | x :: l => lo <= x.1 /\ 0 <= mb_size x.2 /\ laid (block_end x) hi l
  end.

Lemma seg_app hs p l1 l2 n :
  seg hs p (l1 ++ l2) n <-> seg hs p l1 (hd l2 n) /\ seg hs (lst p l1) l2 n.
Proof.
  revert p. induction l1 as [|x l1 IH]; intros p; simpl; [naive_solver|].
  rewrite IH. replace (hd (l1 ++ l2) n) with (hd l1 (hd l2 n)) by (by destruct l1). naive_solver.
Qed.
Lemma hd_app l1 l2 n : hd (l1 ++ l2) n = hd l1 (hd l2 n).
Proof. by destruct l1. Qed.
Lemma lst_app p l1 l2 : lst p (l1 ++ l2) = lst (lst p l1) l2.
Proof. apply foldl_app. Qed.

(** Memory outside the listed blocks does not matter. *)
Lemma seg_frame hs hs' p l n :
  (forall a, a ∈ l.*1 -> hs' !! a = hs !! a) -> seg hs p l n -> seg hs' p l n.
Proof.
  revert p. induction l as [|x l IH]; intros p Hf; simpl; [done|].
  intros (Hx & ? & ? & Hs). rewrite Hf by (simpl; set_solver). split_and!; try done.
  apply IH; [|done]. intros a Ha. apply Hf. simpl. set_solver.
Qed.
Lemma seg_lookup hs p l n x : seg hs p l n -> x ∈ l -> hs !! x.1 = Some x.2.
Proof.
  revert p. induction l as [|y l IH]; intros p; simpl; [intros _ ?%elem_of_nil; done|].
  intros (? & _ & _ & Hs) [->|Hx]%elem_of_cons; [done|]. by eapply IH.
Qed.

Lemma laid_app lo hi l1 l2 :
  laid lo hi (l1 ++ l2) <-> exists mid, laid lo mid l1 /\ laid mid hi l2.
Proof.
  revert lo. induction l1 as [|x l1 IH]; intros lo; simpl.
  - split; [intros; exists lo; split; [lia|done]|]. intros (mid & Hm & Hl). destruct l2 as [|y l2]; simpl in *; [lia|].
    destruct Hl as (? & ? & ?). split_and!; try done. lia.
  - rewrite IH. naive_solver.
Qed.
Lemma laid_le lo hi l : laid lo hi l -> lo <= hi.
Proof.
  revert lo. induction l as [|x l IH]; intros lo; simpl; [done|]. intros (? & ? & Hl).
  specialize (IH _ Hl). unfold block_end, BLOCK_OVERHEAD, SIZEOF_MEMBLOCK, SIZEOF_FOOTER in IH. lia.
Qed.
Lemma laid_in lo hi l x : laid lo hi l -> x ∈ l -> lo <= x.1 /\ block_end x <= hi /\ 0 <= mb_size x.2.
Proof.
  revert lo. induction l as [|y l IH]; intros lo; simpl; [intros _ ?%elem_of_nil; done|].
  intros (? & ? & Hl) [->|Hx]%elem_of_cons.
  - pose proof (laid_le _ _ _ Hl). by split_and!.
  - destruct (IH _ Hl Hx) as (Hle & ? & ?). split_and!; try done.
    unfold block_end, BLOCK_OVERHEAD, SIZEOF_MEMBLOCK, SIZEOF_FOOTER in Hle. lia.
Qed.
Lemma laid_weaken lo lo' hi hi' l : lo' <= lo -> hi <= hi' -> laid lo hi l -> laid lo' hi' l.
Proof.
  revert lo lo'. induction l as [|x l IH]; intros lo lo' ??; simpl; [lia|].
  intros (? & ? & ?). split_and!; [lia|done|]. by eapply IH; [|done|].
Qed.
(** Two parts of a list share no address. *)
Lemma laid_disjoint lo hi l1 l2 x y :
  laid lo hi (l1 ++ l2) -> x ∈ l1 -> y ∈ l2 -> block_end x <= y.1.
Proof.
  intros (mid & H1 & H2)%laid_app Hx Hy.
  destruct (laid_in _ _ _ _ H1 Hx) as (_ & ? & _). destruct (laid_in _ _ _ _ H2 Hy) as (? & _). lia.
Qed.
Lemma laid_addr_ne lo hi l1 l2 x a :
  laid lo hi (l1 ++ l2) -> x ∈ l1 -> a ∈ l2.*1 -> a <> x.1.
Proof.
  intros Hl Hx (y & -> & Hy)%list_elem_of_fmap.
  pose proof (laid_disjoint _ _ _ _ _ _ Hl Hx Hy).
  destruct (laid_in _ _ _ x Hl) as (_ & _ & ?); [set_solver|].
  unfold block_end, BLOCK_OVERHEAD, SIZEOF_MEMBLOCK, SIZEOF_FOOTER in *. lia.
Qed.

(** Updating the header of the block in the middle, links kept. *)
Lemma seg_update hs p l1 a b b' l2 n lo hi :
  laid lo hi (l1 ++ (a, b) :: l2) -> seg hs p (l1 ++ (a, b) :: l2) n ->
  mb_prev b' = mb_prev b -> mb_next b' = mb_next b ->
  seg (<[a := b']> hs) p (l1 ++ (a, b') :: l2) n.
Proof.
  intros Hl (H1 & Ha & Hp & Hn & H2)%seg_app Hp' Hn'. apply seg_app. simpl in *. split.
  - eapply seg_frame; [|done]. intros k (y & -> & Hy)%list_elem_of_fmap.
    rewrite lookup_insert_ne; [done|]. intros Heq.
    apply (laid_addr_ne _ _ _ _ y a Hl Hy); [set_solver|done].
  - split_and!; [apply lookup_insert_eq|congruence|congruence|].
    eapply seg_frame; [|done]. intros k Hk. rewrite lookup_insert_ne; [done|].
    rewrite (app_assoc l1 [(a, b)] l2 : l1 ++ (a, b) :: l2 = _) in Hl.
    intros <-. apply (laid_addr_ne _ _ _ _ (a, b) a Hl); [set_solver|done|done].
Qed.

(** The list with the back link of its first block changed. *)
Definition relink (p : Z) (l : list (Z * MemBlock)) : list (Z * MemBlock) :=
  match l with [] => [] | x :: l => (x.1, x.2 <| mb_prev := p |>) :: l end.

Lemma hd_relink p l n : hd (relink p l) n = hd l n.
Proof. by destruct l. Qed.
Lemma lst_relink p q l : lst p (relink q l) = lst p l.
Proof. by destruct l. Qed.
Lemma relink_addr p l : (relink p l).*1 = l.*1.
Proof. by destruct l. Qed.
Lemma laid_relink lo hi p l : laid lo hi (relink p l) <-> laid lo hi l.
Proof. by destruct l. Qed.

(** [seg] in two parts: where the headers are, and how they are linked. *)
Definition stored (hs : gmap Z MemBlock) (l : list (Z * MemBlock)) : Prop :=
  Forall (fun x => hs !! x.1 = Some x.2) l.
Fixpoint linked (p : Z) (l : list (Z * MemBlock)) (n : Z) : Prop :=
  match l with
  | [] => True
  | x :: l => mb_prev x.2 = p /\ mb_next x.2 = hd l n /\ linked x.1 l n
  end.

Lemma seg_alt hs p l n : seg hs p l n <-> stored hs l /\ linked p l n.
Proof.
  unfold stored. revert p. induction l as [|x l IH]; intros p; simpl; [naive_solver|].
  rewrite IH, Forall_cons. naive_solver.
Qed.
Lemma linked_app p l1 l2 n :
  linked p (l1 ++ l2) n <-> linked p l1 (hd l2 n) /\ linked (lst p l1) l2 n.
Proof.
  revert p. induction l1 as [|x l1 IH]; intros p; simpl; [naive_solver|].
  rewrite IH, hd_app. naive_solver.
Qed.
Lemma linked_relink p q l n : linked p l n -> linked q (relink q l) n.
Proof. destruct l as [|x l]; simpl; naive_solver. Qed.

Lemma stored_insert hs a b l : a ∉ l.*1 -> stored hs l -> stored (<[a := b]> hs) l.
Proof.
  intros Ha. unfold stored. rewrite !Forall_forall.
  intros Hl x Hx. rewrite lookup_insert_ne; [by apply Hl|]. intros ->.
  apply Ha, list_elem_of_fmap. eauto.
Qed.
Lemma stored_delete hs a l : a ∉ l.*1 -> stored hs l -> stored (delete a hs) l.
Proof.
  intros Ha. unfold stored. rewrite !Forall_forall.
  intros Hl x Hx. rewrite lookup_delete_ne; [by apply Hl|]. intros ->.
  apply Ha, list_elem_of_fmap. eauto.
Qed.
Lemma stored_app hs l1 l2 : stored hs (l1 ++ l2) <-> stored hs l1 /\ stored hs l2.
Proof. apply Forall_app. Qed.
Lemma stored_cons hs x l : stored hs (x :: l) <-> hs !! x.1 = Some x.2 /\ stored hs l.
Proof. unfold stored. by rewrite Forall_cons. Qed.

Lemma laid_NoDup lo hi l : laid lo hi l -> NoDup l.*1.
Proof.
  revert lo. induction l as [|x l IH]; intros lo; simpl; [constructor|].
  intros (? & ? & Hl). constructor; [|by eapply IH].
  intros (y & Heq & Hy)%list_elem_of_fmap. destruct (laid_in _ _ _ _ Hl Hy) as (Hle & _).
  unfold block_end, BLOCK_OVERHEAD, SIZEOF_MEMBLOCK, SIZEOF_FOOTER in Hle. lia.
Qed.

(** ** Invariant *)

(** Guards of the blocks in use; heap blocks carry no pool flag. *)
Definition block_ok (guards : bool) (fs : gmap Z Z) (x : Z * MemBlock) : Prop :=
  is_pool x.2 = false /\
  (is_used x.2 = true -> guards = true ->
   guard_front x.2 = GUARD_PATTERN /\ fs !! footer_addr x.1 x.2 = Some GUARD_PATTERN).

Record inv (h : Heap) (l : list (Z * MemBlock)) : Prop := mkInv {
  inv_base : 0 < heap_memory h;
  inv_size : BLOCK_OVERHEAD <= heap_size (config h) < 2 ^ 32;
  inv_nonempty : l <> [];
  inv_first : first_block h = hd l 0;
  inv_last : last_block h = lst 0 l;
  inv_stored : stored (headers h) l;
  inv_linked : linked 0 l 0;
  inv_laid : laid (heap_memory h) (heap_memory h + heap_size (config h)) l;
  (* headers of pool blocks lie outside the heap *)
  inv_others : map_Forall (fun k _ => k ∈ l.*1 \/ k + SIZEOF_MEMBLOCK <= heap_memory h \/
                             heap_memory h + heap_size (config h) <= k) (headers h);
  inv_blocks : Forall (block_ok (enable_guards (config h)) (footers h)) l
}.

(** The blocks as the clients see them: address, size, in use. *)
Definition view (l : list (Z * MemBlock)) : list (Z * Z * bool) :=
  (fun x => (x.1, mb_size x.2, is_used x.2)) <$> l.

Lemma view_app l1 l2 : view (l1 ++ l2) = view l1 ++ view l2.
Proof. apply fmap_app. Qed.
Lemma view_relink p l : view (relink p l) = view l.
Proof. by destruct l. Qed.

Lemma wp_header a b Q h m : headers h !! a = Some b -> Q b h m -> wp (header a) Q h m.
Proof. intros Hb HQ. unfold header. apply wp_bind, wp_get. rewrite Hb. by apply wp_ret. Qed.
Lemma wp_set_header a b f Q h m :
  headers h !! a = Some b -> Q tt (h <| headers ::= <[a := f b]> |>) m -> wp (set_header a f) Q h m.
Proof.
  intros Hb HQ. unfold set_header. apply wp_bind. eapply wp_header; [done|]. by apply wp_modify.
Qed.

Ltac sizes := unfold footer_addr, block_end, BLOCK_OVERHEAD, MIN_BLOCK_SIZE, SIZEOF_MEMBLOCK, SIZEOF_FOOTER in *.

(** The pieces of an invariant at a block. *)
Lemma inv_block h l1 x l2 :
  inv h (l1 ++ x :: l2) ->
  (headers h) !! x.1 = Some x.2 /\ mb_next x.2 = hd l2 0 /\ mb_prev x.2 = lst 0 l1 /\
  heap_memory h <= x.1 /\ 0 <= mb_size x.2 /\
  block_end x <= heap_memory h + heap_size (config h) /\
  (x.1 ∉ l1.*1) /\ (x.1 ∉ l2.*1).
Proof.
  intros Hi. destruct (proj1 (stored_app _ _ _) (inv_stored _ _ Hi)) as [_ [Hx _]%stored_cons].
  destruct (proj1 (linked_app _ _ _ _) (inv_linked _ _ Hi)) as [_ (Hp & Hn & _)].
  destruct (laid_in _ _ _ x (inv_laid _ _ Hi)) as (? & ? & ?); [set_solver|].
  pose proof (laid_NoDup _ _ _ (inv_laid _ _ Hi)) as Hnd. rewrite fmap_app in Hnd. simpl in Hnd.
  apply NoDup_app in Hnd as (_ & Hd & [? ?]%NoDup_cons). split_and!; try done.
  intros Hin. apply (Hd _ Hin). set_solver.
Qed.

(** [split_block] at list level. *)
Definition split_at (a : Z) (b : MemBlock) (sz : Z) (l2 : list (Z * MemBlock))
  : list (Z * MemBlock) :=
  if mb_size b - sz - BLOCK_OVERHEAD <? MIN_BLOCK_SIZE then (a, b) :: l2
  else
    let new := a + BLOCK_OVERHEAD + sz in
    (a, b <| mb_next := new |> <| mb_size := sz |>)
    :: (new, mkBlock (mb_size b - sz - 2 * BLOCK_OVERHEAD) MEM_BLOCK_FREE 0 0 (mb_next b) a 0)
    :: relink new l2.

Lemma map_Forall_put (P : Z -> Prop) (a : Z) (b : MemBlock) (hs : gmap Z MemBlock) :
  P a -> map_Forall (fun k _ => P k) hs -> map_Forall (fun k _ => P k) (<[a := b]> hs).
Proof. intros Ha Hm. by apply map_Forall_insert_2. Qed.

Lemma wp_new_header a b Q h m l1 x l2 :
  inv h (l1 ++ x :: l2) -> x.1 + SIZEOF_MEMBLOCK <= a -> a + SIZEOF_MEMBLOCK <= block_end x ->
  Q tt (h <| headers ::= <[a := b]> |>) m -> wp (new_header a b) Q h m.
Proof.
  intros Hi Hlo Hhi HQ. destruct (inv_block _ _ _ _ Hi) as (_ & _ & _ & Hb & Hs & He & _).
  unfold new_header. apply wp_bind, wp_get.
  replace (in_heap a SIZEOF_MEMBLOCK h && clear_of a (headers h)) with true; [by apply wp_modify|].
  symmetry. apply andb_true_iff. split.
  - unfold in_heap. apply andb_true_iff. rewrite !Z.leb_le. sizes. lia.
  - unfold clear_of. apply bool_decide_eq_true. intros k v Hk.
    destruct (inv_others _ _ Hi k v Hk) as [Hin|Hout]; [|sizes; lia].
    apply list_elem_of_fmap in Hin as (y & -> & Hy). pose proof (inv_laid _ _ Hi) as Hl.
    apply elem_of_app in Hy as [Hy|[->|Hy]%elem_of_cons].
    + pose proof (laid_disjoint _ _ l1 (x :: l2) y x Hl Hy ltac:(set_solver)).
      destruct (laid_in _ _ _ y Hl) as (_ & _ & ?); [set_solver|]. sizes. lia.
    + sizes. lia.
    + assert (Hl' : laid (heap_memory h) (heap_memory h + heap_size (config h)) ((l1 ++ [x]) ++ l2))
        by (by rewrite <- app_assoc).
      pose proof (laid_disjoint _ _ (l1 ++ [x]) l2 x y Hl' ltac:(set_solver) Hy). sizes. lia.
Qed.

Lemma inv_new_addr h l1 x l2 a :
  inv h (l1 ++ x :: l2) -> x.1 < a < block_end x -> a ∉ (l1 ++ x :: l2).*1.
Proof.
  intros Hi Ha (y & -> & Hy)%list_elem_of_fmap. pose proof (inv_laid _ _ Hi) as Hl.
  apply elem_of_app in Hy as [Hy|[->|Hy]%elem_of_cons]; [|lia|].
  - pose proof (laid_disjoint _ _ l1 (x :: l2) y x Hl Hy ltac:(set_solver)).
    destruct (laid_in _ _ _ y Hl) as (_ & _ & ?); [set_solver|]. sizes. lia.
  - assert (Hl' : laid (heap_memory h) (heap_memory h + heap_size (config h)) ((l1 ++ [x]) ++ l2))
      by (by rewrite <- app_assoc).
    pose proof (laid_disjoint _ _ (l1 ++ [x]) l2 x y Hl' ltac:(set_solver) Hy). sizes. lia.
Qed.

(** Setting the back link of the first block behind, or the list's end. *)
Definition set_back (l : list (Z * MemBlock)) (p : Z) : M Heap unit :=
  if negb (hd l 0 =? 0) then set_header (hd l 0) (fun n => n <| mb_prev := p |>)
  else modify (fun h => h <| last_block := p |>).

Lemma wp_set_back l p Q h m :
  stored (headers h) l -> Forall (fun x => 0 < x.1) l -> NoDup l.*1 ->
  (forall hs lb, stored hs (relink p l) ->
     (forall k, k ∉ l.*1 -> hs !! k = headers h !! k) ->
     dom hs = dom (headers h) ->
     lb = (match l with [] => p | _ => last_block h end) ->
     Q tt (h <| headers := hs |> <| last_block := lb |>) m) ->
  wp (set_back l p) Q h m.
Proof.
  intros Hs Hpos Hnd HQ. unfold set_back. destruct l as [|x l]; simpl.
  - apply wp_modify. specialize (HQ (headers h) p). destruct h; simpl in *. by apply HQ.
  - apply Forall_cons in Hpos as [Hx _]. rewrite (proj2 (Z.eqb_neq _ _)) by lia. simpl.
    apply stored_cons in Hs as [Hx' Hs]. simpl in Hnd. apply NoDup_cons in Hnd as [Hn Hnd].
    eapply wp_set_header; [done|].
    specialize (HQ (<[x.1 := x.2 <| mb_prev := p |>]> (headers h)) (last_block h)).
    destruct h; simpl in *. apply HQ; try done.
    + apply stored_cons. simpl. split; [apply lookup_insert_eq|]. by apply stored_insert.
    + intros k Hk. apply lookup_insert_ne. set_solver.
    + apply dom_insert_lookup_L. eauto.
Qed.

Lemma heap_eta_hl h hs lb :
  h <| headers := hs |> <| last_block := lb |> =
  mkHeap (config h) (heap_memory h) (first_block h) lb (pools h) (stats h)
    (mm_initialized h) hs (footers h) (mutex h).
Proof. done. Qed.

Lemma laid_pos lo hi l : 0 < lo -> laid lo hi l -> Forall (fun x => 0 < x.1) l.
Proof.
  intros Hlo Hl. apply Forall_forall. intros x Hx. destruct (laid_in _ _ _ _ Hl Hx). lia.
Qed.

Lemma hd_split a b sz l2 n : hd (split_at a b sz l2) n = a.
Proof. unfold split_at. by destruct (_ <? _). Qed.

Lemma split_linked p l1 a b sz l2 :
  linked p (l1 ++ (a, b) :: l2) 0 -> linked p (l1 ++ split_at a b sz l2) 0.
Proof.
  intros (H1 & Hp & Hn & H2)%linked_app. simpl in *. apply linked_app. rewrite hd_split.
  split; [done|]. unfold split_at. destruct (_ <? _); simpl; [done|].
  rewrite hd_relink. split_and!; try done. by eapply linked_relink.
Qed.
Lemma split_laid lo hi l1 a b sz l2 :
  0 <= sz -> BLOCK_OVERHEAD <= mb_size b - sz ->
  laid lo hi (l1 ++ (a, b) :: l2) -> laid lo hi (l1 ++ split_at a b sz l2).
Proof.
  intros Hsz Hsl (mid & H1 & Hm & Hs & H2)%laid_app. simpl in *. apply laid_app.
  exists mid. split; [done|]. unfold split_at. destruct (Z.ltb_spec (mb_size b - sz - BLOCK_OVERHEAD) MIN_BLOCK_SIZE);
    simpl; [done|]. rewrite laid_relink. sizes. simpl. split_and!; try lia.
  eapply laid_weaken; [| |exact H2]; sizes; simpl; lia.
Qed.

(** [split_block] on a free block that has room for the overhead of another:
    the invariant is kept and the list is split as [split_at] says. *)
Lemma wp_split a b sz l1 l2 Q h m :
  inv h (l1 ++ (a, b) :: l2) -> is_used b = false -> 0 <= sz -> BLOCK_OVERHEAD <= mb_size b - sz ->
  (forall hs lb, inv (h <| headers := hs |> <| last_block := lb |>) (l1 ++ split_at a b sz l2) ->
     Q tt (h <| headers := hs |> <| last_block := lb |>) m) ->
  wp (split_block a sz) Q h m.
Proof.
  intros Hi Hu Hsz Hsl HQ. assert (Hblk := inv_block _ _ _ _ Hi). simpl in Hblk.
  destruct Hblk as (Ha & Hn & Hp & Hb & Hs0 & He & Hna1 & Hna2).
  pose proof (split_linked 0 l1 a b sz l2 (inv_linked _ _ Hi)) as Hlk.
  pose proof (split_laid _ _ l1 a b sz l2 Hsz Hsl (inv_laid _ _ Hi)) as Hld.
  pose proof (inv_size _ _ Hi) as Hsize.
  unfold split_block. apply wp_bind. eapply wp_header; [done|].
  rewrite (u32_small (mb_size b - sz - BLOCK_OVERHEAD)) by (unfold is_u32; sizes; simpl in *; lia).
  unfold split_at in *.
  destruct (Z.ltb_spec (mb_size b - sz - BLOCK_OVERHEAD) MIN_BLOCK_SIZE) as [Hlt|Hge].
  { apply wp_ret. specialize (HQ (headers h) (last_block h)). destruct h. by apply HQ. }
  cbv zeta in *. set (new := a + BLOCK_OVERHEAD + sz) in *.
  set (nb := mkBlock (mb_size b - sz - 2 * BLOCK_OVERHEAD) MEM_BLOCK_FREE 0 0 (mb_next b) a 0) in *.
  replace (a + SIZEOF_MEMBLOCK + sz + SIZEOF_FOOTER) with new by (unfold new; sizes; lia).
  replace (u32 (mb_size b - sz - BLOCK_OVERHEAD - BLOCK_OVERHEAD)) with (mb_size nb)
    by (simpl; rewrite u32_small by (unfold is_u32; sizes; simpl in *; lia); lia).
  apply wp_bind. eapply (wp_new_header _ _ _ _ _ l1 (a, b) l2 Hi); [subst new; sizes; simpl; lia..|].
  assert (Hnew : new ∉ (l1 ++ (a, b) :: l2).*1)
    by (apply (inv_new_addr h l1 (a, b) l2 new Hi); subst new; sizes; simpl in *; lia).
  rewrite fmap_app in Hnew. simpl in Hnew.
  apply not_elem_of_app in Hnew as [Hn1 [Hna Hn2]%not_elem_of_cons].
  pose proof (inv_stored _ _ Hi) as (Hst1 & [_ Hst2]%stored_cons)%stored_app.
  apply wp_bind. eapply wp_header; [cbn; rewrite lookup_insert_ne by done; done|].
  rewrite Hn. fold (set_back l2 new). apply wp_bind.
  pose proof (laid_NoDup _ _ _ (inv_laid _ _ Hi)) as Hnd. rewrite fmap_app in Hnd.
  apply NoDup_app in Hnd as (_ & _ & [_ Hnd2]%NoDup_cons).
  pose proof (laid_pos _ _ _ (inv_base _ _ Hi) (inv_laid _ _ Hi)) as Hpos.
  apply Forall_app in Hpos as [_ [_ Hpos2]%Forall_cons].
  apply wp_set_back; [by apply stored_insert|done|done|].
  intros hs lb Hhs Hframe Hdom Hlb. cbn in Hframe, Hdom.
  assert (Hhsa : hs !! a = Some b)
    by (rewrite Hframe by done; rewrite lookup_insert_ne by done; done).
  eapply wp_set_header; [exact Hhsa|].
  specialize (HQ (<[a := b <| mb_next := new |> <| mb_size := sz |>]> hs) lb). apply HQ. clear HQ.
  constructor; cbn; try apply Hi.
  - by destruct l1.
  - rewrite (inv_first _ _ Hi), !hd_app. done.
  - rewrite Hlb, lst_app. cbn. rewrite lst_relink. pose proof (inv_last _ _ Hi) as Hla.
    rewrite lst_app in Hla. cbn in Hla. by destruct l2.
  - apply stored_app. split.
    + apply stored_insert; [done|]. unfold stored in *. rewrite Forall_forall in *. intros x Hx.
      assert (x.1 ∈ l1.*1) by (apply list_elem_of_fmap; eauto).
      rewrite Hframe, lookup_insert_ne; [by apply Hst1|set_solver|].
      intros Hx2. pose proof (laid_NoDup _ _ _ (inv_laid _ _ Hi)) as Hnd. rewrite fmap_app in Hnd.
      apply NoDup_app in Hnd as (_ & Hd & _). apply (Hd x.1); [done|]. simpl. set_solver.
    + apply stored_cons. cbn. split; [apply lookup_insert_eq|]. apply stored_cons. cbn. split.
      * rewrite lookup_insert_ne by done. rewrite Hframe, lookup_insert_eq by done.
        unfold nb. by rewrite Hn.
      * apply stored_insert; [by rewrite relink_addr|done].
  - done.
  - done.
  - intros k v Hk. cbn in Hk. rewrite fmap_app. cbn. rewrite relink_addr.
    destruct (decide (k = a)) as [->|]; [left; set_solver|].
    destruct (decide (k = new)) as [->|]; [left; set_solver|].
    assert (Hkd : k ∈ dom hs) by (apply elem_of_dom; rewrite lookup_insert_ne in Hk by done; eauto).
    rewrite Hdom, dom_insert_L in Hkd. assert (Hkd' : k ∈ dom (headers h)) by set_solver.
    apply elem_of_dom in Hkd' as [v' Hv']. pose proof (inv_others _ _ Hi k v' Hv') as Ho. cbn in Ho.
    rewrite fmap_app in Ho. cbn in Ho. set_solver.
  - pose proof (inv_blocks _ _ Hi) as [Hb1 [[Hpl _] Hb2]%Forall_cons]%Forall_app.
    apply Forall_app. split; [done|]. constructor; [|constructor].
    + split; [done|]. cbn. intros Hu'. unfold is_used in *. cbn in *. congruence.
    + by split.
    + destruct l2 as [|x l2]; [constructor|]. apply Forall_cons in Hb2 as [Hbx Hb2].
      constructor; [exact Hbx|done].
Qed.

(** [absorb] at list level. *)
Definition joined (b nb : MemBlock) : MemBlock :=
  b <| mb_size := mb_size b + mb_size nb + BLOCK_OVERHEAD |> <| mb_next := mb_next nb |>.

Lemma inv_pair h l1 a b n nb l2 :
  inv h (l1 ++ (a, b) :: (n, nb) :: l2) ->
  headers h !! a = Some b /\ headers h !! n = Some nb /\ mb_next b = n /\ mb_next nb = hd l2 0 /\
  0 <= mb_size b /\ 0 <= mb_size nb /\ 0 < n /\
  a + BLOCK_OVERHEAD + mb_size b <= n /\
  n + BLOCK_OVERHEAD + mb_size nb <= heap_memory h + heap_size (config h) /\
  heap_memory h <= a /\
  NoDup (l1.*1 ++ a :: n :: l2.*1).
Proof.
  intros Hi. pose proof (inv_block _ _ _ _ Hi) as (Ha & Hn & _ & Hlo & Hs & _). simpl in *.
  assert (Hi' : inv h ((l1 ++ [(a, b)]) ++ (n, nb) :: l2)) by (by rewrite <- app_assoc).
  pose proof (inv_block _ _ _ _ Hi') as (Hb & Hnn & _ & Hlo' & Hs' & He' & _). simpl in *.
  pose proof (inv_laid _ _ Hi) as Hl. pose proof (laid_NoDup _ _ _ Hl) as Hnd.
  rewrite fmap_app in Hnd. apply laid_app in Hl as (mid & _ & (? & ? & (? & _))). simpl in *.
  pose proof (inv_base _ _ Hi). split_and!; try done; sizes; simpl in *; lia.
Qed.

Lemma wp_absorb a b n nb l1 l2 Q h m :
  inv h (l1 ++ (a, b) :: (n, nb) :: l2) -> is_used b = false ->
  (forall hs lb, inv (h <| headers := hs |> <| last_block := lb |>)
                   (l1 ++ (a, joined b nb) :: relink a l2) ->
     size hs < size (headers h) ->
     Q tt (h <| headers := hs |> <| last_block := lb |>) m)%nat ->
  wp (absorb a n) Q h m.
Proof.
  intros Hi Hu HQ.
  pose proof (inv_pair _ _ _ _ _ _ _ Hi) as (Ha & Hnh & Hbn & Hnn & Hs & Hs' & Hn0 & Han & Hne & Hba & Hnd).
  pose proof (inv_size _ _ Hi) as Hsize.
  apply NoDup_app in Hnd as (Hnd1 & Hd1 & [Hnda [Hndn Hnd2]%NoDup_cons]%NoDup_cons).
  apply not_elem_of_cons in Hnda as [Hane Hnda].
  unfold absorb. apply wp_bind. eapply wp_header; [done|].
  apply wp_bind. eapply wp_set_header; [done|].
  rewrite u32_small by (unfold is_u32; sizes; lia). fold (joined b nb).
  apply wp_bind, wp_modify. rewrite Hnn. fold (set_back l2 a).
  pose proof (inv_stored _ _ Hi) as (Hst1 & [_ [_ Hst2]%stored_cons]%stored_cons)%stored_app.
  pose proof (laid_pos _ _ _ (inv_base _ _ Hi) (inv_laid _ _ Hi)) as Hpos.
  apply Forall_app in Hpos as [_ [_ [_ Hpos2]%Forall_cons]%Forall_cons].
  apply wp_set_back; [by apply stored_delete, stored_insert|done|done|].
  intros hs lb Hhs Hframe Hdom Hlb. cbn in Hframe, Hdom.
  apply HQ.
  2: { rewrite <- !size_dom, Hdom, dom_delete_L, dom_insert_L, size_difference, size_singleton.
       - rewrite (subseteq_union_1_L {[a]}) by (apply singleton_subseteq_l, elem_of_dom; eauto).
         assert (size (dom (headers h)) <> 0%nat); [|lia].
         intros H0%size_empty_inv. apply (not_elem_of_empty (C := gset Z) a). rewrite <- H0.
         apply elem_of_dom. eauto.
       - apply singleton_subseteq_l. rewrite elem_of_union, elem_of_dom. eauto. }
  constructor; cbn; try apply Hi.
  - by destruct l1.
  - rewrite (inv_first _ _ Hi), !hd_app. done.
  - rewrite Hlb, lst_app. cbn. rewrite lst_relink. pose proof (inv_last _ _ Hi) as Hla.
    rewrite lst_app in Hla. cbn in Hla. by destruct l2.
  - apply stored_app. split.
    + unfold stored in *. rewrite Forall_forall in *. intros x Hx.
      assert (Hx1 : x.1 ∈ l1.*1) by (apply list_elem_of_fmap; eauto). specialize (Hd1 _ Hx1).
      rewrite Hframe, lookup_delete_ne, lookup_insert_ne by set_solver. by apply Hst1.
    + apply stored_cons. cbn. split; [|done].
      rewrite Hframe, lookup_delete_ne by done. apply lookup_insert_eq.
  - pose proof (inv_linked _ _ Hi) as (H1 & Hp & _ & _ & _ & H2)%linked_app. simpl in *.
    apply linked_app. simpl. rewrite hd_relink. split_and!; try done. by eapply linked_relink.
  - pose proof (inv_laid _ _ Hi) as (mid & H1 & ? & ? & ? & ? & H2)%laid_app. simpl in *.
    apply laid_app. exists mid. split; [done|]. simpl. rewrite laid_relink.
    split_and!; [done|sizes; lia|].
    eapply laid_weaken; [| |exact H2]; unfold joined; sizes; simpl; lia.
  - intros k v Hk. cbn in Hk. rewrite fmap_app. cbn. rewrite relink_addr.
    assert (Hkd : k ∈ dom hs) by (apply elem_of_dom; eauto).
    rewrite Hdom, dom_delete_L, dom_insert_L in Hkd.
    destruct (decide (k = a)) as [->|]; [left; set_solver|].
    assert (Hkd' : k ∈ dom (headers h)) by set_solver.
    apply elem_of_dom in Hkd' as [v' Hv']. pose proof (inv_others _ _ Hi k v' Hv') as Ho. cbn in Ho.
    rewrite fmap_app in Ho. cbn in Ho. set_solver.
  - pose proof (inv_blocks _ _ Hi) as [Hb1 [[Hpl _] [_ Hb2]%Forall_cons]%Forall_cons]%Forall_app.
    apply Forall_app. split; [done|]. constructor.
    + split; [done|]. cbn. intros Hu'. unfold is_used in *. cbn in *. congruence.
    + destruct l2 as [|x l2]; [constructor|]. apply Forall_cons in Hb2 as [Hbx Hb2].
      constructor; [exact Hbx|done].
Qed.

(** ** Best fit *)

Definition fits (sz : Z) (x : Z * MemBlock) : Prop := is_used x.2 = false /\ sz <= mb_size x.2.

Fixpoint best_of (sz : Z) (l : list (Z * MemBlock)) (best best_size : Z) : Z :=
  match l with
  | [] => best
  | x :: l =>
      if negb (is_used x.2) && (sz <=? mb_size x.2) && (mb_size x.2 <? best_size) then
        if mb_size x.2 =? sz then x.1 else best_of sz l x.1 (mb_size x.2)
      else best_of sz l best best_size
  end.

Lemma best_fit_loop_list fuel sz p l best bs hs :
  stored hs l -> linked p l 0 -> Forall (fun x => 0 < x.1) l -> (length l <= fuel)%nat ->
  best_fit_loop fuel sz (hd l 0) best bs hs = Some (best_of sz l best bs).
Proof.
  revert fuel p best bs. induction l as [|x l IH]; intros fuel p best bs Hs Hl Hp Hf.
  - by destruct fuel.
  - apply stored_cons in Hs as [Hx Hs]. apply Forall_cons in Hp as [Hp0 Hp]. simpl in Hl, Hf.
    destruct Hl as (_ & Hn & Hl). destruct fuel as [|fuel]; [lia|]. simpl.
    rewrite (proj2 (Z.eqb_neq _ _)) by lia. rewrite Hx, Hn.
    destruct (_ && _); [destruct (_ =? sz); [done|]|]; eapply IH; eauto; lia.
Qed.

Lemma best_of_spec sz l best bs :
  (best_of sz l best bs = best /\ Forall (fun x => fits sz x -> bs <= mb_size x.2) l) \/
  (exists x, x ∈ l /\ best_of sz l best bs = x.1 /\ fits sz x /\ mb_size x.2 < bs /\
    Forall (fun y => fits sz y -> mb_size x.2 <= mb_size y.2) l).
Proof.
  revert best bs. induction l as [|x l IH]; intros best bs; simpl; [by left|].
  destruct (_ && _) eqn:E.
  - tests. assert (Hfx : fits sz x) by done. destruct (Z.eqb_spec (mb_size x.2) sz) as [He|Hne].
    + right. exists x. split_and!; try done; [set_solver|].
      apply Forall_forall. intros y _ [_ ?]. lia.
    + destruct (IH x.1 (mb_size x.2)) as [[-> Hl]|(y & Hy & -> & Hfy & Hlt & Hl)]; right.
      * exists x. split_and!; try done; [set_solver|]. by constructor.
      * exists y. split_and!; try done; [set_solver|lia|]. constructor; [lia|done].
  - assert (Hx : fits sz x -> bs <= mb_size x.2).
    { intros [Hu Hs]. rewrite Hu in E. simpl in E. rewrite (proj2 (Z.leb_le _ _) Hs) in E. simpl in E. tests. lia. }
    destruct (IH best bs) as [[-> Hl]|(y & Hy & -> & Hfy & Hlt & Hl)].
    + left. split; [done|]. by constructor.
    + right. exists y. split_and!; try done; [set_solver|]. constructor; [|done].
      intros Hf. specialize (Hx Hf). lia.
Qed.

Lemma inv_fuel h l : inv h l -> (length l <= list_fuel h)%nat.
Proof.
  intros Hi. unfold list_fuel. rewrite <- (length_fmap fst l), <- size_dom.
  pose proof (laid_NoDup _ _ _ (inv_laid _ _ Hi)) as Hnd.
  rewrite <- (size_list_to_set (C := gset Z)) by done. apply subseteq_size.
  intros a (x & -> & Hx)%elem_of_list_to_set%list_elem_of_fmap. apply elem_of_dom. exists x.2.
  pose proof (inv_stored _ _ Hi) as Hs. unfold stored in Hs. rewrite Forall_forall in Hs. by apply Hs.
Qed.

(** [find_best_fit] returns a smallest free block that is large enough, or NULL
    when there is none. *)
Lemma wp_best_fit sz Q h m l :
  inv h l ->
  (Forall (fun x => ~ fits sz x) l -> Q 0 h m) ->
  (forall l1 x l2, l = l1 ++ x :: l2 -> fits sz x ->
     Forall (fun y => fits sz y -> mb_size x.2 <= mb_size y.2) l -> Q x.1 h m) ->
  wp (find_best_fit sz) Q h m.
Proof.
  intros Hi H0 H1. unfold find_best_fit. apply wp_bind, wp_get. rewrite (inv_first _ _ Hi).
  erewrite best_fit_loop_list; [|apply Hi|apply Hi| |by apply inv_fuel];
    [|by eapply laid_pos; apply Hi].
  apply wp_ret. destruct (best_of_spec sz l 0 UINT32_MAX) as [[-> Hl]|(x & Hx & -> & Hf & _ & Hl)].
  - apply H0. apply Forall_forall. intros x Hx Hf. rewrite Forall_forall in Hl.
    specialize (Hl x Hx Hf). destruct (laid_in _ _ _ x (inv_laid _ _ Hi) Hx) as (? & ? & ?).
    pose proof (inv_size _ _ Hi). unfold UINT32_MAX in *. sizes. lia.
  - apply list_elem_of_split in Hx as (l1 & l2 & ->). by eapply H1.
Qed.

(** ** Marking a block *)

(** One header changes, its size and links do not; guard words may be added. *)
Lemma inv_mark h l1 a b b' l2 fs :
  inv h (l1 ++ (a, b) :: l2) ->
  mb_size b' = mb_size b -> mb_prev b' = mb_prev b -> mb_next b' = mb_next b ->
  block_ok (enable_guards (config h)) fs (a, b') ->
  Forall (block_ok (enable_guards (config h)) fs) l1 ->
  Forall (block_ok (enable_guards (config h)) fs) l2 ->
  inv (h <| headers ::= <[a := b']> |> <| footers := fs |>) (l1 ++ (a, b') :: l2).
Proof.
  intros Hi Hsz Hp Hn Hok Hok1 Hok2.
  pose proof (inv_block _ _ _ _ Hi) as (Ha & _ & _ & _ & _ & _ & Hna1 & Hna2). simpl in *.
  pose proof (inv_stored _ _ Hi) as (Hst1 & [_ Hst2]%stored_cons)%stored_app.
  constructor; cbn; try apply Hi.
  - by destruct l1.
  - rewrite (inv_first _ _ Hi), !hd_app. done.
  - rewrite (inv_last _ _ Hi), !lst_app. done.
  - apply stored_app. split; [by apply stored_insert|]. apply stored_cons. cbn.
    split; [apply lookup_insert_eq|by apply stored_insert].
  - pose proof (inv_linked _ _ Hi) as (? & ? & ? & ?)%linked_app. apply linked_app. simpl in *.
    split_and!; congruence || done.
  - pose proof (inv_laid _ _ Hi) as (mid & ? & ? & ? & Hl2)%laid_app. apply laid_app. simpl in *.
    exists mid. unfold block_end in *. simpl in *. rewrite Hsz. by split_and!.
  - intros k v Hk. cbn in Hk. rewrite fmap_app. cbn.
    destruct (decide (k = a)) as [->|]; [left; set_solver|]. rewrite lookup_insert_ne in Hk by done.
    pose proof (inv_others _ _ Hi k v Hk) as Ho. cbn in Ho. by rewrite fmap_app in Ho.
  - apply Forall_app. split; [done|by constructor].
Qed.

(** Guard words of other blocks are elsewhere. *)
Lemma guards_elsewhere g fs a b l v lo hi l1 l2 :
  laid lo hi (l1 ++ (a, b) :: l2) -> (forall x, x ∈ l -> x ∈ l1 \/ x ∈ l2) ->
  Forall (block_ok g fs) l -> Forall (block_ok g (<[footer_addr a b := v]> fs)) l.
Proof.
  intros Hl Hsub. rewrite !Forall_forall. intros Hok x Hx. destruct (Hok x Hx) as [Hp Hg].
  split; [done|]. intros Hu Hge. destruct (Hg Hu Hge) as [? Hf]. split; [done|].
  rewrite lookup_insert_ne; [done|]. intros Heq.
  destruct (laid_in _ _ _ (a, b) Hl) as (_ & _ & ?); [set_solver|].
  destruct (Hsub x Hx) as [Hx1|Hx2].
  - pose proof (laid_disjoint _ _ _ _ x (a, b) Hl Hx1 ltac:(set_solver)). sizes. simpl in *. lia.
  - rewrite (app_assoc l1 [(a, b)] l2 : l1 ++ (a, b) :: l2 = _) in Hl.
    pose proof (laid_disjoint _ _ _ _ (a, b) x Hl ltac:(set_solver) Hx2).
    destruct (laid_in _ _ _ x Hl) as (_ & _ & ?); [set_solver|]. sizes. simpl in *. lia.
Qed.

Lemma wp_use a b file line l1 l2 Q h m :
  inv h (l1 ++ (a, b) :: l2) ->
  (forall hs fs b', mb_size b' = mb_size b -> is_used b' = true ->
     inv (h <| headers := hs |> <| footers := fs |>) (l1 ++ (a, b') :: l2) ->
     Q tt (h <| headers := hs |> <| footers := fs |>) m) ->
  wp (set_header a (fun b => b <| mb_flags := MEM_BLOCK_USED |> <| mb_file := file |>
        <| mb_line := line |>);; setup_block_guards a) Q h m.
Proof.
  intros Hi HQ. pose proof (inv_block _ _ _ _ Hi) as (Ha & _ & _ & Hlo & _). simpl in *.
  pose proof (inv_base _ _ Hi) as Hbase.
  set (b1 := b <| mb_flags := MEM_BLOCK_USED |> <| mb_file := file |> <| mb_line := line |>).
  pose proof (inv_blocks _ _ Hi) as [Hok1 [_ Hok2]%Forall_cons]%Forall_app.
  apply wp_bind. eapply wp_set_header; [done|]. fold b1. unfold setup_block_guards.
  apply wp_bind, wp_get. simpl. rewrite (proj2 (Z.eqb_neq a 0)) by lia.
  destruct (enable_guards (config h)) eqn:Eg; simpl.
  - set (b2 := b1 <| guard_front := GUARD_PATTERN |>).
    apply wp_bind. eapply wp_set_header; [apply lookup_insert_eq|]. fold b2.
    apply wp_bind. eapply wp_header; [apply lookup_insert_eq|]. apply wp_modify.
    specialize (HQ (<[a := b2]> (<[a := b1]> (headers h)))
      (<[footer_addr a b2 := GUARD_PATTERN]> (footers h)) b2 eq_refl eq_refl).
    apply HQ. clear HQ. cbn. rewrite insert_insert_eq.
    assert (Hge : forall l, (forall x, x ∈ l -> x ∈ l1 \/ x ∈ l2) ->
      Forall (block_ok (enable_guards (config h)) (footers h)) l ->
      Forall (block_ok (enable_guards (config h)) (<[footer_addr a b2 := GUARD_PATTERN]> (footers h))) l).
    { intros l Hsub Hokl. apply (guards_elsewhere _ _ _ b _ _ _ _ l1 l2 (inv_laid _ _ Hi) Hsub Hokl). }
    rewrite <- Eg in *. apply (inv_mark h l1 a b b2 l2); try done; [|by apply Hge; auto..].
    split; [done|]. intros _ _. split; [done|]. apply lookup_insert_eq.
  - apply wp_ret. specialize (HQ (<[a := b1]> (headers h)) (footers h) b1 eq_refl eq_refl).
    apply HQ. clear HQ. rewrite <- Eg in *. apply (inv_mark h l1 a b b1 l2); try done.
    split; [done|]. intros _ Hg. congruence.
Qed.

Lemma inv_mutex h l b : inv h l -> inv (h <| mutex := b |>) l.
Proof. intros []. by constructor. Qed.
Lemma inv_stats h l f : inv h l -> inv (h <| stats ::= f |>) l.
Proof. intros []. by constructor. Qed.

(** ** The interface *)

(** What allocation does to the block it takes. *)
Definition take_view (a s sz : Z) : list (Z * Z * bool) :=
  if s - sz - BLOCK_OVERHEAD <? MIN_BLOCK_SIZE then [(a, s, true)]
  else [(a, sz, true); (a + BLOCK_OVERHEAD + sz, s - sz - 2 * BLOCK_OVERHEAD, false)].

(** Every block that is large enough is large enough for one more header and
    footer. *)
Definition roomy (sz : Z) (l : list (Z * MemBlock)) : Prop :=
  Forall (fun x => fits sz x -> sz + BLOCK_OVERHEAD <= mb_size x.2) l.

Definition allocated (sz : Z) (l l' : list (Z * MemBlock)) (ptr : Z) : Prop :=
  (ptr = 0 /\ view l' = view l /\ Forall (fun x => ~ fits sz x) l) \/
  exists v1 a s v2, view l = v1 ++ (a, s, false) :: v2 /\ sz <= s /\
    ptr = a + SIZEOF_MEMBLOCK /\ view l' = v1 ++ take_view a s sz ++ v2 /\
    Forall (fun x => fits sz x -> s <= mb_size x.2) l.

Lemma split_view a b sz l2 :
  is_used b = false ->
  exists c l3, split_at a b sz l2 = (a, c) :: l3 /\
    take_view a (mb_size b) sz = [(a, mb_size c, true)] ++ drop 1 (take_view a (mb_size b) sz) /\
    is_used c = false /\
    view l3 = drop 1 (take_view a (mb_size b) sz) ++ view l2.
Proof.
  intros Hu. unfold split_at, take_view. destruct (_ <? _).
  - by exists b, l2.
  - eexists _, _. split; [done|]. cbn. split_and!; try done. by rewrite view_relink.
Qed.

Lemma wp_heap_alloc sz0 file line h m l :
  inv h l -> mutex h = true -> roomy (align_size sz0) l ->
  wp (heap_alloc sz0 file line) (fun ptr h' _ => exists l',
    inv h' l' /\ mutex h' = false /\ mm_initialized h' = mm_initialized h /\ pools h' = pools h /\
    allocated (align_size sz0) l l' ptr) h m.
Proof.
  intros Hi Hm Hr. unfold heap_alloc. cbv zeta. set (sz := align_size sz0) in *.
  assert (Hsz : 0 <= sz) by apply u32_range.
  apply wp_bind. eapply wp_best_fit; [done|..].
  - intros Hnone. simpl. apply wp_bind. unfold exit_critical. apply wp_bind, wp_get. rewrite Hm.
    apply wp_modify, wp_ret. exists l. split_and!; try done; [by apply inv_mutex|]. by left.
  - intros l1 [a b] l2 -> [Hu Hle] Hbest. simpl in *.
    assert (Hrx : sz + BLOCK_OVERHEAD <= mb_size b).
    { unfold roomy in Hr. rewrite Forall_forall in Hr. apply (Hr (a, b)); [set_solver|done]. }
    pose proof (inv_block _ _ _ _ Hi) as (_ & _ & _ & Hlo & _). pose proof (inv_base _ _ Hi).
    simpl in Hlo. rewrite (proj2 (Z.eqb_neq a 0)) by lia.
    apply wp_bind. eapply wp_split; [done|done|done|lia|]. intros hs lb Hi1.
    destruct (split_view a b sz l2 Hu) as (c & l3 & Hsp & Htv & Huc & Hv3).
    rewrite Hsp in Hi1. apply wp_bind_assoc, wp_bind. eapply wp_use; [exact Hi1|].
    intros hs' fs b' Hsb Hub Hi2. apply wp_bind. unfold on_stats. apply wp_bind, wp_get.
    set (h2 := h <| headers := hs |> <| last_block := lb |> <| headers := hs' |> <| footers := fs |>) in *.
    assert (Hend : forall f, wp (exit_critical;; mret (a + SIZEOF_MEMBLOCK)) (fun ptr h' _ => exists l',
      inv h' l' /\ mutex h' = false /\ mm_initialized h' = mm_initialized h /\ pools h' = pools h /\
      allocated sz (l1 ++ (a, b) :: l2) l' ptr) (h2 <| stats ::= f |>) m).
    { intros f. apply wp_bind. unfold exit_critical. apply wp_bind, wp_get. simpl. rewrite Hm.
      apply wp_modify, wp_ret. exists (l1 ++ (a, b') :: l3).
      split_and!; try done; [by destruct Hi2; constructor|]. right.
      exists (view l1), a, (mb_size b), (view l2). rewrite !view_app. simpl. rewrite Hu, Hub, Hv3, Hsb.
      split_and!; try done. by rewrite Htv. }
    destruct (enable_stats _).
    + apply wp_modify, Hend.
    + apply wp_ret. specialize (Hend (fun s => s)). by destruct h.
Qed.

(** *** Near fits

    A free block that is larger than the request by less than the overhead: the
    remaining size of [split_block] underflows, and a header that claims nearly
    4 GB is written at the end of the block taken. *)
Definition overrun (sz : Z) (l : list (Z * MemBlock)) (h' : Heap) : Prop :=
  exists v1 a s v2 nb, view l = v1 ++ (a, s, false) :: v2 /\ sz <= s < sz + BLOCK_OVERHEAD /\
    headers h' !! (a + BLOCK_OVERHEAD + sz) = Some nb /\ is_used nb = false /\
    mb_size nb = 2 ^ 32 - 2 * BLOCK_OVERHEAD + (s - sz) /\
    forall l', ~ inv h' l'.

(** The part of the state that the steps after the split leave alone. *)
Definition around (n : Z) (h : Heap) : MemConfig * Z * option (Z * bool) :=
  (config h, heap_memory h, (fun b => (mb_size b, is_used b)) <$> headers h !! n).

Lemma around_header n a : keeps (around n) (header a).
Proof.
  unfold header. apply keeps_bind; [apply keeps_get|]. intros h.
  destruct (_ !! _); [apply keeps_ret|apply keeps_fault].
Qed.
Lemma around_set_header n a f :
  a <> n \/ (forall b, mb_size (f b) = mb_size b /\ is_used (f b) = is_used b) ->
  keeps (around n) (set_header a f).
Proof.
  intros Ha h m. unfold set_header, header. apply wlp_bind, wlp_bind, wlp_get.
  destruct (headers h !! a) as [b|] eqn:E; [|apply wlp_fault]. apply wlp_ret.
  unfold wlp, modify, around. cbn.
  destruct (decide (a = n)) as [->|]; [|by rewrite lookup_insert_ne].
  rewrite lookup_insert_eq, E. cbn. destruct Ha as [?|Ha]; [done|].
  destruct (Ha b) as [-> ->]. done.
Qed.
Lemma around_use n a f g r : a <> n ->
  keeps (around n) (set_header a f;; setup_block_guards a;; on_stats g;; exit_critical;; mret (A := Z) r).
Proof.
  intros Ha. apply keeps_bind; [apply around_set_header; by left|]. intros _. apply keeps_bind.
  - unfold setup_block_guards. apply keeps_bind; [apply keeps_get|]. intros h.
    destruct (_ || _); [apply keeps_ret|].
    apply keeps_bind; [apply around_set_header; by left|]. intros _.
    apply keeps_bind; [apply around_header|]. intros b. by apply keeps_modify.
  - intros _. apply keeps_bind; [|intros _; apply keeps_bind; [|intros _; apply keeps_ret]].
    + unfold on_stats. apply keeps_bind; [apply keeps_get|]. intros h.
      destruct (enable_stats _); [by apply keeps_modify|apply keeps_ret].
    + unfold exit_critical. apply keeps_bind; [apply keeps_get|]. intros h.
      destruct (mutex h); [by apply keeps_modify|apply keeps_fault].
Qed.

(** A header in the heap whose block ends behind it: no list of blocks fits. *)
Lemma no_inv_behind h n nb :
  in_heap n SIZEOF_MEMBLOCK h = true -> headers h !! n = Some nb ->
  heap_memory h + heap_size (config h) < block_end (n, nb) -> forall l, ~ inv h l.
Proof.
  intros Hin Hn Hend l Hi. unfold in_heap in Hin. apply andb_true_iff in Hin as [Hlo Hhi].
  apply Z.leb_le in Hlo, Hhi.
  destruct (inv_others _ _ Hi n nb Hn) as [([k b] & Hk & Hx)%list_elem_of_fmap|Hout]; [|sizes; lia].
  simpl in Hk. subst k. pose proof (proj1 (Forall_forall _ _) (inv_stored _ _ Hi) _ Hx) as Hb.
  simpl in Hb. rewrite Hn in Hb. injection Hb as <-.
  destruct (laid_in _ _ _ _ (inv_laid _ _ Hi) Hx) as (_ & ? & _). lia.
Qed.

Lemma wlp_split_near a b sz h m l1 l2 :
  inv h (l1 ++ (a, b) :: l2) -> 0 <= sz -> sz <= mb_size b < sz + BLOCK_OVERHEAD ->
  wlp (split_block a sz) (fun _ h' _ =>
    in_heap (a + BLOCK_OVERHEAD + sz) SIZEOF_MEMBLOCK h = true /\
    around (a + BLOCK_OVERHEAD + sz) h' = (config h, heap_memory h,
      Some (2 ^ 32 - 2 * BLOCK_OVERHEAD + (mb_size b - sz), false))) h m.
Proof.
  intros Hi Hsz Hd. set (n := a + BLOCK_OVERHEAD + sz).
  pose proof (inv_block _ _ _ _ Hi) as (Ha & _). simpl in Ha.
  assert (Han : a <> n) by (unfold n; sizes; lia).
  assert (Hrem : u32 (mb_size b - sz - BLOCK_OVERHEAD) = 2 ^ 32 - BLOCK_OVERHEAD + (mb_size b - sz)).
  { unfold u32. symmetry. apply Z.mod_unique with (q := -1); sizes; lia. }
  unfold split_block. apply wlp_bind, wlp_wp. eapply wp_header; [done|]. cbv zeta. rewrite Hrem.
  rewrite (proj2 (Z.ltb_ge _ _)) by (sizes; lia).
  replace (a + SIZEOF_MEMBLOCK + sz + SIZEOF_FOOTER) with n by (unfold n; sizes; lia).
  replace (u32 _) with (2 ^ 32 - 2 * BLOCK_OVERHEAD + (mb_size b - sz))
    by (rewrite u32_small; [|unfold is_u32]; sizes; lia).
  apply wlp_bind. unfold new_header. apply wlp_bind, wlp_get.
  destruct (in_heap n SIZEOF_MEMBLOCK h) eqn:Ein; [|apply wlp_fault].
  destruct (clear_of n (headers h)); [|apply wlp_fault]. simpl.
  apply wlp_modify. eapply wlp_mono.
  - eapply (keeps_bind (around n)); [apply around_header|]. intros b'.
    apply keeps_bind; [|intros _; apply around_set_header; by left].
    destruct (negb _); [|by apply keeps_modify]. apply around_set_header. by right.
  - simpl. intros _ h' _ ->. split; [done|]. unfold around. cbn. by rewrite lookup_insert_eq.
Qed.

(** From any best fit that is not roomy, allocation overruns. *)
Lemma wlp_heap_alloc_near sz0 file line h m l :
  inv h l -> ~ roomy (align_size sz0) l ->
  wlp (heap_alloc sz0 file line) (fun _ h' _ => overrun (align_size sz0) l h') h m.
Proof.
  intros Hi Hr. unfold heap_alloc. cbv zeta. set (sz := align_size sz0) in *.
  assert (Hsz : 0 <= sz) by apply u32_range.
  apply wlp_bind, wlp_wp. eapply wp_best_fit; [done|..].
  { intros Hnone. destruct Hr. unfold roomy. eapply Forall_impl; [exact Hnone|]. naive_solver. }
  intros l1 [a b] l2 -> [Hu Hle] Hbest. simpl in *.
  destruct (decide (mb_size b < sz + BLOCK_OVERHEAD)) as [Hnear|Hroom].
  2: { destruct Hr. unfold roomy. eapply Forall_impl; [exact Hbest|]. simpl. intros x Hx Hf.
       specialize (Hx Hf). lia. }
  pose proof (inv_block _ _ _ _ Hi) as (_ & _ & _ & Hlo & Hs0 & He & _). pose proof (inv_base _ _ Hi).
  pose proof (inv_size _ _ Hi). simpl in Hlo, Hs0. rewrite (proj2 (Z.eqb_neq a 0)) by lia.
  apply wlp_bind. eapply wlp_mono; [eapply wlp_split_near; [done|done|lia]|].
  intros _ h1 m1 [Hin Har]. eapply wlp_mono; [apply around_use with (n := a + BLOCK_OVERHEAD + sz); sizes; lia|].
  simpl. intros _ h' _ Heq. rewrite Har in Heq. unfold around in Heq. injection Heq as Hc Hm Hh.
  destruct (headers h' !! _) as [nb|] eqn:En; [|done]. injection Hh as Hsize Hfree.
  exists (view l1), a, (mb_size b), (view l2), nb. rewrite view_app. simpl. rewrite Hu.
  split_and!; try done. eapply no_inv_behind; [|exact En|].
  - unfold in_heap in *. by rewrite Hc, Hm.
  - unfold block_end. simpl. rewrite Hc, Hm, Hsize. sizes. lia.
Qed.

(** What freeing does: the block becomes free and is merged with the free block
    behind it and with the free block before it. *)
Definition merge_behind (a s : Z) (v2 : list (Z * Z * bool)) : list (Z * Z * bool) :=
  match v2 with
  | (_, ns, false) :: v2 => (a, s + ns + BLOCK_OVERHEAD, false) :: v2
  | _ => (a, s, false) :: v2
  end.
Definition give_view (v1 : list (Z * Z * bool)) (a s : Z) (v2 : list (Z * Z * bool))
  : list (Z * Z * bool) :=
  match last v1, merge_behind a s v2 with
  | Some (p, ps, false), (_, s', _) :: v2' =>
      take (length v1 - 1) v1 ++ (p, ps + s' + BLOCK_OVERHEAD, false) :: v2'
  | _, v2' => v1 ++ v2'
  end.

Definition free_of (h h' : Heap) : Prop :=
  exists hs lb, h' = h <| headers := hs |> <| last_block := lb |>.
Lemma free_of_refl h : free_of h h.
Proof. exists (headers h), (last_block h). by destruct h. Qed.
Lemma free_of_trans h1 h2 h3 : free_of h1 h2 -> free_of h2 h3 -> free_of h1 h3.
Proof. intros (? & ? & ->) (hs & lb & ->). by exists hs, lb. Qed.

(** First half of [coalesce]. *)
Lemma wp_merge_behind a b l1 l2 h m Q :
  inv h (l1 ++ (a, b) :: l2) -> is_used b = false ->
  (forall h' b' l2', inv h' (l1 ++ (a, b') :: l2') -> is_used b' = false -> free_of h h' ->
     view ((a, b') :: l2') = merge_behind a (mb_size b) (view l2) -> Q tt h' m) ->
  wp (b ← header a;
      if negb (mb_next b =? 0) then
        n ← header (mb_next b);
        if negb (is_used n) then absorb a (mb_next b) else mret tt
      else mret tt) Q h m.
Proof.
  intros Hi Hu HQ. pose proof (inv_block _ _ _ _ Hi) as (Ha & Hn & _). simpl in *.
  apply wp_bind. eapply wp_header; [done|]. rewrite Hn.
  destruct l2 as [|[n nb] l2]; simpl.
  - apply wp_ret. eapply HQ; [done|done|apply free_of_refl|]. simpl. by rewrite Hu.
  - pose proof (inv_pair _ _ _ _ _ _ _ Hi) as (_ & Hnb & _ & _ & _ & _ & Hn0 & _).
    rewrite (proj2 (Z.eqb_neq n 0)) by lia. simpl. apply wp_bind. eapply wp_header; [done|].
    destruct (is_used nb) eqn:En; simpl.
    + apply wp_ret. eapply HQ; [done|done|apply free_of_refl|]. simpl. by rewrite Hu, En.
    + eapply wp_absorb; [done|done|]. intros hs lb Hi' _. eapply HQ; [exact Hi'|done|by eexists _, _|].
      simpl. rewrite view_relink. replace (is_used (joined b nb)) with false by done.
      by rewrite En.
Qed.

Lemma wp_coalesce a b l1 l2 h m Q :
  inv h (l1 ++ (a, b) :: l2) -> is_used b = false ->
  (forall h' l', inv h' l' -> free_of h h' ->
     view l' = give_view (view l1) a (mb_size b) (view l2) -> Q tt h' m) ->
  wp (coalesce a) Q h m.
Proof.
  intros Hi Hu HQ. unfold coalesce. apply wp_bind_assoc, wp_bind.
  eapply wp_merge_behind; [done|done|]. intros h1 b1 l3 Hi1 Hu1 Hf1 Hv1.
  pose proof (inv_block _ _ _ _ Hi1) as (Ha1 & _ & Hp1 & _). simpl in *.
  apply wp_bind. eapply wp_header; [done|]. rewrite Hp1. unfold give_view in HQ.
  rewrite <- Hv1 in HQ.
  destruct l1 as [|[p pb] l1 _] using rev_ind.
  - simpl. apply wp_ret. by eapply HQ.
  - rewrite lst_app. simpl. rewrite <- app_assoc in Hi1. simpl in Hi1.
    pose proof (inv_pair _ _ _ _ _ _ _ Hi1) as (Hpb & _ & _ & _ & _ & _ & _ & _ & _ & Hlo & _).
    pose proof (inv_base _ _ Hi1). rewrite (proj2 (Z.eqb_neq p 0)) by lia. simpl.
    rewrite view_app in HQ. simpl in HQ. rewrite last_snoc in HQ.
    apply wp_bind. eapply wp_header; [done|]. destruct (is_used pb) eqn:Ep; simpl.
    + apply wp_ret. eapply HQ; [exact Hi1|done|]. rewrite view_app. simpl. rewrite Ep.
      by rewrite <- app_assoc.
    + eapply wp_absorb; [exact Hi1|done|]. intros hs lb Hi2 _. eapply HQ; [exact Hi2| |].
      * eapply free_of_trans; [exact Hf1|by eexists _, _].
      * rewrite view_app. simpl. rewrite view_relink, length_app. simpl.
        rewrite take_app_length' by lia. f_equal. f_equal. unfold joined; simpl.
        f_equal. unfold is_used in *. simpl. by rewrite Ep.
Qed.

Lemma wp_heap_free junk a b l1 l2 h m :
  inv h (l1 ++ (a, b) :: l2) -> mutex h = true -> is_used b = true -> mb_size b <> 0 ->
  enable_guards (config h) = true ->
  wp (heap_free junk a) (fun _ h' _ => exists l', inv h' l' /\ mutex h' = false /\
    mm_initialized h' = mm_initialized h /\ pools h' = pools h /\
    view l' = give_view (view l1) a (mb_size b) (view l2)) h m.
Proof.
  intros Hi Hm Hu Hs Hg. pose proof (inv_block _ _ _ _ Hi) as (Ha & _ & _ & Hlo & Hs0 & He & _).
  simpl in *. pose proof (inv_base _ _ Hi) as Hbase. pose proof (inv_size _ _ Hi) as Hsize.
  pose proof (inv_blocks _ _ Hi) as [Hok1 [[Hpl Hgd] Hok2]%Forall_cons]%Forall_app.
  destruct (Hgd Hu Hg) as [Hg1 Hg2]. simpl in *.
  unfold heap_free. apply wp_bind, wp_get, wp_bind. eapply wp_header; [done|].
  assert (Hv : is_valid_block a b h = true).
  { unfold is_valid_block, u64. rewrite Z.mod_small by (sizes; lia).
    rewrite (proj2 (Z.eqb_neq a 0)), (proj2 (Z.eqb_neq (mb_size b) 0)) by lia. simpl.
    rewrite !andb_true_iff, !Z.leb_le, Z.ltb_lt. sizes. simpl in *. lia. }
  assert (Hc : check_block_guards junk a b h = true).
  { unfold check_block_guards. rewrite Hg, (proj2 (Z.eqb_neq a 0)) by lia. simpl. rewrite Hg1, Hg2. done. }
  rewrite Hv, Hu, Hc. simpl.
  assert (Hgo : forall f, wp (set_header a (fun b => b <| mb_flags := MEM_BLOCK_FREE |>
      <| mb_file := 0 |> <| mb_line := 0 |>);; coalesce a;; exit_critical)
    (fun _ h' _ => exists l', inv h' l' /\ mutex h' = false /\
    mm_initialized h' = mm_initialized h /\ pools h' = pools h /\
    view l' = give_view (view l1) a (mb_size b) (view l2)) (h <| stats ::= f |>) m).
  { intros f. apply wp_bind. eapply wp_set_header; [exact Ha|].
    set (b1 := b <| mb_flags := _ |> <| mb_file := _ |> <| mb_line := _ |>).
    assert (Hi1 : inv (h <| stats ::= f |> <| headers ::= <[a := b1]> |>) (l1 ++ (a, b1) :: l2)).
    { assert (Hk : inv (h <| headers ::= <[a := b1]> |> <| footers := footers h |>) (l1 ++ (a, b1) :: l2))
        by (by apply (inv_mark h l1 a b b1 l2)). destruct Hk. by constructor. }
    apply wp_bind. eapply wp_coalesce; [exact Hi1|done|].
    intros h' l' Hi' (hs & lb & ->) Hv'. unfold exit_critical. apply wp_bind, wp_get. simpl.
    rewrite Hm. apply wp_modify. exists l'. split_and!; try done. by destruct Hi'; constructor. }
  apply wp_bind. unfold on_stats. apply wp_bind, wp_get. destruct (enable_stats _).
  - apply wp_modify, Hgo.
  - apply wp_ret. specialize (Hgo (fun s => s)). by destruct h.
Qed.

(** ** Defragmentation *)

(** No two neighbours are both free. *)
Fixpoint coalesced (l : list (Z * MemBlock)) : Prop :=
  match l with
  | x :: ((y :: _) as l') => (is_used x.2 = true \/ is_used y.2 = true) /\ coalesced l'
  | _ => True
  end.
Definition in_use (l : list (Z * MemBlock)) : list (Z * Z * bool) :=
  filter (fun v => v.2 = true) (view l).

Lemma coalesced_app l1 x l2 : coalesced (l1 ++ [x]) -> coalesced (x :: l2) -> coalesced (l1 ++ x :: l2).
Proof.
  induction l1 as [|y [|z l1] IH]; simpl; try done; [naive_solver|].
  intros [H1 H2] H3. split; [done|]. by apply IH.
Qed.

Lemma in_use_app l1 l2 : in_use (l1 ++ l2) = in_use l1 ++ in_use l2.
Proof. unfold in_use. by rewrite view_app, filter_app. Qed.
Lemma in_use_relink p l : in_use (relink p l) = in_use l.
Proof. unfold in_use. by rewrite view_relink. Qed.
Lemma in_use_free a b l : is_used b = false -> in_use ((a, b) :: l) = in_use l.
Proof. intros Hu. unfold in_use. simpl. by rewrite filter_cons, decide_False by (simpl; congruence). Qed.

(** One pass from block [a] on: afterwards the rest is coalesced; the result is
    [false] only when nothing was changed. *)
Lemma wp_defrag_pass fuel a b l1 l2 merged h m :
  inv h (l1 ++ (a, b) :: l2) -> (length l2 <= fuel)%nat ->
  wp (defrag_pass fuel a merged) (fun r h' m' => exists b' l2',
    inv h' (l1 ++ (a, b') :: l2') /\ free_of h h' /\ is_used b' = is_used b /\
    coalesced ((a, b') :: l2') /\ in_use ((a, b') :: l2') = in_use ((a, b) :: l2) /\
    (r = false -> merged = false /\ h' = h) /\
    (size (headers h') <= size (headers h))%nat /\
    (r = true -> merged = true \/ (size (headers h') < size (headers h))%nat) /\ m' = m) h m.
Proof.
  revert a b l1 l2 merged h. induction fuel as [|fuel IH]; intros a b l1 l2 merged h Hi Hf;
    pose proof (inv_block _ _ _ _ Hi) as (Ha & Hn & _ & Hlo & _); pose proof (inv_base _ _ Hi);
    simpl in Ha, Hn, Hlo; cbn [defrag_pass]; rewrite (proj2 (Z.eqb_neq a 0)) by lia;
    apply wp_bind; (eapply wp_header; [done|]); rewrite Hn; destruct l2 as [|[n nb] l2];
    simpl hd; try (simpl in Hf; lia).
  1,2: simpl; apply wp_ret; exists b, []; split_and!; try done; [apply free_of_refl|auto].
  pose proof (inv_pair _ _ _ _ _ _ _ Hi) as (_ & Hnb & _ & _ & _ & _ & Hn0 & _).
  rewrite (proj2 (Z.eqb_neq n 0)) by lia. apply wp_bind. eapply wp_header; [done|].
  simpl in Hf. destruct (is_used b) eqn:Eb; simpl.
  2: destruct (is_used nb) eqn:En; simpl.
  3: { apply wp_bind. eapply wp_absorb; [done|done|]. intros hs lb Hi1 Hsz.
       eapply wp_mono; [apply (IH a (joined b nb)); [exact Hi1|]|].
       { destruct l2; simpl in *; lia. }
       intros r h' m' (b' & l2' & Hi' & Hfo & Hu' & Hco & Huse & Hr & Hle & Hr' & ->).
       exists b', l2'. split_and!; try done.
       - by rewrite Hu'.
       - rewrite Huse, !in_use_free by done. apply in_use_relink.
       - intros ->. by destruct (Hr eq_refl).
       - simpl in Hle. lia.
       - intros _. right. simpl in Hle. lia. }
  all: assert (Hi' : inv h ((l1 ++ [(a, b)]) ++ (n, nb) :: l2)) by (by rewrite <- app_assoc);
    (eapply wp_mono; [apply (IH n nb _ _ _ _ Hi'); lia|]);
    intros r h' m' (b' & l2' & Hi2 & Hfo & Hu' & Hco & Huse & Hr & Hle & Hr' & ->);
    exists b, ((n, b') :: l2'); rewrite <- app_assoc in Hi2; split_and!; try done.
  - by left.
  - change (in_use ([(a, b)] ++ (n, b') :: l2') = in_use ([(a, b)] ++ (n, nb) :: l2)).
    rewrite !in_use_app. by f_equal.
  - right. simpl. by rewrite Hu'.
  - change (in_use ([(a, b)] ++ (n, b') :: l2') = in_use ([(a, b)] ++ (n, nb) :: l2)).
    rewrite !in_use_app. by f_equal.
Qed.

Lemma wp_defrag_loop fuel h m l :
  inv h l -> (size (headers h) < fuel)%nat ->
  wp (defrag_loop fuel) (fun _ h' m' => exists l', inv h' l' /\ free_of h h' /\
    coalesced l' /\ in_use l' = in_use l /\ m' = m) h m.
Proof.
  revert h l. induction fuel as [|fuel IH]; intros h l Hi Hf; [lia|]. cbn [defrag_loop].
  apply wp_bind, wp_get, wp_bind. pose proof (inv_fuel _ _ Hi) as Hfuel.
  rewrite (inv_first _ _ Hi). destruct l as [|[a b] l]; [by destruct (inv_nonempty _ _ Hi)|]. simpl in *.
  eapply wp_mono; [apply (wp_defrag_pass _ a b [] l false h m Hi); lia|]. simpl.
  intros r h' m' (b' & l2' & Hi' & Hfo & _ & Hco & Huse & Hr & Hle & Hr' & ->). destruct r.
  - destruct (Hr' eq_refl) as [|Hlt]; [done|].
    eapply wp_mono; [apply (IH h' _ Hi'); lia|].
    intros _ h2 m2 (l2 & ? & ? & ? & Hu2 & ->). exists l2. split_and!; try done.
    + by eapply free_of_trans.
    + by rewrite Hu2.
  - apply wp_ret. eexists. by split_and!.
Qed.

(** ** Pools *)

(** The free list holds exactly the blocks not in use, each once. *)
Record pool_wf (p : MemoryPool) : Prop := mkPoolWf {
  pw_size : 0 < block_size p;
  pw_count : 0 <= block_count p < 2 ^ 32;
  pw_list : length (free_list p) = Z.to_nat (block_count p);
  pw_used : length (block_used p) = Z.to_nat (block_count p);
  pw_free : (free_blocks p <= length (free_list p))%nat;
  pw_nodup : NoDup (take (free_blocks p) (free_list p));
  pw_exact : forall i, i ∈ take (free_blocks p) (free_list p) <->
               0 <= i < block_count p /\ block_used p !! Z.to_nat i = Some false
}.

Lemma pool_index_block p i :
  0 < block_size p -> 0 <= i < 2 ^ 32 -> pool_index p (pool_block p i + SIZEOF_MEMBLOCK) = i.
Proof.
  intros Hb Hi. unfold pool_index, pool_block.
  replace (pool_memory p + i * block_size p + SIZEOF_MEMBLOCK - SIZEOF_MEMBLOCK - pool_memory p)
    with (i * block_size p) by lia.
  rewrite Z.quot_mul by lia. by apply u32_small.
Qed.

(** Taking a block. *)
Lemma pool_take_spec p :
  pool_wf p -> free_blocks p <> 0%nat ->
  exists i p', pool_take p = Some (i, p') /\ pool_wf p' /\ 0 <= i < block_count p /\
    block_used p !! Z.to_nat i = Some false /\
    block_used p' = <[Z.to_nat i := true]> (block_used p) /\
    S (free_blocks p') = free_blocks p /\
    pool_memory p' = pool_memory p /\ block_size p' = block_size p /\ block_count p' = block_count p.
Proof.
  intros [Hs Hc Hl Hu Hf Hn He] H0. unfold pool_take. destruct (free_blocks p) as [|n] eqn:En; [done|].
  destruct (lookup_lt_is_Some_2 (free_list p) n) as [i Hi]; [lia|]. rewrite Hi. simpl.
  rewrite (take_S_r _ _ _ Hi) in Hn, He. apply NoDup_app in Hn as (Hn & Hd & _).
  destruct (proj1 (He i)) as [Hr Hfalse]; [set_solver|].
  eexists i, _. split; [done|]. split_and!; try done; try lia.
  constructor; simpl; try done; try lia; [by rewrite length_insert|].
  intros j. destruct (decide (j = i)) as [->|Hne].
  - rewrite list_lookup_insert_eq by lia. split; [|naive_solver].
    intros Hin. exfalso. by apply (Hd i Hin), list_elem_of_singleton.
  - specialize (He j). rewrite elem_of_app, list_elem_of_singleton in He. split.
    + intros Hin. destruct (proj1 He) as [? ?]; [by left|]. split; [done|].
      rewrite list_lookup_insert_ne; [done|]. lia.
    + intros [Hrj Hj]. rewrite list_lookup_insert_ne in Hj by lia.
      destruct (proj2 He) as [|]; [done|done|done].
Qed.

(** Giving a block back. *)
Lemma pool_give_spec p i :
  pool_wf p -> 0 <= i < block_count p -> block_used p !! Z.to_nat i = Some true ->
  exists p', free_to_pool p (pool_block p i + SIZEOF_MEMBLOCK) = Some (Some p') /\ pool_wf p' /\
    block_used p' = <[Z.to_nat i := false]> (block_used p) /\
    free_blocks p' = S (free_blocks p) /\
    pool_memory p' = pool_memory p /\ block_size p' = block_size p /\ block_count p' = block_count p.
Proof.
  intros [Hs Hc Hl Hu Hf Hn He] Hi Ht. unfold free_to_pool.
  rewrite pool_index_block by lia. rewrite (proj2 (Z.eqb_neq _ 0)) by lia.
  rewrite (proj2 (Z.leb_gt _ _)) by lia. rewrite Ht. simpl. eexists. split; [done|].
  assert (Hni : i ∉ take (free_blocks p) (free_list p)).
  { rewrite He. intros [_ ?]. congruence. }
  assert (Hfb : (free_blocks p < length (free_list p))%nat).
  { apply Nat.nle_gt. intros Hge. apply Hni. rewrite take_ge by lia.
    destruct (decide (i ∈ free_list p)) as [|Hnot]; [done|]. exfalso.
    rewrite take_ge in Hn by lia.
    assert (Hsub : (i :: free_list p) ⊆+ (Z.of_nat <$> seq 0 (Z.to_nat (block_count p)))).
    { apply NoDup_submseteq; [by constructor|]. intros j [->|Hj]%elem_of_cons;
        apply list_elem_of_fmap; [exists (Z.to_nat i)|exists (Z.to_nat j)];
        (split; [|apply elem_of_seq]); try lia;
        apply (He j) in Hj as [? _] || (rewrite take_ge in He by lia; apply He in Hj as [? _]); lia. }
    apply submseteq_length in Hsub. simpl in Hsub. rewrite length_fmap, length_seq in Hsub. lia. }
  split_and!; try done. constructor; simpl; rewrite ?length_insert; try done; try lia.
  - rewrite take_push by done. apply NoDup_app. split_and!; [done| |apply NoDup_singleton].
    by intros x Hx ->%list_elem_of_singleton.
  - intros j. rewrite take_push, elem_of_app, list_elem_of_singleton, He by done.
    destruct (decide (j = i)) as [->|Hne].
    + rewrite list_lookup_insert_eq by lia. naive_solver.
    + split.
      * intros [[? ?]|?]; [|done]. split; [done|]. rewrite list_lookup_insert_ne by lia. done.
      * intros [? Hj]. rewrite list_lookup_insert_ne in Hj by lia. by left.
Qed.

(** ** Properties *)

Lemma wp_enter_heap Q h m :
  mutex h = false -> Q tt (h <| mutex := true |>) m -> wp enter_critical Q h m.
Proof. intros Hm HQ. unfold enter_critical. apply wp_bind, wp_get. rewrite Hm. by apply wp_modify. Qed.


(** A heap of 4096 bytes at address 4096, guards on. *)
Definition heap_boot : Heap := mkHeap config_zero 0 0 0 [] stats_zero false ∅ ∅ false.
Definition demo_config : MemConfig := mkMemConfig 4096 None None 0 true false true.
Definition after {A} (c : M Heap A) (h : Heap) : Heap :=
  match c h boot with Some (_, h', _) => h' | None => h end.
Definition demo_heap : Heap :=
  after (Memory_Init (Some demo_config) 4096 (fun _ => mkGrant 0 false false)) heap_boot.
Definition demo_blocks : list (Z * MemBlock) := [(4096, mkBlock 4044 MEM_BLOCK_FREE 0 0 0 0 0)].

Lemma demo_inv : inv demo_heap demo_blocks.
Proof.
  constructor; try done.
  - by repeat constructor.
  - intros k v. change (headers demo_heap)
      with ({[4096 := mkBlock 4044 MEM_BLOCK_FREE 0 0 0 0 0]} : gmap Z MemBlock).
    intros [<- <-]%lookup_singleton_Some. left. by left.
  - repeat constructor; done.
Qed.

Lemma wp_free_unguarded junk ptr b h m :
  mutex h = false -> enable_guards (config h) = false ->
  headers h !! (ptr - SIZEOF_MEMBLOCK) = Some b -> is_pool b = false ->
  wp (Memory_Free junk ptr) (fun _ h' m' => h' = h /\ m' = m) h m.
Proof.
  intros Hm Hg Hb Hp. unfold Memory_Free. apply wp_bind, wp_get.
  destruct (_ || _); [by apply wp_ret|]. apply wp_bind, wp_enter_heap; [done|].
  apply wp_bind. eapply wp_header; [exact Hb|]. rewrite Hp. unfold heap_free.
  apply wp_bind, wp_get, wp_bind. eapply wp_header; [exact Hb|].
  unfold check_block_guards. simpl. rewrite Hg. simpl. rewrite orb_true_r.
  unfold exit_critical. apply wp_bind, wp_get. simpl. apply wp_modify. split; [|done].
  destruct h; simpl in *. by subst.
Qed.


(** One block in use, then the rest. *)
Definition demo_heap1 : Heap := after (Memory_Alloc 104 7 8) demo_heap.
Definition demo_used : MemBlock := mkBlock 104 MEM_BLOCK_USED 7 8 4252 0 GUARD_PATTERN.
Definition demo_rest : MemBlock := mkBlock 3836 MEM_BLOCK_FREE 0 0 0 4096 0.
Lemma demo_inv1 : inv demo_heap1 ([] ++ (4096, demo_used) :: [(4252, demo_rest)]).
Proof.
  assert (Hh : headers demo_heap1 = <[4252 := demo_rest]> {[4096 := demo_used]})
    by (vm_compute; reflexivity).
  constructor; try done.
  - repeat constructor.
  - intros k v. rewrite Hh. intros [[<- _]|[_ [<- _]%lookup_singleton_Some]]%lookup_insert_Some;
      left; simpl; [by right; left|by left].
  - repeat constructor; done.
Qed.

(** The same state configured without guards. *)
Definition unguarded (h : Heap) : Heap :=
  h <| config := mkMemConfig 4096 None None 0 false false true |>.

Lemma inv_unguarded h l : inv h l -> heap_size (config h) = 4096 -> inv (unguarded h) l.
Proof.
  intros [? Hs ? ? ? ? ? Hl Ho Hb] He. rewrite He in *. constructor; try done.
  eapply Forall_impl; [exact Hb|]. intros x [? _]. by split.
Qed.


(** C39. [Memory_Defragment] terminates: its do-while loop ends within as many
    rounds as there are blocks, no two neighbouring blocks are free afterwards, the
    blocks in use are untouched, and the list stays well linked and in order. *)
Theorem defragment_terminates h l m :
  inv h l -> mutex h = false -> mm_initialized h = true ->
  wp Memory_Defragment (fun _ h' _ => exists l',
    inv h' l' /\ mutex h' = false /\ coalesced l' /\ in_use l' = in_use l) h m.
Proof.
  intros Hi Hm Hin. unfold Memory_Defragment. apply wp_bind, wp_get. rewrite Hin. cbn [negb].
  apply wp_bind, wp_enter_heap; [done|]. apply wp_bind.
  eapply wp_mono; [apply (wp_defrag_loop _ _ _ l); [by apply inv_mutex|unfold list_fuel; simpl; lia]|].
  intros _ h' m' (l' & Hi' & (hs & lb & ->) & Hco & Huse & ->). unfold exit_critical.
  apply wp_bind, wp_get. simpl. apply wp_modify. exists l'. split_and!; try done.
  by destruct Hi'; constructor.
Qed.

(** Witness of [defragment_terminates]. *)
Lemma defragment_terminates_witness :
  wp Memory_Defragment (fun _ h' _ => exists l',
    inv h' l' /\ in_use l' = [(4096, 104, true)]) demo_heap1 boot.
Proof.
  eapply wp_mono.
  - apply (defragment_terminates demo_heap1 ([] ++ (4096, demo_used) :: [(4252, demo_rest)]) boot
      demo_inv1 eq_refl eq_refl).
  - intros _ h' m' (l' & ? & _ & _ & Hv). exists l'. by rewrite Hv.
Defined.

(**  Pools hand out no block twice: taking a block returns one that was not in
    use and marks it; giving it back restores the pool's usage and succeeds once;
    giving it back again is refused without effect. *)
Theorem pool_take_give p :
  pool_wf p -> free_blocks p <> 0%nat ->
  exists i p1 p2, pool_take p = Some (i, p1) /\ pool_wf p1 /\ 0 <= i < block_count p /\
    block_used p !! Z.to_nat i = Some false /\
    block_used p1 = <[Z.to_nat i := true]> (block_used p) /\
    free_to_pool p1 (pool_block p i + SIZEOF_MEMBLOCK) = Some (Some p2) /\ pool_wf p2 /\
    block_used p2 = block_used p /\ free_blocks p2 = free_blocks p /\
    free_to_pool p2 (pool_block p i + SIZEOF_MEMBLOCK) = Some None.
Proof.
  intros Hw H0. destruct (pool_take_spec p Hw H0) as (i & p1 & Ht & Hw1 & Hi & Hf & Hu1 & Hn1 & Hm1 & Hs1 & Hc1).
  assert (Hlt : (Z.to_nat i < length (block_used p))%nat) by (by eapply lookup_lt_Some).
  destruct (pool_give_spec p1 i Hw1) as (p2 & Hg & Hw2 & Hu2 & Hn2 & Hm2 & Hs2 & Hc2);
    [by rewrite Hc1|rewrite Hu1; by apply list_lookup_insert_eq|].
  assert (Hb1 : pool_block p1 i = pool_block p i) by (unfold pool_block; congruence).
  assert (Hb2 : pool_block p2 i = pool_block p i) by (unfold pool_block; congruence).
  assert (Hback : block_used p2 = block_used p).
  { rewrite Hu2, Hu1, list_insert_insert_eq. by apply list_insert_id. }
  exists i, p1, p2. rewrite Hb1 in Hg. split_and!; try done; try lia.
  unfold free_to_pool. rewrite <- Hb2, pool_index_block by (apply Hw2 || (pose proof (pw_count _ Hw); lia)).
  pose proof (pw_size _ Hw2). rewrite (proj2 (Z.eqb_neq _ 0)) by lia.
  rewrite (proj2 (Z.leb_gt _ _)) by lia. by rewrite Hback, Hf.
Qed.

(** A pool of two blocks of 64 bytes at address 100000. *)
Definition demo_pool : MemoryPool := mkPool 100000 64 2 2 [0; 1] [false; false].
Lemma demo_pool_wf : pool_wf demo_pool.
Proof.
  constructor; simpl; try done; try lia.
  - repeat constructor; set_solver.
  - intros i. rewrite !elem_of_cons, elem_of_nil. split.
    + intros [->|[->|[]]]; done.
    + intros [? _]. lia.
Qed.

(** Witness of [pool_take_give]. *)
Lemma pool_take_give_witness :
  exists i p1 p2, pool_take demo_pool = Some (i, p1) /\
    free_to_pool p1 (pool_block demo_pool i + SIZEOF_MEMBLOCK) = Some (Some p2) /\
    free_to_pool p2 (pool_block demo_pool i + SIZEOF_MEMBLOCK) = Some None.
Proof.
  destruct (pool_take_give demo_pool demo_pool_wf) as (i & p1 & p2 & H); [discriminate|].
  exists i, p1, p2. by destruct H as (? & _ & _ & _ & _ & ? & _ & _ & _ & ?).
Defined.

Lemma clear_at_block h l1 x l2 :
  inv h (l1 ++ x :: l2) -> in_heap x.1 SIZEOF_MEMBLOCK h && clear_of x.1 (headers h) = true.
Proof.
  intros Hi. pose proof (inv_block _ _ _ _ Hi) as (_ & _ & _ & Hlo & Hs & He & _).
  pose proof (inv_laid _ _ Hi) as Hl. apply andb_true_iff. split.
  - unfold in_heap. rewrite andb_true_iff, !Z.leb_le. sizes. lia.
  - apply bool_decide_eq_true. intros k v Hk.
    destruct (inv_others _ _ Hi k v Hk) as [Hin|Hout]; [|sizes; lia].
    apply list_elem_of_fmap in Hin as (y & -> & Hy).
    apply elem_of_app in Hy as [Hy|[->|Hy]%elem_of_cons]; [|by left|].
    + pose proof (laid_disjoint _ _ l1 (x :: l2) y x Hl Hy ltac:(set_solver)).
      destruct (laid_in _ _ _ y Hl) as (_ & _ & ?); [set_solver|]. sizes. lia.
    + rewrite (app_assoc l1 [x] l2 : l1 ++ x :: l2 = _) in Hl.
      pose proof (laid_disjoint _ _ (l1 ++ [x]) l2 x y Hl ltac:(set_solver) Hy). sizes. lia.
Qed.

(** A block that is its own successor keeps the search going for ever. *)
Lemma best_fit_loops fuel sz a best bs hs b :
  hs !! a = Some b -> mb_next b = a -> a <> 0 -> mb_size b <> sz ->
  best_fit_loop fuel sz a best bs hs = None.
Proof.
  intros Hb Hn Ha Hs. revert best bs. induction fuel as [|fuel IH]; intros best bs; simpl;
    rewrite (proj2 (Z.eqb_neq a 0) Ha); [done|]. rewrite Hb, Hn, (proj2 (Z.eqb_neq _ _) Hs).
  destruct (_ && _); apply IH.
Qed.

(**  An exact fit destroys the neighbour.  When [split_block] is applied to a
    block of exactly the requested size, as [Memory_Alloc] does for every reused block
    that fits exactly, the remaining size underflows: the header of the block behind is
    overwritten by a free block of almost 4 GB that is its own successor, whatever it was
    before; a search that reaches it never ends (for any amount of fuel). *)
Theorem exact_fit_destroys_neighbour h l1 a b n nb l2 m :
  inv h (l1 ++ (a, b) :: (n, nb) :: l2) -> n = a + BLOCK_OVERHEAD + mb_size b ->
  wp (split_block a (mb_size b)) (fun _ h' _ => exists nb',
    headers h' !! n = Some nb' /\ is_used nb' = false /\
    mb_size nb' = 2 ^ 32 - 2 * BLOCK_OVERHEAD /\ mb_next nb' = n /\
    forall fuel sz best bs, sz < mb_size nb' ->
      best_fit_loop fuel sz n best bs (headers h') = None) h m.
Proof.
  intros Hi Hadj.
  pose proof (inv_pair _ _ _ _ _ _ _ Hi) as (Ha & Hnb & Hbn & _ & _ & _ & Hn0 & Han & _ & _ & Hnd).
  assert (Hne : a <> n) by (sizes; pose proof (inv_block _ _ _ _ Hi) as (_ & _ & _ & _ & ? & _); simpl in *; lia).
  assert (Hi' : inv h ((l1 ++ [(a, b)]) ++ (n, nb) :: l2)) by (by rewrite <- app_assoc).
  pose proof (clear_at_block _ _ _ _ Hi') as Hclear. simpl in Hclear.
  unfold split_block. apply wp_bind. eapply wp_header; [done|].
  replace (mb_size b - mb_size b - BLOCK_OVERHEAD) with (- BLOCK_OVERHEAD) by lia.
  replace (a + SIZEOF_MEMBLOCK + mb_size b + SIZEOF_FOOTER) with n by (sizes; lia).
  change (u32 (- BLOCK_OVERHEAD) <? MIN_BLOCK_SIZE) with false. cbv iota zeta.
  apply wp_bind. unfold new_header. apply wp_bind, wp_get. rewrite Hclear. apply wp_modify.
  apply wp_bind. eapply wp_header; [cbn; by rewrite lookup_insert_ne|].
  rewrite Hbn, (proj2 (Z.eqb_neq n 0)) by lia. apply wp_bind. simpl.
  eapply wp_set_header; [apply lookup_insert_eq|].
  eapply wp_set_header; [cbn; by rewrite !lookup_insert_ne|]. cbn.
  eexists. split; [rewrite lookup_insert_ne by done; apply lookup_insert_eq|].
  split_and!; try done. intros fuel sz best bs Hlt.
  eapply best_fit_loops; [rewrite lookup_insert_ne by done; apply lookup_insert_eq|done|lia|].
  simpl in *. lia.
Qed.

(** Three blocks: free, in use, free. *)
Definition demo_heap2 : Heap := Eval vm_compute in
  after (Memory_Free (fun _ => 0) 4144) (after (Memory_Alloc 64 0 0) (after (Memory_Alloc 64 0 0) demo_heap)).
Definition demo_blocks2 : list (Z * MemBlock) :=
  [(4096, mkBlock 64 MEM_BLOCK_FREE 0 0 4212 0 GUARD_PATTERN);
   (4212, mkBlock 64 MEM_BLOCK_USED 0 0 4328 4096 GUARD_PATTERN);
   (4328, mkBlock 3708 MEM_BLOCK_FREE 0 0 0 4212 0)].
Lemma demo_inv2 : inv demo_heap2 ([] ++ demo_blocks2).
Proof.
  assert (Hh : headers demo_heap2 = list_to_map demo_blocks2) by reflexivity.
  constructor.
  - reflexivity.
  - vm_compute; split; congruence.
  - discriminate.
  - reflexivity.
  - reflexivity.
  - rewrite Hh. repeat constructor.
  - vm_compute; repeat split.
  - vm_compute; repeat split; congruence.
  - rewrite Hh. intros k v Hk%elem_of_list_to_map_2. left. apply list_elem_of_fmap. by exists (k, v).
  - repeat constructor; try discriminate.
Qed.


(** Witness of [exact_fit_destroys_neighbour]: the block in use at 4212 is lost. *)
Lemma exact_fit_destroys_neighbour_witness :
  wp (split_block 4096 64) (fun _ h' _ => exists nb',
    headers h' !! 4212 = Some nb' /\ is_used nb' = false) demo_heap2 boot.
Proof.
  eapply wp_mono.
  - apply (exact_fit_destroys_neighbour demo_heap2 [] 4096 (mkBlock 64 MEM_BLOCK_FREE 0 0 4212 0 GUARD_PATTERN)
      4212 (mkBlock 64 MEM_BLOCK_USED 0 0 4328 4096 GUARD_PATTERN)
      [(4328, mkBlock 3708 MEM_BLOCK_FREE 0 0 0 4212 0)] boot demo_inv2 eq_refl).
  - intros _ h' m' (nb' & ? & ? & _). by exists nb'.
Defined.

(**  Without guards nothing is ever freed: [check_block_guards] answers false
    when guards are disabled, so [Memory_Free] of a heap block takes the lock,
    reports a corruption and changes nothing. *)
Theorem free_without_guards_leaks junk ptr b h m :
  mutex h = false -> enable_guards (config h) = false ->
  headers h !! (ptr - SIZEOF_MEMBLOCK) = Some b -> is_pool b = false ->
  wp (Memory_Free junk ptr) (fun _ h' m' => h' = h /\ m' = m) h m.
Proof. apply wp_free_unguarded. Qed.

(** Witness of [free_without_guards_leaks]. *)
Lemma free_without_guards_leaks_witness :
  let h := unguarded demo_heap1 in
  wp (Memory_Free (fun _ => 0) 4144) (fun _ h' m' => h' = h /\ m' = boot) h boot.
Proof.
  intros h. apply (free_without_guards_leaks (fun _ => 0) 4144 demo_used h boot); reflexivity.
Defined.

(**  A request close to 4 GB is served from the smallest pool: the overhead
    is added in 32 bits, so [Memory_Alloc] of any size within the overhead of 2^32
    returns a block of the first pool that has a free one of at least that many bytes
    less 2^32. *)
Theorem huge_request_from_pool sz file line h p ps m :
  mm_initialized h = true -> mutex h = false -> enable_guards (config h) = false ->
  2 ^ 32 - BLOCK_OVERHEAD <= sz < 2 ^ 32 ->
  pools h = p :: ps -> pool_wf p -> free_blocks p <> 0%nat -> BLOCK_OVERHEAD <= block_size p ->
  0 < pool_memory p ->
  wp (Memory_Alloc sz file line) (fun ptr _ _ => exists i, 0 <= i < block_count p /\
    ptr = pool_block p i + SIZEOF_MEMBLOCK) h m.
Proof.
  intros Hin Hm Hg Hsz Hps Hw Hf Hbs Hpm. unfold Memory_Alloc. apply wp_bind, wp_get.
  rewrite Hin, (proj2 (Z.eqb_neq sz 0)) by (sizes; lia). simpl. apply wp_bind, wp_enter_heap; [done|].
  assert (Hu : u32 (sz + BLOCK_OVERHEAD) = sz + BLOCK_OVERHEAD - 2 ^ 32).
  { unfold u32. symmetry. apply Z.mod_unique_pos with (q := 1); sizes; lia. }
  assert (Hfp : find_suitable_pool (u32 (sz + BLOCK_OVERHEAD)) h = Some 0%nat).
  { unfold find_suitable_pool. apply find_idx_Some. exists p. rewrite Hps, Hu. simpl.
    split_and!; [done|lia| |lia]. rewrite andb_true_iff, Z.leb_le, Nat.ltb_lt. lia. }
  rewrite Hfp. unfold allocate_from_pool. apply wp_bind, wp_bind, wp_get. simpl. rewrite Hps. simpl.
  apply wp_bind, wp_ret. rewrite (proj2 (Nat.eqb_neq _ _) Hf).
  destruct (pool_take_spec p Hw Hf) as (i & p1 & -> & _ & Hi & _).
  apply wp_bind, wp_modify, wp_bind, wp_modify, wp_bind. unfold setup_block_guards.
  apply wp_bind, wp_get. simpl. rewrite Hg. simpl. apply wp_ret, wp_ret.
  pose proof (pw_size _ Hw) as Hbp.
  assert (0 < pool_block p i) by (unfold pool_block; nia).
  rewrite (proj2 (Z.eqb_neq _ 0)) by (sizes; lia). simpl. unfold on_stats, exit_critical.
  apply wp_bind, wp_bind, wp_get. destruct (enable_stats _);
    [apply wp_modify|apply wp_ret]; apply wp_bind, wp_bind, wp_get; simpl; apply wp_modify, wp_ret; eauto.
Qed.

(** Witness of [huge_request_from_pool]: 4 GB from a block of 64 bytes. *)
Lemma huge_request_from_pool_witness :
  let h := demo_heap <| config := mkMemConfig 4096 None None 0 false false true |>
             <| pools := [demo_pool] |> in
  wp (Memory_Alloc (2 ^ 32 - 1) 0 0) (fun ptr _ _ => exists i, 0 <= i < 2 /\
    ptr = pool_block demo_pool i + SIZEOF_MEMBLOCK) h boot.
Proof.
  intros h. apply (huge_request_from_pool (2 ^ 32 - 1) 0 0 h demo_pool [] boot);
    try reflexivity; try exact demo_pool_wf; try discriminate; vm_compute; split; congruence.
Defined.

(** Two pools: 64-byte blocks at 100000, 128-byte blocks at 100144, as two
    neighbouring allocations may be placed. *)
Definition small_pool : MemoryPool := mkPool 100000 64 2 0 [0; 1] [true; true].
Definition large_pool : MemoryPool := mkPool 100144 128 2 0 [0; 1] [true; true].

(**  A block can be returned to the wrong pool: the signed division rounds
    towards zero, so a block that lies less than one block size before a pool counts as its
    first block.  Freeing the second small block marks the first large block, which is
    still in use, as free. *)
Theorem free_reaches_wrong_pool :
  free_to_pools [large_pool; small_pool] (pool_block small_pool 1 + SIZEOF_MEMBLOCK) =
  Some (Some [mkPool 100144 128 2 1 [0; 1] [false; true]; small_pool]).
Proof. reflexivity. Qed.

(**  [Memory_Deinit] with leak tracking never returns: it holds the
    non-recursive mutex when [Memory_TrackLeaks] takes it again. *)
Theorem deinit_with_tracking_deadlocks h m :
  mm_initialized h = true -> mutex h = false -> enable_tracking (config h) = true ->
  Memory_Deinit h m = None.
Proof.
  intros Hin Hm Ht. destruct h as [? ? ? ? ? ? ini ? ? mu]. simpl in *. subst ini mu.
  unfold Memory_Deinit, Memory_TrackLeaks, enter_critical, mbind, M_bind, get, modify. simpl.
  by rewrite Ht.
Qed.

(** Witness of [deinit_with_tracking_deadlocks]. *)
Lemma deinit_with_tracking_deadlocks_witness :
  Memory_Deinit (demo_heap <| config := mkMemConfig 4096 None None 0 true true true |>) boot = None.
Proof. apply deinit_with_tracking_deadlocks; reflexivity. Defined.
