(* ===== verification/Pools.v ===== *)
(** * Fixed pools

    Three small allocators: [memory/mem_pool.c] (32 blocks of 64 bytes, round-robin
    search, garbage collection by age), [memory/rt_memory.c] (a stack of free blocks
    shared by threads) and [network/buffer_manager.c] (8 buffers, reclaimed by age).
    A pointer to a block is its index.  The threads of [rt_memory.c] are modelled as an
    interleaving of their steps. *)

From S2P Require Import Prelude.

#[local] Arguments Nat.modulo : simpl never.

(** ** memory/mem_pool.c *)
Module MemPool.

Definition POOL_NUM_BLOCKS : nat := 32.
Definition POOL_MAX_AGE : Z := 5000.

Record MemBlock := mkMemBlock { data : list Z; used : bool; timestamp : Z }.
#[export] Instance eta_MemBlock : Eta MemBlock := fun b => mkMemBlock (data b) (used b) (timestamp b).

(** The statics, with [last_allocated] of [MemPool_Alloc]. *)
Record Pool := mkPool {
  blocks : list MemBlock; free_blocks : Z; peak_usage : Z; last_allocated : nat }.
#[export] Instance eta_Pool : Eta Pool := fun p =>
  mkPool (blocks p) (free_blocks p) (peak_usage p) (last_allocated p).

Definition MemPool_Init (p : Pool) : Pool :=
  p <| blocks := replicate POOL_NUM_BLOCKS (mkMemBlock (replicate 64 0) false 0) |>
    <| free_blocks := Z.of_nat POOL_NUM_BLOCKS |> <| peak_usage := 0 |>.

(** The do-while loop of [MemPool_Alloc], [n] probes being left. *)
Fixpoint alloc_loop (n : nat) (now : Z) (p : Pool) : option nat * Pool :=
  match n with
  | O => (None, p)
  | S n =>
      let i := last_allocated p in
      match blocks p !! i with
      | Some b =>
          if negb (used b) then
            (Some i, p <| blocks ::= <[i := b <| used := true |> <| timestamp := now |>]> |>
                       <| free_blocks ::= fun f => u32 (f - 1) |>)
          else alloc_loop n now (p <| last_allocated := ((i + 1) mod POOL_NUM_BLOCKS)%nat |>)
      | None => (None, p)
      end
  end.
Definition MemPool_Alloc (now : Z) (p : Pool) : option nat * Pool :=
  alloc_loop POOL_NUM_BLOCKS now p.

(** A pointer that is no block matches nothing. *)
Definition MemPool_Free (ptr : nat) (p : Pool) : Pool :=
  match blocks p !! ptr with
  | Some b => p <| blocks ::= <[ptr := b <| used := false |>]> |>
                <| free_blocks ::= fun f => u32 (f + 1) |>
  | None => p
  end.

Definition MemPool_GetFreeBlocks (p : Pool) : Z := free_blocks p.

(** [while (src < POOL_NUM_BLOCKS)], [n] blocks being left. *)
Fixpoint compact_blocks (n src dest : nat) (l : list MemBlock) : list MemBlock :=
  match n with
  | O => l
  | S n =>
      match l !! src with
      | Some b =>
          if used b then
            let l := if (src =? dest)%nat then l
                     else <[src := b <| used := false |>]>
                            (alter (fun d => d <| data := data b |> <| used := true |>
                                               <| timestamp := timestamp b |>) dest l) in
            compact_blocks n (S src) (S dest) l
          else compact_blocks n (S src) dest l
      | None => l
      end
  end.

Definition expired (now : Z) (b : MemBlock) : bool :=
  used b && (POOL_MAX_AGE <? u32 (now - timestamp b)).
Definition MemPool_GarbageCollect (now : Z) (p : Pool) : Pool :=
  let freed := length (filter (fun b => expired now b = true) (blocks p)) in
  let p := p <| blocks ::= fmap (fun b => if expired now b then b <| used := false |> else b) |>
             <| free_blocks ::= fun f => u32 (f + Z.of_nat freed) |> in
  if (0 <? freed)%nat then p <| blocks ::= compact_blocks POOL_NUM_BLOCKS 0 0 |> else p.

(** The counter counts. *)
Definition unused (l : list MemBlock) : nat := length (filter (fun b => used b = false) l).
Definition wf (p : Pool) : Prop :=
  length (blocks p) = POOL_NUM_BLOCKS /\ (last_allocated p < POOL_NUM_BLOCKS)%nat /\
  free_blocks p = Z.of_nat (unused (blocks p)).

Lemma unused_split l i b : l !! i = Some b ->
  unused l = (unused (take i l) + (if used b then 0 else 1) + unused (drop (S i) l))%nat.
Proof.
  intros Hb. rewrite <- (take_drop_middle l i b Hb) at 1. unfold unused.
  rewrite filter_app, filter_cons, length_app.
  case_decide as Hd; destruct (used b); try congruence; simpl; lia.
Qed.

Lemma unused_insert l i b b' :
  l !! i = Some b ->
  (unused (<[i := b']> l) + (if used b then 0 else 1) =
   unused l + (if used b' then 0 else 1))%nat.
Proof.
  intros Hb. pose proof (lookup_lt_Some _ _ _ Hb) as Hi.
  rewrite (unused_split _ i b Hb), (unused_split (<[i := b']> l) i b')
    by (by apply list_lookup_insert_eq).
  rewrite take_insert_ge, drop_insert_lt by lia. lia.
Qed.

Lemma unused_le l : (unused l <= length l)%nat.
Proof. apply length_filter. Qed.

(** The loop probes [n] blocks from [last_allocated] on. *)
Lemma alloc_loop_spec n now p :
  wf p ->
  match alloc_loop n now p with
  | (Some i, p') => exists b, blocks p !! i = Some b /\ used b = false /\
      blocks p' = <[i := b <| used := true |> <| timestamp := now |>]> (blocks p) /\ wf p'
  | (None, p') => blocks p' = blocks p /\ wf p' /\
      forall k b, (k < n)%nat ->
        blocks p !! ((last_allocated p + k) mod POOL_NUM_BLOCKS)%nat = Some b -> used b = true
  end.
Proof.
  revert p. induction n as [|n IH]; intros p Hw; simpl; [split_and!; try done; lia|].
  assert (Hw' := Hw). destruct Hw' as (Hl & Ha & Hf).
  destruct (lookup_lt_is_Some_2 (blocks p) (last_allocated p)) as [b Hb]; [lia|]. rewrite Hb.
  destruct (used b) eqn:Eb; simpl.
  - match goal with |- context [alloc_loop n now ?q] => set (p1 := q) end.
    assert (Hw1 : wf p1).
    { split_and!; try done. simpl. by apply Nat.mod_upper_bound. }
    specialize (IH p1 Hw1). destruct (alloc_loop n now p1) as [[i|] p2]; [exact IH|].
    destruct IH as (? & ? & Hall). split_and!; try done.
    intros [|k] c Hk Hc.
    + rewrite Nat.add_0_r, Nat.mod_small in Hc by done. congruence.
    + apply (Hall k c); [lia|]. rewrite <- Hc. f_equal. simpl.
      rewrite Nat.Div0.add_mod_idemp_l. f_equal. lia.
  - eexists. split_and!; try done. split_and!; simpl; [by rewrite length_insert|done|].
    pose proof (unused_insert (blocks p) (last_allocated p) b (b <| used := true |> <| timestamp := now |>) Hb) as Hc.
    rewrite Eb in Hc. simpl in Hc. rewrite Hf. pose proof (unused_le (blocks p)).
    rewrite u32_small; [lia|]. unfold is_u32, POOL_NUM_BLOCKS in *. lia.
Qed.

(** What the blocks in use hold, in order. *)
Definition contents (l : list MemBlock) : list (list Z * Z) :=
  (fun b => (data b, timestamp b)) <$> filter (fun b => used b = true) l.

Lemma contents_app a b : contents (a ++ b) = contents a ++ contents b.
Proof. unfold contents. by rewrite filter_app, fmap_app. Qed.
Lemma contents_unused l : Forall (fun b => used b = false) l -> contents l = [].
Proof.
  induction 1 as [|b l Hb _ IH]; [done|]. unfold contents in *.
  by rewrite filter_cons, decide_False by congruence.
Qed.
Lemma contents_cons b l :
  contents (b :: l) = (if used b then [(data b, timestamp b)] else []) ++ contents l.
Proof.
  unfold contents. rewrite filter_cons. case_decide as Hd; destruct (used b); done || congruence.
Qed.

(** [A] is compacted, [U] is free, [R] is still to be visited. *)
Lemma compact_spec R A U :
  Forall (fun b => used b = true) A -> Forall (fun b => used b = false) U ->
  exists A' U', compact_blocks (length R) (length A + length U) (length A) (A ++ U ++ R) = A' ++ U' /\
    Forall (fun b => used b = true) A' /\ Forall (fun b => used b = false) U' /\
    contents A' = contents (A ++ U ++ R) /\ length (A' ++ U') = length (A ++ U ++ R).
Proof.
  revert A U. induction R as [|b R IH]; intros A U HA HU; cbn [length compact_blocks].
  { exists A, U. rewrite !app_nil_r. split_and!; try done. by rewrite contents_app, (contents_unused U), app_nil_r. }
  rewrite (app_assoc A U (b :: R)).
  rewrite (lookup_app_r (A ++ U)) by (rewrite length_app; lia).
  replace (length A + length U - length (A ++ U))%nat with 0%nat by (rewrite length_app; lia).
  change ((b :: R) !! 0%nat) with (Some b). cbv iota.
  destruct (used b) eqn:Eb.
  - destruct U as [|d U].
    + simpl length. rewrite Nat.add_0_r, Nat.eqb_refl.
      specialize (IH (A ++ [b]) []). rewrite length_app, Nat.add_0_r in IH. simpl length in IH.
      rewrite <- !app_assoc in *. simpl app in *.
      replace (length A + 1)%nat with (S (length A)) in IH by lia.
      apply IH; [|done]. apply Forall_app. split; [done|by constructor].
    + apply Forall_cons in HU as [Hd HU]. simpl length.
      rewrite (proj2 (Nat.eqb_neq _ _)) by lia.
      set (d' := mkMemBlock (data b) true (timestamp b)). set (b' := b <| used := false |>).
      replace (<[_ := _]> _) with ((A ++ [d']) ++ (U ++ [b']) ++ R).
      * specialize (IH (A ++ [d']) (U ++ [b'])). rewrite !length_app in IH. simpl length in IH.
        replace (length A + 1 + (length U + 1))%nat with (S (length A + S (length U))) in IH by lia.
        replace (length A + 1)%nat with (S (length A)) in IH by lia.
        destruct IH as (A' & U' & -> & HA' & HU' & Hc & Hlen).
        { apply Forall_app; split; [done|by constructor]. }
        { apply Forall_app; split; [done|by constructor]. }
        exists A', U'. split_and!; try done.
        -- rewrite Hc, !contents_app, !contents_cons, ?contents_app, ?contents_cons.
           unfold d', b'. simpl. rewrite Hd, Eb, (contents_unused U) by done. simpl. rewrite ?app_nil_r.
           by rewrite <- ?app_assoc.
        -- rewrite Hlen, !length_app. simpl. rewrite ?length_app. simpl. lia.
      * rewrite <- (app_assoc A (d :: U)), (alter_app_r_alt _ A) by lia.
        rewrite Nat.sub_diag. simpl. rewrite insert_app_r_alt by lia.
        replace (length A + S (length U) - length A)%nat with (S (length U)) by lia. simpl.
        rewrite insert_app_r_alt, Nat.sub_diag by lia. simpl. by rewrite <- !app_assoc.
  - specialize (IH A (U ++ [b])). rewrite length_app in IH. simpl length in IH.
    replace (length A + (length U + 1))%nat with (S (length A + length U)) in IH by lia.
    rewrite <- !app_assoc in *. simpl app in *. apply IH; [done|].
    apply Forall_app. split; [done|by constructor].
Qed.

#[local] Arguments compact_blocks : simpl never.

Lemma unused_fmap_expired now l :
  unused ((fun b => if expired now b then b <| used := false |> else b) <$> l) =
  (unused l + length (filter (fun b => expired now b = true) l))%nat.
Proof.
  induction l as [|b l IH]; [done|]. unfold unused in *. rewrite fmap_cons, !filter_cons.
  assert (Hu : expired now b = true -> used b = true) by (unfold expired; intros; by tests).
  destruct (expired now b); repeat case_decide; simpl in *; rewrite ?IH; try lia;
    try specialize (Hu eq_refl); congruence.
Qed.

Lemma unused_contents l : (unused l + length (contents l))%nat = length l.
Proof.
  unfold unused, contents. rewrite length_fmap. induction l as [|b l IH]; [done|].
  rewrite !filter_cons. repeat case_decide; simpl; try lia; destruct (used b); congruence.
Qed.
(**  [MemPool_Alloc] returns a block that was not in use, marks it and counts it,
    and returns NULL without effect on the blocks only when all 32 are in use; the
    free counter stays exact, and so it does when a block in use is freed. *)
Theorem mempool_alloc_exact now p :
  wf p ->
  match MemPool_Alloc now p with
  | (Some i, p') => exists b, blocks p !! i = Some b /\ used b = false /\
      wf p' /\
      free_blocks p' = free_blocks p - 1 /\
      wf (MemPool_Free i p') /\
      free_blocks (MemPool_Free i p') = free_blocks p
  | (None, p') => blocks p' = blocks p /\ wf p' /\
      Forall (fun b => used b = true) (blocks p)
  end.
Proof.
  intros Hw. pose proof (alloc_loop_spec POOL_NUM_BLOCKS now p Hw) as H.
  unfold MemPool_Alloc. destruct (alloc_loop _ now p) as [[i|] p'].
  - destruct H as (b & Hb & Hu & Hbs & Hw'). exists b. split_and!; try done.
    all: set (b' := b <| used := true |> <| timestamp := now |>) in *.
    all: assert (Hi : blocks p' !! i = Some b')
      by (rewrite Hbs; apply list_lookup_insert_eq; by eapply lookup_lt_Some).
    all: pose proof (unused_insert _ i b b' Hb) as Hc1; rewrite Hu in Hc1; simpl in Hc1;
      rewrite <- Hbs in Hc1; destruct Hw as (Hl & Ha & Hf), Hw' as (Hl' & Ha' & Hf').
    { lia. }
    all: unfold MemPool_Free; rewrite Hi;
      pose proof (unused_insert _ i b' (b' <| used := false |>) Hi) as Hc2;
      simpl in Hc2; pose proof (unused_le (blocks p)).
    all: assert (Hu32 : u32 (free_blocks p' + 1) = free_blocks p' + 1)
      by (apply u32_small; unfold is_u32, POOL_NUM_BLOCKS in *; lia).
    + split_and!; simpl; [by rewrite length_insert|done|]. rewrite Hu32. simpl in *. lia.
    + simpl. rewrite Hu32. lia.
  - destruct H as (Hbs & Hw' & Hall). split_and!; try done. destruct Hw as (Hl & Ha & _).
    apply Forall_lookup. intros j b Hj. pose proof (lookup_lt_Some _ _ _ Hj) as Hlt.
    unfold POOL_NUM_BLOCKS in *.
    apply (Hall ((j + 32 - last_allocated p) mod 32)%nat b); [by apply Nat.mod_upper_bound|].
    rewrite <- Hj. f_equal. rewrite Nat.Div0.add_mod_idemp_r.
    replace (last_allocated p + (j + 32 - last_allocated p))%nat with (j + 1 * 32)%nat by lia.
    rewrite Nat.Div0.mod_add. apply Nat.mod_small. lia.
Qed.

Definition pool_boot : Pool := MemPool_Init (mkPool [] 0 0 0).
Lemma pool_boot_wf : wf pool_boot.
Proof. split_and!; [done|simpl; unfold POOL_NUM_BLOCKS; lia|done]. Qed.

(** Witness of [mempool_alloc_exact]. *)
Lemma mempool_alloc_exact_witness :
  match MemPool_Alloc 7 pool_boot with
  | (Some i, p') => wf p' /\ wf (MemPool_Free i p')
  | (None, _) => False
  end.
Proof.
  assert (H := mempool_alloc_exact 7 pool_boot pool_boot_wf).
  change (MemPool_Alloc 7 pool_boot) with (Some 0%nat, (MemPool_Alloc 7 pool_boot).2) in *.
  destruct H as (b & _ & _ & ? & _ & ? & _). by split.
Defined.


(**  Garbage collection keeps the counter exact and the contents of all blocks
    younger than five seconds, in order; but it packs them at the start of the array, so a
    client's pointer to its block then names another client's block or a free one. *)
Theorem mempool_collect_compacts now p :
  wf p ->
  let p' := MemPool_GarbageCollect now p in
  wf p' /\
  contents (blocks p') = contents (filter (fun b => expired now b = false) (blocks p)) /\
  (Exists (fun b => expired now b = true) (blocks p) ->
   exists A U, blocks p' = A ++ U /\
     Forall (fun b => used b = true) A /\ Forall (fun b => used b = false) U).
Proof.
  intros (Hl & Ha & Hf) p'. unfold p', MemPool_GarbageCollect.
  set (drop_old := fun b => if expired now b then b <| used := false |> else b).
  assert (Hcont : contents (drop_old <$> blocks p) =
    contents (filter (fun b => expired now b = false) (blocks p))).
  { clear. induction (blocks p) as [|b l IH]; [done|]. rewrite fmap_cons, filter_cons.
    rewrite contents_cons, IH. unfold drop_old. destruct (expired now b); simpl; [done|].
    by rewrite contents_cons. }
  pose proof (unused_fmap_expired now (blocks p)) as Hun. fold drop_old in Hun.
  pose proof (unused_le (drop_old <$> blocks p)) as Hle. rewrite length_fmap in Hle.
  assert (Hu32 : forall n, n = Z.of_nat (unused (drop_old <$> blocks p)) -> u32 n = n)
    by (intros n ->; apply u32_small; unfold is_u32, POOL_NUM_BLOCKS in *; lia).
  destruct (Nat.ltb_spec 0 (length (filter (fun b => expired now b = true) (blocks p)))) as [Hlt|Hge].
  - destruct (compact_spec (drop_old <$> blocks p) [] []) as (A & U & Hc & HA & HU & Hcc & Hlen);
      [done|done|]. simpl in Hc, Hcc, Hlen. rewrite length_fmap, Hl in Hc.
    assert (Hbs : compact_blocks POOL_NUM_BLOCKS 0 0 (drop_old <$> blocks p) = A ++ U) by done.
    rewrite length_fmap in Hlen. simpl. rewrite Hbs. split_and!; [split_and!|..].
    + simpl. congruence.
    + done.
    + simpl. pose proof (unused_contents (A ++ U)) as H1.
      pose proof (unused_contents (drop_old <$> blocks p)) as H2.
      rewrite contents_app, (contents_unused U), app_nil_r, Hcc in H1 by done.
      rewrite length_fmap in H2. rewrite Hu32; lia.
    + by rewrite contents_app, (contents_unused U), app_nil_r, Hcc by done.
    + eauto.
  - simpl. split_and!; [split_and!; simpl; [by rewrite length_fmap|done|]|done|].
    + rewrite Hu32; lia.
    + intros (b & Hb & He)%Exists_exists. exfalso.
      assert (Hin : b ∈ filter (fun b => expired now b = true) (blocks p))
        by (by apply list_elem_of_filter).
      apply Nat.le_0_r, length_zero_iff_nil in Hge. rewrite Hge in Hin. by apply elem_of_nil in Hin.
Qed.

(** Two blocks taken at 0 and at 3000 ms, holding 17s and 99s. *)
Definition two_blocks : Pool :=
  let p := (MemPool_Alloc 3000 (MemPool_Alloc 0 pool_boot).2).2 in
  p <| blocks ::= fun l => <[0%nat := mkMemBlock (replicate 64 17) true 0]>
                             (<[1%nat := mkMemBlock (replicate 64 99) true 3000]> l) |>.
Lemma two_blocks_wf : wf two_blocks.
Proof. split_and!; vm_compute; [reflexivity|lia|reflexivity]. Qed.

(** Witness of [mempool_collect_compacts]: the first block expires and the second
    client's data is moved from block 1 to block 0, while block 1 is free. *)
Lemma mempool_collect_compacts_witness :
  wf (MemPool_GarbageCollect 6000 two_blocks) /\
  option_map used (blocks (MemPool_GarbageCollect 6000 two_blocks) !! 1%nat) = Some false /\
  option_map data (blocks (MemPool_GarbageCollect 6000 two_blocks) !! 0%nat) = Some (replicate 64 99).
Proof.
  split; [apply (mempool_collect_compacts 6000 two_blocks two_blocks_wf)|].
  split; vm_compute; reflexivity.
Defined.

(**  A block freed twice is counted twice: the counter then exceeds the
    number of free blocks for good. *)
Theorem mempool_double_free_miscounts p i b :
  wf p -> blocks p !! i = Some b -> used b = false ->
  free_blocks (MemPool_Free i p) = Z.of_nat (unused (blocks (MemPool_Free i p))) + 1.
Proof.
  intros (Hl & Ha & Hf) Hb Hu. unfold MemPool_Free. rewrite Hb. simpl.
  pose proof (unused_insert _ i b (b <| used := false |>) Hb) as Hc. rewrite Hu in Hc. simpl in Hc.
  pose proof (unused_le (blocks p)).
  rewrite u32_small by (unfold is_u32, POOL_NUM_BLOCKS in *; lia). simpl in *. lia.
Qed.

(** Witness of [mempool_double_free_miscounts]. *)
Lemma mempool_double_free_miscounts_witness :
  free_blocks (MemPool_Free 3 pool_boot) = 33.
Proof.
  assert (H := mempool_double_free_miscounts pool_boot 3 (mkMemBlock (replicate 64 0) false 0)
    pool_boot_wf eq_refl eq_refl). rewrite H. vm_compute. reflexivity.
Defined.
End MemPool.

(** ** network/buffer_manager.c *)
Module Buffers.

Definition NUM_BUFFERS : nat := 8.
Definition BUFFER_MAX_AGE : Z := 5000.

(** The payload is the client's. *)
Record Buffer := mkBuffer { length_ : Z; in_use : bool; timestamp : Z }.
#[export] Instance eta_Buffer : Eta Buffer := fun b => mkBuffer (length_ b) (in_use b) (timestamp b).
Record BufferManager := mkBufferManager { buffers : list Buffer; alloc_count : Z; free_count : Z }.
#[export] Instance eta_BufferManager : Eta BufferManager := fun g =>
  mkBufferManager (buffers g) (alloc_count g) (free_count g).

Definition BufferManager_Init : BufferManager :=
  mkBufferManager (replicate NUM_BUFFERS (mkBuffer 0 false 0)) 0 0.

Definition BufferManager_Alloc (now : Z) (g : BufferManager) : option nat * BufferManager :=
  match find_idx (fun b => negb (in_use b)) NUM_BUFFERS (buffers g) with
  | Some i => (Some i, g <| buffers ::= <[i := mkBuffer 0 true now]> |>
                         <| alloc_count ::= fun n => u32 (n + 1) |>)
  | None => (None, g)
  end.

Definition BufferManager_Free (buffer : nat) (g : BufferManager) : BufferManager :=
  match buffers g !! buffer with
  | Some b => g <| buffers ::= <[buffer := b <| in_use := false |>]> |>
                <| free_count ::= fun n => u32 (n + 1) |>
  | None => g
  end.

Definition stale (now : Z) (b : Buffer) : bool :=
  in_use b && (BUFFER_MAX_AGE <? u32 (now - timestamp b)).
Definition BufferManager_Process (now : Z) (g : BufferManager) : BufferManager :=
  g <| buffers ::= fmap (fun b => if stale now b then b <| in_use := false |> else b) |>
    <| free_count ::= fun n =>
         u32 (n + Z.of_nat (length (filter (fun b => stale now b = true) (buffers g)))) |>.

Definition BufferManager_GetUsage (g : BufferManager) : nat :=
  length (filter (fun b => in_use b = true) (buffers g)).

Lemma usage_insert l i b b' :
  l !! i = Some b ->
  (length (filter (fun b => in_use b = true) (<[i := b']> l)) + (if in_use b then 1 else 0) =
   length (filter (fun b => in_use b = true) l) + (if in_use b' then 1 else 0))%nat.
Proof.
  intros Hb. pose proof (lookup_lt_Some _ _ _ Hb). rewrite insert_take_drop by done.
  rewrite <- (take_drop_middle l i b Hb) at 3. rewrite !filter_app, !filter_cons, !length_app.
  repeat case_decide; destruct (in_use b), (in_use b'); try congruence; simpl; lia.
Qed.

(**  Buffers are reclaimed while their owner still holds them: five seconds after
    its allocation a buffer is released by [BufferManager_Process], and the next
    [BufferManager_Alloc] hands the lowest released one to a second owner; younger
    buffers are left alone. *)
Theorem buffer_reclaimed_and_reused t now g i g1 :
  length (buffers g) = NUM_BUFFERS ->
  BufferManager_Alloc t g = (Some i, g1) -> is_u32 t ->
  0 <= now - t < 2 ^ 32 -> Forall (fun b => in_use b = true -> timestamp b = t) (buffers g) ->
  let g2 := BufferManager_Process (u32 now) g1 in
  if BUFFER_MAX_AGE <? now - t
  then BufferManager_GetUsage g2 = 0%nat /\ (BufferManager_Alloc (u32 now) g2).1 = Some 0%nat
  else buffers g2 = buffers g1.
Proof.
  intros Hl Ha Ht Hnow Hall g2. unfold BufferManager_Alloc in Ha.
  destruct (find_idx _ _ _) as [k|] eqn:E; [|done]. injection Ha as <- <-.
  assert (Hall1 : Forall (fun b => in_use b = true -> timestamp b = t)
    (<[k := mkBuffer 0 true t]> (buffers g))) by (by apply Forall_insert).
  assert (Hst : forall b, b ∈ <[k := mkBuffer 0 true t]> (buffers g) ->
    stale (u32 now) b = in_use b && (BUFFER_MAX_AGE <? now - t)).
  { intros b Hb. rewrite Forall_forall in Hall1. specialize (Hall1 b Hb). unfold stale.
    destruct (in_use b); [|done]. simpl. rewrite Hall1 by done. f_equal.
    transitivity (u32 (u32 now - u32 t)); [by rewrite (u32_small t Ht)|by apply u32_diff]. }
  assert (Hb2 : buffers g2 = (fun b => if in_use b && (BUFFER_MAX_AGE <? now - t)
      then b <| in_use := false |> else b) <$> <[k := mkBuffer 0 true t]> (buffers g)).
  { unfold g2. simpl. apply list_fmap_ext. intros j b Hb. simpl.
    rewrite Hst by (by eapply list_elem_of_lookup_2). done. }
  destruct (BUFFER_MAX_AGE <? now - t).
  - assert (Hfree : Forall (fun b => in_use b = false) (buffers g2)).
    { rewrite Hb2, Forall_fmap. apply Forall_forall. intros b _. simpl.
      by destruct (in_use b) eqn:Eb; simpl. }
    split.
    + unfold BufferManager_GetUsage. apply length_zero_iff_nil, elem_of_nil_inv.
      intros b [Hu Hb]%list_elem_of_filter. rewrite Forall_forall in Hfree. by rewrite Hfree in Hu.
    + unfold BufferManager_Alloc. assert (Hl2 : length (buffers g2) = NUM_BUFFERS)
        by (by rewrite Hb2, length_fmap, length_insert).
      destruct (buffers g2) as [|b l]; [done|]. apply Forall_cons in Hfree as [Hb _].
      rewrite (proj2 (find_idx_Some _ _ _ 0%nat)); [done|].
      exists b. rewrite Hb. split_and!; [done|unfold NUM_BUFFERS; lia|done|lia].
  - rewrite Hb2. simpl. rewrite <- (list_fmap_id (<[k:=_]> (buffers g))) at 2.
    apply list_fmap_ext. intros j b _. simpl. by rewrite andb_false_r.
Qed.

(** Witness of [buffer_reclaimed_and_reused]. *)
Lemma buffer_reclaimed_and_reused_witness :
  (BufferManager_Alloc 6000 (BufferManager_Process 6000
     (BufferManager_Alloc 0 BufferManager_Init).2)).1 = Some 0%nat.
Proof.
  apply (buffer_reclaimed_and_reused 0 6000 BufferManager_Init 0
    (BufferManager_Alloc 0 BufferManager_Init).2).
  - reflexivity.
  - reflexivity.
  - vm_compute; split; congruence.
  - vm_compute; split; congruence.
  - repeat constructor; discriminate.
Defined.
End Buffers.

(** ** memory/rt_memory.c *)
Module RtPool.

(** [free_blocks] is the array of addresses, [memory] and [block_size] give the
    addresses of the blocks; [free_count] is a [size_t]. *)
Record RTMemPool := mkRTMemPool {
  memory : Z; free_blocks : list Z; block_size : Z; block_count : Z; free_count : Z }.
#[export] Instance eta_RTMemPool : Eta RTMemPool := fun p =>
  mkRTMemPool (memory p) (free_blocks p) (block_size p) (block_count p) (free_count p).

(** The three allocations return [pool_ok], [memory] (0 for NULL), [list_ok]. *)
Definition rt_mempool_create (bsz count : Z) (pool_ok : bool) (mem : Z) (list_ok : bool)
  : option RTMemPool :=
  if negb pool_ok then None
  else
    let bsz := Z.land (bsz + 63) (Z.lnot 63) in
    if mem =? 0 then None
    else if negb list_ok then None
    else Some (mkRTMemPool mem ((fun i => mem + Z.of_nat i * bsz) <$> seq 0 (Z.to_nat count))
                 bsz count count).

(** The locked part of [rt_mempool_alloc]; [None] reads outside the array. *)
Definition pop_block (p : RTMemPool) : option (Z * RTMemPool) :=
  let n := u64 (free_count p - 1) in
  b ← free_blocks p !! Z.to_nat n;
  Some (b, p <| free_count := n |>).

Definition rt_mempool_alloc (p : RTMemPool) : option (Z * RTMemPool) :=
  if free_count p =? 0 then Some (0, p) else pop_block p.

Definition rt_mempool_free (ptr : Z) (p : RTMemPool) : RTMemPool :=
  if ptr =? 0 then p
  else if (ptr <? memory p) || (memory p + block_count p * block_size p <=? ptr) then p
  else if free_count p <? block_count p then
    p <| free_blocks ::= <[Z.to_nat (free_count p) := ptr]> |> <| free_count ::= fun n => n + 1 |>
  else p.

Definition rt_mempool_available (p : option RTMemPool) : Z :=
  match p with Some p => free_count p | None => 0 end.

(** A thread inside [rt_mempool_alloc]: before the check, between the check and the
    lock, done with a result. *)
Inductive Thread := Start | Checked | Done (block : Z).

(** [fault] is the state after an access outside the array. *)
Inductive RtState := Running (p : RTMemPool) (ts : list Thread) | Fault.

Inductive rt_step : RtState -> RtState -> Prop :=
| step_empty p ts i :
    ts !! i = Some Start -> free_count p = 0 -> rt_step (Running p ts) (Running p (<[i := Done 0]> ts))
| step_check p ts i :
    ts !! i = Some Start -> free_count p <> 0 -> rt_step (Running p ts) (Running p (<[i := Checked]> ts))
| step_pop p ts i b p' :
    ts !! i = Some Checked -> pop_block p = Some (b, p') ->
    rt_step (Running p ts) (Running p' (<[i := Done b]> ts))
| step_fault p ts i :
    ts !! i = Some Checked -> pop_block p = None -> rt_step (Running p ts) Fault.

(** The first [free_count] entries are distinct. *)
Definition wf (p : RTMemPool) : Prop :=
  0 <= free_count p <= block_count p /\ block_count p < 2 ^ 63 /\
  length (free_blocks p) = Z.to_nat (block_count p) /\
  NoDup (take (Z.to_nat (free_count p)) (free_blocks p)).

Lemma pop_spec p :
  wf p -> free_count p <> 0 ->
  exists b p', pop_block p = Some (b, p') /\ wf p' /\ free_count p' = free_count p - 1 /\
    free_blocks p' = free_blocks p /\ block_count p' = block_count p /\
    take (Z.to_nat (free_count p)) (free_blocks p) =
      take (Z.to_nat (free_count p')) (free_blocks p') ++ [b].
Proof.
  intros (Hc & Hb & Hl & Hn) H0. unfold pop_block, u64.
  rewrite Z.mod_small by lia.
  destruct (lookup_lt_is_Some_2 (free_blocks p) (Z.to_nat (free_count p - 1))) as [b Hi]; [lia|].
  rewrite Hi. simpl. eexists b, _. split; [done|]. simpl.
  replace (Z.to_nat (free_count p)) with (S (Z.to_nat (free_count p - 1))) in * by lia.
  rewrite (take_S_r _ _ _ Hi) in *. split_and!; try done. split_and!; simpl; try done; try lia.
  by apply NoDup_app in Hn as [? _].
Qed.

(**  One thread at a time is safe: [rt_mempool_alloc] returns distinct blocks
    until the pool is empty and NULL then, and never leaves the array. *)
Theorem rt_alloc_sequential p :
  wf p ->
  exists b p', rt_mempool_alloc p = Some (b, p') /\ wf p' /\
    (free_count p = 0 -> b = 0 /\ p' = p) /\
    (free_count p <> 0 -> free_count p' = free_count p - 1 /\
       b ∈ take (Z.to_nat (free_count p)) (free_blocks p) /\
       b ∉ take (Z.to_nat (free_count p')) (free_blocks p')).
Proof.
  intros Hw. unfold rt_mempool_alloc. destruct (Z.eqb_spec (free_count p) 0) as [H0|H0].
  - exists 0, p. split_and!; done.
  - destruct (pop_spec p Hw H0) as (b & p' & -> & Hw' & Hc & _ & _ & Ht). exists b, p'.
    split_and!; try done. intros _. destruct Hw as (_ & _ & _ & Hn). rewrite Ht in Hn |- *.
    apply NoDup_app in Hn as (_ & Hd & _). split_and!; [done|set_solver|].
    intros Hin. apply (Hd b Hin). set_solver.
Qed.

(** A pool of one block. *)
Definition one_block : RTMemPool := mkRTMemPool 4096 [4096] 64 1 1.
Lemma one_block_wf : wf one_block.
Proof. split_and!; simpl; try done; try lia. apply NoDup_singleton. Qed.

(** Witness of [rt_alloc_sequential]. *)
Lemma rt_alloc_sequential_witness :
  exists b p', rt_mempool_alloc one_block = Some (b, p') /\ wf p' /\ free_count p' = 0.
Proof.
  destruct (rt_alloc_sequential one_block one_block_wf) as (b & p' & H1 & H2 & _ & H3).
  exists b, p'. split_and!; try done. destruct H3 as [H3 _]; [done|]. exact H3.
Defined.

(**  Two threads are not: the test for an empty pool is made outside the lock.
    With one block left both threads may pass the test; the second to take the
    lock decrements the counter below zero and reads outside the array. *)
Theorem rt_alloc_race :
  exists st, rtc rt_step (Running one_block [Start; Start]) st /\ st = Fault.
Proof.
  exists Fault. split; [|done].
  eapply rtc_l; [apply (step_check one_block [Start; Start] 0); done|].
  eapply rtc_l; [apply (step_check one_block [Checked; Start] 1); done|].
  eapply rtc_l; [apply (step_pop one_block [Checked; Checked] 0 4096 (one_block <| free_count := 0 |>)); done|].
  eapply rtc_l; [apply (step_fault (one_block <| free_count := 0 |>) [Done 4096; Checked] 1)|done].
  - done.
  - assert (H : [4096] !! Z.to_nat (u64 (0 - 1)) = None).
    { apply lookup_ge_None_2. change (u64 (0 - 1)) with (2 ^ 64 - 1). change (length [4096]) with 1%nat. lia. }
    unfold pop_block. cbv zeta. change (free_blocks (one_block <| free_count := 0 |>)) with [4096].
    change (free_count (one_block <| free_count := 0 |>)) with 0. by rewrite H.
Qed.
End RtPool.
