(* ===== verification/E2E.v ===== *)
(** * End-to-end protection

    [safety/e2e_protection.c]: a sender stamps a message with a sequence counter, a data
    identifier and a checksum, a receiver checks them.  The functions are total
    functions of configuration, state and message, except for [None]: an access
    outside a table or array, or a division by zero.  The time read by
    [get_system_time_ms] is an argument. *)

From S2P Require Import Prelude.

Inductive E2EProfileType := E2E_PROFILE_1 | E2E_PROFILE_2 | E2E_PROFILE_4 | E2E_PROFILE_5 | E2E_PROFILE_6.
Inductive E2EStateType := E2E_STATE_INIT | E2E_STATE_VALID | E2E_STATE_INVALID | E2E_STATE_ERROR.
Inductive E2EStatusType :=
  E2E_OK | E2E_ERROR_CRC | E2E_ERROR_SEQUENCE | E2E_ERROR_REPEATED | E2E_ERROR_TIMEOUT
| E2E_ERROR_WRONG_LENGTH | E2E_ERROR_CONFIG.

Record E2EConfig := mkE2EConfig {
  profile : E2EProfileType; cfg_data_id : Z; min_length : Z; max_length : Z;
  max_delta_counter : Z; timeout_ms : Z; include_length : bool }.
Record E2EState := mkE2EState {
  sequence_counter : Z; last_timestamp : Z; e2e_state : E2EStateType; error_count : Z;
  e2e_initialized : bool }.
#[export] Instance eta_E2EState : Eta E2EState := fun s =>
  mkE2EState (sequence_counter s) (last_timestamp s) (e2e_state s) (error_count s) (e2e_initialized s).
(** [bytes] is the array behind the [data] pointer, [None] for NULL. *)
Record E2EProtectedData := mkE2EData {
  bytes : option (list Z); length_ : Z; crc : Z; sequence : Z; data_id : Z }.
#[export] Instance eta_E2EProtectedData : Eta E2EProtectedData := fun d =>
  mkE2EData (bytes d) (length_ d) (crc d) (sequence d) (data_id d).

(** The tables as initialised in the source: the entries not given are zero. *)
Definition CRC8_TABLE : list Z :=
  [0x00; 0x1D; 0x3A; 0x27; 0x74; 0x69; 0x4E; 0x53;
   0xE8; 0xF5; 0xD2; 0xCF; 0x9C; 0x81; 0xA6; 0xBB] ++ replicate 240 0.
Definition CRC16_TABLE : list Z :=
  [0x0000; 0x1021; 0x2042; 0x3063; 0x4084; 0x50A5; 0x60C6; 0x70E7;
   0x8108; 0x9129; 0xA14A; 0xB16B; 0xC18C; 0xD1AD; 0xE1CE; 0xF1EF] ++ replicate 240 0.
Definition CRC32_TABLE : list Z :=
  [0x00000000; 0x77073096; 0xEE0E612C; 0x990951BA;
   0x076DC419; 0x706AF48F; 0xE963A535; 0x9E6495A3] ++ replicate 248 0.

Definition entry (t : list Z) (i : Z) : option Z := t !! Z.to_nat i.

Definition crc8_step (c d : Z) : option Z := entry CRC8_TABLE (Z.lxor c d).
Definition crc16_step (c d : Z) : option Z :=
  t ← entry CRC16_TABLE (Z.land (Z.lxor (Z.shiftr c 8) d) 0xFF);
  Some (Z.lxor (u32 (Z.shiftl c 8)) t).
Definition crc32_step (c d : Z) : option Z :=
  t ← entry CRC32_TABLE (Z.land (Z.lxor (Z.shiftr c 24) d) 0xFF);
  Some (Z.lxor (u32 (Z.shiftl c 8)) t).
Fixpoint crc_fold (step : Z -> Z -> option Z) (c : Z) (l : list Z) : option Z :=
  match l with [] => Some c | d :: l => c ← step c d; crc_fold step c l end.

(** The first [len] bytes of an array, [None] when it is shorter. *)
Definition prefix (l : list Z) (len : Z) : option (list Z) :=
  if len <=? Z.of_nat (length l) then Some (take (Z.to_nat len) l) else None.

Definition calculate_crc (p : E2EProfileType) (data : list Z) (len : Z) : option Z :=
  match p with
  | E2E_PROFILE_1 => l ← prefix data len; crc_fold crc8_step 0xFFFFFFFF l
  | E2E_PROFILE_2 => l ← prefix data len; c ← crc_fold crc16_step 0xFFFFFFFF l; Some (Z.land c 0xFFFF)
  | E2E_PROFILE_4 => l ← prefix data len; crc_fold crc32_step 0xFFFFFFFF l
  | E2E_PROFILE_5 => Some 0
  | E2E_PROFILE_6 => Some 0
  end.

Definition validate_config (config : option E2EConfig) : bool :=
  match config with
  | None => false
  | Some c => negb (max_length c <? min_length c) && negb (max_length c =? 0) && negb (timeout_ms c =? 0)
  end.

Definition validate_data (config : option E2EConfig) (data : option E2EProtectedData) : bool :=
  match config, data with
  | Some c, Some d =>
      match bytes d with
      | None => false
      | Some _ => negb ((length_ d <? min_length c) || (max_length c <? length_ d))
      end
  | _, _ => false
  end.

Definition E2E_Init (state : option E2EState) (config : option E2EConfig) : bool * option E2EState :=
  match state with
  | None => (false, None)
  | Some s => if negb (validate_config config) then (false, Some s)
              else (true, Some (mkE2EState 0 0 E2E_STATE_INIT 0 true))
  end.

(** The header both sides build. *)
Definition build_header (c : E2EConfig) (d : E2EProtectedData) : list Z :=
  [Z.land (Z.shiftr (data_id d) 8) 0xFF; Z.land (data_id d) 0xFF;
   Z.land (Z.shiftr (sequence d) 24) 0xFF; Z.land (Z.shiftr (sequence d) 16) 0xFF;
   Z.land (Z.shiftr (sequence d) 8) 0xFF; Z.land (sequence d) 0xFF]
  ++ (if include_length c then [Z.land (Z.shiftr (length_ d) 8) 0xFF; Z.land (length_ d) 0xFF] else []).

(** [uint32_t % uint16_t]. *)
Definition modulo (a b : Z) : option Z := if b =? 0 then None else Some (a mod b).

Definition E2E_Protect (config : option E2EConfig) (state : option E2EState)
  (data : option E2EProtectedData) (now : Z) : option (E2EStatusType * option E2EState * option E2EProtectedData) :=
  match config, state, data with
  | Some c, Some s, Some d =>
      if negb (e2e_initialized s) || negb (validate_config config) || negb (validate_data config data)
      then Some (E2E_ERROR_CONFIG, state, data)
      else
        n ← modulo (u32 (sequence_counter s + 1)) (max_delta_counter c);
        let s := s <| sequence_counter := n |> in
        let d := d <| sequence := n |> <| data_id := cfg_data_id c |> in
        let header := build_header c d in
        _ ← calculate_crc (profile c) header (Z.of_nat (length header));
        k ← calculate_crc (profile c) (default [] (bytes d)) (length_ d);
        Some (E2E_OK, Some (s <| last_timestamp := now |> <| e2e_state := E2E_STATE_VALID |>),
              Some (d <| crc := k |>))
  | _, _, _ => Some (E2E_ERROR_CONFIG, state, data)
  end.

Definition E2E_Check (config : option E2EConfig) (state : option E2EState)
  (data : option E2EProtectedData) (now : Z) : option (E2EStatusType * option E2EState) :=
  match config, state, data with
  | Some c, Some s, Some d =>
      if negb (e2e_initialized s) || negb (validate_config config) || negb (validate_data config data)
      then Some (E2E_ERROR_CONFIG, state)
      else if timeout_ms c <? u32 (now - last_timestamp s) then
        Some (E2E_ERROR_TIMEOUT, Some (s <| e2e_state := E2E_STATE_ERROR |>))
      else if negb (data_id d =? cfg_data_id c) then
        Some (E2E_ERROR_CONFIG, Some (s <| e2e_state := E2E_STATE_ERROR |>))
      else
        expected_sequence ← modulo (u32 (sequence_counter s + 1)) (max_delta_counter c);
        if negb (sequence d =? expected_sequence) then
          Some (E2E_ERROR_SEQUENCE, Some (s <| e2e_state := E2E_STATE_INVALID |>))
        else
          let header := build_header c d in
          _ ← calculate_crc (profile c) header (Z.of_nat (length header));
          calculated_crc ← calculate_crc (profile c) (default [] (bytes d)) (length_ d);
          if negb (calculated_crc =? crc d) then
            Some (E2E_ERROR_CRC, Some (s <| e2e_state := E2E_STATE_INVALID |>))
          else
            Some (E2E_OK, Some (s <| sequence_counter := sequence d |> <| last_timestamp := now |>
                                  <| e2e_state := E2E_STATE_VALID |>))
  | _, _, _ => Some (E2E_ERROR_CONFIG, state)
  end.

Definition E2E_GetState (state : option E2EState) : E2EStateType :=
  match state with Some s => e2e_state s | None => E2E_STATE_ERROR end.

Definition E2E_Reset (state : option E2EState) : option E2EState :=
  match state with
  | Some s => Some (s <| sequence_counter := 0 |> <| last_timestamp := 0 |>
                      <| e2e_state := E2E_STATE_INIT |> <| error_count := 0 |>)
  | None => None
  end.

(** ** Checksums *)

Lemma entry_byte t i : length t = 256%nat -> is_Some (entry t (Z.land i 0xFF)).
Proof.
  intros Ht. unfold entry. apply lookup_lt_is_Some_2. rewrite Ht.
  change 0xFF with (Z.ones 8). rewrite Z.land_ones by lia.
  pose proof (Z.mod_pos_bound i (2 ^ 8)). lia.
Qed.

Lemma crc_fold_defined step l :
  (forall c d, is_Some (step c d)) -> forall c, is_Some (crc_fold step c l).
Proof.
  intros Hs. induction l as [|d l IH]; intros c; simpl; [eauto|].
  destruct (Hs c d) as [c' ->]. simpl. apply IH.
Qed.

(** Every profile but the first computes a checksum of every array that is long
    enough. *)
Lemma calculate_crc_defined p data len :
  p <> E2E_PROFILE_1 -> 0 <= len <= Z.of_nat (length data) -> is_Some (calculate_crc p data len).
Proof.
  intros Hp Hl. unfold calculate_crc, prefix. rewrite (proj2 (Z.leb_le _ _)) by lia.
  destruct p; try done; simpl; eauto.
  - destruct (crc_fold_defined crc16_step (take (Z.to_nat len) data)) with (c := 0xFFFFFFFF) as [k ->];
      [|simpl; eauto]. intros c d. unfold crc16_step.
    destruct (entry_byte CRC16_TABLE (Z.lxor (Z.shiftr c 8) d) eq_refl) as [t ->]. simpl. eauto.
  - apply crc_fold_defined. intros c d. unfold crc32_step.
    destruct (entry_byte CRC32_TABLE (Z.lxor (Z.shiftr c 24) d) eq_refl) as [t ->]. simpl. eauto.
Qed.

(** Sender and receiver of one channel, with configuration [c]. *)
Record channel_ok (c : E2EConfig) : Prop := mkChannelOk {
  ch_profile : profile c <> E2E_PROFILE_1;
  ch_lengths : 0 <= min_length c <= max_length c;
  ch_max : max_length c <> 0;
  ch_timeout : 0 < timeout_ms c;
  ch_delta : 0 < max_delta_counter c < 2 ^ 16 }.

Lemma channel_config c : channel_ok c -> validate_config (Some c) = true.
Proof.
  intros [_ Hl Hm Ht _]. simpl. rewrite (proj2 (Z.ltb_ge _ _)) by lia.
  rewrite (proj2 (Z.eqb_neq _ _) Hm), (proj2 (Z.eqb_neq _ 0)) by lia. done.
Qed.

Definition message (l : list Z) : E2EProtectedData := mkE2EData (Some l) (Z.of_nat (length l)) 0 0 0.
Definition fitting (c : E2EConfig) (l : list Z) : Prop :=
  min_length c <= Z.of_nat (length l) <= max_length c.

Lemma fitting_data c d l :
  bytes d = Some l -> length_ d = Z.of_nat (length l) -> fitting c l ->
  validate_data (Some c) (Some d) = true.
Proof.
  intros Hb Hl [? ?]. simpl. rewrite Hb, Hl, !(proj2 (Z.ltb_ge _ _)) by lia. done.
Qed.

(** The next counter of a side, and the checksum of a payload. *)
Definition next_counter (c : E2EConfig) (n : Z) : Z := u32 (n + 1) mod max_delta_counter c.
Definition payload_crc (c : E2EConfig) (l : list Z) : Z :=
  default 0 (calculate_crc (profile c) l (Z.of_nat (length l))).

Lemma payload_crc_eq c l :
  channel_ok c -> calculate_crc (profile c) l (Z.of_nat (length l)) = Some (payload_crc c l).
Proof.
  intros Hc. unfold payload_crc.
  destruct (calculate_crc_defined (profile c) l (Z.of_nat (length l)) (ch_profile _ Hc)) as [k ->];
    [lia|done].
Qed.

Lemma protect_spec c s l now :
  channel_ok c -> e2e_initialized s = true -> fitting c l ->
  E2E_Protect (Some c) (Some s) (Some (message l)) now =
  Some (E2E_OK,
    Some (s <| sequence_counter := next_counter c (sequence_counter s) |>
            <| last_timestamp := now |> <| e2e_state := E2E_STATE_VALID |>),
    Some (mkE2EData (Some l) (Z.of_nat (length l)) (payload_crc c l)
            (next_counter c (sequence_counter s)) (cfg_data_id c))).
Proof.
  intros Hc Hi Hf. unfold E2E_Protect.
  rewrite Hi, channel_config, (fitting_data c (message l) l) by done. simpl negb. cbv iota.
  unfold modulo. rewrite (proj2 (Z.eqb_neq _ 0)) by (pose proof (ch_delta _ Hc); lia).
  cbn [mbind option_bind].
  set (h := build_header _ _).
  destruct (calculate_crc_defined (profile c) h (Z.of_nat (length h)) (ch_profile _ Hc)) as [k ->]; [lia|].
  cbn [mbind option_bind]. cbn -[calculate_crc]. by rewrite payload_crc_eq.
Qed.

Lemma check_spec c s d l now :
  channel_ok c -> e2e_initialized s = true ->
  bytes d = Some l -> length_ d = Z.of_nat (length l) -> fitting c l ->
  data_id d = cfg_data_id c ->
  E2E_Check (Some c) (Some s) (Some d) now =
  if timeout_ms c <? u32 (now - last_timestamp s) then
    Some (E2E_ERROR_TIMEOUT, Some (s <| e2e_state := E2E_STATE_ERROR |>))
  else if negb (sequence d =? next_counter c (sequence_counter s)) then
    Some (E2E_ERROR_SEQUENCE, Some (s <| e2e_state := E2E_STATE_INVALID |>))
  else if negb (payload_crc c l =? crc d) then
    Some (E2E_ERROR_CRC, Some (s <| e2e_state := E2E_STATE_INVALID |>))
  else Some (E2E_OK, Some (s <| sequence_counter := sequence d |> <| last_timestamp := now |>
                             <| e2e_state := E2E_STATE_VALID |>)).
Proof.
  intros Hc Hi Hb Hl Hf Hid. unfold E2E_Check.
  rewrite Hi, channel_config, (fitting_data c d l) by done. simpl negb. cbv iota.
  destruct (_ <? _); [done|]. rewrite Hid, Z.eqb_refl. simpl negb. cbv iota.
  unfold modulo. rewrite (proj2 (Z.eqb_neq _ 0)) by (pose proof (ch_delta _ Hc); lia).
  cbn [mbind option_bind]. fold (next_counter c (sequence_counter s)). destruct (negb _); [done|].
  set (h := build_header _ _).
  destruct (calculate_crc_defined (profile c) h (Z.of_nat (length h)) (ch_profile _ Hc)) as [k ->]; [lia|].
  cbn [mbind option_bind]. rewrite Hb, Hl. simpl default. by rewrite payload_crc_eq.
Qed.

(** ** Streams of messages *)

(** A transmission: the payload, the time it is protected and the time it is
    checked, and whether it arrives. *)
Record transmission := mkTransmission { tx_payload : list Z; tx_sent : Z; tx_checked : Z; tx_arrives : bool }.

(** The sender protects every payload, the receiver checks those that arrive; the
    result lists, per transmission, the receiver's status ([None]: lost). *)
Fixpoint stream (c : E2EConfig) (snd_ rcv : E2EState) (l : list transmission)
  : option (list (option E2EStatusType) * E2EState * E2EState) :=
  match l with
  | [] => Some ([], snd_, rcv)
  | t :: l =>
      match E2E_Protect (Some c) (Some snd_) (Some (message (tx_payload t))) (tx_sent t) with
      | Some (E2E_OK, Some snd_, Some d) =>
          if tx_arrives t then
            match E2E_Check (Some c) (Some rcv) (Some d) (tx_checked t) with
            | Some (st, Some rcv) =>
                '(sts, snd_, rcv) ← stream c snd_ rcv l; Some (Some st :: sts, snd_, rcv)
            | _ => None
            end
          else '(sts, snd_, rcv) ← stream c snd_ rcv l; Some (None :: sts, snd_, rcv)
      | _ => None
      end
  end.

(** The receiver after it checked, in time, a message with counter [n]. *)
Definition accept (rcv : E2EState) (n now : Z) : E2EState :=
  rcv <| sequence_counter := n |> <| last_timestamp := now |> <| e2e_state := E2E_STATE_VALID |>.

Definition arrives (t : transmission) : Prop := tx_arrives t = true.
(** The transmission is checked within the time-out of the message accepted at [last]. *)
Definition in_time (c : E2EConfig) (last : Z) (t : transmission) : Prop :=
  u32 (tx_checked t - last) <= timeout_ms c.
Fixpoint timely (c : E2EConfig) (last : Z) (l : list transmission) : Prop :=
  match l with [] => True | t :: l => in_time c last t /\ timely c (tx_checked t) l end.

(** One transmission, by the sender's counter. *)
Lemma stream_cons c snd_ rcv t l :
  channel_ok c -> e2e_initialized snd_ = true -> e2e_initialized rcv = true -> fitting c (tx_payload t) ->
  (tx_arrives t = true -> in_time c (last_timestamp rcv) t) ->
  let n := next_counter c (sequence_counter snd_) in
  let snd' := accept snd_ n (tx_sent t) in
  stream c snd_ rcv (t :: l) =
  let '(st, rcv') :=
    if negb (tx_arrives t) then (None, rcv)
    else if n =? next_counter c (sequence_counter rcv) then (Some E2E_OK, accept rcv n (tx_checked t))
    else (Some E2E_ERROR_SEQUENCE, rcv <| e2e_state := E2E_STATE_INVALID |>) in
  '(sts, a, b) ← stream c snd' rcv' l; Some (st :: sts, a, b).
Proof.
  intros Hc Hs Hr Hf Ht n snd'. cbn [stream]. rewrite protect_spec by done.
  destruct (tx_arrives t) eqn:Ha; [|done]. simpl negb. cbv iota.
  rewrite (check_spec c rcv _ (tx_payload t)) by done.
  rewrite (proj2 (Z.ltb_ge _ _)) by (by apply Ht). cbn [sequence crc]. fold n.
  destruct (n =? next_counter c (sequence_counter rcv)); simpl negb; cbv iota; [|done].
  rewrite Z.eqb_refl. simpl negb. cbv iota. done.
Qed.

Lemma stream_app c a b l1 l2 x a' b' :
  stream c a b l1 = Some (x, a', b') ->
  stream c a b (l1 ++ l2) = ('(y, a, b) ← stream c a' b' l2; Some (x ++ y, a, b)).
Proof.
  revert a b x. induction l1 as [|t l1 IH]; intros a b x Hst.
  - injection Hst as <- <- <-. simpl. by destruct (stream c a b l2) as [[[??]?]|].
  - cbn [stream app] in *. repeat (case_match; simplify_eq); try done.
    all: destruct (stream c _ _ l1) as [[[??]?]|] eqn:E; simplify_eq/=;
      rewrite (IH _ _ _ E); by destruct (stream c a' b' l2) as [[[??]?]|].
Qed.

Lemma crc8_undefined z l :
  calculate_crc E2E_PROFILE_1 (Z.land z 0xFF :: l) (Z.of_nat (length (Z.land z 0xFF :: l))) = None.
Proof.
  unfold calculate_crc, prefix. rewrite Z.leb_refl. cbn [mbind option_bind].
  rewrite Nat2Z.id, take_ge by lia. cbn [crc_fold].
  assert (crc8_step 0xFFFFFFFF (Z.land z 0xFF) = None) as ->; [|done].
  unfold crc8_step, entry. apply lookup_ge_None_2. change (length CRC8_TABLE) with 256%nat.
  set (b := Z.land _ 0xFF).
  assert (Hb : Z.shiftr b 8 = 0).
  { unfold b. rewrite Z.shiftr_land. change (Z.shiftr 0xFF 8) with 0. apply Z.land_0_r. }
  assert (Hx : Z.shiftr (Z.lxor 0xFFFFFFFF b) 8 = 0xFFFFFF) by (rewrite Z.shiftr_lxor, Hb; done).
  rewrite Z.shiftr_div_pow2 in Hx by lia.
  pose proof (Z.mul_div_le (Z.lxor 0xFFFFFFFF b) (2 ^ 8) eq_refl) as Hle. rewrite Hx in Hle. lia.
Qed.

(** The configurations [validate_config] accepts, with members of their widths. *)
Record accepted_config (c : E2EConfig) : Prop := mkAccepted {
  ac_valid : validate_config (Some c) = true;
  ac_length : 0 <= min_length c;
  ac_timeout : 0 <= timeout_ms c;
  ac_delta : 0 <= max_delta_counter c < 2 ^ 16 }.
(** Two of them no message can be protected with: profile 1, whose checksum indexes its
    table with [0xFFFFFFFF], and a counter range of 0, which it divides by. *)
Definition unusable (c : E2EConfig) : Prop := profile c = E2E_PROFILE_1 \/ max_delta_counter c = 0.
Lemma accepted_channel c : accepted_config c -> ~ unusable c -> channel_ok c.
Proof.
  intros [Hv Hl Ht Hd] Hu. unfold validate_config in Hv. unfold unusable in Hu. tests.
  split; [tauto|lia|done|lia|]. assert (max_delta_counter c <> 0) by tauto. lia.
Qed.
Lemma protect_unusable c s d now :
  unusable c -> validate_config (Some c) = true -> e2e_initialized s = true ->
  validate_data (Some c) (Some d) = true -> E2E_Protect (Some c) (Some s) (Some d) now = None.
Proof.
  intros Hu Hc Hi Hd. unfold E2E_Protect. rewrite Hc, Hi, Hd. simpl negb. cbv iota.
  unfold modulo. destruct (max_delta_counter c =? 0) eqn:E; [done|]. tests. destruct Hu as [Hp|?]; [|done].
  cbn [mbind option_bind]. rewrite Hp. unfold build_header. cbn [app]. by rewrite crc8_undefined.
Qed.

(** C26. Sender and receiver of a channel with the same counter, for every configuration
    [E2E_Init] accepts and a stream of payloads of the configured lengths none of which is
    lost, each checked within the time-out of the one before.  Unless the profile is 1 or
    the counter range is 0, they stay in step: every message is accepted, and both sides
    end with the same counter.  With profile 1 or a counter range of 0 already the first
    [E2E_Protect] is undefined. *)
Theorem stream_accepted c snd_ rcv l :
  accepted_config c -> e2e_initialized snd_ = true -> e2e_initialized rcv = true ->
  sequence_counter snd_ = sequence_counter rcv ->
  Forall arrives l -> Forall (fun t => fitting c (tx_payload t)) l -> timely c (last_timestamp rcv) l ->
  (~ unusable c -> exists snd' rcv',
    stream c snd_ rcv l = Some (replicate (length l) (Some E2E_OK), snd', rcv') /\
    sequence_counter snd' = sequence_counter rcv' /\
    (l <> [] -> E2E_GetState (Some rcv') = E2E_STATE_VALID)) /\
  (unusable c -> forall t, head l = Some t ->
    E2E_Protect (Some c) (Some snd_) (Some (message (tx_payload t))) (tx_sent t) = None).
Proof.
  intros Hacc Hs Hr Hn Ha Hf Ht. split.
  - intros Hu. pose proof (accepted_channel c Hacc Hu) as Hc. clear Hacc Hu. revert snd_ rcv Hs Hr Hn Ht.
    induction l as [|t l IH]; intros snd_ rcv Hs Hr Hn Ht; [by exists snd_, rcv|].
    apply Forall_cons in Ha as [Ha Hal]. apply Forall_cons in Hf as [Hf Hfl]. destruct Ht as [Ht Htl].
    rewrite stream_cons by done. unfold arrives in Ha. rewrite Ha, Hn, Z.eqb_refl. simpl negb. cbv iota beta.
    set (n := next_counter c (sequence_counter rcv)).
    destruct (IH Hal Hfl (accept snd_ n (tx_sent t)) (accept rcv n (tx_checked t)))
      as (s' & r' & Heq & Hn' & Hv); [done..|]. exists s', r'. rewrite Heq.
    split; [done|]. split; [done|]. intros _. destruct l; [|by apply Hv].
    cbn in Heq. injection Heq as _ <-. done.
  - intros Hu t Hhd. destruct l as [|t' l]; [done|]. injection Hhd as ->. apply Forall_cons in Hf as [Hf _].
    apply protect_unusable; [done|apply Hacc|done|]. unfold validate_data, message, fitting in *. cbn.
    rewrite !(proj2 (Z.ltb_ge _ _)) by lia. done.
Qed.

Definition channel4 : E2EConfig := mkE2EConfig E2E_PROFILE_4 0x1234 1 8 16 100 true.
Definition fresh_side : E2EState := mkE2EState 0 0 E2E_STATE_INIT 0 true.
Lemma channel4_ok : channel_ok channel4.
Proof. split; cbn; try lia; done. Qed.

Definition two_messages : list transmission :=
  [mkTransmission [1;2;3] 10 12 true; mkTransmission [4] 50 52 true].
(** Witness of [stream_accepted]: two messages with profile 4, and with profile 1. *)
Lemma stream_accepted_witness :
  (exists snd' rcv',
    stream channel4 fresh_side fresh_side two_messages = Some (replicate 2 (Some E2E_OK), snd', rcv') /\
    sequence_counter snd' = sequence_counter rcv' /\
    (two_messages <> [] -> E2E_GetState (Some rcv') = E2E_STATE_VALID)) /\
  E2E_Protect (Some (mkE2EConfig E2E_PROFILE_1 0x1234 1 8 16 100 true)) (Some fresh_side)
    (Some (message [1;2;3])) 10 = None.
Proof.
  split.
  - apply (stream_accepted channel4 fresh_side fresh_side two_messages); [|done..| | | |].
    + split; done.
    + repeat constructor.
    + repeat constructor; vm_compute; congruence.
    + repeat constructor; vm_compute; congruence.
    + intros [?|?]; discriminate.
  - refine (proj2 (stream_accepted (mkE2EConfig E2E_PROFILE_1 0x1234 1 8 16 100 true) fresh_side fresh_side
      two_messages _ _ _ _ _ _ _) _ (mkTransmission [1;2;3] 10 12 true) _); try done.
    + repeat constructor.
    + repeat constructor; vm_compute; congruence.
    + repeat constructor; vm_compute; congruence.
Defined.

(** The sender's counter after [k] messages. *)
Lemma next_counter_iter c n k :
  channel_ok c -> 0 <= n < max_delta_counter c ->
  next_counter c ((n + Z.of_nat k) mod max_delta_counter c) = (n + Z.of_nat (S k)) mod max_delta_counter c.
Proof.
  intros Hc Hn. pose proof (ch_delta _ Hc). unfold next_counter.
  pose proof (Z.mod_pos_bound (n + Z.of_nat k) (max_delta_counter c)).
  rewrite (u32_small ((n + Z.of_nat k) mod max_delta_counter c + 1)) by (unfold is_u32; lia).
  rewrite Zplus_mod_idemp_l. f_equal. lia.
Qed.

Lemma counters_differ D n j :
  0 < D -> 0 <= n < D -> 1 < j <= D -> (n + j) mod D <> (n + 1) mod D.
Proof.
  intros HD Hn Hj He.
  pose proof (Z.div_mod (n + j) D). pose proof (Z.div_mod (n + 1) D).
  assert (D * ((n + j) / D - (n + 1) / D) = j - 1) by nia.
  assert ((n + j) / D - (n + 1) / D > 0 \/ (n + j) / D - (n + 1) / D <= 0) as [?|?] by lia; nia.
Qed.

(** Nothing but the messages [k+2 .. D] of the sender's numbering arrives: each is
    refused and the receiver's counter does not move. *)
Lemma stream_behind c n l : forall snd_ rcv k,
  channel_ok c -> e2e_initialized snd_ = true -> e2e_initialized rcv = true ->
  0 <= n < max_delta_counter c -> sequence_counter rcv = n ->
  sequence_counter snd_ = (n + Z.of_nat k) mod max_delta_counter c -> (1 <= k)%nat ->
  Z.of_nat (k + length l) <= max_delta_counter c ->
  Forall (fun t => fitting c (tx_payload t)) l ->
  Forall (in_time c (last_timestamp rcv)) l ->
  Forall arrives l ->
  exists snd' rcv', stream c snd_ rcv l = Some (replicate (length l) (Some E2E_ERROR_SEQUENCE), snd', rcv') /\
    sequence_counter snd' = (n + Z.of_nat (k + length l)) mod max_delta_counter c /\
    sequence_counter rcv' = n /\ last_timestamp rcv' = last_timestamp rcv /\
    e2e_initialized snd' = true /\ e2e_initialized rcv' = true.
Proof.
  induction l as [|t l IH]; intros snd_ rcv k Hc Hs Hr Hn Hrn Hsn Hk Hlen Hf Ht Ha.
  - exists snd_, rcv. rewrite Nat.add_0_r. done.
  - apply Forall_cons in Ha as [Ha Hal]. apply Forall_cons in Hf as [Hf Hfl]. apply Forall_cons in Ht as [Ht Htl].
    rewrite stream_cons by done. unfold arrives in Ha. rewrite Ha, Hsn, Hrn, next_counter_iter by done.
    simpl negb. cbv iota. pose proof (ch_delta _ Hc). simpl length in *.
    assert (Hnx : next_counter c n = (n + 1) mod max_delta_counter c).
    { unfold next_counter. rewrite u32_small by (unfold is_u32; lia). done. }
    rewrite Hnx, (proj2 (Z.eqb_neq _ _)) by (apply counters_differ; lia). cbv iota.
    edestruct (IH (accept snd_ ((n + Z.of_nat (S k)) mod max_delta_counter c) (tx_sent t))
      (rcv <| e2e_state := E2E_STATE_INVALID |>) (S k)) as (s' & r' & Heq & Hs' & Hr'); try done; try lia.
    exists s', r'. erewrite Heq. split; [done|]. split; [|done]. rewrite Hs'. do 2 f_equal. lia.
Qed.

(** A lost message costs the ones after it: from sides in step, when one message
    of a stream does not arrive, each of the [max_delta_counter - 1] messages that
    follow it in time is refused as out of sequence, although they arrive intact, and
    the next one, the counter having come round, is accepted. *)
Theorem lost_message_rejects c snd_ rcv lost l t :
  channel_ok c -> e2e_initialized snd_ = true -> e2e_initialized rcv = true ->
  0 <= sequence_counter rcv < max_delta_counter c -> sequence_counter snd_ = sequence_counter rcv ->
  tx_arrives lost = false -> Forall arrives (l ++ [t]) ->
  Forall (fun t => fitting c (tx_payload t)) (lost :: l ++ [t]) ->
  Forall (in_time c (last_timestamp rcv)) (l ++ [t]) ->
  Z.of_nat (S (length l)) = max_delta_counter c ->
  exists snd' rcv',
    stream c snd_ rcv (lost :: l ++ [t]) =
      Some (None :: replicate (length l) (Some E2E_ERROR_SEQUENCE) ++ [Some E2E_OK], snd', rcv').
Proof.
  intros Hc Hs Hr Hn Hsn Hlost Ha Hf Ht Hlen. pose proof (ch_delta _ Hc).
  apply Forall_cons in Hf as [Hf Hfl]. apply Forall_app in Ha as [Ha Hat]. apply Forall_app in Hfl as [Hfl Hft].
  apply Forall_app in Ht as [Ht Htt]. rewrite Forall_singleton in Hat, Hft, Htt.
  rewrite stream_cons by (rewrite ?Hlost; done). rewrite Hlost, Hsn. simpl negb. cbv iota beta.
  set (n := sequence_counter rcv) in *.
  assert (Hnx : next_counter c n = (n + Z.of_nat 1) mod max_delta_counter c).
  { unfold next_counter. rewrite u32_small by (unfold is_u32; lia). done. }
  destruct (stream_behind c n l (accept snd_ (next_counter c n) (tx_sent lost)) rcv 1)
    as (s' & r' & Heq & Hs' & Hr' & Hlt & His & Hir); try done; try lia.
  rewrite (stream_app _ _ _ _ _ _ _ _ Heq).
  rewrite stream_cons by (rewrite ?Hlt; done). unfold arrives in Hat.
  rewrite Hat, Hs', Hr', next_counter_iter by done. simpl negb. cbv iota.
  replace (n + Z.of_nat (S (1 + length l))) with (n + Z.of_nat 1 + 1 * max_delta_counter c) by lia.
  rewrite Z.mod_add, Hnx, Z.eqb_refl by lia. cbn. eauto.
Qed.

Definition channel_of_2 : E2EConfig := mkE2EConfig E2E_PROFILE_2 7 1 8 2 100 false.
Lemma lost_message_rejects_witness :
  exists snd' rcv',
    stream channel_of_2 fresh_side fresh_side
      [mkTransmission [1] 10 12 false; mkTransmission [2] 20 22 true; mkTransmission [3] 30 32 true] =
    Some ([None; Some E2E_ERROR_SEQUENCE; Some E2E_OK], snd', rcv').
Proof.
  apply (lost_message_rejects channel_of_2 fresh_side fresh_side (mkTransmission [1] 10 12 false)
           [mkTransmission [2] 20 22 true] (mkTransmission [3] 30 32 true)).
  1: by split; cbn.
  all: try done; repeat constructor; vm_compute; congruence.
Defined.

(** ** What the protection does not do *)

(** A run of checks of arbitrary messages at given times. *)
Fixpoint checks (c : E2EConfig) (s : E2EState) (l : list (E2EProtectedData * Z))
  : option (list E2EStatusType * E2EState) :=
  match l with
  | [] => Some ([], s)
  | (d, now) :: l =>
      match E2E_Check (Some c) (Some s) (Some d) now with
      | Some (st, Some s) => '(sts, s) ← checks c s l; Some (st :: sts, s)
      | _ => None
      end
  end.

(** A time-out is final: once more than [timeout_ms] have passed since the message
    accepted last, each later message of a valid length is refused, for as long as the
    clock has not gone round, because a refusal does not refresh [last_timestamp].  A
    receiver initialised more than [timeout_ms] after start-up refuses its first message
    that way. *)
Theorem timeout_is_final c s l :
  validate_config (Some c) = true -> e2e_initialized s = true ->
  Forall (fun m => validate_data (Some c) (Some m.1) = true /\
                   timeout_ms c < m.2 - last_timestamp s < 2 ^ 32) l ->
  exists s', checks c s l = Some (replicate (length l) E2E_ERROR_TIMEOUT, s') /\
    last_timestamp s' = last_timestamp s.
Proof.
  intros Hc. revert s. induction l as [|[d now] l IH]; intros s Hi Hl; [by exists s|].
  apply Forall_cons in Hl as [[Hd Ht] Hl]. cbn [fst snd] in Hd, Ht. cbn [checks]. unfold E2E_Check.
  rewrite Hi, Hc, Hd. simpl negb. cbv iota.
  assert (0 <= now - last_timestamp s \/ now - last_timestamp s < 0) as Hneg by lia.
  rewrite (proj2 (Z.ltb_lt _ _)); cycle 1.
  { unfold u32. destruct Hneg.
    - rewrite Z.mod_small; lia.
    - pose proof (Z.mod_pos_bound (now - last_timestamp s) (2 ^ 32)). lia. }
  destruct (IH (s <| e2e_state := E2E_STATE_ERROR |>)) as (s' & Heq & Hs'); [done..|].
  exists s'. cbn [orb]. rewrite Heq. done.
Qed.
Lemma timeout_is_final_witness :
  exists s', checks channel4 fresh_side [(message [1], 101); (message [2], 5000)] =
               Some (replicate 2 E2E_ERROR_TIMEOUT, s') /\ last_timestamp s' = last_timestamp fresh_side.
Proof.
  apply (timeout_is_final channel4 fresh_side [(message [1], 101); (message [2], 5000)]); try done.
  repeat constructor.
Defined.

(** A message whose payload was replaced on the way. *)
Definition corrupt (d : E2EProtectedData) (l : list Z) : E2EProtectedData := d <| bytes := Some l |>.

Lemma crc16_single d : 0 <= d < 240 -> calculate_crc E2E_PROFILE_2 [d] 1 = Some 0xFF00.
Proof.
  intros Hd.
  assert (H : forallb (fun n => bool_decide (calculate_crc E2E_PROFILE_2 [Z.of_nat n] 1 = Some 0xFF00))
            (List.seq 0 240) = true) by (vm_compute; reflexivity).
  rewrite List.forallb_forall in H. specialize (H (Z.to_nat d)).
  rewrite bool_decide_eq_true, Z2Nat.id in H by lia. apply H, List.in_seq. lia.
Qed.

(** The pairs of payloads a profile's checksum cannot tell apart, among others: under
    profiles 5 and 6, whose checksums are left to be written, all of them; under
    profile 2, whose table is filled to its sixteenth entry only, all single bytes
    below 240. *)
Inductive indistinct : E2EProfileType -> list Z -> list Z -> Prop :=
| indistinct_5 l l' : length l = length l' -> indistinct E2E_PROFILE_5 l l'
| indistinct_6 l l' : length l = length l' -> indistinct E2E_PROFILE_6 l l'
| indistinct_2 d d' : 0 <= d < 240 -> 0 <= d' < 240 -> indistinct E2E_PROFILE_2 [d] [d'].

(** Corruption the check misses: a payload replaced on the way by one of the same
    length is answered exactly as the original, under profiles 5 and 6 whatever the
    payloads, and under profile 2 for single bytes below 240. *)
Theorem corruption_undetected c s d l l' now :
  bytes d = Some l -> length_ d = Z.of_nat (length l) -> indistinct (profile c) l l' ->
  E2E_Check (Some c) (Some s) (Some (corrupt d l')) now = E2E_Check (Some c) (Some s) (Some d) now.
Proof.
  intros Hb Hl Hi. unfold E2E_Check.
  replace (validate_data (Some c) (Some (corrupt d l'))) with (validate_data (Some c) (Some d))
    by (simpl; by rewrite Hb).
  replace (build_header c (corrupt d l')) with (build_header c d) by done.
  cbn [corrupt]. cbn -[build_header calculate_crc validate_config validate_data modulo].
  rewrite Hb. cbn [default].
  replace (calculate_crc (profile c) l' (length_ d)) with (calculate_crc (profile c) l (length_ d)); [done|].
  destruct Hi as [? ? _|? ? _|x y Hx Hy]; [done..|]. rewrite Hl. cbn [length Z.of_nat Pos.of_succ_nat].
  by rewrite !crc16_single.
Qed.
Lemma corruption_undetected_witness :
  E2E_Check (Some channel_of_2) (Some fresh_side)
    (Some (corrupt (mkE2EData (Some [1]) 1 0xFF00 1 7) [0x80])) 10 =
  E2E_Check (Some channel_of_2) (Some fresh_side) (Some (mkE2EData (Some [1]) 1 0xFF00 1 7)) 10.
Proof.
  apply (corruption_undetected channel_of_2 fresh_side (mkE2EData (Some [1]) 1 0xFF00 1 7) [1] [0x80]);
    [reflexivity..|]. apply indistinct_2; lia.
Defined.

(** Profile 1 has no defined behaviour: its checksum starts at [0xFFFFFFFF] and
    indexes the table of 256 entries with it, so that [E2E_Protect] of a message of a
    configured length reads outside the table: the header it checksums is never empty. *)
Theorem profile1_undefined c s d now :
  profile c = E2E_PROFILE_1 -> validate_config (Some c) = true -> e2e_initialized s = true ->
  validate_data (Some c) (Some d) = true ->
  E2E_Protect (Some c) (Some s) (Some d) now = None.
Proof.
  intros Hp Hc Hi Hd. apply protect_unusable; [by left|done..].
Qed.
Lemma profile1_undefined_witness :
  E2E_Protect (Some (mkE2EConfig E2E_PROFILE_1 1 1 8 16 100 true)) (Some fresh_side) (Some (message [1])) 10 = None.
Proof. apply profile1_undefined; try done. Defined.
