(* ===== verification/AliveMonitor.v ===== *)
(** * Alive supervision

    [safety/alive_monitor.c]: each supervised task reports that it is alive; a report
    outside the configured cycle, or a supervision round that finds the task's deadline
    passed, uses up the task's tolerance and then lowers its state.  The system state is
    the worst state among the critical tasks.

    [alive_monitor] is the record [AliveMonitor]; [config.tasks] is the caller's array,
    which the monitor keeps a pointer to and nobody changes.  An index outside an array
    is undefined behaviour ([fault]). *)

From S2P Require Import Prelude Machine.

Definition MAX_TASKS : nat := 32.

Inductive AliveState := ALIVE_STATE_HEALTHY | ALIVE_STATE_DEGRADED | ALIVE_STATE_CRITICAL | ALIVE_STATE_FAILED.
#[export] Instance AliveState_eq_dec : EqDecision AliveState.
Proof. solve_decision. Defined.
(** The enumeration's values, by which states are compared and passed on. *)
Definition alive_code (a : AliveState) : Z :=
  match a with
  | ALIVE_STATE_HEALTHY => 0 | ALIVE_STATE_DEGRADED => 1 | ALIVE_STATE_CRITICAL => 2 | ALIVE_STATE_FAILED => 3
  end.

Record AliveTaskConfig := mkTaskConfig {
  at_task_id : Z; deadline_ms : Z; min_cycle_ms : Z; max_cycle_ms : Z; max_jitter_ms : Z;
  max_tolerance : Z; is_critical : bool }.
(** [tasks] is [None] for NULL; the callbacks are present or NULL. *)
Record AliveMonitorConfig := mkAliveConfig {
  cfg_tasks : option (list AliveTaskConfig); task_count : Z; supervision_interval_ms : Z;
  state_change_callback : bool; error_callback : bool }.
Record TaskMonitorState := mkTaskState {
  deadline_timer : Timer; cycle_timer : Timer; deadline_misses : Z; tolerance_count : Z;
  last_execution_time : Z; t_state : AliveState; first_execution : bool }.
#[export] Instance eta_TaskMonitorState : Eta TaskMonitorState := fun t =>
  mkTaskState (deadline_timer t) (cycle_timer t) (deadline_misses t) (tolerance_count t)
    (last_execution_time t) (t_state t) (first_execution t).
Definition task_zero : TaskMonitorState := mkTaskState timer_zero timer_zero 0 0 0 ALIVE_STATE_HEALTHY false.

Record AliveMonitor := mkAlive {
  a_config : AliveMonitorConfig; tasks : list TaskMonitorState; supervision_timer : Timer;
  system_state : AliveState; a_initialized : bool; a_critical : CriticalSection }.
#[export] Instance eta_AliveMonitor : Eta AliveMonitor := fun s =>
  mkAlive (a_config s) (tasks s) (supervision_timer s) (system_state s) (a_initialized s) (a_critical s).
#[export, refine] Instance AliveMonitor_critical : HasCritical AliveMonitor :=
  {| crit := a_critical; set_crit c s := s <| a_critical := c |> |}.
Proof. all: by intros; destruct s. Defined.

(** [memset(&alive_monitor.state, 0, ...)]. *)
Definition clear_state (s : AliveMonitor) : AliveMonitor :=
  s <| tasks := replicate MAX_TASKS task_zero |> <| supervision_timer := timer_zero |>
    <| system_state := ALIVE_STATE_HEALTHY |> <| a_initialized := false |>.
Definition alive_zero : AliveMonitor :=
  clear_state (mkAlive (mkAliveConfig None 0 0 false false) [] timer_zero ALIVE_STATE_HEALTHY false cs_zero).

(** [alive_monitor.state.tasks[i]] and [alive_monitor.config.tasks[i]]. *)
Definition task_at (i : nat) : M AliveMonitor (TaskMonitorState * AliveTaskConfig) :=
  s ← get;
  match tasks s !! i, cfg_tasks (a_config s) ≫= (.!! i) with
  | Some t, Some c => mret (t, c)
  | _, _ => fault
  end.
Definition set_task (i : nat) (f : TaskMonitorState -> TaskMonitorState) : M AliveMonitor unit :=
  modify (fun s => s <| tasks ::= alter f i |>).
Definition task_of (i : nat) (s : AliveMonitor) : TaskMonitorState := default task_zero (tasks s !! i).

Definition validate_task_id (task_id : Z) (s : AliveMonitor) : bool := task_id <? task_count (a_config s).

(** [n] iterations of the loop of [update_system_state], the first at index [i]. *)
Fixpoint worst_loop (n i : nat) (worst_state : AliveState) : M AliveMonitor AliveState :=
  match n with
  | O => mret worst_state
  | S n =>
      '(t, c) ← task_at i;
      worst_loop n (S i)
        (if is_critical c && (alive_code worst_state <? alive_code (t_state t)) then t_state t else worst_state)
  end.
Definition update_system_state : M AliveMonitor unit :=
  s ← get;
  worst_state ← worst_loop (Z.to_nat (task_count (a_config s))) 0 ALIVE_STATE_HEALTHY;
  s ← get;
  if negb (bool_decide (worst_state = system_state s))
  then modify (fun s => s <| system_state := worst_state |>) else mret tt.

Fixpoint init_tasks (n i : nat) : M AliveMonitor unit :=
  match n with
  | O => mret tt
  | S n =>
      set_task i (fun t => t <| t_state := ALIVE_STATE_HEALTHY |> <| first_execution := true |>);;
      init_tasks n (S i)
  end.
Definition start_supervision (interval : Z) : M AliveMonitor unit :=
  start supervision_timer (fun t s => s <| supervision_timer := t |>) interval.

Definition Alive_Monitor_Init (SystemCoreClock : Z) (config : option AliveMonitorConfig) : M AliveMonitor bool :=
  match config with
  | None => mret false
  | Some config =>
      if negb (match cfg_tasks config with Some _ => true | None => false end) ||
         (task_count config =? 0) || (Z.of_nat MAX_TASKS <? task_count config)
      then mret false
      else
        enter;;
        modify (fun s => s <| a_config := config |>);;
        modify clear_state;;
        init_tasks (Z.to_nat (task_count config)) 0;;
        timer_init_m SystemCoreClock;;
        start_supervision (supervision_interval_ms config);;
        modify (fun s => s <| a_initialized := true |> <| system_state := ALIVE_STATE_HEALTHY |>);;
        exit;;
        mret true
  end.

Definition Alive_Monitor_DeInit : M AliveMonitor unit :=
  enter;; modify (fun s => s <| a_initialized := false |>);; modify clear_state;; exit.

(** The body of the supervision loop. *)
Definition check_task (i : nat) : M AliveMonitor unit :=
  '(t, c) ← task_at i;
  if negb (first_execution t) then
    e ← expired (fun s => deadline_timer (task_of i s));
    if e : bool then
      set_task i (fun t => t <| deadline_misses ::= fun n => u32 (n + 1) |>);;
      set_task i (fun t => t <| tolerance_count ::= fun n => u32 (n + 1) |>);;
      s ← get;
      if max_tolerance c <? tolerance_count (task_of i s) then
        let new_state := if is_critical c then ALIVE_STATE_CRITICAL else ALIVE_STATE_DEGRADED in
        if negb (bool_decide (t_state (task_of i s) = new_state)) then
          set_task i (fun t => t <| t_state := new_state |>);;
          callback (state_change_callback (a_config s)) "state_change_callback" [Z.of_nat i; alive_code new_state]
        else mret tt
      else mret tt
    else mret tt
  else mret tt.
Fixpoint check_loop (n i : nat) : M AliveMonitor unit :=
  match n with O => mret tt | S n => check_task i;; check_loop n (S i) end.

Definition Alive_Monitor_Process : M AliveMonitor unit :=
  s ← get;
  if negb (a_initialized s) then mret tt else
  enter;;
  e ← expired supervision_timer;
  (if e : bool then
     s ← get;
     check_loop (Z.to_nat (task_count (a_config s))) 0;;
     update_system_state;;
     s ← get;
     start_supervision (supervision_interval_ms (a_config s))
   else mret tt);;
  exit.

Definition Alive_Monitor_ReportAlive (task_id : Z) : M AliveMonitor unit :=
  s ← get;
  if negb (a_initialized s) || negb (validate_task_id task_id s) then mret tt else
  let i := Z.to_nat task_id in
  enter;;
  '(t, c) ← task_at i;
  current_time ← now;
  (if negb (first_execution t) then
     let cycle_time := u32 (current_time - last_execution_time t) in
     if (cycle_time <? min_cycle_ms c) || (max_cycle_ms c <? cycle_time) then
       set_task i (fun t => t <| tolerance_count ::= fun n => u32 (n + 1) |>);;
       s ← get;
       (if max_tolerance c <? tolerance_count (task_of i s) then
          set_task i (fun t => t <| t_state := ALIVE_STATE_DEGRADED |>);;
          callback (state_change_callback (a_config s)) "state_change_callback" [task_id; alive_code ALIVE_STATE_DEGRADED]
        else mret tt);;
       callback (error_callback (a_config s)) "error_callback" [task_id; cycle_time]
     else
       set_task i (fun t => t <| tolerance_count := 0 |>);;
       s ← get;
       if negb (bool_decide (t_state (task_of i s) = ALIVE_STATE_HEALTHY)) then
         set_task i (fun t => t <| t_state := ALIVE_STATE_HEALTHY |>);;
         callback (state_change_callback (a_config s)) "state_change_callback" [task_id; alive_code ALIVE_STATE_HEALTHY]
       else mret tt
   else mret tt);;
  set_task i (fun t => t <| last_execution_time := current_time |> <| first_execution := false |>);;
  start (fun s => deadline_timer (task_of i s))
        (fun d s => s <| tasks ::= alter (fun t => t <| deadline_timer := d |>) i |>) (deadline_ms c);;
  update_system_state;;
  exit.

Definition Alive_Monitor_GetTaskState (task_id : Z) : M AliveMonitor AliveState :=
  s ← get;
  if negb (a_initialized s) || negb (validate_task_id task_id s) then mret ALIVE_STATE_FAILED else
  match tasks s !! Z.to_nat task_id with Some t => mret (t_state t) | None => fault end.
Definition Alive_Monitor_GetSystemState : M AliveMonitor AliveState := s ← get; mret (system_state s).
Definition Alive_Monitor_GetDeadlineMisses (task_id : Z) : M AliveMonitor Z :=
  s ← get;
  if negb (a_initialized s) || negb (validate_task_id task_id s) then mret 0 else
  match tasks s !! Z.to_nat task_id with Some t => mret (deadline_misses t) | None => fault end.

Fixpoint reset_loop (n i : nat) : M AliveMonitor unit :=
  match n with
  | O => mret tt
  | S n =>
      set_task i (fun t => t <| deadline_misses := 0 |> <| tolerance_count := 0 |>
                             <| t_state := ALIVE_STATE_HEALTHY |>);;
      reset_loop n (S i)
  end.
Definition Alive_Monitor_ResetStatistics : M AliveMonitor unit :=
  s ← get;
  if negb (a_initialized s) then mret tt else
  enter;;
  reset_loop (Z.to_nat (task_count (a_config s))) 0;;
  modify (fun s => s <| system_state := ALIVE_STATE_HEALTHY |>);;
  exit.
Definition Alive_Monitor_IsTaskHealthy (task_id : Z) : M AliveMonitor bool :=
  s ← get;
  if negb (a_initialized s) || negb (validate_task_id task_id s) then mret false else
  match tasks s !! Z.to_nat task_id with
  | Some t => mret (bool_decide (t_state t = ALIVE_STATE_HEALTHY))
  | None => fault
  end.

(** ** The effect of the loops *)

(** The configured tasks: the array is as long as [task_count] says. *)
Definition cfgs (s : AliveMonitor) : list AliveTaskConfig := default [] (cfg_tasks (a_config s)).
Definition count (s : AliveMonitor) : nat := Z.to_nat (task_count (a_config s)).
Record wf (s : AliveMonitor) : Prop := mkWf {
  wf_tasks : length (tasks s) = MAX_TASKS;
  wf_count : a_initialized s = true -> (count s <= MAX_TASKS)%nat /\ (count s <= length (cfgs s))%nat }.

(** What a supervision round at time [now] does to one task. *)
Definition overdue (now : Z) (t : TaskMonitorState) : bool :=
  negb (first_execution t) && running (deadline_timer t) &&
  (timeout (deadline_timer t) <=? u32 (now - start_time (deadline_timer t))).
Definition lowered (c : AliveTaskConfig) : AliveState :=
  if is_critical c then ALIVE_STATE_CRITICAL else ALIVE_STATE_DEGRADED.
Definition supervise (c : AliveTaskConfig) (now : Z) (t : TaskMonitorState) : TaskMonitorState :=
  if overdue now t then
    let t := t <| deadline_misses ::= fun n => u32 (n + 1) |> <| tolerance_count ::= fun n => u32 (n + 1) |> in
    if max_tolerance c <? tolerance_count t then t <| t_state := lowered c |> else t
  else t.

(** The state of the system by definition: the worst critical task. *)
Definition worse (w : AliveState) (p : TaskMonitorState * AliveTaskConfig) : AliveState :=
  if is_critical p.2 && (alive_code w <? alive_code (t_state p.1)) then t_state p.1 else w.
Definition worst (s : AliveMonitor) : AliveState :=
  foldl worse ALIVE_STATE_HEALTHY (take (count s) (zip (tasks s) (cfgs s))).

(** Everything but the tasks is as before; so are the clock and the mask. *)
Definition but_tasks (s s' : AliveMonitor) (m m' : Machine) : Prop :=
  s' <| tasks := tasks s |> = s /\ primask m' = primask m /\ system_ticks m' = system_ticks m.

Lemma but_tasks_refl s m : but_tasks s s m m.
Proof. by destruct s. Qed.
Lemma but_tasks_trans s1 s2 s3 m1 m2 m3 :
  but_tasks s1 s2 m1 m2 -> but_tasks s2 s3 m2 m3 -> but_tasks s1 s3 m1 m3.
Proof.
  intros (H1 & ? & ?) (H2 & ? & ?). split_and!; [|congruence..].
  rewrite <- H1, <- H2. by destruct s3.
Qed.
#[local] Hint Resolve but_tasks_refl : core.

Lemma wp_task_at i Q s m t c :
  tasks s !! i = Some t -> cfgs s !! i = Some c -> Q (t, c) s m -> wp (task_at i) Q s m.
Proof.
  intros Ht Hc HQ. unfold task_at. wp_step. wp_step. rewrite Ht.
  unfold cfgs in Hc. destruct (cfg_tasks _); simpl in *; [|done]. by rewrite Hc.
Qed.
(** Task [i] of the state at hand, given that it was [t] at first. *)
Ltac task_is t v :=
  match goal with
  | H : tasks _ !! ?i = Some t |- context [task_of ?i ?x] =>
      replace (task_of i x) with v by (unfold task_of; simpl; by rewrite ?list_lookup_alter_eq, H)
  end.

Lemma lookup_pair_lt s i : wf s -> a_initialized s = true -> (i < count s)%nat ->
  exists t c, tasks s !! i = Some t /\ cfgs s !! i = Some c.
Proof.
  intros [Hl Hw] Hi Hlt. destruct (Hw Hi) as [? ?].
  destruct (lookup_lt_is_Some_2 (tasks s) i) as [t ?]; [lia|].
  destruct (lookup_lt_is_Some_2 (cfgs s) i) as [c ?]; [lia|]. eauto.
Qed.

Lemma check_task_spec i t c s m :
  tasks s !! i = Some t -> cfgs s !! i = Some c ->
  wp (check_task i) (fun _ s' m' => tasks s' = <[i := supervise c (system_ticks m) t]> (tasks s) /\
    but_tasks s s' m m') s m.
Proof.
  intros Ht Hc. assert (Hof : task_of i s = t) by (unfold task_of; by rewrite Ht).
  unfold check_task. apply wp_bind. eapply wp_task_at; [done..|].
  unfold supervise, overdue, lowered. cbv beta iota. destruct (first_execution t); simpl negb; cbv iota.
  { apply wp_ret. simpl. by rewrite list_insert_id. }
  wp_step. wp_step. rewrite Hof. simpl andb.
  destruct (running (deadline_timer t) && _); cbv iota; [|apply wp_ret; rewrite list_insert_id by done; by destruct s].
  unfold set_task. wp_step. wp_step. wp_step. wp_step. wp_step. wp_step.
  task_is t (t <| deadline_misses ::= fun n => u32 (n + 1) |> <| tolerance_count ::= fun n => u32 (n + 1) |>).
  simpl.
  destruct (max_tolerance c <? _) eqn:Hm; simpl.
  - case_bool_decide as Hs; simpl.
    + apply wp_ret. simpl. rewrite list_alter_alter_eq, (alter_as_insert _ i t) by done.
      split; [f_equal; rewrite <- Hs; by destruct t|by destruct s].
    + wp_step. wp_step. apply wp_callback. simpl.
      rewrite !list_alter_alter_eq, (alter_as_insert _ i t) by done. split; [done|by destruct s].
  - apply wp_ret. simpl. rewrite list_alter_alter_eq, (alter_as_insert _ i t) by done.
    split; [done|by destruct s].
Qed.

Lemma but_tasks_cfgs s s' m m' :
  but_tasks s s' m m' -> cfgs s' = cfgs s /\ count s' = count s /\ a_config s' = a_config s /\
    a_initialized s' = a_initialized s /\ system_state s' = system_state s /\ a_critical s' = a_critical s /\
    supervision_timer s' = supervision_timer s.
Proof. intros (<- & _). by destruct s'. Qed.

(** Tasks [i .. i + n - 1] after a round at [now], the others as they are. *)
Definition round_of (now : Z) (i n : nat) (cs : list AliveTaskConfig) (ts ts' : list TaskMonitorState) : Prop :=
  length ts' = length ts /\
  (forall j t c, ts !! j = Some t -> cs !! j = Some c -> (i <= j < i + n)%nat ->
    ts' !! j = Some (supervise c now t)) /\
  (forall j, ~ (i <= j < i + n)%nat -> ts' !! j = ts !! j).

Lemma check_loop_spec n : forall i s m,
  wf s -> a_initialized s = true -> (i + n <= count s)%nat ->
  wp (check_loop n i) (fun _ s' m' => round_of (system_ticks m) i n (cfgs s) (tasks s) (tasks s') /\
    but_tasks s s' m m') s m.
Proof.
  induction n as [|n IH]; intros i s m Hw Hi Hn; cbn [check_loop].
  - apply wp_ret. split; [|auto]. split_and!; [done|lia|done].
  - destruct (lookup_pair_lt s i) as (t & c & Ht & Hc); [done..|lia|].
    apply wp_bind. eapply wp_mono; [by apply check_task_spec|]. intros _ s1 m1 [Hs1 Hb].
    destruct (but_tasks_cfgs _ _ _ _ Hb) as (Hcf & Hcn & Hco & Hin & _).
    eapply wp_mono.
    { apply IH; [|congruence|lia]. split.
      - rewrite Hs1, length_insert. apply Hw.
      - intros _. rewrite Hcn, Hcf. by apply Hw. }
    intros _ s2 m2 [(Hl & Hr & Hf) Hb2]. split; [|by eapply but_tasks_trans].
    destruct Hb as (_ & _ & Htk). rewrite Hcf, Hs1, Htk in Hr. rewrite Hs1 in Hl, Hf. split_and!.
    + by rewrite Hl, length_insert.
    + intros j t' c' Ht' Hc' Hj. destruct (decide (j = i)) as [->|Hne].
      * rewrite Hf by lia. simplify_eq. apply list_lookup_insert_eq. by eapply lookup_lt_Some.
      * apply Hr; [|done|lia]. by rewrite list_lookup_insert_ne.
    + intros j Hj. rewrite Hf by lia. apply list_lookup_insert_ne. lia.
Qed.

Lemma worst_loop_spec n : forall i w s m,
  wf s -> a_initialized s = true -> (i + n <= count s)%nat ->
  wp (worst_loop n i w) (fun r s' m' => r = foldl worse w (take n (drop i (zip (tasks s) (cfgs s)))) /\
    s' = s /\ m' = m) s m.
Proof.
  induction n as [|n IH]; intros i w s m Hw Hi Hn; cbn [worst_loop]; [by apply wp_ret|].
  destruct (lookup_pair_lt s i) as (t & c & Ht & Hc); [done..|lia|].
  apply wp_bind. eapply wp_task_at; [done..|]. cbv beta iota.
  eapply wp_mono; [apply IH; [done..|lia]|]. intros r s' m' (-> & -> & ->). split; [|done].
  rewrite (drop_S _ (t, c) i); [done|]. rewrite lookup_zip_with, Ht. simpl. by rewrite Hc.
Qed.

Lemma update_system_state_spec s m :
  wf s -> a_initialized s = true ->
  wp update_system_state (fun _ s' m' => s' = s <| system_state := worst s |> /\ m' = m) s m.
Proof.
  intros Hw Hi. unfold update_system_state. do 2 wp_step. apply wp_bind.
  eapply wp_mono; [apply worst_loop_spec; [done..|]; by rewrite Nat.add_0_l|].
  intros r s' m' (-> & -> & ->). rewrite drop_0. fold (count s). change (foldl _ _ _) with (worst s).
  do 2 wp_step. case_bool_decide as Hb; simpl.
  - apply wp_ret. split; [|done]. rewrite Hb. by destruct s.
  - by apply wp_modify.
Qed.

(** ** Supervision rounds *)

Definition due (s : AliveMonitor) (m : Machine) : bool :=
  running (supervision_timer s) &&
  (timeout (supervision_timer s) <=? u32 (system_ticks m - start_time (supervision_timer s))).

Lemma alive_process_spec s m :
  wf s -> a_initialized s = true ->
  wp Alive_Monitor_Process (fun _ s' m' =>
    primask m' = primask m /\ system_ticks m' = system_ticks m /\
    a_config s' = a_config s /\ a_initialized s' = true /\ wf s' /\
    if due s m then
      round_of (system_ticks m) 0 (count s) (cfgs s) (tasks s) (tasks s') /\ system_state s' = worst s' /\
      supervision_timer s' = mkTimer (system_ticks m) (supervision_interval_ms (a_config s)) true
    else tasks s' = tasks s /\ system_state s' = system_state s /\ supervision_timer s' = supervision_timer s) s m.
Proof.
  intros Hw Hi. unfold Alive_Monitor_Process. do 2 wp_step. rewrite Hi. cbn [negb]. cbv iota.
  wp_step. wp_step. wp_step. wp_step. fold (due s m). wp_step.
  destruct (due s m) eqn:Hd.
  - wp_step. wp_step. set (s1 := s <| a_critical := mkCS (Z.b2z (primask m)) true |>).
    assert (Hw1 : wf s1) by (destruct Hw; split; done).
    wp_step. eapply wp_mono; [apply (check_loop_spec (count s) 0 s1); done|].
    intros _ s2 m2 [Hr Hb]. destruct (but_tasks_cfgs _ _ _ _ Hb) as (Hcf & Hcn & Hco & Hin & Hss & Hcr & Hst).
    assert (Hw2 : wf s2).
    { split; [rewrite (proj1 Hr); apply Hw1|]. intros _. rewrite Hcn, Hcf. by apply Hw1. }
    wp_step. eapply wp_mono; [apply update_system_state_spec; [done|by rewrite Hin]|].
    intros _ s3 m3 [-> ->]. do 2 wp_step. unfold start_supervision. wp_step.
    destruct Hb as (_ & Hp & Htk). simpl in Hp, Htk.
    eapply (wp_exit (primask m)); [by rewrite Hcr|done|]. simpl.
    split_and!; try done; [by rewrite Hin|destruct Hw2; split; done|by rewrite Htk, Hco].
  - wp_step. eapply (wp_exit (primask m)); [done..|]. simpl. split_and!; try done. destruct Hw; split; done.
Qed.

(** ** Reports *)

(** What a report at time [now] does to the reporting task. *)
Definition timely (c : AliveTaskConfig) (now : Z) (t : TaskMonitorState) : bool :=
  negb ((u32 (now - last_execution_time t) <? min_cycle_ms c) ||
        (max_cycle_ms c <? u32 (now - last_execution_time t))).
Definition judge (c : AliveTaskConfig) (now : Z) (t : TaskMonitorState) : TaskMonitorState :=
  if first_execution t then t
  else if timely c now t then t <| tolerance_count := 0 |> <| t_state := ALIVE_STATE_HEALTHY |>
  else
    let t := t <| tolerance_count ::= fun n => u32 (n + 1) |> in
    if max_tolerance c <? tolerance_count t then t <| t_state := ALIVE_STATE_DEGRADED |> else t.
Definition report (c : AliveTaskConfig) (now : Z) (t : TaskMonitorState) : TaskMonitorState :=
  (judge c now t) <| last_execution_time := now |> <| first_execution := false |>
                  <| deadline_timer := mkTimer now (deadline_ms c) true |>.

Lemma wf_insert s s' i t m m' :
  wf s -> but_tasks s s' m m' -> tasks s' = <[i := t]> (tasks s) -> wf s'.
Proof.
  intros Hw Hb Ht. destruct (but_tasks_cfgs _ _ _ _ Hb) as (Hcf & Hcn & Hco & Hin & _).
  split; [rewrite Ht, length_insert; apply Hw|]. rewrite Hcn, Hcf, Hin. apply Hw.
Qed.

Lemma report_alive_spec task_id s m :
  wf s -> a_initialized s = true -> 0 <= task_id < task_count (a_config s) ->
  exists t c, tasks s !! Z.to_nat task_id = Some t /\ cfgs s !! Z.to_nat task_id = Some c /\
  wp (Alive_Monitor_ReportAlive task_id) (fun _ s' m' =>
    primask m' = primask m /\ system_ticks m' = system_ticks m /\
    a_config s' = a_config s /\ a_initialized s' = true /\ wf s' /\
    tasks s' = <[Z.to_nat task_id := report c (system_ticks m) t]> (tasks s) /\
    system_state s' = worst s' /\ supervision_timer s' = supervision_timer s) s m.
Proof.
  intros Hw Hi Hid. set (i := Z.to_nat task_id).
  destruct (lookup_pair_lt s i) as (t & c & Ht & Hc); [done..|unfold i, count; lia|].
  exists t, c. split_and!; [done..|]. unfold Alive_Monitor_ReportAlive, validate_task_id. do 2 wp_step.
  rewrite Hi, (proj2 (Z.ltb_lt _ _)) by lia. cbn [negb orb]. cbv iota. fold i.
  wp_step. wp_step. wp_step. set (s1 := s <| a_critical := mkCS (Z.b2z (primask m)) true |>).
  eapply wp_task_at; [done..|]. cbv beta iota. wp_step. wp_step.
  change (set_crit _ s) with s1.
  apply wp_bind. apply wp_mono with (Q := fun _ s2 m2 =>
    tasks s2 = <[i := judge c (system_ticks m) t]> (tasks s1) /\ but_tasks s1 s2 (m <| primask := true |>) m2).
  { unfold judge, timely, set_task. destruct (first_execution t); cbn [negb].
    { apply wp_ret. rewrite list_insert_id by done. split; [done|by destruct s]. }
    destruct (_ || _); cbn [negb].
    - do 4 wp_step. task_is t (t <| tolerance_count ::= fun n => u32 (n + 1) |>). simpl.
      destruct (max_tolerance c <? _); wp_steps.
      + split; [|by destruct s].
        rewrite list_alter_alter_eq, (alter_as_insert _ i t) by done. done.
      + split; [|by destruct s]. by rewrite (alter_as_insert _ i t).
    - do 4 wp_step. task_is t (t <| tolerance_count := 0 |>). simpl. case_bool_decide as Hs; cbn [negb]; wp_steps.
      + split; [|by destruct s]. rewrite (alter_as_insert _ i t) by done. f_equal.
        rewrite <- Hs. by destruct t.
      + split; [|by destruct s].
        by rewrite list_alter_alter_eq, (alter_as_insert _ i t). }
  intros _ s2 m2 [Hs2 Hb]. unfold set_task. do 4 wp_step.
  destruct (but_tasks_cfgs _ _ _ _ Hb) as (Hcf & Hcn & Hco & Hin & Hss & Hcr & Hst).
  destruct Hb as (_ & Hp & Htk). simpl in Hp, Htk.
  assert (Hlen : length (tasks s2) = MAX_TASKS) by (rewrite Hs2, length_insert; apply Hw).
  assert (Hi2 : tasks s2 !! i = Some (judge c (system_ticks m) t)).
  { rewrite Hs2. apply list_lookup_insert_eq. by eapply lookup_lt_Some. }
  set (s3 := mkAlive _ _ _ _ _ _).
  assert (Hw3 : wf s3).
  { split; [unfold s3; simpl; by rewrite !length_alter|]. intros _.
    change (cfgs s3) with (cfgs s2). change (count s3) with (count s2). rewrite Hcn, Hcf. by apply Hw. }
  wp_step. eapply wp_mono; [apply update_system_state_spec; [done|by rewrite <- Hi; exact Hin]|].
  intros _ s4 m4 [-> ->]. eapply (wp_exit (primask m)); [by simpl; rewrite Hcr|done|]. simpl.
  assert (Hts : tasks s3 = <[i := report c (system_ticks m) t]> (tasks s)).
  { unfold s3. simpl. rewrite list_alter_alter_eq, (alter_as_insert _ i _ _ Hi2), Hs2, list_insert_insert_eq.
    f_equal. unfold report. simpl. by rewrite Htk. }
  split_and!; try done; [by rewrite Hin|destruct Hw3; split; done].
Qed.

(** ** Initialisation and reset *)

#[local] Arguments replicate : simpl never.

Lemma worst_healthy s :
  (forall j t, (j < count s)%nat -> tasks s !! j = Some t -> t_state t = ALIVE_STATE_HEALTHY) ->
  worst s = ALIVE_STATE_HEALTHY.
Proof.
  intros Hh. unfold worst.
  assert (Ha : Forall (fun p => t_state p.1 = ALIVE_STATE_HEALTHY) (take (count s) (zip (tasks s) (cfgs s)))).
  { apply Forall_lookup. intros j [t c] [Hj Hlt]%lookup_take_Some. simpl.
    apply lookup_zip_with_Some in Hj as (t' & c' & ? & Ht & _). simplify_eq. by eapply Hh. }
  induction Ha as [|[t c] l Hp _ IH]; [done|]. cbn [foldl worse fst snd].
  simpl in Hp. unfold worse at 2. simpl. by rewrite Hp, andb_false_r.
Qed.

(** [n] entries from [i] on rewritten by [f]: the loops of initialisation and reset. *)
Lemma set_loop_spec (loop : nat -> nat -> M AliveMonitor unit) f :
  (forall i, loop 0%nat i = mret tt) ->
  (forall n i, loop (S n) i = (set_task i f;; loop n (S i))) ->
  forall n i s m,
  wp (loop n i) (fun _ s' m' => m' = m /\ but_tasks s s' m m' /\ length (tasks s') = length (tasks s) /\
    forall j, tasks s' !! j = if decide (i <= j < i + n)%nat then f <$> tasks s !! j else tasks s !! j) s m.
Proof.
  intros H0 HS. induction n as [|n IH]; intros i s m.
  - rewrite H0. apply wp_ret. split_and!; [done|auto|done|]. intros j. rewrite decide_False by lia. done.
  - rewrite HS. apply wp_bind. unfold set_task. apply wp_modify.
    eapply wp_mono; [apply IH|]. intros _ s' m' (-> & Hb & Hl & Hj). split_and!; [done|..].
    + eapply but_tasks_trans; [|exact Hb]. by destruct s.
    + rewrite Hl. simpl. apply length_alter.
    + intros j. rewrite Hj. simpl. destruct (decide (j = i)) as [->|Hne].
      * rewrite decide_False, decide_True by lia. apply list_lookup_alter_eq.
      * rewrite list_lookup_alter_ne by done.
        repeat case_decide; lia || done.
Qed.

(** A configuration whose array is as long as it says, when it is usable at all. *)
Definition config_ok (config : option AliveMonitorConfig) : Prop :=
  forall c, config = Some c -> forall l, cfg_tasks c = Some l -> (Z.to_nat (task_count c) <= length l)%nat.

(** The state between calls: when initialised, the system state is the worst of the
    critical tasks. *)
Definition sound (s : AliveMonitor) : Prop :=
  wf s /\ (a_initialized s = true -> system_state s = worst s).

Lemma alive_init_spec clk config s m :
  config_ok config -> sound s ->
  wp (Alive_Monitor_Init clk config) (fun r s' m' => sound s' /\ primask m' = primask m /\
    system_ticks m' = system_ticks m /\
    (r = true -> a_initialized s' = true /\ Some (a_config s') = config /\
      forall j, (j < count s')%nat -> tasks s' !! j = Some (task_zero <| first_execution := true |>))) s m.
Proof.
  intros Hok Hs. unfold Alive_Monitor_Init. destruct config as [c|]; [|by apply wp_ret].
  destruct (_ || _) eqn:Hg; [by apply wp_ret|]. tests.
  destruct (cfg_tasks c) as [l|] eqn:Hl; [|done].
  specialize (Hok c eq_refl l Hl).
  do 6 wp_step. apply wp_bind.
  eapply wp_mono; [by eapply (set_loop_spec init_tasks)|]. intros _ s1 m1 (-> & Hb & Hlen & Hj).
  destruct (but_tasks_cfgs _ _ _ _ Hb) as (Hcf & Hcn & Hco & Hin & Hss & Hcr & Hst).
  destruct Hb as (_ & Hp & Htk). simpl in *.
  apply wp_bind, wp_timer_init. intros tr. unfold start_supervision. do 4 wp_step.
  apply wp_bind. eapply (wp_exit (primask m)); [done..|]. apply wp_ret. simpl.
  match goal with |- sound ?x /\ _ => set (s2 := x) end.
  assert (Hcnt : count s2 = Z.to_nat (task_count c)) by (unfold s2, count; simpl; by rewrite Hco).
  assert (Hts : forall j, (j < count s2)%nat -> tasks s2 !! j = Some (task_zero <| first_execution := true |>)).
  { intros j Hlt. change (tasks s2) with (tasks s1). rewrite Hj, decide_True by lia.
    rewrite lookup_replicate_2; [done|]. unfold MAX_TASKS in *. lia. }
  split_and!; try done.
  - split.
    + split; [change (tasks s2) with (tasks s1); by rewrite Hlen|]. intros _.
      unfold cfgs. change (a_config s2) with (a_config s1). rewrite Hco, Hl, Hcnt. unfold MAX_TASKS in *. simpl. lia.
    + intros _. symmetry. apply worst_healthy. intros j t Hlt Ht. rewrite Hts in Ht by done. by simplify_eq.
  - intros _. split_and!; [done| |done]. change (a_config s2) with (a_config s1). by rewrite Hco.
Qed.

Lemma alive_deinit_spec s m :
  sound s ->
  wp Alive_Monitor_DeInit (fun _ s' m' => sound s' /\ primask m' = primask m /\ system_ticks m' = system_ticks m) s m.
Proof.
  intros Hs. unfold Alive_Monitor_DeInit. do 6 wp_step. eapply (wp_exit (primask m)); [done..|]. simpl.
  split_and!; [|done..]. split; [|done]. split; [|done]. apply length_replicate.
Qed.

Lemma alive_reset_spec s m :
  sound s -> a_initialized s = true ->
  wp Alive_Monitor_ResetStatistics (fun _ s' m' => sound s' /\ primask m' = primask m /\
    system_ticks m' = system_ticks m /\ a_config s' = a_config s /\ a_initialized s' = true /\
    forall j, (j < count s)%nat -> tasks s' !! j = (fun t => t <| deadline_misses := 0 |> <| tolerance_count := 0 |>
                             <| t_state := ALIVE_STATE_HEALTHY |>) <$> tasks s !! j) s m.
Proof.
  intros [Hw _] Hi. unfold Alive_Monitor_ResetStatistics. do 2 wp_step. rewrite Hi. cbn [negb]. cbv iota.
  do 2 wp_step. apply wp_bind. eapply wp_mono; [by eapply (set_loop_spec reset_loop)|].
  intros _ s1 m1 (-> & Hb & Hlen & Hj).
  destruct (but_tasks_cfgs _ _ _ _ Hb) as (Hcf & Hcn & Hco & Hin & Hss & Hcr & Hst).
  do 2 wp_step. eapply (wp_exit (primask m)); [exact Hcr|done|]. simpl in *.
  assert (Ht : forall j, (j < count s)%nat -> tasks s1 !! j = (fun t => t <| deadline_misses := 0 |>
    <| tolerance_count := 0 |> <| t_state := ALIVE_STATE_HEALTHY |>) <$> tasks s !! j).
  { intros j Hlt. rewrite Hj. rewrite decide_True by (unfold count in Hlt; lia). done. }
  split_and!; try done; [|by rewrite Hin]. split.
  - split; simpl; [rewrite Hlen; apply Hw|]. intros _. unfold count, cfgs; simpl. rewrite Hco. by apply Hw.
  - intros _. simpl. symmetry. apply worst_healthy. unfold count; simpl. rewrite Hco. intros j t Hlt.
    rewrite Ht by done. destruct (tasks s !! j); simpl; intros; by simplify_eq.
Qed.

(** ** Runs *)

Inductive alive_op :=
| OpInit (clk : Z) (config : option AliveMonitorConfig) | OpDeInit | OpProcess
| OpReport (task_id : Z) | OpReset | OpTicks (n : nat).

Definition elapse (n : nat) : M AliveMonitor unit := fun s m => Some (tt, s, Nat.iter n SysTick_Handler m).
Definition run_op (op : alive_op) : M AliveMonitor unit :=
  match op with
  | OpInit clk config => Alive_Monitor_Init clk config;; mret tt
  | OpDeInit => Alive_Monitor_DeInit
  | OpProcess => Alive_Monitor_Process
  | OpReport task_id => Alive_Monitor_ReportAlive task_id
  | OpReset => Alive_Monitor_ResetStatistics
  | OpTicks n => elapse n
  end.
Fixpoint run (ops : list alive_op) : M AliveMonitor unit :=
  match ops with [] => mret tt | op :: ops => run_op op;; run ops end.

(** The arguments a caller may pass: configurations as long as they say, identifiers
    that are unsigned. *)
Definition op_ok (op : alive_op) : Prop :=
  match op with OpInit _ config => config_ok config | OpReport id => 0 <= id | _ => True end.

Lemma run_op_sound op s m :
  op_ok op -> sound s ->
  wp (run_op op) (fun _ s' m' => sound s' /\ primask m' = primask m) s m.
Proof.
  intros Hop Hs. destruct op as [clk config| | |id| |n]; cbn [run_op].
  - apply wp_bind. eapply wp_mono; [by apply alive_init_spec|]. intros r s' m' (? & ? & _). by apply wp_ret.
  - eapply wp_mono; [by apply alive_deinit_spec|]. naive_solver.
  - destruct (a_initialized s) eqn:Hi.
    + eapply wp_mono; [apply alive_process_spec; [apply Hs|done]|]. intros _ s' m' (? & Ht & Hc & Hin & Hw & Hd).
      split; [|done]. split; [done|]. intros _. destruct (due s m); [by apply Hd|].
      destruct Hd as (Htk & -> & _). rewrite (proj2 Hs Hi). unfold worst, count, cfgs. by rewrite Htk, Hc.
    + unfold Alive_Monitor_Process. do 2 wp_step. rewrite Hi. by apply wp_ret.
  - destruct (a_initialized s && validate_task_id id s) eqn:Hi; tests.
    + unfold validate_task_id in *. tests.
      destruct (report_alive_spec id s m) as (t & c & _ & _ & Hwp); [apply Hs|done|done|].
      eapply wp_mono; [exact Hwp|]. intros _ s' m' (? & _ & _ & _ & ? & _ & ? & _). done.
    + unfold Alive_Monitor_ReportAlive. do 2 wp_step.
      replace (_ || _) with true; [by apply wp_ret|].
      by destruct Hi as [-> | ->]; rewrite ?orb_true_r.
  - destruct (a_initialized s) eqn:Hi.
    + eapply wp_mono; [by apply alive_reset_spec|]. naive_solver.
    + unfold Alive_Monitor_ResetStatistics. do 2 wp_step. rewrite Hi. by apply wp_ret.
  - unfold elapse. unfold wp. split; [done|]. apply ticks_primask.
Qed.

(** C27. Along every sequence of initialisations, reports, supervision rounds, resets
    and tick interrupts, with task arrays as long as the configuration says, no call has
    undefined behaviour, the interrupt mask is restored, and the system state is the
    worst state among the critical tasks. *)
Theorem system_state_is_worst ops s m :
  Forall op_ok ops -> sound s ->
  wp (run ops) (fun _ s' m' => primask m' = primask m /\
    (a_initialized s' = true -> system_state s' = worst s')) s m.
Proof.
  intros Hops Hs. cut (wp (run ops) (fun _ s' m' => sound s' /\ primask m' = primask m) s m).
  { intros H. eapply wp_mono; [exact H|]. intros _ s' m' [[_ ?] ?]. done. }
  revert s m Hs. induction Hops as [|op ops Hop _ IH]; intros s m Hs; cbn [run]; [by apply wp_ret|].
  apply wp_bind. eapply wp_mono; [by apply run_op_sound|]. intros _ s1 m1 [Hs1 Hm1]. rewrite <- Hm1. by apply IH.
Qed.

Definition two_tasks : AliveMonitorConfig :=
  mkAliveConfig (Some [mkTaskConfig 0 10 5 15 0 1 true; mkTaskConfig 1 10 5 15 0 1 false]) 2 20 true true.
Lemma alive_zero_sound : sound alive_zero.
Proof. split; [split; done|done]. Qed.
Lemma system_state_is_worst_witness :
  wp (run [OpInit 1000 (Some two_tasks); OpReport 0; OpTicks 30; OpProcess; OpTicks 30; OpProcess])
    (fun _ s' m' => primask m' = primask boot /\ (a_initialized s' = true -> system_state s' = worst s'))
    alive_zero boot.
Proof.
  apply system_state_is_worst; [|apply alive_zero_sound].
  repeat constructor; try done. intros c Hc l Hl. simplify_eq. vm_compute in Hl. simplify_eq. simpl. lia.
Defined.

(** ** Silent tasks *)

(** What may happen between two supervision rounds while task [i] is silent: time
    passes and the other tasks report. *)
Definition between (i : nat) (op : alive_op) : Prop :=
  match op with OpTicks _ => True | OpReport id => 0 <= id /\ Z.to_nat id <> i | _ => False end.
(** The time that passes in it. *)
Definition op_span (op : alive_op) : nat := match op with OpTicks n => n | _ => 0 end.
Definition span (ops : list alive_op) : nat := sum_list (op_span <$> ops).
(** Supervision rounds, each after the operations given. *)
Definition rounds (l : list (list alive_op)) : list alive_op := l ≫= fun ops => ops ++ [OpProcess].

(** Task [i] is the one at hand and has reported once; the last round ended at [since]. *)
Record silent (i : nat) (t : TaskMonitorState) (c : AliveTaskConfig) (since : Z) (s : AliveMonitor) (m : Machine) : Prop := {
  si_sound : sound s; si_init : a_initialized s = true; si_count : (i < count s)%nat;
  si_task : tasks s !! i = Some t; si_cfg : cfgs s !! i = Some c;
  si_round : supervision_timer s = mkTimer since (supervision_interval_ms (a_config s)) true;
  si_ticks : is_u32 (system_ticks m) }.

Lemma overdue_later now e n t :
  first_execution t = false -> running (deadline_timer t) = true ->
  now = u32 (start_time (deadline_timer t) + e) -> timeout (deadline_timer t) <= e ->
  0 <= e -> e + Z.of_nat n < 2 ^ 32 ->
  overdue (u32 (now + Z.of_nat n)) t = true.
Proof.
  intros Hf Hr -> Hd He Hn. unfold overdue. rewrite Hf, Hr. cbn [negb andb]. apply Z.leb_le.
  assert (u32 (u32 (start_time (deadline_timer t) + e) + Z.of_nat n) =
          u32 (start_time (deadline_timer t) + (e + Z.of_nat n))) as ->.
  { unfold u32. rewrite Zplus_mod_idemp_l. f_equal. lia. }
  rewrite u32_elapsed by lia. lia.
Qed.

Lemma worst_ge i t c s :
  (i < count s)%nat -> tasks s !! i = Some t -> cfgs s !! i = Some c -> is_critical c = true ->
  alive_code (t_state t) <= alive_code (worst s).
Proof.
  intros Hi Ht Hc Hcr. unfold worst.
  assert (Hin : (t, c) ∈ take (count s) (zip (tasks s) (cfgs s))).
  { apply list_elem_of_lookup. exists i. rewrite lookup_take_lt by done.
    rewrite lookup_zip_with, Ht. simpl. by rewrite Hc. }
  assert (Hmono : forall l w, alive_code w <= alive_code (foldl worse w l)).
  { induction l as [|p l IH]; intros w; cbn [foldl]; [done|]. etrans; [|apply IH].
    unfold worse. destruct (is_critical p.2); simpl; [|done]. destruct (_ <? _) eqn:E; tests; lia. }
  revert Hin. generalize ALIVE_STATE_HEALTHY. generalize (take (count s) (zip (tasks s) (cfgs s))).
  intros l. induction l as [|p l IH]; intros w Hin; [by apply not_elem_of_nil in Hin|].
  apply elem_of_cons in Hin as [<-|Hin]; cbn [foldl]; [|by apply IH].
  etrans; [|apply Hmono]. unfold worse. cbn [fst snd]. rewrite Hcr. simpl.
  destruct (_ <? _) eqn:E; tests; lia.
Qed.

(** The task after [k] rounds past its deadline. *)
Definition missed (c : AliveTaskConfig) (k : Z) (t : TaskMonitorState) : TaskMonitorState :=
  t <| deadline_misses ::= fun n => u32 (n + k) |> <| tolerance_count ::= fun n => n + k |>
    <| t_state := if max_tolerance c <? tolerance_count t + k then lowered c else t_state t |>.

Lemma alive_run_app a b Q s m : wp (run (a ++ b)) Q s m <-> wp (run a) (fun _ s' m' => wp (run b) Q s' m') s m.
Proof.
  revert s m. induction a as [|op a IH]; intros s m; [done|]. cbn [run app].
  unfold wp, mbind, M_bind in *. destruct (run_op op s m) as [[[u s1] m1]|]; [|done]. apply IH.
Qed.

(** What happens between the rounds leaves the silent task and the round's timer alone. *)
Lemma between_step i t c since op s m :
  silent i t c since s m -> between i op ->
  wp (run_op op) (fun _ s' m' => silent i t c since s' m' /\ a_config s' = a_config s /\
    system_ticks m' = u32 (system_ticks m + Z.of_nat (op_span op))) s m.
Proof.
  intros Hsi Hb. pose proof Hsi as [[Hw Hso] Hi Hc Ht Hcf Hr Hu].
  destruct op as [| | |id| |n]; try done; cbn [run_op op_span].
  - destruct Hb as [Hid Hne]. rewrite Z.add_0_r, u32_small by done.
    destruct (validate_task_id id s) eqn:Hv.
    + unfold validate_task_id in Hv. tests.
      destruct (report_alive_spec id s m) as (t0 & c0 & _ & _ & Hwp); [done..|].
      eapply wp_mono; [exact Hwp|]. intros _ s' m' (_ & Hm & Hco & Hin & Hw' & Hts & Hss & Hst).
      split_and!; [split|done..]; try done.
      * unfold count. by rewrite Hco.
      * by rewrite Hts, list_lookup_insert_ne.
      * unfold cfgs. by rewrite Hco.
      * by rewrite Hst, Hr, Hco.
      * by rewrite Hm.
    + unfold Alive_Monitor_ReportAlive. do 2 wp_step. rewrite Hi, Hv. by apply wp_ret.
  - unfold elapse, wp. rewrite ticks_after by done. split_and!; [split|done..]; try done.
    rewrite ticks_after by done. auto with cant.
Qed.

Lemma between_run i t c since ops : forall s m,
  silent i t c since s m -> Forall (between i) ops ->
  wp (run ops) (fun _ s' m' => silent i t c since s' m' /\ a_config s' = a_config s /\
    system_ticks m' = u32 (system_ticks m + Z.of_nat (span ops))) s m.
Proof.
  induction ops as [|op ops IH]; intros s m Hsi Hb; cbn [run].
  - apply wp_ret. change (span []) with 0%nat. rewrite Z.add_0_r, u32_small by apply Hsi. done.
  - apply Forall_cons in Hb as [Hop Hb]. apply wp_bind. eapply wp_mono; [by apply between_step|].
    intros _ s1 m1 (Hsi1 & Hco & Htk). eapply wp_mono; [by apply IH|]. intros _ s2 m2 (Hsi2 & Hco2 & ->).
    split_and!; [done|by rewrite Hco2|]. rewrite Htk. unfold u32. rewrite Zplus_mod_idemp_l. f_equal.
    change (span (op :: ops)) with (op_span op + span ops)%nat. lia.
Qed.

(** One round, with the supervision interval passed. *)
Lemma round_spec i t c s m ops :
  silent i t c (system_ticks m) s m -> Forall (between i) ops ->
  supervision_interval_ms (a_config s) <= Z.of_nat (span ops) < 2 ^ 32 ->
  wp (run (ops ++ [OpProcess])) (fun _ s' m' =>
    silent i (supervise c (u32 (system_ticks m + Z.of_nat (span ops))) t) c (system_ticks m') s' m' /\
    a_config s' = a_config s /\
    system_ticks m' = u32 (system_ticks m + Z.of_nat (span ops))) s m.
Proof.
  intros Hsi Hb Hn. apply alive_run_app. pose proof (si_ticks _ _ _ _ _ _ Hsi) as Hu0.
  eapply wp_mono; [by apply between_run|]. intros _ s1 m1 ([[Hw Hso] Hi Hc Ht Hcf Hr Hu] & Hco1 & Htk).
  cbn [run run_op]. apply wp_bind.
  eapply wp_mono; [by apply alive_process_spec|]. intros _ s' m' (Hp & Hm' & Hco & Hin & Hw' & Hd).
  assert (due s1 m1 = true) as Hdue.
  { unfold due. rewrite Hr. cbn [running timeout start_time andb]. rewrite Htk, u32_elapsed by lia.
    apply Z.leb_le. rewrite Hco1. lia. }
  rewrite Hdue in Hd. destruct Hd as ((Hl & Hrd & _) & Hss & Hst). wp_step.
  split_and!; [split|congruence|congruence]; try done.
  - unfold count. by rewrite Hco.
  - rewrite <- Htk. apply Hrd; [done..|]. split; [lia|]. exact Hc.
  - unfold cfgs. by rewrite Hco.
  - by rewrite Hst, Hm', Hco.
  - by rewrite Hm'.
Qed.

Definition total (l : list (list alive_op)) : nat := sum_list (span <$> l).

Lemma rounds_spec c i l : forall t e s m,
  silent i t c (system_ticks m) s m -> first_execution t = false -> running (deadline_timer t) = true ->
  system_ticks m = u32 (start_time (deadline_timer t) + e) -> timeout (deadline_timer t) <= e -> 0 <= e ->
  e + Z.of_nat (total l) < 2 ^ 32 -> Forall (Forall (between i)) l ->
  Forall (fun ops => supervision_interval_ms (a_config s) <= Z.of_nat (span ops)) l ->
  0 <= tolerance_count t -> tolerance_count t + Z.of_nat (length l) < 2 ^ 32 -> is_u32 (deadline_misses t) ->
  (max_tolerance c < tolerance_count t -> t_state t = lowered c) ->
  wp (run (rounds l)) (fun _ s' m' =>
    silent i (missed c (Z.of_nat (length l)) t) c (system_ticks m') s' m') s m.
Proof.
  induction l as [|ops l IH]; intros t e s m Hsi Hf Hrun Htk Hd He Hs Hb Hl H0 Hlen Hdm Hlow.
  - apply wp_ret. replace (missed c (Z.of_nat (length [])) t) with t; [done|].
    unfold missed. cbn [length Z.of_nat]. destruct t as [? ? dm tc ? st ?]; cbn in *.
    rewrite !Z.add_0_r, u32_small by done.
    destruct (max_tolerance c <? tc) eqn:E; tests; [by rewrite Hlow|done].
  - change (total (ops :: l)) with (span ops + total l)%nat in Hs. cbn [length] in *.
    apply Forall_cons in Hl as [Hn Hl]. apply Forall_cons in Hb as [Hop Hb].
    change (rounds (ops :: l)) with ((ops ++ [OpProcess]) ++ rounds l). apply alive_run_app.
    eapply wp_mono; [apply (round_spec i t c s m ops Hsi Hop); lia|].
    intros _ s1 m1 (Hsi1 & Hco1 & Htk1).
    assert (Hsup : supervise c (u32 (system_ticks m + Z.of_nat (span ops))) t = missed c 1 t).
    { unfold supervise. rewrite (overdue_later _ e) by (done || lia). unfold missed. cbn.
      rewrite (u32_small (tolerance_count t + 1)) by (unfold is_u32; lia).
      by destruct (max_tolerance c <? tolerance_count t + 1). }
    rewrite Hsup in Hsi1.
    eapply wp_mono; [apply (IH (missed c 1 t) (e + Z.of_nat (span ops)) s1 m1)|]; try done; cbn; try lia.
    + rewrite Htk1, Htk. unfold u32. rewrite Zplus_mod_idemp_l. f_equal. lia.
    + by rewrite Hco1.
    + auto with cant.
    + intros Hlt. by rewrite (proj2 (Z.ltb_lt _ _)).
    + intros _ s2 m2 Hsi2. replace (missed c (Z.of_nat (S (length l))) t)
        with (missed c (Z.of_nat (length l)) (missed c 1 t)); [done|].
      unfold missed. cbn. f_equal.
      * unfold u32. rewrite Zplus_mod_idemp_l. f_equal. lia.
      * lia.
      * replace (tolerance_count t + 1 + Z.of_nat (length l)) with (tolerance_count t + Z.of_nat (S (length l))) by lia.
        destruct (max_tolerance c <? tolerance_count t + 1) eqn:E1; [|done]. tests.
        by rewrite (proj2 (Z.ltb_lt _ _)) by lia.
Qed.


(** A state in which a critical task reported at 0 and its deadline of 10 ms is over. *)
Definition silent_state : option (unit * AliveMonitor * Machine) :=
  Eval vm_compute in run [OpInit 1000 (Some two_tasks); OpReport 0; OpTicks 20; OpProcess] alive_zero boot.
Definition silent_s : AliveMonitor := Eval vm_compute in
  match silent_state with Some (_, s, _) => s | None => alive_zero end.
Definition silent_m : Machine := Eval vm_compute in
  match silent_state with Some (_, _, m) => m | None => boot end.
(** Two rounds, the other task reporting between them. *)
Definition two_rounds : list (list alive_op) := [[OpTicks 20]; [OpTicks 10; OpReport 1; OpTicks 15]].


(** ** Tasks that never report *)

Definition leaves (i : nat) (op : alive_op) : Prop :=
  match op with OpInit _ _ | OpDeInit => False | OpReport id => Z.to_nat id <> i | _ => True end.

(** A task that never reports is never supervised: after initialisation, whatever the
    other tasks report, however many rounds are run and whatever time passes, it stays
    HEALTHY without a miss, however short its deadline. *)
Theorem unreported_task_healthy i ops s m :
  sound s -> a_initialized s = true -> (i < count s)%nat ->
  tasks s !! i = Some (task_zero <| first_execution := true |>) ->
  Forall op_ok ops -> Forall (leaves i) ops ->
  wp (run ops) (fun _ s' _ => tasks s' !! i = Some (task_zero <| first_execution := true |>)) s m.
Proof.
  intros Hs Hi Hc Ht Hok Hl. revert s m Hs Hi Hc Ht.
  induction ops as [|op ops IH]; intros s m Hs Hi Hc Ht; cbn [run]; [by apply wp_ret|].
  apply Forall_cons in Hok as [Hop Hok]. apply Forall_cons in Hl as [Hlo Hl].
  apply wp_bind. eapply wp_mono; [apply (wp_and _ _ (fun _ s' _ => a_initialized s' = true /\ (i < count s')%nat /\
    tasks s' !! i = Some (task_zero <| first_execution := true |>)) _ _ (run_op_sound op s m Hop Hs))|].
  2: { cbv beta. intros [] s' m' [[? _] (? & ? & ?)]. by apply IH. }
  unfold count in *. destruct op as [clk config| | |id| |n]; cbn [run_op leaves] in *; try done.
  - eapply wp_mono; [apply alive_process_spec; [apply Hs|done]|]. intros _ s' m' (_ & _ & Hco & Hin & _ & Hd).
    rewrite Hco. split_and!; [done..|]. destruct (due s m); [|by destruct Hd as [-> _]].
    destruct Hd as [(_ & Hr & Hf) _].
    destruct (lookup_pair_lt s i) as (t & c & Ht' & Hc'); [apply Hs|done..|].
    rewrite (Hr i t c); [|done..|unfold count; lia]. by simplify_eq.
  - destruct (validate_task_id id s) eqn:Hv.
    + unfold validate_task_id in Hv. tests.
      destruct (report_alive_spec id s m) as (t & c & _ & _ & Hwp); [apply Hs|done|done|].
      eapply wp_mono; [exact Hwp|]. intros _ s' m' (_ & _ & Hco & Hin & _ & -> & _).
      rewrite Hco, list_lookup_insert_ne by done. done.
    + unfold Alive_Monitor_ReportAlive. do 2 wp_step. rewrite Hi, Hv. by apply wp_ret.
  - eapply wp_mono; [by apply alive_reset_spec|]. intros _ s' m' (_ & _ & _ & Hco & Hin & Hj).
    rewrite Hco, Hj, Ht by done. done.
Qed.
Lemma unreported_task_healthy_witness :
  wp (run [OpTicks 1000; OpProcess; OpReport 0; OpTicks 5000; OpProcess; OpReset; OpTicks 100; OpProcess])
    (fun _ s' _ => tasks s' !! 1%nat = Some (task_zero <| first_execution := true |>)) silent_s silent_m.
Proof.
  apply unreported_task_healthy; try done; [|vm_compute; lia|repeat constructor; vm_compute; congruence..].
  split; [split|]; try done. intros _. split; vm_compute; lia.
Defined.

(** A late report lifts a CRITICAL task to DEGRADED. *)
Lemma late_report_lifts_critical c now t :
  first_execution t = false -> timely c now t = false -> max_tolerance c < u32 (tolerance_count t + 1) ->
  t_state (report c now t) = ALIVE_STATE_DEGRADED.
Proof.
  intros Hf Ht Hm. unfold report, judge. rewrite Hf, Ht. cbn. by rewrite (proj2 (Z.ltb_lt _ _) Hm).
Qed.
