(* ===== verification/FlowMonitor.v ===== *)
(** * Control-flow monitor

    [safety/flow_monitor.c]: the program announces checkpoints; each must be one of the
    two successors of the one before, arrive in its time span and keep the call stack
    within its bound.

    [config.checkpoints] is the caller's array.  An index outside an array is undefined
    behaviour ([fault]). *)

From S2P Require Import Prelude Machine.

Definition MAX_CALL_STACK_SIZE : nat := 32.

Inductive FlowCheckpointType :=
  FLOW_CHECKPOINT_START | FLOW_CHECKPOINT_END | FLOW_CHECKPOINT_BRANCH | FLOW_CHECKPOINT_LOOP
| FLOW_CHECKPOINT_CALL | FLOW_CHECKPOINT_RETURN.
Inductive FlowMonitorResult :=
  FLOW_MONITOR_OK | FLOW_MONITOR_ERROR_SEQUENCE | FLOW_MONITOR_ERROR_TIMING | FLOW_MONITOR_ERROR_RECURSION
| FLOW_MONITOR_ERROR_STACK | FLOW_MONITOR_ERROR_CONFIG.
#[export] Instance FlowMonitorResult_eq_dec : EqDecision FlowMonitorResult.
Proof. solve_decision. Defined.
Definition flow_code (r : FlowMonitorResult) : Z :=
  match r with
  | FLOW_MONITOR_OK => 0 | FLOW_MONITOR_ERROR_SEQUENCE => 1 | FLOW_MONITOR_ERROR_TIMING => 2
  | FLOW_MONITOR_ERROR_RECURSION => 3 | FLOW_MONITOR_ERROR_STACK => 4 | FLOW_MONITOR_ERROR_CONFIG => 5
  end.

Record FlowCheckpointConfig := mkCheckpoint {
  checkpoint_id : Z; cp_type : FlowCheckpointType; expected_next : Z; alternate_next : Z;
  max_time_ms : Z; min_time_ms : Z }.
Record FlowMonitorConfig := mkFlowConfig {
  checkpoints : option (list FlowCheckpointConfig); checkpoint_count : Z; max_stack_depth : Z;
  max_recursion_depth : Z; flow_error_callback : bool }.

Record FlowMonitor := mkFlow {
  f_config : FlowMonitorConfig; current_checkpoint : Z; total_errors : Z; call_stack : list Z;
  stack_depth : nat; checkpoint_timer : Timer; f_initialized : bool; f_critical : CriticalSection }.
#[export] Instance eta_FlowMonitor : Eta FlowMonitor := fun s =>
  mkFlow (f_config s) (current_checkpoint s) (total_errors s) (call_stack s) (stack_depth s)
    (checkpoint_timer s) (f_initialized s) (f_critical s).
#[export, refine] Instance FlowMonitor_critical : HasCritical FlowMonitor :=
  {| crit := f_critical; set_crit c s := s <| f_critical := c |> |}.
Proof. all: by intros; destruct s. Defined.

(** [memset(&flow_monitor.state, 0, ...)]. *)
Definition flow_clear (s : FlowMonitor) : FlowMonitor :=
  mkFlow (f_config s) 0 0 (replicate MAX_CALL_STACK_SIZE 0) 0 timer_zero false (f_critical s).
Definition flow_zero : FlowMonitor :=
  mkFlow (mkFlowConfig None 0 0 0 false) 0 0 (replicate MAX_CALL_STACK_SIZE 0) 0 timer_zero false cs_zero.

Definition validate_checkpoint_id (id : Z) (s : FlowMonitor) : bool := id <? checkpoint_count (f_config s).
(** [flow_monitor.config.checkpoints[id]]. *)
Definition cp_at (s : FlowMonitor) (id : Z) : option FlowCheckpointConfig :=
  cs ← checkpoints (f_config s); cs !! Z.to_nat id.
Definition checkpoint (id : Z) : M FlowMonitor FlowCheckpointConfig :=
  s ← get; match cp_at s id with Some c => mret c | None => fault end.

Definition is_valid_transition (from_id to_id : Z) : M FlowMonitor bool :=
  from ← checkpoint from_id; mret ((to_id =? expected_next from) || (to_id =? alternate_next from)).

Definition handle_error (result : FlowMonitorResult) (id : Z) : M FlowMonitor unit :=
  modify (fun s => s <| total_errors ::= fun n => u32 (n + 1) |>);;
  s ← get;
  callback (flow_error_callback (f_config s)) "error_callback" [flow_code result; id].

Definition Flow_Monitor_Init (SystemCoreClock : Z) (config : option FlowMonitorConfig) : M FlowMonitor bool :=
  match config with
  | None => mret false
  | Some config =>
      if negb (match checkpoints config with Some _ => true | None => false end) || (checkpoint_count config =? 0)
      then mret false
      else
        enter;;
        modify flow_clear;;
        modify (fun s => s <| f_config := config |>);;
        timer_init_m SystemCoreClock;;
        init_crit;;
        modify (fun s => s <| f_initialized := true |>);;
        exit;;
        mret true
  end.

Definition Flow_Monitor_DeInit : M FlowMonitor unit :=
  enter;; modify (fun s => s <| f_initialized := false |>);; modify flow_clear;; exit.

(** [goto exit] with a result. *)
Definition leave (r : FlowMonitorResult) : M FlowMonitor FlowMonitorResult := exit;; mret r.
Definition reject (r : FlowMonitorResult) (id : Z) : M FlowMonitor FlowMonitorResult :=
  handle_error r id;; leave r.

(** The switch on the checkpoint's type: [Some r] jumps to the exit. *)
Definition handle_call_stack (c : FlowCheckpointConfig) : M FlowMonitor (option FlowMonitorResult) :=
  s ← get;
  match cp_type c with
  | FLOW_CHECKPOINT_CALL =>
      if max_stack_depth (f_config s) <=? Z.of_nat (stack_depth s) then mret (Some FLOW_MONITOR_ERROR_STACK)
      else if (stack_depth s <? MAX_CALL_STACK_SIZE)%nat then
        modify (fun s => s <| call_stack ::= <[stack_depth s := current_checkpoint s]> |>
                           <| stack_depth ::= S |>);;
        mret None
      else fault
  | FLOW_CHECKPOINT_RETURN =>
      if (stack_depth s =? 0)%nat then mret (Some FLOW_MONITOR_ERROR_STACK)
      else modify (fun s => s <| stack_depth ::= pred |>);; mret None
  | _ => mret None
  end.

(** The time span of a checkpoint, read from the timer the one before started. *)
Definition check_timing (c : FlowCheckpointConfig) : M FlowMonitor bool :=
  if (0 <? min_time_ms c) || (0 <? max_time_ms c) then
    elapsed ← remaining checkpoint_timer;
    mret (negb ((elapsed <? min_time_ms c) || (max_time_ms c <? elapsed)))
  else mret true.

Definition Flow_Monitor_Checkpoint (id : Z) : M FlowMonitor FlowMonitorResult :=
  s ← get;
  if negb (f_initialized s) || negb (validate_checkpoint_id id s) then mret FLOW_MONITOR_ERROR_CONFIG else
  enter;;
  c ← checkpoint id;
  ok ← (if negb (current_checkpoint s =? 0) then is_valid_transition (current_checkpoint s) id else mret true);
  if negb ok then reject FLOW_MONITOR_ERROR_SEQUENCE id else
  ok ← check_timing c;
  if negb ok then reject FLOW_MONITOR_ERROR_TIMING id else
  e ← handle_call_stack c;
  match e with
  | Some r => reject r id
  | None =>
      modify (fun s => s <| current_checkpoint := id |>);;
      start checkpoint_timer (fun t s => s <| checkpoint_timer := t |>) (max_time_ms c);;
      leave FLOW_MONITOR_OK
  end.

Definition Flow_Monitor_IsSequenceValid : M FlowMonitor bool :=
  s ← get;
  if negb (f_initialized s) then mret false else
  enter;; s ← get; let valid := total_errors s =? 0 in exit;; mret valid.
Definition Flow_Monitor_GetErrorCount : M FlowMonitor Z := s ← get; mret (total_errors s).
Definition Flow_Monitor_ResetErrorCount : M FlowMonitor unit :=
  enter;; modify (fun s => s <| total_errors := 0 |>);; exit.
(** [None]: one of the pointers is NULL and nothing is written. *)
Definition Flow_Monitor_GetStatus (pointers : bool) : M FlowMonitor (option (Z * Z)) :=
  if negb pointers then mret None else
  enter;; s ← get; let r := (current_checkpoint s, total_errors s) in exit;; mret (Some r).

(** The walk of [Flow_Monitor_ValidateFlow] with its array [visited]; the result is
    [None] for an access outside an array and [Some None] when the fuel is used up. *)
Fixpoint validate_loop (fuel : nat) (s : FlowMonitor) (current end_ : Z) (visited : list Z) : option (option bool) :=
  match fuel with
  | O => Some None
  | S fuel =>
      if current =? end_ then Some (Some true) else
      v ← visited !! Z.to_nat current;
      let visited := <[Z.to_nat current := v + 1]> visited in
      if 0 <? v then Some (Some false) else
      c ← cp_at s current;
      if negb (validate_checkpoint_id (expected_next c) s) && negb (validate_checkpoint_id (alternate_next c) s)
      then Some (Some false)
      else validate_loop fuel s (expected_next c) end_ visited
  end.
Definition VISITED : nat := 256.
Definition Flow_Monitor_ValidateFlow (start_ end_ : Z) (s : FlowMonitor) : option (option bool) :=
  if negb (f_initialized s) || negb (validate_checkpoint_id start_ s) || negb (validate_checkpoint_id end_ s)
  then Some (Some false)
  else validate_loop (S VISITED) s start_ end_ (replicate VISITED 0).

(** ** Static validation of a flow *)

(** A checkpoint table: an entry for every identifier, at most as many as [visited]
    has room for, and unsigned successors.  The successors may be anything. *)
Record table_ok (s : FlowMonitor) : Prop := mkTableOk {
  t_count : 0 <= checkpoint_count (f_config s) <= Z.of_nat VISITED;
  t_entries : forall id, 0 <= id -> is_Some (cp_at s id) <-> id < checkpoint_count (f_config s);
  t_next : forall id c, cp_at s id = Some c -> 0 <= expected_next c }.

Definition is_checkpoint (s : FlowMonitor) (id : Z) : Prop := 0 <= id < checkpoint_count (f_config s).
(** From a checkpoint to its expected successor, if that is a checkpoint. *)
Definition link (s : FlowMonitor) (a b : Z) : Prop :=
  is_checkpoint s a /\ is_checkpoint s b /\ exists c, cp_at s a = Some c /\ expected_next c = b.
Definition leads (s : FlowMonitor) : Z -> Z -> Prop := rtc (link s).
(** A checkpoint with an alternate successor, but whose expected one does not exist. *)
Definition strays (s : FlowMonitor) (id : Z) : Prop :=
  exists c, cp_at s id = Some c /\ ~ is_checkpoint s (expected_next c) /\
            alternate_next c < checkpoint_count (f_config s).

(** The walk so far: the checkpoints [seen], which lead to [cur] and nowhere else. *)
Record walked (s : FlowMonitor) (start_ end_ cur : Z) (seen : list Z) : Prop := mkWalked {
  w_cur : is_checkpoint s cur;
  w_seen : Forall (is_checkpoint s) seen;
  w_nodup : NoDup seen;
  w_start : start_ ∈ seen \/ start_ = cur;
  w_leads : leads s start_ cur;
  w_end : end_ ∉ seen;
  w_next : forall x, x ∈ seen -> exists y, link s x y /\ (y ∈ seen \/ y = cur) }.
(** [visited] counts the checkpoints seen. *)
Definition marks (seen visited : list Z) : Prop :=
  length visited = VISITED /\
  forall i v, visited !! i = Some v -> 0 <= v /\ (0 < v <-> i ∈ Z.to_nat <$> seen).

Lemma link_fun s a b b' : link s a b -> link s a b' -> b = b'.
Proof. intros (_ & _ & c & Hc & <-) (_ & _ & c' & Hc' & <-). congruence. Qed.
Lemma strays_stuck s a b : strays s a -> ~ link s a b.
Proof. intros (c & Hc & Hn & _) (_ & Hb & c' & Hc' & <-). assert (c' = c) as -> by congruence. done. Qed.

(** At most as many different checkpoints as there are. *)
Lemma seen_bound s l : table_ok s -> Forall (is_checkpoint s) l -> NoDup l -> (length l <= VISITED)%nat.
Proof.
  intros Ht Hl Hnd. assert (Hsub : Z.to_nat <$> l ⊆+ seq 0 VISITED).
  { apply NoDup_submseteq.
    - apply NoDup_fmap_2_strong; [|done]. intros x y Hx Hy He. rewrite Forall_forall in Hl.
      pose proof (Hl x Hx) as []. pose proof (Hl y Hy) as []. lia.
    - intros i (x & -> & Hx)%list_elem_of_fmap. rewrite Forall_forall in Hl. pose proof (Hl x Hx) as [].
      apply elem_of_seq. pose proof (t_count s Ht). lia. }
  apply submseteq_length in Hsub. by rewrite length_fmap, length_seq in Hsub.
Qed.
(** What the walk can still reach: what it has seen, or what [cur] leads to. *)
Lemma walked_reach s start_ end_ cur seen x :
  walked s start_ end_ cur seen -> leads s start_ x -> x ∈ seen \/ leads s cur x.
Proof.
  intros Hw Hx. apply rtc_ind_r with (P := fun x => x ∈ seen \/ leads s cur x) in Hx; [exact Hx| |].
  - destruct (w_start _ _ _ _ _ Hw) as [?| ->]; [by left|by right; constructor].
  - intros y z _ Hyz [Hy|Hy]; [|by right; eapply rtc_r].
    destruct (w_next _ _ _ _ _ Hw y Hy) as (z' & Hz' & Hin). rewrite (link_fun _ _ _ _ Hyz Hz').
    destruct Hin as [?| ->]; [by left|by right; constructor].
Qed.
Lemma marks_iff s seen visited cur v :
  Forall (is_checkpoint s) seen -> 0 <= cur -> marks seen visited -> visited !! Z.to_nat cur = Some v ->
  0 <= v /\ (0 < v <-> cur ∈ seen).
Proof.
  intros Hs Hc [_ Hm] Hv. destruct (Hm _ _ Hv) as [? Hi]. split; [done|]. rewrite Hi, list_elem_of_fmap. split.
  - intros (x & Hx & Hin). rewrite Forall_forall in Hs. pose proof (Hs x Hin) as []. by replace cur with x by lia.
  - intros Hin. by exists cur.
Qed.
Lemma marks_step seen visited cur v :
  marks seen visited -> visited !! Z.to_nat cur = Some v -> marks (seen ++ [cur]) (<[Z.to_nat cur := v + 1]> visited).
Proof.
  intros [Hl Hm] Hv. split; [by rewrite length_insert|]. intros i w Hi. rewrite fmap_app, elem_of_app. simpl.
  rewrite list_elem_of_singleton. apply list_lookup_insert_Some in Hi as [(<- & <- & _)|[Hne Hi]].
  - destruct (Hm _ _ Hv) as [? _]. split; [lia|]. split; [by right|lia].
  - destruct (Hm _ _ Hi) as [? ->]. split; [done|]. split; [by left|]. intros [?|?]; [done|congruence].
Qed.

(** What the answer has to be. *)
Definition decides (s : FlowMonitor) (start_ end_ : Z) (r : option (option bool)) : Prop :=
  (leads s start_ end_ -> r = Some (Some true)) /\
  (~ leads s start_ end_ -> (exists x, leads s start_ x /\ strays s x) -> r = None) /\
  (~ leads s start_ end_ -> ~ (exists x, leads s start_ x /\ strays s x) -> r = Some (Some false)).

(** When the walk is stuck at [cur]: nothing but what it has seen is reached. *)
Lemma stuck_reach s start_ end_ cur seen :
  walked s start_ end_ cur seen -> cur <> end_ -> (cur ∈ seen \/ (forall y, ~ link s cur y)) ->
  ~ leads s start_ end_ /\ forall x, leads s start_ x -> strays s x -> (cur ∉ seen) /\ x = cur.
Proof.
  intros Hw Hne Hst.
  assert (Hr : forall x, leads s start_ x -> x ∈ seen \/ ((cur ∉ seen) /\ x = cur)).
  { intros x Hx. destruct (walked_reach _ _ _ _ _ _ Hw Hx) as [?|Hcx]; [by left|]. destruct Hst as [Hin|Hst].
    - left. apply rtc_ind_r with (P := fun x => x ∈ seen) in Hcx; [exact Hcx|done|].
      intros y z _ Hyz Hy. destruct (w_next _ _ _ _ _ Hw y Hy) as (z' & Hz' & Hin').
      rewrite (link_fun _ _ _ _ Hyz Hz'). by destruct Hin' as [?| ->].
    - apply rtc_inv in Hcx as [<-|(y & Hy & _)]; [|by destruct (Hst y)]. destruct (decide (cur ∈ seen)); auto. }
  split.
  - intros Hl. destruct (Hr _ Hl) as [Hin|[_ He]]; [by apply (w_end _ _ _ _ _ Hw)|congruence].
  - intros x Hx Hs. destruct (Hr _ Hx) as [Hin|?]; [|done].
    destruct (w_next _ _ _ _ _ Hw x Hin) as (y & Hy & _). by apply strays_stuck in Hy.
Qed.

(** One more link. *)
Lemma walked_all s start_ end_ cur seen :
  walked s start_ end_ cur seen -> cur ∉ seen -> Forall (is_checkpoint s) (seen ++ [cur]) /\ NoDup (seen ++ [cur]).
Proof.
  intros Hw Hnew. split; [apply Forall_app; split; [apply Hw|by apply Forall_singleton, Hw]|].
  apply NoDup_app. split; [apply Hw|]. split; [|apply NoDup_singleton]. by intros x Hx ->%list_elem_of_singleton.
Qed.
Lemma walked_step s start_ end_ cur seen next :
  walked s start_ end_ cur seen -> cur ∉ seen -> cur <> end_ -> link s cur next ->
  walked s start_ end_ next (seen ++ [cur]).
Proof.
  intros Hw Hnew Hne Hl. destruct (walked_all _ _ _ _ _ Hw Hnew) as [Hall Hnd]. split; [apply Hl|done|done|..].
  - rewrite elem_of_app, list_elem_of_singleton. destruct (w_start _ _ _ _ _ Hw); auto.
  - eapply rtc_r; [apply Hw|done].
  - rewrite elem_of_app, list_elem_of_singleton. intros [Hin|Hin]; [by apply (w_end _ _ _ _ _ Hw)|congruence].
  - intros x [Hx| ->%list_elem_of_singleton]%elem_of_app; [|by eauto].
    destruct (w_next _ _ _ _ _ Hw x Hx) as (y & Hy & Hin). exists y. split; [done|]. left.
    rewrite elem_of_app, list_elem_of_singleton. destruct Hin; auto.
Qed.
(** A step to an identifier that is no checkpoint reads outside an array. *)
Lemma stray_step s end_ seen visited fuel x :
  table_ok s -> is_checkpoint s end_ -> Forall (is_checkpoint s) seen -> marks seen visited ->
  checkpoint_count (f_config s) <= x -> 0 <= x -> validate_loop (S fuel) s x end_ visited = None.
Proof.
  intros Ht [_ He] Hs Hm Hx Hx0. cbn [validate_loop]. rewrite (proj2 (Z.eqb_neq _ _)) by lia.
  destruct (visited !! Z.to_nat x) as [w|] eqn:Hw; [|done]. cbn [mbind option_bind].
  pose proof (marks_iff s _ _ _ w Hs Hx0 Hm Hw) as [_ Hwi].
  assert (~ 0 < w) by (rewrite Hwi; intros Hin; rewrite Forall_forall in Hs; destruct (Hs _ Hin); lia).
  rewrite (proj2 (Z.ltb_ge _ _)) by lia. destruct (cp_at s x) eqn:Hcp; [|done]. exfalso.
  assert (x < checkpoint_count (f_config s)); [|lia]. apply (t_entries s Ht); eauto.
Qed.

Lemma validate_loop_spec s start_ end_ :
  table_ok s -> is_checkpoint s end_ -> forall fuel cur seen visited,
  walked s start_ end_ cur seen -> marks seen visited -> (fuel + length seen = S VISITED)%nat ->
  decides s start_ end_ (validate_loop fuel s cur end_ visited).
Proof.
  intros Ht Hend. induction fuel as [|fuel IH]; intros cur seen visited Hw Hm Hf.
  { exfalso. pose proof (seen_bound s seen Ht (w_seen _ _ _ _ _ Hw) (w_nodup _ _ _ _ _ Hw)). lia. }
  pose proof (w_cur _ _ _ _ _ Hw) as [Hc0 Hcn]. pose proof (t_count s Ht) as Hcount. pose proof Hm as [Hlen _].
  cbn [validate_loop]. destruct (cur =? end_) eqn:E; tests.
  { subst cur. pose proof (w_leads _ _ _ _ _ Hw). by split_and!. }
  destruct (lookup_lt_is_Some_2 visited (Z.to_nat cur)) as [v Hv]; [rewrite Hlen; lia|]. rewrite Hv.
  destruct (marks_iff s seen visited cur v (w_seen _ _ _ _ _ Hw) Hc0 Hm Hv) as [Hv0 Hvi]. cbn [mbind option_bind].
  destruct (0 <? v) eqn:Ev; tests.
  { apply Hvi in Ev. destruct (stuck_reach _ _ _ _ _ Hw E (or_introl Ev)) as [Hno Hstr]. split_and!; [done| |done].
    intros _ (x & Hx & Hs). by destruct (Hstr x Hx Hs). }
  assert (Hnew : cur ∉ seen) by (intros Hin; apply Hvi in Hin; lia).
  destruct (walked_all _ _ _ _ _ Hw Hnew) as [Hall Hnd]. pose proof (seen_bound s _ Ht Hall Hnd) as Hb.
  rewrite length_app in Hb. simpl in Hb. pose proof (marks_step _ _ _ _ Hm Hv) as Hm'.
  destruct (proj2 (t_entries s Ht cur Hc0) Hcn) as [c Hc]. rewrite Hc. cbn [mbind option_bind].
  pose proof (t_next s Ht _ _ Hc) as Hnx. unfold validate_checkpoint_id.
  destruct (expected_next c <? checkpoint_count (f_config s)) eqn:Ee; tests; cbn [negb andb].
  { apply (IH _ (seen ++ [cur])); [|done|rewrite length_app; simpl; lia].
    apply walked_step; [done..|]. split_and!; [done|done|by exists c]. }
  assert (Hst : forall y, ~ link s cur y).
  { intros y (_ & [_ Hy] & c' & Hc' & <-). assert (c' = c) as -> by congruence. lia. }
  destruct (stuck_reach _ _ _ _ _ Hw E (or_intror Hst)) as [Hno Hstr].
  destruct (alternate_next c <? checkpoint_count (f_config s)) eqn:Ea; tests; cbn [negb].
  - destruct fuel as [|fuel]; [lia|]. rewrite (stray_step s end_ (seen ++ [cur])) by done.
    split_and!; [done|done|]. intros _ Hns. destruct Hns. exists cur. split; [apply Hw|].
    exists c. split_and!; [done| |done]. intros [_ ?]. lia.
  - split_and!; [done| |done]. intros _ (x & Hx & Hs). destruct (Hstr x Hx Hs) as [_ ->].
    destruct Hs as (c' & Hc' & _ & Ha). assert (c' = c) as -> by congruence. lia.
Qed.

(** C25. [Flow_Monitor_ValidateFlow] on an initialised monitor with at most 256 checkpoints,
    whatever their successors are.  It answers true exactly when the expected successors,
    one checkpoint after another, lead from the start to the end checkpoint.  Otherwise it
    answers false (when the walk comes to a checkpoint it has seen, or to one without any
    valid successor), unless the walk comes to a checkpoint whose expected successor does
    not exist and whose alternate successor does: then it reads outside its arrays. *)
Theorem validate_flow_decides s start_ end_ :
  table_ok s -> f_initialized s = true -> is_checkpoint s start_ -> is_checkpoint s end_ ->
  decides s start_ end_ (Flow_Monitor_ValidateFlow start_ end_ s).
Proof.
  intros Ht Hi Hs He. unfold Flow_Monitor_ValidateFlow, validate_checkpoint_id. destruct Hs as [Hs0 Hs], He as [He0 He].
  rewrite Hi, !(proj2 (Z.ltb_lt _ _)) by lia. cbn [negb orb].
  apply (validate_loop_spec s start_ end_ Ht (conj He0 He) (S VISITED) start_ []).
  - split; [by split|by constructor|by constructor|by right|by constructor|set_solver|set_solver].
  - split; [apply length_replicate|]. intros i v [-> _]%lookup_replicate. split; [lia|]. split; [lia|set_solver].
  - by rewrite Nat.add_0_r.
Qed.

Definition loop_of_3 : FlowMonitor :=
  flow_zero <| f_config := mkFlowConfig (Some [mkCheckpoint 0 FLOW_CHECKPOINT_START 1 1 0 0;
    mkCheckpoint 1 FLOW_CHECKPOINT_CALL 2 2 0 0; mkCheckpoint 2 FLOW_CHECKPOINT_RETURN 1 0 0 0]) 3 4 1 true |>
    <| f_initialized := true |>.
Lemma loop_of_3_ok : table_ok loop_of_3.
Proof.
  split; [done|..].
  - intros id Hid. cbn. change 3 with (Z.of_nat (length (A := nat) [0; 0; 0]%nat)). unfold cp_at. cbn.
    rewrite lookup_lt_is_Some. simpl. lia.
  - intros id c Hc. assert (Hin : c ∈ [mkCheckpoint 0 FLOW_CHECKPOINT_START 1 1 0 0;
      mkCheckpoint 1 FLOW_CHECKPOINT_CALL 2 2 0 0; mkCheckpoint 2 FLOW_CHECKPOINT_RETURN 1 0 0 0])
      by (exact (list_elem_of_lookup_2 _ (Z.to_nat id) c Hc)).
    repeat (apply elem_of_cons in Hin as [->|Hin]; [done|]). by apply elem_of_nil in Hin.
Qed.
(** Witness of [validate_flow_decides]: from 0 the successors lead to 2. *)
Lemma validate_flow_decides_witness :
  decides loop_of_3 0 2 (Flow_Monitor_ValidateFlow 0 2 loop_of_3) /\
  Flow_Monitor_ValidateFlow 0 2 loop_of_3 = Some (Some true).
Proof. split; [|reflexivity]. apply (validate_flow_decides loop_of_3 0 2); [exact loop_of_3_ok|done..]. Defined.

(** ** Checkpoints *)

(** The promise: from checkpoint [cur] with [depth] open calls, [id] may come next. *)
Definition edge (s : FlowMonitor) (cur id : Z) : bool :=
  (cur =? 0) || match cp_at s cur with
                | Some c => (id =? expected_next c) || (id =? alternate_next c)
                | None => false
                end.
Definition stack_step (s : FlowMonitor) (c : FlowCheckpointConfig) (depth : nat) : option nat :=
  match cp_type c with
  | FLOW_CHECKPOINT_CALL => if max_stack_depth (f_config s) <=? Z.of_nat depth then None else Some (S depth)
  | FLOW_CHECKPOINT_RETURN => if (depth =? 0)%nat then None else Some (pred depth)
  | _ => Some depth
  end.
Definition flow_step (s : FlowMonitor) (cur : Z) (depth : nat) (id : Z) : option (Z * nat) :=
  if edge s cur id then c ← cp_at s id; d ← stack_step s c depth; Some (id, d) else None.
Fixpoint flows (s : FlowMonitor) (cur : Z) (depth : nat) (ids : list Z) : option (Z * nat) :=
  match ids with
  | [] => Some (cur, depth)
  | id :: ids => '(cur, depth) ← flow_step s cur depth id; flows s cur depth ids
  end.

(** The time span as the code reads it. *)
Definition time_left (t : Timer) (now : Z) : Z :=
  if running t && negb (timeout t <=? u32 (now - start_time t)) then timeout t - u32 (now - start_time t) else 0.
Definition in_span (c : FlowCheckpointConfig) (t : Timer) (now : Z) : bool :=
  negb ((0 <? min_time_ms c) || (0 <? max_time_ms c)) ||
  ((min_time_ms c <=? time_left t now) && (time_left t now <=? max_time_ms c)).

Definition verdict (s : FlowMonitor) (c : FlowCheckpointConfig) (now id : Z) : FlowMonitorResult :=
  if negb (edge s (current_checkpoint s) id) then FLOW_MONITOR_ERROR_SEQUENCE
  else if negb (in_span c (checkpoint_timer s) now) then FLOW_MONITOR_ERROR_TIMING
  else match stack_step s c (stack_depth s) with
       | None => FLOW_MONITOR_ERROR_STACK
       | Some _ => FLOW_MONITOR_OK
       end.

(** A monitor in use: the array is as long as [checkpoint_count] says, the current
    checkpoint is one of it, the calls fit the array. *)
Record flow_wf (s : FlowMonitor) : Prop := mkFlowWf {
  fw_array : forall id, 0 <= id < checkpoint_count (f_config s) -> is_Some (cp_at s id);
  fw_current : 0 <= current_checkpoint s < checkpoint_count (f_config s);
  fw_stack : length (call_stack s) = MAX_CALL_STACK_SIZE;
  fw_depth : max_stack_depth (f_config s) <= Z.of_nat MAX_CALL_STACK_SIZE;
  fw_init : f_initialized s = true }.

Lemma wp_checkpoint id c Q s m : cp_at s id = Some c -> Q c s m -> wp (checkpoint id) Q s m.
Proof. intros Hc HQ. unfold checkpoint. do 2 wp_step. by rewrite Hc. Qed.
Lemma wp_remaining f Q (s : FlowMonitor) m :
  (forall tc, Q (time_left (f s) (system_ticks m)) s (m <| timer_critical := tc |>)) -> wp (remaining f) Q s m.
Proof.
  intros HQ. unfold remaining. apply wp_bind, wp_get. unfold wp, on_machine. rewrite timer_remaining_spec.
  destruct (running (f s)) eqn:Hr.
  - specialize (HQ (mkCS (Z.b2z (primask m)) false)). unfold time_left in HQ. by rewrite Hr in HQ.
  - specialize (HQ (timer_critical m)). unfold time_left in HQ. rewrite Hr in HQ. by destruct m.
Qed.

(** What a call leaves alone: the configuration, the clock, the mask. *)
Definition flow_frame (s s' : FlowMonitor) (m m' : Machine) : Prop :=
  f_config s' = f_config s /\ primask m' = primask m /\ system_ticks m' = system_ticks m.

(** Inside the section entered from [s] with mask [pm]. *)
Definition inside (pm : bool) (s : FlowMonitor) : FlowMonitor := s <| f_critical := mkCS (Z.b2z pm) true |>.

Lemma reject_spec r id s m m2 :
  flow_wf s -> primask m2 = true -> system_ticks m2 = system_ticks m ->
  wp (reject r id) (fun r' s' m' => r' = r /\ flow_wf s' /\ flow_frame s s' m m' /\
    current_checkpoint s' = current_checkpoint s /\ stack_depth s' = stack_depth s /\
    checkpoint_timer s' = checkpoint_timer s /\ total_errors s' = u32 (total_errors s + 1))
    (inside (primask m) s) m2.
Proof.
  intros Hw Hp Ht. unfold reject, handle_error, leave. wp_steps. eapply (wp_exit (primask m)); [done..|]. apply wp_ret.
  split_and!; try done. destruct Hw; split; done.
Qed.

Lemma edge_spec id s m pm :
  flow_wf s ->
  wp (if negb (current_checkpoint s =? 0) then is_valid_transition (current_checkpoint s) id else mret true)
    (fun ok s' m' => ok = edge s (current_checkpoint s) id /\ s' = inside pm s /\ m' = m) (inside pm s) m.
Proof.
  intros Hw. unfold edge. destruct (current_checkpoint s =? 0) eqn:E; cbn [negb]; [by apply wp_ret|]. simpl orb.
  destruct (fw_array s Hw _ (fw_current s Hw)) as [cf Hcf]. unfold is_valid_transition. apply wp_bind.
  eapply wp_checkpoint; [exact Hcf|]. rewrite Hcf. by apply wp_ret.
Qed.

Lemma timing_spec c s m pm :
  wp (check_timing c) (fun ok s' m' => ok = in_span c (checkpoint_timer s) (system_ticks m) /\ s' = inside pm s /\
    exists tc, m' = m <| timer_critical := tc |>) (inside pm s) m.
Proof.
  unfold check_timing, in_span. destruct (_ || _); cbn [negb orb].
  - apply wp_bind, wp_remaining. intros tc. apply wp_ret. split; [|by eauto].
    rewrite negb_orb, !Z.ltb_antisym, !negb_involutive. done.
  - apply wp_ret. split; [done|]. split; [done|]. exists (timer_critical m). by destruct m.
Qed.

Lemma stack_spec c s m pm :
  flow_wf s ->
  wp (handle_call_stack c) (fun e s' m' => m' = m /\
    match stack_step s c (stack_depth s) with
    | None => e = Some FLOW_MONITOR_ERROR_STACK /\ s' = inside pm s
    | Some d => e = None /\ exists st, length st = MAX_CALL_STACK_SIZE /\
                  s' = (inside pm s) <| call_stack := st |> <| stack_depth := d |>
    end) (inside pm s) m.
Proof.
  intros Hw. unfold handle_call_stack, stack_step. do 2 wp_step.
  pose proof (fw_depth s Hw). pose proof (fw_stack s Hw). destruct (cp_type c).
  1-4: apply wp_ret; split; [done|]; split; [done|]; exists (call_stack s); split; [done|by destruct s].
  - destruct (_ <=? _) eqn:E; [by apply wp_ret|]. tests.
    rewrite (proj2 (Nat.ltb_lt _ _)) by lia. do 3 wp_step. split; [done|]. split; [done|].
    eexists. split; [|reflexivity]. by rewrite length_insert.
  - destruct (_ =? _)%nat eqn:E; [by apply wp_ret|]. do 3 wp_step. split; [done|]. split; [done|].
    exists (call_stack s). split; [done|by destruct s].
Qed.

Lemma announce_spec id s m :
  flow_wf s -> 0 <= id < checkpoint_count (f_config s) ->
  exists c, cp_at s id = Some c /\
  wp (Flow_Monitor_Checkpoint id) (fun r s' m' =>
    r = verdict s c (system_ticks m) id /\ flow_wf s' /\ flow_frame s s' m m' /\
    if decide (r = FLOW_MONITOR_OK) then
      flow_step s (current_checkpoint s) (stack_depth s) id = Some (current_checkpoint s', stack_depth s') /\
      checkpoint_timer s' = mkTimer (system_ticks m) (max_time_ms c) true /\ total_errors s' = total_errors s
    else current_checkpoint s' = current_checkpoint s /\ stack_depth s' = stack_depth s /\
      checkpoint_timer s' = checkpoint_timer s /\ total_errors s' = u32 (total_errors s + 1)) s m.
Proof.
  intros Hw Hid. destruct (fw_array s Hw id Hid) as [c Hc]. exists c. split; [done|].
  unfold Flow_Monitor_Checkpoint, validate_checkpoint_id. do 2 wp_step.
  rewrite (fw_init s Hw), (proj2 (Z.ltb_lt _ _)) by lia. cbn [negb orb].
  do 2 wp_step. change (set_crit _ s) with (inside (primask m) s).
  apply wp_bind. eapply wp_checkpoint; [exact Hc|].
  apply wp_bind. eapply wp_mono; [by apply edge_spec|]. intros ok s' m' (-> & -> & ->). unfold verdict.
  destruct (edge s (current_checkpoint s) id) eqn:He; cbn [negb]; cbv iota.
  2: { eapply wp_mono; [by apply reject_spec|]. intros r s' m' (-> & ? & ? & ?). by rewrite decide_False. }
  apply wp_bind. eapply wp_mono; [apply timing_spec|]. intros ok s' m' (-> & -> & tc & ->).
  cbn [system_ticks]. destruct (in_span c _ _); cbn [negb]; cbv iota.
  2: { eapply wp_mono; [by apply reject_spec|]. intros r s' m' (-> & ? & ? & ?). by rewrite decide_False. }
  apply wp_bind. eapply wp_mono; [by apply stack_spec|]. intros e s' m' [-> Hst].
  destruct (stack_step s c (stack_depth s)) as [d|] eqn:Hd.
  - destruct Hst as (-> & st & Hlen & ->). do 4 wp_step.
    unfold leave. wp_step. eapply (wp_exit (primask m)); [done..|]. apply wp_ret.
    split; [done|]. split; [destruct Hw; split; done|]. split; [done|]. rewrite decide_True by done.
    split; [|done]. unfold flow_step. rewrite He, Hc. cbn [mbind option_bind]. by rewrite Hd.
  - destruct Hst as [-> ->].
    eapply wp_mono; [by apply reject_spec|]. intros r s' m' (-> & ? & ? & ?). by rewrite decide_False.
Qed.

(** A run: ticks pass, then a checkpoint is announced. *)
Fixpoint announce (l : list (nat * Z)) : M FlowMonitor (list FlowMonitorResult) :=
  match l with
  | [] => mret []
  | (n, id) :: l =>
      (fun s m => Some (tt, s, Nat.iter n SysTick_Handler m));;
      r ← Flow_Monitor_Checkpoint id;
      rs ← announce l;
      mret (r :: rs)
  end.
Definition is_ok (r : FlowMonitorResult) : bool := bool_decide (r = FLOW_MONITOR_OK).
(** The checkpoints that were accepted. *)
Definition accepted (l : list (nat * Z)) (rs : list FlowMonitorResult) : list Z :=
  snd <$> (fst <$> filter (fun p => is_ok p.2) (zip l rs)).
(** The refusals that are counted: all but those of a number that is no checkpoint. *)
Definition refusals (rs : list FlowMonitorResult) : nat :=
  length (filter (fun r => negb (is_ok r || bool_decide (r = FLOW_MONITOR_ERROR_CONFIG))) rs).

(** The promised answers.  At [now], with [cur] the last accepted checkpoint, [depth]
    open calls and the clock [t] started with it, [id] is refused for the first reason
    that applies: it is no checkpoint, no successor, out of its time span, or its call or
    return does not fit the stack. *)
Definition answer (s : FlowMonitor) (cur : Z) (depth : nat) (t : Timer) (now id : Z) : FlowMonitorResult :=
  match (if id <? checkpoint_count (f_config s) then cp_at s id else None) with
  | None => FLOW_MONITOR_ERROR_CONFIG
  | Some c =>
      if negb (edge s cur id) then FLOW_MONITOR_ERROR_SEQUENCE
      else if negb (in_span c t now) then FLOW_MONITOR_ERROR_TIMING
      else if decide (is_Some (stack_step s c depth)) then FLOW_MONITOR_OK else FLOW_MONITOR_ERROR_STACK
  end.
Fixpoint answers (s : FlowMonitor) (cur : Z) (depth : nat) (t : Timer) (now : Z) (l : list (nat * Z)) :
    list FlowMonitorResult :=
  match l with
  | [] => []
  | (n, id) :: l =>
      let now := u32 (now + Z.of_nat n) in
      let r := answer s cur depth t now id in
      r :: match (if is_ok r then flow_step s cur depth id else None), cp_at s id with
           | Some (cur, depth), Some c => answers s cur depth (mkTimer now (max_time_ms c) true) now l
           | _, _ => answers s cur depth t now l
           end
  end.

Lemma flow_step_config s s' cur d id : f_config s' = f_config s -> flow_step s' cur d id = flow_step s cur d id.
Proof. intros Hc. unfold flow_step, edge, stack_step, cp_at. by rewrite Hc. Qed.
Lemma flows_config s s' ids : f_config s' = f_config s -> forall cur d, flows s' cur d ids = flows s cur d ids.
Proof.
  intros Hc. induction ids as [|id ids IH]; intros cur d; [done|]. cbn [flows].
  rewrite (flow_step_config s s') by done. destruct (flow_step s cur d id) as [[??]|]; [apply IH|done].
Qed.

Lemma answer_config s s' cur d t now id :
  f_config s' = f_config s -> answer s' cur d t now id = answer s cur d t now id.
Proof. intros Hc. unfold answer, edge, stack_step, cp_at. by rewrite Hc. Qed.
Lemma answers_config s s' l : f_config s' = f_config s ->
  forall cur d t now, answers s' cur d t now l = answers s cur d t now l.
Proof.
  intros Hc. induction l as [|[n id] l IH]; intros cur d t now; [done|]. cbn [answers].
  rewrite (answer_config s s'), (flow_step_config s s') by done. unfold cp_at. rewrite Hc.
  by repeat case_match; rewrite IH.
Qed.

(** One announcement, of any number. *)
Lemma announced id s m :
  flow_wf s -> 0 <= id ->
  wp (Flow_Monitor_Checkpoint id) (fun r s' m' =>
    r = answer s (current_checkpoint s) (stack_depth s) (checkpoint_timer s) (system_ticks m) id /\
    flow_wf s' /\ flow_frame s s' m m' /\
    if is_ok r then exists c, cp_at s id = Some c /\
      flow_step s (current_checkpoint s) (stack_depth s) id = Some (current_checkpoint s', stack_depth s') /\
      checkpoint_timer s' = mkTimer (system_ticks m) (max_time_ms c) true /\ total_errors s' = total_errors s
    else current_checkpoint s' = current_checkpoint s /\ stack_depth s' = stack_depth s /\
      checkpoint_timer s' = checkpoint_timer s /\
      total_errors s' = if decide (r = FLOW_MONITOR_ERROR_CONFIG) then total_errors s else u32 (total_errors s + 1)) s m.
Proof.
  intros Hw Hid. unfold answer. destruct (id <? checkpoint_count (f_config s)) eqn:Hv; tests.
  - destruct (announce_spec id s m Hw) as (c & Hc & Hwp); [lia|].
    eapply wp_mono; [exact Hwp|]. intros r s' m' (Hr & Hw' & Hf & Hst). rewrite Hc.
    split; [rewrite Hr; unfold verdict; by destruct (edge s _ id), (in_span c _ _), (stack_step s c _)|].
    split_and!; [done..|]. unfold is_ok. rewrite bool_decide_decide. case_decide.
    + exists c. naive_solver.
    + destruct Hst as (? & ? & ? & He). split_and!; [done..|]. rewrite decide_False; [done|].
      rewrite Hr. unfold verdict. by destruct (edge s _ id), (in_span c _ _), (stack_step s c _).
  - unfold Flow_Monitor_Checkpoint, validate_checkpoint_id. do 2 wp_step.
    rewrite (fw_init s Hw), (proj2 (Z.ltb_ge _ _)) by lia. by apply wp_ret.
Qed.

(** C28. Whatever numbers are announced and whenever, every announcement is answered as
    promised: it is accepted exactly when it is a checkpoint, a successor of the last
    accepted one (any, while that is 0), in its time span as the code reads it, and its
    call or return fits the stack, and else refused for the first of these that fails.
    So the accepted checkpoints are a walk of the configured graph, at whose end the
    monitor stands; the refusals of checkpoints are counted; nothing is undefined and
    the interrupt mask is restored.  The array is as long as the configuration says and
    the stack bound at most 32. *)
Theorem accepted_checkpoints_walk l s m :
  flow_wf s -> Forall (fun p => 0 <= p.2) l -> is_u32 (total_errors s) -> is_u32 (system_ticks m) ->
  wp (announce l) (fun rs s' m' =>
    rs = answers s (current_checkpoint s) (stack_depth s) (checkpoint_timer s) (system_ticks m) l /\
    flows s (current_checkpoint s) (stack_depth s) (accepted l rs) = Some (current_checkpoint s', stack_depth s') /\
    total_errors s' = u32 (total_errors s + Z.of_nat (refusals rs)) /\ primask m' = primask m) s m.
Proof.
  revert s m. induction l as [|[n id] l IH]; intros s m Hw Hl Hu Htk; cbn [announce].
  - apply wp_ret. cbn. by rewrite Z.add_0_r, u32_small.
  - apply Forall_cons in Hl as [Hid Hl]. apply wp_bind. unfold wp at 1. apply wp_bind.
    set (m1 := Nat.iter n SysTick_Handler m).
    assert (Ht1 : system_ticks m1 = u32 (system_ticks m + Z.of_nat n)) by by apply ticks_after.
    eapply wp_mono; [apply (announced id s m1 Hw Hid)|]. intros r s1 m2 (Hr & Hw1 & (Hcf & Hp & Htk2) & Hst).
    apply wp_bind. eapply wp_mono; [apply (IH s1 m2 Hw1 Hl)|].
    + destruct (is_ok r); [by destruct Hst as (c & _ & _ & _ & ->)|]. destruct Hst as (_ & _ & _ & ->).
      case_decide; auto with cant.
    + rewrite Htk2, Ht1. auto with cant.
    + intros rs s2 m3 (Hrs & Hf & He & Hp3). apply wp_ret.
      assert (Hm : primask m3 = primask m) by (rewrite Hp3, Hp; apply ticks_primask).
      rewrite (flows_config s s1) in Hf by done. rewrite (answers_config s s1) in Hrs by done.
      cbn [answers]. rewrite <- Ht1, <- Hr. unfold accepted, refusals in *. cbn [zip].
      destruct (is_ok r) eqn:Hok.
      * destruct Hst as (c & Hc & Hs & Hct & Hte).
        rewrite filter_cons_True by (cbn [snd]; by rewrite Hok).
        rewrite filter_cons_False by (rewrite Hok; by intros []). cbn [fmap list_fmap snd fst flows].
        rewrite Hs, Hc. cbn [mbind option_bind]. rewrite Hct, Htk2 in Hrs.
        split_and!; [by rewrite Hrs|exact Hf|by rewrite He, Hte|done].
      * destruct Hst as (Hs & Hd & Hct & Hte). rewrite Hs, Hd, Hct, Htk2 in Hrs.
        rewrite filter_cons_False by (cbn [snd]; rewrite Hok; by intros []).
        split_and!; [by rewrite Hrs|by rewrite <- Hs, <- Hd| |done].
        rewrite He, Hte. cbn [orb]. case_decide as Hcf'.
        -- rewrite filter_cons_False by (rewrite bool_decide_eq_true_2 by done; rewrite orb_true_r; by intros []). done.
        -- rewrite filter_cons_True by (rewrite bool_decide_eq_false_2 by done; by rewrite Hok). cbn [length].
           unfold u32. rewrite Zplus_mod_idemp_l. f_equal. lia.
Qed.
Lemma accepted_checkpoints_walk_witness :
  wp (announce [(0%nat, 1); (5%nat, 0); (3%nat, 2); (1%nat, 9)]) (fun rs s' m' =>
    rs = [FLOW_MONITOR_OK; FLOW_MONITOR_ERROR_SEQUENCE; FLOW_MONITOR_OK; FLOW_MONITOR_ERROR_CONFIG] /\
    flows loop_of_3 0 0 (accepted [(0%nat, 1); (5%nat, 0); (3%nat, 2); (1%nat, 9)] rs) =
      Some (current_checkpoint s', stack_depth s') /\
    total_errors s' = u32 (0 + Z.of_nat (refusals rs)) /\ primask m' = primask boot) loop_of_3 boot.
Proof.
  eapply wp_mono; [apply (accepted_checkpoints_walk [(0%nat, 1); (5%nat, 0); (3%nat, 2); (1%nat, 9)] loop_of_3 boot)|].
  - split; try done. intros id Hid. assert (id = 0 \/ id = 1 \/ id = 2) as [-> | [-> | ->]] by (cbn in Hid; lia); (eexists; reflexivity).
  - repeat apply Forall_cons_2; try apply Forall_nil_2; cbn; lia.
  - done.
  - done.
  - cbv beta. intros rs s' m' [-> ?]. split; [by vm_compute|done].
Defined.

(** The time span is applied to the time left instead of the time passed: between
    two checkpoints with the same span [lo .. hi], [0 < lo <= hi], the second is within
    the span, as the code reads it, [e] ms after the first exactly when [e <= hi - lo];
    one that comes at once is accepted, one that uses the allowed time up is refused. *)
Theorem span_reads_time_left c now e :
  0 < min_time_ms c <= max_time_ms c -> 0 <= e < 2 ^ 32 ->
  in_span c (mkTimer now (max_time_ms c) true) (u32 (now + e)) = (e <=? max_time_ms c - min_time_ms c).
Proof.
  intros Hc He. unfold in_span, time_left. cbn [running timeout start_time andb].
  rewrite u32_elapsed by done. rewrite (proj2 (Z.ltb_lt 0 (min_time_ms c))) by lia. cbn [orb negb].
  destruct (max_time_ms c <=? e) eqn:E; cbn [negb]; tests.
  - rewrite (proj2 (Z.leb_gt (min_time_ms c) 0)) by lia. symmetry. apply Z.leb_gt. lia.
  - rewrite (proj2 (Z.leb_le (max_time_ms c - e) _)) by lia. rewrite andb_true_r.
    destruct (e <=? _) eqn:E2; tests; [apply Z.leb_le|apply Z.leb_gt]; lia.
Qed.
Lemma span_reads_time_left_witness :
  in_span (mkCheckpoint 2 FLOW_CHECKPOINT_LOOP 1 1 100 20) (mkTimer 7 100 true) (u32 (7 + 90)) = (90 <=? 100 - 20).
Proof. apply (span_reads_time_left (mkCheckpoint 2 FLOW_CHECKPOINT_LOOP 1 1 100 20) 7 90); cbn; lia. Defined.

(** A stack bound above the array's 32 entries lets a call overflow it: with 32
    calls open, the next CALL checkpoint that is in order and in time writes outside
    [call_stack]. *)
Theorem deep_call_overflows id c s m :
  f_initialized s = true -> 0 <= id < checkpoint_count (f_config s) -> cp_at s id = Some c ->
  cp_type c = FLOW_CHECKPOINT_CALL -> min_time_ms c = 0 -> max_time_ms c = 0 -> current_checkpoint s = 0 ->
  stack_depth s = MAX_CALL_STACK_SIZE -> Z.of_nat MAX_CALL_STACK_SIZE < max_stack_depth (f_config s) ->
  Flow_Monitor_Checkpoint id s m = None.
Proof.
  intros Hi Hid Hc Ht Hlo Hhi Hcur Hd Hmax. unfold Flow_Monitor_Checkpoint, validate_checkpoint_id.
  apply undefined_bind, wp_get. rewrite Hi, (proj2 (Z.ltb_lt _ _)), Hcur by lia. cbn [negb orb].
  apply undefined_bind, wp_enter. apply undefined_bind. eapply wp_checkpoint; [exact Hc|].
  apply undefined_bind, wp_ret. cbn [negb]. apply undefined_bind. unfold check_timing. rewrite Hlo, Hhi.
  apply wp_ret. cbn [negb]. apply undefined_bind'. unfold handle_call_stack. apply undefined_bind, wp_get.
  rewrite Ht. cbn [f_config set_crit FlowMonitor_critical setf stack_depth].
  rewrite Hd, (proj2 (Z.leb_gt _ _)) by done. done.
Qed.
Lemma deep_call_overflows_witness :
  Flow_Monitor_Checkpoint 0 (loop_of_3 <| stack_depth := 32%nat |>
    <| f_config := mkFlowConfig (Some [mkCheckpoint 0 FLOW_CHECKPOINT_CALL 0 0 0 0]) 1 64 1 false |>) boot = None.
Proof.
  apply (deep_call_overflows 0 (mkCheckpoint 0 FLOW_CHECKPOINT_CALL 0 0 0 0)); try done.
Defined.
