(* ===== verification/Watchdog.v ===== *)
(** * Watchdog

    [safety/watchdog.c]: a software layer over the hardware watchdog, with a refresh
    window.  The three hardware functions have empty bodies in the source; they are kept
    as steps without effect.  [NVIC_SystemReset] does not return: a call that reaches it
    ends with [SystemReset] and the state at that moment. *)

From S2P Require Import Prelude Machine.

Inductive WatchdogType := WATCHDOG_WINDOW | WATCHDOG_INDEPENDENT | WATCHDOG_EXTERNAL.
#[export] Instance WatchdogType_eq_dec : EqDecision WatchdogType.
Proof. solve_decision. Defined.
Record WatchdogConfig := mkWdConfig {
  wd_type : WatchdogType; timeout_ms : Z; window_start_ms : Z; window_end_ms : Z;
  reset_on_timeout : bool; timeout_callback : bool }.
#[export] Instance eta_WatchdogConfig : Eta WatchdogConfig := fun c =>
  mkWdConfig (wd_type c) (timeout_ms c) (window_start_ms c) (window_end_ms c) (reset_on_timeout c) (timeout_callback c).
Record Watchdog := mkWd {
  wd_config : WatchdogConfig; window_timer : Timer; timeout_timer : Timer; enabled : bool;
  window_valid : bool; wd_critical : CriticalSection }.
#[export] Instance eta_Watchdog : Eta Watchdog := fun s =>
  mkWd (wd_config s) (window_timer s) (timeout_timer s) (enabled s) (window_valid s) (wd_critical s).
#[export, refine] Instance Watchdog_crit : HasCritical Watchdog :=
  {| crit := wd_critical; set_crit c s := s <| wd_critical := c |> |}.
Proof. all: by intros; destruct s. Defined.

Inductive Outcome := Returned | SystemReset.

Definition hw_watchdog_init (timeout : Z) : M Watchdog unit := mret tt.
Definition hw_watchdog_refresh : M Watchdog unit := mret tt.
Definition hw_watchdog_disable : M Watchdog unit := mret tt.

Definition start_timeout (d : Z) : M Watchdog unit := start timeout_timer (fun t s => s <| timeout_timer := t |>) d.
Definition start_window (d : Z) : M Watchdog unit := start window_timer (fun t s => s <| window_timer := t |>) d.

Definition Watchdog_Init (SystemCoreClock : Z) (config : option WatchdogConfig) : M Watchdog bool :=
  match config with
  | None => mret false
  | Some config =>
      if timeout_ms config =? 0 then mret false else
      enter;;
      modify (fun s => s <| wd_config := config |>);;
      timer_init_m SystemCoreClock;;
      start_timeout (timeout_ms config);;
      (if bool_decide (wd_type config = WATCHDOG_WINDOW) then
         start_window (window_start_ms config);; modify (fun s => s <| window_valid := true |>)
       else mret tt);;
      hw_watchdog_init (timeout_ms config);;
      modify (fun s => s <| enabled := true |>);;
      exit;;
      mret true
  end.

Definition Watchdog_DeInit : M Watchdog unit :=
  enter;;
  s ← get;
  (if enabled s then
     hw_watchdog_disable;; modify (fun s => s <| enabled := false |> <| window_valid := false |>)
   else mret tt);;
  exit.

(** [__disable_irq] and [NVIC_SystemReset]. *)
Definition Watchdog_ForceReset : M Watchdog Outcome :=
  on_machine (fun m => (tt, m <| primask := true |>));; emit "NVIC_SystemReset" [];; mret SystemReset.

Definition Watchdog_Refresh : M Watchdog Outcome :=
  s ← get;
  if negb (enabled s) then mret Returned else
  enter;;
  bad ← (if bool_decide (wd_type (wd_config s) = WATCHDOG_WINDOW) then
           elapsed ← remaining window_timer;
           mret ((elapsed <? window_start_ms (wd_config s)) || (window_end_ms (wd_config s) <? elapsed))
         else mret false);
  if bad : bool then
    callback (timeout_callback (wd_config s)) "timeout_callback" [];;
    if reset_on_timeout (wd_config s) then Watchdog_ForceReset
    else exit;; mret Returned
  else
    hw_watchdog_refresh;;
    start_timeout (timeout_ms (wd_config s));;
    (if bool_decide (wd_type (wd_config s) = WATCHDOG_WINDOW)
     then start_window (window_start_ms (wd_config s)) else mret tt);;
    exit;;
    mret Returned.

Definition Watchdog_IsEnabled : M Watchdog bool := s ← get; mret (enabled s).
Definition Watchdog_GetRemainingTime : M Watchdog Z :=
  s ← get;
  if negb (enabled s) then mret 0 else
  enter;; r ← remaining timeout_timer; exit;; mret r.
Definition Watchdog_IsWindowOpen : M Watchdog bool :=
  s ← get;
  if negb (enabled s) || negb (bool_decide (wd_type (wd_config s) = WATCHDOG_WINDOW)) then mret false else
  enter;;
  elapsed ← remaining window_timer;
  let window_open := (window_start_ms (wd_config s) <=? elapsed) && (elapsed <=? window_end_ms (wd_config s)) in
  exit;;
  mret window_open.
Definition Watchdog_SetCallback (cb : bool) : M Watchdog unit :=
  s ← get;
  if negb (enabled s) then mret tt else
  enter;; modify (fun s => s <| wd_config ::= fun c => c <| timeout_callback := cb |> |>);; exit.

(** ** Refreshes *)

Lemma wp_left f Q (s : Watchdog) m st d e :
  f s = mkTimer st d true -> system_ticks m = u32 (st + e) -> 0 <= e < 2 ^ 32 ->
  (forall tc, Q (Z.max 0 (d - e)) s (m <| timer_critical := tc |>)) -> wp (remaining f) Q s m.
Proof.
  intros Hf Hm He HQ. unfold remaining. apply wp_bind, wp_get. unfold wp, on_machine.
  rewrite timer_remaining_spec, Hf. cbn [running timeout start_time andb]. rewrite Hm, u32_elapsed by done.
  specialize (HQ (mkCS (Z.b2z (primask m)) false)).
  destruct (d <=? e) eqn:E; cbn [negb]; tests.
  - by rewrite Z.max_l in HQ by lia.
  - by rewrite Z.max_r in HQ by lia.
Qed.

(** A watchdog without a window: a refresh, however late, returns with the timeout
    timer restarted, and [n] tick interrupts later [Watchdog_GetRemainingTime] returns
    what is left of [timeout_ms], across the wrap-around of the clock.  Nothing acts on
    the timer when it has run out. *)
Theorem refresh_restarts_timeout n s m :
  enabled s = true -> wd_type (wd_config s) <> WATCHDOG_WINDOW ->
  is_u32 (system_ticks m) -> Z.of_nat n < 2 ^ 32 ->
  wp Watchdog_Refresh (fun r s1 m1 => r = Returned /\ primask m1 = primask m /\ trace m1 = trace m /\
    wp Watchdog_GetRemainingTime (fun t s2 m2 => t = Z.max 0 (timeout_ms (wd_config s) - Z.of_nat n) /\
      primask m2 = primask m) s1 (Nat.iter n SysTick_Handler m1)) s m.
Proof.
  intros He Ht Hu Hn. unfold Watchdog_Refresh. do 2 wp_step. rewrite He. cbn [negb].
  wp_step. wp_step. rewrite bool_decide_false by done.
  unfold hw_watchdog_refresh, start_timeout. wp_steps. split_and!; [done..|].
  unfold Watchdog_GetRemainingTime. do 2 wp_step. rewrite He. cbn [negb]. do 2 wp_step. apply wp_bind.
  match goal with |- context [Nat.iter n SysTick_Handler ?x] => set (m1 := x) end.
  eapply (wp_left _ _ _ _ (system_ticks m) (timeout_ms (wd_config s)) (Z.of_nat n)); [done| |lia|].
  { cbn. rewrite ticks_after by done. done. }
  intros tc. apply wp_bind. eapply (wp_exit (primask (Nat.iter n SysTick_Handler m1))); [done..|]. apply wp_ret.
  split; [done|]. cbn. by rewrite ticks_primask.
Qed.
Definition independent : Watchdog :=
  mkWd (mkWdConfig WATCHDOG_INDEPENDENT 100 0 0 true false) timer_zero (mkTimer 0 100 true) true false cs_zero.
Lemma refresh_restarts_timeout_witness :
  wp Watchdog_Refresh (fun r s1 m1 => r = Returned /\ primask m1 = primask boot /\ trace m1 = trace boot /\
    wp Watchdog_GetRemainingTime (fun t s2 m2 => t = Z.max 0 (100 - Z.of_nat 30) /\
      primask m2 = primask boot) s1 (Nat.iter 30 SysTick_Handler m1)) independent boot.
Proof. apply (refresh_restarts_timeout 30 independent boot); [done..|lia]. Defined.

(** The refresh window is never open when it should be: with a window that starts
    later than 0 ms, a refresh [e >= 1] ms after the one before is refused whatever
    [window_end_ms] is, because the code compares the time left of a timer of
    [window_start_ms] with the window; when a reset is configured the system is reset,
    with interrupts masked. *)
Theorem window_refresh_refused e s m st :
  enabled s = true -> wd_type (wd_config s) = WATCHDOG_WINDOW ->
  window_timer s = mkTimer st (window_start_ms (wd_config s)) true ->
  0 < window_start_ms (wd_config s) -> 1 <= e < 2 ^ 32 -> system_ticks m = u32 (st + e) ->
  wp Watchdog_Refresh (fun r s1 m1 =>
    r = (if reset_on_timeout (wd_config s) then SystemReset else Returned) /\
    timeout_timer s1 = timeout_timer s /\ window_timer s1 = window_timer s /\
    primask m1 = (if reset_on_timeout (wd_config s) then true else primask m)) s m.
Proof.
  intros He Ht Hw Hs Hr Hm. unfold Watchdog_Refresh. do 2 wp_step. rewrite He. cbn [negb].
  wp_step. wp_step. rewrite bool_decide_true by done. apply wp_bind, wp_bind.
  eapply (wp_left _ _ _ _ st (window_start_ms (wd_config s)) e); [done|done|lia|].
  intros tc. apply wp_ret. rewrite (proj2 (Z.ltb_lt _ _)) by lia. cbn [orb].
  apply wp_bind, wp_callback. destruct (reset_on_timeout (wd_config s)) eqn:Hrs.
  - done.
  - apply wp_bind. eapply (wp_exit (primask m)); [done..|]. by apply wp_ret.
Qed.
Definition windowed : Watchdog :=
  mkWd (mkWdConfig WATCHDOG_WINDOW 100 20 80 true false) (mkTimer 0 20 true) (mkTimer 0 100 true) true true cs_zero.
Lemma window_refresh_refused_witness :
  wp Watchdog_Refresh (fun r s1 m1 =>
    r = SystemReset /\ timeout_timer s1 = timeout_timer windowed /\ window_timer s1 = window_timer windowed /\
    primask m1 = true) windowed (boot <| system_ticks := 50 |>).
Proof. apply (window_refresh_refused 50 windowed (boot <| system_ticks := 50 |>) 0); done || lia. Defined.
