(* ===== verification/MemoryTest.v ===== *)
(** * Memory tests

    [safety/memory_test.c]: march, checkerboard, walking-bit, address, checksum and
    pattern tests of memory regions, run on request or in turn in the background.

    The memory under test is a device behind the interface [MemDevice]: it answers word
    reads and takes word writes, and need not behave like memory.  Fault-free memory, memory
    with a stuck bit and memory behind a faulty address decoder are instances.
    Addresses are byte addresses; a region lies below the end of the address space, so
    that its end pointer exists.  [calloc] succeeds or not by an argument. *)

From S2P Require Import Prelude Machine Crc.

(** ** The memory under test *)

Class MemDevice (D : Type) := {
  rd : D -> Z -> Z;           (* [*ptr] *)
  wr : D -> Z -> Z -> D;      (* [*ptr = v] *)
  rd8 : D -> Z -> Z }.        (* a byte, for the checksum *)

Inductive MemoryTestType :=
  MEM_TEST_MARCH_C | MEM_TEST_CHECKERBOARD | MEM_TEST_WALKING_1 | MEM_TEST_WALKING_0
| MEM_TEST_ADDRESS_FAULT | MEM_TEST_FLASH_CRC | MEM_TEST_RAM_PATTERN.
Inductive MemoryTestResult :=
  MEM_TEST_OK | MEM_TEST_FAILED_WRITE | MEM_TEST_FAILED_READ | MEM_TEST_FAILED_PATTERN
| MEM_TEST_FAILED_ADDRESS | MEM_TEST_FAILED_CRC | MEM_TEST_FAILED_TIMEOUT.
#[export] Instance MemoryTestResult_eq_dec : EqDecision MemoryTestResult.
Proof. solve_decision. Defined.
Inductive MemoryRegionType := MEM_REGION_RAM | MEM_REGION_ROM | MEM_REGION_FLASH | MEM_REGION_EEPROM.
#[export] Instance MemoryRegionType_eq_dec : EqDecision MemoryRegionType.
Proof. solve_decision. Defined.
Definition test_code (t : MemoryTestType) : Z :=
  match t with
  | MEM_TEST_MARCH_C => 0 | MEM_TEST_CHECKERBOARD => 1 | MEM_TEST_WALKING_1 => 2 | MEM_TEST_WALKING_0 => 3
  | MEM_TEST_ADDRESS_FAULT => 4 | MEM_TEST_FLASH_CRC => 5 | MEM_TEST_RAM_PATTERN => 6
  end.
Definition result_code (r : MemoryTestResult) : Z :=
  match r with
  | MEM_TEST_OK => 0 | MEM_TEST_FAILED_WRITE => 1 | MEM_TEST_FAILED_READ => 2 | MEM_TEST_FAILED_PATTERN => 3
  | MEM_TEST_FAILED_ADDRESS => 4 | MEM_TEST_FAILED_CRC => 5 | MEM_TEST_FAILED_TIMEOUT => 6
  end.

Record MemoryRegionConfig := mkRegion {
  start_address : Z; size : Z; region_type : MemoryRegionType; is_executable : bool;
  is_writable : bool; run_background_test : bool }.
Record MemoryTestConfig := mkMtConfig {
  regions : option (list MemoryRegionConfig); region_count : Z; test_interval_ms : Z;
  pattern_count : Z; test_patterns : option (list Z); mt_error_callback : bool }.

Definition DEFAULT_PATTERNS : list Z :=
  [0x00000000; 0xFFFFFFFF; 0x55555555; 0xAAAAAAAA; 0x33333333; 0xCCCCCCCC; 0x0F0F0F0F; 0xF0F0F0F0].

(** ** The tests *)

Section tests.
Context {D : Type} `{MemDevice D}.
Implicit Types (d : D) (r : MemoryRegionConfig).

(** [for (ptr = a; n more times; ptr += step) body], left at the first failure. *)
Fixpoint sweep (step : Z) (body : Z -> D -> MemoryTestResult * D) (n : nat) (a : Z) (d : D) : MemoryTestResult * D :=
  match n with
  | O => (MEM_TEST_OK, d)
  | S n => match body a d with
           | (MEM_TEST_OK, d) => sweep step body n (a + 4 * step) d
           | (e, d) => (e, d)
           end
  end.
Definition andThen (p : MemoryTestResult * D) (k : D -> MemoryTestResult * D) : MemoryTestResult * D :=
  match p with (MEM_TEST_OK, d) => k d | (e, d) => (e, d) end.
Definition expect (e : MemoryTestResult) (v a : Z) (d : D) : MemoryTestResult * D :=
  if rd d a =? v then (MEM_TEST_OK, d) else (e, d).
Definition put (v a : Z) (d : D) : MemoryTestResult * D := (MEM_TEST_OK, wr d a v).
Definition put_check (v a : Z) (d : D) : MemoryTestResult * D :=
  andThen (put v a d) (expect MEM_TEST_FAILED_WRITE v a).

Definition words r : nat := Z.to_nat (size r / 4).
Definition each r (body : Z -> D -> MemoryTestResult * D) (d : D) : MemoryTestResult * D :=
  sweep 1 body (words r) (start_address r) d.

(** Read [v], write [w]. *)
Definition exchange (v w a : Z) (d : D) : MemoryTestResult * D :=
  andThen (expect MEM_TEST_FAILED_READ v a d) (put_check w a).
Definition march_c_test r d : MemoryTestResult * D :=
  andThen (each r (put_check 0) d) (fun d =>
  andThen (each r (exchange 0 0xFFFFFFFF) d) (fun d =>
  andThen (each r (exchange 0xFFFFFFFF 0) d) (fun d =>
  each r (expect MEM_TEST_FAILED_READ 0) d))).

(** Two words per iteration: [ptr] and [ptr + 1]. *)
Definition each_pair r (body : Z -> D -> MemoryTestResult * D) (d : D) : MemoryTestResult * D :=
  sweep 2 body ((words r + 1) / 2) (start_address r) d.
Definition put_pair (v w a : Z) (d : D) : MemoryTestResult * D := andThen (put v a d) (put w (a + 4)).
Definition expect_pair (v w a : Z) (d : D) : MemoryTestResult * D :=
  andThen (expect MEM_TEST_FAILED_PATTERN v a d) (expect MEM_TEST_FAILED_PATTERN w (a + 4)).
Definition checkerboard_test r d : MemoryTestResult * D :=
  andThen (each_pair r (put_pair 0x55555555 0xAAAAAAAA) d) (fun d =>
  andThen (each_pair r (expect_pair 0x55555555 0xAAAAAAAA) d) (fun d =>
  andThen (each_pair r (put_pair 0xAAAAAAAA 0x55555555) d) (fun d =>
  each_pair r (expect_pair 0xAAAAAAAA 0x55555555) d))).

(** One round of the walking tests, and the rounds for the patterns of a list. *)
Definition walk_round r (pattern : Z) (d : D) : MemoryTestResult * D :=
  andThen (each r (put_check pattern) d) (each r (expect MEM_TEST_FAILED_READ pattern)).
Fixpoint rounds_of (round : Z -> D -> MemoryTestResult * D) (patterns : list Z) (d : D) : MemoryTestResult * D :=
  match patterns with
  | [] => (MEM_TEST_OK, d)
  | p :: patterns => andThen (round p d) (rounds_of round patterns)
  end.
(** [pattern] in the [n] rounds from [bit] on: [pattern = 1], [pattern <<= 1]. *)
Fixpoint patterns_1 (n : nat) (pattern : Z) : list Z :=
  match n with O => [] | S n => pattern :: patterns_1 n (u32 (Z.shiftl pattern 1)) end.
(** [pattern = 0xFFFFFFFE], [pattern = ~(1 << bit)]. *)
Fixpoint patterns_0 (n : nat) (bit pattern : Z) : list Z :=
  match n with O => [] | S n => pattern :: patterns_0 n (bit + 1) (u32 (Z.lnot (Z.shiftl 1 bit))) end.
Definition walking_1_test r d : MemoryTestResult * D := rounds_of (walk_round r) (patterns_1 32 1) d.
Definition walking_0_test r d : MemoryTestResult * D := rounds_of (walk_round r) (patterns_0 32 0 0xFFFFFFFE) d.

Definition address_fault_test r d : MemoryTestResult * D :=
  andThen (each r (fun a => put (u32 a) a) d) (each r (fun a => expect MEM_TEST_FAILED_ADDRESS (u32 a) a)).

Definition bytes_at (d : D) (a : Z) (n : nat) : list Z := (fun i => rd8 d (a + Z.of_nat i)) <$> seq 0 n.
(** [None]: the checksum reads outside its table. *)
Definition flash_crc_test (crc : CrcState) r d : option (MemoryTestResult * D) :=
  if negb (bool_decide (region_type r = MEM_REGION_FLASH)) && negb (bool_decide (region_type r = MEM_REGION_ROM))
  then Some (MEM_TEST_FAILED_CRC, d)
  else
    c ← calculate_crc32 crc (Some (bytes_at d (start_address r) (Z.to_nat (size r))));
    Some (if c =? rd d (start_address r + size r - 4) then MEM_TEST_OK else MEM_TEST_FAILED_CRC, d).

Definition pattern_round r (pattern : Z) (d : D) : MemoryTestResult * D :=
  andThen (each r (put pattern) d) (each r (expect MEM_TEST_FAILED_PATTERN pattern)).
(** [None]: [patterns[i]] outside the array, the configured count being longer than the
    array (or given without an array and longer than the default one). *)
Definition ram_pattern_test (c : MemoryTestConfig) r d : option (MemoryTestResult * D) :=
  let patterns := match test_patterns c with Some p => p | None => DEFAULT_PATTERNS end in
  let count := if pattern_count c =? 0 then length DEFAULT_PATTERNS else Z.to_nat (pattern_count c) in
  let (e, d) := rounds_of (pattern_round r) (take count patterns) d in
  if bool_decide (e = MEM_TEST_OK) && (length patterns <? count)%nat then None else Some (e, d).
End tests.

(** ** The service *)

(** The statics [memory_test], the memory itself and the state of the checksum unit. *)
Record MemoryTest (D : Type) := mkMt {
  mt_config : MemoryTestConfig; total_errors : Z; last_results : option (list MemoryTestResult);
  test_timer : Timer; current_region : Z; current_pattern : Z; mt_initialized : bool;
  mt_critical : CriticalSection; memory : D; crc_unit : CrcState }.
Arguments mkMt {D}. Arguments mt_config {D}. Arguments total_errors {D}. Arguments last_results {D}.
Arguments test_timer {D}. Arguments current_region {D}. Arguments current_pattern {D}.
Arguments mt_initialized {D}. Arguments mt_critical {D}. Arguments memory {D}. Arguments crc_unit {D}.
#[export] Instance eta_MemoryTest D : Eta (MemoryTest D) := fun s =>
  mkMt (mt_config s) (total_errors s) (last_results s) (test_timer s) (current_region s)
    (current_pattern s) (mt_initialized s) (mt_critical s) (memory s) (crc_unit s).
#[export, refine] Instance MemoryTest_crit D : HasCritical (MemoryTest D) :=
  {| crit := mt_critical; set_crit c s := s <| mt_critical := c |> |}.
Proof. all: by intros; destruct s. Defined.

Section service.
Context {D : Type} `{MemDevice D}.
Abbreviation MT := (MemoryTest D).

Definition region_at (i : Z) : M MT MemoryRegionConfig :=
  s ← get; match regions (mt_config s) ≫= (.!! Z.to_nat i) with Some r => mret r | None => fault end.
(** Run a test on the memory. *)
Definition on_memory (f : MT -> D -> option (MemoryTestResult * D)) : M MT MemoryTestResult :=
  s ← get;
  match f s (memory s) with
  | Some (e, d) => modify (fun s => s <| memory := d |>);; mret e
  | None => fault
  end.
Definition run_test (t : MemoryTestType) (r : MemoryRegionConfig) : M MT MemoryTestResult :=
  on_memory (fun s d =>
    match t with
    | MEM_TEST_MARCH_C => Some (march_c_test r d)
    | MEM_TEST_CHECKERBOARD => Some (checkerboard_test r d)
    | MEM_TEST_WALKING_1 => Some (walking_1_test r d)
    | MEM_TEST_WALKING_0 => Some (walking_0_test r d)
    | MEM_TEST_ADDRESS_FAULT => Some (address_fault_test r d)
    | MEM_TEST_FLASH_CRC => flash_crc_test (crc_unit s) r d
    | MEM_TEST_RAM_PATTERN => ram_pattern_test (mt_config s) r d
    end).

(** The bookkeeping of a failed test; [last_results[i]] through a NULL pointer or past
    the array is undefined. *)
Definition record_failure (code i : Z) (e : MemoryTestResult) (r : MemoryRegionConfig) : M MT unit :=
  if bool_decide (e = MEM_TEST_OK) then mret tt else
  modify (fun s => s <| total_errors ::= fun n => u32 (n + 1) |>);;
  s ← get;
  match last_results s with
  | Some l => if (Z.to_nat i <? length l)%nat
              then modify (fun s => s <| last_results := Some (<[Z.to_nat i := e]> l) |>) else fault
  | None => fault
  end;;
  callback (mt_error_callback (mt_config s)) "error_callback" [code; result_code e; start_address r].

Definition Memory_Test_Init (calloc_ok : bool) (config : option MemoryTestConfig) : M MT bool :=
  match config with
  | None => mret false
  | Some config =>
      if negb (match regions config with Some _ => true | None => false end) || (region_count config =? 0)
      then mret false
      else
        enter;;
        modify (fun s => s <| mt_config := config |>);;
        modify (fun s => s <| last_results :=
          if calloc_ok then Some (replicate (Z.to_nat (region_count config)) MEM_TEST_OK) else None |>);;
        if negb calloc_ok then exit;; mret false else
        modify (fun s => s <| total_errors := 0 |> <| current_region := 0 |> <| current_pattern := 0 |>);;
        start test_timer (fun t s => s <| test_timer := t |>) (test_interval_ms config);;
        modify (fun s => s <| mt_initialized := true |>);;
        exit;;
        mret true
  end.

Definition Memory_Test_DeInit : M MT unit :=
  enter;;
  modify (fun s => s <| last_results := None |>);;
  modify (fun s => s <| mt_initialized := false |>);;
  exit.

(** The background test of pattern [p]: the switch of [Memory_Test_Process]. *)
Definition background_test (p : Z) (r : MemoryRegionConfig) : M MT MemoryTestResult :=
  if p =? 0 then run_test MEM_TEST_MARCH_C r
  else if p =? 1 then run_test MEM_TEST_CHECKERBOARD r
  else if p =? 2 then run_test MEM_TEST_WALKING_1 r
  else if p =? 3 then run_test MEM_TEST_WALKING_0 r
  else if p =? 4 then run_test MEM_TEST_ADDRESS_FAULT r
  else if p =? 5 then
    if bool_decide (region_type r = MEM_REGION_FLASH) || bool_decide (region_type r = MEM_REGION_ROM)
    then run_test MEM_TEST_FLASH_CRC r else mret MEM_TEST_OK
  else if p =? 6 then
    if bool_decide (region_type r = MEM_REGION_RAM) then run_test MEM_TEST_RAM_PATTERN r else mret MEM_TEST_OK
  else mret MEM_TEST_OK.

Definition next_position : M MT unit :=
  modify (fun s => s <| current_pattern ::= fun p => p + 1 |>);;
  s ← get;
  if 6 <? current_pattern s then
    modify (fun s => s <| current_pattern := 0 |> <| current_region ::= fun i => i + 1 |>);;
    s ← get;
    if region_count (mt_config s) <=? current_region s
    then modify (fun s => s <| current_region := 0 |>) else mret tt
  else mret tt.

Definition Memory_Test_Process : M MT unit :=
  s ← get;
  if negb (mt_initialized s) then mret tt else
  enter;;
  e ← expired test_timer;
  (if e : bool then
     s ← get;
     r ← region_at (current_region s);
     (if run_background_test r then
        result ← background_test (current_pattern s) r;
        record_failure (current_pattern s) (current_region s) result r
      else mret tt);;
     next_position;;
     s ← get;
     start test_timer (fun t s => s <| test_timer := t |>) (test_interval_ms (mt_config s))
   else mret tt);;
  exit.

Definition Memory_Test_RunTest (test : MemoryTestType) (i : Z) : M MT MemoryTestResult :=
  s ← get;
  if negb (mt_initialized s) || (region_count (mt_config s) <=? i) then mret MEM_TEST_FAILED_TIMEOUT else
  enter;;
  r ← region_at i;
  result ← run_test test r;
  record_failure (test_code test) i result r;;
  exit;;
  mret result.

Definition Memory_Test_IsRegionHealthy (i : Z) : M MT bool :=
  s ← get;
  if negb (mt_initialized s) || (region_count (mt_config s) <=? i) then mret false else
  match last_results s ≫= (.!! Z.to_nat i) with Some e => mret (bool_decide (e = MEM_TEST_OK)) | None => fault end.
Definition Memory_Test_GetErrorCount : M MT Z := s ← get; mret (total_errors s).
Definition Memory_Test_ResetErrorCount : M MT unit :=
  enter;;
  modify (fun s => s <| total_errors := 0 |>);;
  s ← get;
  match last_results s with
  | Some l => if (Z.to_nat (region_count (mt_config s)) <=? length l)%nat
              then modify (fun s => s <| last_results := Some (replicate (Z.to_nat (region_count (mt_config s))) MEM_TEST_OK
                                         ++ drop (Z.to_nat (region_count (mt_config s))) l) |>) else fault
  | None => if region_count (mt_config s) =? 0 then mret tt else fault
  end;;
  exit.
(** [None]: a pointer is NULL or the service is down, and nothing is written. *)
Definition Memory_Test_GetStatus (pointers : bool) : M MT (option (list MemoryTestResult * Z)) :=
  s ← get;
  if negb pointers || negb (mt_initialized s) then mret None else
  enter;;
  match last_results s with
  | Some l => exit;; mret (Some (take (Z.to_nat (region_count (mt_config s))) l, region_count (mt_config s)))
  | None => fault
  end.

(** The tests of [Memory_Test_VerifyRegion] in order, up to the first failure. *)
Fixpoint verify_tests (l : list MemoryTestType) (r : MemoryRegionConfig) : M MT bool :=
  match l with
  | [] => mret true
  | t :: l => e ← run_test t r; if bool_decide (e = MEM_TEST_OK) then verify_tests l r else mret false
  end.
Definition tests_for (r : MemoryRegionConfig) : list MemoryTestType :=
  [MEM_TEST_MARCH_C; MEM_TEST_CHECKERBOARD; MEM_TEST_WALKING_1; MEM_TEST_WALKING_0; MEM_TEST_ADDRESS_FAULT]
  ++ (if bool_decide (region_type r = MEM_REGION_FLASH) || bool_decide (region_type r = MEM_REGION_ROM)
      then [MEM_TEST_FLASH_CRC] else [])
  ++ (if bool_decide (region_type r = MEM_REGION_RAM) then [MEM_TEST_RAM_PATTERN] else []).
(** The result and what is written to [failed_address]. *)
Definition Memory_Test_VerifyRegion (i : Z) (failed_address : bool) : M MT (bool * option Z) :=
  s ← get;
  if negb (mt_initialized s) || (region_count (mt_config s) <=? i) then mret (false, None) else
  r ← region_at i;
  enter;;
  result ← verify_tests (tests_for r) r;
  exit;;
  mret (result, if negb result && failed_address then Some (start_address r) else None).
End service.

(** ** Sweeps *)

Section sweeps.
Context {D : Type} `{MemDevice D}.
Implicit Types (d : D) (r : MemoryRegionConfig).

(** A sweep along which [I] holds does not fail. *)
Lemma sweep_inv step body n a (I : nat -> D -> Prop) d :
  (forall j d, (j < n)%nat -> I j d ->
    exists d', body (a + 4 * step * Z.of_nat j) d = (MEM_TEST_OK, d') /\ I (S j) d') ->
  I 0%nat d -> exists d', sweep step body n a d = (MEM_TEST_OK, d') /\ I n d'.
Proof.
  revert a I d. induction n as [|n IH]; intros a I d Hb HI; [by exists d|]. cbn [sweep].
  destruct (Hb 0%nat d) as (d1 & Hd1 & HI1); [lia|done|].
  rewrite Z.mul_0_r, Z.add_0_r in Hd1. rewrite Hd1.
  apply (IH (a + 4 * step) (fun j => I (S j)) d1); [|done]. intros j d2 Hj HIj.
  destruct (Hb (S j) d2) as (d3 & Hd3 & HI3); [lia|done|]. exists d3. split; [|done].
  rewrite <- Hd3. f_equal. lia.
Qed.

(** A sweep that does not fail ran its body at every word. *)
Lemma sweep_ok_inv step body n a d d' :
  sweep step body n a d = (MEM_TEST_OK, d') ->
  forall j, (j < n)%nat -> exists d1 d2, body (a + 4 * step * Z.of_nat j) d1 = (MEM_TEST_OK, d2).
Proof.
  revert a d. induction n as [|n IH]; intros a d Hs j Hj; [lia|]. cbn [sweep] in Hs.
  destruct (body a d) as [[] d1] eqn:Hb; try done. destruct j as [|j].
  - exists d, d1. by rewrite Z.mul_0_r, Z.add_0_r.
  - destruct (IH _ _ Hs j) as (d2 & d3 & Hd); [lia|]. exists d2, d3. rewrite <- Hd. f_equal. lia.
Qed.

Lemma andThen_ok (p : MemoryTestResult * D) k d' :
  andThen p k = (MEM_TEST_OK, d') -> exists d, p = (MEM_TEST_OK, d) /\ k d = (MEM_TEST_OK, d').
Proof. destruct p as [[] d]; simpl; try done. eauto. Qed.
Lemma expect_ok e v a d d' : e <> MEM_TEST_OK -> expect e v a d = (MEM_TEST_OK, d') -> rd d a = v /\ d' = d.
Proof. unfold expect. destruct (rd d a =? v) eqn:E; tests; intros; by simplify_eq. Qed.
Lemma put_check_ok v a d d' : put_check v a d = (MEM_TEST_OK, d') -> rd d' a = v.
Proof. intros (d1 & _ & Ho)%andThen_ok. apply expect_ok in Ho as [? ->]; done. Qed.

Definition addr r (j : nat) : Z := start_address r + 4 * Z.of_nat j.

(** What a passed march or walking test has seen at every word. *)
Lemma march_c_seen r d d' j :
  march_c_test r d = (MEM_TEST_OK, d') -> (j < words r)%nat ->
  (exists d1, rd d1 (addr r j) = 0) /\ (exists d1, rd d1 (addr r j) = 0xFFFFFFFF).
Proof.
  intros Hm Hj. unfold march_c_test, each in Hm.
  apply andThen_ok in Hm as (d1 & H1 & Hm). apply andThen_ok in Hm as (d2 & H2 & _).
  destruct (sweep_ok_inv _ _ _ _ _ _ H1 j Hj) as (e1 & e2 & Hb1%put_check_ok).
  destruct (sweep_ok_inv _ _ _ _ _ _ H2 j Hj) as (e3 & e4 & Hb2).
  apply andThen_ok in Hb2 as (e5 & _ & Hb2%put_check_ok).
  unfold addr. rewrite Z.mul_1_r in *. eauto.
Qed.
Lemma rounds_seen r patterns d d' j p :
  rounds_of (walk_round r) patterns d = (MEM_TEST_OK, d') -> (j < words r)%nat -> p ∈ patterns ->
  exists d1, rd d1 (addr r j) = p.
Proof.
  intros Hr Hj. revert d Hr. induction patterns as [|q patterns IH]; intros d Hr Hp; [by apply not_elem_of_nil in Hp|].
  cbn [rounds_of] in Hr. apply andThen_ok in Hr as (d1 & Hw & Hr).
  apply elem_of_cons in Hp as [<-|Hp]; [|by eapply IH]. unfold walk_round, each in Hw.
  apply andThen_ok in Hw as (d2 & Hw & _).
  destruct (sweep_ok_inv _ _ _ _ _ _ Hw j Hj) as (e1 & e2 & Hb%put_check_ok).
  unfold addr. rewrite Z.mul_1_r in Hb. eauto.
Qed.

(** A comparing sweep that passes found every word as compared. *)
Lemma expect_sweep_seen e g n a d d' :
  e <> MEM_TEST_OK -> sweep 1 (fun a => expect e (g a) a) n a d = (MEM_TEST_OK, d') ->
  forall i, (i < n)%nat -> rd d (a + 4 * Z.of_nat i) = g (a + 4 * Z.of_nat i).
Proof.
  intros He. revert a. induction n as [|n IH]; intros a Hs i Hi; [lia|]. cbn [sweep] in Hs.
  destruct (expect _ _ a d) as [[] d1] eqn:Hx; try done. apply expect_ok in Hx as [Hx ->]; [|done].
  destruct i as [|i]; [by rewrite Z.mul_0_r, Z.add_0_r|].
  replace (a + 4 * Z.of_nat (S i)) with (a + 4 * 1 + 4 * Z.of_nat i) by lia. apply (IH _ Hs). lia.
Qed.

(** *** Memory that keeps the values [P] *)

Record keeps (P : Z -> Prop) : Prop := mkKeeps {
  k_same : forall d a v, P v -> rd (wr d a v) a = v;
  k_other : forall d a b v, a <> b -> rd (wr d a v) b = rd d b }.

(** The first [n] words from [a] hold [f]. *)
Definition board (f : nat -> Z) (n : nat) (a : Z) (d : D) : Prop :=
  forall j, (j < n)%nat -> rd d (a + 4 * Z.of_nat j) = f j.

Lemma board_update P f n a d j v :
  keeps P -> P v -> board f n a d ->
  board (fun i => if (i =? j)%nat then v else f i) n a (wr d (a + 4 * Z.of_nat j) v).
Proof.
  intros [Hs Ho] Hv Hb i Hi. destruct (i =? j)%nat eqn:E; tests; [subst; by apply Hs|].
  rewrite Ho by lia. by apply Hb.
Qed.

(** Writing the words in turn, each found as [f] left it and read back. *)
Lemma sweep_board P body f g n a d :
  keeps P -> (forall j, (j < n)%nat -> P (g j)) ->
  (forall j d, (j < n)%nat -> rd d (a + 4 * Z.of_nat j) = f j ->
    body (a + 4 * Z.of_nat j) d = (MEM_TEST_OK, wr d (a + 4 * Z.of_nat j) (g j))) ->
  board f n a d ->
  exists d', sweep 1 body n a d = (MEM_TEST_OK, d') /\ board g n a d'.
Proof.
  intros Hk HP Hb Hf.
  destruct (sweep_inv 1 body n a (fun j => board (fun i => if (i <? j)%nat then g i else f i) n a) d)
    as (d' & Hs & Hd'); [| |exists d'; split; [done|]].
  - intros j d1 Hj HI. rewrite Z.mul_1_r. eexists. split.
    + apply Hb; [done|]. rewrite (HI j Hj). by rewrite Nat.ltb_irrefl.
    + intros i Hi. rewrite (board_update P _ n a d1 j (g j) Hk (HP j Hj) HI i Hi). simpl.
      destruct (i =? j)%nat eqn:E1, (i <? j)%nat eqn:E2, (i <? S j)%nat eqn:E3; tests; subst; lia || done.
  - intros i Hi. simpl. by apply Hf.
  - intros i Hi. rewrite (Hd' i Hi). simpl. by rewrite (proj2 (Nat.ltb_lt _ _) Hi).
Qed.
(** Sweeps that only read. *)
Lemma sweep_read body n a d :
  (forall j, (j < n)%nat -> body (a + 4 * Z.of_nat j) d = (MEM_TEST_OK, d)) ->
  sweep 1 body n a d = (MEM_TEST_OK, d).
Proof.
  intros Hb. destruct (sweep_inv 1 body n a (fun _ d' => d' = d) d) as (d' & Hs & ->); [|done|done].
  intros j d1 Hj ->. exists d. split; [|done]. by rewrite <- (Hb j Hj).
Qed.
Lemma expect_holds e v a d : rd d a = v -> expect e v a d = (MEM_TEST_OK, d).
Proof. intros <-. unfold expect. by rewrite Z.eqb_refl. Qed.
Lemma put_check_holds P v a d : keeps P -> P v -> put_check v a d = (MEM_TEST_OK, wr d a v).
Proof. intros Hk Hv. unfold put_check. simpl. apply expect_holds. by apply Hk. Qed.

Lemma exchange_passes P v w r d :
  keeps P -> P w -> board (fun _ => v) (words r) (start_address r) d ->
  exists d', sweep 1 (exchange v w) (words r) (start_address r) d = (MEM_TEST_OK, d') /\
    board (fun _ => w) (words r) (start_address r) d'.
Proof.
  intros Hk Hw Hb. apply (sweep_board P _ (fun _ => v)); [done..| |done].
  intros j e Hj He. unfold exchange. rewrite expect_holds by done. by eapply put_check_holds.
Qed.
Lemma march_c_passes P r d :
  keeps P -> P 0 -> P 0xFFFFFFFF -> exists d', march_c_test r d = (MEM_TEST_OK, d').
Proof.
  intros Hk H0 H1. unfold march_c_test, each.
  destruct (sweep_board P (put_check 0) (fun j => rd d (start_address r + 4 * Z.of_nat j)) (fun _ => 0)
    (words r) (start_address r) d Hk) as (d1 & -> & Hd1); [done|intros; by eapply put_check_holds|done|].
  cbn [andThen].
  destruct (exchange_passes P 0 0xFFFFFFFF r d1) as (d2 & -> & Hd2); [done..|]. cbn [andThen].
  destruct (exchange_passes P 0xFFFFFFFF 0 r d2) as (d3 & -> & Hd3); [done..|].
  cbn [andThen]. exists d3. apply sweep_read. intros j Hj. apply expect_holds. by apply Hd3.
Qed.

(** Fill with [g] and compare. *)
Lemma fill_compare_passes P body check g r d :
  keeps P -> (forall j, (j < words r)%nat -> P (g j)) ->
  (forall j e, (j < words r)%nat -> body (addr r j) e = (MEM_TEST_OK, wr e (addr r j) (g j))) ->
  (forall j e, (j < words r)%nat -> rd e (addr r j) = g j -> check (addr r j) e = (MEM_TEST_OK, e)) ->
  exists d', andThen (each r body d) (each r check) = (MEM_TEST_OK, d').
Proof.
  intros Hk HP Hb Hc. unfold each.
  destruct (sweep_board P body (fun j => rd d (addr r j)) g (words r) (start_address r) d Hk)
    as (d1 & -> & Hd1); [done|intros; by apply Hb|done|].
  cbn [andThen]. exists d1. apply sweep_read. intros j Hj. apply Hc; [done|]. by apply Hd1.
Qed.
Lemma rounds_pass round patterns d :
  (forall p e, p ∈ patterns -> exists e', round p e = (MEM_TEST_OK, e')) ->
  exists d', rounds_of round patterns d = (MEM_TEST_OK, d').
Proof.
  revert d. induction patterns as [|p patterns IH]; intros d Hr; [by exists d|]. cbn [rounds_of].
  destruct (Hr p d) as (d1 & ->); [by apply elem_of_cons; left|]. cbn [andThen].
  apply IH. intros q e Hq. apply Hr. by apply elem_of_cons; right.
Qed.
Lemma walking_passes P r patterns d :
  keeps P -> Forall P patterns -> exists d', rounds_of (walk_round r) patterns d = (MEM_TEST_OK, d').
Proof.
  intros Hk HP. apply rounds_pass. intros p e Hp. rewrite Forall_forall in HP.
  apply (fill_compare_passes P _ _ (fun _ => p)); [done|intros; by apply HP| |].
  - intros. eapply put_check_holds; [done|]. by apply HP.
  - intros. by apply expect_holds.
Qed.
Lemma pattern_passes P r patterns d :
  keeps P -> Forall P patterns -> exists d', rounds_of (pattern_round r) patterns d = (MEM_TEST_OK, d').
Proof.
  intros Hk HP. apply rounds_pass. intros p e Hp. rewrite Forall_forall in HP.
  apply (fill_compare_passes P _ _ (fun _ => p)); [done|intros; by apply HP|done|].
  intros. by apply expect_holds.
Qed.
Lemma address_passes P r d :
  keeps P -> (forall j, (j < words r)%nat -> P (u32 (addr r j))) ->
  exists d', address_fault_test r d = (MEM_TEST_OK, d').
Proof.
  intros Hk HP. unfold address_fault_test.
  apply (fill_compare_passes P _ _ (fun j => u32 (addr r j))); [done|done|done|]. intros. by apply expect_holds.
Qed.

(** The two-word steps of the checkerboard. *)
Lemma sweep_pairs_put P v w n a d :
  keeps P -> P v -> P w ->
  exists d', sweep 2 (put_pair v w) n a d = (MEM_TEST_OK, d') /\
    board (fun i => if Nat.even i then v else w) (2 * n) a d'.
Proof.
  intros Hk Hv Hw.
  destruct (sweep_inv 2 (put_pair v w) n a
    (fun j => board (fun i => if Nat.even i then v else w) (2 * j) a) d) as (d' & Hs & Hd'); [| |by exists d'].
  - intros j e Hj HI. eexists. split; [reflexivity|]. intros i Hi.
    replace (a + 4 * 2 * Z.of_nat j + 4) with (a + 4 * Z.of_nat (2 * j + 1)) by lia.
    replace (a + 4 * 2 * Z.of_nat j) with (a + 4 * Z.of_nat (2 * j)) by lia.
    destruct (decide (i = 2 * j + 1)%nat) as [->|Hn1].
    { rewrite (k_same P Hk) by done. by rewrite Nat.even_add, Nat.even_mul. }
    rewrite (k_other P Hk) by lia. destruct (decide (i = 2 * j)%nat) as [->|Hn2].
    { rewrite (k_same P Hk) by done. by rewrite Nat.even_mul. }
    rewrite (k_other P Hk) by lia. apply HI. lia.
  - intros i Hi. lia.
Qed.
Lemma sweep_pairs_read v w n a d :
  board (fun i => if Nat.even i then v else w) (2 * n) a d ->
  sweep 2 (expect_pair v w) n a d = (MEM_TEST_OK, d).
Proof.
  intros Hb. destruct (sweep_inv 2 (expect_pair v w) n a (fun _ d' => d' = d) d) as (d' & Hs & ->); [|done|done].
  intros j e Hj ->. exists d. split; [|done]. unfold expect_pair.
  pose proof (Hb (2 * j)%nat ltac:(lia)) as H0. pose proof (Hb (2 * j + 1)%nat ltac:(lia)) as H1.
  cbv beta in H0, H1. rewrite Nat.even_mul in H0. rewrite Nat.even_add, Nat.even_mul in H1. simpl in H0, H1.
  rewrite expect_holds; [cbn [andThen]; apply expect_holds|]; etrans; [|exact H1| |exact H0]; f_equal; lia.
Qed.
Lemma checkerboard_passes P r d :
  keeps P -> P 0x55555555 -> P 0xAAAAAAAA -> exists d', checkerboard_test r d = (MEM_TEST_OK, d').
Proof.
  intros Hk H5 HA. unfold checkerboard_test, each_pair.
  destruct (sweep_pairs_put P 0x55555555 0xAAAAAAAA ((words r + 1) / 2) (start_address r) d) as (d1 & -> & Hd1); [done..|].
  cbn [andThen]. rewrite sweep_pairs_read by done. cbn [andThen].
  destruct (sweep_pairs_put P 0xAAAAAAAA 0x55555555 ((words r + 1) / 2) (start_address r) d1) as (d2 & -> & Hd2); [done..|].
  cbn [andThen]. exists d2. by apply sweep_pairs_read.
Qed.
End sweeps.

(** ** Devices *)

(** Fault-free memory. *)
Record Ram := mkRam { cell : Z -> Z }.
#[export] Instance Ram_device : MemDevice Ram := {|
  rd d a := cell d a;
  wr d a v := mkRam (fun b => if b =? a then v else cell d b);
  rd8 d a := Z.land (Z.shiftr (cell d (a - a mod 4)) (8 * (a mod 4))) 0xFF |}.
Lemma Ram_keeps : keeps (D := Ram) (fun _ => True).
Proof. split; intros; cbn; [by rewrite Z.eqb_refl|]. by rewrite (proj2 (Z.eqb_neq _ _)). Qed.

(** Memory whose bit 31 reads as 1. *)
Record High31 := mkHigh { hcell : Z -> Z }.
#[export] Instance High31_device : MemDevice High31 := {|
  rd d a := Z.lor (hcell d a) (2 ^ 31);
  wr d a v := mkHigh (fun b => if b =? a then v else hcell d b);
  rd8 d a := Z.land (Z.shiftr (hcell d (a - a mod 4)) (8 * (a mod 4))) 0xFF |}.
Definition has_31 (v : Z) : Prop := Z.lor v (2 ^ 31) = v.
Lemma High31_keeps : keeps (D := High31) has_31.
Proof.
  split; intros; cbn; [by rewrite Z.eqb_refl|]. by rewrite (proj2 (Z.eqb_neq _ _)).
Qed.

(** Memory behind an address decoder [f]. *)
Record Decoded (f : Z -> Z) := mkDecoded { dcell : Z -> Z }.
Arguments mkDecoded {f}. Arguments dcell {f}.
#[export] Instance Decoded_device f : MemDevice (Decoded f) := {|
  rd d a := dcell d (f a);
  wr d a v := mkDecoded (fun b => if b =? f a then v else dcell d b);
  rd8 d a := Z.land (Z.shiftr (dcell d (f (a - a mod 4))) (8 * (a mod 4))) 0xFF |}.

(** ** Properties *)

(** The walking-zero test does not test bit 31: [~(1 << bit)] is computed with the
    number of the round that has just ended, so the zero visits bit 0 twice and never
    bit 31, and memory whose bit 31 is stuck at 1 passes. *)
Theorem walking_0_misses_bit_31 r (d : High31) :
  exists d', walking_0_test r d = (MEM_TEST_OK, d').
Proof. apply (walking_passes has_31); [apply High31_keeps|]. by repeat (constructor; [done|]). Qed.

Lemma patterns_1_elem k : (k < 32)%nat -> 2 ^ Z.of_nat k ∈ patterns_1 32 1.
Proof.
  intros Hk. change (patterns_1 32 1) with ((fun i => 2 ^ Z.of_nat i) <$> seq 0 32).
  apply list_elem_of_fmap. exists k. split; [done|]. apply elem_of_seq. lia.
Qed.

Section detection.
Context {D : Type} `{MemDevice D}.

(** Bit [k] of word [a] reads as [b] in every state of the memory. *)
Definition stuck (a : Z) (k : nat) (b : bool) : Prop := forall d : D, Z.testbit (rd d a) (Z.of_nat k) = b.

(** C18. A stuck bit is found: when some bit of some word of the region always reads the
    same, whatever the rest of the memory does, both the march test and the walking-one
    test fail. *)
Theorem stuck_bit_detected r j k b (d : D) :
  stuck (addr r j) k b -> (j < words r)%nat -> (k < 32)%nat ->
  (march_c_test r d).1 <> MEM_TEST_OK /\ (walking_1_test r d).1 <> MEM_TEST_OK.
Proof.
  intros Hst Hj Hk. split.
  - destruct (march_c_test r d) as [e d'] eqn:Hm. simpl. intros ->.
    destruct (march_c_seen r d d' j Hm Hj) as [[d1 H1] [d2 H2]].
    pose proof (Hst d1) as Hb1. pose proof (Hst d2) as Hb2. rewrite H1 in Hb1. rewrite H2 in Hb2.
    rewrite Z.bits_0 in Hb1. change 0xFFFFFFFF with (Z.ones 32) in Hb2.
    rewrite Z.ones_spec_low in Hb2 by lia. congruence.
  - destruct (walking_1_test r d) as [e d'] eqn:Hm. simpl. intros ->. unfold walking_1_test in Hm.
    assert (Hother : exists k', (k' < 32)%nat /\ k' <> k) by (exists (if decide (k = 0)%nat then 1 else 0)%nat; case_decide; lia).
    destruct Hother as (k' & Hk' & Hne).
    destruct (rounds_seen r _ d d' j _ Hm Hj (patterns_1_elem k Hk)) as [d1 H1].
    destruct (rounds_seen r _ d d' j _ Hm Hj (patterns_1_elem k' Hk')) as [d2 H2].
    pose proof (Hst d1) as Hb1. pose proof (Hst d2) as Hb2. rewrite H1 in Hb1. rewrite H2 in Hb2.
    rewrite Z.pow2_bits_true in Hb1 by lia. rewrite Z.pow2_bits_false in Hb2 by lia. congruence.
Qed.
End detection.

Definition region8 : MemoryRegionConfig := mkRegion 0x1000 32 MEM_REGION_RAM false true true.
Lemma stuck_bit_detected_witness :
  (march_c_test region8 (mkHigh (fun _ => 0))).1 <> MEM_TEST_OK /\
  (walking_1_test region8 (mkHigh (fun _ => 0))).1 <> MEM_TEST_OK.
Proof.
  apply (stuck_bit_detected region8 3 31 true); [|vm_compute; lia|lia].
  intros d. cbn. rewrite Z.lor_spec. change (2147483648) with (2 ^ 31). rewrite Z.pow2_bits_true by lia. apply orb_true_r.
Defined.

(** The write sweep of the address test behind a decoder: a word reads as the address of
    the last word of the sweep that the decoder sends to the same cell. *)
Lemma address_sweep f n a (d : Decoded f) :
  exists d', sweep 1 (fun a => put (u32 a) a) n a d = (MEM_TEST_OK, d') /\
    forall i, (i < n)%nat -> exists k, (i <= k < n)%nat /\
      f (a + 4 * Z.of_nat k) = f (a + 4 * Z.of_nat i) /\ rd d' (a + 4 * Z.of_nat i) = u32 (a + 4 * Z.of_nat k) /\
      forall k', (k < k' < n)%nat -> f (a + 4 * Z.of_nat k') <> f (a + 4 * Z.of_nat i).
Proof.
  destruct (sweep_inv 1 (fun a => put (u32 a) a) n a (fun m (d' : Decoded f) =>
    forall i, (i < m)%nat -> exists k, (i <= k < m)%nat /\
      f (a + 4 * Z.of_nat k) = f (a + 4 * Z.of_nat i) /\ rd d' (a + 4 * Z.of_nat i) = u32 (a + 4 * Z.of_nat k) /\
      forall k', (k < k' < m)%nat -> f (a + 4 * Z.of_nat k') <> f (a + 4 * Z.of_nat i)) d)
    as (d' & Hs & Hd'); [|lia|by exists d'].
  intros j e Hj HI. eexists. split; [reflexivity|]. rewrite Z.mul_1_r. intros i Hi.
  destruct (decide (f (a + 4 * Z.of_nat j) = f (a + 4 * Z.of_nat i))) as [He|He].
  - exists j. split_and!; [lia|lia|done| |lia]. cbn. by rewrite He, Z.eqb_refl.
  - destruct (decide (i = j)) as [->|Hij]; [done|].
    destruct (HI i) as (k & Hk & Hf & Hr & Hl); [lia|]. exists k. split_and!; [lia|lia|done| |].
    + cbn in *. rewrite (proj2 (Z.eqb_neq _ _)) by congruence. done.
    + intros k' Hk'. destruct (decide (k' = j)) as [->|]; [done|]. apply Hl. lia.
Qed.

(** The address test is exact for decoder faults: behind any address decoder, and
    for a region below the end of the address space, it passes exactly when the decoder
    sends different words of the region to different cells. *)
Theorem address_test_exact f r (d : Decoded f) :
  0 <= start_address r -> start_address r + 4 * Z.of_nat (words r) <= 2 ^ 32 ->
  (address_fault_test r d).1 = MEM_TEST_OK <->
  forall i j, (i < words r)%nat -> (j < words r)%nat -> f (addr r i) = f (addr r j) -> i = j.
Proof.
  intros H0 Hend. unfold address_fault_test, each.
  destruct (address_sweep f (words r) (start_address r) d) as (d1 & -> & Hd1). cbn [andThen]. fold (addr r) in *.
  assert (Hu : forall i, (i < words r)%nat -> u32 (addr r i) = addr r i).
  { intros i Hi. apply u32_small. unfold is_u32, addr. lia. }
  split.
  - intros Hok. destruct (sweep 1 _ _ _ d1) as [e d2] eqn:Hs. simpl in Hok. subst e.
    (* every word was found as its own address when it was checked, and checking does not write *)
    assert (Hread : forall i, (i < words r)%nat -> rd d1 (addr r i) = u32 (addr r i)).
    { intros i Hi. by apply (expect_sweep_seen MEM_TEST_FAILED_ADDRESS u32 (words r) _ d1 d2). }
    assert (Hlast : forall i j, (i < j < words r)%nat -> f (addr r i) <> f (addr r j)).
    { intros i j Hij He. destruct (Hd1 i) as (k & Hk & Hf & Hr & Hl); [lia|].
      change (rd d1 (addr r i) = u32 (addr r k)) in Hr. rewrite Hread, !Hu in Hr by lia.
      assert (k = i) as -> by (unfold addr in Hr; lia). apply (Hl j); [lia|]. by symmetry. }
    intros i j Hi Hj He. destruct (lt_eq_lt_dec i j) as [[Hlt|Heq]|Hgt]; [|done|]; exfalso.
    + by apply (Hlast i j).
    + symmetry in He. revert He. by apply Hlast.
  - intros Hinj. rewrite sweep_read; [done|]. intros j Hj. apply expect_holds.
    destruct (Hd1 j Hj) as (k & Hk & Hf & Hr & _). rewrite Hr.
    by rewrite (Hinj k j) by (lia || done).
Qed.
Lemma address_test_exact_witness :
  (address_fault_test region8 (mkDecoded (f := fun a => Z.land a 0xFFF7) (fun _ => 0))).1 = MEM_TEST_OK <->
  forall i j, (i < words region8)%nat -> (j < words region8)%nat ->
    Z.land (addr region8 i) 0xFFF7 = Z.land (addr region8 j) 0xFFF7 -> i = j.
Proof. apply (address_test_exact (fun a => Z.land a 0xFFF7) region8); vm_compute; congruence. Defined.

(** In a region of an odd number of words the checkerboard test overwrites the word
    behind the region, with [0x55555555] when it ends. *)
Theorem odd_checkerboard_overruns r (d : Ram) :
  Nat.odd (words r) = true ->
  exists d', checkerboard_test r d = (MEM_TEST_OK, d') /\ rd d' (addr r (words r)) = 0x55555555.
Proof.
  intros Ho. apply Nat.odd_spec in Ho as [n Hn]. unfold checkerboard_test, each_pair.
  replace ((words r + 1) / 2)%nat with (S n) by (rewrite Hn; replace (2 * n + 1 + 1)%nat with ((S n) * 2)%nat by lia; by rewrite Nat.div_mul).
  destruct (sweep_pairs_put (fun _ => True) 0x55555555 0xAAAAAAAA (S n) (start_address r) d) as (d1 & -> & Hd1);
    [apply Ram_keeps|done..|].
  cbn [andThen]. rewrite sweep_pairs_read by done. cbn [andThen].
  destruct (sweep_pairs_put (fun _ => True) 0xAAAAAAAA 0x55555555 (S n) (start_address r) d1) as (d2 & -> & Hd2);
    [apply Ram_keeps|done..|].
  cbn [andThen]. exists d2. rewrite sweep_pairs_read by done. split; [done|].
  unfold addr. rewrite Hd2 by lia. by rewrite Hn, Nat.even_add, Nat.even_mul.
Qed.
Lemma odd_checkerboard_overruns_witness :
  exists d', checkerboard_test (mkRegion 0 12 MEM_REGION_RAM false true true) (mkRam (fun _ => 7)) = (MEM_TEST_OK, d') /\
    rd d' 12 = 0x55555555.
Proof. apply (odd_checkerboard_overruns (mkRegion 0 12 MEM_REGION_RAM false true true) (mkRam (fun _ => 7))). reflexivity. Defined.

(** ** The service on fault-free memory, and its rounds *)

Section service_lemmas.
Context {D : Type} `{MemDevice D}.
Implicit Types (s : MemoryTest D).

(** A configuration the service does not read past: the arrays are as long as the counts say. *)
Record mt_ok (s : MemoryTest D) : Prop := mkMtOk {
  ok_init : mt_initialized s = true;
  ok_regions : forall i, 0 <= i < region_count (mt_config s) ->
    exists r, regions (mt_config s) ≫= (.!! Z.to_nat i) = Some r;
  ok_results : exists l, last_results s = Some l /\ length l = Z.to_nat (region_count (mt_config s));
  ok_patterns : 0 <= pattern_count (mt_config s) <=
    Z.of_nat (length (match test_patterns (mt_config s) with Some p => p | None => DEFAULT_PATTERNS end));
  ok_default : pattern_count (mt_config s) = 0 -> test_patterns (mt_config s) = None }.

Lemma ram_pattern_defined s r d :
  mt_ok s -> exists n p, ram_pattern_test (mt_config s) r d =
    Some (rounds_of (pattern_round r) (take n p) d) /\
    p = match test_patterns (mt_config s) with Some p => p | None => DEFAULT_PATTERNS end.
Proof.
  intros Hs. pose proof (ok_patterns s Hs). pose proof (ok_default s Hs) as Hdf. unfold ram_pattern_test.
  set (p := match test_patterns (mt_config s) with Some p => p | None => DEFAULT_PATTERNS end) in *.
  set (n := if pattern_count (mt_config s) =? 0 then _ else _).
  assert (Hn : (n <= length p)%nat).
  { unfold n. destruct (_ =? 0) eqn:E; tests; [|lia]. unfold p. by rewrite Hdf. }
  exists n, p. split; [|done]. destruct (rounds_of _ _ d) as [e d'].
  rewrite (proj2 (Nat.ltb_ge _ _)), andb_false_r by done. done.
Qed.

(** What test [t] does to the memory of [s]. *)
Definition test_effect (t : MemoryTestType) (r : MemoryRegionConfig) (s : MemoryTest D) (d : D)
  : option (MemoryTestResult * D) :=
  match t with
  | MEM_TEST_MARCH_C => Some (march_c_test r d)
  | MEM_TEST_CHECKERBOARD => Some (checkerboard_test r d)
  | MEM_TEST_WALKING_1 => Some (walking_1_test r d)
  | MEM_TEST_WALKING_0 => Some (walking_0_test r d)
  | MEM_TEST_ADDRESS_FAULT => Some (address_fault_test r d)
  | MEM_TEST_FLASH_CRC => flash_crc_test (crc_unit s) r d
  | MEM_TEST_RAM_PATTERN => ram_pattern_test (mt_config s) r d
  end.
Lemma wp_run_test t r s m e d (Q : MemoryTestResult -> MemoryTest D -> Machine -> Prop) :
  test_effect t r s (memory s) = Some (e, d) -> Q e (s <| memory := d |>) m -> wp (run_test t r) Q s m.
Proof. intros Ht HQ. unfold run_test, on_memory. do 2 wp_step. unfold test_effect in Ht. rewrite Ht. by do 2 wp_step. Qed.

Lemma tests_pass P r s t d :
  keeps (D := D) P -> (forall v, P v) -> mt_ok s -> t <> MEM_TEST_FLASH_CRC ->
  exists d', test_effect t r s d = Some (MEM_TEST_OK, d').
Proof.
  intros Hk HP Hs Ht. unfold test_effect. destruct t; try done.
  - destruct (march_c_passes P r d Hk) as (d' & ->); eauto.
  - destruct (checkerboard_passes P r d Hk) as (d' & ->); eauto.
  - destruct (walking_passes P r (patterns_1 32 1) d Hk) as (d' & Hw); [by apply Forall_true|].
    exists d'. unfold walking_1_test. by rewrite Hw.
  - destruct (walking_passes P r (patterns_0 32 0 0xFFFFFFFE) d Hk) as (d' & Hw); [by apply Forall_true|].
    exists d'. unfold walking_0_test. by rewrite Hw.
  - destruct (address_passes P r d Hk) as (d' & ->); eauto.
  - destruct (ram_pattern_defined s r d Hs) as (n & p & -> & _).
    destruct (pattern_passes P r (take n p) d Hk) as (d' & ->); [by apply Forall_true|eauto].
Qed.

(** Memory that keeps every value passes the tests of a region that has no checksum. *)
Lemma verify_tests_pass P r l s m :
  keeps (D := D) P -> (forall v, P v) -> mt_ok s -> MEM_TEST_FLASH_CRC ∉ l ->
  wp (verify_tests l r) (fun b s' m' => b = true /\ m' = m /\ exists d, s' = s <| memory := d |>) s m.
Proof.
  intros Hk HP. revert s. induction l as [|t l IH]; intros s Hs Hl; cbn [verify_tests].
  - apply wp_ret. split_and!; [done..|]. exists (memory s). by destruct s.
  - apply not_elem_of_cons in Hl as [Ht Hl].
    destruct (tests_pass P r s t (memory s) Hk HP Hs) as (d' & Hd); [by intros ->|].
    apply wp_bind. eapply wp_run_test; [exact Hd|]. rewrite bool_decide_true by done.
    eapply wp_mono; [apply (IH (s <| memory := d' |>)); [destruct Hs; split; done|done]|].
    intros b s' m' (-> & -> & d & ->). split_and!; [done..|]. by exists d.
Qed.
End service_lemmas.

(** Fault-free memory passes: [Memory_Test_VerifyRegion] of a configured region of RAM
    or EEPROM returns true, writes no failed address, and restores the interrupt mask. *)
Theorem healthy_memory_passes i r (s : MemoryTest Ram) m :
  mt_ok s -> 0 <= i < region_count (mt_config s) ->
  regions (mt_config s) ≫= (.!! Z.to_nat i) = Some r ->
  region_type r <> MEM_REGION_FLASH -> region_type r <> MEM_REGION_ROM ->
  wp (Memory_Test_VerifyRegion i true) (fun v s' m' => v = (true, None) /\ primask m' = primask m /\
    total_errors s' = total_errors s) s m.
Proof.
  intros Hs Hi Hr Hf Ho. unfold Memory_Test_VerifyRegion. do 2 wp_step.
  rewrite (ok_init s Hs), (proj2 (Z.leb_gt _ _)) by lia. cbn [negb orb].
  unfold region_at. do 3 wp_step. rewrite Hr. do 4 wp_step.
  eapply wp_mono; [apply (verify_tests_pass (fun _ => True) r (tests_for r)); [apply Ram_keeps|done| |]|].
  { destruct Hs; split; done. }
  { unfold tests_for. rewrite !bool_decide_false by done. cbn [orb app]. case_bool_decide; set_solver. }
  intros b s' m' (-> & -> & d & ->). apply wp_bind. eapply (wp_exit (primask m)); [done..|]. by apply wp_ret.
Qed.
Definition ram_service : MemoryTest Ram :=
  mkMt (mkMtConfig (Some [region8]) 1 1000 0 None true) 0 (Some [MEM_TEST_OK]) (mkTimer 0 1000 true) 0 0 true cs_zero
    (mkRam (fun _ => 0)) crc_state_boot.
Lemma ram_service_ok : mt_ok ram_service.
Proof.
  split; try done.
  - intros i Hi. assert (i = 0) as -> by (cbn in Hi; lia). by exists region8.
  - by exists [MEM_TEST_OK].
Qed.
Lemma healthy_memory_passes_witness :
  wp (Memory_Test_VerifyRegion 0 true) (fun v s' m' => v = (true, None) /\ primask m' = primask boot /\
    total_errors s' = total_errors ram_service) ram_service boot.
Proof. apply (healthy_memory_passes 0 region8 ram_service boot); try done. apply ram_service_ok. Defined.

(** *** Background rounds *)

Section rounds.
Context {D : Type} `{MemDevice D}.
Implicit Types (s : MemoryTest D).

(** Where the background test stands: seven tests per region, in order. *)
Definition position s : Z := 7 * current_region s + current_pattern s.
Definition cycle s : Z := 7 * region_count (mt_config s).
(** A service whose regions have no checksum, standing at one of its positions. *)
Record standing s : Prop := mkStanding {
  st_ok : mt_ok s;
  st_region : 0 <= current_region s < region_count (mt_config s);
  st_pattern : 0 <= current_pattern s <= 6;
  st_ram : forall i r, regions (mt_config s) ≫= (.!! i) = Some r ->
    region_type r <> MEM_REGION_FLASH /\ region_type r <> MEM_REGION_ROM }.

Lemma next_position_spec s m :
  standing s ->
  wp next_position (fun _ s' m' => m' = m /\
    current_region s' = (position s + 1) mod cycle s / 7 /\ current_pattern s' = (position s + 1) mod cycle s mod 7 /\
    s' = s <| current_region := current_region s' |> <| current_pattern := current_pattern s' |>) s m.
Proof.
  intros [_ Hr Hp _]. unfold next_position, position, cycle. do 3 wp_step.
  set (n := region_count (mt_config s)) in *.
  assert (Hsmall : forall a b, 0 <= a -> 0 <= b < 7 -> (7 * a + b) / 7 = a /\ (7 * a + b) mod 7 = b).
  { intros a b Ha Hb. split.
    - symmetry. apply (Z.div_unique _ 7 a b); lia.
    - symmetry. apply (Z.mod_unique _ 7 a b); lia. }
  wp_step. destruct (6 <? current_pattern s + 1) eqn:E; tests.
  - do 4 wp_step. fold n. wp_step; tests.
    + wp_step. replace (7 * current_region s + current_pattern s + 1) with (0 + 1 * (7 * n)) by lia.
      rewrite Z.mod_add, Z.mod_0_l by lia. by destruct s.
    + wp_step. replace (7 * current_region s + current_pattern s + 1) with (7 * (current_region s + 1) + 0) by lia.
      rewrite (Z.mod_small (7 * (current_region s + 1) + 0)) by lia.
      destruct (Hsmall (current_region s + 1) 0) as [-> ->]; [lia..|]. by destruct s.
  - wp_step. rewrite (Z.mod_small (7 * current_region s + current_pattern s + 1)) by lia.
    rewrite <- Z.add_assoc. destruct (Hsmall (current_region s) (current_pattern s + 1)) as [-> ->]; [lia..|]. by destruct s.
Qed.

(** What a background test and its bookkeeping leave alone. *)
Definition same_place s s' : Prop :=
  current_region s' = current_region s /\ current_pattern s' = current_pattern s /\
  mt_config s' = mt_config s /\ mt_critical s' = mt_critical s /\ standing s'.

Lemma background_spec s m r :
  standing s -> regions (mt_config s) ≫= (.!! Z.to_nat (current_region s)) = Some r ->
  wp (result ← background_test (current_pattern s) r;
      record_failure (current_pattern s) (current_region s) result r)
    (fun _ s' m' => same_place s s' /\ primask m' = primask m /\ system_ticks m' = system_ticks m) s m.
Proof.
  intros Hs Hr. apply wp_bind.
  assert (Hmem : forall d, same_place s (s <| memory := d |>)).
  { intros d. split_and!; [done..|]. destruct Hs as [[] ? ? ?]. split; [split|..]; done. }
  assert (Hself : same_place s s) by (destruct Hs; split_and!; done).
  assert (Hrec : forall e s' m', same_place s s' -> primask m' = primask m -> system_ticks m' = system_ticks m ->
    wp (record_failure (current_pattern s) (current_region s) e r)
      (fun _ s' m' => same_place s s' /\ primask m' = primask m /\ system_ticks m' = system_ticks m) s' m').
  { intros e s' m' (Hcr & Hcp & Hcf & Hc & Hs') Hpm Ht. unfold record_failure.
    case_bool_decide; [by apply wp_ret|]. do 4 wp_step.
    destruct (ok_results _ (st_ok _ Hs')) as (l & Hl & Hlen). pose proof (st_region _ Hs').
    rewrite Hl. apply wp_bind. rewrite (proj2 (Nat.ltb_lt _ _)) by lia. apply wp_modify, wp_callback.
    split; [|done]. split_and!; [done..|]. destruct Hs' as [[] ? ? ?]. split; [split|..]; try done.
    exists (<[Z.to_nat (current_region s) := e]> l). by rewrite length_insert. }
  assert (Hrun : forall t, t <> MEM_TEST_FLASH_CRC ->
    wp (run_test t r) (fun e s' m' => wp (record_failure (current_pattern s) (current_region s) e r)
      (fun _ s' m' => same_place s s' /\ primask m' = primask m /\ system_ticks m' = system_ticks m) s' m') s m).
  { intros t Ht. destruct (ram_pattern_defined s r (memory s) (st_ok _ Hs)) as (n & p & Hrp & _).
    destruct (test_effect t r s (memory s)) as [[e d]|] eqn:He.
    - eapply wp_run_test; [exact He|]. by apply Hrec.
    - exfalso. unfold test_effect in He. destruct t; try done. by rewrite Hrp in He. }
  destruct (st_ram _ Hs _ _ Hr) as [Hf Ho]. unfold background_test.
  rewrite (bool_decide_false (region_type r = MEM_REGION_FLASH)), (bool_decide_false (region_type r = MEM_REGION_ROM)) by done.
  cbn [orb]. repeat case_match; try (by apply Hrun); apply wp_ret; by apply Hrec.
Qed.

Definition round_due s (m : Machine) : bool :=
  running (test_timer s) && (timeout (test_timer s) <=? u32 (system_ticks m - start_time (test_timer s))).

Lemma mt_process_spec s m :
  standing s ->
  wp Memory_Test_Process (fun _ s' m' =>
    standing s' /\ mt_config s' = mt_config s /\ primask m' = primask m /\ system_ticks m' = system_ticks m /\
    position s' = (if round_due s m then (position s + 1) mod cycle s else position s) /\
    (round_due s m = true -> test_timer s' = mkTimer (system_ticks m) (test_interval_ms (mt_config s)) true)) s m.
Proof.
  intros Hs. unfold Memory_Test_Process. do 2 wp_step. rewrite (ok_init _ (st_ok _ Hs)). cbn [negb].
  do 4 wp_step. fold (round_due s m). wp_step. destruct (round_due s m) eqn:Hd.
  2: { wp_step. eapply (wp_exit (primask m)); [done..|]. split_and!; try done.
       destruct Hs as [[] ? ? ?]. split; [split|..]; done. }
  do 3 wp_step. set (s1 := set_crit (mkCS (Z.b2z (primask m)) true) s).
  assert (Hs1 : standing s1) by (destruct Hs as [[] ? ? ?]; split; [split|..]; done).
  destruct (ok_regions _ (st_ok _ Hs) (current_region s) (st_region _ Hs)) as (r & Hr).
  unfold region_at. do 2 wp_step. change (regions _ ≫= _) with (regions (mt_config s) ≫= (.!! Z.to_nat (current_region s))).
  rewrite Hr. wp_step. apply wp_bind.
  apply wp_mono with (Q := fun _ s2 m2 => same_place s1 s2 /\ primask m2 = true /\ system_ticks m2 = system_ticks m).
  { destruct (run_background_test r).
    { eapply wp_mono; [by apply (background_spec s1)|]. by cbn. }
    apply wp_ret. split; [|done]. destruct Hs1; split_and!; done. }
  intros _ s2 m2 ((Hcr & Hcp & Hcf & Hc & Hs2) & Hp & Ht).
  apply wp_bind. eapply wp_mono; [by apply next_position_spec|]. intros _ s3 m3 (-> & H3r & H3p & H3).
  do 3 wp_step. assert (Hc3 : mt_critical s3 = mkCS (Z.b2z (primask m)) true /\ mt_config s3 = mt_config s).
  { rewrite H3. cbn. rewrite Hc, Hcf. done. }
  eapply (wp_exit (primask m)); [apply Hc3|done|]. cbn.
  assert (Hpos : position s2 = position s /\ cycle s2 = cycle s).
  { unfold position, cycle. by rewrite Hcr, Hcp, Hcf. }
  destruct Hpos as [Hpos Hcy]. rewrite Hpos, Hcy in *. destruct Hc3 as [_ Hc3].
  pose proof (st_region _ Hs). assert (0 < cycle s) by (unfold cycle; lia).
  set (q := (position s + 1) mod cycle s) in *.
  assert (0 <= q < cycle s) by (apply Z.mod_pos_bound; lia).
  assert (0 <= q mod 7 < 7) by (apply Z.mod_pos_bound; lia). pose proof (Z.div_mod q 7).
  split_and!; [|done..| |intros _; by rewrite Hc3, Ht].
  - assert (Hok3 : mt_ok s3) by (rewrite H3; destruct Hs2 as [[] ? ? ?]; split; done).
    split; cbn; [destruct Hok3; split; done| | |].
    + rewrite H3r, Hc3. split; [apply Z.div_pos; lia|]. apply Z.div_lt_upper_bound; [lia|]. unfold cycle in *. lia.
    + rewrite H3p. lia.
    + rewrite Hc3. apply Hs.
  - unfold position; cbn. rewrite H3r, H3p. lia.
Qed.

(** Rounds [n] ticks apart. *)
Fixpoint mt_rounds (l : list nat) : M (MemoryTest D) unit :=
  match l with
  | [] => mret tt
  | n :: l => (fun s m => Some (tt, s, Nat.iter n SysTick_Handler m));; Memory_Test_Process;; mt_rounds l
  end.

Lemma mt_rounds_spec l : forall s m,
  standing s -> is_u32 (system_ticks m) ->
  test_timer s = mkTimer (system_ticks m) (test_interval_ms (mt_config s)) true ->
  Forall (fun n => test_interval_ms (mt_config s) <= Z.of_nat n < 2 ^ 32) l ->
  wp (mt_rounds l) (fun _ s' _ => standing s' /\ mt_config s' = mt_config s /\
    position s' = (position s + Z.of_nat (length l)) mod cycle s) s m.
Proof.
  induction l as [|n l IH]; intros s m Hs Hu Ht Hl; cbn [mt_rounds].
  - apply wp_ret. split_and!; [done..|]. pose proof (st_region _ Hs). pose proof (st_pattern _ Hs).
    rewrite Z.mod_small; [cbn; lia|]. unfold position, cycle. cbn. lia.
  - apply Forall_cons in Hl as [Hn Hl]. apply wp_bind. unfold wp at 1. apply wp_bind.
    set (m1 := Nat.iter n SysTick_Handler m).
    assert (Htk : system_ticks m1 = u32 (system_ticks m + Z.of_nat n)) by by apply ticks_after.
    eapply wp_mono; [by apply mt_process_spec|]. intros _ s1 m2 (Hs1 & Hcf & _ & Ht2 & Hpos & Htm).
    assert (Hdue : round_due s m1 = true).
    { unfold round_due. rewrite Ht. cbn [running timeout start_time andb]. rewrite Htk, u32_elapsed by lia.
      apply Z.leb_le. lia. }
    rewrite Hdue in Hpos. specialize (Htm Hdue).
    eapply wp_mono; [apply (IH s1 m2 Hs1)|].
    + rewrite Ht2, Htk. auto with cant.
    + by rewrite Htm, Ht2, Hcf.
    + by rewrite Hcf.
    + intros _ s2 m3 (Hs2 & Hcf2 & Hpos2). split_and!; [done|congruence|].
      assert (Hcy : cycle s1 = cycle s) by (unfold cycle; by rewrite Hcf).
      rewrite Hpos2, Hpos, Hcy, Zplus_mod_idemp_l. f_equal. cbn [length]. lia.
Qed.
End rounds.

(** The background test is fair: in every round an interval or more after the one
    before, it moves on to the next of the seven tests, then to the next region, so that
    after [7 * region_count] rounds every test of every region has had its turn and the
    service stands where it started; errors found on the way do not stop it. *)
Theorem background_round_robin {D} `{MemDevice D} (s : MemoryTest D) m l :
  standing s -> is_u32 (system_ticks m) ->
  test_timer s = mkTimer (system_ticks m) (test_interval_ms (mt_config s)) true ->
  Forall (fun n => test_interval_ms (mt_config s) <= Z.of_nat n < 2 ^ 32) l ->
  wp (mt_rounds l) (fun _ s' _ =>
    position s' = (position s + Z.of_nat (length l)) mod cycle s /\
    (Z.of_nat (length l) = cycle s -> position s' = position s)) s m.
Proof.
  intros Hs Hu Ht Hl. eapply wp_mono; [by apply mt_rounds_spec|]. intros _ s' m' (_ & _ & Hp).
  split; [done|]. intros Hc. rewrite Hp, Hc. replace (position s + cycle s) with (position s + 1 * cycle s) by lia.
  pose proof (st_region _ Hs). pose proof (st_pattern _ Hs).
  rewrite Z.mod_add by (unfold cycle; lia). apply Z.mod_small. unfold position, cycle. lia.
Qed.
Lemma background_round_robin_witness :
  wp (mt_rounds [1000; 1500; 1000]%nat) (fun _ s' _ =>
    position s' = (0 + 3) mod 7 /\ (3 = 7 -> position s' = 0)) ram_service boot.
Proof.
  apply (background_round_robin ram_service boot [1000; 1500; 1000]%nat); try done.
  - split; try done; [apply ram_service_ok|]. intros [|i] r Hr; cbn in Hr; [by simplify_eq|done].
  - repeat constructor; vm_compute; congruence.
Defined.
