(* ===== verification/SafetyData.v ===== *)
(** * Protected data

    [safety/safety_data.c]: up to 64 variables of the application with a range check on
    writing and a checksum, a copy or an inverted copy to find corruption on reading.

    [memory] is the application's memory ([Memory.v]).  Floating-point numbers are the Standard Library's
    [spec_float], converted and compared as IEEE 754 single precision; the layout is little
    endian.  The checksum is [Crc.calculate_crc32] in the state [crc_state].  [level],
    [tolerance] and [enable_logging] are read by nothing and left out. *)

From S2P Require Import Prelude Machine Memory Crc.
From Stdlib Require Import SpecFloat.

Definition MAX_SAFETY_DATA : nat := 64.

Inductive SafetyDataType :=
  SAFETY_DATA_INT8 | SAFETY_DATA_INT16 | SAFETY_DATA_INT32 | SAFETY_DATA_UINT8 | SAFETY_DATA_UINT16 | SAFETY_DATA_UINT32
| SAFETY_DATA_FLOAT | SAFETY_DATA_DOUBLE | SAFETY_DATA_BOOL | SAFETY_DATA_CUSTOM.
Inductive ProtectionMethod :=
  PROTECTION_CRC | PROTECTION_REDUNDANT | PROTECTION_INVERSE | PROTECTION_CHECKSUM | PROTECTION_E2E.
#[export] Instance ProtectionMethod_eq_dec : EqDecision ProtectionMethod.
Proof. solve_decision. Defined.

(** Pointers are addresses, 0 for NULL; the callback is whether it is registered. *)
Record SafetyDataConfig := mkSafetyConfig {
  data_ptr : Z; redundant_ptr : Z; data_size : nat; type : SafetyDataType; protection : ProtectionMethod;
  min_value : spec_float; max_value : spec_float; default_value : spec_float; validation_callback : bool }.
Record SafetyDataInstance := mkInstance {
  sd_config : SafetyDataConfig; sd_crc : Z; error_count : Z; valid : bool; sd_ready : bool }.
#[export] Instance eta_SafetyDataInstance : Eta SafetyDataInstance := fun x =>
  mkInstance (sd_config x) (sd_crc x) (error_count x) (valid x) (sd_ready x).
Definition config_zero : SafetyDataConfig :=
  mkSafetyConfig 0 0 0 SAFETY_DATA_INT8 PROTECTION_CRC (S754_zero false) (S754_zero false) (S754_zero false) false.
Definition instance_zero : SafetyDataInstance := mkInstance config_zero 0 0 false false.

Record SafetyData := mkSafetyData {
  data : list SafetyDataInstance; data_count : Z; sd_initialized : bool; sd_critical : CriticalSection;
  memory : gmap Z Z; crc_state : CrcState }.
#[export] Instance eta_SafetyData : Eta SafetyData := fun s =>
  mkSafetyData (data s) (data_count s) (sd_initialized s) (sd_critical s) (memory s) (crc_state s).
#[export, refine] Instance SafetyData_critical : HasCritical SafetyData :=
  {| crit := sd_critical; set_crit c s := s <| sd_critical := c |> |}.
Proof. all: by intros; destruct s. Defined.
(** [memset(&safety_data, 0, ...)], the critical section included. *)
Definition sd_clear (s : SafetyData) : SafetyData :=
  mkSafetyData (replicate MAX_SAFETY_DATA instance_zero) 0 false cs_zero (memory s) (crc_state s).

(** ** Memory *)

(** [memcpy], [memcmp == 0] and the loops over inverted bytes. *)
Definition copy_mem (mem : gmap Z Z) (dst src : Z) (n : nat) : option (gmap Z Z) :=
  bs ← read_mem mem src n; write_mem mem dst bs.
Definition compare_mem (mem : gmap Z Z) (a b : Z) (n : nat) : option bool :=
  x ← read_mem mem a n; y ← read_mem mem b n; Some (bool_decide (x = y)).
Definition inverse (b : Z) : Z := u8 (Z.lnot b).
Fixpoint copy_inverse (mem : gmap Z Z) (dst src : Z) (n : nat) : option (gmap Z Z) :=
  match n with
  | O => Some mem
  | S n => b ← mem !! src; mem ← write_byte mem dst (inverse b); copy_inverse mem (dst + 1) (src + 1) n
  end.
Fixpoint compare_inverse (mem : gmap Z Z) (a b : Z) (n : nat) : option bool :=
  match n with
  | O => Some true
  | S n => x ← mem !! a; y ← mem !! b; if Z.lxor x y =? 0xFF then compare_inverse mem (a + 1) (b + 1) n else Some false
  end.

(** ** Numbers *)

Definition signed (n : Z) (z : Z) : Z := if z <? 2 ^ (n - 1) then z else z - 2 ^ n.

(** IEEE formats with [mw] mantissa bits and [ew] exponent bits. *)
Definition sf_of_bits (mw ew : Z) (x : Z) : spec_float :=
  let s := Z.testbit x (mw + ew) in
  let e := (x / 2 ^ mw) mod 2 ^ ew in
  let m := x mod 2 ^ mw in
  let finite m e := match m with Zpos p => S754_finite s p e | _ => S754_zero s end in
  let bias := 2 ^ (ew - 1) - 1 in
  if e =? 0 then finite m (1 - bias - mw)
  else if e =? 2 ^ ew - 1 then (if m =? 0 then S754_infinity s else S754_nan)
  else finite (m + 2 ^ mw) (e - bias - mw).
Definition bits_of_sf (mw ew : Z) (f : spec_float) : Z :=
  let sign s := if s : bool then 2 ^ (mw + ew) else 0 in
  let bias := 2 ^ (ew - 1) - 1 in
  match f with
  | S754_zero s => sign s
  | S754_infinity s => sign s + (2 ^ ew - 1) * 2 ^ mw
  | S754_nan => (2 ^ ew - 1) * 2 ^ mw + 2 ^ (mw - 1)
  | S754_finite s m e =>
      if Zpos m <? 2 ^ mw then sign s + Zpos m else sign s + (e + bias + mw) * 2 ^ mw + (Zpos m - 2 ^ mw)
  end.
(** Rounding to single ([float]) and conversion to double. *)
Definition float_of_Z (z : Z) : spec_float := binary_normalize 24 128 z 0 false.
Definition round_sf (prec emax : Z) (f : spec_float) : spec_float :=
  match f with
  | S754_finite s m e => binary_normalize prec emax (if s then Zneg m else Zpos m) e s
  | f => f
  end.
(** Conversion to an integer cuts the fraction; [None] for infinities, NaN and values out
    of the range of the type, where C leaves it undefined. *)
Definition sf_to_Z (f : spec_float) : option Z :=
  match f with
  | S754_zero _ => Some 0
  | S754_finite s m e =>
      let a := if 0 <=? e then Zpos m * 2 ^ e else Zpos m / 2 ^ (- e) in Some (if s then - a else a)
  | _ => None
  end.
Definition to_int (lo hi : Z) (n : nat) (f : spec_float) : option (list Z) :=
  z ← sf_to_Z f; if (lo <=? z) && (z <=? hi) then Some (le_bytes n z) else None.

Definition type_size (t : SafetyDataType) : nat :=
  match t with
  | SAFETY_DATA_INT8 | SAFETY_DATA_UINT8 | SAFETY_DATA_BOOL => 1
  | SAFETY_DATA_INT16 | SAFETY_DATA_UINT16 => 2
  | SAFETY_DATA_INT32 | SAFETY_DATA_UINT32 | SAFETY_DATA_FLOAT => 4
  | SAFETY_DATA_DOUBLE => 8
  | SAFETY_DATA_CUSTOM => 0
  end.
(** The value as a [float]. *)
Definition float_value (t : SafetyDataType) (bs : list Z) : spec_float :=
  let x := le_value bs in
  match t with
  | SAFETY_DATA_INT8 => float_of_Z (signed 8 x)
  | SAFETY_DATA_INT16 => float_of_Z (signed 16 x)
  | SAFETY_DATA_INT32 => float_of_Z (signed 32 x)
  | SAFETY_DATA_FLOAT => sf_of_bits 23 8 x
  | SAFETY_DATA_DOUBLE => round_sf 24 128 (sf_of_bits 52 11 x)
  | _ => float_of_Z x
  end.
(** [None] when the value is shorter than its type. *)
Definition validate_value_range (c : SafetyDataConfig) (value : list Z) : option bool :=
  match type c with
  | SAFETY_DATA_BOOL => Some true
  | SAFETY_DATA_CUSTOM => Some true
  | t =>
      if (length value <? type_size t)%nat then None else
      let f := float_value t (take (type_size t) value) in
      Some (SFleb (min_value c) f && SFleb f (max_value c))
  end.
(** The bytes of the default value; nothing is stored for a custom type. *)
Definition default_bytes (c : SafetyDataConfig) : option (list Z) :=
  let f := default_value c in
  match type c with
  | SAFETY_DATA_INT8 => to_int (- 2 ^ 7) (2 ^ 7 - 1) 1 f
  | SAFETY_DATA_INT16 => to_int (- 2 ^ 15) (2 ^ 15 - 1) 2 f
  | SAFETY_DATA_INT32 => to_int (- 2 ^ 31) (2 ^ 31 - 1) 4 f
  | SAFETY_DATA_UINT8 => to_int 0 (2 ^ 8 - 1) 1 f
  | SAFETY_DATA_UINT16 => to_int 0 (2 ^ 16 - 1) 2 f
  | SAFETY_DATA_UINT32 => to_int 0 (2 ^ 32 - 1) 4 f
  | SAFETY_DATA_FLOAT => Some (le_bytes 4 (bits_of_sf 23 8 f))
  | SAFETY_DATA_DOUBLE => Some (le_bytes 8 (bits_of_sf 52 11 (round_sf 53 1024 f)))
  | SAFETY_DATA_BOOL => Some [0]
  | SAFETY_DATA_CUSTOM => Some []
  end.

(** ** The functions *)

Definition lift {A} (o : option A) : M SafetyData A := match o with Some a => mret a | None => fault end.
Definition on_memory (f : gmap Z Z -> option (gmap Z Z)) : M SafetyData unit :=
  s ← get; mem ← lift (f (memory s)); modify (fun s => s <| memory := mem |>).
Definition instance_at (i : nat) : M SafetyData SafetyDataInstance := s ← get; lift (data s !! i).
Definition set_instance (i : nat) (f : SafetyDataInstance -> SafetyDataInstance) : M SafetyData unit :=
  modify (fun s => s <| data ::= alter f i |>).
Definition validate_data_id (id : Z) (s : SafetyData) : bool := id <? data_count s.

Definition calculate_data_crc (c : SafetyDataConfig) : M SafetyData Z :=
  if data_ptr c =? 0 then mret 0 else
  s ← get;
  bs ← lift (read_mem (memory s) (data_ptr c) (data_size c));
  lift (calculate_crc32 (crc_state s) (Some bs)).
Definition update_redundant_copy (c : SafetyDataConfig) : M SafetyData unit :=
  if redundant_ptr c =? 0 then mret tt else
  match protection c with
  | PROTECTION_REDUNDANT => on_memory (fun mem => copy_mem mem (redundant_ptr c) (data_ptr c) (data_size c))
  | PROTECTION_INVERSE => on_memory (fun mem => copy_inverse mem (redundant_ptr c) (data_ptr c) (data_size c))
  | _ => mret tt
  end.
Definition verify_redundant_copy (c : SafetyDataConfig) : M SafetyData bool :=
  if redundant_ptr c =? 0 then mret true else
  s ← get;
  match protection c with
  | PROTECTION_REDUNDANT => lift (compare_mem (memory s) (data_ptr c) (redundant_ptr c) (data_size c))
  | PROTECTION_INVERSE => lift (compare_inverse (memory s) (data_ptr c) (redundant_ptr c) (data_size c))
  | _ => mret true
  end.
Definition notify (c : SafetyDataConfig) (ok : bool) : M SafetyData unit :=
  callback (validation_callback c) "validation_callback" [data_ptr c; Z.b2z ok].
(** What follows a change of the data: the copy, the checksum and the flag. *)
Definition protect (i : nat) (c : SafetyDataConfig) : M SafetyData unit :=
  update_redundant_copy c;;
  crc ← calculate_data_crc c;
  set_instance i (fun x => x <| sd_crc := crc |> <| valid := true |>).

(** The rounds of [Safety_Data_Init] and [Safety_Data_Reset] that store the default. *)
Definition store_default (c : SafetyDataConfig) : M SafetyData unit :=
  bs ← lift (default_bytes c); on_memory (fun mem => write_mem mem (data_ptr c) bs).
Fixpoint init_loop (i : nat) (configs : list SafetyDataConfig) : M SafetyData unit :=
  match configs with
  | [] => mret tt
  | c :: configs =>
      set_instance i (fun x => x <| sd_config := c |>);;
      (if data_ptr c =? 0 then mret tt else
       store_default c;; protect i c;; set_instance i (fun x => x <| sd_ready := true |>));;
      init_loop (S i) configs
  end.
Definition Safety_Data_Init (configs : option (list SafetyDataConfig)) : M SafetyData bool :=
  match configs with
  | None => mret false
  | Some configs =>
      let count := length configs in
      if (count =? 0)%nat || (MAX_SAFETY_DATA <? count)%nat then mret false else
      enter;;
      modify sd_clear;;
      modify (fun s => s <| data_count := Z.of_nat count |>);;
      init_loop 0 configs;;
      modify (fun s => s <| sd_initialized := true |>);;
      exit;;
      mret true
  end.
Definition Safety_Data_DeInit : M SafetyData unit :=
  enter;; modify (fun s => s <| sd_initialized := false |>);; modify sd_clear;; exit.

Definition Safety_Data_Write (id : Z) (value : option (list Z)) : M SafetyData bool :=
  s ← get;
  match value with
  | None => mret false
  | Some value =>
      if negb (sd_initialized s) || negb (validate_data_id id s) then mret false else
      let i := Z.to_nat id in
      x ← instance_at i;
      let c := sd_config x in
      if negb (sd_ready x) || (data_ptr c =? 0) then mret false else
      enter;;
      ok ← lift (validate_value_range c value);
      if negb ok then
        set_instance i (fun x => x <| error_count ::= fun n => u32 (n + 1) |>);; exit;; mret false
      else
        (if (length value <? data_size c)%nat then fault else mret tt);;
        on_memory (fun mem => write_mem mem (data_ptr c) (take (data_size c) value));;
        protect i c;;
        notify c true;;
        exit;;
        mret true
  end.

Definition Safety_Data_Verify (id : Z) : M SafetyData bool :=
  s ← get;
  if negb (sd_initialized s) || negb (validate_data_id id s) then mret false else
  let i := Z.to_nat id in
  x ← instance_at i;
  let c := sd_config x in
  if negb (sd_ready x) then mret false else
  enter;;
  ok ← (if decide (protection c = PROTECTION_CRC) then crc ← calculate_data_crc c; mret (crc =? sd_crc x) else mret true);
  ok ← (if ok && bool_decide (protection c = PROTECTION_REDUNDANT \/ protection c = PROTECTION_INVERSE)
        then verify_redundant_copy c else mret ok);
  (if ok : bool then mret tt else
   set_instance i (fun x => x <| error_count ::= fun n => u32 (n + 1) |> <| valid := false |>);; notify c false);;
  exit;;
  mret ok.

(** The bytes stored through the caller's pointer, [None] when the answer is [false]. *)
Definition Safety_Data_Read (id : Z) (out : bool) : M SafetyData (option (list Z)) :=
  s ← get;
  if negb (sd_initialized s) || negb (validate_data_id id s) || negb out then mret None else
  let i := Z.to_nat id in
  x ← instance_at i;
  let c := sd_config x in
  if negb (sd_ready x) || (data_ptr c =? 0) then mret None else
  enter;;
  ok ← Safety_Data_Verify id;
  if negb ok then exit;; mret None else
  s ← get;
  bs ← lift (read_mem (memory s) (data_ptr c) (data_size c));
  exit;;
  mret (Some bs).

Definition Safety_Data_IsValid (id : Z) : M SafetyData bool :=
  s ← get;
  if negb (sd_initialized s) || negb (validate_data_id id s) then mret false else
  x ← instance_at (Z.to_nat id); mret (valid x).
Definition Safety_Data_Reset (id : Z) : M SafetyData unit :=
  s ← get;
  if negb (sd_initialized s) || negb (validate_data_id id s) then mret tt else
  let i := Z.to_nat id in
  x ← instance_at i;
  let c := sd_config x in
  if negb (sd_ready x) then mret tt else
  enter;;
  (if data_ptr c =? 0 then mret tt else
   store_default c;;
   protect i c;;
   set_instance i (fun x => x <| error_count := 0 |>);;
   notify c true);;
  exit.
Definition Safety_Data_GetErrorCount (id : Z) : M SafetyData Z :=
  s ← get;
  if negb (sd_initialized s) || negb (validate_data_id id s) then mret 0 else
  x ← instance_at (Z.to_nat id); mret (error_count x).
(** Both pointers given. *)
Definition Safety_Data_GetStatus (id : Z) : M SafetyData (option (bool * Z)) :=
  s ← get;
  if negb (sd_initialized s) || negb (validate_data_id id s) then mret None else
  x ← instance_at (Z.to_nat id); mret (Some (valid x, error_count x)).
Definition Safety_Data_Backup (id : Z) : M SafetyData bool :=
  s ← get;
  if negb (sd_initialized s) || negb (validate_data_id id s) then mret false else
  x ← instance_at (Z.to_nat id);
  let c := sd_config x in
  if negb (sd_ready x) || (redundant_ptr c =? 0) then mret false else
  enter;; update_redundant_copy c;; exit;; mret true.
Definition Safety_Data_Restore (id : Z) : M SafetyData bool :=
  s ← get;
  if negb (sd_initialized s) || negb (validate_data_id id s) then mret false else
  let i := Z.to_nat id in
  x ← instance_at i;
  let c := sd_config x in
  if negb (sd_ready x) || (redundant_ptr c =? 0) then mret false else
  enter;;
  match protection c with
  | PROTECTION_REDUNDANT => on_memory (fun mem => copy_mem mem (data_ptr c) (redundant_ptr c) (data_size c))
  | PROTECTION_INVERSE => on_memory (fun mem => copy_inverse mem (data_ptr c) (redundant_ptr c) (data_size c))
  | _ => mret tt
  end;;
  crc ← calculate_data_crc c;
  set_instance i (fun x => x <| sd_crc := crc |> <| valid := true |>);;
  notify c true;;
  exit;;
  mret true.

Lemma copy_inverse_spec mem dst src n bs :
  read_mem mem src n = Some bs -> mapped mem dst n -> disjoint dst src n ->
  exists mem', copy_inverse mem dst src n = Some mem' /\ read_mem mem' dst n = Some (inverse <$> bs) /\
    only_at mem mem' dst n /\ (forall k, is_Some (mem !! k) -> is_Some (mem' !! k)).
Proof.
  revert mem dst src bs. induction n as [|n IH]; intros mem dst src bs Hr Hm Hdis; simpl in *; [simplify_eq; by exists mem|].
  apply bind_Some in Hr as (b & Hb & (l & Hl & [= <-])%bind_Some). rewrite Hb. simpl. unfold write_byte.
  destruct (Hm dst ltac:(lia)) as [b0 Hb0]. rewrite Hb0. simpl. unfold disjoint in Hdis.
  destruct (IH (<[dst := inverse b]> mem) (dst + 1) (src + 1) l) as (mem' & Hc & Hrd & Ho & Hd).
  { rewrite <- Hl. apply read_mem_ext. intros k Hk. apply lookup_insert_ne. lia. }
  { intros k Hk. rewrite lookup_insert_ne by lia. apply Hm. lia. }
  { unfold disjoint. lia. }
  exists mem'. split; [done|]. rewrite Ho by lia. rewrite lookup_insert_eq. simpl. rewrite Hrd. split; [done|]. split.
  - intros k Hk. rewrite Ho by lia. apply lookup_insert_ne. lia.
  - intros k Hk. apply Hd. destruct (decide (k = dst)) as [->|]; [rewrite lookup_insert_eq; by eexists|by rewrite lookup_insert_ne].
Qed.

Lemma inverse_lxor b : is_u8 b -> inverse b = Z.lxor b 0xFF.
Proof.
  intros Hb. unfold inverse, u8. rewrite <- Z.land_ones by done. apply Z.bits_inj'. intros i Hi.
  rewrite Z.land_spec, Z.lnot_spec, Z.lxor_spec by done. change 0xFF with (Z.ones 8).
  destruct (decide (i < 8)); [rewrite Z.ones_spec_low by lia; by destruct (Z.testbit b i)|].
  rewrite Z.ones_spec_high, andb_false_r, xorb_false_r by lia. symmetry. rewrite <- (Z.mod_small b (2 ^ 8)) by exact Hb.
  apply Z.mod_pow2_bits_high. lia.
Qed.
Lemma inverse_u8 b : is_u8 (inverse b).
Proof. apply u8_range. Qed.
Lemma lxor_ff x y : is_u8 x -> (Z.lxor x y =? 0xFF) = bool_decide (y = inverse x).
Proof.
  intros Hx. rewrite inverse_lxor by done. destruct (Z.lxor x y =? 0xFF) eqn:E; tests; symmetry.
  - apply bool_decide_eq_true_2. rewrite <- E, <- Z.lxor_assoc, Z.lxor_nilpotent. by rewrite Z.lxor_0_l.
  - apply bool_decide_eq_false_2. intros ->. apply E. by rewrite <- Z.lxor_assoc, Z.lxor_nilpotent, Z.lxor_0_l.
Qed.
Lemma inverse_involutive b : is_u8 b -> inverse (inverse b) = b.
Proof.
  intros Hb. rewrite (inverse_lxor (inverse b)) by apply inverse_u8. rewrite (inverse_lxor b) by done.
  by rewrite Z.lxor_assoc, Z.lxor_nilpotent, Z.lxor_0_r.
Qed.
Lemma compare_inverse_spec mem a b n x y :
  read_mem mem a n = Some x -> read_mem mem b n = Some y -> Forall is_u8 x ->
  compare_inverse mem a b n = Some (bool_decide (y = inverse <$> x)).
Proof.
  revert a b x y. induction n as [|n IH]; intros a b x y Hx Hy Hu; simpl in *; [by simplify_eq|].
  apply bind_Some in Hx as (x0 & Hx0 & (xs & Hxs & [= <-])%bind_Some). apply bind_Some in Hy as (y0 & Hy0 & (ys & Hys & [= <-])%bind_Some).
  apply Forall_cons in Hu as [Hu0 Hu]. rewrite Hx0, Hy0. simpl. rewrite lxor_ff by done. destruct (bool_decide (y0 = inverse x0)) eqn:E.
  - apply bool_decide_eq_true_1 in E as ->. rewrite (IH _ _ xs ys) by done. f_equal. apply bool_decide_ext. naive_solver.
  - apply bool_decide_eq_false_1 in E. f_equal. symmetry. apply bool_decide_eq_false_2. naive_solver.
Qed.

(** ** Protection *)

Lemma crc32_total st bs :
  length (crc32_table st) = 256%nat -> Forall is_u8 bs -> exists c, calculate_crc32 st (Some bs) = Some c.
Proof.
  intros Hl Hb. unfold calculate_crc32, with_bytes. destruct bs as [|b bs]; [by exists 0|].
  assert (Hloop : forall l init, Forall is_u8 l -> is_Some (crc_loop (fun crc b =>
    t ← entry (crc32_table st) (Z.lxor (Z.land crc 0xFF) b); Some (Z.lxor (Z.shiftr crc 8) t)) l init)).
  { unfold crc_loop. intros l. induction l as [|a l IH]; intros init Hu; simpl; [by eexists|].
    apply Forall_cons in Hu as [Ha Hu]. unfold entry at 2.
    pose proof (lxor_u8 _ _ (land_ff_u8 init) Ha) as Hi. unfold is_u8 in Hi. rewrite (proj2 (Z.ltb_ge _ _)) by lia.
    destruct (lookup_lt_is_Some_2 (crc32_table st) (Z.to_nat (Z.lxor (Z.land init 0xFF) a))) as [t Ht]; [lia|].
    rewrite Ht. simpl. by apply IH. }
  destruct (Hloop (b :: bs) (initial_value st) Hb) as [c ->]. simpl. by eexists.
Qed.

(** The redundant copy of the bytes [bs] is as the protection method wants it. *)
Definition copy_ok (c : SafetyDataConfig) (mem : gmap Z Z) (bs : list Z) : Prop :=
  redundant_ptr c <> 0 ->
  match protection c with
  | PROTECTION_REDUNDANT => read_mem mem (redundant_ptr c) (data_size c) = Some bs
  | PROTECTION_INVERSE => read_mem mem (redundant_ptr c) (data_size c) = Some (inverse <$> bs)
  | _ => True
  end.
Definition layout_ok (c : SafetyDataConfig) (mem : gmap Z Z) : Prop :=
  data_ptr c <> 0 /\ mapped mem (data_ptr c) (data_size c) /\
  (redundant_ptr c <> 0 -> mapped mem (redundant_ptr c) (data_size c) /\ disjoint (redundant_ptr c) (data_ptr c) (data_size c)).
Definition crc_ready (s : SafetyData) : Prop := length (crc32_table (crc_state s)) = 256%nat.

Lemma wp_lift {A} (o : option A) a Q s m : o = Some a -> Q a s m -> wp (lift o) Q s m.
Proof. by intros ->. Qed.
Lemma wp_on_memory f mem Q s m : f (memory s) = Some mem -> Q tt (s <| memory := mem |>) m -> wp (on_memory f) Q s m.
Proof. intros Hf HQ. unfold on_memory. apply wp_bind, wp_get, wp_bind. eapply wp_lift; [exact Hf|]. by apply wp_modify. Qed.
Lemma wp_data_instance i x Q s m : data s !! i = Some x -> Q x s m -> wp (instance_at i) Q s m.
Proof. intros Hx HQ. unfold instance_at. apply wp_bind, wp_get. by eapply wp_lift. Qed.

Lemma update_copy_spec c s m bs :
  layout_ok c (memory s) -> read_mem (memory s) (data_ptr c) (data_size c) = Some bs ->
  wp (update_redundant_copy c) (fun _ s' m' => m' = m /\ exists mem, s' = s <| memory := mem |> /\
    copy_ok c mem bs /\ read_mem mem (data_ptr c) (data_size c) = Some bs /\ layout_ok c mem) s m.
Proof.
  intros (Hp & Hm & Hr) Hbs. unfold update_redundant_copy.
  assert (Hsame : s = s <| memory := memory s |>) by (by destruct s).
  destruct (redundant_ptr c =? 0) eqn:E; tests.
  { apply wp_ret. split; [done|]. exists (memory s). split_and!; [done|by intros Hn|done|done]. }
  destruct (Hr E) as [Hrm Hdis]. pose proof (read_mem_length _ _ _ _ Hbs) as Hlen.
  assert (Hdone : forall mem, only_at (memory s) mem (redundant_ptr c) (data_size c) ->
    (forall k, is_Some (memory s !! k) -> is_Some (mem !! k)) ->
    read_mem mem (data_ptr c) (data_size c) = Some bs /\ layout_ok c mem).
  { intros mem Ho Hd. rewrite (read_mem_only _ _ _ _ _ Ho Hdis). split; [done|].
    unfold layout_ok. split_and!; [done|by eapply only_mapped|]. intros _. split; [by eapply only_mapped|done]. }
  destruct (protection c) eqn:Ep; try (apply wp_ret; split; [done|]; exists (memory s);
    split_and!; [done|unfold copy_ok; by rewrite Ep|done|done]).
  - destruct (write_mem_spec (memory s) (redundant_ptr c) bs) as (mem & Hw & Hrd & Ho & Hd); [by rewrite Hlen|].
    eapply wp_on_memory; [unfold copy_mem; rewrite Hbs; exact Hw|]. split; [done|]. exists mem. rewrite Hlen in *.
    destruct (Hdone mem Ho Hd). split_and!; [done|unfold copy_ok; by rewrite Ep|done|done].
  - destruct (copy_inverse_spec (memory s) (redundant_ptr c) (data_ptr c) (data_size c) bs) as (mem & Hw & Hrd & Ho & Hd); [done..|].
    eapply wp_on_memory; [exact Hw|]. split; [done|]. exists mem.
    destruct (Hdone mem Ho Hd). split_and!; [done|unfold copy_ok; by rewrite Ep|done|done].
Qed.

Lemma data_crc_spec c s m bs crc Q :
  data_ptr c <> 0 -> read_mem (memory s) (data_ptr c) (data_size c) = Some bs ->
  calculate_crc32 (crc_state s) (Some bs) = Some crc -> Q crc s m -> wp (calculate_data_crc c) Q s m.
Proof.
  intros Hp Hbs Hc HQ. unfold calculate_data_crc. rewrite (proj2 (Z.eqb_neq _ _) Hp). apply wp_bind, wp_get, wp_bind.
  eapply wp_lift; [exact Hbs|]. by eapply wp_lift.
Qed.

(** The instance [x] of the state protects the bytes [bs]. *)
Record protects (s : SafetyData) (i : nat) (x : SafetyDataInstance) (bs : list Z) : Prop := mkProtects {
  pr_instance : data s !! i = Some x;
  pr_valid : valid x = true;
  pr_layout : layout_ok (sd_config x) (memory s);
  pr_data : read_mem (memory s) (data_ptr (sd_config x)) (data_size (sd_config x)) = Some bs;
  pr_copy : copy_ok (sd_config x) (memory s) bs;
  pr_crc : calculate_crc32 (crc_state s) (Some bs) = Some (sd_crc x) }.

Lemma protect_data_spec i s m x bs :
  data s !! i = Some x -> layout_ok (sd_config x) (memory s) -> crc_ready s -> Forall is_u8 bs ->
  read_mem (memory s) (data_ptr (sd_config x)) (data_size (sd_config x)) = Some bs ->
  wp (protect i (sd_config x)) (fun _ s' m' => m' = m /\ exists mem crc,
    s' = s <| memory := mem |> <| data ::= <[i := x <| sd_crc := crc |> <| valid := true |>]> |> /\
    protects s' i (x <| sd_crc := crc |> <| valid := true |>) bs) s m.
Proof.
  intros Hx Hlay Hcrc Hu Hbs. unfold protect. apply wp_bind. eapply wp_mono; [by apply update_copy_spec|].
  intros [] s1 m1 (-> & mem & -> & Hcopy & Hrd & Hlay'). destruct (crc32_total (crc_state s) bs Hcrc Hu) as [crc Hc].
  apply wp_bind. eapply data_crc_spec; [apply Hlay|exact Hrd|exact Hc|]. apply wp_modify. split; [done|]. exists mem, crc.
  assert (Hst : (s <| memory := mem |>) <| data ::= alter (fun x => x <| sd_crc := crc |> <| valid := true |>) i |> =
    s <| memory := mem |> <| data ::= <[i := x <| sd_crc := crc |> <| valid := true |>]> |>).
  { destruct s; cbn in *. by rewrite (alter_as_insert _ i x). }
  split; [exact Hst|]. rewrite Hst. split; cbn; [|done..].
  apply list_lookup_insert_eq. by eapply lookup_lt_Some.
Qed.

(** ** Writing and reading *)

(** An identifier in use. *)
Record in_use (s : SafetyData) (id : Z) (x : SafetyDataInstance) : Prop := mkInUse {
  iu_init : sd_initialized s = true;
  iu_id : 0 <= id < data_count s;
  iu_instance : data s !! Z.to_nat id = Some x;
  iu_ready : sd_ready x = true;
  iu_layout : layout_ok (sd_config x) (memory s);
  iu_crc : crc_ready s }.

Lemma guard_passes s id x : in_use s id x -> negb (sd_initialized s) || negb (validate_data_id id s) = false.
Proof. intros []. unfold validate_data_id. by rewrite iu_init0, (proj2 (Z.ltb_lt _ _)) by lia. Qed.

Lemma write_spec id v s m x :
  in_use s id x -> validate_value_range (sd_config x) v = Some true -> (data_size (sd_config x) <= length v)%nat -> Forall is_u8 v ->
  wp (Safety_Data_Write id (Some v)) (fun ok s' m' => ok = true /\ primask m' = primask m /\ exists x',
    in_use s' id x' /\ sd_config x' = sd_config x /\ error_count x' = error_count x /\
    protects s' (Z.to_nat id) x' (take (data_size (sd_config x)) v)) s m.
Proof.
  intros Hu Hv Hlen Hb. pose proof Hu as [Hi Hid Hx Hr (Hp & Hm & Hred) Hcrc].
  set (c := sd_config x) in *. set (bs := take (data_size c) v).
  assert (Hbl : length bs = data_size c) by (unfold bs; rewrite length_take; lia).
  destruct (write_mem_spec (memory s) (data_ptr c) bs) as (mem & Hw & Hrd & Ho & Hd); [by rewrite Hbl|]. rewrite Hbl in Hrd, Ho.
  unfold Safety_Data_Write. apply wp_bind, wp_get. rewrite (guard_passes s id x Hu).
  apply wp_bind. eapply wp_data_instance; [exact Hx|]. rewrite Hr. fold c. rewrite (proj2 (Z.eqb_neq _ _) Hp). cbn [negb orb].
  apply wp_bind, wp_enter, wp_bind. eapply wp_lift; [exact Hv|]. cbn [negb]. rewrite (proj2 (Nat.ltb_ge _ _)) by done.
  apply wp_bind, wp_ret, wp_bind. eapply wp_on_memory; [exact Hw|]. apply wp_bind.
  match goal with |- wp _ _ ?st _ => set (s1 := st) end.
  eapply wp_mono; [apply (protect_data_spec (Z.to_nat id) s1 _ x bs Hx); [|done|by apply Forall_take|exact Hrd]|].
  { unfold layout_ok. split_and!; [done|by eapply only_mapped|]. intros Hn. destruct (Hred Hn). split; [by eapply only_mapped|done]. }
  intros [] s2 m2 (-> & mem' & crc & -> & Hpr). apply wp_bind. unfold notify. apply wp_callback.
  apply wp_bind. eapply wp_exit; [reflexivity|done|]. apply wp_ret. split_and!; [done|done|].
  exists (x <| sd_crc := crc |> <| valid := true |>). destruct Hpr as [P1 P2 P3 P4 P5 P6].
  split_and!; [split; [done|done|exact P1|done|exact P3|done]|done|done|split; [exact P1|done|exact P3|exact P4|exact P5|exact P6]].
Qed.

(** The verdict on the bytes [w] found at the data and [y] found at the copy. *)
Definition intact (st : CrcState) (x : SafetyDataInstance) (w y : list Z) : bool :=
  let c := sd_config x in
  match protection c with
  | PROTECTION_CRC => bool_decide (calculate_crc32 st (Some w) = Some (sd_crc x))
  | PROTECTION_REDUNDANT => (redundant_ptr c =? 0) || bool_decide (w = y)
  | PROTECTION_INVERSE => (redundant_ptr c =? 0) || bool_decide (y = inverse <$> w)
  | _ => true
  end.
Definition fail_instance (x : SafetyDataInstance) : SafetyDataInstance :=
  x <| error_count ::= fun n => u32 (n + 1) |> <| valid := false |>.

(** The two checks of [Safety_Data_Verify] compute the verdict. *)
Definition checks (x : SafetyDataInstance) : M SafetyData bool :=
  let c := sd_config x in
  ok ← (if decide (protection c = PROTECTION_CRC) then crc ← calculate_data_crc c; mret (crc =? sd_crc x) else mret true);
  if ok && bool_decide (protection c = PROTECTION_REDUNDANT \/ protection c = PROTECTION_INVERSE)
  then verify_redundant_copy c else mret ok.
Lemma checks_spec x s m w y Q :
  layout_ok (sd_config x) (memory s) -> crc_ready s -> Forall is_u8 w ->
  read_mem (memory s) (data_ptr (sd_config x)) (data_size (sd_config x)) = Some w ->
  (redundant_ptr (sd_config x) <> 0 -> read_mem (memory s) (redundant_ptr (sd_config x)) (data_size (sd_config x)) = Some y) ->
  Q (intact (crc_state s) x w y) s m -> wp (checks x) Q s m.
Proof.
  intros (Hp & _ & _) Hcrc Hu Hw Hy HQ. unfold checks, intact in *. set (c := sd_config x) in *. apply wp_bind.
  destruct (crc32_total (crc_state s) w Hcrc Hu) as [crc Hc].
  destruct (protection c) eqn:Ep; cbn -[bool_decide] in HQ |- *.
  - eapply wp_bind, data_crc_spec; [done|exact Hw|exact Hc|]. apply wp_ret. rewrite andb_false_r. apply wp_ret.
    rewrite Hc in HQ. destruct (crc =? sd_crc x) eqn:E; tests.
    + subst. by rewrite bool_decide_true in HQ.
    + rewrite bool_decide_false in HQ by congruence. done.
  - apply wp_ret. simpl. unfold verify_redundant_copy. rewrite Ep. destruct (redundant_ptr c =? 0) eqn:E; tests; [by apply wp_ret|].
    apply wp_bind, wp_get. eapply wp_lift; [|exact HQ]. unfold compare_mem. rewrite Hw, (Hy E). done.
  - apply wp_ret. simpl. unfold verify_redundant_copy. rewrite Ep. destruct (redundant_ptr c =? 0) eqn:E; tests; [by apply wp_ret|].
    apply wp_bind, wp_get. eapply wp_lift; [|exact HQ]. by apply (compare_inverse_spec _ _ _ _ w y); [|apply Hy|].
  - by do 2 apply wp_ret.
  - by do 2 apply wp_ret.
Qed.

Lemma verify_spec id x s m w y :
  in_use s id x -> Forall is_u8 w ->
  read_mem (memory s) (data_ptr (sd_config x)) (data_size (sd_config x)) = Some w ->
  (redundant_ptr (sd_config x) <> 0 -> read_mem (memory s) (redundant_ptr (sd_config x)) (data_size (sd_config x)) = Some y) ->
  wp (Safety_Data_Verify id) (fun ok s' m' => ok = intact (crc_state s) x w y /\ primask m' = primask m /\
    s' = s <| sd_critical := mkCS (Z.b2z (primask m)) false |>
           <| data ::= <[Z.to_nat id := if ok then x else fail_instance x]> |>) s m.
Proof.
  intros Hin Hu Hw Hy. pose proof Hin as [Hi Hid Hx Hr Hlay Hcrc]. unfold Safety_Data_Verify.
  apply wp_bind, wp_get. rewrite (guard_passes s id x Hin). apply wp_bind. eapply wp_data_instance; [exact Hx|].
  rewrite Hr. cbn [negb]. apply wp_bind, wp_enter. eapply wp_bind_assoc. apply wp_bind.
  eapply (checks_spec x (set_crit _ s) _ w y); [exact Hlay|exact Hcrc|exact Hu|exact Hw|exact Hy|].
  change (crc_state (set_crit (mkCS (Z.b2z (primask m)) true) s)) with (crc_state s).
  destruct (intact _ _ _ _) eqn:E; apply wp_bind.
  - apply wp_ret, wp_bind. eapply wp_exit; [reflexivity|done|]. apply wp_ret. split_and!; [done|done|].
    destruct s; cbn in *. by rewrite list_insert_id.
  - apply wp_bind, wp_modify. unfold notify. apply wp_callback. apply wp_bind. eapply wp_exit; [reflexivity|done|]. apply wp_ret.
    split_and!; [done|done|]. destruct s; cbn in *. by rewrite (alter_as_insert _ _ x).
Qed.

Lemma read_spec id x s m w y :
  in_use s id x -> Forall is_u8 w ->
  read_mem (memory s) (data_ptr (sd_config x)) (data_size (sd_config x)) = Some w ->
  (redundant_ptr (sd_config x) <> 0 -> read_mem (memory s) (redundant_ptr (sd_config x)) (data_size (sd_config x)) = Some y) ->
  wp (Safety_Data_Read id true) (fun r s' m' => primask m' = true /\ r = if intact (crc_state s) x w y then Some w else None) s m.
Proof.
  intros Hin Hu Hw Hy. pose proof Hin as [Hi Hid Hx Hr Hlay Hcrc]. unfold Safety_Data_Read.
  apply wp_bind, wp_get. rewrite (guard_passes s id x Hin). cbn [negb orb]. apply wp_bind. eapply wp_data_instance; [exact Hx|].
  rewrite Hr, (proj2 (Z.eqb_neq _ _) (proj1 Hlay)). cbn [negb orb]. apply wp_bind, wp_enter, wp_bind.
  eapply wp_mono; [eapply (verify_spec id x (set_crit _ s) _ w y); [split; done|exact Hu|exact Hw|exact Hy]|].
  intros ok s' m' (-> & Hm' & ->). change (crc_state (set_crit (mkCS (Z.b2z (primask m)) true) s)) with (crc_state s).
  destruct (intact _ _ _ _) eqn:E; cbn [negb].
  - apply wp_bind, wp_get, wp_bind. eapply wp_lift; [exact Hw|]. apply wp_bind, wp_exit_unlocked; [done|]. apply wp_ret. by rewrite Hm'.
  - apply wp_bind, wp_exit_unlocked; [done|]. apply wp_ret. by rewrite Hm'.
Qed.

(** ** Properties *)

Lemma copy_readable c mem : layout_ok c mem -> exists y,
  redundant_ptr c <> 0 -> read_mem mem (redundant_ptr c) (data_size c) = Some y.
Proof.
  intros (_ & _ & Hr). destruct (decide (redundant_ptr c = 0)) as [E|E]; [by exists []|].
  destruct (Hr E) as [Hm _]. destruct (read_mem_mapped _ _ _ Hm) as (y & Hy & _). by exists y.
Qed.

(** What is found when the data has become [w]. *)
Definition detection (st : CrcState) (c : SafetyDataConfig) (bs w : list Z) : bool :=
  match protection c with
  | PROTECTION_CRC => bool_decide (calculate_crc32 st (Some w) = calculate_crc32 st (Some bs))
  | PROTECTION_REDUNDANT | PROTECTION_INVERSE => (redundant_ptr c =? 0) || bool_decide (w = bs)
  | _ => true
  end.
Lemma intact_detection s i x bs w y mem :
  protects s i x bs -> Forall is_u8 bs -> Forall is_u8 w ->
  (redundant_ptr (sd_config x) <> 0 -> read_mem mem (redundant_ptr (sd_config x)) (data_size (sd_config x)) =
     read_mem (memory s) (redundant_ptr (sd_config x)) (data_size (sd_config x))) ->
  (redundant_ptr (sd_config x) <> 0 -> read_mem mem (redundant_ptr (sd_config x)) (data_size (sd_config x)) = Some y) ->
  intact (crc_state s) x w y = detection (crc_state s) (sd_config x) bs w.
Proof.
  intros Hp Hb Hw Hsame Hy. pose proof (pr_copy _ _ _ _ Hp) as Hc. unfold copy_ok, intact, detection in *.
  destruct (protection (sd_config x)) eqn:Ep; [by rewrite (pr_crc _ _ _ _ Hp)| | |done|done];
    destruct (redundant_ptr (sd_config x) =? 0) eqn:E; tests; try done; simpl;
    specialize (Hc E); rewrite <- Hsame, Hy in Hc by done; injection Hc as ->.
  - done.
  - apply bool_decide_ext. split; [|by intros ->]. clear -Hb Hw. revert bs Hb. induction Hw as [|b w Hb0 Hw IH]; intros [|a bs] Hb He; try done.
    apply Forall_cons in Hb as [Ha Hb]. injection He as He0 He. f_equal; [|by apply IH].
    by rewrite <- (inverse_involutive b), <- He0, inverse_involutive.
Qed.
Lemma detection_same st c bs : detection st c bs bs = true.
Proof. unfold detection. destruct (protection c); rewrite ?bool_decide_true, ?orb_true_r by done; done. Qed.

(** C19. A value in range that is written is read back, whatever the protection method, and
    a value out of range is counted as an error and changes nothing.  Writing restores the
    interrupt mask; reading leaves interrupts masked, since it opens the critical section
    that [Safety_Data_Verify], which it calls, closes. *)
Theorem safety_write_read id v s m x ok :
  in_use s id x -> validate_value_range (sd_config x) v = Some ok -> (data_size (sd_config x) <= length v)%nat ->
  Forall is_u8 v ->
  wp (Safety_Data_Write id (Some v)) (fun r s' m' => r = ok /\ primask m' = primask m /\
    if ok then wp (Safety_Data_Read id true) (fun o _ m'' =>
                 o = Some (take (data_size (sd_config x)) v) /\ primask m'' = true) s' m'
    else memory s' = memory s /\ data s' = <[Z.to_nat id := x <| error_count := u32 (error_count x + 1) |>]> (data s)) s m.
Proof.
  intros Hin Hv Hlen Hu. destruct ok.
  - eapply wp_mono; [by apply write_spec|]. intros r s' m' (-> & Hm & x' & Hin' & Hc & _ & Hp). split_and!; [done|done|].
    rewrite <- Hc in *. destruct (copy_readable _ _ (pr_layout _ _ _ _ Hp)) as [y Hy].
    assert (Hub : Forall is_u8 (take (data_size (sd_config x')) v)) by (by apply Forall_take).
    eapply wp_mono; [by apply (read_spec id x' s' m' _ y Hin' Hub (pr_data _ _ _ _ Hp))|]. intros o s2 m2 [Hm2 ->].
    by rewrite (intact_detection s' (Z.to_nat id) x' _ _ y (memory s') Hp Hub Hub), detection_same.
  - pose proof Hin as [Hi Hid Hx Hr Hlay Hcrc]. unfold Safety_Data_Write. apply wp_bind, wp_get.
    rewrite (guard_passes s id x Hin). apply wp_bind. eapply wp_data_instance; [exact Hx|].
    rewrite Hr, (proj2 (Z.eqb_neq _ _) (proj1 Hlay)). cbn [negb orb]. apply wp_bind, wp_enter, wp_bind.
    eapply wp_lift; [exact Hv|]. cbn [negb]. apply wp_bind, wp_modify, wp_bind. eapply wp_exit; [reflexivity|done|]. apply wp_ret.
    split_and!; [done|done|done|]. cbn. by rewrite (alter_as_insert _ _ x).
Qed.

(** Corruption of a protected variable is found exactly as far as its method goes:
    with a copy or an inverted copy every change of the data, with the checksum every
    change that changes it, and with the methods CHECKSUM and E2E, or without a copy,
    none. *)
Theorem corruption_detected id s m x bs mem w :
  in_use s id x -> protects s (Z.to_nat id) x bs -> Forall is_u8 bs -> Forall is_u8 w ->
  layout_ok (sd_config x) mem -> read_mem mem (data_ptr (sd_config x)) (data_size (sd_config x)) = Some w ->
  (redundant_ptr (sd_config x) <> 0 -> read_mem mem (redundant_ptr (sd_config x)) (data_size (sd_config x)) =
     read_mem (memory s) (redundant_ptr (sd_config x)) (data_size (sd_config x))) ->
  wp (Safety_Data_Verify id) (fun ok s' m' => ok = detection (crc_state s) (sd_config x) bs w /\ primask m' = primask m /\
    exists x', data s' !! Z.to_nat id = Some x' /\ valid x' = ok /\
      error_count x' = if ok then error_count x else u32 (error_count x + 1)) (s <| memory := mem |>) m.
Proof.
  intros Hin Hp Hb Hw Hlay Hrd Hsame. destruct (copy_readable _ _ Hlay) as [y Hy].
  eapply wp_mono; [apply (verify_spec id x (s <| memory := mem |>) m w y); [by destruct Hin; split|done|exact Hrd|exact Hy]|].
  intros ok s' m' (-> & Hm & ->). rewrite <- (intact_detection s (Z.to_nat id) x bs w y mem) by done.
  change (crc_state (s <| memory := mem |>)) with (crc_state s). split_and!; [done|done|]. eexists.
  split; [apply list_lookup_insert_eq; eapply lookup_lt_Some, (iu_instance _ _ _ Hin)|].
  destruct (intact _ _ _ _); [|done]. split; [apply Hp|done].
Qed.

(** [Safety_Data_Restore] undoes any corruption of a variable with a copy or an
    inverted copy: the data is again what was written, and is protected. *)
Theorem restore_recovers id s m x bs mem :
  in_use s id x -> protects s (Z.to_nat id) x bs -> Forall is_u8 bs -> redundant_ptr (sd_config x) <> 0 ->
  protection (sd_config x) = PROTECTION_REDUNDANT \/ protection (sd_config x) = PROTECTION_INVERSE ->
  layout_ok (sd_config x) mem ->
  read_mem mem (redundant_ptr (sd_config x)) (data_size (sd_config x)) =
    read_mem (memory s) (redundant_ptr (sd_config x)) (data_size (sd_config x)) ->
  wp (Safety_Data_Restore id) (fun ok s' m' => ok = true /\ primask m' = primask m /\
    exists x', protects s' (Z.to_nat id) x' bs /\ sd_config x' = sd_config x) (s <| memory := mem |>) m.
Proof.
  intros Hin Hp Hb Hr Hmeth Hlay Hsame. pose proof Hin as [Hi Hid Hx Hready _ Hcrc]. pose proof (pr_copy _ _ _ _ Hp Hr) as Hcopy.
  pose proof (read_mem_length _ _ _ _ (pr_data _ _ _ _ Hp)) as Hlen. destruct Hlay as (Hdp & Hdm & Hrl). destruct (Hrl Hr) as [Hrm Hdis].
  set (c := sd_config x) in *. rewrite <- Hsame in Hcopy.
  assert (Hmem : exists mem', match protection c with
    | PROTECTION_REDUNDANT => copy_mem mem (data_ptr c) (redundant_ptr c) (data_size c)
    | PROTECTION_INVERSE => copy_inverse mem (data_ptr c) (redundant_ptr c) (data_size c)
    | _ => None end = Some mem' /\ read_mem mem' (data_ptr c) (data_size c) = Some bs /\
      only_at mem mem' (data_ptr c) (data_size c) /\ (forall k, is_Some (mem !! k) -> is_Some (mem' !! k))).
  { assert (Hdis' : disjoint (data_ptr c) (redundant_ptr c) (data_size c)) by (unfold disjoint in *; lia).
    destruct Hmeth as [E|E]; rewrite E in *.
    - destruct (write_mem_spec mem (data_ptr c) bs) as (mem' & Hw & Hrd & Ho & Hd); [by rewrite Hlen|]. rewrite Hlen in *.
      exists mem'. unfold copy_mem. rewrite Hcopy. done.
    - destruct (copy_inverse_spec mem (data_ptr c) (redundant_ptr c) (data_size c) _ Hcopy Hdm Hdis') as (mem' & Hw & Hrd & Ho & Hd).
      exists mem'. split_and!; [done| |done|done]. rewrite Hrd. f_equal.
      clear -Hb. induction Hb as [|b bs Hb0 Hb IH]; [done|]. rewrite !fmap_cons, IH. by rewrite inverse_involutive. }
  destruct Hmem as (mem' & Hstep & Hrd & Ho & Hd). destruct (crc32_total (crc_state s) bs Hcrc Hb) as [crc Hc].
  unfold Safety_Data_Restore. apply wp_bind, wp_get. rewrite (guard_passes (s <| memory := mem |>) id x) by (destruct Hin; by split).
  apply wp_bind. eapply wp_data_instance; [exact Hx|]. fold c. rewrite Hready, (proj2 (Z.eqb_neq _ _) Hr). cbn [negb orb].
  apply wp_bind, wp_enter, wp_bind.
  match goal with |- wp _ _ ?st _ => set (s1 := st) end.
  assert (Hgo : forall Q, Q tt (s1 <| memory := mem' |>) (m <| primask := true |>) -> wp match protection c with
    | PROTECTION_REDUNDANT => on_memory (fun mem => copy_mem mem (data_ptr c) (redundant_ptr c) (data_size c))
    | PROTECTION_INVERSE => on_memory (fun mem => copy_inverse mem (data_ptr c) (redundant_ptr c) (data_size c))
    | _ => mret tt end Q s1 (m <| primask := true |>)).
  { intros Q HQ. destruct Hmeth as [E|E]; rewrite E in *; (eapply wp_on_memory; [exact Hstep|exact HQ]). }
  apply Hgo. apply wp_bind. eapply data_crc_spec; [done|exact Hrd|exact Hc|]. apply wp_bind, wp_modify, wp_bind. unfold notify.
  apply wp_callback, wp_bind. eapply wp_exit; [reflexivity|done|]. apply wp_ret. split_and!; [done|done|].
  exists (x <| sd_crc := crc |> <| valid := true |>). split; [|done]. split; cbn.
  - rewrite (alter_as_insert _ _ x) by done. apply list_lookup_insert_eq. by eapply lookup_lt_Some.
  - done.
  - unfold layout_ok. split_and!; [done|by eapply only_mapped|]. intros _. split; [by eapply only_mapped|done].
  - done.
  - intros _. fold c. assert (Hsame' : read_mem mem' (redundant_ptr c) (data_size c) = read_mem mem (redundant_ptr c) (data_size c)).
    { apply (read_mem_only mem mem' (data_ptr c)); [done|]. unfold disjoint in *. lia. }
    destruct Hmeth as [E|E]; rewrite E in *; by rewrite Hsame'.
  - done.
Qed.

(** ** Initialisation *)

(** Computations that leave the mask and the section alone whenever they return. *)
Definition quiet {A} (c : M SafetyData A) : Prop :=
  forall s m a s' m', c s m = Some (a, s', m') -> primask m' = primask m /\ sd_critical s' = sd_critical s.
Lemma quiet_ret {A} (a : A) : quiet (mret a).
Proof. intros s m b s' m' [= <- <- <-]. done. Qed.
Lemma quiet_bind {A B} (c : M SafetyData A) (f : A -> M SafetyData B) : quiet c -> (forall a, quiet (f a)) -> quiet (c ≫= f).
Proof.
  intros Hc Hf s m b s' m'. unfold mbind, M_bind. destruct (c s m) as [[[a s1] m1]|] eqn:E; [|done]. intros H.
  destruct (Hc _ _ _ _ _ E), (Hf _ _ _ _ _ _ H). split; congruence.
Qed.
Lemma quiet_get : quiet get.
Proof. intros s m b s' m' [= <- <- <-]. done. Qed.
Lemma quiet_lift {A} (o : option A) : quiet (lift o).
Proof. destruct o; [apply quiet_ret|done]. Qed.
Lemma quiet_modify f : (forall s, sd_critical (f s) = sd_critical s) -> quiet (modify f).
Proof. intros Hf s m b s' m' [= <- <- <-]. done. Qed.
Lemma quiet_memory f : quiet (on_memory f).
Proof. apply quiet_bind; [apply quiet_get|]. intros s. apply quiet_bind; [apply quiet_lift|]. intros mem. by apply quiet_modify. Qed.
Create HintDb quiet.
#[local] Hint Resolve quiet_ret quiet_get quiet_lift quiet_memory : quiet.
#[local] Hint Extern 1 (quiet (modify _)) => by apply quiet_modify : quiet.
#[local] Hint Extern 2 (quiet (mbind _ _)) => apply quiet_bind; [|intros ?] : quiet.

Lemma quiet_init_loop i configs : quiet (init_loop i configs).
Proof.
  revert i. induction configs as [|c configs IH]; intros i; simpl; [apply quiet_ret|]. unfold set_instance.
  apply quiet_bind; [auto with quiet|]. intros _. apply quiet_bind; [|auto].
  destruct (data_ptr c =? 0); [auto with quiet|]. unfold store_default, protect, update_redundant_copy, calculate_data_crc, set_instance.
  destruct (redundant_ptr c =? 0), (data_ptr c =? 0), (protection c); auto 12 with quiet.
Qed.

(** Whenever [Safety_Data_Init] succeeds, interrupts are masked afterwards: the [memset] has
    cleared the section it is in. *)
Lemma init_masks_interrupts configs s m s' m' :
  Safety_Data_Init (Some configs) s m = Some (true, s', m') -> primask m' = true.
Proof.
  unfold Safety_Data_Init. destruct (_ || _); [done|]. intros H.
  unfold mbind, M_bind, enter, modify in H. cbn [enter_critical] in H.
  destruct (init_loop 0 configs _ _) as [[[u s1] m1]|] eqn:E; [|done].
  destruct (quiet_init_loop _ _ _ _ _ _ _ E) as [Hm Hc]. unfold exit, exit_critical in H. cbn in H, Hm, Hc. rewrite Hc in H. cbn in H.
  unfold mret, M_ret in H. by simplify_eq/=.
Qed.

(** The range check is done in single precision: a value above the limit passes when it
    rounds to the limit. *)
Lemma range_check_rounds :
  let c := mkSafetyConfig 100 0 4 SAFETY_DATA_INT32 PROTECTION_CRC (float_of_Z 0) (float_of_Z 16777216) (float_of_Z 0) false in
  validate_value_range c (le_bytes 4 16777217) = Some true /\ validate_value_range c (le_bytes 4 16777218) = Some false.
Proof. by vm_compute. Qed.

(** ** An example *)

Definition speed_config (p : ProtectionMethod) : SafetyDataConfig :=
  mkSafetyConfig 100 200 2 SAFETY_DATA_UINT16 p (float_of_Z 0) (float_of_Z 300) (float_of_Z 0) true.
Definition ram : gmap Z Z := list_to_map ((fun a => (a, 0)) <$> [100; 101; 200; 201]).
Definition with_speed (p : ProtectionMethod) (mem : gmap Z Z) : SafetyData :=
  mkSafetyData (mkInstance (speed_config p) (default 0 (calculate_crc32 (init_crc_tables crc_state_boot) (Some [44; 1]))) 0 true true
    :: replicate 63 instance_zero) 1 true cs_zero mem (init_crc_tables crc_state_boot).
(** 300 with its inverted copy. *)
Definition ram300 : gmap Z Z := <[100 := 44]> (<[101 := 1]> (<[200 := 211]> (<[201 := 254]> ram))).
Definition speed_instance (p : ProtectionMethod) : SafetyDataInstance :=
  mkInstance (speed_config p) (default 0 (calculate_crc32 (init_crc_tables crc_state_boot) (Some [44; 1]))) 0 true true.

Lemma speed_layout p mem : dom mem = {[100; 101; 200; 201]} -> layout_ok (speed_config p) mem.
Proof.
  intros Hd. assert (Hm : forall a, a = 100 \/ a = 200 -> mapped mem a 2).
  { intros a Ha k Hk. apply elem_of_dom. rewrite Hd. assert (k = a \/ k = a + 1) as Hk' by lia. set_solver by lia. }
  unfold layout_ok, speed_config, disjoint; cbn. split_and!; [done|auto|]. intros _. split; [auto|lia].
Qed.
Lemma speed_in_use p mem : dom mem = {[100; 101; 200; 201]} -> in_use (with_speed p mem) 0 (speed_instance p).
Proof. intros Hd. split; [done|done|done|done|by apply speed_layout|done]. Qed.

Lemma safety_write_read_witness :
  wp (Safety_Data_Write 0 (Some [44; 1])) (fun r s' m' => r = true /\
    wp (Safety_Data_Read 0 true) (fun o _ m'' => o = Some [44; 1] /\ primask m'' = true) s' m')
    (with_speed PROTECTION_INVERSE ram) boot.
Proof.
  eapply wp_mono; [apply (safety_write_read 0 [44; 1] (with_speed PROTECTION_INVERSE ram) boot (speed_instance PROTECTION_INVERSE) true)|].
  - apply speed_in_use. by vm_compute.
  - by vm_compute.
  - done.
  - repeat constructor; unfold is_u8; lia.
  - intros r s' m' (-> & _ & H). done.
Defined.
Lemma speed_protects : protects (with_speed PROTECTION_INVERSE ram300) 0 (speed_instance PROTECTION_INVERSE) [44; 1].
Proof.
  split; [done|done|apply speed_layout; by vm_compute|by vm_compute| |by vm_compute]. intros _. by vm_compute.
Qed.
Lemma corruption_detected_witness :
  wp (Safety_Data_Verify 0) (fun ok _ _ => ok = false) (with_speed PROTECTION_INVERSE (<[100 := 45]> ram300)) boot.
Proof.
  eapply wp_mono; [apply (corruption_detected 0 (with_speed PROTECTION_INVERSE ram300) boot (speed_instance PROTECTION_INVERSE) [44; 1]
    (<[100 := 45]> ram300) [45; 1])|].
  - apply speed_in_use. by vm_compute.
  - apply speed_protects.
  - repeat constructor; unfold is_u8; lia.
  - repeat constructor; unfold is_u8; lia.
  - apply speed_layout. by vm_compute.
  - by vm_compute.
  - intros _. by vm_compute.
  - intros ok s' m' (-> & _). by vm_compute.
Defined.
Lemma restore_recovers_witness :
  wp (Safety_Data_Restore 0) (fun ok _ _ => ok = true) (with_speed PROTECTION_INVERSE (<[100 := 45]> ram300)) boot.
Proof.
  eapply wp_mono; [apply (restore_recovers 0 (with_speed PROTECTION_INVERSE ram300) boot (speed_instance PROTECTION_INVERSE) [44; 1]
    (<[100 := 45]> ram300))|].
  - apply speed_in_use. by vm_compute.
  - apply speed_protects.
  - repeat constructor; unfold is_u8; lia.
  - done.
  - by right.
  - apply speed_layout. by vm_compute.
  - by vm_compute.
  - by intros ok s' m' (-> & _).
Defined.
