(* ===== verification/Mutex.v ===== *)
(** * The process-wide mutex and the logger behind it

    [diagnostic/os/critical.c] on a host with threads: [enter_critical] and
    [exit_critical] lock and unlock one static [pthread_mutex_t] of the default kind.
    Locking it while this thread holds it blocks for ever, and unlocking it when it is not
    held is undefined: both are [fault].  (On Windows the file uses a [CRITICAL_SECTION],
    which the thread that holds it may enter again; that branch is not modelled.)  [diagnostic/logging/diag_logger.c] writes an entry
    under the same mutex, so a component that logs while it holds the mutex stops there.
    [HasMutex] is the interface of a component that runs under both; the text of the
    entries is left out. *)

From S2P Require Import Prelude Machine.

Inductive LogLevel := LOG_LEVEL_DEBUG | LOG_LEVEL_INFO | LOG_LEVEL_WARNING | LOG_LEVEL_ERROR | LOG_LEVEL_CRITICAL.
Definition level_code (l : LogLevel) : Z :=
  match l with
  | LOG_LEVEL_DEBUG => 0 | LOG_LEVEL_INFO => 1 | LOG_LEVEL_WARNING => 2 | LOG_LEVEL_ERROR => 3 | LOG_LEVEL_CRITICAL => 4
  end.

(** [log_min] is the logger's [min_level], [None] while the logger is not initialised. *)
Class HasMutex (S : Type) := {
  locked : S -> bool;
  set_locked : bool -> S -> S;
  log_min : S -> option LogLevel;
  locked_set b s : locked (set_locked b s) = b;
  set_locked_set b c s : set_locked b (set_locked c s) = set_locked b s;
  set_locked_id s : set_locked (locked s) s = s;
  log_min_set b s : log_min (set_locked b s) = log_min s }.

Section mutex.
Context {S : Type} `{HasMutex S}.

Definition lock : M S unit := s ← get; if locked s then fault else modify (set_locked true).
Definition unlock : M S unit := s ← get; if locked s then modify (set_locked false) else fault.

(** Whether an entry of this level is written. *)
Definition logs (min : option LogLevel) (level : LogLevel) : bool :=
  match min with None => false | Some min => level_code min <=? level_code level end.
Definition Logger_Log (level : LogLevel) : M S unit :=
  s ← get; if logs (log_min s) level then lock;; unlock else mret tt.

Lemma wp_lock_free Q (s : S) m : locked s = false -> Q tt (set_locked true s) m -> wp lock Q s m.
Proof. intros Hl HQ. unfold lock. do 2 wp_step. by rewrite Hl. Qed.
Lemma wp_unlock_held Q (s : S) m : locked s = true -> Q tt (set_locked false s) m -> wp unlock Q s m.
Proof. intros Hl HQ. unfold unlock. do 2 wp_step. by rewrite Hl. Qed.
Lemma lock_held_blocks (s : S) m : locked s = true -> lock s m = None.
Proof. intros Hl. unfold lock. apply undefined_bind, wp_get. by rewrite Hl. Qed.

(** Logging does nothing while the logger is silent or the mutex is free, and stops the
    thread otherwise. *)
Lemma wp_log_silent level Q (s : S) m : logs (log_min s) level = false -> Q tt s m -> wp (Logger_Log level) Q s m.
Proof. intros Hs HQ. unfold Logger_Log. do 2 wp_step. rewrite Hs. by apply wp_ret. Qed.
Lemma wp_log_free level Q (s : S) m : locked s = false -> Q tt s m -> wp (Logger_Log level) Q s m.
Proof.
  intros Hl HQ. unfold Logger_Log. do 2 wp_step. destruct (logs _ _); [|by apply wp_ret].
  apply wp_bind, wp_lock_free; [done|]. apply wp_unlock_held; [apply locked_set|].
  rewrite set_locked_set, <- Hl, set_locked_id. exact HQ.
Qed.
Lemma log_held_blocks level (s : S) m : locked s = true -> logs (log_min s) level = true -> Logger_Log level s m = None.
Proof.
  intros Hl Hs. unfold Logger_Log. apply undefined_bind, wp_get. rewrite Hs.
  by apply undefined_bind', lock_held_blocks.
Qed.
End mutex.

(** Symbolic execution under the mutex. *)
Ltac mwp_step :=
  match goal with
  | |- wp lock _ _ _ => apply wp_lock_free; [done|]; simpl
  | |- wp unlock _ _ _ => apply wp_unlock_held; [done|]; simpl
  | |- _ => wp_step
  end.
