(* ===== verification/SessionFsm.v ===== *)
(** * Session state machine

    [diagnostic/session/session_fsm.c]: up to sixteen concurrent sessions, each a state
    machine driven by a transition table, with S3 and P2 supervision, under the
    process-wide mutex.

    [clock] is what [Timer_GetMilliseconds] returns; it does not move during a call.
    [event_data] is the array behind the pointer, empty for NULL; reading past it is
    undefined behaviour.  Logging takes the mutex (see [Mutex]); the texts are left out.
    [Session_FSM_GetSessionContext] is declared in the header and defined nowhere. *)

From S2P Require Import Prelude Slots Machine Mutex.

Definition MAX_SESSIONS : nat := 16.
Definition SESSION_TIMEOUT_CHECK_INTERVAL_MS : Z := 100.

Inductive SessionState :=
  SESSION_STATE_DEFAULT | SESSION_STATE_PROGRAMMING | SESSION_STATE_EXTENDED | SESSION_STATE_SAFETY
| SESSION_STATE_SUPPLIER | SESSION_STATE_EOL.
Inductive SessionEvent :=
  SESSION_EVENT_TIMEOUT | SESSION_EVENT_REQUEST | SESSION_EVENT_RESPONSE | SESSION_EVENT_SECURITY_ACCESS
| SESSION_EVENT_SECURITY_DENIED | SESSION_EVENT_ERROR | SESSION_EVENT_RESET.
#[export] Instance SessionState_eq_dec : EqDecision SessionState.
Proof. solve_decision. Defined.

Record SessionContext := mkSession {
  session_id : Z; current_state : SessionState; state_entry_time : Z; last_activity_time : Z;
  security_level : Z; pending_did : Z; pending_routine : Z; routine_active : bool; error_counter : Z }.
#[export] Instance eta_SessionContext : Eta SessionContext := fun c =>
  mkSession (session_id c) (current_state c) (state_entry_time c) (last_activity_time c) (security_level c)
    (pending_did c) (pending_routine c) (routine_active c) (error_counter c).
Definition session_zero : SessionContext := mkSession 0 SESSION_STATE_DEFAULT 0 0 0 0 0 false 0.
#[export] Instance SessionContext_slot : Slot SessionContext :=
  {| slot_used c := negb (session_id c =? 0); slot_key := session_id |}.

Record SessionFSMConfig := mkFsmConfig {
  p2_timeout_ms : Z; p2_star_timeout_ms : Z; s3_timeout_ms : Z; max_error_count : Z;
  require_security_access : bool; allow_nested_response : bool; auto_session_cleanup : bool }.
Definition fsm_config_zero : SessionFSMConfig := mkFsmConfig 0 0 0 0 false false false.

(** [fsm_ctx], the mutex, the logger and the clock.  The transition table is a static that
    [Session_FSM_Init] fills; [table_filled] says whether it has. *)
Record SessionFSM := mkFsm {
  sessions : list SessionContext; fsm_config : SessionFSMConfig; next_session_id : Z; active_sessions : Z;
  last_timeout_check : Z; fsm_initialized : bool; table_filled : bool; fsm_mutex : bool; fsm_logger : option LogLevel; clock : Z }.
#[export] Instance eta_SessionFSM : Eta SessionFSM := fun s =>
  mkFsm (sessions s) (fsm_config s) (next_session_id s) (active_sessions s) (last_timeout_check s)
    (fsm_initialized s) (table_filled s) (fsm_mutex s) (fsm_logger s) (clock s).
#[export, refine] Instance SessionFSM_mutex : HasMutex SessionFSM :=
  {| locked := fsm_mutex; set_locked b s := s <| fsm_mutex := b |>; log_min := fsm_logger |}.
Proof. all: by intros; destruct s. Defined.
(** [memset(&fsm_ctx, 0, ...)]. *)
Definition fsm_clear (s : SessionFSM) : SessionFSM :=
  mkFsm (replicate MAX_SESSIONS session_zero) fsm_config_zero 0 0 0 false (table_filled s) (fsm_mutex s) (fsm_logger s)
    (clock s).

(** A byte of the event's data. *)
Definition data_at (data : list Z) (i : nat) : M SessionFSM Z :=
  match data !! i with Some b => mret b | None => fault end.
(** [sessions[i]] *)
Definition session_at (i : nat) : M SessionFSM SessionContext :=
  s ← get; match sessions s !! i with Some c => mret c | None => fault end.
Definition set_session (i : nat) (f : SessionContext -> SessionContext) : M SessionFSM unit :=
  modify (fun s => s <| sessions ::= alter f i |>).
Definition Timer_GetMilliseconds : M SessionFSM Z := s ← get; mret (clock s).

(** ** The handlers of the transition table *)

Definition forget (c : SessionContext) : SessionContext :=
  c <| security_level := 0 |> <| pending_did := 0 |> <| pending_routine := 0 |> <| routine_active := false |>
    <| error_counter := 0 |>.
Definition touch (i : nat) : M SessionFSM unit :=
  t ← Timer_GetMilliseconds; set_session i (fun c => c <| last_activity_time := t |>).

Definition handle_default_timeout (i : nat) (data : list Z) : M SessionFSM bool :=
  Logger_Log LOG_LEVEL_INFO;; set_session i forget;; mret true.
Definition handle_default_request (i : nat) (data : list Z) : M SessionFSM bool :=
  Logger_Log LOG_LEVEL_DEBUG;;
  b ← data_at data 0;
  if b =? 0x10 then touch i;; mret true else mret false.
Definition handle_programming_security (i : nat) (data : list Z) : M SessionFSM bool :=
  Logger_Log LOG_LEVEL_INFO;;
  c ← session_at i;
  s ← get;
  if max_error_count (fsm_config s) <=? error_counter c then Logger_Log LOG_LEVEL_WARNING;; mret false else
  b ← data_at data 0;
  if b =? 0x27 then
    l ← data_at data 1;
    set_session i (fun c => c <| security_level := l |> <| error_counter := 0 |>);;
    mret true
  else
    set_session i (fun c => c <| error_counter ::= fun n => u8 (n + 1) |>);;
    mret false.
Definition handle_extended_request (i : nat) (data : list Z) : M SessionFSM bool :=
  Logger_Log LOG_LEVEL_DEBUG;;
  c ← session_at i;
  s ← get;
  if require_security_access (fsm_config s) && (security_level c =? 0) then Logger_Log LOG_LEVEL_WARNING;; mret false else
  touch i;; mret true.
(** The error code goes to the log, so it is read. *)
Definition handle_safety_error (i : nat) (data : list Z) : M SessionFSM bool :=
  data_at data 0;;
  Logger_Log LOG_LEVEL_ERROR;;
  set_session i (fun c => c <| error_counter ::= fun n => u8 (n + 1) |>);;
  c ← session_at i;
  s ← get;
  if max_error_count (fsm_config s) <=? error_counter c then Logger_Log LOG_LEVEL_CRITICAL;; mret true else mret false.
Definition handle_supplier_response (i : nat) (data : list Z) : M SessionFSM bool :=
  Logger_Log LOG_LEVEL_DEBUG;;
  c ← session_at i;
  s ← get;
  if negb (allow_nested_response (fsm_config s)) && negb (pending_did c =? 0) then Logger_Log LOG_LEVEL_WARNING;; mret false else
  touch i;; mret true.
Definition handle_eol_reset (i : nat) (data : list Z) : M SessionFSM bool :=
  Logger_Log LOG_LEVEL_INFO;; set_session i forget;; mret true.

(** [state_transitions] as [initialize_state_transitions] fills it: the next state and the
    handler, [None] for an entry without a handler. *)
Definition state_transitions (st : SessionState) (e : SessionEvent)
  : option (SessionState * (nat -> list Z -> M SessionFSM bool)) :=
  match st, e with
  | SESSION_STATE_DEFAULT, SESSION_EVENT_TIMEOUT => Some (SESSION_STATE_DEFAULT, handle_default_timeout)
  | SESSION_STATE_DEFAULT, SESSION_EVENT_REQUEST => Some (SESSION_STATE_EXTENDED, handle_default_request)
  | SESSION_STATE_PROGRAMMING, SESSION_EVENT_SECURITY_ACCESS =>
      Some (SESSION_STATE_PROGRAMMING, handle_programming_security)
  | SESSION_STATE_EXTENDED, SESSION_EVENT_REQUEST => Some (SESSION_STATE_EXTENDED, handle_extended_request)
  | SESSION_STATE_SAFETY, SESSION_EVENT_ERROR => Some (SESSION_STATE_DEFAULT, handle_safety_error)
  | SESSION_STATE_SUPPLIER, SESSION_EVENT_RESPONSE => Some (SESSION_STATE_SUPPLIER, handle_supplier_response)
  | SESSION_STATE_EOL, SESSION_EVENT_RESET => Some (SESSION_STATE_DEFAULT, handle_eol_reset)
  | _, _ => None
  end.

(** ** The functions *)

Definition Session_FSM_Init (config : option SessionFSMConfig) : M SessionFSM bool :=
  match config with
  | None => mret false
  | Some config =>
      modify fsm_clear;;
      modify (fun s => s <| fsm_config := config |> <| table_filled := true |> <| next_session_id := 1 |>);;
      t ← Timer_GetMilliseconds;
      modify (fun s => s <| last_timeout_check := t |> <| fsm_initialized := true |>);;
      Logger_Log LOG_LEVEL_INFO;;
      mret true
  end.
Definition Session_FSM_Deinit : M SessionFSM unit := Logger_Log LOG_LEVEL_INFO;; modify fsm_clear.

(** [for (i = 0; i < MAX_SESSIONS; i++) if (sessions[i].session_id == id)]. *)
Definition find_session (id : Z) (s : SessionFSM) : option nat :=
  find_idx (fun c => session_id c =? id) MAX_SESSIONS (sessions s).

Definition Session_FSM_CreateSession (out : bool) : M SessionFSM (bool * option Z) :=
  s ← get;
  if negb (fsm_initialized s) || negb out then mret (false, None) else
  lock;;
  if Z.of_nat MAX_SESSIONS <=? active_sessions s then unlock;; Logger_Log LOG_LEVEL_ERROR;; mret (false, None) else
  match find_session 0 s with
  | Some i =>
      let id := next_session_id s in
      modify (fun s => s <| next_session_id := u32 (id + 1) |>);;
      t ← Timer_GetMilliseconds;
      set_session i (fun c => c <| session_id := id |> <| current_state := SESSION_STATE_DEFAULT |>
                                <| state_entry_time := t |> <| last_activity_time := t |>);;
      modify (fun s => s <| active_sessions ::= fun n => u32 (n + 1) |>);;
      unlock;;
      Logger_Log LOG_LEVEL_INFO;;
      mret (true, Some id)
  | None => unlock;; mret (false, None)
  end.

Definition Session_FSM_DestroySession (id : Z) : M SessionFSM bool :=
  s ← get;
  if negb (fsm_initialized s) || (id =? 0) then mret false else
  lock;;
  match find_session id s with
  | Some i =>
      Logger_Log LOG_LEVEL_INFO;;
      set_session i (fun _ => session_zero);;
      modify (fun s => s <| active_sessions ::= fun n => u32 (n - 1) |>);;
      unlock;;
      mret true
  | None => unlock;; mret false
  end.

(** [event] is within the enumeration, so the test [event >= SESSION_EVENT_COUNT] does not
    fire. *)
Definition Session_FSM_HandleEvent (id : Z) (event : SessionEvent) (data : list Z) : M SessionFSM bool :=
  s ← get;
  if negb (fsm_initialized s) then mret false else
  lock;;
  match find_session id s with
  | None => unlock;; mret false
  | Some i =>
      c ← session_at i;
      match (if table_filled s then state_transitions (current_state c) event else None) with
      | None => Logger_Log LOG_LEVEL_WARNING;; unlock;; mret false
      | Some (next_state, handler) =>
          result ← handler i data;
          (if result : bool then
             t ← Timer_GetMilliseconds;
             set_session i (fun c => c <| current_state := next_state |> <| state_entry_time := t |>);;
             Logger_Log LOG_LEVEL_INFO
           else mret tt);;
          unlock;;
          mret result
      end
  end.

(** The body of the loop of [Session_FSM_ProcessTimeouts]. *)
Definition check_session (now : Z) (i : nat) : M SessionFSM unit :=
  c ← session_at i;
  s ← get;
  if session_id c =? 0 then mret tt else
  if s3_timeout_ms (fsm_config s) <? u32 (now - last_activity_time c) then
    Logger_Log LOG_LEVEL_WARNING;;
    Session_FSM_HandleEvent (session_id c) SESSION_EVENT_TIMEOUT [];;
    if auto_session_cleanup (fsm_config s) then
      c ← session_at i; Session_FSM_DestroySession (session_id c);; mret tt
    else mret tt
  else if negb (pending_did c =? 0) || negb (pending_routine c =? 0) then
    let timeout := if routine_active c then p2_star_timeout_ms (fsm_config s) else p2_timeout_ms (fsm_config s) in
    if timeout <? u32 (now - state_entry_time c) then
      Logger_Log LOG_LEVEL_WARNING;;
      Session_FSM_HandleEvent (session_id c) SESSION_EVENT_TIMEOUT [];; mret tt
    else mret tt
  else mret tt.
Fixpoint timeouts_loop (now : Z) (n i : nat) : M SessionFSM unit :=
  match n with O => mret tt | S n => check_session now i;; timeouts_loop now n (S i) end.

Definition Session_FSM_ProcessTimeouts : M SessionFSM unit :=
  s ← get;
  if negb (fsm_initialized s) then mret tt else
  now ← Timer_GetMilliseconds;
  if u32 (now - last_timeout_check s) <? SESSION_TIMEOUT_CHECK_INTERVAL_MS then mret tt else
  lock;;
  modify (fun s => s <| last_timeout_check := now |>);;
  timeouts_loop now MAX_SESSIONS 0;;
  unlock.

Definition Session_FSM_UpdateActivity (id : Z) : M SessionFSM bool :=
  s ← get;
  if negb (fsm_initialized s) then mret false else
  lock;;
  match find_session id s with
  | Some i => touch i;; unlock;; mret true
  | None => unlock;; mret false
  end.
Definition Session_FSM_GetActiveSessionCount : M SessionFSM Z := s ← get; mret (active_sessions s).

(** ** Sessions as a map *)

Definition session_map (s : SessionFSM) : gmap Z SessionContext := slot_map (sessions s).

(** What an event does to a session: the answer and the session afterwards; [None] when
    the handler reads past the event's data. *)
Definition enter_state (st : SessionState) (now : Z) (c : SessionContext) : SessionContext :=
  c <| current_state := st |> <| state_entry_time := now |>.
Definition react (cfg : SessionFSMConfig) (now : Z) (c : SessionContext) (e : SessionEvent) (data : list Z)
  : option (bool * SessionContext) :=
  let active := c <| last_activity_time := now |> in
  match current_state c, e with
  | SESSION_STATE_DEFAULT, SESSION_EVENT_TIMEOUT => Some (true, enter_state SESSION_STATE_DEFAULT now (forget c))
  | SESSION_STATE_DEFAULT, SESSION_EVENT_REQUEST =>
      b ← data !! 0%nat;
      Some (if b =? 0x10 then (true, enter_state SESSION_STATE_EXTENDED now active) else (false, c))
  | SESSION_STATE_PROGRAMMING, SESSION_EVENT_SECURITY_ACCESS =>
      if max_error_count cfg <=? error_counter c then Some (false, c) else
      b ← data !! 0%nat;
      if b =? 0x27 then
        l ← data !! 1%nat;
        Some (true, enter_state SESSION_STATE_PROGRAMMING now (c <| security_level := l |> <| error_counter := 0 |>))
      else Some (false, c <| error_counter ::= fun n => u8 (n + 1) |>)
  | SESSION_STATE_EXTENDED, SESSION_EVENT_REQUEST =>
      Some (if require_security_access cfg && (security_level c =? 0) then (false, c)
            else (true, enter_state SESSION_STATE_EXTENDED now active))
  | SESSION_STATE_SAFETY, SESSION_EVENT_ERROR =>
      _ ← data !! 0%nat;
      let c := c <| error_counter ::= fun n => u8 (n + 1) |> in
      Some (if max_error_count cfg <=? error_counter c then (true, enter_state SESSION_STATE_DEFAULT now c)
            else (false, c))
  | SESSION_STATE_SUPPLIER, SESSION_EVENT_RESPONSE =>
      Some (if negb (allow_nested_response cfg) && negb (pending_did c =? 0) then (false, c)
            else (true, enter_state SESSION_STATE_SUPPLIER now active))
  | SESSION_STATE_EOL, SESSION_EVENT_RESET => Some (true, enter_state SESSION_STATE_DEFAULT now (forget c))
  | _, _ => Some (false, c)
  end.

Lemma react_id cfg now c e data b c' : react cfg now c e data = Some (b, c') -> session_id c' = session_id c.
Proof.
  unfold react. intros Hr. destruct (current_state c), e, data as [|b0 [|b1 data]]; cbn in Hr; simplify_eq/=;
    try done; repeat (case_match; simplify_eq/=; try done).
Qed.

(** An initialised machine between calls, the logger not initialised. *)
Record fsm_shape (s : SessionFSM) : Prop := mkFsmShape {
  fo_len : length (sessions s) = MAX_SESSIONS;
  fo_init : fsm_initialized s = true;
  fo_table : table_filled s = true;
  fo_mutex : fsm_mutex s = false;
  fo_quiet : fsm_logger s = None }.
(** Its sessions are a map whose identifiers have all been handed out. *)
Record fsm_ok (s : SessionFSM) : Prop := mkFsmOk {
  fo_shape : fsm_shape s;
  fo_uniq : slots_uniq (sessions s);
  fo_count : active_sessions s = Z.of_nat (size (session_map s));
  fo_ids : map_Forall (fun id _ => 0 < id < next_session_id s) (session_map s);
  fo_next : 0 < next_session_id s }.

Lemma used_session c : slot_used c = true <-> session_id c <> 0.
Proof. cbn. destruct (session_id c =? 0) eqn:E; tests; split; done || lia. Qed.

(** The search finds the slot of a session that exists, and [0] finds a free one. *)
Lemma find_session_Some s id i :
  find_session id s = Some i -> exists c, sessions s !! i = Some c /\ session_id c = id.
Proof. intros (c & Hc & _ & Hi & _)%find_idx_Some. tests. eauto. Qed.
Lemma find_session_None s id : fsm_ok s -> id <> 0 -> find_session id s = None -> session_map s !! id = None.
Proof.
  intros Hs Hid Hn%find_idx_None. destruct (session_map s !! id) as [c|] eqn:E; [|done]. exfalso.
  apply slot_map_inv in E as (i & Hi & _ & Hk); [|apply Hs].
  rewrite take_ge in Hn by (by rewrite (fo_len _ (fo_shape _ Hs))). rewrite Forall_lookup in Hn.
  specialize (Hn i c Hi). cbn in Hn, Hk. tests. done.
Qed.
Lemma find_session_map s id i c :
  fsm_ok s -> id <> 0 -> find_session id s = Some i -> sessions s !! i = Some c -> session_map s !! id = Some c.
Proof.
  intros Hs Hid Hf Hc. apply find_session_Some in Hf as (c' & Hc' & <-).
  rewrite Hc in Hc'. injection Hc' as <-. refine (slot_map_Some (sessions s) i c (fo_uniq _ Hs) Hc _). by apply used_session.
Qed.
Lemma find_free_session s : find_session 0 s = find_free MAX_SESSIONS (sessions s).
Proof.
  unfold find_session, find_free, find_idx. f_equal. apply list_find_ext. intros c. cbn.
  by destruct (session_id c =? 0).
Qed.

(** ** The operations *)

(** One slot rewritten, the rest of the statics as before. *)
Definition put (i : nat) (c : SessionContext) (s : SessionFSM) : SessionFSM := s <| sessions ::= <[i := c]> |>.

Lemma set_session_put i f s c : sessions s !! i = Some c -> s <| sessions ::= alter f i |> = put i (f c) s.
Proof. intros Hc. unfold put. cbn. by rewrite (alter_as_insert f i c). Qed.

Lemma wp_session_at i c Q s m : sessions s !! i = Some c -> Q c s m -> wp (session_at i) Q s m.
Proof. intros Hc HQ. unfold session_at. do 2 wp_step. by rewrite Hc. Qed.
Lemma wp_set_session i f c Q s m :
  sessions s !! i = Some c -> Q tt (put i (f c) s) m -> wp (set_session i f) Q s m.
Proof. intros Hc HQ. unfold set_session. apply wp_modify. by rewrite (set_session_put i f s c). Qed.
Lemma wp_touch i c Q s m :
  sessions s !! i = Some c -> Q tt (put i (c <| last_activity_time := clock s |>) s) m -> wp (touch i) Q s m.
Proof. intros Hc HQ. unfold touch, Timer_GetMilliseconds. do 4 wp_step. by eapply wp_set_session. Qed.
Lemma wp_data_at data i b Q s m : data !! i = Some b -> Q b s m -> wp (data_at data i) Q s m.
Proof. intros Hb HQ. unfold data_at. by rewrite Hb. Qed.
Lemma put_put i c d s : put i c (put i d s) = put i c s.
Proof. unfold put. cbn. by rewrite list_insert_insert_eq. Qed.
Lemma put_lookup i c s x : sessions s !! i = Some x -> sessions (put i c s) !! i = Some c.
Proof. intros Hx. apply list_lookup_insert_eq. by eapply lookup_lt_Some. Qed.
Lemma put_id i c s : sessions s !! i = Some c -> put i c s = s.
Proof. intros Hc. unfold put. cbn. rewrite list_insert_id by done. by destruct s. Qed.

(** Symbolic execution of a handler and of what follows it. *)
Ltac hstep :=
  match goal with
  | |- wp (data_at _ _) _ _ _ => eapply wp_data_at; [reflexivity|]
  | H : sessions ?s !! ?i = Some ?c |- wp (session_at ?i) _ ?s _ => eapply wp_session_at; [exact H|]
  | H : sessions ?s !! ?i = Some ?c |- wp (session_at ?i) _ (put ?i _ ?s) _ =>
      eapply wp_session_at; [eapply put_lookup; exact H|]
  | H : sessions ?s !! ?i = Some ?c |- wp (set_session ?i _) _ ?s _ => eapply wp_set_session; [exact H|]
  | H : sessions ?s !! ?i = Some ?c |- wp (touch ?i) _ ?s _ => eapply wp_touch; [exact H|]
  | |- wp (mbind _ _) _ _ _ => apply wp_bind
  | |- wp (mret _) _ _ _ => apply wp_ret
  | |- wp unlock _ _ _ => apply wp_unlock_held; [done|]
  | H : fsm_logger ?s = None |- wp (Logger_Log _) _ _ _ => apply wp_log_silent; [cbn; by rewrite H|]
  | |- wp get _ _ _ => apply wp_get
  | E : ?b = _ |- wp (if ?b then _ else _) _ _ _ => rewrite E
  end.

(** A handler and what [Session_FSM_HandleEvent] does after it. *)
Definition conclude (next : SessionState) (i : nat) (h : M SessionFSM bool) : M SessionFSM bool :=
  result ← h;
  (if result : bool then
     t ← Timer_GetMilliseconds;
     set_session i (fun c => c <| current_state := next |> <| state_entry_time := t |>);;
     Logger_Log LOG_LEVEL_INFO
   else mret tt);;
  unlock;;
  mret result.

Lemma conclude_spec next i h s m (b : bool) c0 c1 :
  sessions s !! i = Some c0 -> locked s = true -> fsm_logger s = None ->
  wp h (fun r s' m' => r = b /\ s' = put i c1 s /\ m' = m) s m ->
  wp (conclude next i h) (fun r s' m' => r = b /\ m' = m /\
    s' = set_locked false (put i (if b then enter_state next (clock s) c1 else c1) s)) s m.
Proof.
  intros Hc Hl Hq Hh. unfold conclude. apply wp_bind. eapply wp_mono; [exact Hh|].
  intros r s' m' (-> & -> & ->). apply wp_bind. destruct b.
  - unfold Timer_GetMilliseconds. do 4 wp_step. apply wp_bind. eapply wp_set_session; [by eapply put_lookup|].
    rewrite put_put. hstep. apply wp_bind, wp_unlock_held; [done|]. by apply wp_ret.
  - apply wp_ret, wp_bind, wp_unlock_held; [done|]. by apply wp_ret.
Qed.

(** Each handler, by what it answers and leaves behind. *)
Definition handles (s : SessionFSM) (m : Machine) (i : nat) (next : SessionState) (h : M SessionFSM bool)
  (b : bool) (c' : SessionContext) : Prop :=
  exists c1, c' = (if b then enter_state next (clock s) c1 else c1) /\
    wp h (fun r s' m' => r = b /\ s' = put i c1 s /\ m' = m) s m.

Ltac hdone := cbv beta; repeat hstep; split_and!; [done| |done]; first [reflexivity | symmetry; by apply put_id].

Lemma handlers_react s m i c e data next handler b c' :
  sessions s !! i = Some c -> fsm_logger s = None -> state_transitions (current_state c) e = Some (next, handler) ->
  react (fsm_config s) (clock s) c e data = Some (b, c') -> handles s m i next (handler i data) b c'.
Proof.
  intros Hc Hq Ht Hr. unfold react in Hr. unfold handles.
  destruct (current_state c), e; try discriminate Ht; injection Ht as <- <-.
  - injection Hr as <- <-. exists (forget c). split; [done|]. unfold handle_default_timeout. hdone.
  - destruct data as [|x data]; [done|]. cbn in Hr. unfold handle_default_request.
    destruct (x =? 0x10) eqn:E; injection Hr as <- <-; eexists; (split; [done|]); hdone.
  - unfold handle_programming_security. destruct (max_error_count _ <=? error_counter c) eqn:E.
    { injection Hr as <- <-. exists c. split; [done|]. hdone. }
    destruct data as [|x data]; [done|]. cbn in Hr. destruct (x =? 0x27) eqn:E2.
    + destruct data as [|l data]; [done|]. cbn in Hr. injection Hr as <- <-. eexists. split; [done|]. hdone.
    + injection Hr as <- <-. eexists. split; [done|]. hdone.
  - unfold handle_extended_request. destruct (require_security_access _ && _) eqn:E;
      injection Hr as <- <-; eexists; (split; [done|]); hdone.
  - unfold handle_safety_error. destruct data as [|x data]; [done|]. cbn in Hr.
    destruct (max_error_count _ <=? _) eqn:E; injection Hr as <- <-; eexists; (split; [done|]).
    + cbv beta; repeat hstep. cbn. rewrite E. by hdone.
    + cbv beta; repeat hstep. cbn. rewrite E. by hdone.
  - unfold handle_supplier_response. destruct (negb _ && _) eqn:E;
      injection Hr as <- <-; eexists; (split; [done|]); hdone.
  - injection Hr as <- <-. exists (forget c). split; [done|]. unfold handle_eol_reset. hdone.
Qed.

Lemma react_idle cfg now c e data : state_transitions (current_state c) e = None -> react cfg now c e data = Some (false, c).
Proof. unfold react. by destruct (current_state c), e. Qed.

Lemma handle_event_spec id e data s m i c b c' :
  fsm_shape s -> find_session id s = Some i -> sessions s !! i = Some c ->
  react (fsm_config s) (clock s) c e data = Some (b, c') ->
  wp (Session_FSM_HandleEvent id e data) (fun r s' m' => r = b /\ s' = put i c' s /\ m' = m) s m.
Proof.
  intros [Hl Hi Ht Hm Hq] Hf Hc Hr. unfold Session_FSM_HandleEvent. do 2 wp_step. rewrite Hi. cbn [negb].
  wp_step. apply wp_lock_free; [done|]. rewrite Hf, Ht. apply wp_bind. eapply wp_session_at; [exact Hc|].
  destruct (state_transitions (current_state c) e) as [[next h]|] eqn:He.
  - destruct (handlers_react (set_locked true s) m i c e data next h b c') as (c1 & -> & Hh); [done..|].
    eapply wp_mono; [apply (conclude_spec next i (h i data) (set_locked true s) m b c c1); [exact Hc|done|exact Hq|exact Hh]|].
    intros r s' m' (-> & -> & ->). split_and!; [done| |done]. destruct s; cbn in *. by subst.
  - rewrite react_idle in Hr by done. injection Hr as <- <-.
    do 2 hstep. apply wp_bind, wp_unlock_held; [done|]. apply wp_ret. split_and!; [done| |done].
    rewrite put_id by done. destruct s; cbn in *. by subst.
Qed.
Lemma handle_event_absent id e data s m :
  fsm_shape s -> find_session id s = None ->
  wp (Session_FSM_HandleEvent id e data) (fun r s' m' => r = false /\ s' = s /\ m' = m) s m.
Proof.
  intros [Hl Hi Ht Hm Hq] Hf. unfold Session_FSM_HandleEvent. do 2 wp_step. rewrite Hi. cbn [negb].
  wp_step. apply wp_lock_free; [done|]. rewrite Hf. apply wp_bind, wp_unlock_held; [done|]. apply wp_ret.
  split_and!; [done| |done]. destruct s; cbn in *. by subst.
Qed.

Definition new_session (id now : Z) (c : SessionContext) : SessionContext :=
  c <| session_id := id |> <| current_state := SESSION_STATE_DEFAULT |> <| state_entry_time := now |>
    <| last_activity_time := now |>.
Lemma create_spec s m :
  fsm_shape s ->
  wp (Session_FSM_CreateSession true) (fun r s' m' => m' = m /\
    match find_session 0 s with
    | Some i => if Z.of_nat MAX_SESSIONS <=? active_sessions s then r = (false, None) /\ s' = s
                else r = (true, Some (next_session_id s)) /\ exists c, sessions s !! i = Some c /\ session_id c = 0 /\
                  s' = (put i (new_session (next_session_id s) (clock s) c) s)
                    <| next_session_id := u32 (next_session_id s + 1) |>
                    <| active_sessions := u32 (active_sessions s + 1) |>
    | None => r = (false, None) /\ s' = s
    end) s m.
Proof.
  intros [Hl Hi Ht Hm Hq]. unfold Session_FSM_CreateSession. do 2 wp_step. rewrite Hi. cbn [negb orb].
  wp_step. apply wp_lock_free; [done|].
  destruct (find_session 0 s) as [i|] eqn:Hf; destruct (_ <=? _).
  2: { destruct (find_session_Some s 0 i Hf) as (c & Hc & H0).
       do 2 wp_step. unfold Timer_GetMilliseconds. do 4 wp_step. apply wp_bind.
       eapply wp_set_session; [exact Hc|]. do 2 wp_step. repeat hstep.
       split; [done|]. split; [done|]. exists c. split_and!; [done..|]. destruct s; cbn in *. by subst. }
  all: repeat hstep; split_and!; [done..|]; destruct s; cbn in *; by subst.
Qed.
Lemma destroy_spec id s m :
  fsm_shape s -> id <> 0 ->
  wp (Session_FSM_DestroySession id) (fun r s' m' => m' = m /\
    match find_session id s with
    | Some i => r = true /\ s' = (put i session_zero s) <| active_sessions := u32 (active_sessions s - 1) |>
    | None => r = false /\ s' = s
    end) s m.
Proof.
  intros [Hl Hi Ht Hm Hq] Hid. unfold Session_FSM_DestroySession. do 2 wp_step.
  rewrite Hi, (proj2 (Z.eqb_neq _ _) Hid). cbn [negb orb]. wp_step. apply wp_lock_free; [done|].
  destruct (find_session id s) as [i|] eqn:Hf.
  - destruct (find_session_Some s id i Hf) as (c & Hc & _). do 2 hstep. apply wp_bind. eapply wp_set_session; [exact Hc|].
    do 2 wp_step. repeat hstep. split_and!; [done..|].
    destruct s; cbn in *. by subst.
  - repeat hstep; split_and!; [done..|]; destruct s; cbn in *; by subst.
Qed.
Lemma activity_spec id s m :
  fsm_shape s ->
  wp (Session_FSM_UpdateActivity id) (fun r s' m' => m' = m /\
    match find_session id s with
    | Some i => r = true /\ exists c, sessions s !! i = Some c /\ s' = put i (c <| last_activity_time := clock s |>) s
    | None => r = false /\ s' = s
    end) s m.
Proof.
  intros [Hl Hi Ht Hm Hq]. unfold Session_FSM_UpdateActivity. do 2 wp_step. rewrite Hi. cbn [negb].
  wp_step. apply wp_lock_free; [done|]. destruct (find_session id s) as [i|] eqn:Hf.
  - destruct (find_session_Some s id i Hf) as (c & Hc & _). apply wp_bind. eapply wp_touch; [exact Hc|].
    repeat hstep. split_and!; [done..|]. exists c. split; [done|].
    destruct s; cbn in *. by subst.
  - repeat hstep; split_and!; [done..|]; destruct s; cbn in *; by subst.
Qed.

(** ** Properties *)

Lemma react_defined cfg now c e data : (2 <= length data)%nat -> is_Some (react cfg now c e data).
Proof.
  intros Hd. destruct data as [|x [|y data]]; [simpl in Hd; lia..|].
  unfold react. destruct (current_state c), e; cbn; repeat case_match; eauto.
Qed.
Lemma put_shape i c s : fsm_shape s -> fsm_shape (put i c s).
Proof. intros []. split; cbn; try done. by rewrite length_insert. Qed.

Lemma session_in s i c :
  fsm_ok s -> sessions s !! i = Some c -> session_id c <> 0 -> session_map s !! session_id c = Some c.
Proof. intros Hs Hc H0. refine (slot_map_Some (sessions s) i c (fo_uniq _ Hs) Hc _). by apply used_session. Qed.
Lemma session_fresh s : fsm_ok s -> session_map s !! next_session_id s = None.
Proof.
  intros Hs. destruct (session_map s !! next_session_id s) as [x|] eqn:Hx; [|done].
  pose proof (fo_ids _ Hs _ _ Hx) as Hlt. cbn in Hlt. lia.
Qed.
Lemma sessions_bound s : fsm_ok s -> (size (session_map s) <= MAX_SESSIONS)%nat.
Proof.
  intros Hs. unfold session_map. rewrite (size_slot_map _ (fo_uniq _ Hs)).
  etrans; [apply length_filter|]. by rewrite (fo_len _ (fo_shape _ Hs)).
Qed.

Lemma put_update i c c' s :
  fsm_ok s -> sessions s !! i = Some c -> session_id c' = session_id c -> session_id c <> 0 ->
  fsm_ok (put i c' s) /\ session_map (put i c' s) = <[session_id c := c']> (session_map s).
Proof.
  intros Hs Hc Hid H0. pose proof (session_in s i c Hs Hc H0) as Hin. destruct Hs as [Hsh Hu Hn Hids Hnx].
  destruct (slot_update (sessions s) i c' c) as [Hu' Hm']; [done|by apply used_session| |done|done|].
  { apply used_session. by rewrite Hid. }
  assert (Hm : session_map (put i c' s) = <[session_id c := c']> (session_map s)) by (rewrite <- Hid; exact Hm').
  split; [|exact Hm]. split; [by apply put_shape|exact Hu'|..|done]; rewrite Hm.
  - change (active_sessions s = Z.of_nat (size (<[session_id c := c']> (session_map s)))).
    rewrite Hn. by rewrite map_size_insert_Some by (by exists c).
  - apply map_Forall_insert_2; [|done]. exact (Hids _ _ Hin).
Qed.

(** A new session in a free slot, and a slot blanked. *)
Lemma put_create i c s :
  fsm_ok s -> next_session_id s < 2 ^ 32 - 1 -> sessions s !! i = Some c -> session_id c = 0 ->
  let c' := new_session (next_session_id s) (clock s) c in
  let s' := (put i c' s) <| next_session_id := u32 (next_session_id s + 1) |>
                         <| active_sessions := u32 (active_sessions s + 1) |> in
  fsm_ok s' /\ session_map s' = <[next_session_id s := c']> (session_map s).
Proof.
  intros Hs Hnext Hc H0 c' s'. pose proof (session_fresh s Hs) as Hnone. pose proof (sessions_bound s Hs).
  destruct Hs as [Hsh Hu Hn Hids Hnx].
  destruct (slot_fill (sessions s) i c' c) as [Hu' Hm']; [done|..|done|exact Hnone|].
  { cbn. by rewrite H0. }
  { apply used_session. cbn. lia. }
  assert (Hm : session_map s' = <[next_session_id s := c']> (session_map s)) by exact Hm'.
  assert (Hnx' : next_session_id s' = next_session_id s + 1) by (apply u32_small; unfold is_u32; lia).
  split; [|exact Hm]. split; [apply (put_shape i c') in Hsh; destruct Hsh; split; done|exact Hu'|..].
  - rewrite Hm, map_size_insert_None by done. change (active_sessions s') with (u32 (active_sessions s + 1)).
    rewrite Hn, u32_small by (unfold is_u32, MAX_SESSIONS in *; lia). lia.
  - rewrite Hm, Hnx'. apply map_Forall_insert_2; [lia|].
    intros k x Hx. pose proof (Hids k x Hx). cbn in *. lia.
  - lia.
Qed.
Lemma put_destroy i c s :
  fsm_ok s -> sessions s !! i = Some c -> session_id c <> 0 ->
  let s' := (put i session_zero s) <| active_sessions := u32 (active_sessions s - 1) |> in
  fsm_ok s' /\ session_map s' = delete (session_id c) (session_map s).
Proof.
  intros Hs Hc H0 s'. pose proof (session_in s i c Hs Hc H0) as Hin. pose proof (sessions_bound s Hs).
  destruct Hs as [Hsh Hu Hn Hids Hnx].
  destruct (slot_blank (sessions s) i session_zero c) as [Hu' Hm']; [done|by apply used_session|done|done|].
  assert (Hm : session_map s' = delete (session_id c) (session_map s)) by exact Hm'.
  split; [|exact Hm]. split; [apply (put_shape i session_zero) in Hsh; destruct Hsh; split; done|exact Hu'|..|done].
  - rewrite Hm, map_size_delete_Some by (by exists c). change (active_sessions s') with (u32 (active_sessions s - 1)).
    assert (0 < size (session_map s))%nat.
    { apply Nat.neq_0_lt_0. rewrite map_size_ne_0_lookup. by exists (session_id c), c. }
    rewrite Hn, u32_small by (unfold is_u32, MAX_SESSIONS in *; lia). lia.
  - rewrite Hm. by apply map_Forall_delete.
Qed.

Lemma logs_debug min level : logs min LOG_LEVEL_DEBUG = true -> logs min level = true.
Proof. destruct min as [[]|], level; done. Qed.
Lemma stuck_log level {A} (k : unit -> M SessionFSM A) s m :
  fsm_mutex s = true -> logs (fsm_logger s) LOG_LEVEL_DEBUG = true -> (Logger_Log level ≫= k) s m = None.
Proof. intros Hm Hq. by apply undefined_bind', log_held_blocks, logs_debug. Qed.

(** A logger that writes everything stops the events of existing sessions. *)
Lemma logging_blocks s m id i e data :
  fsm_initialized s = true -> table_filled s = true -> fsm_mutex s = false ->
  logs (fsm_logger s) LOG_LEVEL_DEBUG = true -> find_session id s = Some i ->
  Session_FSM_HandleEvent id e data s m = None /\ (id <> 0 -> Session_FSM_DestroySession id s m = None).
Proof.
  intros Hi Ht Hm Hq Hf. destruct (find_session_Some s id i Hf) as (c & Hc & _). split.
  - unfold Session_FSM_HandleEvent. apply undefined_bind, wp_get. rewrite Hi. cbn [negb].
    apply undefined_bind, wp_lock_free; [done|]. rewrite Hf, Ht. apply undefined_bind.
    eapply wp_session_at; [exact Hc|].
    destruct (current_state c), e; cbn [state_transitions]; try (by apply stuck_log);
      apply undefined_bind'; try (by apply stuck_log).
    unfold handle_safety_error. destruct data as [|x data]; [by apply undefined_bind'|].
    apply undefined_bind. eapply wp_data_at; [reflexivity|]. by apply stuck_log.
  - intros Hid. unfold Session_FSM_DestroySession. apply undefined_bind, wp_get.
    rewrite Hi, (proj2 (Z.eqb_neq _ _) Hid). cbn [negb orb]. apply undefined_bind, wp_lock_free; [done|].
    rewrite Hf. by apply stuck_log.
Qed.

(** C22. The session slots implement a finite map of at most sixteen sessions, as long as
    the logger is not initialised and the identifiers have not been used up.
    [Session_FSM_CreateSession] adds a session in the default state under the next
    identifier and fails without effect exactly when the map is full;
    [Session_FSM_DestroySession] of an identifier other than 0 removes a session and
    answers whether it existed; [Session_FSM_HandleEvent] of an identifier other than 0,
    with at least the two bytes of data the handlers may read, answers and changes its own
    session as [react] says and touches no other; all keep the count of active sessions and
    leave the mutex free.  With a logger that writes every message, an event for an existing
    session and its destruction never return. *)
Theorem session_registry_refines s m :
  fsm_ok s -> next_session_id s < 2 ^ 32 - 1 ->
  wp (Session_FSM_CreateSession true) (fun r s' _ => fsm_ok s' /\
    if decide (size (session_map s) = MAX_SESSIONS) then r = (false, None) /\ s' = s
    else r = (true, Some (next_session_id s)) /\ exists c, current_state c = SESSION_STATE_DEFAULT /\
      session_map s' = <[next_session_id s := c]> (session_map s)) s m /\
  (forall id, id <> 0 -> wp (Session_FSM_DestroySession id) (fun r s' _ => fsm_ok s' /\
    r = bool_decide (is_Some (session_map s !! id)) /\ session_map s' = delete id (session_map s)) s m) /\
  (forall id e data, id <> 0 -> (2 <= length data)%nat ->
    wp (Session_FSM_HandleEvent id e data) (fun r s' _ => fsm_ok s' /\
      match session_map s !! id with
      | None => r = false /\ s' = s
      | Some c => exists c', react (fsm_config s) (clock s) c e data = Some (r, c') /\
                             session_map s' = <[id := c']> (session_map s)
      end) s m) /\
  (forall id e data, is_Some (session_map s !! id) ->
    let logged := s <| fsm_logger := Some LOG_LEVEL_DEBUG |> in
    Session_FSM_HandleEvent id e data logged m = None /\ Session_FSM_DestroySession id logged m = None).
Proof.
  intros Hs Hnext. pose proof (fo_shape _ Hs) as Hsh. split_and!.
  - eapply wp_mono; [by apply create_spec|]. intros r s' _ [_ Hr].
    pose proof (find_free_size MAX_SESSIONS (sessions s) (fo_uniq _ Hs) (fo_len _ Hsh)) as Hfree.
    rewrite find_free_session in Hr. fold (session_map s) in Hfree. destruct (find_free _ _) as [i|] eqn:Hf.
    + rewrite decide_False by lia. rewrite (fo_count _ Hs), (proj2 (Z.leb_gt _ _)) in Hr by lia.
      destruct Hr as (-> & c & Hc & H0 & ->). rewrite <- (fo_count _ Hs).
      destruct (put_create i c s Hs Hnext Hc H0) as [Hok Hm]. split; [exact Hok|]. split; [done|]. eexists. split; [|exact Hm]. done.
    + rewrite decide_True by done. by destruct Hr as [-> ->].
  - intros id Hid. eapply wp_mono; [by apply destroy_spec|]. intros r s' _ [_ Hr].
    destruct (find_session id s) as [i|] eqn:Hf; destruct Hr as [-> ->].
    + destruct (find_session_Some s id i Hf) as (c & Hc & <-).
      destruct (put_destroy i c s Hs Hc Hid) as [Hok Hm]. split; [done|].
      rewrite (session_in s i c Hs Hc Hid). split; [symmetry; apply bool_decide_eq_true_2; by exists c|exact Hm].
    + rewrite (find_session_None s id Hs Hid Hf). split; [done|]. split; [done|].
      symmetry. apply delete_id. by apply find_session_None.
  - intros id e data Hid Hd. destruct (find_session id s) as [i|] eqn:Hf.
    + destruct (find_session_Some s id i Hf) as (c & Hc & <-). rewrite (session_in s i c Hs Hc Hid).
      destruct (react_defined (fsm_config s) (clock s) c e data Hd) as [[b c'] Hr].
      eapply wp_mono; [by apply (handle_event_spec (session_id c) e data s m i c b c')|].
      intros r s' _ (-> & -> & _).
      destruct (put_update i c c' s Hs Hc (react_id _ _ _ _ _ _ _ Hr) Hid) as [Hok' Hm'].
      split; [done|]. by exists c'.
    + rewrite (find_session_None s id Hs Hid Hf).
      eapply wp_mono; [by apply handle_event_absent|]. intros r s' _ (-> & -> & _). done.
  - intros id e data [c Hc] logged. destruct (slot_map_inv _ _ _ (fo_uniq _ Hs) Hc) as (_ & _ & Hu & Hk).
    assert (Hid : id <> 0) by (rewrite <- Hk; by apply used_session).
    assert (Hf : find_session id logged <> None) by (intros Hn; rewrite (find_session_None s id Hs Hid Hn) in Hc; done).
    destruct (find_session id logged) as [i|] eqn:Ef; [|done]. destruct Hsh as [Hl Hi Ht Hm _].
    destruct (logging_blocks logged m id i e data); [done..|]. auto.
Qed.

Definition fsm0 : SessionFSM := mkFsm (replicate MAX_SESSIONS session_zero) fsm_config_zero 0 0 0 false false false None 1000.
Definition config0 : SessionFSMConfig := mkFsmConfig 50 5000 5000 3 true false true.
(** After [Session_FSM_Init], one session created. *)
Definition fsm1 : SessionFSM :=
  mkFsm (new_session 1 1000 session_zero :: replicate 15 session_zero) config0 2 1 1000 true true false None 1000.
Lemma fsm1_ok : fsm_ok fsm1.
Proof.
  split; [by split| |by vm_compute|by apply (bool_decide_unpack _); vm_compute|done].
  apply (bool_decide_unpack _). by vm_compute.
Qed.
Lemma session_registry_refines_witness : wp (Session_FSM_CreateSession true) (fun r s' _ =>
  r = (true, Some 2) /\ size (session_map s') = 2%nat) fsm1 boot.
Proof.
  destruct (session_registry_refines fsm1 boot fsm1_ok ltac:(done)) as [Hc _].
  eapply wp_mono; [exact Hc|]. intros r s' _ [_ Hr].
  rewrite decide_False in Hr by (by vm_compute). destruct Hr as (-> & c & _ & ->). split; [done|]. by vm_compute.
Defined.

(** ** What a session can become *)

(** The public functions as steps, with the passing of time. *)
Inductive fsm_call :=
| CallCreate | CallDestroy (id : Z) | CallEvent (id : Z) (e : SessionEvent) (data : list Z) | CallActivity (id : Z)
| CallTick (now : Z) | CallTimeouts | CallInit (cfg : option SessionFSMConfig) | CallDeinit.
Definition do_call (c : fsm_call) : M SessionFSM unit :=
  match c with
  | CallCreate => Session_FSM_CreateSession true;; mret tt
  | CallDestroy id => Session_FSM_DestroySession id;; mret tt
  | CallEvent id e data => Session_FSM_HandleEvent id e data;; mret tt
  | CallActivity id => Session_FSM_UpdateActivity id;; mret tt
  | CallTick now => modify (fun s => s <| clock := now |>)
  | CallTimeouts => Session_FSM_ProcessTimeouts
  | CallInit cfg => Session_FSM_Init cfg;; mret tt
  | CallDeinit => Session_FSM_Deinit
  end.
Fixpoint do_calls (l : list fsm_call) : M SessionFSM unit :=
  match l with [] => mret tt | c :: l => do_call c;; do_calls l end.
(** Calls that are sure to return: the handlers read at most two bytes of an event's data,
    and the supervision, which may stop for ever, is left out. *)
Definition call_ok (c : fsm_call) : Prop :=
  match c with
  | CallEvent _ _ data => (2 <= length data)%nat
  | CallTimeouts | CallInit _ | CallDeinit => False
  | _ => True
  end.

Definition confined (c : SessionContext) : Prop :=
  (current_state c = SESSION_STATE_DEFAULT \/ current_state c = SESSION_STATE_EXTENDED) /\
  security_level c = 0 /\ pending_did c = 0 /\ pending_routine c = 0 /\ error_counter c = 0.
Record confined_fsm (cfg : SessionFSMConfig) (s : SessionFSM) : Prop := mkConfined {
  cf_shape : fsm_shape s; cf_config : fsm_config s = cfg; cf_all : Forall confined (sessions s) }.

Lemma react_confined cfg now c e data b c' : confined c -> react cfg now c e data = Some (b, c') -> confined c'.
Proof.
  intros ([Hc|Hc] & Hs & Hd & Hr & He) H; unfold react in H; rewrite Hc in H; destruct e; cbn in H;
    repeat (case_match || destruct data as [|x data]; simplify_eq/=); unfold confined; cbn; by eauto 10.
Qed.
Lemma put_confined cfg i c s : confined_fsm cfg s -> confined c -> confined_fsm cfg (put i c s).
Proof. intros [] Hc. split; [by apply put_shape|done|]. by apply Forall_insert. Qed.
Lemma confined_at cfg s i c : confined_fsm cfg s -> sessions s !! i = Some c -> confined c.
Proof. intros Hs. apply Forall_lookup_1, Hs. Qed.

Lemma call_confined cfg c s m :
  confined_fsm cfg s -> call_ok c -> wp (do_call c) (fun _ s' _ => confined_fsm cfg s') s m.
Proof.
  intros Hs Hok. pose proof (cf_shape _ _ Hs) as Hsh. destruct c as [|id|id e data|id|now| | |]; simpl; [..|done|done|done].
  - apply wp_bind. eapply wp_mono; [by apply create_spec|]. intros r s' m' [_ Hr]. apply wp_ret.
    destruct (find_session 0 s) as [i|]; [|by destruct Hr as [_ ->]]. destruct (_ <=? _); [by destruct Hr as [_ ->]|].
    destruct Hr as (_ & c & Hc & _ & ->).
    assert (confined_fsm cfg (put i (new_session (next_session_id s) (clock s) c) s)) as [[] ? ?].
    { apply put_confined; [done|]. destruct (confined_at _ _ _ _ Hs Hc) as (_ & ?). split; [by left|done]. }
    by split.
  - destruct (decide (id = 0)) as [->|Hid].
    { unfold Session_FSM_DestroySession. apply wp_bind. do 2 wp_step. rewrite orb_true_r. by do 2 apply wp_ret. }
    apply wp_bind. eapply wp_mono; [by apply destroy_spec|]. intros r s' m' [_ Hr]. apply wp_ret.
    destruct (find_session id s) as [i|]; destruct Hr as [_ ->]; [|done].
    assert (confined_fsm cfg (put i session_zero s)) as [[] ? ?] by (apply put_confined; [done|]; split; [by left|done]).
    by split.
  - apply wp_bind. destruct (find_session id s) as [i|] eqn:Hf.
    + destruct (find_session_Some s id i Hf) as (c & Hc & _).
      destruct (react_defined (fsm_config s) (clock s) c e data Hok) as [[b c'] Hr].
      eapply wp_mono; [by apply (handle_event_spec id e data s m i c b c')|]. intros r s' m' (_ & -> & _). apply wp_ret.
      apply put_confined; [done|]. eapply react_confined; [|exact Hr]. by eapply confined_at.
    + eapply wp_mono; [by apply handle_event_absent|]. intros r s' m' (_ & -> & _). by apply wp_ret.
  - apply wp_bind. eapply wp_mono; [by apply activity_spec|]. intros r s' m' [_ Hr]. apply wp_ret.
    destruct (find_session id s) as [i|]; [|by destruct Hr as [_ ->]].
    destruct Hr as (_ & c & Hc & ->). apply put_confined; [done|]. exact (confined_at _ _ _ _ Hs Hc).
  - apply wp_modify. destruct Hs as [[] ? ?]. by split.
Qed.
Lemma calls_confined cfg l s m :
  confined_fsm cfg s -> Forall call_ok l -> wp (do_calls l) (fun _ s' _ => confined_fsm cfg s') s m.
Proof.
  intros Hs Hl. revert s m Hs. induction Hl as [|c l Hc Hl IH]; intros s m Hs; simpl; [by apply wp_ret|].
  apply wp_bind. eapply wp_mono; [by apply (call_confined cfg)|]. intros [] s' m' Hs'. by apply IH.
Qed.
Lemma init_confined cfg s m :
  fsm_mutex s = false -> fsm_logger s = None ->
  wp (Session_FSM_Init (Some cfg)) (fun r s' _ => r = true /\ confined_fsm cfg s') s m.
Proof.
  intros Hm Hq. unfold Session_FSM_Init, Timer_GetMilliseconds. do 10 wp_step. apply wp_bind, wp_log_free; [exact Hm|].
  apply wp_ret. split; [done|]. split; [by split|done|].
  apply (Forall_replicate confined MAX_SESSIONS session_zero). split; [by left|done].
Qed.

(** *** The same for every logger and every call

    [stays c]: when [c] returns, the sessions are confined if they were before. *)
Definition stays {A} (c : M SessionFSM A) : Prop := forall s m, Forall confined (sessions s) ->
  wlp c (fun _ s' _ => Forall confined (sessions s')) s m.
Lemma stays_keeps {A} (c : M SessionFSM A) : keeps sessions c -> stays c.
Proof. intros Hk s m Hs. eapply wlp_mono; [apply Hk|]. by intros a s' m' ->. Qed.
Lemma stays_bind {A B} (c : M SessionFSM A) (k : A -> M SessionFSM B) :
  stays c -> (forall a, stays (k a)) -> stays (c ≫= k).
Proof. intros Hc Hk s m Hs. apply wlp_bind. eapply wlp_mono; [by apply Hc|]. intros a s' m' Hs'. by apply Hk. Qed.
Lemma stays_ret {A} (a : A) : stays (mret a).
Proof. apply stays_keeps, keeps_ret. Qed.
Lemma stays_get : stays get.
Proof. apply stays_keeps, keeps_get. Qed.
Lemma stays_modify f : (forall s, Forall confined (sessions s) -> Forall confined (sessions (f s))) -> stays (modify f).
Proof. intros Hf s m Hs. by apply Hf. Qed.
Lemma stays_lock : stays lock.
Proof.
  apply stays_keeps. unfold lock. apply keeps_bind; [apply keeps_get|]. intros s.
  destruct (locked s); [apply keeps_fault|by apply keeps_modify].
Qed.
Lemma stays_unlock : stays unlock.
Proof.
  apply stays_keeps. unfold unlock. apply keeps_bind; [apply keeps_get|]. intros s.
  destruct (locked s); [by apply keeps_modify|apply keeps_fault].
Qed.
Lemma stays_log level : stays (Logger_Log level).
Proof.
  unfold Logger_Log. apply stays_bind; [apply stays_get|]. intros s. destruct (logs _ _); [|apply stays_ret].
  apply stays_bind; [apply stays_lock|intros _; apply stays_unlock].
Qed.
Lemma stays_now : stays Timer_GetMilliseconds.
Proof. apply stays_bind; [apply stays_get|]. intros s. apply stays_ret. Qed.
Lemma stays_session_at i : stays (session_at i).
Proof.
  apply stays_bind; [apply stays_get|]. intros s. destruct (_ !! _); [apply stays_ret|apply stays_keeps, keeps_fault].
Qed.
Lemma stays_data data i : stays (data_at data i).
Proof. unfold data_at. destruct (_ !! _); [apply stays_ret|apply stays_keeps, keeps_fault]. Qed.
Lemma stays_set i f : (forall c, confined c -> confined (f c)) -> stays (set_session i f).
Proof. intros Hf. apply stays_modify. intros s Hs. cbn. by apply Forall_alter; auto. Qed.

(** The combinators and calls above, through every branch. *)
Ltac stay :=
  repeat first
    [ apply stays_ret | apply stays_get | apply stays_lock | apply stays_unlock
    | apply stays_log | apply stays_now | apply stays_session_at | apply stays_data
    | apply stays_set; let Hs := fresh in let Hr := fresh in intros ? [Hs Hr]; split; [exact Hs|exact Hr]
    | match goal with
      | |- stays (if ?b then _ else _) => destruct b
      | |- stays (mbind _ _) => apply stays_bind; [|intros ?]
      end ].

Lemma stays_touch i : stays (touch i).
Proof. unfold touch. stay. Qed.
Lemma forget_confined c : confined c -> confined (forget c).
Proof. intros (? & ?). by split. Qed.
Lemma stays_default_timeout i data : stays (handle_default_timeout i data).
Proof. unfold handle_default_timeout. stay. apply stays_set, forget_confined. Qed.
Lemma stays_default_request i data : stays (handle_default_request i data).
Proof. unfold handle_default_request. stay. apply stays_touch. Qed.
Lemma stays_extended_request i data : stays (handle_extended_request i data).
Proof. unfold handle_extended_request. stay. apply stays_touch. Qed.
Lemma stays_conclude next i h :
  next = SESSION_STATE_DEFAULT \/ next = SESSION_STATE_EXTENDED -> stays h -> stays (conclude next i h).
Proof.
  intros Hn Hh. unfold conclude. apply stays_bind; [done|]. intros r. stay.
  apply stays_set. intros c (_ & ?). split; [|done]. destruct Hn as [->| ->]; [by left|by right].
Qed.

Lemma stays_event id e data : stays (Session_FSM_HandleEvent id e data).
Proof.
  assert (Hrefuse : stays (unlock;; mret false)) by stay.
  assert (Hidle : stays (Logger_Log LOG_LEVEL_WARNING;; unlock;; mret false)) by stay.
  intros s m Hs. unfold Session_FSM_HandleEvent. apply wlp_bind, wlp_get. destruct (negb _); [by apply wlp_ret|].
  apply wlp_bind. eapply wlp_mono; [by apply stays_lock|]. intros ? s1 m1 Hs1. cbv beta in Hs1.
  destruct (find_session id s) as [i|]; [|by apply Hrefuse].
  apply wlp_bind. unfold session_at. apply wlp_bind, wlp_get.
  destruct (sessions s1 !! i) as [c|] eqn:Hc; [|apply wlp_fault]. apply wlp_ret.
  destruct (Forall_lookup_1 _ _ _ _ Hs1 Hc) as (Hst & _).
  destruct (table_filled s); [|by apply Hidle].
  destruct Hst as [->| ->], e; cbn [state_transitions]; try (by apply Hidle);
    (apply stays_conclude; [by auto| |exact Hs1]).
  - apply stays_default_timeout.
  - apply stays_default_request.
  - apply stays_extended_request.
Qed.
Lemma stays_destroy id : stays (Session_FSM_DestroySession id).
Proof.
  unfold Session_FSM_DestroySession. apply stays_bind; [apply stays_get|]. intros s. destruct (_ || _); [apply stays_ret|].
  apply stays_bind; [apply stays_lock|]. intros _. destruct (find_session id s) as [i|]; stay.
  apply stays_set. intros c _. split; [by left|done].
Qed.
Lemma stays_create : stays (Session_FSM_CreateSession true).
Proof.
  unfold Session_FSM_CreateSession. apply stays_bind; [apply stays_get|]. intros s. destruct (_ || _); [apply stays_ret|].
  apply stays_bind; [apply stays_lock|]. intros _. destruct (_ <=? _); [stay|].
  destruct (find_session 0 s) as [i|]; stay.
  apply stays_set. intros c (_ & ?). split; [by left|done].
Qed.
Lemma stays_timeouts : stays Session_FSM_ProcessTimeouts.
Proof.
  assert (Hcheck : forall now i, stays (check_session now i)).
  { intros now i. unfold check_session. stay; apply stays_event || apply stays_destroy. }
  assert (Hloop : forall now n i, stays (timeouts_loop now n i)).
  { intros now n. induction n as [|n IH]; intros i; simpl; [apply stays_ret|].
    apply stays_bind; [apply Hcheck|intros _; apply IH]. }
  unfold Session_FSM_ProcessTimeouts. stay. apply Hloop.
Qed.
Lemma cleared_confined s : Forall confined (sessions (fsm_clear s)).
Proof. apply (Forall_replicate confined MAX_SESSIONS session_zero). split; [by left|done]. Qed.
Lemma stays_init cfg : stays (Session_FSM_Init cfg).
Proof.
  unfold Session_FSM_Init. destruct cfg; [|apply stays_ret]. apply stays_bind.
  { apply stays_modify. intros ? _. apply cleared_confined. }
  intros _. stay; by apply stays_modify.
Qed.
Lemma stays_call c : stays (do_call c).
Proof.
  destruct c; simpl; [apply stays_bind; [|intros; apply stays_ret]..|by apply stays_modify|apply stays_timeouts|
    apply stays_bind; [|intros; apply stays_ret]|].
  - apply stays_create.
  - apply stays_destroy.
  - apply stays_event.
  - apply stays_bind; [apply stays_get|]. intros s. destruct (negb _); [apply stays_ret|].
    apply stays_bind; [apply stays_lock|]. intros _. destruct (find_session id s); stay. apply stays_touch.
  - apply stays_init.
  - apply stays_bind; [apply stays_log|]. intros _. apply stays_modify. intros s _. apply cleared_confined.
Qed.
Lemma stays_calls l : stays (do_calls l).
Proof. induction l as [|c l IH]; simpl; [apply stays_ret|]. apply stays_bind; [apply stays_call|done]. Qed.
Lemma init_any cfg s m :
  wlp (Session_FSM_Init (Some cfg)) (fun _ s' _ => Forall confined (sessions s')) s m.
Proof.
  unfold Session_FSM_Init. apply wlp_bind, wlp_modify.
  match goal with |- wlp ?c _ ?t _ => assert (Hc : stays c) by (stay; by apply stays_modify); apply Hc end.
  apply cleared_confined.
Qed.

(** C23. Whatever calls follow [Session_FSM_Init], in every state they reach every session
    is in the default or the extended state with no security level, no pending operation and
    no errors: the programming, safety, supplier and end-of-line states are never entered.
    The calls are all the public functions that change the state (sessions created and
    destroyed, events of every kind for any identifier with any data, activity, the
    supervision of the timeouts, initialisation and shutdown) and the passing of time, under
    any logger.  Without a logger and without the supervision and shutdown, with at least two
    bytes of data for every event, the run is sure to return, and with
    [require_security_access] every request in an extended session is then refused. *)
Theorem sessions_confined cfg l s m :
  wlp (Session_FSM_Init (Some cfg);; do_calls l) (fun _ s' _ => Forall confined (sessions s')) s m /\
  (fsm_mutex s = false -> fsm_logger s = None -> Forall call_ok l ->
   wp (Session_FSM_Init (Some cfg);; do_calls l) (fun _ s' m' =>
     Forall confined (sessions s') /\
     (require_security_access cfg = true -> forall id i c data, find_session id s' = Some i ->
        sessions s' !! i = Some c -> current_state c = SESSION_STATE_EXTENDED ->
        wp (Session_FSM_HandleEvent id SESSION_EVENT_REQUEST data) (fun r s'' _ => r = false /\ s'' = s') s' m')) s m).
Proof.
  split.
  { apply wlp_bind. eapply wlp_mono; [apply init_any|]. intros ? s1 m1 Hs1. by apply stays_calls. }
  intros Hm Hq Hl. apply wp_bind. eapply wp_mono; [by apply init_confined|]. intros _ s1 m1 [_ H1].
  eapply wp_mono; [by apply (calls_confined cfg)|]. intros [] s' m' Hs. split; [apply Hs|].
  intros Hreq id i c data Hf Hc Hst. destruct (confined_at _ _ _ _ Hs Hc) as (_ & Hsec & _).
  eapply wp_mono; [apply (handle_event_spec id SESSION_EVENT_REQUEST data s' m' i c false c); [apply Hs|done|done|]|].
  - unfold react. rewrite Hst, (cf_config _ _ Hs), Hreq, Hsec. done.
  - intros r s'' _ (-> & -> & _). split; [done|]. by apply put_id.
Qed.
Definition calls0 : list fsm_call :=
  [CallCreate; CallEvent 1 SESSION_EVENT_REQUEST [0x10; 3]; CallEvent 1 SESSION_EVENT_SECURITY_ACCESS [0x27; 1];
   CallEvent 0 SESSION_EVENT_REQUEST [0x10; 3]; CallActivity 1].
Lemma sessions_confined_witness : wp (Session_FSM_Init (Some config0);; do_calls calls0)
  (fun _ s' _ => Forall confined (sessions s')) fsm0 boot.
Proof.
  eapply wp_mono; [apply (proj2 (sessions_confined config0 calls0 fsm0 boot)); [done|done|]|by intros ? ? ? []].
  unfold calls0. repeat constructor; simpl; lia.
Defined.

(** ** Stopping for ever *)

Lemma stuck_log_then level (k : M SessionFSM unit) s m :
  fsm_mutex s = true -> k s m = None -> (Logger_Log level;; k) s m = None.
Proof.
  intros Hm Hk. destruct (logs (log_min s) level) eqn:Hl.
  - by apply undefined_bind', log_held_blocks.
  - by apply undefined_bind, wp_log_silent.
Qed.
Lemma stuck_event id e data (k : bool -> M SessionFSM unit) s m :
  fsm_initialized s = true -> fsm_mutex s = true -> (Session_FSM_HandleEvent id e data ≫= k) s m = None.
Proof.
  intros Hi Hm. apply undefined_bind'. unfold Session_FSM_HandleEvent. apply undefined_bind, wp_get.
  rewrite Hi. by apply undefined_bind', lock_held_blocks.
Qed.

(** The S3 time or the P2 time of the session is over. *)
Definition overdue (cfg : SessionFSMConfig) (now : Z) (c : SessionContext) : bool :=
  negb (session_id c =? 0) &&
  ((s3_timeout_ms cfg <? u32 (now - last_activity_time c)) ||
   ((negb (pending_did c =? 0) || negb (pending_routine c =? 0)) &&
    ((if routine_active c then p2_star_timeout_ms cfg else p2_timeout_ms cfg) <? u32 (now - state_entry_time c)))).

Lemma check_session_spec now i c s m :
  fsm_initialized s = true -> fsm_mutex s = true -> sessions s !! i = Some c ->
  if overdue (fsm_config s) now c then check_session now i s m = None
  else wp (check_session now i) (fun _ s' m' => s' = s /\ m' = m) s m.
Proof.
  intros Hi Hm Hc. unfold check_session, overdue. destruct (session_id c =? 0) eqn:E0; simpl.
  { apply wp_bind. eapply wp_session_at; [exact Hc|]. do 2 wp_step. rewrite E0. by apply wp_ret. }
  destruct (s3_timeout_ms _ <? _) eqn:E3; simpl.
  { apply undefined_bind; eapply wp_session_at; [exact Hc|]. apply undefined_bind, wp_get. rewrite E0, E3.
    apply stuck_log_then; [done|]. by apply stuck_event. }
  destruct (negb (pending_did c =? 0) || negb (pending_routine c =? 0)) eqn:Ep; simpl.
  2: { apply wp_bind. eapply wp_session_at; [exact Hc|]. do 2 wp_step. rewrite E0, E3, Ep. by apply wp_ret. }
  destruct (_ <? u32 (now - state_entry_time c)) eqn:E2.
  - apply undefined_bind; eapply wp_session_at; [exact Hc|]. apply undefined_bind, wp_get. rewrite E0, E3, Ep, E2.
    apply stuck_log_then; [done|]. by apply stuck_event.
  - apply wp_bind. eapply wp_session_at; [exact Hc|]. do 2 wp_step. rewrite E0, E3, Ep, E2. by apply wp_ret.
Qed.

Lemma timeouts_loop_spec now n i s m l :
  fsm_initialized s = true -> fsm_mutex s = true -> drop i (sessions s) = l -> length l = n ->
  if existsb (overdue (fsm_config s) now) l then timeouts_loop now n i s m = None
  else wp (timeouts_loop now n i) (fun _ s' m' => s' = s /\ m' = m) s m.
Proof.
  intros Hi Hm. revert i l. induction n as [|n IH]; intros i l Hl Hn; destruct l as [|c l]; simplify_eq/=.
  { by apply wp_ret. }
  assert (Hc : sessions s !! i = Some c) by (rewrite <- (Nat.add_0_r i), <- lookup_drop, Hl; done).
  assert (Htl : drop (S i) (sessions s) = l) by (rewrite <- Nat.add_1_r, <- drop_drop, Hl; done).
  pose proof (check_session_spec now i c s m Hi Hm Hc) as Hcheck. specialize (IH (S i) l Htl eq_refl).
  destruct (overdue _ _ c); simpl; [by apply undefined_bind'|].
  destruct (existsb _ l).
  - apply undefined_bind. eapply wp_mono; [exact Hcheck|]. by intros [] s' m' [-> ->].
  - apply wp_bind. eapply wp_mono; [exact Hcheck|]. by intros [] s' m' [-> ->].
Qed.

(** Once the check interval has passed, [Session_FSM_ProcessTimeouts] never returns
    when a session's S3 or P2 time is over, since it raises the timeout event while it
    holds the mutex that [Session_FSM_HandleEvent] takes; with no session overdue it only
    records the time of the check. *)
Theorem session_timeout_deadlocks s m :
  fsm_shape s -> SESSION_TIMEOUT_CHECK_INTERVAL_MS <= u32 (clock s - last_timeout_check s) ->
  if existsb (overdue (fsm_config s) (clock s)) (sessions s) then Session_FSM_ProcessTimeouts s m = None
  else wp Session_FSM_ProcessTimeouts (fun _ s' m' => s' = s <| last_timeout_check := clock s |> /\ m' = m) s m.
Proof.
  intros [Hl Hi Ht Hm Hq] Hint.
  pose proof (timeouts_loop_spec (clock s) MAX_SESSIONS 0 (set_locked true s <| last_timeout_check := clock s |>) m
    (sessions s) Hi eq_refl eq_refl Hl) as Hloop.
  unfold Session_FSM_ProcessTimeouts. change (fsm_config (set_locked true s <| last_timeout_check := clock s |>))
    with (fsm_config s) in Hloop. destruct (existsb _ _).
  - apply undefined_bind, wp_get. rewrite Hi. cbn [negb]. apply undefined_bind. unfold Timer_GetMilliseconds.
    do 3 wp_step. rewrite (proj2 (Z.ltb_ge _ _)) by exact Hint. apply undefined_bind, wp_lock_free; [exact Hm|].
    apply undefined_bind, wp_modify. by apply undefined_bind'.
  - do 2 wp_step. rewrite Hi. cbn [negb]. unfold Timer_GetMilliseconds. do 4 wp_step.
    rewrite (proj2 (Z.ltb_ge _ _)) by exact Hint. apply wp_bind, wp_lock_free; [exact Hm|]. apply wp_bind, wp_modify, wp_bind.
    eapply wp_mono; [exact Hloop|]. intros [] s' m' [-> ->]. apply wp_unlock_held; [done|]. split; [|done].
    destruct s; cbn in *. by subst.
Qed.
Lemma session_timeout_deadlocks_witness :
  Session_FSM_ProcessTimeouts (fsm1 <| clock := 7000 |>) boot = None /\
  wp Session_FSM_ProcessTimeouts (fun _ s' _ => last_timeout_check s' = 5000) (fsm1 <| clock := 5000 |>) boot.
Proof.
  split.
  - refine (session_timeout_deadlocks (fsm1 <| clock := 7000 |>) boot _ _); [by split|by vm_compute].
  - pose proof (session_timeout_deadlocks (fsm1 <| clock := 5000 |>) boot ltac:(by split) ltac:(by vm_compute)) as H.
    destruct (existsb _ _) eqn:E; [by vm_compute in E|]. eapply wp_mono; [exact H|]. by intros ? ? ? [-> _].
Defined.

(** With the logger initialised at its lowest level, every event for a session that
    exists and every destruction of one stops the thread: the handlers log while
    [Session_FSM_HandleEvent] holds the mutex that the logger takes. *)
Theorem session_logging_deadlocks s m id i e data :
  fsm_initialized s = true -> table_filled s = true -> fsm_mutex s = false ->
  logs (fsm_logger s) LOG_LEVEL_DEBUG = true -> find_session id s = Some i ->
  Session_FSM_HandleEvent id e data s m = None /\ (id <> 0 -> Session_FSM_DestroySession id s m = None).
Proof. apply logging_blocks. Qed.
Lemma session_logging_deadlocks_witness :
  Session_FSM_HandleEvent 1 SESSION_EVENT_REQUEST [0x10; 3] (fsm1 <| fsm_logger := Some LOG_LEVEL_DEBUG |>) boot = None.
Proof.
  refine (proj1 (session_logging_deadlocks (fsm1 <| fsm_logger := Some LOG_LEVEL_DEBUG |>) boot 1 0
    SESSION_EVENT_REQUEST [0x10; 3] _ _ _ _ _)); by vm_compute.
Defined.
