(* ===== verification/OsTimer.v ===== *)
(** * Timer service of the diagnostic add-ons

    [diagnostic/os/timer.c] on a POSIX host: a millisecond clock since [Timer_Init], delays,
    and 32 timer slots polled by [Timer_Process] under the process-wide mutex.

    [clock_now] is what [clock_gettime(CLOCK_MONOTONIC)] returns; it does not move during a
    call.  Callbacks are arbitrary computations, addressed by a number, 0 for NULL.
    [start_time_ms] is only ever set to 0 and is left out. *)

From S2P Require Import Prelude Machine Mutex.

Definition MAX_TIMERS : nat := 32.

Record Timespec := mkTimespec { tv_sec : Z; tv_nsec : Z }.
Record TimerConfig := mkTimerConfig { period_ms : Z; repeat : bool; tc_callback : Z; tc_context : Z }.
Record TimerEntry := mkEntry { te_config : TimerConfig; next_trigger : Z; active : bool }.
#[export] Instance eta_TimerEntry : Eta TimerEntry := fun e => mkEntry (te_config e) (next_trigger e) (active e).
Definition entry_zero : TimerEntry := mkEntry (mkTimerConfig 0 false 0 0) 0 false.

(** [timer_mgr], [start_time], the mutex, the logger and the clock. *)
Record TimerManager := mkTimerManager {
  timers : list TimerEntry; timer_count : Z; tm_initialized : bool; start_time : Timespec; clock_now : Timespec;
  tm_mutex : bool; tm_logger : option LogLevel }.
#[export] Instance eta_TimerManager : Eta TimerManager := fun s =>
  mkTimerManager (timers s) (timer_count s) (tm_initialized s) (start_time s) (clock_now s) (tm_mutex s) (tm_logger s).
#[export, refine] Instance TimerManager_mutex : HasMutex TimerManager :=
  {| locked := tm_mutex; set_locked b s := s <| tm_mutex := b |>; log_min := tm_logger |}.
Proof. all: by intros; destruct s. Defined.
(** [memset(&timer_mgr, 0, ...)] *)
Definition tm_clear (s : TimerManager) : TimerManager :=
  s <| timers := replicate MAX_TIMERS entry_zero |> <| timer_count := 0 |> <| tm_initialized := false |>.

Definition Timer_Init : M TimerManager bool :=
  modify tm_clear;;
  modify (fun s => s <| start_time := clock_now s |> <| tm_initialized := true |>);;
  Logger_Log LOG_LEVEL_INFO;;
  mret true.
Definition Timer_Deinit : M TimerManager unit := Logger_Log LOG_LEVEL_INFO;; modify tm_clear.

(** The difference of the nanoseconds may be negative; C divides towards zero. *)
Definition millis_since (start now : Timespec) : Z :=
  (tv_sec now - tv_sec start) * 1000 + Z.quot (tv_nsec now - tv_nsec start) 1000000.
Definition micros_since (start now : Timespec) : Z :=
  (tv_sec now - tv_sec start) * 1000000 + Z.quot (tv_nsec now - tv_nsec start) 1000.
Definition Timer_GetMilliseconds (s : TimerManager) : Z := u32 (millis_since (start_time s) (clock_now s)).
Definition Timer_GetMicroseconds (s : TimerManager) : Z := u32 (micros_since (start_time s) (clock_now s)).
Definition Timer_GetHighResCounter (s : TimerManager) : Z :=
  u64 (u64 (tv_sec (clock_now s)) * 1000000000 + tv_nsec (clock_now s)).
Definition Timer_GetHighResFrequency : Z := 1000000000.
Definition delay_ms_request (ms : Z) : Timespec := mkTimespec (ms / 1000) (ms mod 1000 * 1000000).
Definition delay_us_request (us : Z) : Timespec := mkTimespec (us / 1000000) (us mod 1000000 * 1000).
Definition nanosleep (t : Timespec) : M TimerManager unit := emit "nanosleep" [tv_sec t; tv_nsec t].
Definition Timer_DelayMilliseconds (ms : Z) : M TimerManager unit := nanosleep (delay_ms_request ms).
Definition Timer_DelayMicroseconds (us : Z) : M TimerManager unit := nanosleep (delay_us_request us).

Definition set_entry (i : nat) (f : TimerEntry -> TimerEntry) : M TimerManager unit :=
  modify (fun s => s <| timers ::= alter f i |>).
Definition entry_at (i : nat) : M TimerManager TimerEntry :=
  s ← get; match timers s !! i with Some e => mret e | None => fault end.

Definition Timer_CreateTimer (config : option TimerConfig) : M TimerManager Z :=
  s ← get;
  match config with
  | None => mret 0
  | Some config =>
      if negb (tm_initialized s) || (tc_callback config =? 0) then mret 0 else
      lock;;
      if Z.of_nat MAX_TIMERS <=? timer_count s then unlock;; Logger_Log LOG_LEVEL_ERROR;; mret 0 else
      match find_idx (fun e => negb (active e)) MAX_TIMERS (timers s) with
      | Some i =>
          set_entry i (fun _ => mkEntry config (u32 (Timer_GetMilliseconds s + period_ms config)) true);;
          modify (fun s => s <| timer_count ::= fun n => u32 (n + 1) |>);;
          unlock;;
          Logger_Log LOG_LEVEL_DEBUG;;
          mret (Z.of_nat i + 1)
      | None => unlock;; mret 0
      end
  end.

(** The three functions that take an identifier and work on an active entry. *)
Definition on_active (timer_id : Z) (f : nat -> M TimerManager unit) : M TimerManager bool :=
  s ← get;
  if negb (tm_initialized s) || (timer_id =? 0) || (Z.of_nat MAX_TIMERS <? timer_id) then mret false else
  lock;;
  let i := Z.to_nat (timer_id - 1) in
  e ← entry_at i;
  if negb (active e) then unlock;; mret false else
  f i;;
  unlock;;
  Logger_Log LOG_LEVEL_DEBUG;;
  mret true.
Definition Timer_StartTimer (timer_id : Z) : M TimerManager bool :=
  on_active timer_id (fun i =>
    s ← get; set_entry i (fun e => e <| next_trigger := u32 (Timer_GetMilliseconds s + period_ms (te_config e)) |>)).
Definition Timer_StopTimer (timer_id : Z) : M TimerManager bool :=
  on_active timer_id (fun i => set_entry i (fun e => e <| next_trigger := 0 |>)).
Definition Timer_DeleteTimer (timer_id : Z) : M TimerManager bool :=
  on_active timer_id (fun i =>
    set_entry i (fun _ => entry_zero);; modify (fun s => s <| timer_count ::= fun n => u32 (n - 1) |>)).

Section process.
(** What the code at an address does with its argument. *)
Context (run_callback : Z -> Z -> M TimerManager unit).

(** The callback is passed its own address. *)
Definition process_entry (now : Z) (i : nat) : M TimerManager unit :=
  e ← entry_at i;
  if negb (active e) || (next_trigger e =? 0) then mret tt else
  if next_trigger e <=? now then
    (if negb (tc_callback (te_config e) =? 0) then run_callback (tc_callback (te_config e)) (tc_callback (te_config e))
     else mret tt);;
    set_entry i (fun e => e <| next_trigger := if repeat (te_config e) then u32 (now + period_ms (te_config e)) else 0 |>)
  else mret tt.
Fixpoint process_loop (now : Z) (n i : nat) : M TimerManager unit :=
  match n with O => mret tt | S n => process_entry now i;; process_loop now n (S i) end.
Definition Timer_Process : M TimerManager unit :=
  s ← get;
  if negb (tm_initialized s) then mret tt else
  lock;;
  process_loop (Timer_GetMilliseconds s) MAX_TIMERS 0;;
  unlock.
End process.

(** ** The clock *)

Definition valid_time (t : Timespec) : Prop := 0 <= tv_nsec t < 1000000000.
Definition nanos (t : Timespec) : Z := tv_sec t * 1000000000 + tv_nsec t.

Lemma quot_floor a b : 0 < b -> a / b <= Z.quot a b <= a / b + 1.
Proof.
  intros Hb. pose proof (Z.div_mod a b ltac:(lia)). pose proof (Z.mod_pos_bound a b Hb).
  pose proof (Z.quot_rem' a b). pose proof (Z.rem_bound_abs a b ltac:(lia)). nia.
Qed.
Lemma quot_between a b : 0 < b -> (0 <= a -> Z.quot a b = a / b) /\ (a <= 0 -> Z.quot a b = - (- a / b)).
Proof.
  intros Hb. split; intros Ha; [by apply Z.quot_div_nonneg|].
  rewrite <- Z.quot_div_nonneg by lia. by rewrite <- Z.quot_opp_l, Z.opp_involutive by lia.
Qed.

(** The millisecond clock never runs backwards and is at most one millisecond ahead
    of the time that has passed, although the nanoseconds it divides may be negative. *)
Theorem millis_accurate start t1 t2 :
  valid_time start -> valid_time t1 -> valid_time t2 -> nanos t1 <= nanos t2 ->
  millis_since start t1 <= millis_since start t2 /\
  (nanos t2 - nanos start) / 1000000 <= millis_since start t2 <= (nanos t2 - nanos start) / 1000000 + 1.
Proof.
  unfold valid_time, nanos, millis_since. destruct start as [s0 n0], t1 as [s1 n1], t2 as [s2 n2]; simpl. intros H0 H1 H2 Hle.
  split.
  - destruct (quot_between (n1 - n0) 1000000 ltac:(lia)) as [P1 N1], (quot_between (n2 - n0) 1000000 ltac:(lia)) as [P2 N2].
    destruct (Z.le_gt_cases 0 (n1 - n0)) as [Hp1|Hp1], (Z.le_gt_cases 0 (n2 - n0)) as [Hp2|Hp2];
      [rewrite P1, P2 by lia|rewrite P1, N2 by lia|rewrite N1, P2 by lia|rewrite N1, N2 by lia]; Z.to_euclidean_division_equations; nia.
  - pose proof (quot_floor (n2 - n0) 1000000 ltac:(lia)) as Hq.
    replace (s2 * 1000000000 + n2 - (s0 * 1000000000 + n0)) with ((n2 - n0) + ((s2 - s0) * 1000) * 1000000) by lia.
    rewrite Z.div_add by lia. lia.
Qed.
Lemma millis_accurate_witness :
  millis_since (mkTimespec 5 900000000) (mkTimespec 6 100500000) <= millis_since (mkTimespec 5 900000000) (mkTimespec 7 0) /\
  1100 <= millis_since (mkTimespec 5 900000000) (mkTimespec 7 0) <= 1101.
Proof.
  apply (millis_accurate (mkTimespec 5 900000000) (mkTimespec 6 100500000) (mkTimespec 7 0)); vm_compute; intuition congruence.
Defined.

(** The delays ask the host for the time they name, in a valid form. *)
Lemma delay_requests n : 0 <= n ->
  nanos (delay_ms_request n) = n * 1000000 /\ valid_time (delay_ms_request n) /\
  nanos (delay_us_request n) = n * 1000 /\ valid_time (delay_us_request n).
Proof.
  intros Hn. unfold delay_ms_request, delay_us_request, nanos, valid_time; simpl.
  split_and!; Z.to_euclidean_division_equations; lia.
Qed.

(** ** Polling *)

Definition due (now : Z) (e : TimerEntry) : bool := active e && negb (next_trigger e =? 0) && (next_trigger e <=? now).
(** An entry after a poll. *)
Definition polled (now : Z) (e : TimerEntry) : TimerEntry :=
  if due now e then e <| next_trigger := if repeat (te_config e) then u32 (now + period_ms (te_config e)) else 0 |> else e.
Definition callback_call (e : TimerEntry) : Call := call "callback" [tc_callback (te_config e); tc_callback (te_config e)].

(** Between calls: initialised, the mutex free, callbacks not NULL in active entries. *)
Record tm_ok (s : TimerManager) : Prop := mkTmOk {
  to_len : length (timers s) = MAX_TIMERS;
  to_init : tm_initialized s = true;
  to_mutex : tm_mutex s = false;
  to_callbacks : Forall (fun e => active e = true -> tc_callback (te_config e) <> 0) (timers s) }.

Section plain.
(** Callbacks that do not use the timers: each leaves its call in the trace. *)
Context (run_callback : Z -> Z -> M TimerManager unit).
Hypothesis plain : forall c a s m, run_callback c a s m = Some (tt, s, m <| trace ::= fun t => t ++ [call "callback" [c; a]] |>).

Lemma wp_plain c a Q s m :
  Q tt s (m <| trace ::= fun t => t ++ [call "callback" [c; a]] |>) -> wp (run_callback c a) Q s m.
Proof. unfold wp. by rewrite plain. Qed.
Lemma wp_entry_at i e Q s m : timers s !! i = Some e -> Q e s m -> wp (entry_at i) Q s m.
Proof. intros He HQ. unfold entry_at. do 2 wp_step. by rewrite He. Qed.

Lemma process_entry_spec now i e s m :
  timers s !! i = Some e -> (active e = true -> tc_callback (te_config e) <> 0) ->
  wp (process_entry run_callback now i) (fun _ s' m' => s' = s <| timers ::= <[i := polled now e]> |> /\
    m' = m <| trace ::= fun t => t ++ (if due now e then [callback_call e] else []) |>) s m.
Proof.
  intros He Hcb. unfold process_entry, polled, due. apply wp_bind. eapply wp_entry_at; [exact He|].
  assert (Hsame : s = s <| timers ::= <[i := e]> |> /\ m = m <| trace ::= fun t => t ++ [] |>).
  { split; [|destruct m; cbn; by rewrite app_nil_r]. destruct s; cbn in *. by rewrite list_insert_id. }
  destruct (active e) eqn:Ea; cbn [negb orb andb]; [|by apply wp_ret].
  destruct (next_trigger e =? 0) eqn:E0; cbn [negb andb]; [by apply wp_ret|].
  destruct (next_trigger e <=? now) eqn:En; [|by apply wp_ret].
  rewrite (proj2 (Z.eqb_neq _ 0)) by auto. cbn [negb]. apply wp_bind, wp_plain, wp_modify. split; [|done].
  cbn. by rewrite (alter_as_insert _ i e).
Qed.

Lemma process_loop_spec now n i s m l :
  drop i (timers s) = l -> length l = n -> Forall (fun e => active e = true -> tc_callback (te_config e) <> 0) l ->
  wp (process_loop run_callback now n i) (fun _ s' m' =>
    s' = s <| timers := take i (timers s) ++ (polled now <$> l) |> /\
    m' = m <| trace ::= fun t => t ++ (callback_call <$> filter (fun e => due now e = true) l) |>) s m.
Proof.
  revert i s m l. induction n as [|n IH]; intros i s m l Hl Hn Hcb; destruct l as [|e l]; simplify_eq/=.
  { apply wp_ret. rewrite !app_nil_r. split; [|by destruct m].
    rewrite take_ge by (apply (f_equal length) in Hl; rewrite length_drop in Hl; simpl in Hl; lia). by destruct s. }
  apply Forall_cons in Hcb as [Hcb1 Hcb].
  assert (He : timers s !! i = Some e) by (rewrite <- (Nat.add_0_r i), <- lookup_drop, Hl; done).
  assert (Hi : (i < length (timers s))%nat) by (by eapply lookup_lt_Some).
  assert (Htl : drop (S i) (timers s) = l) by (rewrite <- Nat.add_1_r, <- drop_drop, Hl; done).
  apply wp_bind. eapply wp_mono; [by apply process_entry_spec|]. intros [] s1 m1 [-> ->].
  eapply wp_mono; [apply (IH (S i) _ _ l); cbn; [rewrite drop_insert_lt by lia; exact Htl|done|done]|].
  intros [] s' m' [-> ->]. split.
  - destruct s; cbn in *. f_equal. rewrite (take_S_r _ i (polled now e)) by (by apply list_lookup_insert_eq).
    rewrite take_insert_ge by lia.
    rewrite <- app_assoc. done.
  - destruct m; cbn. f_equal. rewrite <- app_assoc. f_equal. by destruct (due now e).
Qed.

(** [Timer_Process] calls the callbacks of exactly the timers that are due, in slot
    order, restarts the periodic ones, disarms the others and leaves everything else as it
    was; each callback receives its own address in place of the context it was created
    with. *)
Theorem timer_process_exact s m :
  tm_ok s ->
  wp (Timer_Process run_callback) (fun _ s' m' =>
    s' = s <| timers ::= fmap (polled (Timer_GetMilliseconds s)) |> /\
    m' = m <| trace ::= fun t => t ++ (callback_call <$> filter (fun e => due (Timer_GetMilliseconds s) e = true) (timers s)) |>) s m.
Proof.
  intros [Hl Hi Hm Hcb]. unfold Timer_Process. do 2 wp_step. rewrite Hi. cbn [negb]. apply wp_bind, wp_lock_free; [done|].
  apply wp_bind. eapply wp_mono; [by apply (process_loop_spec _ MAX_TIMERS 0 (set_locked true s) m (timers s))|].
  intros [] s' m' [-> ->]. apply wp_unlock_held; [done|]. split; [|done]. destruct s; cbn in *. by subst.
Qed.
End plain.

Definition logged_callback (c a : Z) : M TimerManager unit := emit "callback" [c; a].
Definition tm0 : TimerManager :=
  mkTimerManager ([mkEntry (mkTimerConfig 100 true 7 70) 1000 true; mkEntry (mkTimerConfig 100 false 8 80) 2000 true;
                   mkEntry (mkTimerConfig 5 false 9 90) 900 true] ++ replicate 29 entry_zero) 3 true
    (mkTimespec 0 0) (mkTimespec 1 500000) false None.
Lemma timer_process_exact_witness :
  wp (Timer_Process logged_callback) (fun _ s' m' => next_trigger <$> take 3 (timers s') = [1100; 2000; 0] /\
    trace m' = [call "callback" [7; 7]; call "callback" [9; 9]]) tm0 boot.
Proof.
  eapply wp_mono; [apply (timer_process_exact logged_callback); [done|]|].
  - split; [done..|]. apply Forall_app. split; [by repeat constructor|]. by apply Forall_replicate.
  - intros [] s' m' [-> ->]. by vm_compute.
Defined.

(** *** When a timer fires *)

Lemma timer_create_spec config s m :
  tm_ok s -> tc_callback config <> 0 ->
  wp (Timer_CreateTimer (Some config)) (fun r s' m' => m' = m /\
    if Z.of_nat MAX_TIMERS <=? timer_count s then r = 0 /\ s' = s else
    match find_idx (fun e => negb (active e)) MAX_TIMERS (timers s) with
    | Some i => r = Z.of_nat i + 1 /\
        s' = s <| timers ::= <[i := mkEntry config (u32 (Timer_GetMilliseconds s + period_ms config)) true]> |>
               <| timer_count := u32 (timer_count s + 1) |>
    | None => r = 0 /\ s' = s
    end) s m.
Proof.
  intros [Hl Hi Hm Hcb] Hc. unfold Timer_CreateTimer. do 2 wp_step. rewrite Hi, (proj2 (Z.eqb_neq _ _) Hc). cbn [negb orb].
  apply wp_bind, wp_lock_free; [done|]. destruct (_ <=? _).
  { apply wp_bind, wp_unlock_held; [done|]. apply wp_bind, wp_log_free; [done|]. apply wp_ret. split_and!; [done..|].
    destruct s; cbn in *. by subst. }
  destruct (find_idx _ _ _) as [i|] eqn:Hf.
  - apply find_idx_Some in Hf as (e & He & _). apply wp_bind, wp_modify, wp_bind, wp_modify, wp_bind, wp_unlock_held; [done|].
    apply wp_bind, wp_log_free; [done|]. apply wp_ret. split_and!; [done..|]. destruct s; cbn in *. subst.
    by rewrite (alter_as_insert _ i e).
  - apply wp_bind, wp_unlock_held; [done|]. apply wp_ret. split_and!; [done..|]. destruct s; cbn in *. by subst.
Qed.

(** A new timer takes a free slot and becomes due when its period has passed, and not
    before, as long as the 32-bit clock does not wrap; a period that reaches past the wrap
    makes it due at once instead, or never when the sum is exactly 2^32. *)
Theorem new_timer_due config s m i :
  tm_ok s -> tc_callback config <> 0 -> 0 < period_ms config < 2 ^ 32 -> timer_count s < Z.of_nat MAX_TIMERS ->
  find_idx (fun e => negb (active e)) MAX_TIMERS (timers s) = Some i ->
  wp (Timer_CreateTimer (Some config)) (fun r s' _ => r = Z.of_nat i + 1 /\ tm_ok s' /\
    exists e, timers s' !! i = Some e /\ te_config e = config /\
      let trigger := Timer_GetMilliseconds s + period_ms config in
      if trigger <? 2 ^ 32 then forall now, due now e = true <-> trigger <= now
      else if trigger =? 2 ^ 32 then forall now, due now e = false
      else due (Timer_GetMilliseconds s) e = true) s m.
Proof.
  intros Hs Hc Hp Hn Hf. eapply wp_mono; [by apply timer_create_spec|]. intros r s' m' [_ Hr].
  rewrite (proj2 (Z.leb_gt _ _)) in Hr by lia. rewrite Hf in Hr. destruct Hr as [-> ->]. split; [done|].
  set (e := mkEntry config _ true). apply find_idx_Some in Hf as (x & Hx & _).
  assert (Hlt := lookup_lt_Some _ _ _ Hx). destruct Hs as [Hl Hi Hm Hcb]. split.
  { split; cbn; [by rewrite length_insert|done..|]. apply Forall_insert; [done|]. done. }
  exists e. split_and!; [by apply list_lookup_insert_eq|done|]. pose proof (u32_range (millis_since (start_time s) (clock_now s))) as Hu.
  unfold is_u32 in Hu. fold (Timer_GetMilliseconds s) in Hu. unfold due, e. cbn [active next_trigger andb].
  destruct (_ <? 2 ^ 32) eqn:E; tests; [|destruct (_ =? 2 ^ 32) eqn:E2; tests].
  - intros now. rewrite u32_small by (unfold is_u32; lia). rewrite (proj2 (Z.eqb_neq _ 0)) by lia. cbn [negb andb]. apply Z.leb_le.
  - intros now. rewrite E2. done.
  - assert (u32 (Timer_GetMilliseconds s + period_ms config) = Timer_GetMilliseconds s + period_ms config - 2 ^ 32) as ->.
    { unfold u32. symmetry. apply (Zmod_unique _ _ 1); lia. }
    rewrite (proj2 (Z.eqb_neq _ 0)), (proj2 (Z.leb_le _ _)) by lia. done.
Qed.
Lemma new_timer_due_witness :
  wp (Timer_CreateTimer (Some (mkTimerConfig 250 false 5 0))) (fun r s' _ => r = 4 /\
    exists e, timers s' !! 3%nat = Some e /\ forall now, due now e = true <-> 1250 <= now) tm0 boot.
Proof.
  eapply wp_mono; [apply (new_timer_due (mkTimerConfig 250 false 5 0) tm0 boot 3)|].
  - split; [done..|]. apply Forall_app. split; [by repeat constructor|]. by apply Forall_replicate.
  - done.
  - done.
  - done.
  - by vm_compute.
  - intros r s' m' (-> & _ & e & He & _ & H). split; [done|]. exists e. split; [exact He|]. exact H.
Defined.

(** A callback that uses the timer service stops the thread, since the mutex is held. *)
Lemma callback_using_timers_stops config s m :
  tm_initialized s = true -> tm_mutex s = true -> tc_callback config <> 0 ->
  Timer_CreateTimer (Some config) s m = None.
Proof.
  intros Hi Hm Hc. unfold Timer_CreateTimer. apply undefined_bind, wp_get. rewrite Hi, (proj2 (Z.eqb_neq _ _) Hc). cbn [negb orb].
  by apply undefined_bind', lock_held_blocks.
Qed.

(** Deleting and stopping: what they answer and leave. *)
Lemma on_active_spec id f s m (g : TimerManager -> TimerManager) :
  tm_ok s -> 1 <= id <= Z.of_nat MAX_TIMERS ->
  (forall Q s m, Q tt (g s) m -> wp (f (Z.to_nat (id - 1))) Q s m) -> (forall s, tm_mutex (g s) = tm_mutex s) ->
  wp (on_active id f) (fun r s' m' => m' = m /\ exists e, timers s !! Z.to_nat (id - 1) = Some e /\ r = active e /\
    s' = if active e then set_locked false (g (set_locked true s)) else s) s m.
Proof.
  intros [Hl Hi Hm Hcb] Hid Hf Hg. unfold MAX_TIMERS in *. destruct (lookup_lt_is_Some_2 (timers s) (Z.to_nat (id - 1))) as [e He]; [lia|].
  unfold on_active. apply wp_bind, wp_get. rewrite Hi, (proj2 (Z.eqb_neq _ 0)), (proj2 (Z.ltb_ge _ _)) by (unfold MAX_TIMERS; lia). cbn [negb orb].
  apply wp_bind, wp_lock_free; [done|]. apply wp_bind. eapply wp_entry_at; [exact He|]. destruct (active e) eqn:Ea; cbn [negb].
  - apply wp_bind, Hf. apply wp_bind, wp_unlock_held; [exact (eq_trans (Hg _) eq_refl)|]. apply wp_bind, wp_log_free; [done|]. apply wp_ret.
    split; [done|]. exists e. rewrite Ea. split_and!; [exact He|done|done].
  - apply wp_bind, wp_unlock_held; [done|]. apply wp_ret. split; [done|]. exists e. rewrite Ea. split_and!; [done..|].
    destruct s; cbn in *. by subst.
Qed.
