(* ===== verification/Lexer.v ===== *)
(** * Lexer of the CANT language

    [compiler/frontend/lexer.c].  The source is the text before the terminating NUL, as
    character codes; a pointer into it is the text from there on, so that the NUL is the
    empty list.  [lexer_create] is the case where [malloc] succeeds.  A token's [value]
    is never set and is left out, as are [string_buffer] and [is_hex_digit], which nothing
    uses. *)

From S2P Require Import Prelude.

Definition chars (s : string) : list Z := (fun a => Z.of_N (Ascii.N_of_ascii a)) <$> String.list_ascii_of_string s.
(** A character literal. *)
Definition chr (s : string) : Z := match chars s with [c] => c | _ => 0 end.
Definition NUL : Z := 0.
Definition NEWLINE : Z := 10.

Inductive TokenKind :=
| TOK_EOF | TOK_ECU | TOK_SIGNAL | TOK_CAN | TOK_FLEXRAY | TOK_PROCESS | TOK_INPUT | TOK_OUTPUT | TOK_FILTER
| TOK_DIAGNOSTIC | TOK_SERVICE | TOK_SESSION | TOK_SECURITY | TOK_REQUEST | TOK_RESPONSE | TOK_ROUTINE
| TOK_DID | TOK_PATTERN | TOK_MATCH | TOK_TIMEOUT | TOK_FLOW | TOK_FRAME | TOK_ID | TOK_DLC | TOK_EXTENDED
| TOK_PERIODIC | TOK_TRIGGER | TOK_INTEGER | TOK_FLOAT | TOK_IDENTIFIER | TOK_HEX | TOK_BINARY | TOK_STRING
| TOK_ASSIGN | TOK_PLUS | TOK_MINUS | TOK_STAR | TOK_SLASH | TOK_PERCENT | TOK_AMPERSAND | TOK_PIPE
| TOK_CARET | TOK_TILDE | TOK_SHIFT_LEFT | TOK_SHIFT_RIGHT | TOK_EQUAL | TOK_NOT_EQUAL | TOK_LESS
| TOK_LESS_EQUAL | TOK_GREATER | TOK_GREATER_EQUAL | TOK_LBRACE | TOK_RBRACE | TOK_LPAREN | TOK_RPAREN
| TOK_LBRACKET | TOK_RBRACKET | TOK_COLON | TOK_SEMICOLON | TOK_DOT | TOK_COMMA | TOK_ARROW | TOK_ERROR
| TOK_COMMENT.
(** The position of a kind in the enumeration. *)
Definition all_kinds : list TokenKind := [
  TOK_EOF; TOK_ECU; TOK_SIGNAL; TOK_CAN; TOK_FLEXRAY; TOK_PROCESS; TOK_INPUT; TOK_OUTPUT; TOK_FILTER;
  TOK_DIAGNOSTIC; TOK_SERVICE; TOK_SESSION; TOK_SECURITY; TOK_REQUEST; TOK_RESPONSE; TOK_ROUTINE; TOK_DID;
  TOK_PATTERN; TOK_MATCH; TOK_TIMEOUT; TOK_FLOW; TOK_FRAME; TOK_ID; TOK_DLC; TOK_EXTENDED; TOK_PERIODIC;
  TOK_TRIGGER; TOK_INTEGER; TOK_FLOAT; TOK_IDENTIFIER; TOK_HEX; TOK_BINARY; TOK_STRING; TOK_ASSIGN; TOK_PLUS;
  TOK_MINUS; TOK_STAR; TOK_SLASH; TOK_PERCENT; TOK_AMPERSAND; TOK_PIPE; TOK_CARET; TOK_TILDE; TOK_SHIFT_LEFT;
  TOK_SHIFT_RIGHT; TOK_EQUAL; TOK_NOT_EQUAL; TOK_LESS; TOK_LESS_EQUAL; TOK_GREATER; TOK_GREATER_EQUAL;
  TOK_LBRACE; TOK_RBRACE; TOK_LPAREN; TOK_RPAREN; TOK_LBRACKET; TOK_RBRACKET; TOK_COLON; TOK_SEMICOLON;
  TOK_DOT; TOK_COMMA; TOK_ARROW; TOK_ERROR; TOK_COMMENT].
Definition kind_code (k : TokenKind) : nat :=
  match k with
  | TOK_EOF => 0 | TOK_ECU => 1 | TOK_SIGNAL => 2 | TOK_CAN => 3 | TOK_FLEXRAY => 4 | TOK_PROCESS => 5
  | TOK_INPUT => 6 | TOK_OUTPUT => 7 | TOK_FILTER => 8 | TOK_DIAGNOSTIC => 9 | TOK_SERVICE => 10
  | TOK_SESSION => 11 | TOK_SECURITY => 12 | TOK_REQUEST => 13 | TOK_RESPONSE => 14 | TOK_ROUTINE => 15
  | TOK_DID => 16 | TOK_PATTERN => 17 | TOK_MATCH => 18 | TOK_TIMEOUT => 19 | TOK_FLOW => 20
  | TOK_FRAME => 21 | TOK_ID => 22 | TOK_DLC => 23 | TOK_EXTENDED => 24 | TOK_PERIODIC => 25
  | TOK_TRIGGER => 26 | TOK_INTEGER => 27 | TOK_FLOAT => 28 | TOK_IDENTIFIER => 29 | TOK_HEX => 30
  | TOK_BINARY => 31 | TOK_STRING => 32 | TOK_ASSIGN => 33 | TOK_PLUS => 34 | TOK_MINUS => 35
  | TOK_STAR => 36 | TOK_SLASH => 37 | TOK_PERCENT => 38 | TOK_AMPERSAND => 39 | TOK_PIPE => 40
  | TOK_CARET => 41 | TOK_TILDE => 42 | TOK_SHIFT_LEFT => 43 | TOK_SHIFT_RIGHT => 44 | TOK_EQUAL => 45
  | TOK_NOT_EQUAL => 46 | TOK_LESS => 47 | TOK_LESS_EQUAL => 48 | TOK_GREATER => 49 | TOK_GREATER_EQUAL => 50
  | TOK_LBRACE => 51 | TOK_RBRACE => 52 | TOK_LPAREN => 53 | TOK_RPAREN => 54 | TOK_LBRACKET => 55
  | TOK_RBRACKET => 56 | TOK_COLON => 57 | TOK_SEMICOLON => 58 | TOK_DOT => 59 | TOK_COMMA => 60
  | TOK_ARROW => 61 | TOK_ERROR => 62 | TOK_COMMENT => 63
  end%nat.
Lemma kind_code_spec k : all_kinds !! kind_code k = Some k.
Proof. by destruct k. Qed.
#[export] Instance TokenKind_eq_dec : EqDecision TokenKind.
Proof.
  intros a b. refine (cast_if (decide (kind_code a = kind_code b))); [|congruence].
  apply (inj Some). by rewrite <- !kind_code_spec, e.
Defined.

Definition keywords : list (string * TokenKind) := [
  ("ecu", TOK_ECU); ("signal", TOK_SIGNAL); ("can", TOK_CAN); ("flexray", TOK_FLEXRAY);
  ("process", TOK_PROCESS); ("input", TOK_INPUT); ("output", TOK_OUTPUT); ("filter", TOK_FILTER);
  ("diagnostic", TOK_DIAGNOSTIC); ("service", TOK_SERVICE); ("session", TOK_SESSION);
  ("security", TOK_SECURITY); ("request", TOK_REQUEST); ("response", TOK_RESPONSE); ("routine", TOK_ROUTINE);
  ("did", TOK_DID); ("pattern", TOK_PATTERN); ("match", TOK_MATCH); ("timeout", TOK_TIMEOUT);
  ("flow", TOK_FLOW); ("frame", TOK_FRAME); ("id", TOK_ID); ("dlc", TOK_DLC); ("extended", TOK_EXTENDED);
  ("periodic", TOK_PERIODIC); ("trigger", TOK_TRIGGER)].
Definition token_names : list string := [
  "EOF"; "ECU"; "SIGNAL"; "CAN"; "FLEXRAY"; "PROCESS"; "INPUT"; "OUTPUT"; "FILTER"; "DIAGNOSTIC"; "SERVICE";
  "SESSION"; "SECURITY"; "REQUEST"; "RESPONSE"; "ROUTINE"; "DID"; "PATTERN"; "MATCH"; "TIMEOUT"; "FLOW";
  "FRAME"; "ID"; "DLC"; "EXTENDED"; "PERIODIC"; "TRIGGER"; "INTEGER"; "FLOAT"; "IDENTIFIER"; "HEX"; "BINARY";
  "STRING"; "ASSIGN"; "PLUS"; "MINUS"; "STAR"; "SLASH"; "PERCENT"; "AMPERSAND"; "PIPE"; "CARET"; "TILDE";
  "SHIFT_LEFT"; "SHIFT_RIGHT"; "EQUAL"; "NOT_EQUAL"; "LESS"; "LESS_EQUAL"; "GREATER"; "GREATER_EQUAL";
  "LBRACE"; "RBRACE"; "LPAREN"; "RPAREN"; "LBRACKET"; "RBRACKET"; "COLON"; "SEMICOLON"; "DOT"; "COMMA";
  "ARROW"; "ERROR"; "COMMENT"].
Definition lexer_token_kind_name (kind : TokenKind) : option string := token_names !! kind_code kind.

(** ** Characters *)

Definition in_range (lo hi c : Z) : bool := (lo <=? c) && (c <=? hi).
Definition is_digit (c : Z) : bool := in_range (chr "0") (chr "9") c.
Definition is_alpha (c : Z) : bool :=
  in_range (chr "a") (chr "z") c || in_range (chr "A") (chr "Z") c || (c =? chr "_").
Definition is_alnum (c : Z) : bool := is_alpha c || is_digit c.
(** The test of the loop over a number. *)
Definition is_number (c : Z) : bool := is_digit c || (c =? chr ".").
(** [' '], ['\t'] and ['\r'] *)
Definition is_blank (c : Z) : bool := (c =? chr " ") || (c =? 9) || (c =? 13).

(** The character a pointer points to. *)
Definition deref (p : list Z) : Z := match p with [] => NUL | c :: _ => c end.
(** [strncmp(a, b, n) == 0] *)
Fixpoint strncmp_eq (n : nat) (a b : list Z) : bool :=
  match n with
  | O => true
  | S n => (deref a =? deref b) && ((deref a =? NUL) || strncmp_eq n (tail a) (tail b))
  end.
(** [memcmp(a, b, n) == 0], for [n] characters in range. *)
Definition memcmp_eq (n : nat) (a b : list Z) : bool := bool_decide (take n a = take n b).

Definition check_keyword (start : list Z) (length : nat) : TokenKind :=
  match list_find (fun kw => (String.length kw.1 =? length)%nat && strncmp_eq length (chars kw.1) start) keywords with
  | Some (_, kw) => kw.2
  | None => TOK_IDENTIFIER
  end.
Definition lexer_is_keyword (identifier : list Z) (length : nat) : bool :=
  existsb (fun kw => (String.length kw.1 =? length)%nat && memcmp_eq length identifier (chars kw.1)) keywords.

(** ** The lexer *)

(** [lx_error]: line and column of the invalid character met last, [None] for [ERROR_NONE]. *)
Record Lexer := mkLexer {
  source : list Z; current : list Z; lx_line : Z; lx_column : Z; lx_error : option (Z * Z) }.
#[export] Instance eta_Lexer : Eta Lexer := fun l =>
  mkLexer (source l) (current l) (lx_line l) (lx_column l) (lx_error l).
Record Token := mkToken { kind : TokenKind; start : list Z; tok_length : nat; tok_line : Z; tok_column : Z }.
Definition lexeme (t : Token) : list Z := take (tok_length t) (start t).

Definition lexer_create (src : list Z) : Lexer := mkLexer src src 1 1 None.

(** [while ( *current != '\0' && *current != '\n') current++] *)
Fixpoint skip_line (p : list Z) : list Z :=
  match p with [] => [] | c :: p' => if c =? NEWLINE then p else skip_line p' end.

(** The loop of [skip_whitespace]; every round moves the pointer. *)
Fixpoint skip_loop (fuel : nat) (l : Lexer) : Lexer :=
  match fuel, current l with
  | S fuel, c :: p =>
      if is_blank c then
        skip_loop fuel (l <| lx_column ::= fun n => u32 (n + 1) |> <| current := p |>)
      else if c =? NEWLINE then
        skip_loop fuel (l <| lx_line ::= fun n => u32 (n + 1) |> <| lx_column := 1 |> <| current := p |>)
      else if c =? chr "/" then
        if deref p =? chr "/" then skip_loop fuel (l <| current := skip_line (drop 1 p) |>) else l
      else l
  | _, _ => l
  end.
Definition skip_whitespace (l : Lexer) : Lexer := skip_loop (length (current l)) l.

(** [while (P( *current)) { current++; column++; }] *)
Fixpoint advance_while (P : Z -> bool) (p : list Z) (column : Z) : list Z * Z :=
  match p with
  | c :: p' => if P c then advance_while P p' (u32 (column + 1)) else (p, column)
  | [] => ([], column)
  end.
Definition lex_span (P : Z -> bool) (l : Lexer) : Lexer :=
  let '(p, column) := advance_while P (current l) (lx_column l) in l <| current := p |> <| lx_column := column |>.

Definition punctuation (c : Z) : option TokenKind :=
  if c =? chr "{" then Some TOK_LBRACE else
  if c =? chr "}" then Some TOK_RBRACE else
  if c =? chr ":" then Some TOK_COLON else
  if c =? chr ";" then Some TOK_SEMICOLON else
  if c =? chr "." then Some TOK_DOT else None.

Definition lexer_next_token (l : Lexer) : Token * Lexer :=
  let l := skip_whitespace l in
  let token k n := mkToken k (current l) n (lx_line l) (lx_column l) in
  match current l with
  | [] => (token TOK_EOF 0%nat, l)
  | c :: p =>
      let l' := l <| current := p |> <| lx_column ::= fun n => u32 (n + 1) |> in
      if is_alpha c then
        let l' := lex_span is_alnum l' in
        let n := (length (current l) - length (current l'))%nat in
        (token (check_keyword (current l) n) n, l')
      else if is_digit c then
        let l' := lex_span is_number l' in
        (token TOK_INTEGER (length (current l) - length (current l'))%nat, l')
      else
        match punctuation c with
        | Some k => (token k 1%nat, l')
        | None => (token TOK_ERROR 1%nat, l' <| lx_error := Some (lx_line l, lx_column l) |>)
        end
  end.

(** [n] calls from the parser: all tokens before the end of the source; [None] when the
    end is not reached within [fuel] calls. *)
Fixpoint tokens (fuel : nat) (l : Lexer) : option (list Token) :=
  match fuel with
  | O => None
  | S fuel =>
      let '(t, l) := lexer_next_token l in
      if decide (kind t = TOK_EOF) then Some [] else ts ← tokens fuel l; Some (t :: ts)
  end.
Definition tokenize (src : list Z) : option (list Token) := tokens (S (length src)) (lexer_create src).

(** ** The lexical grammar

    [derives] is the grammar of the language, stated without the functions and tables of
    the lexer: the alphabet is spelled out, and a word is a keyword when the whole word is
    in the list of reserved words.  [lexes], below it, says the same with the tests
    of the code; [derives_lexes] shows that they agree. *)
Module Grammar.
Definition letter (c : Z) : Prop := c ∈ chars "abcdefghijklmnopqrstuvwxyzABCDEFGHIJKLMNOPQRSTUVWXYZ_".
Definition digit (c : Z) : Prop := c ∈ chars "0123456789".
(** What a word and a number go on with; a number may contain dots. *)
Definition word_char (c : Z) : Prop := letter c \/ digit c.
Definition number_char (c : Z) : Prop := digit c \/ c = chr ".".
(** Space, tabulator, carriage return and line feed. *)
Definition white (c : Z) : Prop := c ∈ [32; 9; 13; 10].

Definition reserved : list (list Z * TokenKind) := [
  (chars "can", TOK_CAN); (chars "did", TOK_DID); (chars "diagnostic", TOK_DIAGNOSTIC); (chars "dlc", TOK_DLC);
  (chars "ecu", TOK_ECU); (chars "extended", TOK_EXTENDED); (chars "filter", TOK_FILTER);
  (chars "flexray", TOK_FLEXRAY); (chars "flow", TOK_FLOW); (chars "frame", TOK_FRAME); (chars "id", TOK_ID);
  (chars "input", TOK_INPUT); (chars "match", TOK_MATCH); (chars "output", TOK_OUTPUT);
  (chars "pattern", TOK_PATTERN); (chars "periodic", TOK_PERIODIC); (chars "process", TOK_PROCESS);
  (chars "request", TOK_REQUEST); (chars "response", TOK_RESPONSE); (chars "routine", TOK_ROUTINE);
  (chars "security", TOK_SECURITY); (chars "service", TOK_SERVICE); (chars "session", TOK_SESSION);
  (chars "signal", TOK_SIGNAL); (chars "timeout", TOK_TIMEOUT); (chars "trigger", TOK_TRIGGER)].
Definition symbols : list (Z * TokenKind) :=
  [(chr "{", TOK_LBRACE); (chr "}", TOK_RBRACE); (chr ":", TOK_COLON); (chr ";", TOK_SEMICOLON); (chr ".", TOK_DOT)].

(** A comment runs from two slashes to the end of the line or of the text. *)
Inductive gap : list Z -> list Z -> Prop :=
| gap_none p : gap p p
| gap_white c p q : white c -> gap p q -> gap (c :: p) q
| gap_comment t p q : NEWLINE ∉ t -> p = [] \/ head p = Some NEWLINE -> gap p q -> gap (chars "//" ++ t ++ p) q.
Definition no_gap (p : list Z) : Prop :=
  match p with
  | [] => True
  | c :: p => ~ white c /\ ~ (c = chr "/" /\ head p = Some (chr "/"))
  end.
(** The text [p] does not go on with a character of the class. *)
Definition ends (class : Z -> Prop) (p : list Z) : Prop := match p with [] => True | c :: _ => ~ class c end.

Inductive token : TokenKind -> list Z -> list Z -> Prop :=
| keyword k c w rest : letter c -> Forall word_char w -> ends word_char rest ->
    (c :: w, k) ∈ reserved -> token k (c :: w) rest
| identifier c w rest : letter c -> Forall word_char w -> ends word_char rest ->
    (c :: w) ∉ reserved.*1 -> token TOK_IDENTIFIER (c :: w) rest
| number c w rest : digit c -> Forall number_char w -> ends number_char rest -> token TOK_INTEGER (c :: w) rest
| symbol c k rest : (c, k) ∈ symbols -> token k [c] rest
| foreign c rest : ~ letter c -> ~ digit c -> c ∉ symbols.*1 -> token TOK_ERROR [c] rest.

(** The text [p] is this sequence of kinds and lexemes. *)
Inductive derives : list Z -> list (TokenKind * list Z) -> Prop :=
| derives_end p : gap p [] -> derives p []
| derives_token p k w rest ts : gap p (w ++ rest) -> no_gap (w ++ rest) -> token k w rest -> derives rest ts ->
    derives p ((k, w) :: ts).
End Grammar.

(** *** The grammar in terms of the lexer's tests *)

(** [skips p q]: between [p] and [q] there are only blanks, line ends and comments. *)
Inductive skips : list Z -> list Z -> Prop :=
| skips_nothing p : skips p p
| skips_blank c p q : is_blank c = true \/ c = NEWLINE -> skips p q -> skips (c :: p) q
| skips_comment t p q : Forall (fun c => c <> NEWLINE) t -> deref p = NUL \/ deref p = NEWLINE ->
    skips p q -> skips (chr "/" :: chr "/" :: t ++ p) q.
(** Nothing to skip at [p]. *)
Definition stops (p : list Z) : Prop :=
  is_blank (deref p) = false /\ deref p <> NEWLINE /\ ~ (deref p = chr "/" /\ deref (tail p) = chr "/").

(** A lexeme of kind [k] before the text [rest]: words and numbers are as long as they can
    be. *)
Inductive is_token : TokenKind -> list Z -> list Z -> Prop :=
| token_word c w rest : is_alpha c = true -> Forall (fun c => is_alnum c = true) w -> is_alnum (deref rest) = false ->
    is_token (check_keyword (c :: w) (S (length w))) (c :: w) rest
| token_number c w rest : is_digit c = true -> Forall (fun c => is_number c = true) w -> is_number (deref rest) = false ->
    is_token TOK_INTEGER (c :: w) rest
| token_punctuation c k rest : punctuation c = Some k -> is_token k [c] rest
| token_error c rest : is_alpha c = false -> is_digit c = false -> punctuation c = None -> is_token TOK_ERROR [c] rest.

(** The source [p] is this sequence of kinds and lexemes. *)
Inductive lexes : list Z -> list (TokenKind * list Z) -> Prop :=
| lexes_end p : skips p [] -> lexes p []
| lexes_token p k w rest ts : skips p (w ++ rest) -> stops (w ++ rest) -> is_token k w rest -> lexes rest ts ->
    lexes p ((k, w) :: ts).

Definition text_ok (p : list Z) : Prop := Forall (fun c => c <> NUL) p.
#[export] Instance stops_dec p : Decision (stops p) := _.
#[export] Instance text_ok_dec p : Decision (text_ok p) := _.

(** *** Skipping *)

Lemma skip_line_spec p : exists t, p = t ++ skip_line p /\ Forall (fun c => c <> NEWLINE) t /\
  (deref (skip_line p) = NUL \/ deref (skip_line p) = NEWLINE).
Proof.
  induction p as [|c p (t & Hp & Ht & Hd)]; simpl; [exists []; by eauto|].
  destruct (c =? NEWLINE) eqn:E; tests; [subst; exists []; by eauto|].
  exists (c :: t). simpl. rewrite <- Hp. split_and!; [done|by constructor|done].
Qed.
Lemma skip_line_length p : (length (skip_line p) <= length p)%nat.
Proof. induction p as [|c p IH]; simpl; [done|]. destruct (c =? NEWLINE); simpl; lia. Qed.

Lemma deref_app t p : t <> [] -> deref (t ++ p) = deref t.
Proof. by destruct t. Qed.

Lemma skip_loop_spec fuel l :
  (length (current l) <= fuel)%nat ->
  skips (current l) (current (skip_loop fuel l)) /\ stops (current (skip_loop fuel l)).
Proof.
  revert l. induction fuel as [|fuel IH]; intros l Hf.
  { destruct (current l) as [|c p] eqn:E; simpl in Hf; [|lia]. simpl. rewrite E. split; [constructor|].
    split_and!; [done|done|]. by intros []. }
  destruct (current l) as [|c p] eqn:E; simpl; rewrite E.
  { rewrite E. split; [constructor|]. split_and!; [done|done|]. by intros []. }
  simpl in Hf. destruct (is_blank c) eqn:Eb.
  { destruct (IH (l <| lx_column ::= fun n => u32 (n + 1) |> <| current := p |>)) as [Hs Ht]; [simpl; lia|].
    split; [|done]. apply skips_blank; auto. }
  destruct (c =? NEWLINE) eqn:En; tests.
  { destruct (IH (l <| lx_line ::= fun n => u32 (n + 1) |> <| lx_column := 1 |> <| current := p |>)) as [Hs Ht];
      [simpl; lia|]. split; [|done]. apply skips_blank; auto. }
  destruct (c =? chr "/") eqn:Es; tests; [destruct (deref p =? chr "/") eqn:Ep; tests|].
  - destruct p as [|c' p]; [done|]. simpl in Ep; subst. simpl in Hf.
    destruct (skip_line_spec p) as (t & Hp & Ht & Hd). pose proof (skip_line_length p).
    destruct (IH (l <| current := skip_line p |>)) as [Hs Hst]; [simpl; lia|]. split; [|exact Hst].
    rewrite Hp at 1. by constructor.
  - rewrite E. split; [constructor|]. split_and!; [done|done|]. by intros [].
  - rewrite E. split; [constructor|]. split_and!; [done|done|]. by intros [].
Qed.

Lemma line_split_unique (t t' p p' : list Z) :
  text_ok (t ++ p) -> Forall (fun c => c <> NEWLINE) t -> Forall (fun c => c <> NEWLINE) t' ->
  deref p = NUL \/ deref p = NEWLINE -> deref p' = NUL \/ deref p' = NEWLINE -> t ++ p = t' ++ p' -> p = p'.
Proof.
  intros Hok Ht Ht' Hp Hp'. revert t' Ht'. induction Ht as [|c t Hc Ht IH]; intros t' Ht' He.
  - destruct t' as [|c' t']; [done|]. simpl in He. subst. simpl in *. inversion Hok; inversion Ht'; simplify_eq.
    destruct Hp; subst; done.
  - destruct t' as [|c' t']; simpl in *.
    + subst. inversion Hok; simplify_eq. simpl in Hp'. by destruct Hp'.
    + simplify_eq. inversion Hok; inversion Ht'; simplify_eq. by apply (IH ltac:(done) t').
Qed.

Lemma skips_text p q : text_ok p -> skips p q -> text_ok q.
Proof.
  intros Hp Hs. induction Hs as [p|c p q _ _ IH|t p q _ _ _ IH]; [done|inversion Hp; auto|].
  apply IH. inversion Hp as [|? ? _ Hp1]; inversion Hp1 as [|? ? _ Hp2]; simplify_eq. by apply Forall_app in Hp2 as [_ ?].
Qed.

(** How far to skip is determined. *)
Lemma skips_unique p q q' : text_ok p -> skips p q -> stops q -> skips p q' -> stops q' -> q = q'.
Proof.
  intros Hok Hs. revert q' Hok. induction Hs as [p|c p q Hc Hs IH|t p q Ht Hd Hs IH]; intros q' Hok Hq Hs' Hq'.
  - destruct Hq as (Hb & Hn & Hsl). inversion Hs' as [|c p' ? Hc _|t p' ? _ _ _]; simplify_eq; [done| |].
    + simpl in *. destruct Hc; congruence.
    + simpl in Hsl. tauto.
  - inversion Hok; simplify_eq. inversion Hs' as [|? ? ? _ Hs2|]; simplify_eq.
    + destruct Hq' as (Hb & Hn & _). simpl in *. destruct Hc; congruence.
    + by apply IH.
    + destruct Hc as [Hc|Hc]; [vm_compute in Hc; done|done].
  - inversion Hok as [|? ? _ Hok1]; inversion Hok1 as [|? ? _ Hok2]; simplify_eq.
    inversion Hs' as [|? ? ? Hc Hs2|t' p' ? Ht' Hd' Hs2]; simplify_eq.
    + destruct Hq' as (_ & _ & Hsl). simpl in Hsl. tauto.
    + destruct Hc as [Hc|Hc]; [vm_compute in Hc; done|done].
    + assert (p = p') as <- by (symmetry in H; by eapply (line_split_unique t t')).
      apply IH; [by apply Forall_app in Hok2 as [_ ?]|done..].
Qed.

(** *** Tokens *)

Lemma advance_while_spec P p column : P NUL = false -> exists w,
  p = w ++ (advance_while P p column).1 /\ Forall (fun c => P c = true) w /\ P (deref (advance_while P p column).1) = false.
Proof.
  intros HP. revert column. induction p as [|c p IH]; intros column; simpl; [by exists []|].
  destruct (P c) eqn:E; [|by exists []]. destruct (IH (u32 (column + 1))) as (w & Hp & Hw & Hd).
  exists (c :: w). split_and!; [simpl; by rewrite <- Hp|by constructor|done].
Qed.
Lemma span_unique P (w w' p p' : list Z) :
  Forall (fun c => P c = true) w -> Forall (fun c => P c = true) w' -> P (deref p) = false -> P (deref p') = false ->
  w ++ p = w' ++ p' -> w = w' /\ p = p'.
Proof.
  intros Hw Hw' Hp Hp'. revert w' Hw'. induction Hw as [|c w Hc Hw IH]; intros w' Hw' He.
  - destruct Hw'; simplify_eq/=; [done|congruence].
  - destruct Hw' as [|c' w' Hc' Hw']; simpl in *; [subst; simpl in *; congruence|].
    injection He as -> He. by destruct (IH w' Hw' He) as [-> ->].
Qed.

Lemma strncmp_eq_prefix n a b r : (n <= length b)%nat -> strncmp_eq n a (b ++ r) = strncmp_eq n a b.
Proof.
  revert a b. induction n as [|n IH]; intros a [|c b] Hn; simpl in *; try done; [lia|]. by rewrite IH by lia.
Qed.
Lemma check_keyword_prefix w r n : (n <= length w)%nat -> check_keyword (w ++ r) n = check_keyword w n.
Proof.
  intros Hn. unfold check_keyword. erewrite list_find_ext; [reflexivity|]. intros kw. simpl. by rewrite strncmp_eq_prefix.
Qed.

Lemma check_keyword_kinds w n : check_keyword w n ∈ TOK_IDENTIFIER :: keywords.*2.
Proof.
  unfold check_keyword. destruct (list_find _ _) as [[i kw]|] eqn:E; [|by left].
  apply list_find_Some in E as (Hk & _). right. by eapply list_elem_of_fmap_2, list_elem_of_lookup_2.
Qed.

Lemma punctuation_class c k : punctuation c = Some k -> is_alpha c = false /\ is_digit c = false.
Proof. unfold punctuation. intros H. repeat (case_match; [tests; subst; by vm_compute|]). done. Qed.
Lemma alpha_not_digit c : is_alpha c = true -> is_digit c = false.
Proof.
  intros H. destruct (is_digit c) eqn:E; [|done]. exfalso. unfold is_alpha, is_digit, in_range in *.
  change (chr "0") with 48 in E. change (chr "9") with 57 in E. change (chr "a") with 97 in H.
  change (chr "A") with 65 in H. change (chr "_") with 95 in H.
  tests. destruct H as [H|H]; tests; [|lia]. destruct H; tests; lia.
Qed.

Lemma is_token_nonempty k w rest : is_token k w rest -> w <> [].
Proof. by destruct 1. Qed.
Lemma is_token_not_eof k w rest : is_token k w rest -> k <> TOK_EOF.
Proof.
  destruct 1 as [c w rest _ _ _| |c k rest Hk|]; [|done| |done].
  - intros E. pose proof (check_keyword_kinds (c :: w) (S (length w))) as Hin. rewrite E in Hin.
    revert Hin. apply (bool_decide_unpack (_ ∉ _)). by vm_compute.
  - unfold punctuation in Hk. intros ->. repeat (case_match; [done|]). done.
Qed.

Lemma is_token_unique k k' w w' p p' :
  is_token k w p -> is_token k' w' p' -> w ++ p = w' ++ p' -> k = k' /\ w = w' /\ p = p'.
Proof.
  intros [c v r Hc Hv Hr|c v r Hc Hv Hr|c q r Hq|c r H1 H2 H3] [c' v' r' Hc' Hv' Hr'|c' v' r' Hc' Hv' Hr'|c' q' r' Hq'|c' r' H1' H2' H3'];
    intros He; injection He as -> He; try congruence;
    try (apply alpha_not_digit in Hc; congruence); try (apply alpha_not_digit in Hc'; congruence);
    try (apply punctuation_class in Hq as []; congruence); try (apply punctuation_class in Hq' as []; congruence);
    try (simpl in He; by simplify_eq).
  - by destruct (span_unique is_alnum v v' r r' Hv Hv' Hr Hr' He) as [-> ->].
  - by destruct (span_unique is_number v v' r r' Hv Hv' Hr Hr' He) as [-> ->].
Qed.

Lemma lex_span_spec P l : P NUL = false -> exists w,
  current l = w ++ current (lex_span P l) /\ Forall (fun c => P c = true) w /\ P (deref (current (lex_span P l))) = false.
Proof.
  intros HP. destruct (advance_while_spec P (current l) (lx_column l) HP) as (w & Hw). exists w.
  unfold lex_span. by destruct (advance_while _ _ _) as [p column].
Qed.

(** What one call returns. *)
Lemma next_token_spec l :
  let '(t, l') := lexer_next_token l in
  start t = current (skip_whitespace l) /\
  ((kind t = TOK_EOF /\ start t = [] /\ current l' = []) \/
   (is_token (kind t) (lexeme t) (current l') /\ start t = lexeme t ++ current l')).
Proof.
  unfold lexer_next_token. destruct (current (skip_whitespace l)) as [|c p] eqn:E; [by eauto|].
  assert (Hlex : forall w q, c :: w ++ q = c :: p -> (length (c :: p) - length q)%nat = S (length w)).
  { intros w q [= <-]. simpl. rewrite length_app. lia. }
  set (l1 := setf lx_column _ _).
  destruct (is_alpha c) eqn:Ea; [|destruct (is_digit c) eqn:Ed].
  - destruct (lex_span_spec is_alnum l1 ltac:(by vm_compute)) as (w & Hw & Ha & Hd).
    change (current l1) with p in Hw. revert Hw Hd. generalize (lex_span is_alnum l1). clear l1. intros l2 Hw Hd.
    unfold lexeme; cbn [kind start tok_length]. rewrite (Hlex w) by (by rewrite <- Hw). subst p. split; [done|right].
    change (c :: w ++ current l2) with ((c :: w) ++ current l2).
    rewrite check_keyword_prefix, take_app_length' by (simpl; done || lia). split; [by constructor|done].
  - destruct (lex_span_spec is_number l1 ltac:(by vm_compute)) as (w & Hw & Ha & Hd).
    change (current l1) with p in Hw. revert Hw Hd. generalize (lex_span is_number l1). clear l1. intros l2 Hw Hd.
    unfold lexeme; cbn [kind start tok_length]. rewrite (Hlex w) by (by rewrite <- Hw). subst p. split; [done|right].
    change (c :: w ++ current l2) with ((c :: w) ++ current l2).
    rewrite take_app_length' by done. split; [by constructor|done].
  - destruct (punctuation c) as [k|] eqn:Ep; (split; [done|right; split; [|done]]); unfold lexeme; simpl; by constructor.
Qed.

(** ** Properties *)

Definition shape (t : Token) : TokenKind * list Z := (kind t, lexeme t).

Lemma skip_shorter l : (length (current (skip_whitespace l)) <= length (current l))%nat.
Proof.
  destruct (skip_loop_spec (length (current l)) l (Nat.le_refl _)) as [Hsk _]. fold (skip_whitespace l) in Hsk.
  induction Hsk as [|? ? ? _ _ ?|? ? ? _ _ _ ?]; simpl; rewrite ?length_app; lia.
Qed.

Lemma tokens_lex fuel l :
  (length (current l) < fuel)%nat ->
  exists ts, tokens fuel l = Some ts /\ lexes (current l) (shape <$> ts) /\ (length ts <= length (current l))%nat.
Proof.
  revert l. induction fuel as [|fuel IH]; intros l Hf; [lia|]. simpl.
  pose proof (skip_loop_spec (length (current l)) l (Nat.le_refl _)) as [Hsk Hst]. fold (skip_whitespace l) in Hsk, Hst.
  assert (Hlen := skip_shorter l).
  pose proof (next_token_spec l) as Hn. destruct (lexer_next_token l) as [t l']. destruct Hn as [Hs Hn]. rewrite <- Hs in *.
  destruct Hn as [(Hk & Hnil & _)|[Htok Hl]].
  - rewrite decide_True by done. exists []. rewrite Hnil in Hsk. split_and!; [done|by constructor|simpl; lia].
  - rewrite decide_False by (by eapply is_token_not_eof).
    pose proof (is_token_nonempty _ _ _ Htok) as Hne. rewrite Hl, length_app in Hlen.
    destruct (lexeme t) as [|c w] eqn:El; [done|]. simpl in Hlen. rewrite <- El in *.
    destruct (IH l') as (ts & Hts & Hlx & Hle); [lia|].
    exists (t :: ts). rewrite Hts. split_and!; [done| |simpl; lia].
    rewrite Hl in Hsk, Hst. by eapply lexes_token.
Qed.

Lemma token_text p (w rest : list Z) : text_ok p -> skips p (w ++ rest) -> text_ok rest.
Proof. intros Hp Hs%skips_text; [|done]. by apply Forall_app in Hs as [_ ?]. Qed.
Lemma lexes_unique p ts ts' : text_ok p -> lexes p ts -> lexes p ts' -> ts = ts'.
Proof.
  intros Hp Hl. revert ts' Hp. induction Hl as [p Hs|p k w rest ts Hs Hst Htok Hl IH]; intros ts' Hp Hl'.
  - destruct Hl' as [|p k w rest ts' Hs' Hst' Htok' _]; [done|].
    assert ([] = w ++ rest) as He. { eapply skips_unique; [done| |split_and!; [done|done|by intros []]|done..]. done. }
    apply is_token_nonempty in Htok'. by destruct w.
  - destruct Hl' as [p Hs'|p k' w' rest' ts' Hs' Hst' Htok' Hl'].
    + assert (w ++ rest = []) as He. { eapply skips_unique; [done| |done| |split_and!; [done|done|by intros []]]; done. }
      apply is_token_nonempty in Htok. by destruct w.
    + assert (w ++ rest = w' ++ rest') as He by (by eapply skips_unique).
      destruct (is_token_unique _ _ _ _ _ _ Htok Htok' He) as (-> & -> & ->). f_equal. apply IH; [|done].
      by eapply token_text.
Qed.

(** *** Agreement with the grammar *)

Lemma strncmp_eq_spec a b : text_ok a -> (length a <= length b)%nat ->
  strncmp_eq (length a) a b = bool_decide (take (length a) b = a).
Proof.
  intros Ha. revert b. induction Ha as [|c a Hc Ha IH]; intros b Hb; [by rewrite bool_decide_true|].
  destruct b as [|d b]; simpl in Hb; [lia|]. simpl. rewrite (proj2 (Z.eqb_neq _ _) Hc). cbn [orb].
  rewrite IH by lia. destruct (c =? d) eqn:E; tests; subst; simpl.
  - apply bool_decide_ext. split; [by intros ->|by intros [= ->]].
  - symmetry. apply bool_decide_false. intros [= ? _]. congruence.
Qed.
Lemma keywords_text : Forall (fun kw : string * TokenKind => text_ok (chars kw.1) /\ length (chars kw.1) = String.length kw.1 /\
  kw.2 <> TOK_IDENTIFIER) keywords.
Proof. apply (bool_decide_unpack _). by vm_compute. Qed.

(** The test of the keyword loop compares whole words. *)
Lemma keyword_test kw w : kw ∈ keywords ->
  (String.length kw.1 =? length w)%nat && strncmp_eq (length w) (chars kw.1) w = bool_decide (chars kw.1 = w).
Proof.
  intros Hin. destruct (proj1 (Forall_forall _ _) keywords_text _ Hin) as (Ht & Hl & _).
  destruct (String.length kw.1 =? length w)%nat eqn:E; tests.
  - cbn [andb]. rewrite <- E, <- Hl, strncmp_eq_spec by (done || lia). rewrite take_ge by lia.
    by apply bool_decide_ext.
  - symmetry. apply bool_decide_false. intros <-. congruence.
Qed.
Lemma reserved_keywords w k : (w, k) ∈ Grammar.reserved <-> exists s, (s, k) ∈ keywords /\ chars s = w.
Proof.
  transitivity ((w, k) ∈ prod_map chars id <$> keywords).
  - assert (H : Grammar.reserved ≡ₚ prod_map chars id <$> keywords) by (apply (bool_decide_unpack _); by vm_compute).
    by rewrite H.
  - rewrite list_elem_of_fmap. split.
    + intros ([s k'] & [= -> ->] & Hin). by exists s.
    + intros (s & Hin & <-). by exists (s, k).
Qed.
Lemma reserved_once w k k' : (w, k) ∈ Grammar.reserved -> (w, k') ∈ Grammar.reserved -> k = k'.
Proof.
  assert (Hnd : NoDup Grammar.reserved.*1) by (apply (bool_decide_unpack _); by vm_compute).
  intros H1 H2. apply (elem_of_list_to_map (M := gmap (list Z)) _ _ _ Hnd) in H1.
  apply (elem_of_list_to_map (M := gmap (list Z)) _ _ _ Hnd) in H2. congruence.
Qed.
(** [check_keyword] on a whole word. *)
Lemma check_keyword_reserved w k :
  check_keyword w (length w) = k <->
  (w, k) ∈ Grammar.reserved \/ (k = TOK_IDENTIFIER /\ w ∉ Grammar.reserved.*1).
Proof.
  unfold check_keyword. destruct (list_find _ _) as [[i kw]|] eqn:E.
  - apply list_find_Some in E as (Hk%list_elem_of_lookup_2 & Ht & _).
    rewrite keyword_test in Ht by done. apply bool_decide_unpack in Ht.
    assert (Hr : (w, kw.2) ∈ Grammar.reserved) by (apply reserved_keywords; exists kw.1; by destruct kw).
    split; [by intros <-; left|]. intros [Hk'|[_ Hn]]; [by eapply reserved_once|].
    destruct Hn. by apply (list_elem_of_fmap_2 fst _ _ Hr).
  - apply list_find_None in E.
    assert (Hn : w ∉ Grammar.reserved.*1).
    { intros ([w' k'] & -> & (s & Hs & Hw)%reserved_keywords)%list_elem_of_fmap. cbn [fst] in *.
      apply (proj1 (Forall_forall _ _) E _ Hs). rewrite keyword_test by done. by apply bool_decide_pack. }
    split; [by intros <-; right|]. intros [Hk|[-> _]]; [|done]. destruct Hn. by apply (list_elem_of_fmap_2 fst _ _ Hk).
Qed.

Lemma is_alpha_letter c : is_alpha c = true <-> Grammar.letter c.
Proof.
  unfold is_alpha, in_range, Grammar.letter. rewrite !orb_true_iff, !andb_true_iff, !Z.leb_le, Z.eqb_eq.
  cbn -[Z.le]. rewrite !elem_of_cons, elem_of_nil. lia.
Qed.
Lemma is_digit_digit c : is_digit c = true <-> Grammar.digit c.
Proof.
  unfold is_digit, in_range, Grammar.digit. rewrite andb_true_iff, !Z.leb_le.
  cbn -[Z.le]. rewrite !elem_of_cons, elem_of_nil. lia.
Qed.
Lemma is_alnum_word c : is_alnum c = true <-> Grammar.word_char c.
Proof. unfold is_alnum. by rewrite orb_true_iff, is_alpha_letter, is_digit_digit. Qed.
Lemma is_number_number c : is_number c = true <-> Grammar.number_char c.
Proof. unfold is_number. by rewrite orb_true_iff, is_digit_digit, Z.eqb_eq. Qed.
Lemma is_blank_white c : is_blank c = true \/ c = NEWLINE <-> Grammar.white c.
Proof.
  unfold is_blank, Grammar.white, NEWLINE. rewrite !orb_true_iff, !Z.eqb_eq, !elem_of_cons, elem_of_nil.
  change (chr " ") with 32. lia.
Qed.
Lemma punctuation_symbol c k : punctuation c = Some k <-> (c, k) ∈ Grammar.symbols.
Proof.
  unfold punctuation, Grammar.symbols. rewrite !elem_of_cons, elem_of_nil.
  split.
  - intros H. repeat (case_match; [tests; subst; simplify_eq; naive_solver|]). done.
  - intros H. repeat (destruct H as [[= -> ->]|H]; [reflexivity|]). done.
Qed.
Lemma punctuation_none c : punctuation c = None <-> c ∉ Grammar.symbols.*1.
Proof.
  split.
  - intros Hn ([c' k] & -> & Hk)%list_elem_of_fmap. apply punctuation_symbol in Hk. cbn [fst] in *. congruence.
  - intros Hn. destruct (punctuation c) as [k|] eqn:E; [|done]. apply punctuation_symbol in E.
    destruct Hn. by apply (list_elem_of_fmap_2 fst _ _ E).
Qed.
Lemma ends_deref (P : Z -> bool) (class : Z -> Prop) p :
  (forall c, P c = true <-> class c) -> P NUL = false -> P (deref p) = false <-> Grammar.ends class p.
Proof.
  intros H H0. destruct p as [|c p]; simpl; [done|]. rewrite <- H. by destruct (P c).
Qed.

Lemma token_is_token k w rest : Grammar.token k w rest <-> is_token k w rest.
Proof.
  assert (Hw : forall w, Forall Grammar.word_char w <-> Forall (fun c => is_alnum c = true) w)
    by (intros; apply Forall_iff; intros; symmetry; apply is_alnum_word).
  assert (Hn : forall w, Forall Grammar.number_char w <-> Forall (fun c => is_number c = true) w)
    by (intros; apply Forall_iff; intros; symmetry; apply is_number_number).
  assert (Hew := fun p => ends_deref is_alnum _ p is_alnum_word eq_refl).
  assert (Hen := fun p => ends_deref is_number _ p is_number_number eq_refl).
  split.
  - intros [k' c v r Hc Hv Hr Hk|c v r Hc Hv Hr Hk|c v r Hc Hv Hr|c k' r Hk|c r H1 H2 H3].
    + rewrite <- (proj2 (check_keyword_reserved (c :: v) k') (or_introl Hk)).
      constructor; [by apply is_alpha_letter|by apply Hw|by apply Hew].
    + rewrite <- (proj2 (check_keyword_reserved (c :: v) TOK_IDENTIFIER) (or_intror (conj eq_refl Hk))).
      constructor; [by apply is_alpha_letter|by apply Hw|by apply Hew].
    + constructor; [by apply is_digit_digit|by apply Hn|by apply Hen].
    + constructor. by apply punctuation_symbol.
    + constructor; [|..|by apply punctuation_none]; apply not_true_is_false;
        by rewrite ?is_alpha_letter, ?is_digit_digit.
  - intros [c v r Hc Hv Hr|c v r Hc Hv Hr|c k' r Hk|c r H1 H2 H3].
    + apply is_alpha_letter in Hc. apply Hw in Hv. apply Hew in Hr.
      destruct (proj1 (check_keyword_reserved (c :: v) _) eq_refl) as [Hk|[Hk Hn']]; [by constructor|].
      simpl length in Hk. rewrite Hk. by constructor.
    + apply is_digit_digit in Hc. apply Hn in Hv. apply Hen in Hr. by constructor.
    + apply Grammar.symbol. by apply punctuation_symbol.
    + apply not_true_iff_false in H1, H2. rewrite is_alpha_letter in H1. rewrite is_digit_digit in H2.
      constructor; [done|done|by apply punctuation_none].
Qed.

Lemma gap_skips p q : text_ok p -> Grammar.gap p q <-> skips p q.
Proof.
  assert (Hl : forall t : list Z, Forall (fun c => c <> NEWLINE) t <-> NEWLINE ∉ t).
  { intros t. rewrite Forall_forall. split; [by intros H Hin; apply (H _ Hin)|]. intros H x Hx ->. done. }
  assert (Hd : forall p, text_ok p -> (p = [] \/ head p = Some NEWLINE) <-> (deref p = NUL \/ deref p = NEWLINE)).
  { intros [|c r] Hok; simpl; [naive_solver|]. inversion Hok; subst. naive_solver. }
  intros Hok. split; intros H; revert Hok; induction H as [p|c p q Hc H IH|t p q Ht Hp H IH]; intros Hok;
    [constructor|inversion Hok; subst; apply skips_blank; [by apply is_blank_white|by apply IH]|
     |constructor|inversion Hok; subst; apply Grammar.gap_white; [by apply is_blank_white|by apply IH]|].
  - assert (Hokp : text_ok p) by (by do 2 (inversion Hok as [|? ? _ Hok']; subst; clear Hok; rename Hok' into Hok); apply Forall_app in Hok as []).
    apply (skips_comment t p q); [by apply Hl|by apply Hd|by apply IH].
  - assert (Hokp : text_ok p) by (by do 2 (inversion Hok as [|? ? _ Hok']; subst; clear Hok; rename Hok' into Hok); apply Forall_app in Hok as []).
    apply (Grammar.gap_comment t p q); [by apply Hl|by apply Hd|by apply IH].
Qed.
Lemma no_gap_stops p : Grammar.no_gap p <-> stops p.
Proof.
  unfold stops. destruct p as [|c p]; simpl; [split; [|done]; intros _; split_and!; [done|done|by intros []]|].
  rewrite <- is_blank_white, <- not_true_iff_false.
  assert (Hh : head p = Some (chr "/") <-> deref p = chr "/") by (destruct p; simpl; naive_solver).
  rewrite Hh. tauto.
Qed.

Lemma gap_suffix p q : skips p q -> text_ok p -> text_ok q.
Proof.
  induction 1 as [|c p q _ _ IH|t p q _ _ _ IH]; intros Hok; [done|by inversion Hok; auto|].
  apply IH. do 2 (inversion Hok as [|? ? _ Hok']; subst; clear Hok; rename Hok' into Hok). by apply Forall_app in Hok as [].
Qed.
(** The two grammars give a text the same readings. *)
Lemma derives_lexes p kl : text_ok p -> Grammar.derives p kl <-> lexes p kl.
Proof.
  intros Hok. split; intros H; revert Hok; induction H as [p Hp|p k w rest ts Hp Hst Ht H IH]; intros Hok.
  - constructor. by apply gap_skips.
  - apply gap_skips in Hp; [|done]. pose proof (gap_suffix _ _ Hp Hok) as Hr. apply Forall_app in Hr as [_ Hr].
    eapply lexes_token; [done|by apply no_gap_stops|by apply token_is_token|by apply IH].
  - constructor. by apply gap_skips.
  - pose proof (gap_suffix _ _ Hp Hok) as Hr. apply Forall_app in Hr as [_ Hr].
    eapply Grammar.derives_token; [by apply gap_skips|by apply no_gap_stops|by apply token_is_token|by apply IH].
Qed.

(** C20. The lexer implements the lexical grammar [Grammar.derives]: from every source text
    it reaches the end after at most as many tokens as there are characters, and the kinds and
    lexemes it returns are the one sequence the grammar gives the text, longest words and
    numbers first, blanks and comments in between.  The grammar names the reserved words, the
    symbols and the alphabet itself; a word is a keyword when all of it is reserved. *)
Theorem lexer_refines_grammar src :
  text_ok src ->
  exists ts, tokenize src = Some ts /\ (length ts <= length src)%nat /\
             forall kl, Grammar.derives src kl <-> kl = shape <$> ts.
Proof.
  intros Hok. destruct (tokens_lex (S (length src)) (lexer_create src)) as (ts & Hts & Hlx & Hle); [simpl; lia|].
  exists ts. split_and!; [done|done|]. intros kl. rewrite derives_lexes by done. split; [intros Hl|by intros ->].
  by eapply lexes_unique.
Qed.
Definition source0 : list Z := chars "ecu Engine { id: 12; // ten" ++ [NEWLINE] ++ chars "}".
Lemma lexer_refines_grammar_witness :
  exists ts, tokenize source0 = Some ts /\ Grammar.derives source0 (shape <$> ts) /\
    kind <$> ts = [TOK_ECU; TOK_IDENTIFIER; TOK_LBRACE; TOK_ID; TOK_COLON; TOK_INTEGER; TOK_SEMICOLON; TOK_RBRACE].
Proof.
  destruct (lexer_refines_grammar source0) as (ts & Hts & _ & Hl); [by apply (bool_decide_unpack _); vm_compute|].
  exists ts. split; [done|]. split; [by apply Hl|]. vm_compute in Hts. by injection Hts as <-.
Defined.

(** *** Printing and lexing again *)

Definition print_tokens (kl : list (TokenKind * list Z)) : list Z := concat ((fun t => t.2 ++ [chr " "]) <$> kl).
(** A kind and a lexeme of that kind, which no blank or comment begins. *)
Definition printable (t : TokenKind * list Z) : Prop :=
  is_token t.1 t.2 [chr " "] /\ stops (t.2 ++ [chr " "]) /\ text_ok t.2.

Lemma is_token_deref k w rest rest' : deref rest = deref rest' -> is_token k w rest -> is_token k w rest'.
Proof. intros He Ht. inversion Ht; subst; constructor; congruence. Qed.
Lemma stops_blank w c p : w <> [] -> stops (w ++ [c]) -> stops (w ++ c :: p).
Proof. intros Hw. destruct w as [|a [|b w]]; done. Qed.

Lemma print_lexes kl p :
  Forall printable kl -> skips p (print_tokens kl) -> lexes p kl.
Proof.
  intros Hkl. revert p. induction Hkl as [|[k w] kl (Htok & Hst & _) Hkl IH]; intros p Hs; [by constructor|].
  cbn [fst snd] in *. unfold print_tokens in Hs. cbn [fmap list_fmap concat snd] in Hs. rewrite <- app_assoc in Hs. fold (print_tokens kl) in Hs.
  eapply lexes_token; [exact Hs|apply stops_blank; [by eapply is_token_nonempty|done]| |].
  - by eapply is_token_deref; [|exact Htok].
  - apply IH. apply skips_blank; [left; by vm_compute|constructor].
Qed.
Lemma print_text kl : Forall printable kl -> text_ok (print_tokens kl).
Proof.
  induction 1 as [|t kl (_ & _ & Ht) _ IH]; [by constructor|]. unfold print_tokens. cbn. apply Forall_app. split; [|done].
  apply Forall_app. split; [done|]. by apply Forall_singleton.
Qed.

(** Printing kinds and lexemes with a blank after each and lexing the text gives
    them back. *)
Theorem lexer_round_trip kl :
  Forall printable kl -> exists ts, tokenize (print_tokens kl) = Some ts /\ shape <$> ts = kl.
Proof.
  intros Hkl. destruct (tokens_lex (S (length (print_tokens kl))) (lexer_create (print_tokens kl)))
    as (ts & Hts & Hlx & _); [simpl; lia|].
  exists ts. split; [done|]. eapply lexes_unique; [by apply print_text|done|]. apply print_lexes; [done|constructor].
Qed.
Definition print0 : list (TokenKind * list Z) := [(TOK_ECU, chars "ecu"); (TOK_IDENTIFIER, chars "x1"); (TOK_ERROR, chars "/")].
Lemma lexer_round_trip_witness : exists ts, tokenize (print_tokens print0) = Some ts /\ shape <$> ts = print0.
Proof.
  assert (Hp : forall t, is_token t.1 t.2 [chr " "] -> bool_decide (stops (t.2 ++ [chr " "]) /\ text_ok t.2) = true -> printable t).
  { intros t Ht H%bool_decide_eq_true_1. by destruct H. }
  apply lexer_round_trip. repeat (apply Forall_cons; split); [apply Hp; [|by vm_compute]..|done].
  - by apply (token_word (chr "e") (chars "cu")); [|repeat constructor|].
  - by apply (token_word (chr "x") (chars "1")); [|repeat constructor|].
  - by apply token_error.
Defined.

(** *** Positions *)

(** Line and column of the character behind a text, both counted from 1. *)
Definition next_position (pos : Z * Z) (c : Z) : Z * Z := if c =? NEWLINE then (pos.1 + 1, 1) else (pos.1, pos.2 + 1).
Definition position (pre : list Z) : Z * Z := foldl next_position (1, 1) pre.

Lemma position_snoc pre c : position (pre ++ [c]) = next_position (position pre) c.
Proof. unfold position. by rewrite foldl_app. Qed.
Lemma position_line pre t : Forall (fun c => c <> NEWLINE) t ->
  position (pre ++ t) = ((position pre).1, (position pre).2 + Z.of_nat (length t)).
Proof.
  intros Ht. unfold position. rewrite foldl_app. generalize (foldl next_position (1, 1) pre). intros p. revert p.
  induction Ht as [|c t Hc Ht IH]; intros [a b]; simpl; [f_equal; lia|]. rewrite IH. unfold next_position.
  rewrite (proj2 (Z.eqb_neq _ _) Hc). simpl. f_equal. lia.
Qed.
(** The counters at the text before the pointer; behind a comment, which ends at a line end
    or at the end of the source, the column is stale. *)
Definition placed (pre : list Z) (l : Lexer) : Prop :=
  source l = pre ++ current l /\ lx_line l = u32 (position pre).1 /\
  (lx_column l = u32 (position pre).2 \/ deref (current l) = NUL \/ deref (current l) = NEWLINE).
(** The column is right too. *)
Definition placed_exactly (pre : list Z) (l : Lexer) : Prop :=
  placed pre l /\ lx_column l = u32 (position pre).2.

Lemma skip_loop_placed fuel l pre :
  text_ok (current l) -> placed pre l -> exists pre', placed pre' (skip_loop fuel l) /\ text_ok (current (skip_loop fuel l)).
Proof.
  revert l pre. induction fuel as [|fuel IH]; intros l pre Hok Hp; [by exists pre|]. simpl.
  destruct Hp as (Hs & Hl & Hc). destruct (current l) as [|c p] eqn:E; [rewrite E; exists pre; by unfold placed; rewrite E|].
  inversion Hok as [|? ? Hc0 Hok']; subst.
  destruct (is_blank c) eqn:Eb; [|destruct (c =? NEWLINE) eqn:En; tests; [|destruct (c =? chr "/") eqn:Es]].
  - assert (Hne : c <> NEWLINE) by (intros ->; by vm_compute in Eb). apply (IH _ (pre ++ [c])); [done|].
    unfold placed. simpl. rewrite position_snoc. unfold next_position. rewrite (proj2 (Z.eqb_neq _ _) Hne), <- app_assoc.
    split_and!; [done|done|]. left. destruct Hc as [->|[Hc|Hc]]; [apply u32_succ|done..].
  - subst. apply (IH _ (pre ++ [NEWLINE])); [done|]. unfold placed. simpl. rewrite position_snoc, <- app_assoc.
    unfold next_position. simpl. split_and!; [done|by rewrite Hl, u32_succ|by left].
  - tests. destruct (deref p =? chr "/") eqn:Ep; tests; [|exists pre; unfold placed; by rewrite E].
    destruct p as [|c' p]; [done|]. simpl in Ep. subst. destruct (skip_line_spec p) as (t & Ht & Hnl & Hd).
    change (drop 1 (chr "/" :: p)) with p. apply (IH _ (pre ++ chr "/" :: chr "/" :: t)).
    { simpl. inversion Hok' as [|? ? _ Hok2]; subst. rewrite Ht in Hok2. by apply Forall_app in Hok2 as [_ ?]. }
    unfold placed. simpl. rewrite position_line by (by repeat constructor). rewrite <- app_assoc. simpl. rewrite <- Ht.
    split_and!; [done|done|]. by right.
  - exists pre. unfold placed. rewrite E. tests. by destruct Hc as [|[]]; eauto.
Qed.

Lemma advance_while_column P p column w :
  p = w ++ (advance_while P p (u32 column)).1 -> (advance_while P p (u32 column)).2 = u32 (column + Z.of_nat (length w)).
Proof.
  revert column w. induction p as [|c p IH]; intros column w; simpl.
  { intros H. destruct w; [|done]. simpl. f_equal. lia. }
  destruct (P c); simpl.
  - rewrite u32_succ. intros H. destruct w as [|c' w].
    + exfalso. simpl in H. apply (f_equal length) in H. simpl in H. revert H. generalize (u32 (column + 1)).
      assert (Hle : forall q n, (length (advance_while P q n).1 <= length q)%nat).
      { clear. intros q. induction q as [|c q IH]; intros n; simpl; [done|]. destruct (P c); simpl; [|lia]. specialize (IH (u32 (n + 1))). lia. }
      intros z. specialize (Hle p z). lia.
    + injection H as -> H. rewrite (IH _ w H). f_equal. simpl length. lia.
  - intros H. assert (w = []) as ->. { apply (f_equal length) in H. rewrite length_app in H. simpl in H. destruct w; [done|simpl in H; lia]. }
    simpl. f_equal. lia.
Qed.
Lemma alnum_no_newline w : Forall (fun c => is_alnum c = true) w -> Forall (fun c => c <> NEWLINE) w.
Proof. intros Hw. eapply Forall_impl; [exact Hw|]. intros c Hc ->. by vm_compute in Hc. Qed.
Lemma number_no_newline w : Forall (fun c => is_number c = true) w -> Forall (fun c => c <> NEWLINE) w.
Proof. intros Hw. eapply Forall_impl; [exact Hw|]. intros c Hc ->. by vm_compute in Hc. Qed.

Lemma lex_span_placed P l pre :
  P NUL = false -> (forall w, Forall (fun c => P c = true) w -> Forall (fun c => c <> NEWLINE) w) ->
  text_ok (current l) -> placed_exactly pre l ->
  exists pre', placed_exactly pre' (lex_span P l) /\ text_ok (current (lex_span P l)).
Proof.
  intros HP Hnl Hok [(Hs & Hl & _) Hc]. destruct (advance_while_spec P (current l) (lx_column l) HP) as (w & Hw & Hall & _).
  exists (pre ++ w). unfold placed_exactly, placed, lex_span. pose proof (advance_while_column P (current l) (position pre).2 w) as Hcol.
  rewrite <- Hc in Hcol. destruct (advance_while P (current l) (lx_column l)) as [p column]. simpl in *.
  rewrite position_line by auto. rewrite Hw in Hs, Hok. rewrite <- app_assoc. apply Forall_app in Hok as [_ Hok].
  rewrite (Hcol Hw). by eauto 10.
Qed.

Lemma lex_span_source P l : source (lex_span P l) = source l.
Proof. unfold lex_span. by destruct (advance_while _ _ _). Qed.

(** Where a call leaves the lexer, and where its token is. *)
Lemma next_token_placed l pre :
  text_ok (current l) -> placed pre l ->
  let '(t, l') := lexer_next_token l in
  text_ok (current l') /\ source l' = source l /\ (exists pre', placed pre' l') /\
  (kind t <> TOK_EOF -> exists pre', source l = pre' ++ start t /\
    tok_line t = u32 (position pre').1 /\ tok_column t = u32 (position pre').2).
Proof.
  intros Hok Hp. destruct (skip_loop_placed (length (current l)) l pre Hok Hp) as (pre1 & Hp1 & Hok1).
  fold (skip_whitespace l) in Hp1, Hok1.
  assert (Hsrc : source (skip_whitespace l) = source l).
  { unfold skip_whitespace. generalize (length (current l)). intros n. clear. revert l.
    induction n as [|n IH]; intros l; [done|]. simpl. destruct (current l) as [|c p]; [done|].
    repeat case_match; rewrite ?IH; done. }
  destruct (skip_loop_spec (length (current l)) l (Nat.le_refl _)) as [_ (_ & Hst & _)]. fold (skip_whitespace l) in Hst.
  unfold lexer_next_token. destruct (current (skip_whitespace l)) as [|c p] eqn:E.
  { simpl. rewrite E. split_and!; [done|done|by exists pre1|done]. }
  inversion Hok1 as [|? ? Hc0 Hok2]; subst. simpl in Hst.
  assert (Hx : source l = pre1 ++ c :: p /\ lx_line (skip_whitespace l) = u32 (position pre1).1 /\
               lx_column (skip_whitespace l) = u32 (position pre1).2).
  { destruct Hp1 as (Hs & Hl & Hcol). rewrite E in Hs, Hcol. simpl in Hcol. rewrite <- Hsrc.
    split_and!; [done|done|]. by destruct Hcol as [?|[]]. }
  destruct Hx as (Hs & Hl & Hcol).
  set (l1 := setf lx_column _ _).
  assert (H1 : placed_exactly (pre1 ++ [c]) l1).
  { unfold placed_exactly, placed. simpl. rewrite position_snoc, <- app_assoc, Hsrc, Hcol, u32_succ. simpl. unfold next_position.
    rewrite (proj2 (Z.eqb_neq _ _) Hst). by auto. }
  destruct (is_alpha c); [|destruct (is_digit c); [|destruct (punctuation c)]]; cbn [start tok_line tok_column kind].
  - destruct (lex_span_placed is_alnum l1 _ ltac:(by vm_compute) alnum_no_newline Hok2 H1) as (pre2 & [H2 _] & Hok3).
    split_and!; [done|by rewrite lex_span_source|by exists pre2|by eauto].
  - destruct (lex_span_placed is_number l1 _ ltac:(by vm_compute) number_no_newline Hok2 H1) as (pre2 & [H2 _] & Hok3).
    split_and!; [done|by rewrite lex_span_source|by exists pre2|by eauto].
  - destruct H1 as [H1 _]. split_and!; [done|done|by exists (pre1 ++ [c])|by eauto].
  - destruct H1 as [H1 _]. split_and!; [done|done|by exists (pre1 ++ [c])|by eauto].
Qed.

Definition positioned (src : list Z) (t : Token) : Prop :=
  exists pre, src = pre ++ start t /\ tok_line t = u32 (position pre).1 /\ tok_column t = u32 (position pre).2.
Lemma tokens_placed fuel l pre ts :
  text_ok (current l) -> placed pre l -> tokens fuel l = Some ts -> Forall (positioned (source l)) ts.
Proof.
  revert l pre ts. induction fuel as [|fuel IH]; intros l pre ts Hok Hp Hts; [done|]. simpl in Hts.
  pose proof (next_token_placed l pre Hok Hp) as Hn. destruct (lexer_next_token l) as [t l'].
  destruct Hn as (Hok' & Hsrc & (pre' & Hp') & Ht). case_decide; simplify_eq; [done|].
  apply bind_Some in Hts as (ts' & Hts' & [= <-]). constructor; [by apply Ht|]. rewrite <- Hsrc. by apply (IH l' pre').
Qed.

(** Every token carries the line and the column, counted from 1 and modulo 2^32, of
    its first character in the source. *)
Theorem token_positions src ts :
  text_ok src -> tokenize src = Some ts -> Forall (positioned src) ts.
Proof.
  intros Hok Hts. apply (tokens_placed (S (length src)) (lexer_create src) [] ts); [done| |exact Hts]. repeat split; by left.
Qed.
Lemma token_positions_witness : Forall (positioned source0) (default [] (tokenize source0)).
Proof. apply token_positions; [by apply (bool_decide_unpack _); vm_compute|by vm_compute]. Defined.

(** ** Kinds and keywords *)

(** The kinds that some source gives: of the 64 kinds, no float, hexadecimal, binary or
    string literal, no operator, no parenthesis. *)
Lemma lexed_kinds src kl : lexes src kl ->
  Forall (fun t => t.1 ∈ TOK_IDENTIFIER :: TOK_INTEGER :: TOK_LBRACE :: TOK_RBRACE :: TOK_COLON :: TOK_SEMICOLON ::
                         TOK_DOT :: TOK_ERROR :: keywords.*2) kl.
Proof.
  induction 1 as [|p k w rest ts _ _ Ht _ IH]; constructor; [|done]. cbn [fst].
  destruct Ht as [c w rest _ _ _| |c k rest Hk|]; [|set_solver| |set_solver].
  - pose proof (check_keyword_kinds (c :: w) (S (length w))). set_solver.
  - unfold punctuation in Hk. repeat (case_match; [simplify_eq; set_solver|]). done.
Qed.

(** [check_keyword] and [lexer_is_keyword] agree on every word. *)
Lemma keyword_tests_agree w : text_ok w ->
  lexer_is_keyword w (length w) = bool_decide (check_keyword w (length w) <> TOK_IDENTIFIER).
Proof.
  intros Hw. unfold lexer_is_keyword, check_keyword, memcmp_eq.
  assert (Hk := keywords_text). revert Hk. generalize keywords. intros l Hl. induction Hl as [|[kw k] l (Ht & Hlen & Hk) Hl IH].
  { done. }
  cbn [existsb list_find fst snd] in *. rewrite IH. clear IH.
  assert (Hb : (String.length kw =? length w)%nat && strncmp_eq (length w) (chars kw) w =
               (String.length kw =? length w)%nat && bool_decide (take (length w) w = take (length w) (chars kw))).
  { destruct (String.length kw =? length w)%nat eqn:E; tests; [|done]. cbn [andb]. rewrite <- E, <- Hlen.
    rewrite strncmp_eq_spec by (done || lia). by rewrite !(take_ge (chars kw)). }
  rewrite <- Hb. destruct (_ && _); simpl; [by rewrite bool_decide_true|].
  by destruct (list_find _ l) as [[? []]|].
Qed.

(** Every kind has a name of its own. *)
Lemma kind_names_distinct k k' n :
  lexer_token_kind_name k = Some n -> lexer_token_kind_name k' = Some n -> k = k'.
Proof.
  intros Hk Hk'. assert (Hnd : NoDup token_names) by (by apply (bool_decide_unpack _); vm_compute).
  assert (He := NoDup_lookup _ _ _ _ Hnd Hk Hk'). apply (inj Some). by rewrite <- !kind_code_spec, He.
Qed.
Lemma kind_named k : is_Some (lexer_token_kind_name k).
Proof. destruct k; eexists; reflexivity. Qed.
