(* ===== verification/Frontend.v ===== *)
(** * Parser and semantic analysis of the CANT language

    [compiler/frontend/parser.c], [compiler/middle/ast.c], [compiler/middle/types.c] and
    [compiler/analysis/semantic.c].

    A heap object is its value and NULL is [None]; the results of the allocations to come
    are [allocs] (a list of successes and failures, success when it runs out), and reading
    through a pointer that a failed allocation left NULL is undefined behaviour.  Freeing is
    left out: [ast_destroy], [symtable_destroy], [type_table_destroy], [analyzer_destroy]
    and [parser_destroy] only free. *)

From S2P Require Import Prelude Machine Lexer.

Class HasHeap (S : Type) := { allocs : S -> list bool; set_allocs : list bool -> S -> S }.
(** [malloc], [calloc], [realloc], [strdup]: whether it succeeds. *)
Definition alloc {S} `{HasHeap S} : M S bool :=
  s ← get; match allocs s with [] => mret true | b :: l => modify (set_allocs l);; mret b end.

(** ** Syntax trees *)

Inductive ASTNodeType :=
  AST_ECU_DEF | AST_SIGNAL_DEF | AST_PROCESS_DEF | AST_IDENTIFIER | AST_NUMBER | AST_FREQUENCY | AST_MEMORY_SPEC
| AST_RANGE_SPEC | AST_FILTER_SPEC.
(** The union of a node, by the node's type; only the members that the code reads. *)
Inductive ASTNode := mkNode (ast_line ast_column : Z) (ast_as : ASTUnion)
with ASTUnion :=
| ecu_def (identifier : option ASTNode) (declarations : list ASTNode)
| signal_def (identifier protocol : option ASTNode) (properties : list ASTNode)
| identifier (name : option (list Z))
| other_node (type : ASTNodeType).
Definition ast_line (n : ASTNode) : Z := let 'mkNode l _ _ := n in l.
Definition ast_column (n : ASTNode) : Z := let 'mkNode _ c _ := n in c.
Definition ast_as (n : ASTNode) : ASTUnion := let 'mkNode _ _ a := n in a.

(** The constructors start from [calloc], so line and column are 0. *)
Definition ast_create_node {S} `{HasHeap S} (as_ : ASTUnion) : M S (option ASTNode) :=
  ok ← alloc; mret (if ok : bool then Some (mkNode 0 0 as_) else None).
Definition ast_create_ecu_def {S} `{HasHeap S} (id : option ASTNode) : M S (option ASTNode) :=
  ast_create_node (ecu_def id []).
Definition ast_create_signal_def {S} `{HasHeap S} (id protocol : option ASTNode) : M S (option ASTNode) :=
  ast_create_node (signal_def id protocol []).
(** [strdup(name)] reads the name. *)
Definition ast_create_identifier {S} `{HasHeap S} (name : option (list Z)) : M S (option ASTNode) :=
  node ← ast_create_node (identifier None);
  match node with
  | None => mret None
  | Some n =>
      match name with
      | None => fault
      | Some name =>
          ok ← alloc;
          mret (Some (mkNode (ast_line n) (ast_column n) (identifier (if ok : bool then Some name else None))))
      end
  end.

(** ** Symbols *)

Definition INITIAL_SYMBOL_CAPACITY : nat := 64.
Record Symbol := mkSymbol { sym_name : option (list Z); sym_scope : Z; declaration : option ASTNode }.
#[export] Instance eta_Symbol : Eta Symbol := fun s => mkSymbol (sym_name s) (sym_scope s) (declaration s).
(** [symbols] are the first [count] entries. *)
Record SymbolTable := mkSymbolTable { symbols : list Symbol; sym_capacity : nat; scope_level : Z }.
#[export] Instance eta_SymbolTable : Eta SymbolTable := fun t => mkSymbolTable (symbols t) (sym_capacity t) (scope_level t).

(** The case where both allocations succeed. *)
Definition symtable_create : SymbolTable := mkSymbolTable [] INITIAL_SYMBOL_CAPACITY 0.
(** [grows] is whether [realloc] succeeds. *)
Definition symtable_insert (grows : bool) (t : SymbolTable) (symbol : Symbol) : bool * SymbolTable :=
  let insert t := (true, t <| symbols ::= fun l => l ++ [symbol <| sym_scope := scope_level t |>] |>) in
  if (sym_capacity t <=? length (symbols t))%nat then
    if grows then insert (t <| sym_capacity ::= fun n => (n * 2)%nat |>) else (false, t)
  else insert t.
(** The loop from the last symbol down; [strcmp] reads the symbol's name. *)
Fixpoint lookup_from (l : list Symbol) (name : list Z) : option (option Symbol) :=
  match l with
  | [] => Some None
  | s :: l =>
      n ← sym_name s;
      if decide (n = name) then Some (Some s) else lookup_from l name
  end.
Definition symtable_lookup {S} (t : SymbolTable) (name : list Z) : M S (option Symbol) :=
  match lookup_from (reverse (symbols t)) name with Some r => mret r | None => fault end.

(** ** Types *)

Inductive TypeKind :=
  TYPE_VOID | TYPE_INTEGER | TYPE_FLOAT | TYPE_FREQUENCY | TYPE_MEMORY | TYPE_SIGNAL | TYPE_ECU | TYPE_PROCESS.
Inductive ProtocolType := PROTOCOL_CAN | PROTOCOL_FLEXRAY | PROTOCOL_LIN | PROTOCOL_ETHERNET.
#[export] Instance TypeKind_eq_dec : EqDecision TypeKind.
Proof. solve_decision. Defined.
#[export] Instance ProtocolType_eq_dec : EqDecision ProtocolType.
Proof. solve_decision. Defined.
(** The members of a type that the functions read. *)
Record Ty := mkType { type_kind : TypeKind; protocol : ProtocolType; bit_width : Z }.
#[export] Instance eta_Ty : Eta Ty := fun t => mkType (type_kind t) (protocol t) (bit_width t).

Definition type_create {S} `{HasHeap S} (k : TypeKind) : M S (option Ty) :=
  ok ← alloc; mret (if ok : bool then Some (mkType k PROTOCOL_CAN 0) else None).
Definition type_is_compatible (a b : option Ty) : bool :=
  match a, b with
  | Some a, Some b =>
      if decide (type_kind a <> type_kind b) then false else
      match type_kind a with
      | TYPE_SIGNAL => bool_decide (protocol a = protocol b) && (bit_width a =? bit_width b)
      | TYPE_FREQUENCY => true
      | TYPE_MEMORY => true
      | _ => true
      end
  | _, _ => false
  end.

(** ** The parser *)

(** [error] is set by the first error. *)
Record Parser := mkParser {
  lexer : Lexer; p_current : Token; p_previous : Token; had_error : bool; p_error : option (string * Z * Z);
  p_symbols : SymbolTable; p_allocs : list bool }.
#[export] Instance eta_Parser : Eta Parser := fun p =>
  mkParser (lexer p) (p_current p) (p_previous p) (had_error p) (p_error p) (p_symbols p) (p_allocs p).
#[export] Instance Parser_heap : HasHeap Parser := {| allocs := p_allocs; set_allocs l p := p <| p_allocs := l |> |}.

Definition parser_advance : M Parser unit :=
  modify (fun p =>
    let p := p <| p_previous := p_current p |> in
    let '(t, l) := lexer_next_token (lexer p) in p <| p_current := t |> <| lexer := l |>).
Definition parser_check (k : TokenKind) : M Parser bool := p ← get; mret (bool_decide (kind (p_current p) = k)).
Definition parser_match (k : TokenKind) : M Parser bool :=
  b ← parser_check k; if b : bool then parser_advance;; mret true else mret false.
Definition parser_error (message : string) : M Parser unit :=
  p ← get;
  if had_error p then mret tt else
  modify (fun p => p <| had_error := true |>
    <| p_error := Some (message, tok_line (p_current p), tok_column (p_current p)) |>).
Definition parser_consume (k : TokenKind) (message : string) : M Parser unit :=
  p ← get; if decide (kind (p_current p) = k) then parser_advance else parser_error message.

(** The loop over the body: everything up to the first closing brace. *)
Fixpoint parse_body (fuel : nat) : M Parser unit :=
  match fuel with
  | O => fault
  | S fuel =>
      b ← parser_check TOK_RBRACE;
      e ← parser_check TOK_EOF;
      if negb b && negb e then parser_advance;; parse_body fuel else mret tt
  end.
(** Every round takes a token, so the characters left bound the rounds. *)
Definition body_fuel (p : Parser) : nat := (2 + length (current (lexer p)))%nat.

Definition parse_ecu_definition : M Parser (option ASTNode) :=
  parser_consume TOK_ECU "Expected 'ecu' keyword";;
  m ← parser_match TOK_IDENTIFIER;
  if negb m then parser_error "Expected ECU identifier";; mret None else
  p ← get;
  ok ← alloc;
  id ← ast_create_identifier (if ok : bool then Some (lexeme (p_previous p)) else None);
  ecu ← ast_create_ecu_def id;
  parser_consume TOK_LBRACE "Expected '{' after ECU identifier";;
  p ← get;
  parse_body (body_fuel p);;
  parser_consume TOK_RBRACE "Expected '}' after ECU body";;
  mret ecu.

(** [garbage] is what [malloc] leaves in the token fields. *)
Definition parser_create (garbage : Token) (heap : list bool) (src : list Z) : Parser :=
  let '(t, l) := lexer_next_token (lexer_create src) in
  mkParser l t garbage false None symtable_create heap.
Definition parser_parse : M Parser (option ASTNode) := parse_ecu_definition.
Definition parser_get_error (p : Parser) : option (string * Z * Z) := p_error p.

(** ** Semantic analysis *)

Definition INITIAL_DIAGNOSTIC_CAPACITY : nat := 32.
Record Diagnostic := mkDiagnostic { message : option string; diag_line : Z; diag_column : Z }.
Record Analyzer := mkAnalyzer {
  an_symbols : SymbolTable; diagnostics : list Diagnostic; diag_capacity : nat; an_allocs : list bool }.
#[export] Instance eta_Analyzer : Eta Analyzer := fun a =>
  mkAnalyzer (an_symbols a) (diagnostics a) (diag_capacity a) (an_allocs a).
#[export] Instance Analyzer_heap : HasHeap Analyzer := {| allocs := an_allocs; set_allocs l a := a <| an_allocs := l |> |}.

Definition emit_diagnostic (msg : string) (line column : Z) : M Analyzer unit :=
  let record :=
    dup ← alloc;
    modify (fun a => a <| diagnostics ::= fun l => l ++ [mkDiagnostic (if dup : bool then Some msg else None) line column] |>) in
  a ← get;
  if (diag_capacity a <=? length (diagnostics a))%nat then
    ok ← alloc;
    if ok : bool then modify (fun a => a <| diag_capacity ::= fun n => (n * 2)%nat |>);; record else mret tt
  else record.

(** [node->as.X.identifier->as.identifier.name]: both pointers are followed, the second
    through the union, so only an identifier node has a name. *)
Definition name_of {S} (id : option ASTNode) : M S (list Z) :=
  match id with
  | Some n => match ast_as n with identifier (Some name) => mret name | _ => fault end
  | None => fault
  end.

Definition check_signal_definition (node : ASTNode) : M Analyzer bool :=
  match ast_as node with
  | signal_def id protocol _ =>
      a ← get;
      name ← name_of id;
      existing ← symtable_lookup (an_symbols a) name;
      match existing with
      | Some _ => emit_diagnostic "Duplicate signal definition" (ast_line node) (ast_column node);; mret false
      | None =>
          signal_type ← type_create TYPE_SIGNAL;
          match signal_type with
          | None => mret false
          | Some _ =>
              match protocol with
              | None => fault
              | Some p =>
                  match ast_as p with
                  | identifier None => fault
                  | identifier (Some name) =>
                      if decide (name = chars "CAN" \/ name = chars "FlexRay") then mret true else
                      emit_diagnostic "Invalid protocol type" (ast_line node) (ast_column node);; mret false
                  | _ => emit_diagnostic "Expected protocol identifier" (ast_line node) (ast_column node);; mret false
                  end
              end
          end
      end
  | _ => mret false
  end.
Fixpoint check_declarations (decls : list ASTNode) : M Analyzer bool :=
  match decls with
  | [] => mret true
  | decl :: decls =>
      match ast_as decl with
      | signal_def _ _ _ =>
          ok ← check_signal_definition decl;
          if ok : bool then check_declarations decls else mret false
      | _ => emit_diagnostic "Invalid declaration in ECU" (ast_line decl) (ast_column decl);; mret false
      end
  end.
Definition check_ecu_definition (node : ASTNode) : M Analyzer bool :=
  match ast_as node with
  | ecu_def id decls =>
      a ← get;
      name ← name_of id;
      existing ← symtable_lookup (an_symbols a) name;
      match existing with
      | Some _ => emit_diagnostic "Duplicate ECU definition" (ast_line node) (ast_column node);; mret false
      | None =>
          ecu_type ← type_create TYPE_ECU;
          match ecu_type with
          | None => mret false
          | Some _ =>
              ok ← alloc;
              if negb ok then mret false else
              dup ← alloc;
              grows ← (if (sym_capacity (an_symbols a) <=? length (symbols (an_symbols a)))%nat then alloc else mret true);
              let '(inserted, table) := symtable_insert grows (an_symbols a)
                (mkSymbol (if dup : bool then Some name else None) 0 (Some node)) in
              modify (fun a => a <| an_symbols := table |>);;
              if negb inserted then mret false else check_declarations decls
          end
      end
  | _ => mret false
  end.

(** The case where the allocations succeed. *)
Definition analyzer_create (heap : list bool) : Analyzer := mkAnalyzer symtable_create [] INITIAL_DIAGNOSTIC_CAPACITY heap.
Definition analyzer_check (ast : option ASTNode) : M Analyzer bool :=
  match ast with
  | None => mret false
  | Some node =>
      match ast_as node with
      | ecu_def _ _ => check_ecu_definition node
      | _ => emit_diagnostic "Unexpected top-level declaration" (ast_line node) (ast_column node);; mret false
      end
  end.
Definition analyzer_get_diagnostics (a : Analyzer) : list Diagnostic := diagnostics a.

(** ** Token streams *)

(** The tokens to come from a lexer, up to the end of the source. *)
Definition stream (l : Lexer) (ts : list Token) : Prop := exists fuel, tokens fuel l = Some ts.
Lemma token_stream_cons l t ts :
  stream l (t :: ts) -> exists l', lexer_next_token l = (t, l') /\ kind t <> TOK_EOF /\ stream l' ts.
Proof.
  intros [[|fuel] Hf]; [done|]. simpl in Hf. destruct (lexer_next_token l) as [t' l']. case_decide; [done|].
  apply bind_Some in Hf as (ts' & Hts & [= -> ->]). exists l'. split_and!; [done|done|by exists fuel].
Qed.
Lemma token_stream_nil l : stream l [] -> exists t l', lexer_next_token l = (t, l') /\ kind t = TOK_EOF /\ stream l' [].
Proof.
  intros [[|fuel] Hf]; [done|]. simpl in Hf. pose proof (next_token_spec l) as Hn.
  destruct (lexer_next_token l) as [t l'] eqn:E. case_decide as Hk; [|by apply bind_Some in Hf as (? & _ & ?)].
  exists t, l'. split_and!; [done|done|]. exists 1%nat. destruct Hn as [_ [(_ & _ & Hnil)|[Ht _]]].
  - simpl. unfold lexer_next_token, skip_whitespace. by rewrite !Hnil; simpl; rewrite Hnil.
  - by apply is_token_not_eof in Ht.
Qed.
Lemma stream_length l ts : stream l ts -> (length ts <= length (current l))%nat.
Proof.
  intros [fuel Hf]. revert l ts Hf. induction fuel as [|fuel IH]; intros l ts Hf; [done|]. simpl in Hf.
  pose proof (skip_shorter l) as Hsk. pose proof (next_token_spec l) as Hn.
  destruct (lexer_next_token l) as [t l']. case_decide; [by simplify_eq; simpl; lia|].
  apply bind_Some in Hf as (ts' & Hts & [= <-]). specialize (IH l' ts' Hts).
  destruct Hn as [Hs [(? & _)|[Ht Hl]]]; [done|]. apply is_token_nonempty in Ht. rewrite <- Hs, Hl, length_app in Hsk.
  destruct (lexeme t); [done|]. simpl in *. lia.
Qed.

(** The parser is before the tokens [ts]. *)
Definition ahead (p : Parser) (ts : list Token) : Prop :=
  match ts with
  | [] => kind (p_current p) = TOK_EOF /\ stream (lexer p) []
  | t :: ts => p_current p = t /\ kind t <> TOK_EOF /\ stream (lexer p) ts
  end.

Definition next_kind (ts : list Token) : TokenKind := match ts with [] => TOK_EOF | t :: _ => kind t end.
Lemma ahead_kind p ts : ahead p ts -> kind (p_current p) = next_kind ts.
Proof. destruct ts; [by intros []|by intros [-> _]]. Qed.

(** What reading tokens leaves alone. *)
Definition same_status (p p' : Parser) : Prop :=
  had_error p' = had_error p /\ p_error p' = p_error p /\ p_allocs p' = p_allocs p.

Lemma advance_spec p m ts :
  ahead p ts -> wp parser_advance (fun _ p' m' => ahead p' (tail ts) /\ p_previous p' = p_current p /\ same_status p p' /\ m' = m) p m.
Proof.
  intros Ha. unfold parser_advance. apply wp_modify. destruct ts as [|t ts].
  - destruct Ha as [_ Hs]. destruct (token_stream_nil _ Hs) as (t & l' & Hn & Hk & Hs'). simpl. rewrite Hn. by repeat split.
  - destruct Ha as (_ & _ & Hs). simpl. destruct ts as [|t' ts].
    + destruct (token_stream_nil _ Hs) as (t' & l' & Hn & Hk & Hs'). rewrite Hn. by repeat split.
    + destruct (token_stream_cons _ _ _ Hs) as (l' & Hn & Hk & Hs'). rewrite Hn. by repeat split.
Qed.
Lemma parser_check_spec k p m ts :
  ahead p ts -> wp (parser_check k) (fun b p' m' => b = bool_decide (next_kind ts = k) /\ p' = p /\ m' = m) p m.
Proof. intros Ha. unfold parser_check. do 2 wp_step. by rewrite (ahead_kind p ts Ha). Qed.

(** [parser_consume]: whether the kind is there, and the tokens behind it. *)
Definition expect (k : TokenKind) (ts : list Token) : bool * list Token :=
  match ts with t :: r => if decide (kind t = k) then (true, r) else (false, ts) | [] => (false, []) end.
Definition well_reported (p : Parser) : Prop := had_error p = bool_decide (is_Some (p_error p)).

Lemma consume_spec k msg p m ts :
  ahead p ts -> well_reported p -> k <> TOK_EOF ->
  wp (parser_consume k msg) (fun _ p' m' => m' = m /\ ahead p' (expect k ts).2 /\ well_reported p' /\
    had_error p' = had_error p || negb (expect k ts).1 /\ p_allocs p' = p_allocs p) p m.
Proof.
  intros Ha Hw Hk. unfold parser_consume, parser_error. do 2 wp_step. rewrite (ahead_kind p ts Ha).
  destruct (decide (next_kind ts = k)) as [E|E].
  - eapply wp_mono; [by apply advance_spec|]. intros [] p' m' (Ha' & _ & (He & Hpe & Hal) & ->).
    destruct ts as [|t ts]; simpl in *; [congruence|]. rewrite decide_True by done. simpl.
    split_and!; [done|done| |by rewrite orb_false_r|done]. unfold well_reported. by rewrite He, Hpe.
  - assert (expect k ts = (false, ts)) as ->. { destruct ts as [|t ts]; simpl in *; [done|]. by rewrite decide_False. }
    simpl. do 2 wp_step. destruct (had_error p) eqn:Eh; [by apply wp_ret|]. apply wp_modify.
    split_and!; [done| |by unfold well_reported|done..]. by destruct ts.
Qed.

Fixpoint skip_body (ts : list Token) : list Token :=
  match ts with [] => [] | t :: r => if decide (kind t = TOK_RBRACE) then ts else skip_body r end.

Lemma body_spec fuel p m ts :
  ahead p ts -> (length ts < fuel)%nat ->
  wp (parse_body fuel) (fun _ p' m' => ahead p' (skip_body ts) /\ same_status p p' /\ m' = m) p m.
Proof.
  revert p m ts. induction fuel as [|fuel IH]; intros p m ts Ha Hf; [lia|]. simpl.
  apply wp_bind. eapply wp_mono; [by apply parser_check_spec|]. intros b p1 m1 (-> & -> & ->).
  apply wp_bind. eapply wp_mono; [by apply parser_check_spec|]. intros e p1 m1 (-> & -> & ->).
  destruct ts as [|t ts]; simpl skip_body; simpl next_kind.
  - rewrite andb_false_r. by apply wp_ret.
  - destruct (decide (kind t = TOK_RBRACE)) as [E|E].
    + rewrite bool_decide_true by done. by apply wp_ret.
    + rewrite bool_decide_false by done. destruct Ha as (Hc & Hk & Hs). rewrite bool_decide_false by done. simpl.
      apply wp_bind. eapply wp_mono; [by apply (advance_spec p m (t :: ts))|].
      intros [] p' m' (Ha' & _ & (H1 & H2 & H3) & ->). eapply wp_mono; [apply (IH p' m ts Ha'); simpl in Hf; lia|].
      intros [] p2 m2 (Ha2 & (H4 & H5 & H6) & ->). split; [done|]. split; [|done]. split_and!; congruence.
Qed.

Section healthy.
Context {S : Type} `{HasHeap S}.
Lemma wp_alloc_ok Q (s : S) m : allocs s = [] -> Q true s m -> wp alloc Q s m.
Proof. intros Ha HQ. unfold alloc. do 2 wp_step. by rewrite Ha. Qed.
Lemma create_identifier_ok name Q (s : S) m :
  allocs s = [] -> Q (Some (mkNode 0 0 (identifier (Some name)))) s m -> wp (ast_create_identifier (Some name)) Q s m.
Proof.
  intros Ha HQ. unfold ast_create_identifier, ast_create_node.
  apply wp_bind, wp_bind, wp_alloc_ok; [done|]. apply wp_ret, wp_bind, wp_alloc_ok; [done|]. by apply wp_ret.
Qed.
Lemma create_ecu_ok id Q (s : S) m :
  allocs s = [] -> Q (Some (mkNode 0 0 (ecu_def id []))) s m -> wp (ast_create_ecu_def id) Q s m.
Proof. intros Ha HQ. unfold ast_create_ecu_def, ast_create_node. apply wp_bind, wp_alloc_ok; [done|]. by apply wp_ret. Qed.
End healthy.

(** The syntax of a source: the name of the unit, and whether everything is there. *)
Definition ecu_syntax (ts : list Token) : option (list Z) * bool :=
  let '(ecu, ts) := expect TOK_ECU ts in
  match ts with
  | t :: r =>
      if decide (kind t = TOK_IDENTIFIER) then
        let '(opened, r) := expect TOK_LBRACE r in
        (Some (lexeme t), ecu && opened && (expect TOK_RBRACE (skip_body r)).1)
      else (None, false)
  | [] => (None, false)
  end.
Definition ecu_node (name : list Z) : ASTNode := mkNode 0 0 (ecu_def (Some (mkNode 0 0 (identifier (Some name)))) []).

Lemma parse_spec p m ts :
  ahead p ts -> p_allocs p = [] -> well_reported p -> had_error p = false ->
  wp parser_parse (fun r p' _ => r = ecu_node <$> (ecu_syntax ts).1 /\ had_error p' = negb (ecu_syntax ts).2 /\
    well_reported p') p m.
Proof.
  intros Ha Hh Hw He. unfold parser_parse, parse_ecu_definition.
  apply wp_bind. eapply wp_mono; [by apply consume_spec|]. intros [] p1 m1 (-> & Ha1 & Hw1 & He1 & Hh1).
  unfold ecu_syntax. destruct (expect TOK_ECU ts) as [k1 ts1]. simpl in Ha1, He1. rewrite He in He1. simpl in He1.
  apply wp_bind. unfold parser_match. apply wp_bind. eapply wp_mono; [by apply parser_check_spec|]. intros b p' m' (-> & -> & ->).
  assert (Hfail : next_kind ts1 <> TOK_IDENTIFIER -> match ts1 with
    | t :: r => if decide (kind t = TOK_IDENTIFIER) then
        let '(opened, r) := expect TOK_LBRACE r in (Some (lexeme t), k1 && opened && (expect TOK_RBRACE (skip_body r)).1)
      else (None, false) | [] => (None, false) end = (None, false)).
  { destruct ts1 as [|t r]; [done|]. simpl. intros. by rewrite decide_False. }
  destruct (decide (next_kind ts1 = TOK_IDENTIFIER)) as [E|E].
  2: { rewrite bool_decide_false by done. apply wp_ret. simpl. rewrite Hfail by done. unfold parser_error. simpl.
       apply wp_bind, wp_bind, wp_get. destruct (had_error p1) eqn:E1; [by do 2 apply wp_ret|]. apply wp_modify, wp_ret.
       split_and!; [done..|]. by unfold well_reported. }
  rewrite bool_decide_true by done. destruct ts1 as [|t r]; [done|]. simpl in E. clear Hfail. rewrite decide_True by done.
  apply wp_bind. eapply wp_mono; [by apply (advance_spec p1 m (t :: r))|]. intros [] p2 m2 (Ha2 & Hpr & (He2 & Hpe2 & Hh2) & ->).
  apply wp_ret. simpl negb. apply wp_bind, wp_get. destruct Ha1 as (Hct & _ & _). rewrite Hpr, Hct. simpl tail in Ha2.
  assert (Hheap : p_allocs p2 = []) by congruence.
  apply wp_bind, wp_alloc_ok; [done|]. apply wp_bind, create_identifier_ok; [done|]. apply wp_bind, create_ecu_ok; [done|].
  apply wp_bind. eapply wp_mono; [apply (consume_spec TOK_LBRACE _ p2 m r Ha2); [|done]|].
  { unfold well_reported. by rewrite He2, Hpe2. }
  intros [] p3 m3 (-> & Ha3 & Hw3 & He3 & Hh3). destruct (expect TOK_LBRACE r) as [k2 r2]. simpl in Ha3, He3.
  apply wp_bind, wp_get, wp_bind.
  eapply wp_mono; [apply (body_spec (body_fuel p3) p3 m r2 Ha3)|].
  { unfold body_fuel. destruct r2 as [|t2 r2]; [simpl; lia|]. destruct Ha3 as (_ & _ & Hs). apply stream_length in Hs. simpl. lia. }
  intros [] p4 m4 (Ha4 & (He4 & Hpe4 & _) & ->).
  apply wp_bind. eapply wp_mono; [apply (consume_spec TOK_RBRACE _ p4 m (skip_body r2) Ha4); [|done]|].
  { unfold well_reported. by rewrite He4, Hpe4. }
  intros [] p5 m5 (_ & _ & Hw5 & He5 & _). apply wp_ret. split_and!; [done| |done].
  rewrite He5, He4, He3, He2, He1. by destruct k1, k2, (expect TOK_RBRACE (skip_body r2)).1.
Qed.

(** ** Properties of the parser *)

Lemma expect_true k ts r : expect k ts = (true, r) <-> exists t, ts = t :: r /\ kind t = k.
Proof. destruct ts as [|t ts]; simpl; [naive_solver|]. case_decide; naive_solver. Qed.
Lemma skip_body_spec ts : exists body, ts = body ++ skip_body ts /\ Forall (fun t => kind t <> TOK_RBRACE) body.
Proof.
  induction ts as [|t ts (body & Hts & Hb)]; [by exists []|]. simpl. case_decide; [by exists []|].
  exists (t :: body). simpl. split; [by rewrite <- Hts|by constructor].
Qed.
Lemma skip_body_app body t rest :
  Forall (fun t => kind t <> TOK_RBRACE) body -> kind t = TOK_RBRACE -> skip_body (body ++ t :: rest) = t :: rest.
Proof.
  intros Hb Ht. induction Hb as [|b body Hb Hbody IH]; simpl; [by rewrite decide_True|by rewrite decide_False].
Qed.

(** The sources the parser means to accept. *)
Definition ecu_source (name : list Z) (ts : list Token) : Prop :=
  exists t1 t2 t3 body t4 rest, ts = t1 :: t2 :: t3 :: body ++ t4 :: rest /\ kind t1 = TOK_ECU /\ kind t2 = TOK_IDENTIFIER /\
    lexeme t2 = name /\ kind t3 = TOK_LBRACE /\ Forall (fun t => kind t <> TOK_RBRACE) body /\ kind t4 = TOK_RBRACE.

Lemma ecu_syntax_ok name ts : ecu_syntax ts = (Some name, true) <-> ecu_source name ts.
Proof.
  unfold ecu_syntax. split.
  - destruct (expect TOK_ECU ts) as [k1 [|t2 r]] eqn:E1; [done|]. case_decide; [|done].
    destruct (expect TOK_LBRACE r) as [k2 r2] eqn:E2. destruct (expect TOK_RBRACE (skip_body r2)) as [k3 r3] eqn:E3. simpl.
    intros [= Hn Hk]. tests. subst. apply expect_true in E1 as (t1 & -> & ?), E2 as (t3 & -> & ?), E3 as (t4 & E3 & ?).
    destruct (skip_body_spec r2) as (body & Hr2 & Hb). rewrite E3 in Hr2. subst. by exists t1, t2, t3, body, t4, r3.
  - intros (t1 & t2 & t3 & body & t4 & rest & -> & H1 & H2 & H3 & H4 & Hb & H5). simpl. do 3 (rewrite decide_True by done; simpl).
    rewrite skip_body_app by done. simpl. by rewrite decide_True, H3.
Qed.

Lemma create_ahead garbage heap src ts :
  tokenize src = Some ts -> ahead (parser_create garbage heap src) ts /\ well_reported (parser_create garbage heap src) /\
    had_error (parser_create garbage heap src) = false /\ p_allocs (parser_create garbage heap src) = heap.
Proof.
  intros Ht. assert (Hs : stream (lexer_create src) ts) by (by eexists). unfold parser_create. destruct ts as [|t ts].
  - destruct (token_stream_nil _ Hs) as (t & l' & -> & Hk & Hs'). by repeat split.
  - destruct (token_stream_cons _ _ _ Hs) as (l' & -> & Hk & Hs'). by repeat split.
Qed.

(** C21. The parser always returns, and reports no error exactly for the sources
    [ecu name { ... }], whose tree it then returns; the body is any tokens up to the first
    closing brace, whatever they are, and what follows that brace is not looked at. *)
Theorem parser_accepts_ecu garbage src ts m :
  tokenize src = Some ts ->
  wp parser_parse (fun r p' _ =>
    (had_error p' = false <-> exists name, ecu_source name ts) /\
    (forall name, ecu_source name ts -> r = Some (ecu_node name)) /\
    (is_Some (parser_get_error p') <-> had_error p' = true)) (parser_create garbage [] src) m.
Proof.
  intros Ht. destruct (create_ahead garbage [] src ts Ht) as (Ha & Hw & He & Hh).
  eapply wp_mono; [by apply (parse_spec _ m ts)|]. intros r p' _ (-> & He' & Hw'). split_and!.
  - rewrite He', negb_false_iff. split.
    + intros Hok. destruct (ecu_syntax ts) as [[name|] b] eqn:E; simpl in Hok; subst.
      * exists name. by apply ecu_syntax_ok.
      * exfalso. revert E. unfold ecu_syntax. destruct (expect TOK_ECU ts) as [k1 [|t2 r]]; [done|]. case_decide; [|done].
        by destruct (expect TOK_LBRACE r).
    + by intros [name ->%ecu_syntax_ok].
  - by intros name ->%ecu_syntax_ok.
  - unfold parser_get_error. rewrite Hw'. by rewrite bool_decide_eq_true.
Qed.
Definition token0 : Token := mkToken TOK_EOF [] 0 0 0.
Lemma parser_accepts_ecu_witness :
  wp parser_parse (fun r p' _ => r = Some (ecu_node (chars "Engine")) /\ had_error p' = false) (parser_create token0 [] source0) boot.
Proof.
  assert (Ht : exists ts, tokenize source0 = Some ts /\ ecu_syntax ts = (Some (chars "Engine"), true)).
  { eexists. split; [by vm_compute|]. by vm_compute. }
  destruct Ht as (ts & Ht & Hs%ecu_syntax_ok).
  eapply wp_mono; [apply (parser_accepts_ecu token0 source0 ts boot Ht)|]. intros r p' _ (H1 & H2 & _).
  split; [by apply H2|]. apply H1. by eexists.
Defined.

(** A source without the keyword is an error, and yet the parser returns a tree for it. *)
Lemma missing_keyword_tree :
  wp parser_parse (fun r p' _ => r = Some (ecu_node (chars "x")) /\ had_error p' = true)
    (parser_create token0 [] (chars "x { ) }")) boot.
Proof. by vm_compute. Qed.

(** ** The symbol table *)

Definition named (t : SymbolTable) : Prop := Forall (fun s => is_Some (sym_name s)) (symbols t).
Definition names (t : SymbolTable) : list (list Z) := omap sym_name (symbols t).

Lemma lookup_from_spec l name :
  Forall (fun s => is_Some (sym_name s)) l ->
  exists r, lookup_from l name = Some r /\
    match r with Some s => sym_name s = Some name /\ s ∈ l | None => name ∉ omap sym_name l end.
Proof.
  induction 1 as [|s l [n Hn] Hl (r & Hr & Hs)]; simpl; [exists None; split; [done|]; by apply not_elem_of_nil|].
  rewrite Hn. simpl. case_decide as E; subst.
  - exists (Some s). split_and!; [done|done|by left].
  - exists r. split; [done|]. destruct r as [s'|]; [destruct Hs; split; [done|by right]|].
    intros [->|?]%elem_of_cons; done.
Qed.
Lemma omap_reverse {A B} (f : A -> option B) l x : x ∈ omap f (reverse l) <-> x ∈ omap f l.
Proof. rewrite !list_elem_of_omap. by setoid_rewrite elem_of_reverse. Qed.

Lemma symtable_lookup_spec {S} (t : SymbolTable) name Q (s : S) m :
  named t ->
  (name ∉ names t -> Q None s m) -> (forall sym, sym_name sym = Some name -> sym ∈ symbols t -> Q (Some sym) s m) ->
  wp (symtable_lookup t name) Q s m.
Proof.
  intros Hn Hnone Hsome. unfold symtable_lookup.
  destruct (lookup_from_spec (reverse (symbols t)) name) as (r & -> & Hr); [by apply Forall_reverse|].
  apply wp_ret. destruct r as [sym|].
  - destruct Hr as [Hr Hin]. apply Hsome; [done|]. by apply elem_of_reverse.
  - apply Hnone. by rewrite omap_reverse in Hr.
Qed.

(** A symbol inserted is the one found under its name, also when it hides an earlier one
    and when the array had to grow; a failed growth changes nothing. *)
Lemma symtable_insert_lookup grows t sym name :
  named t -> sym_name sym = Some name ->
  let '(ok, t') := symtable_insert grows t sym in
  if ok then lookup_from (reverse (symbols t')) name = Some (Some (sym <| sym_scope := scope_level t |>)) /\
             named t' /\ names t' = names t ++ [name] /\
             forall other, other <> name -> lookup_from (reverse (symbols t')) other = lookup_from (reverse (symbols t)) other
  else t' = t.
Proof.
  intros Hn Hs. unfold symtable_insert.
  assert (Hins : forall t', symbols t' = symbols t ++ [sym <| sym_scope := scope_level t |>] ->
    lookup_from (reverse (symbols t')) name = Some (Some (sym <| sym_scope := scope_level t |>)) /\ named t' /\
    names t' = names t ++ [name] /\
    forall other, other <> name -> lookup_from (reverse (symbols t')) other = lookup_from (reverse (symbols t)) other).
  { intros t' Ht. unfold named, names. rewrite Ht, reverse_app. simpl. rewrite Hs. simpl. split_and!.
    - by rewrite decide_True.
    - apply Forall_app. split; [done|]. apply Forall_singleton. by eexists.
    - by rewrite omap_app.
    - intros other Ho. by rewrite decide_False. }
  destruct (_ <=? _)%nat; [destruct grows|]; [by apply Hins|done|by apply Hins].
Qed.

(** ** What the analyser reports *)

Lemma emit_spec msg line column a m :
  an_allocs a = [] ->
  wp (emit_diagnostic msg line column) (fun _ a' _ => an_allocs a' = [] /\ an_symbols a' = an_symbols a /\
    diagnostics a' = diagnostics a ++ [mkDiagnostic (Some msg) line column]) a m.
Proof.
  intros Ha. unfold emit_diagnostic. do 2 wp_step. destruct (_ <=? _)%nat.
  - apply wp_bind, wp_alloc_ok; [done|]. apply wp_bind, wp_modify, wp_bind, wp_alloc_ok; [done|]. by apply wp_modify.
  - apply wp_bind, wp_alloc_ok; [done|]. by apply wp_modify.
Qed.

(** The tree has the nodes that the analyser reads. *)
Definition identifier_name (id : option ASTNode) : option (list Z) :=
  match id with Some n => match ast_as n with identifier name => name | _ => None end | None => None end.
Definition decl_wf (d : ASTNode) : bool :=
  match ast_as d with
  | signal_def id (Some p) _ =>
      bool_decide (is_Some (identifier_name id)) &&
      match ast_as p with identifier None => false | _ => true end
  | signal_def _ None _ => false
  | _ => true
  end.
(** What is wrong with a declaration, given the names declared. *)
Definition decl_error (declared : list (list Z)) (d : ASTNode) : option string :=
  match ast_as d with
  | signal_def id p _ =>
      if decide (default [] (identifier_name id) ∈ declared) then Some "Duplicate signal definition" else
      match p with
      | Some p =>
          match ast_as p with
          | identifier n =>
              if decide (n = Some (chars "CAN") \/ n = Some (chars "FlexRay")) then None else Some "Invalid protocol type"
          | _ => Some "Expected protocol identifier"
          end
      | None => None
      end
  | _ => Some "Invalid declaration in ECU"
  end%string.
Fixpoint first_error (declared : list (list Z)) (decls : list ASTNode) : option Diagnostic :=
  match decls with
  | [] => None
  | d :: decls =>
      match decl_error declared d with
      | Some msg => Some (mkDiagnostic (Some msg) (ast_line d) (ast_column d))
      | None => first_error declared decls
      end
  end.

Lemma name_of_spec {S} id name Q (s : S) m : identifier_name id = Some name -> Q name s m -> wp (name_of id) Q s m.
Proof.
  unfold identifier_name, name_of. intros Hn HQ. destruct id as [n|]; [|done]. by destruct (ast_as n); simplify_eq.
Qed.

Lemma check_signal_spec d a m id p props :
  ast_as d = signal_def id p props -> decl_wf d = true -> an_allocs a = [] -> named (an_symbols a) ->
  wp (check_signal_definition d) (fun r a' _ => an_allocs a' = [] /\ an_symbols a' = an_symbols a /\
    match decl_error (names (an_symbols a)) d with
    | None => r = true /\ diagnostics a' = diagnostics a
    | Some msg => r = false /\ diagnostics a' = diagnostics a ++ [mkDiagnostic (Some msg) (ast_line d) (ast_column d)]
    end) a m.
Proof.
  intros Hd Hwf Ha Hn. unfold decl_wf in Hwf. unfold check_signal_definition, decl_error. rewrite Hd in *.
  destruct p as [p|]; [|done]. apply andb_true_iff in Hwf as [[name Hname]%bool_decide_eq_true_1 Hp].
  apply wp_bind, wp_get, wp_bind. eapply name_of_spec; [exact Hname|]. rewrite Hname. cbn [default].
  apply wp_bind, symtable_lookup_spec; [done| |].
  - intros Hnot. rewrite decide_False by done. apply wp_bind. unfold type_create. apply wp_bind, wp_alloc_ok; [done|].
    apply wp_ret. destruct (ast_as p) as [| |[n|]|]; try done; simpl.
    1,2,4: apply wp_bind; eapply wp_mono; [by apply emit_spec|]; intros [] a' m' (? & ? & ?); by apply wp_ret.
    destruct (decide (n = _ \/ n = _)) as [E|E].
    + apply wp_ret. rewrite decide_True by (destruct E as [->| ->]; auto). done.
    + rewrite decide_False by naive_solver. apply wp_bind; eapply wp_mono; [by apply emit_spec|].
      intros [] a' m' (? & ? & ?). by apply wp_ret.
  - intros sym Hs Hin. rewrite decide_True by (apply list_elem_of_omap; eauto).
    apply wp_bind; eapply wp_mono; [by apply emit_spec|]. intros [] a' m' (? & ? & ?). by apply wp_ret.
Qed.

Lemma check_declarations_spec decls a m :
  forallb decl_wf decls = true -> an_allocs a = [] -> named (an_symbols a) ->
  wp (check_declarations decls) (fun r a' _ => an_allocs a' = [] /\ an_symbols a' = an_symbols a /\
    match first_error (names (an_symbols a)) decls with
    | None => r = true /\ diagnostics a' = diagnostics a
    | Some d => r = false /\ diagnostics a' = diagnostics a ++ [d]
    end) a m.
Proof.
  revert a m. induction decls as [|d decls IH]; intros a m Hwf Ha Hn; simpl in *; [by apply wp_ret|].
  apply andb_true_iff in Hwf as [Hd Hwf]. destruct (ast_as d) as [|id p props| |] eqn:E.
  1,3,4: assert (decl_error (names (an_symbols a)) d = Some "Invalid declaration in ECU"%string) as -> by (unfold decl_error; by rewrite E);
    apply wp_bind; (eapply wp_mono; [by apply emit_spec|]); intros [] a' m' (? & ? & ?); by apply wp_ret.
  apply wp_bind. eapply wp_mono; [by eapply check_signal_spec|]. intros r a' m' (Ha' & Hs' & Hr).
  destruct (decl_error _ d) as [msg|]; destruct Hr as [-> Hdiag]; [by apply wp_ret|].
  eapply wp_mono; [apply IH; [done|done|by rewrite Hs']|]. intros r a2 m2 H2. rewrite Hs', Hdiag in H2. exact H2.
Qed.

(** Checking a unit reports a duplicate name; otherwise it declares the unit's name,
    reports the first declaration that is wrong, if there is one, and answers whether
    there is none: every rejection comes with exactly one diagnostic.  The name stays
    declared when the check fails, and the names of signals are never declared. *)
Lemma analyzer_reports line column id name decls a m :
  identifier_name id = Some name -> forallb decl_wf decls = true -> an_allocs a = [] -> named (an_symbols a) ->
  wp (analyzer_check (Some (mkNode line column (ecu_def id decls)))) (fun r a' _ => named (an_symbols a') /\ an_allocs a' = [] /\
    if decide (name ∈ names (an_symbols a)) then
      r = false /\ an_symbols a' = an_symbols a /\
      diagnostics a' = diagnostics a ++ [mkDiagnostic (Some "Duplicate ECU definition"%string) line column]
    else
      names (an_symbols a') = names (an_symbols a) ++ [name] /\
      match first_error (names (an_symbols a) ++ [name]) decls with
      | None => r = true /\ diagnostics a' = diagnostics a
      | Some d => r = false /\ diagnostics a' = diagnostics a ++ [d]
      end) a m.
Proof.
  intros Hid Hwf Ha Hn. unfold analyzer_check, check_ecu_definition. cbn [ast_as ast_line ast_column].
  apply wp_bind, wp_get, wp_bind. eapply name_of_spec; [exact Hid|]. apply wp_bind, symtable_lookup_spec; [done| |].
  - intros Hnot. apply wp_bind. unfold type_create. apply wp_bind, wp_alloc_ok; [done|].
    apply wp_ret. apply wp_bind, wp_alloc_ok; [done|]. cbn [negb]. apply wp_bind, wp_alloc_ok; [done|]. apply wp_bind.
    set (sym := mkSymbol (Some name) 0 _).
    assert (Hgo : wp (let '(inserted, table) := symtable_insert true (an_symbols a) sym in
      modify (fun a => a <| an_symbols := table |>);; if negb inserted then mret false else check_declarations decls)
      (fun r a' _ => named (an_symbols a') /\ an_allocs a' = [] /\ names (an_symbols a') = names (an_symbols a) ++ [name] /\
      match first_error (names (an_symbols a) ++ [name]) decls with
      | None => r = true /\ diagnostics a' = diagnostics a
      | Some d => r = false /\ diagnostics a' = diagnostics a ++ [d]
      end) a m).
    { pose proof (symtable_insert_lookup true (an_symbols a) sym name Hn eq_refl) as Hins.
      assert (Hok : (symtable_insert true (an_symbols a) sym).1 = true) by (unfold symtable_insert; by destruct (_ <=? _)%nat).
      destruct (symtable_insert true (an_symbols a) sym) as [ok t']. simpl in Hok. subst ok.
      destruct Hins as (_ & Hn' & Hnames & _). apply wp_bind, wp_modify. cbn [negb].
      eapply wp_mono; [by apply check_declarations_spec|]. intros r a' m' (Ha' & Hs' & Hr). simpl in Hs', Hr.
      rewrite Hs', Hnames in *. done. }
    destruct (_ <=? _)%nat; [apply wp_alloc_ok; [done|]|apply wp_ret]; (eapply wp_mono; [exact Hgo|]);
      intros r a' m' (? & ? & ?); by rewrite decide_False.
  - intros sym Hs Hin. apply wp_bind. eapply wp_mono; [by apply emit_spec|]. intros [] a' m' (? & Hs' & Hd). apply wp_ret.
    rewrite decide_True by (apply list_elem_of_omap; eauto). by rewrite Hs'.
Qed.
Definition ident (s : string) : option ASTNode := Some (mkNode 0 0 (identifier (Some (chars s)))).
Definition signal (name protocol : string) : ASTNode := mkNode 3 4 (signal_def (ident name) (ident protocol) []).
Definition unit0 : list ASTNode := [signal "speed" "CAN"; signal "speed" "FlexRay"; signal "rpm" "LIN"].
(** Two signals of one name are accepted, since no signal is ever declared; the unit that is
    rejected for its third signal stays declared. *)
Lemma duplicate_signals_accepted :
  wp (analyzer_check (Some (mkNode 1 1 (ecu_def (ident "Engine") unit0)))) (fun r a' _ => r = false /\
    diagnostics a' = [mkDiagnostic (Some "Invalid protocol type"%string) 3 4] /\
    names (an_symbols a') = [chars "Engine"]) (analyzer_create []) boot.
Proof. by vm_compute. Qed.

(** From source text to checked unit: a source [ecu name { ... }] passes the parser
    and a fresh analyser without a diagnostic, and the analyser then knows the unit's name;
    checking the same tree again reports one duplicate. *)
Theorem frontend_accepts garbage src ts name m :
  tokenize src = Some ts -> ecu_source name ts ->
  wp parser_parse (fun tree _ m' =>
    wp (analyzer_check tree) (fun r a' m'' =>
      r = true /\ names (an_symbols a') = [name] /\ analyzer_get_diagnostics a' = [] /\
      wp (analyzer_check tree) (fun r' a'' _ => r' = false /\ length (analyzer_get_diagnostics a'') = 1%nat) a' m'')
      (analyzer_create []) m') (parser_create garbage [] src) m.
Proof.
  intros Ht Hs. destruct (create_ahead garbage [] src ts Ht) as (Ha & Hw & He & Hh).
  eapply wp_mono; [by apply (parse_spec _ m ts)|]. intros tree p' m' (-> & _ & _).
  apply ecu_syntax_ok in Hs. rewrite Hs.
  change (ecu_node <$> (Some name, true).1) with (Some (ecu_node name)). unfold ecu_node.
  eapply wp_mono; [apply (analyzer_reports 0 0 _ name [] (analyzer_create []) m'); [done|done|done|by constructor]|].
  intros r a' m2 (Hn & Hal & H). rewrite decide_False in H by (by apply not_elem_of_nil).
  destruct H as (Hnames & -> & Hd). simpl in Hnames, Hd. split_and!; [done|done|done|].
  eapply wp_mono; [by apply (analyzer_reports 0 0 _ name [] a' m2)|]. intros r2 a2 m3 (_ & _ & H2).
  rewrite Hnames, decide_True in H2 by (by left). destruct H2 as (-> & _ & H2). split; [done|].
  unfold analyzer_get_diagnostics. by rewrite H2, Hd.
Qed.
Lemma frontend_accepts_witness :
  wp parser_parse (fun tree _ m' => wp (analyzer_check tree) (fun r a' _ => r = true /\
    names (an_symbols a') = [chars "Engine"]) (analyzer_create []) m') (parser_create token0 [] source0) boot.
Proof.
  assert (Ht : exists ts, tokenize source0 = Some ts /\ ecu_syntax ts = (Some (chars "Engine"), true)).
  { eexists. split; [by vm_compute|]. by vm_compute. }
  destruct Ht as (ts & Ht & Hs%ecu_syntax_ok).
  eapply wp_mono; [apply (frontend_accepts token0 source0 ts _ boot Ht Hs)|]. intros tree p' m' H.
  eapply wp_mono; [exact H|]. by intros r a' m2 (-> & -> & _).
Defined.

(** ** Types *)

(** Compatibility is an equivalence of types; frequencies and memory sizes are all
    compatible, whatever their values and units. *)
#[export] Instance type_compatible_equivalence : Equivalence (fun a b : Ty => type_is_compatible (Some a) (Some b) = true).
Proof.
  unfold type_is_compatible. split.
  - intros a. rewrite decide_False by tauto. destruct (type_kind a); try done. by rewrite bool_decide_true, Z.eqb_refl.
  - intros a b. destruct (decide (type_kind a <> type_kind b)) as [|E]; [done|]. apply dec_stable in E.
    rewrite E, decide_False by tauto. destruct (type_kind b); try done.
    intros [->%bool_decide_eq_true_1 ->%Z.eqb_eq]%andb_true_iff. by rewrite bool_decide_true, Z.eqb_refl.
  - intros a b c. destruct (decide (type_kind a <> type_kind b)) as [|E]; [done|]. apply dec_stable in E.
    destruct (decide (type_kind b <> type_kind c)) as [|E']; [done|]. apply dec_stable in E'.
    rewrite E, E', decide_False by tauto. destruct (type_kind c); try done.
    intros [->%bool_decide_eq_true_1 ->%Z.eqb_eq]%andb_true_iff. done.
Qed.
