(* ===== verification/CommManager.v ===== *)
(** * Communication manager

    [src/runtime/diagnostic/comm_manager.c]: the diagnostic channels, two
    parallel arrays of configuration and state with one count, the
    communication-control gate in front of transmission and reception, the
    reassembly buffer of each channel and its timeout.  The transmit function
    of a channel is the integrator's: [None] (NULL) or a function of the bytes
    and of the machine it is called on; the other callbacks are recorded in
    the trace. *)

From S2P Require Import Prelude Machine Tables.

Definition MAX_CHANNELS : nat := 8.
Definition MAX_MESSAGE_SIZE : Z := 4096.

Definition COMM_ERROR_NONE : Z := 0.
Definition COMM_ERROR_TIMEOUT : Z := 1.
Definition COMM_ERROR_BUFFER_OVERFLOW : Z := 2.
Definition COMM_ERROR_INVALID_STATE : Z := 3.
Definition COMM_ERROR_TRANSMISSION_FAILED : Z := 4.

Inductive CommChannelType :=
  COMM_CHANNEL_CAN | COMM_CHANNEL_ETHERNET | COMM_CHANNEL_K_LINE | COMM_CHANNEL_FLEXRAY |
  COMM_CHANNEL_DOIP.

Inductive CommControlType :=
  COMM_CONTROL_ENABLE_RX_TX | COMM_CONTROL_ENABLE_RX_DISABLE_TX |
  COMM_CONTROL_DISABLE_RX_ENABLE_TX | COMM_CONTROL_DISABLE_RX_TX.
#[export] Instance CommControlType_eq_dec : EqDecision CommControlType.
Proof. solve_decision. Defined.
Definition control_value (c : CommControlType) : Z :=
  match c with
  | COMM_CONTROL_ENABLE_RX_TX => 0x00 | COMM_CONTROL_ENABLE_RX_DISABLE_TX => 0x01
  | COMM_CONTROL_DISABLE_RX_ENABLE_TX => 0x02 | COMM_CONTROL_DISABLE_RX_TX => 0x03
  end.

Record CommChannelConfig := mkChannel {
  chan_type : CommChannelType;
  channel_id : Z;
  rx_id : Z;
  tx_id : Z;
  baud_rate : Z;
  block_size : Z;
  stmin : Z;
  chan_timeout_ms : Z;
  transmit : option (list Z -> Machine -> bool);
  receive_callback : bool }.
#[export] Instance CommChannelConfig_key : Keyed CommChannelConfig := channel_id.
Definition channel_zero : CommChannelConfig :=
  mkChannel COMM_CHANNEL_CAN 0 0 0 0 0 0 0 None false.

Record CommManagerConfig := mkCommConfig {
  cfg_channels : option (list CommChannelConfig);
  cfg_channel_count : nat;
  comm_error_callback : bool;
  state_change_callback : bool }.
Definition comm_config_zero : CommManagerConfig := mkCommConfig None 0 false false.

Record ChannelState := mkChannelState {
  enabled : bool;
  network_active : bool;
  control_state : CommControlType;
  rx_timer : Timer;                   (* timeout_timer *)
  last_error : Z;
  rx_buffer : list Z;
  rx_buffer_index : Z;
  reception_in_progress : bool }.
#[export] Instance eta_ChannelState : Eta ChannelState := fun s =>
  mkChannelState (enabled s) (network_active s) (control_state s) (rx_timer s) (last_error s)
    (rx_buffer s) (rx_buffer_index s) (reception_in_progress s).
Definition channel_state_zero : ChannelState :=
  mkChannelState false false COMM_CONTROL_ENABLE_RX_TX timer_zero 0
    (replicate (Z.to_nat MAX_MESSAGE_SIZE) 0) 0 false.

Record CommManager := mkCommManager {
  comm_config : CommManagerConfig;
  channels : list CommChannelConfig;
  channel_states : list ChannelState;
  channel_count : nat;
  comm_initialized : bool;
  comm_critical : CriticalSection }.
#[export] Instance eta_CommManager : Eta CommManager := fun s =>
  mkCommManager (comm_config s) (channels s) (channel_states s) (channel_count s)
    (comm_initialized s) (comm_critical s).
Definition comm_manager_zero : CommManager :=
  mkCommManager comm_config_zero (replicate MAX_CHANNELS channel_zero)
    (replicate MAX_CHANNELS channel_state_zero) 0 false cs_zero.
#[export, refine] Instance CommManager_critical : HasCritical CommManager :=
  {| crit := comm_critical; set_crit k s := s <| comm_critical := k |> |}.
Proof. all: by intros; destruct s. Defined.

(** Indices stand for the pointers into the two arrays: the state of a channel
    is at the index of its configuration. *)
Definition find_channel (id : Z) : M CommManager (option nat) :=
  s ← get; mret (find_key id (channel_count s) (channels s)).
Definition find_channel_state (id : Z) : M CommManager (option nat) :=
  channel ← find_channel id;
  match channel with None => mret None | Some index => mret (Some index) end.

Definition channel_at (i : nat) : M CommManager CommChannelConfig :=
  s ← get; match channels s !! i with Some c => mret c | None => fault end.
Definition state_at (i : nat) : M CommManager ChannelState :=
  s ← get; match channel_states s !! i with Some c => mret c | None => fault end.
Definition update_state (i : nat) (f : ChannelState -> ChannelState) : M CommManager unit :=
  st ← state_at i;
  modify (fun s => s <| channel_states ::= <[i := f st]> |>).

(** The assignments that make a channel's state a fresh one; the timer and the
    buffer keep what they held. *)
Definition fresh_state (st : ChannelState) : ChannelState :=
  st <| enabled := true |> <| network_active := false |>
     <| control_state := COMM_CONTROL_ENABLE_RX_TX |> <| last_error := COMM_ERROR_NONE |>
     <| rx_buffer_index := 0 |> <| reception_in_progress := false |>.

(** The loop of [Comm_Manager_Init] over the states. *)
Fixpoint init_states (SystemCoreClock : Z) (k i : nat) : M CommManager unit :=
  match k with
  | O => mret tt
  | S k' =>
    update_state i fresh_state;;
    timer_init_m SystemCoreClock;;
    init_states SystemCoreClock k' (S i)
  end.

Definition Comm_Manager_Init (SystemCoreClock : Z) (config : option CommManagerConfig)
  : M CommManager bool :=
  match config with
  | None => mret false
  | Some config =>
    enter;;
    modify (fun s => s <| comm_config := config |>);;
    match cfg_channels config with
    | Some cs =>
      if (0 <? cfg_channel_count config)%nat then
        let copy_count := if (cfg_channel_count config <=? MAX_CHANNELS)%nat
                          then cfg_channel_count config else MAX_CHANNELS in
        if (length cs <? copy_count)%nat then fault else
        modify (fun s => s <| channels ::= fun old => take copy_count cs ++ drop copy_count old |>);;
        init_states SystemCoreClock copy_count 0;;
        modify (fun s => s <| channel_count := copy_count |>)
      else modify (fun s => s <| channel_count := 0%nat |>)
    | None => modify (fun s => s <| channel_count := 0%nat |>)
    end;;
    init_crit;;
    modify (fun s => s <| comm_initialized := true |>);;
    exit;;
    mret true
  end.

Fixpoint disable_loop (k i : nat) : M CommManager unit :=
  match k with
  | O => mret tt
  | S k' =>
    update_state i (fun st => st <| enabled := false |> <| network_active := false |>);;
    disable_loop k' (S i)
  end.

Definition Comm_Manager_DeInit : M CommManager unit :=
  enter;;
  s ← get;
  disable_loop (channel_count s) 0;;
  modify (fun _ => comm_manager_zero);;
  exit.

(** The guards in front of transmission and reception. *)
Definition tx_blocked (st : ChannelState) : bool :=
  negb (enabled st) || negb (network_active st) ||
  bool_decide (control_state st = COMM_CONTROL_DISABLE_RX_TX) ||
  bool_decide (control_state st = COMM_CONTROL_ENABLE_RX_DISABLE_TX).
Definition rx_blocked (st : ChannelState) : bool :=
  negb (enabled st) || negb (network_active st) ||
  bool_decide (control_state st = COMM_CONTROL_DISABLE_RX_TX) ||
  bool_decide (control_state st = COMM_CONTROL_DISABLE_RX_ENABLE_TX).

(** [data] is the [length] bytes the caller points to, [None] for NULL. *)
Definition Comm_Manager_TransmitMessage (id : Z) (data : option (list Z)) : M CommManager bool :=
  s ← get;
  match data with
  | None => mret false
  | Some data =>
    if negb (comm_initialized s) || (length data =? 0)%nat then mret false else
    enter;;
    channel ← find_channel id;
    state ← find_channel_state id;
    match channel, state with
    | Some c, Some i =>
      st ← state_at i;
      if tx_blocked st then
        update_state i (fun st => st <| last_error := COMM_ERROR_INVALID_STATE |>);;
        exit;; mret false
      else
      ch ← channel_at c;
      result ← match transmit ch with
               | Some f =>
                 emit "transmit" (channel_id ch :: data);;
                 result ← on_machine (fun m => (f data m, m));
                 (if negb result
                  then update_state i (fun st => st <| last_error := COMM_ERROR_TRANSMISSION_FAILED |>)
                  else mret tt);;
                 mret result
               | None => mret false
               end;
      exit;;
      mret result
    | _, _ => exit;; mret false
    end
  end.

(** [memcpy(&buf[i], data, length)]. *)
Definition copy_at (i : Z) (data buf : list Z) : list Z :=
  take (Z.to_nat i) buf ++ data ++ drop (Z.to_nat i + length data) buf.

Definition restart_timer (i c : nat) : M CommManager unit :=
  ch ← channel_at c;
  st ← state_at i;
  t ← on_machine (timer_start (rx_timer st) (chan_timeout_ms ch));
  update_state i (fun st => st <| rx_timer := t |>).

(** The notification at the end of [Comm_Manager_ProcessReceived]. *)
Definition notify_received (i c : nat) : M CommManager unit :=
  ch ← channel_at c;
  st ← state_at i;
  callback (receive_callback ch) "receive_callback"
    (channel_id ch :: take (Z.to_nat (rx_buffer_index st)) (rx_buffer st)).

Definition Comm_Manager_ProcessReceived (id : Z) (data : option (list Z)) : M CommManager unit :=
  s ← get;
  match data with
  | None => mret tt
  | Some data =>
    let len := Z.of_nat (length data) in
    if negb (comm_initialized s) || (len =? 0) then mret tt else
    enter;;
    channel ← find_channel id;
    state ← find_channel_state id;
    match channel, state with
    | Some c, Some i =>
      st ← state_at i;
      if rx_blocked st then
        update_state i (fun st => st <| last_error := COMM_ERROR_INVALID_STATE |>);;
        exit
      else if reception_in_progress st then
        if MAX_MESSAGE_SIZE <? rx_buffer_index st + len then
          update_state i (fun st => st <| last_error := COMM_ERROR_BUFFER_OVERFLOW |>
            <| reception_in_progress := false |> <| rx_buffer_index := 0 |>);;
          exit
        else
          update_state i (fun st => st
            <| rx_buffer ::= copy_at (rx_buffer_index st) data |>
            <| rx_buffer_index ::= fun n => u16 (n + len) |>);;
          restart_timer i c;;
          notify_received i c;;
          exit
      else
        (if len <=? MAX_MESSAGE_SIZE then
           update_state i (fun st => st
             <| rx_buffer ::= copy_at 0 data |> <| rx_buffer_index := len |>
             <| reception_in_progress := true |>);;
           restart_timer i c
         else mret tt);;
        notify_received i c;;
        exit
    | _, _ => exit
    end
  end.

Definition Comm_Manager_ControlCommunication (id : Z) (control_type : CommControlType)
  : M CommManager bool :=
  s ← get;
  if negb (comm_initialized s) then mret false else
  enter;;
  state ← find_channel_state id;
  match state with
  | None => exit;; mret false
  | Some i =>
    update_state i (fun st => st <| control_state := control_type |>);;
    callback (state_change_callback (comm_config s)) "state_change_callback"
      [id; control_value control_type];;
    exit;;
    mret true
  end.

Definition Comm_Manager_AddChannel (SystemCoreClock : Z) (channel : option CommChannelConfig)
  : M CommManager bool :=
  s ← get;
  match channel with
  | None => mret false
  | Some channel =>
    if negb (comm_initialized s) then mret false else
    enter;;
    found ← find_channel (channel_id channel);
    if bool_decide (is_Some found) then exit;; mret false else
    if (MAX_CHANNELS <=? channel_count s)%nat then exit;; mret false else
    modify (fun s => s <| channels ::= <[channel_count s := channel]> |>);;
    update_state (channel_count s) fresh_state;;
    timer_init_m SystemCoreClock;;
    modify (fun s => s <| channel_count ::= S |>);;
    exit;;
    mret true
  end.

Definition Comm_Manager_RemoveChannel (id : Z) : M CommManager bool :=
  s ← get;
  if negb (comm_initialized s) then mret false else
  enter;;
  found ← find_channel id;
  match found with
  | None => exit;; mret false
  | Some index =>
    modify (fun s => s <| channels ::= remove_record index (channel_count s) |>
                       <| channel_states ::= remove_record index (channel_count s) |>
                       <| channel_count ::= fun n => (n - 1)%nat |>);;
    exit;;
    mret true
  end.

Definition Comm_Manager_GetChannel (id : Z) : M CommManager (option nat) :=
  s ← get;
  if negb (comm_initialized s) then mret None else
  enter;;
  channel ← find_channel id;
  exit;;
  mret channel.

(** The getters that read one field of the state, with their answer for an
    unknown channel. *)
Definition read_state {A} (id : Z) (unknown : A) (f : ChannelState -> A) : M CommManager A :=
  s ← get;
  if negb (comm_initialized s) then mret unknown else
  enter;;
  state ← find_channel_state id;
  a ← match state with
      | Some i => st ← state_at i; mret (f st)
      | None => mret unknown
      end;
  exit;;
  mret a.

Definition Comm_Manager_IsChannelEnabled (id : Z) : M CommManager bool :=
  read_state id false enabled.
Definition Comm_Manager_GetChannelState (id : Z) : M CommManager CommControlType :=
  read_state id COMM_CONTROL_DISABLE_RX_TX control_state.
Definition Comm_Manager_GetLastError (id : Z) : M CommManager Z :=
  read_state id COMM_ERROR_INVALID_STATE last_error.
Definition Comm_Manager_IsNetworkActive (id : Z) : M CommManager bool :=
  read_state id false network_active.

(** The loop of [Comm_Manager_ProcessTimeout]. *)
Fixpoint timeout_scan (k i : nat) : M CommManager unit :=
  match k with
  | O => mret tt
  | S k' =>
    st ← state_at i;
    ch ← channel_at i;
    late ← (if reception_in_progress st then on_machine (timer_expired (rx_timer st)) else mret false);
    (if (late : bool) then
       update_state i (fun st => st <| last_error := COMM_ERROR_TIMEOUT |>
         <| reception_in_progress := false |> <| rx_buffer_index := 0 |>);;
       s ← get;
       callback (comm_error_callback (comm_config s)) "error_callback"
         [channel_id ch; COMM_ERROR_TIMEOUT]
     else mret tt);;
    timeout_scan k' (S i)
  end.

Definition Comm_Manager_ProcessTimeout : M CommManager unit :=
  s ← get;
  if negb (comm_initialized s) then mret tt else
  enter;;
  timeout_scan (channel_count s) 0;;
  exit.

Fixpoint count_active (k i : nat) (active_count : Z) : M CommManager Z :=
  match k with
  | O => mret active_count
  | S k' =>
    st ← state_at i;
    count_active k' (S i) (if enabled st && network_active st then u32 (active_count + 1)
                           else active_count)
  end.

Definition Comm_Manager_GetActiveChannels : M CommManager Z :=
  s ← get;
  if negb (comm_initialized s) then mret 0 else
  enter;;
  n ← count_active (channel_count s) 0 0;
  exit;;
  mret n.

Definition Comm_Manager_ResetChannel (SystemCoreClock : Z) (id : Z) : M CommManager bool :=
  s ← get;
  if negb (comm_initialized s) then mret false else
  enter;;
  state ← find_channel_state id;
  match state with
  | None => exit;; mret false
  | Some i =>
    update_state i fresh_state;;
    timer_init_m SystemCoreClock;;
    exit;;
    mret true
  end.

Definition Comm_Manager_WakeupNetwork (id : Z) : M CommManager bool :=
  s ← get;
  if negb (comm_initialized s) then mret false else
  enter;;
  state ← find_channel_state id;
  match state with
  | None => exit;; mret false
  | Some i =>
    st ← state_at i;
    if negb (enabled st) then exit;; mret false else
    update_state i (fun st => st <| network_active := true |>
      <| control_state := COMM_CONTROL_ENABLE_RX_TX |> <| last_error := COMM_ERROR_NONE |>);;
    exit;;
    mret true
  end.

Definition Comm_Manager_SleepNetwork (id : Z) : M CommManager bool :=
  s ← get;
  if negb (comm_initialized s) then mret false else
  enter;;
  state ← find_channel_state id;
  match state with
  | None => exit;; mret false
  | Some i =>
    st ← state_at i;
    if negb (enabled st) then exit;; mret false else
    update_state i (fun st => st <| network_active := false |>
      <| control_state := COMM_CONTROL_DISABLE_RX_TX |>
      <| reception_in_progress := false |> <| rx_buffer_index := 0 |>);;
    exit;;
    mret true
  end.

(** ** What the channels stand for

    A finite map from identifiers to links: the configuration, the gate and
    the reception in progress, if any, as the bytes received so far and the
    timer of the last fragment. *)

Record Link := mkLink {
  lk_channel : CommChannelConfig;
  lk_active : bool;
  lk_control : CommControlType;
  lk_error : Z;
  lk_rx : option (list Z * Timer) }.
#[export] Instance eta_Link : Eta Link := fun l =>
  mkLink (lk_channel l) (lk_active l) (lk_control l) (lk_error l) (lk_rx l).

Definition link_of (p : CommChannelConfig * ChannelState) : Link :=
  let '(ch, st) := p in
  mkLink ch (network_active st) (control_state st) (last_error st)
    (if reception_in_progress st
     then Some (take (Z.to_nat (rx_buffer_index st)) (rx_buffer st), rx_timer st) else None).
Definition comm_map (s : CommManager) : gmap Z Link :=
  link_of <$> tbl (channel_count s) (zip (channels s) (channel_states s)).

(** A live state: enabled, the index inside the buffer, and at its start
    outside a reception. *)
Record state_ok (st : ChannelState) : Prop := {
  so_enabled : enabled st = true;
  so_index : 0 <= rx_buffer_index st <= MAX_MESSAGE_SIZE;
  so_idle : reception_in_progress st = false -> rx_buffer_index st = 0 }.

Definition buffer_ok (st : ChannelState) : Prop :=
  length (rx_buffer st) = Z.to_nat MAX_MESSAGE_SIZE.

Record comm_wf (s : CommManager) : Prop := {
  cw_initialized : comm_initialized s = true;
  cw_channels : length (channels s) = MAX_CHANNELS;
  cw_states : length (channel_states s) = MAX_CHANNELS;
  cw_count : (channel_count s <= MAX_CHANNELS)%nat;
  cw_uniq : tbl_uniq (channel_count s) (channels s);
  cw_buffers : Forall buffer_ok (channel_states s);
  cw_ok : Forall state_ok (take (channel_count s) (channel_states s)) }.

Lemma comm_wf_crit k s : comm_wf s -> comm_wf (set_crit k s).
Proof. intros []. by constructor. Qed.

Lemma comm_size s : comm_wf s -> size (comm_map s) = channel_count s.
Proof.
  intros []. unfold comm_map. rewrite map_size_fmap. apply tbl_size.
  - apply tbl_uniq_zip; [congruence|done].
  - rewrite length_zip_same; congruence || lia.
Qed.

(** The live entry at an index. *)
Record live (s : CommManager) (i : nat) (ch : CommChannelConfig) (st : ChannelState) : Prop := {
  lv_channel : channels s !! i = Some ch;
  lv_state : channel_states s !! i = Some st;
  lv_index : (i < channel_count s)%nat;
  lv_ok : state_ok st;
  lv_buffer : buffer_ok st }.

Lemma live_lookup s i ch st :
  comm_wf s -> live s i ch st ->
  find_key (channel_id ch) (channel_count s) (channels s) = Some i /\
  comm_map s !! channel_id ch = Some (link_of (ch, st)).
Proof.
  intros [] [Hc Hs Hi _ _].
  assert (Hk : find_key (channel_id ch) (channel_count s) (channels s) = Some i)
    by (by apply (find_key_uniq _ _ _ i ch)). split; [done|].
  unfold comm_map. rewrite lookup_fmap, tbl_lookup, find_key_zip, Hk by
    (congruence || (apply tbl_uniq_zip; [congruence|done])). simpl.
  by rewrite (zip_lookup _ _ _ ch st).
Qed.

Lemma live_at s i :
  comm_wf s -> (i < channel_count s)%nat -> exists ch st, live s i ch st.
Proof.
  intros [] Hi. destruct (lookup_lt_is_Some_2 (channels s) i) as [ch Hc]; [lia|].
  destruct (lookup_lt_is_Some_2 (channel_states s) i) as [st Hs]; [lia|].
  exists ch, st. constructor; auto.
  - eapply (Forall_lookup_1 _ (take (channel_count s) (channel_states s)) i); [done|].
    by apply lookup_take_Some.
  - by eapply Forall_lookup_1.
Qed.

Lemma comm_lookup s id :
  comm_wf s ->
  (exists i ch st, live s i ch st /\ channel_id ch = id /\
     find_key id (channel_count s) (channels s) = Some i /\
     comm_map s !! id = Some (link_of (ch, st))) \/
  (find_key id (channel_count s) (channels s) = None /\ comm_map s !! id = None).
Proof.
  intros Hw. destruct (find_key id (channel_count s) (channels s)) as [i|] eqn:E.
  - left. pose proof E as (ch & Hc & Hi & <-)%find_key_Some.
    destruct (live_at s i Hw Hi) as (ch' & st & Hl). assert (ch' = ch) as ->
      by (apply (inj Some); rewrite <- (lv_channel _ _ _ _ Hl); done).
    exists i, ch, st. split_and!; auto. by eapply live_lookup.
  - right. split; [done|]. destruct Hw. unfold comm_map.
    rewrite lookup_fmap, tbl_lookup, find_key_zip, E by
      (congruence || (apply tbl_uniq_zip; [congruence|done])). done.
Qed.

Section comm_wp.
Context (s : CommManager) (m : Machine).
Hypothesis Hwf : comm_wf s.

Lemma wp_enter_comm (Q : unit -> CommManager -> Machine -> Prop) :
  (forall s0, comm_wf s0 -> comm_map s0 = comm_map s -> comm_config s0 = comm_config s ->
     channel_count s0 = channel_count s -> crit s0 = mkCS (Z.b2z (primask m)) true ->
     Q tt s0 (m <| primask := true |>)) -> wp enter Q s m.
Proof. intros HQ. apply wp_enter, HQ; try done. by apply comm_wf_crit. Qed.

Lemma wp_exit_comm b (Q : unit -> CommManager -> Machine -> Prop) :
  crit s = mkCS (Z.b2z b) true -> primask m = true ->
  (forall s', comm_wf s' -> comm_map s' = comm_map s -> Q tt s' (m <| primask := b |>)) ->
  wp exit Q s m.
Proof. intros Hc Hm HQ. eapply wp_exit; eauto. apply HQ; [by apply comm_wf_crit|done]. Qed.

Lemma wp_find_channel id Q :
  Q (find_key id (channel_count s) (channels s)) s m -> wp (find_channel id) Q s m.
Proof using. intros HQ. unfold find_channel. by wp_steps. Qed.
Lemma wp_find_state id Q :
  Q (find_key id (channel_count s) (channels s)) s m -> wp (find_channel_state id) Q s m.
Proof using.
  intros HQ. unfold find_channel_state. apply wp_bind, wp_find_channel.
  by destruct (find_key id _ _).
Qed.
Lemma wp_channel_at i ch Q : channels s !! i = Some ch -> Q ch s m -> wp (channel_at i) Q s m.
Proof using. intros Hi HQ. unfold channel_at. wp_steps; congruence. Qed.
Lemma wp_state_at i st Q : channel_states s !! i = Some st -> Q st s m -> wp (state_at i) Q s m.
Proof using. intros Hi HQ. unfold state_at. wp_steps; congruence. Qed.

Lemma wp_update i ch st f Q :
  live s i ch st -> state_ok (f st) -> buffer_ok (f st) ->
  (forall s', comm_wf s' -> live s' i ch (f st) ->
     comm_map s' = <[channel_id ch := link_of (ch, f st)]> (comm_map s) ->
     channels s' = channels s -> channel_states s' = <[i := f st]> (channel_states s) ->
     channel_count s' = channel_count s ->
     comm_config s' = comm_config s -> crit s' = crit s -> Q tt s' m) ->
  wp (update_state i f) Q s m.
Proof.
  intros [Hc Hs Hi _ _] Hok Hb HQ. pose proof Hwf as []. unfold update_state.
  apply wp_bind. eapply wp_state_at; [done|]. apply wp_modify.
  apply HQ; try done.
  - constructor; simpl; rewrite ?length_insert; auto; [by apply Forall_insert|].
    rewrite take_insert_lt by done. by apply Forall_insert.
  - constructor; simpl; auto. apply list_lookup_insert_eq. by eapply lookup_lt_Some.
  - unfold comm_map; simpl. rewrite (zip_insert_r _ _ _ ch) by done.
    destruct (tbl_update (channel_count s) (zip (channels s) (channel_states s)) i (ch, f st) (ch, st))
      as [_ ->]; [apply tbl_uniq_zip; [congruence|done]|by apply zip_lookup|done|done|].
    by rewrite fmap_insert.
Qed.
End comm_wp.

(** ** The specification *)

Inductive CommOp :=
| OpTransmit (id : Z) (data : list Z) | OpReceive (id : Z) (data : list Z)
| OpControl (id : Z) (c : CommControlType) | OpAddChannel (ch : CommChannelConfig)
| OpRemoveChannel (id : Z) | OpReset (id : Z) | OpWakeup (id : Z) | OpSleep (id : Z).

Definition comm_exec (clk : Z) (op : CommOp) : M CommManager bool :=
  match op with
  | OpTransmit id data => Comm_Manager_TransmitMessage id (Some data)
  | OpReceive id data => Comm_Manager_ProcessReceived id (Some data);; mret true
  | OpControl id c => Comm_Manager_ControlCommunication id c
  | OpAddChannel ch => Comm_Manager_AddChannel clk (Some ch)
  | OpRemoveChannel id => Comm_Manager_RemoveChannel id
  | OpReset id => Comm_Manager_ResetChannel clk id
  | OpWakeup id => Comm_Manager_WakeupNetwork id
  | OpSleep id => Comm_Manager_SleepNetwork id
  end.

(** The gate: the network is awake and the control state allows the
    direction. *)
Definition may_transmit (l : Link) : bool :=
  lk_active l && bool_decide (lk_control l ∈ [COMM_CONTROL_ENABLE_RX_TX; COMM_CONTROL_DISABLE_RX_ENABLE_TX]).
Definition may_receive (l : Link) : bool :=
  lk_active l && bool_decide (lk_control l ∈ [COMM_CONTROL_ENABLE_RX_TX; COMM_CONTROL_ENABLE_RX_DISABLE_TX]).

Definition idle_link (ch : CommChannelConfig) : Link :=
  mkLink ch false COMM_CONTROL_ENABLE_RX_TX COMM_ERROR_NONE None.

(** One fragment: the link afterwards and what is reported to the receiver,
    [None] when nothing is. *)
Definition link_receive (t : Z) (data : list Z) (l : Link) : Link * option (list Z) :=
  let timer := mkTimer t (chan_timeout_ms (lk_channel l)) true in
  if negb (may_receive l) then (l <| lk_error := COMM_ERROR_INVALID_STATE |>, None) else
  match lk_rx l with
  | Some (rx, _) =>
    if MAX_MESSAGE_SIZE <? Z.of_nat (length rx + length data)
    then (l <| lk_error := COMM_ERROR_BUFFER_OVERFLOW |> <| lk_rx := None |>, None)
    else (l <| lk_rx := Some (rx ++ data, timer) |>, Some (rx ++ data))
  | None =>
    if Z.of_nat (length data) <=? MAX_MESSAGE_SIZE
    then (l <| lk_rx := Some (data, timer) |>, Some data)
    else (l, Some [])
  end.

(** The machine a transmit function is called on. *)
Definition at_transmit (ch : CommChannelConfig) (data : list Z) (m : Machine) : Machine :=
  m <| primask := true |> <| trace ::= fun t => t ++ [call "transmit" (channel_id ch :: data)] |>.

Definition clock_calls (clk : Z) (m : Machine) : list Call :=
  if timer_initialized m then [] else [call "SysTick_Config" [clk / tick_frequency_hz m]].

(** Apply [f] to a known link; unknown channels are refused. *)
Definition on_link (id : Z) (cm : gmap Z Link) (f : Link -> bool * gmap Z Link * list Call)
  : bool * gmap Z Link * list Call :=
  match cm !! id with Some l => f l | None => (false, cm, []) end.

Definition transmit_spec (id : Z) (data : list Z) (cm : gmap Z Link) (m : Machine) (l : Link)
  : bool * gmap Z Link * list Call :=
  if negb (may_transmit l) then (false, <[id := l <| lk_error := COMM_ERROR_INVALID_STATE |>]> cm, [])
  else match transmit (lk_channel l) with
       | Some f =>
         let answer := f data (at_transmit (lk_channel l) data m) in
         (answer,
          if answer then cm else <[id := l <| lk_error := COMM_ERROR_TRANSMISSION_FAILED |>]> cm,
          [call "transmit" (id :: data)])
       | None => (false, cm, [])
       end.

Definition comm_spec (clk : Z) (op : CommOp) (cfg : CommManagerConfig) (cm : gmap Z Link) (m : Machine)
  : bool * gmap Z Link * list Call :=
  match op with
  | OpTransmit id data =>
    if decide (data = []) then (false, cm, []) else on_link id cm (transmit_spec id data cm m)
  | OpReceive id data =>
    if decide (data = []) then (true, cm, []) else
    match cm !! id with
    | Some l =>
      let '(l', report) := link_receive (system_ticks m) data l in
      (true, <[id := l']> cm,
       match report with
       | Some bytes => if receive_callback (lk_channel l)
                       then [call "receive_callback" (id :: bytes)] else []
       | None => []
       end)
    | None => (true, cm, [])
    end
  | OpControl id c => on_link id cm (fun l =>
      (true, <[id := l <| lk_control := c |>]> cm,
       if state_change_callback cfg then [call "state_change_callback" [id; control_value c]] else []))
  | OpAddChannel ch =>
    if bool_decide (is_Some (cm !! channel_id ch)) || (MAX_CHANNELS <=? size cm)%nat
    then (false, cm, [])
    else (true, <[channel_id ch := idle_link ch]> cm, clock_calls clk m)
  | OpRemoveChannel id => on_link id cm (fun _ => (true, delete id cm, []))
  | OpReset id => on_link id cm (fun l =>
      (true, <[id := idle_link (lk_channel l)]> cm, clock_calls clk m))
  | OpWakeup id => on_link id cm (fun l =>
      (true, <[id := l <| lk_active := true |> <| lk_control := COMM_CONTROL_ENABLE_RX_TX |>
                       <| lk_error := COMM_ERROR_NONE |>]> cm, []))
  | OpSleep id => on_link id cm (fun l =>
      (true, <[id := l <| lk_active := false |> <| lk_control := COMM_CONTROL_DISABLE_RX_TX |>
                       <| lk_rx := None |>]> cm, []))
  end.

(** What each operation is shown to do: the specification's answer, links and
    calls, the interrupt mask and the clock unchanged. *)
Definition conforms (clk : Z) (op : CommOp) (s : CommManager) (m : Machine)
    (b : bool) (s' : CommManager) (m' : Machine) : Prop :=
  let '(answer, cm, calls) := comm_spec clk op (comm_config s) (comm_map s) m in
  comm_wf s' /\ b = answer /\ comm_map s' = cm /\ trace m' = trace m ++ calls /\
  primask m' = primask m /\ system_ticks m' = system_ticks m.

(** The guards of the code are the gate. *)
Lemma tx_blocked_gate ch st : state_ok st -> tx_blocked st = negb (may_transmit (link_of (ch, st))).
Proof.
  intros []. unfold tx_blocked, may_transmit. rewrite so_enabled0. simpl.
  by destruct (network_active st), (control_state st).
Qed.
Lemma rx_blocked_gate ch st : state_ok st -> rx_blocked st = negb (may_receive (link_of (ch, st))).
Proof.
  intros []. unfold rx_blocked, may_receive. rewrite so_enabled0. simpl.
  by destruct (network_active st), (control_state st).
Qed.

Lemma length_nil_eqb {A} (l : list A) : l <> [] -> (length l =? 0)%nat = false.
Proof. by destruct l. Qed.

(** Calling the platform's clock set-up. *)
Lemma wp_clock clk (Q : unit -> CommManager -> Machine -> Prop) s m :
  (forall m', primask m' = primask m -> system_ticks m' = system_ticks m ->
     trace m' = trace m ++ clock_calls clk m -> Q tt s m') ->
  wp (timer_init_m clk) Q s m.
Proof.
  intros HQ. unfold wp, timer_init_m, on_machine. apply HQ; unfold timer_init, clock_calls;
    destruct (timer_initialized m); try done. by rewrite app_nil_r.
Qed.

(** Start of an operation on one channel: section entered, channel looked up. *)
Ltac comm_enter Hw :=
  apply wp_bind, wp_get; rewrite ?(cw_initialized _ Hw); cbn [negb orb];
  apply wp_bind, wp_enter_comm; [exact Hw|];
  let s0 := fresh "s0" in let Hw0 := fresh "Hw0" in let Hm0 := fresh "Hm0" in
  let Hcf0 := fresh "Hcf0" in let Hn0 := fresh "Hn0" in let Hc0 := fresh "Hc0" in
  intros s0 Hw0 Hm0 Hcf0 Hn0 Hc0.
(** End of an operation. *)
Ltac comm_exit :=
  apply wp_bind; eapply wp_exit_comm; [eassumption|(eassumption || congruence)|done|];
  let s' := fresh "s'" in let Hw' := fresh "Hw'" in let Hm' := fresh "Hm'" in
  intros s' Hw' Hm'; apply wp_ret.

Lemma transmit_wp clk id data s m :
  comm_wf s -> wp (Comm_Manager_TransmitMessage id (Some data)) (conforms clk (OpTransmit id data) s m) s m.
Proof.
  intros Hw. unfold Comm_Manager_TransmitMessage, conforms, comm_spec, on_link.
  destruct (decide (data = [])) as [->|Hd].
  { apply wp_bind, wp_get. simpl. rewrite orb_true_r. apply wp_ret. by rewrite app_nil_r. }
  rewrite (length_nil_eqb data Hd). comm_enter Hw. rewrite <- Hm0.
  apply wp_bind, wp_find_channel, wp_bind, wp_find_state.
  destruct (comm_lookup s0 id Hw0) as [(i & ch & st & Hl & <- & -> & ->)|[-> ->]].
  2: { comm_exit. simpl. rewrite app_nil_r. by split_and!. }
  apply wp_bind. eapply wp_state_at; [apply Hl|]. unfold transmit_spec.
  rewrite (tx_blocked_gate ch) by apply Hl. destruct (may_transmit _); simpl.
  - apply wp_bind. eapply wp_channel_at; [apply Hl|]. apply wp_bind.
    destruct (transmit ch) as [f|] eqn:Hf.
    + apply wp_bind, wp_emit, wp_bind. unfold wp at 1, on_machine.
      change (m <| primask := true |> <| trace ::= _ |>) with (at_transmit ch data m).
      destruct (f data _); simpl.
      * apply wp_bind, wp_ret, wp_ret. comm_exit. by split_and!.
      * apply wp_bind. eapply wp_update; [done|done|destruct Hl as [_ _ _ [] _]; by constructor|apply Hl|].
        intros s1 Hw1 _ Hm1 _ _ _ _ Hc1. apply wp_ret. rewrite <- Hc1 in Hc0. comm_exit.
        split_and!; try done. by rewrite Hm', Hm1.
    + apply wp_ret. comm_exit. simpl. rewrite app_nil_r. by split_and!.
  - apply wp_bind. eapply wp_update; [done|done|destruct Hl as [_ _ _ [] _]; by constructor|apply Hl|].
    intros s1 Hw1 _ Hm1 _ _ _ _ Hc1. rewrite <- Hc1 in Hc0. comm_exit.
    simpl. rewrite app_nil_r. split_and!; try done. by rewrite Hm', Hm1.
Qed.

Lemma length_copy_at i data buf :
  0 <= i -> (Z.to_nat i + length data <= length buf)%nat ->
  length (copy_at i data buf) = length buf.
Proof. intros Hi Hl. unfold copy_at. autorewrite with cant_len. lia. Qed.
Lemma take_copy_at i data buf :
  0 <= i -> (Z.to_nat i <= length buf)%nat ->
  take (Z.to_nat (i + Z.of_nat (length data))) (copy_at i data buf) = take (Z.to_nat i) buf ++ data.
Proof.
  intros Hi Hl. unfold copy_at. rewrite app_assoc. apply take_app_length'.
  autorewrite with cant_len. lia.
Qed.
Lemma take_copy_at_0 data buf :
  take (Z.to_nat (Z.of_nat (length data))) (copy_at 0 data buf) = data.
Proof. rewrite Nat2Z.id. exact (take_app_length' data _ _ eq_refl). Qed.

Section receive.
Context (s : CommManager) (m : Machine) (i : nat) (ch : CommChannelConfig) (st : ChannelState).
Hypotheses (Hwf : comm_wf s) (Hlive : live s i ch st).

Lemma wp_restart (Q : unit -> CommManager -> Machine -> Prop) :
  let st' := st <| rx_timer := mkTimer (system_ticks m) (chan_timeout_ms ch) true |> in
  (forall s', comm_wf s' -> live s' i ch st' ->
     comm_map s' = <[channel_id ch := link_of (ch, st')]> (comm_map s) ->
     crit s' = crit s -> Q tt s' (settle m)) ->
  wp (restart_timer i i) Q s m.
Proof.
  intros st' HQ. unfold restart_timer. apply wp_bind. eapply wp_channel_at; [apply Hlive|].
  apply wp_bind. eapply wp_state_at; [apply Hlive|]. apply wp_bind.
  unfold wp at 1, on_machine. rewrite timer_start_spec.
  eapply wp_update; [exact Hwf|exact Hlive|destruct Hlive as [_ _ _ [] _]; by constructor|apply Hlive|].
  auto.
Qed.

Lemma wp_notify_received (Q : unit -> CommManager -> Machine -> Prop) :
  Q tt s (m <| trace ::= fun t => t ++ if receive_callback ch then
    [call "receive_callback"
       (channel_id ch :: take (Z.to_nat (rx_buffer_index st)) (rx_buffer st))] else [] |>) ->
  wp (notify_received i i) Q s m.
Proof using Hlive.
  intros HQ. unfold notify_received. apply wp_bind. eapply wp_channel_at; [apply Hlive|].
  apply wp_bind. eapply wp_state_at; [apply Hlive|]. by apply wp_callback.
Qed.
End receive.

(** A fragment stored, the timer restarted and the receiver told. *)
Lemma wp_store s m i ch st f (Q : unit -> CommManager -> Machine -> Prop) :
  let t := mkTimer (system_ticks m) (chan_timeout_ms ch) true in
  comm_wf s -> live s i ch st -> state_ok (f st) -> buffer_ok (f st) ->
  (forall s' m', comm_wf s' ->
     comm_map s' = <[channel_id ch := link_of (ch, (f st) <| rx_timer := t |>)]> (comm_map s) ->
     crit s' = crit s -> primask m' = primask m -> system_ticks m' = system_ticks m ->
     trace m' = trace m ++ (if receive_callback ch then [call "receive_callback"
       (channel_id ch :: take (Z.to_nat (rx_buffer_index (f st))) (rx_buffer (f st)))] else []) ->
     wp exit Q s' m') ->
  wp (update_state i f;; restart_timer i i;; notify_received i i;; exit) Q s m.
Proof.
  intros t Hw Hl Hok Hb HQ. apply wp_bind. eapply wp_update; [done|done|done|done|].
  intros s1 Hw1 Hl1 Hm1 _ _ _ _ Hc1. apply wp_bind. eapply wp_restart; [done|done|].
  intros s2 Hw2 Hl2 Hm2 Hc2. apply wp_bind. eapply wp_notify_received; [done|].
  apply HQ; try done; [|congruence]. by rewrite Hm2, Hm1, insert_insert_eq.
Qed.

Lemma receive_wp clk id data s m :
  comm_wf s ->
  wp (comm_exec clk (OpReceive id data)) (conforms clk (OpReceive id data) s m) s m.
Proof.
  intros Hw. simpl. unfold Comm_Manager_ProcessReceived, conforms, comm_spec. apply wp_bind.
  destruct (decide (data = [])) as [->|Hd].
  { apply wp_bind, wp_get. simpl. rewrite orb_true_r. apply wp_ret, wp_ret. by rewrite app_nil_r. }
  replace (Z.of_nat (length data) =? 0) with false
    by (symmetry; apply Z.eqb_neq; destruct data; simpl; [done|lia]).
  comm_enter Hw. rewrite <- Hm0.
  apply wp_bind, wp_find_channel, wp_bind, wp_find_state.
  destruct (comm_lookup s0 id Hw0) as [(i & ch & st & Hl & <- & -> & Hlk)|[-> ->]].
  2: { eapply wp_exit_comm; [done|done|done|]. intros. apply wp_ret. rewrite app_nil_r. by split_and!. }
  rewrite Hlk. pose proof Hl as [_ _ _ Hok Hb]. pose proof Hok as [He Hx Hidle]. unfold buffer_ok in Hb.
  apply wp_bind. eapply wp_state_at; [apply Hl|]. unfold link_receive.
  rewrite (rx_blocked_gate ch) by done. destruct (may_receive _); simpl.
  2: { apply wp_bind. eapply wp_update; [done|done|by constructor|done|].
       intros s1 Hw1 _ Hm1 _ _ _ _ Hc1. rewrite <- Hc1 in Hc0.
       eapply wp_exit_comm; [done|done|done|]. intros s' Hw' Hm'. apply wp_ret. rewrite app_nil_r.
       split_and!; try done. by rewrite Hm', Hm1. }
  unfold MAX_MESSAGE_SIZE in *. destruct (reception_in_progress st) eqn:Hr.
  - assert (Hlen : Z.of_nat (length (take (Z.to_nat (rx_buffer_index st)) (rx_buffer st)) + length data)
      = rx_buffer_index st + Z.of_nat (length data)) by (autorewrite with cant_len; lia).
    rewrite Hlen. destruct (_ <? _) eqn:Hbig; tests.
    + apply wp_bind. eapply wp_update; [done|done|by constructor; simpl; auto|done|].
      intros s1 Hw1 _ Hm1 _ _ _ _ Hc1. rewrite <- Hc1 in Hc0.
      eapply wp_exit_comm; [done|done|done|]. intros s' Hw' Hm'. apply wp_ret. rewrite app_nil_r.
      split_and!; try done. by rewrite Hm', Hm1.
    + assert (Hu : u16 (rx_buffer_index st + Z.of_nat (length data)) =
        rx_buffer_index st + Z.of_nat (length data)) by (apply u16_small; unfold is_u16; lia).
      eapply wp_store; [done|done| | |].
      1: constructor; simpl; rewrite ?Hu, ?Hr; [done|unfold MAX_MESSAGE_SIZE; lia|done].
      1: unfold buffer_ok, MAX_MESSAGE_SIZE; simpl; rewrite length_copy_at; lia.
      simpl. rewrite Hu, take_copy_at, Hr by lia. intros s1 m1 Hw1 Hm1 Hc1 Hp1 Ht1 Htr1.
      eapply wp_exit_comm; [done|exact (eq_trans Hc1 Hc0)|done|]. intros s' Hw' Hm'. apply wp_ret.
      split_and!; try done. by rewrite Hm', Hm1.
  - destruct (_ <=? _) eqn:Hbig; tests.
    + apply wp_bind_flat. eapply wp_store; [done|done| | |].
      1: constructor; simpl; [done|unfold MAX_MESSAGE_SIZE; lia|done].
      1: unfold buffer_ok, MAX_MESSAGE_SIZE; simpl; rewrite length_copy_at; lia.
      simpl. rewrite take_copy_at_0. intros s1 m1 Hw1 Hm1 Hc1 Hp1 Ht1 Htr1.
      eapply wp_exit_comm; [done|exact (eq_trans Hc1 Hc0)|done|]. intros s' Hw' Hm'. apply wp_ret.
      split_and!; try done. by rewrite Hm', Hm1.
    + apply wp_bind, wp_ret, wp_bind. eapply wp_notify_received; [done|]. rewrite (Hidle eq_refl). simpl.
      eapply wp_exit_comm; [done|done|done|]. intros s' Hw' Hm'. apply wp_ret.
      split_and!; try done. rewrite Hm'. symmetry. apply insert_id. rewrite Hlk. simpl. by rewrite Hr.
Qed.

(** Operations that rewrite one state. *)
Section single.
Context (clk : Z) (s : CommManager) (m : Machine).
Hypothesis Hw : comm_wf s.

Lemma control_wp id c :
  wp (Comm_Manager_ControlCommunication id c) (conforms clk (OpControl id c) s m) s m.
Proof.
  unfold Comm_Manager_ControlCommunication, conforms, comm_spec, on_link. comm_enter Hw. rewrite <- Hm0.
  apply wp_bind, wp_find_state.
  destruct (comm_lookup s0 id Hw0) as [(i & ch & st & Hl & <- & -> & ->)|[-> ->]].
  2: { comm_exit. simpl. rewrite app_nil_r. by split_and!. }
  apply wp_bind. eapply wp_update; [done|done|destruct Hl as [_ _ _ [] _]; by constructor|apply Hl|].
  intros s1 Hw1 _ Hm1 _ _ _ _ Hc1. rewrite <- Hc1 in Hc0. apply wp_bind, wp_callback. comm_exit.
  split_and!; try done. by rewrite Hm', Hm1.
Qed.

Lemma fresh_ok st : state_ok (fresh_state st).
Proof using. constructor; simpl; unfold MAX_MESSAGE_SIZE; done || lia. Qed.

Lemma reset_wp id : wp (Comm_Manager_ResetChannel clk id) (conforms clk (OpReset id) s m) s m.
Proof.
  unfold Comm_Manager_ResetChannel, conforms, comm_spec, on_link. comm_enter Hw. rewrite <- Hm0.
  apply wp_bind, wp_find_state.
  destruct (comm_lookup s0 id Hw0) as [(i & ch & st & Hl & <- & -> & ->)|[-> ->]].
  2: { comm_exit. simpl. rewrite app_nil_r. by split_and!. }
  apply wp_bind. eapply wp_update; [done|done|apply fresh_ok|apply Hl|].
  intros s1 Hw1 _ Hm1 _ _ _ _ Hc1. rewrite <- Hc1 in Hc0.
  apply wp_bind, wp_clock. intros m1 Hp1 Ht1 Htr1. comm_exit.
  split_and!; try done. by rewrite Hm', Hm1.
Qed.

Lemma wakeup_wp id : wp (Comm_Manager_WakeupNetwork id) (conforms clk (OpWakeup id) s m) s m.
Proof.
  unfold Comm_Manager_WakeupNetwork, conforms, comm_spec, on_link. comm_enter Hw. rewrite <- Hm0.
  apply wp_bind, wp_find_state.
  destruct (comm_lookup s0 id Hw0) as [(i & ch & st & Hl & <- & -> & ->)|[-> ->]].
  2: { comm_exit. simpl. rewrite app_nil_r. by split_and!. }
  pose proof Hl as [_ _ _ [He Hx Hi] Hb].
  apply wp_bind. eapply wp_state_at; [apply Hl|]. rewrite He. cbn [negb].
  apply wp_bind. eapply wp_update; [done|done|by constructor|done|].
  intros s1 Hw1 _ Hm1 _ _ _ _ Hc1. rewrite <- Hc1 in Hc0. comm_exit. simpl. rewrite app_nil_r.
  split_and!; try done. by rewrite Hm', Hm1.
Qed.

Lemma sleep_wp id : wp (Comm_Manager_SleepNetwork id) (conforms clk (OpSleep id) s m) s m.
Proof.
  unfold Comm_Manager_SleepNetwork, conforms, comm_spec, on_link. comm_enter Hw. rewrite <- Hm0.
  apply wp_bind, wp_find_state.
  destruct (comm_lookup s0 id Hw0) as [(i & ch & st & Hl & <- & -> & ->)|[-> ->]].
  2: { comm_exit. simpl. rewrite app_nil_r. by split_and!. }
  pose proof Hl as [_ _ _ [He Hx Hi] Hb].
  apply wp_bind. eapply wp_state_at; [apply Hl|]. rewrite He. cbn [negb].
  apply wp_bind. eapply wp_update; [done|done|constructor; simpl; unfold MAX_MESSAGE_SIZE; done || lia|done|].
  intros s1 Hw1 _ Hm1 _ _ _ _ Hc1. rewrite <- Hc1 in Hc0. comm_exit. simpl. rewrite app_nil_r.
  split_and!; try done. by rewrite Hm', Hm1.
Qed.

Lemma remove_wp id : wp (Comm_Manager_RemoveChannel id) (conforms clk (OpRemoveChannel id) s m) s m.
Proof.
  unfold Comm_Manager_RemoveChannel, conforms, comm_spec, on_link. comm_enter Hw. rewrite <- Hm0.
  apply wp_bind, wp_find_channel.
  destruct (comm_lookup s0 id Hw0) as [(i & ch & st & Hl & Hid & Hk & ->)|[-> ->]].
  2: { comm_exit. simpl. rewrite app_nil_r. by split_and!. }
  rewrite Hk. pose proof Hw0 as []. pose proof (lv_index _ _ _ _ Hl) as Hi.
  apply wp_bind, wp_modify.
  match goal with |- wp _ _ ?x _ => set (s1 := x) end.
  destruct (tbl_remove id (channel_count s0) (zip (channels s0) (channel_states s0)) i) as [Hu Ht].
  { rewrite length_zip_same; lia. }
  { apply tbl_uniq_zip; [congruence|done]. }
  { rewrite find_key_zip; [done|congruence]. }
  rewrite zip_memmove_down in Hu, Ht by congruence.
  assert (Hw1 : comm_wf s1).
  { constructor; simpl; rewrite ?remove_record_memmove, ?length_memmove_down by lia; auto.
    - lia.
    - eapply tbl_uniq_zip, Hu. rewrite !length_memmove_down by lia. congruence.
    - by apply Forall_memmove_down.
    - rewrite take_memmove_down by lia. by apply Forall_delete. }
  assert (Hm1 : comm_map s1 = delete id (comm_map s0)).
  { unfold comm_map. simpl. by rewrite !remove_record_memmove, Ht, fmap_delete. }
  change (crit s0) with (crit s1) in Hc0. comm_exit. rewrite app_nil_r.
  split_and!; try done. by rewrite Hm', Hm1.
Qed.

(** A new channel behind the live ones. *)
Lemma comm_push s0 ch st :
  comm_wf s0 -> (channel_count s0 < MAX_CHANNELS)%nat ->
  find_key (channel_id ch) (channel_count s0) (channels s0) = None ->
  state_ok st -> buffer_ok st ->
  let s1 := s0 <| channels ::= <[channel_count s0 := ch]> |>
               <| channel_states ::= <[channel_count s0 := st]> |> <| channel_count ::= S |> in
  comm_wf s1 /\ comm_map s1 = <[channel_id ch := link_of (ch, st)]> (comm_map s0).
Proof using.
  intros [] Hlt Hk Hok Hb s1.
  destruct (tbl_push (channel_count s0) (zip (channels s0) (channel_states s0)) (ch, st)) as [Hu Ht].
  { rewrite length_zip_same; lia. }
  { apply tbl_uniq_zip; [congruence|done]. }
  { rewrite find_key_zip; [done|congruence]. }
  rewrite (insert_zip_with pair) in Hu, Ht. split.
  - constructor; simpl; rewrite ?length_insert; auto.
    + eapply tbl_uniq_zip, Hu. rewrite !length_insert. congruence.
    + by apply Forall_insert.
    + rewrite take_push by lia. apply Forall_app. split; [done|by apply Forall_singleton].
  - unfold comm_map. simpl. by rewrite Ht, fmap_insert.
Qed.

Lemma add_wp ch : wp (Comm_Manager_AddChannel clk (Some ch)) (conforms clk (OpAddChannel ch) s m) s m.
Proof.
  unfold Comm_Manager_AddChannel, conforms, comm_spec. comm_enter Hw. rewrite <- Hm0.
  rewrite (comm_size s0 Hw0), <- Hn0. apply wp_bind, wp_find_channel.
  destruct (comm_lookup s0 (channel_id ch) Hw0) as [(i & ch' & st & Hl & Hid & Hk & ->)|[Hk ->]].
  { rewrite Hk. simpl. comm_exit. rewrite app_nil_r. by split_and!. }
  rewrite Hk. simpl. destruct (_ <=? _)%nat eqn:Hfull; tests.
  { comm_exit. rewrite app_nil_r. by split_and!. }
  pose proof Hw0 as []. destruct (lookup_lt_is_Some_2 (channel_states s0) (channel_count s0)) as [st Hst]; [lia|].
  assert (Hb : buffer_ok st) by (by eapply Forall_lookup_1).
  destruct (comm_push s0 ch (fresh_state st)) as [Hw1 Hm1]; [done|done|done|apply fresh_ok|done|].
  apply wp_bind, wp_modify, wp_bind. unfold update_state. apply wp_bind.
  eapply wp_state_at; [exact Hst|]. apply wp_modify, wp_bind, wp_clock. intros m1 Hp1 Ht1 Htr1.
  apply wp_bind, wp_modify.
  match goal with |- wp _ _ ?x _ => set (s1 := x); change s1 with (s0 <| channels ::= <[channel_count s0 := ch]> |>
    <| channel_states ::= <[channel_count s0 := fresh_state st]> |> <| channel_count ::= S |>) end.
  apply wp_bind. eapply wp_exit_comm; [exact Hw1|exact Hc0|done|]. intros s' Hw' Hm'. apply wp_ret.
  split_and!; try done. by rewrite Hm', Hm1.
Qed.
End single.

(** ** Timeouts *)

Definition timer_late (t : Z) (tm : Timer) : bool :=
  running tm && (timeout tm <=? u32 (t - start_time tm)).
Definition link_late (t : Z) (l : Link) : bool :=
  match lk_rx l with Some (_, tm) => timer_late t tm | None => false end.
Definition link_expire (t : Z) (l : Link) : Link :=
  if link_late t l then l <| lk_error := COMM_ERROR_TIMEOUT |> <| lk_rx := None |> else l.

Definition end_reception (st : ChannelState) : ChannelState :=
  st <| last_error := COMM_ERROR_TIMEOUT |> <| reception_in_progress := false |>
     <| rx_buffer_index := 0 |>.
Definition expire_state (t : Z) (st : ChannelState) : ChannelState :=
  if reception_in_progress st && timer_late t (rx_timer st) then end_reception st else st.

Lemma link_late_state t ch st :
  link_late t (link_of (ch, st)) = reception_in_progress st && timer_late t (rx_timer st).
Proof. unfold link_late, link_of. simpl. by destruct (reception_in_progress st). Qed.
Lemma link_expire_state t ch st :
  link_of (ch, expire_state t st) = link_expire t (link_of (ch, st)).
Proof.
  unfold link_expire. rewrite link_late_state. unfold expire_state.
  by destruct (reception_in_progress st) eqn:E, (timer_late t (rx_timer st)); simpl; rewrite ?E.
Qed.

(** The error callbacks of a scan over a part of the table. *)
Definition timeout_calls (cfg : CommManagerConfig) (t : Z) (l : list (CommChannelConfig * ChannelState))
  : list Call :=
  if comm_error_callback cfg
  then (fun p => call "error_callback" [channel_id p.1; COMM_ERROR_TIMEOUT]) <$>
         filter (fun p => link_late t (link_of p) = true) l
  else [].
Lemma timeout_calls_cons cfg t p l :
  timeout_calls cfg t (p :: l) =
  (if link_late t (link_of p) then
     if comm_error_callback cfg then [call "error_callback" [channel_id p.1; COMM_ERROR_TIMEOUT]] else []
   else []) ++ timeout_calls cfg t l.
Proof.
  unfold timeout_calls. destruct (comm_error_callback cfg); [|by destruct (link_late _ _)].
  rewrite filter_cons. by destruct (link_late t (link_of p)).
Qed.

(** Fields a scan over the states leaves alone. *)
Definition comm_frame (s s' : CommManager) : Prop :=
  channels s' = channels s /\ channel_count s' = channel_count s /\
  comm_config s' = comm_config s /\ crit s' = crit s.

Lemma wp_timer_late st (Q : bool -> CommManager -> Machine -> Prop) s m :
  (forall tc, Q (reception_in_progress st && timer_late (system_ticks m) (rx_timer st)) s
     (m <| timer_critical := tc |>)) ->
  wp (if reception_in_progress st then on_machine (timer_expired (rx_timer st)) else mret false) Q s m.
Proof.
  intros HQ. destruct (reception_in_progress st); simpl in HQ.
  - unfold wp, on_machine. rewrite timer_expired_spec. unfold timer_late in HQ.
    destruct (running (rx_timer st)); [apply HQ|]. specialize (HQ (timer_critical m)). by destruct m.
  - apply wp_ret. specialize (HQ (timer_critical m)). by destruct m.
Qed.

Lemma timeout_scan_wp k i s m :
  comm_wf s -> (i + k)%nat = channel_count s ->
  wp (timeout_scan k i) (fun _ s' m' =>
    comm_wf s' /\ comm_frame s s' /\ primask m' = primask m /\ system_ticks m' = system_ticks m /\
    take (channel_count s) (channel_states s') =
      take i (channel_states s) ++ (expire_state (system_ticks m) <$> take k (drop i (channel_states s))) /\
    trace m' = trace m ++ timeout_calls (comm_config s) (system_ticks m)
      (take k (drop i (zip (channels s) (channel_states s))))) s m.
Proof.
  revert i s m. induction k as [|k IH]; intros i s m Hw Hk; cbn [timeout_scan].
  { apply wp_ret. split_and!; try done; simpl.
    - rewrite app_nil_r. f_equal. lia.
    - unfold timeout_calls. by destruct (comm_error_callback _); rewrite app_nil_r. }
  destruct (live_at s i Hw) as (ch & st & Hl); [lia|]. pose proof Hl as [Hc Hs Hi Hok Hb].
  apply wp_bind. eapply wp_state_at; [done|]. apply wp_bind. eapply wp_channel_at; [done|].
  apply wp_bind, wp_timer_late. intros tc.
  rewrite (drop_S _ st i Hs), (drop_S _ (ch, st) i) by (by apply zip_lookup). simpl take.
  rewrite timeout_calls_cons, link_late_state. rewrite fmap_cons.
  change (expire_state (system_ticks m) st) with
    (if reception_in_progress st && timer_late (system_ticks m) (rx_timer st) then end_reception st else st).
  destruct (_ && _) eqn:Hlate; simpl.
  - apply wp_bind_flat, wp_bind. eapply (wp_update _ _ Hw i ch st); [done|destruct Hok; constructor; simpl; unfold MAX_MESSAGE_SIZE; done || lia|done|].
    intros s1 Hw1 _ _ Hch1 Hst1 Hn1 Hcf1 Hc1. apply wp_bind_flat, wp_bind, wp_get, wp_bind, wp_callback.
    eapply wp_mono; [apply IH; [done|lia]|].
    intros [] s' m' (Hw' & (Hch' & Hn' & Hcf' & Hc') & Hp' & Ht' & Hst' & Htr').
    split_and!; try done; [split_and!; congruence| |].
    + rewrite Hn1, Hst1, drop_insert_lt in Hst' by lia. rewrite Hst'.
      rewrite (take_S_r _ i (end_reception st)) by (apply list_lookup_insert_eq; by eapply lookup_lt_Some).
      rewrite take_insert_ge by lia. by rewrite <- app_assoc.
    + rewrite Htr', Hch1, Hst1, Hcf1. simpl. rewrite <- app_assoc. do 3 f_equal.
      rewrite (zip_insert_r _ _ _ ch) by done. by rewrite drop_insert_lt by lia.
  - apply wp_bind, wp_ret. eapply wp_mono; [apply IH; [done|lia]|].
    intros [] s' m' (Hw' & Hf' & Hp' & Ht' & Hst' & Htr'). split_and!; try done. rewrite Hst'.
    rewrite (take_S_r _ i st Hs), <- app_assoc. done.
Qed.

Lemma expire_links t a b :
  prod_map id link_of <$> ((fun x => (key x, x)) <$> zip a (expire_state t <$> b)) =
  prod_map id (link_expire t) <$> (prod_map id link_of <$> ((fun x => (key x, x)) <$> zip a b)).
Proof.
  revert b. induction a as [|ch a IH]; intros [|st b]; try done.
  exact (f_equal2 cons (f_equal (pair _) (link_expire_state _ ch st)) (IH b)).
Qed.

Lemma process_timeout_comm s m :
  comm_wf s ->
  wp Comm_Manager_ProcessTimeout (fun _ s' m' =>
    comm_wf s' /\ comm_map s' = link_expire (system_ticks m) <$> comm_map s /\
    primask m' = primask m /\ system_ticks m' = system_ticks m /\
    trace m' = trace m ++ timeout_calls (comm_config s) (system_ticks m)
      (take (channel_count s) (zip (channels s) (channel_states s)))) s m.
Proof.
  intros Hw. unfold Comm_Manager_ProcessTimeout. apply wp_bind, wp_get.
  rewrite (cw_initialized _ Hw). cbn [negb]. apply wp_bind, wp_enter.
  set (s0 := set_crit _ s). assert (Hw0 : comm_wf s0) by (by apply comm_wf_crit).
  apply wp_bind. eapply wp_mono; [by apply (timeout_scan_wp _ 0 s0)|].
  intros [] s1 m1 (Hw1 & (Hch1 & Hn1 & Hcf1 & Hc1) & Hp1 & Ht1 & Hst1 & Htr1).
  eapply wp_exit_comm; [done|exact Hc1|done|]. intros s' Hw' Hm'. split_and!; try done.
  rewrite Hm'. change (comm_map s) with (comm_map s0). unfold comm_map, tbl.
  rewrite <- !list_to_map_fmap. f_equal. rewrite Hn1, Hch1.
  rewrite !zip_with_take, Hst1. simpl. rewrite drop_0. change (channel_count s) with (channel_count s0).
  apply expire_links.
Qed.

(** ** Initialisation *)

Definition comm_shape (s : CommManager) : Prop :=
  length (channels s) = MAX_CHANNELS /\ length (channel_states s) = MAX_CHANNELS /\
  Forall buffer_ok (channel_states s).

Lemma init_states_wp clk k i s m :
  (i + k <= length (channel_states s))%nat ->
  wp (init_states clk k i) (fun _ s' m' =>
    s' = s <| channel_states ::= fun l =>
           take i l ++ (fresh_state <$> take k (drop i l)) ++ drop (i + k) l |> /\
    primask m' = primask m) s m.
Proof.
  revert i s m. induction k as [|k IH]; intros i s m Hk; cbn [init_states].
  { apply wp_ret. split; [|done]. destruct s as [? ? l ? ? ?]. unfold setf. simpl. f_equal.
    by rewrite Nat.add_0_r, take_drop. }
  destruct (lookup_lt_is_Some_2 (channel_states s) i) as [st Hs]; [lia|].
  apply wp_bind. unfold update_state. apply wp_bind. eapply wp_state_at; [done|].
  apply wp_modify, wp_bind, wp_clock. intros m1 Hp1 _ _.
  eapply wp_mono; [apply IH; simpl; rewrite length_insert; lia|].
  intros [] s' m' [-> Hp']. split; [|congruence].
  destruct s as [? ? l ? ? ?]. unfold setf. simpl in *. f_equal.
  rewrite (drop_S l st i Hs). simpl.
  rewrite (take_S_r _ i (fresh_state st)) by (apply list_lookup_insert_eq; by eapply lookup_lt_Some).
  rewrite take_insert_ge, !drop_insert_lt by lia. rewrite <- app_assoc. simpl.
  by rewrite Nat.add_succ_r.
Qed.

Lemma comm_init_wp clk cfg cs s m :
  let n := Nat.min (cfg_channel_count cfg) MAX_CHANNELS in
  comm_shape s -> cfg_channels cfg = Some cs -> (0 < cfg_channel_count cfg)%nat ->
  (n <= length cs)%nat -> NoDup (channel_id <$> take n cs) ->
  wp (Comm_Manager_Init clk (Some cfg)) (fun b s' m' =>
    b = true /\ comm_wf s' /\ primask m' = true /\ comm_config s' = cfg /\
    comm_map s' = list_to_map ((fun ch => (channel_id ch, idle_link ch)) <$> take n cs)) s m.
Proof.
  intros n (Hlc & Hls & Hb) Hcs Hpos Hn Hnd. unfold Comm_Manager_Init.
  apply wp_bind, wp_enter, wp_bind, wp_modify. rewrite Hcs, (proj2 (Nat.ltb_lt _ _) Hpos).
  replace (if (cfg_channel_count cfg <=? MAX_CHANNELS)%nat then cfg_channel_count cfg else MAX_CHANNELS) with n
    by (unfold n; destruct (_ <=? _)%nat eqn:E; tests; lia).
  cbv zeta. rewrite (proj2 (Nat.ltb_ge _ _) Hn).
  assert (Hn8 : (n <= MAX_CHANNELS)%nat) by lia.
  apply wp_bind_flat, wp_bind, wp_modify, wp_bind_flat, wp_bind.
  eapply wp_mono; [apply init_states_wp; simpl; lia|]. intros [] s1 m1 [-> Hp1]. simpl in Hp1.
  apply wp_bind, wp_modify, wp_bind, wp_modify, wp_bind, wp_modify, wp_bind.
  apply wp_exit_unlocked; [done|]. apply wp_ret.
  assert (Htake : take n (take n cs ++ drop n (channels s)) = take n cs)
    by (rewrite take_app_length'; [done|rewrite length_take; lia]).
  assert (Hst : take n ((fresh_state <$> take n (channel_states s)) ++ drop n (channel_states s)) =
    fresh_state <$> take n (channel_states s))
    by (rewrite take_app_length'; [done|rewrite length_fmap, length_take; lia]).
  split_and!; try done.
  - constructor; simpl; rewrite ?drop_0; auto.
    + autorewrite with cant_len. lia.
    + autorewrite with cant_len. lia.
    + unfold tbl_uniq. by rewrite Htake.
    + apply Forall_app. split; [|by apply Forall_drop]. apply Forall_fmap, Forall_take.
      eapply Forall_impl; [done|]. by intros st.
    + rewrite Hst. apply Forall_fmap, Forall_forall. intros st _. apply fresh_ok.
  - unfold comm_map, tbl. simpl. rewrite drop_0, <- list_to_map_fmap. f_equal.
    rewrite zip_with_take, Htake, Hst.
    assert (Hle : (length (take n cs) <= length (take n (channel_states s)))%nat)
      by (rewrite !length_take; lia). revert Hle.
    generalize (take n (channel_states s)) as b. generalize (take n cs) as a. clear.
    induction a as [|ch a IH]; intros [|st b] Hle; simpl in Hle; try done; try lia.
    simpl. f_equal. apply IH. lia.
Qed.

(** ** Queries *)

Lemma read_state_wp {A} id (unknown : A) f g s m :
  comm_wf s -> (forall ch st, state_ok st -> f st = g (link_of (ch, st))) ->
  wp (read_state id unknown f) (fun a s' m' =>
    a = default unknown (g <$> comm_map s !! id) /\ comm_wf s' /\ comm_map s' = comm_map s /\
    m' = m) s m.
Proof.
  intros Hw Hfg. unfold read_state. comm_enter Hw. rewrite <- Hm0. apply wp_bind, wp_find_state, wp_bind.
  assert (Hm : m <| primask := true |> <| primask := primask m |> = m) by (by destruct m).
  destruct (comm_lookup s0 id Hw0) as [(i & ch & st & Hl & <- & -> & ->)|[-> ->]].
  - apply wp_bind. eapply wp_state_at; [apply Hl|]. apply wp_ret. comm_exit. rewrite Hm.
    split_and!; try done. apply Hfg, Hl.
  - apply wp_ret. comm_exit. by rewrite Hm.
Qed.

Lemma size_filter_list_to_map {A} (P : A -> bool) (l : list (Z * A)) :
  NoDup l.*1 ->
  size (filter (fun kv => P kv.2 = true) (list_to_map l : gmap Z A)) =
  length (filter (fun kv => P kv.2 = true) l).
Proof.
  induction l as [|[k x] l IH]; [done|]. simpl. intros [Hk Hl]%NoDup_cons.
  assert (Hn : (list_to_map l : gmap Z A) !! k = None) by (by apply not_elem_of_list_to_map).
  rewrite filter_cons, map_filter_insert. simpl. destruct (decide (P x = true)); simpl.
  - rewrite map_size_insert_None, IH; [done|done|]. by apply map_lookup_filter_None; left.
  - rewrite delete_id by done. by apply IH.
Qed.

Lemma count_active_wp k i n s m :
  (i + k <= length (channel_states s))%nat -> 0 <= n -> n + Z.of_nat k < 2 ^ 32 ->
  wp (count_active k i n) (fun r s' m' =>
    r = n + Z.of_nat (length (filter (fun st => enabled st && network_active st = true)
                       (take k (drop i (channel_states s))))) /\ s' = s /\ m' = m) s m.
Proof.
  revert i n. induction k as [|k IH]; intros i n Hk Hn Hb; cbn [count_active].
  { apply wp_ret. split_and!; try done. simpl. lia. }
  destruct (lookup_lt_is_Some_2 (channel_states s) i) as [st Hs]; [lia|].
  apply wp_bind. eapply wp_state_at; [done|]. rewrite (drop_S _ st i Hs). simpl take.
  rewrite filter_cons. destruct (decide (enabled st && network_active st = true)) as [E|E].
  - rewrite E, u32_small by (unfold is_u32; lia).
    eapply wp_mono; [apply IH; lia|]. intros r s' m' (-> & -> & ->). split_and!; try done. simpl. lia.
  - apply not_true_is_false in E. rewrite E.
    eapply wp_mono; [apply IH; lia|]. intros r s' m' (-> & -> & ->). by split_and!.
Qed.

Lemma active_links s :
  comm_wf s ->
  length (filter (fun st => enabled st && network_active st = true)
            (take (channel_count s) (channel_states s))) =
  size (filter (fun kl => lk_active kl.2 = true) (comm_map s)).
Proof.
  intros Hw. pose proof Hw as []. unfold comm_map, tbl. rewrite <- list_to_map_fmap, size_filter_list_to_map.
  2: { rewrite <- !list_fmap_compose. change (NoDup (key <$> take (channel_count s) (zip (channels s) (channel_states s)))).
       rewrite zip_keys by congruence. done. }
  rewrite zip_with_take.
  assert (Hl : length (take (channel_count s) (channels s)) = length (take (channel_count s) (channel_states s)))
    by (rewrite !length_take; lia).
  revert Hl cw_ok0. generalize (take (channel_count s) (channels s)) as a.
  generalize (take (channel_count s) (channel_states s)) as b. clear. intros b a. revert a.
  induction b as [|st b IH]; intros [|ch a] Hl Hok; try done. simpl in Hl.
  apply Forall_cons in Hok as [[He _ _] Hok]. simpl zip_with. rewrite !fmap_cons, !filter_cons. simpl.
  rewrite He. simpl. destruct (decide (network_active st = true)); simpl; rewrite (IH a) by (done || lia); done.
Qed.

(** What the getters answer, in terms of the links. *)
Lemma comm_queries s m :
  comm_wf s ->
  (forall id, wp (Comm_Manager_IsChannelEnabled id) (fun b _ m' =>
     b = bool_decide (is_Some (comm_map s !! id)) /\ m' = m) s m) /\
  (forall id, wp (Comm_Manager_GetChannelState id) (fun c _ m' =>
     c = default COMM_CONTROL_DISABLE_RX_TX (lk_control <$> comm_map s !! id) /\ m' = m) s m) /\
  (forall id, wp (Comm_Manager_GetLastError id) (fun e _ m' =>
     e = default COMM_ERROR_INVALID_STATE (lk_error <$> comm_map s !! id) /\ m' = m) s m) /\
  (forall id, wp (Comm_Manager_IsNetworkActive id) (fun b _ m' =>
     b = default false (lk_active <$> comm_map s !! id) /\ m' = m) s m) /\
  wp Comm_Manager_GetActiveChannels (fun n _ m' =>
     n = Z.of_nat (size (filter (fun kl => lk_active kl.2 = true) (comm_map s))) /\ m' = m) s m.
Proof.
  intros Hw. split_and!.
  - intros id. eapply wp_mono; [apply (read_state_wp id false enabled (fun _ => true)); [done|]|].
    + intros ch st []. done.
    + intros b s' m' (-> & _ & _ & ->). by destruct (comm_map s !! id).
  - intros id. eapply wp_mono; [by apply (read_state_wp id _ control_state lk_control)|]. naive_solver.
  - intros id. eapply wp_mono; [by apply (read_state_wp id _ last_error lk_error)|]. naive_solver.
  - intros id. eapply wp_mono; [by apply (read_state_wp id _ network_active lk_active)|]. naive_solver.
  - unfold Comm_Manager_GetActiveChannels. comm_enter Hw. rewrite <- Hn0. apply wp_bind.
    pose proof Hw0 as []. unfold MAX_CHANNELS in *. eapply wp_mono; [apply count_active_wp; lia|].
    intros n s1 m1 (-> & -> & ->). comm_exit. split; [|by destruct m].
    rewrite drop_0, active_links, Hm0 by done. lia.
Qed.

(** ** Fragments over time *)

(** [ev.1] ticks pass, the timeouts are polled, the fragment [ev.2] arrives. *)
Definition fragment (id : Z) (ev : nat * list Z) : M CommManager unit :=
  on_machine (fun m => (tt, Nat.iter ev.1 SysTick_Handler m));;
  Comm_Manager_ProcessTimeout;;
  Comm_Manager_ProcessReceived id (Some ev.2).
Fixpoint fragments (id : Z) (evs : list (nat * list Z)) : M CommManager unit :=
  match evs with
  | [] => mret tt
  | ev :: evs => fragment id ev;; fragments id evs
  end.

(** The link while [bytes] have been received, the last of them at [t]. *)
Definition receiving (l : Link) (bytes : list Z) (t : Z) : Link :=
  l <| lk_rx := if decide (bytes = []) then None
                else Some (bytes, mkTimer t (chan_timeout_ms (lk_channel l)) true) |>.

Lemma receive_conforms id data s m :
  comm_wf s -> wp (Comm_Manager_ProcessReceived id (Some data)) (fun _ s' m' =>
    conforms 0 (OpReceive id data) s m true s' m') s m.
Proof.
  intros Hw. pose proof (receive_wp 0 id data s m Hw) as H. unfold wp, comm_exec, mbind, M_bind in H.
  unfold wp. by destruct (Comm_Manager_ProcessReceived id (Some data) s m) as [[[[] s'] m']|].
Qed.

Lemma ticks_trace n m : trace (Nat.iter n SysTick_Handler m) = trace m.
Proof. induction n as [|n IH]; [done|]. rewrite Nat.iter_succ, SysTick_Handler_spec. exact IH. Qed.

Lemma fragment_wp id n data bytes l s m :
  comm_wf s -> is_u32 (system_ticks m) ->
  comm_map s !! id = Some (receiving l bytes (system_ticks m)) ->
  may_receive l = true -> receive_callback (lk_channel l) = true ->
  is_u32 (chan_timeout_ms (lk_channel l)) -> Z.of_nat n < chan_timeout_ms (lk_channel l) ->
  data <> [] -> Z.of_nat (length (bytes ++ data)) <= MAX_MESSAGE_SIZE ->
  wp (fragment id (n, data)) (fun _ s' m' =>
    comm_wf s' /\ is_u32 (system_ticks m') /\
    comm_map s' !! id = Some (receiving l (bytes ++ data) (system_ticks m')) /\
    last (trace m') = Some (call "receive_callback" (id :: bytes ++ data))) s m.
Proof.
  intros Hw Ht Hl Hmay Hcb Hto Hn Hd Hlen. unfold fragment. simpl fst; simpl snd.
  apply wp_bind. unfold wp at 1, on_machine. set (m1 := Nat.iter n SysTick_Handler m).
  assert (Ht1 : system_ticks m1 = u32 (system_ticks m + Z.of_nat n)) by (by apply ticks_after).
  unfold is_u32 in Hto.
  apply wp_bind. eapply wp_mono; [by apply process_timeout_comm|].
  intros [] s2 m2 (Hw2 & Hm2 & _ & Ht2 & _).
  assert (Hl2 : comm_map s2 !! id = Some (receiving l bytes (system_ticks m))).
  { rewrite Hm2, lookup_fmap, Hl. simpl. f_equal. unfold link_expire, link_late, receiving. simpl.
    destruct (decide (bytes = [])) as [->|Hb]; [done|]. unfold timer_late. simpl.
    rewrite Ht1, u32_elapsed by lia. by rewrite (proj2 (Z.leb_gt _ _)) by lia. }
  eapply wp_mono; [by apply receive_conforms|]. intros [] s3 m3. unfold conforms, comm_spec.
  rewrite decide_False, Hl2 by done. unfold link_receive.
  change (may_receive (receiving l bytes (system_ticks m))) with (may_receive l).
  rewrite Hmay. simpl. rewrite length_app in Hlen.
  destruct (decide (bytes = [])) as [->|Hb]; simpl in *.
  - rewrite (proj2 (Z.leb_le _ _) Hlen), Hcb. intros (Hw3 & _ & -> & Htr & _ & Ht3).
    split_and!; [done|rewrite Ht3, Ht2, Ht1; apply u32_range| |by rewrite Htr, last_snoc].
    rewrite lookup_insert_eq, Ht3. unfold receiving. by rewrite decide_False.
  - rewrite (proj2 (Z.ltb_ge _ _) Hlen), Hcb. intros (Hw3 & _ & -> & Htr & _ & Ht3).
    split_and!; [done|rewrite Ht3, Ht2, Ht1; apply u32_range| |by rewrite Htr, last_snoc].
    rewrite lookup_insert_eq, Ht3. unfold receiving. rewrite decide_False; [done|].
    by intros [? ?]%app_eq_nil.
Qed.

Lemma fragments_wp id evs bytes l s m :
  comm_wf s -> is_u32 (system_ticks m) ->
  comm_map s !! id = Some (receiving l bytes (system_ticks m)) ->
  may_receive l = true -> receive_callback (lk_channel l) = true ->
  is_u32 (chan_timeout_ms (lk_channel l)) ->
  Forall (fun ev => Z.of_nat ev.1 < chan_timeout_ms (lk_channel l) /\ ev.2 <> []) evs ->
  Z.of_nat (length (bytes ++ mjoin evs.*2)) <= MAX_MESSAGE_SIZE ->
  wp (fragments id evs) (fun _ s' m' =>
    comm_wf s' /\
    comm_map s' !! id = Some (receiving l (bytes ++ mjoin evs.*2) (system_ticks m')) /\
    (evs <> [] -> last (trace m') = Some (call "receive_callback" (id :: bytes ++ mjoin evs.*2)))) s m.
Proof.
  revert bytes s m. induction evs as [|[n data] evs IH]; intros bytes s m Hw Ht Hl Hmay Hcb Hto Hev Hlen;
    cbn [fragments].
  { apply wp_ret. simpl. rewrite app_nil_r. by split_and!. }
  apply Forall_cons in Hev as [[Hn Hd] Hev]. simpl in *. rewrite app_assoc in *.
  apply wp_bind. eapply wp_mono; [apply (fragment_wp id n data bytes l); try done|].
  { rewrite length_app in Hlen. lia. }
  intros [] s1 m1 (Hw1 & Ht1 & Hl1 & Hlast).
  destruct evs as [|ev evs].
  - apply wp_ret. simpl. rewrite app_nil_r. by split_and!.
  - eapply wp_mono; [by apply IH|]. intros [] s' m' (Hw' & Hl' & Hlast'). split_and!; [done|done|].
    intros _. by apply Hlast'.
Qed.

(** ** Runs *)

Fixpoint comm_run (clk : Z) (ops : list CommOp) : M CommManager unit :=
  match ops with
  | [] => mret tt
  | op :: ops => comm_exec clk op;; comm_run clk ops
  end.

Lemma comm_exec_conforms clk op s m :
  comm_wf s -> wp (comm_exec clk op) (conforms clk op s m) s m.
Proof.
  intros Hw. destruct op; [by apply transmit_wp|by apply receive_wp|by apply control_wp|by apply add_wp
    |by apply remove_wp|by apply reset_wp|by apply wakeup_wp|by apply sleep_wp].
Qed.

(** The channel is unknown or its network is not awake. *)
Definition asleep (id : Z) (cm : gmap Z Link) : Prop :=
  forall l, cm !! id = Some l -> lk_active l = false.
(** Traffic of a channel. *)
Definition traffic (id : Z) (c : Call) : Prop :=
  exists data, c = call "transmit" (id :: data) \/ c = call "receive_callback" (id :: data).

Lemma asleep_insert id k l cm : asleep id cm -> (k = id -> lk_active l = false) -> asleep id (<[k := l]> cm).
Proof.
  intros Ha Hl l'. destruct (decide (k = id)) as [->|Hne].
  - rewrite lookup_insert_eq. intros [= <-]. auto.
  - rewrite lookup_insert_ne by done. apply Ha.
Qed.

Lemma spec_asleep clk op cfg cm m id :
  asleep id cm -> op <> OpWakeup id ->
  let '(_, cm', calls) := comm_spec clk op cfg cm m in
  asleep id cm' /\ Forall (fun c => ~ traffic id c) calls.
Proof.
  intros Ha Hop.
  assert (Hk : forall k l, cm !! k = Some l -> k = id -> lk_active l = false) by (intros ? ? ? ->; eauto).
  assert (Hclk : Forall (fun c => ~ traffic id c) (clock_calls clk m)).
  { unfold clock_calls. destruct (timer_initialized m); repeat constructor.
    intros (d & [?|?]); discriminate. }
  destruct op as [k data|k data|k c|ch|k|k|k|k]; simpl; unfold on_link.
  - destruct (decide _); [done|]. destruct (cm !! k) as [l|] eqn:E; [|done]. unfold transmit_spec, may_transmit.
    destruct (lk_active l) eqn:Hact; simpl.
    + assert (k <> id) by (intros ->; rewrite (Ha l E) in Hact; done).
      destruct (bool_decide _); simpl; [|split; [by apply asleep_insert|constructor]].
      destruct (transmit (lk_channel l)) as [f|]; [|done].
      split; [destruct (f _ _); [done|by apply asleep_insert]|].
      repeat constructor. intros (d & [?|?]); simplify_eq.
    + split; [by apply asleep_insert|constructor].
  - destruct (decide _); [done|]. destruct (cm !! k) as [l|] eqn:E; [|done].
    unfold link_receive, may_receive. destruct (lk_active l) eqn:Hact; simpl.
    + assert (k <> id) by (intros ->; rewrite (Ha l E) in Hact; done).
      assert (Hcalls : forall bytes, Forall (fun c => ~ traffic id c)
        (if receive_callback (lk_channel l) then [call "receive_callback" (k :: bytes)] else [])).
      { intros bytes. destruct (receive_callback _); repeat constructor. intros (d & [?|?]); simplify_eq. }
      destruct (bool_decide _); simpl; [|split; [by apply asleep_insert|constructor]].
      destruct (lk_rx l) as [[rx tm]|]; [destruct (_ <? _)|destruct (_ <=? _)];
        (split; [by apply asleep_insert|(apply Hcalls || constructor)]).
    + split; [by apply asleep_insert|constructor].
  - destruct (cm !! k) as [l|] eqn:E; [|done]. split; [apply asleep_insert; simpl; eauto|].
    destruct (state_change_callback cfg); repeat constructor. intros (d & [?|?]); discriminate.
  - destruct (_ || _); [done|]. split; [by apply asleep_insert|done].
  - destruct (cm !! k); [|done]. split; [|constructor]. intros l' [_ Hl']%lookup_delete_Some. eauto.
  - destruct (cm !! k); [|done]. split; [by apply asleep_insert|done].
  - destruct (cm !! k); [|done]. split; [|constructor]. apply asleep_insert; [done|]. intros ->. done.
  - destruct (cm !! k); [|done]. split; [by apply asleep_insert|constructor].
Qed.

(** Two CAN channels, the first awake. *)
Definition example_channel (id : Z) : CommChannelConfig :=
  mkChannel COMM_CHANNEL_CAN id 0x7E0 0x7E8 500000 8 10 100 (Some (fun _ _ => true)) true.
Definition example_comm : CommManager :=
  mkCommManager (mkCommConfig None 0 true true)
    ([example_channel 1; example_channel 2] ++ replicate 6 channel_zero)
    ([(fresh_state channel_state_zero) <| network_active := true |>; fresh_state channel_state_zero] ++
     replicate 6 channel_state_zero) 2 true cs_zero.
Definition awake_link : Link := (idle_link (example_channel 1)) <| lk_active := true |>.

Lemma zero_buffer : buffer_ok channel_state_zero.
Proof. exact (length_replicate (Z.to_nat MAX_MESSAGE_SIZE) 0). Qed.
Lemma example_comm_wf : comm_wf example_comm.
Proof.
  constructor; try done.
  - simpl. unfold MAX_CHANNELS. lia.
  - apply (bool_decide_unpack _). by vm_compute.
  - repeat (constructor; [exact zero_buffer|]). constructor.
  - constructor; [|constructor; [apply fresh_ok|constructor]].
    constructor; simpl; unfold MAX_MESSAGE_SIZE; done || lia.
Qed.
Lemma example_comm_map :
  comm_map example_comm = {[1 := awake_link; 2 := idle_link (example_channel 2)]}.
Proof. by apply map_eq; intros k; vm_compute. Qed.

(** ** Properties *)

(** C12. The two arrays of the communication manager implement a finite map
    from channel identifiers to links: transmitting, receiving, controlling,
    adding, removing, resetting, waking and sleeping a channel return the
    specified answer, change exactly the specified link, make exactly the
    specified calls, keep the tables well formed and restore the interrupt
    mask. *)
Theorem comm_refines_links clk op s m :
  comm_wf s ->
  wp (comm_exec clk op) (fun b s' m' =>
    let '(answer, cm, calls) := comm_spec clk op (comm_config s) (comm_map s) m in
    comm_wf s' /\ b = answer /\ comm_map s' = cm /\ trace m' = trace m ++ calls /\
    primask m' = primask m /\ system_ticks m' = system_ticks m) s m.
Proof. intros Hw. exact (comm_exec_conforms clk op s m Hw). Qed.

(** Witness of [comm_refines_links]: a transmission on the awake channel. *)
Lemma comm_refines_links_witness :
  comm_wf example_comm /\
  wp (comm_exec 0 (OpTransmit 1 [0x3E; 0x00])) (fun b s' m' =>
    let '(answer, cm, calls) := comm_spec 0 (OpTransmit 1 [0x3E; 0x00]) (comm_config example_comm)
      (comm_map example_comm) boot in
    comm_wf s' /\ b = answer /\ comm_map s' = cm /\ trace m' = trace boot ++ calls /\
    primask m' = primask boot /\ system_ticks m' = system_ticks boot) example_comm boot.
Proof.
  split; [exact example_comm_wf|].
  exact (comm_refines_links 0 (OpTransmit 1 [0x3E; 0x00]) example_comm boot example_comm_wf).
Defined.

(** C31. Fragments that arrive on an awake channel less than its timeout
    apart, with the timeouts polled before each of them, are reassembled: as
    long as they fit into the 4096-byte buffer the receiver is handed the
    concatenation of all of them, across the wrap-around of the clock too. *)
Theorem fragments_reassembled id evs l s m :
  comm_wf s -> is_u32 (system_ticks m) -> comm_map s !! id = Some l ->
  may_receive l = true -> lk_rx l = None -> receive_callback (lk_channel l) = true ->
  is_u32 (chan_timeout_ms (lk_channel l)) -> evs <> [] ->
  Forall (fun ev => Z.of_nat ev.1 < chan_timeout_ms (lk_channel l) /\ ev.2 <> []) evs ->
  Z.of_nat (length (mjoin evs.*2)) <= MAX_MESSAGE_SIZE ->
  wp (fragments id evs) (fun _ s' m' =>
    comm_wf s' /\ comm_map s' !! id = Some (receiving l (mjoin evs.*2) (system_ticks m')) /\
    last (trace m') = Some (call "receive_callback" (id :: mjoin evs.*2))) s m.
Proof.
  intros Hw Ht Hl Hmay Hrx Hcb Hto Hne Hev Hlen.
  eapply wp_mono; [apply (fragments_wp id evs [] l); try done|].
  - rewrite Hl. f_equal. destruct l; simpl in *. by subst.
  - intros [] s' m' (Hw' & Hl' & Hlast). auto.
Qed.

(** Witness of [fragments_reassembled]: three fragments 99 ms apart. *)
Lemma fragments_reassembled_witness :
  wp (fragments 1 [(99%nat, [0x62; 0xF1]); (99%nat, [0x90]); (99%nat, [0x57; 0x56])]) (fun _ s' m' =>
    comm_wf s' /\
    comm_map s' !! 1 = Some (receiving awake_link [0x62; 0xF1; 0x90; 0x57; 0x56] (system_ticks m')) /\
    last (trace m') = Some (call "receive_callback" [1; 0x62; 0xF1; 0x90; 0x57; 0x56])) example_comm boot.
Proof.
  apply (fragments_reassembled 1 [(99%nat, [0x62; 0xF1]); (99%nat, [0x90]); (99%nat, [0x57; 0x56])]
    awake_link example_comm boot); try reflexivity; try discriminate.
  - exact example_comm_wf.
  - vm_compute; split; congruence.
  - vm_compute; split; congruence.
  - repeat (constructor; [split; [reflexivity|discriminate]|]). constructor.
Defined.

(**  [Comm_Manager_ProcessTimeout] ends exactly the receptions whose timer
    has run out, recording the timeout in the link; every other link is as it
    was, and the error callback is called once for each ended reception, in
    table order. *)
Theorem comm_timeout_exact s m :
  comm_wf s ->
  wp Comm_Manager_ProcessTimeout (fun _ s' m' =>
    comm_wf s' /\ comm_map s' = link_expire (system_ticks m) <$> comm_map s /\
    primask m' = primask m /\
    trace m' = trace m ++ timeout_calls (comm_config s) (system_ticks m)
      (take (channel_count s) (zip (channels s) (channel_states s)))) s m.
Proof. intros Hw. eapply wp_mono; [by apply process_timeout_comm|]. naive_solver. Qed.

(** Witness of [comm_timeout_exact]. *)
Lemma comm_timeout_exact_witness :
  comm_wf example_comm /\
  wp Comm_Manager_ProcessTimeout (fun _ s' m' =>
    comm_wf s' /\ comm_map s' = link_expire 0 <$> comm_map example_comm /\ primask m' = false /\
    trace m' = [] ++ timeout_calls (comm_config example_comm) 0
      (take 2 (zip (channels example_comm) (channel_states example_comm)))) example_comm boot.
Proof. split; [exact example_comm_wf|]. exact (comm_timeout_exact example_comm boot example_comm_wf). Defined.

(**  Initialisation with distinct identifiers makes every configured
    channel (the first eight, if there are more) known and idle: awake none,
    both directions enabled.  It also leaves interrupts masked: the section
    it entered is re-initialised before it is left. *)
Theorem comm_init_idle clk cfg cs s m :
  comm_shape s -> cfg_channels cfg = Some cs -> (0 < cfg_channel_count cfg)%nat ->
  (Nat.min (cfg_channel_count cfg) MAX_CHANNELS <= length cs)%nat ->
  NoDup (channel_id <$> take (Nat.min (cfg_channel_count cfg) MAX_CHANNELS) cs) ->
  wp (Comm_Manager_Init clk (Some cfg)) (fun b s' m' =>
    b = true /\ comm_wf s' /\ primask m' = true /\ comm_config s' = cfg /\
    comm_map s' = list_to_map ((fun ch => (channel_id ch, idle_link ch)) <$>
      take (Nat.min (cfg_channel_count cfg) MAX_CHANNELS) cs)) s m.
Proof. intros. by apply comm_init_wp. Qed.

(** Witness of [comm_init_idle]: from power-on. *)
Lemma comm_init_idle_witness :
  let cs := [example_channel 1; example_channel 2] in
  wp (Comm_Manager_Init 0 (Some (mkCommConfig (Some cs) 2 true true))) (fun b s' m' =>
    b = true /\ comm_wf s' /\ primask m' = true /\
    comm_config s' = mkCommConfig (Some cs) 2 true true /\
    comm_map s' = list_to_map ((fun ch => (channel_id ch, idle_link ch)) <$> take 2 cs))
    comm_manager_zero boot.
Proof.
  intros cs. apply (comm_init_idle 0 (mkCommConfig (Some cs) 2 true true) cs comm_manager_zero boot).
  - split_and!; [done|done|]. repeat (constructor; [exact zero_buffer|]). constructor.
  - reflexivity.
  - simpl; lia.
  - simpl; unfold MAX_CHANNELS; lia.
  - apply (bool_decide_unpack _). by vm_compute.
Defined.

(**  A channel whose network is asleep stays silent: whatever operations
    are run, in whatever order, as long as none of them wakes this channel,
    nothing is transmitted on it and nothing received on it is reported. *)
Theorem asleep_channel_silent clk id ops s m :
  comm_wf s -> asleep id (comm_map s) -> Forall (fun op => op <> OpWakeup id) ops ->
  wp (comm_run clk ops) (fun _ s' m' =>
    comm_wf s' /\ asleep id (comm_map s') /\ primask m' = primask m /\
    exists calls, trace m' = trace m ++ calls /\ Forall (fun c => ~ traffic id c) calls) s m.
Proof.
  revert s m. induction ops as [|op ops IH]; intros s m Hw Ha Hops; cbn [comm_run].
  { apply wp_ret. split_and!; try done. exists []. by rewrite app_nil_r. }
  apply Forall_cons in Hops as [Hop Hops]. apply wp_bind.
  eapply wp_mono; [by apply comm_exec_conforms|]. intros b s1 m1 H1. unfold conforms in H1.
  pose proof (spec_asleep clk op (comm_config s) (comm_map s) m id Ha Hop) as Hs.
  destruct (comm_spec _ _ _ _ _) as [[b' cm] calls]. destruct H1 as (Hw1 & _ & <- & Htr1 & Hp1 & _).
  destruct Hs as [Ha1 Hc1]. eapply wp_mono; [by apply IH|].
  intros [] s' m' (Hw' & Ha' & Hp' & calls' & Htr' & Hc'). split_and!; try done; [congruence|].
  exists (calls ++ calls'). split; [by rewrite Htr', Htr1, app_assoc|by apply Forall_app].
Qed.

(** Witness of [asleep_channel_silent]: channel 2 was never woken. *)
Lemma asleep_channel_silent_witness :
  let ops := [OpReceive 2 [1]; OpTransmit 2 [2]; OpControl 2 COMM_CONTROL_ENABLE_RX_TX; OpTransmit 1 [3]] in
  wp (comm_run 0 ops) (fun _ s' m' =>
    comm_wf s' /\ asleep 2 (comm_map s') /\ primask m' = false /\
    exists calls, trace m' = [] ++ calls /\ Forall (fun c => ~ traffic 2 c) calls) example_comm boot.
Proof.
  intros ops. apply (asleep_channel_silent 0 2 ops example_comm boot).
  - exact example_comm_wf.
  - rewrite example_comm_map. intros l [= <-]. reflexivity.
  - repeat constructor; discriminate.
Defined.
