(* ===== verification/DiagMemory.v ===== *)
(** * Diagnostic memory manager

    [src/runtime/diagnostic/memory_manager.c]: reading, writing, erasing and
    verifying memory by address, for the UDS memory services.  The areas are the
    integrator's table; [memory_areas] is the [area_count] definitions the
    configuration points to ([None] for NULL).  [address_space] is the memory
    behind the addresses ([Memory.v]).  [MEMORY_AREA_FLASH], [_EEPROM] and
    [_MIRROR] have no implementation in the source: they succeed and touch
    nothing. *)

From S2P Require Import Prelude Machine Memory.

Inductive MemoryAreaType :=
  MEMORY_AREA_RAM | MEMORY_AREA_FLASH | MEMORY_AREA_EEPROM | MEMORY_AREA_ROM | MEMORY_AREA_MIRROR.
#[export] Instance MemoryAreaType_eq_dec : EqDecision MemoryAreaType.
Proof. solve_decision. Defined.

Definition MEMORY_ACCESS_READ : Z := 0x01.
Definition MEMORY_ACCESS_WRITE : Z := 0x02.
Definition MEMORY_ACCESS_EXECUTE : Z := 0x04.

Record MemoryAreaDef := mkArea {
  start_address : Z;
  area_size : Z;
  area_type : MemoryAreaType;
  access_rights : Z;
  area_security_level : Z }.

Inductive MemoryResult :=
  MEMORY_RESULT_SUCCESS | MEMORY_RESULT_INVALID_ADDRESS | MEMORY_RESULT_ACCESS_DENIED |
  MEMORY_RESULT_WRITE_FAILED | MEMORY_RESULT_READ_FAILED | MEMORY_RESULT_VERIFY_FAILED |
  MEMORY_RESULT_BUSY | MEMORY_RESULT_ERROR.
#[export] Instance MemoryResult_eq_dec : EqDecision MemoryResult.
Proof. solve_decision. Defined.
Definition result_value (r : MemoryResult) : Z :=
  match r with
  | MEMORY_RESULT_SUCCESS => 0 | MEMORY_RESULT_INVALID_ADDRESS => 1
  | MEMORY_RESULT_ACCESS_DENIED => 2 | MEMORY_RESULT_WRITE_FAILED => 3
  | MEMORY_RESULT_READ_FAILED => 4 | MEMORY_RESULT_VERIFY_FAILED => 5
  | MEMORY_RESULT_BUSY => 6 | MEMORY_RESULT_ERROR => 7
  end.

Record MemoryManagerConfig := mkMemoryConfig {
  memory_areas : option (list MemoryAreaDef);
  write_timeout_ms : Z;
  erase_timeout_ms : Z;
  operation_complete_callback : bool }.
Definition memory_config_zero : MemoryManagerConfig := mkMemoryConfig None 0 0 false.

Record MemoryManager := mkMemoryManager {
  mem_config : MemoryManagerConfig;
  is_busy : bool;
  current_address : Z;
  remaining_bytes : Z;
  last_result : MemoryResult;
  operation_timer : Timer;
  mem_initialized : bool;
  mem_critical : CriticalSection;
  address_space : gmap Z Z }.
#[export] Instance eta_MemoryManager : Eta MemoryManager := fun s =>
  mkMemoryManager (mem_config s) (is_busy s) (current_address s) (remaining_bytes s)
    (last_result s) (operation_timer s) (mem_initialized s) (mem_critical s) (address_space s).
(** [memset(&memory_manager, 0, ...)]; the memory itself is not part of it. *)
Definition mem_clear (s : MemoryManager) : MemoryManager :=
  mkMemoryManager memory_config_zero false 0 0 MEMORY_RESULT_SUCCESS timer_zero false cs_zero
    (address_space s).
#[export, refine] Instance MemoryManager_critical : HasCritical MemoryManager :=
  {| crit := mem_critical; set_crit k s := s <| mem_critical := k |> |}.
Proof. all: by intros; destruct s. Defined.

Definition areas (s : MemoryManager) : list MemoryAreaDef := default [] (memory_areas (mem_config s)).

(** The test of the search loop; the end of the area is computed in 32 bits. *)
Definition area_contains (address : Z) (area : MemoryAreaDef) : bool :=
  (start_address area <=? address) && (address <? u32 (start_address area + area_size area)).
(** The index stands for the pointer into the table. *)
Definition find_memory_area (s : MemoryManager) (address : Z) : option nat :=
  find_idx (area_contains address) (length (areas s)) (areas s).

Definition validate_address_range (s : MemoryManager) (address len : Z) : bool :=
  match find_memory_area s address, find_memory_area s (u32 (u32 (address + len) - 1)) with
  | Some start_area, Some end_area => (start_area =? end_area)%nat
  | _, _ => false
  end.

Definition area_at (s : MemoryManager) (address : Z) : option MemoryAreaDef :=
  find_memory_area s address ≫= (areas s !!.).

Definition check_access_rights (s : MemoryManager) (address len required_rights : Z) : bool :=
  match area_at s address with
  | Some area => Z.land (access_rights area) required_rights =? required_rights
  | None => false
  end.

Definition lift {A} (o : option A) : M MemoryManager A :=
  match o with Some a => mret a | None => fault end.

(** [data] is the destination buffer; the buffer after the call is returned. *)
Definition platform_read_memory (address : Z) (data : list Z) (len : Z)
  : M MemoryManager (MemoryResult * list Z) :=
  s ← get;
  match area_at s address with
  | None => mret (MEMORY_RESULT_INVALID_ADDRESS, data)
  | Some area =>
    match area_type area with
    | MEMORY_AREA_RAM | MEMORY_AREA_ROM =>
      if Z.of_nat (length data) <? len then fault else
      bytes ← lift (read_mem (address_space s) address (Z.to_nat len));
      mret (MEMORY_RESULT_SUCCESS, bytes ++ drop (Z.to_nat len) data)
    | MEMORY_AREA_FLASH | MEMORY_AREA_EEPROM | MEMORY_AREA_MIRROR => mret (MEMORY_RESULT_SUCCESS, data)
    end
  end.

Definition platform_write_memory (address : Z) (data : list Z) (len : Z) : M MemoryManager MemoryResult :=
  s ← get;
  match area_at s address with
  | None => mret MEMORY_RESULT_INVALID_ADDRESS
  | Some area =>
    match area_type area with
    | MEMORY_AREA_RAM =>
      if Z.of_nat (length data) <? len then fault else
      mem ← lift (write_mem (address_space s) address (take (Z.to_nat len) data));
      modify (fun s => s <| address_space := mem |>);;
      mret MEMORY_RESULT_SUCCESS
    | MEMORY_AREA_FLASH | MEMORY_AREA_EEPROM | MEMORY_AREA_MIRROR => mret MEMORY_RESULT_SUCCESS
    | MEMORY_AREA_ROM => mret MEMORY_RESULT_ACCESS_DENIED
    end
  end.

Definition platform_erase_memory (address len : Z) : M MemoryManager MemoryResult :=
  s ← get;
  match area_at s address with
  | None => mret MEMORY_RESULT_INVALID_ADDRESS
  | Some area =>
    match area_type area with
    | MEMORY_AREA_FLASH | MEMORY_AREA_EEPROM => mret MEMORY_RESULT_SUCCESS
    | _ => mret MEMORY_RESULT_ACCESS_DENIED
    end
  end.

Definition Memory_Manager_Init (SystemCoreClock : Z) (config : option MemoryManagerConfig)
  : M MemoryManager bool :=
  match config with
  | None => mret false
  | Some config =>
    if bool_decide (default [] (memory_areas config) = []) then mret false else
    enter;;
    modify (fun s => s <| mem_config := config |> <| is_busy := false |> <| current_address := 0 |>
      <| remaining_bytes := 0 |> <| last_result := MEMORY_RESULT_SUCCESS |>);;
    timer_init_m SystemCoreClock;;
    init_crit;;
    modify (fun s => s <| mem_initialized := true |>);;
    exit;;
    mret true
  end.

Definition Memory_Manager_DeInit : M MemoryManager unit :=
  enter;;
  modify mem_clear;;
  exit.

(** The section and the three checks in front of every access; [None] when the
    access may go on. *)
Definition refused (address len rights : Z) : M MemoryManager (option MemoryResult) :=
  enter;;
  s ← get;
  if is_busy s then exit;; mret (Some MEMORY_RESULT_BUSY) else
  if negb (validate_address_range s address len) then exit;; mret (Some MEMORY_RESULT_INVALID_ADDRESS) else
  if negb (check_access_rights s address len rights) then exit;; mret (Some MEMORY_RESULT_ACCESS_DENIED) else
  mret None.

Definition begin_operation (address len : Z) : M MemoryManager unit :=
  modify (fun s => s <| is_busy := true |> <| current_address := address |> <| remaining_bytes := len |>).
Definition finish_operation (result : MemoryResult) : M MemoryManager unit :=
  modify (fun s => s <| is_busy := false |> <| last_result := result |>);;
  s ← get;
  callback (operation_complete_callback (mem_config s)) "operation_complete_callback" [result_value result];;
  exit.
Definition start_operation_timer (timeout_ms : Z) : M MemoryManager unit :=
  start operation_timer (fun t s => s <| operation_timer := t |>) timeout_ms.

(** [data] is the caller's buffer, [None] for NULL; it is returned as the call
    leaves it. *)
Definition Memory_Manager_Read (address : Z) (data : option (list Z)) (len : Z)
  : M MemoryManager (MemoryResult * option (list Z)) :=
  s ← get;
  match data with
  | None => mret (MEMORY_RESULT_ERROR, None)
  | Some buf =>
    if negb (mem_initialized s) || (len =? 0) then mret (MEMORY_RESULT_ERROR, Some buf) else
    no ← refused address len MEMORY_ACCESS_READ;
    match no with
    | Some result => mret (result, Some buf)
    | None =>
      begin_operation address len;;
      out ← platform_read_memory address buf len;
      finish_operation out.1;;
      mret (out.1, Some out.2)
    end
  end.

Definition Memory_Manager_Write (address : Z) (data : option (list Z)) (len : Z)
  : M MemoryManager MemoryResult :=
  s ← get;
  match data with
  | None => mret MEMORY_RESULT_ERROR
  | Some data =>
    if negb (mem_initialized s) || (len =? 0) then mret MEMORY_RESULT_ERROR else
    no ← refused address len MEMORY_ACCESS_WRITE;
    match no with
    | Some result => mret result
    | None =>
      begin_operation address len;;
      start_operation_timer (write_timeout_ms (mem_config s));;
      result ← platform_write_memory address data len;
      finish_operation result;;
      mret result
    end
  end.

Definition Memory_Manager_Erase (address len : Z) : M MemoryManager MemoryResult :=
  s ← get;
  if negb (mem_initialized s) || (len =? 0) then mret MEMORY_RESULT_ERROR else
  no ← refused address len MEMORY_ACCESS_WRITE;
  match no with
  | Some result => mret result
  | None =>
    begin_operation address len;;
    start_operation_timer (erase_timeout_ms (mem_config s));;
    result ← platform_erase_memory address len;
    finish_operation result;;
    mret result
  end.

(** [sizeof(verify_buffer)] *)
Definition VERIFY_BUFFER_SIZE : Z := 256.

(** The loop of [Memory_Manager_Verify]; [verify_buffer] starts with whatever
    the stack holds. *)
Fixpoint verify_loop (fuel : nat) (verify_buffer : list Z) (bytes_to_verify current : Z)
    (compare_data : list Z) : M MemoryManager MemoryResult :=
  if negb (0 <? bytes_to_verify) then exit;; mret MEMORY_RESULT_SUCCESS else
  match fuel with
  | O => fault
  | S fuel =>
    let chunk_size := if VERIFY_BUFFER_SIZE <? bytes_to_verify then VERIFY_BUFFER_SIZE
                      else bytes_to_verify in
    out ← platform_read_memory current verify_buffer chunk_size;
    if negb (bool_decide (out.1 = MEMORY_RESULT_SUCCESS)) then
      modify (fun s => s <| last_result := out.1 |>);; exit;; mret out.1
    else if Z.of_nat (length compare_data) <? chunk_size then fault
    else if negb (bool_decide (take (Z.to_nat chunk_size) out.2 =
                               take (Z.to_nat chunk_size) compare_data)) then
      modify (fun s => s <| last_result := MEMORY_RESULT_VERIFY_FAILED |>);;
      exit;; mret MEMORY_RESULT_VERIFY_FAILED
    else
      verify_loop fuel out.2 (u32 (bytes_to_verify - chunk_size)) (u32 (current + chunk_size))
        (drop (Z.to_nat chunk_size) compare_data)
  end.

(** One round per started chunk. *)
Definition verify_rounds (len : Z) : nat := Z.to_nat ((len + VERIFY_BUFFER_SIZE - 1) / VERIFY_BUFFER_SIZE).

Definition Memory_Manager_Verify (stack : list Z) (address : Z) (data : option (list Z)) (len : Z)
  : M MemoryManager MemoryResult :=
  s ← get;
  match data with
  | None => mret MEMORY_RESULT_ERROR
  | Some data =>
    if negb (mem_initialized s) || (len =? 0) then mret MEMORY_RESULT_ERROR else
    no ← refused address len MEMORY_ACCESS_READ;
    match no with
    | Some result => mret result
    | None => verify_loop (verify_rounds len) stack len address data
    end
  end.

Definition Memory_Manager_IsAddressValid (address len : Z) : M MemoryManager bool :=
  s ← get; mret (validate_address_range s address len).
Definition Memory_Manager_HasAccess (address len access_right : Z) : M MemoryManager bool :=
  s ← get; mret (check_access_rights s address len access_right).
Definition Memory_Manager_GetAreaType (address : Z) : M MemoryManager MemoryAreaType :=
  s ← get;
  mret (match area_at s address with Some area => area_type area | None => MEMORY_AREA_RAM end).
Definition Memory_Manager_IsBusy : M MemoryManager bool := s ← get; mret (is_busy s).

Definition Memory_Manager_AbortOperation : M MemoryManager unit :=
  enter;;
  modify (fun s => s <| is_busy := false |> <| last_result := MEMORY_RESULT_ERROR |>);;
  exit.

Definition Memory_Manager_GetLastResult : M MemoryManager MemoryResult :=
  s ← get; mret (last_result s).

Definition Memory_Manager_GetProgress : M MemoryManager Z :=
  s ← get;
  if negb (is_busy s) || (remaining_bytes s =? 0) then mret 100 else
  let total_bytes := u32 (remaining_bytes s + u32 (current_address s - current_address s)) in
  mret (u32 (u32 (total_bytes - remaining_bytes s) * 100) / total_bytes).

(** ** Areas and ranges *)

(** An area inside the 32-bit address space that does not reach its end. *)
Definition good_area (a : MemoryAreaDef) : Prop :=
  0 <= start_address a /\ 0 <= area_size a /\ start_address a + area_size a < 2 ^ 32.
(** The [len] bytes at [address] are inside the area. *)
Definition within (address len : Z) (a : MemoryAreaDef) : Prop :=
  start_address a <= address /\ address + len <= start_address a + area_size a.
Definition separate (l : list MemoryAreaDef) : Prop :=
  forall i j a b x, l !! i = Some a -> l !! j = Some b ->
    area_contains x a = true -> area_contains x b = true -> i = j.
Definition plain (a : MemoryAreaDef) : Prop :=
  area_type a = MEMORY_AREA_RAM \/ area_type a = MEMORY_AREA_ROM.
Definition grants (rights : Z) (a : MemoryAreaDef) : Prop := Z.land (access_rights a) rights = rights.

(** An initialised manager over separate areas, no operation under way, and
    memory behind every RAM and ROM area. *)
Record mem_wf (s : MemoryManager) : Prop := {
  mw_initialized : mem_initialized s = true;
  mw_idle : is_busy s = false;
  mw_good : Forall good_area (areas s);
  mw_separate : separate (areas s);
  mw_mapped : Forall (fun a => plain a ->
    mapped (address_space s) (start_address a) (Z.to_nat (area_size a))) (areas s) }.

Lemma area_contains_spec x a :
  good_area a -> area_contains x a = true <-> start_address a <= x < start_address a + area_size a.
Proof.
  intros (H1 & H2 & H3). unfold area_contains. rewrite u32_small by (unfold is_u32; lia).
  rewrite andb_true_iff, Z.leb_le, Z.ltb_lt. lia.
Qed.

Lemma find_area_Some s x i :
  find_memory_area s x = Some i -> exists a, areas s !! i = Some a /\ area_contains x a = true.
Proof. intros (a & Ha & _ & Hc & _)%find_idx_Some. by exists a. Qed.
Lemma find_area_unique s x i a :
  separate (areas s) -> areas s !! i = Some a -> area_contains x a = true ->
  find_memory_area s x = Some i.
Proof.
  intros Hsep Hi Hc. apply find_idx_Some. exists a. split_and!; auto; [by eapply lookup_lt_Some|].
  intros j b Hj Hb. apply not_true_is_false. intros Hcb. assert (j = i); [|lia]. by eapply Hsep.
Qed.

Section ranges.
Context (s : MemoryManager).
Hypothesis (Hgood : Forall good_area (areas s)) (Hsep : separate (areas s)).

Lemma area_at_within a address len x :
  a ∈ areas s -> within address len a -> address <= x < address + len -> area_at s x = Some a.
Proof.
  intros (i & Hi)%list_elem_of_lookup [Hlo Hhi] Hx. unfold area_at.
  pose proof (Forall_lookup_1 _ _ _ _ Hgood Hi) as Hg.
  rewrite (find_area_unique s x i a); auto. apply area_contains_spec; [done|]. lia.
Qed.

(** Without wrap-around the end-point check is the range check. *)
Lemma validate_within address len :
  is_u32 address -> 0 < len -> address + len <= 2 ^ 32 ->
  validate_address_range s address len = true <-> exists a, a ∈ areas s /\ within address len a.
Proof.
  unfold is_u32. intros Ha Hl Hr. unfold validate_address_range.
  assert (He : u32 (u32 (address + len) - 1) = address + len - 1).
  { unfold u32. rewrite Zminus_mod_idemp_l. apply Z.mod_small. lia. }
  rewrite He. split.
  - destruct (find_memory_area s address) as [i|] eqn:E1; [|done].
    destruct (find_memory_area s (address + len - 1)) as [j|] eqn:E2; [|done].
    intros ->%Nat.eqb_eq. apply find_area_Some in E1 as (a & Hi & Hc1), E2 as (b & Hj & Hc2).
    simplify_eq. pose proof (Forall_lookup_1 _ _ _ _ Hgood Hi) as Hg.
    apply area_contains_spec in Hc1, Hc2; [|done..]. exists a.
    split; [by eapply list_elem_of_lookup_2|]. unfold within. lia.
  - intros (a & (i & Hi)%list_elem_of_lookup & Hlo & Hhi).
    pose proof (Forall_lookup_1 _ _ _ _ Hgood Hi) as Hg.
    rewrite (find_area_unique s address i a), (find_area_unique s (address + len - 1) i a); auto.
    1: by apply Nat.eqb_eq.
    all: apply area_contains_spec; [done|lia].
Qed.

Lemma check_rights_at address len rights a :
  area_at s address = Some a -> check_access_rights s address len rights = true <-> grants rights a.
Proof using. intros Ha. unfold check_access_rights. rewrite Ha. apply Z.eqb_eq. Qed.
End ranges.

(** A request the buffers and the address space can hold. *)
Definition request (address len : Z) : Prop := is_u32 address /\ 0 <= len /\ address + len <= 2 ^ 32.

(** The area a request may use with the given rights. *)
Definition allowed (s : MemoryManager) (address len rights : Z) (a : MemoryAreaDef) : Prop :=
  a ∈ areas s /\ within address len a /\ grants rights a.

Lemma mem_wf_crit k s : mem_wf s -> mem_wf (set_crit k s).
Proof. intros []. by constructor. Qed.

(** Why a request is refused: no area holds it, or the one that does does not grant
    the right. *)
Definition refusal (s : MemoryManager) (address len rights : Z) (r : MemoryResult) : Prop :=
  (r = MEMORY_RESULT_INVALID_ADDRESS /\ ~ exists a, a ∈ areas s /\ within address len a) \/
  (r = MEMORY_RESULT_ACCESS_DENIED /\ exists a, a ∈ areas s /\ within address len a /\ ~ grants rights a).

(** The checks let a request through exactly when an area allows it; otherwise
    the section is left and nothing has changed. *)
Lemma wp_refused address len rights s m Q :
  mem_wf s -> request address len -> 0 < len ->
  (forall a, allowed s address len rights a -> area_at s address = Some a ->
     Q None (set_crit (mkCS (Z.b2z (primask m)) true) s) (m <| primask := true |>)) ->
  (forall r k, ~ (exists a, allowed s address len rights a) -> refusal s address len rights r ->
     Q (Some r) (set_crit k s) m) ->
  wp (refused address len rights) Q s m.
Proof.
  intros Hw (Ha & _ & Hr) Hl Hok Hno. pose proof Hw as []. unfold refused.
  apply wp_bind, wp_enter, wp_bind, wp_get. simpl is_busy. rewrite mw_idle0.
  set (s0 := set_crit _ s). set (m0 := m <| primask := true |>).
  assert (Hm0 : m0 <| primask := primask m |> = m) by (by destruct m).
  change (validate_address_range s0 address len) with (validate_address_range s address len).
  change (check_access_rights s0 address len rights) with (check_access_rights s address len rights).
  assert (Hdone : forall r, ~ (exists a, allowed s address len rights a) -> refusal s address len rights r ->
    wp (exit;; mret (Some r)) Q s0 m0).
  { intros r Hn Hr'. apply wp_bind. eapply (wp_exit (primask m)); [done|done|]. apply wp_ret.
    rewrite Hm0. unfold s0. rewrite set_crit_set_crit. by apply Hno. }
  pose proof (validate_within s mw_good0 mw_separate0 address len Ha Hl Hr) as Hv.
  destruct (validate_address_range s address len); simpl.
  2: { assert (Hnone : ~ exists a, a ∈ areas s /\ within address len a) by (intros Hx; discriminate (proj2 Hv Hx)).
       apply Hdone; [|by left]. intros (a & Hin & Hwi & _). apply Hnone. eauto. }
  destruct (proj1 Hv eq_refl) as (a & Hin & Hwi).
  assert (Hat : area_at s address = Some a) by (eapply area_at_within; eauto; lia).
  pose proof (check_rights_at s address len rights a Hat) as Hc.
  destruct (check_access_rights s address len rights); simpl.
  - apply wp_ret. apply (Hok a); [|done]. split_and!; auto. by apply Hc.
  - apply Hdone; [|right; split; [done|]; exists a; split_and!; [done|done|]; intros Hg; discriminate (proj2 Hc Hg)].
    intros (b & Hinb & Hwib & Hg).
    assert (area_at s address = Some b) by (eapply area_at_within; eauto; lia). simplify_eq.
    discriminate (proj2 Hc Hg).
Qed.

(** The tail every operation shares. *)
Lemma wp_finish b r s m (Q : unit -> MemoryManager -> Machine -> Prop) :
  crit s = mkCS (Z.b2z b) true -> primask m = true ->
  (forall k, Q tt (set_crit k (s <| is_busy := false |> <| last_result := r |>))
     (m <| trace ::= fun t => t ++ if operation_complete_callback (mem_config s)
        then [call "operation_complete_callback" [result_value r]] else [] |> <| primask := b |>)) ->
  wp (finish_operation r) Q s m.
Proof.
  intros Hc Hp HQ. unfold finish_operation. apply wp_bind, wp_modify, wp_bind, wp_get, wp_bind, wp_callback.
  eapply (wp_exit b); [exact Hc|exact Hp|]. apply HQ.
Qed.

(** Memory behind a request an area allows. *)
Lemma allowed_mapped s address len rights a :
  mem_wf s -> allowed s address len rights a -> plain a -> 0 <= len ->
  mapped (address_space s) address (Z.to_nat len).
Proof.
  intros [] (Hin & [Hlo Hhi] & _) Hp Hl. rewrite Forall_forall in mw_mapped0.
  intros k Hk. apply (mw_mapped0 a Hin Hp). lia.
Qed.

Lemma wp_platform_read s m a address data len Q :
  area_at s address = Some a -> 0 <= len <= Z.of_nat (length data) ->
  (plain a -> mapped (address_space s) address (Z.to_nat len)) ->
  (plain a -> forall bytes, read_mem (address_space s) address (Z.to_nat len) = Some bytes ->
     Q (MEMORY_RESULT_SUCCESS, bytes ++ drop (Z.to_nat len) data) s m) ->
  (~ plain a -> Q (MEMORY_RESULT_SUCCESS, data) s m) ->
  wp (platform_read_memory address data len) Q s m.
Proof.
  intros Ha Hl Hm Hp Hn. unfold platform_read_memory. apply wp_bind, wp_get. rewrite Ha.
  unfold plain in *. assert (Hcopy : area_type a = MEMORY_AREA_RAM \/ area_type a = MEMORY_AREA_ROM ->
    wp (if Z.of_nat (length data) <? len then fault else
      bytes ← lift (read_mem (address_space s) address (Z.to_nat len));
      mret (MEMORY_RESULT_SUCCESS, bytes ++ drop (Z.to_nat len) data)) Q s m).
  { intros Ht. rewrite (proj2 (Z.ltb_ge _ _)) by lia.
    destruct (read_mem_mapped _ _ _ (Hm Ht)) as (bytes & Hb & _). rewrite Hb. apply wp_bind, wp_ret, wp_ret.
    by apply Hp. }
  destruct (area_type a) eqn:E; (apply Hcopy; auto) || (apply wp_ret, Hn; intros [?|?]; done).
Qed.

Lemma wp_platform_write s m a address data len Q :
  area_at s address = Some a -> Z.of_nat (length data) = len ->
  (area_type a = MEMORY_AREA_RAM -> mapped (address_space s) address (length data)) ->
  (area_type a = MEMORY_AREA_RAM -> forall mem,
     read_mem mem address (length data) = Some data ->
     only_at (address_space s) mem address (length data) ->
     (forall k, is_Some (address_space s !! k) -> is_Some (mem !! k)) ->
     Q MEMORY_RESULT_SUCCESS (s <| address_space := mem |>) m) ->
  (area_type a <> MEMORY_AREA_RAM ->
     Q (if decide (area_type a = MEMORY_AREA_ROM) then MEMORY_RESULT_ACCESS_DENIED else MEMORY_RESULT_SUCCESS) s m) ->
  wp (platform_write_memory address data len) Q s m.
Proof.
  intros Ha Hl Hm Hram Hother. unfold platform_write_memory. apply wp_bind, wp_get. rewrite Ha.
  destruct (area_type a) eqn:E; try (apply wp_ret; by apply Hother).
  rewrite (proj2 (Z.ltb_ge _ _)), <- Hl, Nat2Z.id, take_ge by lia.
  destruct (write_mem_spec _ _ _ (Hm eq_refl)) as (mem & Hw & Hr & Ho & Hd). rewrite Hw.
  apply wp_bind, wp_ret, wp_bind, wp_modify, wp_ret. by apply Hram.
Qed.

(** ** The operations *)

Lemma mem_wf_after s s' :
  mem_wf s -> mem_initialized s' = true -> is_busy s' = false -> mem_config s' = mem_config s ->
  (forall k, is_Some (address_space s !! k) -> is_Some (address_space s' !! k)) -> mem_wf s'.
Proof.
  intros [] Hi Hb Hc Hd. assert (Ha : areas s' = areas s) by (unfold areas; by rewrite Hc).
  constructor; rewrite ?Ha; auto. eapply Forall_impl; [exact mw_mapped0|]. intros a Hm Hp.
  by eapply only_mapped, Hm.
Qed.

Section operations.
Context (s : MemoryManager) (m : Machine) (address len : Z).
Hypotheses (Hw : mem_wf s) (Hreq : request address len) (Hpos : 0 < len).

Lemma mem_guard_passes : negb (mem_initialized s) || (len =? 0) = false.
Proof. rewrite (mw_initialized s Hw). simpl. apply Z.eqb_neq. lia. Qed.

(** What a refused request does: nothing. *)
Definition untouched (rights : Z) (r : MemoryResult) (s' : MemoryManager) (m' : Machine) : Prop :=
  ~ (exists a, allowed s address len rights a) /\ refusal s address len rights r /\
  (exists k, s' = set_crit k s) /\ m' = m.

(** What an allowed read delivers: the bytes of a RAM or ROM area; from any other
    area nothing, and success. *)
Definition delivered (buf : list Z) (out : MemoryResult * option (list Z)) : Prop :=
  exists a, allowed s address len MEMORY_ACCESS_READ a /\ out.1 = MEMORY_RESULT_SUCCESS /\
    (plain a -> exists bytes, read_mem (address_space s) address (Z.to_nat len) = Some bytes /\
       out.2 = Some (bytes ++ drop (Z.to_nat len) buf)) /\
    (~ plain a -> out.2 = Some buf).

Lemma mem_read_wp buf :
  len <= Z.of_nat (length buf) ->
  wp (Memory_Manager_Read address (Some buf) len) (fun out s' m' =>
    mem_wf s' /\ primask m' = primask m /\ address_space s' = address_space s /\
    mem_config s' = mem_config s /\
    (delivered buf out \/ (untouched MEMORY_ACCESS_READ out.1 s' m' /\ out.2 = Some buf))) s m.
Proof.
  intros Hbuf. unfold Memory_Manager_Read. apply wp_bind, wp_get. rewrite mem_guard_passes.
  apply wp_bind, wp_refused; [done..| |].
  2: { intros r k Hn Hr. apply wp_ret. split_and!; try done; [by apply mem_wf_crit|].
       right. split; [|done]. split_and!; try done. by exists k. }
  intros a Hal Hat. apply wp_bind, wp_modify, wp_bind.
  match goal with |- wp _ _ ?x _ => set (s1 := x) end.
  assert (Hout : forall out, delivered buf (out.1, Some out.2) ->
    wp (finish_operation out.1;; mret (out.1, Some out.2)) (fun out s' m' =>
      mem_wf s' /\ primask m' = primask m /\ address_space s' = address_space s /\
      mem_config s' = mem_config s /\
      (delivered buf out \/ (untouched MEMORY_ACCESS_READ out.1 s' m' /\ out.2 = Some buf)))
      s1 (m <| primask := true |>)).
  { intros out HP. apply wp_bind. eapply (wp_finish (primask m)); [done|done|]. intros k. apply wp_ret.
    split_and!; try done; [|by left]. apply (mem_wf_after s); try done. by rewrite <- (mw_initialized s Hw). }
  eapply (wp_platform_read s1 _ a);
    [exact Hat|lia|intros Hp; exact (allowed_mapped s _ _ _ a Hw Hal Hp ltac:(lia))| |].
  - intros Hp bytes Hb. apply Hout. exists a. split_and!; try done. intros _. by exists bytes.
  - intros Hn. apply (Hout (MEMORY_RESULT_SUCCESS, buf)). by exists a.
Qed.

(** The effect of a write: the bytes in RAM, nothing elsewhere. *)
Definition written (data : list Z) (a : MemoryAreaDef) (r : MemoryResult) (mem : gmap Z Z) : Prop :=
  match area_type a with
  | MEMORY_AREA_RAM => r = MEMORY_RESULT_SUCCESS /\
      read_mem mem address (length data) = Some data /\
      only_at (address_space s) mem address (length data)
  | MEMORY_AREA_ROM => r = MEMORY_RESULT_ACCESS_DENIED /\ mem = address_space s
  | _ => r = MEMORY_RESULT_SUCCESS /\ mem = address_space s
  end.

Lemma mem_write_wp data :
  Z.of_nat (length data) = len ->
  wp (Memory_Manager_Write address (Some data) len) (fun r s' m' =>
    mem_wf s' /\ primask m' = primask m /\ mem_config s' = mem_config s /\
    ((exists a, allowed s address len MEMORY_ACCESS_WRITE a /\ written data a r (address_space s')) \/
     untouched MEMORY_ACCESS_WRITE r s' m')) s m.
Proof.
  intros Hd. unfold Memory_Manager_Write. apply wp_bind, wp_get. rewrite mem_guard_passes.
  apply wp_bind, wp_refused; [done..| |].
  2: { intros r k Hn Hr. apply wp_ret. split_and!; try done; [by apply mem_wf_crit|].
       right. split_and!; try done. by exists k. }
  intros a Hal Hat. apply wp_bind, wp_modify, wp_bind. unfold start_operation_timer. apply wp_start.
  match goal with |- wp _ _ ?x _ => set (s1 := x) end.
  assert (Hout : forall r mem, written data a r mem ->
    (forall k, is_Some (address_space s !! k) -> is_Some (mem !! k)) ->
    wp (finish_operation r;; mret r) (fun r s' m' =>
      mem_wf s' /\ primask m' = primask m /\ mem_config s' = mem_config s /\
      ((exists a, allowed s address len MEMORY_ACCESS_WRITE a /\ written data a r (address_space s')) \/
       untouched MEMORY_ACCESS_WRITE r s' m')) (s1 <| address_space := mem |>)
      (settle (m <| primask := true |>))).
  { intros r mem Hwr Hdom. apply wp_bind. eapply (wp_finish (primask m)); [done|done|]. intros k. apply wp_ret.
    split_and!; try done; [|left; by exists a].
    apply (mem_wf_after s); try done. by rewrite <- (mw_initialized s Hw). }
  apply wp_bind. eapply (wp_platform_write s1 _ a); [exact Hat|done| | |].
  - intros Ht. replace (length data) with (Z.to_nat len) by lia.
    exact (allowed_mapped s _ _ _ a Hw Hal (or_introl Ht) ltac:(lia)).
  - intros Ht mem Hr Ho Hdom. apply Hout; [|done]. unfold written. by rewrite Ht.
  - intros Ht. apply (Hout _ (address_space s)); [|done]. unfold written. destruct (area_type a); done.
Qed.

Lemma mem_erase_wp :
  wp (Memory_Manager_Erase address len) (fun r s' m' =>
    mem_wf s' /\ primask m' = primask m /\ mem_config s' = mem_config s /\
    address_space s' = address_space s /\
    ((exists a, allowed s address len MEMORY_ACCESS_WRITE a /\
        r = if decide (area_type a = MEMORY_AREA_FLASH \/ area_type a = MEMORY_AREA_EEPROM)
            then MEMORY_RESULT_SUCCESS else MEMORY_RESULT_ACCESS_DENIED) \/
     untouched MEMORY_ACCESS_WRITE r s' m')) s m.
Proof.
  unfold Memory_Manager_Erase. apply wp_bind, wp_get. rewrite mem_guard_passes.
  apply wp_bind, wp_refused; [done..| |].
  2: { intros r k Hn Hr. apply wp_ret. split_and!; try done; [by apply mem_wf_crit|].
       right. split_and!; try done. by exists k. }
  intros a Hal Hat. apply wp_bind, wp_modify, wp_bind. unfold start_operation_timer. apply wp_start.
  match goal with |- wp _ _ ?x _ => set (s1 := x) end.
  assert (Hat1 : area_at s1 address = Some a) by done.
  apply wp_bind. unfold platform_erase_memory. apply wp_bind, wp_get. rewrite Hat1.
  destruct (area_type a) eqn:E; apply wp_ret, wp_bind; (eapply (wp_finish (primask m)); [done|done|]);
    intros k; apply wp_ret; (split_and!; try done;
      [apply (mem_wf_after s); try done; by rewrite <- (mw_initialized s Hw)|left; exists a; by rewrite E]).
Qed.
End operations.

(** ** Verification *)

Lemma verify_step mem cur c k data bytes :
  length data = (c + k)%nat -> read_mem mem cur c = Some bytes -> bytes = take c data ->
  read_mem mem cur (c + k) = Some data <-> read_mem mem (cur + Z.of_nat c) k = Some (drop c data).
Proof.
  intros Hl Hb ->. rewrite read_mem_app, Hb. simpl.
  destruct (read_mem mem (cur + Z.of_nat c) k) as [y|]; simpl; [|split; discriminate].
  split; intros [= Hy]; f_equal.
  - rewrite <- Hy. rewrite drop_app_length'; [done|]. rewrite length_take. lia.
  - rewrite Hy. apply take_drop.
Qed.

Lemma verify_differs mem cur c k data bytes :
  length data = (c + k)%nat -> read_mem mem cur c = Some bytes -> bytes <> take c data ->
  read_mem mem cur (c + k) <> Some data.
Proof.
  intros Hl Hb Hne. rewrite read_mem_app, Hb. simpl.
  destruct (read_mem mem (cur + Z.of_nat c) k) as [y|]; simpl; [|done].
  intros [= Hy]. apply Hne. rewrite <- Hy, take_app_length'; [done|]. symmetry. by eapply read_mem_length.
Qed.

Definition verdict (b : bool) : MemoryResult :=
  if b then MEMORY_RESULT_SUCCESS else MEMORY_RESULT_VERIFY_FAILED.

Lemma wp_verify_exit b (s : MemoryManager) m (r : MemoryResult) (Q : MemoryResult -> MemoryManager -> Machine -> Prop) :
  crit s = mkCS (Z.b2z b) true -> primask m = true ->
  (forall k, Q r (set_crit k s) (m <| primask := b |>)) -> wp (exit;; mret r) Q s m.
Proof. intros Hc Hp HQ. apply wp_bind. eapply (wp_exit b); [done|done|]. apply wp_ret, HQ. Qed.

Lemma verify_loop_wp fuel buf n cur data b a s m :
  mem_wf s -> crit s = mkCS (Z.b2z b) true -> primask m = true ->
  a ∈ areas s -> within cur n a -> plain a -> 0 <= n <= VERIFY_BUFFER_SIZE * Z.of_nat fuel ->
  Z.of_nat (length buf) = VERIFY_BUFFER_SIZE -> Z.of_nat (length data) = n ->
  wp (verify_loop fuel buf n cur data) (fun r s' m' =>
    mem_wf s' /\ primask m' = b /\ address_space s' = address_space s /\ trace m' = trace m /\
    r = verdict (bool_decide (read_mem (address_space s) cur (Z.to_nat n) = Some data))) s m.
Proof.
  intros Hw Hc Hp Ha. revert buf n cur data.
  induction fuel as [|fuel IH]; intros buf n cur data Hin Hpl Hn Hbuf Hd; unfold VERIFY_BUFFER_SIZE in *;
    cbn [verify_loop]; destruct (0 <? n) eqn:E; tests; try lia; simpl negb; cbn iota.
  1,3: assert (n = 0) as -> by lia; destruct data; [|simpl in Hd; lia]; eapply (wp_verify_exit b);
    [done|done|]; intros k; split_and!; try done; by apply mem_wf_crit.
  unfold VERIFY_BUFFER_SIZE. set (c := if 256 <? n then 256 else n).
  assert (Hcn : 0 < c <= n /\ c <= 256 /\ n - c <= 256 * Z.of_nat fuel)
    by (unfold c; destruct (256 <? n) eqn:E'; tests; lia).
  clearbody c. destruct Hcn as (Hc1 & Hc2 & Hc3).
  pose proof Hw as [_ _ Hgood Hsep Hmap]. rewrite Forall_forall in Hgood, Hmap.
  destruct (Hgood a Ha) as (Hg1 & Hg2 & Hg3). destruct Hin as [Hlo Hhi].
  apply wp_bind. eapply (wp_platform_read s m a).
  { eapply (area_at_within s); eauto; [by rewrite Forall_forall|split; [exact Hlo|exact Hhi]|lia]. }
  { lia. }
  { intros _ k Hk. apply (Hmap a Ha Hpl). lia. }
  2: done.
  intros _ bytes Hb. simpl fst; simpl snd. pose proof (read_mem_length _ _ _ _ Hb) as Hlb.
  assert (Hsplit : Z.to_nat n = (Z.to_nat c + Z.to_nat (n - c))%nat) by lia.
  assert (Hld : length data = (Z.to_nat c + Z.to_nat (n - c))%nat) by lia.
  rewrite bool_decide_eq_true_2 by done. simpl negb. cbn iota.
  rewrite (proj2 (Z.ltb_ge _ _)), take_app_length' by lia. rewrite Hsplit.
  destruct (decide (bytes = take (Z.to_nat c) data)) as [Heq|Hne].
  - rewrite (bool_decide_eq_true_2 _ Heq). simpl negb. cbn iota.
    rewrite !u32_small by (unfold is_u32; lia). eapply wp_mono; [apply IH|].
    + split; [lia|]. lia.
    + done.
    + lia.
    + rewrite length_app, length_drop. lia.
    + rewrite length_drop. lia.
    + intros r s' m' (Hw' & Hp' & Hm' & Ht' & ->). split_and!; try done. f_equal. apply bool_decide_ext.
      rewrite (verify_step _ _ _ _ data bytes) by done. by rewrite Z2Nat.id by lia.
  - rewrite (bool_decide_eq_false_2 _ Hne). simpl negb. cbn iota.
    apply wp_bind, wp_modify. eapply (wp_verify_exit b); [done|done|]. intros k.
    split_and!; try done.
    + by apply (mem_wf_after s); try done; destruct Hw.
    + rewrite bool_decide_eq_false_2; [done|]. by eapply verify_differs.
Qed.

(** In the other areas the buffer keeps what the stack held, and is compared. *)
Lemma verify_loop_other fuel buf n cur data b a s m :
  mem_wf s -> crit s = mkCS (Z.b2z b) true -> primask m = true ->
  a ∈ areas s -> within cur n a -> ~ plain a -> 0 <= n <= VERIFY_BUFFER_SIZE * Z.of_nat fuel ->
  Z.of_nat (length buf) = VERIFY_BUFFER_SIZE -> Z.of_nat (length data) = n ->
  wp (verify_loop fuel buf n cur data) (fun r s' m' =>
    mem_wf s' /\ primask m' = b /\ address_space s' = address_space s /\ exists v, r = verdict v) s m.
Proof.
  intros Hw Hc Hp Ha. revert n cur data.
  induction fuel as [|fuel IH]; intros n cur data Hin Hpl Hn Hbuf Hd; unfold VERIFY_BUFFER_SIZE in *;
    cbn [verify_loop]; destruct (0 <? n) eqn:E; tests; try lia; simpl negb; cbn iota.
  1,3: eapply (wp_verify_exit b); [done|done|]; intros k; split_and!; try done; [by apply mem_wf_crit|by exists true].
  unfold VERIFY_BUFFER_SIZE. set (c := if 256 <? n then 256 else n).
  assert (Hcn : 0 < c <= n /\ c <= 256 /\ n - c <= 256 * Z.of_nat fuel)
    by (unfold c; destruct (256 <? n) eqn:E'; tests; lia).
  clearbody c. destruct Hcn as (Hc1 & Hc2 & Hc3).
  pose proof Hw as [_ _ Hgood Hsep Hmap]. rewrite Forall_forall in Hgood.
  destruct (Hgood a Ha) as (Hg1 & Hg2 & Hg3). destruct Hin as [Hlo Hhi].
  apply wp_bind. eapply (wp_platform_read s m a); [|lia|done|done|].
  { eapply (area_at_within s); eauto; [by rewrite Forall_forall|split; [exact Hlo|exact Hhi]|lia]. }
  intros _. simpl fst; simpl snd. rewrite bool_decide_eq_true_2 by done. simpl negb. cbn iota.
  rewrite (proj2 (Z.ltb_ge _ _)) by lia. destruct (bool_decide _); simpl negb; cbn iota.
  - rewrite !u32_small by (unfold is_u32; lia). apply IH; [split; lia|done|lia|done|rewrite length_drop; lia].
  - apply wp_bind, wp_modify. eapply (wp_verify_exit b); [done|done|]. intros k. split_and!; try done; [|by exists false].
    by apply (mem_wf_after s); try done; destruct Hw.
Qed.

Lemma verify_rounds_enough len : 0 <= len -> len <= VERIFY_BUFFER_SIZE * Z.of_nat (verify_rounds len).
Proof.
  unfold verify_rounds, VERIFY_BUFFER_SIZE. intros Hl.
  pose proof (Z.div_mod (len + 256 - 1) 256). pose proof (Z.mod_pos_bound (len + 256 - 1) 256).
  assert (0 <= (len + 256 - 1) / 256) by (apply Z.div_pos; lia). lia.
Qed.

Lemma verify_wp stack data s m address len :
  mem_wf s -> request address len -> 0 < len ->
  Z.of_nat (length stack) = VERIFY_BUFFER_SIZE -> Z.of_nat (length data) = len ->
  (forall a, allowed s address len MEMORY_ACCESS_READ a -> plain a) ->
  wp (Memory_Manager_Verify stack address (Some data) len) (fun r s' m' =>
    mem_wf s' /\ primask m' = primask m /\ address_space s' = address_space s /\
    ((exists a, allowed s address len MEMORY_ACCESS_READ a) /\
     r = verdict (bool_decide (read_mem (address_space s) address (Z.to_nat len) = Some data)) \/
     untouched s m address len MEMORY_ACCESS_READ r s' m')) s m.
Proof.
  intros Hw Hreq Hpos Hst Hd Hplain. unfold Memory_Manager_Verify. apply wp_bind, wp_get.
  rewrite mem_guard_passes by done. apply wp_bind, wp_refused; [done..| |].
  2: { intros r k Hn Hr. apply wp_ret. split_and!; try done; [by apply mem_wf_crit|].
       right. split_and!; try done. by exists k. }
  intros a Hal Hat. eapply wp_mono; [apply (verify_loop_wp _ _ _ _ _ (primask m) a)|].
  - by apply mem_wf_crit.
  - done.
  - done.
  - apply Hal.
  - apply Hal.
  - by eapply Hplain.
  - split; [lia|]. apply verify_rounds_enough. lia.
  - done.
  - done.
  - intros r s' m' (Hw' & Hp' & Hm' & _ & ->). split_and!; try done. left. split; [by exists a|done].
Qed.

Lemma plain_dec a : Decision (plain a).
Proof. unfold plain. destruct (area_type a); (left; by auto) || (right; by intros [?|?]). Defined.
Lemma verify_any_wp stack data s m address len :
  mem_wf s -> request address len -> 0 < len ->
  Z.of_nat (length stack) = VERIFY_BUFFER_SIZE -> Z.of_nat (length data) = len ->
  wp (Memory_Manager_Verify stack address (Some data) len) (fun r s' m' =>
    mem_wf s' /\ primask m' = primask m /\ address_space s' = address_space s /\
    ((exists a v, allowed s address len MEMORY_ACCESS_READ a /\ r = verdict v /\
        (plain a -> v = bool_decide (read_mem (address_space s) address (Z.to_nat len) = Some data))) \/
     untouched s m address len MEMORY_ACCESS_READ r s' m')) s m.
Proof.
  intros Hw Hreq Hpos Hst Hd. unfold Memory_Manager_Verify. apply wp_bind, wp_get.
  rewrite mem_guard_passes by done. apply wp_bind, wp_refused; [done..| |].
  2: { intros r k Hn Hr. apply wp_ret. split_and!; try done; [by apply mem_wf_crit|].
       right. split_and!; try done. by exists k. }
  intros a Hal Hat. pose proof (verify_rounds_enough len ltac:(lia)) as Hrounds.
  assert (Hws : mem_wf (set_crit (mkCS (Z.b2z (primask m)) true) s)) by (by apply mem_wf_crit).
  destruct (plain_dec a) as [Hpl|Hpl].
  - eapply wp_mono; [apply (verify_loop_wp _ _ _ _ _ (primask m) a); try done; [apply Hal|apply Hal|lia]|].
    intros r s' m' (Hw' & Hp' & Hm' & _ & ->). split_and!; try done. left. by exists a, (bool_decide
      (read_mem (address_space s) address (Z.to_nat len) = Some data)).
  - eapply wp_mono; [apply (verify_loop_other _ _ _ _ _ (primask m) a); try done; [apply Hal|apply Hal|lia]|].
    intros r s' m' (Hw' & Hp' & Hm' & v & ->). split_and!; try done. left. by exists a, v.
Qed.

(** ** Deviations *)

(** The end of the range is computed modulo 2^32: from any address of an area a
    length close to 2^32 leads back to an earlier address of the same area, and
    the range is accepted although it covers the whole address space. *)
Lemma wrapped_range_accepted s i a address back :
  Forall good_area (areas s) -> separate (areas s) -> areas s !! i = Some a ->
  start_address a <= back < address -> address < start_address a + area_size a ->
  let len := 2 ^ 32 + back + 1 - address in
  validate_address_range s address len = true /\ 2 ^ 32 < address + len.
Proof.
  intros Hgood Hsep Hi Hb Ha len. pose proof (Forall_lookup_1 _ _ _ _ Hgood Hi) as (Hg1 & Hg2 & Hg3).
  split; [|lia]. unfold validate_address_range.
  replace (u32 (u32 (address + len) - 1)) with back.
  - rewrite (find_area_unique s address i a), (find_area_unique s back i a); auto.
    1: by apply Nat.eqb_eq. all: apply area_contains_spec; [done|lia].
  - unfold u32, len. rewrite Zminus_mod_idemp_l.
    replace (address + (2 ^ 32 + back + 1 - address) - 1) with (back + 1 * 2 ^ 32) by lia.
    rewrite Z_mod_plus_full, Z.mod_small; lia.
Qed.

(** An area that ends with the address space contains nothing: its end is 0. *)
Lemma top_area_unreachable x a :
  0 <= start_address a -> start_address a + area_size a = 2 ^ 32 -> area_contains x a = false.
Proof.
  intros Ha He. unfold area_contains. rewrite He. change (u32 (2 ^ 32)) with 0.
  destruct (start_address a <=? x) eqn:E; simpl; [|done]. tests. apply Z.ltb_ge. lia.
Qed.

(** Flash, EEPROM and mirrored areas: writing and reading succeed and transfer
    nothing, and verification compares the caller's bytes with whatever was on
    the stack. *)
Lemma unimplemented_area_pretends s m address len data buf stack a :
  mem_wf s -> request address len -> 0 < len <= VERIFY_BUFFER_SIZE ->
  area_at s address = Some a -> allowed s address len MEMORY_ACCESS_READ a ->
  ~ plain a -> Z.of_nat (length data) = len -> Z.of_nat (length buf) = len ->
  Z.of_nat (length stack) = VERIFY_BUFFER_SIZE ->
  wp (Memory_Manager_Read address (Some buf) len) (fun out s' _ =>
    out = (MEMORY_RESULT_SUCCESS, Some buf) /\ address_space s' = address_space s) s m /\
  wp (Memory_Manager_Verify stack address (Some data) len) (fun r s' _ =>
    r = verdict (bool_decide (take (Z.to_nat len) stack = data)) /\ address_space s' = address_space s) s m.
Proof.
  intros Hw Hreq Hlen Hat Hal Hnp Hd Hb Hst. pose proof Hw as [Hini _ Hgood Hsep _].
  assert (Hone : forall b, allowed s address len MEMORY_ACCESS_READ b -> b = a).
  { intros b (Hin & Hwi & _). assert (area_at s address = Some b); [|congruence].
    eapply (area_at_within s); eauto. lia. }
  split.
  - eapply wp_mono; [apply mem_read_wp; (done || lia)|].
    intros [r o] s' m' (_ & _ & Hsp & _ & [(b & ->%Hone & Hr & _ & Ho)|[[Hn _] _]]); simpl in *.
    + split; [|done]. by rewrite Hr, Ho.
    + destruct Hn. by exists a.
  - unfold Memory_Manager_Verify. apply wp_bind, wp_get. rewrite mem_guard_passes by (done || lia).
    apply wp_bind, wp_refused; [done|done|lia| |]; [|intros r k Hn _; destruct Hn; by exists a].
    intros b Hb' Hatb. assert (b = a) as -> by congruence. destruct (verify_rounds len) as [|fuel] eqn:Ef.
    { pose proof (verify_rounds_enough len ltac:(lia)) as Hv. rewrite Ef in Hv. lia. }
    cbn [verify_loop]. unfold VERIFY_BUFFER_SIZE in *. rewrite (proj2 (Z.ltb_lt 0 len)) by lia.
    simpl negb. cbn iota. rewrite (proj2 (Z.ltb_ge 256 len)) by lia. apply wp_bind.
    eapply (wp_platform_read _ _ a); [exact Hatb|lia|done|done|]. intros _. simpl fst; simpl snd.
    rewrite bool_decide_eq_true_2 by done. simpl negb. cbn iota.
    rewrite (proj2 (Z.ltb_ge (Z.of_nat (length data)) len)), (take_ge data) by lia.
    destruct (bool_decide _) eqn:E; simpl negb; cbn iota.
    + rewrite Z.sub_diag. destruct fuel; cbn [verify_loop]; (eapply (wp_verify_exit (primask m)); [done|done|]); done.
    + apply wp_bind, wp_modify. eapply (wp_verify_exit (primask m)); [done|done|]. done.
Qed.

(** Progress is always complete: no operation is under way between calls. *)
Lemma progress_constant s m :
  mem_wf s -> wp Memory_Manager_GetProgress (fun p s' m' => p = 100 /\ s' = s /\ m' = m) s m.
Proof.
  intros []. unfold Memory_Manager_GetProgress. apply wp_bind, wp_get. rewrite mw_idle0. by apply wp_ret.
Qed.

(** ** Requests *)

Inductive MemoryOp :=
| OpRead (address : Z) (buf : list Z)
| OpWrite (address : Z) (data : list Z)
| OpErase (address len : Z)
| OpVerify (stack : list Z) (address : Z) (data : list Z)
| OpAbort.

(** The result, and the caller's buffer after a read. *)
Definition mem_exec (op : MemoryOp) : M MemoryManager (MemoryResult * option (list Z)) :=
  match op with
  | OpRead address buf => Memory_Manager_Read address (Some buf) (Z.of_nat (length buf))
  | OpWrite address data => r ← Memory_Manager_Write address (Some data) (Z.of_nat (length data)); mret (r, None)
  | OpErase address len => r ← Memory_Manager_Erase address len; mret (r, None)
  | OpVerify stack address data =>
      r ← Memory_Manager_Verify stack address (Some data) (Z.of_nat (length data)); mret (r, None)
  | OpAbort => Memory_Manager_AbortOperation;; r ← Memory_Manager_GetLastResult; mret (r, None)
  end.

(** The range of a request does not wrap. *)
Definition op_ok (op : MemoryOp) : Prop :=
  match op with
  | OpRead address buf => request address (Z.of_nat (length buf)) /\ buf <> []
  | OpWrite address data => request address (Z.of_nat (length data)) /\ data <> []
  | OpErase address len => request address len /\ 0 < len
  | OpVerify stack address data =>
      request address (Z.of_nat (length data)) /\ data <> [] /\ Z.of_nat (length stack) = VERIFY_BUFFER_SIZE
  | OpAbort => True
  end.

(** What each request answers and does to memory: refused with the reason, or carried out
    as the kind of the area says. *)
Definition outcome (op : MemoryOp) (s : MemoryManager) (out : MemoryResult * option (list Z)) (mem : gmap Z Z) : Prop :=
  match op with
  | OpRead address buf =>
      let len := Z.of_nat (length buf) in
      mem = address_space s /\
      (delivered s address len buf out \/ (refusal s address len MEMORY_ACCESS_READ out.1 /\ out.2 = Some buf))
  | OpWrite address data =>
      let len := Z.of_nat (length data) in
      (exists a, allowed s address len MEMORY_ACCESS_WRITE a /\ written s address data a out.1 mem) \/
      (refusal s address len MEMORY_ACCESS_WRITE out.1 /\ mem = address_space s)
  | OpErase address len =>
      mem = address_space s /\
      ((exists a, allowed s address len MEMORY_ACCESS_WRITE a /\
          out.1 = if decide (area_type a = MEMORY_AREA_FLASH \/ area_type a = MEMORY_AREA_EEPROM)
                  then MEMORY_RESULT_SUCCESS else MEMORY_RESULT_ACCESS_DENIED) \/
       refusal s address len MEMORY_ACCESS_WRITE out.1)
  | OpVerify stack address data =>
      let len := Z.of_nat (length data) in
      mem = address_space s /\
      ((exists a v, allowed s address len MEMORY_ACCESS_READ a /\ out.1 = verdict v /\
          (plain a -> v = bool_decide (read_mem (address_space s) address (length data) = Some data))) \/
       refusal s address len MEMORY_ACCESS_READ out.1)
  | OpAbort => out.1 = MEMORY_RESULT_ERROR /\ mem = address_space s
  end.

Lemma grants_both a :
  grants (Z.lor MEMORY_ACCESS_READ MEMORY_ACCESS_WRITE) a ->
  grants MEMORY_ACCESS_READ a /\ grants MEMORY_ACCESS_WRITE a.
Proof.
  unfold grants. intros Hg.
  assert (Hsub : forall r, Z.land (Z.lor MEMORY_ACCESS_READ MEMORY_ACCESS_WRITE) r = r ->
    Z.land (access_rights a) r = r).
  { intros r Hr. by rewrite <- Hr at 1; rewrite Z.land_assoc, Hg. }
  split; by apply Hsub.
Qed.

Lemma length_pos {A} (l : list A) : l <> [] -> 0 < Z.of_nat (length l).
Proof. destruct l; simpl; [done|lia]. Qed.

Lemma mem_exec_outcome op s m :
  mem_wf s -> op_ok op ->
  wp (mem_exec op) (fun out s' m' =>
    mem_wf s' /\ primask m' = primask m /\ outcome op s out (address_space s')) s m.
Proof.
  assert (Hsame : forall address len rights r s' m', untouched s m address len rights r s' m' ->
    refusal s address len rights r /\ address_space s' = address_space s) by (by intros * (_ & ? & (k & ->) & _)).
  intros Hw Hok. destruct op as [address buf|address data|address len|stack address data|]; simpl in *.
  - destruct Hok as [Hreq Hne%length_pos]. eapply wp_mono; [apply mem_read_wp; (done || lia)|].
    intros out s' m' (Hw' & Hp' & Hsp & _ & [Hd|[Hu%Hsame Ho]]); split_and!; try done; [by left|right].
    by destruct Hu.
  - destruct Hok as [Hreq Hne%length_pos]. apply wp_bind. eapply wp_mono; [apply mem_write_wp; (done || lia)|].
    intros r s' m' (Hw' & Hp' & _ & [Ha|Hu%Hsame]); apply wp_ret; split_and!; try done; [by left|by right].
  - destruct Hok as [Hreq Hpos]. apply wp_bind. eapply wp_mono; [by apply mem_erase_wp|].
    intros r s' m' (Hw' & Hp' & _ & Hsp & [Ha|Hu%Hsame]); apply wp_ret; split_and!; try done; [by left|right].
    by destruct Hu.
  - destruct Hok as (Hreq & Hne%length_pos & Hst). apply wp_bind. eapply wp_mono; [by apply verify_any_wp|].
    rewrite Nat2Z.id.
    intros r s' m' (Hw' & Hp' & Hsp & [Ha|Hu%Hsame]); apply wp_ret; split_and!; try done; [by left|right].
    by destruct Hu.
  - unfold Memory_Manager_AbortOperation. apply wp_bind, wp_bind, wp_enter, wp_bind, wp_modify.
    eapply (wp_exit (primask m)); [done|done|]. apply wp_bind, wp_bind, wp_get, wp_ret, wp_ret. simpl.
    split_and!; try done. apply (mem_wf_after s); try done. by rewrite <- (mw_initialized s Hw).
Qed.

(** RAM at 0x20000000, ROM behind it, flash at 0x08000000. *)
Definition example_areas : list MemoryAreaDef :=
  [mkArea 0x20000000 8 MEMORY_AREA_RAM 3 0; mkArea 0x20000008 4 MEMORY_AREA_ROM 1 0;
   mkArea 0x08000000 0x1000 MEMORY_AREA_FLASH 3 1].
Definition example_space : gmap Z Z :=
  list_to_map ((fun i : nat => (0x20000000 + Z.of_nat i, Z.of_nat i)) <$> seq 0 12).
Definition example_memory : MemoryManager :=
  mkMemoryManager (mkMemoryConfig (Some example_areas) 100 1000 true) false 0 0 MEMORY_RESULT_SUCCESS
    timer_zero true cs_zero example_space.

Lemma example_space_mapped : mapped example_space 0x20000000 12.
Proof.
  intros k Hk. replace k with (0x20000000 + Z.of_nat (Z.to_nat (k - 0x20000000))) by lia.
  assert (Hi : (Z.to_nat (k - 0x20000000) < 12)%nat) by lia. revert Hi.
  generalize (Z.to_nat (k - 0x20000000)) as i. intros i Hi.
  do 12 (destruct i as [|i]; [by eexists|]). lia.
Qed.
Lemma example_memory_wf : mem_wf example_memory.
Proof.
  assert (Hg : Forall good_area example_areas) by (repeat constructor; simpl; lia).
  constructor; try done.
  - intros i j a b x Hi Hj Ha Hb.
    pose proof (Forall_lookup_1 _ _ _ _ Hg Hi) as Hga. pose proof (Forall_lookup_1 _ _ _ _ Hg Hj) as Hgb.
    apply area_contains_spec in Ha, Hb; [|done..].
    destruct i as [|[|[|i]]], j as [|[|[|j]]]; simpl in Hi, Hj; simplify_eq; simpl in *; lia.
  - repeat constructor; intros [H|H]; simpl in H; try discriminate H; intros k Hk;
      apply example_space_mapped; simpl in Hk; lia.
Qed.

(** ** Properties *)

(** C14. What is written to RAM is read back and verifies: after a write to an
    area with read and write rights, reading the same addresses returns the
    bytes and verification succeeds, no other address has changed, and the
    interrupt mask is restored. *)
Theorem memory_write_read stack address data buf a s m :
  mem_wf s -> request address (Z.of_nat (length data)) -> data <> [] ->
  allowed s address (Z.of_nat (length data)) (Z.lor MEMORY_ACCESS_READ MEMORY_ACCESS_WRITE) a ->
  area_type a = MEMORY_AREA_RAM -> length buf = length data ->
  Z.of_nat (length stack) = VERIFY_BUFFER_SIZE ->
  wp (w ← Memory_Manager_Write address (Some data) (Z.of_nat (length data));
      r ← Memory_Manager_Read address (Some buf) (Z.of_nat (length data));
      v ← Memory_Manager_Verify stack address (Some data) (Z.of_nat (length data));
      mret (w, r, v)) (fun out s' m' =>
    out = (MEMORY_RESULT_SUCCESS, (MEMORY_RESULT_SUCCESS, Some data), MEMORY_RESULT_SUCCESS) /\
    only_at (address_space s) (address_space s') address (length data) /\ primask m' = primask m) s m.
Proof.
  intros Hw Hreq Hne (Hin & Hwi & Hg) Hram Hbuf Hst. pose proof (length_pos _ Hne) as Hpos.
  destruct (grants_both a Hg) as [Hgr Hgw]. set (len := Z.of_nat (length data)) in *.
  assert (Hone : forall s1 b rights, mem_wf s1 -> mem_config s1 = mem_config s ->
    allowed s1 address len rights b -> b = a).
  { intros s1 b rights [] Hc (Hinb & Hwib & _).
    assert (Ha : areas s1 = areas s) by (unfold areas; by rewrite Hc). rewrite Ha in Hinb.
    enough (Some b = Some a) by congruence. rewrite <- (area_at_within s1 mw_good0 mw_separate0 b address len address),
      <- (area_at_within s1 mw_good0 mw_separate0 a address len address); rewrite ?Ha; auto; lia. }
  assert (Hok : forall s1, mem_config s1 = mem_config s -> allowed s1 address len MEMORY_ACCESS_READ a).
  { intros s1 Hc. unfold allowed, areas. by rewrite Hc. }
  apply wp_bind. eapply wp_mono; [by apply mem_write_wp|].
  intros w s1 m1 (Hw1 & Hp1 & Hc1 & [(b & Hb & Hwr)|[Hn _]]); [|destruct Hn; by exists a].
  apply (Hone s) in Hb as ->; [|done|done]. unfold written in Hwr. rewrite Hram in Hwr.
  destruct Hwr as (-> & Hrd & Honly). apply wp_bind. eapply wp_mono; [apply mem_read_wp; (done || lia)|].
  intros r s2 m2 (Hw2 & Hp2 & Hsp2 & Hc2 & [(b & Hb & Hr1 & Hr2 & _)|[[Hn _] _]]);
    [|destruct Hn; exists a; by apply Hok]. apply (Hone s1) in Hb as ->; [|done|done].
  destruct Hr2 as (bytes & Hbytes & Hout); [by left|]. rewrite <- Hsp2 in Hrd.
  unfold len in Hbytes. rewrite Nat2Z.id, <- Hsp2, Hrd in Hbytes. injection Hbytes as <-.
  apply wp_bind. eapply wp_mono; [apply verify_wp; try done|].
  { intros b Hb. left. by rewrite (Hone s2 b _ Hw2 (eq_trans Hc2 Hc1) Hb). }
  intros v s3 m3 (_ & Hp3 & Hsp3 & [[_ ->]|[Hn _]]); [|destruct Hn; exists a; apply Hok; congruence].
  apply wp_ret. rewrite <- Hsp2 in Honly. rewrite Hsp3. split_and!; [|done|congruence].
  unfold len in *. rewrite Nat2Z.id, (bool_decide_eq_true_2 _ Hrd). destruct r as [r1 r2]; simpl in *.
  rewrite Hr1, Hout, Nat2Z.id, drop_ge, app_nil_r by lia. done.
Qed.

(** Witness of [memory_write_read]: three bytes in the middle of the RAM area. *)
Lemma memory_write_read_witness :
  wp (w ← Memory_Manager_Write 0x20000002 (Some [7; 8; 9]) 3;
      r ← Memory_Manager_Read 0x20000002 (Some [0; 0; 0]) 3;
      v ← Memory_Manager_Verify (replicate 256 0) 0x20000002 (Some [7; 8; 9]) 3;
      mret (w, r, v)) (fun out s' m' =>
    out = (MEMORY_RESULT_SUCCESS, (MEMORY_RESULT_SUCCESS, Some [7; 8; 9]), MEMORY_RESULT_SUCCESS) /\
    only_at example_space (address_space s') 0x20000002 3 /\ primask m' = false) example_memory boot.
Proof.
  apply (memory_write_read (replicate 256 0) 0x20000002 [7; 8; 9] [0; 0; 0]
    (mkArea 0x20000000 8 MEMORY_AREA_RAM 3 0) example_memory boot).
  - exact example_memory_wf.
  - unfold request, is_u32. simpl. lia.
  - discriminate.
  - split; [left|]. split; [unfold within; simpl; lia|reflexivity].
  - reflexivity.
  - reflexivity.
  - reflexivity.
Defined.



(**  [Memory_Manager_Verify] compares in chunks of 256 bytes, always
    returns, and for readable RAM and ROM decides equality: it succeeds exactly
    when the memory holds the given bytes, and answers "verification failed"
    exactly when it does not. *)
Theorem verify_decides_equality stack address data s m :
  mem_wf s -> request address (Z.of_nat (length data)) -> data <> [] ->
  Z.of_nat (length stack) = VERIFY_BUFFER_SIZE ->
  (exists a, allowed s address (Z.of_nat (length data)) MEMORY_ACCESS_READ a) ->
  (forall a, allowed s address (Z.of_nat (length data)) MEMORY_ACCESS_READ a -> plain a) ->
  wp (Memory_Manager_Verify stack address (Some data) (Z.of_nat (length data))) (fun r s' m' =>
    address_space s' = address_space s /\ primask m' = primask m /\
    (r = MEMORY_RESULT_SUCCESS <-> read_mem (address_space s) address (length data) = Some data) /\
    (r = MEMORY_RESULT_VERIFY_FAILED <-> read_mem (address_space s) address (length data) <> Some data)) s m.
Proof.
  intros Hw Hreq Hne%length_pos Hst Hex Hpl. eapply wp_mono; [by apply verify_wp|].
  intros r s' m' (_ & Hp & Hsp & [[_ ->]|[Hn _]]); [|done]. rewrite Nat2Z.id. split_and!; try done;
    destruct (bool_decide_reflect (read_mem (address_space s) address (length data) = Some data)); done.
Qed.

(** Witness of [verify_decides_equality]: the ROM area. *)
Lemma verify_decides_equality_witness :
  wp (Memory_Manager_Verify (replicate 256 0) 0x20000008 (Some [8; 9; 10; 11]) 4) (fun r s' m' =>
    address_space s' = example_space /\ primask m' = false /\
    (r = MEMORY_RESULT_SUCCESS <-> read_mem example_space 0x20000008 4 = Some [8; 9; 10; 11]) /\
    (r = MEMORY_RESULT_VERIFY_FAILED <-> read_mem example_space 0x20000008 4 <> Some [8; 9; 10; 11]))
    example_memory boot.
Proof.
  apply (verify_decides_equality (replicate 256 0) 0x20000008 [8; 9; 10; 11] example_memory boot).
  - exact example_memory_wf.
  - unfold request, is_u32. simpl. lia.
  - discriminate.
  - reflexivity.
  - exists (mkArea 0x20000008 4 MEMORY_AREA_ROM 1 0). split; [right; left|].
    split; [unfold within; simpl; lia|reflexivity].
  - intros a (Hin & Hwi & _). unfold within in Hwi. simpl in Hwi.
    repeat (apply elem_of_cons in Hin as [->|Hin]; simpl in Hwi; [first [by left|by right|lia]|]).
    by apply elem_of_nil in Hin.
Defined.

(**  As long as the range does not run past the end of the address space,
    checking its two end points is enough: the range is accepted exactly when
    all of it lies in one of the areas. *)
Theorem range_check_exact s address len :
  Forall good_area (areas s) -> separate (areas s) ->
  is_u32 address -> 0 < len -> address + len <= 2 ^ 32 ->
  validate_address_range s address len = true <-> exists a, a ∈ areas s /\ within address len a.
Proof. intros Hg Hs. by apply validate_within. Qed.

(** Witness of [range_check_exact]: a range across two areas. *)
Lemma range_check_exact_witness :
  validate_address_range example_memory 0x20000006 4 = true <->
  exists a, a ∈ areas example_memory /\ within 0x20000006 4 a.
Proof.
  apply (range_check_exact example_memory 0x20000006 4).
  - exact (mw_good _ example_memory_wf).
  - exact (mw_separate _ example_memory_wf).
  - unfold is_u32; lia.
  - lia.
  - lia.
Defined.
