(* ===== verification/SecurityManager.v ===== *)
(** * Security manager

    [src/runtime/diagnostic/security_manager.c]: up to sixteen security levels,
    each with the state machine of [security_state.c] ([SecurityState.v]), and
    the level access was last granted to.  A timestamp a state machine asks for
    is an argument of the operation, one per call ([SecurityState.v]); 32-bit
    values in byte buffers are little endian.

    [GetRemainingDelay], [GetRemainingAttempts] and [ResetAttempts] read the
    members [delay_timer] and [attempt_count], which [SecurityStateContext] does
    not have: they cannot be compiled and are not modelled. *)

From S2P Require Import Prelude Machine Memory Tables SecurityState.

Definition MAX_SECURITY_LEVELS : nat := 16.
Definition SEED_LENGTH : nat := 4.

Inductive SecurityViolationType :=
  SECURITY_VIOLATION_INVALID_KEY | SECURITY_VIOLATION_SEQUENCE_ERROR |
  SECURITY_VIOLATION_ATTEMPT_LIMIT | SECURITY_VIOLATION_DELAY_NOT_EXPIRED |
  SECURITY_VIOLATION_INVALID_LEVEL.
Definition violation_value (v : SecurityViolationType) : Z :=
  match v with
  | SECURITY_VIOLATION_INVALID_KEY => 0x01 | SECURITY_VIOLATION_SEQUENCE_ERROR => 0x02
  | SECURITY_VIOLATION_ATTEMPT_LIMIT => 0x03 | SECURITY_VIOLATION_DELAY_NOT_EXPIRED => 0x04
  | SECURITY_VIOLATION_INVALID_LEVEL => 0x05
  end.

(** [seed_generator] and [key_validator] are called by nothing and left out. *)
Record SecurityLevel := mkLevel { lvl_level : Z; delay_time_ms : Z; max_attempts : Z }.

Record SecurityManagerConfig := mkSecurityConfig {
  cfg_levels : option (list SecurityLevel);
  cfg_level_count : nat;
  default_delay_time_ms : Z;
  default_max_attempts : Z;
  security_callback : bool;
  violation_callback : bool }.
Definition security_config_zero : SecurityManagerConfig := mkSecurityConfig None 0 0 0 false false.

Record SecurityLevelEntry := mkEntry { level_config : SecurityLevel; entry_state : SecurityStateContext }.
#[export] Instance eta_SecurityLevelEntry : Eta SecurityLevelEntry := fun e =>
  mkEntry (level_config e) (entry_state e).
#[export] Instance SecurityLevelEntry_key : Keyed SecurityLevelEntry := fun e => lvl_level (level_config e).
Definition entry_zero : SecurityLevelEntry :=
  mkEntry (mkLevel 0 0 0) (mkSecurity 0 SECURITY_STATE_LOCKED 0 0 0 0).

Record SecurityManager := mkSecurityManager {
  sec_config : SecurityManagerConfig;
  levels : list SecurityLevelEntry;
  level_count : nat;
  current_level : Z;
  sec_initialized : bool;
  sec_critical : CriticalSection }.
#[export] Instance eta_SecurityManager : Eta SecurityManager := fun s =>
  mkSecurityManager (sec_config s) (levels s) (level_count s) (current_level s)
    (sec_initialized s) (sec_critical s).
Definition security_manager_zero : SecurityManager :=
  mkSecurityManager security_config_zero (replicate MAX_SECURITY_LEVELS entry_zero) 0 0 false cs_zero.
#[export, refine] Instance SecurityManager_critical : HasCritical SecurityManager :=
  {| crit := sec_critical; set_crit k s := s <| sec_critical := k |> |}.
Proof. all: by intros; destruct s. Defined.

Section manager.
Context (SystemCoreClock : Z).

Definition find_security_level (lvl : Z) : M SecurityManager (option nat) :=
  s ← get; mret (find_key lvl (level_count s) (levels s)).

(** An operation of the state machine on [&levels[i].state]. *)
Definition on_state {A} (i : nat) (c : M Ctx A) : M SecurityManager A :=
  zoom (fun s => entry_state <$> levels s !! i)
       (fun ctx s => match ctx with
                     | Some x => s <| levels ::= alter (fun e => e <| entry_state := x |>) i |>
                     | None => s
                     end) c.

(** The loop of [Security_Manager_Init]; [ts i] is the timestamp of the call for
    level [i]. *)
Fixpoint init_levels (ts : nat -> Z) (ls : list SecurityLevel) (i : nat) : M SecurityManager unit :=
  match ls with
  | [] => mret tt
  | l :: ls =>
    modify (fun s => s <| levels ::= alter (fun e => e <| level_config := l |>) i |>);;
    _ ← on_state i (Security_State_Init SystemCoreClock (ts i) (lvl_level l));
    init_levels ts ls (S i)
  end.

Definition Security_Manager_Init (ts : nat -> Z) (config : option SecurityManagerConfig)
  : M SecurityManager bool :=
  match config with
  | None => mret false
  | Some config =>
    enter;;
    modify (fun s => s <| sec_config := config |>);;
    match cfg_levels config with
    | Some ls =>
      if (0 <? cfg_level_count config)%nat then
        let copy_count := if (cfg_level_count config <=? MAX_SECURITY_LEVELS)%nat
                          then cfg_level_count config else MAX_SECURITY_LEVELS in
        if (length ls <? copy_count)%nat then fault else
        init_levels ts (take copy_count ls) 0;;
        modify (fun s => s <| level_count := copy_count |>)
      else modify (fun s => s <| level_count := 0%nat |>)
    | None => modify (fun s => s <| level_count := 0%nat |>)
    end;;
    modify (fun s => s <| current_level := 0 |>);;
    init_crit;;
    modify (fun s => s <| sec_initialized := true |>);;
    exit;;
    mret true
  end.

Definition Security_Manager_DeInit : M SecurityManager unit :=
  enter;;
  modify (fun _ => security_manager_zero);;
  exit.

Definition violation (lvl : Z) (v : SecurityViolationType) : M SecurityManager unit :=
  s ← get;
  callback (violation_callback (sec_config s)) "violation_callback" [lvl; violation_value v].

(** [seed] is the caller's buffer with [*length] bytes, [None] for NULL; the
    four bytes written at its start are returned. *)
Definition Security_Manager_RequestSeed (ts1 ts2 lvl : Z) (seed : option (list Z))
  : M SecurityManager (option (list Z)) :=
  s ← get;
  match seed with
  | None => mret None
  | Some buf =>
    if negb (sec_initialized s) || (length buf <? SEED_LENGTH)%nat then mret None else
    enter;;
    entry ← find_security_level lvl;
    match entry with
    | None => exit;; mret None
    | Some i =>
      result ← on_state i (Security_State_RequestSeed SystemCoreClock ts1 ts2 true);
      (if bool_decide (result = None) then
         st ← on_state i Security_State_GetState;
         if decide (st = SECURITY_STATE_DELAY_ACTIVE)
         then violation lvl SECURITY_VIOLATION_DELAY_NOT_EXPIRED else mret tt
       else mret tt);;
      exit;;
      mret (le_bytes SEED_LENGTH <$> result)
    end
  end.

(** The reaction to the state machine's verdict on a key. *)
Definition key_verdict (lvl : Z) (i : nat) (result : bool) : M SecurityManager unit :=
  if result then
    modify (fun s => s <| current_level := lvl |>);;
    s ← get;
    callback (security_callback (sec_config s)) "security_callback" [lvl; 1]
  else
    st ← on_state i Security_State_GetState;
    if decide (st = SECURITY_STATE_DELAY_ACTIVE)
    then violation lvl SECURITY_VIOLATION_ATTEMPT_LIMIT
    else violation lvl SECURITY_VIOLATION_INVALID_KEY.

(** [key] is the [length] bytes the caller points to, [None] for NULL. *)
Definition Security_Manager_ValidateKey (ts lvl : Z) (key : option (list Z)) : M SecurityManager bool :=
  s ← get;
  match key with
  | None => mret false
  | Some key =>
    if negb (sec_initialized s) || (length key <? SEED_LENGTH)%nat then mret false else
    enter;;
    entry ← find_security_level lvl;
    match entry with
    | None => exit;; mret false
    | Some i =>
      let key_value := le_value (take SEED_LENGTH key) in
      result ← on_state i (Security_State_ValidateKey SystemCoreClock ts key_value);
      key_verdict lvl i result;;
      exit;;
      mret result
    end
  end.

Definition Security_Manager_IsLevelUnlocked (lvl : Z) : M SecurityManager bool :=
  s ← get;
  if negb (sec_initialized s) then mret false else
  enter;;
  entry ← find_security_level lvl;
  is_unlocked ← match entry with
                | Some i => st ← on_state i Security_State_GetState;
                            mret (bool_decide (st = SECURITY_STATE_UNLOCKED))
                | None => mret false
                end;
  exit;;
  mret is_unlocked.

Definition Security_Manager_LockLevel (lvl : Z) : M SecurityManager bool :=
  s ← get;
  if negb (sec_initialized s) then mret false else
  enter;;
  entry ← find_security_level lvl;
  match entry with
  | None => exit;; mret false
  | Some i =>
    result ← on_state i Security_State_Lock;
    s ← get;
    (if (result : bool) && (current_level s =? lvl)
     then modify (fun s => s <| current_level := 0 |>) else mret tt);;
    exit;;
    mret result
  end.

Definition Security_Manager_GetCurrentLevel : M SecurityManager Z :=
  s ← get; mret (if sec_initialized s then current_level s else 0).

Definition Security_Manager_AddSecurityLevel (ts : Z) (lvl : option SecurityLevel) : M SecurityManager bool :=
  s ← get;
  match lvl with
  | None => mret false
  | Some lvl =>
    if negb (sec_initialized s) then mret false else
    enter;;
    found ← find_security_level (lvl_level lvl);
    if bool_decide (is_Some found) then exit;; mret false else
    if (MAX_SECURITY_LEVELS <=? level_count s)%nat then exit;; mret false else
    modify (fun s => s <| levels ::= alter (fun e => e <| level_config := lvl |>) (level_count s) |>);;
    _ ← on_state (level_count s) (Security_State_Init SystemCoreClock ts (lvl_level lvl));
    modify (fun s => s <| level_count ::= S |>);;
    exit;;
    mret true
  end.

Definition Security_Manager_RemoveSecurityLevel (lvl : Z) : M SecurityManager bool :=
  s ← get;
  if negb (sec_initialized s) then mret false else
  enter;;
  found ← find_security_level lvl;
  match found with
  | None => exit;; mret false
  | Some index =>
    modify (fun s => s <| levels ::= remove_record index (level_count s) |>
                       <| level_count ::= fun n => (n - 1)%nat |>);;
    s ← get;
    (if current_level s =? lvl then modify (fun s => s <| current_level := 0 |>) else mret tt);;
    exit;;
    mret true
  end.

(** [level_config] is the first member: the address of an entry's
    configuration is NULL when the entry's is. *)
Definition Security_Manager_GetSecurityLevel (lvl : Z) : M SecurityManager (option nat) :=
  s ← get;
  if negb (sec_initialized s) then mret None else
  enter;;
  entry ← find_security_level lvl;
  exit;;
  mret entry.

(** The loop of [Security_Manager_ProcessTimeout]. *)
Fixpoint timeout_levels (ts : nat -> Z) (k i : nat) : M SecurityManager unit :=
  match k with
  | O => mret tt
  | S k' =>
    _ ← on_state i (Security_State_ProcessTimeout SystemCoreClock (ts i));
    timeout_levels ts k' (S i)
  end.

Definition Security_Manager_ProcessTimeout (ts : nat -> Z) : M SecurityManager unit :=
  s ← get;
  if negb (sec_initialized s) then mret tt else
  enter;;
  timeout_levels ts (level_count s) 0;;
  exit.
End manager.

(** ** Runs of the state machine

    With the timers running, a timestamp is asked for without any effect. *)

Definition seed_answer (ts1 ts2 : Z) (c : SecurityStateContext) : option Z :=
  if bool_decide (state c = SECURITY_STATE_DELAY_ACTIVE) && (ts1 <? delay_end c) then None else
  match state c with
  | SECURITY_STATE_LOCKED | SECURITY_STATE_DELAY_ACTIVE => Some (Z.lxor ts2 (u32 (SEED_KEY_MAGIC + level c)))
  | _ => None
  end.
Definition key_accepted (key : Z) (c : SecurityStateContext) : bool :=
  bool_decide (state c = SECURITY_STATE_SEED_SENT) && (key =? calculate_key (seed c)).

Section runs.
Context (clk : Z) (c : SecurityStateContext) (m : Machine).
Hypothesis Ht : timer_initialized m = true.

Lemma wp_timestamp ts x (Q : Z -> Ctx -> Machine -> Prop) : Q ts x m -> wp (get_timestamp clk ts) Q x m.
Proof.
  intros HQ. unfold get_timestamp. apply wp_bind. unfold wp at 1, timer_init_m, on_machine, timer_init.
  rewrite Ht. by apply wp_ret.
Qed.

Lemma init_run ts lvl :
  wp (Security_State_Init clk ts lvl) (fun b x m' => (b, x, m') = (true, Some (sec_next (OpInit ts lvl) c), m))
    (Some c) m.
Proof.
  unfold Security_State_Init, set_ctx.
  repeat first [apply wp_timestamp | wp_step]. done.
Qed.
Lemma request_run ts1 ts2 :
  wp (Security_State_RequestSeed clk ts1 ts2 true) (fun o x m' =>
    (o, x, m') = (seed_answer ts1 ts2 c, Some (sec_next (OpSeed ts1 ts2) c), m)) (Some c) m.
Proof.
  destruct c as [l [] t sd a de]; unfold Security_State_RequestSeed, set_ctx, seed_answer;
    repeat first [apply wp_timestamp | progress case_decide; simpl | wp_step]; try done;
    simpl; rewrite bool_decide_true by done; simpl; by rewrite Heqb.
Qed.
Lemma validate_run ts key :
  wp (Security_State_ValidateKey clk ts key) (fun b x m' =>
    (b, x, m') = (key_accepted key c, Some (sec_next (OpKey ts key) c), m)) (Some c) m.
Proof.
  destruct c as [l [] t sd a de]; unfold Security_State_ValidateKey, set_ctx, key_accepted;
    repeat first [apply wp_timestamp | progress case_decide; simpl | wp_step]; try done;
    simpl in *; rewrite bool_decide_true by done; simpl; rewrite ?Heqb, ?Heqb0; done.
Qed.
Lemma lock_run :
  wp Security_State_Lock (fun b x m' => (b, x, m') = (true, Some (sec_next OpLock c), m)) (Some c) m.
Proof using. done. Qed.
Lemma timeout_run ts :
  wp (Security_State_ProcessTimeout clk ts) (fun _ x m' => (x, m') = (Some (sec_next (OpTimeout ts) c), m))
    (Some c) m.
Proof.
  destruct c as [l [] t sd a de]; unfold Security_State_ProcessTimeout, set_ctx;
    repeat first [apply wp_timestamp | progress case_decide; simpl | wp_step]; try done;
    simpl; rewrite bool_decide_true by done; simpl; by rewrite Heqb.
Qed.
End runs.

(** ** The levels as a finite map *)

Definition level_map (s : SecurityManager) : gmap Z SecurityLevelEntry := tbl (level_count s) (levels s).

Record sec_wf (s : SecurityManager) : Prop := {
  sw_initialized : sec_initialized s = true;
  sw_levels : length (levels s) = MAX_SECURITY_LEVELS;
  sw_count : (level_count s <= MAX_SECURITY_LEVELS)%nat;
  sw_uniq : tbl_uniq (level_count s) (levels s) }.

Lemma sec_wf_crit k s : sec_wf s -> sec_wf (set_crit k s).
Proof. intros []. by constructor. Qed.

(** The state of a level replaced by [x]. *)
Definition with_state (e : SecurityLevelEntry) (x : SecurityStateContext) : SecurityLevelEntry :=
  e <| entry_state := x |>.

Lemma level_lookup s lvl :
  sec_wf s ->
  (exists i e, find_key lvl (level_count s) (levels s) = Some i /\ levels s !! i = Some e /\
     (i < level_count s)%nat /\ lvl_level (level_config e) = lvl /\ level_map s !! lvl = Some e) \/
  (find_key lvl (level_count s) (levels s) = None /\ level_map s !! lvl = None).
Proof.
  intros []. unfold level_map. rewrite tbl_lookup by done.
  destruct (find_key lvl (level_count s) (levels s)) as [i|] eqn:E; [left|by right].
  pose proof E as (e & He & Hi & Hk)%find_key_Some. exists i, e. by split_and!.
Qed.

Section sec_wp.
Context (s : SecurityManager) (m : Machine).
Hypothesis Hwf : sec_wf s.

Lemma wp_enter_sec (Q : unit -> SecurityManager -> Machine -> Prop) :
  (forall s0, sec_wf s0 -> level_map s0 = level_map s -> level_count s0 = level_count s ->
     levels s0 = levels s -> current_level s0 = current_level s -> sec_config s0 = sec_config s ->
     crit s0 = mkCS (Z.b2z (primask m)) true -> Q tt s0 (m <| primask := true |>)) -> wp enter Q s m.
Proof. intros HQ. apply wp_enter, HQ; try done. by apply sec_wf_crit. Qed.

Lemma wp_exit_sec b (Q : unit -> SecurityManager -> Machine -> Prop) :
  crit s = mkCS (Z.b2z b) true -> primask m = true ->
  (forall s', sec_wf s' -> level_map s' = level_map s -> current_level s' = current_level s ->
     Q tt s' (m <| primask := b |>)) -> wp exit Q s m.
Proof. intros Hc Hm HQ. eapply wp_exit; eauto. apply HQ; [by apply sec_wf_crit|done..]. Qed.

Lemma wp_find_level lvl Q :
  Q (find_key lvl (level_count s) (levels s)) s m -> wp (find_security_level lvl) Q s m.
Proof using. intros HQ. unfold find_security_level. by wp_steps. Qed.

Lemma wp_on_state {A} i e x (a : A) (c : M Ctx A) Q :
  levels s !! i = Some e -> (i < level_count s)%nat ->
  wp c (fun b y m' => (b, y, m') = (a, Some x, m)) (Some (entry_state e)) m ->
  (forall s', sec_wf s' -> levels s' !! i = Some (with_state e x) ->
     levels s' = <[i := with_state e x]> (levels s) ->
     level_map s' = <[lvl_level (level_config e) := with_state e x]> (level_map s) ->
     level_count s' = level_count s -> current_level s' = current_level s ->
     sec_config s' = sec_config s -> crit s' = crit s -> Q a s' m) ->
  wp (on_state i c) Q s m.
Proof.
  intros Hi Hin Hc HQ. pose proof Hwf as []. unfold on_state. apply wp_zoom. rewrite Hi. simpl.
  eapply wp_mono; [exact Hc|]. intros b y m' [= -> -> ->].
  destruct (tbl_update (level_count s) (levels s) i (with_state e x) e) as [Hu Ht]; try done.
  assert (Hal : alter (fun e => e <| entry_state := x |>) i (levels s) = <[i := with_state e x]> (levels s))
    by (by erewrite alter_as_insert). simpl in Hal.
  apply HQ; try done; simpl; rewrite ?Hal; try done.
  - constructor; simpl; rewrite ?Hal, ?length_insert; auto.
  - apply list_lookup_insert_eq. by eapply lookup_lt_Some.
Qed.

Lemma wp_entry_state i e Q :
  levels s !! i = Some e -> (i < level_count s)%nat -> Q (state (entry_state e)) s m ->
  wp (on_state i Security_State_GetState) Q s m.
Proof.
  intros Hi Hin HQ. unfold on_state. apply wp_zoom. rewrite Hi. simpl. unfold Security_State_GetState.
  apply wp_bind, wp_get, wp_ret. simpl.
  match goal with |- Q _ ?x _ => replace x with s; [done|] end.
  destruct s as [? l ? ? ? ?]. unfold setf. simpl in *. f_equal. erewrite alter_as_insert by done.
  symmetry. apply list_insert_id. rewrite Hi. by destruct e.
Qed.
End sec_wp.

(** ** The specification *)

Inductive SecurityOp :=
| SeedRequest (lvl : Z) (buf : list Z) (ts1 ts2 : Z)
| KeyRequest (lvl : Z) (key : list Z) (ts : Z)
| LockRequest (lvl : Z)
| AddLevel (l : SecurityLevel) (ts : Z)
| DropLevel (lvl : Z).
Inductive SecurityOut := OutSeed (seed : option (list Z)) | OutBool (b : bool).

Definition secm_exec (clk : Z) (op : SecurityOp) : M SecurityManager SecurityOut :=
  match op with
  | SeedRequest lvl buf ts1 ts2 => o ← Security_Manager_RequestSeed clk ts1 ts2 lvl (Some buf); mret (OutSeed o)
  | KeyRequest lvl key ts => b ← Security_Manager_ValidateKey clk ts lvl (Some key); mret (OutBool b)
  | LockRequest lvl => b ← Security_Manager_LockLevel lvl; mret (OutBool b)
  | AddLevel l ts => b ← Security_Manager_AddSecurityLevel clk ts (Some l); mret (OutBool b)
  | DropLevel lvl => b ← Security_Manager_RemoveSecurityLevel lvl; mret (OutBool b)
  end.

Definition report (on : bool) (name : string) (args : list Z) : list Call :=
  if on then [call name args] else [].

(** What an operation answers and does to the levels and the current level, and
    the callbacks it makes. *)
Definition secm_spec (op : SecurityOp) (cfg : SecurityManagerConfig)
    (mp : gmap Z SecurityLevelEntry) (cur : Z)
  : SecurityOut * gmap Z SecurityLevelEntry * Z * list Call :=
  match op with
  | SeedRequest lvl buf ts1 ts2 =>
    match mp !! lvl, (length buf <? SEED_LENGTH)%nat with
    | Some e, false =>
      let c := entry_state e in
      let c' := sec_next (OpSeed ts1 ts2) c in
      (OutSeed (le_bytes SEED_LENGTH <$> seed_answer ts1 ts2 c), <[lvl := with_state e c']> mp, cur,
       if bool_decide (seed_answer ts1 ts2 c = None /\ state c' = SECURITY_STATE_DELAY_ACTIVE)
       then report (violation_callback cfg) "violation_callback"
              [lvl; violation_value SECURITY_VIOLATION_DELAY_NOT_EXPIRED] else [])
    | _, _ => (OutSeed None, mp, cur, [])
    end
  | KeyRequest lvl key ts =>
    match mp !! lvl, (length key <? SEED_LENGTH)%nat with
    | Some e, false =>
      let c := entry_state e in
      let value := le_value (take SEED_LENGTH key) in
      let c' := sec_next (OpKey ts value) c in
      (OutBool (key_accepted value c), <[lvl := with_state e c']> mp,
       if key_accepted value c then lvl else cur,
       if key_accepted value c then report (security_callback cfg) "security_callback" [lvl; 1]
       else report (violation_callback cfg) "violation_callback"
              [lvl; violation_value (if decide (state c' = SECURITY_STATE_DELAY_ACTIVE)
                                     then SECURITY_VIOLATION_ATTEMPT_LIMIT
                                     else SECURITY_VIOLATION_INVALID_KEY)])
    | _, _ => (OutBool false, mp, cur, [])
    end
  | LockRequest lvl =>
    match mp !! lvl with
    | Some e => (OutBool true, <[lvl := with_state e (sec_next OpLock (entry_state e))]> mp,
                 if cur =? lvl then 0 else cur, [])
    | None => (OutBool false, mp, cur, [])
    end
  | AddLevel l ts =>
    if bool_decide (is_Some (mp !! lvl_level l)) || (MAX_SECURITY_LEVELS <=? size mp)%nat
    then (OutBool false, mp, cur, [])
    else (OutBool true, <[lvl_level l := mkEntry l (mkSecurity (lvl_level l) SECURITY_STATE_LOCKED ts 0 0 0)]> mp,
          cur, [])
  | DropLevel lvl =>
    match mp !! lvl with
    | Some _ => (OutBool true, delete lvl mp, if cur =? lvl then 0 else cur, [])
    | None => (OutBool false, mp, cur, [])
    end
  end.

Definition secm_conforms (op : SecurityOp) (s : SecurityManager) (m : Machine)
    (out : SecurityOut) (s' : SecurityManager) (m' : Machine) : Prop :=
  let '(answer, mp, cur, calls) := secm_spec op (sec_config s) (level_map s) (current_level s) in
  sec_wf s' /\ out = answer /\ level_map s' = mp /\ current_level s' = cur /\
  m' = m <| trace ::= fun t => t ++ calls |>.

Ltac sec_enter Hw :=
  apply wp_bind, wp_get; rewrite ?(sw_initialized _ Hw); cbn [negb orb];
  apply wp_bind, wp_enter_sec; [exact Hw|];
  let s0 := fresh "s0" in let Hw0 := fresh "Hw0" in let Hm0 := fresh "Hm0" in
  let Hn0 := fresh "Hn0" in let Hl0 := fresh "Hl0" in let Hcur0 := fresh "Hcur0" in
  let Hcf0 := fresh "Hcf0" in let Hc0 := fresh "Hc0" in
  intros s0 Hw0 Hm0 Hn0 Hl0 Hcur0 Hcf0 Hc0; rewrite <- Hm0, <- Hcur0; try rewrite <- Hcf0;
  apply wp_bind, wp_find_level.
Ltac sec_exit :=
  apply wp_bind; eapply wp_exit_sec; [eassumption|(eassumption || congruence)|done|];
  let s' := fresh "s'" in let Hw' := fresh "Hw'" in let Hm' := fresh "Hm'" in
  let Hcur' := fresh "Hcur'" in
  intros s' Hw' Hm' Hcur'; apply wp_ret, wp_ret.

Lemma mask_back m (f : list Call -> list Call) :
  m <| primask := true |> <| trace ::= f |> <| primask := primask m |> = m <| trace ::= f |>.
Proof. by destruct m. Qed.
Lemma mask_back_quiet m : m <| primask := true |> <| primask := primask m |> = m <| trace ::= fun t => t ++ [] |>.
Proof. destruct m. cbn. by rewrite app_nil_r. Qed.
Lemma quiet m : m = m <| trace ::= fun t => t ++ [] |>.
Proof. destruct m. cbn. by rewrite app_nil_r. Qed.

Lemma wp_violation lvl v s m (Q : unit -> SecurityManager -> Machine -> Prop) :
  Q tt s (m <| trace ::= fun t => t ++ report (violation_callback (sec_config s)) "violation_callback"
                                        [lvl; violation_value v] |>) ->
  wp (violation lvl v) Q s m.
Proof. intros HQ. unfold violation. apply wp_bind, wp_get. by apply wp_callback. Qed.

Section conform.
Context (clk : Z) (s : SecurityManager) (m : Machine).
Hypotheses (Hw : sec_wf s) (Ht : timer_initialized m = true).

Lemma seed_wp lvl buf ts1 ts2 :
  wp (secm_exec clk (SeedRequest lvl buf ts1 ts2)) (secm_conforms (SeedRequest lvl buf ts1 ts2) s m) s m.
Proof.
  simpl. unfold Security_Manager_RequestSeed, secm_conforms, secm_spec. apply wp_bind.
  destruct (length buf <? SEED_LENGTH)%nat.
  { apply wp_bind, wp_get. rewrite orb_true_r. apply wp_ret, wp_ret.
    destruct (level_map s !! lvl); split_and!; try done; apply quiet. }
  sec_enter Hw. destruct (level_lookup s0 lvl Hw0) as [(i & e & -> & Hi & Hin & <- & ->)|[-> ->]].
  2: { sec_exit. rewrite mask_back_quiet. by split_and!. }
  apply wp_bind. eapply wp_on_state; [done|done|done|by apply request_run|].
  intros s1 Hw1 Hi1 _ Hm1 Hn1 Hcur1 Hcf1 Hc1. rewrite <- Hc1 in Hc0. apply wp_bind.
  destruct (seed_answer ts1 ts2 (entry_state e)) as [v|].
  - rewrite (bool_decide_eq_false_2 (Some v = None)) by done.
    apply wp_ret. sec_exit. rewrite mask_back_quiet, bool_decide_eq_false_2 by (by intros [? ?]).
    split_and!; (done || congruence).
  - rewrite (bool_decide_eq_true_2 (@None Z = None)) by done.
    apply wp_bind. eapply wp_entry_state; [done|done|congruence|].
    change (entry_state (with_state e ?x)) with x. case_decide as Hd.
    + apply wp_violation. sec_exit. rewrite bool_decide_eq_true_2 by done.
      split_and!; try done; try congruence. rewrite Hcf1. apply mask_back.
    + apply wp_ret. sec_exit. rewrite bool_decide_eq_false_2, mask_back_quiet by (by intros [? ?]).
      split_and!; (done || congruence).
Qed.

Lemma key_wp lvl key ts :
  wp (secm_exec clk (KeyRequest lvl key ts)) (secm_conforms (KeyRequest lvl key ts) s m) s m.
Proof.
  simpl. unfold Security_Manager_ValidateKey, secm_conforms, secm_spec. apply wp_bind.
  destruct (length key <? SEED_LENGTH)%nat.
  { apply wp_bind, wp_get. rewrite orb_true_r. apply wp_ret, wp_ret.
    destruct (level_map s !! lvl); split_and!; try done; apply quiet. }
  sec_enter Hw. destruct (level_lookup s0 lvl Hw0) as [(i & e & -> & Hi & Hin & <- & ->)|[-> ->]].
  2: { sec_exit. rewrite mask_back_quiet. by split_and!. }
  cbv zeta. apply wp_bind. eapply wp_on_state; [done|done|done|by apply validate_run|].
  intros s1 Hw1 Hi1 _ Hm1 Hn1 Hcur1 Hcf1 Hc1. rewrite <- Hc1 in Hc0.
  unfold key_verdict. apply wp_bind. destruct (key_accepted _ _).
  - apply wp_bind, wp_modify, wp_bind, wp_get, wp_callback.
    match goal with |- wp _ _ ?x _ => set (s2 := x) end.
    assert (Hw2 : sec_wf s2) by (destruct Hw1; by constructor).
    change (crit s1) with (crit s2) in Hc0. sec_exit.
    split_and!; [done|done|rewrite Hm'; exact Hm1|done|]. rewrite <- Hcf1. apply mask_back.
  - apply wp_bind. eapply wp_entry_state; [done|done|congruence|].
    change (entry_state (with_state e ?x)) with x.
    case_decide as Hd; apply wp_violation; sec_exit; (split_and!; try done; try congruence; rewrite Hcf1; apply mask_back).
Qed.

Lemma lock_wp lvl : wp (secm_exec clk (LockRequest lvl)) (secm_conforms (LockRequest lvl) s m) s m.
Proof using Hw.
  simpl. unfold Security_Manager_LockLevel, secm_conforms, secm_spec. apply wp_bind.
  sec_enter Hw. destruct (level_lookup s0 lvl Hw0) as [(i & e & -> & Hi & Hin & <- & ->)|[-> ->]].
  2: { sec_exit. rewrite mask_back_quiet. by split_and!. }
  apply wp_bind. eapply wp_on_state; [done|done|done|by apply lock_run|].
  intros s1 Hw1 Hi1 _ Hm1 Hn1 Hcur1 Hcf1 Hc1. rewrite <- Hc1 in Hc0. apply wp_bind, wp_get, wp_bind.
  rewrite <- Hcur1. cbn [andb]. destruct (current_level s1 =? _).
  - apply wp_modify. match goal with |- wp _ _ ?x _ => set (s2 := x) end.
    assert (Hw2 : sec_wf s2) by (destruct Hw1; by constructor).
    change (crit s1) with (crit s2) in Hc0. sec_exit. rewrite mask_back_quiet.
    split_and!; [done|done|rewrite Hm'; exact Hm1|done..].
  - apply wp_ret. sec_exit. rewrite mask_back_quiet. split_and!; (done || congruence).
Qed.

Lemma drop_wp lvl : wp (secm_exec clk (DropLevel lvl)) (secm_conforms (DropLevel lvl) s m) s m.
Proof using Hw.
  simpl. unfold Security_Manager_RemoveSecurityLevel, secm_conforms, secm_spec. apply wp_bind.
  sec_enter Hw. destruct (level_lookup s0 lvl Hw0) as [(i & e & Hk & Hi & Hin & Hlv & ->)|[-> ->]].
  2: { sec_exit. rewrite mask_back_quiet. by split_and!. }
  rewrite Hk. pose proof Hw0 as []. apply wp_bind, wp_modify.
  match goal with |- wp _ _ ?x _ => set (s1 := x) end.
  destruct (tbl_remove lvl (level_count s0) (levels s0) i) as [Hu Htb]; [lia|done|done|].
  assert (Hw1 : sec_wf s1).
  { constructor; simpl; rewrite ?remove_record_memmove, ?length_memmove_down by lia; auto. lia. }
  assert (Hm1 : level_map s1 = delete lvl (level_map s0)).
  { unfold level_map. simpl. by rewrite remove_record_memmove, Htb. }
  change (crit s0) with (crit s1) in Hc0. apply wp_bind, wp_get, wp_bind.
  change (current_level s0) with (current_level s1). destruct (current_level s1 =? lvl).
  - apply wp_modify. match goal with |- wp _ _ ?x _ => set (s2 := x) end.
    assert (Hw2 : sec_wf s2) by (destruct Hw1; by constructor).
    change (crit s1) with (crit s2) in Hc0. sec_exit. rewrite mask_back_quiet.
    split_and!; [done|done|rewrite Hm'; exact Hm1|done..].
  - apply wp_ret. sec_exit. rewrite mask_back_quiet. split_and!; (done || congruence).
Qed.

Lemma sec_size s0 : sec_wf s0 -> size (level_map s0) = level_count s0.
Proof using. intros []. apply tbl_size; [done|lia]. Qed.

Lemma add_level_wp l ts : wp (secm_exec clk (AddLevel l ts)) (secm_conforms (AddLevel l ts) s m) s m.
Proof.
  simpl. unfold Security_Manager_AddSecurityLevel, secm_conforms, secm_spec. apply wp_bind.
  sec_enter Hw. rewrite (sec_size s0 Hw0), <- Hn0.
  destruct (level_lookup s0 (lvl_level l) Hw0) as [(i & e & -> & Hi & Hin & Hlv & ->)|[Hk ->]].
  { rewrite !bool_decide_eq_true_2 by (by eexists). simpl. sec_exit. rewrite mask_back_quiet. by split_and!. }
  rewrite Hk, !bool_decide_eq_false_2 by (by intros [? ?]). simpl.
  destruct (_ <=? _)%nat eqn:Hfull; tests.
  { sec_exit. rewrite mask_back_quiet. by split_and!. }
  pose proof Hw0 as []. destruct (lookup_lt_is_Some_2 (levels s0) (level_count s0)) as [e0 He0]; [lia|].
  set (e := mkEntry l (mkSecurity (lvl_level l) SECURITY_STATE_LOCKED ts 0 0 0)).
  destruct (tbl_push (level_count s0) (levels s0) e) as [Hu Htb]; [lia|done|done|].
  apply wp_bind, wp_modify, wp_bind. unfold on_state. apply wp_zoom. simpl.
  erewrite (alter_as_insert _ _ e0) by done.
  rewrite list_lookup_insert_eq by lia. simpl.
  eapply wp_mono; [by apply init_run|]. intros b x m' [= -> -> ->].
  apply wp_bind, wp_modify. match goal with |- wp _ _ ?x _ => set (s1 := x) end.
  assert (Hs1 : levels s1 = <[level_count s0 := e]> (levels s0)).
  { subst s1. simpl. erewrite alter_as_insert by (apply list_lookup_insert_eq; lia).
    rewrite list_insert_insert_eq. done. }
  assert (Hw1 : sec_wf s1).
  { constructor; rewrite ?Hs1, ?length_insert; try done. }
  assert (Hm1 : level_map s1 = <[lvl_level l := e]> (level_map s0)).
  { unfold level_map. rewrite Hs1. exact Htb. }
  change (crit s0) with (crit s1) in Hc0. sec_exit. rewrite mask_back_quiet.
  split_and!; try done. by rewrite Hm', Hm1.
Qed.
End conform.

Lemma secm_exec_conforms clk op s m :
  sec_wf s -> timer_initialized m = true -> wp (secm_exec clk op) (secm_conforms op s m) s m.
Proof.
  intros Hw Ht. destruct op; [by apply seed_wp|by apply key_wp|by apply lock_wp|by apply add_level_wp|by apply drop_wp].
Qed.

(** ** Timeouts *)

Definition timed_out_entry (t : Z) (e : SecurityLevelEntry) : SecurityLevelEntry :=
  with_state e (sec_next (OpTimeout t) (entry_state e)).

Lemma timeout_levels_wp clk ts k i s m :
  sec_wf s -> timer_initialized m = true -> (i + k <= level_count s)%nat ->
  wp (timeout_levels clk ts k i) (fun _ s' m' =>
    m' = m /\ sec_wf s' /\ level_count s' = level_count s /\ current_level s' = current_level s /\
    sec_config s' = sec_config s /\ crit s' = crit s /\
    forall j e, levels s !! j = Some e -> levels s' !! j = Some
      (if decide (i <= j < i + k)%nat then timed_out_entry (ts j) e else e)) s m.
Proof.
  intros Hw Ht. revert i s Hw. induction k as [|k IH]; intros i s Hw Hk; cbn [timeout_levels].
  { apply wp_ret. split_and!; try done. intros j e He. rewrite decide_False by lia. done. }
  destruct (lookup_lt_is_Some_2 (levels s) i) as [e He]; [destruct Hw; lia|].
  apply wp_bind.
  assert (Hrun : wp (Security_State_ProcessTimeout clk (ts i)) (fun b x m' =>
    exists b', (b, x, m') = (b', Some (sec_next (OpTimeout (ts i)) (entry_state e)), m)) (Some (entry_state e)) m).
  { eapply wp_mono; [by apply timeout_run|]. intros b x m' [= -> ->]. by exists b. }
  unfold wp in Hrun. destruct (Security_State_ProcessTimeout _ _ _ _) as [[[b x] m1]|] eqn:Er; [|done].
  destruct Hrun as (b' & [= _ -> ->]).
  eapply (wp_on_state s m Hw i e _ b); [done|lia|unfold wp; by rewrite Er|].
  intros s1 Hw1 Hi1 Hl1 _ Hn1 Hcur1 Hcf1 Hc1. eapply wp_mono; [apply IH; [done|lia]|].
  intros [] s' m' (-> & Hw' & Hn' & Hcur' & Hcf' & Hc' & Hl'). split_and!; try done; try congruence.
  intros j f Hf. destruct (decide (j = i)) as [->|Hne].
  - rewrite (Hl' i _ Hi1), decide_False, decide_True by lia. assert (f = e) as -> by congruence. done.
  - rewrite (Hl' j f) by (by rewrite Hl1, list_lookup_insert_ne). f_equal.
    destruct (decide (S i <= j < S i + k)%nat); [rewrite decide_True by lia|rewrite decide_False by lia]; done.
Qed.

Lemma process_timeout_sec clk ts s m :
  sec_wf s -> timer_initialized m = true ->
  wp (Security_Manager_ProcessTimeout clk ts) (fun _ s' m' =>
    m' = m /\ sec_wf s' /\ current_level s' = current_level s /\ sec_config s' = sec_config s /\
    level_count s' = level_count s /\
    forall j e, (j < level_count s)%nat -> levels s !! j = Some e ->
      levels s' !! j = Some (timed_out_entry (ts j) e)) s m.
Proof.
  intros Hw Ht. unfold Security_Manager_ProcessTimeout. apply wp_bind, wp_get.
  rewrite (sw_initialized _ Hw). cbn [negb]. apply wp_bind, wp_enter, wp_bind.
  eapply wp_mono; [apply (timeout_levels_wp clk ts _ 0); [by apply sec_wf_crit|done|done]|].
  intros [] s1 m1 (-> & Hw1 & Hn1 & Hcur1 & Hcf1 & Hc1 & Hl1).
  eapply (wp_exit (primask m)); [exact Hc1|done|]. split_and!; try done.
  - by destruct m.
  - by apply sec_wf_crit.
  - intros j e Hj He. etrans; [exact (Hl1 j e He)|]. by rewrite decide_True by lia.
Qed.

(** The polled levels as a map: each entry after its own timeout check. *)
Lemma timeout_map s s' (ts : nat -> Z) :
  sec_wf s -> sec_wf s' -> level_count s' = level_count s ->
  (forall j e, (j < level_count s)%nat -> levels s !! j = Some e ->
     levels s' !! j = Some (timed_out_entry (ts j) e)) ->
  forall lvl e, level_map s !! lvl = Some e -> exists t, level_map s' !! lvl = Some (timed_out_entry t e).
Proof.
  intros Hw Hw' Hn Hl lvl e He.
  destruct (level_lookup s lvl Hw) as [(i & e' & _ & Hi & Hin & Hlv & Hm)|[_ Hm]]; [|congruence].
  assert (e' = e) as -> by congruence. exists (ts i). unfold level_map.
  rewrite tbl_lookup by apply Hw'.
  rewrite (find_key_uniq lvl _ _ i (timed_out_entry (ts i) e)); [|apply Hw'|by apply Hl|lia|exact Hlv].
  simpl. by apply Hl.
Qed.

(** ** Access *)

(** The current level, if there is one, is unlocked. *)
Definition granted (mp : gmap Z SecurityLevelEntry) (cur : Z) : Prop :=
  cur <> 0 -> exists e, mp !! cur = Some e /\ state (entry_state e) = SECURITY_STATE_UNLOCKED.

Lemma granted_insert mp cur k e x :
  granted mp cur -> mp !! k = Some e ->
  (state (entry_state e) = SECURITY_STATE_UNLOCKED -> state x = SECURITY_STATE_UNLOCKED) ->
  granted (<[k := with_state e x]> mp) cur.
Proof.
  intros Hg Hk Hx Hc. destruct (Hg Hc) as (e' & He' & Hs'). destruct (decide (k = cur)) as [->|Hne].
  - assert (e' = e) as -> by congruence. eexists. rewrite lookup_insert_eq. split; [done|]. by apply Hx.
  - exists e'. by rewrite lookup_insert_ne.
Qed.

Lemma accepted_unlocks ts key c :
  key_accepted key c = true -> state (sec_next (OpKey ts key) c) = SECURITY_STATE_UNLOCKED.
Proof.
  unfold key_accepted. intros [Hs Hk]%andb_true_iff. apply bool_decide_eq_true_1 in Hs.
  unfold sec_next. by rewrite Hs, Hk.
Qed.

Lemma rejected_stays ts key c :
  key_accepted key c = false -> state c = SECURITY_STATE_SEED_SENT ->
  state (sec_next (OpKey ts key) c) <> SECURITY_STATE_UNLOCKED.
Proof.
  unfold key_accepted. intros Hk Hs. rewrite (bool_decide_eq_true_2 _ Hs) in Hk. simpl in Hk.
  unfold sec_next. rewrite Hs, Hk. by destruct (MAX_ATTEMPTS <=? _).
Qed.

Lemma spec_granted op cfg mp cur :
  granted mp cur ->
  let '(_, mp', cur', _) := secm_spec op cfg mp cur in granted mp' cur'.
Proof.
  intros Hg. destruct op as [lvl buf ts1 ts2|lvl key ts|lvl|l ts|lvl]; unfold secm_spec.
  - destruct (mp !! lvl) as [e|] eqn:He; [|done]. destruct (_ <? _)%nat; [done|].
    apply granted_insert; [done|done|]. intros Hu. simpl. rewrite Hu. simpl. done.
  - destruct (mp !! lvl) as [e|] eqn:He; [|done]. destruct (_ <? _)%nat; [done|].
    destruct (key_accepted _ _) eqn:Hk.
    + intros _. eexists. rewrite lookup_insert_eq. split; [done|]. exact (accepted_unlocks ts _ _ Hk).
    + apply granted_insert; [done|done|]. intros Hu. simpl. by rewrite Hu.
  - destruct (mp !! lvl) as [e|] eqn:He; [|done]. destruct (cur =? lvl) eqn:E; tests; [by intros []|].
    intros Hc. destruct (Hg Hc) as (e' & He' & Hs'). exists e'. by rewrite lookup_insert_ne by congruence.
  - destruct (bool_decide_reflect (is_Some (mp !! lvl_level l))) as [Hs|Hs]; simpl; [done|].
    destruct (_ <=? _)%nat; [done|]. intros Hc. destruct (Hg Hc) as (e' & He' & Hs'). exists e'.
    rewrite lookup_insert_ne; [done|]. intros <-. apply Hs. by eexists.
  - destruct (mp !! lvl) as [e|] eqn:He; [|done]. destruct (cur =? lvl) eqn:E; tests; [by intros []|].
    intros Hc. destruct (Hg Hc) as (e' & He' & Hs'). exists e'. by rewrite lookup_delete_ne by congruence.
Qed.

Lemma granted_timeout s s' :
  granted (level_map s) (current_level s) -> current_level s' = current_level s ->
  (forall lvl e, level_map s !! lvl = Some e -> exists t, level_map s' !! lvl = Some (timed_out_entry t e)) ->
  granted (level_map s') (current_level s').
Proof.
  intros Hg -> Hm Hc. destruct (Hg Hc) as (e & He & Hs). destruct (Hm _ _ He) as (t & Ht).
  eexists. split; [exact Ht|]. unfold timed_out_entry. simpl.
  rewrite bool_decide_eq_false_2 by congruence. done.
Qed.

(** Calls in any order, polls in between. *)
Inductive SecurityAction := Request (op : SecurityOp) | Poll (ts : nat -> Z).
Fixpoint secm_run (clk : Z) (acts : list SecurityAction) : M SecurityManager unit :=
  match acts with
  | [] => mret tt
  | Request op :: acts => _ ← secm_exec clk op; secm_run clk acts
  | Poll ts :: acts => Security_Manager_ProcessTimeout clk ts;; secm_run clk acts
  end.

Lemma secm_run_granted clk acts s m :
  sec_wf s -> timer_initialized m = true -> granted (level_map s) (current_level s) ->
  wp (secm_run clk acts) (fun _ s' m' =>
    sec_wf s' /\ primask m' = primask m /\ granted (level_map s') (current_level s')) s m.
Proof.
  revert s m. induction acts as [|[op|ts] acts IH]; intros s m Hw Ht Hg; cbn [secm_run].
  - by apply wp_ret.
  - apply wp_bind. eapply wp_mono; [by apply secm_exec_conforms|]. intros out s1 m1 H1.
    unfold secm_conforms in H1.
    pose proof (spec_granted op (sec_config s) (level_map s) (current_level s) Hg) as Hs.
    destruct (secm_spec _ _ _ _) as [[[ans mp] cur] calls]. destruct H1 as (Hw1 & _ & <- & <- & ->).
    eapply wp_mono; [apply IH; done|]. intros [] s' m' (? & Hp & ?). by split_and!.
  - apply wp_bind. eapply wp_mono; [by apply process_timeout_sec|].
    intros [] s1 m1 (-> & Hw1 & Hcur1 & _ & Hn1 & Hl1). apply IH; [done|done|].
    eapply granted_timeout; [exact Hg|done|]. by eapply timeout_map.
Qed.


Lemma unlocked_wp lvl s m :
  sec_wf s ->
  wp (Security_Manager_IsLevelUnlocked lvl) (fun b s' m' =>
    b = bool_decide ((fun e => state (entry_state e)) <$> level_map s !! lvl = Some SECURITY_STATE_UNLOCKED) /\
    m' = m /\ sec_wf s' /\ level_map s' = level_map s /\ current_level s' = current_level s) s m.
Proof.
  intros Hw. unfold Security_Manager_IsLevelUnlocked. sec_enter Hw. apply wp_bind.
  assert (Hm : m <| primask := true |> <| primask := primask m |> = m) by (by destruct m).
  destruct (level_lookup s0 lvl Hw0) as [(i & e & -> & Hi & Hin & <- & ->)|[-> ->]].
  - apply wp_bind. eapply wp_entry_state; [done|done|done|]. apply wp_ret.
    apply wp_bind. eapply wp_exit_sec; [done|exact Hc0|done|]. intros s' Hw' Hm' Hcur'. apply wp_ret.
    rewrite Hm. split_and!; try done. apply bool_decide_ext. simpl. split; [by intros ->|by intros [= ->]].
  - apply wp_ret, wp_bind. eapply wp_exit_sec; [done|exact Hc0|done|]. intros s' Hw' Hm' Hcur'. apply wp_ret.
    rewrite Hm. by split_and!.
Qed.

(** ** Initialisation *)

Definition fresh_entry (t : Z) (l : SecurityLevel) : SecurityLevelEntry :=
  mkEntry l (mkSecurity (lvl_level l) SECURITY_STATE_LOCKED t 0 0 0).

Lemma init_levels_wp clk ts ls i s m :
  (i + length ls <= length (levels s))%nat ->
  wp (init_levels clk ts ls i) (fun _ s' m' =>
    s' = s <| levels ::= fun l =>
           take i l ++ imap (fun j x => fresh_entry (ts (i + j)%nat) x) ls ++ drop (i + length ls) l |> /\
    primask m' = primask m) s m.
Proof.
  revert i s m. induction ls as [|l ls IH]; intros i s m Hl; cbn [init_levels]; simpl length in *.
  { apply wp_ret. split; [|done]. destruct s. unfold setf. simpl. f_equal. by rewrite Nat.add_0_r, take_drop. }
  destruct (lookup_lt_is_Some_2 (levels s) i) as [e He]; [lia|].
  apply wp_bind, wp_modify, wp_bind. unfold on_state. apply wp_zoom. simpl.
  erewrite (alter_as_insert _ _ e) by done. rewrite list_lookup_insert_eq by lia. simpl.
  unfold Security_State_Init, get_timestamp, set_ctx.
  apply wp_bind, wp_get. simpl. apply wp_bind, wp_modify, wp_bind, wp_bind, wp_timer_init. intros tr.
  apply wp_ret, wp_bind, wp_modify, wp_ret. simpl.
  erewrite alter_as_insert by (apply list_lookup_insert_eq; lia). rewrite list_insert_insert_eq.
  eapply wp_mono; [apply IH; simpl; rewrite length_insert; lia|].
  intros [] s' m' [-> Hp']. split; [|done]. destruct s as [? lv ? ? ? ?]. unfold setf. simpl in *. f_equal.
  rewrite (take_S_r _ i (fresh_entry (ts i) l)) by (apply list_lookup_insert_eq; by eapply lookup_lt_Some).
  rewrite take_insert_ge, drop_insert_lt by lia. rewrite <- app_assoc, Nat.add_0_r. simpl.
  rewrite Nat.add_succ_r. do 3 f_equal. apply imap_ext. intros j x _. simpl. by rewrite Nat.add_succ_r.
Qed.

Definition example_level : SecurityLevel := mkLevel 1 10000 3.
Definition example_security : SecurityManager :=
  mkSecurityManager (mkSecurityConfig None 0 0 0 true true)
    (fresh_entry 0 example_level :: fresh_entry 0 (mkLevel 3 10000 3) :: replicate 14 entry_zero) 2 0 true cs_zero.
Lemma example_security_wf : sec_wf example_security.
Proof.
  constructor; try done.
  - simpl. unfold MAX_SECURITY_LEVELS. lia.
  - apply (bool_decide_unpack _). by vm_compute.
Qed.
Definition running_timers : Machine := boot <| timer_initialized := true |>.

(** ** Properties *)

(** C10. The security manager is a finite map from levels to state machines and
    the level access was last granted to: requesting a seed, presenting a key,
    locking, adding and removing a level return the specified answer, run
    exactly the state machine of the named level, change the current level
    exactly as specified, and report exactly the specified callback. *)
Theorem security_manager_refines clk op s m :
  sec_wf s -> timer_initialized m = true ->
  wp (secm_exec clk op) (fun out s' m' =>
    let '(answer, mp, cur, calls) := secm_spec op (sec_config s) (level_map s) (current_level s) in
    sec_wf s' /\ out = answer /\ level_map s' = mp /\ current_level s' = cur /\
    m' = m <| trace ::= fun t => t ++ calls |>) s m.
Proof. intros Hw Ht. exact (secm_exec_conforms clk op s m Hw Ht). Qed.

(** Witness of [security_manager_refines]: a key without a seed. *)
Lemma security_manager_refines_witness :
  wp (secm_exec 0 (KeyRequest 1 [1; 2; 3; 4] 7)) (fun out s' m' =>
    let '(answer, mp, cur, calls) := secm_spec (KeyRequest 1 [1; 2; 3; 4] 7) (sec_config example_security)
      (level_map example_security) 0 in
    sec_wf s' /\ out = answer /\ level_map s' = mp /\ current_level s' = cur /\
    m' = running_timers <| trace ::= fun t => t ++ calls |>) example_security running_timers.
Proof.
  exact (security_manager_refines 0 (KeyRequest 1 [1; 2; 3; 4] 7) example_security running_timers
    example_security_wf eq_refl).
Defined.

(**  The seed and key exchange: a locked level answers a request with a
    four-byte seed, and of all keys that may follow exactly the one computed
    from that seed is accepted; then, and only then, the level reports itself
    unlocked and becomes the current level. *)
Theorem seed_key_exchange clk lvl buf key e ts1 ts2 ts s m :
  sec_wf s -> timer_initialized m = true -> is_u32 ts2 ->
  level_map s !! lvl = Some e -> state (entry_state e) = SECURITY_STATE_LOCKED ->
  (SEED_LENGTH <= length buf)%nat -> (SEED_LENGTH <= length key)%nat ->
  wp (answer ← Security_Manager_RequestSeed clk ts1 ts2 lvl (Some buf);
      ok ← Security_Manager_ValidateKey clk ts lvl (Some key);
      unlocked ← Security_Manager_IsLevelUnlocked lvl;
      cur ← Security_Manager_GetCurrentLevel;
      mret (answer, ok, unlocked, cur)) (fun out s' m' =>
    let '(answer, ok, unlocked, cur) := out in
    exists bytes, answer = Some bytes /\ length bytes = SEED_LENGTH /\
      ok = (le_value (take SEED_LENGTH key) =? calculate_key (le_value bytes)) /\
      unlocked = ok /\ cur = if ok then lvl else current_level s) s m.
Proof.
  intros Hw Ht Hts He Hst Hbuf Hkey. apply wp_bind.
  pose proof (secm_exec_conforms clk (SeedRequest lvl buf ts1 ts2) s m Hw Ht) as H1.
  unfold wp, secm_exec, mbind, M_bind in H1. unfold wp at 1.
  destruct (Security_Manager_RequestSeed clk ts1 ts2 lvl (Some buf) s m) as [[[o s1] m1]|]; [|done].
  unfold mret, M_ret, secm_conforms, secm_spec in H1. rewrite He, (proj2 (Nat.ltb_ge _ _) Hbuf) in H1.
  destruct H1 as (Hw1 & Ho & Hm1 & Hcur1 & ->).
  set (sd := Z.lxor ts2 (u32 (SEED_KEY_MAGIC + level (entry_state e)))).
  assert (Hans : seed_answer ts1 ts2 (entry_state e) = Some sd) by (unfold seed_answer; by rewrite Hst).
  rewrite Hans in Ho. injection Ho as ->.
  set (c1 := sec_next (OpSeed ts1 ts2) (entry_state e)) in *.
  assert (Hc1 : state c1 = SECURITY_STATE_SEED_SENT /\ seed c1 = sd)
    by (unfold c1, sec_next; rewrite Hst; by rewrite bool_decide_eq_false_2).
  destruct Hc1 as [Hc1 Hsd].
  assert (Hsd32 : le_value (le_bytes SEED_LENGTH sd) = sd).
  { apply le_value_bytes. change (256 ^ Z.of_nat SEED_LENGTH) with (2 ^ 32).
    apply lxor_u32; [done|apply u32_range]. }
  apply wp_bind. match goal with |- wp _ _ _ ?x => set (m2 := x) end.
  pose proof (secm_exec_conforms clk (KeyRequest lvl key ts) s1 m2 Hw1 Ht) as H2.
  unfold wp, secm_exec, mbind, M_bind in H2. unfold wp at 1.
  destruct (Security_Manager_ValidateKey clk ts lvl (Some key) s1 m2) as [[[b s2] m3]|]; [|done].
  unfold mret, M_ret, secm_conforms, secm_spec in H2.
  rewrite Hm1, lookup_insert_eq, (proj2 (Nat.ltb_ge _ _) Hkey) in H2.
  destruct H2 as (Hw2 & [= Hb] & Hm2 & Hcur2 & _). change (entry_state (with_state e c1)) with c1 in *.
  assert (Hacc : key_accepted (le_value (take SEED_LENGTH key)) c1 =
    (le_value (take SEED_LENGTH key) =? calculate_key sd))
    by (unfold key_accepted; by rewrite Hsd, (bool_decide_eq_true_2 _ Hc1)).
  apply wp_bind. eapply wp_mono; [by apply unlocked_wp|]. intros u s3 m4 (-> & -> & Hw3 & Hm3 & Hcur3).
  apply wp_bind. unfold Security_Manager_GetCurrentLevel. apply wp_bind, wp_get, wp_ret, wp_ret.
  rewrite (sw_initialized _ Hw3), Hcur3, Hcur2, Hcur1, Hm2, lookup_insert_eq. simpl fmap.
  exists (le_bytes SEED_LENGTH sd). rewrite Hsd32, length_le_bytes. split_and!; try done; [by rewrite Hb, Hacc| |by rewrite Hb].
  rewrite Hb. destruct (key_accepted _ _) eqn:Hk.
  - apply bool_decide_eq_true_2. f_equal. exact (accepted_unlocks ts _ _ Hk).
  - apply bool_decide_eq_false_2. intros [= Hu]. exact (rejected_stays ts _ _ Hk Hc1 Hu).
Qed.

(** Witness of [seed_key_exchange]: a wrong key. *)
Lemma seed_key_exchange_witness :
  wp (answer ← Security_Manager_RequestSeed 0 5 5 1 (Some [0; 0; 0; 0]);
      ok ← Security_Manager_ValidateKey 0 6 1 (Some [1; 2; 3; 4]);
      unlocked ← Security_Manager_IsLevelUnlocked 1;
      cur ← Security_Manager_GetCurrentLevel;
      mret (answer, ok, unlocked, cur)) (fun out s' m' =>
    let '(answer, ok, unlocked, cur) := out in
    exists bytes, answer = Some bytes /\ length bytes = SEED_LENGTH /\
      ok = (le_value (take SEED_LENGTH [1; 2; 3; 4]) =? calculate_key (le_value bytes)) /\
      unlocked = ok /\ cur = if ok then 1 else 0) example_security running_timers.
Proof.
  apply (seed_key_exchange 0 1 [0; 0; 0; 0] [1; 2; 3; 4] (fresh_entry 0 example_level) 5 5 6
    example_security running_timers).
  - exact example_security_wf.
  - reflexivity.
  - unfold is_u32; lia.
  - reflexivity.
  - reflexivity.
  - simpl; unfold SEED_LENGTH; lia.
  - simpl; unfold SEED_LENGTH; lia.
Defined.

(**  Whatever is requested and polled, in whatever order, the current level
    is 0 or a level that is registered and unlocked at that moment; the
    interrupt mask is restored. *)
Theorem current_level_unlocked clk acts s m :
  sec_wf s -> timer_initialized m = true -> granted (level_map s) (current_level s) ->
  wp (secm_run clk acts) (fun _ s' m' =>
    sec_wf s' /\ primask m' = primask m /\ granted (level_map s') (current_level s')) s m.
Proof. intros. by apply secm_run_granted. Qed.

(** Witness of [current_level_unlocked]: an exchange, a poll, a removal. *)
Lemma current_level_unlocked_witness :
  let acts := [Request (SeedRequest 1 [0; 0; 0; 0] 5 5); Request (KeyRequest 1 [1; 2; 3; 4] 6);
               Poll (fun _ => 7); Request (DropLevel 1)] in
  wp (secm_run 0 acts) (fun _ s' m' =>
    sec_wf s' /\ primask m' = false /\ granted (level_map s') (current_level s'))
    example_security running_timers.
Proof.
  intros acts. apply (current_level_unlocked 0 acts example_security running_timers).
  - exact example_security_wf.
  - reflexivity.
  - intros H. by destruct H.
Defined.

(**  Initialisation registers the configured levels, at most sixteen of
    them, all locked, with no current level, and leaves interrupts masked. *)
Theorem security_init_locks clk ts cfg ls s m :
  let n := Nat.min (cfg_level_count cfg) MAX_SECURITY_LEVELS in
  length (levels s) = MAX_SECURITY_LEVELS -> cfg_levels cfg = Some ls -> (0 < cfg_level_count cfg)%nat ->
  (n <= length ls)%nat -> NoDup (lvl_level <$> take n ls) ->
  wp (Security_Manager_Init clk ts (Some cfg)) (fun b s' m' =>
    b = true /\ sec_wf s' /\ current_level s' = 0 /\ primask m' = true /\
    take n (levels s') = imap (fun j l => fresh_entry (ts j) l) (take n ls)) s m.
Proof.
  intros n Hlen Hls Hpos Hn Hnd. unfold Security_Manager_Init.
  apply wp_bind, wp_enter, wp_bind, wp_modify. rewrite Hls, (proj2 (Nat.ltb_lt _ _) Hpos).
  replace (if (cfg_level_count cfg <=? MAX_SECURITY_LEVELS)%nat then cfg_level_count cfg else MAX_SECURITY_LEVELS)
    with n by (unfold n; destruct (_ <=? _)%nat eqn:E; tests; lia).
  cbv zeta. rewrite (proj2 (Nat.ltb_ge _ _) Hn).
  assert (Hn16 : (n <= MAX_SECURITY_LEVELS)%nat) by lia.
  assert (Htl : length (take n ls) = n) by (rewrite length_take; lia).
  apply wp_bind_flat, wp_bind. eapply wp_mono; [apply init_levels_wp; simpl; lia|].
  intros [] s1 m1 [-> Hp1]. simpl in Hp1.
  apply wp_bind, wp_modify, wp_bind, wp_modify, wp_bind, wp_modify, wp_bind, wp_modify, wp_bind.
  apply wp_exit_unlocked; [done|]. apply wp_ret. simpl. rewrite Htl.
  set (new := imap _ _). assert (Hnew : length new = n) by (unfold new; by rewrite length_imap).
  assert (Htake : take n (new ++ drop n (levels s)) = new) by (by apply take_app_length').
  split_and!; try done. constructor; simpl; try done.
  - rewrite length_app, length_drop. lia.
  - unfold tbl_uniq. rewrite Htake. unfold new. rewrite fmap_imap.
    replace (imap _ (take n ls)) with (lvl_level <$> take n ls); [done|].
    rewrite <- (imap_const lvl_level). by apply imap_ext.
Qed.

(** Witness of [security_init_locks]: two levels, from power-on. *)
Lemma security_init_locks_witness :
  let ls := [example_level; mkLevel 3 10000 3] in
  wp (Security_Manager_Init 0 (fun _ => 9) (Some (mkSecurityConfig (Some ls) 2 0 0 true true)))
    (fun b s' m' =>
      b = true /\ sec_wf s' /\ current_level s' = 0 /\ primask m' = true /\
      take 2 (levels s') = imap (fun j l => fresh_entry 9 l) (take 2 ls)) security_manager_zero boot.
Proof.
  intros ls. apply (security_init_locks 0 (fun _ => 9) (mkSecurityConfig (Some ls) 2 0 0 true true) ls
    security_manager_zero boot).
  - reflexivity.
  - reflexivity.
  - simpl; lia.
  - simpl; unfold MAX_SECURITY_LEVELS; lia.
  - apply (bool_decide_unpack _). by vm_compute.
Defined.
