(* ===== verification/DiagSession.v ===== *)
(** * Diagnostic session of the core

    [src/runtime/diagnostic/diag_session.c]: the active session (1 default, 2
    programming, 3 extended, 4 factory) and the security access in front of the
    programming session, in one request handler.

    [clock] is what [DiagTimer_GetTimestamp] returns and [factory_word] the word
    at 0x20000000; both belong to the environment.  The watchdog is hardware:
    each refresh is recorded in the trace.  [calculate_key] is static in this
    file. *)

From S2P Require Import Prelude Machine Memory.

Record DiagSession := mkDiagSession {
  current_session : Z;
  session_timer : Z;
  p2_timer : Z;
  security_locked : bool;
  retry_counter : Z;
  last_seed : Z;
  waiting_for_key : bool;
  clock : Z;
  factory_word : Z }.
#[export] Instance eta_DiagSession : Eta DiagSession := fun s =>
  mkDiagSession (current_session s) (session_timer s) (p2_timer s) (security_locked s)
    (retry_counter s) (last_seed s) (waiting_for_key s) (clock s) (factory_word s).
(** Power-on: the initialisers of the file. *)
Definition session_boot (clock factory_word : Z) : DiagSession :=
  mkDiagSession 1 0 0 true 0 0 false clock factory_word.

Definition WATCHDOG_Refresh : M DiagSession unit := emit "WATCHDOG_Refresh" [].
Definition GetTimestamp : M DiagSession Z := s ← get; mret (clock s).

Definition DiagSession_Init : M DiagSession bool :=
  modify (fun s => s <| current_session := 1 |> <| security_locked := true |>);;
  t ← GetTimestamp;
  modify (fun s => s <| session_timer := t |>);;
  WATCHDOG_Refresh;;
  mret true.

Definition calculate_key (seed : Z) : Z :=
  let key := Z.lxor seed 0x75836AC4 in
  u32 (Z.lor (u32 (Z.shiftl key 13)) (Z.shiftr key 19) + 0x1234ABCD).

Definition generate_seed : M DiagSession Z :=
  time ← GetTimestamp;
  let seed := u32 (time * 16807) mod 0x7FFFFFFF in
  mret (if seed =? 0 then 1 else seed).

Definition check_factory_mode : M DiagSession bool :=
  s ← get; mret (factory_word s =? 0xFACF0123).

(** The switch of the session-control service: whether the change may go on. *)
Definition may_enter (subfunction : Z) : M DiagSession bool :=
  s ← get;
  if subfunction =? 1 then modify (fun s => s <| security_locked := true |>);; mret true
  else if subfunction =? 2 then mret (negb (security_locked s))
  else if subfunction =? 3 then
    (if current_session s =? 1 then t ← GetTimestamp; modify (fun s => s <| p2_timer := t |>) else mret tt);;
    mret true
  else if subfunction =? 4 then check_factory_mode
  else mret true.

Definition session_control (subfunction : Z) : M DiagSession bool :=
  if 4 <? subfunction then mret false else
  s ← get;
  if subfunction =? current_session s then
    t ← GetTimestamp; modify (fun s => s <| session_timer := t |>);; mret true
  else
  ok ← may_enter subfunction;
  if negb ok then mret false else
  modify (fun s => s <| current_session := subfunction |>);;
  t ← GetTimestamp;
  modify (fun s => s <| session_timer := t |>);;
  mret true.

Definition request_seed : M DiagSession bool :=
  s ← get;
  if 3 <=? retry_counter s then modify (fun s => s <| security_locked := true |>);; mret false else
  seed ← generate_seed;
  modify (fun s => s <| last_seed := seed |> <| waiting_for_key := true |>);;
  mret true.

(** [data] is the whole request; four bytes are read at [&data[2]]. *)
Definition send_key (data : list Z) : M DiagSession bool :=
  s ← get;
  if negb (waiting_for_key s) then mret false else
  if (length data <? 6)%nat then fault else
  let received_key := le_value (take 4 (drop 2 data)) in
  (if received_key =? calculate_key (last_seed s)
   then modify (fun s => s <| security_locked := false |> <| retry_counter := 0 |>)
   else modify (fun s => s <| retry_counter ::= fun n => u8 (n + 1) |>));;
  modify (fun s => s <| waiting_for_key := false |>);;
  s ← get;
  mret (negb (security_locked s)).

(** [data] is the [length] bytes of the request, [None] for NULL. *)
Definition DiagSession_HandleRequest (data : option (list Z)) : M DiagSession bool :=
  match data with
  | Some ((service :: subfunction :: _) as data) =>
    WATCHDOG_Refresh;;
    if service =? 0x10 then session_control subfunction else
    if service =? 0x27 then
      if negb (subfunction mod 2 =? 0) then request_seed else send_key data
    else mret true
  | _ => mret false
  end.

Definition DiagSession_Process : M DiagSession unit :=
  current_time ← GetTimestamp;
  s ← get;
  (if (5000 <=? u32 (current_time - session_timer s)) && negb (current_session s =? 1) then
     modify (fun s => s <| current_session := 1 |> <| security_locked := true |>
                        <| waiting_for_key := false |>)
   else mret tt);;
  s ← get;
  (if (current_session s =? 3) && (2000 <=? u32 (current_time - p2_timer s)) then
     modify (fun s => s <| p2_timer := current_time |>)
   else mret tt);;
  WATCHDOG_Refresh.

Definition DiagSession_GetCurrent : M DiagSession Z := s ← get; mret (current_session s).
Definition DiagSession_IsSecurityUnlocked : M DiagSession bool := s ← get; mret (negb (security_locked s)).
Definition get_session_time : M DiagSession Z :=
  t ← GetTimestamp; s ← get; mret (u32 (t - session_timer s)).
Definition check_timing (start timeout : Z) : M DiagSession bool :=
  t ← GetTimestamp; mret (u32 (t - start) <? timeout).

(** ** The session as a transition function *)

Inductive Event := Request (data : list Z) | Tick (now : Z) | Poll | Restart.

(** A request the handler can read: security access with an even sub-function
    carries a key. *)
Definition readable (ev : Event) : Prop :=
  match ev with
  | Request (0x27 :: sub :: rest) => sub mod 2 = 0 -> (4 <= length rest)%nat
  | _ => True
  end.

Definition session_exec (ev : Event) : M DiagSession bool :=
  match ev with
  | Request data => DiagSession_HandleRequest (Some data)
  | Tick now => modify (fun s => s <| clock := now |>);; mret true
  | Poll => DiagSession_Process;; mret true
  | Restart => DiagSession_Init
  end.

Definition seed_at (t : Z) : Z :=
  let seed := u32 (t * 16807) mod 0x7FFFFFFF in if seed =? 0 then 1 else seed.

(** Whether session [sub] may be entered from [s]. *)
Definition admissible (sub : Z) (s : DiagSession) : bool :=
  if sub =? 2 then negb (security_locked s)
  else if sub =? 4 then factory_word s =? 0xFACF0123
  else true.

Definition enter_session (sub : Z) (s : DiagSession) : DiagSession :=
  s <| security_locked := if sub =? 1 then true else security_locked s |>
    <| p2_timer := if (sub =? 3) && (current_session s =? 1) then clock s else p2_timer s |>
    <| current_session := sub |> <| session_timer := clock s |>.

Definition session_next (ev : Event) (s : DiagSession) : bool * DiagSession :=
  match ev with
  | Request (service :: sub :: rest) =>
    if service =? 0x10 then
      if 4 <? sub then (false, s)
      else if sub =? current_session s then (true, s <| session_timer := clock s |>)
      else if admissible sub s then (true, enter_session sub s) else (false, s)
    else if service =? 0x27 then
      if negb (sub mod 2 =? 0) then
        if 3 <=? retry_counter s then (false, s <| security_locked := true |>)
        else (true, s <| last_seed := seed_at (clock s) |> <| waiting_for_key := true |>)
      else if waiting_for_key s then
        if le_value (take 4 rest) =? calculate_key (last_seed s)
        then (true, s <| security_locked := false |> <| retry_counter := 0 |> <| waiting_for_key := false |>)
        else (negb (security_locked s),
              s <| retry_counter := u8 (retry_counter s + 1) |> <| waiting_for_key := false |>)
      else (false, s)
    else (true, s)
  | Request _ => (false, s)
  | Tick now => (true, s <| clock := now |>)
  | Poll =>
    let late := (5000 <=? u32 (clock s - session_timer s)) && negb (current_session s =? 1) in
    let s := if late then s <| current_session := 1 |> <| security_locked := true |>
                            <| waiting_for_key := false |> else s in
    (true, if (current_session s =? 3) && (2000 <=? u32 (clock s - p2_timer s))
           then s <| p2_timer := clock s |> else s)
  | Restart => (true, s <| current_session := 1 |> <| security_locked := true |> <| session_timer := clock s |>)
  end.

Lemma session_exec_next ev s m :
  readable ev ->
  wp (session_exec ev) (fun b s' m' => (b, s') = session_next ev s /\ primask m' = primask m) s m.
Proof.
  destruct ev as [[|service [|sub rest]]|now| |]; intros Hr; simpl; try done.
  - unfold DiagSession_HandleRequest, WATCHDOG_Refresh. apply wp_bind, wp_emit.
    destruct (service =? 0x10) eqn:E10.
    + unfold session_control. destruct (4 <? sub) eqn:E4; [by apply wp_ret|].
      apply wp_bind, wp_get. destruct (sub =? current_session s) eqn:Ec; [done|].
      unfold may_enter, check_factory_mode, admissible, enter_session.
      apply wp_bind, wp_bind, wp_get. destruct s as [cs st p2 lk rc sd wk cl fw]; simpl in *.
      destruct (sub =? 1) eqn:E1; [tests; subst; done|].
      destruct (sub =? 2) eqn:E2; [tests; subst; destruct lk; done|].
      destruct (sub =? 3) eqn:E3; [tests; subst; destruct (cs =? 1); done|].
      destruct (sub =? 4) eqn:E4'; [|done].
      apply wp_bind, wp_get, wp_ret. simpl. by destruct (fw =? 0xFACF0123).
    + destruct (service =? 0x27) eqn:E27; [|done]. destruct (sub mod 2 =? 0) eqn:Eo; simpl.
      * unfold send_key. apply wp_bind, wp_get. destruct (waiting_for_key s) eqn:Ew; [|done].
        tests. subst service. simpl in Hr. rewrite (proj2 (Nat.ltb_ge _ _)) by (simpl; specialize (Hr Eo); lia).
        destruct s as [cs st p2 lk rc sd wk cl fw]; simpl in *.
        rewrite !drop_0. by destruct (_ =? calculate_key sd).
      * unfold request_seed. apply wp_bind, wp_get. by destruct (3 <=? retry_counter s).
  - unfold DiagSession_Process, WATCHDOG_Refresh, GetTimestamp.
    destruct s as [cs st p2 lk rc sd wk cl fw]; simpl.
    wp_steps; tests; simpl in *; (split; [|done]);
      repeat match goal with |- context [if ?b then _ else _] => destruct b eqn:?; simpl in *; tests end;
      try done; try lia; destruct_or?; try congruence; lia.
Qed.

Fixpoint session_run (evs : list Event) : M DiagSession (list bool) :=
  match evs with
  | [] => mret []
  | ev :: evs => b ← session_exec ev; bs ← session_run evs; mret (b :: bs)
  end.

(** An event that asks for access: a seed or a key. *)
Definition access_request (ev : Event) : bool :=
  match ev with Request (service :: _ :: _) => service =? 0x27 | _ => false end.

(** Three wrong keys, the third just answered. *)
Definition locked_out (s : DiagSession) : Prop :=
  3 <= retry_counter s /\ waiting_for_key s = false /\ security_locked s = true.

Lemma locked_out_step ev s :
  locked_out s ->
  locked_out (session_next ev s).2 /\ (access_request ev = true -> (session_next ev s).1 = false) /\
  (current_session s <> 2 -> current_session (session_next ev s).2 <> 2).
Proof.
  intros (Hr & Hw & Hl). destruct s as [cs st p2 lk rc sd wk cl fw]. unfold locked_out. simpl in *. subst wk lk.
  destruct ev as [[|service [|sub rest]]|now| |]; simpl; try done.
  - destruct (service =? 0x10) eqn:E10; tests.
    + subst service. destruct (4 <? sub); [done|]. destruct (sub =? cs) eqn:Ec; [done|]. unfold admissible, enter_session; simpl.
      destruct (sub =? 2) eqn:E2; [done|]. tests.
      destruct (sub =? 4); [destruct (fw =? 0xFACF0123); [|done]|]; simpl;
        (split_and!; [done|done|by destruct (sub =? 1)|done|done]).
    + destruct (service =? 0x27); [|done]. destruct (negb _); [|done].
      rewrite (proj2 (Z.leb_le 3 rc)) by lia. done.
  - destruct ((5000 <=? u32 (cl - st)) && negb (cs =? 1)); simpl; [done|]. by destruct (_ && _).
Qed.

Lemma locked_out_run evs s m :
  locked_out s -> Forall readable evs ->
  wp (session_run evs) (fun bs s' m' =>
    locked_out s' /\ primask m' = primask m /\
    (current_session s <> 2 -> current_session s' <> 2) /\
    Forall2 (fun ev b => access_request ev = true -> b = false) evs bs) s m.
Proof.
  revert s m. induction evs as [|ev evs IH]; intros s m Hl Hr; cbn [session_run].
  { apply wp_ret. by split_and!. }
  apply Forall_cons in Hr as [Hev Hr]. apply wp_bind. eapply wp_mono; [by apply session_exec_next|].
  intros b s1 m1 [Hn Hp]. destruct (locked_out_step ev s Hl) as (Hl1 & Ha & Hs).
  rewrite <- Hn in Hl1, Ha, Hs. simpl in Hl1, Ha, Hs.
  apply wp_bind. eapply wp_mono; [by apply IH|]. intros bs s' m' (Hl' & Hp' & Hs' & Hf). apply wp_ret.
  split_and!; [done|congruence|auto|by constructor].
Qed.

(** In the programming session security can be locked again without leaving it:
    wrong keys are counted although access is open, and the next seed request
    locks. *)
Lemma programming_outlives_lock :
  let s := (session_boot 0 0) <| current_session := 2 |> <| security_locked := false |>
             <| retry_counter := 3 |> in
  session_next (Request [0x27; 1]) s = (false, s <| security_locked := true |>).
Proof. done. Qed.

(** While access is open every key is reported as accepted. *)
Lemma wrong_key_reported_ok s k1 k2 k3 k4 :
  security_locked s = false -> waiting_for_key s = true ->
  le_value [k1; k2; k3; k4] <> calculate_key (last_seed s) ->
  (session_next (Request [0x27; 2; k1; k2; k3; k4]) s).1 = true.
Proof.
  intros Hl Hw Hk%Z.eqb_neq. cbn -[le_value calculate_key]. rewrite Hw.
  change (take 4 [k1; k2; k3; k4]) with [k1; k2; k3; k4]. rewrite Hk. simpl. by rewrite Hl.
Qed.

(** Closes the cases in which nothing relevant changed. *)
Ltac same := split_and!; simpl; (done || congruence).

(** ** Properties *)

(** C13. One event changes access and session only as allowed: access opens only
    when a key is presented that is the key of the seed handed out last; the
    programming session is entered only while access is open, and the factory
    session only when the factory word is set; every request is answered. *)
Theorem session_access_control ev s m :
  readable ev ->
  wp (session_exec ev) (fun b s' m' =>
    (security_locked s = true -> security_locked s' = false ->
       waiting_for_key s = true /\ waiting_for_key s' = false /\
       exists sub rest, ev = Request (0x27 :: sub :: rest) /\
         le_value (take 4 rest) = calculate_key (last_seed s)) /\
    (current_session s' = 2 -> current_session s <> 2 -> security_locked s = false) /\
    (current_session s' = 4 -> current_session s <> 4 -> factory_word s = 0xFACF0123) /\
    primask m' = primask m) s m.
Proof.
  intros Hr. eapply wp_mono; [by apply session_exec_next|]. intros b s' m' [Hn Hp].
  assert (Hs : s' = (session_next ev s).2) by (by rewrite <- Hn). subst s'. clear Hn Hr.
  destruct s as [cs st p2 lk rc sd wk cl fw]; simpl.
  destruct ev as [[|service [|sub rest]]|now| |]; simpl; try same.
  - destruct (service =? 0x10) eqn:E10.
    + destruct (4 <? sub); [same|]. destruct (sub =? cs); [same|]. unfold admissible, enter_session; simpl.
      destruct (sub =? 2) eqn:E2; [tests; subst; destruct lk; same|].
      destruct (sub =? 4) eqn:E4; [destruct (fw =? 0xFACF0123) eqn:Ef|];
        tests; subst; simpl; split_and!; try done; try congruence; intros Hlk Hu; destruct (_ =? 1); congruence.
    + destruct (service =? 0x27) eqn:E27; [|same]. destruct (negb _); [destruct (3 <=? rc); same|].
      destruct wk; [|same]. destruct (_ =? calculate_key sd) eqn:Ek; [|same].
      tests. subst service. split_and!; try done. intros _ _. split_and!; eauto.
  - destruct ((5000 <=? u32 (cl - st)) && negb (cs =? 1)); simpl; [same|]. destruct (_ && _); same.
Qed.

(** Witness of [session_access_control]: the right key. *)
Lemma session_access_control_witness :
  let s := (session_boot 0 0) <| last_seed := 7 |> <| waiting_for_key := true |> in
  let ev := Request (0x27 :: 2 :: le_bytes 4 (calculate_key 7)) in
  wp (session_exec ev) (fun b s' m' =>
    (true = true -> security_locked s' = false ->
       true = true /\ waiting_for_key s' = false /\
       exists sub rest, ev = Request (0x27 :: sub :: rest) /\
         le_value (take 4 rest) = calculate_key 7) /\
    (current_session s' = 2 -> 1 <> 2 -> true = false) /\
    (current_session s' = 4 -> 1 <> 4 -> 0 = 0xFACF0123) /\
    primask m' = false) s boot.
Proof. intros s ev. apply (session_access_control ev s boot). intros _. vm_compute. lia. Defined.

(**  Three wrong keys lock access for good: from then on, whatever requests,
    clock changes, polls and even re-initialisations follow, every seed and key
    request is refused, access stays locked and the programming session is not
    entered. *)
Theorem session_lockout_permanent evs s m :
  locked_out s -> Forall readable evs ->
  wp (session_run evs) (fun bs s' m' =>
    locked_out s' /\ primask m' = primask m /\
    (current_session s <> 2 -> current_session s' <> 2) /\
    Forall2 (fun ev b => access_request ev = true -> b = false) evs bs) s m.
Proof. intros. by apply locked_out_run. Qed.

(** Witness of [session_lockout_permanent]: a restart, then the right key. *)
Lemma session_lockout_permanent_witness :
  let s := (session_boot 0 0) <| retry_counter := 3 |> in
  wp (session_run [Restart; Tick 100000; Poll; Request [0x27; 1]; Request [0x27; 2; 0; 0; 0; 0]; Request [0x10; 2]])
    (fun bs s' m' => locked_out s' /\ primask m' = false /\ (1 <> 2 -> current_session s' <> 2) /\
      Forall2 (fun ev b => access_request ev = true -> b = false)
        [Restart; Tick 100000; Poll; Request [0x27; 1]; Request [0x27; 2; 0; 0; 0; 0]; Request [0x10; 2]] bs) s boot.
Proof.
  intros s. apply (session_lockout_permanent
    [Restart; Tick 100000; Poll; Request [0x27; 1]; Request [0x27; 2; 0; 0; 0; 0]; Request [0x10; 2]] s boot).
  - split_and!; [simpl; lia|done|done].
  - repeat constructor; intros H; vm_compute in H; (discriminate H || (simpl; lia)).
Defined.

(**  Polling ends a session exactly when at least 5000 ms have passed since
    the last session request, across the wrap-around of the 32-bit clock too:
    then the default session is active, access is locked and no key is awaited;
    before that nothing of the session changes. *)
Theorem session_timeout_exact n s m :
  0 <= n < 2 ^ 32 -> is_u32 (session_timer s) -> clock s = u32 (session_timer s + n) ->
  current_session s <> 1 ->
  wp DiagSession_Process (fun _ s' m' =>
    (if 5000 <=? n
     then current_session s' = 1 /\ security_locked s' = true /\ waiting_for_key s' = false
     else current_session s' = current_session s /\ security_locked s' = security_locked s /\
          waiting_for_key s' = waiting_for_key s) /\
    session_timer s' = session_timer s /\ retry_counter s' = retry_counter s) s m.
Proof.
  intros Hn Hst Hc Hcs. pose proof (session_exec_next Poll s m I) as H. unfold session_exec, wp, mbind, M_bind in H.
  unfold wp. destruct (DiagSession_Process s m) as [[[[] s'] m']|]; [|done]. destruct H as [[= ->] _].
  rewrite Hc, u32_elapsed by lia. rewrite (proj2 (Z.eqb_neq _ _) Hcs), andb_true_r. rewrite <- Hc.
  destruct (5000 <=? n); simpl; [done|]. by destruct (_ && _).
Qed.

(** Witness of [session_timeout_exact]: 5000 ms later, over the wrap-around. *)
Lemma session_timeout_exact_witness :
  let s := (session_boot (u32 (2 ^ 32 - 1 + 5000)) 0) <| current_session := 3 |> <| session_timer := 2 ^ 32 - 1 |> in
  wp DiagSession_Process (fun _ s' m' =>
    (if 5000 <=? 5000
     then current_session s' = 1 /\ security_locked s' = true /\ waiting_for_key s' = false
     else current_session s' = 3 /\ security_locked s' = true /\ waiting_for_key s' = false) /\
    session_timer s' = 2 ^ 32 - 1 /\ retry_counter s' = 0) s boot.
Proof.
  intros s. apply (session_timeout_exact 5000 s boot).
  - lia.
  - unfold is_u32; simpl; lia.
  - reflexivity.
  - discriminate.
Defined.
