(* ===== verification/RouteTable.v ===== *)
(** * Route table

    [src/runtime/diagnostic/route_table.c]: routes in an array of 32 entries, chained
    per hash bucket through one-byte links (0xFF ends a chain).  A new entry goes to
    the front of its chain; removal unlinks an entry and does not give its place in
    the array back.

    [None] is an access outside the arrays; a loop that walks a chain takes fuel, and
    [MAX_ROUTE_ENTRIES] rounds are shown to be enough. *)

From Stdlib Require Import Sorted.
From S2P Require Import Prelude.

Definition MAX_ROUTE_ENTRIES : nat := 32.
Definition ROUTE_HASH_SIZE : Z := 16.
(** The end of a chain. *)
Definition NO_ENTRY : Z := 0xFF.

Record RouteEntry := mkRouteEntry { source : Z; target : Z; service : Z; next : Z }.
#[export] Instance eta_RouteEntry : Eta RouteEntry := fun e =>
  mkRouteEntry (source e) (target e) (service e) (next e).
Record RouteTable := mkRouteTable { entries : list RouteEntry; hash_table : list Z; entry_count : nat }.
#[export] Instance eta_RouteTable : Eta RouteTable := fun t =>
  mkRouteTable (entries t) (hash_table t) (entry_count t).

Definition calc_hash (source target : Z) : Z := u8 ((source * 7 + target * 13) mod ROUTE_HASH_SIZE).

Definition RouteTable_Init (t : RouteTable) : RouteTable :=
  mkRouteTable (replicate MAX_ROUTE_ENTRIES (mkRouteEntry 0 0 0 0))
    (replicate (Z.to_nat ROUTE_HASH_SIZE) NO_ENTRY) 0.

Definition RouteTable_Add (t : RouteTable) (src tgt svc : Z) : option (bool * RouteTable) :=
  if (MAX_ROUTE_ENTRIES <=? entry_count t)%nat then Some (false, t) else
  let hash := Z.to_nat (calc_hash src tgt) in
  let idx := entry_count t in
  head ← hash_table t !! hash;
  if (length (entries t) <=? idx)%nat then None else
  Some (true, t <| entries ::= <[idx := mkRouteEntry src tgt svc head]> |>
                <| hash_table ::= <[hash := u8 (Z.of_nat idx)]> |> <| entry_count ::= S |>).

(** A pointer to a link: [&table->hash_table[h]] or [&table->entries[i].next]. *)
Inductive Link := Head (h : nat) | Next (i : nat).
Definition read_link (t : RouteTable) (l : Link) : option Z :=
  match l with Head h => hash_table t !! h | Next i => next <$> entries t !! i end.
Definition write_link (t : RouteTable) (l : Link) (v : Z) : RouteTable :=
  match l with
  | Head h => t <| hash_table ::= <[h := v]> |>
  | Next i => t <| entries ::= alter (fun e => e <| next := v |>) i |>
  end.

Definition is_route (src tgt : Z) (e : RouteEntry) : bool := (source e =? src) && (target e =? tgt).

Fixpoint remove_loop (fuel : nat) (t : RouteTable) (link : Link) (src tgt : Z)
  : option (bool * RouteTable) :=
  v ← read_link t link;
  if v =? NO_ENTRY then Some (false, t) else
  match fuel with
  | O => None
  | S fuel =>
    e ← entries t !! Z.to_nat v;
    if is_route src tgt e then Some (true, write_link t link (next e))
    else remove_loop fuel t (Next (Z.to_nat v)) src tgt
  end.
Definition RouteTable_Remove (t : RouteTable) (src tgt : Z) : option (bool * RouteTable) :=
  remove_loop MAX_ROUTE_ENTRIES t (Head (Z.to_nat (calc_hash src tgt))) src tgt.

(** The index stands for the pointer to the entry. *)
Fixpoint find_loop (fuel : nat) (t : RouteTable) (idx src tgt : Z) : option (option nat) :=
  if idx =? NO_ENTRY then Some None else
  match fuel with
  | O => None
  | S fuel =>
    e ← entries t !! Z.to_nat idx;
    if is_route src tgt e then Some (Some (Z.to_nat idx)) else find_loop fuel t (next e) src tgt
  end.
Definition RouteTable_Find (t : RouteTable) (src tgt : Z) : option (option nat) :=
  idx ← hash_table t !! Z.to_nat (calc_hash src tgt);
  find_loop MAX_ROUTE_ENTRIES t idx src tgt.

(** ** Chains *)

(** The entries reached from a link value. *)
Inductive chain (es : list RouteEntry) : Z -> list nat -> Prop :=
| chain_end : chain es NO_ENTRY []
| chain_entry i e l :
    es !! i = Some e -> Z.of_nat i < NO_ENTRY -> chain es (next e) l -> chain es (Z.of_nat i) (i :: l).

Lemma chain_insert es v l i e : chain es v l -> i ∉ l -> chain (<[i := e]> es) v l.
Proof.
  induction 1 as [|j f l Hj Hlt Hc IH]; intros Hi; [constructor|]. apply not_elem_of_cons in Hi as [Hne Hi].
  apply (chain_entry _ j f); [by rewrite list_lookup_insert_ne|done|by apply IH].
Qed.

Lemma chain_nil es v : chain es v [] -> v = NO_ENTRY.
Proof. by inversion 1. Qed.
Lemma chain_cons es v i l :
  chain es v (i :: l) -> v = Z.of_nat i /\ v < NO_ENTRY /\ (v =? NO_ENTRY) = false /\
  exists e, es !! i = Some e /\ chain es (next e) l.
Proof.
  inversion 1 as [|j e l' Hj Hlt Hc]; subst. split_and!; [done|done|apply Z.eqb_neq; lia|eauto].
Qed.

(** Older entries come later: links lead downwards in the array. *)
Definition descending (l : list nat) : Prop := StronglySorted (fun i j => (j < i)%nat) l.

Lemma descending_NoDup l : descending l -> NoDup l.
Proof.
  induction 1 as [|i l Hs IH Hf]; constructor; [|done].
  intros Hi. rewrite Forall_forall in Hf. specialize (Hf i Hi). lia.
Qed.
Lemma descending_length n l : descending l -> Forall (fun i => (i < n)%nat) l -> (length l <= n)%nat.
Proof.
  intros Hd Hf. rewrite <- (length_seq n 0). apply submseteq_length, NoDup_submseteq.
  - by apply descending_NoDup.
  - intros i Hi. rewrite Forall_forall in Hf. apply elem_of_seq. specialize (Hf i Hi). lia.
Qed.

(** Bucket [h] of a table holds the chain [l]. *)
Record bucket (t : RouteTable) (h : nat) (l : list nat) : Prop := {
  bk_chain : exists v, hash_table t !! h = Some v /\ chain (entries t) v l;
  bk_used : Forall (fun i => (i < entry_count t)%nat) l;
  bk_desc : descending l }.
(** The table with the chain [c h] in bucket [h]; no entry is in two chains. *)
Record rt_rep (t : RouteTable) (c : nat -> list nat) : Prop := {
  rt_entries : length (entries t) = MAX_ROUTE_ENTRIES;
  rt_heads : length (hash_table t) = Z.to_nat ROUTE_HASH_SIZE;
  rt_count : (entry_count t <= MAX_ROUTE_ENTRIES)%nat;
  rt_buckets : forall h, (h < Z.to_nat ROUTE_HASH_SIZE)%nat -> bucket t h (c h);
  rt_apart : forall h k i, (h < Z.to_nat ROUTE_HASH_SIZE)%nat -> (k < Z.to_nat ROUTE_HASH_SIZE)%nat ->
    i ∈ c h -> i ∈ c k -> h = k }.
Definition rt_wf (t : RouteTable) : Prop := exists c, rt_rep t c.

(** The services registered for a pair, the newest first. *)
Fixpoint walk (fuel : nat) (es : list RouteEntry) (v : Z) : list nat :=
  if v =? NO_ENTRY then [] else
  match fuel, es !! Z.to_nat v with
  | S fuel, Some e => Z.to_nat v :: walk fuel es (next e)
  | _, _ => []
  end.
Definition services_in (es : list RouteEntry) (src tgt : Z) (l : list nat) : list Z :=
  omap (fun i => e ← es !! i; if is_route src tgt e then Some (service e) else None) l.
Definition services (t : RouteTable) (src tgt : Z) : list Z :=
  services_in (entries t) src tgt
    (walk MAX_ROUTE_ENTRIES (entries t) (default NO_ENTRY (hash_table t !! Z.to_nat (calc_hash src tgt)))).

Lemma chain_walk es v l fuel : chain es v l -> (length l <= fuel)%nat -> walk fuel es v = l.
Proof.
  intros Hc. revert fuel. induction Hc as [|i e l Hi Hlt Hc IH]; intros fuel Hl.
  - by destruct fuel.
  - destruct fuel as [|fuel]; simpl in Hl; [lia|]. simpl. rewrite (proj2 (Z.eqb_neq _ _)) by lia.
    rewrite Nat2Z.id, Hi. f_equal. apply IH. lia.
Qed.

Lemma hash_range src tgt : (Z.to_nat (calc_hash src tgt) < Z.to_nat ROUTE_HASH_SIZE)%nat.
Proof.
  unfold calc_hash, ROUTE_HASH_SIZE. pose proof (Z.mod_pos_bound (src * 7 + tgt * 13) 16).
  rewrite u8_small by (unfold is_u8; lia). lia.
Qed.

Lemma bucket_length t h l :
  (entry_count t <= MAX_ROUTE_ENTRIES)%nat -> bucket t h l -> (length l <= MAX_ROUTE_ENTRIES)%nat.
Proof. intros Hn []. etrans; [by eapply descending_length|done]. Qed.

Lemma services_rep t c src tgt :
  rt_rep t c -> services t src tgt = services_in (entries t) src tgt (c (Z.to_nat (calc_hash src tgt))).
Proof.
  intros Hw. pose proof (rt_buckets _ _ Hw _ (hash_range src tgt)) as Hb.
  pose proof Hb as [(v & Hv & Hc) _ _]. unfold services. rewrite Hv. change (default NO_ENTRY (Some v)) with v.
  by rewrite (chain_walk _ _ _ _ Hc (bucket_length _ _ _ (rt_count _ _ Hw) Hb)).
Qed.

(** ** Operations *)

Lemma chain_find t src tgt v l fuel :
  chain (entries t) v l -> (length l <= fuel)%nat ->
  exists o, find_loop fuel t v src tgt = Some o /\
    (i ← o; e ← entries t !! i; Some (service e)) = head (services_in (entries t) src tgt l).
Proof.
  intros Hc. revert fuel. induction Hc as [|i e l Hi Hlt Hc IH]; intros fuel Hl.
  - exists None. by destruct fuel.
  - destruct fuel as [|fuel]; simpl in Hl; [lia|]. simpl. rewrite (proj2 (Z.eqb_neq _ _)) by lia.
    rewrite Nat2Z.id, Hi. simpl. destruct (is_route src tgt e) eqn:E; simpl.
    + exists (Some i). split; [done|]. simpl. by rewrite Hi.
    + apply IH. lia.
Qed.

(** The chain after the first entry of the route is unlinked. *)
Fixpoint unlink (es : list RouteEntry) (src tgt : Z) (l : list nat) : list nat :=
  match l with
  | [] => []
  | i :: l => if default false (is_route src tgt <$> es !! i) then l else i :: unlink es src tgt l
  end.
Definition registered (es : list RouteEntry) (src tgt : Z) (l : list nat) : bool :=
  existsb (fun i => default false (is_route src tgt <$> es !! i)) l.

(** What a link leads to after it has been overwritten. *)
Definition same_routes (es es' : list RouteEntry) : Prop :=
  length es' = length es /\
  forall i e, es !! i = Some e -> exists e', es' !! i = Some e' /\
    source e' = source e /\ target e' = target e /\ service e' = service e.

Lemma same_routes_refl es : same_routes es es.
Proof. split; [done|]. eauto. Qed.
Lemma same_routes_next es i v : same_routes es (alter (fun e => e <| next := v |>) i es).
Proof.
  split; [apply length_alter|]. intros j e He. destruct (decide (i = j)) as [->|Hne].
  - eexists. rewrite list_lookup_alter_eq, He. done.
  - exists e. by rewrite list_lookup_alter_ne.
Qed.
Lemma services_same es es' src tgt l :
  same_routes es es' -> services_in es' src tgt l = services_in es src tgt l.
Proof.
  intros [Hlen Hs]. apply list_omap_ext, Forall_Forall2_diag, Forall_true. intros i.
  destruct (es !! i) as [e|] eqn:E.
  - destruct (Hs i e E) as (e' & -> & H1 & H2 & H3). simpl. unfold is_route. by rewrite H1, H2, H3.
  - by rewrite lookup_ge_None_2 by (rewrite Hlen; by apply lookup_ge_None_1).
Qed.

Lemma chain_alter es v l i w :
  chain es v l -> i ∉ l -> chain (alter (fun e => e <| next := w |>) i es) v l.
Proof.
  induction 1 as [|j f l Hj Hlt Hc IH]; intros Hi; [constructor|]. apply not_elem_of_cons in Hi as [Hne Hi].
  apply (chain_entry _ j f); [by rewrite list_lookup_alter_ne|done|by apply IH].
Qed.

(** Removal from the link behind entry [p] on. *)
Lemma remove_next fuel t src tgt p e l :
  entries t !! p = Some e -> chain (entries t) (next e) l -> NoDup (p :: l) -> (length l <= fuel)%nat ->
  exists t', remove_loop fuel t (Next p) src tgt = Some (registered (entries t) src tgt l, t') /\
    hash_table t' = hash_table t /\ entry_count t' = entry_count t /\
    same_routes (entries t) (entries t') /\
    (forall q, q ∉ p :: l -> entries t' !! q = entries t !! q) /\
    exists e', entries t' !! p = Some e' /\ chain (entries t') (next e') (unlink (entries t) src tgt l).
Proof.
  revert p e l. induction fuel as [|fuel IH]; intros p e l Hp Hc Hnd Hl.
  - destruct l; simpl in Hl; [|lia]. pose proof (chain_nil _ _ Hc) as Hv.
    exists t. simpl. rewrite Hp. simpl. rewrite Hv. simpl. split_and!; eauto using same_routes_refl.
  - cbn [remove_loop read_link]. rewrite Hp. simpl. destruct l as [|i l].
    { rewrite (chain_nil _ _ Hc). simpl. exists t. split_and!; eauto using same_routes_refl. }
    destruct (chain_cons _ _ _ _ Hc) as (Hv & Hlt & Hne & f & Hf & Hc'). rewrite Hne, Hv, Nat2Z.id, Hf. simpl.
    rewrite Hf. simpl. destruct (is_route src tgt f) eqn:E; simpl.
    + eexists. split; [done|]. simpl. split_and!; try done.
      * apply same_routes_next.
      * intros q Hq. apply list_lookup_alter_ne. set_solver.
      * exists (e <| next := next f |>). rewrite list_lookup_alter_eq, Hp. split; [done|]. simpl.
        apply chain_alter; [done|]. inversion Hnd; set_solver.
    + apply NoDup_cons in Hnd as [Hpn Hnd]. simpl in Hl.
      destruct (IH i f l Hf Hc' Hnd ltac:(lia)) as (t' & Hr & Hh & Hn & Hs & Hfr & f' & Hf' & Hch).
      exists t'. split_and!; try done; [intros q Hq; apply Hfr; set_solver|].
      exists e. rewrite Hfr by done. split; [done|]. rewrite Hv in Hlt |- *. by apply (chain_entry _ i f').
Qed.

Lemma unlink_subset es src tgt l : unlink es src tgt l ⊆ l.
Proof.
  induction l as [|i l IH]; simpl; [done|]. destruct (default _ _); set_solver.
Qed.
Lemma unlink_descending es src tgt l : descending l -> descending (unlink es src tgt l).
Proof.
  induction 1 as [|i l Hs IH Hf]; simpl; [constructor|]. destruct (default _ _); [done|].
  constructor; [done|]. rewrite Forall_forall in *. intros j Hj. apply Hf. by eapply unlink_subset.
Qed.
Lemma services_cons es s g i e l :
  es !! i = Some e ->
  services_in es s g (i :: l) = if is_route s g e then service e :: services_in es s g l else services_in es s g l.
Proof. intros He. unfold services_in. simpl. rewrite He. simpl. by destruct (is_route s g e). Qed.
Lemma is_route_pair src tgt s g e :
  is_route src tgt e = true -> is_route s g e = bool_decide (s = src /\ g = tgt).
Proof.
  unfold is_route. intros H. tests. subst. symmetry.
  destruct ((source e =? s) && (target e =? g)) eqn:E; tests.
  - by apply bool_decide_eq_true_2.
  - apply bool_decide_eq_false_2. intros [-> ->]. destruct E; tests; done.
Qed.
Lemma services_unlink es src tgt s g l :
  Forall (fun i => is_Some (es !! i)) l ->
  services_in es s g (unlink es src tgt l) =
  if decide (s = src /\ g = tgt) then tail (services_in es s g l) else services_in es s g l.
Proof.
  induction 1 as [|i l [e He] Hl IH]; [by case_decide|].
  cbn [unlink]. rewrite He, (services_cons _ _ _ _ _ _ He). simpl.
  destruct (is_route src tgt e) eqn:E.
  - rewrite (is_route_pair _ _ s g e E). case_decide as Hd.
    + by rewrite bool_decide_eq_true_2.
    + by rewrite bool_decide_eq_false_2.
  - rewrite (services_cons _ _ _ _ _ _ He), IH. case_decide as Hd; [|done]. destruct Hd as [-> ->]. by rewrite E.
Qed.
Lemma registered_services es src tgt l :
  Forall (fun i => is_Some (es !! i)) l ->
  registered es src tgt l = negb (bool_decide (services_in es src tgt l = [])).
Proof.
  induction 1 as [|i l [e He] Hl IH]; [done|]. rewrite (services_cons _ _ _ _ _ _ He).
  unfold registered in *. simpl. rewrite He, IH. simpl. by destruct (is_route src tgt e).
Qed.

Lemma chain_ext es es' v l :
  chain es v l -> (forall q, q ∈ l -> es' !! q = es !! q) -> chain es' v l.
Proof.
  induction 1 as [|j f l Hj Hlt Hc IH]; intros He; [constructor|].
  apply (chain_entry _ j f); [rewrite He; [done|set_solver]|done|apply IH; set_solver].
Qed.
Lemma chain_live es v l : chain es v l -> Forall (fun i => is_Some (es !! i)) l.
Proof. induction 1; constructor; eauto. Qed.

(** Removal from the head of a bucket. *)
Lemma remove_head fuel t src tgt h v l :
  hash_table t !! h = Some v -> chain (entries t) v l -> NoDup l -> (length l <= S fuel)%nat ->
  exists t' v', remove_loop (S fuel) t (Head h) src tgt = Some (registered (entries t) src tgt l, t') /\
    hash_table t' = <[h := v']> (hash_table t) /\ entry_count t' = entry_count t /\
    same_routes (entries t) (entries t') /\
    (forall q, q ∉ l -> entries t' !! q = entries t !! q) /\
    chain (entries t') v' (unlink (entries t) src tgt l).
Proof.
  intros Hv Hc Hnd Hl. cbn [remove_loop read_link]. rewrite Hv. simpl.
  destruct l as [|i l].
  { rewrite (chain_nil _ _ Hc) in *. simpl. exists t, NO_ENTRY.
    split_and!; auto using same_routes_refl; [by rewrite list_insert_id|constructor]. }
  destruct (chain_cons _ _ _ _ Hc) as (-> & Hlt & Hne & f & Hf & Hc'). rewrite Hne, Nat2Z.id, Hf. simpl.
  rewrite Hf. simpl. destruct (is_route src tgt f) eqn:E; simpl.
  - exists (t <| hash_table ::= <[h := next f]> |>), (next f). split_and!; auto using same_routes_refl.
  - simpl in Hl. destruct (remove_next fuel t src tgt i f l Hf Hc' Hnd ltac:(lia))
      as (t' & Hr & Hh & Hn & Hs & Hfr & f' & Hf' & Hch).
    exists t', (Z.of_nat i). split_and!; auto; [by rewrite Hh, list_insert_id|].
    by apply (chain_entry _ i f').
Qed.

(** ** The table as stacks of services *)

Inductive RouteOp := RouteAdd (src tgt svc : Z) | RouteRemove (src tgt : Z).
Definition route_exec (op : RouteOp) (t : RouteTable) : option (bool * RouteTable) :=
  match op with
  | RouteAdd src tgt svc => RouteTable_Add t src tgt svc
  | RouteRemove src tgt => RouteTable_Remove t src tgt
  end.

Lemma add_rep t c src tgt svc :
  rt_rep t c -> (entry_count t < MAX_ROUTE_ENTRIES)%nat ->
  exists t', RouteTable_Add t src tgt svc = Some (true, t') /\ rt_wf t' /\
    entry_count t' = S (entry_count t) /\
    forall s g, services t' s g =
      if decide (s = src /\ g = tgt) then svc :: services t s g else services t s g.
Proof.
  intros Hw Hlt. pose proof Hw as []. set (h := Z.to_nat (calc_hash src tgt)).
  assert (Hh : (h < Z.to_nat ROUTE_HASH_SIZE)%nat) by apply hash_range.
  destruct (rt_buckets0 h Hh) as [(v & Hv & Hc) Hused Hdesc].
  unfold RouteTable_Add. rewrite (proj2 (Nat.leb_gt _ _) Hlt). fold h. rewrite Hv. simpl.
  rewrite (proj2 (Nat.leb_gt _ _)) by lia.
  set (n := entry_count t) in *. set (e := mkRouteEntry src tgt svc v).
  assert (Hn8 : u8 (Z.of_nat n) = Z.of_nat n) by (apply u8_small; unfold is_u8, MAX_ROUTE_ENTRIES in *; lia).
  rewrite Hn8. eexists. split; [done|].
  assert (Hfresh : forall k, (k < Z.to_nat ROUTE_HASH_SIZE)%nat -> n ∉ c k).
  { intros k Hk Hin. pose proof (bk_used _ _ _ (rt_buckets0 k Hk)) as Hu. rewrite Forall_forall in Hu.
    specialize (Hu n Hin). simpl in Hu. fold n in Hu. lia. }
  assert (Hrep : rt_rep (t <| entries ::= <[n := e]> |> <| hash_table ::= <[h := Z.of_nat n]> |>
    <| entry_count ::= S |>) (fun k => if decide (k = h) then n :: c h else c k)).
  { constructor; simpl; rewrite ?length_insert; auto.
    - intros k Hk. pose proof (rt_buckets0 k Hk) as [(w & Hw' & Hcw) Hu Hd].
      assert (Hcw' : chain (<[n:=e]> (entries t)) w (c k)) by (apply chain_insert; auto).
      case_decide as Hkh.
      + subst k. simplify_eq. constructor; simpl.
        * exists (Z.of_nat n). rewrite list_lookup_insert_eq by lia. split; [done|].
          apply (chain_entry _ n e); [apply list_lookup_insert_eq; lia|unfold NO_ENTRY, MAX_ROUTE_ENTRIES in *; lia|done].
        * constructor; [lia|]. eapply Forall_impl; [exact Hu|]. simpl. intros; lia.
        * constructor; [done|]. eapply Forall_impl; [exact Hu|]. simpl. intros; lia.
      + constructor; simpl; [exists w; by rewrite list_lookup_insert_ne| |done].
        eapply Forall_impl; [exact Hu|]. simpl. intros; lia.
    - intros k1 k2 i H1 H2. destruct (decide (k1 = h)) as [->|], (decide (k2 = h)) as [->|]; try done.
      + intros [->|Hi]%elem_of_cons Hi2; [by apply Hfresh in Hi2|by eapply rt_apart0].
      + intros Hi2 [->|Hi]%elem_of_cons; [by apply Hfresh in Hi2|by eapply rt_apart0].
      + by apply rt_apart0. }
  split_and!; [by eexists|done|]. intros s g. etrans; [exact (services_rep _ _ s g Hrep)|].
  rewrite (services_rep t c s g Hw). simpl.
  assert (Hsame : forall k, (k < Z.to_nat ROUTE_HASH_SIZE)%nat ->
    services_in (<[n := e]> (entries t)) s g (c k) = services_in (entries t) s g (c k)).
  { intros k Hk. apply list_omap_ext, Forall_Forall2_diag, Forall_forall. intros i Hi.
    rewrite list_lookup_insert_ne; [done|]. intros ->. by apply (Hfresh k Hk). }
  case_decide as Hg.
  - rewrite (services_cons _ _ _ _ e) by (apply list_lookup_insert_eq; lia). rewrite Hsame by done.
    unfold is_route. simpl. case_decide as Hd.
    + destruct Hd as [-> ->]. by rewrite !Z.eqb_refl.
    + rewrite Hg. destruct ((src =? s) && (tgt =? g)) eqn:E; [|done]. tests. subst. by destruct Hd.
  - rewrite Hsame by apply hash_range. case_decide as Hd; [|done]. destruct Hd as [-> ->]. by destruct Hg.
Qed.

Lemma remove_rep t c src tgt :
  rt_rep t c ->
  exists t', RouteTable_Remove t src tgt = Some (negb (bool_decide (services t src tgt = [])), t') /\
    rt_wf t' /\ entry_count t' = entry_count t /\
    forall s g, services t' s g =
      if decide (s = src /\ g = tgt) then tail (services t s g) else services t s g.
Proof.
  intros Hw. pose proof Hw as []. set (h := Z.to_nat (calc_hash src tgt)).
  assert (Hh : (h < Z.to_nat ROUTE_HASH_SIZE)%nat) by apply hash_range.
  pose proof (rt_buckets0 h Hh) as Hb. pose proof Hb as [(v & Hv & Hc) Hused Hdesc].
  destruct (remove_head 31 t src tgt h v (c h)) as (t' & v' & Hr & Hht & Hn & Hs & Hfr & Hch);
    [done|done|by apply descending_NoDup|by eapply bucket_length|].
  unfold RouteTable_Remove. fold h. change MAX_ROUTE_ENTRIES with 32%nat. rewrite Hr, (services_rep t c src tgt Hw). fold h.
  rewrite registered_services by (by eapply chain_live). exists t'. split; [done|].
  assert (Hrep : rt_rep t' (fun k => if decide (k = h) then unlink (entries t) src tgt (c h) else c k)).
  { constructor; rewrite ?Hht, ?Hn, ?length_insert; auto; [by destruct Hs; congruence| |].
    - intros k Hk. pose proof (rt_buckets0 k Hk) as [(w & Hw' & Hcw) Hu Hd]. case_decide as Hkh.
      + subst k. constructor; rewrite ?Hht, ?Hn.
        * exists v'. split; [apply list_lookup_insert_eq; lia|done].
        * rewrite Forall_forall in *. intros i Hi. apply Hu. by eapply unlink_subset.
        * by apply unlink_descending.
      + constructor; rewrite ?Hht, ?Hn; try done. exists w. split; [by rewrite list_lookup_insert_ne|].
        eapply chain_ext; [done|]. intros q Hq. apply Hfr. intros Hq'. apply Hkh. by eapply rt_apart0.
    - intros k1 k2 i H1 H2. pose proof (unlink_subset (entries t) src tgt (c h)) as Hsub.
      destruct (decide (k1 = h)) as [->|], (decide (k2 = h)) as [->|]; try done.
      + intros Hi%Hsub Hi2. by eapply rt_apart0.
      + intros Hi Hi2%Hsub. by eapply rt_apart0.
      + by apply rt_apart0. }
  split_and!; [by eexists|done|]. intros s g. rewrite (services_rep _ _ s g Hrep), (services_rep t c s g Hw).
  rewrite (services_same _ _ _ _ _ Hs). case_decide as Hg.
  - rewrite Hg. apply services_unlink. by eapply chain_live.
  - rewrite decide_False; [done|]. intros [-> ->]. by destruct Hg.
Qed.

(** ** Properties *)

(** C24. The table holds a stack of services for every pair of source and target: adding
    a route pushes its service, removing one pops the newest and reports whether there
    was any, finding one returns the newest; other pairs are not affected although they
    may share the chain.  Every walk along a chain ends. *)
Theorem route_table_refines op t :
  rt_wf t ->
  exists b t', route_exec op t = Some (b, t') /\ rt_wf t' /\
    match op with
    | RouteAdd src tgt svc =>
        b = (entry_count t <? MAX_ROUTE_ENTRIES)%nat /\
        (entry_count t' = entry_count t + Nat.b2n b)%nat /\
        forall s g, services t' s g =
          if decide (b = true /\ s = src /\ g = tgt) then svc :: services t s g else services t s g
    | RouteRemove src tgt =>
        b = negb (bool_decide (services t src tgt = [])) /\ entry_count t' = entry_count t /\
        forall s g, services t' s g =
          if decide (s = src /\ g = tgt) then tail (services t s g) else services t s g
    end.
Proof.
  intros [c Hw]. destruct op as [src tgt svc|src tgt]; simpl.
  - destruct (decide (entry_count t < MAX_ROUTE_ENTRIES)%nat) as [Hlt|Hge].
    + destruct (add_rep t c src tgt svc Hw Hlt) as (t' & Ha & Hw' & Hn & Hs). exists true, t'.
      split_and!; [done|done|symmetry; by apply Nat.ltb_lt|simpl; lia|].
      intros s g. rewrite Hs. destruct (decide (s = src /\ g = tgt)) as [Hd|Hd].
      * by rewrite decide_True.
      * rewrite decide_False; [done|]. naive_solver.
    + assert (Ha : RouteTable_Add t src tgt svc = Some (false, t)).
      { unfold RouteTable_Add. by rewrite (proj2 (Nat.leb_le _ _)) by lia. }
      exists false, t. split_and!; [done|by exists c|symmetry; apply Nat.ltb_ge; lia|simpl; lia|].
      intros s g. rewrite decide_False; [done|]. by intros [].
  - destruct (remove_rep t c src tgt Hw) as (t' & Hr & Hw' & Hn & Hs). eauto 8.
Qed.

Definition empty_table : RouteTable := RouteTable_Init (mkRouteTable [] [] 0).
Lemma empty_table_wf t : rt_wf (RouteTable_Init t).
Proof.
  exists (fun _ => []). constructor; [done|done|cbn; lia| |by intros h k i _ _ []%elem_of_nil].
  intros h Hh. constructor; [|constructor|constructor]. exists NO_ENTRY. split; [|constructor].
  by apply lookup_replicate.
Qed.

(** Witness of [route_table_refines]: the first route of an empty table. *)
Lemma route_table_refines_witness :
  exists b t', route_exec (RouteAdd 0xF1 0x10 0x22) empty_table = Some (b, t') /\ rt_wf t' /\
    b = (0 <? MAX_ROUTE_ENTRIES)%nat /\ (entry_count t' = 0 + Nat.b2n b)%nat /\
    forall s g, services t' s g =
      if decide (b = true /\ s = 0xF1 /\ g = 0x10) then 0x22 :: services empty_table s g
      else services empty_table s g.
Proof. apply (route_table_refines (RouteAdd 0xF1 0x10 0x22) empty_table). apply empty_table_wf. Defined.

(**  [RouteTable_Find] always ends and returns the newest entry of the pair, NULL
    exactly when there is none. *)
Theorem route_find_newest t src tgt :
  rt_wf t ->
  exists o, RouteTable_Find t src tgt = Some o /\
    (i ← o; e ← entries t !! i; Some (service e)) = head (services t src tgt).
Proof.
  intros [c Hw]. pose proof Hw as []. pose proof (rt_buckets0 _ (hash_range src tgt)) as Hb.
  pose proof Hb as [(v & Hv & Hc) _ _]. unfold RouteTable_Find. rewrite Hv. cbn [mbind option_bind].
  rewrite (services_rep t c src tgt Hw). apply (chain_find t src tgt v); [done|]. by eapply bucket_length.
Qed.

(** Witness of [route_find_newest]: nothing in an empty table. *)
Lemma route_find_newest_witness :
  exists o, RouteTable_Find empty_table 1 2 = Some o /\
    (i ← o; e ← entries empty_table !! i; Some (service e)) = head (services empty_table 1 2).
Proof. apply (route_find_newest empty_table 1 2). apply empty_table_wf. Defined.

(** Places in the array are not given back: after 32 additions none succeeds, however
    many routes were removed. *)
Lemma removed_places_lost t src tgt svc :
  entry_count t = MAX_ROUTE_ENTRIES -> RouteTable_Add t src tgt svc = Some (false, t).
Proof. intros Hn. unfold RouteTable_Add. by rewrite Hn. Qed.
