(* ===== verification/DtcHandler.v ===== *)
(** * Trouble codes of the J1939 stack

    [src/runtime/diagnostics/dtc_handler.c] over [J1939.v]: a table of trouble codes
    found by suspect parameter and failure mode, its ageing, and the DM1 message that
    broadcasts the active ones.  The handler pointer is the state, so the NULL guards on
    it do not appear; [dtc_destroy] only frees. *)

From S2P Require Import Prelude Machine Tables CanDriver J1939.

Definition DTC_TEST_FAILED : Z := Z.shiftl 1 1.
Definition DTC_TEST_NOT_COMPLETED : Z := Z.shiftl 1 4.
Definition J1939_PGN_DM1 : Z := 0xFECA.

Inductive DTCSeverity :=
| DTC_SEVERITY_NO_SEVERITY | DTC_SEVERITY_MAINTENANCE_ONLY
| DTC_SEVERITY_CHECK_AT_NEXT_HALT | DTC_SEVERITY_CHECK_IMMEDIATELY.

Record DTCRecord := mkDTC {
  spn : Z; fmi : Z; occurrence_count : Z; status : Z; severity : DTCSeverity }.
#[export] Instance eta_DTCRecord : Eta DTCRecord := fun r =>
  mkDTC (spn r) (fmi r) (occurrence_count r) (status r) (severity r).
Definition dtc_zero : DTCRecord := mkDTC 0 0 0 0 DTC_SEVERITY_NO_SEVERITY.

Record DTCConfig := mkDTCConfig {
  max_dtcs : nat; support_freezeframe : bool; aging_cycles : Z; auto_clear : bool }.

(** [capacity] is the length of [records]. *)
Record DTCHandler (D : Type) := mkDTCHandler {
  j1939 : J1939Handler D;
  dtc_config : DTCConfig;
  records : list DTCRecord; count : nat;
  cycle_counter : Z; aging_timer : Timer;
  broadcast_timer : Timer; changes_pending : bool;
  dtc_critical : CriticalSection }.
Arguments mkDTCHandler {D}. Arguments j1939 {D}. Arguments dtc_config {D}. Arguments records {D}.
Arguments count {D}. Arguments cycle_counter {D}. Arguments aging_timer {D}. Arguments broadcast_timer {D}.
Arguments changes_pending {D}. Arguments dtc_critical {D}.
#[export] Instance eta_DTCHandler D : Eta (DTCHandler D) := fun h =>
  mkDTCHandler (j1939 h) (dtc_config h) (records h) (count h) (cycle_counter h) (aging_timer h)
    (broadcast_timer h) (changes_pending h) (dtc_critical h).
#[export, refine] Instance DTCHandler_critical D : HasCritical (DTCHandler D) :=
  {| crit := dtc_critical; set_crit c h := h <| dtc_critical := c |> |}.
Proof. all: by intros; destruct s. Defined.

Section dtc_handler.
Context {D : Type} `{CanBus D}.
Implicit Types h : DTCHandler D.

Definition same_code (s f : Z) (r : DTCRecord) : bool := (spn r =? s) && (fmi r =? f).
Definition find_dtc (h : DTCHandler D) (s f : Z) : option nat := find_idx (same_code s f) (count h) (records h).

(** ** The DM1 message *)

(** [msg.data[msg.length++] = b], with the 1785 bytes of the message. *)
Definition put_byte (b : Z) (p : list Z * nat) : option (list Z * nat) :=
  let '(data, n) := p in if (n <? length data)%nat then Some (<[n := u8 b]> data, S n) else None.
Definition is_active (r : DTCRecord) : bool := negb (Z.land (status r) DTC_TEST_FAILED =? 0).
Definition pack_dtc (r : DTCRecord) (p : list Z * nat) : option (list Z * nat) :=
  p ← put_byte (Z.land (spn r) 0xFF) p;
  p ← put_byte (Z.land (Z.shiftr (spn r) 8) 0xFF) p;
  p ← put_byte (Z.lor (Z.land (Z.shiftr (spn r) 16) 0x0F) (Z.shiftl (fmi r) 4)) p;
  put_byte (occurrence_count r) p.
Fixpoint pack_active (rs : list DTCRecord) (p : list Z * nat) : option (list Z * nat) :=
  match rs with
  | [] => Some p
  | r :: rs => p ← (if is_active r then pack_dtc r p else Some p); pack_active rs p
  end.

Definition on_j1939 {A} : M (J1939Handler D) A -> M (DTCHandler D) A :=
  zoom j1939 (fun j h => h <| j1939 := j |>).
Definition update_dm1_message : M (DTCHandler D) unit :=
  h ← get;
  if negb (changes_pending h) then mret tt else
  match pack_active (take (count h) (records h)) (<[1%nat := 0]> (<[0%nat := 0]> (replicate 1785 0)), 2%nat) with
  | None => fault
  | Some (data, n) =>
      on_j1939 (j1939_transmit (mkMessage J1939_PGN_DM1 3 0 0xFF data (Z.of_nat n)));;
      modify (fun h => h <| changes_pending := false |>)
  end.

(** ** Operations *)

(** [granted]: whether the two [calloc] calls returned memory. *)
Definition dtc_create (granted granted_records : bool) (j : option (J1939Handler D)) (cfg : option DTCConfig)
  (m : Machine) : option (DTCHandler D) * Machine :=
  match j, cfg with
  | Some j, Some cfg =>
      if (max_dtcs cfg =? 0)%nat || negb granted || negb granted_records then (None, m) else
      let '(t, m) := timer_start timer_zero 1000 m in
      (Some (mkDTCHandler j cfg (replicate (max_dtcs cfg) dtc_zero) 0 0 timer_zero t false (init_critical cs_zero)), m)
  | _, _ => (None, m)
  end.

Definition aged (h : DTCHandler D) (r : DTCRecord) : bool :=
  auto_clear (dtc_config h) && negb (Z.land (status r) DTC_TEST_NOT_COMPLETED =? 0) &&
  (aging_cycles (dtc_config h) <=? cycle_counter h).
(** The ageing loop at index [i] with [k] records to go. *)
Fixpoint aging_scan (k i : nat) : M (DTCHandler D) unit :=
  match k with
  | O => mret tt
  | S k =>
      h ← get;
      match records h !! i with
      | None => fault
      | Some r =>
          if aged h r then
            modify (fun h => h <| records ::= memmove_down i (count h) |> <| count ::= fun n => (n - 1)%nat |>
                               <| changes_pending := true |>);;
            aging_scan k i
          else aging_scan k (S i)
      end
  end.

Definition process_aging : M (DTCHandler D) unit :=
  e ← expired aging_timer;
  if negb e then mret tt else
  modify (fun h => h <| cycle_counter ::= fun c => u32 (c + 1) |>);;
  h ← get;
  aging_scan (count h) 0;;
  start aging_timer (fun t h => h <| aging_timer := t |>) 1000.
Definition process_broadcast : M (DTCHandler D) unit :=
  e ← expired broadcast_timer;
  if negb e then mret tt else
  update_dm1_message;;
  start broadcast_timer (fun t h => h <| broadcast_timer := t |>) 1000.
Definition dtc_process : M (DTCHandler D) unit :=
  enter;; process_aging;; process_broadcast;; exit.

(** Entry [i] takes a status. *)
Definition apply_status (i : nat) (st : Z) : M (DTCHandler D) unit :=
  h ← get;
  match records h !! i with
  | None => fault
  | Some r =>
      if status r =? st then mret tt else
      modify (fun h => h <| records ::= <[i := r <| status := st |>
        <| occurrence_count ::= fun c => if negb (Z.land st DTC_TEST_FAILED =? 0) then u8 (c + 1) else c |>]> |>
        <| changes_pending := true |>)
  end.
Definition dtc_set_status (s f st : Z) : M (DTCHandler D) bool :=
  enter;;
  h ← get;
  match find_dtc h s f with
  | Some i => apply_status i st;; exit;; mret true
  | None =>
      if (length (records h) <=? count h)%nat then exit;; mret false else
      modify (fun h => h <| count ::= S |>
        <| records ::= alter (fun r => r <| spn := s |> <| fmi := f |> <| occurrence_count := 1 |>) (count h) |>);;
      apply_status (count h) st;; exit;; mret true
  end.

Definition dtc_get_record (s f : Z) : M (DTCHandler D) (option DTCRecord) :=
  enter;;
  h ← get;
  exit;;
  mret (i ← find_dtc h s f; records h !! i).
Definition dtc_clear_all : M (DTCHandler D) bool :=
  enter;;
  modify (fun h => h <| count := 0%nat |>);;
  modify (fun h => h <| changes_pending := true |>);;
  exit;;
  mret true.
Definition dtc_get_count : M (DTCHandler D) nat := h ← get; mret (count h).
(** The caller's array and its size. *)
Definition dtc_get_records (rs : option (list DTCRecord)) (n : option nat)
  : M (DTCHandler D) (option (list DTCRecord * nat)) :=
  match rs, n with
  | Some rs, Some (S _ as n) =>
      enter;;
      h ← get;
      let k := if (n <? count h)%nat then n else count h in
      if (length rs <? k)%nat then fault else
      exit;;
      mret (Some (take k (records h) ++ drop k rs, k))
  | _, _ => mret None
  end.

(** ** The table as a finite map *)

Definition code (s f : Z) : Z := s * 256 + f.
#[export] Instance DTCRecord_key : Keyed DTCRecord := fun r => code (spn r) (fmi r).
Definition dtc_map (h : DTCHandler D) : gmap Z DTCRecord := tbl (count h) (records h).

Record dtc_wf (h : DTCHandler D) : Prop := {
  dtc_count : (count h <= length (records h))%nat;
  dtc_uniq : tbl_uniq (count h) (records h);
  dtc_modes : Forall (fun r => is_u8 (fmi r)) (records h) }.

Lemma same_code_key s f r : is_u8 f -> is_u8 (fmi r) -> same_code s f r = has_key (code s f) r.
Proof.
  unfold is_u8, same_code, has_key, key, DTCRecord_key, code. intros Hf Hr.
  destruct (_ && _) eqn:E; symmetry; [apply Z.eqb_eq|apply Z.eqb_neq]; tests; lia.
Qed.
Lemma find_dtc_key h s f : dtc_wf h -> is_u8 f -> find_dtc h s f = find_key (code s f) (count h) (records h).
Proof.
  intros [_ _ Hm] Hf. unfold find_dtc, find_key, find_idx. f_equal.
  assert (Hl : Forall (fun r => is_u8 (fmi r)) (take (count h) (records h))) by (by apply Forall_take).
  induction Hl as [|r l Hr Hl IH]; [done|]. simpl. rewrite same_code_key by done.
  case_decide; [done|]. by rewrite IH.
Qed.

(** The record with a new status. *)
Definition take_status (st : Z) (r : DTCRecord) : DTCRecord :=
  if status r =? st then r else r <| status := st |>
    <| occurrence_count ::= fun c => if negb (Z.land st DTC_TEST_FAILED =? 0) then u8 (c + 1) else c |>.
Lemma take_status_code st r : key (take_status st r) = key r /\ fmi (take_status st r) = fmi r.
Proof. unfold take_status. by destruct (_ =? _). Qed.

Lemma wp_apply_status i r st Q h m :
  records h !! i = Some r ->
  Q tt (h <| records ::= <[i := take_status st r]> |>
          <| changes_pending := changes_pending h || negb (status r =? st) |>) m ->
  wp (apply_status i st) Q h m.
Proof.
  intros Hr HQ. unfold apply_status. apply wp_bind, wp_get. rewrite Hr. unfold take_status in HQ.
  destruct (status r =? st); [apply wp_ret|apply wp_modify].
  - cbn in HQ. rewrite (list_insert_id _ _ _ Hr), orb_false_r in HQ. by destruct h.
  - cbn [negb] in HQ. by rewrite orb_true_r in HQ.
Qed.

(** What setting a status does: a known code takes it; a new one takes the place behind
    the last, with the status and severity that were left there. *)
Definition renew (s f : Z) (stale : DTCRecord) : DTCRecord :=
  stale <| spn := s |> <| fmi := f |> <| occurrence_count := 1 |>.
Definition set_status_post (s f st : Z) h (b : bool) h' : Prop :=
  match dtc_map h !! code s f with
  | Some r => b = true /\ dtc_map h' = <[code s f := take_status st r]> (dtc_map h) /\
      changes_pending h' = changes_pending h || negb (status r =? st)
  | None =>
      match records h !! count h with
      | None => b = false /\ dtc_map h' = dtc_map h /\ changes_pending h' = changes_pending h
      | Some stale => b = true /\ dtc_map h' = <[code s f := take_status st (renew s f stale)]> (dtc_map h) /\
          changes_pending h' = changes_pending h || negb (status stale =? st)
      end
  end.
(** What no operation on the table touches. *)
Definition dtc_frame h h' : Prop :=
  j1939 h' = j1939 h /\ dtc_config h' = dtc_config h /\ aging_timer h' = aging_timer h /\
  broadcast_timer h' = broadcast_timer h /\ cycle_counter h' = cycle_counter h /\
  length (records h') = length (records h).

Lemma set_status_spec s f st h m :
  dtc_wf h -> is_u8 f ->
  wp (dtc_set_status s f st) (fun b h' m' => m' = m /\ dtc_wf h' /\ dtc_frame h h' /\ set_status_post s f st h b h') h m.
Proof.
  intros Hw Hf. pose proof Hw as [Hc Hu Hm]. unfold dtc_set_status, set_status_post.
  assert (Hmap : dtc_map h !! code s f = find_key (code s f) (count h) (records h) ≫= (records h !!.))
    by (by apply tbl_lookup).
  apply wp_bind, wp_enter, wp_bind, wp_get.
  change (find_dtc (set_crit _ h) s f) with (find_dtc h s f). rewrite find_dtc_key by done.
  destruct (find_key _ _ _) as [i|] eqn:E.
  - destruct (find_key_Some _ _ _ _ E) as (r & Hr & Hi & Hk). simpl in Hmap. rewrite Hmap, Hr.
    apply wp_bind. eapply wp_apply_status; [exact Hr|]. apply wp_bind. eapply wp_exit; [done|done|]. apply wp_ret.
    destruct (take_status_code st r) as [Hkr Hfr].
    destruct (tbl_update (count h) (records h) i (take_status st r) r) as [Hu' Ht']; auto.
    split; [apply primask_restored|]. split; [|split; [|split_and!]]; try done.
    + constructor; cbn; rewrite ?length_insert; auto. apply Forall_insert; [done|]. rewrite Hfr.
      by apply (Forall_lookup_1 _ _ _ _ Hm Hr).
    + split_and!; try done. cbn. by rewrite length_insert.
    + rewrite Hkr, Hk in Ht'. exact Ht'.
  - simpl in Hmap. rewrite Hmap.
    change (length (records (set_crit _ h))) with (length (records h)).
    change (count (set_crit _ h)) with (count h).
    destruct (length (records h) <=? count h)%nat eqn:El.
    + tests. rewrite lookup_ge_None_2 by lia. apply wp_bind. eapply wp_exit; [done|done|]. apply wp_ret.
      split; [apply primask_restored|]. by destruct Hw.
    + tests. destruct (lookup_lt_is_Some_2 (records h) (count h)) as [stale Hs]; [lia|]. rewrite Hs.
      apply wp_bind, wp_modify, wp_bind. eapply wp_apply_status.
      { cbn. change (count h) with (count h). rewrite list_lookup_alter_eq, Hs. done. }
      apply wp_bind. eapply wp_exit; [done|done|]. apply wp_ret.
      set (r := renew s f stale). change (stale <| spn := s |> <| fmi := f |> <| occurrence_count := 1 |>) with r.
      assert (Ha : <[count h := take_status st r]> (alter (fun r => r <| spn := s |> <| fmi := f |> <| occurrence_count := 1 |>)
        (count h) (records h)) = <[count h := take_status st r]> (records h)).
      { rewrite (alter_as_insert _ _ stale) by done. apply list_insert_insert_eq. }
      destruct (take_status_code st r) as [Hkr Hfr]. change (key r) with (code s f) in Hkr.
      destruct (tbl_push (count h) (records h) (take_status st r)) as [Hu' Ht']; [done|done|by rewrite Hkr|].
      split; [apply primask_restored|]. match goal with |- dtc_wf ?x /\ _ => set (h2 := x) end.
      assert (Hrec : records h2 = <[count h := take_status st r]> (records h)) by exact Ha.
      assert (Hn : count h2 = S (count h)) by done. split; [|split; [|split_and!]]; try done.
      * constructor; rewrite ?Hrec, ?Hn, ?length_insert; auto. apply Forall_insert; [done|]. by rewrite Hfr.
      * split_and!; try done. by rewrite Hrec, length_insert.
      * unfold dtc_map. rewrite Hrec, Hn, Ht'. by rewrite Hkr.
Qed.

Lemma get_record_spec s f h m :
  dtc_wf h -> is_u8 f ->
  wp (dtc_get_record s f) (fun o h' m' => m' = m /\ o = dtc_map h !! code s f /\ dtc_map h' = dtc_map h) h m.
Proof.
  intros Hw Hf. pose proof Hw as [Hc Hu Hm]. unfold dtc_get_record.
  apply wp_bind, wp_enter, wp_bind, wp_get, wp_bind. eapply wp_exit; [done|done|]. apply wp_ret.
  split; [apply primask_restored|]. split; [|done]. unfold dtc_map. rewrite tbl_lookup by done.
  change (find_dtc (set_crit _ h) s f) with (find_dtc h s f). by rewrite find_dtc_key.
Qed.
Lemma clear_all_spec h m :
  dtc_wf h ->
  wp dtc_clear_all (fun b h' m' => m' = m /\ b = true /\ dtc_wf h' /\ dtc_frame h h' /\
    dtc_map h' = ∅ /\ changes_pending h' = true) h m.
Proof.
  intros [Hc Hu Hm]. unfold dtc_clear_all. apply wp_bind, wp_enter, wp_bind, wp_modify, wp_bind, wp_modify, wp_bind.
  eapply wp_exit; [done|done|]. apply wp_ret. split; [apply primask_restored|]. split_and!; try done.
  constructor; [cbn; lia|by constructor|done].
Qed.

(** ** DM1 *)

Definition dm1_bytes (r : DTCRecord) : list Z :=
  [u8 (Z.land (spn r) 0xFF); u8 (Z.land (Z.shiftr (spn r) 8) 0xFF);
   u8 (Z.lor (Z.land (Z.shiftr (spn r) 16) 0x0F) (Z.shiftl (fmi r) 4)); u8 (occurrence_count r)].
Definition active_codes (h : DTCHandler D) : list DTCRecord :=
  filter (fun r => is_active r = true) (take (count h) (records h)).

Lemma put_byte_spec b data n bs :
  take n data = bs -> (n < length data)%nat ->
  exists data', put_byte b (data, n) = Some (data', S n) /\ length data' = length data /\
    take (S n) data' = bs ++ [u8 b].
Proof.
  intros <- Hn. unfold put_byte. rewrite (proj2 (Nat.ltb_lt _ _)) by done. eexists. split; [done|].
  split; [apply length_insert|]. by apply take_push.
Qed.
Lemma pack_dtc_spec r data n bs :
  take n data = bs -> (n + 4 <= length data)%nat ->
  exists data', pack_dtc r (data, n) = Some (data', n + 4)%nat /\ length data' = length data /\
    take (n + 4) data' = bs ++ dm1_bytes r.
Proof.
  intros Hb Hn. unfold pack_dtc.
  edestruct (put_byte_spec (Z.land (spn r) 0xFF) data n) as (d1 & -> & Hl1 & Ht1); [done|lia|]. cbn [mbind option_bind].
  edestruct (put_byte_spec (Z.land (Z.shiftr (spn r) 8) 0xFF) d1 (S n)) as (d2 & -> & Hl2 & Ht2); [done|lia|]. cbn [mbind option_bind].
  edestruct (put_byte_spec (Z.lor (Z.land (Z.shiftr (spn r) 16) 0x0F) (Z.shiftl (fmi r) 4)) d2 (S (S n))) as (d3 & -> & Hl3 & Ht3);
    [done|lia|]. cbn [mbind option_bind].
  edestruct (put_byte_spec (occurrence_count r) d3 (S (S (S n)))) as (d4 & -> & Hl4 & Ht4); [done|lia|].
  exists d4. replace (n + 4)%nat with (S (S (S (S n)))) by lia. split_and!; [done|lia|].
  rewrite Ht4. by rewrite <- !app_assoc.
Qed.
Lemma pack_active_spec rs data n bs :
  take n data = bs -> (n + 4 * length (filter (fun r => is_active r = true) rs) <= length data)%nat ->
  exists data', pack_active rs (data, n) = Some (data', n + 4 * length (filter (fun r => is_active r = true) rs))%nat /\
    length data' = length data /\
    take (n + 4 * length (filter (fun r => is_active r = true) rs)) data' =
      bs ++ flat_map dm1_bytes (filter (fun r => is_active r = true) rs).
Proof.
  revert data n bs. induction rs as [|r rs IH]; intros data n bs Hb Hn; cbn [pack_active].
  - exists data. rewrite filter_nil. cbn [length flat_map]. rewrite Nat.mul_0_r, Nat.add_0_r, app_nil_r. done.
  - destruct (is_active r) eqn:E.
    + rewrite filter_cons_True in Hn |- * by done. cbn [length flat_map] in *.
      destruct (pack_dtc_spec r data n bs) as (d1 & -> & Hl1 & Ht1); [done|lia|]. cbn [mbind option_bind].
      destruct (IH d1 (n + 4)%nat (bs ++ dm1_bytes r)) as (d2 & -> & Hl2 & Ht2); [done|lia|].
      exists d2. rewrite app_assoc, <- Ht2. split_and!; [do 2 f_equal; lia|lia|f_equal; lia].
    + rewrite filter_cons_False in Hn |- * by (by rewrite E). cbn [mbind option_bind]. by apply IH.
Qed.

(** The codes a receiver reads from such a message. *)
Fixpoint dm1_decode (n : nat) (bytes : list Z) : list (Z * Z * Z) :=
  match n, bytes with
  | S n, b0 :: b1 :: b2 :: b3 :: bytes =>
      (b0 + 256 * b1 + 65536 * (b2 mod 16), b2 / 16, b3) :: dm1_decode n bytes
  | _, _ => []
  end.
Definition dm1_codes (f : CANFrame) : list (Z * Z * Z) :=
  dm1_decode (Z.to_nat ((dlc f - 2) / 4)) (drop 2 (frame_data f)).
(** Numbers the four bytes have room for. *)
Definition fits (r : DTCRecord) : Prop := 0 <= spn r < 2 ^ 20 /\ 0 <= fmi r < 16 /\ is_u8 (occurrence_count r).
Definition reported (r : DTCRecord) : Z * Z * Z := (spn r, fmi r, occurrence_count r).

Lemma land_low z n : 0 <= n -> Z.land z (Z.ones n) = z mod 2 ^ n.
Proof. apply Z.land_ones. Qed.
Lemma mode_byte s f : 0 <= f < 16 -> u8 (Z.lor (Z.land s 0x0F) (Z.shiftl f 4)) = s mod 16 + 16 * f.
Proof.
  intros Hf. change 0x0F with (Z.ones 4). rewrite land_low, Z.shiftl_mul_pow2 by lia.
  change (2 ^ 4) with 16. pose proof (Z.mod_pos_bound s 16 ltac:(lia)) as Hs.
  replace (Z.lor (s mod 16) (f * 16)) with (s mod 16 + f * 16).
  - rewrite u8_small; [lia|]. unfold is_u8. lia.
  - symmetry. rewrite <- Z.lxor_lor, <- Z.add_nocarry_lxor; [done| |].
    all: apply Z.bits_inj'; intros i Hi; rewrite Z.land_spec, Z.bits_0;
      change 16 with (2 ^ 4); destruct (decide (i < 4));
      [rewrite Z.mul_pow2_bits_low by lia; apply andb_false_r|
       rewrite Z.mod_pow2_bits_high by lia; done].
Qed.
Lemma dm1_decode_bytes rs rest : Forall fits rs ->
  dm1_decode (length rs) (flat_map dm1_bytes rs ++ rest) = reported <$> rs.
Proof.
  induction 1 as [|r rs (Hs & Hf & Ho) Hrs IH]; [done|]. cbn [length flat_map dm1_bytes app dm1_decode fmap list_fmap].
  rewrite IH. f_equal. unfold reported. change 0xFF with (Z.ones 8). rewrite !land_low by lia.
  rewrite mode_byte by done. rewrite !Z.shiftr_div_pow2 by lia.
  rewrite (u8_small (occurrence_count r)) by done.
  rewrite !u8_small by (apply Z.mod_pos_bound; lia). unfold is_u8 in *.
  change (2 ^ 8) with 256. change (2 ^ 16) with 65536. change (2 ^ 20) with 1048576 in Hs.
  repeat f_equal; Z.div_mod_to_equations; lia.
Qed.

(** ** Processing *)

Definition due (t : Timer) (m : Machine) : bool :=
  running t && (timeout t <=? u32 (system_ticks m - start_time t)).
Definition live (h : DTCHandler D) : list DTCRecord := take (count h) (records h).
Definition kept (h : DTCHandler D) (rs : list DTCRecord) : list DTCRecord := filter (fun r => aged h r = false) rs.

(** The loop drops the aged records and keeps the order of the others. *)
Record scanned (h : DTCHandler D) (rs : list DTCRecord) (h' : DTCHandler D) : Prop := {
  sc_rest : h' = h <| records := records h' |> <| count := count h' |> <| changes_pending := changes_pending h' |>;
  sc_length : length (records h') = length (records h);
  sc_count : (count h' <= length (records h))%nat;
  sc_live : live h' = rs;
  sc_modes : Forall (fun r => is_u8 (fmi r)) (records h) -> Forall (fun r => is_u8 (fmi r)) (records h') }.

Lemma aging_scan_spec k i h m :
  count h = (i + k)%nat -> (count h <= length (records h))%nat ->
  wp (aging_scan k i) (fun _ h' m' => m' = m /\
    scanned h (take i (records h) ++ kept h (take k (drop i (records h)))) h' /\
    changes_pending h' = changes_pending h || existsb (aged h) (take k (drop i (records h)))) h m.
Proof.
  revert i h. induction k as [|k IH]; intros i h Hn Hl; cbn [aging_scan].
  - apply wp_ret. split; [done|]. split; [|by rewrite orb_false_r]. constructor; try done; [by destruct h|].
    unfold live, kept. rewrite Hn, Nat.add_0_r, take_0, filter_nil. by rewrite app_nil_r.
  - apply wp_bind, wp_get. destruct (lookup_lt_is_Some_2 (records h) i) as [r Hr]; [lia|]. rewrite Hr.
    rewrite (drop_S _ r i) by done. cbn [firstn existsb]. unfold kept. destruct (aged h r) eqn:E.
    + apply wp_bind, wp_modify. match goal with |- wp _ _ ?x _ => set (h1 := x) end.
      destruct (remove_record_split i k (count h) (records h)) as [Ht Hd]; [lia|lia|].
      rewrite remove_record_memmove in Ht, Hd by lia.
      assert (Hlen : length (records h1) = length (records h)) by (apply length_memmove_down; lia).
      eapply wp_mono; [apply (IH i h1)|].
      * change (count h1) with (count h - 1)%nat. lia.
      * change (count h1) with (count h - 1)%nat. lia.
      * intros [] h' m' (-> & [H1 H2 H3 H4 H5] & Hp). split; [done|].
        change (records h1) with (memmove_down i (count h) (records h)) in *. rewrite Ht, Hd in *.
        split; [|by rewrite Hp, orb_true_r]. constructor; [by rewrite H1|lia|lia| |].
        -- rewrite H4. rewrite filter_cons_False by (by rewrite E). done.
        -- intros Hm. apply H5. by apply Forall_memmove_down.
    + eapply wp_mono; [apply (IH (S i) h); lia|]. intros [] h' m' (-> & [H1 H2 H3 H4 H5] & Hp).
      split; [done|]. split; [|done]. constructor; try done.
      rewrite filter_cons_True by done. rewrite H4, (take_S_r _ _ r), <- app_assoc by done. done.
Qed.

(** The records, and the pending flag, after the ageing of a call at [m]. *)
Definition tick_cycle (h : DTCHandler D) : DTCHandler D := h <| cycle_counter ::= fun c => u32 (c + 1) |>.
Definition survivors (h : DTCHandler D) (m : Machine) : list DTCRecord :=
  if due (aging_timer h) m then kept (tick_cycle h) (live h) else live h.
Definition pending_after (h : DTCHandler D) (m : Machine) : bool :=
  changes_pending h || (due (aging_timer h) m && existsb (aged (tick_cycle h)) (live h)).

Lemma process_aging_spec h m :
  (count h <= length (records h))%nat ->
  wp process_aging (fun _ h' m' => (exists tc, m' = m <| timer_critical := tc |>) /\
    scanned (if due (aging_timer h) m then (tick_cycle h) <| aging_timer := mkTimer (system_ticks m) 1000 true |> else h)
      (survivors h m) h' /\ changes_pending h' = pending_after h m) h m.
Proof.
  intros Hc. unfold process_aging, survivors, pending_after. apply wp_bind, wp_expired. intros tc.
  change (running (aging_timer h) && _) with (due (aging_timer h) m).
  destruct (due (aging_timer h) m) eqn:E; cbn [negb andb].
  - apply wp_bind, wp_modify, wp_bind, wp_get, wp_bind. fold (tick_cycle h).
    eapply wp_mono; [apply (aging_scan_spec (count h) 0 (tick_cycle h)); [done|done]|].
    intros [] h' m' (-> & [H1 H2 H3 H4 H5] & Hp). apply wp_start.
    change (live h) with (take (count h) (drop 0 (records h))). split; [by eexists|].
    split; [|done]. constructor; try done. cbn. f_equal; by rewrite H1.
  - apply wp_ret. rewrite orb_false_r. split; [by eexists|]. split; [|done]. constructor; try done. by destruct h.
Qed.

(** A node's DM1 frame. *)
Definition dm1_frame (a : Z) (rs : list DTCRecord) : CANFrame :=
  let n := (2 + 4 * length rs)%nat in
  mkFrame (compose_can_id 3 J1939_PGN_DM1 a) (Z.of_nat n) true
    (([0; 0] ++ flat_map dm1_bytes rs) ++ replicate (64 - n) 0).
(** With at most one active code the bus is given one frame, which it takes if it
    accepts it, with more none. *)
Definition broadcast (rs : list DTCRecord) (j j' : J1939Handler D) : Prop :=
  current_address j' = current_address j /\
  let act := filter (fun r => is_active r = true) rs in
  if (length act <=? 1)%nat then
    let frame := dm1_frame (current_address j) act in
    sent (j_driver j') = sent (j_driver j) ++ if accepts frame (j_driver j) then [frame] else []
  else j_driver j' = j_driver j /\ in_progress (transport j') = true.

Lemma transmit_long_address x (j : J1939Handler D) m :
  8 < msg_length x ->
  wp (j1939_transmit x) (fun _ j' m' => current_address j' = current_address j /\ system_ticks m' = system_ticks m) j m.
Proof.
  intros Hl. unfold j1939_transmit, start_transport_session, set_transport. apply wp_bind, wp_enter, wp_bind, wp_get, wp_bind.
  rewrite (proj2 (Z.leb_gt _ _)) by lia. apply wp_bind, wp_get. destruct (in_progress _).
  - apply wp_ret, wp_bind. eapply wp_exit; [reflexivity|done|]. by apply wp_ret.
  - apply wp_bind, wp_modify, wp_bind, wp_start, wp_ret, wp_bind. eapply wp_exit; [reflexivity|done|]. by apply wp_ret.
Qed.

Lemma update_dm1_spec h m :
  (2 + 4 * length (filter (fun r => is_active r = true) (live h)) <= 1785)%nat ->
  wp update_dm1_message (fun _ h' m' => primask m' = primask m /\
    h' = h <| j1939 := j1939 h' |> <| changes_pending := false |> /\
    if changes_pending h then broadcast (live h) (j1939 h) (j1939 h') else j1939 h' = j1939 h) h m.
Proof.
  intros Hfit. unfold update_dm1_message. apply wp_bind, wp_get. destruct (changes_pending h) eqn:E; cbn [negb].
  2:{ apply wp_ret. split_and!; [done|destruct h; cbn in *; by subst|done]. }
  destruct (pack_active_spec (live h) (<[1%nat := 0]> (<[0%nat := 0]> (replicate 1785 0))) 2 [0; 0]) as (data & Hp & Hl & Ht);
    [done|by rewrite !length_insert, length_replicate|].
  unfold live in Hp at 1. rewrite Hp. rewrite !length_insert, length_replicate in Hl.
  unfold broadcast. set (act := filter _ (live h)) in *. apply wp_bind, wp_zoom.
  destruct (length act <=? 1)%nat eqn:El; tests.
  - eapply wp_mono; [apply transmit_short_spec; cbn [msg_length msg_data]; lia|].
    intros ok j' m' (-> & Ho & d & -> & _ & Hs). apply wp_modify. split_and!; try done. cbv zeta.
    assert (Hfr : frame_of (current_address (j1939 h)) (mkMessage J1939_PGN_DM1 3 0 0xFF data (Z.of_nat (2 + 4 * length act))) =
      dm1_frame (current_address (j1939 h)) act).
    { unfold frame_of, dm1_frame. cbn [priority pgn msg_length msg_data]. by rewrite Nat2Z.id, Ht. }
    rewrite Ho, Hfr in Hs. exact Hs.
  - eapply wp_mono; [apply wp_and; [apply transmit_long_spec|apply transmit_long_address]; cbn [msg_length]; lia|].
    intros ok j' m' [(_ & Hd & Hi & Hm) [Ha _]]. apply wp_modify. by split_and!.
Qed.

Lemma scanned_wf h rs h' : scanned h rs h' -> dtc_wf h -> sublist rs (live h) -> dtc_wf h'.
Proof.
  intros [H1 H2 H3 H4 H5] [Hc Hu Hm] Hs. constructor; [lia| |auto]. unfold tbl_uniq, live in *. rewrite H4.
  eapply sublist_NoDup; [exact Hu|]. by apply fmap_sublist.
Qed.
Lemma survivors_sublist h m : sublist (survivors h m) (live h).
Proof. unfold survivors, kept. case_match; [apply sublist_filter|done]. Qed.

Lemma process_spec h m :
  dtc_wf h -> (length (records h) <= 445)%nat ->
  wp dtc_process (fun _ h' m' => primask m' = primask m /\ dtc_wf h' /\ live h' = survivors h m /\
    length (records h') = length (records h) /\
    (running (aging_timer h) = false -> aging_timer h' = aging_timer h /\ cycle_counter h' = cycle_counter h) /\
    if due (broadcast_timer h) m && pending_after h m
    then changes_pending h' = false /\ broadcast (survivors h m) (j1939 h) (j1939 h')
    else changes_pending h' = pending_after h m /\ j1939 h' = j1939 h) h m.
Proof.
  intros Hw Hcap. pose proof Hw as [Hc Hu Hm]. unfold dtc_process, process_broadcast.
  apply wp_bind, wp_enter, wp_bind. eapply wp_mono; [apply process_aging_spec; exact Hc|].
  intros [] h1 m1 ([tc ->] & Hsc & Hp). 
  set (hc := set_crit (mkCS (Z.b2z (primask m)) true) h) in *. set (mm := m <| primask := true |>) in *.
  change (due (aging_timer hc) mm) with (due (aging_timer h) m) in Hsc.
  change (pending_after hc mm) with (pending_after h m) in Hp. change (survivors hc mm) with (survivors h m) in Hsc.
  assert (Hw1 : dtc_wf h1).
  { eapply scanned_wf; [exact Hsc| |].
    - destruct (due _ _); constructor; done.
    - by destruct (due _ _); exact (survivors_sublist h m). }
  destruct Hsc as [H1 H2 H3 H4 H5].
  assert (Hj : j1939 h1 = j1939 h /\ dtc_critical h1 = mkCS (Z.b2z (primask m)) true /\
    broadcast_timer h1 = broadcast_timer h /\ length (records h1) = length (records h) /\
    (running (aging_timer h) = false -> aging_timer h1 = aging_timer h /\ cycle_counter h1 = cycle_counter h)).
  { split_and!; [| | |by rewrite H2; destruct (due _ _)|].
    1-3: rewrite H1; by destruct (due _ _).
    intros Hr. assert (Hd : due (aging_timer h) m = false) by (unfold due; by rewrite Hr).
    rewrite Hd in H1. rewrite H1. done. }
  destruct Hj as (Hj & Hcr & Hbt & Hlen & Hag).
  apply wp_bind, wp_bind, wp_expired. intros tc2. rewrite Hbt.
  change (running (broadcast_timer h) && _) with (due (broadcast_timer h) m).
  destruct (due (broadcast_timer h) m); cbn [negb andb].
  - apply wp_bind. eapply wp_mono; [apply update_dm1_spec|].
    { assert (length (filter (fun r => is_active r = true) (live h1)) <= 445)%nat; [|lia].
      etrans; [apply length_filter|]. unfold live. rewrite length_take. lia. }
    intros [] h2 m2 (Hm2 & H1' & Hb). apply wp_start. eapply wp_exit; [|exact Hm2|].
    { cbn. rewrite H1'. exact Hcr. }
    assert (Hrec : records h2 = records h1 /\ count h2 = count h1 /\ aging_timer h2 = aging_timer h1 /\
      cycle_counter h2 = cycle_counter h1 /\ changes_pending h2 = false) by (rewrite H1'; done).
    destruct Hrec as (Hrec & Hcn & Hat & Hcy & Hcp). split; [done|]. rewrite Hp in Hb. unfold live in *.
    split_and!; [|cbn; congruence|cbn; congruence|cbn; intros Hr; destruct (Hag Hr); split; congruence|].
    { destruct Hw1. constructor; cbn; rewrite ?Hrec, ?Hcn; done. }
    destruct (pending_after h m); cbn; split; try done; [by rewrite <- H4, <- Hj|congruence].
  - apply wp_ret. eapply wp_exit; [exact Hcr|done|]. split_and!; try done. by destruct Hw1.
Qed.

(** ** Runs *)

Inductive DtcCall := CallSetStatus (s f st : Z) | CallClearAll | CallProcess | CallTick.
Definition dtc_exec (c : DtcCall) : M (DTCHandler D) unit :=
  match c with
  | CallSetStatus s f st => dtc_set_status s f st;; mret tt
  | CallClearAll => dtc_clear_all;; mret tt
  | CallProcess => dtc_process
  | CallTick => on_machine (fun m => (tt, SysTick_Handler m))
  end.
Fixpoint dtc_run (cs : list DtcCall) : M (DTCHandler D) unit :=
  match cs with [] => mret tt | c :: cs => dtc_exec c;; dtc_run cs end.
Definition keeps_codes (c : DtcCall) : Prop :=
  match c with CallSetStatus _ f _ => is_u8 f | CallClearAll => False | _ => True end.

(** A handler whose ageing timer was never started. *)
Record unaged (h : DTCHandler D) : Prop := {
  un_wf : dtc_wf h; un_capacity : (length (records h) <= 445)%nat; un_timer : running (aging_timer h) = false }.

Lemma exec_unaged c h m :
  unaged h -> keeps_codes c ->
  wp (dtc_exec c) (fun _ h' _ => unaged h' /\ cycle_counter h' = cycle_counter h /\ dom (dtc_map h) ⊆ dom (dtc_map h')) h m.
Proof.
  intros [Hw Hc Ht] Hk. destruct c as [s f st| | |]; [|done| |]; simpl in Hk |- *.
  - apply wp_bind. eapply wp_mono; [by apply set_status_spec|].
    intros b h' m' (-> & Hw' & (_ & _ & Hat & _ & Hcn & Hl) & Hpost). apply wp_ret.
    split; [constructor; [done|lia|by rewrite Hat]|]. split; [done|]. unfold set_status_post in Hpost.
    repeat case_match; destruct Hpost as (_ & -> & _); rewrite ?dom_insert_L; set_solver.
  - eapply wp_mono; [by apply process_spec|]. intros [] h' m' (_ & Hw' & Hl & Hlen & Hag & _).
    destruct (Hag Ht) as [Hat Hcy]. split; [constructor; [done|lia|by rewrite Hat]|]. split; [done|].
    assert (Hd : due (aging_timer h) m = false) by (unfold due; by rewrite Ht).
    unfold survivors, live in Hl. rewrite Hd in Hl. unfold dtc_map, tbl. by rewrite Hl.
  - unfold wp, on_machine. done.
Qed.
Lemma run_unaged cs h m :
  unaged h -> Forall keeps_codes cs ->
  wp (dtc_run cs) (fun _ h' _ => unaged h' /\ cycle_counter h' = cycle_counter h /\ dom (dtc_map h) ⊆ dom (dtc_map h')) h m.
Proof.
  intros Hu Hk. revert h m Hu. induction Hk as [|c cs Hc Hk IH]; intros h m Hu; simpl; [by apply wp_ret|].
  apply wp_bind. eapply wp_mono; [by apply exec_unaged|]. intros [] h1 m1 (Hu1 & Hc1 & Hd1).
  eapply wp_mono; [by apply IH|]. intros [] h2 m2 (Hu2 & Hc2 & Hd2). split_and!; [done|congruence|set_solver].
Qed.
Lemma create_unaged g1 g2 j cfg m h m' :
  dtc_create g1 g2 j cfg m = (Some h, m') -> (forall c, cfg = Some c -> (max_dtcs c <= 445)%nat) ->
  unaged h /\ dtc_map h = ∅ /\ cycle_counter h = 0.
Proof.
  unfold dtc_create. intros Hcr Hcap. destruct j as [j|], cfg as [cfg|]; try done.
  destruct (_ || _); [done|]. rewrite timer_start_spec in Hcr. injection Hcr as <- <-.
  split; [|done]. constructor; [|cbn; rewrite length_replicate; auto|done].
  constructor; [cbn; lia|by constructor|]. cbn. by apply Forall_replicate.
Qed.

(** ** Properties *)

(**  The table is a finite map from codes (suspect parameter and failure mode) to
    records: setting a status changes the record of a known code, adds one for a new code
    while there is room and refuses it otherwise; a record is read back by its code;
    clearing empties the map.  A new code takes over the status and severity that an older
    one left in its place. *)
Theorem dtc_codes_refine s f st h m :
  dtc_wf h -> is_u8 f ->
  wp (dtc_set_status s f st) (fun b h' m' => m' = m /\ dtc_wf h' /\ set_status_post s f st h b h') h m /\
  wp (dtc_get_record s f) (fun o h' m' => m' = m /\ o = dtc_map h !! code s f /\ dtc_map h' = dtc_map h) h m /\
  wp dtc_clear_all (fun b h' m' => m' = m /\ b = true /\ dtc_wf h' /\ dtc_map h' = ∅) h m.
Proof.
  intros Hw Hf. split_and!.
  - eapply wp_mono; [by apply set_status_spec|]. naive_solver.
  - by apply get_record_spec.
  - eapply wp_mono; [by apply clear_all_spec|]. naive_solver.
Qed.

(** C34. One call of [dtc_process] with room for every code in a DM1 message: the codes
    that have aged out leave the table, the others stay in order, the interrupt mask is
    restored, and when the broadcast is due and something has changed the bus is given
    one DM1 frame from which a receiver reads exactly the active code, if there is at
    most one; the frame is on its way exactly when the bus accepts it (a started driver
    with room in its queue).  With two or more active codes nothing is sent and the
    change is forgotten. *)
Theorem dm1_broadcast h m :
  dtc_wf h -> (length (records h) <= 445)%nat ->
  wp dtc_process (fun _ h' m' => primask m' = primask m /\ dtc_wf h' /\ live h' = survivors h m /\
    if due (broadcast_timer h) m && pending_after h m
    then changes_pending h' = false /\
      let act := filter (fun r => is_active r = true) (survivors h m) in
      if (length act <=? 1)%nat then
        exists frame,
          sent (j_driver (j1939 h')) =
            sent (j_driver (j1939 h)) ++ (if accepts frame (j_driver (j1939 h)) then [frame] else []) /\
          id frame = compose_can_id 3 J1939_PGN_DM1 (current_address (j1939 h)) /\
          (Forall fits act -> dm1_codes frame = reported <$> act)
      else sent (j_driver (j1939 h')) = sent (j_driver (j1939 h))
    else changes_pending h' = pending_after h m /\ j1939 h' = j1939 h) h m.
Proof.
  intros Hw Hcap. eapply wp_mono; [by apply process_spec|]. intros [] h' m' (Hm & Hw' & Hl & _ & _ & Hb).
  split_and!; [done..|]. destruct (_ && _); [|done]. destruct Hb as [Hp [_ Hb]]. split; [done|]. cbv zeta in Hb |- *.
  set (act := filter _ _) in *. destruct (length act <=? 1)%nat eqn:E; [|by destruct Hb as [-> _]].
  exists (dm1_frame (current_address (j1939 h)) act). split_and!; [done..|].
  intros Hf. unfold dm1_codes, dm1_frame. cbn [dlc frame_data mkFrame].
  replace (Z.to_nat ((Z.of_nat (2 + 4 * length act) - 2) / 4)) with (length act).
  - cbn [app drop skipn]. by apply dm1_decode_bytes.
  - rewrite Nat2Z.inj_add, Nat2Z.inj_mul, Z.add_simpl_l, Z.mul_comm, Z.div_mul by done. lia.
Qed.

(**  No code ages out of a handler that [dtc_create] returned: along any run of status
    reports, processing and ticks of the clock every code stays in the table, and the
    ageing cycle is never counted. *)
Theorem codes_never_age g1 g2 j cfg cs1 cs2 h m0 m1 m :
  dtc_create g1 g2 j (Some cfg) m0 = (Some h, m1) -> (max_dtcs cfg <= 445)%nat ->
  Forall keeps_codes cs1 -> Forall keeps_codes cs2 ->
  wp (dtc_run cs1;; h1 ← get; dtc_run cs2;; h2 ← get; mret (h1, h2)) (fun hs _ _ =>
    dom (dtc_map hs.1) ⊆ dom (dtc_map hs.2) /\ cycle_counter hs.2 = 0) h m.
Proof.
  intros Hc Hcap H1 H2. destruct (create_unaged _ _ _ _ _ _ _ Hc) as (Hu & _ & Hz); [by intros c [= <-]|].
  apply wp_bind. eapply wp_mono; [by apply run_unaged|]. intros [] h1 ma (Hu1 & Hc1 & _).
  apply wp_bind, wp_get, wp_bind. eapply wp_mono; [by apply run_unaged|]. intros [] h2 mb (Hu2 & Hc2 & Hd).
  apply wp_bind, wp_get, wp_ret. split; [done|]. simpl. congruence.
Qed.
End dtc_handler.

(** ** Examples *)

Definition example_codes : DTCHandler (CANDriver ListQueue) :=
  mkDTCHandler (node 0x21 []) (mkDTCConfig 4 false 40 true)
    [mkDTC 110 3 2 (DTC_TEST_FAILED) DTC_SEVERITY_NO_SEVERITY; dtc_zero; dtc_zero; dtc_zero] 1
    0 timer_zero (mkTimer 0 0 true) true cs_zero.
Lemma example_codes_wf : dtc_wf example_codes.
Proof.
  constructor; [cbn; lia| |].
  - apply NoDup_singleton.
  - repeat constructor; cbn; unfold is_u8; lia.
Qed.

(** Witness of [dtc_codes_refine]: a second code. *)
Lemma dtc_codes_refine_witness :
  wp (dtc_set_status 190 2 DTC_TEST_FAILED) (fun b h' m' => m' = boot /\ dtc_wf h' /\
    set_status_post 190 2 DTC_TEST_FAILED example_codes b h') example_codes boot.
Proof. apply (dtc_codes_refine 190 2 DTC_TEST_FAILED example_codes boot); [apply example_codes_wf|unfold is_u8; lia]. Defined.

(** Witness of [dm1_broadcast]: the one active code is sent. *)
Lemma dm1_broadcast_witness :
  wp dtc_process (fun _ h' _ => exists frame,
    sent (j_driver (j1939 h')) = [frame] /\ dm1_codes frame = [(110, 3, 2)]) example_codes boot.
Proof.
  eapply wp_mono; [apply (dm1_broadcast example_codes boot); [apply example_codes_wf|cbn; lia]|].
  intros [] h' m' (_ & _ & _ & Hb). cbn in Hb. destruct Hb as (_ & frame & Hs & _ & Hf).
  exists frame. split; [exact Hs|]. apply Hf. repeat constructor; cbn; unfold is_u8; lia.
Defined.

(** Witness of [codes_never_age]. *)
Lemma codes_never_age_witness :
  wp (dtc_run [CallSetStatus 110 3 0x10];; h1 ← get; dtc_run [CallTick; CallProcess];; h2 ← get; mret (h1, h2))
    (fun hs _ _ => dom (dtc_map hs.1) ⊆ dom (dtc_map hs.2) /\ cycle_counter hs.2 = 0)
    (mkDTCHandler (node 0x21 []) (mkDTCConfig 4 false 1 true) (replicate 4 dtc_zero) 0 0 timer_zero
       (mkTimer 0 1000 true) false cs_zero) boot.
Proof.
  eapply (codes_never_age true true (Some (node 0x21 [])) (mkDTCConfig 4 false 1 true)
    [CallSetStatus 110 3 0x10] [CallTick; CallProcess] _ boot); [reflexivity|cbn; lia| |]; repeat constructor; cbn; lia.
Defined.
