(* ===== verification/ConfigManager.v ===== *)
(** * Configuration store of the add-ons

    [diagnostic/config/config_manager.c]: up to 256 configuration items of up to 1024
    bytes, found by number, under the process-wide mutex of [Mutex.v].

    A [void *] value is the list of bytes it points to; copying more bytes than it has is
    undefined.  Validators are named by a number, 0 for NULL, and [validate] says what they
    answer; callbacks are recorded and do not call back.  [Config_SaveToFile] is declared
    but defined nowhere: [saves] says what it answers.  [clock] is what
    [Timer_GetMilliseconds] returns. *)

From S2P Require Import Prelude Machine Tables Mutex.

Definition MAX_CONFIG_ITEMS : nat := 256.
Definition MAX_STRING_LENGTH : Z := 256.
Definition MAX_BLOB_SIZE : Z := 1024.

Inductive ConfigType :=
| CONFIG_TYPE_BOOL | CONFIG_TYPE_INT32 | CONFIG_TYPE_UINT32 | CONFIG_TYPE_FLOAT
| CONFIG_TYPE_STRING | CONFIG_TYPE_BLOB.

Record ConfigItem := mkItem {
  item_id : Z; item_type : ConfigType; item_name : option string; description : option string;
  default_value : option (list Z); item_size : Z; persistent : bool; validator : Z; item_callback : bool }.
Definition item_zero : ConfigItem := mkItem 0 CONFIG_TYPE_BOOL None None None 0 false 0 false.

Record ConfigManagerConfig := mkConfig {
  max_items : Z; storage_path : option string; enable_validation : bool; enable_callbacks : bool;
  auto_save : bool; auto_save_interval_ms : Z }.

Record ConfigEntry := mkConfigEntry { item : ConfigItem; current_value : list Z; modified : bool }.
#[export] Instance eta_ConfigEntry : Eta ConfigEntry := fun e => mkConfigEntry (item e) (current_value e) (modified e).
Definition config_entry_zero : ConfigEntry := mkConfigEntry item_zero (replicate 1024 0) false.
#[export] Instance ConfigEntry_key : Keyed ConfigEntry := fun e => item_id (item e).

(** [config_mgr], the mutex, the logger and the clock. *)
Record ConfigManager := mkConfigManager {
  cfg : ConfigManagerConfig; items : list ConfigEntry; item_count : nat; last_save_time : Z; initialized : bool;
  cfg_mutex : bool; cfg_logger : option LogLevel; clock : Z }.
#[export] Instance eta_ConfigManager : Eta ConfigManager := fun s =>
  mkConfigManager (cfg s) (items s) (item_count s) (last_save_time s) (initialized s) (cfg_mutex s) (cfg_logger s) (clock s).
#[export, refine] Instance ConfigManager_mutex : HasMutex ConfigManager :=
  {| locked := cfg_mutex; set_locked b s := s <| cfg_mutex := b |>; log_min := cfg_logger |}.
Proof. all: by intros; destruct s. Defined.

Definition config_zero : ConfigManagerConfig := mkConfig 0 None false false false 0.
(** [memset(&config_mgr, 0, ...)] *)
Definition config_clear (s : ConfigManager) : ConfigManager :=
  s <| cfg := config_zero |> <| items := replicate MAX_CONFIG_ITEMS config_entry_zero |> <| item_count := 0%nat |>
    <| last_save_time := 0 |> <| initialized := false |>.

Definition validate_config_size (type : ConfigType) (size : Z) : bool :=
  match type with
  | CONFIG_TYPE_BOOL => size =? 1
  | CONFIG_TYPE_INT32 | CONFIG_TYPE_UINT32 | CONFIG_TYPE_FLOAT => size =? 4
  | CONFIG_TYPE_STRING => size <=? MAX_STRING_LENGTH
  | CONFIG_TYPE_BLOB => size <=? MAX_BLOB_SIZE
  end.

(** [memcpy(dst, src, n)]: the destination afterwards. *)
Definition copy_bytes (src dst : list Z) (n : Z) : option (list Z) :=
  let k := Z.to_nat n in
  if (k <=? length src)%nat && (k <=? length dst)%nat then Some (take k src ++ drop k dst) else None.
Definition lift {A} (o : option A) : M ConfigManager A := match o with Some a => mret a | None => fault end.

Section config.
Context (validate : Z -> list Z -> bool) (saves : ConfigManager -> bool).

Definition Timer_GetMilliseconds : M ConfigManager Z := s ← get; mret (clock s).
Definition Config_SaveToFile : M ConfigManager bool :=
  emit "Config_SaveToFile" [];; s ← get; mret (saves s).

Definition Config_Init (config : option ConfigManagerConfig) : M ConfigManager bool :=
  match config with
  | None => mret false
  | Some c =>
      if Z.of_nat MAX_CONFIG_ITEMS <? max_items c then mret false else
      modify config_clear;;
      modify (fun s => s <| cfg := c |>);;
      t ← Timer_GetMilliseconds;
      modify (fun s => s <| last_save_time := t |> <| initialized := true |>);;
      Logger_Log LOG_LEVEL_INFO;;
      mret true
  end.

Definition Config_Deinit : M ConfigManager unit :=
  s ← get;
  (if initialized s && auto_save (cfg s) then Config_SaveToFile;; mret tt else mret tt);;
  Logger_Log LOG_LEVEL_INFO;;
  modify config_clear.

(** The test for a duplicate; [strcmp] of a NULL name does not happen, because live items
    have names. *)
Definition clashes (it : ConfigItem) (e : ConfigEntry) : bool :=
  (item_id (item e) =? item_id it) || bool_decide (item_name (item e) = item_name it).

Definition Config_RegisterItem (it : option ConfigItem) : M ConfigManager bool :=
  s ← get;
  match it with
  | None => mret false
  | Some it =>
      if negb (initialized s) || bool_decide (item_name it = None) ||
         (max_items (cfg s) <=? Z.of_nat (item_count s)) then mret false else
      lock;;
      match find_idx (clashes it) (item_count s) (items s) with
      | Some _ => unlock;; Logger_Log LOG_LEVEL_ERROR;; mret false
      | None =>
          if negb (validate_config_size (item_type it) (item_size it)) then
            unlock;; Logger_Log LOG_LEVEL_ERROR;; mret false
          else
          e ← lift (items s !! item_count s);
          v ← (match default_value it with
               | Some d => lift (copy_bytes d (current_value e) (item_size it))
               | None => mret (current_value e)
               end);
          modify (fun s => s <| items ::= <[item_count s := mkConfigEntry it v (modified e)]> |> <| item_count ::= S |>);;
          Logger_Log LOG_LEVEL_INFO;;
          unlock;;
          mret true
      end
  end.

Definition Config_UnregisterItem (id : Z) : M ConfigManager bool :=
  s ← get;
  if negb (initialized s) then mret false else
  lock;;
  match find_key id (item_count s) (items s) with
  | None => unlock;; mret false
  | Some i =>
      (if (i <? item_count s - 1)%nat then
         last ← lift (items s !! (item_count s - 1)%nat);
         modify (fun s => s <| items ::= <[i := last]> |>)
       else mret tt);;
      modify (fun s => s <| item_count ::= fun n => (n - 1)%nat |>);;
      Logger_Log LOG_LEVEL_INFO;;
      unlock;;
      mret true
  end.

Definition Config_SetValue (id : Z) (value : option (list Z)) : M ConfigManager bool :=
  s ← get;
  match value with
  | None => mret false
  | Some value =>
      if negb (initialized s) then mret false else
      lock;;
      match find_key id (item_count s) (items s) with
      | None => unlock;; mret false
      | Some i =>
          e ← lift (items s !! i);
          if enable_validation (cfg s) && negb (validator (item e) =? 0) && negb (validate (validator (item e)) value)
          then unlock;; Logger_Log LOG_LEVEL_ERROR;; mret false
          else
          v ← lift (copy_bytes value (current_value e) (item_size (item e)));
          modify (fun s => s <| items ::= <[i := e <| current_value := v |> <| modified := true |>]> |>);;
          callback (enable_callbacks (cfg s) && item_callback (item e)) "callback"
            (id :: take (Z.to_nat (item_size (item e))) (current_value e) ++ value);;
          Logger_Log LOG_LEVEL_DEBUG;;
          unlock;;
          mret true
      end
  end.

(** The buffer the value is copied to, and [None] when the answer is [false]. *)
Definition Config_GetValue (id : Z) (value : option (list Z)) : M ConfigManager (option (list Z)) :=
  s ← get;
  match value with
  | None => mret None
  | Some value =>
      if negb (initialized s) then mret None else
      lock;;
      match find_key id (item_count s) (items s) with
      | None => unlock;; mret None
      | Some i =>
          e ← lift (items s !! i);
          v ← lift (copy_bytes (current_value e) value (item_size (item e)));
          unlock;;
          mret (Some v)
      end
  end.

Definition Config_ResetToDefault (id : Z) : M ConfigManager bool :=
  s ← get;
  if negb (initialized s) then mret false else
  lock;;
  match find_idx (fun e => (item_id (item e) =? id) && bool_decide (is_Some (default_value (item e))))
          (item_count s) (items s) with
  | None => unlock;; mret false
  | Some i =>
      e ← lift (items s !! i);
      v ← lift (d ← default_value (item e); copy_bytes d (current_value e) (item_size (item e)));
      modify (fun s => s <| items ::= <[i := e <| current_value := v |> <| modified := true |>]> |>);;
      Logger_Log LOG_LEVEL_INFO;;
      unlock;;
      mret true
  end.

Definition needs_save (e : ConfigEntry) : bool := modified e && persistent (item e).
(** The loop that clears the flags of the first [n] entries. *)
Definition clear_modified (n : nat) (es : list ConfigEntry) : list ConfigEntry :=
  ((fun e => e <| modified := false |>) <$> take n es) ++ drop n es.
Definition Config_ProcessAutoSave : M ConfigManager unit :=
  s ← get;
  if negb (initialized s) || negb (auto_save (cfg s)) || bool_decide (storage_path (cfg s) = None) then mret tt else
  t ← Timer_GetMilliseconds;
  if auto_save_interval_ms (cfg s) <=? u32 (t - last_save_time s) then
    (if existsb needs_save (take (item_count s) (items s)) then
       b ← Config_SaveToFile;
       if b : bool then modify (fun s => s <| items ::= clear_modified (item_count s) |>) else mret tt
     else mret tt);;
    modify (fun s => s <| last_save_time := t |>)
  else mret tt.
End config.

(** ** The store as a finite map *)

Definition config_map (s : ConfigManager) : gmap Z ConfigEntry := tbl (item_count s) (items s).
Definition item_ok (it : ConfigItem) : Prop :=
  0 <= item_size it <= MAX_BLOB_SIZE /\ is_Some (item_name it) /\
  match default_value it with Some d => item_size it <= Z.of_nat (length d) | None => True end.
Record config_wf (s : ConfigManager) : Prop := {
  cw_free : cfg_mutex s = false;
  cw_init : initialized s = true;
  cw_length : length (items s) = MAX_CONFIG_ITEMS;
  cw_count : Z.of_nat (item_count s) <= max_items (cfg s) <= Z.of_nat MAX_CONFIG_ITEMS;
  cw_uniq : tbl_uniq (item_count s) (items s);
  cw_bytes : Forall (fun e => length (current_value e) = Z.to_nat MAX_BLOB_SIZE) (items s);
  cw_items : Forall (fun e => item_ok (item e)) (take (item_count s) (items s)) }.
(** Messages of level INFO, and with them the lower ones, are not written. *)
Definition quiet (s : ConfigManager) : Prop := logs (cfg_logger s) LOG_LEVEL_INFO = false.
Lemma quiet_debug s : quiet s -> logs (cfg_logger s) LOG_LEVEL_DEBUG = false.
Proof. unfold quiet. destruct (cfg_logger s) as [[]|]; done. Qed.

(** A value written over the bytes that were there. *)
Definition overlay (n : Z) (v old : list Z) : list Z := take (Z.to_nat n) v ++ drop (Z.to_nat n) old.
Lemma copy_bytes_overlay src dst n :
  0 <= n <= Z.of_nat (length src) -> n <= Z.of_nat (length dst) -> copy_bytes src dst n = Some (overlay n src dst).
Proof.
  intros H1 H2. unfold copy_bytes. by rewrite !(proj2 (Nat.leb_le _ _)) by lia.
Qed.
Lemma length_overlay n v old :
  0 <= n <= Z.of_nat (length v) -> n <= Z.of_nat (length old) -> length (overlay n v old) = length old.
Proof. intros H1 H2. unfold overlay. rewrite length_app, length_take, length_drop. lia. Qed.

Lemma overlay_overlay n v old buf :
  0 <= n <= Z.of_nat (length v) -> overlay n (overlay n v old) buf = overlay n v buf.
Proof.
  intros Hn. unfold overlay. rewrite take_app_le by (rewrite length_take; lia). by rewrite take_take, Nat.min_id.
Qed.

Section config_proofs.
Context (validate : Z -> list Z -> bool).
Implicit Types s : ConfigManager.

Inductive ConfigOp :=
| OpRegister (it : ConfigItem) | OpUnregister (id : Z) | OpSet (id : Z) (v : list Z)
| OpGet (id : Z) (buf : list Z) | OpReset (id : Z).
Inductive ConfigOut := Done (b : bool) | Value (v : option (list Z)).
Definition config_exec (op : ConfigOp) : M ConfigManager ConfigOut :=
  match op with
  | OpRegister it => b ← Config_RegisterItem (Some it); mret (Done b)
  | OpUnregister id => b ← Config_UnregisterItem id; mret (Done b)
  | OpSet id v => b ← Config_SetValue validate id (Some v); mret (Done b)
  | OpGet id buf => v ← Config_GetValue id (Some buf); mret (Value v)
  | OpReset id => b ← Config_ResetToDefault id; mret (Done b)
  end.

(** The pointers of a call lead to enough bytes. *)
Definition op_ok (op : ConfigOp) (mp : gmap Z ConfigEntry) : Prop :=
  match op with
  | OpRegister it => 0 <= item_size it /\
      match default_value it with Some d => item_size it <= Z.of_nat (length d) | None => True end
  | OpSet id v | OpGet id v => forall e, mp !! id = Some e -> item_size (item e) <= Z.of_nat (length v)
  | _ => True
  end.

Definition write_value (e : ConfigEntry) (v : list Z) : ConfigEntry :=
  e <| current_value := overlay (item_size (item e)) v (current_value e) |> <| modified := true |>.
Definition clash_free (it : ConfigItem) (mp : gmap Z ConfigEntry) : Prop :=
  map_Forall (fun _ e => clashes it e = false) mp.
#[export] Instance clash_free_dec it mp : Decision (clash_free it mp) := _.

Definition register_spec (it : ConfigItem) (c : ConfigManagerConfig) (stale : option ConfigEntry) (mp : gmap Z ConfigEntry)
  : ConfigOut * gmap Z ConfigEntry :=
  match item_name it, stale with
  | Some _, Some stale =>
      if (Z.of_nat (size mp) <? max_items c) && bool_decide (clash_free it mp) &&
         validate_config_size (item_type it) (item_size it)
      then (Done true, <[item_id it := mkConfigEntry it
             (match default_value it with Some d => overlay (item_size it) d (current_value stale) | None => current_value stale end)
             (modified stale)]> mp)
      else (Done false, mp)
  | _, _ => (Done false, mp)
  end.
Definition set_spec (id : Z) (v : list Z) (c : ConfigManagerConfig) (mp : gmap Z ConfigEntry)
  : ConfigOut * gmap Z ConfigEntry * list Call :=
  match mp !! id with
  | None => (Done false, mp, [])
  | Some e =>
      if enable_validation c && negb (validator (item e) =? 0) && negb (validate (validator (item e)) v)
      then (Done false, mp, [])
      else (Done true, <[id := write_value e v]> mp,
            if enable_callbacks c && item_callback (item e)
            then [call "callback" (id :: take (Z.to_nat (item_size (item e))) (current_value e) ++ v)] else [])
  end.
Definition config_spec (op : ConfigOp) (c : ConfigManagerConfig) (stale : option ConfigEntry) (mp : gmap Z ConfigEntry)
  : ConfigOut * gmap Z ConfigEntry * list Call :=
  match op with
  | OpRegister it => (register_spec it c stale mp, [])
  | OpUnregister id => (Done (bool_decide (is_Some (mp !! id))), delete id mp, [])
  | OpSet id v => set_spec id v c mp
  | OpGet id buf =>
      (Value (e ← mp !! id; Some (overlay (item_size (item e)) (current_value e) buf)), mp, [])
  | OpReset id =>
      match mp !! id with
      | Some e => match default_value (item e) with
                  | Some d => (Done true, <[id := write_value e d]> mp, [])
                  | None => (Done false, mp, [])
                  end
      | None => (Done false, mp, [])
      end
  end.

(** A change is reported while the mutex is held; the report blocks when its level
    is written. *)
Definition noisy (op : ConfigOp) (out : ConfigOut) (lg : option LogLevel) : bool :=
  match op, out with
  | OpRegister _, Done true | OpUnregister _, Done true | OpReset _, Done true => logs lg LOG_LEVEL_INFO
  | OpSet _ _, Done true => logs lg LOG_LEVEL_DEBUG
  | _, _ => false
  end.
Definition answer (op : ConfigOp) s : ConfigOut :=
  (config_spec op (cfg s) (items s !! item_count s) (config_map s)).1.1.
Definition silent (op : ConfigOp) s : Prop := noisy op (answer op s) (cfg_logger s) = false.
Lemma quiet_silent op s : quiet s -> silent op s.
Proof.
  intros Hq. pose proof (quiet_debug s Hq). unfold silent, noisy, quiet in *. generalize (answer op s). intros [[]|]; by destruct op.
Qed.

Definition config_frame s s' : Prop :=
  cfg s' = cfg s /\ cfg_logger s' = cfg_logger s /\ last_save_time s' = last_save_time s /\ clock s' = clock s.
Definition config_conforms (op : ConfigOp) s (m : Machine) (out : ConfigOut) s' (m' : Machine) : Prop :=
  config_wf s' /\ config_frame s s' /\
  exists calls, (out, config_map s', calls) = config_spec op (cfg s) (items s !! item_count s) (config_map s) /\
    m' = m <| trace ::= fun t => t ++ calls |>.

Lemma trace_nil m : m = m <| trace ::= fun t => t ++ [] |>.
Proof. destruct m. cbn. by rewrite app_nil_r. Qed.
(** The same store, the mutex released. *)
Lemma unlocked_again s : cfg_mutex s = false -> set_locked false (set_locked true s) = s.
Proof. intros Hf. destruct s. cbn in *. by subst. Qed.

Lemma wp_cfg_lift {A} (o : option A) a Q s m : o = Some a -> Q a s m -> wp (lift o) Q s m.
Proof. by intros ->. Qed.
Lemma live_item s i e : config_wf s -> (i < item_count s)%nat -> items s !! i = Some e ->
  item_ok (item e) /\ length (current_value e) = Z.to_nat MAX_BLOB_SIZE.
Proof.
  intros [] Hi He. split; [|by eapply (Forall_lookup_1 _ _ i e cw_bytes0)].
  apply (proj1 (Forall_lookup _ _) cw_items0 i). by apply lookup_take_Some.
Qed.

(** Replacing the value of a live item. *)
Lemma write_wf s i e v :
  config_wf s -> (i < item_count s)%nat -> items s !! i = Some e ->
  item_size (item e) <= Z.of_nat (length v) ->
  let s' := s <| items ::= <[i := write_value e v]> |> in
  config_wf s' /\ config_map s' = <[key e := write_value e v]> (config_map s).
Proof.
  intros Hw Hi He Hv. destruct (live_item s i e Hw Hi He) as [(Hsz & Hnm & Hd) Hl].
  pose proof Hw as []. destruct (tbl_update (item_count s) (items s) i (write_value e v) e) as [Hu Ht]; auto.
  split; [|exact Ht].
  constructor; cbn [items item_count cfg_mutex initialized cfg setf]; rewrite ?length_insert; auto.
  - apply Forall_insert; [done|]. cbn. by rewrite length_overlay by (unfold MAX_BLOB_SIZE in *; lia).
  - rewrite take_insert_lt by done. apply Forall_insert; [done|]. exact (conj Hsz (conj Hnm Hd)).
Qed.

Lemma release_conforms op out s m :
  config_wf s -> (out, config_map s, []) = config_spec op (cfg s) (items s !! item_count s) (config_map s) ->
  config_conforms op s m out s m.
Proof. intros Hw Ho. split_and!; try done. exists []. split; [done|]. apply trace_nil. Qed.
Lemma changed_conforms op out s s' m :
  config_wf s' -> config_frame s s' ->
  (out, config_map s', []) = config_spec op (cfg s) (items s !! item_count s) (config_map s) ->
  config_conforms op s m out s' m.
Proof. intros Hw Hf Ho. split_and!; try done. exists []. split; [done|]. apply trace_nil. Qed.

Lemma find_live s id : config_wf s ->
  match find_key id (item_count s) (items s) with
  | Some i => exists e, items s !! i = Some e /\ (i < item_count s)%nat /\ config_map s !! id = Some e /\ key e = id
  | None => config_map s !! id = None
  end.
Proof.
  intros []. assert (Hm : config_map s !! id = find_key id (item_count s) (items s) ≫= (items s !!.)) by (by apply tbl_lookup).
  destruct (find_key _ _ _) as [i|] eqn:E; [|done]. destruct (find_key_Some _ _ _ _ E) as (e & He & Hi & Hk).
  exists e. simpl in Hm. rewrite Hm. auto.
Qed.

Lemma get_spec id buf s m :
  config_wf s -> op_ok (OpGet id buf) (config_map s) ->
  wp (config_exec (OpGet id buf)) (config_conforms (OpGet id buf) s m) s m.
Proof.
  intros Hw Hok. pose proof (find_live s id Hw) as Hf. pose proof Hw as []. simpl. unfold Config_GetValue.
  apply wp_bind, wp_bind, wp_get. rewrite cw_init0. cbn [negb]. apply wp_bind, wp_lock_free; [done|].
  destruct (find_key _ _ _) as [i|].
  - destruct Hf as (e & He & Hi & Hm & Hk). destruct (live_item s i e Hw Hi He) as [(Hsz & _ & _) Hl].
    apply wp_bind. eapply wp_cfg_lift; [exact He|]. apply wp_bind. eapply wp_cfg_lift.
    { apply copy_bytes_overlay; [unfold MAX_BLOB_SIZE in *; lia|by apply Hok]. }
    apply wp_bind, wp_unlock_held; [done|]. apply wp_ret, wp_ret. rewrite unlocked_again by done.
    apply release_conforms; [done|]. simpl. by rewrite Hm.
  - apply wp_bind, wp_unlock_held; [done|]. apply wp_ret, wp_ret. rewrite unlocked_again by done.
    apply release_conforms; [done|]. simpl. by rewrite Hf.
Qed.

Lemma set_spec_ok id v s m :
  config_wf s -> silent (OpSet id v) s -> op_ok (OpSet id v) (config_map s) ->
  wp (config_exec (OpSet id v)) (config_conforms (OpSet id v) s m) s m.
Proof.
  intros Hw Hq Hok. pose proof (find_live s id Hw) as Hf. pose proof Hw as []. simpl. unfold Config_SetValue.
  apply wp_bind, wp_bind, wp_get. rewrite cw_init0. cbn [negb]. apply wp_bind, wp_lock_free; [done|].
  destruct (find_key _ _ _) as [i|].
  - destruct Hf as (e & He & Hi & Hm & Hk). destruct (live_item s i e Hw Hi He) as [(Hsz & _ & _) Hl].
    apply wp_bind. eapply wp_cfg_lift; [exact He|]. destruct (enable_validation _ && _ && _) eqn:Ev.
    + apply wp_bind, wp_unlock_held; [done|]. rewrite unlocked_again by done.
      apply wp_bind, wp_log_free; [done|]. apply wp_ret, wp_ret. apply release_conforms; [done|].
      simpl. unfold set_spec. by rewrite Hm, Ev.
    + apply wp_bind. eapply wp_cfg_lift.
      { apply copy_bytes_overlay; [split; [lia|by apply Hok]|unfold MAX_BLOB_SIZE in *; lia]. }
      apply wp_bind, wp_modify, wp_bind, wp_callback, wp_bind, wp_log_silent.
      { unfold silent, noisy, answer, config_spec, set_spec in Hq. by rewrite Hm, Ev in Hq. }
      apply wp_bind, wp_unlock_held; [done|]. apply wp_ret, wp_ret.
      destruct (write_wf s i e v Hw Hi He (Hok _ Hm)) as [Hw' Hm'].
      match goal with |- config_conforms _ _ _ _ ?x _ => replace x with (s <| items ::= <[i := write_value e v]> |>) end.
      2:{ destruct s. cbn in *. by subst. }
      split_and!; try done. eexists. split; [|reflexivity]. unfold config_spec, set_spec. by rewrite Hm, Ev, Hm', Hk.
  - apply wp_bind, wp_unlock_held; [done|]. apply wp_ret, wp_ret. rewrite unlocked_again by done.
    apply release_conforms; [done|]. simpl. unfold set_spec. by rewrite Hf.
Qed.

Lemma config_live_lookup s i e : config_wf s -> items s !! i = Some e -> (i < item_count s)%nat -> config_map s !! key e = Some e.
Proof.
  intros [] He Hi. unfold config_map. rewrite tbl_lookup by done. by rewrite (find_key_uniq (key e) _ _ i e).
Qed.

Lemma reset_spec id s m :
  config_wf s -> silent (OpReset id) s -> wp (config_exec (OpReset id)) (config_conforms (OpReset id) s m) s m.
Proof.
  intros Hw Hq. pose proof Hw as []. simpl. unfold Config_ResetToDefault.
  apply wp_bind, wp_bind, wp_get. rewrite cw_init0. cbn [negb]. apply wp_bind, wp_lock_free; [done|].
  destruct (find_idx _ _ _) as [i|] eqn:Ef.
  - apply find_idx_Some in Ef as (e & He & Hi & Hp & _). tests. apply bool_decide_eq_true in H0 as [d Hd].
    destruct (live_item s i e Hw Hi He) as [(Hsz & _ & Hdl) Hl]. rewrite Hd in Hdl.
    apply wp_bind. eapply wp_cfg_lift; [exact He|]. apply wp_bind. eapply wp_cfg_lift.
    { rewrite Hd. cbn [mbind option_bind]. apply copy_bytes_overlay; [lia|unfold MAX_BLOB_SIZE in *; lia]. }
    pose proof (config_live_lookup s i e Hw He Hi) as Hlk.
    apply wp_bind, wp_modify, wp_bind, wp_log_silent.
    { unfold silent, noisy, answer, config_spec in Hq. change (key e) with (item_id (item e)) in Hlk.
      by rewrite <- H, Hlk, Hd in Hq. }
    apply wp_bind, wp_unlock_held; [done|]. apply wp_ret, wp_ret.
    destruct (write_wf s i e d Hw Hi He Hdl) as [Hw' Hm'].
    match goal with |- config_conforms _ _ _ _ ?x _ => replace x with (s <| items ::= <[i := write_value e d]> |>) end.
    2:{ destruct s. cbn in *. by subst. }
    apply changed_conforms; [done..|].
    change (key e) with (item_id (item e)) in *. unfold config_spec. rewrite <- H. by rewrite Hlk, Hd, Hm'.
  - apply wp_bind, wp_unlock_held; [done|]. apply wp_ret, wp_ret. rewrite unlocked_again by done.
    apply release_conforms; [done|]. apply (tbl_find_none _ _ _ cw_uniq0) in Ef.
    unfold config_spec. destruct (config_map s !! id) as [e|] eqn:E; [|done].
    specialize (Ef _ _ E). destruct (default_value (item e)) eqn:Hd; [|done]. exfalso.
    pose proof (find_live s id Hw) as Hf. destruct (find_key _ _ _); [|congruence].
    destruct Hf as (e' & _ & _ & Hm & Hk). assert (e' = e) as -> by congruence.
    unfold key, ConfigEntry_key in Hk. cbv beta in Ef. rewrite Hk, Z.eqb_refl in Ef. rewrite bool_decide_eq_true_2 in Ef by eauto. done.
Qed.

Lemma unregister_item_spec id s m :
  config_wf s -> silent (OpUnregister id) s -> wp (config_exec (OpUnregister id)) (config_conforms (OpUnregister id) s m) s m.
Proof.
  intros Hw Hq. pose proof (find_live s id Hw) as Hf. pose proof Hw as []. simpl. unfold Config_UnregisterItem.
  apply wp_bind, wp_bind, wp_get. rewrite cw_init0. cbn [negb]. apply wp_bind, wp_lock_free; [done|].
  destruct (find_key _ _ _) as [i|] eqn:Ek.
  - destruct Hf as (e & He & Hi & Hm & Hk).
    destruct (lookup_lt_is_Some_2 (items s) (item_count s - 1)) as [y Hy]; [lia|].
    assert (Hstep : forall Q, Q tt ((set_locked true s) <| items ::= <[i := y]> |>) m ->
      wp (if (i <? item_count s - 1)%nat then last ← lift (items s !! (item_count s - 1)%nat);
          modify (fun s => s <| items ::= <[i := last]> |>) else mret tt) Q (set_locked true s) m).
    { intros Q HQ. destruct (_ <? _)%nat eqn:El; tests.
      - apply wp_bind. eapply wp_cfg_lift; [exact Hy|]. by apply wp_modify.
      - apply wp_ret. assert (i = item_count s - 1)%nat as Heq by lia.
        replace (set_locked true s) with ((set_locked true s) <| items ::= <[i := y]> |>); [done|].
        destruct s. cbn in *. f_equal. rewrite Heq. by apply list_insert_id. }
    apply wp_bind, Hstep, wp_bind, wp_modify, wp_bind, wp_log_silent.
    { unfold silent, noisy, answer, config_spec in Hq. by rewrite Hm in Hq. }
    apply wp_bind, wp_unlock_held; [done|]. apply wp_ret, wp_ret.
    destruct (tbl_swap_remove id (item_count s) (items s) i y) as [Hu Ht]; [lia|done|done|done|].
    set (s1 := s <| items ::= <[i := y]> |> <| item_count ::= fun n => (n - 1)%nat |>).
    match goal with |- config_conforms _ _ _ _ ?x _ => replace x with s1 end. 2:{ unfold s1. destruct s. cbn in *. by subst. }
    apply changed_conforms; [|done|].
    + constructor; cbn [items item_count cfg_mutex initialized cfg setf s1]; rewrite ?length_insert; auto; [lia| |].
      * apply Forall_insert; [done|]. by apply (Forall_lookup_1 _ _ _ _ cw_bytes0 Hy).
      * rewrite Forall_forall. intros x Hx. apply list_elem_of_lookup in Hx as [j Hj].
        apply lookup_take_Some in Hj as [Hj Hjn]. destruct (decide (i = j)) as [->|Hne].
        -- rewrite list_lookup_insert_eq in Hj by lia. injection Hj as <-.
           by apply (live_item s (item_count s - 1) y Hw); [lia|].
        -- rewrite list_lookup_insert_ne in Hj by done. apply (live_item s j x Hw); [lia|done].
    + unfold config_spec. change (config_map s1) with (tbl (item_count s - 1) (<[i := y]> (items s))).
      rewrite Ht, Hm. done.
  - apply wp_bind, wp_unlock_held; [done|]. apply wp_ret, wp_ret. rewrite unlocked_again by done.
    apply release_conforms; [done|]. unfold config_spec. by rewrite Hf, delete_id.
Qed.

Lemma register_ok it s m :
  config_wf s -> silent (OpRegister it) s -> op_ok (OpRegister it) (config_map s) ->
  wp (config_exec (OpRegister it)) (config_conforms (OpRegister it) s m) s m.
Proof.
  intros Hw Hq [Hsz Hdl]. pose proof Hw as []. unfold config_exec, Config_RegisterItem.
  assert (Hsize : size (config_map s) = item_count s) by (apply tbl_size; [done|lia]).
  assert (Hsp : config_spec (OpRegister it) (cfg s) (items s !! item_count s) (config_map s) =
    (register_spec it (cfg s) (items s !! item_count s) (config_map s), [])) by done.
  unfold register_spec in Hsp. rewrite Hsize in Hsp.
  apply wp_bind, wp_bind, wp_get. rewrite cw_init0. cbn [negb orb].
  destruct (item_name it) as [nm|] eqn:Hn.
  2:{ rewrite bool_decide_eq_true_2 by done. apply wp_ret, wp_ret, release_conforms; [done|]. by rewrite Hsp. }
  rewrite bool_decide_eq_false_2 by done. cbn [orb].
  destruct (max_items (cfg s) <=? Z.of_nat (item_count s)) eqn:Hfull; tests.
  { apply wp_ret, wp_ret, release_conforms; [done|]. rewrite Hsp. destruct (items s !! item_count s); [|done].
    by rewrite (proj2 (Z.ltb_ge _ _)) by lia. }
  destruct (lookup_lt_is_Some_2 (items s) (item_count s)) as [e He]; [lia|]. rewrite He in Hsp.
  rewrite (proj2 (Z.ltb_lt _ _)) in Hsp by lia. cbn [andb] in Hsp.
  apply wp_bind, wp_lock_free; [done|]. destruct (find_idx (clashes it) _ _) as [i|] eqn:Ef.
  { apply wp_bind, wp_unlock_held; [done|]. rewrite unlocked_again by done. apply wp_bind, wp_log_free; [done|].
    apply wp_ret, wp_ret, release_conforms; [done|]. rewrite He, Hsp. rewrite bool_decide_eq_false_2; [done|].
    intros Hc. apply (tbl_find_none _ _ _ cw_uniq0) in Hc. congruence. }
  pose proof Ef as Hc. apply (tbl_find_none _ _ _ cw_uniq0) in Hc. rewrite bool_decide_eq_true_2 in Hsp by exact Hc.
  destruct (validate_config_size _ _) eqn:Hv; cbn [negb andb] in *.
  2:{ apply wp_bind, wp_unlock_held; [done|]. rewrite unlocked_again by done. apply wp_bind, wp_log_free; [done|].
      apply wp_ret, wp_ret, release_conforms; [done|]. by rewrite He, Hsp. }
  apply wp_bind. eapply wp_cfg_lift; [exact He|].
  set (v := match default_value it with Some d => overlay (item_size it) d (current_value e) | None => current_value e end) in *.
  assert (Hmax : item_size it <= MAX_BLOB_SIZE).
  { unfold validate_config_size, MAX_STRING_LENGTH, MAX_BLOB_SIZE in *. destruct (item_type it); tests; lia. }
  assert (Hel : length (current_value e) = Z.to_nat MAX_BLOB_SIZE) by (by apply (Forall_lookup_1 _ _ _ _ cw_bytes0 He)).
  assert (Hvl : length v = Z.to_nat MAX_BLOB_SIZE).
  { unfold v. destruct (default_value it); [|done]. rewrite length_overlay; unfold MAX_BLOB_SIZE in *; lia. }
  assert (Hval : forall Q s' m', Q v s' m' ->
    wp (match default_value it with Some d => lift (copy_bytes d (current_value e) (item_size it)) | None => mret (current_value e) end)
      Q s' m').
  { intros Q s' m' HQ. unfold v in HQ. destruct (default_value it); [|by apply wp_ret].
    eapply wp_cfg_lift; [|exact HQ]. apply copy_bytes_overlay; unfold MAX_BLOB_SIZE in *; lia. }
  apply wp_bind, Hval, wp_bind, wp_modify, wp_bind, wp_log_silent.
  { unfold silent, answer in Hq. by rewrite He, Hsp in Hq. }
  apply wp_bind, wp_unlock_held; [done|]. apply wp_ret, wp_ret.
  set (x := mkConfigEntry it v (modified e)) in *.
  destruct (tbl_push (item_count s) (items s) x) as [Hu Ht]; [lia|done| |].
  { apply find_key_None. rewrite list_elem_of_fmap. intros (y & Hy & Hin). apply find_idx_None in Ef.
    rewrite Forall_forall in Ef. specialize (Ef y Hin). unfold clashes in Ef. tests. by apply H. }
  set (s1 := s <| items ::= <[item_count s := x]> |> <| item_count ::= S |>).
  match goal with |- config_conforms _ _ _ _ ?z _ => replace z with s1 end. 2:{ unfold s1. destruct s. cbn in *. by subst. }
  apply changed_conforms; [|done|].
  - constructor; cbn [items item_count cfg_mutex initialized cfg setf s1]; rewrite ?length_insert; auto; [lia| |].
    + by apply Forall_insert.
    + rewrite take_push by lia. apply Forall_app. split; [done|]. constructor; [|constructor].
      split_and!; [done|done|exists nm; exact Hn|done].
  - rewrite He, Hsp. change (config_map s1) with (tbl (S (item_count s)) (<[item_count s := x]> (items s))). by rewrite Ht.
Qed.

Lemma config_op_ok op s m :
  config_wf s -> silent op s -> op_ok op (config_map s) -> wp (config_exec op) (config_conforms op s m) s m.
Proof.
  intros Hw Hq Hok. destruct op; [by apply register_ok|by apply unregister_item_spec|by apply set_spec_ok|
    by apply get_spec|by apply reset_spec].
Qed.

(** ** Reports under the mutex *)

(** Registering an item while messages of level INFO are written stops the thread: the
    message is logged under the mutex. *)
Lemma register_blocks it nm e s m :
  config_wf s -> logs (cfg_logger s) LOG_LEVEL_INFO = true -> op_ok (OpRegister it) (config_map s) ->
  item_name it = Some nm -> Z.of_nat (item_count s) < max_items (cfg s) -> items s !! item_count s = Some e ->
  clash_free it (config_map s) -> validate_config_size (item_type it) (item_size it) = true ->
  Config_RegisterItem (Some it) s m = None.
Proof.
  intros Hw Hq [Hsz Hdl] Hn Hfull He Hc Hv. pose proof Hw as []. unfold Config_RegisterItem.
  apply undefined_bind, wp_get. rewrite cw_init0, Hn, bool_decide_eq_false_2 by done. cbn [negb orb].
  rewrite (proj2 (Z.leb_gt _ _)) by lia. apply undefined_bind, wp_lock_free; [done|].
  rewrite (proj2 (tbl_find_none _ _ _ cw_uniq0) Hc), Hv. cbn [negb].
  apply undefined_bind. eapply wp_cfg_lift; [exact He|]. apply undefined_bind.
  assert (Hel : length (current_value e) = Z.to_nat MAX_BLOB_SIZE) by (by apply (Forall_lookup_1 _ _ _ _ cw_bytes0 He)).
  assert (Hmax : item_size it <= MAX_BLOB_SIZE).
  { unfold validate_config_size, MAX_STRING_LENGTH, MAX_BLOB_SIZE in *. destruct (item_type it); tests; lia. }
  assert (Hlog : forall v s' m', cfg_mutex s' = true -> cfg_logger s' = cfg_logger s ->
    (modify (fun s => s <| items ::= <[item_count s := mkConfigEntry it v (modified e)]> |> <| item_count ::= S |>);;
     Logger_Log LOG_LEVEL_INFO;; unlock;; mret true) s' m' = None).
  { intros v s' m' Hl Hlg. apply undefined_bind, wp_modify, undefined_bind'. apply log_held_blocks; [done|].
    change (log_min _) with (cfg_logger s'). by rewrite Hlg. }
  destruct (default_value it); [|apply wp_ret; by apply Hlog].
  eapply wp_cfg_lift; [apply copy_bytes_overlay; unfold MAX_BLOB_SIZE in *; lia|]. by apply Hlog.
Qed.

(** After a change under the mutex, a report that is written never returns. *)
Lemma report_blocks {A} level f (k : unit -> M ConfigManager A) s m :
  cfg_mutex (f s) = true -> logs (cfg_logger (f s)) level = true ->
  (modify f;; Logger_Log level;; (unlock ≫= k)) s m = None.
Proof. intros Hl Hlg. apply undefined_bind, wp_modify, undefined_bind'. by apply log_held_blocks. Qed.

Lemma unregister_blocks id s m :
  config_wf s -> logs (cfg_logger s) LOG_LEVEL_INFO = true -> is_Some (config_map s !! id) ->
  Config_UnregisterItem id s m = None.
Proof.
  intros Hw Hq Hs. pose proof (find_live s id Hw) as Hf. pose proof Hw as []. unfold Config_UnregisterItem.
  apply undefined_bind, wp_get. rewrite cw_init0. cbn [negb]. apply undefined_bind, wp_lock_free; [done|].
  destruct (find_key _ _ _) as [i|]; [|destruct Hs; congruence].
  destruct Hf as (e & He & Hi & _). apply undefined_bind. destruct (_ <? _)%nat.
  - destruct (lookup_lt_is_Some_2 (items s) (item_count s - 1)) as [y Hy]; [lia|].
    apply wp_bind. eapply wp_cfg_lift; [exact Hy|]. apply wp_modify. by apply report_blocks.
  - apply wp_ret. by apply report_blocks.
Qed.

Lemma set_blocks id v e s m :
  config_wf s -> logs (cfg_logger s) LOG_LEVEL_DEBUG = true -> op_ok (OpSet id v) (config_map s) ->
  config_map s !! id = Some e ->
  enable_validation (cfg s) && negb (validator (item e) =? 0) && negb (validate (validator (item e)) v) = false ->
  Config_SetValue validate id (Some v) s m = None.
Proof.
  intros Hw Hq Hok Hm Hv. pose proof (find_live s id Hw) as Hf. pose proof Hw as []. unfold Config_SetValue.
  apply undefined_bind, wp_get. rewrite cw_init0. cbn [negb]. apply undefined_bind, wp_lock_free; [done|].
  destruct (find_key _ _ _) as [i|]; [|congruence]. destruct Hf as (e' & He & Hi & Hm' & _).
  assert (e' = e) as -> by congruence. destruct (live_item s i e Hw Hi He) as [(Hsz & _ & _) Hl].
  apply undefined_bind. eapply wp_cfg_lift; [exact He|]. rewrite Hv. apply undefined_bind. eapply wp_cfg_lift.
  { apply copy_bytes_overlay; [split; [lia|by apply Hok]|unfold MAX_BLOB_SIZE in *; lia]. }
  apply undefined_bind, wp_modify, undefined_bind, wp_callback, undefined_bind'. by apply log_held_blocks.
Qed.

Lemma reset_blocks id e d s m :
  config_wf s -> logs (cfg_logger s) LOG_LEVEL_INFO = true -> config_map s !! id = Some e ->
  default_value (item e) = Some d -> Config_ResetToDefault id s m = None.
Proof.
  intros Hw Hq Hm Hd. pose proof Hw as []. unfold Config_ResetToDefault.
  apply undefined_bind, wp_get. rewrite cw_init0. cbn [negb]. apply undefined_bind, wp_lock_free; [done|].
  destruct (find_idx _ _ _) as [i|] eqn:Ef.
  - apply find_idx_Some in Ef as (e' & He & Hi & Hp & _). tests. apply bool_decide_eq_true in H0 as [d' Hd'].
    destruct (live_item s i e' Hw Hi He) as [(Hsz & _ & Hdl) Hl]. rewrite Hd' in Hdl.
    apply undefined_bind. eapply wp_cfg_lift; [exact He|]. apply undefined_bind. eapply wp_cfg_lift.
    { rewrite Hd'. cbn [mbind option_bind]. apply copy_bytes_overlay; [lia|unfold MAX_BLOB_SIZE in *; lia]. }
    by apply report_blocks.
  - exfalso. apply (tbl_find_none _ _ _ cw_uniq0) in Ef. specialize (Ef _ _ Hm). cbv beta in Ef.
    pose proof (find_live s id Hw) as Hf. destruct (find_key _ _ _); [|congruence].
    destruct Hf as (e' & _ & _ & Hm' & Hk). assert (e' = e) as -> by congruence.
    unfold key, ConfigEntry_key in Hk. rewrite Hk, Z.eqb_refl, bool_decide_eq_true_2 in Ef by eauto. done.
Qed.

Lemma config_op_blocks op s m :
  config_wf s -> ~ silent op s -> op_ok op (config_map s) -> config_exec op s m = None.
Proof.
  intros Hw Hn Hok. apply not_false_is_true in Hn. unfold noisy, answer, config_spec in Hn.
  destruct op as [it|id|id v|id buf|id]; cbn [fst] in Hn; unfold config_exec; try done; apply undefined_bind'.
  - unfold register_spec in Hn. pose proof Hw as [].
    destruct (item_name it) as [nm|] eqn:Hnm; [|done]. destruct (items s !! item_count s) as [e|] eqn:He; [|done].
    destruct (_ && _) eqn:E; [|done]. tests.
    assert (Hsize : size (config_map s) = item_count s) by (apply tbl_size; [done|lia]).
    apply bool_decide_eq_true in H1. eapply register_blocks; eauto. lia.
  - destruct (bool_decide _) eqn:E; [|done]. apply unregister_blocks; [done|done|].
    by apply bool_decide_eq_true in E.
  - unfold set_spec in Hn. destruct (config_map s !! id) as [e|] eqn:Hm; [|done].
    destruct (_ && _ && _) eqn:E; [done|]. by eapply set_blocks.
  - destruct (config_map s !! id) as [e|] eqn:Hm; [|done].
    destruct (default_value (item e)) as [d|] eqn:Hd; [|done]. by eapply reset_blocks.
Qed.

(** ** Runs *)

Fixpoint config_run (ops : list ConfigOp) : M ConfigManager unit :=
  match ops with [] => mret tt | op :: ops => config_exec op;; config_run ops end.
(** Every pointer of the call leads to room for the largest item. *)
Definition roomy (op : ConfigOp) : Prop :=
  match op with
  | OpRegister it => 0 <= item_size it /\
      match default_value it with Some d => item_size it <= Z.of_nat (length d) | None => True end
  | OpSet _ v | OpGet _ v => MAX_BLOB_SIZE <= Z.of_nat (length v)
  | _ => True
  end.
Definition leaves (id : Z) (op : ConfigOp) : Prop :=
  match op with OpUnregister i | OpSet i _ | OpReset i => i <> id | _ => True end.

Lemma map_item_ok s id e : config_wf s -> config_map s !! id = Some e ->
  item_ok (item e) /\ length (current_value e) = Z.to_nat MAX_BLOB_SIZE /\ key e = id.
Proof.
  intros Hw He. pose proof (find_live s id Hw) as Hf. destruct (find_key _ _ _) as [i|]; [|congruence].
  destruct Hf as (e' & He' & Hi & Hm & Hk). assert (e' = e) as -> by congruence.
  destruct (live_item s i e Hw Hi He'). auto.
Qed.
Lemma roomy_ok op s : config_wf s -> roomy op -> op_ok op (config_map s).
Proof.
  intros Hw Hr. destruct op; simpl in *; auto.
  all: intros e He; destruct (map_item_ok s id e Hw He) as [[Hsz _] _]; lia.
Qed.
Lemma register_keeps it c stale mp id e : mp !! id = Some e -> key e = id ->
  (register_spec it c stale mp).2 !! id = Some e.
Proof.
  intros He Hk. unfold register_spec. destruct (item_name it), stale; try done. destruct (_ && _) eqn:E; [|done]. simpl.
  tests. destruct (decide (item_id it = id)) as [<-|Hne]; [|by rewrite lookup_insert_ne].
  match goal with H : bool_decide _ = true |- _ => apply bool_decide_eq_true in H; specialize (H _ _ He) end.
  exfalso. cbv beta in *. match goal with H : clashes it e = false |- _ => unfold clashes in H; tests end. done.
Qed.
Lemma spec_keeps op c stale mp id e : mp !! id = Some e -> key e = id -> leaves id op ->
  (config_spec op c stale mp).1.2 !! id = Some e.
Proof.
  intros He Hk Hl. destruct op as [it|i|i v|i buf|i]; simpl in *.
  - pose proof (register_keeps it c stale mp id e He Hk). by destruct (register_spec _ _ _ _).
  - by rewrite lookup_delete_ne.
  - unfold set_spec. repeat case_match; simpl; by rewrite ?lookup_insert_ne.
  - done.
  - repeat case_match; simpl; by rewrite ?lookup_insert_ne.
Qed.

Lemma run_keeps ops s m id e :
  config_wf s -> quiet s -> Forall roomy ops -> Forall (leaves id) ops -> config_map s !! id = Some e ->
  wp (config_run ops) (fun _ s' _ => config_wf s' /\ quiet s' /\ config_map s' !! id = Some e) s m.
Proof.
  intros Hw Hq Hr Hl He. revert s m Hw Hq Hl He.
  induction Hr as [|op ops Hro Hr IH]; intros s m Hw Hq Hl He; simpl; [by apply wp_ret|].
  apply Forall_cons in Hl as [Hlo Hl]. apply wp_bind.
  eapply wp_mono; [apply config_op_ok; [done|by apply quiet_silent|by apply roomy_ok]|].
  intros out s' m' (Hw' & (Hc & Hlg & _) & calls & Hs & _). apply IH; [done|unfold quiet in *; congruence|done|].
  destruct (map_item_ok s id e Hw He) as (_ & _ & Hk).
  pose proof (spec_keeps op (cfg s) (items s !! item_count s) _ id e He Hk Hlo) as Hsp. by rewrite <- Hs in Hsp.
Qed.

(** ** Properties *)

(** C17. The store is a finite map from numbers to items: registering adds an item unless
    its number or name is taken, its size does not fit its type or the store is full;
    removing deletes it, although the last item moves into its place; setting replaces the
    bytes of an item the validator accepts and notifies its owner with the old and the new
    value; getting copies them out; resetting writes the default.  The bytes and the
    modified flag an item is registered without come from the array slot it takes
    ([items s !! item_count s]), which may hold those of a removed item.  A call
    that makes a change and whose report (INFO, and DEBUG for setting) the logger writes
    never returns, because the report is made under the mutex; every other call returns. *)
Theorem config_refines_map op s m :
  config_wf s -> op_ok op (config_map s) ->
  let '(answer, mp', calls) := config_spec op (cfg s) (items s !! item_count s) (config_map s) in
  if noisy op answer (cfg_logger s) then config_exec op s m = None
  else wp (config_exec op) (fun out s' m' => config_wf s' /\ cfg s' = cfg s /\ cfg_logger s' = cfg_logger s /\
    out = answer /\ config_map s' = mp' /\ m' = m <| trace ::= fun t => t ++ calls |>) s m.
Proof.
  intros Hw Hok. pose proof (config_op_ok op s m Hw) as Hyes. pose proof (config_op_blocks op s m Hw) as Hno.
  unfold silent, answer, config_conforms in *.
  destruct (config_spec op _ _ _) as [[a mp'] calls]. cbn [fst] in *.
  destruct (noisy op a (cfg_logger s)); [by apply Hno|].
  eapply wp_mono; [by apply Hyes|]. intros out s' m' (? & (? & ? & _) & c & Heq & ->). injection Heq as -> -> ->. auto 10.
Qed.

(**  A value that was set is what is read back, after any run of calls on the store that
    does not set, reset or remove that item. *)
Theorem config_value_persists id v buf ops s m e :
  config_wf s -> quiet s -> config_map s !! id = Some e ->
  MAX_BLOB_SIZE <= Z.of_nat (length v) -> MAX_BLOB_SIZE <= Z.of_nat (length buf) ->
  Forall roomy ops -> Forall (leaves id) ops ->
  wp (b ← Config_SetValue validate id (Some v); config_run ops;; o ← Config_GetValue id (Some buf); mret (b, o))
    (fun r _ _ => r.2 = Some (overlay (item_size (item e)) (if r.1 : bool then v else current_value e) buf)) s m.
Proof.
  intros Hw Hq He Hv Hb Hr Hl. apply wp_bind.
  pose proof (config_op_ok (OpSet id v) s m Hw (quiet_silent _ _ Hq) (roomy_ok (OpSet id v) s Hw Hv)) as Hset. simpl in Hset.
  destruct (map_item_ok s id e Hw He) as ([Hsz _] & Hel & _).
  unfold wp in Hset at 1 |- *. unfold mbind, M_bind in Hset.
  destruct (Config_SetValue validate id (Some v) s m) as [[[b s1] m1]|]; [|done].
  destruct Hset as (Hw1 & (Hc1 & Hlg1 & _) & calls & Hs & _).
  assert (Hq1 : quiet s1) by (unfold quiet in *; congruence).
  assert (H1 : config_map s1 !! id = Some (if b then write_value e v else e)).
  { unfold config_spec, set_spec in Hs. rewrite He in Hs. destruct (_ && _ && _); injection Hs as -> -> _; [done|].
    apply lookup_insert_eq. }
  apply wp_bind. eapply wp_mono; [by apply run_keeps|]. intros [] s2 m2 (Hw2 & Hq2 & H2).
  pose proof (config_op_ok (OpGet id buf) s2 m2 Hw2 (quiet_silent _ _ Hq2) (roomy_ok (OpGet id buf) s2 Hw2 Hb)) as Hget. simpl in Hget.
  apply wp_bind. unfold wp in Hget at 1 |- *. unfold mbind, M_bind in Hget.
  destruct (Config_GetValue id (Some buf) s2 m2) as [[[o s3] m3]|]; [|done].
  destruct Hget as (_ & _ & calls' & Hg & _). unfold config_spec in Hg. rewrite H2 in Hg. injection Hg as -> _ _.
  destruct b; [|done].
  change (Some (overlay (item_size (item e)) (overlay (item_size (item e)) v (current_value e)) buf) =
          Some (overlay (item_size (item e)) v buf)). by rewrite overlay_overlay by lia.
Qed.

(**  Polling saves exactly when the interval has passed, across the wrap-around of the
    clock, and a persistent item has changed; after a successful save no item counts as
    changed, and the interval starts again whether or not the save succeeded. *)
Theorem auto_save_exact saves s m :
  initialized s = true -> auto_save (cfg s) = true -> is_Some (storage_path (cfg s)) ->
  wp (Config_ProcessAutoSave saves) (fun _ s' m' =>
    let due := auto_save_interval_ms (cfg s) <=? u32 (clock s - last_save_time s) in
    let dirty := existsb needs_save (take (item_count s) (items s)) in
    trace m' = trace m ++ (if due && dirty then [call "Config_SaveToFile" []] else []) /\
    last_save_time s' = (if due then clock s else last_save_time s) /\
    (item <$> items s') = (item <$> items s) /\ (current_value <$> items s') = (current_value <$> items s) /\
    (if due && dirty && saves s then existsb modified (take (item_count s) (items s')) = false else items s' = items s)) s m.
Proof.
  intros Hi Ha [p Hp]. unfold Config_ProcessAutoSave, Config_SaveToFile, Timer_GetMilliseconds. apply wp_bind, wp_get.
  rewrite Hi, Ha, Hp, bool_decide_eq_false_2 by done. cbn [negb orb]. apply wp_bind, wp_bind, wp_get, wp_ret.
  destruct (_ <=? u32 _); cbn [andb]. 2:{ apply wp_ret. by rewrite app_nil_r. }
  apply wp_bind. destruct (existsb needs_save _); cbn [andb]. 2:{ apply wp_ret, wp_modify. by rewrite app_nil_r. }
  apply wp_bind, wp_bind, wp_emit, wp_bind, wp_get, wp_ret. destruct (saves s).
  2:{ by apply wp_ret, wp_modify. }
  apply wp_modify, wp_modify. cbn [items item_count last_save_time trace setf]. unfold clear_modified.
  rewrite !fmap_app, <- !list_fmap_compose. split_and!; [done|done| | |].
  - rewrite <- (take_drop (item_count s) (items s)) at 3. by rewrite fmap_app.
  - rewrite <- (take_drop (item_count s) (items s)) at 3. by rewrite fmap_app.
  - rewrite take_app. generalize (items s) as l. intros l.
    assert (Hf : forall n k : list ConfigEntry, existsb modified (take (item_count s) ((fun e => e <| modified := false |>) <$> n)) = false).
    { intros n _. generalize (item_count s). induction n as [|x n IH]; intros [|j]; simpl; auto. }
    rewrite existsb_app, (Hf _ l). rewrite length_fmap, length_take. 
    destruct (decide (item_count s <= length l)%nat) as [Hle|Hgt].
    + rewrite Nat.min_l, Nat.sub_diag by lia. done.
    + rewrite drop_ge by lia. by rewrite take_nil.
Qed.
End config_proofs.

(** ** Examples *)

Definition example_item (id : Z) (name : string) : ConfigItem :=
  mkItem id CONFIG_TYPE_UINT32 (Some name) None (Some [1; 2; 3; 4]) 4 true 0 true.
Definition example_store : ConfigManager :=
  mkConfigManager (mkConfig 16 (Some "config.bin") true true true 60000)
    (mkConfigEntry (example_item 7 "baud") ([1; 2; 3; 4] ++ replicate 1020 0) true :: replicate 255 config_entry_zero)
    1 0 true false None 60000.
Lemma example_store_wf : config_wf example_store.
Proof.
  constructor; try done.
  - apply NoDup_singleton.
  - constructor; [by vm_compute|]. by apply Forall_replicate.
  - repeat constructor; cbn; unfold MAX_BLOB_SIZE; try lia. by eexists.
Qed.

Definition chatty_store : ConfigManager := example_store <| cfg_logger := Some LOG_LEVEL_INFO |>.

(** Witness of [config_refines_map]: a second item, without a logger and with one that
    writes INFO. *)
Lemma config_refines_map_witness :
  wp (config_exec (fun _ _ => true) (OpRegister (example_item 8 "node"))) (fun out s' _ => config_wf s' /\
    out = Done true /\ dom (config_map s') = {[7; 8]}) example_store boot /\
  config_exec (fun _ _ => true) (OpRegister (example_item 8 "node")) chatty_store boot = None.
Proof.
  assert (Hok : op_ok (OpRegister (example_item 8 "node")) (config_map example_store)) by (split; cbn; lia).
  split.
  - pose proof (config_refines_map (fun _ _ => true) (OpRegister (example_item 8 "node")) example_store boot
      example_store_wf Hok) as H.
    eapply wp_mono; [exact H|]. intros out s' m' (Hw & _ & _ & Ho & Hm & _). split; [exact Hw|].
    split; [rewrite Ho; reflexivity|]. rewrite Hm. by vm_compute.
  - refine (config_refines_map (fun _ _ => true) (OpRegister (example_item 8 "node")) chatty_store boot _ Hok).
    destruct example_store_wf. by constructor.
Defined.

(** Witness of [config_value_persists]: setting an item, registering and removing another. *)
Lemma config_value_persists_witness :
  wp (b ← Config_SetValue (fun _ _ => true) 7 (Some (replicate 1024 9));
      config_run (fun _ _ => true) [OpRegister (example_item 8 "node"); OpUnregister 8];;
      o ← Config_GetValue 7 (Some (replicate 1024 0)); mret (b, o))
    (fun r _ _ => r.2 = Some (overlay 4 (if r.1 : bool then replicate 1024 9 else [1; 2; 3; 4] ++ replicate 1020 0) (replicate 1024 0)))
    example_store boot.
Proof.
  eapply (config_value_persists (fun _ _ => true) 7 (replicate 1024 9) (replicate 1024 0) _ example_store boot
    (mkConfigEntry (example_item 7 "baud") ([1; 2; 3; 4] ++ replicate 1020 0) true)).
  - apply example_store_wf.
  - reflexivity.
  - by vm_compute.
  - by vm_compute.
  - by vm_compute.
  - repeat constructor; cbn; lia.
  - repeat constructor; cbn; lia.
Defined.

(** Witness of [auto_save_exact]: a minute after the last save. *)
Lemma auto_save_exact_witness :
  wp (Config_ProcessAutoSave (fun _ => true)) (fun _ s' m' => trace m' = [call "Config_SaveToFile" []] /\
    existsb modified (take 1 (items s')) = false) example_store boot.
Proof.
  eapply wp_mono; [apply (auto_save_exact (fun _ => true) example_store boot); [done|done|by eexists]|].
  intros [] s' m' (Ht & _ & _ & _ & He). by split.
Defined.
