(* ===== verification/DiagRouter.v ===== *)
(** * Message router of the diagnostic core

    [src/runtime/diagnostic/diag_router.c]: up to sixteen routes from a source to a target
    address for one service or all of them, and the forwarding of messages along them to
    the core.  [DiagCore_HandleMessage] is recorded as a call; a message is the list of its
    bytes.  The [context] member of a route is never used and is left out, as is the
    legacy entry point, which is compiled out. *)

From S2P Require Import Prelude Machine.

Definition MAX_ROUTES : nat := 16.
Definition TEMP_BUFFER_SIZE : Z := 512.
Definition ALL_SERVICES : Z := 0xFFFF.

Inductive RouteResult := ROUTE_OK | ROUTE_ERROR | ROUTE_BUSY | ROUTE_TIMEOUT | ROUTE_INVALID_PARAM.
#[export] Instance RouteResult_eq_dec : EqDecision RouteResult.
Proof. solve_decision. Defined.

Record DiagRoute := mkRoute { source_addr : Z; target_addr : Z; service_id : Z; active : bool }.
#[export] Instance eta_DiagRoute : Eta DiagRoute := fun r =>
  mkRoute (source_addr r) (target_addr r) (service_id r) (active r).
Definition route_zero : DiagRoute := mkRoute 0 0 0 false.

Record DiagRouterContext := mkRouter {
  routes : list DiagRoute; route_count : nat; temp_buffer : list Z; initialized : bool }.
#[export] Instance eta_DiagRouterContext : Eta DiagRouterContext := fun s =>
  mkRouter (routes s) (route_count s) (temp_buffer s) (initialized s).
Definition router_zero : DiagRouterContext :=
  mkRouter (replicate MAX_ROUTES route_zero) 0 (replicate (Z.to_nat TEMP_BUFFER_SIZE) 0) false.

Definition lift {A} (o : option A) : M DiagRouterContext A := match o with Some a => mret a | None => fault end.

Definition same_route (src tgt svc : Z) (r : DiagRoute) : bool :=
  (source_addr r =? src) && (target_addr r =? tgt) && (service_id r =? svc).
Definition same_pair (src tgt : Z) (r : DiagRoute) : bool := (source_addr r =? src) && (target_addr r =? tgt).

Definition DiagRouter_AddRoute (src tgt svc : Z) : M DiagRouterContext RouteResult :=
  s ← get;
  if negb (initialized s) then mret ROUTE_ERROR else
  if (src =? 0) || (tgt =? 0) then mret ROUTE_INVALID_PARAM else
  match find_idx (same_route src tgt svc) (route_count s) (routes s) with
  | Some _ => mret ROUTE_OK
  | None =>
      if (MAX_ROUTES <=? route_count s)%nat then mret ROUTE_ERROR else
      modify (fun s => s <| routes ::= <[route_count s := mkRoute src tgt svc true]> |> <| route_count ::= S |>);;
      mret ROUTE_OK
  end.

Definition clear_routes : M DiagRouterContext unit :=
  modify (fun s => s <| routes := replicate MAX_ROUTES route_zero |> <| route_count := 0%nat |>).

Definition DiagRouter_Init : M DiagRouterContext bool :=
  s ← get;
  if initialized s then mret false else
  modify (fun _ => router_zero);;
  DiagRouter_AddRoute 0x01 0xF1 ALL_SERVICES;;
  DiagRouter_AddRoute 0x01 0xF2 ALL_SERVICES;;
  DiagRouter_AddRoute 0x01 0xF3 ALL_SERVICES;;
  modify (fun s => s <| initialized := true |>);;
  mret true.
Definition DiagRouter_Deinit : M DiagRouterContext unit :=
  clear_routes;; modify (fun s => s <| initialized := false |>).

Definition DiagRouter_RemoveRoute (src tgt : Z) : M DiagRouterContext RouteResult :=
  s ← get;
  if negb (initialized s) then mret ROUTE_ERROR else
  match find_idx (same_pair src tgt) (route_count s) (routes s) with
  | None => mret ROUTE_ERROR
  | Some i =>
      modify (fun s => s <| routes ::= alter (fun r => r <| active := false |>) i |>);;
      (if (i =? route_count s - 1)%nat then modify (fun s => s <| route_count ::= fun n => (n - 1)%nat |>) else mret tt);;
      mret ROUTE_OK
  end.

(** The two addresses are read before the length is checked. *)
Definition validate_message (data : list Z) : option bool :=
  d0 ← data !! 0%nat;
  if d0 =? 0 then Some false else
  d1 ← data !! 1%nat;
  if d1 =? 0 then Some false else
  Some (4 <=? Z.of_nat (length data)).

Definition process_route (data : list Z) : M DiagRouterContext unit :=
  if TEMP_BUFFER_SIZE <? Z.of_nat (length data) then mret tt else
  modify (fun s => s <| temp_buffer ::= fun b => data ++ drop (length data) b |>);;
  s ← get;
  emit "DiagCore_HandleMessage" (take (length data) (temp_buffer s)).

Definition matches (src tgt svc : Z) (r : DiagRoute) : bool :=
  active r && (source_addr r =? src) && (target_addr r =? tgt) &&
  ((service_id r =? ALL_SERVICES) || (service_id r =? svc)).
(** The loop over the routes at index [i] with [k] to go; the answer is [route_found]. *)
Fixpoint forward_loop (data : list Z) (src tgt svc : Z) (k i : nat) (route_found : bool) : M DiagRouterContext bool :=
  match k with
  | O => mret route_found
  | S k =>
      s ← get;
      r ← lift (routes s !! i);
      if matches src tgt svc r
      then process_route data;; forward_loop data src tgt svc k (S i) true
      else forward_loop data src tgt svc k (S i) route_found
  end.
Definition DiagRouter_HandleMessage (data : option (list Z)) : M DiagRouterContext RouteResult :=
  s ← get;
  match data with
  | None => mret ROUTE_INVALID_PARAM
  | Some data =>
      if negb (initialized s) || (length data =? 0)%nat then mret ROUTE_INVALID_PARAM else
      ok ← lift (validate_message data);
      if negb ok then mret ROUTE_ERROR else
      if Z.of_nat (length data) <? 3 then mret ROUTE_ERROR else
      src ← lift (data !! 0%nat);
      tgt ← lift (data !! 1%nat);
      svc ← lift (data !! 2%nat);
      found ← forward_loop data src tgt svc (route_count s) 0 false;
      mret (if found : bool then ROUTE_OK else ROUTE_ERROR)
  end.

Definition is_route_valid (r : option DiagRoute) : bool :=
  match r with Some r => negb (source_addr r =? 0) && negb (target_addr r =? 0) | None => false end.

(** ** Invariant *)

Definition live (s : DiagRouterContext) : list DiagRoute := take (route_count s) (routes s).
Definition triple (r : DiagRoute) : Z * Z * Z := (source_addr r, target_addr r, service_id r).
(** At most sixteen routes, no two for the same addresses and service. *)
Record router_wf (s : DiagRouterContext) : Prop := {
  rw_routes : length (routes s) = MAX_ROUTES;
  rw_count : (route_count s <= MAX_ROUTES)%nat;
  rw_buffer : length (temp_buffer s) = Z.to_nat TEMP_BUFFER_SIZE;
  rw_triples : NoDup (triple <$> live s);
  rw_valid : Forall (fun r => is_route_valid (Some r) = true) (live s) }.

Lemma router_zero_wf : router_wf router_zero.
Proof. constructor; [done|cbn; lia|done|constructor|constructor]. Qed.

Lemma same_route_triple src tgt svc r : same_route src tgt svc r = true <-> triple r = (src, tgt, svc).
Proof.
  unfold same_route, triple. rewrite !andb_true_iff, !Z.eqb_eq. naive_solver.
Qed.
Lemma find_triple s src tgt svc :
  find_idx (same_route src tgt svc) (route_count s) (routes s) = None <-> (src, tgt, svc) ∉ triple <$> live s.
Proof.
  rewrite find_idx_None, Forall_forall, list_elem_of_fmap. fold (live s). split.
  - intros Hf (r & Hr & Hin). apply Hf in Hin. by rewrite (proj2 (same_route_triple _ _ _ _)) in Hin.
  - intros Hn r Hin. apply not_true_is_false. intros Ht%same_route_triple. apply Hn. eauto.
Qed.

(** What each operation makes of the list of routes. *)
Definition add_live (src tgt svc : Z) (l : list DiagRoute) : RouteResult * list DiagRoute :=
  if (src =? 0) || (tgt =? 0) then (ROUTE_INVALID_PARAM, l) else
  if bool_decide ((src, tgt, svc) ∈ triple <$> l) then (ROUTE_OK, l) else
  if (MAX_ROUTES <=? length l)%nat then (ROUTE_ERROR, l) else (ROUTE_OK, l ++ [mkRoute src tgt svc true]).
(** The first route of the pair is marked, and dropped when it is the last of all. *)
Fixpoint remove_live (src tgt : Z) (l : list DiagRoute) : list DiagRoute :=
  match l with
  | [] => []
  | [r] => if same_pair src tgt r then [] else [r]
  | r :: l => if same_pair src tgt r then r <| active := false |> :: l else r :: remove_live src tgt l
  end.

Lemma length_live s : router_wf s -> length (live s) = route_count s.
Proof. intros []. unfold live. rewrite length_take. lia. Qed.

Lemma add_route_spec src tgt svc s m :
  router_wf s -> initialized s = true ->
  wp (DiagRouter_AddRoute src tgt svc) (fun res s' m' => m' = m /\ router_wf s' /\ initialized s' = true /\
    temp_buffer s' = temp_buffer s /\ (res, live s') = add_live src tgt svc (live s)) s m.
Proof.
  intros Hw Hi. pose proof (length_live s Hw) as Hl. pose proof Hw as []. unfold DiagRouter_AddRoute, add_live.
  apply wp_bind, wp_get. rewrite Hi. cbn [negb]. destruct (_ || _) eqn:Ez; [by apply wp_ret|].
  destruct (find_idx _ _ _) as [i|] eqn:Ef.
  - apply wp_ret. split_and!; try done. rewrite bool_decide_eq_true_2; [done|].
    destruct (decide ((src, tgt, svc) ∈ triple <$> live s)) as [|Hn]; [done|]. apply find_triple in Hn. congruence.
  - apply find_triple in Ef. rewrite bool_decide_eq_false_2, Hl by done.
    destruct (MAX_ROUTES <=? route_count s)%nat eqn:Em; tests; [by apply wp_ret|].
    apply wp_bind, wp_modify, wp_ret. set (x := mkRoute src tgt svc true).
    match goal with |- _ /\ router_wf ?z /\ _ => set (s1 := z) end.
    assert (Hlive : live s1 = live s ++ [x]).
    { unfold live. cbn [routes route_count s1 setf]. rewrite (take_S_r _ _ x) by (apply list_lookup_insert_eq; lia).
      by rewrite take_insert_ge by lia. }
    split_and!; try done; [|by rewrite Hlive]. constructor; try done.
    + cbn. by rewrite length_insert.
    + rewrite Hlive, fmap_app. apply NoDup_app. split_and!; [done| |apply NoDup_singleton].
      intros t Ht ->%list_elem_of_singleton. done.
    + rewrite Hlive. apply Forall_app. split; [done|]. constructor; [|constructor]. unfold is_route_valid. cbn. tests.
      by rewrite !(proj2 (Z.eqb_neq _ _)).
Qed.

Definition deactivate (r : DiagRoute) : DiagRoute := r <| active := false |>.
Lemma remove_live_find src tgt l :
  remove_live src tgt l =
  match list_find (same_pair src tgt) l with
  | None => l
  | Some (i, _) => if (i =? length l - 1)%nat then take i l else alter deactivate i l
  end.
Proof.
  induction l as [|r l IH]; [done|]. destruct l as [|r' l].
  - simpl. by destruct (same_pair src tgt r).
  - change (remove_live src tgt (r :: r' :: l)) with
      (if same_pair src tgt r then deactivate r :: r' :: l else r :: remove_live src tgt (r' :: l)).
    remember (r' :: l) as t eqn:Et. cbn [list_find]. destruct (same_pair src tgt r) eqn:E.
    + subst t. done.
    + rewrite IH. cbn [Is_true]. rewrite decide_False by tauto. destruct (list_find _ t) as [[i x]|] eqn:Ef; simpl; [|done].
      apply list_find_Some in Ef as [Hi _]. apply lookup_lt_Some in Hi.
      replace (S i =? S (length t) - 1)%nat with (i =? length t - 1)%nat; [by destruct (_ =? _)%nat|].
      destruct (i =? length t - 1)%nat eqn:E2; symmetry; tests; [apply Nat.eqb_eq|apply Nat.eqb_neq]; lia.
Qed.

Lemma triple_deactivate (i : nat) (l : list DiagRoute) : triple <$> alter deactivate i l = triple <$> l.
Proof.
  apply list_eq. intros j. rewrite !list_lookup_fmap. destruct (decide (i = j)) as [->|Hne].
  - rewrite list_lookup_alter_eq. by destruct (l !! j).
  - by rewrite list_lookup_alter_ne.
Qed.
Lemma valid_deactivate (i : nat) (l : list DiagRoute) :
  Forall (fun r => is_route_valid (Some r) = true) l -> Forall (fun r => is_route_valid (Some r) = true) (alter deactivate i l).
Proof. intros Hf. apply Forall_alter; [done|]. by intros x _ Hx. Qed.

Lemma remove_route_spec src tgt s m :
  router_wf s -> initialized s = true ->
  wp (DiagRouter_RemoveRoute src tgt) (fun res s' m' => m' = m /\ router_wf s' /\ initialized s' = true /\
    temp_buffer s' = temp_buffer s /\ live s' = remove_live src tgt (live s) /\
    res = if existsb (same_pair src tgt) (live s) then ROUTE_OK else ROUTE_ERROR) s m.
Proof.
  intros Hw Hi. pose proof (length_live s Hw) as Hl. pose proof Hw as []. unfold DiagRouter_RemoveRoute.
  apply wp_bind, wp_get. rewrite Hi. cbn [negb]. rewrite remove_live_find, Hl.
  unfold find_idx. fold (live s). destruct (list_find _ (live s)) as [[i r]|] eqn:Ef; cbn [fmap option_fmap option_map fst].
  - apply list_find_Some in Ef as (Hr & Hp & _). apply Is_true_true in Hp. apply lookup_take_Some in Hr as [Hr Hlt].
    rewrite (proj2 (existsb_exists _ _))
      by (exists r; split; [apply list_elem_of_In, list_elem_of_lookup; exists i; by apply lookup_take_Some|done]).
    apply wp_bind, wp_modify. destruct (i =? route_count s - 1)%nat eqn:E; tests.
    + apply wp_bind, wp_modify, wp_ret. match goal with |- _ /\ router_wf ?z /\ _ => set (s1 := z) end.
      assert (Hlive : live s1 = take i (live s)).
      { unfold live. cbn [routes route_count s1 setf]. rewrite <- E, take_take, Nat.min_l by lia.
        by rewrite (alter_as_insert _ _ r), take_insert_ge by done. }
      split_and!; try done. constructor; try done.
      * cbn. by rewrite length_alter.
      * cbn. lia.
      * rewrite Hlive, fmap_take. eapply sublist_NoDup; [exact rw_triples0|]. apply sublist_take.
      * rewrite Hlive. by apply Forall_take.
    + apply wp_bind, wp_ret, wp_ret. match goal with |- _ /\ router_wf ?z /\ _ => set (s1 := z) end.
      assert (Hlive : live s1 = alter deactivate i (live s)).
      { unfold live. cbn [routes route_count s1 setf]. rewrite (alter_as_insert _ _ r), take_insert_lt by done.
        symmetry. refine (alter_as_insert deactivate i r _ _). by apply lookup_take_Some. }
      split_and!; try done. constructor; try done.
      * cbn. by rewrite length_alter.
      * by rewrite Hlive, triple_deactivate.
      * rewrite Hlive. by apply valid_deactivate.
  - apply list_find_None in Ef. apply wp_ret. split_and!; try done. destruct (existsb _ _) eqn:E; [|done].
    apply existsb_exists in E as (x & Hx%list_elem_of_In & Hp). rewrite Forall_forall in Ef. apply Ef in Hx. by rewrite Hp in Hx.
Qed.

(** ** Forwarding *)

Definition recipients (src tgt svc : Z) (l : list DiagRoute) : list DiagRoute :=
  filter (fun r => matches src tgt svc r = true) l.
Definition forwarded (data : list Z) (n : nat) : list Call :=
  if TEMP_BUFFER_SIZE <? Z.of_nat (length data) then [] else replicate n (call "DiagCore_HandleMessage" data).

Lemma process_route_spec data s m :
  length (temp_buffer s) = Z.to_nat TEMP_BUFFER_SIZE ->
  wp (process_route data) (fun _ s' m' => s' = s <| temp_buffer := temp_buffer s' |> /\
    length (temp_buffer s') = Z.to_nat TEMP_BUFFER_SIZE /\ m' = m <| trace ::= fun t => t ++ forwarded data 1 |>) s m.
Proof.
  intros Hb. unfold process_route, forwarded. destruct (_ <? _) eqn:E; tests.
  - apply wp_ret. split_and!; [by destruct s|done|]. destruct m; cbn. by rewrite app_nil_r.
  - apply wp_bind, wp_modify, wp_bind, wp_get, wp_emit. split_and!; [done| |].
    + cbn. rewrite length_app, length_drop. unfold TEMP_BUFFER_SIZE in *. lia.
    + cbn [temp_buffer setf]. by rewrite take_app_length.
Qed.
Lemma forwarded_app data n k : forwarded data n ++ forwarded data k = forwarded data (n + k).
Proof. unfold forwarded. destruct (_ <? _); [done|]. symmetry. apply replicate_add. Qed.
Lemma trace_app m c1 c2 :
  m <| trace ::= fun t => t ++ c1 |> <| trace ::= fun t => t ++ c2 |> = m <| trace ::= fun t => t ++ (c1 ++ c2) |>.
Proof. destruct m. cbn. by rewrite app_assoc. Qed.

Lemma forward_loop_spec data src tgt svc k i found s m :
  (i + k <= length (routes s))%nat -> length (temp_buffer s) = Z.to_nat TEMP_BUFFER_SIZE ->
  wp (forward_loop data src tgt svc k i found) (fun b s' m' => s' = s <| temp_buffer := temp_buffer s' |> /\
    length (temp_buffer s') = Z.to_nat TEMP_BUFFER_SIZE /\
    let n := length (recipients src tgt svc (take k (drop i (routes s)))) in
    b = found || (0 <? n)%nat /\ m' = m <| trace ::= fun t => t ++ forwarded data n |>) s m.
Proof.
  revert i found s m. induction k as [|k IH]; intros i found s m Hik Hb; cbn [forward_loop].
  - apply wp_ret. split_and!; [by destruct s|done|by rewrite orb_false_r|].
    unfold forwarded. destruct m; destruct (_ <? _); cbn; by rewrite app_nil_r.
  - apply wp_bind, wp_get. destruct (lookup_lt_is_Some_2 (routes s) i) as [r Hr]; [lia|]. apply wp_bind.
    rewrite Hr. apply wp_ret. rewrite (drop_S _ r i) by done. cbn [firstn]. unfold recipients.
    destruct (matches src tgt svc r) eqn:E.
    + apply wp_bind. eapply wp_mono; [by apply process_route_spec|]. intros [] s1 m1 (Hs1 & Hb1 & ->).
      assert (Hr1 : routes s1 = routes s) by (by rewrite Hs1).
      eapply wp_mono; [apply (IH (S i) true s1); [rewrite Hr1; lia|done]|].
      intros b s2 m2 (Hs2 & Hb2 & -> & ->). rewrite Hr1. rewrite filter_cons_True by done. cbn [length].
      split_and!; [rewrite Hs2, Hs1; done|done|by rewrite orb_true_r|].
      rewrite trace_app, forwarded_app. done.
    + eapply wp_mono; [apply (IH (S i) found s); [lia|done]|].
      intros b s2 m2 (Hs2 & Hb2 & -> & ->). rewrite filter_cons_False by (by rewrite E). done.
Qed.

(** Two routes at most can match: the one for the service and the one for all. *)
Lemma recipients_two src tgt svc l : NoDup (triple <$> l) -> (length (recipients src tgt svc l) <= 2)%nat.
Proof.
  intros Hn. rewrite <- (length_fmap triple).
  apply (submseteq_length _ [(src, tgt, ALL_SERVICES); (src, tgt, svc)]), NoDup_submseteq.
  - eapply sublist_NoDup; [exact Hn|]. apply fmap_sublist, sublist_filter.
  - intros t (r & -> & Hr)%list_elem_of_fmap. apply list_elem_of_filter in Hr as [Hm _].
    unfold matches in Hm. tests. unfold triple.
    repeat match goal with H : _ = src |- _ => rewrite H | H : _ = tgt |- _ => rewrite H end.
    destruct H0 as [?|?]; tests; rewrite H0; set_solver.
Qed.

(** What a message of any length but one gives the core. *)
Definition deliveries (l : list DiagRoute) (data : list Z) : list Call :=
  match data with
  | src :: tgt :: svc :: _ :: _ =>
      if (src =? 0) || (tgt =? 0) then [] else forwarded data (length (recipients src tgt svc l))
  | _ => []
  end.
Lemma handle_message_spec data s m :
  router_wf s -> initialized s = true -> length data <> 1%nat ->
  wp (DiagRouter_HandleMessage (Some data)) (fun _ s' m' => router_wf s' /\ initialized s' = true /\
    live s' = live s /\ m' = m <| trace ::= fun t => t ++ deliveries (live s) data |>) s m.
Proof.
  intros Hw Hi Hl.
  assert (Hnil : m <| trace ::= fun t => t ++ [] |> = m) by (destruct m; cbn; by rewrite app_nil_r).
  assert (Hret : forall r : RouteResult, wp (mret r) (fun _ s' m' => router_wf s' /\ initialized s' = true /\
    live s' = live s /\ m' = m <| trace ::= fun t => t ++ [] |>) s m).
  { intros r. apply wp_ret. by rewrite Hnil. }
  unfold DiagRouter_HandleMessage. apply wp_bind, wp_get. rewrite Hi. cbn [negb orb].
  destruct data as [|src [|tgt l]]; [apply Hret|done|]. change (length (src :: tgt :: l) =? 0)%nat with false. cbv iota.
  assert (Hv : validate_message (src :: tgt :: l) = Some (if (src =? 0) || (tgt =? 0) then false
    else 4 <=? Z.of_nat (length (src :: tgt :: l)))).
  { unfold validate_message. cbn. by destruct (src =? 0), (tgt =? 0). }
  apply wp_bind. rewrite Hv. apply wp_ret. destruct l as [|svc [|d l]].
  1, 2: replace (if (src =? 0) || (tgt =? 0) then false else _) with false by (by destruct (_ || _)); apply Hret.
  rewrite (proj2 (Z.leb_le 4 _)) by (cbn [length]; lia). unfold deliveries. destruct (_ || _); [apply Hret|]. cbn [negb].
  rewrite (proj2 (Z.ltb_ge _ _)) by (cbn [length]; lia). pose proof Hw as [].
  apply wp_bind, wp_ret, wp_bind, wp_ret, wp_bind, wp_ret, wp_bind.
  eapply wp_mono; [apply forward_loop_spec; [lia|done]|]. intros b s' m' (Hs' & Hb' & -> & ->). rewrite drop_0.
  apply wp_ret. rewrite Hs'. split_and!; [|done|done|done]. by constructor.
Qed.

(** ** Properties *)

(**  A well-formed message is handed to the core once for every active route of its
    source and target that serves its service or all services, at most twice, and the
    answer says whether there was such a route; a message longer than the buffer is
    answered in the same way although it is handed to nobody.  The routes do not change. *)
Theorem router_forwards src tgt svc rest s m :
  router_wf s -> initialized s = true -> src <> 0 -> tgt <> 0 -> rest <> [] ->
  let data := src :: tgt :: svc :: rest in
  wp (DiagRouter_HandleMessage (Some data)) (fun res s' m' => router_wf s' /\ routes s' = routes s /\
    let n := length (recipients src tgt svc (live s)) in
    (n <= 2)%nat /\ res = (if (0 <? n)%nat then ROUTE_OK else ROUTE_ERROR) /\
    trace m' = trace m ++ (if TEMP_BUFFER_SIZE <? Z.of_nat (length data) then []
                           else replicate n (call "DiagCore_HandleMessage" data))) s m.
Proof.
  intros Hw Hi Hs Ht Hr data. pose proof Hw as []. unfold DiagRouter_HandleMessage. apply wp_bind, wp_get.
  rewrite Hi. cbn [negb orb]. change (length data =? 0)%nat with false. cbv iota.
  assert (Hv : validate_message data = Some true).
  { unfold validate_message, data. cbn [lookup list_lookup mbind option_bind].
    rewrite !(proj2 (Z.eqb_neq _ _)) by done. f_equal. apply Z.leb_le. destruct rest; [done|]. simpl. lia. }
  rewrite Hv. apply wp_bind, wp_ret. cbn [negb].
  assert (Hl : (Z.of_nat (length data) <? 3) = false) by (apply Z.ltb_ge; unfold data; cbn [length]; lia). rewrite Hl.
  do 3 (apply wp_bind; unfold data at 1; cbn [lookup list_lookup]; apply wp_ret).
  apply wp_bind. eapply wp_mono; [apply (forward_loop_spec data src tgt svc (route_count s) 0 false s); [lia|done]|].
  intros b s' m' (Hs' & Hb' & -> & ->). apply wp_ret. rewrite drop_0. fold (live s).
  split_and!; [|by rewrite Hs'|by apply recipients_two|done|done].
  rewrite Hs'. constructor; try done. 
Qed.

(**  Adding and removing routes keep the table well formed and do to the list of routes
    what [add_live] and [remove_live] say: a new triple is appended while there is room, a
    known one is left as it is; removing marks the first route of the pair and drops it
    only when it is the last. *)
Theorem router_ops_refine src tgt svc s m :
  router_wf s -> initialized s = true ->
  wp (DiagRouter_AddRoute src tgt svc) (fun res s' m' => m' = m /\ router_wf s' /\ initialized s' = true /\
    (res, live s') = add_live src tgt svc (live s)) s m /\
  wp (DiagRouter_RemoveRoute src tgt) (fun res s' m' => m' = m /\ router_wf s' /\ initialized s' = true /\
    live s' = remove_live src tgt (live s) /\
    res = if existsb (same_pair src tgt) (live s) then ROUTE_OK else ROUTE_ERROR) s m.
Proof.
  intros Hw Hi. split; (eapply wp_mono; [by (apply add_route_spec || apply remove_route_spec)|]); naive_solver.
Qed.

(**  A route that was removed while another one was behind it cannot be restored:
    adding it again is answered with success, but the route stays inactive and a message
    for its service alone is refused. *)
Theorem removed_route_dead src tgt svc s m l1 l2 r :
  router_wf s -> initialized s = true -> src <> 0 -> tgt <> 0 -> l2 <> [] ->
  live s = l1 ++ r :: l2 -> triple r = (src, tgt, svc) -> existsb (same_pair src tgt) l1 = false ->
  wp (r1 ← DiagRouter_RemoveRoute src tgt; r2 ← DiagRouter_AddRoute src tgt svc; mret (r1, r2)) (fun res s' _ =>
    res = (ROUTE_OK, ROUTE_OK) /\ Forall (fun x => triple x = (src, tgt, svc) -> active x = false) (live s')) s m.
Proof.
  intros Hw Hi Hs Ht Hl2 Hl Hr Hfirst. apply wp_bind. eapply wp_mono; [by apply remove_route_spec|].
  intros r1 s1 m1 (_ & Hw1 & Hi1 & _ & Hl1 & ->). apply wp_bind. eapply wp_mono; [by apply add_route_spec|].
  intros r2 s2 m2 (_ & _ & _ & _ & Ha). apply wp_ret.
  assert (Hsp : same_pair src tgt r = true) by (unfold triple in Hr; unfold same_pair; simplify_eq; by rewrite !Z.eqb_refl).
  assert (Hrem : remove_live src tgt (live s) = l1 ++ deactivate r :: l2).
  { rewrite Hl. clear -Hfirst Hsp Hl2. induction l1 as [|x l1 IH]; simpl in *.
    - destruct l2; [done|]. by rewrite Hsp.
    - tests. rewrite H. rewrite IH by done. destruct l1; simpl; by destruct l2. }
  rewrite Hl1, Hrem in Ha. unfold add_live in Ha.
  rewrite !(proj2 (Z.eqb_neq _ _)), bool_decide_eq_true_2 in Ha; [|rewrite fmap_app, elem_of_app; right; rewrite fmap_cons;
    apply elem_of_cons; left; by rewrite <- Hr|done|done]. injection Ha as -> ->.
  assert (Hex : existsb (same_pair src tgt) (live s) = true) by (rewrite Hl, existsb_app; simpl; by rewrite Hsp, orb_true_r).
  rewrite Hex. split; [done|]. destruct Hw as [_ _ _ Hnd _]. rewrite Hl, fmap_app, fmap_cons in Hnd.
  apply NoDup_app in Hnd as (_ & Hd & [Hn _]%NoDup_cons). apply Forall_app. split; [|constructor; [done|]].
  - apply Forall_forall. intros x Hx Htx. exfalso. apply (Hd (triple x)); [by apply list_elem_of_fmap_2|].
    apply elem_of_cons. left. congruence.
  - apply Forall_forall. intros x Hx Htx. exfalso. apply Hn. rewrite Hr, <- Htx. by apply list_elem_of_fmap_2.
Qed.

(** The routes that initialisation means to add are refused, because the router is not
    yet initialised. *)
Lemma init_adds_nothing s m :
  initialized s = false ->
  wp DiagRouter_Init (fun b s' _ => b = true /\ live s' = [] /\ initialized s' = true /\ router_wf s') s m.
Proof.
  intros Hi. unfold DiagRouter_Init. apply wp_bind, wp_get. rewrite Hi. apply wp_bind, wp_modify.
  do 3 (apply wp_bind; unfold DiagRouter_AddRoute at 1; apply wp_bind, wp_get; cbn [initialized router_zero negb]; apply wp_ret).
  apply wp_bind, wp_modify, wp_ret. split_and!; try done. constructor; [done|cbn; lia|done|constructor|constructor].
Qed.
(** A message of one byte with a source address is read past its end. *)
Lemma one_byte_undefined b s m :
  initialized s = true -> b <> 0 -> DiagRouter_HandleMessage (Some [b]) s m = None.
Proof.
  intros Hi Hb. unfold DiagRouter_HandleMessage. apply undefined_bind, wp_get. rewrite Hi. cbn [negb orb].
  apply undefined_bind'. unfold validate_message. cbn. by rewrite (proj2 (Z.eqb_neq _ _)).
Qed.

(** ** Examples *)

Definition example_router : DiagRouterContext :=
  router_zero <| routes := [mkRoute 1 0xF1 0x22 true; mkRoute 1 0xF1 ALL_SERVICES true] ++ replicate 14 route_zero |>
    <| route_count := 2%nat |> <| initialized := true |>.
Lemma example_router_wf : router_wf example_router.
Proof.
  constructor; [done|cbn; unfold MAX_ROUTES; lia|done| |by repeat constructor].
  apply (bool_decide_eq_true_1 (NoDup _)). by vm_compute.
Qed.

(** Witness of [router_forwards]: both routes match. *)
Lemma router_forwards_witness :
  wp (DiagRouter_HandleMessage (Some [1; 0xF1; 0x22; 0])) (fun res _ m' => res = ROUTE_OK /\
    trace m' = replicate 2 (call "DiagCore_HandleMessage" [1; 0xF1; 0x22; 0])) example_router boot.
Proof.
  eapply wp_mono; [apply (router_forwards 1 0xF1 0x22 [0] example_router boot); [apply example_router_wf|done..]|].
  intros res s' m' (_ & _ & _ & Hr & Ht). by split.
Defined.
(** Witness of [router_ops_refine]. *)
Lemma router_ops_refine_witness :
  wp (DiagRouter_AddRoute 2 0xF2 0x22) (fun res s' m' => m' = boot /\ router_wf s' /\ initialized s' = true /\
    (res, live s') = add_live 2 0xF2 0x22 (live example_router)) example_router boot.
Proof. apply (router_ops_refine 2 0xF2 0x22 example_router boot); [apply example_router_wf|done]. Defined.
(** Witness of [removed_route_dead]: the first of two routes. *)
Lemma removed_route_dead_witness :
  wp (r1 ← DiagRouter_RemoveRoute 1 0xF1; r2 ← DiagRouter_AddRoute 1 0xF1 0x22; mret (r1, r2)) (fun res s' _ =>
    res = (ROUTE_OK, ROUTE_OK) /\ Forall (fun x => triple x = (1, 0xF1, 0x22) -> active x = false) (live s')) example_router boot.
Proof.
  apply (removed_route_dead 1 0xF1 0x22 example_router boot [] [mkRoute 1 0xF1 ALL_SERVICES true] (mkRoute 1 0xF1 0x22 true));
    [apply example_router_wf|done..].
Defined.
