(* ===== verification/DiagError.v ===== *)
(** * Error reporting of the diagnostic core

    [src/runtime/diagnostic/diag_error.c]: the last error, a ring of the last sixteen and up
    to eight handlers that are told of each.  The text a call formats is its argument;
    [vsnprintf] keeps 255 characters of it.  Handlers and contexts are numbers, 0 for NULL;
    calling one is recorded.  [clock] is what [DiagTimer_GetTimestamp] returns.  The members
    that only a development build has are left out; of the dump the errors it lists are
    modelled, not their printed form. *)

From S2P Require Import Prelude Slots Registry Machine Mutex.

Definition MAX_ERROR_HANDLERS : nat := 8.
Definition ERROR_HISTORY_SIZE : nat := 16.
Definition ERROR_CUSTOM_BASE : Z := 0xF000.

Inductive DiagErrorCategory :=
| ERROR_CAT_NONE | ERROR_CAT_PROTOCOL | ERROR_CAT_SESSION | ERROR_CAT_SECURITY | ERROR_CAT_TIMING
| ERROR_CAT_MEMORY | ERROR_CAT_SYSTEM | ERROR_CAT_CUSTOM.
Definition category_code (c : DiagErrorCategory) : Z :=
  match c with
  | ERROR_CAT_NONE => 0 | ERROR_CAT_PROTOCOL => 1 | ERROR_CAT_SESSION => 2 | ERROR_CAT_SECURITY => 3
  | ERROR_CAT_TIMING => 4 | ERROR_CAT_MEMORY => 5 | ERROR_CAT_SYSTEM => 6 | ERROR_CAT_CUSTOM => 7
  end.
(** The cast of a number below 7. *)
Definition category_of (z : Z) : DiagErrorCategory :=
  if z =? 1 then ERROR_CAT_PROTOCOL else if z =? 2 then ERROR_CAT_SESSION else if z =? 3 then ERROR_CAT_SECURITY else
  if z =? 4 then ERROR_CAT_TIMING else if z =? 5 then ERROR_CAT_MEMORY else if z =? 6 then ERROR_CAT_SYSTEM else
  ERROR_CAT_NONE.

Record DiagError := mkError { err_code : Z; err_category : DiagErrorCategory; err_timestamp : Z; err_message : string }.
Definition error_zero : DiagError := mkError 0 ERROR_CAT_NONE 0 "".

Record HandlerSlot := mkHandler { handler : Z; context : Z; active : bool }.
#[export] Instance eta_HandlerSlot : Eta HandlerSlot := fun h => mkHandler (handler h) (context h) (active h).
Definition handler_zero : HandlerSlot := mkHandler 0 0 false.
#[export] Instance HandlerSlot_slot : Slot HandlerSlot := {| slot_used := active; slot_key := handler |}.

(** [error_mgr], the logger with its mutex, and the clock. *)
Record ErrorManager := mkErrorManager {
  last_error : DiagError; history : list DiagError; history_index : nat;
  handlers : list HandlerSlot; handler_count : nat; initialized : bool;
  em_mutex : bool; em_logger : option LogLevel; clock : Z }.
#[export] Instance eta_ErrorManager : Eta ErrorManager := fun s =>
  mkErrorManager (last_error s) (history s) (history_index s) (handlers s) (handler_count s) (initialized s)
    (em_mutex s) (em_logger s) (clock s).
#[export, refine] Instance ErrorManager_mutex : HasMutex ErrorManager :=
  {| locked := em_mutex; set_locked b s := s <| em_mutex := b |>; log_min := em_logger |}.
Proof. all: by intros; destruct s. Defined.
(** [memset(&error_mgr, 0, ...)] *)
Definition em_clear (s : ErrorManager) : ErrorManager :=
  s <| last_error := error_zero |> <| history := replicate ERROR_HISTORY_SIZE error_zero |> <| history_index := 0%nat |>
    <| handlers := replicate MAX_ERROR_HANDLERS handler_zero |> <| handler_count := 0%nat |> <| initialized := false |>.

Definition DiagError_Init : M ErrorManager bool :=
  s ← get;
  if initialized s then mret false else
  modify em_clear;; modify (fun s => s <| initialized := true |>);; mret true.
Definition DiagError_Deinit : M ErrorManager unit :=
  s ← get;
  if negb (initialized s) then mret tt else
  modify (fun s => s <| handlers := replicate MAX_ERROR_HANDLERS handler_zero |> <| handler_count := 0%nat |>);;
  modify em_clear.

Definition DiagError_GetCategory (code : Z) : DiagErrorCategory :=
  if ERROR_CUSTOM_BASE <=? code then ERROR_CAT_CUSTOM else
  let category := Z.land (Z.shiftr code 12) 0xF in
  if 7 <=? category then ERROR_CAT_NONE else category_of category.

(** [vsnprintf] into 256 characters, the last of them the terminator. *)
Definition format_error_message (text : string) : string := String.substring 0 255 text.
Definition set_last_error (code : Z) (text : string) : M ErrorManager unit :=
  modify (fun s => s <| last_error :=
    mkError code (DiagError_GetCategory code) (clock s) (format_error_message text) |>).

(** The notification loop at slot [i] with [k] to go. *)
Fixpoint notify_loop (k i : nat) : M ErrorManager unit :=
  match k with
  | O => mret tt
  | S k =>
      s ← get;
      match handlers s !! i with
      | None => fault
      | Some h =>
          callback (active h && negb (handler h =? 0)) "handler" [handler h; err_code (last_error s); context h];;
          notify_loop k (S i)
      end
  end.
Definition DiagError_Set (code : Z) (text : string) : M ErrorManager unit :=
  s ← get;
  if negb (initialized s) then mret tt else
  set_last_error code text;;
  modify (fun s => s <| history ::= <[history_index s := last_error s]> |>);;
  modify (fun s => s <| history_index ::= fun i => ((i + 1) mod ERROR_HISTORY_SIZE)%nat |>);;
  Logger_Log LOG_LEVEL_ERROR;;
  s ← get;
  notify_loop (handler_count s) 0.
Definition DiagError_SetEx (code : Z) (text : string) : M ErrorManager unit :=
  s ← get;
  if negb (initialized s) then mret tt else set_last_error code text.

Definition DiagError_RegisterHandler (h ctx : Z) : M ErrorManager unit :=
  s ← get;
  if negb (initialized s) || (h =? 0) then mret tt else
  match find_idx (fun x => handler x =? h) (handler_count s) (handlers s) with
  | Some i => modify (fun s => s <| handlers ::= alter (fun x => x <| context := ctx |> <| active := true |>) i |>)
  | None =>
      match find_free MAX_ERROR_HANDLERS (handlers s) with
      | Some i =>
          modify (fun s => s <| handlers ::= <[i := mkHandler h ctx true]> |>);;
          (if (handler_count s <=? i)%nat then modify (fun s => s <| handler_count := (i + 1)%nat |>) else mret tt)
      | None => Logger_Log LOG_LEVEL_WARNING
      end
  end.
Definition DiagError_UnregisterHandler (h : Z) : M ErrorManager unit :=
  s ← get;
  if negb (initialized s) || (h =? 0) then mret tt else
  match find_idx (fun x => handler x =? h) (handler_count s) (handlers s) with
  | None => mret tt
  | Some i =>
      modify (fun s => s <| handlers ::= <[i := handler_zero]> |>);;
      modify (fun s => s <| handler_count := shrink (handler_count s) (handlers s) |>)
  end.

Definition DiagError_GetLastCode (s : ErrorManager) : Z := if initialized s then err_code (last_error s) else 0.
Definition DiagError_GetLastMessage (s : ErrorManager) : string :=
  if initialized s then err_message (last_error s) else "".
Definition DiagError_GetLastError (s : ErrorManager) : option DiagError :=
  if initialized s then Some (last_error s) else None.

Definition category_strings : list string :=
  ["None"; "Protocol"; "Session"; "Security"; "Timing"; "Memory"; "System"; "Custom"].
Definition DiagError_GetCategoryString (c : Z) : option string :=
  if Z.of_nat (length category_strings) <=? c then Some "Unknown" else category_strings !! Z.to_nat c.
Definition error_strings : list (Z * string) :=
  [(0x1001, "Invalid protocol format"); (0x1002, "Invalid message length"); (0x1003, "Invalid checksum");
   (0x1004, "Unsupported protocol"); (0x1005, "Protocol timeout")].
Definition DiagError_GetCodeString (code : Z) : string :=
  match list_find (fun p => p.1 = code) error_strings with
  | Some (_, (_, str)) => str
  | None => if ERROR_CUSTOM_BASE <=? code then "Custom error" else "Unknown error"
  end.

(** The errors that [DiagError_DumpHistory] lists; the index is computed in 32 bits. *)
Definition dump_index (s : ErrorManager) (i : nat) : nat :=
  Z.to_nat (u32 (Z.of_nat (history_index s) - 1 - Z.of_nat i) mod Z.of_nat ERROR_HISTORY_SIZE).
Definition DiagError_DumpHistory (s : ErrorManager) : list DiagError :=
  if negb (initialized s) then [] else
  filter (fun e => err_code e <> 0) (omap (fun i => history s !! dump_index s i) (seq 0 ERROR_HISTORY_SIZE)).
Definition DiagError_ClearHistory : M ErrorManager unit :=
  s ← get;
  if negb (initialized s) then mret tt else
  modify (fun s => s <| history := replicate ERROR_HISTORY_SIZE error_zero |> <| history_index := 0%nat |>);;
  Logger_Log LOG_LEVEL_INFO.

(** ** The ring of errors *)

(** The slots from the newest to the oldest. *)
Definition recent (s : ErrorManager) : list DiagError :=
  omap (fun i => history s !! dump_index s i) (seq 0 ERROR_HISTORY_SIZE).
Record error_wf (s : ErrorManager) : Prop := {
  ew_init : initialized s = true;
  ew_mutex : em_mutex s = false;
  ew_history : length (history s) = ERROR_HISTORY_SIZE;
  ew_index : (history_index s < ERROR_HISTORY_SIZE)%nat;
  ew_handlers : table_wf MAX_ERROR_HANDLERS (handlers s) (handler_count s) }.

Lemma recent_push s e :
  length (history s) = ERROR_HISTORY_SIZE -> (history_index s < ERROR_HISTORY_SIZE)%nat ->
  recent (s <| history ::= <[history_index s := e]> |>
            <| history_index ::= fun i => ((i + 1) mod ERROR_HISTORY_SIZE)%nat |>) = e :: take 15 (recent s).
Proof.
  unfold recent, dump_index. cbn [history history_index setf]. generalize (history_index s) as i, (history s) as l.
  intros i l Hl Hi. unfold ERROR_HISTORY_SIZE in *.
  do 16 (destruct l as [|? l]; [done|]). destruct l; [|done].
  do 16 (destruct i as [|i]; [reflexivity|]). lia.
Qed.
Lemma length_recent s :
  length (history s) = ERROR_HISTORY_SIZE -> (history_index s < ERROR_HISTORY_SIZE)%nat -> length (recent s) = 16%nat.
Proof.
  unfold recent, dump_index. generalize (history_index s) as i, (history s) as l.
  intros i l Hl Hi. unfold ERROR_HISTORY_SIZE in *.
  do 16 (destruct l as [|? l]; [done|]). destruct l; [|done].
  do 16 (destruct i as [|i]; [reflexivity|]). lia.
Qed.

(** ** The handlers *)

Definition handler_map (s : ErrorManager) : gmap Z HandlerSlot := slot_map (handlers s).

(** What the operations do not touch. *)
Definition ring_frame (s s' : ErrorManager) : Prop :=
  history s' = history s /\ history_index s' = history_index s /\ last_error s' = last_error s /\ clock s' = clock s.

Lemma register_spec h ctx s m : error_wf s -> h <> 0 ->
  wp (DiagError_RegisterHandler h ctx) (fun _ s' m' => m' = m /\ error_wf s' /\ ring_frame s s' /\
    handler_map s' = if bool_decide (is_Some (handler_map s !! h)) || (size (handler_map s) <? MAX_ERROR_HANDLERS)%nat
                     then <[h := mkHandler h ctx true]> (handler_map s) else handler_map s) s m.
Proof.
  intros Hw Hh. pose proof Hw as [Hi Hx Hhl Hhi Hhw]. unfold DiagError_RegisterHandler, handler_map. apply wp_bind, wp_get.
  rewrite Hi, (proj2 (Z.eqb_neq _ _)) by done. cbn [negb orb].
  pose proof (table_find MAX_ERROR_HANDLERS _ _ h Hhw Hh) as Hf. destruct (find_idx _ _ _) as [i|].
  - destruct Hf as (x & Hxi & _ & Ha & Hk & Hm). apply wp_modify. rewrite Hm, bool_decide_eq_true_2 by eauto. cbn [orb].
    destruct (table_update MAX_ERROR_HANDLERS _ _ i x (x <| context := ctx |> <| active := true |>) Hhw Hxi Ha) as [Hw' Hm']; [done|done|].
    assert (Hal : alter (fun x => x <| context := ctx |> <| active := true |>) i (handlers s) =
      <[i := x <| context := ctx |> <| active := true |>]> (handlers s))
      by (by apply (alter_as_insert (fun x => x <| context := ctx |> <| active := true |>) i x)).
    match goal with |- _ /\ error_wf ?z /\ _ => set (s1 := z) end.
    assert (Hs1 : handlers s1 = <[i := x <| context := ctx |> <| active := true |>]> (handlers s)) by exact Hal.
    split_and!; try done.
    + constructor; try done. by rewrite Hs1.
    + rewrite Hs1, Hm', Hk. f_equal. destruct x. cbn in *. by subst.
  - rewrite Hf, bool_decide_eq_false_2 by (by intros []). cbn [orb].
    pose proof (find_free_size MAX_ERROR_HANDLERS (handlers s) (tb_uniq _ _ _ Hhw) (tb_length _ _ _ Hhw)) as Hfree.
    destruct (find_free _ _) as [i|].
    + destruct Hfree as (Hlt & Hi8 & x & Hxi & Ha). rewrite (proj2 (Nat.ltb_lt _ _)) by done.
      destruct (table_fill MAX_ERROR_HANDLERS _ _ i x (mkHandler h ctx true) Hhw Hxi Ha) as [Hw' Hm']; [done|done|done|]. rewrite <- Nat.add_1_r in Hw'. apply wp_bind, wp_modify.
      destruct (handler_count s <=? i)%nat ; [apply wp_modify|apply wp_ret];
        (split_and!; try done; constructor; done).
    + rewrite Hfree, Nat.ltb_irrefl. apply wp_log_free; [done|]. done.
Qed.

Lemma unregister_spec h s m : error_wf s -> h <> 0 ->
  wp (DiagError_UnregisterHandler h) (fun _ s' m' => m' = m /\ error_wf s' /\ ring_frame s s' /\
    handler_map s' = delete h (handler_map s)) s m.
Proof.
  intros Hw Hh. pose proof Hw as [Hi Hx Hhl Hhi Hhw]. unfold DiagError_UnregisterHandler, handler_map. apply wp_bind, wp_get.
  rewrite Hi, (proj2 (Z.eqb_neq _ _)) by done. cbn [negb orb].
  pose proof (table_find MAX_ERROR_HANDLERS _ _ h Hhw Hh) as Hf. destruct (find_idx _ _ _) as [i|].
  - destruct Hf as (x & Hxi & _ & Ha & Hk & Hm). destruct (table_blank MAX_ERROR_HANDLERS _ _ i x handler_zero Hhw Hxi Ha) as [Hw' Hm']; [done|done|].
    apply wp_bind, wp_modify, wp_modify. rewrite Hk in Hm'.
    split; [done|]. split; [by constructor|]. split; [done|]. exact Hm'.
  - apply wp_ret. split_and!; try done. by rewrite delete_id.
Qed.

(** ** Reporting *)

Definition entry_at (t code : Z) (text : string) : DiagError :=
  mkError code (DiagError_GetCategory code) t (format_error_message text).
Definition told (code : Z) (hs : list HandlerSlot) : list Call :=
  (fun x => call "handler" [handler x; code; context x]) <$> used hs.

Lemma notify_loop_spec k i s m :
  (i + k <= length (handlers s))%nat -> Forall (fun x => active x = negb (handler x =? 0)) (handlers s) ->
  wp (notify_loop k i) (fun _ s' m' => s' = s /\
    trace m' = trace m ++ told (err_code (last_error s)) (take k (drop i (handlers s)))) s m.
Proof.
  revert i m. induction k as [|k IH]; intros i m Hik Hs; cbn [notify_loop].
  - apply wp_ret. split; [done|]. by rewrite app_nil_r.
  - apply wp_bind, wp_get. destruct (lookup_lt_is_Some_2 (handlers s) i) as [x Hx]; [lia|]. rewrite Hx.
    apply wp_bind, wp_callback. eapply wp_mono; [apply IH; [lia|done]|]. intros [] s' m' [-> Ht]. split; [done|].
    rewrite Ht, (drop_S _ x i) by done. cbn [firstn trace setf]. unfold told, used. rewrite filter_cons.
    pose proof (proj1 (Forall_lookup _ _) Hs i x Hx) as Ha. simpl in Ha. rewrite <- Ha, andb_diag.
    change (slot_used x) with (active x). destruct (active x).
    + rewrite decide_True by done. rewrite fmap_cons, <- app_assoc. done.
    + rewrite decide_False by done. by rewrite app_nil_r.
Qed.
Lemma told_prefix code hs n : free_from n hs -> told code (take n hs) = told code hs.
Proof.
  intros Hf. unfold told. f_equal. rewrite <- (take_drop n hs) at 2. unfold used. rewrite filter_app.
  fold (used (drop n hs)). by rewrite (used_free _ Hf), app_nil_r.
Qed.

Lemma set_error_spec code text s m : error_wf s ->
  wp (DiagError_Set code text) (fun _ s' m' => error_wf s' /\ clock s' = clock s /\ handlers s' = handlers s /\
    last_error s' = entry_at (clock s) code text /\ recent s' = entry_at (clock s) code text :: take 15 (recent s) /\
    trace m' = trace m ++ told code (handlers s)) s m.
Proof.
  intros Hw. pose proof Hw as [Hi Hx Hhl Hhi Hhw]. unfold DiagError_Set, set_last_error. apply wp_bind, wp_get. rewrite Hi. cbn [negb].
  apply wp_bind, wp_modify, wp_bind, wp_modify, wp_bind, wp_modify, wp_bind, wp_log_free; [done|].
  apply wp_bind, wp_get. match goal with |- wp _ _ ?z _ => set (s1 := z) end.
  assert (Hw1 : error_wf s1).
  { constructor; try done.
    - cbn. by rewrite length_insert.
    - cbn [history_index s1 setf]. apply Nat.mod_upper_bound. done. }
  eapply wp_mono; [apply notify_loop_spec|].
  - change (length (handlers s1)) with (length (handlers s)). rewrite (tb_length _ _ _ Hhw). apply (tb_count _ _ _ Hhw).
  - apply (tb_slots _ _ _ Hhw).
  - intros [] s' m' [-> Ht]. split_and!; try done.
    + set (e := entry_at (clock s) code text). set (s0 := s <| last_error := e |>).
      pose proof (recent_push s0 e Hhl Hhi) as Hp. exact Hp.
    + rewrite Ht, drop_0. change (handlers s1) with (handlers s). change (handler_count s1) with (handler_count s).
      by rewrite told_prefix by apply (tb_free _ _ _ Hhw).
Qed.

Lemma clear_history_spec s m : error_wf s ->
  wp DiagError_ClearHistory (fun _ s' m' => m' = m /\ error_wf s' /\ clock s' = clock s /\ handlers s' = handlers s /\
    recent s' = replicate 16 error_zero) s m.
Proof.
  intros Hw. pose proof Hw as [Hi Hx Hhl Hhi Hhw]. unfold DiagError_ClearHistory. apply wp_bind, wp_get. rewrite Hi. cbn [negb].
  apply wp_bind, wp_modify, wp_log_free; [done|]. split; [done|]. split; [|done].
  constructor; try done. cbn. unfold ERROR_HISTORY_SIZE. lia.
Qed.

(** ** Runs *)

Inductive ErrorCall :=
| CallSet (code : Z) (text : string) | CallSetEx (code : Z) (text : string)
| CallRegister (h ctx : Z) | CallUnregister (h : Z) | CallClear | CallTime (t : Z).
Definition error_exec (c : ErrorCall) : M ErrorManager unit :=
  match c with
  | CallSet code text => DiagError_Set code text
  | CallSetEx code text => DiagError_SetEx code text
  | CallRegister h ctx => DiagError_RegisterHandler h ctx
  | CallUnregister h => DiagError_UnregisterHandler h
  | CallClear => DiagError_ClearHistory
  | CallTime t => modify (fun s => s <| clock := t |>)
  end.
Fixpoint error_run (cs : list ErrorCall) : M ErrorManager unit :=
  match cs with [] => mret tt | c :: cs => error_exec c;; error_run cs end.

(** All errors that were recorded since the history was last cleared, the newest first,
    over those that were there before. *)
Fixpoint recorded (t : Z) (cs : list ErrorCall) (before : list DiagError) : list DiagError :=
  match cs with
  | [] => before
  | CallSet code text :: cs => recorded t cs (entry_at t code text :: before)
  | CallClear :: cs => recorded t cs (replicate 16 error_zero)
  | CallTime t' :: cs => recorded t' cs before
  | _ :: cs => recorded t cs before
  end.

Lemma set_ex_spec code text s m : error_wf s ->
  wp (DiagError_SetEx code text) (fun _ s' m' => m' = m /\ error_wf s' /\
    s' = s <| last_error := entry_at (clock s) code text |>) s m.
Proof.
  intros []. unfold DiagError_SetEx, set_last_error. apply wp_bind, wp_get. rewrite ew_init0. cbn [negb].
  apply wp_modify. done.
Qed.
Lemma register_any h ctx s m : error_wf s ->
  wp (DiagError_RegisterHandler h ctx) (fun _ s' _ => error_wf s' /\ ring_frame s s') s m.
Proof.
  intros Hw. destruct (decide (h = 0)) as [->|Hh].
  - unfold DiagError_RegisterHandler. apply wp_bind, wp_get. rewrite Z.eqb_refl, orb_true_r. by apply wp_ret.
  - eapply wp_mono; [by apply register_spec|]. naive_solver.
Qed.
Lemma unregister_any h s m : error_wf s ->
  wp (DiagError_UnregisterHandler h) (fun _ s' _ => error_wf s' /\ ring_frame s s') s m.
Proof.
  intros Hw. destruct (decide (h = 0)) as [->|Hh].
  - unfold DiagError_UnregisterHandler. apply wp_bind, wp_get. rewrite Z.eqb_refl, orb_true_r. by apply wp_ret.
  - eapply wp_mono; [by apply unregister_spec|]. naive_solver.
Qed.
Lemma recent_frame s s' : ring_frame s s' -> recent s' = recent s.
Proof. intros (Hh & Hi & _). unfold recent, dump_index. by rewrite Hh, Hi. Qed.

Lemma error_run_spec cs s m before : error_wf s -> recent s = take 16 before ->
  wp (error_run cs) (fun _ s' _ => error_wf s' /\ recent s' = take 16 (recorded (clock s) cs before)) s m.
Proof.
  revert s m before. induction cs as [|c cs IH]; intros s m before Hw Hb; [by apply wp_ret|].
  cbn [error_run]. apply wp_bind. destruct c as [code text|code text|h ctx|h| |t]; cbn [error_exec recorded].
  - eapply wp_mono; [by apply set_error_spec|]. intros [] s' m' (Hw' & <- & _ & _ & Hr & _). apply IH; [done|].
    rewrite Hr, Hb. cbn [firstn]. by rewrite take_take, Nat.min_l by lia.
  - eapply wp_mono; [by apply set_ex_spec|]. intros [] s' m' (_ & Hw' & ->).
    exact (IH (s <| last_error := entry_at (clock s) code text |>) m' before Hw' Hb).
  - eapply wp_mono; [by apply register_any|]. intros [] s' m' [Hw' Hf].
    pose proof Hf as (_ & _ & _ & <-). apply IH; [done|]. by rewrite (recent_frame s).
  - eapply wp_mono; [by apply unregister_any|]. intros [] s' m' [Hw' Hf].
    pose proof Hf as (_ & _ & _ & <-). apply IH; [done|]. by rewrite (recent_frame s).
  - eapply wp_mono; [by apply clear_history_spec|]. intros [] s' m' (_ & Hw' & <- & _ & Hr). by apply IH.
  - apply wp_modify. eapply wp_mono; [apply (IH (s <| clock := t |>) m before); [by destruct Hw|exact Hb]|].
    intros [] s' m' Hs'. exact Hs'.
Qed.

(** ** Properties *)

(** C35. The ring is the history: along any run of calls the dump lists the last sixteen
    errors that [DiagError_Set] reported since the history was cleared, the newest first,
    each with its category, time and text.  Errors reported with [DiagError_SetEx], as
    development builds report all of them, are not among them. *)
Theorem error_history_exact cs s m :
  error_wf s -> recent s = replicate 16 error_zero ->
  wp (error_run cs) (fun _ s' _ => error_wf s' /\
    DiagError_DumpHistory s' =
      filter (fun e => err_code e <> 0) (take 16 (recorded (clock s) cs (replicate 16 error_zero)))) s m.
Proof.
  intros Hw Hr. eapply wp_mono; [apply (error_run_spec cs s m (replicate 16 error_zero)); done|].
  intros [] s' m' [Hw' Hr']. split; [done|]. unfold DiagError_DumpHistory. rewrite (ew_init _ Hw'). cbn [negb].
  fold (recent s'). by rewrite Hr'.
Qed.

(**  The handlers are a finite map of at most eight from handlers to contexts:
    registering inserts or replaces, or does nothing when the map is full, unregistering
    deletes; an error is told to exactly the registered handlers, each with its context. *)
Theorem error_handlers_refine h ctx code text s m :
  error_wf s -> h <> 0 ->
  wp (DiagError_RegisterHandler h ctx) (fun _ s' m' => m' = m /\ error_wf s' /\
    handler_map s' = if bool_decide (is_Some (handler_map s !! h)) || (size (handler_map s) <? MAX_ERROR_HANDLERS)%nat
                     then <[h := mkHandler h ctx true]> (handler_map s) else handler_map s) s m /\
  wp (DiagError_UnregisterHandler h) (fun _ s' m' => m' = m /\ error_wf s' /\
    handler_map s' = delete h (handler_map s)) s m /\
  wp (DiagError_Set code text) (fun _ s' m' => error_wf s' /\ handler_map s' = handler_map s /\
    exists calls, trace m' = trace m ++ calls /\
      calls ≡ₚ (fun p => call "handler" [p.1; code; context p.2]) <$> map_to_list (handler_map s)) s m.
Proof.
  intros Hw Hh. split_and!.
  - eapply wp_mono; [by apply register_spec|]. naive_solver.
  - eapply wp_mono; [by apply unregister_spec|]. naive_solver.
  - eapply wp_mono; [by apply set_error_spec|]. intros [] s' m' (Hw' & _ & Hhs & _ & _ & Ht).
    split; [done|]. unfold handler_map. rewrite Hhs. split; [done|]. eexists. split; [exact Ht|].
    unfold told, slot_map. rewrite map_to_list_to_map.
    + rewrite <- list_fmap_compose. done.
    + rewrite used_keys. apply (tb_uniq _ _ _ (ew_handlers _ Hw)).
Qed.

(** The category of a code: the top four bits of a 16-bit code below the custom range,
    when they name a category. *)
Lemma category_exact c k :
  0 <= k < 2 ^ 12 -> 0 <= c < 15 ->
  DiagError_GetCategory (c * 2 ^ 12 + k) = if 7 <=? c then ERROR_CAT_NONE else category_of c.
Proof.
  intros Hk Hc. unfold DiagError_GetCategory, ERROR_CUSTOM_BASE. rewrite (proj2 (Z.leb_gt _ _)) by lia.
  rewrite Z.shiftr_div_pow2, Z.div_add_l, Z.div_small, Z.add_0_r by lia.
  change 0xF with (Z.ones 4). rewrite Z.land_ones, Z.mod_small by lia. done.
Qed.

(** ** Examples *)

Definition example_errors : ErrorManager :=
  (em_clear (mkErrorManager error_zero [] 0 [] 0 false false None 0)) <| initialized := true |>
    <| handlers := mkHandler 7 70 true :: replicate 7 handler_zero |> <| handler_count := 1%nat |>.
Lemma example_errors_wf : error_wf example_errors.
Proof.
  constructor; [done|done|done|cbn; unfold ERROR_HISTORY_SIZE; lia|].
  constructor; [done|cbn; unfold MAX_ERROR_HANDLERS; lia| | |].
  - apply NoDup_singleton.
  - repeat constructor.
  - repeat constructor.
Qed.

(** Witness of [error_history_exact]: two errors, one of them reported with [SetEx]. *)
Lemma error_history_exact_witness :
  wp (error_run [CallSet 0x1001 "a"; CallTime 5; CallSetEx 0x2001 "b"; CallSet 0x3002 "c"]) (fun _ s' _ =>
    DiagError_DumpHistory s' = [entry_at 5 0x3002 "c"; entry_at 0 0x1001 "a"]) example_errors boot.
Proof.
  eapply wp_mono; [apply (error_history_exact _ example_errors boot); [apply example_errors_wf|reflexivity]|].
  intros [] s' m' [_ ->]. by vm_compute.
Defined.
(** Witness of [error_handlers_refine]. *)
Lemma error_handlers_refine_witness :
  wp (DiagError_UnregisterHandler 7) (fun _ s' m' => m' = boot /\ error_wf s' /\
    handler_map s' = delete 7 (handler_map example_errors)) example_errors boot.
Proof. apply (error_handlers_refine 7 0 0x1001 "" example_errors boot); [apply example_errors_wf|done]. Defined.
