(* ===== verification/NetCore.v ===== *)
(** * Network core, interfaces and protocols

    [src/runtime/network/net_core.c], [net_interface.c] and [net_protocol.c] over the ring
    buffer of [NetBuffer.v] and the process-wide mutex of [Mutex.v], which all of them lock.

    [hardware] says what the platform's functions answer; calling one is recorded.  The
    configuration an interface points to is a number, [None] for NULL.  Callbacks and their
    contexts are numbers, 0 for NULL.  [clock] is what [Timer_GetMilliseconds] returns.
    The connection parameters of the UDP and CAN protocols are never read and are left
    out. *)

From S2P Require Import Prelude Slots Machine Mutex NetBuffer.

Definition MAX_INTERFACES : nat := 8.
Definition MAX_CALLBACKS_PER_EVENT : nat := 8.

Inductive NetInterfaceType := NET_IF_LOOPBACK | NET_IF_ETHERNET | NET_IF_WIFI | NET_IF_CELLULAR | NET_IF_CAN.
Inductive NetProtocolType := NET_PROTO_TCP | NET_PROTO_UDP | NET_PROTO_CAN | NET_PROTO_MQTT.
Inductive NetConnectionState :=
| NET_STATE_DISCONNECTED | NET_STATE_CONNECTING | NET_STATE_CONNECTED | NET_STATE_DISCONNECTING | NET_STATE_ERROR.
Inductive NetEventType :=
| NET_EVENT_CONNECTED | NET_EVENT_DISCONNECTED | NET_EVENT_DATA_RECEIVED | NET_EVENT_DATA_SENT | NET_EVENT_ERROR.
#[export] Instance NetInterfaceType_eq_dec : EqDecision NetInterfaceType.
Proof. solve_decision. Defined.
#[export] Instance NetConnectionState_eq_dec : EqDecision NetConnectionState.
Proof. solve_decision. Defined.
Definition event_code (e : NetEventType) : nat :=
  match e with
  | NET_EVENT_CONNECTED => 0 | NET_EVENT_DISCONNECTED => 1 | NET_EVENT_DATA_RECEIVED => 2 | NET_EVENT_DATA_SENT => 3
  | NET_EVENT_ERROR => 4
  end.

Record NetInterfaceConfig := mkIfConfig {
  if_type : NetInterfaceType; if_name : string; address : string; port : Z; auto_connect : bool;
  reconnect_interval_ms : Z; timeout_ms : Z; interface_config : option Z }.
Record NetStatistics := mkStats {
  bytes_sent : Z; bytes_received : Z; packets_sent : Z; packets_received : Z; errors : Z;
  connection_attempts : Z; successful_connections : Z; disconnections : Z }.
#[export] Instance eta_NetStatistics : Eta NetStatistics := fun t =>
  mkStats (bytes_sent t) (bytes_received t) (packets_sent t) (packets_received t) (errors t)
    (connection_attempts t) (successful_connections t) (disconnections t).
Definition stats_zero : NetStatistics := mkStats 0 0 0 0 0 0 0 0.
Record NetManagerConfig := mkNetConfig {
  max_interfaces : Z; max_connections : Z; rx_buffer_size : nat; tx_buffer_size : nat;
  enable_statistics : bool; auto_reconnect : bool; heartbeat_interval_ms : Z }.
Definition net_config_zero : NetManagerConfig := mkNetConfig 0 0 0 0 false false 0.
Record NetMessage := mkNetMessage {
  nm_id : Z; nm_data : option (list Z); nm_length : nat; nm_protocol : NetProtocolType; nm_timestamp : Z; nm_flags : Z }.
#[export] Instance eta_NetMessage : Eta NetMessage := fun x =>
  mkNetMessage (nm_id x) (nm_data x) (nm_length x) (nm_protocol x) (nm_timestamp x) (nm_flags x).

Record EventCallback := mkCallback { cb_callback : Z; cb_context : Z; cb_active : bool }.
Definition callback_zero : EventCallback := mkCallback 0 0 false.
Record InterfaceContext := mkInterface {
  if_config : NetInterfaceConfig; if_state : NetConnectionState; if_stats : NetStatistics;
  last_heartbeat : Z; if_active : bool }.
#[export] Instance eta_InterfaceContext : Eta InterfaceContext := fun x =>
  mkInterface (if_config x) (if_state x) (if_stats x) (last_heartbeat x) (if_active x).
Definition interface_zero : InterfaceContext :=
  mkInterface (mkIfConfig NET_IF_LOOPBACK "" "" 0 false 0 0 None) NET_STATE_DISCONNECTED stats_zero 0 false.

Record TCPConfig := mkTCP { use_keepalive : bool; keepalive_interval_ms : Z; max_retries : Z }.
Record TCPContext := mkTCPContext { tcp_config : TCPConfig; last_keepalive : Z; retry_count : Z; tcp_connected : bool }.
#[export] Instance eta_TCPContext : Eta TCPContext := fun t =>
  mkTCPContext (tcp_config t) (last_keepalive t) (retry_count t) (tcp_connected t).
Record MQTTContext := mkMQTTContext { keep_alive_interval : Z; last_ping : Z; mqtt_connected : bool }.
#[export] Instance eta_MQTTContext : Eta MQTTContext := fun t =>
  mkMQTTContext (keep_alive_interval t) (last_ping t) (mqtt_connected t).

(** The statics of the three files, the mutex, the logger and the clock. *)
Record NetworkManager := mkNet {
  net_config : NetManagerConfig; interfaces : list InterfaceContext; callbacks : list (list EventCallback);
  rx_buffer : NetBuffer; tx_buffer : NetBuffer; initialized : bool;
  tcp_context : TCPContext; udp_socket_open : bool; can_initialized : bool; mqtt_context : MQTTContext;
  hw_configs : list Z;
  net_mutex : bool; net_logger : option LogLevel; clock : Z }.
#[export] Instance eta_NetworkManager : Eta NetworkManager := fun s =>
  mkNet (net_config s) (interfaces s) (callbacks s) (rx_buffer s) (tx_buffer s) (initialized s) (tcp_context s)
    (udp_socket_open s) (can_initialized s) (mqtt_context s) (hw_configs s) (net_mutex s) (net_logger s) (clock s).
#[export, refine] Instance NetworkManager_mutex : HasMutex NetworkManager :=
  {| locked := net_mutex; set_locked b s := s <| net_mutex := b |>; log_min := net_logger |}.
Proof. all: by intros; destruct s. Defined.
Definition buffer_zero : NetBuffer := mkNetBuffer None 0 0 0 0 false.
(** [memset(&net_mgr, 0, ...)] *)
Definition net_clear (s : NetworkManager) : NetworkManager :=
  s <| net_config := net_config_zero |> <| interfaces := replicate MAX_INTERFACES interface_zero |>
    <| callbacks := replicate 5 (replicate MAX_CALLBACKS_PER_EVENT callback_zero) |>
    <| rx_buffer := buffer_zero |> <| tx_buffer := buffer_zero |> <| initialized := false |>.

(** A buffer and the mutex as [NetBuffer.v] sees them. *)
Definition on_rx {A} : M NetCtx A -> M NetworkManager A :=
  zoom (fun s => mkNetCtx (Some (rx_buffer s)) (net_mutex s))
    (fun c s => s <| rx_buffer := default (rx_buffer s) (nb c) |> <| net_mutex := mutex c |>).
Definition on_tx {A} : M NetCtx A -> M NetworkManager A :=
  zoom (fun s => mkNetCtx (Some (tx_buffer s)) (net_mutex s))
    (fun c s => s <| tx_buffer := default (tx_buffer s) (nb c) |> <| net_mutex := mutex c |>).

Section net.
Context (hardware : string -> bool).

Definition platform (f : string) : M NetworkManager bool := emit f [];; mret (hardware f).

(** ** net_interface.c *)

(** The four kinds of interface differ in the platform functions they call. *)
Definition connect_with (slot : nat) (init start : string) (config : option Z) : M NetworkManager bool :=
  match config with
  | None => mret false
  | Some c =>
      lock;;
      modify (fun s => s <| hw_configs ::= <[slot := c]> |>);;
      result ← platform init;
      result ← (if result : bool then platform start else mret false);
      unlock;;
      Logger_Log (if result : bool then LOG_LEVEL_INFO else LOG_LEVEL_ERROR);;
      mret result
  end.
Definition disconnect_with (stop deinit : string) : M NetworkManager bool :=
  lock;;
  result ← platform stop;
  emit deinit [];;
  unlock;;
  (if result : bool then Logger_Log LOG_LEVEL_INFO else mret tt);;
  mret result.
Definition NetInterface_ConnectEthernet := connect_with 0 "Ethernet_Init" "Ethernet_Start".
Definition NetInterface_DisconnectEthernet := disconnect_with "Ethernet_Stop" "Ethernet_Deinit".
Definition NetInterface_ConnectWiFi := connect_with 1 "WiFi_Init" "WiFi_Connect".
Definition NetInterface_DisconnectWiFi := disconnect_with "WiFi_Disconnect" "WiFi_Deinit".
Definition NetInterface_ConnectCellular := connect_with 2 "Cellular_Init" "Cellular_Connect".
Definition NetInterface_DisconnectCellular := disconnect_with "Cellular_Disconnect" "Cellular_Deinit".
Definition NetInterface_ConnectCAN := connect_with 3 "CAN_Init" "CAN_Start".
Definition NetInterface_DisconnectCAN := disconnect_with "CAN_Stop" "CAN_Deinit".
(** The status functions write through two pointers; [None] is NULL. *)
Definition get_status (f : string) (pointers : option unit) : M NetworkManager bool :=
  match pointers with None => mret false | Some _ => lock;; result ← platform f; unlock;; mret result end.
Definition NetInterface_GetEthernetStatus := get_status "Ethernet_GetStatus".
Definition NetInterface_GetWiFiStatus := get_status "WiFi_GetStatus".
Definition NetInterface_GetCellularStatus := get_status "Cellular_GetStatus".
Definition NetInterface_GetCANStatus := get_status "CAN_GetStatus".

(** ** net_protocol.c *)

Definition NetProtocol_InitTCP (config : option TCPConfig) : M NetworkManager bool :=
  match config with
  | None => mret false
  | Some c =>
      lock;; modify (fun s => s <| tcp_context := mkTCPContext c 0 0 false |>);; unlock;;
      Logger_Log LOG_LEVEL_INFO;; mret true
  end.
Definition NetProtocol_InitUDP (config : option unit) : M NetworkManager bool :=
  match config with
  | None => mret false
  | Some _ =>
      lock;; modify (fun s => s <| udp_socket_open := false |>);; unlock;; Logger_Log LOG_LEVEL_INFO;; mret true
  end.
Definition NetProtocol_InitCAN (config : option unit) : M NetworkManager bool :=
  match config with
  | None => mret false
  | Some _ =>
      lock;; modify (fun s => s <| can_initialized := false |>);; unlock;; Logger_Log LOG_LEVEL_INFO;; mret true
  end.
Definition NetProtocol_InitMQTT (config : option Z) : M NetworkManager bool :=
  match config with
  | None => mret false
  | Some k =>
      lock;; modify (fun s => s <| mqtt_context := mkMQTTContext k 0 false |>);; unlock;;
      Logger_Log LOG_LEVEL_INFO;; mret true
  end.

Definition set_interface (i : nat) (f : InterfaceContext -> InterfaceContext) : M NetworkManager unit :=
  modify (fun s => s <| interfaces ::= alter f i |>).
Definition interface_at (i : nat) : M NetworkManager InterfaceContext :=
  s ← get; match interfaces s !! i with Some x => mret x | None => fault end.

(** The interface context is slot [i].  The socket operations are a comment in the
    source, and [result] stays [false]. *)
Definition NetProtocol_HandleTCP (i : nat) : M NetworkManager bool :=
  s ← get;
  if negb (tcp_connected (tcp_context s)) then mret false else
  modify (fun s => s <| tcp_context ::= fun t => t <| retry_count ::= fun n => u32 (n + 1) |> |>);;
  s ← get;
  (if max_retries (tcp_config (tcp_context s)) <=? retry_count (tcp_context s) then
     Logger_Log LOG_LEVEL_ERROR;;
     modify (fun s => s <| tcp_context ::= fun t => t <| tcp_connected := false |> |>);;
     set_interface i (fun x => x <| if_state := NET_STATE_DISCONNECTED |>)
   else mret tt);;
  mret false.
Definition NetProtocol_HandleUDP : M NetworkManager bool := s ← get; mret (udp_socket_open s).
Definition NetProtocol_HandleCAN : M NetworkManager bool := s ← get; mret (can_initialized s).
Definition NetProtocol_HandleMQTT : M NetworkManager bool := s ← get; mret (mqtt_connected (mqtt_context s)).
Definition NetProtocol_SendMessage (message : NetMessage) (i : nat) : M NetworkManager bool :=
  match nm_protocol message with
  | NET_PROTO_TCP => NetProtocol_HandleTCP i
  | NET_PROTO_UDP => NetProtocol_HandleUDP
  | NET_PROTO_CAN => NetProtocol_HandleCAN
  | NET_PROTO_MQTT => NetProtocol_HandleMQTT
  end.
Definition NetProtocol_ProcessReceived (i : nat) : M NetworkManager bool :=
  x ← interface_at i;
  s ← get;
  let current_time := clock s in
  (match if_type (if_config x) with
   | NET_IF_ETHERNET | NET_IF_WIFI =>
       let t := tcp_context s in
       if tcp_connected t && use_keepalive (tcp_config t) &&
          (keepalive_interval_ms (tcp_config t) <=? u32 (current_time - last_keepalive t)) then
         NetProtocol_HandleTCP i;;
         modify (fun s => s <| tcp_context ::= fun t => t <| last_keepalive := current_time |> |>)
       else mret tt
   | NET_IF_CELLULAR =>
       let t := mqtt_context s in
       if mqtt_connected t && (keep_alive_interval t * 1000 <=? u32 (current_time - last_ping t)) then
         NetProtocol_HandleMQTT;;
         modify (fun s => s <| mqtt_context ::= fun t => t <| last_ping := current_time |> |>)
       else mret tt
   | _ => mret tt
   end);;
  mret true.

(** ** net_core.c *)

Fixpoint call_slots (e : NetEventType) (cbs : list EventCallback) : M NetworkManager unit :=
  match cbs with
  | [] => mret tt
  | cb :: cbs =>
      callback (cb_active cb && negb (cb_callback cb =? 0)) "callback" [cb_callback cb; Z.of_nat (event_code e); cb_context cb];;
      call_slots e cbs
  end.
Definition trigger_event (e : NetEventType) : M NetworkManager unit :=
  s ← get;
  if negb (initialized s) then mret tt else
  lock;;
  match callbacks s !! event_code e with Some cbs => call_slots e cbs | None => fault end;;
  unlock.

(** The first interface of a type that is in use. *)
Definition of_type (t : NetInterfaceType) (x : InterfaceContext) : bool :=
  if_active x && bool_decide (if_type (if_config x) = t).
Definition find_interface (t : NetInterfaceType) (s : NetworkManager) : option nat :=
  find_idx (of_type t) MAX_INTERFACES (interfaces s).

Definition connect_interface (t : NetInterfaceType) (c : NetInterfaceConfig) : M NetworkManager bool :=
  match t with
  | NET_IF_ETHERNET => NetInterface_ConnectEthernet (interface_config c)
  | NET_IF_WIFI => NetInterface_ConnectWiFi (interface_config c)
  | NET_IF_CELLULAR => NetInterface_ConnectCellular (interface_config c)
  | NET_IF_CAN => NetInterface_ConnectCAN (interface_config c)
  | NET_IF_LOOPBACK => mret false
  end.
Definition disconnect_interface (t : NetInterfaceType) : M NetworkManager bool :=
  match t with
  | NET_IF_ETHERNET => NetInterface_DisconnectEthernet
  | NET_IF_WIFI => NetInterface_DisconnectWiFi
  | NET_IF_CELLULAR => NetInterface_DisconnectCellular
  | NET_IF_CAN => NetInterface_DisconnectCAN
  | NET_IF_LOOPBACK => mret false
  end.
Definition fail_interface (i : nat) : M NetworkManager unit :=
  set_interface i (fun x => x <| if_state := NET_STATE_ERROR |> <| if_stats ::= fun t => t <| errors ::= fun n => u32 (n + 1) |> |>);;
  Logger_Log LOG_LEVEL_ERROR.

Definition Net_Connect (t : NetInterfaceType) : M NetworkManager bool :=
  s ← get;
  if negb (initialized s) then mret false else
  lock;;
  match find_interface t s with
  | None => unlock;; mret false
  | Some i =>
      x ← interface_at i;
      if bool_decide (if_state x = NET_STATE_CONNECTED) then unlock;; mret true else
      success ← connect_interface t (if_config x);
      (if success : bool then
         s ← get;
         set_interface i (fun x => x <| if_state := NET_STATE_CONNECTED |>
           <| if_stats ::= fun t => t <| successful_connections ::= fun n => u32 (n + 1) |> |> <| last_heartbeat := clock s |>);;
         trigger_event NET_EVENT_CONNECTED;;
         Logger_Log LOG_LEVEL_INFO
       else fail_interface i);;
      unlock;;
      mret success
  end.

Definition Net_Disconnect (t : NetInterfaceType) : M NetworkManager bool :=
  s ← get;
  if negb (initialized s) then mret false else
  lock;;
  match find_interface t s with
  | None => unlock;; mret false
  | Some i =>
      x ← interface_at i;
      if negb (bool_decide (if_state x = NET_STATE_CONNECTED)) then unlock;; mret false else
      success ← disconnect_interface t;
      (if success : bool then
         set_interface i (fun x => x <| if_state := NET_STATE_DISCONNECTED |>
           <| if_stats ::= fun t => t <| disconnections ::= fun n => u32 (n + 1) |> |>);;
         trigger_event NET_EVENT_DISCONNECTED;;
         Logger_Log LOG_LEVEL_INFO
       else fail_interface i);;
      unlock;;
      mret success
  end.

Fixpoint disconnect_all (k i : nat) : M NetworkManager unit :=
  match k with
  | O => mret tt
  | S k =>
      x ← interface_at i;
      (if if_active x then Net_Disconnect (if_type (if_config x));; mret tt else mret tt);;
      disconnect_all k (S i)
  end.
Definition Net_Deinit : M NetworkManager unit :=
  s ← get;
  if negb (initialized s) then mret tt else
  disconnect_all MAX_INTERFACES 0;;
  on_rx NetBuffer_Deinit;;
  on_tx NetBuffer_Deinit;;
  Logger_Log LOG_LEVEL_INFO;;
  modify net_clear.
(** [granted_rx], [granted_tx]: what [malloc] returned for the buffers. *)
Definition Net_Init (granted_rx granted_tx : option (list Z)) (config : option NetManagerConfig) : M NetworkManager bool :=
  match config with
  | None => mret false
  | Some c =>
      if (rx_buffer_size c =? 0)%nat || (tx_buffer_size c =? 0)%nat then mret false else
      modify net_clear;;
      modify (fun s => s <| net_config := c |>);;
      rx ← on_rx (NetBuffer_Init granted_rx (rx_buffer_size c));
      ok ← (if rx : bool then on_tx (NetBuffer_Init granted_tx (tx_buffer_size c)) else mret false);
      if negb ok then Net_Deinit;; mret false else
      modify (fun s => s <| initialized := true |>);;
      Logger_Log LOG_LEVEL_INFO;;
      mret true
  end.

Definition Net_AddInterface (config : option NetInterfaceConfig) : M NetworkManager bool :=
  s ← get;
  match config with
  | None => mret false
  | Some c =>
      if negb (initialized s) then mret false else
      lock;;
      match find_idx (fun x => negb (if_active x)) MAX_INTERFACES (interfaces s) with
      | None => unlock;; Logger_Log LOG_LEVEL_ERROR;; mret false
      | Some i =>
          modify (fun s => s <| interfaces ::= <[i := mkInterface c NET_STATE_DISCONNECTED stats_zero 0 true]> |>);;
          Logger_Log LOG_LEVEL_INFO;;
          unlock;;
          mret true
      end
  end.
Definition Net_RemoveInterface (t : NetInterfaceType) : M NetworkManager bool :=
  s ← get;
  if negb (initialized s) then mret false else
  lock;;
  match find_interface t s with
  | None => unlock;; mret false
  | Some i =>
      x ← interface_at i;
      (if bool_decide (if_state x = NET_STATE_CONNECTED) then Net_Disconnect t;; mret tt else mret tt);;
      Logger_Log LOG_LEVEL_INFO;;
      modify (fun s => s <| interfaces ::= <[i := interface_zero]> |>);;
      unlock;;
      mret true
  end.

(** Whether an interface carries a protocol. *)
Definition carries (p : NetProtocolType) (t : NetInterfaceType) : bool :=
  match p, t with
  | NET_PROTO_TCP, NET_IF_ETHERNET | NET_PROTO_TCP, NET_IF_WIFI
  | NET_PROTO_UDP, NET_IF_ETHERNET | NET_PROTO_UDP, NET_IF_WIFI | NET_PROTO_CAN, NET_IF_CAN => true
  | _, _ => false
  end.
Definition is_connected (x : InterfaceContext) : bool := if_active x && bool_decide (if_state x = NET_STATE_CONNECTED).
Definition Net_SendMessage (message : option NetMessage) : M NetworkManager bool :=
  s ← get;
  match message with
  | None => mret false
  | Some message =>
      match nm_data message with
      | None => mret false
      | Some bytes =>
          if negb (initialized s) || (nm_length message =? 0)%nat then mret false else
          lock;;
          match find_idx (fun x => is_connected x && carries (nm_protocol message) (if_type (if_config x)))
                  MAX_INTERFACES (interfaces s) with
          | None => unlock;; mret false
          | Some i =>
              written ← on_tx (NetBuffer_Write (Some bytes) (nm_length message));
              if negb written then unlock;; mret false else
              success ← NetProtocol_SendMessage message i;
              (if success : bool then
                 set_interface i (fun x => x <| if_stats ::= fun t =>
                   t <| bytes_sent ::= fun n => u32 (n + Z.of_nat (nm_length message)) |>
                     <| packets_sent ::= fun n => u32 (n + 1) |> |>);;
                 trigger_event NET_EVENT_DATA_SENT
               else set_interface i (fun x => x <| if_stats ::= fun t => t <| errors ::= fun n => u32 (n + 1) |> |>));;
              unlock;;
              mret success
          end
      end
  end.

(** The caller's message; [None] when the answer is [false]. *)
Definition Net_ReceiveMessage (message : option NetMessage) : M NetworkManager (option NetMessage) :=
  s ← get;
  match message with
  | None => mret None
  | Some message =>
      if negb (initialized s) then mret None else
      lock;;
      let available := NetBuffer_GetAvailable (Some (rx_buffer s)) in
      if (available =? 0)%nat then unlock;; mret None else
      o ← on_rx (NetBuffer_Read (bool_decide (is_Some (nm_data message))) available);
      match o with
      | None => unlock;; mret None
      | Some bytes =>
          s ← get;
          (match find_idx is_connected MAX_INTERFACES (interfaces s) with
           | Some i => set_interface i (fun x => x <| if_stats ::= fun t =>
               t <| bytes_received ::= fun n => u32 (n + Z.of_nat available) |> <| packets_received ::= fun n => u32 (n + 1) |> |>)
           | None => mret tt
           end);;
          trigger_event NET_EVENT_DATA_RECEIVED;;
          unlock;;
          mret (Some (message <| nm_data := Some bytes |> <| nm_length := available |> <| nm_timestamp := clock s |>))
      end
  end.

Definition update_callbacks (e : NetEventType) (f : list EventCallback -> list EventCallback) : M NetworkManager unit :=
  modify (fun s => s <| callbacks ::= alter f (event_code e) |>).
Definition Net_RegisterCallback (e : NetEventType) (cb ctx : Z) : M NetworkManager unit :=
  s ← get;
  if negb (initialized s) || (cb =? 0) then mret tt else
  lock;;
  (match callbacks s !! event_code e with
   | None => fault
   | Some cbs =>
       match find_idx (fun c => negb (cb_active c)) MAX_CALLBACKS_PER_EVENT cbs with
       | Some i => update_callbacks e <[i := mkCallback cb ctx true]>
       | None => mret tt
       end
   end);;
  unlock.
Definition Net_UnregisterCallback (e : NetEventType) (cb : Z) : M NetworkManager unit :=
  s ← get;
  if negb (initialized s) || (cb =? 0) then mret tt else
  lock;;
  (match callbacks s !! event_code e with
   | None => fault
   | Some cbs =>
       match find_idx (fun c => cb_active c && (cb_callback c =? cb)) MAX_CALLBACKS_PER_EVENT cbs with
       | Some i => update_callbacks e <[i := callback_zero]>
       | None => mret tt
       end
   end);;
  unlock.

Definition Net_GetState (t : NetInterfaceType) (s : NetworkManager) : NetConnectionState :=
  if negb (initialized s) then NET_STATE_ERROR else
  match find_interface t s ≫= (interfaces s !!.) with Some x => if_state x | None => NET_STATE_ERROR end.
(** The statistics copied to the caller, [None] when nothing is copied. *)
Definition Net_GetStatistics (t : NetInterfaceType) : M NetworkManager (option NetStatistics) :=
  s ← get;
  if negb (initialized s) then mret None else
  lock;;
  unlock;;
  mret (if_stats <$> (find_interface t s ≫= (interfaces s !!.))).

(** The body of the loop of [Net_Process]; the heartbeat message has no data. *)
Definition process_interface (current_time : Z) (i : nat) : M NetworkManager unit :=
  x ← interface_at i;
  s ← get;
  if negb (if_active x) then mret tt else
  if bool_decide (if_state x = NET_STATE_CONNECTED) then
    (if (0 <? heartbeat_interval_ms (net_config s)) &&
        (heartbeat_interval_ms (net_config s) <=? u32 (current_time - last_heartbeat x)) then
       Net_SendMessage (Some (mkNetMessage 0 None 0 NET_PROTO_TCP 0 0));;
       set_interface i (fun x => x <| last_heartbeat := current_time |>)
     else mret tt);;
    NetProtocol_ProcessReceived i;;
    mret tt
  else if bool_decide (if_state x = NET_STATE_DISCONNECTED) && auto_connect (if_config x) &&
          (reconnect_interval_ms (if_config x) <=? u32 (current_time - last_heartbeat x)) then
    Net_Connect (if_type (if_config x));; mret tt
  else mret tt.
Fixpoint process_all (current_time : Z) (k i : nat) : M NetworkManager unit :=
  match k with O => mret tt | S k => process_interface current_time i;; process_all current_time k (S i) end.
Definition Net_Process : M NetworkManager unit :=
  s ← get;
  if negb (initialized s) then mret tt else
  lock;;
  process_all (clock s) MAX_INTERFACES 0;;
  unlock.

(** ** Calls that return *)

Definition leads {A} (c : M NetworkManager A) (Q : A -> NetworkManager -> Prop) (s : NetworkManager) (m : Machine) : Prop :=
  wlp c (fun a s' _ => Q a s') s m.

Lemma leads_elim {A} (c : M NetworkManager A) Q s m a s' m' : leads c Q s m -> c s m = Some (a, s', m') -> Q a s'.
Proof. unfold leads, wlp. intros Hc E. by rewrite E in Hc. Qed.
Lemma leads_ret {A} (a : A) (Q : A -> NetworkManager -> Prop) s m : Q a s -> leads (mret a) Q s m.
Proof. done. Qed.
Lemma leads_bind {A B} (c : M NetworkManager A) (f : A -> M NetworkManager B) Q s m :
  (forall m0, leads c (fun a s' => forall m', leads (f a) Q s' m') s m0) -> leads (c ≫= f) Q s m.
Proof. intros Hc. apply wlp_bind. eapply wlp_mono; [apply Hc|]. intros a s' m' Hf. apply Hf. Qed.
Lemma leads_mono {A} (c : M NetworkManager A) (Q Q' : A -> NetworkManager -> Prop) s m :
  leads c Q s m -> (forall a s', Q a s' -> Q' a s') -> leads c Q' s m.
Proof. intros Hc HQ. eapply wlp_mono; [apply Hc|]. intros a s' m'. apply HQ. Qed.
Lemma leads_get (Q : NetworkManager -> NetworkManager -> Prop) s m : Q s s -> leads get Q s m.
Proof. done. Qed.
Lemma leads_modify f (Q : unit -> NetworkManager -> Prop) s m : Q tt (f s) -> leads (modify f) Q s m.
Proof. done. Qed.
Lemma leads_fault {A} (Q : A -> NetworkManager -> Prop) s m : leads fault Q s m.
Proof. done. Qed.
Lemma leads_lock (Q : unit -> NetworkManager -> Prop) s m :
  (net_mutex s = false -> Q tt (set_locked true s)) -> leads lock Q s m.
Proof.
  intros HQ. unfold lock. apply leads_bind. intros m0. apply leads_get. intros m'.
  change (locked s) with (net_mutex s). destruct (net_mutex s); [apply leads_fault|by apply leads_modify, HQ].
Qed.
Lemma leads_unlock (Q : unit -> NetworkManager -> Prop) s m : Q tt (set_locked false s) -> leads unlock Q s m.
Proof.
  intros HQ. unfold unlock. apply leads_bind. intros m0. apply leads_get. intros m'.
  destruct (locked s); [by apply leads_modify|apply leads_fault].
Qed.
Lemma leads_log level (Q : unit -> NetworkManager -> Prop) s m : Q tt s -> leads (Logger_Log level) Q s m.
Proof.
  intros HQ. unfold Logger_Log. apply leads_bind. intros m0. apply leads_get. intros m'. destruct (logs _ _); [|by apply leads_ret].
  apply leads_bind. intros m1. apply leads_lock. intros Hl m2. apply leads_unlock.
  change (set_locked false (set_locked true s)) with (s <| net_mutex := true |> <| net_mutex := false |>).
  destruct s. cbn in *. by subst.
Qed.

(** What no call that returns destroys: nothing is connected, no protocol is open and the
    buffers are empty. *)
Record net_idle (s : NetworkManager) : Prop := {
  ni_interfaces : Forall (fun x => if_state x <> NET_STATE_CONNECTED) (interfaces s);
  ni_tcp : tcp_connected (tcp_context s) = false;
  ni_udp : udp_socket_open s = false;
  ni_can : can_initialized s = false;
  ni_mqtt : mqtt_connected (mqtt_context s) = false;
  ni_rx : count (rx_buffer s) = 0%nat }.

Lemma idle_lock b s : net_idle s -> net_idle (set_locked b s).
Proof. by intros []. Qed.
Lemma idle_lookup s i x : net_idle s -> interfaces s !! i = Some x -> if_state x <> NET_STATE_CONNECTED.
Proof. intros [Hf _ _ _ _ _] Hx. exact (proj1 (Forall_lookup _ _) Hf i x Hx). Qed.
Lemma idle_interfaces f s : net_idle s -> Forall (fun x => if_state x <> NET_STATE_CONNECTED) (f (interfaces s)) ->
  net_idle (s <| interfaces ::= f |>).
Proof. by intros []. Qed.

Lemma leads_interface_at i (Q : InterfaceContext -> NetworkManager -> Prop) s m :
  (forall x, interfaces s !! i = Some x -> Q x s) -> leads (interface_at i) Q s m.
Proof.
  intros HQ. unfold interface_at. apply leads_bind. intros m0. apply leads_get. intros m'.
  destruct (interfaces s !! i); [by apply leads_ret, HQ|apply leads_fault].
Qed.

(** With the mutex held no platform function is reached. *)
Lemma connect_held t c (Q : bool -> NetworkManager -> Prop) s m :
  net_mutex s = true -> Q false s -> leads (connect_interface t c) Q s m.
Proof.
  intros Hl HQ. destruct t; [by apply leads_ret|..]; simpl;
    unfold NetInterface_ConnectEthernet, NetInterface_ConnectWiFi, NetInterface_ConnectCellular,
      NetInterface_ConnectCAN, connect_with;
    (destruct (interface_config c); [|by apply leads_ret]); apply leads_bind; intros m0; apply leads_lock; congruence.
Qed.
Lemma fail_idle i (Q : unit -> NetworkManager -> Prop) s m :
  net_idle s -> (forall s', net_idle s' -> Q tt s') -> leads (fail_interface i) Q s m.
Proof.
  intros Hi HQ. unfold fail_interface, set_interface. apply leads_bind. intros m0. apply leads_modify. intros m'.
  apply leads_log, HQ. apply idle_interfaces; [done|]. apply Forall_alter; [apply Hi|]. by intros x _ _.
Qed.

Lemma connect_idle t s m : net_idle s -> leads (Net_Connect t) (fun b s' => b = false /\ net_idle s') s m.
Proof.
  intros Hi. unfold Net_Connect. apply leads_bind. intros m0. apply leads_get. intros m1.
  destruct (initialized s); [|by apply leads_ret]. cbn [negb]. apply leads_bind. intros m2. apply leads_lock. intros Hl m3.
  destruct (find_interface t s) as [i|].
  - apply leads_bind. intros m4. apply leads_interface_at. intros x Hx m5.
    rewrite bool_decide_eq_false_2 by (by apply (idle_lookup (set_locked true s) i); [apply idle_lock|]).
    apply leads_bind. intros m6. apply connect_held; [done|]. intros m7. apply leads_bind. intros m8.
    apply fail_idle; [by apply idle_lock|]. intros s' Hi' m9. apply leads_bind. intros m10. apply leads_unlock. intros m11.
    apply leads_ret. split; [done|by apply idle_lock].
  - apply leads_bind. intros m4. apply leads_unlock. intros m5. apply leads_ret. split; [done|by do 2 apply idle_lock].
Qed.
Lemma disconnect_idle t s m : net_idle s -> leads (Net_Disconnect t) (fun b s' => b = false /\ net_idle s') s m.
Proof.
  intros Hi. unfold Net_Disconnect. apply leads_bind. intros m0. apply leads_get. intros m1.
  destruct (initialized s); [|by apply leads_ret]. cbn [negb]. apply leads_bind. intros m2. apply leads_lock. intros Hl m3.
  destruct (find_interface t s) as [i|].
  - apply leads_bind. intros m4. apply leads_interface_at. intros x Hx m5.
    rewrite bool_decide_eq_false_2 by (by apply (idle_lookup (set_locked true s) i); [apply idle_lock|]). cbn [negb].
    apply leads_bind. intros m6. apply leads_unlock. intros m7. apply leads_ret. split; [done|by do 2 apply idle_lock].
  - apply leads_bind. intros m4. apply leads_unlock. intros m5. apply leads_ret. split; [done|by do 2 apply idle_lock].
Qed.

Ltac leads_step :=
  match goal with
  | |- leads (mbind _ _) _ _ _ => apply leads_bind; let k := fresh "k" in intros k
  | |- forall _ : Machine, leads _ _ _ _ => let k := fresh "k" in intros k
  | |- leads (mret _) _ _ _ => apply leads_ret
  | |- leads fault _ _ _ => apply leads_fault
  | |- leads get _ _ _ => apply leads_get
  | |- leads (modify _) _ _ _ => apply leads_modify
  | |- leads lock _ _ _ => apply leads_lock; intros ?
  | |- leads unlock _ _ _ => apply leads_unlock
  | |- leads (Logger_Log _) _ _ _ => apply leads_log
  | |- leads (interface_at _) _ _ _ => apply leads_interface_at; intros ??
  | |- leads (if ?b then _ else _) _ _ _ => destruct b eqn:?
  | |- leads (match ?b with _ => _ end) _ _ _ => destruct b eqn:?
  end.
(** What is left is an idle state up to the mutex. *)
Ltac idle := repeat match goal with |- _ /\ _ => split end; try done; repeat apply idle_lock; try done.

Lemma disconnect_all_idle k i s m : net_idle s -> leads (disconnect_all k i) (fun _ s' => net_idle s') s m.
Proof.
  revert i s m. induction k as [|k IH]; intros i s m Hi; cbn [disconnect_all]; [by apply leads_ret|].
  do 3 leads_step. leads_step. destruct (if_active x).
  - leads_step. eapply leads_mono; [by apply disconnect_idle|]. intros b s' [_ Hi'] m'. apply leads_ret. intros m2. by apply IH.
  - apply leads_ret. intros m2. by apply IH.
Qed.
(** A buffer operation that leaves no bytes behind. *)
Lemma leads_on_rx {A} (c : M NetCtx A) (Q : A -> NetworkManager -> Prop) s m :
  (forall a b mx m', c (mkNetCtx (Some (rx_buffer s)) (net_mutex s)) m = Some (a, mkNetCtx b mx, m') ->
    Q a (s <| rx_buffer := default (rx_buffer s) b |> <| net_mutex := mx |>)) -> leads (on_rx c) Q s m.
Proof.
  intros HQ. unfold leads, wlp, on_rx, zoom. destruct (c _ m) as [[[a' [b mx]] m1]|] eqn:E; [|done]. by eapply HQ.
Qed.
Lemma leads_on_tx {A} (c : M NetCtx A) (Q : A -> NetworkManager -> Prop) s m :
  (forall a b mx m', c (mkNetCtx (Some (tx_buffer s)) (net_mutex s)) m = Some (a, mkNetCtx b mx, m') ->
    Q a (s <| tx_buffer := default (tx_buffer s) b |> <| net_mutex := mx |>)) -> leads (on_tx c) Q s m.
Proof.
  intros HQ. unfold leads, wlp, on_tx, zoom. destruct (c _ m) as [[[a' [b mx]] m1]|] eqn:E; [|done]. by eapply HQ.
Qed.
Lemma init_buffer_empty g n b mx m a b' mx' m' :
  count b = 0%nat -> NetBuffer_Init g n (mkNetCtx (Some b) mx) m = Some (a, mkNetCtx b' mx', m') ->
  count (default b b') = 0%nat.
Proof.
  intros Hb. unfold NetBuffer_Init. unfold mbind at 1, M_bind at 1. cbn [get nb].
  destruct (n =? 0)%nat; [by intros [= _ <- _ _]|]. destruct g; intros [= _ <- _ _]; by cbn.
Qed.

Lemma clear_idle s : net_idle s -> net_idle (net_clear s).
Proof. intros []. constructor; try done. by apply Forall_replicate. Qed.
Lemma deinit_idle s m : net_idle s -> leads Net_Deinit (fun _ s' => net_idle s') s m.
Proof.
  intros Hi. unfold Net_Deinit. do 3 leads_step. destruct (negb _); [by apply leads_ret|].
  leads_step. eapply leads_mono; [by apply disconnect_all_idle|]. intros [] s1 Hi1 m2. leads_step.
  apply leads_on_rx. intros [] b mx m3 [= <- <- _]. intros m4. leads_step. apply leads_on_tx. intros [] b' mx' m6 _ m7.
  repeat leads_step. apply clear_idle. by destruct Hi1.
Qed.
Lemma init_idle g1 g2 c s m : net_idle s -> leads (Net_Init g1 g2 c) (fun _ s' => net_idle s') s m.
Proof.
  intros Hi. unfold Net_Init. destruct c as [c|]; [|by apply leads_ret]. destruct (_ || _); [by apply leads_ret|].
  do 3 leads_step. do 3 leads_step. leads_step. apply leads_on_rx. intros r b mx m6 Hinit.
  apply init_buffer_empty in Hinit; [|done]. match goal with |- forall m', leads _ _ ?z m' => set (s1 := z) end.
  assert (Hi1 : net_idle s1) by (destruct (clear_idle _ Hi); by constructor). clearbody s1. intros m7. leads_step.
  assert (Hrest : forall (ok : bool) s2, net_idle s2 -> forall m', leads (if negb ok then Net_Deinit;; mret false else
      modify (fun s => s <| initialized := true |>);; Logger_Log LOG_LEVEL_INFO;; mret true) (fun _ s' => net_idle s') s2 m').
  { intros [] s2 Hi2 m'; cbn [negb].
    - repeat leads_step. by destruct Hi2.
    - leads_step. eapply leads_mono; [by apply deinit_idle|]. intros [] s3 Hi3 m3. by apply leads_ret. }
  destruct r.
  - apply leads_on_tx. intros r' b' mx' m9 _. apply Hrest. by destruct Hi1.
  - apply leads_ret. by apply Hrest.
Qed.
Lemma add_idle c s m : net_idle s -> leads (Net_AddInterface c) (fun _ s' => net_idle s') s m.
Proof.
  intros Hi. unfold Net_AddInterface. repeat leads_step; idle.
  apply idle_interfaces; [by apply idle_lock|]. apply Forall_insert; [apply Hi|done].
Qed.
Lemma remove_idle t s m : net_idle s -> leads (Net_RemoveInterface t) (fun _ s' => net_idle s') s m.
Proof.
  intros Hi. unfold Net_RemoveInterface. do 3 leads_step. destruct (negb _); [by apply leads_ret|]. do 3 leads_step.
  destruct (find_interface t s) as [i|]; [|repeat leads_step; idle].
  do 2 leads_step. leads_step. rewrite bool_decide_eq_false_2 by (eapply (idle_lookup (set_locked true s)); [by apply idle_lock|done]).
  repeat leads_step. apply idle_lock. apply (idle_interfaces (<[i := interface_zero]>)); [by apply idle_lock|].
  apply Forall_insert; [apply Hi|done].
Qed.
Lemma none_connected P s : net_idle s -> find_idx (fun x => is_connected x && P x) MAX_INTERFACES (interfaces s) = None.
Proof.
  intros [Hf _ _ _ _ _]. apply find_idx_None. apply Forall_take. eapply Forall_impl; [exact Hf|].
  intros x Hx. unfold is_connected. by rewrite bool_decide_eq_false_2, andb_false_r.
Qed.
Lemma send_idle msg s m : net_idle s -> leads (Net_SendMessage msg) (fun b s' => b = false /\ net_idle s') s m.
Proof.
  intros Hi. unfold Net_SendMessage. do 3 leads_step. destruct msg as [msg|]; [|by apply leads_ret].
  destruct (nm_data msg); [|by apply leads_ret]. destruct (_ || _); [by apply leads_ret|]. do 3 leads_step.
  rewrite none_connected by done. repeat leads_step. idle.
Qed.
Lemma receive_idle msg s m : net_idle s -> leads (Net_ReceiveMessage msg) (fun o s' => o = None /\ net_idle s') s m.
Proof.
  intros Hi. unfold Net_ReceiveMessage. do 3 leads_step. destruct msg as [msg|]; [|by apply leads_ret].
  destruct (negb _); [by apply leads_ret|]. do 3 leads_step. unfold NetBuffer_GetAvailable. rewrite (ni_rx _ Hi).
  cbv zeta. change (0 =? 0)%nat with true. cbv iota. repeat leads_step. idle.
Qed.
Lemma callbacks_idle f s : net_idle s -> net_idle (s <| callbacks ::= f |>).
Proof. by intros []. Qed.
Lemma register_idle e cb ctx s m : net_idle s -> leads (Net_RegisterCallback e cb ctx) (fun _ s' => net_idle s') s m.
Proof. intros Hi. unfold Net_RegisterCallback, update_callbacks. repeat leads_step; idle. apply callbacks_idle. idle. Qed.
Lemma unregister_idle e cb s m : net_idle s -> leads (Net_UnregisterCallback e cb) (fun _ s' => net_idle s') s m.
Proof. intros Hi. unfold Net_UnregisterCallback, update_callbacks. repeat leads_step; idle. apply callbacks_idle. idle. Qed.

Lemma process_interface_idle t i s m : net_idle s -> leads (process_interface t i) (fun _ s' => net_idle s') s m.
Proof.
  intros Hi. unfold process_interface. do 6 leads_step. destruct (negb _); [by apply leads_ret|].
  rewrite bool_decide_eq_false_2 by (by eapply idle_lookup). leads_step; [|by apply leads_ret].
  leads_step. eapply leads_mono; [by apply connect_idle|]. intros b s' [_ Hi'] m'. by apply leads_ret.
Qed.
Lemma process_idle s m : net_idle s -> leads Net_Process (fun _ s' => net_idle s') s m.
Proof.
  intros Hi. unfold Net_Process. do 3 leads_step. destruct (negb _); [by apply leads_ret|]. do 3 leads_step.
  assert (Hall : forall t n i s0 m0, net_idle s0 -> leads (process_all t n i) (fun _ s' => net_idle s') s0 m0).
  { intros t n. induction n as [|n IH]; intros i s0 m0 Hi0; cbn [process_all]; [by apply leads_ret|].
    leads_step. eapply leads_mono; [by apply process_interface_idle|]. intros [] s1 Hi1 m1. by apply IH. }
  leads_step. eapply leads_mono; [apply Hall; by apply idle_lock|]. intros [] s1 Hi1 m1. leads_step. idle.
Qed.

(** ** Runs *)

Inductive NetOp :=
| OpInit (granted_rx granted_tx : option (list Z)) (c : option NetManagerConfig) | OpDeinit
| OpAdd (c : option NetInterfaceConfig) | OpRemove (t : NetInterfaceType)
| OpConnect (t : NetInterfaceType) | OpDisconnect (t : NetInterfaceType)
| OpSend (msg : option NetMessage) | OpReceive (msg : option NetMessage)
| OpRegister (e : NetEventType) (cb ctx : Z) | OpUnregister (e : NetEventType) (cb : Z)
| OpInitTCP (c : option TCPConfig) | OpInitUDP (c : option unit) | OpInitCAN (c : option unit) | OpInitMQTT (c : option Z)
| OpProcess | OpTime (t : Z).
(** The answer: whether a connection was made or ended, or a message sent or received. *)
Definition net_exec (op : NetOp) : M NetworkManager bool :=
  match op with
  | OpInit g1 g2 c => Net_Init g1 g2 c;; mret false
  | OpDeinit => Net_Deinit;; mret false
  | OpAdd c => Net_AddInterface c;; mret false
  | OpRemove t => Net_RemoveInterface t;; mret false
  | OpConnect t => Net_Connect t
  | OpDisconnect t => Net_Disconnect t
  | OpSend msg => Net_SendMessage msg
  | OpReceive msg => o ← Net_ReceiveMessage msg; mret (bool_decide (is_Some o))
  | OpRegister e cb ctx => Net_RegisterCallback e cb ctx;; mret false
  | OpUnregister e cb => Net_UnregisterCallback e cb;; mret false
  | OpInitTCP c => NetProtocol_InitTCP c;; mret false
  | OpInitUDP c => NetProtocol_InitUDP c;; mret false
  | OpInitCAN c => NetProtocol_InitCAN c;; mret false
  | OpInitMQTT c => NetProtocol_InitMQTT c;; mret false
  | OpProcess => Net_Process;; mret false
  | OpTime t => modify (fun s => s <| clock := t |>);; mret false
  end.
Fixpoint net_run (ops : list NetOp) : M NetworkManager (list bool) :=
  match ops with [] => mret [] | op :: ops => b ← net_exec op; bs ← net_run ops; mret (b :: bs) end.

Lemma leads_then {A} (c : M NetworkManager A) (s : NetworkManager) m :
  leads c (fun _ s' => net_idle s') s m -> leads (c;; mret false) (fun b s' => b = false /\ net_idle s') s m.
Proof.
  intros Hc. apply wlp_bind. eapply wlp_mono; [apply Hc|]. intros a s1 m1 Hs. by split.
Qed.
Lemma exec_idle op s m : net_idle s -> leads (net_exec op) (fun b s' => b = false /\ net_idle s') s m.
Proof.
  intros Hi. destruct op; cbn [net_exec].
  - apply leads_then. by apply init_idle.
  - apply leads_then. by apply deinit_idle.
  - apply leads_then. by apply add_idle.
  - apply leads_then. by apply remove_idle.
  - by apply connect_idle.
  - by apply disconnect_idle.
  - by apply send_idle.
  - leads_step. eapply leads_mono; [by apply receive_idle|]. intros o s' [-> Hi'] m'. by apply leads_ret.
  - apply leads_then. by apply register_idle.
  - apply leads_then. by apply unregister_idle.
  - apply leads_then. unfold NetProtocol_InitTCP. repeat leads_step; by destruct Hi.
  - apply leads_then. unfold NetProtocol_InitUDP. repeat leads_step; by destruct Hi.
  - apply leads_then. unfold NetProtocol_InitCAN. repeat leads_step; by destruct Hi.
  - apply leads_then. unfold NetProtocol_InitMQTT. repeat leads_step; by destruct Hi.
  - apply leads_then. by apply process_idle.
  - apply leads_then. repeat leads_step. by destruct Hi.
Qed.

(** ** Properties *)

(** Nothing ever gets through: along every run of calls of the three files that
    return, from a state in which nothing is connected, no call reports a connection or a
    message sent or received, and nothing is connected at the end. *)
Theorem net_never_connects ops s m bs s' m' :
  net_idle s -> net_run ops s m = Some (bs, s', m') ->
  Forall (fun b => b = false) bs /\ net_idle s' /\ forall t, Net_GetState t s' <> NET_STATE_CONNECTED.
Proof.
  intros Hi Hr. assert (H : Forall (fun b => b = false) bs /\ net_idle s').
  { revert s m bs Hi Hr. induction ops as [|op ops IH]; intros s m bs Hi; [by intros [= <- <- _]|].
    cbn [net_run]. unfold mbind, M_bind. destruct (net_exec op s m) as [[[b s1] m1]|] eqn:E1; [|done].
    destruct (net_run ops s1 m1) as [[[bs1 s2] m2]|] eqn:E2; [|done]. intros [= <- <- <-].
    destruct (leads_elim _ _ _ _ _ _ _ (exec_idle op s m Hi) E1) as [-> Hi1]. destruct (IH s1 m1 bs1 Hi1 E2). split; [by constructor|done]. }
  destruct H as [Hb Hi']. split_and!; [done|done|]. intros t. unfold Net_GetState. destruct (negb _); [done|].
  destruct (find_interface t s') as [i|]; [|done]. simpl. destruct (interfaces s' !! i) as [x|] eqn:Hx; [|done].
  by eapply idle_lookup.
Qed.

(** With the mutex held, connecting stops at once. *)
Lemma connect_held_blocks t s m : initialized s = true -> net_mutex s = true -> Net_Connect t s m = None.
Proof.
  intros Hi Hl. unfold Net_Connect. apply undefined_bind, wp_get. rewrite Hi. cbn [negb].
  by apply undefined_bind', lock_held_blocks.
Qed.

(**  Connecting never returns: for an interface of any hardware kind that is configured
    and not connected, [Net_Connect] stops at the mutex it holds itself, before any
    platform function is called; and so does [Net_Process] as soon as such an interface
    is to be reconnected. *)
Theorem net_connect_blocks t i x c s m :
  initialized s = true -> net_mutex s = false -> length (interfaces s) = MAX_INTERFACES -> net_idle s ->
  find_interface t s = Some i -> interfaces s !! i = Some x -> t <> NET_IF_LOOPBACK ->
  interface_config (if_config x) = Some c ->
  Net_Connect t s m = None /\
  (auto_connect (if_config x) = true -> if_state x = NET_STATE_DISCONNECTED ->
   reconnect_interval_ms (if_config x) <= u32 (clock s - last_heartbeat x) -> Net_Process s m = None).
Proof.
  intros Hin Hmx Hlen Hidle Hf Hx Ht Hc. split.
  - unfold Net_Connect. apply undefined_bind, wp_get. rewrite Hin. cbn [negb]. apply undefined_bind, wp_lock_free; [done|].
    rewrite Hf. apply undefined_bind. unfold interface_at. apply wp_bind, wp_get.
    change (interfaces (set_locked true s)) with (interfaces s). rewrite Hx. apply wp_ret.
    rewrite bool_decide_eq_false_2 by (by eapply idle_lookup). apply undefined_bind'.
    destruct t; [done|..]; simpl;
      unfold NetInterface_ConnectEthernet, NetInterface_ConnectWiFi, NetInterface_ConnectCellular,
        NetInterface_ConnectCAN, connect_with; rewrite Hc; by apply undefined_bind', lock_held_blocks.
  - intros Ha Hs Hd. unfold Net_Process. apply undefined_bind, wp_get. rewrite Hin. cbn [negb].
    apply undefined_bind, wp_lock_free; [done|]. apply undefined_bind'.
    set (s1 := set_locked true s). assert (Hi1 : net_idle s1) by (by apply idle_lock).
    assert (Hx1 : interfaces s1 !! i = Some x) by done. assert (Hact : if_active x = true /\ (i < MAX_INTERFACES)%nat).
    { apply find_idx_Some in Hf as (y & Hy & Hlt & Hp & _). rewrite Hx in Hy. injection Hy as <-.
      unfold of_type in Hp. by tests. }
    destruct Hact as [Hact Hlt]. change (clock s) with (clock s1) in *.
    assert (Hdue : forall n j m0, (j <= i < j + n)%nat -> (j + n <= MAX_INTERFACES)%nat -> process_all (clock s1) n j s1 m0 = None).
    { induction n as [|n IH]; intros j m0 Hj Hjn; [lia|]. cbn [process_all].
      destruct (lookup_lt_is_Some_2 (interfaces s1) j) as [y Hy]; [change (length (interfaces s1)) with (length (interfaces s)); lia|].
      assert (Hstep : process_interface (clock s1) j s1 m0 = None \/
        (j <> i /\ process_interface (clock s1) j s1 m0 = Some (tt, s1, m0))).
      { unfold process_interface, interface_at, mbind, M_bind, get, mret, M_ret. rewrite Hy.
        destruct (decide (j = i)) as [->|Hne].
        - left. rewrite Hx1 in Hy. injection Hy as <-. rewrite Hact. cbn [negb].
          rewrite bool_decide_eq_false_2 by (by eapply idle_lookup).
          rewrite bool_decide_eq_true_2 by done. rewrite Ha, (proj2 (Z.leb_le _ _)) by done. cbn [andb].
          by rewrite connect_held_blocks.
        - destruct (negb (if_active y)); [by right|]. rewrite bool_decide_eq_false_2 by (by eapply idle_lookup).
          destruct (_ && _); [left|by right]. by rewrite connect_held_blocks. }
      unfold mbind, M_bind. destruct Hstep as [->|[Hne ->]]; [done|]. apply IH; lia. }
    apply Hdue; unfold MAX_INTERFACES in *; lia.
Qed.

(** ** Callbacks *)

#[export] Instance EventCallback_slot : Slot EventCallback := {| slot_used := cb_active; slot_key := cb_callback |}.
(** The callbacks of an event, in the order of their slots. *)
Definition registered (s : NetworkManager) (e : NetEventType) : list EventCallback :=
  used (default [] (callbacks s !! event_code e)).
Definition slots_ok (cbs : list EventCallback) : Prop :=
  length cbs = MAX_CALLBACKS_PER_EVENT /\ Forall (fun c => cb_active c = negb (cb_callback c =? 0)) cbs.
Record callbacks_wf (s : NetworkManager) : Prop := {
  kw_init : initialized s = true;
  kw_mutex : net_mutex s = false;
  kw_events : length (callbacks s) = 5%nat;
  kw_slots : Forall slots_ok (callbacks s) }.

Lemma event_slots s e : callbacks_wf s -> exists cbs, callbacks s !! event_code e = Some cbs /\ slots_ok cbs.
Proof.
  intros []. destruct (lookup_lt_is_Some_2 (callbacks s) (event_code e)) as [cbs Hc]; [destruct e; cbn; lia|].
  exists cbs. split; [done|]. exact (proj1 (Forall_lookup _ _) kw_slots0 _ _ Hc).
Qed.
Lemma event_code_inj e e' : event_code e = event_code e' -> e = e'.
Proof. by destruct e, e'. Qed.

(** One slot of an event's array is overwritten. *)
Lemma slot_written s e cbs i x c :
  callbacks_wf s -> callbacks s !! event_code e = Some cbs -> slots_ok cbs -> cbs !! i = Some x ->
  cb_active c = negb (cb_callback c =? 0) ->
  let s' := s <| callbacks ::= alter <[i := c]> (event_code e) |> in
  callbacks_wf s' /\ (forall e', e' <> e -> registered s' e' = registered s e') /\
  registered s e ++ (if cb_active c then [c] else []) ≡ₚ (if cb_active x then [x] else []) ++ registered s' e.
Proof.
  intros [] Hc [Hl Hs] Hx Hca s'. split_and!.
  - constructor; try done; cbn [callbacks s' setf]; [by rewrite length_alter|].
    apply Forall_alter; [done|]. intros l Hl' [H1 H2]. split; [by rewrite length_insert|]. by apply Forall_insert.
  - intros e' Hne. unfold registered, s'. cbn [callbacks setf]. rewrite list_lookup_alter_ne; [done|].
    intros Heq. by apply event_code_inj in Heq.
  - unfold registered, s'. cbn [callbacks setf]. rewrite list_lookup_alter_eq, Hc. cbn [fmap option_fmap option_map default].
    exact (used_insert cbs i c x Hx).
Qed.

(** Whether there is a free slot. *)
Lemma free_callback_slot cbs : length cbs = MAX_CALLBACKS_PER_EVENT ->
  match find_idx (fun c => negb (cb_active c)) MAX_CALLBACKS_PER_EVENT cbs with
  | Some i => exists x, cbs !! i = Some x /\ cb_active x = false
  | None => length (used cbs) = MAX_CALLBACKS_PER_EVENT
  end.
Proof.
  intros Hl. destruct (find_idx _ _ _) as [i|] eqn:E.
  - apply find_idx_Some in E as (x & Hx & _ & Ha & _). tests. eauto.
  - apply find_idx_None in E. rewrite take_ge in E by lia. rewrite <- Hl. unfold used.
    clear Hl. induction E as [|x l Hx Hl IH]; [done|]. tests. rewrite filter_cons_True by done. cbn [length]. by rewrite IH.
Qed.
Lemma length_used_free (cbs : list EventCallback) i x : cbs !! i = Some x -> cb_active x = false -> (length (used cbs) < length cbs)%nat.
Proof.
  intros Hx Ha. rewrite <- (take_drop_middle cbs i x Hx). unfold used.
  rewrite filter_app, filter_cons_False by (by simpl; rewrite Ha). rewrite !length_app. cbn [length].
  pose proof (length_filter (fun x => slot_used x = true) (take i cbs)).
  pose proof (length_filter (fun x => slot_used x = true) (drop (S i) cbs)). lia.
Qed.

Lemma wp_relock (Q : unit -> NetworkManager -> Machine -> Prop) s f m :
  net_mutex s = false -> Q tt (s <| callbacks ::= f |>) m ->
  wp unlock Q ((set_locked true s) <| callbacks ::= f |>) m.
Proof. intros Hl HQ. apply wp_unlock_held; [done|]. destruct s. cbn in *. by subst. Qed.

Lemma call_slots_spec e cbs s m :
  Forall (fun c => cb_active c = negb (cb_callback c =? 0)) cbs ->
  wp (call_slots e cbs) (fun _ s' m' => s' = s /\ trace m' = trace m ++
    ((fun c => call "callback" [cb_callback c; Z.of_nat (event_code e); cb_context c]) <$> used cbs)) s m.
Proof.
  intros Hf. revert m. induction Hf as [|c cbs Hc Hf IH]; intros m; cbn [call_slots].
  - apply wp_ret. by rewrite app_nil_r.
  - apply wp_bind, wp_callback. eapply wp_mono; [apply IH|]. intros [] s' m' [-> ->]. split; [done|].
    cbn [trace setf]. unfold used. rewrite filter_cons. change (slot_used c) with (cb_active c).
    rewrite <- Hc, andb_diag. destruct (cb_active c).
    + rewrite decide_True by done. rewrite fmap_cons, <- app_assoc. done.
    + rewrite decide_False by done. by rewrite app_nil_r.
Qed.

(**  The callbacks of each event are a bag of at most eight: registering adds one while
    there is room, unregistering takes one with that function out, neither touches the
    other events; and an event calls exactly the registered ones, each with its context. *)
Theorem net_callbacks_exact e cb ctx s m :
  callbacks_wf s -> cb <> 0 ->
  wp (Net_RegisterCallback e cb ctx) (fun _ s' m' => m' = m /\ callbacks_wf s' /\
    (forall e', e' <> e -> registered s' e' = registered s e') /\
    registered s' e ≡ₚ if (length (registered s e) <? MAX_CALLBACKS_PER_EVENT)%nat
                       then mkCallback cb ctx true :: registered s e else registered s e) s m /\
  wp (Net_UnregisterCallback e cb) (fun _ s' m' => m' = m /\ callbacks_wf s' /\
    (forall e', e' <> e -> registered s' e' = registered s e') /\
    ((Forall (fun c => cb_callback c <> cb) (registered s e) /\ registered s' e = registered s e) \/
     exists c, cb_callback c = cb /\ registered s e ≡ₚ c :: registered s' e)) s m /\
  wp (trigger_event e) (fun _ s' m' => s' = s /\ trace m' = trace m ++
    ((fun c => call "callback" [cb_callback c; Z.of_nat (event_code e); cb_context c]) <$> registered s e)) s m.
Proof.
  intros Hw Hcb. pose proof Hw as []. destruct (event_slots s e Hw) as (cbs & Hc & Hok). pose proof Hok as [Hl Hs].
  assert (Hreg : registered s e = used cbs) by (unfold registered; by rewrite Hc).
  assert (Hnz : (cb =? 0) = false) by (by apply Z.eqb_neq).
  assert (Hsame : forall P : NetworkManager -> Prop, P s -> P (set_locked false (set_locked true s))).
  { intros P HP. destruct s. cbn in *. by subst. }
  split_and!.
  - unfold Net_RegisterCallback, update_callbacks. apply wp_bind, wp_get. rewrite kw_init0, Hnz. cbn [negb orb].
    apply wp_bind, wp_lock_free; [done|]. rewrite Hc. pose proof (free_callback_slot cbs Hl) as Hfree. rewrite Hreg.
    destruct (find_idx _ _ _) as [i|].
    + destruct Hfree as (x & Hx & Ha). apply wp_bind, wp_modify, wp_relock; [done|].
      destruct (slot_written s e cbs i x (mkCallback cb ctx true)) as (Hw' & Ho & Hp); [done..|cbn; by rewrite Hnz|].
      split_and!; [done..|]. rewrite Ha in Hp. cbn [cb_active app] in Hp.
      pose proof (length_used_free cbs i x Hx Ha). rewrite (proj2 (Nat.ltb_lt _ _)) by lia.
      rewrite <- Hp, Hreg. symmetry. apply Permutation_cons_append.
    + apply wp_bind, wp_ret, wp_unlock_held; [done|]. rewrite Hfree, Nat.ltb_irrefl.
      apply Hsame. split_and!; [done..|by rewrite Hreg].
  - unfold Net_UnregisterCallback, update_callbacks. apply wp_bind, wp_get. rewrite kw_init0, Hnz. cbn [negb orb].
    apply wp_bind, wp_lock_free; [done|]. rewrite Hc. destruct (find_idx _ _ _) as [i|] eqn:E.
    + apply find_idx_Some in E as (x & Hx & _ & Ha & _). tests. apply wp_bind, wp_modify, wp_relock; [done|].
      destruct (slot_written s e cbs i x callback_zero) as (Hw' & Ho & Hp); [done..|].
      split_and!; [done..|]. right. exists x. split; [done|]. rewrite H in Hp. cbn [cb_active callback_zero app] in Hp.
      by rewrite app_nil_r in Hp.
    + apply find_idx_None in E. rewrite take_ge in E by lia. apply wp_bind, wp_ret, wp_unlock_held; [done|].
      apply Hsame. split_and!; [done..|]. left. split; [|done]. rewrite Hreg. apply Forall_forall. intros c Hin Hk.
      apply list_elem_of_filter in Hin as [Hu Hin]. rewrite Forall_forall in E. specialize (E c Hin).
      change (slot_used c) with (cb_active c) in Hu. by rewrite Hu, Hk, Z.eqb_refl in E.
  - unfold trigger_event. apply wp_bind, wp_get. rewrite kw_init0. cbn [negb]. apply wp_bind, wp_lock_free; [done|].
    rewrite Hc. apply wp_bind. eapply wp_mono; [by apply call_slots_spec|]. intros [] s' m' [-> Ht].
    apply wp_unlock_held; [done|]. rewrite Hreg. split; [by apply Hsame|done].
Qed.
End net.

(** ** Examples *)

Definition example_interface : InterfaceContext :=
  mkInterface (mkIfConfig NET_IF_ETHERNET "eth0" "" 0 true 500 0 (Some 1)) NET_STATE_DISCONNECTED stats_zero 0 true.
Definition example_net : NetworkManager :=
  mkNet (mkNetConfig 8 8 64 64 true true 1000)
    (example_interface :: replicate 7 interface_zero)
    (replicate 5 (replicate MAX_CALLBACKS_PER_EVENT callback_zero)) buffer_zero buffer_zero true
    (mkTCPContext (mkTCP false 0 0) 0 0 false) false false (mkMQTTContext 0 0 false) (replicate 4 0) false None 1000.
Lemma example_net_idle : net_idle example_net.
Proof. constructor; try done. by repeat constructor. Qed.

(** Witness of [net_never_connects]: an interface is added, a message refused. *)
Definition example_calls : list NetOp :=
  [OpAdd (Some (mkIfConfig NET_IF_CAN "can0" "" 0 false 0 0 (Some 2)));
   OpSend (Some (mkNetMessage 1 (Some [1; 2]) 2 NET_PROTO_CAN 0 0)); OpReceive None].
Lemma net_never_connects_witness :
  match net_run (fun _ => true) example_calls example_net boot with
  | Some (bs, s', _) => Forall (fun b => b = false) bs /\ Net_GetState NET_IF_CAN s' <> NET_STATE_CONNECTED
  | None => False
  end.
Proof.
  destruct (net_run (fun _ => true) example_calls example_net boot) as [[[bs s'] m']|] eqn:E.
  - destruct (net_never_connects (fun _ => true) example_calls example_net boot bs s' m' example_net_idle E) as (Hb & _ & Hs).
    split; [exact Hb|apply Hs].
  - vm_compute in E. discriminate E.
Defined.
(** Witness of [net_connect_blocks]: the platform would have connected. *)
Lemma net_connect_blocks_witness :
  Net_Connect (fun _ => true) NET_IF_ETHERNET example_net boot = None /\ Net_Process (fun _ => true) example_net boot = None.
Proof.
  destruct (net_connect_blocks (fun _ => true) NET_IF_ETHERNET 0 example_interface 1 example_net boot) as [H1 H2];
    [done|done|done|apply example_net_idle|by vm_compute|done|done|done|].
  split; [exact H1|]. apply H2; [done|done|vm_compute; discriminate].
Defined.
(** Witness of [net_callbacks_exact]. *)
Lemma net_callbacks_exact_witness :
  wp (Net_RegisterCallback NET_EVENT_ERROR 5 9) (fun _ s' m' => m' = boot /\ callbacks_wf s' /\
    (forall e', e' <> NET_EVENT_ERROR -> registered s' e' = registered example_net e') /\
    registered s' NET_EVENT_ERROR ≡ₚ if (length (registered example_net NET_EVENT_ERROR) <? MAX_CALLBACKS_PER_EVENT)%nat
      then mkCallback 5 9 true :: registered example_net NET_EVENT_ERROR else registered example_net NET_EVENT_ERROR)
    example_net boot.
Proof.
  apply (net_callbacks_exact NET_EVENT_ERROR 5 9 example_net boot); [|done].
  constructor; try done. repeat constructor.
Defined.
