(* ===== verification/DiagTransport.v ===== *)
(** * Transport layer of the UDS handler

    [src/runtime/diagnostic/diag_transport.c]: segmentation and reassembly of requests and
    responses above the UDS handler of [UdsHandler.v], whose statics the state holds.  A
    received frame is the list of its bytes.  The frames that are sent are built in local
    arrays and dropped, the platform call being commented out. *)

From S2P Require Import Prelude Memory Machine UdsTypes UdsHandler.

Definition MAX_TRANSPORT_BUFFER_SIZE : Z := 4096.
Definition MAX_CONSECUTIVE_FRAME_TIMEOUT : Z := 1000.
Definition MAX_FLOW_CONTROL_TIMEOUT : Z := 1000.

Inductive TransportState :=
| TP_STATE_IDLE | TP_STATE_RECEIVING_MULTI_FRAME | TP_STATE_SENDING_MULTI_FRAME
| TP_STATE_WAITING_FLOW_CONTROL | TP_STATE_SENDING_FLOW_CONTROL.
#[export] Instance TransportState_eq_dec : EqDecision TransportState.
Proof. solve_decision. Defined.

Definition TP_FRAME_SINGLE : Z := 0x00.
Definition TP_FRAME_FIRST : Z := 0x01.
Definition TP_FRAME_CONSECUTIVE : Z := 0x02.
Definition TP_FRAME_FLOW_CONTROL : Z := 0x03.

Definition FLOW_STATUS_CONTINUE : Z := 0x00.
Definition FLOW_STATUS_WAIT : Z := 0x01.
Definition FLOW_STATUS_OVERFLOW : Z := 0x02.

Definition TP_ERROR_NONE : Z := 0.
Definition TP_ERROR_TIMEOUT : Z := 1.
Definition TP_ERROR_SEQUENCE : Z := 2.
Definition TP_ERROR_OVERFLOW : Z := 3.
Definition TP_ERROR_INVALID_FRAME : Z := 4.
Definition TP_ERROR_BUSY : Z := 5.

Inductive DiagTransportType :=
| DIAG_TRANSPORT_CAN | DIAG_TRANSPORT_ETHERNET | DIAG_TRANSPORT_K_LINE | DIAG_TRANSPORT_FLEXRAY.

Record DiagTransportConfig := mkTpConfig {
  tp_type : DiagTransportType; rx_id : Z; tx_id : Z; timeout_ms : Z; block_size : Z; stmin_ms : Z;
  transport_error_callback : bool }.
Definition tp_config_zero : DiagTransportConfig := mkTpConfig DIAG_TRANSPORT_CAN 0 0 0 0 0 false.

Record RxState := mkRx {
  rx_state : TransportState; rx_buffer : list Z; rx_index : Z; expected_length : Z;
  rx_sequence : Z; rx_block_counter : Z; rx_timeout_timer : Timer; rx_stmin_timer : Timer;
  initialized : bool; last_error : Z }.
#[export] Instance eta_RxState : Eta RxState := fun r =>
  mkRx (rx_state r) (rx_buffer r) (rx_index r) (expected_length r) (rx_sequence r) (rx_block_counter r)
    (rx_timeout_timer r) (rx_stmin_timer r) (initialized r) (last_error r).
Record TxState := mkTx {
  tx_state : TransportState; tx_buffer : list Z; tx_length : Z; tx_index : Z;
  tx_sequence : Z; tx_block_counter : Z; tx_timeout_timer : Timer; tx_stmin_timer : Timer }.
#[export] Instance eta_TxState : Eta TxState := fun t =>
  mkTx (tx_state t) (tx_buffer t) (tx_length t) (tx_index t) (tx_sequence t) (tx_block_counter t)
    (tx_timeout_timer t) (tx_stmin_timer t).

Definition buffer_zero : list Z := replicate (Z.to_nat MAX_TRANSPORT_BUFFER_SIZE) 0.
Definition rx_zero : RxState := mkRx TP_STATE_IDLE buffer_zero 0 0 0 0 timer_zero timer_zero false 0.
Definition tx_zero : TxState := mkTx TP_STATE_IDLE buffer_zero 0 0 0 0 timer_zero timer_zero.

(** [uds_handler] is the statics of [uds_handler.c]. *)
Record DiagTransport := mkTransport {
  tp_config : DiagTransportConfig; rx : RxState; tx : TxState; tp_critical : CriticalSection;
  uds_handler : UdsCtx }.
#[export] Instance eta_DiagTransport : Eta DiagTransport := fun t =>
  mkTransport (tp_config t) (rx t) (tx t) (tp_critical t) (uds_handler t).
#[export, refine] Instance DiagTransport_critical : HasCritical DiagTransport :=
  {| crit t := tp_critical t; set_crit k t := t <| tp_critical := k |> |}.
Proof. all: by intros; destruct s. Defined.

#[global] Arguments buffer_zero : simpl never.

Definition set_rx (f : RxState -> RxState) : M DiagTransport unit := modify (fun t => t <| rx ::= f |>).
Definition set_tx (f : TxState -> TxState) : M DiagTransport unit := modify (fun t => t <| tx ::= f |>).
Definition on_handler {A} : M UdsCtx A -> M DiagTransport A :=
  zoom uds_handler (fun c t => t <| uds_handler := c |>).

Definition reset_rx_state : M DiagTransport unit :=
  set_rx (fun r => r <| rx_state := TP_STATE_IDLE |> <| rx_index := 0 |> <| expected_length := 0 |>
    <| rx_sequence := 0 |> <| rx_block_counter := 0 |> <| last_error := TP_ERROR_NONE |>).
Definition reset_tx_state : M DiagTransport unit :=
  set_tx (fun t => t <| tx_state := TP_STATE_IDLE |> <| tx_length := 0 |> <| tx_index := 0 |>
    <| tx_sequence := 0 |> <| tx_block_counter := 0 |>).

(** [memcpy] of [n] bytes behind offset [i] of a buffer: the bytes read. *)
Definition bytes_of (data : list Z) (i n : Z) : M DiagTransport (list Z) :=
  if Z.of_nat (length data) <? i + n then fault else mret (take (Z.to_nat n) (drop (Z.to_nat i) data)).
Definition byte_of (data : list Z) (i : nat) : M DiagTransport Z :=
  match data !! i with Some b => mret b | None => fault end.
(** Writing [bytes] at offset [i] of the receive buffer. *)
Definition store_rx (i : Z) (bytes : list Z) : M DiagTransport unit :=
  t ← get;
  let b := rx_buffer (rx t) in
  if Z.of_nat (length b) <? i + Z.of_nat (length bytes) then fault else
  set_rx (fun r => r <| rx_buffer :=
    take (Z.to_nat i) b ++ bytes ++ drop (Z.to_nat i + length bytes) b |>).

Definition send_single_frame (data : list Z) (len : Z) : M DiagTransport bool :=
  if 7 <? len then mret false else
  bytes ← bytes_of data 0 len;
  let frame := Z.lor (Z.shiftl TP_FRAME_SINGLE 4) len :: bytes in
  mret true.
Definition send_first_frame (data : list Z) (total_length : Z) : M DiagTransport bool :=
  bytes ← bytes_of data 0 6;
  let frame := Z.lor (Z.shiftl TP_FRAME_FIRST 4) (Z.land (Z.shiftr total_length 8) 0x0F) ::
    Z.land total_length 0xFF :: bytes in
  mret true.
Definition send_flow_control (status : Z) : M DiagTransport bool :=
  t ← get;
  let frame := [Z.lor (Z.shiftl TP_FRAME_FLOW_CONTROL 4) status; u8 (block_size (tp_config t));
    u8 (stmin_ms (tp_config t))] ++ replicate 5 0xFF in
  mret true.
(** No function calls it. *)
Definition send_consecutive_frame (data : list Z) (len : Z) : M DiagTransport bool :=
  t ← get;
  bytes ← bytes_of data 0 len;
  if 7 <? len then fault else
  let frame := Z.lor (Z.shiftl TP_FRAME_CONSECUTIVE 4) (Z.land (tx_sequence (tx t)) 0x0F) :: bytes in
  mret true.

Definition start_rx_timeout : M DiagTransport unit :=
  start (fun t => rx_timeout_timer (rx t))
    (fun k t => t <| rx ::= fun r => r <| rx_timeout_timer := k |> |>) MAX_CONSECUTIVE_FRAME_TIMEOUT.
Definition start_tx_timeout : M DiagTransport unit :=
  start (fun t => tx_timeout_timer (tx t))
    (fun k t => t <| tx ::= fun r => r <| tx_timeout_timer := k |> |>) MAX_FLOW_CONTROL_TIMEOUT.
Definition start_tx_stmin (ms : Z) : M DiagTransport unit :=
  start (fun t => tx_stmin_timer (tx t))
    (fun k t => t <| tx ::= fun r => r <| tx_stmin_timer := k |> |>) ms.

Definition Diag_Transport_Init (SystemCoreClock : Z) (config : option DiagTransportConfig) : M DiagTransport bool :=
  match config with
  | None => mret false
  | Some config =>
      enter;;
      modify (fun t => t <| tp_config := config |>);;
      reset_rx_state;;
      reset_tx_state;;
      timer_init_m SystemCoreClock;;
      init_crit;;
      set_rx (fun r => r <| initialized := true |>);;
      exit;;
      mret true
  end.
Definition Diag_Transport_DeInit : M DiagTransport unit :=
  enter;;
  modify (fun t => mkTransport tp_config_zero rx_zero tx_zero cs_zero (uds_handler t));;
  exit.

(** [data] is the bytes behind the pointer, of which [len] are sent. *)
Definition Diag_Transport_SendResponse (data : option (list Z)) (len : Z) : M DiagTransport bool :=
  t ← get;
  match data with
  | None => mret false
  | Some data =>
      if negb (initialized (rx t)) || (len =? 0) then mret false else
      enter;;
      if negb (bool_decide (tx_state (tx t) = TP_STATE_IDLE)) then
        set_rx (fun r => r <| last_error := TP_ERROR_BUSY |>);;
        exit;;
        mret false
      else if len <=? 7 then
        result ← send_single_frame data len;
        exit;;
        mret result
      else
      bytes ← bytes_of data 0 len;
      if Z.of_nat (length (tx_buffer (tx t))) <? len then fault else
      set_tx (fun t => t <| tx_buffer ::= fun b => bytes ++ drop (length bytes) b |>
        <| tx_length := len |> <| tx_index := 6 |> <| tx_sequence := 1 |>
        <| tx_state := TP_STATE_SENDING_MULTI_FRAME |>);;
      result ← send_first_frame data len;
      (if result : bool then
         start_tx_timeout;;
         set_tx (fun t => t <| tx_state := TP_STATE_WAITING_FLOW_CONTROL |>)
       else mret tt);;
      exit;;
      mret result
  end.

(** [UdsMessage x = {0}]: the [data] pointer is NULL. *)
Definition message_zero : UdsMessage := mkUdsMessage 0 0 None 0.
(** [memcpy(request.data, bytes)]. *)
Definition fill_data (request : UdsMessage) (bytes : list Z) : M DiagTransport UdsMessage :=
  match msg_data request with
  | None => fault
  | Some d =>
      if (length d <? length bytes)%nat then fault else
      mret (request <| msg_data := Some (bytes ++ drop (length bytes) d) |>)
  end.
(** The request is handed to the UDS handler and answered. *)
Definition process_message (SystemCoreClock entropy : Z) (bytes : list Z) : M DiagTransport unit :=
  request ← fill_data message_zero bytes;
  let request := request <| msg_length := Z.of_nat (length bytes) |> in
  r ← on_handler (UDS_Handler_ProcessRequest SystemCoreClock entropy (Some request) (Some message_zero));
  (if r.1 =? UDS_RESPONSE_POSITIVE
   then let response := default message_zero r.2 in
        Diag_Transport_SendResponse (msg_data response) (msg_length response);; mret tt
   else on_handler (UDS_Handler_SendNegativeResponse (service_id request) r.1);; mret tt).

Definition single_frame (clk ent : Z) (data : list Z) : M DiagTransport unit :=
  b0 ← byte_of data 0;
  let data_length := Z.land b0 0x0F in
  if (0 <? data_length) && (data_length <=? 7) then
    bytes ← bytes_of data 1 data_length;
    process_message clk ent bytes
  else mret tt.

Definition first_frame (data : list Z) : M DiagTransport unit :=
  b0 ← byte_of data 0;
  b1 ← byte_of data 1;
  let total_length := Z.lor (Z.shiftl (Z.land b0 0x0F) 8) b1 in
  if MAX_TRANSPORT_BUFFER_SIZE <? total_length then
    send_flow_control FLOW_STATUS_OVERFLOW;;
    set_rx (fun r => r <| last_error := TP_ERROR_OVERFLOW |>);;
    reset_rx_state
  else
    bytes ← bytes_of data 2 6;
    store_rx 0 bytes;;
    set_rx (fun r => r <| rx_index := 6 |> <| expected_length := total_length |>
      <| rx_sequence := 1 |> <| rx_state := TP_STATE_RECEIVING_MULTI_FRAME |>);;
    send_flow_control FLOW_STATUS_CONTINUE;;
    start_rx_timeout.

Definition sequence_error : M DiagTransport unit :=
  set_rx (fun r => r <| last_error := TP_ERROR_SEQUENCE |>);; reset_rx_state.

Definition consecutive_frame (clk ent : Z) (data : list Z) : M DiagTransport unit :=
  t ← get;
  if negb (bool_decide (rx_state (rx t) = TP_STATE_RECEIVING_MULTI_FRAME)) then sequence_error else
  b0 ← byte_of data 0;
  let sequence := Z.land b0 0x0F in
  if negb (sequence =? rx_sequence (rx t)) then sequence_error else
  let remaining := u16 (expected_length (rx t) - rx_index (rx t)) in
  let copy_length := if 7 <? remaining then 7 else remaining in
  bytes ← bytes_of data 1 copy_length;
  store_rx (rx_index (rx t)) bytes;;
  set_rx (fun r => r <| rx_index ::= fun i => u16 (i + copy_length) |>);;
  t ← get;
  if expected_length (rx t) <=? rx_index (rx t) then
    bytes ← bytes_of (rx_buffer (rx t)) 0 (expected_length (rx t));
    process_message clk ent bytes;;
    reset_rx_state
  else
    set_rx (fun r => r <| rx_sequence ::= fun n => Z.land (n + 1) 0x0F |>
      <| rx_block_counter ::= fun n => u8 (n + 1) |>);;
    t ← get;
    (if block_size (tp_config t) <=? rx_block_counter (rx t) then
       set_rx (fun r => r <| rx_block_counter := 0 |>);;
       send_flow_control FLOW_STATUS_CONTINUE;; mret tt
     else mret tt);;
    start_rx_timeout.

Definition flow_control (data : list Z) : M DiagTransport unit :=
  t ← get;
  if negb (bool_decide (tx_state (tx t) = TP_STATE_WAITING_FLOW_CONTROL)) then mret tt else
  b0 ← byte_of data 0;
  let status := Z.land b0 0x0F in
  _ ← byte_of data 1;
  stmin ← byte_of data 2;
  if status =? FLOW_STATUS_CONTINUE then
    set_tx (fun t => t <| tx_state := TP_STATE_SENDING_MULTI_FRAME |>);;
    start_tx_stmin stmin
  else if status =? FLOW_STATUS_WAIT then start_tx_timeout
  else if status =? FLOW_STATUS_OVERFLOW then
    set_rx (fun r => r <| last_error := TP_ERROR_OVERFLOW |>);;
    reset_tx_state
  else mret tt.

Definition Diag_Transport_ProcessReceived (clk ent : Z) (data : option (list Z)) : M DiagTransport unit :=
  t ← get;
  match data with
  | None => mret tt
  | Some data =>
      if negb (initialized (rx t)) || (length data =? 0)%nat then mret tt else
      enter;;
      b0 ← byte_of data 0;
      let frame_type := Z.land (Z.shiftr b0 4) 0x0F in
      (if frame_type =? TP_FRAME_SINGLE then single_frame clk ent data
       else if frame_type =? TP_FRAME_FIRST then first_frame data
       else if frame_type =? TP_FRAME_CONSECUTIVE then consecutive_frame clk ent data
       else if frame_type =? TP_FRAME_FLOW_CONTROL then flow_control data
       else mret tt);;
      exit
  end.

Definition Diag_Transport_IsBusy (t : DiagTransport) : bool := negb (bool_decide (tx_state (tx t) = TP_STATE_IDLE)).
Definition Diag_Transport_AbortTransmission : M DiagTransport unit := enter;; reset_tx_state;; exit.
Definition Diag_Transport_GetLastError (t : DiagTransport) : Z := last_error (rx t).

(** ** Specification

    What is seen of the transport: the reception in progress (the bytes so far, the
    announced length and the sequence number expected next), the state of the
    transmission and the last error.  [None] is undefined behaviour. *)

Record TpView := mkView { v_rx : option (list Z * Z * Z); v_tx : TransportState; v_error : Z }.
#[export] Instance eta_TpView : Eta TpView := fun v => mkView (v_rx v) (v_tx v) (v_error v).

Definition view (t : DiagTransport) : TpView :=
  mkView (if bool_decide (rx_state (rx t) = TP_STATE_RECEIVING_MULTI_FRAME)
          then Some (take (Z.to_nat (rx_index (rx t))) (rx_buffer (rx t)), expected_length (rx t), rx_sequence (rx t))
          else None)
    (tx_state (tx t)) (last_error (rx t)).

(** A consecutive frame with the sequence number [low]. *)
Definition consecutive_next (low : Z) (f : list Z) (v : TpView) : option TpView :=
  match v_rx v with
  | Some (bytes, total, seq) =>
      if low =? seq then
        if total <=? Z.of_nat (length bytes) + 7 then None
        else Some (v <| v_rx := Some (bytes ++ take 7 (drop 1 f), total, (seq + 1) mod 16) |>)
      else Some (v <| v_rx := None |> <| v_error := TP_ERROR_NONE |>)
  | None => Some (v <| v_error := TP_ERROR_NONE |>)
  end.
Definition flow_next (low : Z) (v : TpView) : TpView :=
  if bool_decide (v_tx v = TP_STATE_WAITING_FLOW_CONTROL) then
    if low =? 0 then v <| v_tx := TP_STATE_SENDING_MULTI_FRAME |>
    else if low =? 2 then v <| v_tx := TP_STATE_IDLE |> <| v_error := TP_ERROR_OVERFLOW |>
    else v
  else v.
Definition frame_next (f : list Z) (v : TpView) : option TpView :=
  match f with
  | b0 :: b1 :: _ =>
      let low := b0 mod 16 in
      match b0 / 16 with
      | 0 => if (1 <=? low) && (low <=? 7) then None else Some v
      | 1 => Some (v <| v_rx := Some (take 6 (drop 2 f), low * 256 + b1, 1) |>)
      | 2 => consecutive_next low f v
      | 3 => Some (flow_next low v)
      | _ => Some v
      end
  | _ => None
  end.

Inductive TpOp := Frame (f : list Z) | Respond (data : list Z) | Abort | Wait (n : nat).
Definition tp_exec (clk ent : Z) (op : TpOp) : M DiagTransport bool :=
  match op with
  | Frame f => Diag_Transport_ProcessReceived clk ent (Some f);; mret true
  | Respond data => Diag_Transport_SendResponse (Some data) (Z.of_nat (length data))
  | Abort => Diag_Transport_AbortTransmission;; mret true
  | Wait n => on_machine (fun m => (tt, Nat.iter n SysTick_Handler m));; mret true
  end.
Definition tp_next (op : TpOp) (v : TpView) : option (bool * TpView) :=
  match op with
  | Frame f => v' ← frame_next f v; Some (true, v')
  | Respond data =>
      let len := Z.of_nat (length data) in
      if len =? 0 then Some (false, v)
      else if negb (bool_decide (v_tx v = TP_STATE_IDLE)) then Some (false, v <| v_error := TP_ERROR_BUSY |>)
      else if len <=? 7 then Some (true, v)
      else if len <=? MAX_TRANSPORT_BUFFER_SIZE then Some (true, v <| v_tx := TP_STATE_WAITING_FLOW_CONTROL |>)
      else None
  | Abort => Some (true, v <| v_tx := TP_STATE_IDLE |>)
  | Wait _ => Some (true, v)
  end.
Fixpoint tp_run (clk ent : Z) (ops : list TpOp) : M DiagTransport (list bool) :=
  match ops with
  | [] => mret []
  | op :: ops => b ← tp_exec clk ent op; bs ← tp_run clk ent ops; mret (b :: bs)
  end.
Fixpoint tp_nexts (ops : list TpOp) (v : TpView) : option (list bool * TpView) :=
  match ops with
  | [] => Some ([], v)
  | op :: ops => '(b, v) ← tp_next op v; '(bs, v) ← tp_nexts ops v; Some (b :: bs, v)
  end.

(** Frames have the eight bytes of a CAN frame, responses a 16-bit length. *)
Definition op_fits (op : TpOp) : Prop :=
  match op with
  | Frame f => length f = 8%nat /\ Forall is_u8 f
  | Respond data => is_u16 (Z.of_nat (length data))
  | _ => True
  end.

(** ** Invariant *)

Record tp_wf (t : DiagTransport) : Prop := {
  tw_init : initialized (rx t) = true;
  tw_rx : Z.of_nat (length (rx_buffer (rx t))) = MAX_TRANSPORT_BUFFER_SIZE;
  tw_tx : Z.of_nat (length (tx_buffer (tx t))) = MAX_TRANSPORT_BUFFER_SIZE;
  tw_receiving : rx_state (rx t) = TP_STATE_RECEIVING_MULTI_FRAME ->
    0 <= expected_length (rx t) < 4096 /\ 6 <= rx_index (rx t) /\
    (rx_index (rx t) = 6 \/ rx_index (rx t) < expected_length (rx t)) /\ 0 <= rx_sequence (rx t) < 16 }.

(** The state up to the critical section. *)
Definition tp_eq (c : CriticalSection) (t t' : DiagTransport) : Prop := t' = set_crit c t.

Lemma wf_crit c t : tp_wf t -> tp_wf (set_crit c t).
Proof. by destruct 1. Qed.
Lemma wp_bytes_of data i n (Q : list Z -> DiagTransport -> Machine -> Prop) t m :
  i + n <= Z.of_nat (length data) -> Q (take (Z.to_nat n) (drop (Z.to_nat i) data)) t m ->
  wp (bytes_of data i n) Q t m.
Proof. intros Hn HQ. unfold bytes_of. by rewrite (proj2 (Z.ltb_ge _ _)). Qed.
Lemma wp_store_rx i bytes (Q : unit -> DiagTransport -> Machine -> Prop) t m :
  i + Z.of_nat (length bytes) <= Z.of_nat (length (rx_buffer (rx t))) ->
  Q tt (t <| rx ::= fun r => r <| rx_buffer := take (Z.to_nat i) (rx_buffer (rx t)) ++ bytes ++
          drop (Z.to_nat i + length bytes) (rx_buffer (rx t)) |> |>) m ->
  wp (store_rx i bytes) Q t m.
Proof. intros Hn HQ. unfold store_rx. apply wp_bind, wp_get. by rewrite (proj2 (Z.ltb_ge _ _)). Qed.
Lemma wp_start_timer f p d (Q : unit -> DiagTransport -> Machine -> Prop) t m :
  (forall k, Q tt (p k t) (settle m)) -> wp (start f p d) Q t m.
Proof. intros HQ. by apply wp_start. Qed.

(** ** Every call follows the specification *)

Definition tp_post (t : DiagTransport) (m : Machine) (b : bool) (v : TpView)
    (b' : bool) (t' : DiagTransport) (m' : Machine) : Prop :=
  b' = b /\ view t' = v /\ tp_wf t' /\ uds_handler t' = uds_handler t /\ primask m' = primask m.

(** The body of [Diag_Transport_ProcessReceived] between entering and leaving. *)
Definition body_ok (t : DiagTransport) (c : CriticalSection) (v : TpView) (t' : DiagTransport) (m' : Machine) : Prop :=
  view t' = v /\ tp_wf t' /\ uds_handler t' = uds_handler t /\ crit t' = c /\ primask m' = true.

Lemma fill_undefined bytes t m : fill_data message_zero bytes t m = None.
Proof. done. Qed.
Lemma process_undefined clk ent bytes t m : process_message clk ent bytes t m = None.
Proof. done. Qed.

(** A computation that does what [r] says: undefined when [r] is [None]. *)
Definition follows {A R} (c : M DiagTransport A) (r : option R) (Q : R -> A -> DiagTransport -> Machine -> Prop)
    (t : DiagTransport) (m : Machine) : Prop :=
  match r with Some x => wp c (Q x) t m | None => c t m = None end.

Lemma follows_bind {A B R} (c : M DiagTransport A) (f : A -> M DiagTransport B) (r : option R) Q t m :
  wp c (fun a t' m' => follows (f a) r Q t' m') t m -> follows (c ≫= f) r Q t m.
Proof. destruct r; simpl; [apply wp_bind|apply undefined_bind]. Qed.
Lemma follows_then {A B R R'} (c : M DiagTransport A) (f : A -> M DiagTransport B) (r : option R)
    (g : R -> option R') Q Q' t m :
  follows c r Q t m -> (forall x a t' m', Q x a t' m' -> follows (f a) (g x) Q' t' m') ->
  follows (c ≫= f) (r ≫= g) Q' t m.
Proof.
  destruct r as [x|]; simpl; intros Hc Hf.
  - apply follows_bind. eapply wp_mono; [exact Hc|]. intros; by eapply Hf.
  - by apply undefined_bind'.
Qed.

(** How many bytes of a consecutive frame are taken. *)
Lemma copy_bounds e i : 0 <= e < 4096 -> 6 <= i -> i = 6 \/ i < e ->
  let r := u16 (e - i) in let n := if 7 <? r then 7 else r in
  0 <= n <= 7 /\ i + n <= 4096 /\ (e <=? i + n) = (e <=? i + 7) /\ ((e <=? i + 7) = false -> n = 7).
Proof.
  intros He Hi Hlt r. assert (Hr : i <= e /\ r = e - i \/ e < i /\ i = 6 /\ 7 < r).
  { unfold r, u16. destruct (decide (i <= e)); [left|right].
    - by rewrite Z.mod_small by lia.
    - rewrite <- (Z.mod_add _ 1), Z.mod_small by lia. lia. }
  cbv zeta. destruct (7 <? r) eqn:E; tests;
    (split_and!; [lia|lia|lia|apply eq_true_iff_eq; rewrite !Z.leb_le; lia|intros ?; tests; lia]).
Qed.
Lemma length_splice (i : nat) (bytes b : list Z) : (i + length bytes <= length b)%nat ->
  length (take i b ++ bytes ++ drop (i + length bytes) b) = length b.
Proof. intros. rewrite !length_app, length_take, length_drop. lia. Qed.
Lemma take_splice (i : nat) (bytes b : list Z) : (i + length bytes <= length b)%nat ->
  take (i + length bytes) (take i b ++ bytes ++ drop (i + length bytes) b) = take i b ++ bytes.
Proof. intros. rewrite app_assoc. apply take_app_length'. rewrite length_app, length_take. lia. Qed.
Lemma view_receiving t bytes : rx_state (rx t) = TP_STATE_RECEIVING_MULTI_FRAME ->
  take (Z.to_nat (rx_index (rx t))) (rx_buffer (rx t)) = bytes ->
  view t = mkView (Some (bytes, expected_length (rx t), rx_sequence (rx t))) (tx_state (tx t)) (last_error (rx t)).
Proof. unfold view. by intros -> ->. Qed.

Section frames.
Context (clk ent : Z) (b0 b1 : Z) (rest : list Z).
Hypothesis Hlen : length (b0 :: b1 :: rest) = 8%nat.
Hypothesis Hbytes : Forall is_u8 (b0 :: b1 :: rest).
Implicit Types (t : DiagTransport) (m : Machine).
Let fr := b0 :: b1 :: rest.

Lemma b0_range : is_u8 b0. Proof. by inversion Hbytes. Qed.
Lemma b1_range : is_u8 b1. Proof. inversion Hbytes as [|? ? ? H]; by inversion H. Qed.
Lemma low_range : 0 <= b0 mod 16 < 16. Proof. by apply Z.mod_pos_bound. Qed.

Lemma single_ok c v t m : body_ok t c v t m ->
  follows (single_frame clk ent fr) (if (1 <=? b0 mod 16) && (b0 mod 16 <=? 7) then None else Some v)
    (fun v _ => body_ok t c v) t m.
Proof.
  intros Hb. unfold single_frame. apply follows_bind. apply wp_ret. cbv zeta.
  rewrite low_half. replace (0 <? b0 mod 16) with (1 <=? b0 mod 16) by
    (apply eq_true_iff_eq; rewrite Z.ltb_lt, Z.leb_le; lia).
  destruct ((1 <=? b0 mod 16) && (b0 mod 16 <=? 7)) eqn:E; [|done]. tests.
  apply follows_bind, wp_bytes_of; [unfold fr; rewrite Hlen; lia|]. done.
Qed.

Lemma first_ok c t m : body_ok t c (view t) t m ->
  wp (first_frame fr) (fun _ => body_ok t c
    ((view t) <| v_rx := Some (take 6 (drop 2 fr), b0 mod 16 * 256 + b1, 1) |>)) t m.
Proof.
  intros (_ & [Hi Hrx Htx _] & _ & Hc & Hm). unfold first_frame. apply wp_bind, wp_ret, wp_bind, wp_ret.
  cbv zeta. pose proof low_range as Hl. pose proof b1_range as Hb1. unfold is_u8 in Hb1.
  rewrite low_half, lor_shift_add by lia. change (2 ^ 8) with 256 in *.
  rewrite (proj2 (Z.ltb_ge _ _)) by (unfold MAX_TRANSPORT_BUFFER_SIZE; lia).
  assert (Hn : length (take 6 (drop 2 fr)) = 6%nat).
  { unfold fr. rewrite length_take, length_drop, Hlen. lia. }
  apply wp_bind, wp_bytes_of; [unfold fr; rewrite Hlen; lia|].
  change (Z.to_nat 6) with 6%nat. change (Z.to_nat 2) with 2%nat.
  apply wp_bind, wp_store_rx; [rewrite Hn, Hrx; unfold MAX_TRANSPORT_BUFFER_SIZE; lia|].
  apply wp_bind, wp_modify, wp_bind. unfold send_flow_control. apply wp_bind, wp_get. cbv zeta.
  apply wp_ret, wp_start_timer. intros k. split_and!; [|constructor|done|done|done]; try done.
  - rewrite (view_receiving _ (take 6 (drop 2 fr))); [done..|]. rewrite take_0, app_nil_l.
    by apply take_app_length'.
  - etransitivity; [|exact Hrx]. f_equal. apply length_splice. rewrite Hn. unfold MAX_TRANSPORT_BUFFER_SIZE in *. lia.
  - cbn. intros _. lia.
Qed.

Lemma sequence_error_ok c t m : body_ok t c (view t) t m ->
  wp sequence_error (fun _ => body_ok t c ((view t) <| v_rx := None |> <| v_error := TP_ERROR_NONE |>)) t m.
Proof.
  intros (_ & [Hi Hrx Htx _] & _ & Hc & Hm). unfold sequence_error, reset_rx_state, set_rx. wp_steps.
  split_and!; [done|constructor|done|done|done]; done.
Qed.

Lemma consecutive_ok c t m : body_ok t c (view t) t m ->
  follows (consecutive_frame clk ent fr) (consecutive_next (b0 mod 16) fr (view t)) (fun v _ => body_ok t c v) t m.
Proof.
  intros Hb. pose proof Hb as (_ & Hwf & _ & Hc & Hm). unfold consecutive_frame. apply follows_bind, wp_get.
  destruct (decide (rx_state (rx t) = TP_STATE_RECEIVING_MULTI_FRAME)) as [Hr|Hr]; last first.
  { rewrite bool_decide_false by done. unfold consecutive_next.
    replace (v_rx (view t)) with (@None (list Z * Z * Z)) by (unfold view; by rewrite bool_decide_false by done).
    cbn [negb follows]. eapply wp_mono; [by apply sequence_error_ok|]. intros [] t' m' (Hv & H'). split; [|done].
    rewrite Hv. unfold view. by rewrite bool_decide_false by done. }
  rewrite bool_decide_true by done. cbn [negb]. destruct (tw_receiving t Hwf Hr) as (He & Hi & Hlt & Hs).
  pose proof (view_receiving t _ Hr eq_refl) as Hv. rewrite Hv. unfold consecutive_next. cbn [v_rx].
  apply follows_bind, wp_ret. cbv zeta. rewrite low_half.
  destruct (b0 mod 16 =? rx_sequence (rx t)) eqn:Eq; cbn [negb]; last first.
  { cbn [follows]. eapply wp_mono; [by apply sequence_error_ok|]. intros [] t' m'. by rewrite Hv. }
  pose proof (tw_rx t Hwf) as Hrx. unfold MAX_TRANSPORT_BUFFER_SIZE in Hrx.
  set (i := Z.to_nat (rx_index (rx t))). set (b := rx_buffer (rx t)) in *.
  assert (Hti : length (take i b) = i) by (rewrite length_take; unfold i; lia). rewrite Hti.
  pose proof (copy_bounds _ _ He Hi Hlt) as Hn. cbv zeta in Hn. revert Hn.
  set (n := if 7 <? _ then 7 else _). intros Hn.
  assert (Hzi : Z.of_nat i = rx_index (rx t)) by (unfold i; lia). rewrite <- Hzi in Hn.
  destruct Hn as (Hn & Hin & Hen & Hn7). set (bytes := take (Z.to_nat n) (drop (Z.to_nat 1) fr)).
  assert (Hbn : length bytes = Z.to_nat n) by (unfold bytes, fr; rewrite length_take, length_drop, Hlen; lia).
  apply follows_bind, wp_bytes_of; [unfold fr; rewrite Hlen; lia|]. fold bytes.
  assert (Hfit : (i + length bytes <= length b)%nat) by lia.
  apply follows_bind, wp_store_rx; [fold b; lia|]. fold b i.
  set (b' := take i b ++ bytes ++ drop (i + length bytes) b).
  apply follows_bind, wp_modify, follows_bind, wp_get.
  set (t1 := _ <| rx ::= _ |>).
  assert (Hidx : rx_index (rx t1) = Z.of_nat i + n).
  { change (rx_index (rx t1)) with (u16 (rx_index (rx t) + n)). rewrite u16_small by (unfold is_u16; lia). lia. }
  change (expected_length (rx t1)) with (expected_length (rx t)). rewrite Hidx, Hen.
  destruct (expected_length (rx t) <=? Z.of_nat i + 7) eqn:E; tests.
  { cbn [follows]. apply undefined_bind, wp_bytes_of; [|done].
    change (rx_buffer (rx t1)) with b'. unfold b'. rewrite length_splice by done. lia. }
  assert (Hb7 : bytes = take 7 (drop 1 fr)) by (unfold bytes; by rewrite (Hn7 eq_refl)).
  cbn [follows]. rewrite (Hn7 eq_refl) in *. apply wp_bind, wp_modify, wp_bind, wp_get.
  set (t2 := t1 <| rx ::= _ |>).
  assert (Hgo : forall k r, body_ok t c
      (mkView (Some (take i b ++ take 7 (drop 1 fr), expected_length (rx t), (rx_sequence (rx t) + 1) mod 16))
         (tx_state (tx t)) (last_error (rx t)))
      (t2 <| rx ::= fun x => x <| rx_block_counter := r |> <| rx_timeout_timer := k |> |>) m).
  { intros k r. split_and!; [|constructor|done|done|done]; try done.
    - rewrite <- (low_half (rx_sequence (rx t) + 1)), <- Hb7.
      set (t3 := t2 <| rx ::= _ |>). refine (eq_trans (view_receiving t3 (take i b ++ bytes) Hr _) eq_refl).
      change (take (Z.to_nat (rx_index (rx t1))) b' = take i b ++ bytes). rewrite Hidx.
      replace (Z.to_nat (Z.of_nat i + 7)) with (i + length bytes)%nat by lia. by apply take_splice.
    - by apply Hwf.
    - change (Z.of_nat (length b') = MAX_TRANSPORT_BUFFER_SIZE). unfold b'. by rewrite length_splice.
    - by apply Hwf.
    - intros _. change (rx_index (rx _)) with (rx_index (rx t1)). rewrite Hidx.
      change (expected_length (rx _)) with (expected_length (rx t)).
      change (rx_sequence (rx _)) with (Z.land (rx_sequence (rx t) + 1) 0x0F). rewrite low_half.
      pose proof (Z.mod_pos_bound (rx_sequence (rx t) + 1) 16). lia. }
  assert (Hgo' : forall r, wp start_rx_timeout (fun _ => body_ok t c
      (mkView (Some (take i b ++ take 7 (drop 1 fr), expected_length (rx t), (rx_sequence (rx t) + 1) mod 16))
         (tx_state (tx t)) (last_error (rx t)))) (t2 <| rx ::= fun x => x <| rx_block_counter := r |> |>) m).
  { intros r. apply wp_start_timer. intros k. apply Hgo. }
  destruct (block_size _ <=? _).
  - apply wp_bind, wp_bind, wp_modify, wp_bind. apply wp_bind, wp_get, wp_ret, wp_ret. apply Hgo'.
  - apply wp_bind, wp_ret. apply (Hgo' (rx_block_counter (rx t2))).
Qed.

Lemma flow_ok c t m : body_ok t c (view t) t m ->
  wp (flow_control fr) (fun _ => body_ok t c (flow_next (b0 mod 16) (view t))) t m.
Proof.
  intros Hb. pose proof Hb as (_ & Hwf & _ & Hc & Hm). unfold flow_control, flow_next. apply wp_bind, wp_get.
  change (v_tx (view t)) with (tx_state (tx t)).
  destruct (bool_decide _) eqn:Ew; cbn [negb]; [|by apply wp_ret].
  assert (exists b2 rest', rest = b2 :: rest') as (b2 & rest' & ->).
  { destruct rest; [done|]. by eexists _, _. }
  apply wp_bind, wp_ret. cbv zeta. apply wp_bind, wp_ret, wp_bind, wp_ret. rewrite low_half.
  change FLOW_STATUS_CONTINUE with 0. change FLOW_STATUS_WAIT with 1. change FLOW_STATUS_OVERFLOW with 2.
  destruct (b0 mod 16 =? 0); [|destruct (b0 mod 16 =? 1) eqn:E1; [|destruct (b0 mod 16 =? 2)]].
  - apply wp_bind, wp_modify, wp_start_timer. intros k.
    split_and!; [done|constructor; by apply Hwf|done|done|done].
  - apply Z.eqb_eq in E1 as ->. apply wp_start_timer. intros k.
    split_and!; [done|constructor; by apply Hwf|done|done|done].
  - apply wp_bind, wp_modify, wp_modify. split_and!; [done|constructor; by apply Hwf|done|done|done].
  - by apply wp_ret.
Qed.
End frames.

Lemma frame_ok clk ent f t m : tp_wf t -> length f = 8%nat -> Forall is_u8 f ->
  follows (Diag_Transport_ProcessReceived clk ent (Some f)) (frame_next f (view t))
    (fun v _ => tp_post t m true v true) t m.
Proof.
  intros Hwf Hl Hf. destruct f as [|b0 [|b1 rest]]; [done..|]. unfold Diag_Transport_ProcessReceived.
  apply follows_bind, wp_get. rewrite (tw_init t Hwf). change (length (b0 :: b1 :: rest) =? 0)%nat with false.
  cbn [negb orb]. apply follows_bind, wp_enter.
  set (c := mkCS (Z.b2z (primask m)) true). set (t1 := set_crit c t). set (m1 := m <| primask := true |>).
  assert (Hb : body_ok t1 c (view t1) t1 m1).
  { split_and!; [done|by apply wf_crit|done|done|done]. }
  apply follows_bind, wp_ret. cbv zeta. assert (Hb0 : is_u8 b0) by by inversion Hf. rewrite high_half by done.
  replace (frame_next _ _) with (v ← frame_next (b0 :: b1 :: rest) (view t); Some v) by by destruct (frame_next _ _).
  apply (follows_then _ _ _ _ (fun v _ => body_ok t1 c v)).
  - change TP_FRAME_SINGLE with 0. change TP_FRAME_FIRST with 1. change TP_FRAME_CONSECUTIVE with 2.
    change TP_FRAME_FLOW_CONTROL with 3. unfold frame_next. change (view t) with (view t1).
    assert (Hd : 0 <= b0 / 16 < 16).
    { unfold is_u8 in Hb0. split; [apply Z.div_pos|apply Z.div_lt_upper_bound]; lia. }
    destruct (b0 / 16 =? 0) eqn:E0; [apply Z.eqb_eq in E0 as ->; by apply single_ok|].
    destruct (b0 / 16 =? 1) eqn:E1; [apply Z.eqb_eq in E1 as ->; by apply first_ok|].
    destruct (b0 / 16 =? 2) eqn:E2; [apply Z.eqb_eq in E2 as ->; by apply consecutive_ok|].
    destruct (b0 / 16 =? 3) eqn:E3; [apply Z.eqb_eq in E3 as ->; by apply flow_ok|]. tests.
    destruct (b0 / 16) as [|[[]|[]|]|]; try lia; by apply wp_ret.
  - intros v [] t' m' (Hv & Hw & Hu & Hc & Hm). eapply wp_exit; [exact Hc|done|].
    split_and!; [done|by rewrite <- Hv|by apply wf_crit|done|done].
Qed.

Lemma respond_ok data t m : tp_wf t -> is_u16 (Z.of_nat (length data)) ->
  follows (Diag_Transport_SendResponse (Some data) (Z.of_nat (length data))) (tp_next (Respond data) (view t))
    (fun r => tp_post t m r.1 r.2) t m.
Proof.
  intros Hwf Hl. unfold Diag_Transport_SendResponse. apply follows_bind, wp_get. rewrite (tw_init t Hwf).
  unfold tp_next. cbv zeta. change (v_tx (view t)) with (tx_state (tx t)). cbn [negb orb].
  destruct (Z.of_nat (length data) =? 0) eqn:E0; [by apply wp_ret|]. tests.
  apply follows_bind, wp_enter. set (t1 := set_crit _ t).
  destruct (bool_decide (tx_state (tx t) = TP_STATE_IDLE)) eqn:Ei; cbn [negb]; last first.
  { cbn [follows]. apply wp_bind, wp_modify, wp_bind.
    eapply wp_exit; [reflexivity|done|]. apply wp_ret. split_and!; [done..| |done|done].
    destruct Hwf. by constructor. }
  destruct (Z.of_nat (length data) <=? 7) eqn:E7; tests.
  { cbn [follows]. apply wp_bind. unfold send_single_frame. rewrite (proj2 (Z.ltb_ge _ _)) by lia.
    apply wp_bind, wp_bytes_of; [lia|]. cbv zeta. apply wp_ret, wp_bind.
    eapply wp_exit; [reflexivity|done|]. apply wp_ret. split_and!; [done..| |done|done]. by do 2 apply wf_crit. }
  apply follows_bind, wp_bytes_of; [lia|]. change (Z.to_nat 0) with 0%nat. rewrite drop_0, firstn_all2 by lia.
  change (tx_buffer (tx t1)) with (tx_buffer (tx t)). pose proof (tw_tx t Hwf) as Htx. rewrite Htx.
  destruct (Z.of_nat (length data) <=? MAX_TRANSPORT_BUFFER_SIZE) eqn:Ef; tests; last first.
  { by rewrite (proj2 (Z.ltb_lt _ _)) by done. }
  rewrite (proj2 (Z.ltb_ge _ _)) by done. cbn [follows]. apply wp_bind, wp_modify, wp_bind.
  unfold send_first_frame. apply wp_bind, wp_bytes_of; [lia|]. cbv zeta. apply wp_ret, wp_bind, wp_bind.
  apply wp_start_timer. intros k. apply wp_modify, wp_bind. eapply wp_exit; [reflexivity|done|]. apply wp_ret.
  split_and!; [done..| |done|done]. destruct Hwf as [Hi Hrx _ Hr]. constructor; [done|done| |done].
  etransitivity; [|exact Htx]. change (Z.of_nat (length (data ++ drop (length data) (tx_buffer (tx t)))) =
    Z.of_nat (length (tx_buffer (tx t)))). rewrite length_app, length_drop. lia.
Qed.

Lemma exec_ok clk ent op t m : tp_wf t -> op_fits op ->
  follows (tp_exec clk ent op) (tp_next op (view t)) (fun r => tp_post t m r.1 r.2) t m.
Proof.
  intros Hwf Hop. destruct op as [f|data| |n].
  - destruct Hop as [Hl Hf]. change (tp_next (Frame f) (view t)) with (v' ← frame_next f (view t); Some (true, v')).
    eapply follows_then; [by apply frame_ok|]. intros v [] t' m' (_ & Hp). by apply wp_ret.
  - by apply respond_ok.
  - cbn [follows tp_next]. apply wp_bind. unfold Diag_Transport_AbortTransmission, reset_tx_state, set_tx.
    apply wp_bind, wp_enter, wp_bind, wp_modify. eapply wp_exit; [reflexivity|done|]. apply wp_ret.
    split_and!; [done..| |done|done]. destruct Hwf. by constructor.
  - cbn [follows tp_next]. apply wp_bind. unfold wp at 1, on_machine. apply wp_ret.
    split_and!; [done|done|done|done|apply ticks_primask].
Qed.

Lemma run_ok clk ent ops : forall t m, tp_wf t -> Forall op_fits ops ->
  follows (tp_run clk ent ops) (tp_nexts ops (view t)) (fun r bs t' m' =>
    bs = r.1 /\ view t' = r.2 /\ tp_wf t' /\ uds_handler t' = uds_handler t /\ primask m' = primask m) t m.
Proof.
  induction ops as [|op ops IH]; intros t m Hwf Hops; [done|]. inversion Hops as [|? ? Hop Hops']; subst.
  change (tp_nexts (op :: ops) (view t)) with
    ('(b, v) ← tp_next op (view t); '(bs, v) ← tp_nexts ops v; Some (b :: bs, v)).
  change (tp_run clk ent (op :: ops)) with (b ← tp_exec clk ent op; bs ← tp_run clk ent ops; mret (b :: bs)).
  eapply follows_then; [by apply exec_ok|]. intros [b v] b' t1 m1 (Hb & Hv1 & Hw1 & Hu1 & Hm1). cbn [fst snd] in Hb, Hv1. subst b' v.
  eapply follows_then; [by apply IH|]. intros [bs v] bs' t2 m2 (-> & Hv & Hw2 & Hu2 & Hm2).
  apply wp_ret. cbn [fst snd] in *. split_and!; [done..|congruence|congruence].
Qed.

(** ** Requests

    The frames of a request as a tester sends them, padded to eight bytes. *)

Definition pad8 (l : list Z) : list Z := l ++ replicate (8 - length l) 0xCC.
Fixpoint cf_frames (k : nat) (seq : Z) (bytes : list Z) : list (list Z) :=
  match k with
  | O => []
  | S k => pad8 (0x20 + seq :: take 7 bytes) :: cf_frames k ((seq + 1) mod 16) (drop 7 bytes)
  end.
Definition segment (msg : list Z) : list (list Z) :=
  let n := Z.of_nat (length msg) in
  if n <=? 7 then [pad8 (n :: msg)]
  else (0x10 + n / 256 :: n mod 256 :: take 6 msg) :: cf_frames (length msg / 7) 1 (drop 6 msg).

Lemma pad8_fits l : (length l <= 8)%nat -> Forall is_u8 l -> op_fits (Frame (pad8 l)).
Proof.
  intros Hl Hb. split; unfold pad8.
  - rewrite length_app, length_replicate. lia.
  - apply Forall_app. split; [done|]. by apply Forall_replicate.
Qed.
Lemma cf_fits k : forall seq bytes, 0 <= seq < 16 -> Forall is_u8 bytes ->
  Forall op_fits (Frame <$> cf_frames k seq bytes).
Proof.
  induction k as [|k IH]; intros seq bytes Hs Hb; [constructor|]. cbn [cf_frames fmap list_fmap]. constructor.
  - apply pad8_fits.
    + cbn [length]. rewrite length_take. lia.
    + constructor; [unfold is_u8; lia|by apply Forall_take].
  - apply IH; [by apply Z.mod_pos_bound|by apply Forall_drop].
Qed.

Lemma nexts_frame f fs v v1 bs v' : frame_next f v = Some v1 -> tp_nexts (Frame <$> fs) v1 = Some (bs, v') ->
  tp_nexts (Frame <$> f :: fs) v = Some (true :: bs, v').
Proof. rewrite fmap_cons. cbn [tp_nexts tp_next mbind option_bind]. intros ->. cbn. by intros ->. Qed.

(** Consecutive frames up to the one that completes the message. *)
Lemma cf_complete k : forall seq rest v bytes total,
  v_rx v = Some (bytes, total, seq) -> 0 <= seq < 16 ->
  Z.of_nat (length bytes + 7 * k) < total <= Z.of_nat (length bytes + 7 * k) + 7 ->
  exists fs f bs v', cf_frames (S k) seq rest = fs ++ [f] /\
    tp_nexts (Frame <$> fs) v = Some (bs, v') /\ frame_next f v' = None.
Proof.
  assert (Hnext : forall seq rest v, 0 <= seq < 16 ->
    frame_next (pad8 (0x20 + seq :: take 7 rest)) v =
      consecutive_next seq (pad8 (0x20 + seq :: take 7 rest)) v).
  { intros seq rest v Hs. set (f := pad8 _). assert (Hl : length f = 8%nat).
    { unfold f, pad8. rewrite length_app, length_replicate. cbn [length]. rewrite length_take. lia. }
    assert (Hf : exists tl, f = 0x20 + seq :: tl) by by eexists. destruct Hf as [tl Hf]. rewrite Hf in *.
    destruct tl as [|b1 tl]; [done|]. cbn [frame_next].
    replace ((32 + seq) / 16) with 2 by (apply Z.div_unique with seq; lia).
    by replace ((32 + seq) mod 16) with seq by (apply Z.mod_unique with 2; lia). }
  induction k as [|k IH]; intros seq rest v bytes total Hv Hs Ht.
  - exists [], (pad8 (0x20 + seq :: take 7 rest)), [], v. split_and!; [done|done|]. rewrite Hnext by done.
    unfold consecutive_next. rewrite Hv, Z.eqb_refl, (proj2 (Z.leb_le _ _)) by lia. done.
  - set (f := pad8 (0x20 + seq :: take 7 rest)). set (v1 := v <| v_rx := Some (bytes ++ take 7 (drop 1 f), total, (seq + 1) mod 16) |>).
    assert (Hv1 : frame_next f v = Some v1).
    { unfold f. rewrite Hnext by done. fold f. unfold consecutive_next.
      by rewrite Hv, Z.eqb_refl, (proj2 (Z.leb_gt _ _)) by lia. }
    assert (Hl : length (take 7 (drop 1 f)) = 7%nat).
    { unfold f, pad8. rewrite length_take, length_drop, length_app, length_replicate. cbn [length].
      rewrite length_take. lia. }
    destruct (IH ((seq + 1) mod 16) (drop 7 rest) v1 (bytes ++ take 7 (drop 1 f)) total) as (fs & g & bs & v' & E1 & E2 & E3);
      [done|by apply Z.mod_pos_bound|rewrite length_app, Hl; lia|].
    exists (f :: fs), g, (true :: bs), v'. split_and!; [|by eapply nexts_frame|done].
    change (cf_frames (S (S k)) seq rest) with (f :: cf_frames (S k) ((seq + 1) mod 16) (drop 7 rest)). by rewrite E1.
Qed.

Lemma segment_fits msg : 1 <= Z.of_nat (length msg) <= 4095 -> Forall is_u8 msg ->
  Forall op_fits (Frame <$> segment msg).
Proof.
  intros Hn Hb. unfold segment. cbv zeta. destruct (_ <=? 7) eqn:E; tests.
  - constructor; [|constructor]. apply pad8_fits; [cbn [length]; lia|]. constructor; [unfold is_u8; lia|done].
  - constructor; [|apply cf_fits; [lia|by apply Forall_drop]]. split; [cbn [length]; rewrite length_take; lia|].
    pose proof (Z.div_pos (Z.of_nat (length msg)) 256). pose proof (Z.mod_pos_bound (Z.of_nat (length msg)) 256).
    assert (Z.of_nat (length msg) / 256 < 16) by (apply Z.div_lt_upper_bound; lia).
    constructor; [unfold is_u8; lia|]. constructor; [unfold is_u8; lia|by apply Forall_take].
Qed.

Lemma segment_completes msg v : 1 <= Z.of_nat (length msg) <= 4095 ->
  exists fs f bs v', segment msg = fs ++ [f] /\ tp_nexts (Frame <$> fs) v = Some (bs, v') /\ frame_next f v' = None.
Proof.
  intros Hn. unfold segment. cbv zeta. set (n := Z.of_nat (length msg)) in *. destruct (n <=? 7) eqn:E; tests.
  - exists [], (pad8 (n :: msg)), [], v. split_and!; [done|done|]. destruct msg as [|b msg]; [unfold n in Hn; cbn in Hn; lia|].
    change (frame_next (n :: b :: (msg ++ replicate (8 - length (n :: b :: msg)) 0xCC)) v = None).
    cbn [frame_next]. rewrite Z.div_small, Z.mod_small by lia.
    by rewrite !(proj2 (Z.leb_le _ _)) by lia.
  - assert (Hq : (length msg / 7 = S (length msg / 7 - 1))%nat).
    { assert (1 <= length msg / 7)%nat; [|lia]. apply Nat.div_le_lower_bound; lia. }
    pose proof (Nat.div_mod (length msg) 7 ltac:(lia)) as Hd. pose proof (Nat.mod_upper_bound (length msg) 7 ltac:(lia)) as Hm.
    set (k := (length msg / 7 - 1)%nat) in *. rewrite Hq in *.
    assert (Hh : (16 + n / 256) / 16 = 1 /\ (16 + n / 256) mod 16 = n / 256).
    { assert (0 <= n / 256 < 16) by (split; [apply Z.div_pos|apply Z.div_lt_upper_bound]; lia).
      split; [symmetry; apply Z.div_unique with (n / 256)|symmetry; apply Z.mod_unique with 1]; lia. }
    set (f := 16 + n / 256 :: n mod 256 :: take 6 msg). set (v1 := v <| v_rx := Some (take 6 msg, n, 1) |>).
    assert (Hv1 : frame_next f v = Some v1).
    { unfold f, frame_next. destruct Hh as [-> ->]. change (drop 2 (_ :: _ :: take 6 msg)) with (take 6 msg).
      rewrite take_take, Z.mul_comm, <- Z.div_mod by lia. done. }
    assert (Hl : length (take 6 msg) = 6%nat) by (rewrite length_take; lia).
    destruct (cf_complete k 1 (drop 6 msg) v1 (take 6 msg) n) as (fs & g & bs & v' & E1 & E2 & E3); [done|lia|rewrite Hl; lia|].
    exists (f :: fs), g, (true :: bs), v'. split_and!; [by rewrite E1|by eapply nexts_frame|done].
Qed.

(** The transmission of a response that has begun ends only by aborting it, or when the
    tester answers the first frame with "overflow". *)
Definition keeps_sending (op : TpOp) : Prop :=
  match op with
  | Frame f => f !! 0%nat <> Some 0x32
  | Abort => False
  | _ => True
  end.
Definition refused (op : TpOp) (b : bool) : Prop := match op with Respond _ => b = false | _ => True end.

Lemma next_sending op v b v' : v_tx v <> TP_STATE_IDLE -> op_fits op -> keeps_sending op ->
  tp_next op v = Some (b, v') -> v_tx v' <> TP_STATE_IDLE /\ refused op b.
Proof.
  intros Hv Hop Hk. destruct op as [f|data| |n]; cbn [tp_next]; [|cbv zeta|done|by intros [= <- <-]].
  - destruct f as [|b0 [|b1 rest]]; [done..|]. destruct Hop as [_ Hf].
    assert (Hb0 : is_u8 b0) by by inversion Hf. unfold is_u8 in Hb0. cbn [frame_next].
    assert (E : b0 / 16 = 3 -> b0 mod 16 <> 2).
    { intros E3 E2. apply Hk. cbn. f_equal. pose proof (Z.div_mod b0 16 ltac:(lia)). lia. }
    assert (v_tx (flow_next (b0 mod 16) v) <> TP_STATE_IDLE \/ b0 / 16 <> 3) as Hfl.
    { destruct (decide (b0 / 16 = 3)) as [E3|]; [left|by right]. unfold flow_next.
      rewrite (proj2 (Z.eqb_neq (b0 mod 16) 2)) by auto. repeat case_match; done. }
    intros Hn. apply bind_Some in Hn as (v1 & Hn & [= <- <-]). split; [|done]. revert Hn. unfold consecutive_next.
    repeat case_match; try done; intros [= <-]; try done. by destruct Hfl.
  - rewrite bool_decide_false by done. cbn [negb]. destruct (_ =? 0); by intros [= <- <-].
Qed.
Lemma nexts_sending ops : forall v bs v', v_tx v <> TP_STATE_IDLE -> Forall op_fits ops -> Forall keeps_sending ops ->
  tp_nexts ops v = Some (bs, v') -> v_tx v' <> TP_STATE_IDLE /\ Forall2 refused ops bs.
Proof.
  induction ops as [|op ops IH]; intros v bs v' Hv Ho Hk; [intros [= <- <-]; by constructor|].
  inversion Ho; inversion Hk; subst. change (tp_nexts (op :: ops) v) with
    ('(b, v) ← tp_next op v; '(bs, v) ← tp_nexts ops v; Some (b :: bs, v)).
  intros ([b v1] & E1 & ([bs1 v2] & E2 & [= <- <-])%bind_Some)%bind_Some.
  destruct (next_sending op v b v1) as [Hv1 Hr]; [done..|]. destruct (IH v1 bs1 v2) as [Hv2 Hrs]; [done..|].
  split; [done|by constructor].
Qed.

(** ** Theorems *)

(** The transport follows its specification along every run of received frames,
    responses, aborts and clock ticks.  A run is undefined exactly where the
    specification says so: when a frame completes a request, or a response is longer than
    the buffer; otherwise the answers, the reception in progress, the transmission and the
    last error are those of the specification, the UDS handler is never called and the
    interrupt mask is restored. *)
Theorem transport_refines clk ent ops t m : tp_wf t -> Forall op_fits ops ->
  match tp_nexts ops (view t) with
  | Some (bs, v) => wp (tp_run clk ent ops) (fun bs' t' m' =>
      bs' = bs /\ view t' = v /\ tp_wf t' /\ uds_handler t' = uds_handler t /\ primask m' = primask m) t m
  | None => tp_run clk ent ops t m = None
  end.
Proof.
  intros Hwf Hops. pose proof (run_ok clk ent ops t m Hwf Hops) as Hr.
  by destruct (tp_nexts ops (view t)) as [[bs v]|].
Qed.

(** No request reaches the UDS handler: whatever the transport is doing, the frames of
    a request of 1 to 4095 bytes are accepted up to the last one, and the last one writes
    through the NULL data pointer of the message it is copied to. *)
Theorem transport_request_undefined clk ent msg t m :
  tp_wf t -> 1 <= Z.of_nat (length msg) <= 4095 -> Forall is_u8 msg ->
  exists fs f, segment msg = fs ++ [f] /\
    wp (tp_run clk ent (Frame <$> fs)) (fun _ t' m' =>
      Diag_Transport_ProcessReceived clk ent (Some f) t' m' = None) t m.
Proof.
  intros Hwf Hn Hb. destruct (segment_completes msg (view t) Hn) as (fs & f & bs & v' & Hs & Hfs & Hf).
  exists fs, f. split; [done|]. pose proof (segment_fits msg Hn Hb) as Hfit. rewrite Hs, fmap_app in Hfit.
  apply Forall_app in Hfit as [Hfit Hlast]. pose proof (run_ok clk ent _ t m Hwf Hfit) as Hr. rewrite Hfs in Hr.
  eapply wp_mono; [exact Hr|]. intros bs' t' m' (_ & Hv & Hw & _ & _). cbn [fst snd] in Hv.
  apply Forall_inv in Hlast as [Hl Hu]. subst v'. pose proof (frame_ok clk ent f t' m' Hw Hl Hu) as Hlf.
  by rewrite Hf in Hlf.
Qed.

(** A response of more than seven bytes blocks the transport: no consecutive frame is ever
    sent, so until the transmission is aborted or the tester reports an overflow the
    transport is busy and refuses every response, whatever else happens and however long
    it takes. *)
Theorem transport_response_sticks clk ent data ops t m :
  tp_wf t -> tx_state (tx t) = TP_STATE_IDLE -> 7 < Z.of_nat (length data) <= MAX_TRANSPORT_BUFFER_SIZE ->
  Forall op_fits ops -> Forall keeps_sending ops ->
  wp (tp_exec clk ent (Respond data)) (fun b t1 m1 => b = true /\
    forall bs t2 m2, tp_run clk ent ops t1 m1 = Some (bs, t2, m2) ->
      Diag_Transport_IsBusy t2 = true /\ Forall2 refused ops bs) t m.
Proof.
  intros Hwf Hi Hl Ho Hk. unfold MAX_TRANSPORT_BUFFER_SIZE in Hl.
  assert (Hfit : op_fits (Respond data)) by (cbn; unfold is_u16; lia).
  pose proof (exec_ok clk ent (Respond data) t m Hwf Hfit) as He. revert He. cbn [tp_next]. cbv zeta.
  change (v_tx (view t)) with (tx_state (tx t)). rewrite (proj2 (Z.eqb_neq _ _)) by lia.
  rewrite bool_decide_true by done. cbn [negb].
  rewrite (proj2 (Z.leb_gt _ _)), (proj2 (Z.leb_le _ _)) by (unfold MAX_TRANSPORT_BUFFER_SIZE; lia).
  intros He. eapply wp_mono; [exact He|]. intros b t1 m1 (-> & Hv & Hw & _). split; [done|].
  intros bs t2 m2 Hrun. pose proof (run_ok clk ent ops t1 m1 Hw Ho) as Hr. rewrite Hv in Hr. cbn [snd] in Hr.
  destruct (tp_nexts ops _) as [[bs' v2]|] eqn:En; cbn [follows] in Hr; [|congruence].
  unfold wp in Hr. rewrite Hrun in Hr. destruct Hr as (-> & Hv2 & _). cbn [fst snd] in *.
  eapply nexts_sending in En as [Hs Hrs]; [|by cbn|done..]. split; [|done]. unfold Diag_Transport_IsBusy.
  rewrite bool_decide_false; [done|]. rewrite <- Hv2 in Hs. exact Hs.
Qed.

(** ** Witnesses *)

Definition example_transport : DiagTransport :=
  mkTransport (mkTpConfig DIAG_TRANSPORT_CAN 0x7E0 0x7E8 1000 8 10 false)
    (rx_zero <| initialized := true |>) tx_zero cs_zero uds_ctx_zero.
Lemma example_transport_wf : tp_wf example_transport.
Proof. by constructor; [|vm_compute|vm_compute|]. Qed.

Lemma transport_refines_witness :
  let ops := [Frame [0x10; 20; 1; 2; 3; 4; 5; 6]; Frame [0x21; 7; 8; 9; 10; 11; 12; 13]; Wait 5;
              Respond (replicate 12 7); Frame [0x30; 8; 10; 0xFF; 0xFF; 0xFF; 0xFF; 0xFF]; Respond [1]] in
  wp (tp_run 0 0 ops) (fun bs t' _ => bs = [true; true; true; true; true; false] /\
    view t' = mkView (Some ([1; 2; 3; 4; 5; 6; 7; 8; 9; 10; 11; 12; 13], 20, 2))
      TP_STATE_SENDING_MULTI_FRAME TP_ERROR_BUSY) example_transport boot.
Proof.
  intros ops. assert (E : tp_nexts ops (view example_transport) = Some ([true; true; true; true; true; false],
    mkView (Some ([1; 2; 3; 4; 5; 6; 7; 8; 9; 10; 11; 12; 13], 20, 2)) TP_STATE_SENDING_MULTI_FRAME TP_ERROR_BUSY))
    by (vm_compute; reflexivity).
  assert (Hops : Forall op_fits ops) by (unfold ops; repeat constructor; vm_compute; intros; congruence).
  pose proof (transport_refines 0 0 ops example_transport boot example_transport_wf Hops) as H. rewrite E in H.
  eapply wp_mono; [exact H|]. intros bs t' m' (Hbs & Hv & _). exact (conj Hbs Hv).
Defined.

Lemma transport_request_undefined_witness :
  exists fs f, segment [0x22; 0xF1; 0x90] = fs ++ [f] /\
    wp (tp_run 0 0 (Frame <$> fs)) (fun _ t' m' =>
      Diag_Transport_ProcessReceived 0 0 (Some f) t' m' = None) example_transport boot.
Proof.
  apply (transport_request_undefined 0 0 [0x22; 0xF1; 0x90] example_transport boot).
  - exact example_transport_wf.
  - cbn. lia.
  - repeat constructor; vm_compute; congruence.
Defined.

Lemma transport_response_sticks_witness :
  let ops := [Wait 2000; Frame [0x30; 8; 10; 0xFF; 0xFF; 0xFF; 0xFF; 0xFF]; Respond [1]] in
  wp (tp_exec 0 0 (Respond (replicate 12 7))) (fun b t1 m1 => b = true /\
    forall bs t2 m2, tp_run 0 0 ops t1 m1 = Some (bs, t2, m2) ->
      Diag_Transport_IsBusy t2 = true /\ Forall2 refused ops bs) example_transport boot.
Proof.
  intros ops. apply (transport_response_sticks 0 0 (replicate 12 7) ops example_transport boot).
  - exact example_transport_wf.
  - reflexivity.
  - unfold MAX_TRANSPORT_BUFFER_SIZE; cbn; lia.
  - unfold ops. repeat constructor; vm_compute; intros; congruence.
  - unfold ops. repeat constructor; cbn; congruence.
Defined.
