(* ===== verification/NetworkHandler.v ===== *)
(** * Framed messages over CAN

    [src/runtime/network/network_handler.c] above [src/hardware/can_driver.c]: a ring of
    outgoing messages, a buffer of received bytes, and the scanner that finds frames in it
    and hands their contents to the router of [DiagRouter.v].  The functions of the STM32
    library are the parameter [hal]: whether initialisation succeeds, and whether a message
    is accepted for transmission, which may depend on everything that happened before.
    [tick] is the value of [HAL_GetTick]. *)

From S2P Require Import Prelude Machine DiagRouter.

Record Hal := mkHal {
  HAL_CAN_Init : bool; HAL_CAN_ConfigFilter : bool;
  HAL_CAN_AddTxMessage : Machine -> Z -> list Z -> bool; HAL_CAN_GetError : Machine -> Z }.

Definition RX_BUFFER_SIZE : Z := 2048.
Definition TX_QUEUE_SIZE : nat := 16.

(** The statics of [hardware/can_driver.c]. *)
Record CanPort := mkPort {
  init_done : bool; rx_callback : bool; rx_count : Z; tx_count : Z; error_count : Z; port_error : Z }.
#[export] Instance eta_CanPort : Eta CanPort := fun p =>
  mkPort (init_done p) (rx_callback p) (rx_count p) (tx_count p) (error_count p) (port_error p).

Record NetworkConfig := mkNetworkConfig {
  baudrate : Z; nh_tx_id : Z; min_tx_interval : Z; nh_block_size : Z; st_min : Z }.
#[export] Instance eta_NetworkConfig : Eta NetworkConfig := fun c =>
  mkNetworkConfig (baudrate c) (nh_tx_id c) (min_tx_interval c) (nh_block_size c) (st_min c).

Record NetworkHandler := mkNetwork {
  rx_buffer : list Z; rx_index : Z; frame_start : Z;
  tx_queue : list (list Z); tx_lengths : list Z; tx_head : nat; tx_tail : nat;
  net_config : NetworkConfig; can_initialized : bool; last_tx_time : Z;
  tick : Z; port : CanPort; router : DiagRouterContext }.
#[export] Instance eta_NetworkHandler : Eta NetworkHandler := fun s =>
  mkNetwork (rx_buffer s) (rx_index s) (frame_start s) (tx_queue s) (tx_lengths s) (tx_head s) (tx_tail s)
    (net_config s) (can_initialized s) (last_tx_time s) (tick s) (port s) (router s).

Definition on_port (f : CanPort -> CanPort) : M NetworkHandler unit := modify (fun s => s <| port ::= f |>).
Definition on_router {A} : M DiagRouterContext A -> M NetworkHandler A :=
  zoom router (fun r s => s <| router := r |>).
Definition checked {A} (o : option A) : M NetworkHandler A := match o with Some a => mret a | None => fault end.

Section hardware.
Context (hal : Hal).

(** ** hardware/can_driver.c *)

Definition CAN_Init (baudrate : Z) : M NetworkHandler bool :=
  emit "HAL_CAN_Init" [];;
  if negb (HAL_CAN_Init hal) then mret false else
  emit "HAL_CAN_ConfigFilter" [];;
  if negb (HAL_CAN_ConfigFilter hal) then mret false else
  emit "HAL_CAN_Start" [];;
  emit "HAL_CAN_ActivateNotification" [];;
  on_port (fun p => p <| init_done := true |>);;
  mret true.
Definition CAN_RegisterRxCallback : M NetworkHandler unit := on_port (fun p => p <| rx_callback := true |>).
Definition CAN_Transmit (id : Z) (data : list Z) : M NetworkHandler bool :=
  s ← get;
  if negb (init_done (port s)) || (8 <? length data)%nat then mret false else
  ok ← on_machine (fun m => (HAL_CAN_AddTxMessage hal m id data, m));
  emit "HAL_CAN_AddTxMessage" (id :: data);;
  if ok : bool then on_port (fun p => p <| tx_count ::= fun n => u32 (n + 1) |>);; mret true else
  e ← on_machine (fun m => (HAL_CAN_GetError hal m, m));
  on_port (fun p => p <| error_count ::= fun n => u32 (n + 1) |> <| port_error := u8 e |>);;
  mret false.

Definition CAN_GetErrorStatus : M NetworkHandler Z := on_machine (fun m => (HAL_CAN_GetError hal m, m)).
(** What is copied to the caller. *)
Definition CAN_GetStats : M NetworkHandler (Z * Z * Z * Z) :=
  s ← get; let p := port s in mret (tx_count p, rx_count p, error_count p, port_error p).
Definition CAN_ResetStats : M NetworkHandler unit :=
  on_port (fun p => p <| rx_count := 0 |> <| tx_count := 0 |> <| error_count := 0 |> <| port_error := 0 |>).
Definition CAN_Deinit : M NetworkHandler unit :=
  emit "HAL_CAN_Stop" [];; emit "HAL_CAN_DeInit" [];; on_port (fun p => p <| init_done := false |>).

(** ** network_handler.c *)

Definition get_system_time : M NetworkHandler Z := s ← get; mret (tick s).

(** [data] is the eight bytes of the driver's receive buffer. *)
Definition process_flow_control (data : list Z) : M NetworkHandler unit :=
  flow_status ← checked (data !! 1%nat);
  block_size ← checked (data !! 2%nat);
  st ← checked (data !! 3%nat);
  if flow_status =? 0 then
    modify (fun s => s <| net_config ::= fun c => c <| nh_block_size := block_size |> <| st_min := st |> |>)
  else if flow_status =? 1 then
    t ← get_system_time; modify (fun s => s <| last_tx_time := u32 (t + 100) |>)
  else if flow_status =? 2 then modify (fun s => s <| tx_head := tx_tail s |>)
  else mret tt.

(** The bytes are stored and flow control is handled. *)
Definition append_rx (data : list Z) (len : Z) : M NetworkHandler unit :=
  s ← get;
  let i := Z.to_nat (rx_index s) in
  let bytes := take (Z.to_nat len) data in
  if (Z.of_nat (length data) <? len) || (Z.of_nat (length (rx_buffer s)) <? rx_index s + len) then fault else
  modify (fun s => s <| rx_buffer ::= fun b => take i b ++ bytes ++ drop (i + length bytes) b |>
                     <| rx_index ::= fun n => u32 (n + len) |>);;
  b0 ← checked (data !! 0%nat);
  if b0 =? 0x30 then process_flow_control data else mret tt.

Definition handle_can_rx (data : list Z) (len : Z) : M NetworkHandler unit :=
  s ← get;
  (if RX_BUFFER_SIZE <=? rx_index s + len then modify (fun s => s <| rx_index := 0 |>) else mret tt);;
  append_rx data len.

(** The interrupt of the driver: [frame] is the receive buffer and the length code. *)
Definition HAL_CAN_RxFifo0MsgPendingCallback (frame : option (list Z * Z)) : M NetworkHandler unit :=
  match frame with
  | None => mret tt
  | Some (data, len) =>
      on_port (fun p => p <| rx_count ::= fun n => u32 (n + 1) |>);;
      s ← get;
      if rx_callback (port s) then handle_can_rx data len else mret tt
  end.

Definition NetworkHandler_Init (config : option NetworkConfig) : M NetworkHandler bool :=
  match config with
  | None => mret false
  | Some config =>
      modify (fun s => s <| net_config := config |>);;
      ok ← CAN_Init (baudrate config);
      modify (fun s => s <| can_initialized := ok |>);;
      if negb ok then mret false else
      CAN_RegisterRxCallback;;
      mret true
  end.

(** The length parameter is a [uint8_t]. *)
Definition calc_checksum (data : list Z) (len : Z) : option Z :=
  if Z.of_nat (length data) <? u8 len then None
  else Some (foldl (fun sum b => u8 (sum + b)) 0 (take (Z.to_nat (u8 len)) data)).

Definition NetworkHandler_Send (data : option (list Z)) (len : Z) : M NetworkHandler bool :=
  s ← get;
  match data with
  | None => mret false
  | Some data =>
      if negb (can_initialized s) || (len =? 0) then mret false else
      if ((tx_head s + 1) mod TX_QUEUE_SIZE =? tx_tail s)%nat then mret false else
      let len := if 255 <? len then 255 else len in
      slot ← checked (tx_queue s !! tx_head s);
      if (Z.of_nat (length data) <? len) || (Z.of_nat (length slot) <? len) then fault else
      let bytes := take (Z.to_nat len) data in
      modify (fun s => s <| tx_queue ::= <[tx_head s := bytes ++ drop (length bytes) slot]> |>
                         <| tx_lengths ::= <[tx_head s := len]> |>
                         <| tx_head ::= fun h => ((h + 1) mod TX_QUEUE_SIZE)%nat |>);;
      mret true
  end.

(** A frame is handed to the router.  For a single byte the router reads the byte behind
    it, which is the checksum in the buffer, and refuses the message. *)
Definition deliver (data : list Z) : M NetworkHandler unit :=
  if (length data =? 1)%nat then mret tt else
  on_router (DiagRouter_HandleMessage (Some data));; mret tt.

Definition byte_at (i : Z) : M NetworkHandler Z :=
  s ← get; checked (if i <? 0 then None else rx_buffer s !! Z.to_nat i).
Fixpoint rx_loop (fuel : nat) : M NetworkHandler unit :=
  s ← get;
  let available := u32 (rx_index s - frame_start s) in
  if available <? 4 then mret tt else
  match fuel with
  | O => fault
  | S fuel =>
      b ← byte_at (frame_start s);
      if b =? 0x55 then
        len ← byte_at (frame_start s + 1);
        if len + 4 <=? available then
          checksum ← checked (calc_checksum (drop (Z.to_nat (frame_start s)) (rx_buffer s)) (len + 2));
          c ← byte_at (frame_start s + len + 2);
          (if checksum =? c
           then deliver (take (Z.to_nat len) (drop (Z.to_nat (frame_start s + 2)) (rx_buffer s))) else mret tt);;
          modify (fun s => s <| frame_start ::= fun n => u32 (n + (len + 4)) |>);;
          rx_loop fuel
        else mret tt
      else modify (fun s => s <| frame_start ::= fun n => u32 (n + 1) |>);; rx_loop fuel
  end.
Definition process_rx_buffer : M NetworkHandler unit :=
  s ← get;
  rx_loop (Z.to_nat (rx_index s));;
  s ← get;
  if 0 <? frame_start s then
    let n := Z.to_nat (u32 (rx_index s - frame_start s)) in
    modify (fun s => s <| rx_buffer ::= fun b => take n (drop (Z.to_nat (frame_start s)) b) ++ drop n b |>
                       <| rx_index ::= fun i => u32 (i - frame_start s) |> <| frame_start := 0 |>)
  else mret tt.

Definition NetworkHandler_Process : M NetworkHandler unit :=
  s ← get;
  if negb (can_initialized s) then mret tt else
  current_time ← get_system_time;
  (if negb (tx_head s =? tx_tail s)%nat && (min_tx_interval (net_config s) <=? u32 (current_time - last_tx_time s)) then
     slot ← checked (tx_queue s !! tx_tail s);
     len ← checked (tx_lengths s !! tx_tail s);
     ok ← CAN_Transmit (nh_tx_id (net_config s)) (take (Z.to_nat len) slot);
     if ok : bool then
       modify (fun s => s <| tx_tail ::= fun t => ((t + 1) mod TX_QUEUE_SIZE)%nat |> <| last_tx_time := current_time |>)
     else mret tt
   else mret tt);;
  process_rx_buffer.

(** [buffer] has 270 bytes; the start marker, length, data, checksum and end marker. *)
Definition send_diagnostic_response (data : list Z) : M NetworkHandler bool :=
  let len := Z.of_nat (length data) in
  if 266 <? len then fault else
  let head := [0x55; u8 len] ++ data in
  checksum ← checked (calc_checksum (head ++ replicate (270 - length head) 0) (len + 2));
  NetworkHandler_Send (Some (head ++ [checksum; 0xAA] ++ replicate (268 - length head) 0)) (len + 4).
End hardware.

(** ** Frames

    The frame of a message, and the scanner as a function of the bytes received: the
    messages found and the bytes that are left.  [check] is the checksum the scanner
    computes, [bad] one less than the number of bytes it skips when that is wrong. *)

Definition byte_sum (l : list Z) : Z := foldl (fun sum b => u8 (sum + b)) 0 l.
Definition frame (msg : list Z) : list Z :=
  let head := 0x55 :: Z.of_nat (length msg) :: msg in head ++ [byte_sum head; 0xAA].

Section scan.
Context (check : Z -> list Z -> Z) (bad : Z -> nat).

Fixpoint scan (fuel : nat) (l : list Z) : list (list Z) * list Z :=
  match fuel, l with
  | S fuel, b :: len :: rest =>
      if (length l <? 4)%nat then ([], l)
      else if negb (b =? 0x55) then scan fuel (len :: rest)
      else if Z.of_nat (length l) <? len + 4 then ([], l)
      else if check len l =? nth (Z.to_nat len + 2) l 0 then
        let '(ms, r) := scan fuel (drop (4 + Z.to_nat len) l) in (take (Z.to_nat len) rest :: ms, r)
      else scan fuel (drop (S (bad len)) l)
  | _, _ => ([], l)
  end.
Definition scan_all (l : list Z) : list (list Z) * list Z := scan (length l) l.

Lemma scan_S fuel b len rest : let l := b :: len :: rest in
  scan (S fuel) l = if (length l <? 4)%nat then ([], l)
    else if negb (b =? 0x55) then scan fuel (len :: rest)
    else if Z.of_nat (length l) <? len + 4 then ([], l)
    else if check len l =? nth (Z.to_nat len + 2) l 0 then
      let '(ms, r) := scan fuel (drop (4 + Z.to_nat len) l) in (take (Z.to_nat len) rest :: ms, r)
    else scan fuel (drop (S (bad len)) l).
Proof. done. Qed.
Lemma scan_fuel n : forall k l, (length l <= n)%nat -> (length l <= k)%nat -> scan n l = scan k l.
Proof.
  induction n as [|n IH]; intros k l Hn Hk; [destruct l; [by destruct k|cbn in Hn; lia]|].
  destruct k as [|k]; [destruct l; [done|cbn in Hk; lia]|]. destruct l as [|b [|len rest]]; [done..|].
  cbn [scan]. cbn [length] in Hn, Hk.
  rewrite (IH k (len :: rest)), (IH k (drop (4 + Z.to_nat len) _)), (IH k (drop (S (bad len)) _)); [done|..].
  all: rewrite ?length_drop; cbn [length]; lia.
Qed.
Lemma scan_short l : (length l < 4)%nat -> scan_all l = ([], l).
Proof.
  intros Hl. unfold scan_all. destruct l as [|b [|len rest]]; [done..|]. cbn [length scan].
  cbn [length] in Hl. by rewrite (proj2 (Nat.ltb_lt _ _)) by done.
Qed.
Lemma scan_cons b len rest : (4 <= length (b :: len :: rest))%nat ->
  scan_all (b :: len :: rest) =
  if negb (b =? 0x55) then scan_all (len :: rest)
  else if Z.of_nat (length (b :: len :: rest)) <? len + 4 then ([], b :: len :: rest)
  else if check len (b :: len :: rest) =? nth (Z.to_nat len + 2) (b :: len :: rest) 0 then
    let '(ms, r) := scan_all (drop (4 + Z.to_nat len) (b :: len :: rest)) in (take (Z.to_nat len) rest :: ms, r)
  else scan_all (drop (S (bad len)) (b :: len :: rest)).
Proof.
  intros Hl. unfold scan_all at 1. change (length (b :: len :: rest)) with (S (S (length rest))).
  rewrite scan_S, (proj2 (Nat.ltb_ge _ _)) by lia.
  assert (Hs : forall l, (length l <= S (length rest))%nat -> scan (S (length rest)) l = scan_all l).
  { intros l Hr. by apply scan_fuel. }
  rewrite !Hs; [done|..]; rewrite ?length_drop; cbn [length]; lia.
Qed.

(** A scanner that computes the right checksum for the messages [ok] finds them. *)
Context (ok : list Z -> Prop).
Hypothesis Hcheck : forall msg l, ok msg ->
  check (Z.of_nat (length msg)) (frame msg ++ l) = byte_sum (0x55 :: Z.of_nat (length msg) :: msg).

Lemma length_frame msg : length (frame msg) = (length msg + 4)%nat.
Proof. unfold frame. rewrite length_app. cbn. lia. Qed.
Lemma scan_frame msg l : ok msg ->
  scan_all (frame msg ++ l) = let '(ms, r) := scan_all l in (msg :: ms, r).
Proof.
  intros Hm. assert (E : exists rest, frame msg ++ l = 0x55 :: Z.of_nat (length msg) :: rest /\
    take (length msg) rest = msg /\ nth (length msg + 2) (frame msg ++ l) 0 = byte_sum (0x55 :: Z.of_nat (length msg) :: msg)).
  { exists (msg ++ [byte_sum (0x55 :: Z.of_nat (length msg) :: msg); 0xAA] ++ l).
    split_and!; [unfold frame; by rewrite <- !app_assoc|by rewrite take_app_length|].
    unfold frame. rewrite <- !app_assoc, app_nth2 by (cbn [length]; lia). cbn [length].
    by replace (length msg + 2 - S (S (length msg)))%nat with 0%nat by lia. }
  destruct E as (rest & E & Ht & Hn). pose proof (Hcheck msg l Hm) as Hc.
  assert (Hd : drop (4 + length msg) (frame msg ++ l) = l).
  { apply drop_app_length'. rewrite length_frame. lia. }
  assert (Hl : length (frame msg ++ l) = (4 + length msg + length l)%nat) by (rewrite length_app, length_frame; lia).
  rewrite E in *. rewrite scan_cons by (rewrite Hl; lia). change (negb (0x55 =? 0x55)) with false. cbv iota.
  rewrite (proj2 (Z.ltb_ge _ _)) by (rewrite Hl; lia). rewrite Nat2Z.id, Hc, Hn, Z.eqb_refl, Hd, Ht. done.
Qed.
Lemma scan_prefix msg p q : frame msg = p ++ q -> q <> [] -> scan_all p = ([], p).
Proof.
  intros E Hq. pose proof (f_equal length E) as Hl. rewrite length_frame, length_app in Hl.
  assert (0 < length q)%nat by (destruct q; [done|cbn; lia]).
  destruct (decide (length p < 4)%nat) as [|Hp]; [by apply scan_short|].
  destruct p as [|b [|len p]]; [cbn in Hp; lia..|]. injection E as <- <- E.
  rewrite scan_cons by lia. change (negb (0x55 =? 0x55)) with false. cbv iota.
  by rewrite (proj2 (Z.ltb_lt _ _)) by lia.
Qed.
(** Of a stream of frames cut anywhere, the messages that are complete are found and the
    bytes of the next one are left. *)
Lemma scan_stream ms : forall p q, Forall ok ms -> p ++ q = concat (frame <$> ms) ->
  exists ms1 ms2 r, ms = ms1 ++ ms2 /\ scan_all p = (ms1, r) /\ r ++ q = concat (frame <$> ms2) /\
    (r = [] \/ exists msg, msg ∈ ms2 /\ (length r < length msg + 4)%nat).
Proof.
  induction ms as [|msg ms IH]; intros p q Hok E.
  - apply app_nil in E as [-> ->]. exists [], [], []. split_and!; [done..|by left].
  - inversion Hok as [|? ? Hm Hms]; subst. cbn [fmap list_fmap concat] in E.
    destruct (decide (length (frame msg) <= length p)%nat) as [Hl|Hl].
    + assert (Hp : p = frame msg ++ drop (length (frame msg)) p).
      { rewrite <- (take_drop (length (frame msg)) p) at 1. f_equal.
        apply (f_equal (take (length (frame msg)))) in E. rewrite take_app_le, take_app_length in E by done. done. }
      set (p' := drop (length (frame msg)) p) in *. rewrite Hp, <- app_assoc in E. apply app_inv_head in E.
      destruct (IH p' q Hms E) as (ms1 & ms2 & r & -> & Hs & Hr & Hb).
      exists (msg :: ms1), ms2, r. split_and!; [done| |done|done]. by rewrite Hp, scan_frame, Hs by done.
    + assert (Hf : frame msg = p ++ take (length (frame msg) - length p) q).
      { apply (f_equal (take (length (frame msg)))) in E. rewrite take_app_length, take_app_ge in E by lia. by symmetry. }
      exists [], (msg :: ms), p. split_and!; [done| |done|].
      * apply (scan_prefix msg p _ Hf). intros Hn. apply (f_equal length) in Hf.
        rewrite Hn, app_nil_r in Hf. lia.
      * right. exists msg. rewrite length_frame in Hl. split; [left|lia].
Qed.
End scan.

(** ** Reception

    The bytes of a buffer from index [k] up to [n]. *)

Definition window (b : list Z) (k n : Z) : list Z := take (Z.to_nat (n - k)) (drop (Z.to_nat k) b).

Section window.
Context (b : list Z) (k n : Z).
Hypothesis Hkn : 0 <= k <= n.
Hypothesis Hn : n <= Z.of_nat (length b).

Lemma window_drop : drop (Z.to_nat k) b = window b k n ++ drop (Z.to_nat n) b.
Proof.
  unfold window. rewrite <- (take_drop (Z.to_nat (n - k)) (drop _ b)) at 1. rewrite drop_drop. do 2 f_equal. lia.
Qed.
Lemma length_window : Z.of_nat (length (window b k n)) = n - k.
Proof. unfold window. rewrite length_take, length_drop. lia. Qed.
Lemma lookup_window i : 0 <= i < n - k -> b !! Z.to_nat (k + i) = window b k n !! Z.to_nat i.
Proof.
  intros Hi. replace (Z.to_nat (k + i)) with (Z.to_nat k + Z.to_nat i)%nat by lia.
  rewrite <- lookup_drop, window_drop. apply lookup_app_l. pose proof length_window. lia.
Qed.
Lemma window_take j : Z.of_nat j <= n - k -> take j (drop (Z.to_nat k) b) = take j (window b k n).
Proof. intros Hj. rewrite window_drop. apply take_app_le. pose proof length_window. lia. Qed.
Lemma window_advance j : 0 <= j <= n - k -> window b (k + j) n = drop (Z.to_nat j) (window b k n).
Proof. intros Hj. unfold window. rewrite skipn_firstn_comm, drop_drop. f_equal; [lia|]. f_equal. lia. Qed.
(** What lies behind the first two bytes. *)
Lemma window_message h len rest j : window b k n = h :: len :: rest -> Z.of_nat j + 2 <= n - k ->
  take j (drop (Z.to_nat (k + 2)) b) = take j rest.
Proof.
  intros E Hj. replace (Z.to_nat (k + 2)) with (Z.to_nat k + 2)%nat by lia.
  rewrite <- drop_drop, window_drop, E. cbn [drop app]. apply take_app_le.
  pose proof length_window as Hl. rewrite E in Hl. cbn [length] in Hl. lia.
Qed.
End window.

Definition nh_check (len : Z) (l : list Z) : Z := byte_sum (take (Z.to_nat (u8 (len + 2))) l).
Definition nh_bad (len : Z) : nat := (3 + Z.to_nat len)%nat.
Definition pending (s : NetworkHandler) : list Z := window (rx_buffer s) (frame_start s) (rx_index s).

Record rx_wf (s : NetworkHandler) : Prop := {
  rw_length : Z.of_nat (length (rx_buffer s)) = RX_BUFFER_SIZE;
  rw_bytes : Forall is_u8 (rx_buffer s);
  rw_index : 0 <= frame_start s <= rx_index s /\ rx_index s <= RX_BUFFER_SIZE;
  rw_router : router_wf (router s);
  rw_ready : initialized (router s) = true }.

Lemma rw_end s : rx_wf s -> rx_index s <= Z.of_nat (length (rx_buffer s)).
Proof. intros []. lia. Qed.
Lemma length_pending s : rx_wf s -> Z.of_nat (length (pending s)) = rx_index s - frame_start s.
Proof. intros Hw. apply length_window; [apply Hw|by apply rw_end]. Qed.
Lemma lookup_pending s i : rx_wf s -> 0 <= i < Z.of_nat (length (pending s)) ->
  rx_buffer s !! Z.to_nat (frame_start s + i) = pending s !! Z.to_nat i.
Proof. intros Hw Hi. rewrite length_pending in Hi by done. apply lookup_window; [apply Hw|by apply rw_end|done]. Qed.
Lemma pending_bytes s : rx_wf s -> Forall is_u8 (pending s).
Proof. intros []. by apply Forall_take, Forall_drop. Qed.
Lemma wp_byte_at i (Q : Z -> NetworkHandler -> Machine -> Prop) b s m :
  0 <= i -> rx_buffer s !! Z.to_nat i = Some b -> Q b s m -> wp (byte_at i) Q s m.
Proof.
  intros Hi Hb HQ. unfold byte_at. apply wp_bind, wp_get. rewrite (proj2 (Z.ltb_ge _ _)) by done. by rewrite Hb.
Qed.

(** The state after [j] of the pending bytes, with another router. *)
Definition advanced (s : NetworkHandler) (j : Z) (r : DiagRouterContext) : NetworkHandler :=
  s <| frame_start ::= fun k => k + j |> <| router := r |>.
Lemma advanced_pending s j r : rx_wf s -> 0 <= j <= Z.of_nat (length (pending s)) ->
  pending (advanced s j r) = drop (Z.to_nat j) (pending s).
Proof.
  intros Hw Hj. rewrite length_pending in Hj by done. apply window_advance; [apply Hw|done].
Qed.
Lemma advanced_wf s j r : rx_wf s -> 0 <= j <= Z.of_nat (length (pending s)) ->
  router_wf r -> initialized r = true -> rx_wf (advanced s j r).
Proof.
  intros Hw Hj Hr Hi. rewrite length_pending in Hj by done. destruct Hw. constructor; [done|done| |done|done]. cbn. lia.
Qed.

Lemma deliver_spec data s m : router_wf (router s) -> initialized (router s) = true ->
  wp (deliver data) (fun _ s' m' => exists r, s' = s <| router := r |> /\ router_wf r /\ initialized r = true /\
    live r = live (router s) /\ m' = m <| trace ::= fun t => t ++ deliveries (live (router s)) data |>) s m.
Proof.
  intros Hw Hi. unfold deliver. destruct (length data =? 1)%nat eqn:E; tests.
  - apply wp_ret. exists (router s). split_and!; [by destruct s|done|done|done|].
    destruct data as [|a []]; [done| |done]. destruct m. cbn. by rewrite app_nil_r.
  - apply wp_bind, wp_zoom. eapply wp_mono; [by apply handle_message_spec|].
    intros _ r m' (Hr & Hri & Hl & ->). apply wp_ret. by exists r.
Qed.

Definition received (ms : list (list Z)) (l : list DiagRoute) : list Call := concat (deliveries l <$> ms).

Lemma rx_loop_spec fuel : forall s m ms r, rx_wf s -> (length (pending s) <= fuel)%nat ->
  scan_all nh_check nh_bad (pending s) = (ms, r) ->
  wp (rx_loop fuel) (fun _ s' m' => exists rt,
    s' = advanced s (Z.of_nat (length (pending s)) - Z.of_nat (length r)) rt /\ rx_wf s' /\ pending s' = r /\
    live rt = live (router s) /\ m' = m <| trace ::= fun t => t ++ received ms (live (router s)) |>) s m.
Proof.
  induction fuel as [|fuel IH]; intros s m ms r Hw Hf Hs.
  all: pose proof (length_pending s Hw) as Hl; pose proof (rw_index s Hw) as Hx; unfold RX_BUFFER_SIZE in Hx.
  all: assert (Hav : u32 (rx_index s - frame_start s) = Z.of_nat (length (pending s)))
    by (rewrite u32_small; [lia|unfold is_u32; lia]).
  all: assert (Hstop : (ms, r) = ([], pending s) -> wp (mret tt) (fun _ s' m' => exists rt,
    s' = advanced s (Z.of_nat (length (pending s)) - Z.of_nat (length r)) rt /\ rx_wf s' /\ pending s' = r /\
    live rt = live (router s) /\ m' = m <| trace ::= fun t => t ++ received ms (live (router s)) |>) s m).
  1, 3: intros [= -> ->]; apply wp_ret; exists (router s); rewrite Z.sub_diag; split_and!; try done;
    [unfold advanced; destruct s; cbn; by rewrite Z.add_0_r|destruct m; cbn; by rewrite app_nil_r].
  - cbn [rx_loop]. apply wp_bind, wp_get. rewrite Hav, (proj2 (Z.ltb_lt _ _)) by lia. apply Hstop.
    by rewrite scan_short in Hs by lia.
  - cbn [rx_loop]. apply wp_bind, wp_get. cbv zeta. rewrite Hav.
    destruct (_ <? 4) eqn:E4; tests; [apply Hstop; by rewrite scan_short in Hs by lia|].
    destruct (pending s) as [|b [|len rest]] eqn:Ep; [cbn [length] in E4; lia..|]. rewrite <- Ep in *.
    assert (Hb : is_u8 b /\ is_u8 len).
    { pose proof (pending_bytes s Hw) as Hb. rewrite Ep in Hb. by inversion Hb as [|? ? ? Hb']; inversion Hb'. }
    destruct Hb as [Hb Hlen]. unfold is_u8 in Hb, Hlen.
    assert (Hnext : forall j rt m0 ms0, 0 < j <= Z.of_nat (length (pending s)) -> router_wf rt -> initialized rt = true ->
      live rt = live (router s) -> m0 = m <| trace ::= fun t => t ++ received ms0 (live (router s)) |> ->
      forall ms1, scan_all nh_check nh_bad (drop (Z.to_nat j) (pending s)) = (ms1, r) -> ms = ms0 ++ ms1 ->
      wp (rx_loop fuel) (fun _ s' m' => exists rt,
        s' = advanced s (Z.of_nat (length (pending s)) - Z.of_nat (length r)) rt /\ rx_wf s' /\ pending s' = r /\
        live rt = live (router s) /\ m' = m <| trace ::= fun t => t ++ received ms (live (router s)) |>)
        (advanced s j rt) m0).
    { intros j rt m0 ms0 Hj Hrt Hri Hlv Hm0 ms1 Hs1 Hms. subst m0 ms.
      assert (Hp1 : pending (advanced s j rt) = drop (Z.to_nat j) (pending s)) by (apply advanced_pending; [done|lia]).
      eapply wp_mono; [apply (IH (advanced s j rt) _ ms1 r);
        [apply advanced_wf; [done|lia|done|done]|rewrite Hp1, length_drop; lia|by rewrite Hp1]|].
      intros _ s' m' (rt' & -> & Hw' & Hp' & Hl' & ->). exists rt'. split_and!; [|done|done|by rewrite Hl'|].
      - rewrite Hp1, length_drop. unfold advanced. clear -Hj. destruct s; cbn [frame_start router setf].
        cbn. f_equal. lia.
      - cbn [router advanced setf]. rewrite Hlv. unfold received. rewrite fmap_app, concat_app. destruct m; cbn.
        by rewrite app_assoc. }
    rewrite Ep, scan_cons in Hs by (rewrite <- Ep; lia).
    eapply wp_bind, (wp_byte_at _ _ b); [lia| |].
    { rewrite <- (Z.add_0_r (frame_start s)), lookup_pending by (done || lia). by rewrite Ep. }
    change 85 with 0x55 in Hs. destruct (b =? 0x55) eqn:E55; cbn [negb] in Hs; last first.
    { apply wp_bind, wp_modify. replace (s <| frame_start ::= _ |>) with (advanced s 1 (router s)).
      - apply (Hnext 1 (router s) m [] ltac:(lia) (rw_router s Hw) (rw_ready s Hw) eq_refl) with (ms1 := ms); [|by rewrite Ep|done].
        destruct m; cbn. by rewrite app_nil_r.
      - unfold advanced. destruct s; cbn in *. f_equal. rewrite u32_small; [done|unfold is_u32; lia]. }
    eapply wp_bind, (wp_byte_at _ _ len); [lia| |].
    { rewrite lookup_pending by (done || lia). by rewrite Ep. }
    rewrite <- Ep in Hs. destruct (len + 4 <=? Z.of_nat (length (pending s))) eqn:El; tests; last first.
    { rewrite (proj2 (Z.ltb_lt _ _)) in Hs by done. by apply Hstop. }
    rewrite (proj2 (Z.ltb_ge _ _)) in Hs by done.
    assert (Hu : u8 (len + 2) <= len + 2) by (unfold u8; apply Z.mod_le; lia).
    pose proof (u8_range (len + 2)) as Hu0. unfold is_u8 in Hu0.
    assert (Hc : calc_checksum (drop (Z.to_nat (frame_start s)) (rx_buffer s)) (len + 2) = Some (nh_check len (pending s))).
    { unfold calc_checksum. rewrite (proj2 (Z.ltb_ge _ _)) by (rewrite length_drop; pose proof (rw_end s Hw); lia).
      unfold nh_check, byte_sum. do 2 f_equal. apply window_take; [apply Hw|by apply rw_end|lia]. }
    apply wp_bind. rewrite Hc. apply wp_ret.
    eapply wp_bind, (wp_byte_at _ _ (nth (Z.to_nat len + 2) (pending s) 0)); [lia| |].
    { rewrite <- Z.add_assoc, lookup_pending by (done || lia).
      replace (Z.to_nat (len + 2)) with (Z.to_nat len + 2)%nat by lia. rewrite nth_lookup.
      by destruct (lookup_lt_is_Some_2 (pending s) (Z.to_nat len + 2)) as [x ->]; [lia|]. }
    assert (Hadv : forall rt, s <| router := rt |> <| frame_start ::= fun n => u32 (n + (len + 4)) |> =
      advanced s (len + 4) rt).
    { intros rt. unfold advanced. clear -Hx Hl El Hlen. destruct s; cbn in *. f_equal.
      rewrite u32_small; [done|unfold is_u32; lia]. }
    assert (Hdrop : drop (Z.to_nat (len + 4)) (pending s) = drop (4 + Z.to_nat len) (pending s)) by (f_equal; lia).
    destruct (nh_check len (pending s) =? _) eqn:Ec.
    + destruct (scan_all _ _ (drop _ _)) as [ms1 r1] eqn:Es1. injection Hs as <- ->.
      assert (Hmsg : take (Z.to_nat len) (drop (Z.to_nat (frame_start s + 2)) (rx_buffer s)) = take (Z.to_nat len) rest).
      { eapply window_message; [apply Hw|by apply rw_end|exact Ep|lia]. }
      rewrite Hmsg. apply wp_bind. eapply wp_mono; [by apply deliver_spec; [apply Hw|apply Hw]|].
      intros [] s1 m1 (rt & -> & Hrw & Hri & Hlv & ->). apply wp_bind, wp_modify. rewrite Hadv.
      apply (Hnext (len + 4) rt _ [take (Z.to_nat len) rest] ltac:(lia) Hrw Hri Hlv) with (ms1 := ms1);
        [|by rewrite Hdrop|done]. unfold received. cbn. by rewrite app_nil_r.
    + apply wp_bind, wp_ret, wp_bind, wp_modify.
      replace (s <| frame_start ::= _ |>) with (advanced s (len + 4) (router s)) by (rewrite <- Hadv; by destruct s).
      apply (Hnext (len + 4) (router s) m [] ltac:(lia) (rw_router s Hw) (rw_ready s Hw) eq_refl) with (ms1 := ms);
        [destruct m; cbn; by rewrite app_nil_r|by rewrite Hdrop|done].
Qed.

Lemma process_rx_spec s m ms r : rx_wf s -> frame_start s = 0 -> scan_all nh_check nh_bad (pending s) = (ms, r) ->
  wp process_rx_buffer (fun _ s' m' => rx_wf s' /\ frame_start s' = 0 /\ pending s' = r /\
    live (router s') = live (router s) /\
    s' = s <| rx_buffer := rx_buffer s' |> <| rx_index := rx_index s' |> <| router := router s' |> /\
    m' = m <| trace ::= fun t => t ++ received ms (live (router s)) |>) s m.
Proof.
  intros Hw Hz Hs. unfold process_rx_buffer. apply wp_bind, wp_get, wp_bind.
  pose proof (length_pending s Hw) as Hl.
  eapply wp_mono; [apply (rx_loop_spec _ s m ms r); [done|lia|done]|].
  intros [] s1 m1 (rt & Hs1 & Hw1 & Hp1 & Hlv & ->). apply wp_bind, wp_get.
  pose proof (rw_index _ Hw1) as Hx. pose proof (length_pending _ Hw1) as Hl1.
  destruct (0 <? frame_start s1) eqn:E; tests.
  - apply wp_modify. assert (Hu : u32 (rx_index s1 - frame_start s1) = rx_index s1 - frame_start s1).
    { unfold RX_BUFFER_SIZE in Hx. rewrite u32_small; [done|unfold is_u32; lia]. }
    rewrite Hu. match goal with |- rx_wf ?z /\ _ => set (s2 := z) end.
    assert (Hb2 : rx_buffer s2 = pending s1 ++ drop (Z.to_nat (rx_index s1 - frame_start s1)) (rx_buffer s1)) by done.
    assert (Hi2 : rx_index s2 = Z.of_nat (length (pending s1))) by (etransitivity; [exact Hu|lia]).
    assert (Hp2 : pending s2 = r).
    { unfold pending at 1, window. rewrite Hi2, Hb2. change (frame_start s2) with 0. rewrite Z.sub_0_r, Nat2Z.id, drop_0.
      by rewrite take_app_length. }
    split_and!; [|done|done|by subst s1|unfold s2; subst s1; clear -Hz; destruct s; cbn in *; by subst|done]. destruct Hw1. constructor.
    + rewrite Hb2, length_app, length_drop. rewrite <- Hl1. lia.
    + rewrite Hb2. apply Forall_app. split; [by apply Forall_take, Forall_drop|by apply Forall_drop].
    + rewrite Hi2. change (frame_start s2) with 0. unfold RX_BUFFER_SIZE in *. lia.
    + done.
    + done.
  - apply wp_ret. split_and!; [done|lia|done|by subst s1|subst s1|done].
    assert (E2 : Z.of_nat (length (pending s)) - Z.of_nat (length r) = 0).
    { cbn in E, Hx. lia. }
    rewrite E2. unfold advanced. destruct s; cbn in *. by rewrite Z.add_0_r.
Qed.

(** What flow control may change. *)
Definition flow_frame (s s' : NetworkHandler) : Prop :=
  s' = s <| net_config := net_config s' |> <| last_tx_time := last_tx_time s' |> <| tx_head := tx_head s' |> /\
  (tx_head s' = tx_head s \/ tx_head s' = tx_tail s) /\
  min_tx_interval (net_config s') = min_tx_interval (net_config s) /\ nh_tx_id (net_config s') = nh_tx_id (net_config s).

Lemma flow_control_spec data s m : (4 <= length data)%nat ->
  wp (process_flow_control data) (fun _ s' m' => flow_frame s s' /\ m' = m /\
    (data !! 1%nat <> Some 2 -> tx_head s' = tx_head s)) s m.
Proof.
  intros Hl. destruct data as [|d0 [|d1 [|d2 [|d3 data]]]]; [cbn in Hl; lia..|].
  unfold process_flow_control. apply wp_bind, wp_ret, wp_bind, wp_ret, wp_bind, wp_ret.
  destruct (d1 =? 0) eqn:E0; [|destruct (d1 =? 1) eqn:E1; [|destruct (d1 =? 2) eqn:E2]].
  - apply wp_modify. split_and!; [|done|done]. split_and!; [by destruct s|by left|done|done].
  - apply wp_bind, wp_bind, wp_get, wp_ret, wp_modify. split_and!; [|done|done].
    split_and!; [by destruct s|by left|done|done].
  - apply wp_modify. tests. subst d1. split_and!; [|done|done]. split_and!; [by destruct s|by right|done|done].
  - apply wp_ret. split_and!; [|done|done]. split_and!; [by destruct s|by left|done|done].
Qed.

(** A received CAN frame: the driver's eight-byte buffer and the length code. *)
Definition can_frame (f : list Z * Z) : Prop := length f.1 = 8%nat /\ Forall is_u8 f.1 /\ 0 <= f.2 <= 8.
Definition payload (f : list Z * Z) : list Z := take (Z.to_nat f.2) f.1.

Lemma append_rx_spec f s m : rx_wf s -> frame_start s = 0 -> can_frame f -> rx_index s + f.2 < RX_BUFFER_SIZE ->
  wp (append_rx f.1 f.2) (fun _ s' m' => rx_wf s' /\ frame_start s' = 0 /\
    pending s' = pending s ++ payload f /\ router s' = router s /\
    flow_frame (s <| rx_buffer := rx_buffer s' |> <| rx_index := rx_index s' |>) s' /\
    m' = m /\ (f.1 !! 1%nat <> Some 2 -> tx_head s' = tx_head s)) s m.
Proof.
  destruct f as [data len]. cbn [fst snd]. intros Hw Hz (Hl & Hb & Hlen) Hroom. cbn [fst snd] in *.
  unfold append_rx. apply wp_bind, wp_get. cbv zeta. pose proof Hw as [Hrl Hrb Hx Hr Hri]. rewrite Hrl.
  rewrite (proj2 (Z.ltb_ge (Z.of_nat (length data)) len)), (proj2 (Z.ltb_ge RX_BUFFER_SIZE _)) by lia. cbn [orb].
  set (bytes := take (Z.to_nat len) data). assert (Hbl : Z.of_nat (length bytes) = len).
  { unfold bytes. rewrite length_take. lia. }
  set (i := Z.to_nat (rx_index s)). apply wp_bind, wp_modify.
  match goal with |- wp _ _ ?z _ => set (s1 := z) end.
  assert (Hi1 : rx_index s1 = rx_index s + len).
  { change (rx_index s1) with (u32 (rx_index s + len)). unfold RX_BUFFER_SIZE in *.
    rewrite u32_small; [done|unfold is_u32; lia]. }
  assert (Hb1 : rx_buffer s1 = take i (rx_buffer s) ++ bytes ++ drop (i + length bytes) (rx_buffer s)) by done.
  assert (Hti : length (take i (rx_buffer s)) = i).
  { rewrite length_take. unfold i, RX_BUFFER_SIZE in *. lia. }
  assert (Hp1 : pending s1 = pending s ++ bytes).
  { unfold pending, window. rewrite Hi1, Hb1. change (frame_start s1) with (frame_start s). rewrite Hz, !Z.sub_0_r, !drop_0.
    rewrite app_assoc. fold i. apply take_app_length'. rewrite length_app, Hti. unfold i. lia. }
  assert (Hw1 : rx_wf s1).
  { constructor; [| | |done|done].
    - rewrite Hb1, !length_app, length_drop, Hti. unfold i, RX_BUFFER_SIZE in *. lia.
    - rewrite Hb1. apply Forall_app. split; [by apply Forall_take|].
      apply Forall_app. split; [by apply Forall_take|by apply Forall_drop].
    - rewrite Hi1. change (frame_start s1) with (frame_start s). lia. }
  assert (Hfin : forall s', flow_frame s1 s' -> rx_wf s' /\ frame_start s' = 0 /\ pending s' = pending s ++ bytes /\
    router s' = router s /\ flow_frame (s <| rx_buffer := rx_buffer s' |> <| rx_index := rx_index s' |>) s').
  { intros s' Hf. pose proof Hf as [E _].
    assert (Hsame : rx_buffer s' = rx_buffer s1 /\ rx_index s' = rx_index s1 /\ frame_start s' = frame_start s1 /\
      router s' = router s1) by (rewrite E; by cbn).
    destruct Hsame as (E1 & E2 & E3 & E4). split_and!; [|by rewrite E3| |by rewrite E4|].
    - destruct Hw1. constructor; by rewrite ?E1, ?E2, ?E3, ?E4.
    - rewrite <- Hp1. unfold pending. by rewrite E1, E2, E3.
    - rewrite E1, E2. exact Hf. }
  assert (Hsame : flow_frame s1 s1) by (split_and!; [by destruct s1|by left|done|done]).
  destruct data as [|b0 data]; [done|]. apply wp_bind, wp_ret. destruct (b0 =? 0x30).
  - eapply wp_mono; [apply (flow_control_spec (b0 :: data)); lia|]. intros [] s' m' (Hf & -> & Hh).
    destruct (Hfin s' Hf) as (? & ? & ? & ? & ?). by split_and!.
  - apply wp_ret. destruct (Hfin s1 Hsame) as (? & ? & ? & ? & ?). by split_and!.
Qed.

Lemma handle_rx_spec f s m : rx_wf s -> frame_start s = 0 -> can_frame f ->
  wp (handle_can_rx f.1 f.2) (fun _ s' m' => rx_wf s' /\ frame_start s' = 0 /\
    pending s' = (if RX_BUFFER_SIZE <=? rx_index s + f.2 then [] else pending s) ++ payload f /\ router s' = router s /\
    flow_frame (s <| rx_buffer := rx_buffer s' |> <| rx_index := rx_index s' |>) s' /\
    m' = m /\ (f.1 !! 1%nat <> Some 2 -> tx_head s' = tx_head s)) s m.
Proof.
  intros Hw Hz Hf. unfold handle_can_rx. apply wp_bind, wp_get, wp_bind. destruct (_ <=? _) eqn:E; tests.
  - apply wp_modify. set (s0 := s <| rx_index := 0 |>).
    assert (Hw0 : rx_wf s0) by (destruct Hw; constructor; try done; cbn; rewrite Hz; unfold RX_BUFFER_SIZE; lia).
    assert (Hp0 : pending s0 = []) by (unfold pending, window; cbn; by rewrite Hz).
    destruct Hf as (Hl & Hb & Hlen).
    eapply wp_mono; [apply (append_rx_spec f s0 m Hw0 Hz); [done|cbn; unfold RX_BUFFER_SIZE; lia]|].
    intros [] s' m' (H1 & H2 & H3 & H4 & H5 & H6 & H7). rewrite Hp0 in H3.
    exact (conj H1 (conj H2 (conj H3 (conj H4 (conj H5 (conj H6 H7)))))).
  - apply wp_ret. by apply append_rx_spec.
Qed.

(** ** Transmission: the ring as a queue *)

(** The slots in use, the oldest first. *)
Definition ring (head tail : nat) : list nat :=
  (fun k => (tail + k) mod TX_QUEUE_SIZE)%nat <$> seq 0 ((head + TX_QUEUE_SIZE - tail) mod TX_QUEUE_SIZE).
Definition slots : list nat := seq 0 TX_QUEUE_SIZE.
Lemma ring_facts h t : (h < TX_QUEUE_SIZE)%nat -> (t < TX_QUEUE_SIZE)%nat ->
  (Nat.modulo (h + 1) TX_QUEUE_SIZE <> t -> ring (Nat.modulo (h + 1) TX_QUEUE_SIZE) t = ring h t ++ [h]) /\
  (h <> t -> ring h t = t :: ring h (Nat.modulo (t + 1) TX_QUEUE_SIZE)) /\
  ring h h = [] /\ (h ∉ ring h t) /\ Forall (fun i => (i < TX_QUEUE_SIZE)%nat) (ring h t) /\
    (length (ring h t) = (TX_QUEUE_SIZE - 1)%nat <-> Nat.modulo (h + 1) TX_QUEUE_SIZE = t).
Proof.
  assert (Hall : Forall (fun h => Forall (fun t =>
    (Nat.modulo (h + 1) TX_QUEUE_SIZE <> t -> ring (Nat.modulo (h + 1) TX_QUEUE_SIZE) t = ring h t ++ [h]) /\
    (h <> t -> ring h t = t :: ring h (Nat.modulo (t + 1) TX_QUEUE_SIZE)) /\
    ring h h = [] /\ (h ∉ ring h t) /\ Forall (fun i => (i < TX_QUEUE_SIZE)%nat) (ring h t) /\
    (length (ring h t) = (TX_QUEUE_SIZE - 1)%nat <-> Nat.modulo (h + 1) TX_QUEUE_SIZE = t)) slots) slots).
  { apply (bool_decide_unpack _). vm_compute. exact I. }
  intros Hh Ht. assert (Hin : forall i, (i < TX_QUEUE_SIZE)%nat -> i ∈ slots) by (intros; apply elem_of_seq; lia).
  exact (proj1 (Forall_forall _ _) (proj1 (Forall_forall _ _) Hall h (Hin h Hh)) t (Hin t Ht)).
Qed.

Record tx_wf (s : NetworkHandler) : Prop := {
  tw_queue : length (tx_queue s) = TX_QUEUE_SIZE;
  tw_slots : Forall (fun q => length q = 256%nat) (tx_queue s);
  tw_lengths : length (tx_lengths s) = TX_QUEUE_SIZE;
  tw_sizes : Forall (fun n => 0 <= n <= 255) (tx_lengths s);
  tw_head : (tx_head s < TX_QUEUE_SIZE)%nat;
  tw_tail : (tx_tail s < TX_QUEUE_SIZE)%nat }.

Definition message_at (s : NetworkHandler) (i : nat) : list Z := take (Z.to_nat (tx_lengths s !!! i)) (tx_queue s !!! i).
Definition queued (s : NetworkHandler) : list (list Z) := message_at s <$> ring (tx_head s) (tx_tail s).

Lemma tx_slot s i : tx_wf s -> (i < TX_QUEUE_SIZE)%nat ->
  exists q n, tx_queue s !! i = Some q /\ tx_lengths s !! i = Some n /\ length q = 256%nat /\ 0 <= n <= 255 /\
    message_at s i = take (Z.to_nat n) q.
Proof.
  intros [Hq Hs Hl Hn _ _] Hi. destruct (lookup_lt_is_Some_2 (tx_queue s) i) as [q Eq]; [lia|].
  destruct (lookup_lt_is_Some_2 (tx_lengths s) i) as [n En]; [lia|]. exists q, n.
  pose proof (Forall_lookup_1 _ _ _ _ Hs Eq). pose proof (Forall_lookup_1 _ _ _ _ Hn En) as Hr. cbn beta in Hr.
  split_and!; [done|done|done|lia|lia|].
  unfold message_at. by rewrite (list_lookup_total_correct _ _ _ Eq), (list_lookup_total_correct _ _ _ En).
Qed.

Lemma send_bytes_spec data len s m : tx_wf s -> can_initialized s = true -> 0 < len <= Z.of_nat (length data) ->
  wp (NetworkHandler_Send (Some data) len) (fun b s' m' => m' = m /\ tx_wf s' /\
    s' = s <| tx_queue := tx_queue s' |> <| tx_lengths := tx_lengths s' |> <| tx_head := tx_head s' |> /\
    if (length (queued s) =? TX_QUEUE_SIZE - 1)%nat then b = false /\ s' = s
    else b = true /\ queued s' = queued s ++ [take (Z.to_nat (Z.min 255 len)) data]) s m.
Proof.
  intros Hw Hi Hd. unfold NetworkHandler_Send. apply wp_bind, wp_get. rewrite Hi. cbn [negb orb].
  rewrite (proj2 (Z.eqb_neq _ _)) by lia. unfold queued at 1. rewrite length_fmap.
  destruct (ring_facts (tx_head s) (tx_tail s)) as (Hpush & _ & _ & Hfresh & Hin & Hfull); [apply Hw..|].
  destruct (Nat.modulo _ _ =? _)%nat eqn:E; tests.
  { apply wp_ret. rewrite (proj2 (Nat.eqb_eq _ _)) by (by apply Hfull). split_and!; try done. by destruct s. }
  rewrite (proj2 (Nat.eqb_neq _ _)) by (intros ?%Hfull; done).
  destruct (tx_slot s (tx_head s) Hw (tw_head s Hw)) as (q & n & Eq & En & Hq & _).
  apply wp_bind. rewrite Eq. apply wp_ret. cbv zeta.
  replace (if 255 <? len then 255 else len) with (Z.min 255 len) by (destruct (255 <? len) eqn:E5; tests; lia).
  set (bytes := take (Z.to_nat (Z.min 255 len)) data).
  assert (Hlen : Z.min 255 len = Z.of_nat (length bytes)) by (unfold bytes; rewrite length_take; lia).
  rewrite (proj2 (Z.ltb_ge _ _)), (proj2 (Z.ltb_ge _ _)) by (rewrite ?Hq; lia). cbn [orb]. set (l' := Z.min 255 len) in *.
  apply wp_bind, wp_modify, wp_ret. match goal with |- _ /\ tx_wf ?z /\ _ => set (s1 := z) end.
  set (slot := bytes ++ drop (length bytes) q).
  assert (Hslot : length slot = 256%nat) by (unfold slot; rewrite length_app, length_drop; lia).
  pose proof Hw as [Hq1 Hs1 Hl1 Hn1 Hh1 Ht1]. split_and!; [done| |by destruct s|done|].
  - constructor; [by cbn; rewrite length_insert| |by cbn; rewrite length_insert| | |done].
    + by apply Forall_insert.
    + apply Forall_insert; [done|lia].
    + by apply Nat.mod_upper_bound.
  - unfold queued. change (tx_head s1) with (Nat.modulo (tx_head s + 1) TX_QUEUE_SIZE).
    change (tx_tail s1) with (tx_tail s). rewrite Hpush, fmap_app by done. f_equal.
    + apply list_fmap_ext. intros k i Hk. unfold message_at.
      assert (i <> tx_head s) by (intros ->; apply Hfresh; by eapply list_elem_of_lookup_2).
      change (tx_queue s1) with (<[tx_head s := slot]> (tx_queue s)).
      change (tx_lengths s1) with (<[tx_head s := l']> (tx_lengths s)).
      by rewrite !list_lookup_total_insert_ne by done.
    + cbn [fmap list_fmap]. f_equal. unfold message_at.
      change (tx_queue s1) with (<[tx_head s := slot]> (tx_queue s)).
      change (tx_lengths s1) with (<[tx_head s := l']> (tx_lengths s)).
      rewrite !list_lookup_total_insert_eq by lia. rewrite Hlen, Nat2Z.id. unfold slot. by rewrite take_app_length.
Qed.

Lemma send_spec data s m : tx_wf s -> can_initialized s = true -> data <> [] ->
  wp (NetworkHandler_Send (Some data) (Z.of_nat (length data))) (fun b s' m' => m' = m /\ tx_wf s' /\
    s' = s <| tx_queue := tx_queue s' |> <| tx_lengths := tx_lengths s' |> <| tx_head := tx_head s' |> /\
    if (length (queued s) =? TX_QUEUE_SIZE - 1)%nat then b = false /\ s' = s
    else b = true /\ queued s' = queued s ++ [take 255 data]) s m.
Proof.
  intros Hw Hi Hd. assert (0 < length data)%nat by (destruct data; [done|cbn; lia]).
  replace (take 255 data) with (take (Z.to_nat (Z.min 255 (Z.of_nat (length data)))) data).
  - apply send_bytes_spec; [done|done|lia].
  - destruct (decide (length data <= 255)%nat); [rewrite !firstn_all2 by lia; done|f_equal; lia].
Qed.

(** The message offered to the hardware by a poll. *)
Definition offered (s : NetworkHandler) : option (list Z) :=
  match queued s with
  | q :: _ => if (min_tx_interval (net_config s) <=? u32 (tick s - last_tx_time s)) && init_done (port s) &&
                 (length q <=? 8)%nat then Some q else None
  | [] => None
  end.
Definition taken (hal : Hal) (s : NetworkHandler) (m : Machine) : bool :=
  match offered s with Some q => HAL_CAN_AddTxMessage hal m (nh_tx_id (net_config s)) q | None => false end.
Definition tx_calls (s : NetworkHandler) : list Call :=
  match offered s with Some q => [call "HAL_CAN_AddTxMessage" (nh_tx_id (net_config s) :: q)] | None => [] end.

(** A poll changes the port, the ring, the receive buffer and the router. *)
Definition poll_post (hal : Hal) (s : NetworkHandler) (m : Machine) (s' : NetworkHandler) (m' : Machine) : Prop :=
  rx_wf s' /\ tx_wf s' /\ frame_start s' = 0 /\ can_initialized s' = true /\ live (router s') = live (router s) /\
  net_config s' = net_config s /\ tick s' = tick s /\ init_done (port s') = init_done (port s) /\
  rx_callback (port s') = rx_callback (port s) /\
  queued s' = (if taken hal s m then tail (queued s) else queued s) /\
  last_tx_time s' = (if taken hal s m then tick s else last_tx_time s) /\
  pending s' = (scan_all nh_check nh_bad (pending s)).2 /\
  m' = m <| trace ::= fun t => t ++ tx_calls s ++
    received (scan_all nh_check nh_bad (pending s)).1 (live (router s)) |>.

Lemma transmit_spec hal id data s m :
  wp (CAN_Transmit hal id data) (fun b s' m' => exists p, s' = s <| port := p |> /\
    init_done p = init_done (port s) /\ rx_callback p = rx_callback (port s) /\
    if init_done (port s) && (length data <=? 8)%nat
    then b = HAL_CAN_AddTxMessage hal m id data /\
         m' = m <| trace ::= fun t => t ++ [call "HAL_CAN_AddTxMessage" (id :: data)] |>
    else b = false /\ m' = m) s m.
Proof.
  unfold CAN_Transmit. apply wp_bind, wp_get. rewrite (Nat.leb_antisym 8).
  destruct (init_done (port s)) eqn:Ei; cbn [negb orb andb];
    [|apply wp_ret; exists (port s); split_and!; [by destruct s|done..]].
  destruct (8 <? length data)%nat eqn:E8; cbn [negb];
    [apply wp_ret; exists (port s); split_and!; [by destruct s|done..]|].
  apply wp_bind. unfold wp at 1, on_machine. apply wp_bind, wp_emit.
  destruct (HAL_CAN_AddTxMessage hal m id data) eqn:Ea.
  - apply wp_bind, wp_modify, wp_ret. by eexists.
  - apply wp_bind. unfold wp at 1, on_machine. apply wp_bind, wp_modify, wp_ret. by eexists.
Qed.

Lemma poll_spec hal s m : rx_wf s -> tx_wf s -> frame_start s = 0 -> can_initialized s = true ->
  wp (NetworkHandler_Process hal) (fun _ => poll_post hal s m) s m.
Proof.
  intros Hr Ht Hz Hc. unfold NetworkHandler_Process. apply wp_bind, wp_get. rewrite Hc. cbn [negb].
  unfold get_system_time. apply wp_bind, wp_bind, wp_get, wp_ret.
  destruct (scan_all nh_check nh_bad (pending s)) as [ms r] eqn:Es.
  assert (Hrx : forall s1 tr, rx_wf s1 -> frame_start s1 = 0 -> pending s1 = pending s -> router s1 = router s ->
    tx_wf s1 -> can_initialized s1 = true -> net_config s1 = net_config s -> tick s1 = tick s ->
    init_done (port s1) = init_done (port s) -> rx_callback (port s1) = rx_callback (port s) ->
    queued s1 = (if taken hal s m then tail (queued s) else queued s) ->
    last_tx_time s1 = (if taken hal s m then tick s else last_tx_time s) -> tr = tx_calls s ->
    wp process_rx_buffer (fun _ => poll_post hal s m) s1 (m <| trace ::= fun t => t ++ tr |>)).
  { intros s1 tr H1 H2 H3 H4 H5 H6 H7 H8 H9 H10 H11 H12 ->.
    eapply wp_mono; [apply (process_rx_spec s1 _ ms r H1 H2); by rewrite H3|].
    intros [] s' m' (Hw' & Hz' & Hp' & Hl' & Hs' & ->). rewrite H4 in *. unfold poll_post. rewrite Es. cbn [fst snd].
    split_and!; [done|rewrite Hs'; destruct H5; by constructor|done|by rewrite Hs'|done|by rewrite Hs'..| | |done|].
    - rewrite <- H11. by rewrite Hs'.
    - rewrite <- H12. by rewrite Hs'.
    - destruct m; cbn. by rewrite app_assoc. }
  assert (Hgo : forall s1, offered s = None -> rx_wf s1 -> frame_start s1 = 0 -> pending s1 = pending s ->
    router s1 = router s -> tx_wf s1 -> can_initialized s1 = true -> net_config s1 = net_config s -> tick s1 = tick s ->
    init_done (port s1) = init_done (port s) -> rx_callback (port s1) = rx_callback (port s) ->
    queued s1 = queued s -> last_tx_time s1 = last_tx_time s ->
    wp process_rx_buffer (fun _ => poll_post hal s m) s1 m).
  { intros s1 Ho H1 H2 H3 H4 H5 H6 H7 H8 H9 H10 H11 H12.
    assert (Hm : m <| trace ::= fun t => t ++ [] |> = m) by (destruct m; cbn; by rewrite app_nil_r).
    unfold taken, tx_calls in Hrx. rewrite Ho in Hrx. specialize (Hrx s1 [] H1 H2 H3 H4 H5 H6 H7 H8 H9 H10 H11 H12 eq_refl).
    by rewrite Hm in Hrx. }
  assert (Hidle : offered s = None -> wp process_rx_buffer (fun _ => poll_post hal s m) s m).
  { intros Ho. by apply Hgo. }
  destruct (ring_facts (tx_head s) (tx_tail s)) as (_ & Hpop & Hnil & _); [apply Ht..|].
  destruct (tx_head s =? tx_tail s)%nat eqn:E; cbn [negb andb]; tests.
  { apply wp_bind, wp_ret, Hidle. unfold offered, queued. by rewrite <- E, Hnil. }
  destruct (tx_slot s (tx_tail s) Ht (tw_tail s Ht)) as (q & n & Eq & En & Hq & Hn & Hmsg).
  assert (Hqs : queued s = message_at s (tx_tail s) :: (message_at s <$> ring (tx_head s) (Nat.modulo (tx_tail s + 1) TX_QUEUE_SIZE))).
  { unfold queued. by rewrite Hpop. }
  destruct (min_tx_interval _ <=? _) eqn:Edue; last first.
  { apply wp_bind, wp_ret, Hidle. unfold offered. by rewrite Hqs, Edue. }
  apply wp_bind, wp_bind. rewrite Eq. apply wp_ret, wp_bind. rewrite En. apply wp_ret, wp_bind. rewrite <- Hmsg.
  eapply wp_mono; [apply transmit_spec|]. intros b s1 m1 (p & -> & Hp1 & Hp2 & Hb).
  assert (Hoff : offered s = if init_done (port s) && (length (message_at s (tx_tail s)) <=? 8)%nat
    then Some (message_at s (tx_tail s)) else None) by (unfold offered; by rewrite Hqs, Edue).
  assert (Hsame : queued (s <| port := p |>) = queued s) by done.
  destruct (init_done (port s) && _) eqn:Ei; destruct Hb as [-> ->]; last first.
  { apply wp_ret. apply Hgo; try done; [by destruct Hr|by destruct Ht]. }
  assert (Htk : taken hal s m = HAL_CAN_AddTxMessage hal m (nh_tx_id (net_config s)) (message_at s (tx_tail s)))
    by (unfold taken; by rewrite Hoff).
  destruct (HAL_CAN_AddTxMessage _ _ _ _) eqn:Ea.
  - apply wp_modify. apply Hrx; try done; rewrite ?Htk; try done.
    + by destruct Hr.
    + destruct Ht. constructor; try done. by apply Nat.mod_upper_bound.
    + unfold queued at 1. rewrite Hqs. done.
    + unfold tx_calls. by rewrite Hoff.
  - apply wp_ret. apply Hrx; try done; rewrite ?Htk; try done; [by destruct Hr|by destruct Ht|].
    unfold tx_calls. by rewrite Hoff.
Qed.

(** ** Runs *)

Inductive NetEvent := Send (data : list Z) | Receive (f : list Z * Z) | Poll | Ticks (n : Z).
Definition net_event (hal : Hal) (e : NetEvent) : M NetworkHandler bool :=
  match e with
  | Send data => NetworkHandler_Send (Some data) (Z.of_nat (length data))
  | Receive f => HAL_CAN_RxFifo0MsgPendingCallback (Some f);; mret true
  | Poll => NetworkHandler_Process hal;; mret true
  | Ticks n => modify (fun s => s <| tick ::= fun t => u32 (t + n) |>);; mret true
  end.
Fixpoint net_events (hal : Hal) (es : list NetEvent) : M NetworkHandler unit :=
  match es with [] => mret tt | e :: es => net_event hal e;; net_events hal es end.

Record nh_wf (s : NetworkHandler) : Prop := {
  nw_rx : rx_wf s; nw_tx : tx_wf s; nw_start : frame_start s = 0; nw_init : can_initialized s = true;
  nw_callback : rx_callback (port s) = true }.

Lemma receive_spec f s m : nh_wf s -> can_frame f ->
  wp (HAL_CAN_RxFifo0MsgPendingCallback (Some f)) (fun _ s' m' => nh_wf s' /\ m' = m /\
    pending s' = (if RX_BUFFER_SIZE <=? rx_index s + f.2 then [] else pending s) ++ payload f /\
    live (router s') = live (router s) /\ (queued s = [] -> queued s' = []) /\
    (f.1 !! 1%nat <> Some 2 -> queued s' = queued s)) s m.
Proof.
  intros [Hr Ht Hz Hi Hc] Hf. destruct f as [data len]. unfold HAL_CAN_RxFifo0MsgPendingCallback.
  apply wp_bind, wp_modify, wp_bind, wp_get.
  match goal with |- wp _ _ ?z _ => set (s1 := z) end. change (rx_callback (port s1)) with (rx_callback (port s)). rewrite Hc.
  assert (Hr1 : rx_wf s1) by by destruct Hr.
  eapply wp_mono; [apply (handle_rx_spec (data, len) s1 m Hr1 Hz Hf)|].
  intros [] s' m' (Hw' & Hz' & Hp' & Hro' & (Hs' & Hhead & _) & -> & Hh').
  assert (Hq : tx_queue s' = tx_queue s /\ tx_lengths s' = tx_lengths s /\ tx_tail s' = tx_tail s /\
    can_initialized s' = true /\ rx_callback (port s') = true) by (rewrite Hs'; by cbn).
  destruct Hq as (Hq1 & Hq2 & Hq3 & Hq4 & Hq5). cbn in Hhead.
  assert (Htx : tx_wf s').
  { destruct Ht. constructor; rewrite ?Hq1, ?Hq2, ?Hq3; try done. destruct Hhead as [-> | ->]; done. }
  split_and!; [by constructor|done|done|by rewrite Hro'| |].
  - unfold queued, message_at. rewrite Hq1, Hq2, Hq3. destruct Hhead as [-> | ->]; [done|]. intros _.
    destruct (ring_facts (tx_tail s) (tx_tail s)) as (_ & _ & -> & _); [apply Ht..|]. done.
  - intros Hn. unfold queued, message_at. by rewrite Hq1, Hq2, Hq3, (Hh' Hn).
Qed.

(** ** Theorems *)

(** The checksum of the scanner on the frame of a message of at most 253 bytes. *)
Lemma nh_check_frame msg l : (length msg <= 253)%nat ->
  nh_check (Z.of_nat (length msg)) (frame msg ++ l) = byte_sum (0x55 :: Z.of_nat (length msg) :: msg).
Proof.
  intros Hl. unfold nh_check. rewrite u8_small by (unfold is_u8; lia). f_equal. unfold frame.
  rewrite <- app_assoc. apply take_app_length'. cbn [length]. lia.
Qed.

(** The ring of outgoing messages is a queue of at most fifteen: sending appends the first
    255 bytes of the message unless it is full, a poll takes the oldest one off exactly when
    the interval has passed, it has at most eight bytes and the hardware accepts it.
    The polling also scans what was received; neither ever leaves the arrays. *)
Theorem network_refines_queue hal s m : nh_wf s ->
  (forall data, data <> [] -> wp (NetworkHandler_Send (Some data) (Z.of_nat (length data))) (fun b s' m' =>
     nh_wf s' /\ m' = m /\ pending s' = pending s /\
     (b, queued s') = if (length (queued s) =? TX_QUEUE_SIZE - 1)%nat then (false, queued s)
                      else (true, queued s ++ [take 255 data])) s m) /\
  wp (NetworkHandler_Process hal) (fun _ s' m' => nh_wf s' /\
     queued s' = (if taken hal s m then tail (queued s) else queued s) /\
     pending s' = (scan_all nh_check nh_bad (pending s)).2 /\
     trace m' = trace m ++ tx_calls s ++ received (scan_all nh_check nh_bad (pending s)).1 (live (router s))) s m.
Proof.
  intros [Hr Ht Hz Hi Hc]. split.
  - intros data Hd. eapply wp_mono; [by apply send_spec|]. intros b s' m' (-> & Hw & Hs' & Hq).
    split_and!; [|done|rewrite Hs'; by cbn|].
    + constructor; [|done|rewrite Hs'; by cbn..]. rewrite Hs'. by destruct Hr.
    + destruct (_ =? _)%nat; destruct Hq as [-> Hq]; [by subst s'|by rewrite Hq].
  - eapply wp_mono; [by apply poll_spec|]. intros _ s' m' (? & ? & ? & ? & ? & ? & ? & ? & Hcb & ? & ? & ? & ->).
    split_and!; [constructor; congruence|done|done|done].
Qed.

(** A prefix of a stream that is shorter than one of its frames. *)
Definition unfinished (p : list Z) (ms : list (list Z)) : Prop :=
  p = [] \/ exists msg, msg ∈ ms /\ (length p < length msg + 4)%nat.
Lemma unfinished_all p ms : unfinished p ms -> p = concat (frame <$> ms) -> p = [] /\ ms = [].
Proof.
  intros Hu ->. destruct ms as [|msg ms]; [done|]. exfalso. destruct Hu as [E|(x & Hx & Hl)].
  - apply (f_equal length) in E. cbn in E. lia.
  - apply list_elem_of_split in Hx as (l1 & l2 & Hx). rewrite Hx, fmap_app, fmap_cons, concat_app in Hl.
    cbn [concat] in Hl. rewrite !length_app, length_frame in Hl. lia.
Qed.

Lemma stream_loop hal fs : forall s m ms,
  nh_wf s -> queued s = [] -> Forall can_frame fs -> Forall (fun msg => (length msg <= 253)%nat) ms ->
  pending s ++ concat (payload <$> fs) = concat (frame <$> ms) -> unfinished (pending s) ms ->
  wp (net_events hal (concat ((fun f => [Receive f; Poll]) <$> fs))) (fun _ s' m' =>
    nh_wf s' /\ pending s' = [] /\ trace m' = trace m ++ received ms (live (router s))) s m.
Proof.
  induction fs as [|f fs IH]; intros s m ms Hw Hq Hfs Hms E Hu.
  - cbn in E. rewrite app_nil_r in E. destruct (unfinished_all _ _ Hu E) as [Hp ->]. apply wp_ret.
    split_and!; [done|done|]. by rewrite app_nil_r.
  - inversion Hfs as [|? ? Hf Hfs']; subst. cbn [fmap list_fmap concat] in E. rewrite app_assoc in E.
    assert (Hroom : (RX_BUFFER_SIZE <=? rx_index s + f.2) = false).
    { apply Z.leb_gt. pose proof (length_pending s (nw_rx s Hw)) as Hl. rewrite (nw_start s Hw) in Hl.
      destruct Hf as (_ & _ & Hf2). unfold RX_BUFFER_SIZE. destruct Hu as [Hp|(x & Hx & Hlx)].
      - rewrite Hp in Hl. cbn in Hl. lia.
      - rewrite Forall_forall in Hms. apply Hms in Hx. lia. }
    destruct (scan_stream nh_check nh_bad _ nh_check_frame ms _ _ Hms E) as (ms1 & ms2 & r & -> & Hscan & Hr & Hu').
    apply Forall_app in Hms as [_ Hms2]. cbn [fmap list_fmap concat app net_events].
    apply wp_bind. cbn [net_event]. apply wp_bind. eapply wp_mono; [by apply receive_spec|].
    intros _ s1 m1 (Hw1 & -> & Hp1 & Hlv1 & Hq1 & _). rewrite Hroom in Hp1. apply wp_ret, wp_bind.
    cbn [net_event]. apply wp_bind. eapply wp_mono; [apply poll_spec; apply Hw1|].
    intros _ s2 m2 (Hr2 & Ht2 & Hz2 & Hc2 & Hlv2 & _ & _ & _ & Hcb2 & Hq2 & _ & Hp2 & ->). apply wp_ret.
    assert (Hoff : offered s1 = None) by (unfold offered; by rewrite (Hq1 Hq)).
    unfold taken in Hq2. rewrite Hoff, (Hq1 Hq) in Hq2. rewrite Hp1, Hscan in Hp2. cbn [snd] in Hp2.
    assert (Hw2 : nh_wf s2) by (constructor; [done|done|done|done|rewrite Hcb2; apply Hw1]).
    eapply wp_mono; [apply (IH s2 _ ms2 Hw2 Hq2 Hfs' Hms2); [by rewrite Hp2|by rewrite Hp2]|].
    intros _ s' m' (Hw' & Hp' & Ht'). split_and!; [done|done|]. rewrite Ht'. unfold tx_calls. rewrite Hoff, Hp1, Hscan.
    cbn. rewrite Hlv2, Hlv1. unfold received. by rewrite fmap_app, concat_app, app_assoc.
Qed.

(** A stream of frames of messages of at most 253 bytes, cut into CAN frames in any way
    and polled after each of them, is delivered: the router is given exactly those messages
    in that order, and nothing is left in the buffer. *)
Theorem network_stream_delivered hal ms fs s m :
  nh_wf s -> queued s = [] -> pending s = [] -> Forall can_frame fs ->
  Forall (fun msg => (length msg <= 253)%nat) ms -> concat (payload <$> fs) = concat (frame <$> ms) ->
  wp (net_events hal (concat ((fun f => [Receive f; Poll]) <$> fs))) (fun _ s' m' =>
    nh_wf s' /\ pending s' = [] /\ trace m' = trace m ++ received ms (live (router s))) s m.
Proof.
  intros Hw Hq Hp Hfs Hms E. apply stream_loop; [done..| |by left]. by rewrite Hp.
Qed.

(** Transmissions among the calls of a run. *)
Definition is_transmission (c : Call) : bool := let '(call f _) := c in String.eqb f "HAL_CAN_AddTxMessage".
Definition keeps_queue (e : NetEvent) : Prop :=
  match e with
  | Send data => data <> []
  | Receive f => can_frame f /\ f.1 !! 1%nat <> Some 2
  | _ => True
  end.

Lemma blocked_step hal e q l s m : nh_wf s -> (8 < length q)%nat -> queued s = q :: l -> keeps_queue e ->
  wp (net_event hal e) (fun _ s' m' => nh_wf s' /\ (exists l', queued s' = q :: l') /\
    exists calls, trace m' = trace m ++ calls /\ Forall (fun c => is_transmission c = false) calls) s m.
Proof.
  intros Hw Hq Hl He. pose proof Hw as [Hr Ht Hz Hi Hc]. destruct e as [data|f| |n]; cbn [net_event].
  - eapply wp_mono; [by apply send_spec|]. intros b s' m' (-> & Hw' & Hs' & Hb). split_and!.
    + constructor; [|done|rewrite Hs'; by cbn..]. rewrite Hs'. by destruct Hr.
    + destruct (_ =? _)%nat; destruct Hb as [_ Hb]; [subst s'; by exists l|]. rewrite Hb, Hl. by eexists.
    + exists []. by rewrite app_nil_r.
  - destruct He as [Hf Hn]. apply wp_bind. eapply wp_mono; [by apply receive_spec|].
    intros _ s1 m1 (Hw1 & -> & _ & _ & _ & Hq1). apply wp_ret. split_and!; [done|rewrite Hq1 by done; by exists l|].
    exists []. by rewrite app_nil_r.
  - apply wp_bind. eapply wp_mono; [by apply poll_spec|].
    intros _ s2 m2 (Hr2 & Ht2 & Hz2 & Hc2 & _ & _ & _ & _ & Hcb2 & Hq2 & _ & _ & ->). apply wp_ret.
    assert (Hoff : offered s = None).
    { unfold offered. rewrite Hl, (proj2 (Nat.leb_gt _ _)) by done. by rewrite andb_false_r. }
    unfold taken in Hq2. rewrite Hoff in Hq2. split_and!; [constructor; congruence|rewrite Hq2; by exists l|].
    unfold tx_calls. rewrite Hoff. eexists. split; [reflexivity|]. cbn [app]. unfold received.
    apply Forall_concat, Forall_fmap, Forall_true. intros [|a [|b [|c [|d x]]]]; [constructor..|].
    unfold compose, deliveries, forwarded. destruct (_ || _); [constructor|].
    destruct (TEMP_BUFFER_SIZE <? _); [constructor|]. by apply Forall_replicate.
  - apply wp_bind, wp_modify, wp_ret. split_and!; [|by exists l|exists []; by rewrite app_nil_r].
    constructor; [by destruct Hr|by destruct Ht|done..].
Qed.

(** The hardware sends at most eight bytes at a time, and the queue is not split: once a
    longer message is the oldest in the queue, nothing is transmitted any more, whatever is
    sent, received and polled, unless the other side reports an overflow. *)
Theorem long_message_blocks hal es s m q l :
  nh_wf s -> queued s = q :: l -> (8 < length q)%nat -> Forall keeps_queue es ->
  wp (net_events hal es) (fun _ s' m' => nh_wf s' /\ (exists l', queued s' = q :: l') /\
    exists calls, trace m' = trace m ++ calls /\ Forall (fun c => is_transmission c = false) calls) s m.
Proof.
  intros Hw Hl Hq. revert s m l Hw Hl. induction es as [|e es IH]; intros s m l Hw Hl Hes.
  - apply wp_ret. split_and!; [done|by exists l|]. exists []. by rewrite app_nil_r.
  - inversion Hes as [|? ? He Hes']; subst. cbn [net_events]. apply wp_bind.
    eapply wp_mono; [by eapply blocked_step|]. intros _ s1 m1 (Hw1 & (l1 & Hl1) & c1 & Ht1 & Hc1).
    eapply wp_mono; [by eapply IH|]. intros _ s2 m2 (Hw2 & Hl2 & c2 & Ht2 & Hc2). split_and!; [done|done|].
    exists (c1 ++ c2). rewrite Ht2, Ht1, app_assoc. split; [done|]. by apply Forall_app.
Qed.

(** A response of at most 251 bytes is queued as its frame. *)
Lemma response_framed data s m : nh_wf s -> (length data <= 251)%nat ->
  wp (send_diagnostic_response data) (fun b s' _ =>
    (b, queued s') = if (length (queued s) =? TX_QUEUE_SIZE - 1)%nat then (false, queued s)
                     else (true, queued s ++ [frame data])) s m.
Proof.
  intros Hw Hl. unfold send_diagnostic_response. cbv zeta. rewrite (proj2 (Z.ltb_ge _ _)) by lia.
  rewrite (u8_small (Z.of_nat (length data))) by (unfold is_u8; lia).
  set (head := [0x55; Z.of_nat (length data)] ++ data). assert (Hh : length head = (length data + 2)%nat) by (cbn; lia).
  assert (Hc : calc_checksum (head ++ replicate (270 - length head) 0) (Z.of_nat (length data) + 2) = Some (byte_sum head)).
  { unfold calc_checksum. rewrite u8_small by (unfold is_u8; lia).
    rewrite (proj2 (Z.ltb_ge _ _)) by (rewrite length_app; lia). unfold byte_sum. do 2 f_equal. apply take_app_length'. lia. }
  apply wp_bind. rewrite Hc. apply wp_ret.
  eapply wp_mono; [apply send_bytes_spec; [apply Hw|apply Hw|rewrite !length_app, length_replicate; cbn [length]; lia]|].
  intros b s' m' (-> & _ & _ & Hb). destruct (_ =? _)%nat; destruct Hb as [-> Hb]; [by subst|]. rewrite Hb. do 3 f_equal.
  unfold frame. fold head. rewrite app_assoc. apply take_app_length'. rewrite length_app. cbn [length]. lia.
Qed.
(** A flow-control frame that asks to wait puts the time of the last transmission into the
    future: the elapsed time wraps round and the next message is due at once. *)
Lemma wait_sends_at_once data s m : data !! 1%nat = Some 1 -> (4 <= length data)%nat -> is_u32 (tick s) ->
  0 <= min_tx_interval (net_config s) <= 2 ^ 32 - 100 ->
  wp (process_flow_control data) (fun _ s' _ =>
    (min_tx_interval (net_config s') <=? u32 (tick s' - last_tx_time s')) = true) s m.
Proof.
  intros Hd Hl Ht Hm. destruct data as [|d0 [|d1 [|d2 [|d3 data]]]]; [cbn in Hl; lia..|].
  injection Hd as ->. unfold process_flow_control. apply wp_bind, wp_ret, wp_bind, wp_ret, wp_bind, wp_ret.
  change (1 =? 0) with false. change (1 =? 1) with true. cbv iota. apply wp_bind, wp_bind, wp_get, wp_ret, wp_modify.
  cbn. apply Z.leb_le. unfold u32, is_u32 in *. rewrite Zminus_mod_idemp_r.
  replace (tick s - (tick s + 100)) with (-100) by lia. change (-100 mod 2 ^ 32) with (2 ^ 32 - 100). lia.
Qed.

(** ** Witnesses *)

Definition example_router_ctx : DiagRouterContext :=
  mkRouter ([mkRoute 0x01 0xF1 ALL_SERVICES true] ++ replicate 15 route_zero) 1 (replicate 512 0) true.
Definition example_network : NetworkHandler :=
  mkNetwork (replicate 2048 0) 0 0 (replicate 16 (replicate 256 0)) (replicate 16 0) 0 0
    (mkNetworkConfig 500000 0x7E8 10 0 0) true 0 1000 (mkPort true true 0 0 0 0) example_router_ctx.
Definition example_hal : Hal := mkHal true true (fun _ _ _ => true) (fun _ => 0).
Lemma example_router_ctx_wf : router_wf example_router_ctx.
Proof.
  constructor; [done|vm_compute; lia|done|vm_compute; repeat constructor; set_solver|vm_compute; by repeat constructor].
Qed.
Lemma example_network_wf : nh_wf example_network.
Proof.
  constructor; [|..|done|done|done].
  - constructor; [done|apply Forall_replicate; vm_compute; by split|vm_compute; by split|exact example_router_ctx_wf|done].
  - constructor; [done|by apply Forall_replicate|done|by apply Forall_replicate; lia|vm_compute; lia|vm_compute; lia].
Qed.

Lemma network_refines_queue_witness :
  wp (NetworkHandler_Send (Some [1; 2; 3]) 3) (fun b s' m' =>
     nh_wf s' /\ m' = boot /\ pending s' = [] /\ (b, queued s') = (true, [[1; 2; 3]])) example_network boot.
Proof. exact (proj1 (network_refines_queue example_hal example_network boot example_network_wf) [1; 2; 3] ltac:(done)). Defined.

Lemma network_stream_delivered_witness :
  let msg := [0x01; 0xF1; 0x22; 0xF1; 0x90] in
  let fs := [([0x55; 5; 0x01; 0xF1; 0x22; 0xF1; 0x90; 0xEF], 6); ([0x90; 0xEF; 0xAA; 0; 0; 0; 0; 0], 3)] in
  wp (net_events example_hal (concat ((fun f => [Receive f; Poll]) <$> fs))) (fun _ s' m' =>
    nh_wf s' /\ pending s' = [] /\ trace m' = [call "DiagCore_HandleMessage" msg]) example_network boot.
Proof.
  intros msg fs. apply (network_stream_delivered example_hal [msg] fs example_network boot).
  - exact example_network_wf.
  - reflexivity.
  - reflexivity.
  - repeat constructor; vm_compute; intros; congruence.
  - constructor; [cbn; lia|constructor].
  - vm_compute. reflexivity.
Defined.

Definition long_queue : NetworkHandler :=
  example_network <| tx_lengths ::= <[0%nat := 9]> |> <| tx_head := 1%nat |>.
Lemma long_queue_wf : nh_wf long_queue.
Proof.
  destruct example_network_wf as [[] [] ? ? ?]. constructor; [by constructor| |done..]. constructor; try done.
  - by apply Forall_insert.
  - vm_compute. lia.
Qed.
Lemma long_message_blocks_witness :
  let es := [Poll; Send [7]; Ticks 100; Receive ([0x30; 0; 0; 0; 0; 0; 0; 0], 8); Poll] in
  wp (net_events example_hal es) (fun _ s' m' => nh_wf s' /\ (exists l', queued s' = replicate 9 0 :: l') /\
    exists calls, trace m' = [] ++ calls /\ Forall (fun c => is_transmission c = false) calls) long_queue boot.
Proof.
  intros es. apply (long_message_blocks example_hal es long_queue boot (replicate 9 0) []).
  - exact long_queue_wf.
  - reflexivity.
  - cbn. lia.
  - unfold es. repeat constructor; vm_compute; intros; congruence.
Defined.
