(* ===== verification/MessageHandler.v ===== *)
(** * Message handler of the network layer

    [src/runtime/network/message_handler.c]: sixteen messages that are sent again until
    they are given up, and a second scanner for received frames, over the network handler
    of [NetworkHandler.v], whose statics the state holds.  [TIMER_GetMs] of
    [src/hardware/timer_hw.c] is [HAL_GetTick], the [tick] of the network handler. *)

From S2P Require Import Prelude Machine DiagRouter NetworkHandler.

Definition MAX_PENDING_MSGS : nat := 16.
Definition MSG_TIMEOUT_MS : Z := 150.
Definition MSG_SIZE : Z := 256.
Definition MH_BUFFER_SIZE : Z := 512.

Record PendingMessage := mkPending {
  pm_data : list Z; pm_length : Z; pm_timestamp : Z; pm_retries : Z; pm_active : bool }.
#[export] Instance eta_PendingMessage : Eta PendingMessage := fun p =>
  mkPending (pm_data p) (pm_length p) (pm_timestamp p) (pm_retries p) (pm_active p).
Definition pending_zero : PendingMessage := mkPending (replicate (Z.to_nat MSG_SIZE) 0) 0 0 0 false.

Record MessageHandler := mkMessages {
  pending_msgs : list PendingMessage; mh_buffer : list Z; rx_len : Z; msg_id : Z;
  msg_handler_init : bool; last_cleanup : Z; net : NetworkHandler }.
#[export] Instance eta_MessageHandler : Eta MessageHandler := fun s =>
  mkMessages (pending_msgs s) (mh_buffer s) (rx_len s) (msg_id s) (msg_handler_init s) (last_cleanup s) (net s).

#[global] Arguments pending_zero : simpl never.

Definition on_net {A} : M NetworkHandler A -> M MessageHandler A := zoom net (fun n s => s <| net := n |>).
Definition TIMER_GetMs : M MessageHandler Z := s ← get; mret (tick (net s)).
Definition lift {A} (o : option A) : M MessageHandler A := match o with Some a => mret a | None => fault end.

Definition MessageHandler_Init : M MessageHandler bool :=
  modify (fun s => s <| pending_msgs := replicate MAX_PENDING_MSGS pending_zero |> <| rx_len := 0 |> <| msg_id := 0 |>
                     <| msg_handler_init := true |>);;
  mret true.

Definition find_free_slot (s : MessageHandler) : option nat :=
  fst <$> list_find (fun p => pm_active p = false) (pending_msgs s).

Definition too_old (now : Z) (p : PendingMessage) : bool := pm_active p && (MSG_TIMEOUT_MS <? u32 (now - pm_timestamp p)).
Definition cleanup_old_messages : M MessageHandler unit :=
  current_time ← TIMER_GetMs;
  modify (fun s => s <| pending_msgs ::= fmap (fun p =>
    if too_old current_time p then p <| pm_active := false |> else p) |>).

Definition MessageHandler_Send (data : option (list Z)) : M MessageHandler bool :=
  s ← get;
  match data with
  | None => mret false
  | Some data =>
      if negb (msg_handler_init s) || (length data =? 0)%nat then mret false else
      slot ← match find_free_slot s with
             | Some i => mret (Some i)
             | None => cleanup_old_messages;; s ← get; mret (find_free_slot s)
             end;
      match slot with
      | None => mret false
      | Some i =>
          s ← get;
          p ← lift (pending_msgs s !! i);
          if (length (pm_data p) <? length data)%nat then fault else
          now ← TIMER_GetMs;
          modify (fun s => s <| pending_msgs ::= <[i := mkPending (data ++ drop (length data) (pm_data p))
            (Z.of_nat (length data)) now 0 true]> |>);;
          on_net (NetworkHandler_Send (Some data) (Z.of_nat (length data)))
      end
  end.

(** One slot of the loop of [MessageHandler_Process]. *)
Definition process_slot (current_time : Z) (i : nat) : M MessageHandler unit :=
  s ← get;
  p ← lift (pending_msgs s !! i);
  if negb (pm_active p) then mret tt else
  let age := u32 (current_time - pm_timestamp p) in
  if 50 * (pm_retries p + 1) <? age then
    if pm_retries p <? 3 then
      on_net (NetworkHandler_Send (Some (pm_data p)) (pm_length p));;
      modify (fun s => s <| pending_msgs ::= <[i := p <| pm_timestamp := current_time |>
        <| pm_retries := u8 (pm_retries p + 1) |>]> |>)
    else modify (fun s => s <| pending_msgs ::= <[i := p <| pm_active := false |>]> |>)
  else mret tt.
Fixpoint process_slots (current_time : Z) (k i : nat) : M MessageHandler unit :=
  match k with O => mret tt | S k => process_slot current_time i;; process_slots current_time k (S i) end.
Definition MessageHandler_Process : M MessageHandler unit :=
  s ← get;
  if negb (msg_handler_init s) then mret tt else
  current_time ← TIMER_GetMs;
  (if 1000 <? u32 (current_time - last_cleanup s) then
     cleanup_old_messages;; modify (fun s => s <| last_cleanup := current_time |>)
   else mret tt);;
  process_slots current_time MAX_PENDING_MSGS 0.

Definition mh_byte (s : MessageHandler) (i : Z) : option Z := if i <? 0 then None else mh_buffer s !! Z.to_nat i.
(** The loop over the buffer; the answer is the number of bytes that are done with. *)
Fixpoint mh_loop (fuel : nat) (processed : Z) : M MessageHandler Z :=
  s ← get;
  let available := u32 (rx_len s - processed) in
  if available <? 4 then mret processed else
  match fuel with
  | O => fault
  | S fuel =>
      b ← lift (mh_byte s processed);
      if b =? 0x55 then
        msg_len ← lift (mh_byte s (processed + 1));
        if msg_len + 4 <=? available then
          let checksum := byte_sum (take (Z.to_nat (msg_len + 2)) (drop (Z.to_nat processed) (mh_buffer s))) in
          c ← lift (mh_byte s (processed + msg_len + 2));
          if checksum =? c then
            on_net (deliver (take (Z.to_nat msg_len) (drop (Z.to_nat (processed + 2)) (mh_buffer s))));;
            mh_loop fuel (u32 (processed + (msg_len + 4)))
          else mh_loop fuel (u32 (processed + 1))
        else mret processed
      else mh_loop fuel (u32 (processed + 1))
  end.
Definition mh_process_rx_buffer : M MessageHandler unit :=
  s ← get;
  processed ← mh_loop (Z.to_nat (rx_len s)) 0;
  if 0 <? processed then
    s ← get;
    if processed <? rx_len s then
      let n := Z.to_nat (rx_len s - processed) in
      modify (fun s => s <| mh_buffer ::= fun b => take n (drop (Z.to_nat processed) b) ++ drop n b |>
                         <| rx_len ::= fun l => u16 (l - processed) |>)
    else modify (fun s => s <| rx_len := 0 |>)
  else mret tt.

Definition MessageHandler_HandleResponse (data : option (list Z)) : M MessageHandler unit :=
  s ← get;
  match data with
  | None => mret tt
  | Some data =>
      if negb (msg_handler_init s) || (length data =? 0)%nat then mret tt else
      let len := Z.of_nat (length data) in
      if MH_BUFFER_SIZE <? rx_len s + len then modify (fun s => s <| rx_len := 0 |>) else
      let i := Z.to_nat (rx_len s) in
      modify (fun s => s <| mh_buffer ::= fun b => take i b ++ data ++ drop (i + length data) b |>
                         <| rx_len ::= fun n => u16 (n + len) |>);;
      mh_process_rx_buffer
  end.

Definition get_msg_count (s : MessageHandler) : nat := length (filter (fun p => pm_active p = true) (pending_msgs s)).
Definition check_message_timeout (timestamp : Z) : M MessageHandler bool :=
  t ← TIMER_GetMs; mret (MSG_TIMEOUT_MS <? u32 (t - timestamp)).

(** ** Reception *)

Definition mh_check (len : Z) (l : list Z) : Z := byte_sum (take (Z.to_nat (len + 2)) l).
Definition mh_bad (_ : Z) : nat := 0.
Definition buffered (s : MessageHandler) : list Z := window (mh_buffer s) 0 (rx_len s).

Record mh_wf (s : MessageHandler) : Prop := {
  mw_init : msg_handler_init s = true;
  mw_buffer : Z.of_nat (length (mh_buffer s)) = MH_BUFFER_SIZE;
  mw_bytes : Forall is_u8 (mh_buffer s);
  mw_len : 0 <= rx_len s <= MH_BUFFER_SIZE;
  mw_net : nh_wf (net s) }.

Lemma wp_mh_lift {A} (o : option A) a (Q : A -> MessageHandler -> Machine -> Prop) s m :
  o = Some a -> Q a s m -> wp (lift o) Q s m.
Proof. by intros ->. Qed.
Lemma deliver_net data s m : mh_wf s ->
  wp (on_net (deliver data)) (fun _ s' m' => s' = s <| net := net s' |> /\ mh_wf s' /\
    live (router (net s')) = live (router (net s)) /\ queued (net s') = queued (net s) /\
    m' = m <| trace ::= fun t => t ++ deliveries (live (router (net s))) data |>) s m.
Proof.
  intros [Hi Hb Hy Hl [Hr Ht Hz Hc Hcb]]. apply wp_zoom. eapply wp_mono; [by apply deliver_spec; apply Hr|].
  intros [] n m' (r & -> & Hrw & Hri & Hlv & ->). split_and!; [done| |done|done|done].
  constructor; try done. destruct Hr. constructor; [by constructor|by destruct Ht|done|done|done].
Qed.

Lemma mh_loop_spec fuel : forall s m p ms r, mh_wf s -> 0 <= p <= rx_len s ->
  (length (window (mh_buffer s) p (rx_len s)) <= fuel)%nat ->
  scan_all mh_check mh_bad (window (mh_buffer s) p (rx_len s)) = (ms, r) ->
  wp (mh_loop fuel p) (fun q s' m' => s' = s <| net := net s' |> /\ mh_wf s' /\ 0 <= q <= rx_len s /\
    window (mh_buffer s) q (rx_len s) = r /\ live (router (net s')) = live (router (net s)) /\
    queued (net s') = queued (net s) /\
    m' = m <| trace ::= fun t => t ++ received ms (live (router (net s))) |>) s m.
Proof.
  induction fuel as [|fuel IH]; intros s m p ms r Hw Hp Hf Hs.
  all: pose proof (mw_len s Hw) as Hx; unfold MH_BUFFER_SIZE in Hx.
  all: assert (Hn : rx_len s <= Z.of_nat (length (mh_buffer s))) by (rewrite (mw_buffer s Hw); apply Hw).
  all: set (w := window (mh_buffer s) p (rx_len s)) in *; pose proof (length_window (mh_buffer s) p (rx_len s) Hp Hn) as Hl; fold w in Hl.
  all: assert (Hav : u32 (rx_len s - p) = Z.of_nat (length w)) by (rewrite u32_small; [lia|unfold is_u32; lia]).
  all: assert (Hstop : (ms, r) = ([], w) -> wp (mret p) (fun q s' m' => s' = s <| net := net s' |> /\ mh_wf s' /\
    0 <= q <= rx_len s /\ window (mh_buffer s) q (rx_len s) = r /\ live (router (net s')) = live (router (net s)) /\
    queued (net s') = queued (net s) /\
    m' = m <| trace ::= fun t => t ++ received ms (live (router (net s))) |>) s m).
  1, 3: intros [= -> ->]; apply wp_ret; split_and!; try done; [by destruct s|lia|lia|destruct m; cbn; by rewrite app_nil_r].
  - cbn [mh_loop]. apply wp_bind, wp_get. rewrite Hav, (proj2 (Z.ltb_lt _ _)) by lia. apply Hstop.
    by rewrite scan_short in Hs by lia.
  - cbn [mh_loop]. apply wp_bind, wp_get. cbv zeta. rewrite Hav.
    destruct (_ <? 4) eqn:E4; tests; [apply Hstop; by rewrite scan_short in Hs by lia|].
    destruct w as [|b [|len rest]] eqn:Ep; [cbn [length] in E4; lia..|].
    pose proof Ep as Ew. unfold w in Ew.
    assert (Hb : is_u8 b /\ is_u8 len).
    { assert (Hb : Forall is_u8 (b :: len :: rest)) by (rewrite <- Ew; apply Forall_take, Forall_drop, Hw).
      by inversion Hb as [|? ? ? Hb']; inversion Hb'. }
    destruct Hb as [Hb Hlen]. unfold is_u8 in Hb, Hlen. rewrite scan_cons in Hs by lia.
    assert (Hat : forall i x, (b :: len :: rest) !! Z.to_nat i = Some x -> 0 <= i < Z.of_nat (length (b :: len :: rest)) ->
      mh_byte s (p + i) = Some x).
    { intros i x Hi Hr. unfold mh_byte. rewrite (proj2 (Z.ltb_ge _ _)) by lia.
      by rewrite (lookup_window _ p (rx_len s)), Ew by (done || lia). }
    assert (Hnext : forall j, 0 < j <= Z.of_nat (length (b :: len :: rest)) -> u32 (p + j) = p + j /\
      0 <= p + j <= rx_len s /\ window (mh_buffer s) (p + j) (rx_len s) = drop (Z.to_nat j) (b :: len :: rest)).
    { intros j Hj. rewrite u32_small by (unfold is_u32; lia). split_and!; [done|lia|lia|].
      rewrite window_advance, Ew by (done || lia). done. }
    assert (Hskip : forall j, 0 < j <= Z.of_nat (length (b :: len :: rest)) ->
      scan_all mh_check mh_bad (drop (Z.to_nat j) (b :: len :: rest)) = (ms, r) ->
      wp (mh_loop fuel (u32 (p + j))) (fun q s' m' => s' = s <| net := net s' |> /\ mh_wf s' /\
        0 <= q <= rx_len s /\ window (mh_buffer s) q (rx_len s) = r /\ live (router (net s')) = live (router (net s)) /\
        queued (net s') = queued (net s) /\
        m' = m <| trace ::= fun t => t ++ received ms (live (router (net s))) |>) s m).
    { intros j Hj Hsj. destruct (Hnext j Hj) as (-> & Hj1 & Hj2). apply IH; [done|done| |by rewrite Hj2].
      rewrite Hj2, length_drop. lia. }
    eapply wp_bind, (wp_mh_lift _ b); [rewrite <- (Z.add_0_r p); apply Hat; [done|lia]|].
    destruct (b =? 0x55) eqn:E55; cbn [negb] in Hs; [|apply Hskip; [lia|done]].
    eapply wp_bind, (wp_mh_lift _ len); [apply Hat; [done|lia]|].
    destruct (len + 4 <=? _) eqn:El; tests; last first.
    { rewrite (proj2 (Z.ltb_lt _ _)) in Hs by done. by apply Hstop. }
    rewrite (proj2 (Z.ltb_ge _ _)) in Hs by done.
    eapply wp_bind, (wp_mh_lift _ (nth (Z.to_nat len + 2) (b :: len :: rest) 0)).
    { rewrite <- Z.add_assoc. apply Hat; [|lia]. replace (Z.to_nat (len + 2)) with (Z.to_nat len + 2)%nat by lia.
      rewrite nth_lookup. by destruct (lookup_lt_is_Some_2 (b :: len :: rest) (Z.to_nat len + 2)) as [x ->]; [lia|]. }
    rewrite (window_take _ p (rx_len s)), Ew by (done || lia). fold (mh_check len (b :: len :: rest)).
    destruct (mh_check _ _ =? _); [|apply Hskip; [lia|done]].
    destruct (scan_all _ _ (drop (4 + _) _)) as [ms1 r1] eqn:Es1. injection Hs as <- ->.
    rewrite (window_message _ p (rx_len s) Hp Hn b len rest _ Ew) by lia.
    apply wp_bind. eapply wp_mono; [by apply deliver_net|].
    intros [] s1 m1 (Hs1 & Hw1 & Hlv1 & Hq1 & ->). destruct (Hnext (len + 4)) as (-> & Hj1 & Hj2); [lia|].
    assert (Hsame : mh_buffer s1 = mh_buffer s /\ rx_len s1 = rx_len s) by (rewrite Hs1; by cbn).
    destruct Hsame as [Hb1 Hr1]. replace (Z.to_nat (len + 4)) with (4 + Z.to_nat len)%nat in Hj2 by lia.
    eapply wp_mono; [apply (IH s1 _ (p + (len + 4)) ms1 r Hw1); rewrite ?Hb1, ?Hr1, ?Hj2; [done| |done]|].
    { rewrite length_drop. lia. }
    intros q s' m' (Hs' & Hw' & Hq & Hr' & Hlv' & Hqq & ->). rewrite Hb1, Hr1 in *.
    split_and!; [rewrite Hs', Hs1; by cbn|done|lia|lia|done|congruence|congruence|].
    rewrite Hlv1. unfold received. destruct m; cbn. by rewrite app_assoc.
Qed.

Lemma buffered_at b n : 0 <= n <= Z.of_nat (length b) -> window b 0 n = take (Z.to_nat n) b.
Proof. intros. unfold window. by rewrite Z.sub_0_r, drop_0. Qed.

Lemma handle_spec data s m ms r : mh_wf s -> data <> [] -> Forall is_u8 data ->
  rx_len s + Z.of_nat (length data) <= MH_BUFFER_SIZE -> scan_all mh_check mh_bad (buffered s ++ data) = (ms, r) ->
  wp (MessageHandler_HandleResponse (Some data)) (fun _ s' m' => mh_wf s' /\ buffered s' = r /\
    pending_msgs s' = pending_msgs s /\ last_cleanup s' = last_cleanup s /\ queued (net s') = queued (net s) /\
    live (router (net s')) = live (router (net s)) /\
    m' = m <| trace ::= fun t => t ++ received ms (live (router (net s))) |>) s m.
Proof.
  intros Hw Hd Hb Hroom Hs. pose proof Hw as [Hi Hbl Hby Hl Hn]. unfold MH_BUFFER_SIZE in *.
  assert (0 < length data)%nat by (destruct data; [done|cbn; lia]).
  unfold MessageHandler_HandleResponse. apply wp_bind, wp_get. rewrite Hi, (proj2 (Nat.eqb_neq _ _)) by lia. cbn [negb orb].
  cbv zeta. rewrite (proj2 (Z.ltb_ge _ _)) by (unfold MH_BUFFER_SIZE; lia). apply wp_bind, wp_modify.
  match goal with |- wp _ _ ?z _ => set (s1 := z) end. set (i := Z.to_nat (rx_len s)).
  assert (Hl1 : rx_len s1 = rx_len s + Z.of_nat (length data)).
  { change (rx_len s1) with (u16 (rx_len s + Z.of_nat (length data))). rewrite u16_small; [done|unfold is_u16; lia]. }
  assert (Hb1 : mh_buffer s1 = take i (mh_buffer s) ++ data ++ drop (i + length data) (mh_buffer s)) by done.
  assert (Hti : length (take i (mh_buffer s)) = i) by (rewrite length_take; unfold i; lia).
  assert (Hlen1 : Z.of_nat (length (mh_buffer s1)) = 512).
  { rewrite Hb1, !length_app, length_drop, Hti. unfold i. lia. }
  assert (Hbuf1 : window (mh_buffer s1) 0 (rx_len s1) = buffered s ++ data).
  { unfold buffered. rewrite !buffered_at by lia. rewrite Hl1, Hb1, app_assoc. fold i. apply take_app_length'.
    rewrite length_app, Hti. unfold i. lia. }
  assert (Hw1 : mh_wf s1).
  { constructor; [done|done| |rewrite Hl1; unfold MH_BUFFER_SIZE; lia|done]. rewrite Hb1. apply Forall_app.
    split; [by apply Forall_take|]. apply Forall_app. split; [done|by apply Forall_drop]. }
  unfold mh_process_rx_buffer. apply wp_bind, wp_get, wp_bind.
  assert (Hlw : (length (window (mh_buffer s1) 0 (rx_len s1)) <= Z.to_nat (rx_len s1))%nat).
  { rewrite buffered_at, length_take by (rewrite Hl1; lia). lia. }
  eapply wp_mono; [apply (mh_loop_spec _ s1 m 0 ms r Hw1); [rewrite Hl1; lia|done|by rewrite Hbuf1]|].
  intros q s2 m2 (Hs2 & Hw2 & Hq & Hr & Hlv & Hqq & ->).
  assert (E : mh_buffer s2 = mh_buffer s1 /\ rx_len s2 = rx_len s1 /\ pending_msgs s2 = pending_msgs s /\
    last_cleanup s2 = last_cleanup s) by (rewrite Hs2; by cbn).
  destruct E as (Eb & Er & Ep & El). destruct (0 <? q) eqn:E0; tests; last first.
  { apply wp_ret. replace q with 0 in Hr by lia. split_and!; try done. unfold buffered. by rewrite Eb, Er. }
  apply wp_bind, wp_get. rewrite Er. pose proof Hw2 as [].
  destruct (q <? rx_len s1) eqn:Eq; tests.
  - apply wp_modify. match goal with |- mh_wf ?z /\ _ => set (s3 := z) end.
    assert (Hlr : Z.of_nat (length r) = rx_len s1 - q) by (rewrite <- Hr; apply length_window; lia).
    assert (Hl3 : rx_len s3 = Z.of_nat (length r)).
    { change (rx_len s3) with (u16 (rx_len s2 - q)). rewrite Er, u16_small; [lia|unfold is_u16; lia]. }
    assert (Hb3 : mh_buffer s3 = r ++ drop (length r) (mh_buffer s1)).
    { change (mh_buffer s3) with (take (Z.to_nat (rx_len s1 - q)) (drop (Z.to_nat q) (mh_buffer s2)) ++
        drop (Z.to_nat (rx_len s1 - q)) (mh_buffer s2)). rewrite Eb. fold (window (mh_buffer s1) q (rx_len s1)).
      rewrite Hr. do 2 f_equal. lia. }
    assert (Hlen3 : Z.of_nat (length (mh_buffer s3)) = 512) by (rewrite Hb3, length_app, length_drop; lia).
    split_and!; try done.
    + constructor; [done|done| |rewrite Hl3; unfold MH_BUFFER_SIZE; lia|done].
      rewrite Hb3. apply Forall_app. split; [rewrite <- Hr; apply Forall_take, Forall_drop, Hw1|apply Forall_drop, Hw1].
    + unfold buffered. rewrite buffered_at by lia. rewrite Hl3, Nat2Z.id, Hb3. apply take_app_length.
  - apply wp_modify. split_and!; [by constructor| |done..].
    rewrite <- Hr. unfold buffered, window. replace (rx_len s1 - q) with 0 by lia. by rewrite take_0.
Qed.

Fixpoint feed (chunks : list (list Z)) : M MessageHandler unit :=
  match chunks with [] => mret tt | c :: chunks => MessageHandler_HandleResponse (Some c);; feed chunks end.

Lemma mh_check_frame msg l : (length msg <= 255)%nat ->
  mh_check (Z.of_nat (length msg)) (frame msg ++ l) = byte_sum (0x55 :: Z.of_nat (length msg) :: msg).
Proof.
  intros Hl. unfold mh_check. f_equal. unfold frame. rewrite <- app_assoc. apply take_app_length'. cbn [length]. lia.
Qed.

Definition chunk_ok (c : list Z) : Prop := c <> [] /\ (length c <= 253)%nat /\ Forall is_u8 c.
Lemma feed_stream chunks : forall s m ms, mh_wf s -> Forall chunk_ok chunks ->
  Forall (fun msg => (length msg <= 255)%nat) ms -> buffered s ++ concat chunks = concat (frame <$> ms) ->
  unfinished (buffered s) ms -> wp (feed chunks) (fun _ s' m' => mh_wf s' /\ buffered s' = [] /\
    pending_msgs s' = pending_msgs s /\ trace m' = trace m ++ received ms (live (router (net s)))) s m.
Proof.
  induction chunks as [|c chunks IH]; intros s m ms Hw Hcs Hms E Hu.
  - cbn in E. rewrite app_nil_r in E. destruct (unfinished_all _ _ Hu E) as [Hp ->]. apply wp_ret.
    split_and!; [done|done|done|]. by rewrite app_nil_r.
  - inversion Hcs as [|? ? (Hc & Hcl & Hcb) Hcs']; subst. cbn [concat] in E. rewrite app_assoc in E.
    assert (Hroom : rx_len s + Z.of_nat (length c) <= MH_BUFFER_SIZE).
    { pose proof (length_window (mh_buffer s) 0 (rx_len s)) as Hl. fold (buffered s) in Hl.
      pose proof Hw as [_ Hbl _ Hrl _]. unfold MH_BUFFER_SIZE in *. destruct Hu as [Hp|(x & Hx & Hlx)].
      - rewrite Hp in Hl. cbn in Hl. lia.
      - rewrite Forall_forall in Hms. apply Hms in Hx. lia. }
    destruct (scan_stream mh_check mh_bad _ mh_check_frame ms _ _ Hms E) as (ms1 & ms2 & r & -> & Hscan & Hr & Hu').
    apply Forall_app in Hms as [_ Hms2]. cbn [feed]. apply wp_bind.
    eapply wp_mono; [by apply (handle_spec c s m ms1 r)|].
    intros [] s1 m1 (Hw1 & Hb1 & Hp1 & _ & _ & Hlv & ->).
    eapply wp_mono; [apply (IH s1 _ ms2 Hw1 Hcs' Hms2); by rewrite Hb1|].
    intros [] s2 m2 (Hw2 & Hb2 & Hp2 & Ht2). split_and!; [done|done|congruence|]. rewrite Ht2, Hlv. cbn.
    unfold received. by rewrite fmap_app, concat_app, app_assoc.
Qed.

(** ** Messages that are sent again *)

Definition slot_clean (now : Z) (p : PendingMessage) : PendingMessage :=
  if too_old now p then p <| pm_active := false |> else p.
(** What a poll does with a slot, and whether its message is sent again. *)
Definition slot_poll (now : Z) (p : PendingMessage) : bool * PendingMessage :=
  if pm_active p && (50 * (pm_retries p + 1) <? u32 (now - pm_timestamp p)) then
    if pm_retries p <? 3 then (true, p <| pm_timestamp := now |> <| pm_retries ::= fun n => n + 1 |>)
    else (false, p <| pm_active := false |>)
  else (false, p).
Definition slot_message (p : PendingMessage) : list Z := take (Z.to_nat (pm_length p)) (pm_data p).
Definition enqueue (q : list (list Z)) (msg : list Z) : list (list Z) :=
  if (length q =? TX_QUEUE_SIZE - 1)%nat then q else q ++ [take 255 msg].

Definition slot_ok (p : PendingMessage) : Prop :=
  Z.of_nat (length (pm_data p)) = MSG_SIZE /\ 0 <= pm_retries p <= 3 /\ is_u32 (pm_timestamp p) /\
  (pm_active p = true -> 0 < pm_length p <= MSG_SIZE).
Definition slots_ok (s : MessageHandler) : Prop :=
  length (pending_msgs s) = MAX_PENDING_MSGS /\ Forall slot_ok (pending_msgs s).
(** What stays as it is while messages are sent. *)
Definition send_frame (s s' : MessageHandler) : Prop :=
  mh_wf s' /\ buffered s' = buffered s /\ last_cleanup s' = last_cleanup s /\ tick (net s') = tick (net s) /\
  live (router (net s')) = live (router (net s)).

Lemma send_net data len s m : mh_wf s -> 0 < len <= Z.of_nat (length data) ->
  wp (on_net (NetworkHandler_Send (Some data) len)) (fun b s' m' => m' = m /\ send_frame s s' /\
    pending_msgs s' = pending_msgs s /\
    (b, queued (net s')) = (negb (length (queued (net s)) =? TX_QUEUE_SIZE - 1)%nat,
                            enqueue (queued (net s)) (take (Z.to_nat len) data))) s m.
Proof.
  intros [Hi Hb Hy Hl [Hr Ht Hz Hc Hcb]] Hd. apply wp_zoom. eapply wp_mono; [by apply send_bytes_spec|].
  intros b n m' (-> & Hw & Hn & Hq).
  assert (Hnw : nh_wf n).
  { constructor; [|done|rewrite Hn; by cbn..]. rewrite Hn. by destruct Hr. }
  split_and!; [done| |done|].
  - split_and!; [by constructor|done|done|cbn; by rewrite Hn|cbn; by rewrite Hn].
  - unfold enqueue. cbn [net setf]. destruct (_ =? _)%nat; destruct Hq as [-> Hq]; [by subst n|]. rewrite Hq.
    do 3 f_equal. rewrite take_take. f_equal. lia.
Qed.

Lemma slot_poll_ok now p : is_u32 now -> slot_ok p -> slot_ok (slot_poll now p).2.
Proof.
  intros Hn (Hd & Hr & Ht & Hl). unfold slot_poll. destruct (pm_active p && _) eqn:E; [|done].
  destruct (pm_retries p <? 3) eqn:E3; tests.
  all: split_and!; cbn; try done; try lia; intros; by apply Hl.
Qed.
Lemma send_frame_trans s1 s2 s3 : send_frame s1 s2 -> send_frame s2 s3 -> send_frame s1 s3.
Proof. intros (_ & ? & ? & ? & ?) (? & ? & ? & ? & ?). split_and!; congruence. Qed.

Lemma process_slot_spec now i p s m : mh_wf s -> pending_msgs s !! i = Some p -> slot_ok p ->
  wp (process_slot now i) (fun _ s' m' => m' = m /\ send_frame s s' /\
    pending_msgs s' = <[i := (slot_poll now p).2]> (pending_msgs s) /\
    queued (net s') = if (slot_poll now p).1 then enqueue (queued (net s)) (slot_message p) else queued (net s)) s m.
Proof.
  intros Hw Hp (Hd & Hr & Ht & Hl). unfold process_slot, slot_poll. apply wp_bind, wp_get.
  eapply wp_bind, wp_mh_lift; [exact Hp|].
  assert (Hself : <[i := p]> (pending_msgs s) = pending_msgs s) by (by apply list_insert_id).
  destruct (pm_active p) eqn:Ea; cbn [negb andb]; last first.
  { apply wp_ret. cbn [snd fst]; by rewrite Hself. }
  cbv zeta. destruct (_ <? u32 _); [|apply wp_ret; cbn [snd fst]; by rewrite Hself].
  destruct (pm_retries p <? 3) eqn:E3; tests.
  - apply wp_bind. eapply wp_mono; [apply (send_net _ _ s m Hw); unfold MSG_SIZE in *; destruct (Hl eq_refl); lia|].
    intros b s1 m1 (-> & Hf & Hps & [= -> Hq]). apply wp_modify. split_and!; [done| | |].
    + destruct Hf as (Hw1 & ? & ? & ? & ?). split_and!; [by destruct Hw1|done..].
    + cbn. rewrite Hps. rewrite u8_small by (unfold is_u8; lia). done.
    + done.
  - apply wp_modify. split_and!; [done| |done|done]. split_and!; [by destruct Hw|done..].
Qed.

Definition polled (now : Z) (ps : list PendingMessage) : list PendingMessage := (fun p => (slot_poll now p).2) <$> ps.
Definition resent (now : Z) (ps : list PendingMessage) : list (list Z) :=
  slot_message <$> filter (fun p => (slot_poll now p).1 = true) ps.

Lemma process_slots_spec now k : forall i s m, mh_wf s -> is_u32 now ->
  (i + k)%nat = length (pending_msgs s) -> Forall slot_ok (pending_msgs s) ->
  wp (process_slots now k i) (fun _ s' m' => m' = m /\ send_frame s s' /\
    pending_msgs s' = take i (pending_msgs s) ++ polled now (drop i (pending_msgs s)) /\
    queued (net s') = foldl enqueue (queued (net s)) (resent now (drop i (pending_msgs s)))) s m.
Proof.
  induction k as [|k IH]; intros i s m Hw Hn Hik Hok; cbn [process_slots].
  - apply wp_ret. rewrite drop_ge, firstn_all2, app_nil_r by lia. done.
  - destruct (lookup_lt_is_Some_2 (pending_msgs s) i) as [p Hp]; [lia|]. apply wp_bind.
    assert (Hop : slot_ok p) by (by eapply Forall_lookup_1).
    eapply wp_mono; [by apply process_slot_spec|]. intros [] s1 m1 (-> & Hf & Hps & Hq).
    eapply wp_mono; [apply (IH (S i) s1 m)|].
    + apply Hf.
    + done.
    + rewrite Hps, length_insert. lia.
    + rewrite Hps. apply Forall_insert; [done|by apply slot_poll_ok].
    + intros [] s2 m2 (-> & Hf2 & Hps2 & Hq2). split_and!; [done|by eapply send_frame_trans| |].
      * rewrite Hps2, Hps, (drop_S _ p i Hp), drop_insert_lt by lia.
        rewrite (take_S_r _ _ (slot_poll now p).2) by (apply list_lookup_insert_eq; lia).
        rewrite take_insert_ge, <- app_assoc by lia. done.
      * rewrite Hq2, Hps, (drop_S _ p i Hp), drop_insert_lt, Hq by lia. unfold resent.
        destruct ((slot_poll now p).1) eqn:E; [rewrite filter_cons_True by done|rewrite filter_cons_False by (by rewrite E)]; done.
Qed.

(** The slots a poll at [now] looks at, after the clean-up that runs once a second. *)
Definition cleaned (now last : Z) (ps : list PendingMessage) : list PendingMessage :=
  if 1000 <? u32 (now - last) then slot_clean now <$> ps else ps.
Lemma slot_clean_ok now p : slot_ok p -> slot_ok (slot_clean now p).
Proof. intros (? & ? & ? & ?). unfold slot_clean. by destruct (too_old now p). Qed.
Lemma cleaned_ok now last ps : Forall slot_ok ps -> Forall slot_ok (cleaned now last ps).
Proof.
  intros H. unfold cleaned. destruct (_ <? _); [|done]. apply Forall_fmap. eapply Forall_impl; [exact H|].
  intros p. by apply slot_clean_ok.
Qed.

Lemma mh_process_spec s m : mh_wf s -> slots_ok s -> is_u32 (tick (net s)) ->
  wp MessageHandler_Process (fun _ s' m' => m' = m /\ mh_wf s' /\ slots_ok s' /\ tick (net s') = tick (net s) /\
    let ps := cleaned (tick (net s)) (last_cleanup s) (pending_msgs s) in
    pending_msgs s' = polled (tick (net s)) ps /\
    queued (net s') = foldl enqueue (queued (net s)) (resent (tick (net s)) ps)) s m.
Proof.
  intros Hw [Hl Hok] Ht. unfold MessageHandler_Process. apply wp_bind, wp_get. rewrite (mw_init s Hw). cbn [negb].
  unfold TIMER_GetMs at 1. apply wp_bind, wp_bind, wp_get, wp_ret. set (now := tick (net s)) in *.
  assert (Hgo : forall s1, mh_wf s1 -> net s1 = net s -> pending_msgs s1 = cleaned now (last_cleanup s) (pending_msgs s) ->
    wp (process_slots now MAX_PENDING_MSGS 0) (fun _ s' m' => m' = m /\ mh_wf s' /\ slots_ok s' /\ tick (net s') = now /\
      let ps := cleaned now (last_cleanup s) (pending_msgs s) in
      pending_msgs s' = polled now ps /\ queued (net s') = foldl enqueue (queued (net s)) (resent now ps)) s1 m).
  { intros s1 Hw1 Hn1 Hp1. assert (Hok1 : Forall slot_ok (pending_msgs s1)) by (rewrite Hp1; by apply cleaned_ok).
    assert (Hl1 : length (pending_msgs s1) = MAX_PENDING_MSGS).
    { rewrite Hp1. unfold cleaned. destruct (_ <? _); [by rewrite length_fmap|done]. }
    eapply wp_mono; [by apply (process_slots_spec now MAX_PENDING_MSGS 0 s1 m)|].
    intros [] s2 m2 (-> & (Hw2 & _ & _ & Htk & _) & Hps & Hq). rewrite drop_0, Hp1 in *. rewrite Hn1 in *.
    refine (conj eq_refl (conj Hw2 (conj _ (conj Htk (conj Hps Hq))))). split.
    - rewrite Hps. unfold polled. by rewrite length_app, take_0, length_fmap, Hl1.
    - rewrite Hps, take_0. apply Forall_fmap. eapply Forall_impl; [exact Hok1|]. intros p. by apply slot_poll_ok. }
  apply wp_bind. destruct (1000 <? _) eqn:E.
  - unfold cleanup_old_messages, TIMER_GetMs. apply wp_bind, wp_bind, wp_bind, wp_get, wp_ret, wp_modify, wp_modify.
    apply Hgo; [by destruct Hw|done|]. unfold cleaned. rewrite E. done.
  - apply wp_ret, Hgo; [done|done|]. unfold cleaned. by rewrite E.
Qed.

(** Time passes and the handler is polled, again and again. *)
Fixpoint polls (dts : list Z) : M MessageHandler unit :=
  match dts with
  | [] => mret tt
  | dt :: dts =>
      on_net (modify (fun n => n <| tick ::= fun t => u32 (t + dt) |>));; MessageHandler_Process;; polls dts
  end.

Definition recent (now : Z) (p : PendingMessage) : Prop := 0 <= u32 (now - pm_timestamp p) < 2 ^ 31.
Definition left_over (p : PendingMessage) : nat := if pm_active p then Z.to_nat (3 - pm_retries p) else 0.
Definition budget (ps : list PendingMessage) : nat := sum_list_with left_over ps.

Lemma recent_later now dt p : recent now p -> 200 < dt < 2 ^ 31 ->
  200 < u32 (u32 (now + dt) - pm_timestamp p).
Proof.
  unfold recent. intros Hr Hd.
  replace (u32 (u32 (now + dt) - pm_timestamp p)) with (u32 (now - pm_timestamp p) + dt); [lia|].
  rewrite <- (u32_small (u32 (now - _) + dt)) by (unfold is_u32; lia). unfold u32.
  rewrite Zminus_mod_idemp_l, Zplus_mod_idemp_l. f_equal. lia.
Qed.

(** A poll later than 200 ms after the last moves every active slot on. *)
Lemma slot_moves now p : slot_ok p -> 200 < u32 (now - pm_timestamp p) ->
  let q := (slot_poll now p).2 in
  recent now q \/ pm_active q = false.
Proof.
  intros (_ & Hr & _) Ha. cbv zeta. unfold slot_poll. destruct (pm_active p) eqn:E; [|by right].
  rewrite (proj2 (Z.ltb_lt _ _)) by lia. cbn [andb]. destruct (_ <? 3); cbn; [left|by right].
  unfold recent. cbn. rewrite Z.sub_diag. done.
Qed.
Definition attempts (p : PendingMessage) : Z := if pm_active p then 4 - pm_retries p else 0.
Lemma slot_attempts now p : slot_ok p -> 200 < u32 (now - pm_timestamp p) \/ pm_active p = false ->
  attempts (slot_poll now p).2 <= Z.max 0 (attempts p - 1).
Proof.
  intros (_ & Hr & _) Ha. unfold slot_poll, attempts. destruct (pm_active p) eqn:E; cbn [andb snd].
  - destruct Ha as [Ha|]; [|done]. rewrite (proj2 (Z.ltb_lt _ _)) by lia.
    destruct (_ <? 3) eqn:E3; tests; cbn; rewrite ?E; lia.
  - rewrite E. lia.
Qed.
Lemma slot_budget now p : slot_ok p ->
  ((if (slot_poll now p).1 then 1 else 0) + left_over (slot_poll now p).2 <= left_over p)%nat.
Proof.
  intros (_ & Hr & _). unfold slot_poll, left_over. destruct (pm_active p) eqn:E; cbn [andb fst snd]; [|by rewrite E].
  destruct (_ <? u32 _); [|cbn; by rewrite E]. destruct (_ <? 3) eqn:E3; tests; cbn; rewrite ?E; lia.
Qed.
Lemma resent_budget now ps : Forall slot_ok ps -> (length (resent now ps) + budget (polled now ps) <= budget ps)%nat.
Proof.
  induction 1 as [|p ps Hp Hps IH]; [done|]. pose proof (slot_budget now p Hp) as Hb.
  unfold resent, budget, polled in *. rewrite fmap_cons. cbn [sum_list_with]. rewrite length_fmap in *.
  destruct ((slot_poll now p).1) eqn:E; [rewrite filter_cons_True by done|rewrite filter_cons_False by (by rewrite E)];
    cbn [length] in *; lia.
Qed.
Lemma cleaned_budget now last ps : (budget (cleaned now last ps) <= budget ps)%nat.
Proof.
  unfold cleaned. destruct (_ <? _); [|done]. unfold budget. induction ps as [|p ps IH]; [done|].
  rewrite fmap_cons. cbn [sum_list_with]. apply Nat.add_le_mono; [|done]. unfold slot_clean, left_over.
  destruct (too_old now p); [apply Nat.le_0_l|done].
Qed.
Lemma slot_message_poll now p : slot_message (slot_poll now p).2 = slot_message p.
Proof. unfold slot_poll. repeat case_match; done. Qed.
Lemma slot_message_clean now p : slot_message (slot_clean now p) = slot_message p.
Proof. unfold slot_clean. by case_match. Qed.
Lemma Forall_cleaned (P : PendingMessage -> Prop) now last ps : (forall p, P p -> P (p <| pm_active := false |>)) ->
  Forall P ps -> Forall P (cleaned now last ps).
Proof.
  intros Hd H. unfold cleaned. destruct (_ <? _); [|done]. apply Forall_fmap. eapply Forall_impl; [exact H|].
  intros p Hp. cbn. unfold slot_clean. destruct (too_old now p); [by apply Hd|done].
Qed.
Lemma messages_cleaned now last ps : slot_message <$> cleaned now last ps = slot_message <$> ps.
Proof.
  unfold cleaned. destruct (_ <? _); [|done]. rewrite <- list_fmap_compose. apply list_fmap_ext.
  intros i p _. apply slot_message_clean.
Qed.
Lemma messages_polled now ps : slot_message <$> polled now ps = slot_message <$> ps.
Proof. unfold polled. rewrite <- list_fmap_compose. apply list_fmap_ext. intros i p _. apply slot_message_poll. Qed.

Definition tracked (now : Z) (p : PendingMessage) : Prop := recent now p \/ pm_active p = false.

Lemma polls_spec dts : forall s m k, mh_wf s -> slots_ok s -> is_u32 (tick (net s)) ->
  Forall (fun dt => 200 < dt < 2 ^ 31) dts -> Forall (tracked (tick (net s))) (pending_msgs s) ->
  Forall (fun p => attempts p <= k) (pending_msgs s) -> 0 <= k <= Z.of_nat (length dts) ->
  wp (polls dts) (fun _ s' m' => m' = m /\ mh_wf s' /\ slots_ok s' /\
    Forall (fun p => pm_active p = false) (pending_msgs s') /\
    exists sent, queued (net s') = foldl enqueue (queued (net s)) sent /\ (length sent <= budget (pending_msgs s))%nat /\
      Forall (fun x => x ∈ slot_message <$> pending_msgs s) sent) s m.
Proof.
  induction dts as [|dt dts IH]; intros s m k Hw Hok Ht Hdt Htr Hat Hk; cbn [polls length] in *.
  - apply wp_ret. refine (conj eq_refl (conj Hw (conj Hok (conj _ (ex_intro _ [] (conj eq_refl (conj (Nat.le_0_l _) (Forall_nil_2 _)))))))).
    destruct Hok as [_ Hok]. eapply Forall_impl; [exact (proj2 (Forall_and _ _) (conj Hok Hat))|].
    intros p [(_ & Hr & _) Ha]. unfold attempts in Ha. destruct (pm_active p); [lia|done].
  - apply Forall_cons in Hdt as [Hd Hdt]. apply wp_bind, wp_zoom, wp_modify.
    match goal with |- wp _ _ ?z _ => set (s1 := z) end. set (now := u32 (tick (net s) + dt)).
    assert (Hn : tick (net s1) = now) by done.
    assert (Hw1 : mh_wf s1) by (destruct Hw as [? ? ? ? [[] [] ? ? ?]]; constructor; try done; constructor; try done; by constructor).
    apply wp_bind. eapply wp_mono; [apply (mh_process_spec s1 m Hw1 Hok); rewrite Hn; apply u32_range|].
    intros [] s2 m2 (-> & Hw2 & Hok2 & Ht2 & Hps & Hq). rewrite Hn in *.
    set (ps := cleaned now (last_cleanup s1) (pending_msgs s1)) in *.
    assert (Hlate : Forall (fun p => 200 < u32 (now - pm_timestamp p) \/ pm_active p = false) ps).
    { apply Forall_cleaned; [intros p _; by right|]. eapply Forall_impl; [exact Htr|].
      intros p [Hr|Hr]; [left; by apply recent_later|by right]. }
    assert (Hat1 : Forall (fun p => attempts p <= k) ps) by (apply Forall_cleaned; [intros p _; cbn; lia|exact Hat]).
    assert (Hok1 : Forall slot_ok ps) by (apply cleaned_ok, Hok).
    pose proof (proj2 (Forall_and _ _) (conj Hok1 (proj2 (Forall_and _ _) (conj Hlate Hat1)))) as Hall.
    eapply wp_mono; [apply (IH s2 m (Z.max 0 (k - 1)) Hw2 Hok2)|].
    + rewrite Ht2. apply u32_range.
    + done.
    + rewrite Ht2, Hps. apply Forall_fmap. eapply Forall_impl; [exact Hall|]. intros p (Hp & Hl & _). cbn.
      destruct (pm_active p) eqn:E; [destruct Hl as [Hl|]; [by apply slot_moves|done]|].
      right. unfold slot_poll. by rewrite E.
    + rewrite Hps. apply Forall_fmap. eapply Forall_impl; [exact Hall|]. intros p (Hp & Hl & Ha). cbn.
      pose proof (slot_attempts now p Hp Hl). lia.
    + lia.
    + intros [] s3 m3 (-> & Hw3 & Hok3 & Hin & sent & Hq3 & Hl3 & Hm3). refine (conj eq_refl (conj Hw3 (conj Hok3 (conj Hin _)))).
      exists (resent now ps ++ sent). rewrite Hq3, Hq, foldl_app, length_app, Forall_app.
      assert (Hmsgs : slot_message <$> pending_msgs s2 = slot_message <$> pending_msgs s).
      { rewrite Hps, messages_polled. apply messages_cleaned. }
      pose proof (resent_budget now ps Hok1) as Hb. pose proof (cleaned_budget now (last_cleanup s1) (pending_msgs s1)) as Hb'.
      fold ps in Hb'. change (pending_msgs s1) with (pending_msgs s) in *. rewrite Hps in Hl3.
      split_and!; [done|lia| |by rewrite Hmsgs in Hm3].
      rewrite <- (messages_cleaned now (last_cleanup s1)). apply Forall_forall. intros x Hx.
      apply list_elem_of_fmap in Hx as (p & -> & Hp). apply list_elem_of_fmap_2.
      by apply list_elem_of_filter in Hp as [_ Hp].
Qed.
Lemma budget_count ps : Forall slot_ok ps -> (budget ps <= 3 * length (filter (fun p => pm_active p = true) ps))%nat.
Proof.
  induction 1 as [|p ps (_ & Hr & _) _ IH]; [done|]. unfold budget in *. cbn [sum_list_with]. unfold left_over at 1.
  destruct (pm_active p) eqn:E; [rewrite filter_cons_True by done|rewrite filter_cons_False by (by rewrite E)];
    cbn [length]; lia.
Qed.
Lemma attempts_most ps : Forall slot_ok ps -> Forall (fun p => attempts p <= 4) ps.
Proof. intros H. eapply Forall_impl; [exact H|]. intros p (_ & Hr & _). unfold attempts. destruct (pm_active p); lia. Qed.
Lemma nothing_active ps : Forall (fun p => pm_active p = false) ps -> filter (fun p => pm_active p = true) ps = [].
Proof. induction 1 as [|p ps Hp _ IH]; [done|]. by rewrite filter_cons_False by (by rewrite Hp). Qed.

(** A poll does what the table of messages asks for: the clean-up, when it is due,
    drops the messages older than 150 ms; each message left that is older than 50 ms times
    one more than its retries is queued once more while it has fewer than three retries and
    dropped otherwise, in the order of the slots, and a full queue loses it silently.  The
    table keeps its invariant and nothing is delivered. *)
Theorem message_process_exact s m : mh_wf s -> slots_ok s -> is_u32 (tick (net s)) ->
  wp MessageHandler_Process (fun _ s' m' => m' = m /\ mh_wf s' /\ slots_ok s' /\ tick (net s') = tick (net s) /\
    let ps := cleaned (tick (net s)) (last_cleanup s) (pending_msgs s) in
    pending_msgs s' = polled (tick (net s)) ps /\
    queued (net s') = foldl enqueue (queued (net s)) (resent (tick (net s)) ps)) s m.
Proof. apply mh_process_spec. Qed.

(** Nothing acknowledges a message, so every message is sent again until it is given
    up: when the handler is polled at least four times, more than 200 ms apart, no message is
    waiting any more, and at most three copies of each of the waiting messages were queued
    again, and nothing else. *)
Theorem message_given_up dts s m : mh_wf s -> slots_ok s -> is_u32 (tick (net s)) ->
  Forall (tracked (tick (net s))) (pending_msgs s) ->
  Forall (fun dt => 200 < dt < 2 ^ 31) dts -> (4 <= length dts)%nat ->
  wp (polls dts) (fun _ s' m' => m' = m /\ get_msg_count s' = 0%nat /\ exists sent,
    queued (net s') = foldl enqueue (queued (net s)) sent /\ (length sent <= 3 * get_msg_count s)%nat /\
    Forall (fun x => x ∈ slot_message <$> pending_msgs s) sent) s m.
Proof.
  intros Hw Hok Ht Htr Hdt Hl. eapply wp_mono.
  { apply (polls_spec dts s m 4 Hw Hok Ht Hdt Htr); [apply attempts_most, Hok|lia]. }
  intros [] s' m' (-> & _ & _ & Hin & sent & Hq & Hb & Hs). split_and!; [done| |].
  - unfold get_msg_count. by rewrite nothing_active.
  - exists sent. split_and!; [done| |done]. pose proof (budget_count _ (proj2 Hok)). unfold get_msg_count. lia.
Qed.

(** A stream of frames of messages of at most 255 bytes, cut into chunks of at most 253
    bytes in any way, is delivered: the router is given exactly those messages in that
    order, nothing is left in the buffer and the messages waiting to be sent again are not
    affected. *)
Theorem message_stream_delivered ms chunks s m :
  mh_wf s -> buffered s = [] -> Forall chunk_ok chunks ->
  Forall (fun msg => (length msg <= 255)%nat) ms -> concat chunks = concat (frame <$> ms) ->
  wp (feed chunks) (fun _ s' m' => mh_wf s' /\ buffered s' = [] /\ pending_msgs s' = pending_msgs s /\
    trace m' = trace m ++ received ms (live (router (net s)))) s m.
Proof. intros Hw Hb Hcs Hms E. apply feed_stream; [done..|by rewrite Hb|by left]. Qed.

(** ** Witnesses *)

Definition example_messages : MessageHandler :=
  mkMessages (replicate 16 pending_zero) (replicate 512 0) 0 0 true 0 example_network.
Definition one_message : MessageHandler :=
  example_messages <| pending_msgs ::= <[0%nat := mkPending ([1; 2; 3] ++ replicate 253 0) 3 900 0 true]> |>.
Lemma example_messages_wf : mh_wf example_messages.
Proof.
  constructor; [done|reflexivity|apply Forall_replicate; vm_compute; by split|vm_compute; by split|exact example_network_wf].
Qed.
Lemma one_message_wf : mh_wf one_message.
Proof. by destruct example_messages_wf. Qed.
Lemma pending_zero_ok : slot_ok pending_zero.
Proof. split; [reflexivity|]. split; [vm_compute; by split|]. split; [vm_compute; by split|done]. Qed.
Lemma one_message_slots : slots_ok one_message.
Proof.
  split; [reflexivity|]. apply Forall_insert; [apply Forall_replicate, pending_zero_ok|].
  split; [reflexivity|]. split; [vm_compute; by split|]. split; [vm_compute; by split|]. intros _. vm_compute. by split.
Qed.

Lemma message_process_exact_witness :
  wp MessageHandler_Process (fun _ s' _ =>
    (pm_retries <$> pending_msgs s') !! 0%nat = Some 1 /\ queued (net s') = [[1; 2; 3]]) one_message boot.
Proof.
  eapply wp_mono.
  - apply (message_process_exact one_message boot one_message_wf one_message_slots). vm_compute. by split.
  - intros [] s' m' (_ & _ & _ & _ & Hp & Hq). split; [rewrite Hp|rewrite Hq]; vm_compute; reflexivity.
Defined.

Lemma message_given_up_witness :
  wp (polls [201; 250; 300; 1000]) (fun _ s' m' => m' = boot /\ get_msg_count s' = 0%nat /\ exists sent,
    queued (net s') = foldl enqueue [] sent /\ (length sent <= 3)%nat /\
    Forall (fun x => x ∈ slot_message <$> pending_msgs one_message) sent) one_message boot.
Proof.
  apply (message_given_up [201; 250; 300; 1000] one_message boot one_message_wf one_message_slots).
  - vm_compute. by split.
  - apply Forall_insert; [by apply Forall_replicate; right|left]. vm_compute. split; [discriminate|reflexivity].
  - repeat constructor.
  - cbn. lia.
Defined.

Lemma message_stream_delivered_witness :
  let msg := [0x01; 0xF1; 0x22; 0xF1; 0x90] in
  wp (feed [[0x55; 5; 0x01; 0xF1]; [0x22; 0xF1; 0x90; 0xEF; 0xAA]]) (fun _ s' m' => mh_wf s' /\ buffered s' = [] /\
    pending_msgs s' = pending_msgs example_messages /\
    trace m' = trace boot ++ [call "DiagCore_HandleMessage" msg]) example_messages boot.
Proof.
  intros msg. apply (message_stream_delivered [msg] _ example_messages boot example_messages_wf).
  - reflexivity.
  - repeat constructor; vm_compute; intros; congruence.
  - constructor; [cbn; lia|constructor].
  - vm_compute. reflexivity.
Defined.
