(* ===== verification/DiagData.v ===== *)
(** * Stored data identifiers

    [src/runtime/diagnostic/data/diag_data.c]: vehicle, control-unit, status, diagnostic
    and configuration data behind read and write handlers, under the process-wide mutex of
    [Mutex.v].  The non-volatile memory is used through the interface [Nvram]: a write
    replaces the bytes of its range.  The addresses of the areas and the control unit's
    functions, which the repository does not contain, are the parameters [addr] and [hw].
    A [float] is only copied, so it is the value of its four bytes; the layout is little
    endian. *)

From S2P Require Import Prelude Memory Machine Mutex.

Definition DID_VIN : Z := 0xF190.
Definition DID_VEHICLE_MODEL : Z := 0xF191.
Definition DID_SYSTEM_NAME : Z := 0xF192.
Definition DID_REPAIR_SHOP_CODE : Z := 0xF193.
Definition DID_PROGRAMMING_DATE : Z := 0xF194.
Definition DID_ECU_SERIAL : Z := 0xF200.
Definition DID_ECU_HW_VERSION : Z := 0xF201.
Definition DID_ECU_SW_VERSION : Z := 0xF202.
Definition DID_ECU_MFG_DATE : Z := 0xF203.
Definition DID_ECU_SUPPLIER_ID : Z := 0xF204.
Definition DID_BATTERY_VOLTAGE : Z := 0xF300.
Definition DID_SYSTEM_VOLTAGE : Z := 0xF301.
Definition DID_ENGINE_SPEED : Z := 0xF302.
Definition DID_VEHICLE_SPEED : Z := 0xF303.
Definition DID_ENGINE_TEMP : Z := 0xF304.
Definition DID_AMBIENT_TEMP : Z := 0xF305.
Definition DID_TOTAL_DISTANCE : Z := 0xF400.
Definition DID_TOTAL_RUNTIME : Z := 0xF401.
Definition DID_LAST_ERROR_CODE : Z := 0xF402.
Definition DID_ERROR_COUNT : Z := 0xF403.
Definition DID_BOOT_COUNT : Z := 0xF404.
Definition DID_NETWORK_CONFIG : Z := 0xF500.
Definition DID_CAN_BAUDRATE : Z := 0xF501.
Definition DID_NODE_ADDRESS : Z := 0xF502.
Definition DID_SECURITY_CONFIG : Z := 0xF503.
Definition DID_ROUTINE_CONFIG : Z := 0xF504.

(** Non-volatile memory: a byte at every address, and writes that replace a range. *)
Class Nvram (N : Type) := {
  nv_byte : N -> Z -> Z;
  NVRAM_Write : Z -> list Z -> N -> N;
  nv_written a l n b :
    nv_byte (NVRAM_Write a l n) b = if (a <=? b) && (b <? a + Z.of_nat (length l))
                                    then nth (Z.to_nat (b - a)) l 0 else nv_byte n b }.
Definition NVRAM_Read {N} `{Nvram N} (a : Z) (len : nat) (n : N) : list Z :=
  (fun i => nv_byte n (a + Z.of_nat i)) <$> seq 0 len.

(** The readings of the control unit and its sensors, which may change all the time. *)
Record Hw := mkHw {
  Battery_GetVoltage : Machine -> Z; ECU_GetSystemVoltage : Machine -> Z; ECU_GetEngineSpeed : Machine -> Z;
  ECU_GetVehicleSpeed : Machine -> Z; Sensor_GetEngineTemp : Machine -> Z; Sensor_GetAmbientTemp : Machine -> Z;
  ECU_GetTotalDistance : Machine -> Z; ECU_GetTotalRuntime : Machine -> Z; ECU_GetLastErrorCode : Machine -> Z;
  ECU_GetErrorCount : Machine -> Z; ECU_GetBootCount : Machine -> Z;
  ECU_GetSerialNumber : list Z; ECU_GetHardwareVersion : Z; ECU_GetSoftwareVersion : Z;
  ECU_GetManufacturingDate : list Z; ECU_GetSupplierId : Z }.

Record VehicleInfo := mkVehicle {
  vin : list Z; vehicle_model : list Z; system_name : list Z; repair_shop_code : list Z; programming_date : list Z }.
#[export] Instance eta_VehicleInfo : Eta VehicleInfo := fun v =>
  mkVehicle (vin v) (vehicle_model v) (system_name v) (repair_shop_code v) (programming_date v).
Record ECUInfo := mkECU {
  serial_number : list Z; hw_version : Z; sw_version : Z; mfg_date : list Z; supplier_id : Z }.
#[export] Instance eta_ECUInfo : Eta ECUInfo := fun e =>
  mkECU (serial_number e) (hw_version e) (sw_version e) (mfg_date e) (supplier_id e).
Record SystemStatus := mkStatus {
  battery_voltage : Z; system_voltage : Z; engine_speed : Z; vehicle_speed : Z; engine_temp : Z; ambient_temp : Z }.
Record DiagnosticData := mkDiagnostic {
  total_distance : Z; total_runtime : Z; dd_last_error_code : Z; dd_error_count : Z; boot_count : Z }.
#[export] Instance eta_DiagnosticData : Eta DiagnosticData := fun d =>
  mkDiagnostic (total_distance d) (total_runtime d) (dd_last_error_code d) (dd_error_count d) (boot_count d).
Record ConfigurationData := mkConfiguration {
  network_config : Z; can_baudrate : Z; node_address : Z; security_config : Z; routine_config : Z }.
#[export] Instance eta_ConfigurationData : Eta ConfigurationData := fun c =>
  mkConfiguration (network_config c) (can_baudrate c) (node_address c) (security_config c) (routine_config c).

Record DiagData (N : Type) := mkDiagData {
  vehicle_info : VehicleInfo; ecu_info : ECUInfo; system_status : SystemStatus; diagnostic_data : DiagnosticData;
  config_data : ConfigurationData; nvram : N; dd_locked : bool }.
#[global] Arguments mkDiagData {N}.
#[global] Arguments vehicle_info {N}.
#[global] Arguments ecu_info {N}.
#[global] Arguments system_status {N}.
#[global] Arguments diagnostic_data {N}.
#[global] Arguments config_data {N}.
#[global] Arguments nvram {N}.
#[global] Arguments dd_locked {N}.
#[export] Instance eta_DiagData N : Eta (DiagData N) := fun s =>
  mkDiagData (vehicle_info s) (ecu_info s) (system_status s) (diagnostic_data s) (config_data s) (nvram s) (dd_locked s).
#[export, refine] Instance DiagData_mutex N : HasMutex (DiagData N) := {|
  locked := dd_locked; set_locked b s := s <| dd_locked := b |>; log_min _ := None |}.
Proof. all: intros; repeat match goal with s : DiagData _ |- _ => destruct s end; reflexivity. Defined.

(** The characters before the terminator; [None] when [strlen] leaves the array. *)
Fixpoint cstr (l : list Z) : option (list Z) :=
  match l with
  | [] => None
  | b :: l => if b =? 0 then Some [] else (b ::.) <$> cstr l
  end.

Section handlers.
Context {N : Type} `{Nvram N} (hw : Hw) (addr : Z -> Z).

Definition opt {A} (o : option A) : M (DiagData N) A := match o with Some a => mret a | None => fault end.
(** [memcpy] out of a buffer. *)
Definition from (data : list Z) (n : Z) : M (DiagData N) (list Z) :=
  if Z.of_nat (length data) <? n then fault else mret (take (Z.to_nat n) data).
Definition nv_store (did : Z) (bytes : list Z) : M (DiagData N) unit :=
  modify (fun s => s <| nvram ::= NVRAM_Write (addr did) bytes |>).

(** ** Vehicle information *)

Definition vehicle_value (did : Z) (v : VehicleInfo) : option (M (DiagData N) (list Z)) :=
  if did =? DID_VIN then Some (mret (vin v))
  else if did =? DID_VEHICLE_MODEL then Some (opt (cstr (vehicle_model v)))
  else if did =? DID_SYSTEM_NAME then Some (opt (cstr (system_name v)))
  else if did =? DID_REPAIR_SHOP_CODE then Some (opt (cstr (repair_shop_code v)))
  else if did =? DID_PROGRAMMING_DATE then Some (opt (cstr (programming_date v)))
  else None.
(** The answer of a read handler: the bytes copied, or [None] for [false]. *)
Definition answer (value : option (M (DiagData N) (list Z))) : M (DiagData N) (option (list Z)) :=
  match value with None => mret None | Some c => bytes ← c; mret (Some bytes) end.

Definition read_vehicle_info (did : Z) : M (DiagData N) (option (list Z)) :=
  lock;;
  s ← get;
  success ← answer (vehicle_value did (vehicle_info s));
  unlock;;
  mret success.

(** One of the four texts: [field] is the array and [store] puts it back. *)
Definition write_text (did : Z) (field : VehicleInfo -> list Z) (store : list Z -> VehicleInfo -> VehicleInfo)
    (data : list Z) (len : Z) : M (DiagData N) bool :=
  s ← get;
  let a := field (vehicle_info s) in
  if len <=? Z.of_nat (length a) then
    bytes ← from data len;
    (if Z.of_nat (length a) <=? len then fault else mret tt);;
    modify (fun s => s <| vehicle_info ::= store (bytes ++ 0 :: drop (S (Z.to_nat len)) a) |>);;
    stored ← from data (len + 1);
    nv_store did stored;;
    mret true
  else mret false.

Definition write_vehicle_info (did : Z) (data : list Z) (len : Z) : M (DiagData N) bool :=
  lock;;
  success ←
    (if did =? DID_VIN then
       if len =? 17 then
         bytes ← from data len;
         modify (fun s => s <| vehicle_info ::= fun v => v <| vin := bytes |> |>);;
         nv_store did bytes;;
         mret true
       else mret false
     else if did =? DID_VEHICLE_MODEL then write_text did vehicle_model (fun l v => v <| vehicle_model := l |>) data len
     else if did =? DID_SYSTEM_NAME then write_text did system_name (fun l v => v <| system_name := l |>) data len
     else if did =? DID_REPAIR_SHOP_CODE then
       write_text did repair_shop_code (fun l v => v <| repair_shop_code := l |>) data len
     else if did =? DID_PROGRAMMING_DATE then
       write_text did programming_date (fun l v => v <| programming_date := l |>) data len
     else mret false);
  unlock;;
  mret success.

(** ** Control unit *)

Definition ecu_value (did : Z) (e : ECUInfo) : option (M (DiagData N) (list Z)) :=
  if did =? DID_ECU_SERIAL then Some (opt (cstr (serial_number e)))
  else if did =? DID_ECU_HW_VERSION then Some (mret (le_bytes 2 (hw_version e)))
  else if did =? DID_ECU_SW_VERSION then Some (mret (le_bytes 2 (sw_version e)))
  else if did =? DID_ECU_MFG_DATE then Some (opt (cstr (mfg_date e)))
  else if did =? DID_ECU_SUPPLIER_ID then Some (mret (le_bytes 2 (supplier_id e)))
  else None.
Definition read_ecu_info (did : Z) : M (DiagData N) (option (list Z)) :=
  lock;;
  s ← get;
  success ← answer (ecu_value did (ecu_info s));
  unlock;;
  mret success.

(** ** Status, measured on every read *)

Definition status_value (did : Z) (t : SystemStatus) : option (M (DiagData N) (list Z)) :=
  if did =? DID_BATTERY_VOLTAGE then Some (mret (le_bytes 4 (battery_voltage t)))
  else if did =? DID_SYSTEM_VOLTAGE then Some (mret (le_bytes 4 (system_voltage t)))
  else if did =? DID_ENGINE_SPEED then Some (mret (le_bytes 2 (engine_speed t)))
  else if did =? DID_VEHICLE_SPEED then Some (mret (le_bytes 4 (vehicle_speed t)))
  else if did =? DID_ENGINE_TEMP then Some (mret (le_bytes 4 (engine_temp t)))
  else if did =? DID_AMBIENT_TEMP then Some (mret (le_bytes 4 (ambient_temp t)))
  else None.
Definition measure (m : Machine) : SystemStatus :=
  mkStatus (u32 (Battery_GetVoltage hw m)) (u32 (ECU_GetSystemVoltage hw m)) (u16 (ECU_GetEngineSpeed hw m))
    (u32 (ECU_GetVehicleSpeed hw m)) (u32 (Sensor_GetEngineTemp hw m)) (u32 (Sensor_GetAmbientTemp hw m)).
Definition read_system_status (did : Z) : M (DiagData N) (option (list Z)) :=
  lock;;
  t ← on_machine (fun m => (measure m, m));
  modify (fun s => s <| system_status := t |>);;
  s ← get;
  success ← answer (status_value did (system_status s));
  unlock;;
  mret success.

(** ** Diagnostic counters *)

Definition diagnostic_value (did : Z) (d : DiagnosticData) : option (M (DiagData N) (list Z)) :=
  if did =? DID_TOTAL_DISTANCE then Some (mret (le_bytes 4 (total_distance d)))
  else if did =? DID_TOTAL_RUNTIME then Some (mret (le_bytes 4 (total_runtime d)))
  else if did =? DID_LAST_ERROR_CODE then Some (mret (le_bytes 2 (dd_last_error_code d)))
  else if did =? DID_ERROR_COUNT then Some (mret (le_bytes 2 (dd_error_count d)))
  else if did =? DID_BOOT_COUNT then Some (mret (le_bytes 2 (boot_count d)))
  else None.
Definition read_diagnostic_data (did : Z) : M (DiagData N) (option (list Z)) :=
  lock;;
  runtime ← on_machine (fun m => (u32 (ECU_GetTotalRuntime hw m), m));
  errors ← on_machine (fun m => (u16 (ECU_GetErrorCount hw m), m));
  modify (fun s => s <| diagnostic_data ::= fun d => d <| total_runtime := runtime |> <| dd_error_count := errors |> |>);;
  s ← get;
  success ← answer (diagnostic_value did (diagnostic_data s));
  unlock;;
  mret success.

(** ** Configuration *)

Definition config_value (did : Z) (c : ConfigurationData) : option (M (DiagData N) (list Z)) :=
  if did =? DID_NETWORK_CONFIG then Some (mret (le_bytes 4 (network_config c)))
  else if did =? DID_CAN_BAUDRATE then Some (mret (le_bytes 4 (can_baudrate c)))
  else if did =? DID_NODE_ADDRESS then Some (mret (le_bytes 1 (node_address c)))
  else if did =? DID_SECURITY_CONFIG then Some (mret (le_bytes 2 (security_config c)))
  else if did =? DID_ROUTINE_CONFIG then Some (mret (le_bytes 2 (routine_config c)))
  else None.
Definition read_configuration (did : Z) : M (DiagData N) (option (list Z)) :=
  lock;;
  s ← get;
  success ← answer (config_value did (config_data s));
  unlock;;
  mret success.

(** One number of [width] bytes, handed to [apply] after it is stored. *)
Definition write_number (did width : Z) (store : Z -> ConfigurationData -> ConfigurationData) (apply : string)
    (data : list Z) (len : Z) : M (DiagData N) bool :=
  if len =? width then
    bytes ← from data len;
    modify (fun s => s <| config_data ::= store (le_value bytes) |>);;
    nv_store did bytes;;
    emit apply [le_value bytes];;
    mret true
  else mret false.
Definition write_configuration (did : Z) (data : list Z) (len : Z) : M (DiagData N) bool :=
  lock;;
  success ←
    (if did =? DID_NETWORK_CONFIG then
       write_number did 4 (fun z c => c <| network_config := z |>) "Network_ApplyConfig" data len
     else if did =? DID_CAN_BAUDRATE then
       write_number did 4 (fun z c => c <| can_baudrate := z |>) "Network_SetBaudrate" data len
     else if did =? DID_NODE_ADDRESS then
       write_number did 1 (fun z c => c <| node_address := z |>) "Network_SetNodeAddress" data len
     else if did =? DID_SECURITY_CONFIG then
       write_number did 2 (fun z c => c <| security_config := z |>) "Security_Manager_UpdateConfig" data len
     else if did =? DID_ROUTINE_CONFIG then
       write_number did 2 (fun z c => c <| routine_config := z |>) "Routine_Manager_UpdateConfig" data len
     else mret false);
  unlock;;
  mret success.

(** ** Start-up *)

(** A text the control unit writes into one of its arrays. *)
Definition fill_array (text array : list Z) : M (DiagData N) (list Z) :=
  if (length array <? length text)%nat then fault else mret (text ++ drop (length text) array).
Definition Diag_Data_Init : M (DiagData N) unit :=
  modify (fun s => s <| vehicle_info := mkVehicle
    (NVRAM_Read (addr DID_VIN) 17 (nvram s)) (NVRAM_Read (addr DID_VEHICLE_MODEL) 32 (nvram s))
    (NVRAM_Read (addr DID_SYSTEM_NAME) 32 (nvram s)) (NVRAM_Read (addr DID_REPAIR_SHOP_CODE) 10 (nvram s))
    (NVRAM_Read (addr DID_PROGRAMMING_DATE) 10 (nvram s)) |>);;
  s ← get;
  serial ← fill_array (ECU_GetSerialNumber hw) (serial_number (ecu_info s));
  date ← fill_array (ECU_GetManufacturingDate hw) (mfg_date (ecu_info s));
  modify (fun s => s <| ecu_info := mkECU serial (u16 (ECU_GetHardwareVersion hw)) (u16 (ECU_GetSoftwareVersion hw))
    date (u16 (ECU_GetSupplierId hw)) |>);;
  modify (fun s => let num did n := le_value (NVRAM_Read (addr did) n (nvram s)) in
    s <| config_data := mkConfiguration (num DID_NETWORK_CONFIG 4%nat) (num DID_CAN_BAUDRATE 4%nat)
           (num DID_NODE_ADDRESS 1%nat) (num DID_SECURITY_CONFIG 2%nat) (num DID_ROUTINE_CONFIG 2%nat) |>);;
  d ← on_machine (fun m => (mkDiagnostic (u32 (ECU_GetTotalDistance hw m)) (u32 (ECU_GetTotalRuntime hw m))
    (u16 (ECU_GetLastErrorCode hw m)) (u16 (ECU_GetErrorCount hw m)) (u16 (ECU_GetBootCount hw m)), m));
  modify (fun s => s <| diagnostic_data := d |>).
End handlers.

(** ** Specification

    The stored identifiers are a finite map from identifiers to bytes. *)

Definition vehicle_did (did : Z) : bool := (DID_VIN <=? did) && (did <=? DID_PROGRAMMING_DATE).
Definition ecu_did (did : Z) : bool := (DID_ECU_SERIAL <=? did) && (did <=? DID_ECU_SUPPLIER_ID).
Definition config_did (did : Z) : bool := (DID_NETWORK_CONFIG <=? did) && (did <=? DID_ROUTINE_CONFIG).
(** The bytes an identifier occupies. *)
Definition did_size (did : Z) : nat :=
  if did =? DID_VIN then 17 else if did <=? DID_SYSTEM_NAME then 32 else if did <=? DID_PROGRAMMING_DATE then 10
  else if did <=? DID_CAN_BAUDRATE then 4 else if did =? DID_NODE_ADDRESS then 1 else 2.
Definition config_apply (did : Z) : string :=
  if did =? DID_NETWORK_CONFIG then "Network_ApplyConfig" else if did =? DID_CAN_BAUDRATE then "Network_SetBaudrate"
  else if did =? DID_NODE_ADDRESS then "Network_SetNodeAddress"
  else if did =? DID_SECURITY_CONFIG then "Security_Manager_UpdateConfig" else "Routine_Manager_UpdateConfig".

(** What the statics store under an identifier. *)
Definition vehicle_stored (v : VehicleInfo) (did : Z) : option (list Z) :=
  if did =? DID_VIN then Some (vin v) else if did =? DID_VEHICLE_MODEL then cstr (vehicle_model v)
  else if did =? DID_SYSTEM_NAME then cstr (system_name v)
  else if did =? DID_REPAIR_SHOP_CODE then cstr (repair_shop_code v) else cstr (programming_date v).
Definition ecu_stored (e : ECUInfo) (did : Z) : option (list Z) :=
  if did =? DID_ECU_SERIAL then cstr (serial_number e) else if did =? DID_ECU_HW_VERSION then Some (le_bytes 2 (hw_version e))
  else if did =? DID_ECU_SW_VERSION then Some (le_bytes 2 (sw_version e))
  else if did =? DID_ECU_MFG_DATE then cstr (mfg_date e) else Some (le_bytes 2 (supplier_id e)).
Definition config_stored (c : ConfigurationData) (did : Z) : option (list Z) :=
  if did =? DID_NETWORK_CONFIG then Some (le_bytes 4 (network_config c))
  else if did =? DID_CAN_BAUDRATE then Some (le_bytes 4 (can_baudrate c))
  else if did =? DID_NODE_ADDRESS then Some (le_bytes 1 (node_address c))
  else if did =? DID_SECURITY_CONFIG then Some (le_bytes 2 (security_config c))
  else Some (le_bytes 2 (routine_config c)).
Definition stored {N} (s : DiagData N) (did : Z) : option (list Z) :=
  if vehicle_did did then vehicle_stored (vehicle_info s) did
  else if ecu_did did then ecu_stored (ecu_info s) did
  else if config_did did then config_stored (config_data s) did
  else None.

Inductive DataEvent :=
  ReadVehicle (did : Z) | ReadEcu (did : Z) | ReadConfig (did : Z)
| WriteVehicle (did : Z) (data : list Z) (behind : Z) | WriteConfig (did : Z) (data : list Z).
Inductive DataAnswer := Bytes (b : option (list Z)) | Accepted (b : bool).

(** A text ends at its first zero. *)
Definition text_of (data : list Z) : list Z := default data (cstr data).

(** What an event does with the map; [None] where the code is undefined. *)
Definition data_spec (e : DataEvent) (mp : gmap Z (list Z)) : option (DataAnswer * gmap Z (list Z) * list Call) :=
  let read (group : bool) did := Some (Bytes (if group then mp !! did else None), mp, []) in
  let refused := Some (Accepted false, mp, []) in
  match e with
  | ReadVehicle did => read (vehicle_did did) did
  | ReadEcu did => read (ecu_did did) did
  | ReadConfig did => read (config_did did) did
  | WriteVehicle did data _ =>
      if negb (vehicle_did did) then refused
      else if did =? DID_VIN then
        if (length data =? 17)%nat then Some (Accepted true, <[did := data]> mp, []) else refused
      else if (did_size did <? length data)%nat then refused
      else if (length data =? did_size did)%nat then None
      else Some (Accepted true, <[did := text_of data]> mp, [])
  | WriteConfig did data =>
      if negb (config_did did) || negb (length data =? did_size did)%nat then refused
      else Some (Accepted true, <[did := data]> mp, [call (config_apply did) [le_value data]])
  end.
Fixpoint data_specs (es : list DataEvent) (mp : gmap Z (list Z)) : option (list DataAnswer * gmap Z (list Z) * list Call) :=
  match es with
  | [] => Some ([], mp, [])
  | e :: es =>
      match data_spec e mp with
      | None => None
      | Some (a, mp, cs) =>
          match data_specs es mp with Some (aa, mp, cs') => Some (a :: aa, mp, cs ++ cs') | None => None end
      end
  end.

Section runs.
Context {N : Type} `{Nvram N} (addr : Z -> Z).
Definition data_event (e : DataEvent) : M (DiagData N) DataAnswer :=
  match e with
  | ReadVehicle did => b ← read_vehicle_info did; mret (Bytes b)
  | ReadEcu did => b ← read_ecu_info did; mret (Bytes b)
  | ReadConfig did => b ← read_configuration did; mret (Bytes b)
  | WriteVehicle did data behind =>
      b ← write_vehicle_info addr did (data ++ [behind]) (Z.of_nat (length data)); mret (Accepted b)
  | WriteConfig did data => b ← write_configuration addr did data (Z.of_nat (length data)); mret (Accepted b)
  end.
Fixpoint data_events (es : list DataEvent) : M (DiagData N) (list DataAnswer) :=
  match es with [] => mret [] | e :: es => a ← data_event e; aa ← data_events es; mret (a :: aa) end.
End runs.

Definition bytes_event (e : DataEvent) : Prop :=
  match e with
  | WriteVehicle _ data behind => Forall is_u8 data /\ is_u8 behind
  | WriteConfig _ data => Forall is_u8 data
  | _ => True
  end.

(** The array of a text, and the record with another one. *)
Definition text_field (did : Z) (v : VehicleInfo) : list Z :=
  if did =? DID_VEHICLE_MODEL then vehicle_model v else if did =? DID_SYSTEM_NAME then system_name v
  else if did =? DID_REPAIR_SHOP_CODE then repair_shop_code v else programming_date v.
Definition with_text (did : Z) (l : list Z) (v : VehicleInfo) : VehicleInfo :=
  if did =? DID_VEHICLE_MODEL then v <| vehicle_model := l |> else if did =? DID_SYSTEM_NAME then v <| system_name := l |>
  else if did =? DID_REPAIR_SHOP_CODE then v <| repair_shop_code := l |> else v <| programming_date := l |>.
Definition with_number (did : Z) (z : Z) (c : ConfigurationData) : ConfigurationData :=
  if did =? DID_NETWORK_CONFIG then c <| network_config := z |> else if did =? DID_CAN_BAUDRATE then c <| can_baudrate := z |>
  else if did =? DID_NODE_ADDRESS then c <| node_address := z |>
  else if did =? DID_SECURITY_CONFIG then c <| security_config := z |> else c <| routine_config := z |>.

Record data_wf {N} (s : DiagData N) : Prop := {
  dw_free : dd_locked s = false;
  dw_size : forall did, vehicle_did did = true -> did <> DID_VIN -> length (text_field did (vehicle_info s)) = did_size did;
  dw_text : forall did, vehicle_did did || ecu_did did = true -> is_Some (stored s did) }.
(** The map [mp] is what the statics hold. *)
Definition holds {N} (mp : gmap Z (list Z)) (s : DiagData N) : Prop := data_wf s /\ forall did, mp !! did = stored s did.

Lemma cstr_app data l : cstr (data ++ 0 :: l) = Some (text_of data).
Proof.
  unfold text_of. induction data as [|b data IH]; [done|]. cbn [app cstr]. destruct (b =? 0); [done|].
  rewrite IH. by destruct (cstr data).
Qed.

(** The identifiers of a group. *)
Lemma vehicle_cases did : vehicle_did did = true -> did = DID_VIN \/ did = DID_VEHICLE_MODEL \/
  did = DID_SYSTEM_NAME \/ did = DID_REPAIR_SHOP_CODE \/ did = DID_PROGRAMMING_DATE.
Proof. unfold vehicle_did, DID_VIN, DID_VEHICLE_MODEL, DID_SYSTEM_NAME, DID_REPAIR_SHOP_CODE, DID_PROGRAMMING_DATE. intros. tests. lia. Qed.
Lemma ecu_cases did : ecu_did did = true -> did = DID_ECU_SERIAL \/ did = DID_ECU_HW_VERSION \/
  did = DID_ECU_SW_VERSION \/ did = DID_ECU_MFG_DATE \/ did = DID_ECU_SUPPLIER_ID.
Proof. unfold ecu_did, DID_ECU_SERIAL, DID_ECU_HW_VERSION, DID_ECU_SW_VERSION, DID_ECU_MFG_DATE, DID_ECU_SUPPLIER_ID. intros. tests. lia. Qed.
Lemma config_cases did : config_did did = true -> did = DID_NETWORK_CONFIG \/ did = DID_CAN_BAUDRATE \/
  did = DID_NODE_ADDRESS \/ did = DID_SECURITY_CONFIG \/ did = DID_ROUTINE_CONFIG.
Proof. unfold config_did, DID_NETWORK_CONFIG, DID_CAN_BAUDRATE, DID_NODE_ADDRESS, DID_SECURITY_CONFIG, DID_ROUTINE_CONFIG. intros. tests. lia. Qed.
(** Tests on a known identifier. *)
Ltac is_answer v := lazymatch v with true => idtac | false => idtac end.
Ltac known := repeat
  match goal with
  | |- context [Z.eqb ?a ?b] => let v := eval vm_compute in (Z.eqb a b) in is_answer v; change (Z.eqb a b) with v
  | |- context [vehicle_did ?a] => let v := eval vm_compute in (vehicle_did a) in is_answer v; change (vehicle_did a) with v
  | |- context [ecu_did ?a] => let v := eval vm_compute in (ecu_did a) in is_answer v; change (ecu_did a) with v
  | |- context [config_did ?a] => let v := eval vm_compute in (config_did a) in is_answer v; change (config_did a) with v
  end.
(** Outside a group no test of its handlers succeeds. *)
Ltac outside H := repeat (rewrite (proj2 (Z.eqb_neq _ _)); [|intros ->; discriminate H]).

Section proofs.
Context {N : Type} `{Nvram N} (addr : Z -> Z).
Implicit Types (s : DiagData N) (m : Machine).

Lemma opt_Some {A} (a : A) : opt (N := N) (Some a) = mret a.
Proof. done. Qed.
Lemma relocked s : dd_locked s = false -> s <| dd_locked := true |> <| dd_locked := false |> = s.
Proof. destruct s; cbn. by intros ->. Qed.

Lemma under_lock_spec (value : DiagData N -> option (M (DiagData N) (list Z))) r s m :
  dd_locked s = false -> value (s <| dd_locked := true |>) = mret <$> r ->
  wp (lock;; s ← get; success ← answer (value s); unlock;; mret success)
    (fun a s' m' => a = r /\ s' = s /\ m' = m) s m.
Proof.
  intros Hl Hv. apply wp_bind, wp_lock_free; [done|]. apply wp_bind, wp_get, wp_bind. cbn [set_locked DiagData_mutex].
  rewrite Hv. destruct r as [b|]; cbn [fmap option_fmap option_map answer].
  - apply wp_bind, wp_ret, wp_ret, wp_bind, wp_unlock_held; [done|]. apply wp_ret. split_and!; [done|by apply relocked|done].
  - apply wp_ret, wp_bind, wp_unlock_held; [done|]. apply wp_ret. split_and!; [done|by apply relocked|done].
Qed.

Lemma vehicle_value_spec s did : data_wf s ->
  vehicle_value (N := N) did (vehicle_info s) = mret <$> (if vehicle_did did then stored s did else None).
Proof.
  intros [_ _ Ht]. specialize (Ht did). unfold vehicle_value. destruct (vehicle_did did) eqn:Ev; [|by outside Ev].
  destruct (Ht eq_refl) as [x Hx]. rewrite Hx. revert Hx.
  unfold stored, vehicle_stored. destruct (vehicle_cases did Ev) as [->|[->|[->|[->| ->]]]]; known; intros Hx; first [by rewrite Hx | by injection Hx as <-].
Qed.
Lemma ecu_value_spec s did : data_wf s ->
  ecu_value (N := N) did (ecu_info s) = mret <$> (if ecu_did did then stored s did else None).
Proof.
  intros [_ _ Ht]. specialize (Ht did). unfold ecu_value. destruct (ecu_did did) eqn:Ev; [|by outside Ev].
  rewrite orb_true_r in Ht. destruct (Ht eq_refl) as [x Hx]. rewrite Hx. revert Hx.
  unfold stored, ecu_stored. destruct (ecu_cases did Ev) as [->|[->|[->|[->| ->]]]]; known; intros Hx; first [by rewrite Hx | by injection Hx as <-].
Qed.
Lemma config_value_spec s did :
  config_value (N := N) did (config_data s) = mret <$> (if config_did did then stored s did else None).
Proof.
  unfold config_value. destruct (config_did did) eqn:Ev; [|by outside Ev].
  unfold stored, config_stored. by destruct (config_cases did Ev) as [->|[->|[->|[->| ->]]]]; known.
Qed.

Lemma from_spec data n (Q : list Z -> DiagData N -> Machine -> Prop) s m :
  n <= Z.of_nat (length data) -> Q (take (Z.to_nat n) data) s m -> wp (from data n) Q s m.
Proof. intros Hn HQ. unfold from. by rewrite (proj2 (Z.ltb_ge _ _)). Qed.

(** The state after a text was written. *)
Definition texted (did : Z) (data : list Z) (behind : Z) (s : DiagData N) : DiagData N :=
  s <| vehicle_info := with_text did (data ++ 0 :: drop (S (length data)) (text_field did (vehicle_info s))) (vehicle_info s) |>
    <| nvram ::= NVRAM_Write (addr did) (data ++ [behind]) |>.
Definition numbered (did : Z) (data : list Z) (s : DiagData N) : DiagData N :=
  s <| config_data := with_number did (le_value data) (config_data s) |> <| nvram ::= NVRAM_Write (addr did) data |>.
Definition vin_written (data : list Z) (s : DiagData N) : DiagData N :=
  s <| vehicle_info ::= fun v => v <| vin := data |> |> <| nvram ::= NVRAM_Write (addr DID_VIN) data |>.

Lemma write_text_spec did field store data behind (s : DiagData N) m :
  (forall v, field v = text_field did v) -> (forall l v, store l v = with_text did l v) ->
  length (text_field did (vehicle_info s)) = did_size did ->
  match (did_size did ?= length data)%nat with
  | Lt => wp (write_text addr did field store (data ++ [behind]) (Z.of_nat (length data)))
            (fun b s' m' => b = false /\ s' = s /\ m' = m) s m
  | Eq => write_text addr did field store (data ++ [behind]) (Z.of_nat (length data)) s m = None
  | Gt => wp (write_text addr did field store (data ++ [behind]) (Z.of_nat (length data)))
            (fun b s' m' => b = true /\ s' = texted did data behind s /\ m' = m) s m
  end.
Proof.
  intros Hf Hs Hl. unfold write_text. cbv zeta.
  assert (Hfrom : forall Q, Q data s m -> wp (from (data ++ [behind]) (Z.of_nat (length data))) Q s m).
  { intros Q HQ. apply from_spec; [rewrite length_app; cbn; lia|]. by rewrite Nat2Z.id, take_app_length. }
  destruct (Nat.compare_spec (did_size did) (length data)) as [E|E|E].
  - apply undefined_bind, wp_get. rewrite Hf, Hl, (proj2 (Z.leb_le _ _)) by lia.
    apply undefined_bind, Hfrom, undefined_bind'. by rewrite (proj2 (Z.leb_le _ _)) by lia.
  - apply wp_bind, wp_get. rewrite Hf, Hl, (proj2 (Z.leb_gt _ _)) by lia. by apply wp_ret.
  - apply wp_bind, wp_get. rewrite Hf, Hl, (proj2 (Z.leb_le _ _)) by lia.
    apply wp_bind, Hfrom, wp_bind. rewrite (proj2 (Z.leb_gt _ _)) by lia. apply wp_ret, wp_bind, wp_modify, wp_bind.
    apply from_spec; [rewrite length_app; cbn; lia|]. unfold nv_store. apply wp_bind, wp_modify, wp_ret. split_and!; [done| |done].
    unfold texted. cbn. rewrite Hs, Nat2Z.id, firstn_all2 by (rewrite length_app; cbn; lia). done.
Qed.
Lemma write_number_spec did store width data (s : DiagData N) m :
  (forall z c, store z c = with_number did z c) -> width = Z.of_nat (did_size did) ->
  wp (write_number addr did width store (config_apply did) data (Z.of_nat (length data))) (fun b s' m' =>
    if (length data =? did_size did)%nat
    then b = true /\ s' = numbered did data s /\ m' = m <| trace ::= fun t => t ++ [call (config_apply did) [le_value data]] |>
    else b = false /\ s' = s /\ m' = m) s m.
Proof.
  intros Hs ->. unfold write_number. destruct (_ =? did_size did)%nat eqn:E; tests.
  - rewrite (proj2 (Z.eqb_eq _ _)) by lia. apply wp_bind, from_spec; [lia|]. rewrite Nat2Z.id, firstn_all2 by lia.
    apply wp_bind, wp_modify. unfold nv_store. apply wp_bind, wp_modify, wp_bind, wp_emit, wp_ret.
    split_and!; [done| |done]. unfold numbered. cbn. by rewrite Hs.
  - rewrite (proj2 (Z.eqb_neq _ _)) by lia. by apply wp_ret.
Qed.
Lemma write_under (c : M (DiagData N) bool) s m b (g : DiagData N -> DiagData N) m1 : dd_locked s = false ->
  wp c (fun b' s' m' => b' = b /\ s' = g (s <| dd_locked := true |>) /\ m' = m1) (s <| dd_locked := true |>) m ->
  dd_locked (g (s <| dd_locked := true |>)) = true -> (g (s <| dd_locked := true |>)) <| dd_locked := false |> = g s ->
  wp (lock;; success ← c; unlock;; mret success) (fun b' s' m' => b' = b /\ s' = g s /\ m' = m1) s m.
Proof.
  intros Hl Hc Hk Hg. apply wp_bind, wp_lock_free; [done|]. apply wp_bind. eapply wp_mono; [exact Hc|].
  intros b' s' m' (-> & -> & ->). apply wp_bind, wp_unlock_held; [done|]. apply wp_ret. split_and!; [done|exact Hg|done].
Qed.

Lemma text_field_with did k l v : vehicle_did did = true -> vehicle_did k = true -> did <> DID_VIN -> k <> DID_VIN ->
  text_field k (with_text did l v) = if k =? did then l else text_field k v.
Proof.
  intros Hd Hk Hd' Hk'.
  destruct (vehicle_cases did Hd) as [->|[->|[->|[->| ->]]]]; [done|..];
    destruct (vehicle_cases k Hk) as [->|[->|[->|[->| ->]]]]; done.
Qed.
Lemma vin_with did l v : vin (with_text did l v) = vin v.
Proof. unfold with_text. by repeat case_match. Qed.
Lemma vehicle_stored_text v k : vehicle_did k = true ->
  vehicle_stored v k = if k =? DID_VIN then Some (vin v) else cstr (text_field k v).
Proof. intros Hk. by destruct (vehicle_cases k Hk) as [->|[->|[->|[->| ->]]]]. Qed.
Lemma config_stored_with did k z c : config_did did = true -> config_did k = true ->
  config_stored (with_number did z c) k = if k =? did then Some (le_bytes (did_size did) z) else config_stored c k.
Proof.
  intros Hd Hk. destruct (config_cases did Hd) as [->|[->|[->|[->| ->]]]];
    destruct (config_cases k Hk) as [->|[->|[->|[->| ->]]]]; done.
Qed.
Lemma config_not_vehicle k : config_did k = true -> vehicle_did k = false /\ ecu_did k = false.
Proof. intros Hk. by destruct (config_cases k Hk) as [->|[->|[->|[->| ->]]]]. Qed.

(** A change of one identifier is an insertion. *)
Lemma holds_insert mp s s' did x : holds mp s -> dd_locked s' = false ->
  (forall k, vehicle_did k = true -> k <> DID_VIN -> length (text_field k (vehicle_info s')) = did_size k) ->
  (forall k, stored s' k = if k =? did then Some x else stored s k) -> holds (<[did := x]> mp) s'.
Proof.
  intros [[Hl Hz Ht] Hm] Hl' Hz' Hs. split.
  - constructor; [done|done|]. intros k Hk. rewrite Hs. destruct (k =? did); [done|by apply Ht].
  - intros k. rewrite Hs. destruct (k =? did) eqn:E; tests; [subst; by rewrite lookup_insert_eq|].
    by rewrite lookup_insert_ne by congruence.
Qed.
Lemma holds_texted mp s did data behind : holds mp s -> vehicle_did did = true -> did <> DID_VIN ->
  (length data < did_size did)%nat -> holds (<[did := text_of data]> mp) (texted did data behind s).
Proof.
  intros Hh Hd Hn Hl. pose proof Hh as [[Hf Hz Ht] Hm]. apply (holds_insert mp s); [done|done|..].
  - intros k Hk Hk'. cbn. rewrite text_field_with by done. destruct (k =? did) eqn:E; tests; [|by apply Hz].
    subst k. rewrite length_app. cbn [length]. rewrite length_drop, Hz by done. lia.
  - intros k. unfold stored. destruct (vehicle_did k) eqn:Ek; [|destruct (k =? did) eqn:E; tests; [by subst; congruence|done]].
    rewrite !vehicle_stored_text by done. cbn. rewrite vin_with. destruct (k =? DID_VIN) eqn:Ev; tests.
    + by rewrite (proj2 (Z.eqb_neq _ _)) by congruence.
    + rewrite text_field_with by done. destruct (k =? did); [apply cstr_app|done].
Qed.
Lemma holds_vin mp s data : holds mp s -> holds (<[DID_VIN := data]> mp) (vin_written data s).
Proof.
  intros Hh. pose proof Hh as [[Hf Hz Ht] Hm]. apply (holds_insert mp s); [done|done|..].
  - intros k Hk Hk'. rewrite <- (Hz k Hk Hk'). by destruct (vehicle_cases k Hk) as [->|[->|[->|[->| ->]]]].
  - intros k. unfold stored. destruct (vehicle_did k) eqn:Ek; [|by outside Ek].
    by destruct (vehicle_cases k Ek) as [->|[->|[->|[->| ->]]]].
Qed.
Lemma holds_numbered mp s did data : holds mp s -> config_did did = true -> length data = did_size did ->
  Forall is_u8 data -> holds (<[did := data]> mp) (numbered did data s).
Proof.
  intros Hh Hd Hl Hb. pose proof Hh as [[Hf Hz Ht] Hm]. apply (holds_insert mp s); [done|done|done|].
  intros k. unfold stored. destruct (config_not_vehicle did Hd) as [Hv He].
  destruct (vehicle_did k) eqn:Ekv; [destruct (k =? did) eqn:E; tests; [by subst; congruence|done]|].
  destruct (ecu_did k) eqn:Eke; [destruct (k =? did) eqn:E; tests; [by subst; congruence|done]|].
  destruct (config_did k) eqn:Ekc; [|destruct (k =? did) eqn:E; tests; [by subst; congruence|done]].
  cbn. rewrite config_stored_with by done. destruct (k =? did); [|done]. by rewrite <- Hl, le_bytes_value.
Qed.

(** What a write handler does, with the state it leaves. *)
Definition outcome (c : M (DiagData N) bool) (s : DiagData N) (m : Machine) (r : option (bool * DiagData N * list Call)) : Prop :=
  match r with
  | None => c s m = None
  | Some (b, s1, cs) => wp c (fun b' s' m' => b' = b /\ s' = s1 /\ m' = m <| trace ::= fun t => t ++ cs |>) s m
  end.
Definition vehicle_outcome (did : Z) (data : list Z) (behind : Z) (s : DiagData N) : option (bool * DiagData N * list Call) :=
  if negb (vehicle_did did) then Some (false, s, [])
  else if did =? DID_VIN then
    if (length data =? 17)%nat then Some (true, vin_written data s, []) else Some (false, s, [])
  else if (did_size did <? length data)%nat then Some (false, s, [])
  else if (length data =? did_size did)%nat then None else Some (true, texted did data behind s, []).
Lemma same_trace m : m = m <| trace ::= fun t => t ++ [] |>.
Proof. destruct m. cbn. by rewrite app_nil_r. Qed.

Lemma text_outcome did data behind field store s m :
  (forall v, field v = text_field did v) -> (forall l v, store l v = with_text did l v) ->
  length (text_field did (vehicle_info s)) = did_size did -> dd_locked s = false ->
  outcome (lock;; success ← write_text addr did field store (data ++ [behind]) (Z.of_nat (length data)); unlock;; mret success) s m
    (if (did_size did <? length data)%nat then Some (false, s, [])
     else if (length data =? did_size did)%nat then None else Some (true, texted did data behind s, [])).
Proof.
  intros Hf Hs Hl Hk.
  set (s1 := s <| dd_locked := true |>).
  pose proof (write_text_spec did field store data behind s1 m Hf Hs Hl) as Hw.
  destruct (Nat.compare_spec (did_size did) (length data)) as [E|E|E].
  - rewrite (proj2 (Nat.ltb_ge _ _)), (proj2 (Nat.eqb_eq _ _)) by lia. apply undefined_bind, wp_lock_free; [done|].
    by apply undefined_bind'.
  - rewrite (proj2 (Nat.ltb_lt _ _)) by lia. cbn [outcome]. rewrite <- same_trace.
    apply (write_under _ s m false (fun s => s)); [done|exact Hw|done|by apply relocked].
  - rewrite (proj2 (Nat.ltb_ge _ _)), (proj2 (Nat.eqb_neq _ _)) by lia. cbn [outcome]. rewrite <- same_trace.
    apply (write_under _ s m true (texted did data behind)); [done|exact Hw|done|].
    unfold texted. destruct s; cbn in *. by subst.
Qed.
Lemma write_vehicle_spec did data behind s m : data_wf s ->
  outcome (write_vehicle_info addr did (data ++ [behind]) (Z.of_nat (length data))) s m (vehicle_outcome did data behind s).
Proof.
  intros [Hl Hz Ht]. unfold vehicle_outcome, write_vehicle_info. destruct (vehicle_did did) eqn:Ev; cbn [negb].
  - specialize (Hz did Ev). destruct (vehicle_cases did Ev) as [->|[->|[->|[->| ->]]]]; known; cbv iota.
    2-5: by apply text_outcome; [..|apply Hz|].
    destruct (_ =? 17)%nat eqn:E17; tests; cbn [outcome]; rewrite <- same_trace.
    + rewrite (proj2 (Z.eqb_eq _ 17)) by lia. apply (write_under _ s m true (vin_written data)); [done| |done|].
      * apply wp_bind, from_spec; [rewrite length_app; lia|]. rewrite Nat2Z.id, take_app_length. unfold nv_store.
        apply wp_bind, wp_modify, wp_bind, wp_modify, wp_ret. done.
      * unfold vin_written. destruct s; cbn in *. by subst.
    + rewrite (proj2 (Z.eqb_neq _ 17)) by lia. apply (write_under _ s m false (fun s => s)); [done|by apply wp_ret|done|by apply relocked].
  - outside Ev. cbn [outcome]. rewrite <- same_trace.
    apply (write_under _ s m false (fun s => s)); [done|by apply wp_ret|done|by apply relocked].
Qed.

Definition config_outcome (did : Z) (data : list Z) (s : DiagData N) : option (bool * DiagData N * list Call) :=
  if negb (config_did did) || negb (length data =? did_size did)%nat then Some (false, s, [])
  else Some (true, numbered did data s, [call (config_apply did) [le_value data]]).
Lemma number_outcome did store width data s m :
  (forall z c, store z c = with_number did z c) -> width = Z.of_nat (did_size did) -> dd_locked s = false ->
  outcome (lock;; success ← write_number addr did width store (config_apply did) data (Z.of_nat (length data)); unlock;; mret success) s m
    (if negb (length data =? did_size did)%nat then Some (false, s, [])
     else Some (true, numbered did data s, [call (config_apply did) [le_value data]])).
Proof.
  intros Hs Hw Hk. pose proof (write_number_spec did store width data (s <| dd_locked := true |>) m Hs Hw) as Hn.
  destruct (_ =? did_size did)%nat; cbn [negb outcome].
  - apply (write_under _ s m true (numbered did data)); [done|exact Hn|done|].
    unfold numbered. destruct s; cbn in *. by subst.
  - rewrite <- same_trace. apply (write_under _ s m false (fun s => s)); [done|exact Hn|done|by apply relocked].
Qed.
Lemma write_config_spec did data s m : data_wf s ->
  outcome (write_configuration addr did data (Z.of_nat (length data))) s m (config_outcome did data s).
Proof.
  intros [Hl Hz Ht]. unfold config_outcome, write_configuration. destruct (config_did did) eqn:Ev; cbn [negb orb].
  - destruct (config_cases did Ev) as [->|[->|[->|[->| ->]]]]; known; cbv iota; by apply number_outcome.
  - outside Ev. cbn [outcome]. rewrite <- same_trace.
    apply (write_under _ s m false (fun s => s)); [done|by apply wp_ret|done|by apply relocked].
Qed.

Lemma data_event_spec e mp s m : holds mp s -> bytes_event e ->
  match data_spec e mp with
  | Some (a, mp', cs) =>
      wp (data_event addr e) (fun b s' m' => b = a /\ holds mp' s' /\ m' = m <| trace ::= fun t => t ++ cs |>) s m
  | None => data_event addr e s m = None
  end.
Proof.
  intros Hh Hb. pose proof Hh as [Hw Hm].
  assert (Hread : forall (value : DiagData N -> option (M (DiagData N) (list Z))) (group : bool) (did : Z) (k : option (list Z) -> DataAnswer),
    (forall o, k o = Bytes o) -> value (s <| dd_locked := true |>) = mret <$> (if group then stored s did else None) ->
    wp (b ← (lock;; s ← get; success ← answer (value s); unlock;; mret success); mret (k b))
      (fun b s' m' => b = Bytes (if group : bool then mp !! did else None) /\ holds mp s' /\
         m' = m <| trace ::= fun t => t ++ [] |>) s m).
  { intros value group did k Hk Hv. rewrite <- same_trace. apply wp_bind. eapply wp_mono; [by eapply under_lock_spec; [apply Hw|]|].
    intros a s' m' (-> & -> & ->). apply wp_ret. rewrite Hk, Hm. done. }
  destruct e as [did|did|did|did data behind|did data]; cbn [data_spec data_event].
  - by apply (Hread (fun s => vehicle_value did (vehicle_info s))), (vehicle_value_spec s).
  - by apply (Hread (fun s => ecu_value did (ecu_info s))), (ecu_value_spec s).
  - by apply (Hread (fun s => config_value did (config_data s))), (config_value_spec s).
  - pose proof (write_vehicle_spec did data behind s m Hw) as Ho. unfold vehicle_outcome in Ho.
    destruct (vehicle_did did) eqn:Ev; cbn [negb] in *; repeat case_match; tests; cbn [outcome] in Ho; simplify_eq.
    all: try (by apply undefined_bind').
    all: apply wp_bind; eapply wp_mono; [exact Ho|]; intros b s' m' (-> & -> & ->); apply wp_ret; split_and!; try done.
    + by apply holds_vin.
    + apply holds_texted; [done..|lia].
  - pose proof (write_config_spec did data s m Hw) as Ho. unfold config_outcome in Ho.
    destruct (config_did did) eqn:Ev; cbn [negb orb] in *; repeat case_match; tests; cbn [outcome] in Ho; simplify_eq.
    all: apply wp_bind; eapply wp_mono; [exact Ho|]; intros b s' m' (-> & -> & ->); apply wp_ret; split_and!; try done.
    all: by apply holds_numbered.
Qed.
End proofs.

(** ** Restart *)

Section restart.
Context {N : Type} `{Nvram N} (hw : Hw) (addr : Z -> Z).
Implicit Types (s : DiagData N) (m : Machine).

Definition area (n : N) (did : Z) : list Z := NVRAM_Read (addr did) (did_size did) n.
(** What an area spells. *)
Definition spelled (n : N) (did : Z) : option (list Z) :=
  if vehicle_did did && negb (did =? DID_VIN) then cstr (area n did) else Some (area n did).
Definition disjoint_areas : Prop := forall did k, vehicle_did did || config_did did = true ->
  vehicle_did k || config_did k = true -> did <> k ->
  addr did + Z.of_nat (did_size did) <= addr k \/ addr k + Z.of_nat (did_size k) <= addr did.
Definition nv_bytes (n : N) : Prop := forall a, is_u8 (nv_byte n a).
Definition ecu_texts (s : DiagData N) : Prop :=
  (length (ECU_GetSerialNumber hw) <= length (serial_number (ecu_info s)))%nat /\
  (length (ECU_GetManufacturingDate hw) <= length (mfg_date (ecu_info s)))%nat.

Lemma length_area n did : length (area n did) = did_size did.
Proof. unfold area, NVRAM_Read. by rewrite length_fmap, length_seq. Qed.
Lemma lookup_read a len (n : N) i : (i < len)%nat -> NVRAM_Read a len n !! i = Some (nv_byte n (a + Z.of_nat i)).
Proof. intros Hi. unfold NVRAM_Read. rewrite list_lookup_fmap, lookup_seq_lt by done. done. Qed.
Lemma area_written did l n : (length l <= did_size did)%nat ->
  area (NVRAM_Write (addr did) l n) did = l ++ drop (length l) (area n did).
Proof.
  intros Hl. apply list_eq_same_length with (n := did_size did);
    [rewrite length_app, length_drop, length_area; lia|apply length_area|].
  intros i x y Hi. unfold area at 1. rewrite lookup_read, nv_written by done. intros [= <-].
  destruct (decide (i < length l)%nat) as [Hil|Hil].
  - rewrite lookup_app_l by done. rewrite (proj2 (Z.leb_le _ _)), (proj2 (Z.ltb_lt _ _)) by lia. cbn [andb].
    replace (Z.to_nat (addr did + Z.of_nat i - addr did)) with i by lia. rewrite nth_lookup. intros ->. done.
  - rewrite lookup_app_r, lookup_drop by lia. replace (length l + (i - length l))%nat with i by lia.
    unfold area. rewrite lookup_read by done. intros [= <-]. rewrite (proj2 (Z.ltb_ge _ _)) by lia. by rewrite andb_false_r.
Qed.
Lemma area_other did k l n : disjoint_areas -> vehicle_did did || config_did did = true ->
  vehicle_did k || config_did k = true -> did <> k -> (length l <= did_size did)%nat ->
  area (NVRAM_Write (addr did) l n) k = area n k.
Proof.
  intros Hdis Hd Hk Hne Hl. unfold area, NVRAM_Read. apply list_fmap_ext. intros i j Hj.
  apply lookup_seq in Hj as [-> Hj]. rewrite nv_written. specialize (Hdis did k Hd Hk Hne).
  destruct (_ <=? _) eqn:E1, (_ <? _) eqn:E2; tests; try done. lia.
Qed.

Lemma init_spec s m : ecu_texts s -> nv_bytes (nvram s) ->
  wp (Diag_Data_Init hw addr) (fun _ s' m' => m' = m /\ nvram s' = nvram s /\ dd_locked s' = dd_locked s /\
    forall did, vehicle_did did || config_did did = true -> stored s' did = spelled (nvram s) did) s m.
Proof.
  intros [Hs Hd] Hb. unfold Diag_Data_Init. apply wp_bind, wp_modify, wp_bind, wp_get, wp_bind.
  unfold fill_array. cbn [ecu_info setf]. rewrite (proj2 (Nat.ltb_ge _ _)) by done. apply wp_ret, wp_bind.
  rewrite (proj2 (Nat.ltb_ge _ _)) by done. apply wp_ret, wp_bind, wp_modify, wp_bind, wp_modify, wp_bind.
  unfold on_machine, wp at 1. cbv zeta. cbn beta. apply wp_modify. split_and!; [done..|].
  assert (Hn : forall did, le_bytes (did_size did) (le_value (area (nvram s) did)) = area (nvram s) did).
  { intros did. rewrite <- (length_area (nvram s) did) at 1. apply le_bytes_value, Forall_fmap, Forall_true.
    intros i. apply Hb. }
  intros did Hdid. apply orb_true_iff in Hdid as [Hv|Hc].
  - by destruct (vehicle_cases did Hv) as [->|[->|[->|[->| ->]]]].
  - specialize (Hn did). unfold spelled, stored. destruct (config_not_vehicle did Hc) as [-> ->]. rewrite Hc. cbn [andb].
    rewrite <- Hn. by destruct (config_cases did Hc) as [->|[->|[->|[->| ->]]]].
Qed.
(** The identifier a write is for, and what is left of it after a restart, given the bytes
    its area held before. *)
Definition written_did (e : DataEvent) : Z :=
  match e with ReadVehicle did | ReadEcu did | ReadConfig did | WriteVehicle did _ _ | WriteConfig did _ => did end.
Definition kept (e : DataEvent) (old : list Z) : option (list Z) :=
  match e with
  | WriteVehicle did data behind =>
      if did =? DID_VIN then Some data else cstr (data ++ behind :: drop (S (length data)) old)
  | WriteConfig _ data => Some data
  | _ => None
  end.
Definition stored_bytes (e : DataEvent) : list Z :=
  match e with
  | WriteVehicle did data behind => if did =? DID_VIN then data else data ++ [behind]
  | WriteConfig _ data => data
  | _ => []
  end.

Lemma written_bytes a l (n : N) : nv_bytes n -> Forall is_u8 l -> nv_bytes (NVRAM_Write a l n).
Proof.
  intros Hn Hl b. rewrite nv_written. destruct (_ && _) eqn:E; [|apply Hn]. tests. rewrite nth_lookup.
  destruct (l !! Z.to_nat (b - a)) as [x|] eqn:Ex; [by eapply Forall_lookup_1|done].
Qed.

(** A write that is accepted stores its bytes in the area of its identifier. *)
Lemma accepted_nvram e mp s m mp' cs : holds mp s -> bytes_event e -> data_spec e mp = Some (Accepted true, mp', cs) ->
  vehicle_did (written_did e) || config_did (written_did e) = true /\ Forall is_u8 (stored_bytes e) /\
  (length (stored_bytes e) <= did_size (written_did e))%nat /\
  (vehicle_did (written_did e) && negb (written_did e =? DID_VIN) = false ->
     length (stored_bytes e) = did_size (written_did e)) /\
  wp (data_event addr e) (fun _ s' _ => nvram s' = NVRAM_Write (addr (written_did e)) (stored_bytes e) (nvram s) /\
    ecu_info s' = ecu_info s) s m.
Proof.
  intros [Hw _] Hb Hs. destruct e as [did|did|did|did data behind|did data]; cbn [data_spec] in Hs; try discriminate.
  - cbn [written_did stored_bytes bytes_event data_event] in *. destruct Hb as [Hb Hb'].
    pose proof (write_vehicle_spec addr did data behind s m Hw) as Ho. unfold vehicle_outcome in Ho.
    destruct (vehicle_did did) eqn:Ev; cbn [negb andb orb] in *; [|discriminate]. destruct (did =? DID_VIN) eqn:E1; tests.
    + destruct (_ =? 17)%nat eqn:E17; [|discriminate]. tests. subst did. cbn [outcome] in Ho.
      split_and!; [done|done|change (did_size DID_VIN) with 17%nat; lia|done|]. apply wp_bind. eapply wp_mono; [exact Ho|].
      intros b s' m' (_ & -> & _). by apply wp_ret.
    + destruct (_ <? _)%nat eqn:E2; [discriminate|]. destruct (_ =? did_size did)%nat eqn:E3; [discriminate|]. tests.
      rewrite length_app. cbn [length negb]. split_and!; [done|apply Forall_app; split; [done|by apply Forall_singleton]|lia|done|].
      apply wp_bind. eapply wp_mono; [exact Ho|]. intros b s' m' (_ & -> & _). by apply wp_ret.
  - cbn [written_did stored_bytes bytes_event data_event] in *.
    pose proof (write_config_spec addr did data s m Hw) as Ho. unfold config_outcome in Ho.
    destruct (config_did did) eqn:Ec; cbn [negb orb] in *; [|discriminate].
    destruct (_ =? did_size did)%nat eqn:El; cbn [negb] in *; [|discriminate]. tests.
    split_and!; [by rewrite orb_true_r|done|lia|done|]. apply wp_bind. eapply wp_mono; [exact Ho|].
    intros b s' m' (_ & -> & _). by apply wp_ret.
Qed.
Lemma spelled_written e n mp mp' cs : (length (stored_bytes e) <= did_size (written_did e))%nat ->
  (vehicle_did (written_did e) && negb (written_did e =? DID_VIN) = false ->
     length (stored_bytes e) = did_size (written_did e)) ->
  data_spec e mp = Some (Accepted true, mp', cs) ->
  spelled (NVRAM_Write (addr (written_did e)) (stored_bytes e) n) (written_did e) = kept e (area n (written_did e)).
Proof.
  intros Hl Hx Hs. unfold spelled. rewrite area_written by done.
  destruct (vehicle_did _ && _) eqn:E; cycle 1.
  - rewrite drop_ge, app_nil_r by (rewrite length_area, Hx by done; lia).
    destruct e as [did|did|did|did data behind|did data]; try discriminate; [|done]. cbn in *.
    destruct (vehicle_did did); [|discriminate]. cbn in E. by destruct (did =? DID_VIN).
  - destruct e as [did|did|did|did data behind|did data]; try discriminate; cbn [written_did stored_bytes kept] in *; tests.
    + rewrite (proj2 (Z.eqb_neq _ _)) by done. rewrite length_app, <- app_assoc. cbn [length app]. by rewrite Nat.add_1_r.
    + cbn [data_spec] in Hs. destruct (config_did did) eqn:Ec; [|discriminate].
      destruct (config_not_vehicle did Ec). congruence.
Qed.
End restart.

Section theorems.
Context {N : Type} `{Nvram N} (hw : Hw) (addr : Z -> Z).
Implicit Types (s : DiagData N) (m : Machine).

(** The handlers implement a finite map from identifiers to bytes: along every run of
    reads and writes each read answers what the map holds, if the identifier belongs to its
    handler, and each accepted write replaces one entry, a text up to its first zero; a new
    number is applied once.  Exactly a text as long as its array is undefined: the
    terminator is written behind the array. *)
Theorem diag_data_refines es : forall mp s m, holds mp s -> Forall bytes_event es ->
  match data_specs es mp with
  | Some (aa, mp', cs) => wp (data_events addr es) (fun bb s' m' => bb = aa /\ holds mp' s' /\
      m' = m <| trace ::= fun t => t ++ cs |>) s m
  | None => data_events addr es s m = None
  end.
Proof.
  induction es as [|e es IH]; intros mp s m Hh He; cbn [data_specs data_events].
  - apply wp_ret. by rewrite <- same_trace.
  - apply Forall_cons in He as [He Hes]. pose proof (data_event_spec addr e mp s m Hh He) as Hs.
    destruct (data_spec e mp) as [[[a mp1] cs1]|]; [|by apply undefined_bind'].
    pose proof (fun s1 m1 Hh1 => IH mp1 s1 m1 Hh1 Hes) as Hr. clear IH.
    destruct (data_specs es mp1) as [[[aa mp2] cs2]|].
    + apply wp_bind. eapply wp_mono; [exact Hs|]. intros b s1 m1 (-> & Hh1 & ->). apply wp_bind.
      eapply wp_mono; [by apply Hr|]. intros bb s2 m2 (-> & Hh2 & ->). apply wp_ret. split_and!; [done|done|].
      cbn. by rewrite app_assoc.
    + apply undefined_bind. eapply wp_mono; [exact Hs|]. intros b s1 m1 (-> & Hh1 & ->).
      by apply undefined_bind', Hr.
Qed.

(** What a restart keeps of an accepted write: the vehicle identification number and
    the numbers of the configuration come back as they were written; a text comes back with
    the byte behind the request and whatever its area held after it, up to the next zero,
    because the terminator is not stored.  Every other area spells what it spelled. *)
Theorem diag_data_restart e mp s m mp' cs : disjoint_areas addr -> holds mp s -> ecu_texts hw s -> nv_bytes (nvram s) ->
  bytes_event e -> data_spec e mp = Some (Accepted true, mp', cs) ->
  wp (data_event addr e;; Diag_Data_Init hw addr) (fun _ s' _ =>
    stored s' (written_did e) = kept e (area addr (nvram s) (written_did e)) /\
    forall k, vehicle_did k || config_did k = true -> k <> written_did e -> stored s' k = spelled addr (nvram s) k) s m.
Proof.
  intros Hdis Hh He Hb Hbe Hs.
  destruct (accepted_nvram addr e mp s m mp' cs Hh Hbe Hs) as (Hdid & Hbs & Hl & Hx & Hwp).
  apply wp_bind. eapply wp_mono; [exact Hwp|]. intros a s1 m1 [Hn1 Hecu].
  eapply wp_mono; [apply init_spec; [unfold ecu_texts; by rewrite Hecu|rewrite Hn1; by apply written_bytes]|].
  intros [] s2 m2 (_ & _ & _ & Hst). rewrite Hn1 in Hst. split.
  - rewrite Hst by done. by eapply spelled_written.
  - intros k Hk Hne. rewrite Hst by done. unfold spelled. by rewrite area_other by (done || congruence).
Qed.
End theorems.

(** ** Witnesses *)

(** Memory as a function from addresses to bytes. *)
#[export, refine] Instance flat_nvram : Nvram (Z -> Z) := {|
  nv_byte n a := n a;
  NVRAM_Write a l n := fun b => if (a <=? b) && (b <? a + Z.of_nat (length l)) then nth (Z.to_nat (b - a)) l 0 else n b |}.
Proof. done. Defined.

Definition example_hw : Hw := mkHw (fun _ => 12) (fun _ => 12) (fun _ => 800) (fun _ => 0) (fun _ => 90) (fun _ => 20)
  (fun _ => 1000) (fun _ => 60) (fun _ => 0) (fun _ => 0) (fun _ => 1) [65; 0] 1 2 [66; 0] 3.
Definition example_addr (did : Z) : Z := 64 * did.
Definition example_data : DiagData (Z -> Z) :=
  mkDiagData (mkVehicle (replicate 17 48) (replicate 32 0) (replicate 32 0) (replicate 10 0) (replicate 10 0))
    (mkECU (replicate 16 0) 1 2 (replicate 10 0) 3) (mkStatus 0 0 0 0 0 0) (mkDiagnostic 0 0 0 0 0)
    (mkConfiguration 1 500000 2 3 4) (fun _ => 88) false.
Definition example_map : gmap Z (list Z) :=
  list_to_map [(DID_VIN, replicate 17 48); (DID_VEHICLE_MODEL, []); (DID_SYSTEM_NAME, []); (DID_REPAIR_SHOP_CODE, []);
    (DID_PROGRAMMING_DATE, []); (DID_ECU_SERIAL, []); (DID_ECU_HW_VERSION, [1; 0]); (DID_ECU_SW_VERSION, [2; 0]);
    (DID_ECU_MFG_DATE, []); (DID_ECU_SUPPLIER_ID, [3; 0]); (DID_NETWORK_CONFIG, [1; 0; 0; 0]);
    (DID_CAN_BAUDRATE, [32; 161; 7; 0]); (DID_NODE_ADDRESS, [2]); (DID_SECURITY_CONFIG, [3; 0]); (DID_ROUTINE_CONFIG, [4; 0])].
Lemma example_holds : holds example_map example_data.
Proof.
  split; [constructor; [done|..]|].
  - intros did Hd Hn. by destruct (vehicle_cases did Hd) as [->|[->|[->|[->| ->]]]].
  - intros did Hd. apply orb_true_iff in Hd as [Hd|Hd].
    + destruct (vehicle_cases did Hd) as [->|[->|[->|[->| ->]]]]; by eexists.
    + destruct (ecu_cases did Hd) as [->|[->|[->|[->| ->]]]]; by eexists.
  - intros did. unfold stored. destruct (vehicle_did did) eqn:Ev.
    { by destruct (vehicle_cases did Ev) as [->|[->|[->|[->| ->]]]]. }
    destruct (ecu_did did) eqn:Ee. { by destruct (ecu_cases did Ee) as [->|[->|[->|[->| ->]]]]. }
    destruct (config_did did) eqn:Ec. { by destruct (config_cases did Ec) as [->|[->|[->|[->| ->]]]]. }
    unfold example_map. cbn [list_to_map foldr uncurry fst snd].
    repeat (rewrite lookup_insert_ne by (intros <-; discriminate)). apply lookup_empty.
Qed.

Lemma diag_data_refines_witness :
  let es := [WriteVehicle DID_SYSTEM_NAME [65; 66] 7; ReadVehicle DID_SYSTEM_NAME; WriteConfig DID_NODE_ADDRESS [9];
             ReadConfig DID_NODE_ADDRESS; ReadEcu DID_VIN] in
  wp (data_events example_addr es) (fun bb _ m' =>
    bb = [Accepted true; Bytes (Some [65; 66]); Accepted true; Bytes (Some [9]); Bytes None] /\
    trace m' = [call "Network_SetNodeAddress" [9]]) example_data boot.
Proof.
  intros es.
  assert (Ha : (fun r => (r.1.1, r.2)) <$> data_specs es example_map = Some
    ([Accepted true; Bytes (Some [65; 66]); Accepted true; Bytes (Some [9]); Bytes None], [call "Network_SetNodeAddress" [9]])).
  { vm_compute. reflexivity. }
  assert (Hb : Forall bytes_event es) by (repeat constructor; vm_compute; intros; congruence).
  pose proof (diag_data_refines example_addr es example_map example_data boot example_holds Hb) as Hr.
  destruct (data_specs es example_map) as [[[aa mp'] cs]|]; [|discriminate]. injection Ha as -> ->.
  eapply wp_mono; [exact Hr|]. intros bb s' m' (-> & _ & ->). split; reflexivity.
Defined.

Lemma example_disjoint : disjoint_areas example_addr.
Proof.
  intros did k Hd Hk Hne. unfold example_addr, did_size.
  assert (Hs : forall z, (match z with true => 17 | false => 32 end <= 32)%nat) by (intros []; lia).
  repeat case_match; lia.
Qed.
(** The name [AB], the byte 67 behind it and the old contents of the area come back. *)
Lemma diag_data_restart_witness :
  let old := fun a => if a =? example_addr DID_SYSTEM_NAME + 4 then 0 else 88 in
  wp (data_event example_addr (WriteVehicle DID_SYSTEM_NAME [65; 66] 67);; Diag_Data_Init example_hw example_addr)
    (fun _ s' _ => stored s' DID_SYSTEM_NAME = Some [65; 66; 67; 88]) (example_data <| nvram := old |>) boot.
Proof.
  intros old. eapply wp_mono.
  - eapply (diag_data_restart example_hw example_addr (WriteVehicle DID_SYSTEM_NAME [65; 66] 67) example_map).
    + exact example_disjoint.
    + destruct example_holds as [[] ?]. by split; [constructor|].
    + split; cbn; lia.
    + intros a. cbn. unfold old. destruct (_ =? _); vm_compute; split; congruence.
    + repeat constructor; vm_compute; intros; congruence.
    + vm_compute. reflexivity.
  - intros [] s' m' [Hs _]. etransitivity; [exact Hs|]. vm_compute. reflexivity.
Defined.
