(* ===== verification/DiagRoutines.v ===== *)
(** * Vehicle routines

    [src/runtime/diagnostic/routines/diag_routines.c]: the battery, sensor, actuator,
    memory and network tests that the routine manager starts, stops, asks for results and
    times out.  Every function of the hardware is reached through the parameter [ext]: the
    answer to a call, which may depend on everything that happened before.  A [float] is
    only copied, so it is the value of its four bytes; the layout is little endian.  A
    result points to a static buffer, named by [Routine], so it changes when the buffer is
    written again. *)

From S2P Require Import Prelude Memory Machine.

Record BatteryTestState := mkBattery {
  bt_voltage : Z; bt_current : Z; bt_temperature : Z; health_status : Z; bt_complete : bool }.
#[export] Instance eta_BatteryTestState : Eta BatteryTestState := fun b =>
  mkBattery (bt_voltage b) (bt_current b) (bt_temperature b) (health_status b) (bt_complete b).
Record SensorCalibrationState := mkSensor {
  sensor_id : Z; raw_value : Z; calibrated_value : Z; calibration_status : Z; calibration_complete : bool }.
#[export] Instance eta_SensorCalibrationState : Eta SensorCalibrationState := fun c =>
  mkSensor (sensor_id c) (raw_value c) (calibrated_value c) (calibration_status c) (calibration_complete c).
Record ActuatorTestState := mkActuator {
  actuator_id : Z; test_sequence : Z; at_status : Z; at_complete : bool }.
#[export] Instance eta_ActuatorTestState : Eta ActuatorTestState := fun a =>
  mkActuator (actuator_id a) (test_sequence a) (at_status a) (at_complete a).
Record MemoryCheckState := mkMemoryCheck {
  mc_start_address : Z; mc_size : Z; mc_checksum : Z; check_status : Z; check_complete : bool }.
#[export] Instance eta_MemoryCheckState : Eta MemoryCheckState := fun c =>
  mkMemoryCheck (mc_start_address c) (mc_size c) (mc_checksum c) (check_status c) (check_complete c).
Record NetworkTestState := mkNetworkTest {
  node_count : Z; active_nodes : Z; response_times : list Z; error_counts : list Z; nt_complete : bool }.
#[export] Instance eta_NetworkTestState : Eta NetworkTestState := fun n =>
  mkNetworkTest (node_count n) (active_nodes n) (response_times n) (error_counts n) (nt_complete n).

Inductive Routine := BATTERY_TEST | SENSOR_CALIBRATION | ACTUATOR_TEST | MEMORY_CHECK | NETWORK_TEST.
(** The static result buffers, one per routine. *)
Definition buffer_index (r : Routine) : nat :=
  match r with BATTERY_TEST => 0 | SENSOR_CALIBRATION => 1 | ACTUATOR_TEST => 2 | MEMORY_CHECK => 3 | NETWORK_TEST => 4 end.
Definition buffer_size (r : Routine) : nat :=
  match r with BATTERY_TEST | SENSOR_CALIBRATION => 32 | ACTUATOR_TEST => 64 | MEMORY_CHECK => 16 | NETWORK_TEST => 256 end.

Record DiagRoutines := mkRoutines {
  battery_test_state : BatteryTestState; sensor_cal_state : SensorCalibrationState;
  actuator_test_state : ActuatorTestState; memory_check_state : MemoryCheckState;
  network_test_state : NetworkTestState; buffers : list (list Z) }.
#[export] Instance eta_DiagRoutines : Eta DiagRoutines := fun s =>
  mkRoutines (battery_test_state s) (sensor_cal_state s) (actuator_test_state s) (memory_check_state s)
    (network_test_state s) (buffers s).

(** The caller's struct: [data] is the buffer of a routine. *)
Record Result := mkRoutineResult { r_code : Z; r_data : Routine; r_length : Z }.
(** The bytes a caller reads through it. *)
Definition result_bytes (s : DiagRoutines) (r : Result) : list Z :=
  take (Z.to_nat (r_length r)) (buffers s !!! buffer_index (r_data r)).

Definition battery_zero : BatteryTestState := mkBattery 0 0 0 0 false.
Definition sensor_zero : SensorCalibrationState := mkSensor 0 0 0 0 false.
Definition actuator_zero : ActuatorTestState := mkActuator 0 0 0 false.
Definition memory_check_zero : MemoryCheckState := mkMemoryCheck 0 0 0 0 false.
Definition network_test_zero : NetworkTestState := mkNetworkTest 0 0 (replicate 32 0) (replicate 32 0) false.
#[global] Arguments network_test_zero : simpl never.

Section hardware.
Context (ext : Machine -> string -> list Z -> Z).

Definition ask (callee : string) (args : list Z) : M DiagRoutines Z :=
  v ← on_machine (fun m => (ext m callee args, m)); emit callee args;; mret v.
Definition ask_bool (callee : string) (args : list Z) : M DiagRoutines bool := v ← ask callee args; mret (negb (v =? 0)).
(** A function that fills an array of [n] words; the words are separate answers. *)
Fixpoint ask_words (callee : string) (n i : nat) : M DiagRoutines (list Z) :=
  match n with
  | O => mret []
  | S n => v ← on_machine (fun m => (ext m callee [Z.of_nat i], m)); vs ← ask_words callee n (S i); mret (v :: vs)
  end.
Definition byte (data : list Z) (i : nat) : M DiagRoutines Z := match data !! i with Some b => mret b | None => fault end.
(** [memcpy] of [n] bytes out of the request. *)
Definition word (data : list Z) (i n : nat) : M DiagRoutines Z :=
  if (length data <? i + n)%nat then fault else mret (le_value (take n (drop i data))).
Definition put (r : Routine) (i : nat) (bytes : list Z) : M DiagRoutines unit :=
  s ← get;
  let b := buffers s !!! buffer_index r in
  if (length b <? i + length bytes)%nat then fault else
  modify (fun s => s <| buffers ::= <[buffer_index r := take i b ++ bytes ++ drop (i + length bytes) b]> |>).
Definition done_byte (complete : bool) : Z := if complete then 1 else 0.
Definition code (complete : bool) : Z := if complete then 0 else 1.

(** ** Battery test *)

Definition battery_test_start (data : list Z) (len : Z) : M DiagRoutines bool :=
  if len <? 1 then mret false else
  test_type ← byte data 0;
  modify (fun s => s <| battery_test_state := battery_zero |>);;
  ok ← ask_bool "Battery_Init" [];
  if negb ok then mret false else
  if test_type =? 1 then emit "Battery_SetTestLoad" [1];; mret true
  else if test_type =? 2 then emit "Battery_EnableCharging" [1];; mret true
  else if test_type =? 3 then emit "Battery_StartHealthCheck" [];; mret true
  else mret false.
Definition battery_test_stop : M DiagRoutines bool :=
  emit "Battery_SetTestLoad" [0];; emit "Battery_EnableCharging" [0];; emit "Battery_StopHealthCheck" [];; mret true.
Definition battery_poll : M DiagRoutines unit :=
  s ← get;
  if negb (bt_complete (battery_test_state s)) then
     v ← ask "Battery_GetVoltage" []; c ← ask "Battery_GetCurrent" []; t ← ask "Battery_GetTemperature" [];
     h ← ask "Battery_GetHealthStatus" []; d ← ask_bool "Battery_IsTestComplete" [];
     modify (fun s => s <| battery_test_state := mkBattery (u32 v) (u32 c) (u32 t) (u8 h) d |>)
  else mret tt.
Definition battery_pack : M DiagRoutines Result :=
  s ← get;
  let b := battery_test_state s in
  put BATTERY_TEST 0 [done_byte (bt_complete b)];;
  put BATTERY_TEST 1 (le_bytes 4 (bt_voltage b));;
  put BATTERY_TEST 5 (le_bytes 4 (bt_current b));;
  put BATTERY_TEST 9 (le_bytes 4 (bt_temperature b));;
  put BATTERY_TEST 13 [health_status b];;
  mret (mkRoutineResult (code (bt_complete b)) BATTERY_TEST 14).
Definition battery_test_get_result : M DiagRoutines Result := battery_poll;; battery_pack.
Definition battery_test_timeout : M DiagRoutines unit :=
  emit "Battery_SetTestLoad" [0];; emit "Battery_EnableCharging" [0];; emit "Battery_StopHealthCheck" [];;
  modify (fun s => s <| battery_test_state ::= fun b => b <| bt_complete := true |> |>).

(** ** Sensor calibration *)

Definition sensor_calibration_start (data : list Z) (len : Z) : M DiagRoutines bool :=
  if len <? 3 then mret false else
  hi ← byte data 0; lo ← byte data 1;
  modify (fun s => s <| sensor_cal_state ::= fun c => c <| sensor_id := Z.lor (Z.shiftl hi 8) lo |> |>);;
  calibration_type ← byte data 2;
  modify (fun s => s <| sensor_cal_state := sensor_zero |>);;
  s ← get;
  let id := sensor_id (sensor_cal_state s) in
  ok ← ask_bool "Sensor_Init" [id];
  if negb ok then mret false else
  if calibration_type =? 1 then emit "Sensor_StartZeroCalibration" [id];; mret true
  else if calibration_type =? 2 then
    if len <? 7 then mret false else
    span_value ← word data 3 4;
    emit "Sensor_StartSpanCalibration" [id; span_value];; mret true
  else mret false.
Definition sensor_calibration_stop : M DiagRoutines bool :=
  s ← get; ask_bool "Sensor_StopCalibration" [sensor_id (sensor_cal_state s)].
Definition sensor_poll : M DiagRoutines unit :=
  s ← get;
  let id := sensor_id (sensor_cal_state s) in
  if negb (calibration_complete (sensor_cal_state s)) then
     r ← ask "Sensor_GetRawValue" [id]; c ← ask "Sensor_GetCalibratedValue" [id];
     t ← ask "Sensor_GetCalibrationStatus" [id]; d ← ask_bool "Sensor_IsCalibrationComplete" [id];
     modify (fun s => s <| sensor_cal_state := mkSensor id (u32 r) (u32 c) (u8 t) d |>)
  else mret tt.
Definition sensor_pack : M DiagRoutines Result :=
  s ← get;
  let c := sensor_cal_state s in
  put SENSOR_CALIBRATION 0 [done_byte (calibration_complete c)];;
  put SENSOR_CALIBRATION 1 (le_bytes 4 (raw_value c));;
  put SENSOR_CALIBRATION 5 (le_bytes 4 (calibrated_value c));;
  put SENSOR_CALIBRATION 9 [calibration_status c];;
  mret (mkRoutineResult (code (calibration_complete c)) SENSOR_CALIBRATION 10).
Definition sensor_calibration_get_result : M DiagRoutines Result := sensor_poll;; sensor_pack.
Definition sensor_calibration_timeout : M DiagRoutines unit :=
  s ← get; emit "Sensor_StopCalibration" [sensor_id (sensor_cal_state s)];;
  modify (fun s => s <| sensor_cal_state ::= fun c => c <| calibration_complete := true |> |>).

(** ** Actuator test *)

Definition actuator_test_start (data : list Z) (len : Z) : M DiagRoutines bool :=
  if len <? 4 then mret false else
  hi ← byte data 0; lo ← byte data 1; seq ← byte data 2;
  modify (fun s => s <| actuator_test_state ::= fun a =>
    a <| actuator_id := Z.lor (Z.shiftl hi 8) lo |> <| test_sequence := seq |> |>);;
  test_duration ← byte data 3;
  modify (fun s => s <| actuator_test_state := actuator_zero |>);;
  s ← get;
  let id := actuator_id (actuator_test_state s) in
  ok ← ask_bool "Actuator_Init" [id];
  if negb ok then mret false else
  s ← get;
  let seq := test_sequence (actuator_test_state s) in
  if seq =? 1 then emit "Actuator_StartSweepTest" [id; test_duration];; mret true
  else if seq =? 2 then
    if len <? 8 then mret false else
    target_position ← word data 4 4;
    emit "Actuator_StartStepTest" [id; target_position];; mret true
  else if seq =? 3 then
    if len <? 12 then mret false else
    frequency ← word data 4 4; amplitude ← word data 8 4;
    emit "Actuator_StartFrequencyTest" [id; frequency; amplitude];; mret true
  else mret false.
Definition actuator_test_stop : M DiagRoutines bool :=
  s ← get; ask_bool "Actuator_StopTest" [actuator_id (actuator_test_state s)].
(** The three numbers of a sequence's detailed results. *)
Definition actuator_details (callee : string) (id : Z) : M DiagRoutines unit :=
  emit callee [id];;
  v ← ask_words callee 3 0;
  put ACTUATOR_TEST 2 (mjoin (le_bytes 4 ∘ u32 <$> v)).
Definition actuator_poll : M DiagRoutines unit :=
  s ← get;
  let id := actuator_id (actuator_test_state s) in
  if negb (at_complete (actuator_test_state s)) then
     t ← ask "Actuator_GetTestStatus" [id]; d ← ask_bool "Actuator_IsTestComplete" [id];
     modify (fun s => s <| actuator_test_state ::= fun a => a <| at_status := u8 t |> <| at_complete := d |> |>)
  else mret tt.
Definition actuator_pack : M DiagRoutines Result :=
  s ← get;
  let a := actuator_test_state s in
  let id := actuator_id a in
  put ACTUATOR_TEST 0 [done_byte (at_complete a)];;
  put ACTUATOR_TEST 1 [at_status a];;
  buffer_index ←
    (if test_sequence a =? 1 then actuator_details "Actuator_GetSweepResults" id;; mret 14
     else if test_sequence a =? 2 then actuator_details "Actuator_GetStepResults" id;; mret 14
     else if test_sequence a =? 3 then actuator_details "Actuator_GetFrequencyResults" id;; mret 14
     else mret 2);
  mret (mkRoutineResult (code (at_complete a)) ACTUATOR_TEST buffer_index).
Definition actuator_test_get_result : M DiagRoutines Result := actuator_poll;; actuator_pack.
Definition actuator_test_timeout : M DiagRoutines unit :=
  s ← get; emit "Actuator_StopTest" [actuator_id (actuator_test_state s)];;
  modify (fun s => s <| actuator_test_state ::= fun a => a <| at_complete := true |> |>).

(** ** Memory check *)

Definition memory_check_start (data : list Z) (len : Z) : M DiagRoutines bool :=
  if len <? 8 then mret false else
  modify (fun s => s <| memory_check_state := memory_check_zero |>);;
  address ← word data 0 4;
  modify (fun s => s <| memory_check_state ::= fun c => c <| mc_start_address := address |> |>);;
  size ← word data 4 4;
  modify (fun s => s <| memory_check_state ::= fun c => c <| mc_size := size |> |>);;
  s ← get;
  let args := [mc_start_address (memory_check_state s); mc_size (memory_check_state s)] in
  ok ← ask_bool "Memory_ValidateRange" args;
  if negb ok then mret false else ask_bool "Memory_StartCheck" args.
Definition memory_check_stop : M DiagRoutines bool := ask_bool "Memory_StopCheck" [].
Definition memory_poll : M DiagRoutines unit :=
  s ← get;
  if negb (check_complete (memory_check_state s)) then
     t ← ask "Memory_GetCheckStatus" []; k ← ask "Memory_GetChecksum" []; d ← ask_bool "Memory_IsCheckComplete" [];
     modify (fun s => s <| memory_check_state ::= fun c =>
       c <| check_status := u8 t |> <| mc_checksum := u32 k |> <| check_complete := d |> |>)
  else mret tt.
Definition memory_pack : M DiagRoutines Result :=
  s ← get;
  let c := memory_check_state s in
  put MEMORY_CHECK 0 [done_byte (check_complete c)];;
  put MEMORY_CHECK 1 [check_status c];;
  put MEMORY_CHECK 2 (le_bytes 4 (mc_checksum c));;
  mret (mkRoutineResult (code (check_complete c)) MEMORY_CHECK 6).
Definition memory_check_get_result : M DiagRoutines Result := memory_poll;; memory_pack.
Definition memory_check_timeout : M DiagRoutines unit :=
  emit "Memory_StopCheck" [];;
  modify (fun s => s <| memory_check_state ::= fun c => c <| check_complete := true |> |>).

(** ** Network test *)

Definition network_test_start (data : list Z) (len : Z) : M DiagRoutines bool :=
  if len <? 1 then mret false else
  modify (fun s => s <| network_test_state := network_test_zero |>);;
  count ← byte data 0;
  modify (fun s => s <| network_test_state ::= fun n => n <| node_count := count |> |>);;
  s ← get;
  if 32 <? node_count (network_test_state s) then mret false else
  ask_bool "Network_StartTest" [node_count (network_test_state s); 1000; 3].
Definition network_test_stop : M DiagRoutines bool := ask_bool "Network_StopTest" [].
(** The loop that packs the response times, from node [i] at [index]. *)
Fixpoint pack_times (k i index : nat) : M DiagRoutines unit :=
  match k with
  | O => mret tt
  | S k =>
      s ← get;
      match response_times (network_test_state s) !! i with
      | None => fault
      | Some t => put NETWORK_TEST index (le_bytes 2 t);; pack_times k (S i) (index + 2)
      end
  end.
Definition network_poll : M DiagRoutines unit :=
  s ← get;
  if negb (nt_complete (network_test_state s)) then
     a ← ask "Network_GetActiveNodeCount" [];
     emit "Network_GetResponseTimes" [];; times ← ask_words "Network_GetResponseTimes" 32 0;
     emit "Network_GetErrorCounts" [];; errors ← ask_words "Network_GetErrorCounts" 32 0;
     d ← ask_bool "Network_IsTestComplete" [];
     modify (fun s => s <| network_test_state ::= fun n => n <| active_nodes := u8 a |>
       <| response_times := u16 <$> times |> <| error_counts := u8 <$> errors |> <| nt_complete := d |> |>)
  else mret tt.
Definition network_pack : M DiagRoutines Result :=
  s ← get;
  let n := network_test_state s in
  let count := Z.to_nat (node_count n) in
  put NETWORK_TEST 0 [done_byte (nt_complete n)];;
  put NETWORK_TEST 1 [active_nodes n];;
  pack_times count 0 2;;
  (if (length (error_counts n) <? count)%nat then fault else put NETWORK_TEST (2 + 2 * count) (take count (error_counts n)));;
  mret (mkRoutineResult (code (nt_complete n)) NETWORK_TEST (2 + 3 * node_count n)).
Definition network_test_get_result : M DiagRoutines Result := network_poll;; network_pack.
Definition network_test_timeout : M DiagRoutines unit :=
  emit "Network_StopTest" [];;
  modify (fun s => s <| network_test_state ::= fun n => n <| nt_complete := true |> |>).
End hardware.

(** ** What a result says *)

Definition reported (r : Routine) (s : DiagRoutines) : list Z :=
  match r with
  | BATTERY_TEST =>
      let b := battery_test_state s in
      [done_byte (bt_complete b)] ++ le_bytes 4 (bt_voltage b) ++ le_bytes 4 (bt_current b) ++
      le_bytes 4 (bt_temperature b) ++ [health_status b]
  | SENSOR_CALIBRATION =>
      let c := sensor_cal_state s in
      [done_byte (calibration_complete c)] ++ le_bytes 4 (raw_value c) ++ le_bytes 4 (calibrated_value c) ++ [calibration_status c]
  | ACTUATOR_TEST => let a := actuator_test_state s in [done_byte (at_complete a); at_status a]
  | MEMORY_CHECK =>
      let c := memory_check_state s in [done_byte (check_complete c); check_status c] ++ le_bytes 4 (mc_checksum c)
  | NETWORK_TEST =>
      let n := network_test_state s in
      [done_byte (nt_complete n); active_nodes n] ++
      mjoin (le_bytes 2 <$> take (Z.to_nat (node_count n)) (response_times n)) ++ take (Z.to_nat (node_count n)) (error_counts n)
  end.
Definition complete (r : Routine) (s : DiagRoutines) : bool :=
  match r with
  | BATTERY_TEST => bt_complete (battery_test_state s)
  | SENSOR_CALIBRATION => calibration_complete (sensor_cal_state s)
  | ACTUATOR_TEST => at_complete (actuator_test_state s)
  | MEMORY_CHECK => check_complete (memory_check_state s)
  | NETWORK_TEST => nt_complete (network_test_state s)
  end.

(** The identifiers of sensor and actuator and the sequence of the actuator test stay 0. *)
Record routines_wf (s : DiagRoutines) : Prop := {
  rw_buffers : forall r, length (buffers s !!! buffer_index r) = buffer_size r;
  rw_count : length (buffers s) = 5%nat;
  rw_sensor : sensor_id (sensor_cal_state s) = 0;
  rw_actuator : actuator_id (actuator_test_state s) = 0;
  rw_sequence : test_sequence (actuator_test_state s) = 0;
  rw_times : length (response_times (network_test_state s)) = 32%nat;
  rw_errors : length (error_counts (network_test_state s)) = 32%nat;
  rw_nodes : is_u8 (node_count (network_test_state s)) }.

Lemma buffer_index_lt r s : routines_wf s -> (buffer_index r < length (buffers s))%nat.
Proof. intros Hw. rewrite (rw_count s Hw). destruct r; cbn; lia. Qed.

(** [s] is [s0] with the bytes [p] at the start of the buffer of [r]. *)
Definition packed (r : Routine) (p : list Z) (s0 s : DiagRoutines) : Prop :=
  exists b, s = s0 <| buffers ::= <[buffer_index r := b]> |> /\ length b = buffer_size r /\ take (length p) b = p.

Lemma packed_nil r s : routines_wf s -> packed r [] s s.
Proof.
  intros Hw. exists (buffers s !!! buffer_index r). split_and!; [|apply Hw|done].
  destruct s as [? ? ? ? ? bs]. cbn. f_equal. symmetry. apply list_insert_id, list_lookup_lookup_total_lt.
  by apply (buffer_index_lt r) in Hw.
Qed.
Lemma put_spec r i bytes p s0 s m (Q : unit -> DiagRoutines -> Machine -> Prop) : routines_wf s0 -> packed r p s0 s ->
  i = length p -> (i + length bytes <= buffer_size r)%nat ->
  (forall s', packed r (p ++ bytes) s0 s' -> Q tt s' m) -> wp (put r i bytes) Q s m.
Proof.
  intros Hw (b & -> & Hl & Hp) -> Hi HQ. unfold put. apply wp_bind, wp_get. cbv zeta.
  assert (Hb : buffers (s0 <| buffers ::= <[buffer_index r := b]> |>) !!! buffer_index r = b).
  { cbn. apply list_lookup_total_insert_eq. by apply buffer_index_lt. }
  rewrite Hb, (proj2 (Nat.ltb_ge _ _)) by lia. apply wp_modify, HQ.
  exists (take (length p) b ++ bytes ++ drop (length p + length bytes) b). split_and!.
  - destruct s0; cbn. by rewrite list_insert_insert_eq.
  - rewrite !length_app, length_take, length_drop. lia.
  - rewrite Hp, app_assoc, length_app. apply take_app_length'. by rewrite length_app.
Qed.
Lemma packed_reported r p s0 s c len : packed r p s0 s -> routines_wf s0 -> len = Z.of_nat (length p) ->
  result_bytes s (mkRoutineResult c r len) = p /\ (forall r', reported r' s = reported r' s0) /\
  (forall r', complete r' s = complete r' s0) /\ routines_wf s.
Proof.
  intros (b & -> & Hl & Hp) Hw ->. pose proof (buffer_index_lt r s0 Hw) as Hlt. split_and!.
  - unfold result_bytes. cbn. by rewrite Nat2Z.id, list_lookup_total_insert_eq.
  - by intros [].
  - by intros [].
  - destruct Hw as [Hb ? ? ? ? ? ? ?]. constructor; try done; cbn [buffers setf]; [|by rewrite length_insert].
    intros r'. destruct (decide (buffer_index r = buffer_index r')) as [E|E].
    + rewrite E, list_lookup_total_insert_eq by (by rewrite <- E). rewrite Hl. by destruct r, r'.
    + by rewrite list_lookup_total_insert_ne.
Qed.

(** ** The calls the routines make *)

(** Starting an actuator, and addressing a sensor or an actuator other than 0. *)
Definition actuates (c : Call) : bool := let '(call f _) := c in String.prefix "Actuator_Start" f.
Definition addresses (c : Call) : bool :=
  let '(call f args) := c in
  (String.prefix "Sensor_" f || String.prefix "Actuator_" f) && negb (hd 0 args =? 0).
Definition harmless (c : Call) : Prop := actuates c = false /\ addresses c = false.
(** [m'] is [m] after harmless calls. *)
Definition logged (m m' : Machine) : Prop :=
  exists calls, m' = m <| trace ::= fun t => t ++ calls |> /\ Forall harmless calls.

Lemma logged_refl m : logged m m.
Proof. exists []. split; [|done]. destruct m; cbn. by rewrite app_nil_r. Qed.
Lemma logged_trans m1 m2 m3 : logged m1 m2 -> logged m2 m3 -> logged m1 m3.
Proof.
  intros (c1 & -> & H1) (c2 & -> & H2). exists (c1 ++ c2). split; [|by apply Forall_app].
  destruct m1; cbn. by rewrite app_assoc.
Qed.
Lemma logged_call m f args : harmless (call f args) -> logged m (m <| trace ::= fun t => t ++ [call f args] |>).
Proof. intros Hc. exists [call f args]. split; [done|by apply Forall_singleton]. Qed.

(** The operations of a routine. *)
Section operations.
Context (ext : Machine -> string -> list Z -> Z).

Definition routine_start (r : Routine) : list Z -> Z -> M DiagRoutines bool :=
  match r with
  | BATTERY_TEST => battery_test_start ext | SENSOR_CALIBRATION => sensor_calibration_start ext
  | ACTUATOR_TEST => actuator_test_start ext | MEMORY_CHECK => memory_check_start ext | NETWORK_TEST => network_test_start ext
  end.
Definition routine_stop (r : Routine) : M DiagRoutines bool :=
  match r with
  | BATTERY_TEST => battery_test_stop | SENSOR_CALIBRATION => sensor_calibration_stop ext
  | ACTUATOR_TEST => actuator_test_stop ext | MEMORY_CHECK => memory_check_stop ext | NETWORK_TEST => network_test_stop ext
  end.
Definition routine_poll (r : Routine) : M DiagRoutines unit :=
  match r with
  | BATTERY_TEST => battery_poll ext | SENSOR_CALIBRATION => sensor_poll ext | ACTUATOR_TEST => actuator_poll ext
  | MEMORY_CHECK => memory_poll ext | NETWORK_TEST => network_poll ext
  end.
Definition routine_pack (r : Routine) : M DiagRoutines Result :=
  match r with
  | BATTERY_TEST => battery_pack | SENSOR_CALIBRATION => sensor_pack | ACTUATOR_TEST => actuator_pack ext
  | MEMORY_CHECK => memory_pack | NETWORK_TEST => network_pack
  end.
Definition routine_get_result (r : Routine) : M DiagRoutines Result :=
  match r with
  | BATTERY_TEST => battery_test_get_result ext | SENSOR_CALIBRATION => sensor_calibration_get_result ext
  | ACTUATOR_TEST => actuator_test_get_result ext | MEMORY_CHECK => memory_check_get_result ext
  | NETWORK_TEST => network_test_get_result ext
  end.
Definition routine_timeout (r : Routine) : M DiagRoutines unit :=
  match r with
  | BATTERY_TEST => battery_test_timeout | SENSOR_CALIBRATION => sensor_calibration_timeout
  | ACTUATOR_TEST => actuator_test_timeout | MEMORY_CHECK => memory_check_timeout | NETWORK_TEST => network_test_timeout
  end.

Lemma get_result_split r : routine_get_result r = (routine_poll r;; routine_pack r).
Proof. by destruct r. Qed.

Lemma wp_ask f args (Q : Z -> DiagRoutines -> Machine -> Prop) s m : harmless (call f args) ->
  (forall v m', logged m m' -> Q v s m') -> wp (ask ext f args) Q s m.
Proof. intros Hc HQ. apply wp_bind. cbn. by apply HQ, logged_call. Qed.
Lemma wp_ask_bool f args (Q : bool -> DiagRoutines -> Machine -> Prop) s m : harmless (call f args) ->
  (forall b m', logged m m' -> Q b s m') -> wp (ask_bool ext f args) Q s m.
Proof. intros Hc HQ. apply wp_bind, wp_ask; [done|]. intros v m' Hl. by apply wp_ret, HQ. Qed.
Lemma wp_call f args (Q : unit -> DiagRoutines -> Machine -> Prop) s m : harmless (call f args) ->
  (forall m', logged m m' -> Q tt s m') -> wp (emit f args) Q s m.
Proof. intros Hc HQ. by apply wp_emit, HQ, logged_call. Qed.
Lemma wp_ask_words f n : forall i (Q : list Z -> DiagRoutines -> Machine -> Prop) s m,
  (forall l, length l = n -> Q l s m) -> wp (ask_words ext f n i) Q s m.
Proof.
  induction n as [|n IH]; intros i Q s m HQ; cbn [ask_words]; [by apply wp_ret, HQ|].
  apply wp_bind. unfold on_machine, wp at 1. apply wp_bind, IH. intros l Hl. apply wp_ret, HQ. cbn. by rewrite Hl.
Qed.
Lemma logged_snoc m m1 m2 : logged m m1 -> logged m1 m2 -> logged m m2.
Proof. apply logged_trans. Qed.

(** One call after another, with the log kept. *)
Ltac asks :=
  repeat match goal with
  | H1 : logged ?m ?m1, H2 : logged ?m1 ?m2 |- _ => apply (logged_trans m m1 m2 H1) in H2; clear H1
  | |- wp (ask _ _ _ ≫= _) _ _ _ => apply wp_bind, wp_ask; [by repeat constructor|intros ? ? ?]
  | |- wp (ask_bool _ _ _ ≫= _) _ _ _ => apply wp_bind, wp_ask_bool; [by repeat constructor|intros ? ? ?]
  | |- wp (ask_bool _ _ _) _ _ _ => apply wp_ask_bool; [by repeat constructor|intros ? ? ?]
  | |- wp (emit _ _ ≫= _) _ _ _ => apply wp_bind, wp_call; [by repeat constructor|intros ? ?]
  | |- wp (ask_words _ _ _ _ ≫= _) _ _ _ => apply wp_bind, wp_ask_words; intros ? ?
  end.

(** A poll asks the hardware unless the routine is complete, and leaves the others alone. *)
Definition routine_poll_post (r : Routine) (s : DiagRoutines) (m : Machine) (s' : DiagRoutines) (m' : Machine) : Prop :=
  routines_wf s' /\ node_count (network_test_state s') = node_count (network_test_state s) /\
  (forall r', r' <> r -> reported r' s' = reported r' s /\ complete r' s' = complete r' s) /\
  (complete r s = true -> s' = s /\ m' = m) /\ logged m m'.
Lemma routine_poll_spec r s m : routines_wf s -> wp (routine_poll r) (fun _ => routine_poll_post r s m) s m.
Proof.
  intros Hw. pose proof Hw as [? ? Hs Ha Hq ? ? ?]. unfold routine_poll_post.
  destruct r; cbn [routine_poll]; unfold battery_poll, sensor_poll, actuator_poll, memory_poll, network_poll;
    apply wp_bind, wp_get; cbv zeta; cbn [complete];
    match goal with |- context [negb ?b] => destruct b end; cbn [negb]; try (apply wp_ret; split_and!; done || apply logged_refl).
  all: rewrite ?Hs, ?Ha; asks; apply wp_modify; (split; [|split; [done|split; [by intros [] ?|split; [|done]]]]); try (by intros [=]).
  all: constructor; try done.
  all: cbn; by rewrite length_fmap.
Qed.

Lemma packed_state r p s0 s : packed r p s0 s -> network_test_state s = network_test_state s0 /\
  actuator_test_state s = actuator_test_state s0.
Proof. by intros (b & -> & _). Qed.
Lemma pack_times_spec k : forall i index p s0 s m, routines_wf s0 -> packed NETWORK_TEST p s0 s -> index = length p ->
  (i + k <= 32)%nat -> (index + 2 * k <= 256)%nat ->
  wp (pack_times k i index) (fun _ s' m' => m' = m /\
    packed NETWORK_TEST (p ++ mjoin (le_bytes 2 <$> take k (drop i (response_times (network_test_state s0))))) s0 s') s m.
Proof.
  induction k as [|k IH]; intros i index p s0 s m Hw Hp -> Hi Hx; cbn [pack_times].
  - apply wp_ret. split; [done|]. by rewrite take_0, app_nil_r.
  - destruct (lookup_lt_is_Some_2 (response_times (network_test_state s0)) i) as [v Hv]; [rewrite (rw_times s0 Hw); lia|].
    apply wp_bind, wp_get. destruct (packed_state _ _ _ _ Hp) as [-> _]. rewrite Hv.
    eapply wp_bind, put_spec; [exact Hw|exact Hp|done|rewrite length_le_bytes; cbn; lia|]. intros s1 Hp1.
    eapply wp_mono; [apply (IH (S i) _ _ s0 s1 m Hw Hp1); [rewrite length_app, length_le_bytes; lia|lia|lia]|].
    intros [] s2 m2 [-> Hp2]. split; [done|]. rewrite (drop_S _ v i Hv), <- app_assoc in *. exact Hp2.
Qed.

Ltac puts Hw := repeat (eapply wp_bind, (put_spec _ _ _ _ _ _ _ _ Hw);
  [eassumption|done|cbn; lia|intros ? ?; match goal with H : packed _ _ _ ?s |- wp _ _ ?s _ => idtac end]).
Lemma pack_spec r s m : routines_wf s -> (r = NETWORK_TEST -> node_count (network_test_state s) <= 32) ->
  wp (routine_pack r) (fun res s' m' => m' = m /\ packed r (reported r s) s s' /\
    res = mkRoutineResult (code (complete r s)) r (Z.of_nat (length (reported r s)))) s m.
Proof.
  intros Hw Hn. pose proof (packed_nil r s Hw) as Hp0.
  destruct r; cbn [routine_pack]; unfold battery_pack, sensor_pack, actuator_pack, memory_pack, network_pack;
    apply wp_bind, wp_get; cbv zeta; puts Hw.
  1-2: apply wp_ret; split_and!; done.
  - rewrite (rw_sequence s Hw). apply wp_bind. do 3 (rewrite (proj2 (Z.eqb_neq 0 _)) by done). apply wp_ret, wp_ret. split_and!; done.
  - apply wp_ret; split_and!; done.
  - specialize (Hn eq_refl). pose proof (rw_nodes s Hw) as Hc. unfold is_u8 in Hc.
    set (count := Z.to_nat (node_count (network_test_state s))).
    apply wp_bind. eapply wp_mono; [eapply pack_times_spec; [exact Hw|eassumption|done|unfold count; lia|unfold count; lia]|].
    intros [] s1 m1 [-> Hp1]. rewrite drop_0 in Hp1. pose proof (rw_errors s Hw) as He. pose proof (rw_times s Hw) as Ht.
    rewrite (proj2 (Nat.ltb_ge _ _)) by (unfold count; lia).
    assert (Hlen : length (mjoin (le_bytes 2 <$> take count (response_times (network_test_state s)))) = (2 * count)%nat).
    { rewrite length_words, length_take. unfold count. lia. }
    eapply wp_bind, (put_spec _ _ _ _ _ _ _ _ Hw); [exact Hp1|rewrite length_app, Hlen; cbn; lia| |].
    { rewrite length_take. cbn. unfold count. lia. }
    intros s2 Hp2. apply wp_ret. rewrite <- app_assoc in Hp2. split_and!; [done|exact Hp2|]. f_equal.
    unfold reported. cbv zeta. fold count. rewrite !length_app, Hlen, length_take. cbn [length]. unfold count. lia.
Qed.

(** A request of at least one byte leaves its first byte as the number of nodes. *)
Definition nodes_after (r : Routine) (data : list Z) (c : Z) : Z :=
  match r, data with NETWORK_TEST, b :: _ => b | _, _ => c end.
Lemma wp_byte data i (Q : Z -> DiagRoutines -> Machine -> Prop) s m : (i < length data)%nat -> Forall is_u8 data ->
  (forall b, data !! i = Some b -> is_u8 b -> Q b s m) -> wp (byte data i) Q s m.
Proof.
  intros Hi Hb HQ. unfold byte. destruct (lookup_lt_is_Some_2 data i Hi) as [b Hx]. rewrite Hx.
  apply wp_ret, HQ; [done|by eapply Forall_lookup_1].
Qed.
Lemma wp_word data i n (Q : Z -> DiagRoutines -> Machine -> Prop) s m : (i + n <= length data)%nat ->
  (forall v, Q v s m) -> wp (word data i n) Q s m.
Proof. intros Hi HQ. unfold word. rewrite (proj2 (Nat.ltb_ge _ _)) by lia. by apply wp_ret. Qed.

Definition start_post (r : Routine) (data : list Z) (s : DiagRoutines) (m : Machine) (b : bool) (s' : DiagRoutines) (m' : Machine) : Prop :=
  routines_wf s' /\ logged m m' /\
  node_count (network_test_state s') = nodes_after r data (node_count (network_test_state s)) /\
  (r = ACTUATOR_TEST -> b = false) /\ (r = NETWORK_TEST -> b = true -> node_count (network_test_state s') <= 32).

Ltac starting := repeat (first
  [ progress asks | apply wp_bind, wp_byte; [lia|done|intros ? ? ?] | apply wp_bind, wp_modify | apply wp_bind, wp_get
  | apply wp_bind, wp_word; [lia|intros ?]
  | match goal with |- wp (if ?b then _ else _) _ _ _ => destruct b eqn:?; tests end ]; cbv zeta).
Ltac started := apply wp_ret; split; [by constructor|split; [done|split; [done|split; done]]].
Lemma start_spec r data s m : routines_wf s -> Forall is_u8 data ->
  wp (routine_start r data (Z.of_nat (length data))) (start_post r data s m) s m.
Proof.
  intros Hw Hb. pose proof Hw as [? ? Hs Ha Hq ? ? ?]. pose proof (logged_refl m) as Hm.
  destruct r; cbn [routine_start]; unfold battery_test_start, sensor_calibration_start, actuator_test_start,
    memory_check_start, network_test_start.
  - starting; started.
  - starting; started.
  - starting; try discriminate; started.
  - starting; started.
  - starting.
    + apply wp_ret. destruct data; [|cbn in *; lia]. split; [done|split; [done|split; [done|split; done]]].
    + apply wp_ret. destruct data as [|b' data]; [done|]. simplify_eq/=. split; [by constructor|split; [done|split; [done|split; done]]].
    + destruct data as [|b' data]; [done|]. simplify_eq/=. split; [by constructor|split; [done|split; [done|split; [done|]]]].
      intros _ _. cbn in *. done.
Qed.

Lemma stop_spec r s m : routines_wf s -> wp (routine_stop r) (fun _ s' m' => s' = s /\ logged m m') s m.
Proof.
  intros Hw. pose proof Hw as [? ? Hs Ha Hq ? ? ?]. pose proof (logged_refl m) as Hm.
  destruct r; cbn [routine_stop]; unfold battery_test_stop, sensor_calibration_stop, actuator_test_stop, memory_check_stop,
    network_test_stop; try (apply wp_bind, wp_get; rewrite ?Hs, ?Ha); asks; [by apply wp_ret|done..].
Qed.
Lemma timeout_spec r s m : routines_wf s -> wp (routine_timeout r) (fun _ s' m' => routines_wf s' /\ logged m m' /\
  complete r s' = true /\ node_count (network_test_state s') = node_count (network_test_state s)) s m.
Proof.
  intros Hw. pose proof Hw as [? ? Hs Ha Hq ? ? ?]. pose proof (logged_refl m) as Hm.
  destruct r; cbn [routine_timeout]; unfold battery_test_timeout, sensor_calibration_timeout, actuator_test_timeout,
    memory_check_timeout, network_test_timeout; try (apply wp_bind, wp_get; rewrite ?Hs, ?Ha); asks; apply wp_modify;
    (split; [by constructor|by split_and!]).
Qed.

(** What a result is: [res] describes the state it was taken from. *)
Definition result_post (r : Routine) (s : DiagRoutines) (m : Machine) (res : Result) (s' : DiagRoutines) (m' : Machine) : Prop :=
  r_data res = r /\ result_bytes s' res = reported r s' /\ r_code res = code (complete r s') /\
  routines_wf s' /\ node_count (network_test_state s') = node_count (network_test_state s) /\
  (forall r', r' <> r -> reported r' s' = reported r' s /\ complete r' s' = complete r' s) /\
  (complete r s = true -> m' = m /\ reported r s' = reported r s) /\ logged m m'.
Lemma get_result_spec r s m : routines_wf s -> (r = NETWORK_TEST -> node_count (network_test_state s) <= 32) ->
  wp (routine_get_result r) (result_post r s m) s m.
Proof.
  intros Hw Hn. rewrite get_result_split. apply wp_bind. eapply wp_mono; [by apply routine_poll_spec|].
  intros [] s1 m1 (Hw1 & Hc1 & Ho1 & Hd1 & Hl1). eapply wp_mono; [apply pack_spec; [done|by rewrite Hc1]|].
  intros res s2 m2 (-> & Hp & ->).
  destruct (packed_reported r _ s1 s2 (code (complete r s1)) _ Hp Hw1 eq_refl) as (Hb & Hrep & Hcom & Hw2).
  split; [done|]. rewrite Hrep. split; [done|]. rewrite Hcom. split; [done|]. split; [done|].
  split; [destruct (packed_state _ _ _ _ Hp) as [-> _]; done|]. split; [|split; [|done]].
  - intros r' Hr. rewrite Hrep, Hcom. by apply Ho1.
  - intros Hc. by destruct (Hd1 Hc) as [-> ->].
Qed.

(** Beyond the array of response times the packing is undefined. *)
Lemma put_keeps r i bytes s m : put r i bytes s m = None \/
  wp (put r i bytes) (fun _ s' _ => network_test_state s' = network_test_state s) s m.
Proof.
  unfold put. cbv zeta. destruct (length (buffers s !!! buffer_index r) <? i + length bytes)%nat eqn:E.
  - left. apply undefined_bind, wp_get. by rewrite E.
  - right. apply wp_bind, wp_get. by rewrite E.
Qed.
Lemma undefined_put {A} r i bytes (k : unit -> M DiagRoutines A) s m :
  (forall s' m', network_test_state s' = network_test_state s -> k tt s' m' = None) -> (put r i bytes ≫= k) s m = None.
Proof.
  intros Hk. destruct (put_keeps r i bytes s m) as [E|E]; [by apply undefined_bind'|].
  apply undefined_bind. eapply wp_mono; [exact E|]. intros [] s' m' Hs. by apply Hk.
Qed.
Lemma pack_times_undefined k : forall i index s m, (i <= length (response_times (network_test_state s)) < i + k)%nat ->
  pack_times k i index s m = None.
Proof.
  induction k as [|k IH]; intros i index s m Hk; cbn [pack_times]; [lia|]. apply undefined_bind, wp_get.
  destruct (_ !! i) as [t|] eqn:Ei; [|done]. apply lookup_lt_Some in Ei. apply undefined_put. intros s' m' Hs.
  apply IH. rewrite Hs. lia.
Qed.
Lemma network_result_undefined s m : routines_wf s -> 32 < node_count (network_test_state s) ->
  routine_get_result NETWORK_TEST s m = None.
Proof.
  intros Hw Hn. rewrite get_result_split. apply undefined_bind. eapply wp_mono; [by apply routine_poll_spec|].
  intros [] s1 m1 (Hw1 & Hc1 & _). cbn [routine_pack]. unfold network_pack. apply undefined_bind, wp_get. cbv zeta.
  apply undefined_put. intros s2 m2 Hs2. apply undefined_put. intros s3 m3 Hs3. apply undefined_bind', pack_times_undefined.
  rewrite Hs3, Hs2, (rw_times s1 Hw1). lia.
Qed.

(** ** Runs *)

Inductive RoutineEvent := Start (r : Routine) (data : list Z) | Stop (r : Routine) | GetResult (r : Routine) | Timeout (r : Routine).
Definition routine_event (e : RoutineEvent) : M DiagRoutines bool :=
  match e with
  | Start r data => routine_start r data (Z.of_nat (length data))
  | Stop r => routine_stop r
  | GetResult r => _ ← routine_get_result r; mret true
  | Timeout r => routine_timeout r;; mret true
  end.
Fixpoint routine_events (es : list RoutineEvent) : M DiagRoutines (list bool) :=
  match es with [] => mret [] | e :: es => a ← routine_event e; aa ← routine_events es; mret (a :: aa) end.
Definition event_bytes (e : RoutineEvent) : Prop := match e with Start _ data => Forall is_u8 data | _ => True end.
(** The number of nodes after an event, and whether the event is defined. *)
Definition event_nodes (e : RoutineEvent) (c : Z) : Z := match e with Start r data => nodes_after r data c | _ => c end.
Definition event_defined (e : RoutineEvent) (c : Z) : bool :=
  match e with GetResult NETWORK_TEST => c <=? 32 | _ => true end.
Fixpoint run_defined (es : list RoutineEvent) (c : Z) : bool :=
  match es with [] => true | e :: es => event_defined e c && run_defined es (event_nodes e c) end.
Definition event_answer (e : RoutineEvent) (b : bool) : Prop := match e with Start ACTUATOR_TEST _ => b = false | _ => True end.

Lemma routine_event_spec e s m : routines_wf s -> event_bytes e ->
  if event_defined e (node_count (network_test_state s))
  then wp (routine_event e) (fun b s' m' => routines_wf s' /\ logged m m' /\ event_answer e b /\
         node_count (network_test_state s') = event_nodes e (node_count (network_test_state s))) s m
  else routine_event e s m = None.
Proof.
  intros Hw Hb.
  assert (Hres : forall r, (r = NETWORK_TEST -> node_count (network_test_state s) <= 32) ->
    wp (routine_event (GetResult r)) (fun b s' m' => routines_wf s' /\ logged m m' /\ event_answer (GetResult r) b /\
      node_count (network_test_state s') = node_count (network_test_state s)) s m).
  { intros r Hr. apply wp_bind. eapply wp_mono; [by apply get_result_spec|].
    intros res s' m' (_ & _ & _ & Hw' & Hc & _ & _ & Hl). by apply wp_ret. }
  destruct e as [r data|r|r|r]; cbn [event_defined event_nodes].
  - eapply wp_mono; [by apply start_spec|]. intros b s' m' (Hw' & Hl & Hc & Ha & _). split_and!; try done.
    destruct r; try done. by apply Ha.
  - eapply wp_mono; [by apply stop_spec|]. intros b s' m' [-> Hl]. split_and!; done.
  - destruct r; try (by apply Hres). destruct (_ <=? 32) eqn:E; tests; [by apply Hres|].
    by apply undefined_bind', network_result_undefined.
  - apply wp_bind. eapply wp_mono; [by apply timeout_spec|]. intros [] s' m' (Hw' & Hl & _ & Hc). apply wp_ret. split_and!; done.
Qed.

(** Along every run of requests, stops, results and timeouts: sensors and actuators
    other than number 0 are never addressed and no actuator test is ever started, because
    the identifiers and the sequence of a request are erased before they are used; every
    request for an actuator test is refused.  The run is undefined exactly when the results
    of the network test are asked for after a request for more than 32 nodes, which is
    refused but remembered. *)
Theorem routines_run es : forall s m, routines_wf s -> Forall event_bytes es ->
  if run_defined es (node_count (network_test_state s))
  then wp (routine_events es) (fun aa s' m' => routines_wf s' /\ logged m m' /\ Forall2 event_answer es aa) s m
  else routine_events es s m = None.
Proof.
  induction es as [|e es IH]; intros s m Hw Hb; cbn [run_defined routine_events].
  - apply wp_ret. split; [done|]. split; [apply logged_refl|constructor].
  - apply Forall_cons in Hb as [Hb Hbs]. pose proof (routine_event_spec e s m Hw Hb) as Hs.
    destruct (event_defined e _); cbn [andb]; [|by apply undefined_bind'].
    destruct (run_defined es _) eqn:Er.
    + apply wp_bind. eapply wp_mono; [exact Hs|]. intros a s1 m1 (Hw1 & Hl1 & Ha1 & Hc1).
      specialize (IH s1 m1 Hw1 Hbs). rewrite Hc1, Er in IH. apply wp_bind. eapply wp_mono; [exact IH|].
      intros aa s2 m2 (Hw2 & Hl2 & Ha2). apply wp_ret. split; [done|]. split; [by eapply logged_trans|by constructor].
    + apply undefined_bind. eapply wp_mono; [exact Hs|]. intros a s1 m1 (Hw1 & Hl1 & Ha1 & Hc1).
      specialize (IH s1 m1 Hw1 Hbs). rewrite Hc1, Er in IH. by apply undefined_bind'.
Qed.

(** A result is the report of the state it leaves: the completion flag and the
    measured values in the order and width of the routine, with code 0 exactly when the
    routine is complete.  A complete routine asks the hardware nothing and reports the same
    again, and the reports of the other routines do not change. *)
Theorem routine_result_exact r s m : routines_wf s -> (r = NETWORK_TEST -> node_count (network_test_state s) <= 32) ->
  wp (routine_get_result r) (result_post r s m) s m.
Proof. apply get_result_spec. Qed.
End operations.

(** ** Witnesses *)

Definition example_ext (m : Machine) (f : string) (args : list Z) : Z := if String.eqb f "Battery_GetVoltage" then 12 else 1.
Definition routines_zero : DiagRoutines :=
  mkRoutines battery_zero sensor_zero actuator_zero memory_check_zero network_test_zero
    [replicate 32 0; replicate 32 0; replicate 64 0; replicate 16 0; replicate 256 0].
Lemma routines_zero_wf : routines_wf routines_zero.
Proof. constructor; try done. by intros []. Qed.

Lemma routines_run_witness :
  let es := [Start ACTUATOR_TEST [0; 7; 1; 10]; Start NETWORK_TEST [33]; GetResult BATTERY_TEST] in
  routine_events example_ext (es ++ [GetResult NETWORK_TEST]) routines_zero boot = None /\
  wp (routine_events example_ext es) (fun aa _ m' => logged boot m' /\ Forall2 event_answer es aa) routines_zero boot.
Proof.
  intros es.
  assert (Hb : Forall event_bytes (es ++ [GetResult NETWORK_TEST])) by (repeat constructor; vm_compute; intros; congruence).
  pose proof (proj1 (Forall_app _ _ _) Hb) as [Hb' _].
  pose proof (routines_run example_ext (es ++ [GetResult NETWORK_TEST]) routines_zero boot routines_zero_wf Hb) as H1.
  pose proof (routines_run example_ext es routines_zero boot routines_zero_wf Hb') as H2.
  split; [exact H1|]. eapply wp_mono; [exact H2|]. intros aa s' m' (_ & Hl & Ha). by split.
Defined.
Lemma routine_result_exact_witness :
  wp (routine_get_result example_ext BATTERY_TEST) (fun res s' _ => r_data res = BATTERY_TEST /\
    result_bytes s' res = reported BATTERY_TEST s') routines_zero boot.
Proof.
  eapply wp_mono; [apply (routine_result_exact example_ext BATTERY_TEST routines_zero boot routines_zero_wf); done|].
  intros res s' m' (Hd & Hr & _). by split.
Defined.
