(* ===== verification/Crypto.v ===== *)
(** * Cryptographic helpers and secure storage

    [src/runtime/diagnostic/crypto/crypto_utils.c]: the software cipher and hash, the
    pseudo-random generator, key derivation and the storage of encrypted entries, under the
    process-wide mutex and with the logging of [Mutex.v].  The hardware accelerator is the
    parameter [hw]: whether each call succeeds and the bytes it writes.  Numbers are little
    endian in memory. *)

From S2P Require Import Prelude Memory Machine Tables Crc Mutex.

Definition SECURE_STORAGE_SIZE : nat := Z.to_nat (64 * 1024).
Definition MAX_SECURE_ENTRIES : nat := 256.
#[global] Arguments SECURE_STORAGE_SIZE : simpl never.

Inductive CryptoAlgorithm := CRYPTO_ALG_XOR | CRYPTO_ALG_AES128 | CRYPTO_ALG_SHA256 | CRYPTO_ALG_CUSTOM.
#[export] Instance CryptoAlgorithm_eq_dec : EqDecision CryptoAlgorithm.
Proof. solve_decision. Defined.

Record CryptoConfig := mkCryptoConfig {
  algorithm : CryptoAlgorithm; cipher_key : list Z; key_length : Z;
  use_hardware_acceleration : bool; enable_secure_storage : bool }.
Record SecureEntry := mkSecureEntry { entry_id : Z; entry_length : Z; entry_offset : Z; entry_hash : list Z }.
#[export] Instance eta_SecureEntry : Eta SecureEntry := fun e =>
  mkSecureEntry (entry_id e) (entry_length e) (entry_offset e) (entry_hash e).
#[export] Instance SecureEntry_key : Keyed SecureEntry := entry_id.

Record CryptoContext := mkCrypto {
  crypto_config : CryptoConfig; secure_storage : list Z; secure_entries : list SecureEntry; entry_count : nat;
  crypto_initialized : bool; software_random_seed : Z; crypto_mutex : bool; crypto_logger : option LogLevel }.
#[export] Instance eta_CryptoContext : Eta CryptoContext := fun s =>
  mkCrypto (crypto_config s) (secure_storage s) (secure_entries s) (entry_count s) (crypto_initialized s)
    (software_random_seed s) (crypto_mutex s) (crypto_logger s).
#[export, refine] Instance CryptoContext_mutex : HasMutex CryptoContext :=
  {| locked := crypto_mutex; set_locked b s := s <| crypto_mutex := b |>; log_min := crypto_logger |}.
Proof. all: by intros; destruct s. Defined.

Record HwCrypto := mkHwCrypto {
  HW_Crypto_Init : bool; HW_Crypto_GenerateRandom : Machine -> nat -> bool * list Z;
  HW_Crypto_AES128_Encrypt : list Z -> list Z -> bool * list Z;
  HW_Crypto_AES128_Decrypt : list Z -> list Z -> bool * list Z;
  HW_Crypto_SHA256 : list Z -> bool * list Z }.

Definition crypto_config_zero : CryptoConfig := mkCryptoConfig CRYPTO_ALG_XOR (replicate 32 0) 0 false false.
Definition secure_entry_zero : SecureEntry := mkSecureEntry 0 0 0 (replicate 32 0).
Definition crypto_clear (s : CryptoContext) : CryptoContext :=
  s <| crypto_config := crypto_config_zero |> <| secure_storage := replicate SECURE_STORAGE_SIZE 0 |>
    <| secure_entries := replicate MAX_SECURE_ENTRIES secure_entry_zero |> <| entry_count := 0%nat |> <| crypto_initialized := false |>.

Section crypto.
Context (hw : HwCrypto).

(** [memcpy] into the start of a buffer. *)
Definition into (bytes buffer : list Z) : M CryptoContext (list Z) :=
  if (length buffer <? length bytes)%nat then fault else mret (bytes ++ drop (length bytes) buffer).
Definition some {A} (o : option A) : M CryptoContext A := match o with Some a => mret a | None => fault end.

Definition generate_software_random : M CryptoContext Z :=
  modify (fun s => s <| software_random_seed ::= fun z => u32 (z * 1103515245 + 12345) |>);;
  s ← get; mret (software_random_seed s).

Definition Crypto_Init (config : option CryptoConfig) (time : Z) : M CryptoContext bool :=
  match config with
  | None => mret false
  | Some config =>
      modify crypto_clear;;
      modify (fun s => s <| crypto_config := config |>);;
      if use_hardware_acceleration config && negb (HW_Crypto_Init hw) then Logger_Log LOG_LEVEL_ERROR;; mret false else
      (if use_hardware_acceleration config then mret tt else modify (fun s => s <| software_random_seed := u32 time |>));;
      modify (fun s => s <| crypto_initialized := true |>);;
      Logger_Log LOG_LEVEL_INFO;;
      mret true
  end.
Definition Crypto_Deinit : M CryptoContext unit :=
  s ← get;
  (if use_hardware_acceleration (crypto_config s) then emit "HW_Crypto_Deinit" [] else mret tt);;
  modify crypto_clear;;
  Logger_Log LOG_LEVEL_INFO.

Fixpoint random_bytes (n : nat) : M CryptoContext (list Z) :=
  match n with
  | O => mret []
  | S n => v ← generate_software_random; l ← random_bytes n; mret (Z.land v 0xFF :: l)
  end.
(** Whether the call succeeds, and the bytes it writes. *)
Definition Crypto_GenerateRandom (n : nat) : M CryptoContext (bool * list Z) :=
  s ← get;
  if negb (crypto_initialized s) || (n =? 0)%nat then mret (false, []) else
  if use_hardware_acceleration (crypto_config s) then on_machine (fun m => (HW_Crypto_GenerateRandom hw m n, m)) else
  l ← random_bytes n; mret (true, l).
Definition Crypto_GenerateRandomU32 : M CryptoContext Z :=
  r ← Crypto_GenerateRandom 4;
  v ← into r.2 (replicate 4 0);
  mret (le_value v).

(** The transformations that stand for AES and SHA-256. *)
Definition xor_lists (a b : list Z) : list Z := zip_with Z.lxor a b.
Definition Crypto_CalculateKey (seed : Z) : M CryptoContext Z :=
  s ← get;
  let c := crypto_config s in
  match algorithm c with
  | CRYPTO_ALG_XOR => mret (Z.lxor seed 0x55AA55AA)
  | CRYPTO_ALG_AES128 =>
      let input := le_bytes 4 seed ++ replicate 12 0 in
      output ← (if use_hardware_acceleration c then into (HW_Crypto_AES128_Encrypt hw input (cipher_key c)).2 (replicate 16 0)
                else if (length (cipher_key c) <? 16)%nat then fault else mret (xor_lists input (take 16 (cipher_key c))));
      mret (le_value (take 4 output))
  | CRYPTO_ALG_SHA256 =>
      hash ← (if use_hardware_acceleration c then into (HW_Crypto_SHA256 hw (le_bytes 4 seed)).2 (replicate 32 0)
              else if (length (cipher_key c) <? 16)%nat then fault else
                mret ((fun i => Z.lxor (le_bytes 4 seed !!! (i mod 4)%nat) (cipher_key c !!! (i mod 16)%nat)) <$> seq 0 32));
      mret (le_value (take 4 hash))
  | CRYPTO_ALG_CUSTOM => mret (Z.lxor (u32 (seed * 0x8088405)) 0x12345678)
  end.
Definition Crypto_ValidateKey (seed key : Z) : M CryptoContext bool := k ← Crypto_CalculateKey seed; mret (k =? key).

(** [key[i % key_length]] *)
Definition key_at (c : CryptoConfig) (i : nat) : option Z :=
  if key_length c =? 0 then None else cipher_key c !! (i mod Z.to_nat (key_length c))%nat.
(** The loop of the software cipher from index [i]. *)
Fixpoint cipher (c : CryptoConfig) (i : nat) (input : list Z) : option (list Z) :=
  match input with
  | [] => Some []
  | b :: input =>
      match key_at c i, cipher c (S i) input with Some k, Some out => Some (Z.lxor b k :: out) | _, _ => None end
  end.
(** [room] is the size of the caller's buffer. *)
Definition Crypto_Encrypt (input : list Z) (len : Z) (room : nat) : M CryptoContext (bool * list Z) :=
  s ← get;
  let c := crypto_config s in
  if negb (crypto_initialized s) then mret (false, []) else
  if decide (algorithm c = CRYPTO_ALG_AES128) then
    if negb (len mod 16 =? 0) then Logger_Log LOG_LEVEL_ERROR;; mret (false, []) else
    if Z.of_nat (length input) <? len then fault else
    let input := take (Z.to_nat len) input in
    if use_hardware_acceleration c then mret (HW_Crypto_AES128_Encrypt hw input (cipher_key c)) else
    if (room <? length input)%nat then fault else
    out ← some (cipher c 0 input); mret (true, out)
  else mret (false, []).
Definition Crypto_Decrypt (input : list Z) (len : Z) (room : nat) : M CryptoContext (bool * list Z) :=
  s ← get;
  let c := crypto_config s in
  if negb (crypto_initialized s) then mret (false, []) else
  if decide (algorithm c = CRYPTO_ALG_AES128) then
    if negb (len mod 16 =? 0) then Logger_Log LOG_LEVEL_ERROR;; mret (false, []) else
    if Z.of_nat (length input) <? len then fault else
    let input := take (Z.to_nat len) input in
    if use_hardware_acceleration c then mret (HW_Crypto_AES128_Decrypt hw input (cipher_key c)) else
    if (room <? length input)%nat then fault else
    out ← some (cipher c 0 input); mret (true, out)
  else mret (false, []).

Definition hash_init : list Z :=
  [0x6a09e667; 0xbb67ae85; 0x3c6ef372; 0xa54ff53a; 0x510e527f; 0x9b05688c; 0x1f83d9ab; 0x5be0cd19].
Fixpoint hash_loop (key : list Z) (i : nat) (data : list Z) (h : list Z) : list Z :=
  match data with
  | [] => h
  | b :: data =>
      let j := (i mod 8)%nat in
      hash_loop key (S i) data (<[j := Z.lxor (u32 (h !!! j * 31 + b)) (key !!! (i mod 16)%nat)]> h)
  end.
Definition soft_hash (key data : list Z) : list Z := mjoin (le_bytes 4 <$> hash_loop key 0 data hash_init).
(** Whether the call succeeds, and the bytes it writes. *)
Definition Crypto_CalculateHash (data : list Z) (hash_length : nat) : M CryptoContext (bool * list Z) :=
  s ← get;
  let c := crypto_config s in
  if negb (crypto_initialized s) || negb (hash_length =? 32)%nat then mret (false, []) else
  if use_hardware_acceleration c then mret (HW_Crypto_SHA256 hw data) else
  if (length (cipher_key c) <? 16)%nat then fault else mret (true, soft_hash (cipher_key c) data).

Definition find_secure_entry (id : Z) (s : CryptoContext) : option nat := find_key id (entry_count s) (secure_entries s).

Definition set_entry (i : nat) (e : SecureEntry) : M CryptoContext unit :=
  modify (fun s => s <| secure_entries ::= <[i := e]> |>).
(** The parts of [Crypto_SecureStore] that follow the search, for the entry [i]: its length
    and hash, and the encryption into the storage. *)
Definition record_entry (i : nat) (data : list Z) : M CryptoContext Z :=
  s ← get;
  e ← some (secure_entries s !! i);
  set_entry i (e <| entry_length := Z.of_nat (length data) |>);;
  h ← Crypto_CalculateHash data 32;
  hash ← into h.2 (entry_hash e);
  set_entry i (e <| entry_length := Z.of_nat (length data) |> <| entry_hash := hash |>);;
  mret (entry_offset e).
Definition write_storage (off : nat) (data : list Z) : M CryptoContext bool :=
  r ← Crypto_Encrypt data (Z.of_nat (length data)) (SECURE_STORAGE_SIZE - off);
  s ← get;
  stored ← into r.2 (drop off (secure_storage s));
  modify (fun s => s <| secure_storage ::= fun b => take off b ++ stored |>);;
  if negb (r.1 : bool) then unlock;; mret false else
  Logger_Log LOG_LEVEL_INFO;;
  unlock;;
  mret true.
Definition store_entry (i : nat) (data : list Z) : M CryptoContext bool :=
  off ← record_entry i data; write_storage (Z.to_nat off) data.
(** [Crypto_SecureStore] while it holds the mutex. *)
Definition store_locked (id : Z) (data : list Z) : M CryptoContext bool :=
  s ← get;
  match find_secure_entry id s with
  | Some i => store_entry i data
  | None =>
      if (SECURE_STORAGE_SIZE <? length data)%nat then unlock;; mret false else
      if (MAX_SECURE_ENTRIES <=? entry_count s)%nat then unlock;; mret false else
      let i := entry_count s in
      e ← some (secure_entries s !! i);
      modify (fun s => s <| entry_count ::= S |>);;
      set_entry i (e <| entry_id := id |> <| entry_offset := 0 |>);;
      store_entry i data
  end.
Definition Crypto_SecureStore (id : Z) (data : list Z) : M CryptoContext bool :=
  s ← get;
  if negb (crypto_initialized s) || negb (enable_secure_storage (crypto_config s)) then mret false else
  lock;; store_locked id data.

(** [room] is the size of the caller's buffer; [None] is [false]. *)
Definition retrieve_locked (id : Z) (room : nat) : M CryptoContext (option (list Z)) :=
  s ← get;
  match find_secure_entry id s with
  | None => unlock;; mret None
  | Some i =>
      e ← some (secure_entries s !! i);
      r ← Crypto_Decrypt (drop (Z.to_nat (entry_offset e)) (secure_storage s)) (entry_length e) room;
      if negb (r.1 : bool) then unlock;; mret None else
      h ← Crypto_CalculateHash r.2 32;
      calculated ← into h.2 (replicate 32 0);
      if decide (calculated = entry_hash e) then
        Logger_Log LOG_LEVEL_INFO;; unlock;; mret (Some r.2)
      else Logger_Log LOG_LEVEL_ERROR;; unlock;; mret None
  end.
Definition Crypto_SecureRetrieve (id : Z) (room : nat) : M CryptoContext (option (list Z)) :=
  s ← get;
  if negb (crypto_initialized s) || negb (enable_secure_storage (crypto_config s)) then mret None else
  lock;; retrieve_locked id room.
End crypto.

(** ** The software cipher *)

Definition key_ok (c : CryptoConfig) : Prop := 0 < key_length c <= 32 /\ length (cipher_key c) = 32%nat.
Definition mask (c : CryptoConfig) (i : nat) : Z := cipher_key c !!! (i mod Z.to_nat (key_length c))%nat.
(** The bytes at index [i] and after it, combined with the key. *)
Definition xored (c : CryptoConfig) (i : nat) (l : list Z) : list Z := imap (fun j b => Z.lxor b (mask c (i + j))) l.

Lemma xored_cons c i b l : xored c i (b :: l) = Z.lxor b (mask c i) :: xored c (S i) l.
Proof.
  unfold xored. cbn [imap]. rewrite Nat.add_0_r. f_equal. apply imap_ext. intros j x _. cbn. do 2 f_equal. lia.
Qed.
Lemma cipher_xored c l : key_ok c -> forall i, cipher c i l = Some (xored c i l).
Proof.
  intros [Hk Hl]. induction l as [|b l IH]; intros i; [done|]. cbn [cipher]. rewrite IH, xored_cons.
  unfold key_at. rewrite (proj2 (Z.eqb_neq _ _)) by lia.
  assert (i mod Z.to_nat (key_length c) < Z.to_nat (key_length c))%nat by (apply Nat.mod_upper_bound; lia).
  rewrite (list_lookup_lookup_total_lt (cipher_key c)) by lia. done.
Qed.
Lemma length_xored c i l : length (xored c i l) = length l.
Proof. apply length_imap. Qed.
Lemma xored_app c l k i : xored c i (l ++ k) = xored c i l ++ xored c (i + length l) k.
Proof.
  unfold xored. rewrite imap_app. f_equal. apply imap_ext. intros j x _. cbn. do 2 f_equal. lia.
Qed.
Lemma xored_xored c l : forall i, xored c i (xored c i l) = l.
Proof.
  induction l as [|b l IH]; intros i; [done|]. rewrite !xored_cons, IH. f_equal.
  by rewrite Z.lxor_assoc, Z.lxor_nilpotent, Z.lxor_0_r.
Qed.
Lemma take_xored c n l : xored c 0 (take n l) = take n (xored c 0 l).
Proof.
  rewrite <- (take_drop n l) at 2. rewrite xored_app. destruct (decide (n <= length l)%nat).
  - rewrite take_app_length' by (rewrite length_xored, length_take; lia). done.
  - rewrite (drop_ge l n) by lia. change (xored c (0 + length (take n l)) []) with (@nil Z).
    rewrite app_nil_r, (firstn_all2 (xored _ _ _)); [done|]. rewrite length_xored, length_take. lia.
Qed.
Lemma drop_xored c n l : (n <= length l)%nat -> xored c n (drop n l) = drop n (xored c 0 l).
Proof.
  intros Hn. rewrite <- (take_drop n l) at 2. rewrite xored_app.
  rewrite drop_app_length' by (rewrite length_xored, length_take; lia).
  rewrite length_take. by replace (0 + n `min` length l)%nat with n by lia.
Qed.

Lemma length_hash_loop key data : forall i h, length (hash_loop key i data h) = length h.
Proof. induction data as [|b data IH]; intros i h; cbn [hash_loop]; [done|]. by rewrite IH, length_insert. Qed.
Lemma length_soft_hash key data : length (soft_hash key data) = 32%nat.
Proof. unfold soft_hash. by rewrite length_words, length_hash_loop. Qed.

(** ** Specification of the secure storage

    One plain text that every entry starts at the beginning of, and for each identifier the
    length and the hash of what was last stored under it. *)

Record Vault := mkVault { v_plain : list Z; v_entries : gmap Z (Z * list Z) }.

Section vault.
Context (c : CryptoConfig).
Definition stores : bool := bool_decide (algorithm c = CRYPTO_ALG_AES128).
Definition hash_of (data : list Z) : list Z := soft_hash (cipher_key c) data.

(** [None] where the code is undefined. *)
Definition vault_store (id : Z) (data : list Z) (v : Vault) : option (bool * Vault) :=
  let len := Z.of_nat (length data) in
  let known := bool_decide (is_Some (v_entries v !! id)) in
  if negb known && ((SECURE_STORAGE_SIZE <? length data)%nat || (MAX_SECURE_ENTRIES <=? size (v_entries v))%nat)
  then Some (false, v) else
  let entries := <[id := (len, hash_of data)]> (v_entries v) in
  if negb stores || negb (len mod 16 =? 0) then Some (false, mkVault (v_plain v) entries)
  else if (SECURE_STORAGE_SIZE <? length data)%nat then None
  else Some (true, mkVault (data ++ drop (length data) (v_plain v)) entries).
Definition vault_retrieve (id : Z) (room : nat) (v : Vault) : option (option (list Z)) :=
  match v_entries v !! id with
  | None => Some None
  | Some (len, h) =>
      if negb stores || negb (len mod 16 =? 0) then Some None
      else if Z.of_nat SECURE_STORAGE_SIZE <? len then None
      else let data := take (Z.to_nat len) (v_plain v) in
           if (room <? length data)%nat then None else Some (if decide (hash_of data = h) then Some data else None)
  end.
End vault.

Record crypto_wf (s : CryptoContext) : Prop := {
  cw_init : crypto_initialized s = true;
  cw_secure : enable_secure_storage (crypto_config s) = true;
  cw_soft : use_hardware_acceleration (crypto_config s) = false;
  cw_key : key_ok (crypto_config s);
  cw_quiet : logs (crypto_logger s) LOG_LEVEL_INFO = false /\ logs (crypto_logger s) LOG_LEVEL_ERROR = false;
  cw_storage : length (secure_storage s) = SECURE_STORAGE_SIZE;
  cw_entries : length (secure_entries s) = MAX_SECURE_ENTRIES;
  cw_count : (entry_count s <= MAX_SECURE_ENTRIES)%nat;
  cw_uniq : tbl_uniq (entry_count s) (secure_entries s);
  cw_each : Forall (fun e => length (entry_hash e) = 32%nat /\ 0 <= entry_length e) (secure_entries s);
  cw_live : Forall (fun e => entry_offset e = 0) (take (entry_count s) (secure_entries s)) }.
Definition entry_view (e : SecureEntry) : Z * list Z := (entry_length e, entry_hash e).
Definition vault_of (s : CryptoContext) : Vault :=
  mkVault (xored (crypto_config s) 0 (secure_storage s)) (entry_view <$> tbl (entry_count s) (secure_entries s)).

Section storage.
Context (hw : HwCrypto).
Implicit Types (s : CryptoContext) (m : Machine).

Lemma hash_spec data s m (Q : bool * list Z -> CryptoContext -> Machine -> Prop) : crypto_wf s ->
  Q (true, hash_of (crypto_config s) data) s m -> wp (Crypto_CalculateHash hw data 32) Q s m.
Proof.
  intros Hw HQ. unfold Crypto_CalculateHash. apply wp_bind, wp_get. cbv zeta. rewrite (cw_init s Hw), (cw_soft s Hw).
  destruct (cw_key s Hw) as [_ ->]. by apply wp_ret.
Qed.
Lemma into_spec bytes buffer s m (Q : list Z -> CryptoContext -> Machine -> Prop) : (length bytes <= length buffer)%nat ->
  Q (bytes ++ drop (length bytes) buffer) s m -> wp (into bytes buffer) Q s m.
Proof. intros Hl HQ. unfold into. rewrite (proj2 (Nat.ltb_ge _ _)) by done. by apply wp_ret. Qed.

(** Both directions of the cipher. *)
Lemma crypt_cases (f : list Z -> Z -> nat -> M CryptoContext (bool * list Z)) input len room s m : crypto_wf s -> 0 <= len ->
  f = Crypto_Encrypt hw \/ f = Crypto_Decrypt hw ->
  let c := crypto_config s in
  f input len room s m =
    if negb (stores c) || negb (len mod 16 =? 0) then Some ((false, []), s, m)
    else if (Z.of_nat (length input) <? len) || (room <? Z.to_nat len)%nat then None
    else Some ((true, xored c 0 (take (Z.to_nat len) input)), s, m).
Proof.
  intros Hw Hlen Hf c. pose proof Hw as [Hi _ Hs Hk [_ He] _ _ _ _ _ _]. fold c in Hs, Hk.
  assert (Hlog : Logger_Log LOG_LEVEL_ERROR s m = Some (tt, s, m)).
  { unfold Logger_Log, mbind, M_bind, get. cbn. by rewrite He. }
  unfold stores.
  destruct Hf as [-> | ->]; unfold Crypto_Encrypt, Crypto_Decrypt, mbind, M_bind, get; fold c; rewrite Hi; cbn [negb];
    (destruct (decide (algorithm c = CRYPTO_ALG_AES128)) as [Ha|Ha];
      [rewrite bool_decide_true by done|by rewrite bool_decide_false by done]; cbn [negb orb];
     destruct (len mod 16 =? 0); cbn [negb]; [|by rewrite Hlog];
     destruct (Z.of_nat (length input) <? len) eqn:El; cbn [orb]; [done|]; tests; rewrite Hs, length_take;
     replace (Z.to_nat len `min` length input)%nat with (Z.to_nat len) by lia;
     destruct (room <? _)%nat; [done|]; by rewrite cipher_xored).
Qed.

Lemma silent level s m (Q : unit -> CryptoContext -> Machine -> Prop) : crypto_wf s -> level = LOG_LEVEL_INFO \/ level = LOG_LEVEL_ERROR ->
  Q tt s m -> wp (Logger_Log level) Q s m.
Proof. intros Hw [-> | ->]; apply wp_log_silent; apply (cw_quiet s Hw). Qed.

Lemma wf_update s i e e' : crypto_wf s -> secure_entries s !! i = Some e -> (i < entry_count s)%nat ->
  entry_id e' = entry_id e -> entry_offset e' = 0 -> length (entry_hash e') = 32%nat -> 0 <= entry_length e' ->
  crypto_wf (s <| secure_entries ::= <[i := e']> |>).
Proof.
  intros [] He Hi Hid Ho Hh. constructor; try done; cbn [secure_entries entry_count setf].
  - by rewrite length_insert.
  - by apply (tbl_update _ _ _ e' e).
  - apply Forall_insert; [done|by split].
  - rewrite take_insert_lt by done. by apply Forall_insert.
Qed.
Definition entry_for (c : CryptoConfig) (data : list Z) (e : SecureEntry) : SecureEntry :=
  e <| entry_length := Z.of_nat (length data) |> <| entry_hash := hash_of c data |>.

Lemma record_entry_spec i e data s m : crypto_wf s -> secure_entries s !! i = Some e -> (i < entry_count s)%nat ->
  entry_offset e = 0 -> length (entry_hash e) = 32%nat ->
  wp (record_entry hw i data) (fun off s' m' => off = 0 /\ m' = m /\
    s' = s <| secure_entries ::= <[i := entry_for (crypto_config s) data e]> |>) s m.
Proof.
  intros Hw He Hi Ho Hh. unfold record_entry. apply wp_bind, wp_get, wp_bind. rewrite He. apply wp_ret, wp_bind, wp_modify, wp_bind.
  apply hash_spec; [eapply wf_update; try done; cbn; lia|]. apply wp_bind, into_spec; [cbn [snd]; unfold hash_of; rewrite length_soft_hash; lia|].
  cbn [snd]. rewrite drop_ge, app_nil_r by (unfold hash_of; rewrite length_soft_hash; lia).
  apply wp_bind, wp_modify, wp_ret. split_and!; [done|done|]. destruct s; cbn. by rewrite list_insert_insert_eq.
Qed.
Lemma write_storage_spec data s m : crypto_wf s -> crypto_mutex s = true ->
  let c := crypto_config s in
  if negb (stores c) || negb (Z.of_nat (length data) mod 16 =? 0)
  then wp (write_storage hw 0 data) (fun b s' m' => b = false /\ s' = s <| crypto_mutex := false |> /\ m' = m) s m
  else if (SECURE_STORAGE_SIZE <? length data)%nat then write_storage hw 0 data s m = None
  else wp (write_storage hw 0 data) (fun b s' m' => b = true /\ m' = m /\
    s' = s <| crypto_mutex := false |> <| secure_storage := xored c 0 data ++ drop (length data) (secure_storage s) |>) s m.
Proof.
  intros Hw Hm c. unfold write_storage. rewrite Nat.sub_0_r.
  pose proof (crypt_cases (Crypto_Encrypt hw) data (Z.of_nat (length data)) SECURE_STORAGE_SIZE s m Hw ltac:(lia) (or_introl eq_refl)) as He.
  fold c in He. cbv zeta in He. rewrite Z.ltb_irrefl, Nat2Z.id, firstn_all in He. cbn [orb] in He.
  destruct (negb (stores c) || _).
  - apply wp_bind. unfold wp at 1. rewrite He. apply wp_bind, wp_get, wp_bind, into_spec; [cbn; lia|].
    apply wp_bind, wp_modify. cbn [fst negb snd length]. rewrite drop_0. apply wp_bind, wp_unlock_held; [done|]. apply wp_ret.
    by destruct s.
  - destruct (_ <? _)%nat eqn:E; tests; [by apply undefined_bind'|].
    apply wp_bind. unfold wp at 1. rewrite He. cbn [fst snd negb]. apply wp_bind, wp_get, wp_bind, into_spec.
    { rewrite length_xored, drop_0, (cw_storage s Hw). lia. }
    apply wp_bind, wp_modify, wp_bind.
    rewrite drop_0, length_xored.
    apply wp_log_silent; [apply Hw|]. apply wp_bind, wp_unlock_held; [done|]. apply wp_ret. split_and!; [done|done|].
    by destruct s.
Qed.

(** The state stands for the vault [v]. *)
Definition holds_vault (v : Vault) s : Prop := crypto_wf s /\ crypto_mutex s = false /\ vault_of s = v.
Definition vault_recorded (c : CryptoConfig) (id : Z) (data : list Z) (v : Vault) : Vault :=
  mkVault (v_plain v) (<[id := (Z.of_nat (length data), hash_of c data)]> (v_entries v)).

Lemma vault_update s i e data : crypto_wf s -> secure_entries s !! i = Some e -> (i < entry_count s)%nat ->
  vault_of (s <| secure_entries ::= <[i := entry_for (crypto_config s) data e]> |>) =
  vault_recorded (crypto_config s) (entry_id e) data (vault_of s).
Proof.
  intros Hw He Hi. unfold vault_of, vault_recorded. cbn [v_plain v_entries crypto_config secure_storage secure_entries entry_count setf].
  f_equal. destruct (tbl_update (entry_count s) (secure_entries s) i (entry_for (crypto_config s) data e) e) as [_ ->];
    [apply Hw|done|done|done|]. by rewrite fmap_insert.
Qed.
Lemma store_entry_spec i e id data s m : crypto_wf s -> crypto_mutex s = true -> secure_entries s !! i = Some e ->
  (i < entry_count s)%nat -> entry_id e = id -> entry_offset e = 0 ->
  let c := crypto_config s in
  let v := vault_recorded c id data (vault_of s) in
  if negb (stores c) || negb (Z.of_nat (length data) mod 16 =? 0)
  then wp (store_entry hw i data) (fun b s' m' => b = false /\ m' = m /\ crypto_config s' = c /\ holds_vault v s') s m
  else if (SECURE_STORAGE_SIZE <? length data)%nat then store_entry hw i data s m = None
  else wp (store_entry hw i data) (fun b s' m' => b = true /\ m' = m /\ crypto_config s' = c /\
         holds_vault (mkVault (data ++ drop (length data) (v_plain v)) (v_entries v)) s') s m.
Proof.
  intros Hw Hm He Hi <- Ho c v.
  assert (Hh : length (entry_hash e) = 32%nat) by (exact (proj1 (Forall_lookup_1 _ _ _ _ (cw_each s Hw) He))).
  pose proof (record_entry_spec i e data s m Hw He Hi Ho Hh) as Hrec. fold c in Hrec.
  set (s1 := s <| secure_entries ::= <[i := entry_for c data e]> |>) in *.
  assert (Hw1 : crypto_wf s1) by (eapply wf_update; [done|done|done|done|done|apply length_soft_hash|cbn; lia]).
  assert (Hv1 : vault_of s1 = v) by (by apply vault_update).
  pose proof (write_storage_spec data s1 m Hw1 Hm) as Hs. change (crypto_config s1) with c in Hs. cbv zeta in Hs.
  destruct (negb (stores c) || _).
  - apply wp_bind. eapply wp_mono; [exact Hrec|]. intros off s' m' (-> & -> & ->).
    eapply wp_mono; [exact Hs|]. intros b s2 m2 (-> & -> & ->). split_and!; try done. by destruct Hw1.
  - destruct (_ <? _)%nat eqn:E; tests.
    + apply undefined_bind. eapply wp_mono; [exact Hrec|]. by intros off s' m' (-> & -> & ->).
    + apply wp_bind. eapply wp_mono; [exact Hrec|]. intros off s' m' (-> & -> & ->).
      eapply wp_mono; [exact Hs|]. intros b s2 m2 (-> & -> & ->).
      assert (Hst : (length data <= length (secure_storage s1))%nat) by (rewrite (cw_storage s1 Hw1); lia).
      split; [done|]. split; [done|]. split; [done|]. split; [|split; [done|]].
      * destruct Hw1. constructor; try done. cbn [secure_storage setf]. rewrite length_app, length_xored, length_drop. lia.
      * rewrite <- Hv1. unfold vault_of. cbn [v_plain v_entries crypto_config secure_storage secure_entries entry_count setf].
        f_equal. change (crypto_config s1) with c. rewrite xored_app, xored_xored, length_xored, Nat.add_0_l.
        by rewrite drop_xored.
Qed.

Lemma vault_known s id : crypto_wf s -> v_entries (vault_of s) !! id = None <-> find_secure_entry id s = None.
Proof.
  intros Hw. unfold vault_of, find_secure_entry. cbn [v_entries]. rewrite lookup_fmap, tbl_lookup by apply Hw.
  destruct (find_key id _ _) as [i|] eqn:E; [|done]. apply find_key_Some in E as (e & He & _). cbn. by rewrite He.
Qed.
Lemma live_entry s id i : crypto_wf s -> find_secure_entry id s = Some i -> exists e, secure_entries s !! i = Some e /\
  (i < entry_count s)%nat /\ entry_id e = id /\ entry_offset e = 0 /\ v_entries (vault_of s) !! id = Some (entry_view e) /\
  length (entry_hash e) = 32%nat /\ 0 <= entry_length e.
Proof.
  intros Hw Hf. pose proof Hf as (e & He & Hi & Hk)%find_key_Some. exists e. split_and!; try done.
  - apply (Forall_lookup_1 _ _ i e (cw_live s Hw)). by apply lookup_take_Some.
  - unfold vault_of. cbn [v_entries]. rewrite lookup_fmap, tbl_lookup by apply Hw. unfold find_secure_entry in Hf. rewrite Hf. cbn. by rewrite He.
  - exact (proj1 (Forall_lookup_1 _ _ _ _ (cw_each s Hw) He)).
  - exact (proj2 (Forall_lookup_1 _ _ _ _ (cw_each s Hw) He)).
Qed.

(** A new entry. *)
Definition pushed (id : Z) (e : SecureEntry) s : CryptoContext :=
  s <| entry_count ::= S |> <| secure_entries ::= <[entry_count s := e <| entry_id := id |> <| entry_offset := 0 |>]> |>.
Lemma pushed_wf id e s : crypto_wf s -> find_secure_entry id s = None -> secure_entries s !! entry_count s = Some e ->
  crypto_wf (pushed id e s) /\ vault_of (pushed id e s) =
    mkVault (v_plain (vault_of s)) (<[id := (entry_length e, entry_hash e)]> (v_entries (vault_of s))).
Proof.
  intros Hw Hf He. pose proof (lookup_lt_Some _ _ _ He) as Hlt.
  destruct (tbl_push (entry_count s) (secure_entries s) (e <| entry_id := id |> <| entry_offset := 0 |>)) as [Hu Ht];
    [done|apply Hw|exact Hf|].
  split.
  - destruct Hw as [? ? ? ? ? ? ? ? ? Hh Hl]. constructor; try done; cbn [secure_entries entry_count setf pushed].
    + by rewrite length_insert.
    + lia.
    + apply Forall_insert; [done|]. exact (Forall_lookup_1 _ _ _ _ Hh He).
    + rewrite take_push by done. apply Forall_app. split; [done|by apply Forall_singleton].
  - unfold vault_of. cbn [v_plain v_entries]. f_equal.
    etransitivity; [exact (f_equal (fmap entry_view) Ht)|]. by rewrite fmap_insert.
Qed.

Lemma store_locked_spec id data s m : crypto_wf s -> crypto_mutex s = true ->
  let c := crypto_config s in
  match vault_store c id data (vault_of s) with
  | Some (b, v') => wp (store_locked hw id data) (fun b' s' m' => b' = b /\ m' = m /\ crypto_config s' = c /\ holds_vault v' s') s m
  | None => store_locked hw id data s m = None
  end.
Proof.
  intros Hw Hm c. unfold vault_store.
  assert (Hsize : size (v_entries (vault_of s)) = entry_count s).
  { unfold vault_of. cbn [v_entries]. rewrite map_size_fmap. apply tbl_size; [apply Hw|]. rewrite (cw_entries s Hw). apply Hw. }
  destruct (find_secure_entry id s) as [i|] eqn:Ef.
  - destruct (live_entry s id i Hw Ef) as (e & He & Hi & Hk & Ho & Hv & _).
    rewrite (bool_decide_true (is_Some _)) by (by eexists). cbn [negb andb].
    pose proof (store_entry_spec i e id data s m Hw Hm He Hi Hk Ho) as Hs. fold c in Hs. cbv zeta in Hs.
    destruct (negb (stores c) || _); [|destruct (_ <? _)%nat].
    1, 3: apply wp_bind, wp_get; rewrite Ef; exact Hs.
    apply undefined_bind, wp_get. rewrite Ef. exact Hs.
  - rewrite (bool_decide_false (is_Some _)) by (by rewrite <- eq_None_not_Some, vault_known). cbn [negb andb]. rewrite Hsize.
    destruct (_ <? length data)%nat eqn:El; cbn [orb].
    { apply wp_bind, wp_get. rewrite Ef, El. apply wp_bind, wp_unlock_held; [done|]. apply wp_ret. split_and!; try done. by destruct Hw. }
    destruct (_ <=? entry_count s)%nat eqn:Em.
    { apply wp_bind, wp_get. rewrite Ef, El, Em. apply wp_bind, wp_unlock_held; [done|]. apply wp_ret. split_and!; try done. by destruct Hw. }
    tests. destruct (lookup_lt_is_Some_2 (secure_entries s) (entry_count s)) as [e He]; [rewrite (cw_entries s Hw); lia|].
    destruct (pushed_wf id e s Hw Ef He) as [Hw1 Hv1].
    assert (Hlook : secure_entries (pushed id e s) !! entry_count s = Some (e <| entry_id := id |> <| entry_offset := 0 |>)).
    { apply list_lookup_insert_eq. exact (lookup_lt_Some _ _ _ He). }
    pose proof (store_entry_spec (entry_count s) _ id data (pushed id e s) m Hw1 Hm Hlook ltac:(cbn; lia) eq_refl eq_refl) as Hs.
    change (crypto_config (pushed id e s)) with c in Hs. cbv zeta in Hs. rewrite Hv1 in Hs.
    unfold vault_recorded in Hs. cbn [v_plain v_entries] in Hs. rewrite insert_insert_eq in Hs.
    destruct (negb (stores c) || _).
    { apply wp_bind, wp_get. rewrite Ef, (proj2 (Nat.ltb_ge _ _)), (proj2 (Nat.leb_gt _ _)) by lia. cbv zeta. rewrite He.
      apply wp_bind, wp_ret, wp_bind, wp_modify, wp_bind, wp_modify. exact Hs. }
    rewrite (proj2 (Nat.ltb_ge _ _)) in Hs by lia.
    apply wp_bind, wp_get. rewrite Ef, (proj2 (Nat.ltb_ge _ _)), (proj2 (Nat.leb_gt _ _)) by lia. cbv zeta. rewrite He.
    apply wp_bind, wp_ret, wp_bind, wp_modify, wp_bind, wp_modify. exact Hs.
Qed.
Lemma secure_store_spec id data v s m : holds_vault v s ->
  let c := crypto_config s in
  match vault_store c id data v with
  | Some (b, v') => wp (Crypto_SecureStore hw id data) (fun b' s' m' => b' = b /\ m' = m /\ crypto_config s' = c /\ holds_vault v' s') s m
  | None => Crypto_SecureStore hw id data s m = None
  end.
Proof.
  intros (Hw & Hm & <-) c. assert (Hw1 : crypto_wf (s <| crypto_mutex := true |>)) by (by destruct Hw).
  pose proof (store_locked_spec id data (s <| crypto_mutex := true |>) m Hw1 eq_refl) as Hs. cbv zeta in Hs.
  change (crypto_config (s <| crypto_mutex := true |>)) with c in Hs.
  change (vault_of (s <| crypto_mutex := true |>)) with (vault_of s) in Hs. unfold Crypto_SecureStore.
  destruct (vault_store c id data (vault_of s)) as [[b v']|].
  - apply wp_bind, wp_get. rewrite (cw_init s Hw), (cw_secure s Hw). cbn [negb orb]. by apply wp_bind, wp_lock_free.
  - apply undefined_bind, wp_get. rewrite (cw_init s Hw), (cw_secure s Hw). cbn [negb orb]. by apply undefined_bind, wp_lock_free.
Qed.

Lemma retrieve_locked_spec id room s m : crypto_wf s -> crypto_mutex s = true ->
  let c := crypto_config s in
  match vault_retrieve c id room (vault_of s) with
  | Some r => wp (retrieve_locked hw id room) (fun r' s' m' => r' = r /\ m' = m /\ s' = s <| crypto_mutex := false |>) s m
  | None => retrieve_locked hw id room s m = None
  end.
Proof.
  intros Hw Hm c. unfold vault_retrieve. destruct (find_secure_entry id s) as [i|] eqn:Ef; last first.
  { rewrite (proj2 (vault_known s id Hw) Ef). apply wp_bind, wp_get. rewrite Ef. by apply wp_bind, wp_unlock_held, wp_ret. }
  destruct (live_entry s id i Hw Ef) as (e & He & Hi & Hk & Ho & -> & Hh & Hlen). unfold entry_view.
  pose proof (crypt_cases (Crypto_Decrypt hw) (secure_storage s) (entry_length e) room s m Hw Hlen (or_intror eq_refl)) as Hd.
  fold c in Hd. cbv zeta in Hd. rewrite (cw_storage s Hw) in Hd.
  assert (Hpre : forall (P : option (option (list Z) * CryptoContext * Machine) -> Prop),
    P ((r ← Crypto_Decrypt hw (secure_storage s) (entry_length e) room;
        if negb (r.1 : bool) then unlock;; mret None else
        h ← Crypto_CalculateHash hw r.2 32; calculated ← into h.2 (replicate 32 0);
        if decide (calculated = entry_hash e) then Logger_Log LOG_LEVEL_INFO;; unlock;; mret (Some r.2)
        else Logger_Log LOG_LEVEL_ERROR;; unlock;; mret None) s m) -> P (retrieve_locked hw id room s m)).
  { intros P HP. unfold retrieve_locked, mbind, M_bind, get in HP |- *. rewrite Ef, He. cbn. rewrite Ho. exact HP. }
  destruct (negb (stores c) || _).
  { unfold wp. apply Hpre. apply (wp_bind _ _ _ s m). unfold wp at 1. rewrite Hd. cbn [fst negb]. by apply wp_bind, wp_unlock_held, wp_ret. }
  destruct (Z.of_nat SECURE_STORAGE_SIZE <? entry_length e) eqn:E1; cbn [orb] in Hd.
  { apply Hpre. by apply undefined_bind'. }
  assert (Htake : length (take (Z.to_nat (entry_length e)) (v_plain (vault_of s))) = Z.to_nat (entry_length e)).
  { unfold vault_of. cbn [v_plain]. rewrite length_take, length_xored, (cw_storage s Hw). tests. lia. }
  cbv zeta. rewrite Htake. destruct (room <? _)%nat.
  { apply Hpre. by apply undefined_bind'. }
  assert (Hplain : xored c 0 (take (Z.to_nat (entry_length e)) (secure_storage s)) = take (Z.to_nat (entry_length e)) (v_plain (vault_of s))).
  { apply take_xored. }
  unfold wp. apply Hpre, (wp_bind _ _ _ s m). unfold wp at 1. rewrite Hd, Hplain. cbn [fst snd negb].
  apply wp_bind, hash_spec; [done|]. fold c. cbn [snd]. apply wp_bind, into_spec; [unfold hash_of; rewrite length_soft_hash, length_replicate; lia|].
  rewrite drop_ge, app_nil_r by (unfold hash_of; rewrite length_soft_hash, length_replicate; lia).
  destruct (decide _); apply wp_bind, silent; auto; by apply wp_bind, wp_unlock_held, wp_ret.
Qed.
Lemma secure_retrieve_spec id room v s m : holds_vault v s ->
  let c := crypto_config s in
  match vault_retrieve c id room v with
  | Some r => wp (Crypto_SecureRetrieve hw id room) (fun r' s' m' => r' = r /\ m' = m /\ s' = s) s m
  | None => Crypto_SecureRetrieve hw id room s m = None
  end.
Proof.
  intros (Hw & Hm & <-) c. assert (Hw1 : crypto_wf (s <| crypto_mutex := true |>)) by (by destruct Hw).
  pose proof (retrieve_locked_spec id room (s <| crypto_mutex := true |>) m Hw1 eq_refl) as Hs. cbv zeta in Hs.
  change (crypto_config (s <| crypto_mutex := true |>)) with c in Hs.
  change (vault_of (s <| crypto_mutex := true |>)) with (vault_of s) in Hs. unfold Crypto_SecureRetrieve.
  destruct (vault_retrieve c id room (vault_of s)) as [r|].
  - apply wp_bind, wp_get. rewrite (cw_init s Hw), (cw_secure s Hw). cbn [negb orb]. apply wp_bind, wp_lock_free; [done|].
    eapply wp_mono; [exact Hs|]. intros r' s' m' (-> & -> & ->). split_and!; [done|done|]. destruct s; cbn in *. by subst.
  - apply undefined_bind, wp_get. rewrite (cw_init s Hw), (cw_secure s Hw). cbn [negb orb]. by apply undefined_bind, wp_lock_free.
Qed.
End storage.

(** ** Keys *)

Definition key_bytes_ok (c : CryptoConfig) : Prop := length (cipher_key c) = 32%nat /\ Forall is_u8 (cipher_key c).
(** The key the software derives from a seed. *)
Definition derived (c : CryptoConfig) (seed : Z) : Z :=
  match algorithm c with
  | CRYPTO_ALG_XOR => Z.lxor seed 0x55AA55AA
  | CRYPTO_ALG_AES128 | CRYPTO_ALG_SHA256 => le_value (xor_lists (le_bytes 4 seed) (take 4 (cipher_key c)))
  | CRYPTO_ALG_CUSTOM => Z.lxor (u32 (seed * 0x8088405)) 0x12345678
  end.
Lemma calculate_derived hw seed (s : CryptoContext) m (Q : Z -> CryptoContext -> Machine -> Prop) :
  use_hardware_acceleration (crypto_config s) = false -> length (cipher_key (crypto_config s)) = 32%nat ->
  Q (derived (crypto_config s) seed) s m -> wp (Crypto_CalculateKey hw seed) Q s m.
Proof.
  intros Hs Hk HQ. unfold Crypto_CalculateKey. apply wp_bind, wp_get. cbv zeta. unfold derived in HQ. rewrite Hs, Hk.
  destruct (algorithm (crypto_config s)); try by apply wp_ret.
  - apply wp_bind, wp_ret, wp_ret. unfold xor_lists in *. rewrite zip_with_take, take_take. exact HQ.
  - apply wp_bind, wp_ret, wp_ret. destruct (cipher_key (crypto_config s)) as [|k0 [|k1 [|k2 [|k3 key]]]]; [discriminate..|]. exact HQ.
Qed.

Lemma xor_lists_bytes l : forall k, Forall is_u8 l -> Forall is_u8 k -> Forall is_u8 (xor_lists l k).
Proof.
  induction l as [|x l IH]; intros [|y k] Hl Hk; try constructor; inversion Hl; inversion Hk; subst; [by apply lxor_u8|by apply IH].
Qed.
Lemma xor_lists_inj l : forall l' k, length l = length k -> length l' = length k -> xor_lists l k = xor_lists l' k -> l = l'.
Proof.
  induction l as [|x l IH]; intros [|y l'] [|z k] H1 H2 E; try done. injection E as Ex El. f_equal; [|by apply (IH l' k); auto].
  rewrite <- (Z.lxor_0_r x), <- (Z.lxor_0_r y), <- (Z.lxor_nilpotent z), <- !Z.lxor_assoc. by rewrite Ex.
Qed.
Lemma le_bytes_u8 n : forall z, Forall is_u8 (le_bytes n z).
Proof. induction n as [|n IH]; intros z; cbn; constructor; [apply Z.mod_pos_bound; lia|apply IH]. Qed.
Lemma lxor_cancel a b k : Z.lxor a k = Z.lxor b k -> a = b.
Proof.
  intros E. rewrite <- (Z.lxor_0_r a), <- (Z.lxor_0_r b), <- (Z.lxor_nilpotent k), <- !Z.lxor_assoc. by rewrite E.
Qed.
(** The multiplier of the custom algorithm is invertible. *)
Lemma custom_inverse z : is_u32 z -> u32 (u32 (z * 0x8088405) * 3645876429) = z.
Proof.
  intros Hz. unfold u32. rewrite Zmult_mod_idemp_l, <- Z.mul_assoc, <- Zmult_mod_idemp_r.
  replace (0x8088405 * 3645876429 mod 2 ^ 32) with 1 by (vm_compute; reflexivity).
  rewrite Z.mul_1_r. by apply Z.mod_small.
Qed.
Lemma derived_inj c a b : key_bytes_ok c -> is_u32 a -> is_u32 b -> derived c a = derived c b -> a = b.
Proof.
  intros [Hl Hk] Ha Hb. unfold derived.
  assert (Hx : le_value (xor_lists (le_bytes 4 a) (take 4 (cipher_key c))) = le_value (xor_lists (le_bytes 4 b) (take 4 (cipher_key c))) -> a = b).
  { assert (H4 : length (take 4 (cipher_key c)) = 4%nat) by (rewrite length_take; lia).
    intros E. apply le_value_inj in E.
    - apply xor_lists_inj in E; [|by rewrite length_le_bytes, H4..].
      rewrite <- (le_value_bytes 4 a), <- (le_value_bytes 4 b), E by done. done.
    - apply xor_lists_bytes; [apply le_bytes_u8|by apply Forall_take].
    - apply xor_lists_bytes; [apply le_bytes_u8|by apply Forall_take].
    - unfold xor_lists. by rewrite !length_zip_with, !length_le_bytes. }
  destruct (algorithm c); [apply lxor_cancel|exact Hx|exact Hx|].
  intros E%lxor_cancel. by rewrite <- (custom_inverse a), <- (custom_inverse b), E.
Qed.

(** ** Theorems *)

Inductive VaultEvent := Store (id : Z) (data : list Z) | Retrieve (id : Z) (room : nat).
Inductive VaultAnswer := Stored (b : bool) | Retrieved (r : option (list Z)).
Definition vault_event (c : CryptoConfig) (e : VaultEvent) (v : Vault) : option (VaultAnswer * Vault) :=
  match e with
  | Store id data => '(b, v') ← vault_store c id data v; Some (Stored b, v')
  | Retrieve id room => r ← vault_retrieve c id room v; Some (Retrieved r, v)
  end.
Fixpoint vault_run (c : CryptoConfig) (es : list VaultEvent) (v : Vault) : option (list VaultAnswer * Vault) :=
  match es with
  | [] => Some ([], v)
  | e :: es => '(a, v1) ← vault_event c e v; '(aa, v2) ← vault_run c es v1; Some (a :: aa, v2)
  end.

Section theorems.
Context (hw : HwCrypto).
Implicit Types (s : CryptoContext) (m : Machine).

Definition secure_event (e : VaultEvent) : M CryptoContext VaultAnswer :=
  match e with
  | Store id data => b ← Crypto_SecureStore hw id data; mret (Stored b)
  | Retrieve id room => r ← Crypto_SecureRetrieve hw id room; mret (Retrieved r)
  end.
Fixpoint secure_events (es : list VaultEvent) : M CryptoContext (list VaultAnswer) :=
  match es with [] => mret [] | e :: es => a ← secure_event e; aa ← secure_events es; mret (a :: aa) end.

Lemma secure_event_spec e v s m : holds_vault v s ->
  match vault_event (crypto_config s) e v with
  | Some (a, v') => wp (secure_event e) (fun b s' m' => b = a /\ m' = m /\ crypto_config s' = crypto_config s /\ holds_vault v' s') s m
  | None => secure_event e s m = None
  end.
Proof.
  intros Hv. destruct e as [id data|id room]; cbn [vault_event secure_event].
  - pose proof (secure_store_spec hw id data v s m Hv) as Hs. cbv zeta in Hs.
    destruct (vault_store _ id data v) as [[b v']|]; cbn; [|by apply undefined_bind'].
    apply wp_bind. eapply wp_mono; [exact Hs|]. intros b' s' m' (-> & -> & Hc & Hv'). by apply wp_ret.
  - pose proof (secure_retrieve_spec hw id room v s m Hv) as Hs. cbv zeta in Hs.
    destruct (vault_retrieve _ id room v) as [r|]; cbn; [|by apply undefined_bind'].
    apply wp_bind. eapply wp_mono; [exact Hs|]. intros r' s' m' (-> & -> & ->). by apply wp_ret.
Qed.

(** The secure storage implements its specification along every run of stores and
    retrievals, with the answers of each: one plain text that every entry is stored at the
    beginning of, and the length and hash of the last request for each identifier, which a
    refused request changes too.  It is undefined exactly when a known identifier is stored
    with more than 64 KB, or an entry does not fit the buffer of the caller. *)
Theorem crypto_refines_vault es : forall v s m, holds_vault v s ->
  match vault_run (crypto_config s) es v with
  | Some (aa, v') => wp (secure_events es) (fun bb s' m' => bb = aa /\ m' = m /\ holds_vault v' s') s m
  | None => secure_events es s m = None
  end.
Proof.
  induction es as [|e es IH]; intros v s m Hv; cbn [vault_run secure_events]; [by apply wp_ret|].
  pose proof (secure_event_spec e v s m Hv) as He.
  destruct (vault_event _ e v) as [[a v1]|]; cbn [mbind option_bind]; [|by apply undefined_bind'].
  pose proof (fun s1 m1 Hv1 => IH v1 s1 m1 Hv1) as Hr. clear IH.
  destruct (vault_run (crypto_config s) es v1) as [[aa v2]|] eqn:Er; cbn [mbind option_bind].
  - apply wp_bind. eapply wp_mono; [exact He|]. intros b s1 m1 (-> & -> & Hc & Hv1).
    specialize (Hr s1 m Hv1). rewrite Hc, Er in Hr. apply wp_bind. eapply wp_mono; [exact Hr|].
    intros bb s2 m2 (-> & -> & Hv2). by apply wp_ret.
  - apply undefined_bind. eapply wp_mono; [exact He|]. intros b s1 m1 (-> & -> & Hc & Hv1).
    specialize (Hr s1 m Hv1). rewrite Hc, Er in Hr. by apply undefined_bind'.
Qed.

(** What was stored last comes back, but a second entry overwrites the first: after
    two stores of whole blocks under different new identifiers the second is retrieved as
    it was stored, while the first is retrieved only if the bytes that now stand in its
    place have its hash. *)
Theorem second_entry_overwrites i1 d1 i2 d2 room s m v : holds_vault v s -> stores (crypto_config s) = true -> i1 <> i2 ->
  v_entries v !! i1 = None -> v_entries v !! i2 = None -> (size (v_entries v) + 1 < MAX_SECURE_ENTRIES)%nat ->
  Z.of_nat (length d1) mod 16 = 0 -> Z.of_nat (length d2) mod 16 = 0 ->
  (length d1 <= SECURE_STORAGE_SIZE)%nat -> (length d2 <= SECURE_STORAGE_SIZE)%nat -> (length d1 <= room)%nat -> (length d2 <= room)%nat ->
  let now := take (length d1) (d2 ++ drop (length d2) d1) in
  wp (secure_events [Store i1 d1; Store i2 d2; Retrieve i2 room; Retrieve i1 room]) (fun aa _ m' => m' = m /\
    aa = [Stored true; Stored true; Retrieved (Some d2);
          Retrieved (if decide (hash_of (crypto_config s) now = hash_of (crypto_config s) d1) then Some now else None)]) s m.
Proof.
  intros Hv Hst Hne H1 H2 Hsz Hm1 Hm2 Hl1 Hl2 Hr1 Hr2 now.
  pose proof (crypto_refines_vault [Store i1 d1; Store i2 d2; Retrieve i2 room; Retrieve i1 room] v s m Hv) as Hrun.
  set (c := crypto_config s) in *. clearbody c.
  assert (Hplain : length (v_plain v) = SECURE_STORAGE_SIZE).
  { destruct Hv as (Hw & _ & <-). unfold vault_of. cbn [v_plain]. rewrite length_xored. apply Hw. }
  assert (Hnew : forall id d w, v_entries w !! id = None -> (size (v_entries w) < MAX_SECURE_ENTRIES)%nat ->
    Z.of_nat (length d) mod 16 = 0 -> (length d <= SECURE_STORAGE_SIZE)%nat ->
    vault_store c id d w = Some (true, mkVault (d ++ drop (length d) (v_plain w)) (<[id := (Z.of_nat (length d), hash_of c d)]> (v_entries w)))).
  { intros id d w Hn Hs Hm Hl. unfold vault_store. rewrite Hn, (bool_decide_false (is_Some _)) by (by intros [? [=]]).
    rewrite (proj2 (Nat.ltb_ge _ _)), (proj2 (Nat.leb_gt _ _)) by lia. cbn [negb andb orb]. by rewrite Hst, Hm. }
  assert (Hget : forall id d w, v_entries w !! id = Some (Z.of_nat (length d), hash_of c d) -> Z.of_nat (length d) mod 16 = 0 ->
    (length d <= SECURE_STORAGE_SIZE)%nat -> (length d <= room)%nat -> length (v_plain w) = SECURE_STORAGE_SIZE ->
    vault_retrieve c id room w = Some (let x := take (length d) (v_plain w) in if decide (hash_of c x = hash_of c d) then Some x else None)).
  { intros id d w He Hm Hl Hr Hp. unfold vault_retrieve. rewrite He, Hst, Hm. cbn [negb orb]. change (negb (0 =? 0)) with false. cbn [orb].
    rewrite (proj2 (Z.ltb_ge _ _)) by lia. cbv zeta. rewrite Nat2Z.id, length_take, (proj2 (Nat.ltb_ge _ _)) by lia. done. }
  assert (Hsize1 : size (<[i1 := (Z.of_nat (length d1), hash_of c d1)]> (v_entries v)) = S (size (v_entries v))) by (by apply map_size_insert_None).
  cbn [vault_run vault_event] in Hrun. rewrite Hnew in Hrun by (done || lia). cbn [mbind option_bind] in Hrun.
  rewrite Hnew in Hrun; [|cbn [v_entries]; by rewrite lookup_insert_ne|cbn [v_entries]; lia|done|done]. cbn [mbind option_bind v_plain v_entries] in Hrun.
  rewrite (Hget i2 d2) in Hrun; [|cbn [v_entries]; by rewrite lookup_insert_eq|done|done|done|
    cbn [v_plain]; rewrite !length_app, !length_drop, length_app, length_drop; lia].
  cbn [mbind option_bind v_plain] in Hrun. rewrite take_app_length in Hrun. cbv zeta in Hrun. rewrite decide_True in Hrun by done.
  rewrite (Hget i1 d1) in Hrun; [|cbn [v_entries]; by rewrite lookup_insert_ne, lookup_insert_eq|done|done|done|
    cbn [v_plain]; rewrite !length_app, !length_drop, length_app, length_drop; lia].
  cbn [mbind option_bind v_plain] in Hrun. eapply wp_mono; [exact Hrun|]. intros aa s' m' (-> & -> & _). split; [done|].
  assert (Hnow : take (length d1) (d2 ++ drop (length d2) (d1 ++ drop (length d1) (v_plain v))) = now); [|by rewrite Hnow].
  unfold now. destruct (decide (length d2 <= length d1)%nat).
  - rewrite drop_app_le, app_assoc by lia. rewrite take_app_le; [done|]. rewrite length_app, length_drop. lia.
  - rewrite (drop_ge d1) by lia. rewrite app_nil_r, take_app_le by lia. done.
Qed.

(** The key of a seed is accepted for that seed and no other, with each of the
    software algorithms. *)
Theorem key_fits_one_seed seed seed' s m : use_hardware_acceleration (crypto_config s) = false -> key_bytes_ok (crypto_config s) ->
  is_u32 seed -> is_u32 seed' ->
  wp (k ← Crypto_CalculateKey hw seed; Crypto_ValidateKey hw seed' k) (fun b s' m' =>
    b = bool_decide (seed = seed') /\ s' = s /\ m' = m) s m.
Proof.
  intros Hs Hk H1 H2. apply wp_bind, calculate_derived; [done|apply Hk|]. unfold Crypto_ValidateKey.
  apply wp_bind, calculate_derived; [done|apply Hk|]. apply wp_ret. split_and!; [|done|done].
  destruct (decide (seed = seed')) as [->|Hn].
  - by rewrite bool_decide_true, Z.eqb_refl.
  - rewrite bool_decide_false by done. apply Z.eqb_neq. intros E. apply Hn. by apply (derived_inj (crypto_config s)).
Qed.

(** Fields that the steps so far have not changed. *)
Ltac fields := repeat match goal with s : CryptoContext |- _ => progress (repeat match goal with
    | |- context [crypto_initialized ?z] => progress change (crypto_initialized z) with (crypto_initialized s)
    | |- context [crypto_config ?z] => progress change (crypto_config z) with (crypto_config s)
    | |- context [secure_entries ?z] => progress change (secure_entries z) with (secure_entries s)
    | |- context [entry_count ?z] => progress change (entry_count z) with (entry_count s)
    | |- context [secure_storage ?z] => progress change (secure_storage z) with (secure_storage s) end) end.

(** While the logger writes entries of level INFO, a store that would succeed never
    returns: it logs while it holds the mutex. *)
Theorem secure_store_blocks id data i e s m : crypto_initialized s = true -> enable_secure_storage (crypto_config s) = true ->
  use_hardware_acceleration (crypto_config s) = false -> key_ok (crypto_config s) -> stores (crypto_config s) = true ->
  find_secure_entry id s = Some i -> secure_entries s !! i = Some e -> entry_offset e = 0 ->
  (32 <= length (entry_hash e))%nat -> length (secure_storage s) = SECURE_STORAGE_SIZE ->
  (length data <= SECURE_STORAGE_SIZE)%nat -> Z.of_nat (length data) mod 16 = 0 ->
  logs (crypto_logger s) LOG_LEVEL_INFO = true -> Crypto_SecureStore hw id data s m = None.
Proof.
  intros Hi Hsec Hsoft Hkey Hst Hf He Ho Hh Hstore Hl Hm Hlog. unfold Crypto_SecureStore.
  apply undefined_bind, wp_get. rewrite Hi, Hsec. cbn [negb orb].
  destruct (crypto_mutex s) eqn:Emu; [by apply undefined_bind', lock_held_blocks|].
  apply undefined_bind, wp_lock_free; [done|]. unfold store_locked. apply undefined_bind, wp_get.
  unfold find_secure_entry in *. fields. rewrite Hf. unfold store_entry.
  apply undefined_bind. unfold record_entry. apply wp_bind, wp_get, wp_bind. fields.
  rewrite He. apply wp_ret, wp_bind, wp_modify, wp_bind. unfold Crypto_CalculateHash. apply wp_bind, wp_get. cbv zeta.
  fields. rewrite Hi, Hsoft, (proj2 Hkey). apply wp_ret, wp_bind, into_spec.
  { cbn [snd]. rewrite length_soft_hash. lia. }
  apply wp_bind, wp_modify, wp_ret. unfold write_storage. rewrite Ho. apply undefined_bind. unfold Crypto_Encrypt.
  apply wp_bind, wp_get. cbv zeta. fields. rewrite Hi, Hsoft. cbn [negb].
  unfold stores in Hst. apply bool_decide_eq_true in Hst. rewrite decide_True by done. rewrite Hm. change (negb (0 =? 0)) with false. cbv iota.
  rewrite Z.ltb_irrefl, Nat2Z.id, firstn_all, (proj2 (Nat.ltb_ge _ _)) by (change (Z.to_nat 0) with 0%nat; lia).
  rewrite cipher_xored by done. apply wp_bind, wp_ret, wp_ret. apply undefined_bind, wp_get. fields. cbn [fst snd].
  change (Z.to_nat 0) with 0%nat. apply undefined_bind, into_spec; [rewrite length_xored, drop_0, Hstore; lia|].
  apply undefined_bind, wp_modify. cbn [negb]. by apply undefined_bind', log_held_blocks.
Qed.
End theorems.

(** ** Witnesses *)

Definition no_hw : HwCrypto := mkHwCrypto false (fun _ _ => (false, [])) (fun _ _ => (false, [])) (fun _ _ => (false, [])) (fun _ => (false, [])).
Definition example_crypto_config : CryptoConfig := mkCryptoConfig CRYPTO_ALG_AES128 (replicate 32 0x5A) 16 false true.
Definition example_crypto : CryptoContext :=
  mkCrypto example_crypto_config (replicate SECURE_STORAGE_SIZE 0) (replicate MAX_SECURE_ENTRIES secure_entry_zero) 0 true 1 false None.
Definition example_vault : Vault := mkVault (xored example_crypto_config 0 (replicate SECURE_STORAGE_SIZE 0)) ∅.
Lemma example_crypto_wf : crypto_wf example_crypto.
Proof.
  constructor; [done|done|done|by split|done|apply length_replicate|apply length_replicate|apply Nat.le_0_l|apply NoDup_nil_2| |constructor].
  by apply Forall_replicate.
Qed.
Lemma example_holds_vault : holds_vault example_vault example_crypto.
Proof. split; [exact example_crypto_wf|]. split; [done|]. unfold vault_of, example_vault. f_equal. Qed.

Lemma crypto_refines_vault_witness :
  wp (secure_events no_hw [Store 7 (replicate 16 1); Store 8 [1]; Retrieve 7 16; Retrieve 8 16; Retrieve 9 16]) (fun aa _ m' =>
    m' = boot /\ aa = [Stored true; Stored false; Retrieved (Some (replicate 16 1)); Retrieved None; Retrieved None]) example_crypto boot.
Proof.
  set (es := [_; _; _; _; _]). set (answers := [_; _; _; _; _]).
  assert (Ha : forall plain, fst <$> vault_run example_crypto_config es (mkVault plain ∅) = Some answers).
  { intros plain. vm_compute. reflexivity. }
  specialize (Ha (xored example_crypto_config 0 (replicate SECURE_STORAGE_SIZE 0))). fold example_vault in Ha.
  pose proof (crypto_refines_vault no_hw es example_vault example_crypto boot example_holds_vault) as Hr.
  replace (crypto_config example_crypto) with example_crypto_config in Hr by reflexivity.
  clearbody es answers. revert Ha Hr. generalize (vault_run example_crypto_config es example_vault).
  intros [[aa v']|] Ha Hr; [|discriminate]. injection Ha as ->.
  eapply wp_mono; [exact Hr|]. intros bb s' m' (-> & -> & _). by split.
Defined.
Lemma second_entry_overwrites_witness :
  wp (secure_events no_hw [Store 1 (replicate 16 1); Store 2 (replicate 16 2); Retrieve 2 16; Retrieve 1 16]) (fun aa _ m' =>
    m' = boot /\ aa = [Stored true; Stored true; Retrieved (Some (replicate 16 2)); Retrieved None]) example_crypto boot.
Proof.
  assert (Hbig : (16 <= SECURE_STORAGE_SIZE)%nat) by (unfold SECURE_STORAGE_SIZE; lia).
  eapply wp_mono.
  - apply (second_entry_overwrites no_hw 1 (replicate 16 1) 2 (replicate 16 2) 16 example_crypto boot example_vault example_holds_vault);
      [reflexivity|discriminate|reflexivity|reflexivity| |reflexivity|reflexivity|exact Hbig|exact Hbig|cbn; lia|cbn; lia].
    change (v_entries example_vault) with (∅ : gmap Z (Z * list Z)). rewrite map_size_empty. unfold MAX_SECURE_ENTRIES. lia.
  - intros aa s' m' [-> ->]. split; [reflexivity|]. vm_compute. reflexivity.
Defined.
Lemma key_fits_one_seed_witness :
  wp (k ← Crypto_CalculateKey no_hw 0x1234; Crypto_ValidateKey no_hw 0x1235 k) (fun b s' m' =>
    b = false /\ s' = example_crypto /\ m' = boot) example_crypto boot.
Proof.
  apply (key_fits_one_seed no_hw 0x1234 0x1235 example_crypto boot); [reflexivity| |vm_compute; split; congruence|vm_compute; split; congruence].
  split; [reflexivity|]. apply Forall_replicate. vm_compute. split; congruence.
Defined.
Definition logging_crypto : CryptoContext :=
  example_crypto <| entry_count := 1%nat |> <| secure_entries ::= <[0%nat := mkSecureEntry 7 16 0 (replicate 32 0)]> |>
    <| crypto_logger := Some LOG_LEVEL_INFO |>.
Lemma secure_store_blocks_witness : Crypto_SecureStore no_hw 7 (replicate 16 1) logging_crypto boot = None.
Proof.
  assert (Hbig : (16 <= SECURE_STORAGE_SIZE)%nat) by (unfold SECURE_STORAGE_SIZE; lia).
  apply (secure_store_blocks no_hw 7 (replicate 16 1) 0 (mkSecureEntry 7 16 0 (replicate 32 0)) logging_crypto boot);
    [reflexivity|reflexivity|reflexivity|by split|reflexivity|reflexivity|reflexivity|reflexivity|cbn; lia|apply length_replicate|exact Hbig|reflexivity|reflexivity].
Defined.
