(* ===== verification/OsCore.v ===== *)
(** * Operating-system core

    [src/runtime/os/os_core.c]: the choice of the task to run, the tick that drives counters
    and alarms, starting the system and activating a task.  The arrays of a table share one
    count, so a table is one list of records; the context switch is a comment in the
    source.  [INVALID_TASK] and [SetEvent], which the repository does not define, are a
    parameter and a call that leaves the program; so are the actions of the alarms. *)

From S2P Require Import Prelude Machine.

Inductive StatusType := E_OK | E_OS_ACCESS | E_OS_CALLEVEL | E_OS_ID | E_OS_LIMIT | E_OS_NOFUNC | E_OS_RESOURCE | E_OS_STATE | E_OS_VALUE.
Inductive TaskStateType := SUSPENDED | READY | RUNNING | WAITING.
#[export] Instance TaskStateType_eq_dec : EqDecision TaskStateType.
Proof. solve_decision. Defined.

Record OsTask := mkOsTask { task_priority : Z; is_autostart : bool; task_state : TaskStateType }.
#[export] Instance eta_OsTask : Eta OsTask := fun t => mkOsTask (task_priority t) (is_autostart t) (task_state t).
Record OsAlarm := mkOsAlarm {
  al_counter : Z; cycle_time : Z; al_action : bool; al_task : Z; al_event : Z; al_value : Z; al_active : bool }.
#[export] Instance eta_OsAlarm : Eta OsAlarm := fun a =>
  mkOsAlarm (al_counter a) (cycle_time a) (al_action a) (al_task a) (al_event a) (al_value a) (al_active a).
Record OsCounter := mkOsCounter { max_allowed_value : Z; counter_value : Z }.
#[export] Instance eta_OsCounter : Eta OsCounter := fun c => mkOsCounter (max_allowed_value c) (counter_value c).

Record OsState := mkOs {
  active_mode : Z; current_task : Z; highest_ready : Z; os_started : bool;
  os_tasks : list OsTask; os_owners : list Z; os_alarms : list OsAlarm; os_counters : list OsCounter;
  os_critical : CriticalSection }.
#[export] Instance eta_OsState : Eta OsState := fun s =>
  mkOs (active_mode s) (current_task s) (highest_ready s) (os_started s) (os_tasks s) (os_owners s) (os_alarms s)
    (os_counters s) (os_critical s).
#[export, refine] Instance OsState_critical : HasCritical OsState :=
  {| crit := os_critical; set_crit c s := s <| os_critical := c |> |}.
Proof. all: by intros; destruct s. Defined.

Section os.
Context (INVALID_TASK : Z).

(** The loop of [os_scheduler] from task [i], with the best task so far. *)
Fixpoint select (i : nat) (tasks : list OsTask) (best prio : Z) : Z :=
  match tasks with
  | [] => best
  | t :: tasks =>
      if bool_decide (task_state t = READY) && (prio <? task_priority t)
      then select (S i) tasks (Z.of_nat i) (task_priority t) else select (S i) tasks best prio
  end.
Definition os_scheduler : M OsState unit :=
  modify (fun s => s <| highest_ready := select 0 (os_tasks s) INVALID_TASK 0 |>);;
  s ← get;
  if negb (highest_ready s =? current_task s) then modify (fun s => s <| current_task := highest_ready s |>) else mret tt.

Definition ActivateTask (task_id : Z) : M OsState StatusType :=
  s ← get;
  if Z.of_nat (length (os_tasks s)) <=? task_id then mret E_OS_ID else
  enter;;
  s ← get;
  match os_tasks s !! Z.to_nat task_id with
  | None => fault
  | Some t =>
      (if decide (task_state t = SUSPENDED) then
         modify (fun s => s <| os_tasks ::= <[Z.to_nat task_id := t <| task_state := READY |>]> |>);;
         os_scheduler
       else mret tt);;
      exit;;
      mret E_OK
  end.

(** Alarm [j] expires. *)
Definition wake_task (a : OsAlarm) : M OsState unit :=
  if negb (al_task a =? INVALID_TASK) then ActivateTask (al_task a);; mret tt else mret tt.
Definition expire_alarm (j : nat) (a : OsAlarm) : M OsState unit :=
  callback (al_action a) "alarm_action" [Z.of_nat j];;
  wake_task a;;
  (if negb (al_event a =? 0) then emit "SetEvent" [al_task a; al_event a] else mret tt);;
  modify (fun s => s <| os_alarms ::= <[j := a <| al_value := if 0 <? cycle_time a then cycle_time a else 0 |>
    <| al_active := 0 <? cycle_time a |>]> |>).
(** The body of the inner loop of the tick, for alarm [j] and counter [i]. *)
Definition process_alarm (i : Z) (j : nat) : M OsState unit :=
  s ← get;
  match os_alarms s !! j with
  | None => fault
  | Some a =>
      if (al_counter a =? i) && al_active a then
        let v := u32 (al_value a - 1) in
        modify (fun s => s <| os_alarms ::= <[j := a <| al_value := v |>]> |>);;
        if v =? 0 then expire_alarm j a else mret tt
      else mret tt
  end.
Fixpoint alarm_loop (i : Z) (k j : nat) : M OsState unit :=
  match k with O => mret tt | S k => process_alarm i j;; alarm_loop i k (S j) end.
Fixpoint counter_loop (k i : nat) : M OsState unit :=
  match k with
  | O => mret tt
  | S k =>
      s ← get;
      match os_counters s !! i with
      | None => fault
      | Some c =>
          let v := u32 (counter_value c + 1) in
          modify (fun s => s <| os_counters ::= <[i := c <| counter_value := if max_allowed_value c <? v then 0 else v |>]> |>);;
          s ← get;
          alarm_loop (Z.of_nat i) (length (os_alarms s)) 0;;
          counter_loop k (S i)
      end
  end.
Definition os_tick_handler : M OsState unit :=
  enter;;
  s ← get;
  counter_loop (length (os_counters s)) 0;;
  os_scheduler;;
  exit.

Definition StartOS (mode : Z) : M OsState StatusType :=
  s ← get;
  if os_started s then mret E_OS_STATE else
  enter;;
  modify (fun s => s <| active_mode := mode |> <| current_task := INVALID_TASK |> <| highest_ready := INVALID_TASK |>);;
  modify (fun s => s <| os_tasks ::= fmap (fun t => t <| task_state := if is_autostart t then READY else SUSPENDED |>) |>);;
  modify (fun s => s <| os_owners ::= fmap (fun _ => INVALID_TASK) |>);;
  modify (fun s => s <| os_alarms ::= fmap (fun a => a <| al_active := false |> <| al_value := 0 |>) |>);;
  modify (fun s => s <| os_counters ::= fmap (fun c => c <| counter_value := 0 |>) |>);;
  modify (fun s => s <| os_started := true |>);;
  exit;;
  os_scheduler;;
  mret E_OK.

(** ** The choice of a task *)

(** Task [i] may run and its priority is [p]. *)
Definition ready (tasks : list OsTask) (i : Z) (p : Z) : Prop :=
  exists t, 0 <= i /\ tasks !! Z.to_nat i = Some t /\ task_state t = READY /\ task_priority t = p /\ 0 < p.
(** A ready task that no ready task beats: none has a higher priority, and those of the same
    priority come later. *)
Definition chosen (tasks : list OsTask) (i : Z) : Prop :=
  exists p, ready tasks i p /\ forall j q, ready tasks j q -> q < p \/ (q = p /\ i <= j).
(** What the scheduler promises. *)
Definition dispatches (tasks : list OsTask) (i : Z) : Prop :=
  chosen tasks i \/ (i = INVALID_TASK /\ forall j p, ~ ready tasks j p).

Lemma select_spec tasks : forall i pre best prio, length pre = i -> 0 <= prio ->
  (prio = 0 /\ best = INVALID_TASK /\ (forall j p, ~ ready pre j p) \/
   ready pre best prio /\ forall j q, ready pre j q -> q < prio \/ (q = prio /\ best <= j)) ->
  dispatches (pre ++ tasks) (select i tasks best prio).
Proof.
  induction tasks as [|t tasks IH]; intros i pre best prio Hi Hp Hinv; cbn [select].
  - rewrite app_nil_r. destruct Hinv as [(-> & -> & Hn)|[Hr Hb]]; [by right|left; by exists prio].
  - replace (pre ++ t :: tasks) with ((pre ++ [t]) ++ tasks) by (by rewrite <- app_assoc).
    assert (Hlast : forall j p, ready (pre ++ [t]) j p ->
      ready pre j p \/ (j = Z.of_nat i /\ task_state t = READY /\ task_priority t = p /\ 0 < p)).
    { intros j p (x & Hj & Hx & Hs & Hq & H0). apply lookup_app_Some in Hx as [Hx|[Hl Hx]].
      - left. exists x. split_and!; done.
      - right. rewrite Hi in *. destruct (Z.to_nat j - i)%nat as [|n] eqn:E; [|done]. injection Hx as ->. split_and!; [lia|done..]. }
    assert (Hkeep : forall j p, ready pre j p -> ready (pre ++ [t]) j p /\ j < Z.of_nat i).
    { intros j p (x & Hj & Hx & Hs). pose proof (lookup_lt_Some _ _ _ Hx). split; [|lia]. exists x.
      rewrite lookup_app_l by done. done. }
    destruct (bool_decide (task_state t = READY) && (prio <? task_priority t)) eqn:E.
    + apply andb_true_iff in E as [Er%bool_decide_eq_true Et]. tests. apply IH; [rewrite length_app, Hi; cbn; lia|lia|right]. split.
      * exists t. rewrite Nat2Z.id, lookup_app_r, Hi, Nat.sub_diag by lia. split_and!; [lia|done|done|done|lia].
      * intros j q [Hj|(-> & _ & <- & _)]%Hlast; [left|by right].
        destruct Hinv as [(-> & _ & Hn)|[_ Hb]]; [by apply Hn in Hj|]. apply Hb in Hj. lia.
    + apply IH; [rewrite length_app, Hi; cbn; lia|done|].
      destruct Hinv as [(-> & -> & Hn)|[Hr Hb]].
      * left. split_and!; [done|done|]. intros j p [Hj|(-> & Hs & <- & H0)]%Hlast; [by eapply Hn|].
        rewrite bool_decide_true in E by done. cbn [andb] in E. tests. lia.
      * right. split; [by apply Hkeep|]. intros j q [Hj|(-> & Hs & <- & H0)]%Hlast; [by apply Hb|].
        rewrite bool_decide_true in E by done. cbn [andb] in E. tests. apply Hkeep in Hr as [_ Hlt]. lia.
Qed.
Lemma select_dispatches tasks : dispatches tasks (select 0 tasks INVALID_TASK 0).
Proof. apply (select_spec tasks 0 []); [done|lia|left]. split_and!; [done|done|]. by intros j p (t & _ & Hx & _). Qed.

Definition dispatched (s : OsState) : OsState :=
  let i := select 0 (os_tasks s) INVALID_TASK 0 in s <| highest_ready := i |> <| current_task := i |>.
Lemma scheduler_spec (Q : unit -> OsState -> Machine -> Prop) s m : Q tt (dispatched s) m -> wp os_scheduler Q s m.
Proof.
  intros HQ. unfold os_scheduler. apply wp_bind, wp_modify, wp_bind, wp_get.
  match goal with |- context [negb ?b] => destruct b eqn:E end; cbn [negb].
  - apply wp_ret. tests. cbn in E. replace (s <| highest_ready := _ |>) with (dispatched s); [done|].
    unfold dispatched. destruct s; cbn in *. by rewrite E.
  - apply wp_modify. exact HQ.
Qed.

(** ** One tick, as functions of the tables *)

Definition fires (a : OsAlarm) : bool := al_active a && (u32 (al_value a - 1) =? 0).
(** An active alarm after a tick of its counter. *)
Definition stepped (a : OsAlarm) : OsAlarm :=
  if negb (al_active a) then a
  else if u32 (al_value a - 1) =? 0 then
    a <| al_value := if 0 <? cycle_time a then cycle_time a else 0 |> <| al_active := 0 <? cycle_time a |>
  else a <| al_value := u32 (al_value a - 1) |>.
Definition step_linked (i : Z) (a : OsAlarm) : OsAlarm := if al_counter a =? i then stepped a else a.
Definition counted (c : OsCounter) : OsCounter :=
  let v := u32 (counter_value c + 1) in c <| counter_value := if max_allowed_value c <? v then 0 else v |>.
(** The alarms linked to counter [i] that expire, with their indices. *)
Fixpoint due (i : Z) (j : nat) (alarms : list OsAlarm) : list (nat * OsAlarm) :=
  match alarms with
  | [] => []
  | a :: l => if (al_counter a =? i) && fires a then (j, a) :: due i (S j) l else due i (S j) l
  end.
Fixpoint all_due (k i : nat) (alarms : list OsAlarm) : list (nat * OsAlarm) :=
  match k with O => [] | S k => due (Z.of_nat i) 0 alarms ++ all_due k (S i) alarms end.
Definition alarm_calls (x : nat * OsAlarm) : list Call :=
  (if al_action x.2 then [call "alarm_action" [Z.of_nat x.1]] else []) ++
  (if al_event x.2 =? 0 then [] else [call "SetEvent" [al_task x.2; al_event x.2]]).
Definition wake (id : Z) (tasks : list OsTask) : list OsTask :=
  match tasks !! Z.to_nat id with
  | Some t => if decide (task_state t = SUSPENDED) then <[Z.to_nat id := t <| task_state := READY |>]> tasks else tasks
  | None => tasks
  end.
(** Whether an alarm activates one of [n] tasks. *)
Definition activates (n : nat) (a : OsAlarm) : bool := negb (al_task a =? INVALID_TASK) && (al_task a <? Z.of_nat n).
Definition woken (tasks : list OsTask) (l : list (nat * OsAlarm)) : list OsTask :=
  foldl (fun ts x => if activates (length ts) x.2 then wake (al_task x.2) ts else ts) tasks l.

Lemma length_wake id ts : length (wake id ts) = length ts.
Proof. unfold wake. repeat case_match; by rewrite ?length_insert. Qed.
Lemma length_woken l : forall ts, length (woken ts l) = length ts.
Proof. induction l as [|x l IH]; intros ts; [done|]. cbn [woken foldl]. unfold woken in IH. rewrite IH. case_match; [apply length_wake|done]. Qed.

(** What a tick leaves alone. *)
Definition os_frame (s s' : OsState) : Prop :=
  active_mode s' = active_mode s /\ os_started s' = os_started s /\ os_owners s' = os_owners s.
(** The effect of the expired alarms [l], with interrupts masked. *)
Definition expired_post (l : list (nat * OsAlarm)) (s : OsState) (m : Machine) (s' : OsState) (m' : Machine) : Prop :=
  os_frame s s' /\ os_tasks s' = woken (os_tasks s) l /\ m' = m <| trace ::= fun t => t ++ mjoin (alarm_calls <$> l) |> /\
  os_critical s' = if existsb (fun x => activates (length (os_tasks s)) x.2) l then mkCS 1 false else os_critical s.

Lemma expired_nil s m : expired_post [] s m s m.
Proof. split_and!; try done. destruct m; cbn. by rewrite app_nil_r. Qed.
Lemma expired_app l l' s m s1 m1 s2 m2 : expired_post l s m s1 m1 -> expired_post l' s1 m1 s2 m2 -> expired_post (l ++ l') s m s2 m2.
Proof.
  intros ((? & ? & ?) & Ht & -> & Hc) ((? & ? & ?) & Ht2 & -> & Hc2). split; [|split; [|split]].
  - split_and!; congruence.
  - unfold woken in *. by rewrite foldl_app, <- Ht.
  - rewrite fmap_app, join_app. destruct m; cbn. by rewrite app_assoc.
  - rewrite existsb_app, Hc2, Hc. replace (length (os_tasks s1)) with (length (os_tasks s)) by (by rewrite Ht, length_woken).
    by match goal with |- context [existsb ?f l] => destruct (existsb f l), (existsb f l') end.
Qed.

Lemma activate_spec id s m : primask m = true -> 0 <= id -> wp (ActivateTask id) (fun r s' m' => m' = m /\ os_frame s s' /\
  os_alarms s' = os_alarms s /\ os_counters s' = os_counters s /\
  if id <? Z.of_nat (length (os_tasks s)) then r = E_OK /\ os_tasks s' = wake id (os_tasks s) /\ os_critical s' = mkCS 1 false
  else r = E_OS_ID /\ s' = s) s m.
Proof.
  intros Hm Hid. unfold ActivateTask. apply wp_bind, wp_get. destruct (id <? _) eqn:E; tests.
  - rewrite (proj2 (Z.leb_gt _ _)) by done. apply wp_bind, wp_enter. rewrite Hm.
    replace (m <| primask := true |>) with m by (destruct m; cbn in *; by subst).
    apply wp_bind, wp_get. cbn [os_tasks set_crit OsState_critical setf].
    destruct (lookup_lt_is_Some_2 (os_tasks s) (Z.to_nat id)) as [t Ht]; [lia|]. rewrite Ht. unfold wake. rewrite Ht.
    destruct (decide (task_state t = SUSPENDED)).
    + apply wp_bind, wp_bind, wp_modify, scheduler_spec, wp_bind. apply (wp_exit true); [done|done|]. apply wp_ret.
      split_and!; try done. destruct m; cbn in *; by subst.
    + apply wp_bind, wp_ret, wp_bind. apply (wp_exit true); [done|done|]. apply wp_ret. split_and!; try done.
      destruct m; cbn in *; by subst.
  - rewrite (proj2 (Z.leb_le _ _)) by done. apply wp_ret. split_and!; done.
Qed.

Definition alarm_ok (a : OsAlarm) : Prop := is_u32 (al_task a) /\ 0 <= cycle_time a.
Lemma insert_middle {A} (x a : A) l : forall pre, <[length pre := x]> (pre ++ a :: l) = pre ++ x :: l.
Proof. induction pre as [|y pre IH]; [done|]. cbn. by f_equal. Qed.
Lemma same_log m : m = m <| trace ::= fun t => t ++ [] |>.
Proof. destruct m; cbn. by rewrite app_nil_r. Qed.
Lemma wake_spec j a s m : primask m = true -> is_u32 (al_task a) ->
  wp (wake_task a) (fun _ s' m' => m' = m /\ os_frame s s' /\ os_alarms s' = os_alarms s /\ os_counters s' = os_counters s /\
    os_tasks s' = woken (os_tasks s) [(j, a)] /\
    os_critical s' = if existsb (fun x => activates (length (os_tasks s)) x.2) [(j, a)] then mkCS 1 false else os_critical s) s m.
Proof.
  intros Hm [Hid _]. unfold wake_task, woken, activates. cbn [existsb foldl snd]. rewrite orb_false_r.
  destruct (al_task a =? INVALID_TASK); cbn [negb andb]; [by apply wp_ret|]. apply wp_bind.
  eapply wp_mono; [by apply (activate_spec (al_task a) s m Hm)|].
  intros r s2 m2 (-> & Hfr & Hal & Hco & Hr). apply wp_ret.
  destruct (_ <? _); [destruct Hr as (_ & Ht & Hc)|destruct Hr as [_ ->]]; split_and!; try done; apply Hfr.
Qed.
Lemma expire_spec pre a a' rest s m : primask m = true -> os_alarms s = pre ++ a' :: rest -> is_u32 (al_task a) ->
  wp (expire_alarm (length pre) a) (fun _ s' m' => os_alarms s' = pre ++ (a <| al_value := if 0 <? cycle_time a then cycle_time a else 0 |>
      <| al_active := 0 <? cycle_time a |>) :: rest /\ os_counters s' = os_counters s /\ primask m' = true /\
    expired_post [(length pre, a)] s m s' m') s m.
Proof.
  intros Hm Ha Hid. unfold expire_alarm. apply wp_bind.
  set (calls := if al_action a then [call "alarm_action" [Z.of_nat (length pre)]] else []).
  apply wp_callback; fold calls. apply wp_bind. eapply wp_mono; [by apply (wake_spec (length pre))|]. intros [] s2 m2 (-> & Hfr & Hal & Hco & Ht & Hc).
  set (events := if al_event a =? 0 then [] else [call "SetEvent" [al_task a; al_event a]]).
  set (m1 := m <| trace ::= fun t => t ++ calls |>). apply wp_bind.
  assert (Hev : forall Q : unit -> OsState -> Machine -> Prop, Q tt s2 (m1 <| trace ::= fun t => t ++ events |>) ->
    wp (if negb (al_event a =? 0) then emit "SetEvent" [al_task a; al_event a] else mret tt) Q s2 m1).
  { intros Q HQ. unfold events in *. destruct (al_event a =? 0); cbn [negb]; [apply wp_ret; by rewrite <- same_log in HQ|by apply wp_emit]. }
  apply Hev, wp_modify. split; [cbn [os_alarms setf]; by rewrite Hal, Ha, insert_middle|].
  split; [done|]. split; [done|]. split; [exact Hfr|]. split; [exact Ht|]. split; [|exact Hc].
  cbn [fmap list_fmap mjoin list_join]. rewrite app_nil_r. unfold alarm_calls. cbn [fst snd]. fold calls events.
  unfold m1. destruct m; cbn. by rewrite app_assoc.
Qed.
Lemma process_alarm_spec i pre a rest s m : primask m = true -> os_alarms s = pre ++ a :: rest -> is_u32 (al_task a) ->
  wp (process_alarm i (length pre)) (fun _ s' m' => os_alarms s' = pre ++ step_linked i a :: rest /\
    os_counters s' = os_counters s /\ primask m' = true /\
    expired_post (if (al_counter a =? i) && fires a then [(length pre, a)] else []) s m s' m') s m.
Proof.
  intros Hm Ha Hid. unfold process_alarm, step_linked, fires, stepped. apply wp_bind, wp_get.
  rewrite Ha, list_lookup_middle by done.
  destruct (al_counter a =? i); cbn [andb]; [|apply wp_ret; split; [done|split; [done|split; [done|exact (expired_nil s m)]]]].
  destruct (al_active a) eqn:Eact; cbn [andb negb]; [|apply wp_ret; split; [done|split; [done|split; [done|exact (expired_nil s m)]]]].
  cbv zeta. apply wp_bind, wp_modify. match goal with |- wp _ _ ?z _ => set (s1 := z) end.
  assert (Ha1 : os_alarms s1 = pre ++ (a <| al_value := u32 (al_value a - 1) |>) :: rest).
  { change (os_alarms s1) with (<[length pre := a <| al_value := u32 (al_value a - 1) |>]> (os_alarms s)). by rewrite Ha, insert_middle. }
  destruct (u32 (al_value a - 1) =? 0) eqn:E0; cbn [andb].
  - eapply wp_mono; [by apply (expire_spec pre a _ rest s1 m Hm Ha1)|]. intros [] s2 m2 H. exact H.
  - apply wp_ret. split; [done|split; [done|split; [done|]]]. split; [done|split; [done|split; [apply (same_log m)|done]]].
Qed.
Lemma alarm_loop_spec i rest : forall pre s m, primask m = true -> os_alarms s = pre ++ rest -> Forall alarm_ok rest ->
  wp (alarm_loop i (length rest) (length pre)) (fun _ s' m' => os_alarms s' = pre ++ (step_linked i <$> rest) /\
    os_counters s' = os_counters s /\ primask m' = true /\ expired_post (due i (length pre) rest) s m s' m') s m.
Proof.
  induction rest as [|a rest IH]; intros pre s m Hm Ha Hok.
  - apply wp_ret. split; [done|split; [done|split; [done|exact (expired_nil s m)]]].
  - apply Forall_cons in Hok as [[Ht _] Hok]. cbn [length alarm_loop]. apply wp_bind.
    eapply wp_mono; [by apply process_alarm_spec|]. intros _ s1 m1 (Ha1 & Hc1 & Hm1 & Hp1).
    replace (S (length pre)) with (length (pre ++ [step_linked i a])) by (rewrite length_app; cbn; lia).
    eapply wp_mono; [apply IH; [done|by rewrite Ha1, <- app_assoc|done]|].
    intros _ s2 m2 (Ha2 & Hc2 & Hm2 & Hp2). split; [by rewrite Ha2, <- app_assoc|split; [congruence|split; [done|]]].
    replace (due i (length pre) (a :: rest)) with
      ((if (al_counter a =? i) && fires a then [(length pre, a)] else []) ++ due i (length (pre ++ [step_linked i a])) rest).
    { by eapply expired_app. }
    rewrite length_app, Nat.add_1_r. cbn [due]. by destruct (_ && _).
Qed.

(** The alarms after the counters from [i] on, [k] of them, and those that expire. *)
Definition step_range (i k : nat) (a : OsAlarm) : OsAlarm :=
  if (Z.of_nat i <=? al_counter a) && (al_counter a <? Z.of_nat (i + k)) then stepped a else a.
Lemma step_linked_counter i a : al_counter (step_linked i a) = al_counter a.
Proof. unfold step_linked, stepped. repeat case_match; done. Qed.
Lemma step_linked_ok i a : alarm_ok a -> alarm_ok (step_linked i a).
Proof. intros H. unfold step_linked, stepped. repeat case_match; exact H. Qed.
Lemma step_range_next i k a : step_range (S i) k (step_linked (Z.of_nat i) a) = step_range i (S k) a.
Proof.
  unfold step_range. rewrite step_linked_counter. unfold step_linked.
  destruct (al_counter a =? Z.of_nat i) eqn:E; tests.
  - rewrite (proj2 (Z.leb_gt _ _)), (proj2 (Z.leb_le (Z.of_nat i) _)), (proj2 (Z.ltb_lt _ (Z.of_nat (i + S k)))) by lia. done.
  - replace (Z.of_nat (S i) <=? al_counter a) with (Z.of_nat i <=? al_counter a) by (apply eq_true_iff_eq; rewrite !Z.leb_le; lia).
    by replace (S i + k)%nat with (i + S k)%nat by lia.
Qed.
Lemma due_step i i' l : i <> i' -> forall j, due i' j (step_linked i <$> l) = due i' j l.
Proof.
  intros Hi. induction l as [|a l IH]; intros j; [done|]. cbn [fmap list_fmap due]. rewrite step_linked_counter.
  unfold fmap in IH. rewrite !IH. destruct (al_counter a =? i') eqn:E; [|done]. cbn [andb]. unfold step_linked. tests.
  by rewrite (proj2 (Z.eqb_neq _ _)) by congruence.
Qed.
Lemma all_due_step i l k : forall i', (i < i')%nat -> all_due k i' (step_linked (Z.of_nat i) <$> l) = all_due k i' l.
Proof. induction k as [|k IH]; intros i' Hi; [done|]. cbn [all_due]. rewrite due_step by lia. by rewrite IH by lia. Qed.

Lemma counter_loop_spec rest : forall pre s m, primask m = true -> os_counters s = pre ++ rest -> Forall alarm_ok (os_alarms s) ->
  wp (counter_loop (length rest) (length pre)) (fun _ s' m' =>
    os_alarms s' = step_range (length pre) (length rest) <$> os_alarms s /\
    os_counters s' = pre ++ (counted <$> rest) /\ primask m' = true /\
    expired_post (all_due (length rest) (length pre) (os_alarms s)) s m s' m') s m.
Proof.
  induction rest as [|c rest IH]; intros pre s m Hm Hc Hok.
  - apply wp_ret. split; [|split; [done|split; [done|exact (expired_nil s m)]]].
    symmetry. rewrite <- (list_fmap_id (os_alarms s)) at 2. apply list_fmap_ext. intros n a _. unfold step_range. cbn [id length].
    case_match; [tests; lia|done].
  - cbn [length counter_loop]. apply wp_bind, wp_get. rewrite Hc, list_lookup_middle by done. cbv zeta. apply wp_bind, wp_modify.
    match goal with |- wp _ _ ?z _ => set (s1 := z) end.
    assert (Hc1 : os_counters s1 = pre ++ counted c :: rest).
    { change (os_counters s1) with (<[length pre := counted c]> (os_counters s)). by rewrite Hc, insert_middle. }
    apply wp_bind, wp_get, wp_bind. change (os_alarms s1) with (os_alarms s).
    eapply wp_mono; [by apply (alarm_loop_spec (Z.of_nat (length pre)) (os_alarms s) [] s1 m Hm)|].
    intros _ s2 m2 (Ha2 & Hc2 & Hm2 & Hp2). cbn [app] in Ha2.
    replace (S (length pre)) with (length (pre ++ [counted c])) by (rewrite length_app; cbn; lia).
    eapply wp_mono; [apply IH; [done|by rewrite Hc2, Hc1, <- app_assoc|]|].
    { rewrite Ha2. apply Forall_fmap. eapply Forall_impl; [exact Hok|]. intros a. apply step_linked_ok. }
    intros _ s3 m3 (Ha3 & Hc3 & Hm3 & Hp3). rewrite length_app, Nat.add_1_r in Ha3, Hp3.
    split; [|split; [by rewrite Hc3, <- app_assoc|split; [done|]]].
    + rewrite Ha3, Ha2, <- list_fmap_compose. apply list_fmap_ext. intros n a _. apply step_range_next.
    + rewrite Ha2, all_due_step in Hp3 by lia. exact (expired_app _ _ _ _ _ _ _ _ Hp2 Hp3).
Qed.

(** ** The tick *)

(** What a tick does: [L] are the alarms that expire, in the order of their counters. *)
Definition tick_post (s : OsState) (m : Machine) (s' : OsState) (m' : Machine) : Prop :=
  let L := all_due (length (os_counters s)) 0 (os_alarms s) in
  os_counters s' = counted <$> os_counters s /\
  os_alarms s' = step_range 0 (length (os_counters s)) <$> os_alarms s /\
  os_tasks s' = woken (os_tasks s) L /\ os_frame s s' /\
  highest_ready s' = current_task s' /\ dispatches (os_tasks s') (current_task s') /\
  m' = m <| trace ::= fun t => t ++ mjoin (alarm_calls <$> L) |>
         <| primask := primask m || existsb (fun x => activates (length (os_tasks s)) x.2) L |>.

Lemma tick_spec s m : Forall alarm_ok (os_alarms s) -> wp os_tick_handler (fun _ => tick_post s m) s m.
Proof.
  intros Hok. unfold os_tick_handler. apply wp_bind, wp_enter.
  match goal with |- wp _ _ ?z _ => set (s1 := z) end. set (m1 := m <| primask := true |>).
  apply wp_bind, wp_get, wp_bind. change (os_counters s1) with (os_counters s).
  eapply wp_mono; [by apply (counter_loop_spec (os_counters s) [] s1 m1)|].
  intros _ s2 m2 (Ha & Hc & Hm2 & Hfr & Ht & Hm & Hcr). cbn [app length] in Ha, Hc, Ht, Hm, Hcr.
  apply wp_bind, scheduler_spec. change (os_alarms s1) with (os_alarms s) in *. change (os_tasks s1) with (os_tasks s) in *.
  assert (Hd : dispatches (os_tasks s2) (current_task (dispatched s2))) by apply select_dispatches.
  unfold tick_post. cbv zeta. set (L := all_due _ _ _) in *.
  destruct (existsb (fun x => activates (length (os_tasks s)) x.2) L).
  - apply wp_exit_unlocked; [change (crit (dispatched s2)) with (os_critical s2); by rewrite Hcr|].
    do 6 (split; [done|]). rewrite Hm, orb_true_r. by destruct m.
  - apply (wp_exit (primask m)); [change (crit (dispatched s2)) with (os_critical s2); by rewrite Hcr|done|].
    do 6 (split; [done|]). rewrite Hm, orb_false_r. by destruct m.
Qed.

(** ** Alarms over many ticks *)

Fixpoint os_ticks (n : nat) : M OsState unit := match n with O => mret tt | S n => os_tick_handler;; os_ticks n end.
(** A cyclic alarm with [v] ticks left and cycle [c], after [n] more ticks. *)
Definition remaining (v c n : Z) : Z := if n <? v then v - n else c - (n - v) mod c.
Definition armed (c : Z) (a : OsAlarm) : Prop :=
  al_active a = true /\ cycle_time a = c /\ 0 < c < 2 ^ 32 /\ 0 < al_value a < 2 ^ 32.

Lemma remaining_range v c n : 0 < c < 2 ^ 32 -> v < 2 ^ 32 -> 0 <= n -> 0 < remaining v c n < 2 ^ 32.
Proof.
  intros Hc Hv Hn. unfold remaining. destruct (n <? v) eqn:E; tests; [lia|].
  pose proof (Z.mod_pos_bound (n - v) c ltac:(lia)). lia.
Qed.
Lemma remaining_next v c n : 0 < c -> 0 <= n -> 
  remaining v c (n + 1) = if remaining v c n =? 1 then c else remaining v c n - 1.
Proof.
  intros Hc Hn. unfold remaining. destruct (n <? v) eqn:E; tests.
  - destruct (n + 1 <? v) eqn:E2; tests.
    + destruct (v - n =? 1) eqn:E3; tests; lia.
    + rewrite (proj2 (Z.eqb_eq _ _)) by lia. assert (v = n + 1) as -> by lia. rewrite Z.sub_diag, Z.mod_0_l; lia.
  - rewrite (proj2 (Z.ltb_ge _ _)) by lia.
    set (x := n - v) in *. replace (n + 1 - v) with (x + 1) by lia.
    pose proof (Z.mod_pos_bound x c Hc) as Hb. pose proof (Z.div_mod x c ltac:(lia)) as Hx.
    destruct (c - x mod c =? 1) eqn:E2; tests.
    + rewrite <- (Z.mod_unique (x + 1) c (x / c + 1) 0); lia.
    + rewrite <- (Z.mod_unique (x + 1) c (x / c) (x mod c + 1)); lia.
Qed.
Lemma stepped_armed c a : armed c a -> armed c (stepped a) /\ al_counter (stepped a) = al_counter a /\
  al_value (stepped a) = (if al_value a =? 1 then c else al_value a - 1) /\ fires a = (al_value a =? 1).
Proof.
  intros (Hact & Hcy & Hc & Hv). unfold stepped, fires. rewrite Hact. cbn [negb andb]. rewrite Hcy.
  assert (Hu : u32 (al_value a - 1) = al_value a - 1) by (apply u32_small; unfold is_u32; lia).
  replace (u32 (al_value a - 1) =? 0) with (al_value a =? 1) by (rewrite Hu; apply eq_true_iff_eq; rewrite !Z.eqb_eq; lia).
  destruct (al_value a =? 1) eqn:E; tests.
  - rewrite (proj2 (Z.ltb_lt 0 c)) by lia. unfold armed. cbn. rewrite Hcy. split_and!; (done || lia).
  - rewrite Hu. unfold armed. cbn. rewrite Hact, Hcy. split_and!; (done || lia).
Qed.
Lemma stepped_ok a : alarm_ok a -> alarm_ok (stepped a) /\ al_counter (stepped a) = al_counter a.
Proof. intros H. unfold stepped. repeat case_match; by split; try exact H. Qed.
Lemma step_range_all a n : 0 <= al_counter a < Z.of_nat n -> step_range 0 n a = stepped a.
Proof. intros H. unfold step_range. by rewrite (proj2 (Z.leb_le _ _)), (proj2 (Z.ltb_lt _ _)) by lia. Qed.
Lemma step_range_ok i n a : alarm_ok a -> alarm_ok (step_range i n a).
Proof. intros H. unfold step_range. case_match; [by apply stepped_ok|done]. Qed.

(** One more tick of the alarm [j] of a running system. *)
Definition alarm_at (j : nat) (c r : Z) (s : OsState) : Prop :=
  Forall alarm_ok (os_alarms s) /\
  exists a, os_alarms s !! j = Some a /\ armed c a /\ al_value a = r /\ 0 <= al_counter a < Z.of_nat (length (os_counters s)).
Lemma due_index i (a : OsAlarm) alarms : forall k j, (j, a) ∈ due i k alarms <->
  exists n, j = (k + n)%nat /\ alarms !! n = Some a /\ al_counter a = i /\ fires a = true.
Proof.
  induction alarms as [|x l IH]; intros k j; cbn [due].
  - split; [intros H; by apply elem_of_nil in H|]. by intros (n & _ & H & _).
  - assert (Hnext : (j, a) ∈ due i (S k) l <-> exists n, j = (k + S n)%nat /\ l !! n = Some a /\ al_counter a = i /\ fires a = true).
    { rewrite IH. split; intros (n & -> & H); exists n; (split; [lia|exact H]). }
    assert (Hsplit : (exists n, j = (k + n)%nat /\ (x :: l) !! n = Some a /\ al_counter a = i /\ fires a = true) <->
      (j, a) = (k, x) /\ (al_counter x =? i) && fires x = true \/ (j, a) ∈ due i (S k) l).
    { rewrite Hnext, andb_true_iff, Z.eqb_eq. split.
      - intros ([|n] & -> & Hn & H1 & H2); [left|right; by exists n]. injection Hn as ->. by rewrite Nat.add_0_r.
      - intros [[[= -> ->] [H1 H2]]|(n & -> & H)]; [exists 0%nat; by rewrite Nat.add_0_r|by exists (S n)]. }
    rewrite Hsplit. clear. destruct (_ && _); [rewrite elem_of_cons|].
    + split; [intros [H|H]; [by left|by right]|intros [[H _]|H]; [by left|by right]].
    + split; [intros H; by right|by intros [[_ H]|H]].
Qed.
Lemma all_due_index (a : OsAlarm) alarms j : forall k i, (j, a) ∈ all_due k i alarms <->
  alarms !! j = Some a /\ fires a = true /\ Z.of_nat i <= al_counter a < Z.of_nat (i + k).
Proof.
  induction k as [|k IH]; intros i; cbn [all_due].
  - split; [intros H; by apply elem_of_nil in H|lia].
  - rewrite elem_of_app, IH, due_index. split.
    + intros [(n & -> & H1 & H2 & H3)|(H1 & H2 & H3)]; (split; [done|split; [done|lia]]).
    + intros (H1 & H2 & H3). destruct (decide (al_counter a = Z.of_nat i)); [left; by exists j|right].
      split; [done|split; [done|lia]].
Qed.
Lemma alarm_tick j c r s m : alarm_at j c r s -> wp os_tick_handler (fun _ s' m' =>
  tick_post s m s' m' /\ alarm_at j c (if r =? 1 then c else r - 1) s') s m.
Proof.
  intros (Hok & a & Ha & Harm & Hr & Hco). eapply wp_mono; [by apply tick_spec|].
  intros [] s1 m1 Hp. split; [exact Hp|]. destruct Hp as (Hc1 & Ha1 & Hrest). split.
  - rewrite Ha1. apply Forall_fmap. eapply Forall_impl; [exact Hok|]. intros x. apply step_range_ok.
  - destruct (stepped_armed c a Harm) as (Harm' & Hsc & Hv & _). exists (stepped a).
    rewrite Ha1, list_lookup_fmap, Ha, Hc1, length_fmap. cbn [fmap option_fmap option_map].
    rewrite step_range_all by done. split; [done|split; [exact Harm'|]]. by rewrite Hv, Hr, Hsc.
Qed.
Lemma os_ticks_alarm j c v n : forall s m k, 0 < c < 2 ^ 32 -> 0 <= k -> alarm_at j c (remaining v c k) s ->
  wp (os_ticks n) (fun _ s' _ => alarm_at j c (remaining v c (k + Z.of_nat n)) s') s m.
Proof.
  induction n as [|n IH]; intros s m k Hc Hk Ha; cbn [os_ticks].
  - apply wp_ret. by rewrite Z.add_0_r.
  - apply wp_bind. eapply wp_mono; [by apply alarm_tick|]. intros _ s1 m1 [_ Ha1].
    rewrite <- remaining_next in Ha1 by lia. replace (k + Z.of_nat (S n)) with (k + 1 + Z.of_nat n) by lia.
    apply IH; [done|lia|done].
Qed.
Lemma remaining_last v c n : 0 < c -> 0 < v -> 0 <= n -> remaining v c n = 1 <-> v <= n + 1 /\ (n + 1 - v) mod c = 0.
Proof.
  intros Hc Hv Hn. unfold remaining. destruct (n <? v) eqn:E; tests.
  - split; [intros H; assert (v = n + 1) as -> by lia; by rewrite Z.sub_diag, Z.mod_0_l by lia; split|].
    intros [Hle _]. lia.
  - pose proof (Z.mod_pos_bound (n - v) c Hc) as Hb. pose proof (Z.div_mod (n - v) c ltac:(lia)) as Hx.
    replace (n + 1 - v) with (n - v + 1) by lia. split.
    + intros H. split; [lia|]. symmetry. apply (Z.mod_unique _ _ ((n - v) / c + 1)); lia.
    + intros [_ H]. destruct (decide ((n - v) mod c + 1 = c)) as [?|Hne]; [lia|].
      rewrite <- (Z.mod_unique (n - v + 1) c ((n - v) / c) ((n - v) mod c + 1)) in H; lia.
Qed.

(** The tick.  Every counter advances by one and returns to 0 past its maximum; every
    active alarm whose counter exists is decremented once, whichever counter comes first,
    and at 0 runs its callback, activates its task and sends its event, in the order of the
    counters, then reloads its cycle or stops; no other alarm changes; at the end the
    running task is the first ready one of the highest priority.  Interrupts are restored
    unless an alarm activated a task: then they stay masked. *)
Theorem tick_exact s m : Forall alarm_ok (os_alarms s) -> wp os_tick_handler (fun _ => tick_post s m) s m.
Proof. apply tick_spec. Qed.

(** A cyclic alarm with [v] ticks to go and cycle [c] expires at the ticks [v], [v + c],
    [v + 2c] and so on and at no other, whatever the other alarms, the tasks and the
    counters do: after any [n] ticks, the next one expires it exactly when [n + 1] is one of
    these. *)
Theorem alarm_is_cyclic j c v n s m : 0 < c < 2 ^ 32 -> alarm_at j c v s ->
  wp (os_ticks n) (fun _ s1 m1 => wp os_tick_handler (fun _ s2 m2 => tick_post s1 m1 s2 m2 /\
    ((exists a, (j, a) ∈ all_due (length (os_counters s1)) 0 (os_alarms s1)) <->
      v <= Z.of_nat n + 1 /\ (Z.of_nat n + 1 - v) mod c = 0)) s1 m1) s m.
Proof.
  intros Hc Ha. assert (Hv : 0 < v) by (destruct Ha as (_ & a & _ & (_ & _ & _ & H) & <- & _); lia).
  assert (Ha0 : alarm_at j c (remaining v c 0) s) by (unfold remaining; by rewrite (proj2 (Z.ltb_lt _ _)), Z.sub_0_r by lia).
  eapply wp_mono; [by apply (os_ticks_alarm j c v n s m 0)|]. intros [] s1 m1 H1.
  eapply wp_mono; [apply tick_spec, H1|]. intros [] s2 m2 Hp. split; [exact Hp|].
  rewrite <- remaining_last by lia. destruct H1 as (_ & a & Hl & Harm & Hr & Hco).
  destruct (stepped_armed c a Harm) as (_ & _ & _ & Hf). rewrite Hr in Hf. split.
  - intros [a' (Hl' & Hf' & _)%all_due_index]. rewrite Hl in Hl'. injection Hl' as <-. rewrite Hf in Hf'. by tests.
  - intros H. exists a. apply all_due_index. rewrite Hf, Z.add_0_l in *. split; [done|split; [by apply Z.eqb_eq|lia]].
Qed.

(** Starting the system: a second start is refused and changes nothing; the first makes
    exactly the autostart tasks ready, stops every alarm, clears the counters and frees the
    resources, with the interrupt mask as before, and runs the first ready task of the
    highest priority - whose priority must not be 0. *)
Theorem start_exact mode s m : wp (StartOS mode) (fun r s' m' => m' = m /\
  if os_started s then r = E_OS_STATE /\ s' = s
  else r = E_OK /\ active_mode s' = mode /\ os_started s' = true /\
    os_tasks s' = (fun t => t <| task_state := if is_autostart t then READY else SUSPENDED |>) <$> os_tasks s /\
    Forall (fun a => al_active a = false) (os_alarms s') /\ Forall (fun c => counter_value c = 0) (os_counters s') /\
    Forall (fun o => o = INVALID_TASK) (os_owners s') /\ dispatches (os_tasks s') (current_task s')) s m.
Proof.
  unfold StartOS. apply wp_bind, wp_get. destruct (os_started s) eqn:Es; [by apply wp_ret|].
  apply wp_bind, wp_enter. do 6 apply wp_bind, wp_modify. apply wp_bind.
  apply (wp_exit (primask m)); [done|done|]. apply wp_bind, scheduler_spec, wp_ret.
  split; [by destruct m|]. do 4 (split; [done|]).
  split; [by apply Forall_fmap, Forall_true|]. split; [by apply Forall_fmap, Forall_true|].
  split; [by apply Forall_fmap, Forall_true|]. apply select_dispatches.
Qed.
End os.

(** ** Witnesses *)

Definition example_os : OsState :=
  mkOs 0 (-1) (-1) true [mkOsTask 5 true RUNNING; mkOsTask 7 false SUSPENDED; mkOsTask 0 true READY] [-1]
    [mkOsAlarm 0 4 true 1 0 2 true; mkOsAlarm 1 0 false (2 ^ 32 - 1) 3 1 true; mkOsAlarm 9 4 true 1 0 1 true]
    [mkOsCounter 100 7; mkOsCounter 3 3] cs_zero.
Lemma example_os_alarms : Forall alarm_ok (os_alarms example_os).
Proof. repeat constructor; vm_compute; congruence. Qed.

Lemma tick_exact_witness :
  wp (os_tick_handler (2 ^ 32 - 1)) (fun _ => tick_post (2 ^ 32 - 1) example_os boot) example_os boot /\
  trace (boot <| trace ::= fun t => t ++ mjoin (alarm_calls <$> all_due 2 0 (os_alarms example_os)) |>) =
    [call "SetEvent" [2 ^ 32 - 1; 3]] /\
  match (os_tick_handler (2 ^ 32 - 1);; os_tick_handler (2 ^ 32 - 1)) example_os boot with
  | Some (_, s, m) => current_task s = 1 /\ primask m = true
  | None => False
  end.
Proof. split; [apply (tick_exact (2 ^ 32 - 1) example_os boot example_os_alarms)|]. vm_compute. done. Defined.

Lemma alarm_is_cyclic_witness : forall n, 
  wp (os_ticks (2 ^ 32 - 1) n) (fun _ s1 m1 => wp (os_tick_handler (2 ^ 32 - 1)) (fun _ s2 m2 => tick_post (2 ^ 32 - 1) s1 m1 s2 m2 /\
    ((exists a, (0%nat, a) ∈ all_due (length (os_counters s1)) 0 (os_alarms s1)) <->
      2 <= Z.of_nat n + 1 /\ (Z.of_nat n + 1 - 2) mod 4 = 0)) s1 m1) example_os boot.
Proof.
  intros n. apply (alarm_is_cyclic (2 ^ 32 - 1) 0 4 2 n example_os boot); [lia|]. split; [apply example_os_alarms|].
  exists (mkOsAlarm 0 4 true 1 0 2 true). split_and!; (done || (cbn; lia)).
Defined.
