(* ===== verification/DiagRecorder.v ===== *)
(** * Recorder of diagnostic traffic

    [src/runtime/diagnostic/diag_recorder.c]: an array of entries that is filled once or
    used as a ring, with searches, filters and statistics over it.  The functions have no
    critical section, so they are functions of the context; [None] is an access outside the
    array.  The allocator returns the array or NULL; [DiagTimer_GetTimestamp], which no file
    defines, gives the time of an entry.  The text export is left out. *)

From S2P Require Import Prelude.

(** The type of an entry and its variant of the union. *)
Inductive RecordData :=
  | RecMessage (service_id sub_function : Z) (data : list Z) (data_length : Z)
  | RecResponse (response_code : Z) (data : list Z) (data_length : Z)
  | RecSession (old_session new_session result : Z)
  | RecSecurity (level result seed_or_key : Z)
  | RecError (error_code : Z) (description : string)
  | RecCustom (type : Z) (data : list Z) (data_length : Z).
Record DiagRecordEntry := mkEntry { rec_timestamp : Z; sequence : Z; rec_data : RecordData }.
Record DiagRecorderConfig := mkRecConfig { max_entries : nat; circular_buffer : bool; auto_start : bool }.
Record RecorderContext := mkRecorder {
  rec_config : DiagRecorderConfig; entries : option (list DiagRecordEntry); rec_count : nat; current_index : nat;
  recording : bool; rec_initialized : bool }.
#[export] Instance eta_RecorderContext : Eta RecorderContext := fun r =>
  mkRecorder (rec_config r) (entries r) (rec_count r) (current_index r) (recording r) (rec_initialized r).

Definition DATA_SIZE : nat := 64.
Definition entry_zero : DiagRecordEntry := mkEntry 0 0 (RecMessage 0 0 (replicate DATA_SIZE 0) 0).
Definition recorder_zero : RecorderContext := mkRecorder (mkRecConfig 0 false false) None 0 0 false false.

Definition DiagRecorder_Start (r : RecorderContext) : RecorderContext :=
  if negb (rec_initialized r) then r else r <| recording := true |>.
Definition DiagRecorder_Stop (r : RecorderContext) : RecorderContext :=
  if negb (rec_initialized r) then r else r <| recording := false |>.
Definition DiagRecorder_Init (config : option DiagRecorderConfig) (alloc : nat -> option (list DiagRecordEntry))
    (r : RecorderContext) : bool * RecorderContext :=
  match config with
  | None => (false, r)
  | Some c =>
      if rec_initialized r then (false, r) else
      let r := recorder_zero <| rec_config := c |> <| entries := alloc (max_entries c) |> in
      match entries r with
      | None => (false, r)
      | Some _ =>
          let r := r <| rec_initialized := true |> in
          (true, if auto_start c then DiagRecorder_Start r else r)
      end
  end.
Definition DiagRecorder_Deinit (r : RecorderContext) : RecorderContext :=
  if negb (rec_initialized r) then r else recorder_zero.
Definition DiagRecorder_Clear (r : RecorderContext) : RecorderContext :=
  if negb (rec_initialized r) then r else
  r <| rec_count := 0%nat |> <| current_index := 0%nat |> <| entries ::= fmap (fun l => replicate (length l) entry_zero) |>.
Definition DiagRecorder_IsRecording (r : RecorderContext) : bool := rec_initialized r && recording r.
Definition DiagRecorder_GetEntryCount (r : RecorderContext) : nat := if rec_initialized r then rec_count r else 0%nat.

Definition store_entry (entry : DiagRecordEntry) (r : RecorderContext) : option RecorderContext :=
  match entries r with
  | Some l =>
      if (current_index r <? length l)%nat then
        Some (r <| entries := Some (<[current_index r := entry]> l) |> <| current_index ::= S |>
                <| rec_count ::= fun c => if (c <? max_entries (rec_config r))%nat then S c else c |>)
      else None
  | None => None
  end.
Definition add_entry (entry : DiagRecordEntry) (r : RecorderContext) : option RecorderContext :=
  if negb (rec_initialized r) || negb (recording r) then Some r else
  if (max_entries (rec_config r) <=? current_index r)%nat then
    if circular_buffer (rec_config r) then store_entry entry (r <| current_index := 0%nat |>) else Some r
  else store_entry entry r.
Definition DiagRecorder_GetEntry (index : nat) (r : RecorderContext) : option DiagRecordEntry :=
  if negb (rec_initialized r) || (rec_count r <=? index)%nat then None else entries r ≫= (.!! index).
Definition custom_entry (now seq type : Z) (data : list Z) : DiagRecordEntry :=
  mkEntry now seq (RecCustom type (data ++ replicate (DATA_SIZE - length data) 0) (Z.of_nat (length data))).
Definition DiagRecorder_AddCustomRecord (now type : Z) (data : option (list Z)) (r : RecorderContext) :
    option (bool * RecorderContext) :=
  match data with
  | None => Some (false, r)
  | Some data =>
      if negb (rec_initialized r) || negb (recording r) || (DATA_SIZE <? length data)%nat then Some (false, r) else
      r ← add_entry (custom_entry now (Z.of_nat (rec_count r)) type data) r; Some (true, r)
  end.

(** [memcmp] of the first bytes of [data] with [pattern], [None] beyond its end. *)
Definition memcmp_eq (data pattern : list Z) : option bool :=
  if (length data <? length pattern)%nat then None else Some (bool_decide (take (length pattern) data = pattern)).
Definition entry_matches (pattern : list Z) (e : DiagRecordEntry) : option bool :=
  match rec_data e with
  | RecMessage _ _ data n => if Z.of_nat (length pattern) <=? n then memcmp_eq data pattern else Some false
  | _ => Some false
  end.
Fixpoint find_loop (pattern : list Z) (i : nat) (l : list DiagRecordEntry) : option Z :=
  match l with
  | [] => Some UINT32_MAX
  | e :: l => b ← entry_matches pattern e; if b : bool then Some (Z.of_nat i) else find_loop pattern (S i) l
  end.
Definition DiagRecorder_FindSequence (pattern : option (list Z)) (start_index : nat) (r : RecorderContext) : option Z :=
  match pattern with
  | None => Some UINT32_MAX
  | Some p =>
      if negb (rec_initialized r) || (length p =? 0)%nat || (rec_count r <=? start_index)%nat then Some UINT32_MAX else
      l ← entries r; find_loop p start_index (drop start_index (take (rec_count r) l))
  end.
Fixpoint filter_loop (f : DiagRecordEntry -> bool) (room : nat) (l : list DiagRecordEntry) : list DiagRecordEntry :=
  match l, room with
  | [], _ | _, O => []
  | e :: l, S room' => if f e then e :: filter_loop f room' l else filter_loop f room l
  end.
(** The entries copied to the output; their number is the result. *)
Definition DiagRecorder_FilterEntries (f : option (DiagRecordEntry -> bool)) (max_output : nat) (r : RecorderContext) :
    option (list DiagRecordEntry) :=
  match f with
  | None => Some []
  | Some f =>
      if negb (rec_initialized r) || (max_output =? 0)%nat then Some [] else
      l ← entries r; Some (filter_loop f max_output (take (rec_count r) l))
  end.

Record DiagRecorderStats := mkRecStats {
  total_entries : Z; message_count : Z; response_count : Z; session_changes : Z; security_events : Z; error_count : Z;
  custom_records : Z; total_data_bytes : Z; average_response_time : Z; max_response_time : Z }.
#[export] Instance eta_DiagRecorderStats : Eta DiagRecorderStats := fun s =>
  mkRecStats (total_entries s) (message_count s) (response_count s) (session_changes s) (security_events s) (error_count s)
    (custom_records s) (total_data_bytes s) (average_response_time s) (max_response_time s).
(** One entry; [last] is [last_response_time]. *)
Definition stats_step (e : DiagRecordEntry) (x : DiagRecorderStats * Z) : DiagRecorderStats * Z :=
  let '(s, last) := x in
  match rec_data e with
  | RecMessage _ _ _ n =>
      (s <| message_count ::= fun c => u32 (c + 1) |> <| total_data_bytes ::= fun t => u32 (t + n) |>, rec_timestamp e)
  | RecResponse _ _ n =>
      let s := s <| response_count ::= fun c => u32 (c + 1) |> <| total_data_bytes ::= fun t => u32 (t + n) |> in
      if 0 <? last then
        let t := u32 (rec_timestamp e - last) in
        let s := s <| average_response_time ::= fun a => u32 (a + t) |> in
        (if max_response_time s <? t then s <| max_response_time := t |> else s, last)
      else (s, last)
  | RecSession _ _ _ => (s <| session_changes ::= fun c => u32 (c + 1) |>, last)
  | RecSecurity _ _ _ => (s <| security_events ::= fun c => u32 (c + 1) |>, last)
  | RecError _ _ => (s <| error_count ::= fun c => u32 (c + 1) |>, last)
  | RecCustom _ _ n =>
      (s <| custom_records ::= fun c => u32 (c + 1) |> <| total_data_bytes ::= fun t => u32 (t + n) |>, last)
  end.
Definition DiagRecorder_GetStats (r : RecorderContext) : option DiagRecorderStats :=
  if negb (rec_initialized r) then None else
  l ← entries r;
  let s := mkRecStats (Z.of_nat (rec_count r)) 0 0 0 0 0 0 0 0 0 in
  let '(s, _) := foldl (fun x e => stats_step e x) (s, 0) (take (rec_count r) l) in
  Some (if 0 <? response_count s then s <| average_response_time ::= fun a => a / response_count s |> else s).

(** ** Specification: the requests since the recorder was cleared *)

(** A request: its time, type and bytes. *)
Definition Req := (Z * Z * list Z)%type.
Inductive RecorderCall := CallStart | CallStop | CallClear | CallAdd (q : Req).
Definition recorder_exec (c : RecorderCall) (r : RecorderContext) : option RecorderContext :=
  match c with
  | CallStart => Some (DiagRecorder_Start r)
  | CallStop => Some (DiagRecorder_Stop r)
  | CallClear => Some (DiagRecorder_Clear r)
  | CallAdd (now, type, data) => snd <$> DiagRecorder_AddCustomRecord now type (Some data) r
  end.
Fixpoint recorder_run (cs : list RecorderCall) (r : RecorderContext) : option RecorderContext :=
  match cs with [] => Some r | c :: cs => r ← recorder_exec c r; recorder_run cs r end.
(** Whether the recorder records, and the requests of at most 64 bytes it was given while
    it did. *)
Definition offer (x : bool * list Req) (c : RecorderCall) : bool * list Req :=
  match c with
  | CallStart => (true, x.2)
  | CallStop => (false, x.2)
  | CallClear => (x.1, [])
  | CallAdd q => (x.1, if x.1 && (length q.2 <=? DATA_SIZE)%nat then x.2 ++ [q] else x.2)
  end.
Definition offered (on : bool) (cs : list RecorderCall) : bool * list Req := foldl offer (on, []) cs.
(** Request [k] as an entry: its number stops at the size of the array. *)
Definition entry_of (max k : nat) (q : Req) : DiagRecordEntry :=
  let '(now, type, data) := q in custom_entry now (Z.of_nat (k `min` max)) type data.
(** The request slot [i] holds after [n] of them: the last one with this number modulo the
    size, or the first. *)
Definition request_of (max : nat) (circular : bool) (n i : nat) : nat :=
  if circular then (i + max * ((n - 1 - i) / max))%nat else i.
Definition slot (max : nat) (circular : bool) (qs : list Req) (i : nat) : option DiagRecordEntry :=
  if (i <? length qs `min` max)%nat then
    let k := request_of max circular (length qs) i in entry_of max k <$> qs !! k
  else None.

(** ** The array is the specification *)

Record holds (cfg : DiagRecorderConfig) (on : bool) (qs : list Req) (r : RecorderContext) : Prop := {
  ho_config : rec_config r = cfg; ho_init : rec_initialized r = true; ho_on : recording r = on;
  ho_count : rec_count r = (length qs `min` max_entries cfg)%nat;
  ho_index : current_index r = if circular_buffer cfg then if decide (qs = []) then 0%nat else S ((length qs - 1) mod max_entries cfg)
    else (length qs `min` max_entries cfg)%nat;
  ho_entries : exists l, entries r = Some l /\ length l = max_entries cfg /\
    forall i, (i < rec_count r)%nat -> l !! i = slot (max_entries cfg) (circular_buffer cfg) qs i }.

Lemma request_last max n : (0 < max)%nat -> request_of max true (S n) (n mod max) = n.
Proof.
  intros Hm. unfold request_of. pose proof (Nat.div_mod_eq n max) as Hn. pose proof (Nat.mod_upper_bound n max ltac:(lia)).
  replace (S n - 1 - n mod max)%nat with (n / max * max)%nat by nia. rewrite Nat.div_mul by lia. nia.
Qed.
(** One more request changes only its own slot. *)
Lemma request_other max n i : (0 < max)%nat -> (i < S n `min` max)%nat -> i <> (n mod max)%nat ->
  (i < n)%nat /\ request_of max true (S n) i = request_of max true n i.
Proof.
  intros Hm Hi Hne. pose proof (Nat.div_mod_eq n max) as Hn. pose proof (Nat.mod_upper_bound n max ltac:(lia)).
  assert (i < n)%nat.
  { assert (i <> n); [|lia]. intros ->. apply Hne. by rewrite Nat.mod_small by lia. }
  split; [done|]. unfold request_of. do 2 f_equal. replace (S n - 1 - i)%nat with (n - i)%nat by lia.
  set (q := ((n - 1 - i) / max)%nat). pose proof (Nat.div_mod_eq (n - 1 - i) max) as Hq. fold q in Hq.
  pose proof (Nat.mod_upper_bound (n - 1 - i) max ltac:(lia)) as Hr. set (r := ((n - 1 - i) mod max)%nat) in *.
  clearbody q r. destruct (decide (S r = max)) as [E|Hr'].
  - exfalso. apply Hne. replace n with (i + S q * max)%nat at 1 by nia. by rewrite Nat.Div0.mod_add, Nat.mod_small by lia.
  - symmetry. apply (Nat.div_unique _ _ _ (S r)); lia.
Qed.

Lemma mod_succ a b : (0 < b)%nat -> (S a mod b)%nat = if (b <=? S (a mod b))%nat then 0%nat else S (a mod b).
Proof.
  intros Hb. pose proof (Nat.div_mod_eq a b) as Ha. pose proof (Nat.mod_upper_bound a b ltac:(lia)).
  destruct (b <=? S (a mod b))%nat eqn:E; tests.
  - symmetry. apply (Nat.mod_unique _ _ (S (a / b))); nia.
  - symmetry. apply (Nat.mod_unique _ _ (a / b)); lia.
Qed.
Lemma slot_lookup max c qs q i : slot max c qs i = Some q -> (i < length qs `min` max)%nat.
Proof. unfold slot. case_match; [tests; lia|done]. Qed.

(** The slot request [length qs] goes to. *)
Definition target (cfg : DiagRecorderConfig) (qs : list Req) : nat :=
  if circular_buffer cfg then (length qs mod max_entries cfg)%nat else length qs.
Lemma slot_app cfg qs q i : (0 < max_entries cfg)%nat -> (circular_buffer cfg = true \/ (length qs < max_entries cfg)%nat) ->
  (i < S (length qs) `min` max_entries cfg)%nat ->
  slot (max_entries cfg) (circular_buffer cfg) (qs ++ [q]) i =
    if decide (i = target cfg qs) then Some (entry_of (max_entries cfg) (length qs) q)
    else slot (max_entries cfg) (circular_buffer cfg) qs i.
Proof.
  intros Hm Hroom Hi. unfold slot, target. rewrite length_app, Nat.add_1_r. cbn [length].
  rewrite (proj2 (Nat.ltb_lt i (S (length qs) `min` max_entries cfg))) by done. cbv zeta. destruct (circular_buffer cfg).
  - destruct (decide _) as [->|Hne].
    + rewrite request_last by done. by rewrite lookup_app_r, Nat.sub_diag by lia.
    + destruct (request_other _ _ _ Hm Hi Hne) as [Hlt ->]. rewrite (proj2 (Nat.ltb_lt _ _)) by lia.
      rewrite lookup_app_l; [done|]. unfold request_of.
      pose proof (Nat.div_mod_eq (length qs - 1 - i) (max_entries cfg)). nia.
  - destruct Hroom as [|Hroom]; [done|]. unfold request_of. destruct (decide _) as [->|Hne].
    + by rewrite lookup_app_r, Nat.sub_diag by lia.
    + rewrite (proj2 (Nat.ltb_lt _ _)) by lia. by rewrite lookup_app_l by lia.
Qed.
Lemma holds_store cfg qs q r : holds cfg true qs r -> (0 < max_entries cfg)%nat ->
  (circular_buffer cfg = true \/ (length qs < max_entries cfg)%nat) ->
  exists r', store_entry (entry_of (max_entries cfg) (length qs) q) (r <| current_index := target cfg qs |>) = Some r' /\
    holds cfg true (qs ++ [q]) r'.
Proof.
  intros [Hc Hi Ho Hn Hx (l & Hl & Hlen & Hs)] Hm Hroom. unfold store_entry. cbn. rewrite Hl, Hlen.
  assert (Ht : (target cfg qs < max_entries cfg)%nat).
  { unfold target. destruct (circular_buffer cfg); [apply Nat.mod_upper_bound; lia|]. by destruct Hroom. }
  rewrite (proj2 (Nat.ltb_lt _ _)) by done. eexists. split; [done|]. constructor; cbn; try done.
  - rewrite Hc, Hn, length_app. cbn. destruct (_ <? _)%nat eqn:E; tests; lia.
  - unfold target. rewrite length_app. cbn. rewrite decide_False by (by destruct qs).
    destruct (circular_buffer cfg); [by rewrite Nat.add_sub|]. destruct Hroom; [done|lia].
  - eexists. split; [done|]. split; [by rewrite length_insert|]. rewrite Hc, Hn. intros i Hlt.
    rewrite slot_app; [|done|done|destruct (_ <? _)%nat eqn:E; tests; lia]. destruct (decide (i = target cfg qs)) as [->|Hne].
    + rewrite list_lookup_insert_eq by lia. done.
    + rewrite list_lookup_insert_ne by done. apply Hs. rewrite Hn.
      destruct (_ <? _)%nat eqn:E; tests; [|done]. unfold target in Hne. destruct (circular_buffer cfg).
      * rewrite Nat.mod_small in Hne by lia. lia.
      * lia.
Qed.
Lemma holds_add cfg on qs now type data r : holds cfg on qs r -> (0 < max_entries cfg)%nat ->
  let ok := on && (length data <=? DATA_SIZE)%nat in
  exists r', DiagRecorder_AddCustomRecord now type (Some data) r = Some (ok, r') /\
    holds cfg on (if ok then qs ++ [(now, type, data)] else qs) r'.
Proof.
  intros H Hm ok. pose proof H as [Hc Hi Ho Hn Hx He]. unfold DiagRecorder_AddCustomRecord. rewrite Hi, Ho. cbn [negb orb].
  subst ok. destruct on; cbn [negb orb andb]; [|by exists r]. rewrite Nat.ltb_antisym.
  destruct (length data <=? DATA_SIZE)%nat; cbn [negb]; [|by exists r].
  change (custom_entry now (Z.of_nat (rec_count r)) type data) with
    ((fun n => custom_entry now (Z.of_nat n) type data) (rec_count r)). rewrite Hn. cbv beta.
  fold (entry_of (max_entries cfg) (length qs) (now, type, data)). unfold add_entry. rewrite Hi, Ho, Hc. cbn [negb orb].
  assert (Hsame : current_index r = target cfg qs -> r = r <| current_index := target cfg qs |>) by (intros <-; by destruct r).
  destruct (max_entries cfg <=? current_index r)%nat eqn:E; tests.
  - destruct (circular_buffer cfg) eqn:Ec.
    + destruct (holds_store cfg qs (now, type, data) r H Hm ltac:(by left)) as (r' & Hr & Hh).
      replace (target cfg qs) with 0%nat in Hr; [by rewrite Hr; exists r'|].
      unfold target. rewrite Ec. destruct (decide (qs = [])) as [->|Hne]; [by rewrite Nat.Div0.mod_0_l|].
      destruct (length qs) as [|n] eqn:El; [by destruct qs|]. rewrite mod_succ by lia. rewrite Nat.sub_1_r in Hx. cbn in Hx.
      by rewrite (proj2 (Nat.leb_le _ _)) by lia.
    + exists r. split; [done|]. rewrite Hx in E. constructor; try done.
      * rewrite Hn, length_app. lia.
      * rewrite Ec, Hx, length_app. lia.
      * destruct He as (l & Hl & Hlen & Hs). exists l. split_and!; [done..|]. intros i Hlt. rewrite Hs by done.
        unfold slot, request_of. rewrite Ec, length_app. cbn. rewrite Hn in Hlt.
        rewrite !(proj2 (Nat.ltb_lt _ _)) by lia. by rewrite lookup_app_l by lia.
  - assert (Ht : current_index r = target cfg qs).
    { unfold target. rewrite Hx. destruct (circular_buffer cfg) eqn:Ec.
      - destruct (decide (qs = [])) as [->|Hne]; [by rewrite Nat.Div0.mod_0_l|].
        destruct (length qs) as [|n] eqn:El; [by destruct qs|]. rewrite mod_succ by lia. rewrite Nat.sub_1_r in *. cbn in *.
        by rewrite (proj2 (Nat.leb_gt _ _)) by lia.
      - lia. }
    assert (Hroom : circular_buffer cfg = true \/ (length qs < max_entries cfg)%nat).
    { destruct (circular_buffer cfg) eqn:Ec; [by left|right]. unfold target in Ht. rewrite Ec in Ht. lia. }
    destruct (holds_store cfg qs (now, type, data) r H Hm Hroom) as (r' & Hr & Hh).
    rewrite <- (Hsame Ht) in Hr. rewrite Hr. by exists r'.
Qed.

Lemma holds_exec cfg on qs c r : holds cfg on qs r -> (0 < max_entries cfg)%nat ->
  exists r', recorder_exec c r = Some r' /\ holds cfg (offer (on, qs) c).1 (offer (on, qs) c).2 r'.
Proof.
  intros H Hm. destruct c as [| | |[[now type] data]]; cbn [recorder_exec offer fst snd].
  - eexists. split; [done|]. unfold DiagRecorder_Start. destruct H as [Hc Hi Ho Hn Hx He]. rewrite Hi. by constructor.
  - eexists. split; [done|]. unfold DiagRecorder_Stop. destruct H as [Hc Hi Ho Hn Hx He]. rewrite Hi. by constructor.
  - eexists. split; [done|]. unfold DiagRecorder_Clear. destruct H as [Hc Hi Ho Hn Hx (l & Hl & Hlen & Hs)]. rewrite Hi.
    constructor; cbn; try done; [by destruct (circular_buffer cfg)|].
    exists (replicate (length l) entry_zero). rewrite Hl, length_replicate. split_and!; [done..|lia].
  - destruct (holds_add cfg on qs now type data r H Hm) as (r' & -> & Hh). by exists r'.
Qed.
Lemma holds_run cfg cs : (0 < max_entries cfg)%nat -> forall on qs r, holds cfg on qs r ->
  exists r', recorder_run cs r = Some r' /\ holds cfg (foldl offer (on, qs) cs).1 (foldl offer (on, qs) cs).2 r'.
Proof.
  intros Hm. induction cs as [|c cs IH]; intros on qs r H; cbn [recorder_run foldl]; [by exists r|].
  destruct (holds_exec cfg on qs c r H Hm) as (r1 & -> & H1). cbn [mbind option_bind].
  destruct (offer (on, qs) c) as [on1 qs1]. by apply IH.
Qed.
Lemma holds_init cfg alloc l r : rec_initialized r = false -> alloc (max_entries cfg) = Some l -> length l = max_entries cfg ->
  holds cfg (auto_start cfg) [] (DiagRecorder_Init (Some cfg) alloc r).2.
Proof.
  intros Hr Ha Hl. unfold DiagRecorder_Init. rewrite Hr. cbn. rewrite Ha. cbn. unfold DiagRecorder_Start. cbn.
  assert (Hx : (if circular_buffer cfg then if decide ([] =@{list Req} []) then 0%nat else S ((0 - 1) mod max_entries cfg)
    else (0 `min` max_entries cfg)%nat) = 0%nat) by (by destruct (circular_buffer cfg)).
  destruct (auto_start cfg) eqn:E; constructor; cbn; try done; exists l; split_and!; (done || lia).
Qed.
Lemma holds_get cfg on qs r i : holds cfg on qs r ->
  DiagRecorder_GetEntry i r = slot (max_entries cfg) (circular_buffer cfg) qs i.
Proof.
  intros [Hc Hi Ho Hn Hx (l & Hl & Hlen & Hs)]. unfold DiagRecorder_GetEntry. rewrite Hi, Hl. cbn [negb orb mbind option_bind].
  destruct (rec_count r <=? i)%nat eqn:E; tests; [|by apply Hs]. unfold slot. rewrite (proj2 (Nat.ltb_ge _ _)) by lia. done.
Qed.

(** The requests in the order of the slots, and what a run of the recorder stores. *)
Definition stored (max : nat) (circular : bool) (qs : list Req) : list Req :=
  omap (fun i => qs !! request_of max circular (length qs) i) (seq 0 (length qs `min` max)).
Lemma request_of_lt max circular n i : (i < n `min` max)%nat -> (request_of max circular n i < n)%nat.
Proof. intros Hi. unfold request_of. destruct circular; [|lia]. pose proof (Nat.div_mod_eq (n - 1 - i) max). nia. Qed.
Lemma holds_entries cfg on qs r : holds cfg on qs r -> exists l, entries r = Some l /\
  Forall2 (fun e q => exists k, e = entry_of (max_entries cfg) k q) (take (rec_count r) l)
    (stored (max_entries cfg) (circular_buffer cfg) qs) /\ length (take (rec_count r) l) = rec_count r.
Proof.
  intros [Hc Hi Ho Hn Hx (l & Hl & Hlen & Hs)]. exists l. split; [done|].
  assert (Hle : (rec_count r <= length l)%nat) by lia. split; [|by rewrite length_take; lia].
  unfold stored. rewrite <- Hn. clear Hx Hl Hlen.
  assert (Hgen : forall n, (n <= rec_count r)%nat -> Forall2 (fun e q => exists k, e = entry_of (max_entries cfg) k q) (take n l)
    (omap (fun i => qs !! request_of (max_entries cfg) (circular_buffer cfg) (length qs) i) (seq 0 n))).
  { induction n as [|n IH]; intros Hlt; [constructor|]. rewrite seq_S, omap_app. cbn [omap list_omap plus].
    destruct (lookup_lt_is_Some_2 l n) as [e He]; [lia|]. rewrite (take_S_r l n e) by done.
    apply Forall2_app; [apply IH; lia|]. rewrite Hs in He by lia. unfold slot in He.
    rewrite (proj2 (Nat.ltb_lt _ _)) in He by lia. cbv zeta in He.
    destruct (qs !! _) as [q|]; [|done]. injection He as <-. repeat constructor. by eexists. }
  by apply Hgen.
Qed.

Lemma filter_loop_spec f l : forall n, filter_loop f n l = take n (filter (fun e => f e = true) l).
Proof.
  induction l as [|e l IH]; intros n; cbn [filter_loop]; [by destruct n|]. destruct n as [|n]; [done|].
  destruct (f e) eqn:E; [rewrite filter_cons_True by done|rewrite filter_cons_False by (by rewrite E)]; rewrite IH; done.
Qed.
Lemma find_loop_custom p l : Forall (fun e => exists t d n, rec_data e = RecCustom t d n) l -> forall i, find_loop p i l = Some UINT32_MAX.
Proof. induction 1 as [|e l (t & d & n & He) _ IH]; intros i; [done|]. cbn [find_loop]. unfold entry_matches. rewrite He. apply IH. Qed.

Definition custom_stats (n bytes : Z) : DiagRecorderStats := mkRecStats n 0 0 0 0 0 n bytes 0 0.
Definition bytes_of (qs : list Req) : Z := foldr (fun q t => Z.of_nat (length q.2) + t) 0 qs.
Lemma stats_custom max l qs : Forall2 (fun e q => exists k, e = entry_of max k q) l qs -> forall total n b,
  Z.of_nat n + Z.of_nat (length l) < 2 ^ 32 ->
  foldl (fun x e => stats_step e x) (mkRecStats total 0 0 0 0 0 (Z.of_nat n) (u32 b) 0 0, 0) l =
    (mkRecStats total 0 0 0 0 0 (Z.of_nat (n + length l)) (u32 (b + bytes_of qs)) 0 0, 0).
Proof.
  induction 1 as [|e [[now type] data] l qs (k & ->) _ IH]; intros total n b Hn; cbn [foldl length bytes_of foldr].
  - by rewrite Nat.add_0_r, Z.add_0_r.
  - cbn [length] in Hn. cbn [stats_step entry_of custom_entry rec_data setf custom_records total_data_bytes].
    replace (u32 (Z.of_nat n + 1)) with (Z.of_nat (S n)) by (rewrite u32_small; [lia|unfold is_u32; lia]).
    replace (u32 (u32 b + Z.of_nat (length data))) with (u32 (b + Z.of_nat (length data))) by (unfold u32; by rewrite Zplus_mod_idemp_l).
    etransitivity; [apply (IH total (S n) (b + Z.of_nat (length data))); lia|].
    do 2 f_equal; [lia|]. cbn [snd]. f_equal. unfold bytes_of. lia.
Qed.

(** ** Properties *)

(** The array is the specification: however the recorder is started, stopped, cleared
    and written to, no access leaves the array, the count is the number of requests up to
    the size, and slot [i] is the last request whose number is [i] modulo the size (a ring)
    or request [i] (an array that stays full).  The number stored in an entry stops at the
    size: in a ring that has wrapped all new entries carry the same one. *)
Theorem recorder_refines cfg alloc l cs r0 :
  rec_initialized r0 = false -> (0 < max_entries cfg)%nat -> alloc (max_entries cfg) = Some l -> length l = max_entries cfg ->
  exists r, recorder_run cs (DiagRecorder_Init (Some cfg) alloc r0).2 = Some r /\
    let '(on, qs) := offered (auto_start cfg) cs in
    DiagRecorder_IsRecording r = on /\ DiagRecorder_GetEntryCount r = (length qs `min` max_entries cfg)%nat /\
    forall i, DiagRecorder_GetEntry i r = slot (max_entries cfg) (circular_buffer cfg) qs i.
Proof.
  intros Hr Hm Ha Hl. destruct (holds_run cfg cs Hm _ _ _ (holds_init cfg alloc l r0 Hr Ha Hl)) as (r & Hrun & Hh).
  exists r. split; [done|]. unfold offered. destruct (foldl offer _ cs) as [on qs]. cbn [fst snd] in Hh.
  pose proof Hh as [Hc Hi Ho Hn Hx He]. unfold DiagRecorder_IsRecording, DiagRecorder_GetEntryCount. rewrite Hi, Ho.
  split_and!; [done|done|]. intros i. by eapply holds_get.
Qed.

(** A request is accepted exactly while the recorder records and if it has at most 64
    bytes - also when the array is full and the request is dropped; and an array of size 0
    that is used as a ring is written beyond its end. *)
Theorem recorder_accepts now type data cfg on qs r :
  holds cfg on qs r ->
  (0 < max_entries cfg)%nat /\
    (exists r', DiagRecorder_AddCustomRecord now type (Some data) r = Some (on && (length data <=? DATA_SIZE)%nat, r') /\
       DiagRecorder_GetEntryCount r' = ((length qs + if on && (length data <=? DATA_SIZE)%nat then 1 else 0) `min` max_entries cfg)%nat) \/
  max_entries cfg = 0%nat /\
    (circular_buffer cfg && on && (length data <=? DATA_SIZE)%nat = true <->
     DiagRecorder_AddCustomRecord now type (Some data) r = None).
Proof.
  intros H. destruct (decide (max_entries cfg = 0%nat)) as [Hz|Hz]; [right|left]; (split; [lia|]).
  - pose proof H as [Hc Hi Ho Hn Hx (l & Hl & Hlen & _)]. unfold DiagRecorder_AddCustomRecord, add_entry. rewrite Hi, Ho, Hc, Hz. cbn [negb orb].
    rewrite Nat.ltb_antisym. destruct on, (length data <=? DATA_SIZE)%nat; cbn [negb orb andb]; rewrite ?andb_false_r, ?andb_true_r; try (by split).
    destruct (circular_buffer cfg); cbn [mbind option_bind]; [|by split]. unfold store_entry. cbn. rewrite Hl. destruct l; [by split|cbn in Hlen; lia].
  - destruct (holds_add cfg on qs now type data r H ltac:(lia)) as (r' & -> & Hh). eexists. split; [done|].
    pose proof Hh as [Hc Hi Ho Hn Hx He]. unfold DiagRecorder_GetEntryCount. rewrite Hi, Hn.
    destruct (_ && _); rewrite ?length_app; cbn; lia.
Qed.

(** The searches over an array that the recorder's own interface has filled: nothing
    adds messages, so no sequence is ever found, and the statistics count the custom
    entries and their bytes and nothing else. *)
Theorem recorder_analyses cfg on qs r : holds cfg on qs r -> Z.of_nat (max_entries cfg) < 2 ^ 32 ->
  (forall pattern start, DiagRecorder_FindSequence pattern start r = Some UINT32_MAX) /\
  (forall f n, exists l, DiagRecorder_FilterEntries (Some f) n r = Some l /\
     forall e, e ∈ l -> f e = true /\ exists i, DiagRecorder_GetEntry i r = Some e) /\
  DiagRecorder_GetStats r = Some (custom_stats (Z.of_nat (rec_count r))
    (u32 (bytes_of (stored (max_entries cfg) (circular_buffer cfg) qs)))).
Proof.
  intros H Hm. pose proof H as [Hc Hi Ho Hn Hx _]. destruct (holds_entries cfg on qs r H) as (l & Hl & H2 & Hlen). split_and!.
  - intros p start. unfold DiagRecorder_FindSequence. rewrite Hi, Hl. destruct p as [p|]; [|done].
    match goal with |- (if ?b then _ else _) = _ => destruct b; [done|] end.
    cbn [mbind option_bind]. apply find_loop_custom, Forall_drop. apply Forall2_length in H2 as Hl2.
    apply Forall_lookup. intros i e He. eapply Forall2_lookup_l in H2 as ([[now type] data] & _ & k & ->); [|done]. by do 3 eexists.
  - intros f n. unfold DiagRecorder_FilterEntries. rewrite Hi, Hl. cbn [negb orb]. destruct (n =? 0)%nat; [exists []; split; [done|intros e He; by apply elem_of_nil in He]|].
    eexists. split; [done|]. intros e He. rewrite filter_loop_spec in He. apply elem_of_take in He as (i & He & _).
    apply list_elem_of_lookup_2, list_elem_of_filter in He as [Hf He]. split; [done|].
    apply list_elem_of_lookup in He as [j Hj]. exists j. unfold DiagRecorder_GetEntry. rewrite Hi, Hl.
    apply lookup_take_Some in Hj as [Hj Hlt]. rewrite (proj2 (Nat.leb_gt _ _)) by done. done.
  - unfold DiagRecorder_GetStats. rewrite Hi, Hl. cbn [negb mbind option_bind].
    pose proof (stats_custom _ _ _ H2 (Z.of_nat (rec_count r)) 0 0) as Hs. rewrite Hlen in Hs. cbn [plus] in Hs.
    change (u32 0) with 0 in Hs. change (Z.of_nat 0) with 0 in Hs. rewrite Hs by lia. done.
Qed.

(** What the search does in an array that holds messages: it returns the first entry at
    or after the start that is a message of at least the length of the pattern and begins
    with it, or [UINT32_MAX]; it is defined if no message claims more bytes than it has. *)
Theorem find_sequence_first p start r l : rec_initialized r = true -> entries r = Some l -> p <> [] ->
  Forall (fun e => match rec_data e with RecMessage _ _ d n => n <= Z.of_nat (length d) | _ => True end) l ->
  DiagRecorder_FindSequence (Some p) start r = Some
    match list_find (fun e => entry_matches p e = Some true) (drop start (take (rec_count r) l)) with
    | Some (i, _) => Z.of_nat (start + i)
    | None => UINT32_MAX
    end.
Proof.
  intros Hi Hl Hp Hf. unfold DiagRecorder_FindSequence. rewrite Hi, Hl. cbn [negb orb mbind option_bind].
  destruct (length p =? 0)%nat eqn:E; tests; [by destruct p|]. cbn [orb].
  destruct (rec_count r <=? start)%nat eqn:E2; tests.
  - rewrite (drop_ge (take (rec_count r) l)); [done|]. rewrite length_take. lia.
  - clear E2. assert (Hf' : Forall (fun e => match rec_data e with RecMessage _ _ d n => n <= Z.of_nat (length d) | _ => True end)
      (drop start (take (rec_count r) l))) by (by apply Forall_drop, Forall_take). revert Hf'.
    generalize (drop start (take (rec_count r) l)) as l'. clear. intros l' Hf. revert start.
    induction Hf as [|e l' He _ IH]; intros start; [done|]. cbn [find_loop list_find].
    assert (exists b, entry_matches p e = Some b) as [b Hb].
    { unfold entry_matches, memcmp_eq. destruct (rec_data e) as [sid sub d n| | | | |]; try by eexists.
      destruct (Z.of_nat (length p) <=? n) eqn:E1; [|by eexists]. tests.
      rewrite (proj2 (Nat.ltb_ge _ _)) by lia. by eexists. }
    rewrite Hb. cbn [mbind option_bind]. destruct b; [rewrite decide_True by done; by rewrite Nat.add_0_r|].
    rewrite decide_False by done. rewrite IH. unfold fmap, option_fmap, option_map.
    destruct (list_find _ l') as [[i x]|]; [cbn; f_equal; lia|done].
Qed.

(** ** Witnesses *)

Definition example_config (c : bool) : DiagRecorderConfig := mkRecConfig 2 c true.
Definition example_recorder (c : bool) : RecorderContext :=
  (DiagRecorder_Init (Some (example_config c)) (fun n => Some (replicate n entry_zero)) recorder_zero).2.
Lemma example_recorder_holds c : holds (example_config c) true [] (example_recorder c).
Proof. by apply (holds_init (example_config c) _ (replicate 2 entry_zero)). Qed.
Definition example_calls : list RecorderCall :=
  [CallAdd (5, 1, [1; 2; 3]); CallStop; CallAdd (6, 1, [9]); CallStart; CallAdd (7, 2, [4]); CallAdd (8, 3, [])].

Lemma recorder_refines_witness : exists r,
  recorder_run example_calls (example_recorder true) = Some r /\
  DiagRecorder_GetEntry 0 r = Some (custom_entry 8 2 3 []) /\ DiagRecorder_GetEntry 1 r = Some (custom_entry 7 1 2 [4]).
Proof.
  destruct (recorder_refines (example_config true) (fun n => Some (replicate n entry_zero)) (replicate 2 entry_zero)
    example_calls recorder_zero) as (r & Hr & _ & _ & Hg); [done|cbn; lia|done|done|].
  exists r. split; [done|]. by rewrite !Hg.
Defined.
Lemma recorder_accepts_witness : exists r',
  DiagRecorder_AddCustomRecord 5 1 (Some [1; 2]) (example_recorder false) = Some (true, r') /\ DiagRecorder_GetEntryCount r' = 1%nat.
Proof.
  destruct (recorder_accepts 5 1 [1; 2] (example_config false) true [] (example_recorder false) (example_recorder_holds false)) as [[_ H]|[H _]]; [exact H|discriminate].
Defined.
Lemma recorder_analyses_witness : DiagRecorder_GetStats (example_recorder true) = Some (custom_stats 0 0).
Proof. apply (recorder_analyses (example_config true) true [] (example_recorder true) (example_recorder_holds true)). done. Defined.
Lemma find_sequence_first_witness :
  let e n := mkEntry n n (RecMessage 0x22 0 [0xF1; 0x90; n] 3) in
  DiagRecorder_FindSequence (Some [0xF1; 0x90; 7]) 1
    ((example_recorder true) <| entries := Some [e 7; e 8; e 7; e 7] |> <| rec_count := 4%nat |>) = Some 2.
Proof.
  intros e. rewrite (find_sequence_first [0xF1; 0x90; 7] 1 _ [e 7; e 8; e 7; e 7]); [done|done|done|done|].
  repeat constructor; vm_compute; congruence.
Defined.
