(* ===== verification/CpuMonitor.v ===== *)
(** * Processor monitor

    [src/runtime/safety/cpu_monitor.c]: six self-tests of the processor, run on request or
    by a timer, with a count of the errors and the last failure of each test.  The
    arithmetic test is translated; what the assembly, the floating-point unit, the memory
    protection, the cache and the second core answer is a [CpuHardware], an argument of
    every call that tests. *)

From S2P Require Import Prelude Machine.

Definition CPU_TEST_REGISTER : Z := 0.
Definition CPU_TEST_ALU : Z := 1.
Definition CPU_TEST_FPU : Z := 2.
Definition CPU_TEST_MPU : Z := 3.
Definition CPU_TEST_CACHE : Z := 4.
Definition CPU_TEST_LOCKSTEP : Z := 5.
Inductive CPUTestResult := CPU_TEST_OK | CPU_TEST_FAILED_REGISTER | CPU_TEST_FAILED_ALU | CPU_TEST_FAILED_FPU
  | CPU_TEST_FAILED_MPU | CPU_TEST_FAILED_CACHE | CPU_TEST_FAILED_LOCKSTEP | CPU_TEST_FAILED_TIMEOUT.
#[export] Instance CPUTestResult_eq_dec : EqDecision CPUTestResult.
Proof. solve_decision. Defined.
Definition result_code (r : CPUTestResult) : Z :=
  match r with
  | CPU_TEST_OK => 0 | CPU_TEST_FAILED_REGISTER => 1 | CPU_TEST_FAILED_ALU => 2 | CPU_TEST_FAILED_FPU => 3
  | CPU_TEST_FAILED_MPU => 4 | CPU_TEST_FAILED_CACHE => 5 | CPU_TEST_FAILED_LOCKSTEP => 6 | CPU_TEST_FAILED_TIMEOUT => 7
  end.
Record CPUMonitorConfig := mkCpuConfig {
  test_interval_ms : Z; enable_register_test : bool; enable_alu_test : bool; enable_fpu_test : bool;
  enable_mpu_test : bool; enable_cache_test : bool; enable_lockstep : bool; timeout_ms : Z; error_callback : bool }.
Record CPUMonitor := mkCpu {
  cpu_config : CPUMonitorConfig; total_errors : Z; last_results : list CPUTestResult; test_timer : Timer;
  cpu_initialized : bool; cpu_critical : CriticalSection }.
#[export] Instance eta_CPUMonitor : Eta CPUMonitor := fun s =>
  mkCpu (cpu_config s) (total_errors s) (last_results s) (test_timer s) (cpu_initialized s) (cpu_critical s).
#[export, refine] Instance CPUMonitor_critical : HasCritical CPUMonitor :=
  {| crit := cpu_critical; set_crit c s := s <| cpu_critical := c |> |}.
Proof. all: by intros; destruct s. Defined.
Definition results_ok : list CPUTestResult := replicate 6 CPU_TEST_OK.

(** What the processor answers: a pattern read back from memory and from the registers, the
    six comparisons of floating-point results, the value the memory test leaves, the word
    read back from memory and the results of the two cores. *)
Record CpuHardware := mkHardware {
  read_back : Z -> Z; through_registers : Z -> Z; float_equal : nat -> bool; mpu_value : Z; cached_word : Z;
  core1_result : Z; core2_result : Z }.

Definition REGISTER_PATTERNS : list Z :=
  [0x00000000; 0xFFFFFFFF; 0x55555555; 0xAAAAAAAA; 0x33333333; 0xCCCCCCCC; 0x0F0F0F0F; 0xF0F0F0F0].
Fixpoint register_loop (hw : CpuHardware) (patterns : list Z) : CPUTestResult :=
  match patterns with
  | [] => CPU_TEST_OK
  | p :: patterns =>
      if negb (read_back hw p =? p) then CPU_TEST_FAILED_REGISTER else
      if negb (through_registers hw p =? p) then CPU_TEST_FAILED_REGISTER else register_loop hw patterns
  end.
Definition test_registers (hw : CpuHardware) : CPUTestResult := register_loop hw REGISTER_PATTERNS.
Definition test_alu : CPUTestResult :=
  let operand1 := 0x55555555 in
  let operand2 := 0xAAAAAAAA in
  if negb (u32 (operand1 + operand2) =? 0xFFFFFFFF) then CPU_TEST_FAILED_ALU else
  if negb (u32 (operand2 - operand1) =? 0x55555555) then CPU_TEST_FAILED_ALU else
  if negb (u32 (Z.land operand1 0xFFFF * Z.land operand2 0xFFFF) =? 0x38E38E39) then CPU_TEST_FAILED_ALU else
  if negb (operand2 / Z.land operand1 0xFF =? 0x1C71C71C) then CPU_TEST_FAILED_ALU else
  if negb (Z.land operand1 operand2 =? 0x00000000) then CPU_TEST_FAILED_ALU else
  if negb (Z.lor operand1 operand2 =? 0xFFFFFFFF) then CPU_TEST_FAILED_ALU else
  if negb (Z.lxor operand1 operand2 =? 0xFFFFFFFF) then CPU_TEST_FAILED_ALU else
  CPU_TEST_OK.
Definition test_fpu (hw : CpuHardware) : CPUTestResult :=
  if forallb (float_equal hw) (seq 0 6) then CPU_TEST_OK else CPU_TEST_FAILED_FPU.
Definition test_mpu (hw : CpuHardware) : CPUTestResult :=
  if negb (mpu_value hw =? 1) then CPU_TEST_FAILED_MPU else CPU_TEST_OK.
Definition test_cache (hw : CpuHardware) : CPUTestResult :=
  if negb (cached_word hw =? 0x55AA55AA) then CPU_TEST_FAILED_CACHE else CPU_TEST_OK.
Definition test_lockstep (hw : CpuHardware) : CPUTestResult :=
  if negb (core1_result hw =? core2_result hw) then CPU_TEST_FAILED_LOCKSTEP else CPU_TEST_OK.

Definition start_tests (interval : Z) : M CPUMonitor unit :=
  start test_timer (fun t s => s <| test_timer := t |>) interval.
Definition CPU_Monitor_Init (config : option CPUMonitorConfig) : M CPUMonitor bool :=
  match config with
  | None => mret false
  | Some config =>
      enter;;
      modify (fun s => s <| cpu_config := config |> <| total_errors := 0 |> <| last_results := results_ok |>);;
      start_tests (test_interval_ms config);;
      modify (fun s => s <| cpu_initialized := true |>);;
      exit;;
      mret true
  end.
Definition CPU_Monitor_DeInit : M CPUMonitor unit :=
  enter;; modify (fun s => s <| cpu_initialized := false |>);; exit.

(** A result that is not [CPU_TEST_OK]; [last_results] has six elements. *)
Definition report (test : Z) (result : CPUTestResult) : M CPUMonitor unit :=
  if bool_decide (result = CPU_TEST_OK) then mret tt else
  modify (fun s => s <| total_errors ::= fun n => u32 (n + 1) |>);;
  s ← get;
  (if (Z.to_nat test <? length (last_results s))%nat
   then modify (fun s => s <| last_results ::= <[Z.to_nat test := result]> |>) else fault);;
  callback (error_callback (cpu_config s)) "error_callback" [test; result_code result].
Definition run_enabled (enabled : CPUMonitorConfig -> bool) (test : Z) (result : CPUTestResult) : M CPUMonitor unit :=
  s ← get; if enabled (cpu_config s) then report test result else mret tt.
Definition CPU_Monitor_Process (hw : CpuHardware) : M CPUMonitor unit :=
  s ← get;
  if negb (cpu_initialized s) then mret tt else
  enter;;
  e ← expired test_timer;
  (if e : bool then
     run_enabled enable_register_test CPU_TEST_REGISTER (test_registers hw);;
     run_enabled enable_alu_test CPU_TEST_ALU test_alu;;
     run_enabled enable_fpu_test CPU_TEST_FPU (test_fpu hw);;
     run_enabled enable_mpu_test CPU_TEST_MPU (test_mpu hw);;
     run_enabled enable_cache_test CPU_TEST_CACHE (test_cache hw);;
     run_enabled enable_lockstep CPU_TEST_LOCKSTEP (test_lockstep hw);;
     s ← get;
     start_tests (test_interval_ms (cpu_config s))
   else mret tt);;
  exit.

(** The result of a test by its number. *)
Definition run_test (hw : CpuHardware) (test : Z) : CPUTestResult :=
  if test =? CPU_TEST_REGISTER then test_registers hw else
  if test =? CPU_TEST_ALU then test_alu else
  if test =? CPU_TEST_FPU then test_fpu hw else
  if test =? CPU_TEST_MPU then test_mpu hw else
  if test =? CPU_TEST_CACHE then test_cache hw else
  if test =? CPU_TEST_LOCKSTEP then test_lockstep hw else
  CPU_TEST_FAILED_TIMEOUT.
Definition CPU_Monitor_RunTest (hw : CpuHardware) (test : Z) : M CPUMonitor CPUTestResult :=
  s ← get;
  if negb (cpu_initialized s) then mret CPU_TEST_FAILED_TIMEOUT else
  enter;;
  report test (run_test hw test);;
  exit;;
  mret (run_test hw test).
Definition CPU_Monitor_IsHealthy : M CPUMonitor bool :=
  s ← get;
  if negb (cpu_initialized s) then mret false else
  enter;;
  s ← get;
  exit;;
  mret (forallb (fun r => bool_decide (r = CPU_TEST_OK)) (last_results s)).
Definition CPU_Monitor_GetErrorCount (s : CPUMonitor) : Z := total_errors s.
Definition CPU_Monitor_ResetErrorCount : M CPUMonitor unit :=
  enter;; modify (fun s => s <| total_errors := 0 |> <| last_results := results_ok |>);; exit.
Definition CPU_Monitor_GetStatus : M CPUMonitor (list CPUTestResult * Z) :=
  enter;; s ← get; exit;; mret (last_results s, 6).

(** ** Specification: the failures since the last reset *)

(** A failure: the test and its result. *)
Definition Failure := (Z * CPUTestResult)%type.
Definition failed (test : Z) (r : CPUTestResult) : list Failure := if bool_decide (r = CPU_TEST_OK) then [] else [(test, r)].
(** The failures of one round of the enabled tests. *)
Definition round (hw : CpuHardware) (c : CPUMonitorConfig) : list Failure :=
  mjoin [ (if enable_register_test c then failed CPU_TEST_REGISTER (test_registers hw) else []);
    (if enable_alu_test c then failed CPU_TEST_ALU test_alu else []);
    (if enable_fpu_test c then failed CPU_TEST_FPU (test_fpu hw) else []);
    (if enable_mpu_test c then failed CPU_TEST_MPU (test_mpu hw) else []);
    (if enable_cache_test c then failed CPU_TEST_CACHE (test_cache hw) else []);
    (if enable_lockstep c then failed CPU_TEST_LOCKSTEP (test_lockstep hw) else []) ].
Definition calls_of (c : CPUMonitorConfig) (fs : list Failure) : list Call :=
  mjoin ((fun x => if error_callback c then [call "error_callback" [x.1; result_code x.2]] else []) <$> fs).
(** The last failure of a test. *)
Definition last_failure (fs : list Failure) (test : nat) : CPUTestResult :=
  foldl (fun r x => if bool_decide (x.1 = Z.of_nat test) then x.2 else r) CPU_TEST_OK fs.
Record shows (c : CPUMonitorConfig) (fs : list Failure) (s : CPUMonitor) : Prop := {
  sh_config : cpu_config s = c; sh_init : cpu_initialized s = true;
  sh_errors : total_errors s = u32 (Z.of_nat (length fs)); sh_results : last_results s = last_failure fs <$> seq 0 6;
  sh_tests : Forall (fun x : Failure => 0 <= x.1 < 6 /\ x.2 <> CPU_TEST_OK) fs }.

Lemma last_failure_app fs x test : last_failure (fs ++ [x]) test = if bool_decide (x.1 = Z.of_nat test) then x.2 else last_failure fs test.
Proof. unfold last_failure. by rewrite foldl_app. Qed.
Lemma last_failure_insert fs x : 0 <= x.1 < 6 ->
  <[Z.to_nat x.1 := x.2]> (last_failure fs <$> seq 0 6) = last_failure (fs ++ [x]) <$> seq 0 6.
Proof.
  intros Hx. apply list_eq. intros i. destruct (decide (i < 6)%nat) as [Hi|Hi].
  - rewrite list_lookup_fmap, lookup_seq_lt by done. cbn [fmap option_fmap option_map plus]. rewrite last_failure_app.
    destruct (decide (x.1 = Z.of_nat i)) as [E|E].
    + rewrite bool_decide_true by done. rewrite E, Nat2Z.id. apply list_lookup_insert_eq. by rewrite length_fmap, length_seq.
    + rewrite bool_decide_false by done. rewrite list_lookup_insert_ne by lia. by rewrite list_lookup_fmap, lookup_seq_lt.
  - rewrite !lookup_ge_None_2; [done|rewrite length_fmap, length_seq; lia|rewrite length_insert, length_fmap, length_seq; lia].
Qed.

(** A part of a call that adds the failures [new]: it keeps the lock, the timer and the rest
    of the machine, and calls back. *)
Definition adds (c : CPUMonitorConfig) (fs new : list Failure) (s : CPUMonitor) (m : Machine) (s' : CPUMonitor) (m' : Machine) : Prop :=
  shows c (fs ++ new) s' /\ crit s' = crit s /\ test_timer s' = test_timer s /\ m' = m <| trace ::= fun t => t ++ calls_of c new |>.
Lemma report_spec c fs test r s m : shows c fs s -> 0 <= test < 6 ->
  wp (report test r) (fun _ => adds c fs (failed test r) s m) s m.
Proof.
  intros [Hc Hi He Hr Ht] Htest. unfold report, failed. destruct (bool_decide (r = CPU_TEST_OK)) eqn:E.
  - apply wp_ret. split_and!; [by rewrite app_nil_r|done|done|]. destruct m; cbn. by rewrite app_nil_r.
  - apply bool_decide_eq_false in E. apply wp_bind, wp_modify, wp_bind, wp_get, wp_bind. 
    match goal with |- context [length (last_results ?z)] => change (last_results z) with (last_results s) end.
    rewrite Hr, length_fmap, length_seq, (proj2 (Nat.ltb_lt _ _)) by lia. apply wp_modify, wp_callback.
    split_and!; [|done|done|].
    + constructor; cbn [setf cpu_config cpu_initialized total_errors last_results]; [done|done| | |].
      * rewrite He, length_app. unfold u32. rewrite Zplus_mod_idemp_l. f_equal. cbn. lia.
      * rewrite Hr. exact (last_failure_insert fs (test, r) Htest).
      * apply Forall_app. split; [done|]. apply Forall_singleton. by split.
    + unfold calls_of. cbn [fmap list_fmap mjoin list_join fst snd]. rewrite app_nil_r.
      change (cpu_config (s <| total_errors ::= fun n => u32 (n + 1) |>)) with (cpu_config s). by rewrite Hc.
Qed.
Lemma adds_app c fs new new' s m s1 m1 s2 m2 :
  adds c fs new s m s1 m1 -> adds c (fs ++ new) new' s1 m1 s2 m2 -> adds c fs (new ++ new') s m s2 m2.
Proof.
  intros (H1 & H2 & H3 & ->) (H4 & H5 & H6 & ->). split_and!; [by rewrite app_assoc|congruence|congruence|].
  unfold calls_of. rewrite fmap_app, join_app. destruct m; cbn. by rewrite app_assoc.
Qed.
Lemma enabled_spec c fs enabled test r s m : shows c fs s -> 0 <= test < 6 ->
  wp (run_enabled enabled test r) (fun _ => adds c fs (if enabled c then failed test r else []) s m) s m.
Proof.
  intros H Ht. unfold run_enabled. apply wp_bind, wp_get. rewrite (sh_config _ _ _ H). destruct (enabled c); [by apply report_spec|].
  apply wp_ret. split_and!; [by rewrite app_nil_r|done|done|]. destruct m; cbn. by rewrite app_nil_r.
Qed.
(** One more test behind those that have run. *)
Lemma enabled_next {B} (k : M CPUMonitor B) c fs new (enabled : CPUMonitorConfig -> bool) test r s m s1 m1 Q : adds c fs new s m s1 m1 -> 0 <= test < 6 ->
  (forall s2 m2, adds c fs (new ++ if enabled c then failed test r else []) s m s2 m2 -> wp k Q s2 m2) ->
  wp (run_enabled enabled test r;; k) Q s1 m1.
Proof.
  intros H Ht Hk. apply wp_bind. eapply wp_mono; [by apply (enabled_spec c (fs ++ new)); [apply H|]|].
  intros [] s2 m2 H2. apply Hk. by eapply adds_app.
Qed.

Lemma adds_nil c fs s m : shows c fs s -> adds c fs [] s m s m.
Proof. intros H. split_and!; [by rewrite app_nil_r|done|done|]. destruct m; cbn. by rewrite app_nil_r. Qed.
Lemma shows_timer c fs t s : shows c fs s -> shows c fs (s <| test_timer := t |>).
Proof. intros [H1 H2 H3 H4 H5]. by constructor. Qed.
Lemma shows_lock c fs l s : shows c fs s -> shows c fs (s <| cpu_critical := l |>).
Proof. intros [H1 H2 H3 H4 H5]. by constructor. Qed.

(** Whether the timer of the tests has expired. *)
Definition due_now (s : CPUMonitor) (m : Machine) : bool :=
  running (test_timer s) && (timeout (test_timer s) <=? u32 (system_ticks m - start_time (test_timer s))).
(** After a call: the failures, the calls, the timer, and the interrupt mask as before. *)
Definition process_post (c : CPUMonitorConfig) (fs new : list Failure) (t : Timer) (m : Machine) (s' : CPUMonitor) (m' : Machine) : Prop :=
  shows c (fs ++ new) s' /\ test_timer s' = t /\ primask m' = primask m /\ system_ticks m' = system_ticks m /\
  trace m' = trace m ++ calls_of c new.
Lemma process_spec_cpu hw c fs s m : shows c fs s -> wp (CPU_Monitor_Process hw) (fun _ s' m' =>
  if due_now s m then process_post c fs (round hw c) (mkTimer (system_ticks m) (test_interval_ms c) true) m s' m'
  else process_post c fs [] (test_timer s) m s' m') s m.
Proof.
  intros H. unfold CPU_Monitor_Process. apply wp_bind, wp_get. rewrite (sh_init _ _ _ H). cbn [negb].
  apply wp_bind, wp_enter. match goal with |- wp _ _ ?z _ => set (s0 := z) end.
  assert (H0 : shows c fs s0) by (by apply shows_lock).
  apply wp_bind, wp_expired. intros tc. fold (due_now s m). set (m0 := m <| primask := true |> <| timer_critical := tc |>).
  change (running (test_timer s0) && _) with (due_now s m). destruct (due_now s m).
  - apply wp_bind. eapply (enabled_next _ c fs []); [by apply adds_nil|unfold CPU_TEST_REGISTER; lia|]. intros s1 m1 H1.
    eapply enabled_next; [exact H1|unfold CPU_TEST_ALU; lia|]. clear H1 s1 m1. intros s1 m1 H1.
    eapply enabled_next; [exact H1|unfold CPU_TEST_FPU; lia|]. clear H1 s1 m1. intros s1 m1 H1.
    eapply enabled_next; [exact H1|unfold CPU_TEST_MPU; lia|]. clear H1 s1 m1. intros s1 m1 H1.
    eapply enabled_next; [exact H1|unfold CPU_TEST_CACHE; lia|]. clear H1 s1 m1. intros s1 m1 H1.
    eapply enabled_next; [exact H1|unfold CPU_TEST_LOCKSTEP; lia|]. clear H1 s1 m1. intros s1 m1 H1.
    match type of H1 with adds c fs ?new _ _ _ _ => replace new with (round hw c) in H1 end.
    2: { unfold round. cbn [mjoin list_join]. by rewrite app_nil_r, <- !app_assoc. }
    destruct H1 as (Hs & Hcr & Ht & ->). apply wp_bind, wp_get, wp_start. rewrite (sh_config _ _ _ Hs).
    apply (wp_exit (primask m)); [by destruct (primask m)|done|]. split_and!; [by apply shows_lock, shows_timer|done..].
  - apply wp_bind, wp_ret. apply (wp_exit (primask m)); [done|done|].
    split_and!; [rewrite app_nil_r; by apply shows_lock|done|done|done|cbn; by rewrite app_nil_r].
Qed.

Lemma run_test_spec hw test c fs s m : shows c fs s -> 0 <= test < 6 -> wp (CPU_Monitor_RunTest hw test) (fun r s' m' =>
  r = run_test hw test /\ process_post c fs (failed test r) (test_timer s) m s' m') s m.
Proof.
  intros H Ht. unfold CPU_Monitor_RunTest. apply wp_bind, wp_get. rewrite (sh_init _ _ _ H). cbn [negb].
  apply wp_bind, wp_enter. match goal with |- wp _ _ ?z _ => set (s0 := z) end. apply wp_bind.
  eapply wp_mono; [apply (report_spec c fs test _ s0); [by apply shows_lock|done]|]. intros [] s1 m1 (Hs & Hcr & Htm & ->).
  apply wp_bind, (wp_exit (primask m)); [by rewrite Hcr|done|]. apply wp_ret. split; [done|].
  split_and!; [by apply shows_lock|exact Htm|done..].
Qed.
Lemma healthy_spec c fs s m : shows c fs s -> wp CPU_Monitor_IsHealthy (fun r s' m' =>
  r = bool_decide (fs = []) /\ shows c fs s' /\ m' = m) s m.
Proof.
  intros H. unfold CPU_Monitor_IsHealthy. apply wp_bind, wp_get. rewrite (sh_init _ _ _ H). cbn [negb].
  apply wp_bind, wp_enter, wp_bind, wp_get, wp_bind, (wp_exit (primask m)); [done|done|]. apply wp_ret.
  split_and!; [|by apply shows_lock, shows_lock|by destruct m]. destruct H as [_ _ _ Hr Ht].
  match goal with |- forallb _ ?l = _ => change l with (last_results s) end. rewrite Hr.
  destruct fs as [|x fs _] using rev_ind; [done|]. rewrite bool_decide_false by (by destruct fs).
  apply Forall_app in Ht as [_ Ht]. apply Forall_singleton in Ht as [Hx Hn]. apply not_true_is_false. intros Hall.
  rewrite forallb_forall in Hall. specialize (Hall (last_failure (fs ++ [x]) (Z.to_nat x.1))).
  rewrite last_failure_app, bool_decide_true in Hall by lia. apply Hn, (bool_decide_eq_true_1 (x.2 = CPU_TEST_OK)), Hall.
  apply list_elem_of_In, list_elem_of_fmap. exists (Z.to_nat x.1). rewrite last_failure_app, bool_decide_true by lia.
  split; [done|]. apply elem_of_seq. lia.
Qed.
Lemma cpu_reset_spec c fs s m : shows c fs s -> wp CPU_Monitor_ResetErrorCount (fun _ => process_post c [] [] (test_timer s) m) s m.
Proof.
  intros H. unfold CPU_Monitor_ResetErrorCount. apply wp_bind, wp_enter, wp_bind, wp_modify, (wp_exit (primask m)); [done|done|].
  split_and!; [|done|done|done|cbn; by rewrite app_nil_r]. destruct H as [H1 H2 H3 H4 H5]. by constructor.
Qed.

(** ** Runs *)

Inductive CpuCall := CallTicks (n : nat) | CallProcess (hw : CpuHardware) | CallRunTest (hw : CpuHardware) (test : Z) | CallReset.
Definition cpu_exec (c : CpuCall) : M CPUMonitor unit :=
  match c with
  | CallTicks n => fun s m => Some (tt, s, Nat.iter n SysTick_Handler m)
  | CallProcess hw => CPU_Monitor_Process hw
  | CallRunTest hw test => CPU_Monitor_RunTest hw test;; mret tt
  | CallReset => CPU_Monitor_ResetErrorCount
  end.
Fixpoint cpu_run (cs : list CpuCall) : M CPUMonitor unit :=
  match cs with [] => mret tt | c :: cs => cpu_exec c;; cpu_run cs end.
(** The failures, the timer of the tests and the time after a call. *)
Definition cpu_step (c : CPUMonitorConfig) (x : list Failure * Timer * Z) (call : CpuCall) : list Failure * Timer * Z :=
  let '(fs, t, now) := x in
  match call with
  | CallTicks n => (fs, t, u32 (now + Z.of_nat n))
  | CallProcess hw =>
      if running t && (timeout t <=? u32 (now - start_time t)) then (fs ++ round hw c, mkTimer now (test_interval_ms c) true, now)
      else x
  | CallRunTest hw test => (fs ++ failed test (run_test hw test), t, now)
  | CallReset => ([], t, now)
  end.
Definition valid_call (call : CpuCall) : Prop := match call with CallRunTest _ test => 0 <= test < 6 | _ => True end.

(** The monitor, its timer and the time are the specification. *)
Definition monitors (c : CPUMonitorConfig) (x : list Failure * Timer * Z) (s : CPUMonitor) (m : Machine) : Prop :=
  shows c x.1.1 s /\ test_timer s = x.1.2 /\ system_ticks m = x.2 /\ is_u32 x.2.
Lemma cpu_exec_spec c call x s m : valid_call call -> monitors c x s m ->
  wp (cpu_exec call) (fun _ s' m' => monitors c (cpu_step c x call) s' m' /\ primask m' = primask m) s m.
Proof.
  destruct x as [[fs t] now]. intros Hv (H & Ht & Hn & Hu). cbn [fst snd] in *. destruct call as [n|hw|hw test|]; cbn [cpu_exec cpu_step].
  - unfold wp. rewrite <- Hn in *. split; [|apply ticks_primask]. split_and!; [done|done|by apply ticks_after|apply u32_range].
  - eapply wp_mono; [by apply process_spec_cpu|]. intros [] s' m' Hp. unfold due_now in Hp. rewrite Ht, Hn in Hp.
    destruct (running t && _); destruct Hp as (Hs & Ht' & Hpm & Hst & _); (split; [|done]).
    + split_and!; [done|done|cbn; congruence|exact Hu].
    + rewrite app_nil_r in Hs. split_and!; [done|done|cbn; congruence|exact Hu].
  - apply wp_bind. eapply wp_mono; [by apply run_test_spec|]. intros r s' m' (-> & Hs & Ht' & Hpm & Hst & _). apply wp_ret.
    split; [|done]. split_and!; [done|cbn; congruence|cbn; congruence|exact Hu].
  - eapply wp_mono; [by apply (cpu_reset_spec c fs)|]. intros [] s' m' (Hs & Ht' & Hpm & Hst & _).
    split; [|done]. split_and!; [done|cbn; congruence|cbn; congruence|exact Hu].
Qed.
Lemma cpu_run_spec c cs : forall x s m, Forall valid_call cs -> monitors c x s m ->
  wp (cpu_run cs) (fun _ s' m' => monitors c (foldl (cpu_step c) x cs) s' m' /\ primask m' = primask m) s m.
Proof.
  induction cs as [|call cs IH]; intros x s m Hv H; cbn [cpu_run foldl]; [by apply wp_ret|].
  apply Forall_cons in Hv as [Hv Hvs]. apply wp_bind. eapply wp_mono; [by apply cpu_exec_spec|]. intros [] s1 m1 [H1 Hp1].
  eapply wp_mono; [by apply IH|]. intros [] s2 m2 [H2 Hp2]. split; [done|congruence].
Qed.
(** Without a reset failures are only added. *)
Lemma cpu_steps_grow c cs : forall x, Forall (fun call => call <> CallReset) cs ->
  exists more, (foldl (cpu_step c) x cs).1.1 = x.1.1 ++ more.
Proof.
  induction cs as [|call cs IH]; intros [[fs t] now] Hc; cbn [foldl]; [exists []; by rewrite app_nil_r|].
  apply Forall_cons in Hc as [Hc Hcs]. destruct (IH (cpu_step c (fs, t, now) call) Hcs) as [more ->].
  destruct call as [n|hw|hw test|]; cbn [cpu_step]; [by exists more| |by eexists; cbn; rewrite <- app_assoc|done].
  destruct (running t && _); [by eexists; cbn; rewrite <- app_assoc|by exists more].
Qed.

(** ** Properties *)

(** The monitor is its specification along every run of ticks, polls, requested tests
    and resets: the error count is the number of failures since the last reset, the status
    lists the last failure of each test, the processor is healthy exactly if there was none -
    a test that passes later does not clear a failure -, and the interrupt mask is restored. *)
Theorem cpu_monitor_refines c cs x s m : Forall valid_call cs -> monitors c x s m ->
  let fs := (foldl (cpu_step c) x cs).1.1 in
  wp (cpu_run cs;; s ← get; h ← CPU_Monitor_IsHealthy; mret (CPU_Monitor_GetErrorCount s, last_results s, h))
    (fun r _ m' => r = (u32 (Z.of_nat (length fs)), last_failure fs <$> seq 0 6, bool_decide (fs = [])) /\ primask m' = primask m) s m.
Proof.
  intros Hv H fs. apply wp_bind. eapply wp_mono; [by apply (cpu_run_spec c cs x)|]. intros [] s1 m1 [(Hs & _ & _ & _) Hp].
  fold fs in Hs. apply wp_bind, wp_get, wp_bind. eapply wp_mono; [by apply (healthy_spec c fs)|]. intros h s2 m2 (-> & _ & ->).
  apply wp_ret. split; [|done]. unfold CPU_Monitor_GetErrorCount. by rewrite (sh_errors _ _ _ Hs), (sh_results _ _ _ Hs).
Qed.

(** The arithmetic test fails on every processor that multiplies and divides correctly:
    once a poll has run it the processor is never healthy again before a reset, whatever
    the other tests find. *)
Theorem alu_test_condemns c hw cs fs t now s m :
  enable_alu_test c = true -> running t && (timeout t <=? u32 (now - start_time t)) = true ->
  monitors c (fs, t, now) s m -> Forall valid_call cs -> Forall (fun call => call <> CallReset) cs ->
  wp (cpu_run (CallProcess hw :: cs);; CPU_Monitor_IsHealthy) (fun h _ _ => h = false) s m.
Proof.
  intros Ha Hd H Hv Hr. apply wp_bind. eapply wp_mono; [apply (cpu_run_spec c (CallProcess hw :: cs) (fs, t, now)); [by constructor|done]|].
  intros [] s1 m1 [(Hs & _ & _ & _) _]. eapply wp_mono; [by eapply healthy_spec|]. intros h s2 m2 (-> & _ & _).
  apply bool_decide_eq_false_2. cbn [foldl cpu_step]. rewrite Hd. destruct (cpu_steps_grow c cs (fs ++ round hw c, mkTimer now (test_interval_ms c) true, now) Hr) as [more ->].
  cbn [fst]. intros [[_ Hround]%app_nil _]%app_nil. unfold round in Hround. cbn [mjoin list_join] in Hround. rewrite Ha in Hround.
  apply app_nil in Hround as [_ Hround]. by apply app_nil in Hround as [? _].
Qed.

(** The register test passes exactly when every pattern comes back from memory and from
    the registers, and the other tests pass exactly on the answers they ask for; the number
    of a test that does not exist writes beyond the results. *)
Theorem cpu_tests_decide hw test c fs s m : shows c fs s -> 0 <= test ->
  (test_registers hw = CPU_TEST_OK <-> Forall (fun p => read_back hw p = p /\ through_registers hw p = p) REGISTER_PATTERNS) /\
  (test_fpu hw = CPU_TEST_OK <-> forall i, (i < 6)%nat -> float_equal hw i = true) /\
  if test <? 6 then wp (CPU_Monitor_RunTest hw test) (fun r s' _ => r = run_test hw test /\ shows c (fs ++ failed test r) s') s m
  else CPU_Monitor_RunTest hw test s m = None.
Proof.
  intros H Ht. split; [|split].
  - unfold test_registers. induction REGISTER_PATTERNS as [|p ps IH]; [by split|]. cbn [register_loop]. rewrite Forall_cons, <- IH.
    destruct (read_back hw p =? p) eqn:E1; cbn [negb]; tests; [|by split; [|intros [[? _] _]]].
    destruct (through_registers hw p =? p) eqn:E2; cbn [negb]; tests; [tauto|by split; [|intros [[_ ?] _]]].
  - unfold test_fpu. destruct (forallb _ _) eqn:E; split; try done.
    + intros _ i Hi. rewrite forallb_forall in E. apply E, in_seq. lia.
    + intros Hall. exfalso. apply not_true_iff_false in E. apply E, forallb_forall. intros i Hi%in_seq. apply Hall. lia.
  - destruct (test <? 6) eqn:E; tests.
    + eapply wp_mono; [by apply run_test_spec|]. intros r s' m' (-> & Hs & _). by split.
    + unfold CPU_Monitor_RunTest. apply undefined_bind, wp_get. rewrite (sh_init _ _ _ H). cbn [negb].
      apply undefined_bind, wp_enter, undefined_bind'. unfold report.
      assert (Hr : run_test hw test = CPU_TEST_FAILED_TIMEOUT).
      { unfold run_test, CPU_TEST_REGISTER, CPU_TEST_ALU, CPU_TEST_FPU, CPU_TEST_MPU, CPU_TEST_CACHE, CPU_TEST_LOCKSTEP.
        by rewrite !(proj2 (Z.eqb_neq _ _)) by lia. }
      rewrite Hr. cbn [bool_decide]. rewrite bool_decide_false by done.
      apply undefined_bind, wp_modify, undefined_bind, wp_get, undefined_bind'.
      match goal with |- context [length (last_results ?z)] => change (last_results z) with (last_results s) end.
      by rewrite (sh_results _ _ _ H), length_fmap, length_seq, (proj2 (Nat.ltb_ge _ _)) by lia.
Qed.

(** ** Witnesses *)

Definition example_hw (good : bool) : CpuHardware :=
  mkHardware (fun p => p) (fun p => if good then p else 1) (fun _ => true) 1 0x55AA55AA 7 7.
Definition example_cpu_config : CPUMonitorConfig := mkCpuConfig 10 true true false true true true 5 true.
Definition example_cpu : CPUMonitor := mkCpu example_cpu_config 0 results_ok (mkTimer 0 10 true) true cs_zero.
Lemma example_monitors : monitors example_cpu_config ([], mkTimer 0 10 true, 10) example_cpu (boot <| system_ticks := 10 |>).
Proof. by split_and!. Qed.
Definition example_runs : list CpuCall :=
  [CallRunTest (example_hw false) CPU_TEST_REGISTER; CallTicks 5; CallRunTest (example_hw true) CPU_TEST_REGISTER].

Lemma cpu_monitor_refines_witness :
  wp (cpu_run (example_runs ++ [CallProcess (example_hw true)]);; s ← get; h ← CPU_Monitor_IsHealthy;
      mret (CPU_Monitor_GetErrorCount s, last_results s, h))
    (fun r _ m' => r = (2, [CPU_TEST_FAILED_REGISTER; CPU_TEST_FAILED_ALU; CPU_TEST_OK; CPU_TEST_OK; CPU_TEST_OK; CPU_TEST_OK], false)
       /\ primask m' = false) example_cpu (boot <| system_ticks := 10 |>).
Proof.
  refine (cpu_monitor_refines example_cpu_config (example_runs ++ [CallProcess (example_hw true)]) _ _ _ _ example_monitors).
  repeat constructor; vm_compute; congruence.
Defined.
Lemma alu_test_condemns_witness :
  wp (cpu_run (CallProcess (example_hw true) :: example_runs);; CPU_Monitor_IsHealthy) (fun h _ _ => h = false)
    example_cpu (boot <| system_ticks := 10 |>).
Proof.
  apply (alu_test_condemns example_cpu_config (example_hw true) example_runs [] (mkTimer 0 10 true) 10); try done.
  all: repeat constructor; vm_compute; congruence.
Defined.
Lemma cpu_tests_decide_witness : CPU_Monitor_RunTest (example_hw true) 6 example_cpu boot = None.
Proof. apply (cpu_tests_decide (example_hw true) 6 example_cpu_config [] example_cpu boot); [apply example_monitors|lia]. Defined.
