(* ===== verification/DiagResponse.v ===== *)
(** * Responses that are waited for

    [src/runtime/diagnostic/diag_response.c]: sixteen slots for the requests whose response
    is outstanding.  A request starts a timer of [DiagTimer.v] whose callback is
    [handle_response_timeout] with the number of the request; a response or the timer calls
    the callback of the request and frees its slot.  [DiagTimer_GetTimestamp], which no
    file defines, is a parameter; the callbacks of the requests leave the program. *)

From S2P Require Import Prelude Slots Machine Mutex DiagTimer.

Definition MAX_PENDING_RESPONSES : nat := 16.
Definition RESPONSE_TIMEOUT : Z := 1000.
Definition DIAG_RESP_GENERAL_REJECT : Z := 0x10.
Inductive ResponseState := RESP_STATE_IDLE | RESP_STATE_WAITING | RESP_STATE_RECEIVED | RESP_STATE_TIMEOUT | RESP_STATE_ERROR.

(** Pointers are addresses, 0 for NULL. *)
Record DiagResponse := mkResponse {
  rs_id : Z; rs_service_id : Z; rs_code : Z; rs_data : Z; rs_length : Z; rs_timestamp : Z; success : bool }.
Definition response_zero : DiagResponse := mkResponse 0 0 0 0 0 0 false.
Record ResponseQueueEntry := mkQueueEntry {
  msg_id : Z; rq_timestamp : Z; response : DiagResponse; rq_state : ResponseState; rq_callback : Z; rq_context : Z;
  rq_active : bool }.
#[export] Instance eta_ResponseQueueEntry : Eta ResponseQueueEntry := fun e =>
  mkQueueEntry (msg_id e) (rq_timestamp e) (response e) (rq_state e) (rq_callback e) (rq_context e) (rq_active e).
#[export] Instance ResponseQueueEntry_Slot : Slot ResponseQueueEntry := { slot_used := rq_active; slot_key := msg_id }.
Definition entry_blank : ResponseQueueEntry := mkQueueEntry 0 0 response_zero RESP_STATE_IDLE 0 0 false.
Record ResponseHandler := mkHandler { queue : list ResponseQueueEntry; queue_count : nat; rh_initialized : bool }.
#[export] Instance eta_ResponseHandler : Eta ResponseHandler := fun h => mkHandler (queue h) (queue_count h) (rh_initialized h).
Definition handler_zero : ResponseHandler := mkHandler (replicate MAX_PENDING_RESPONSES entry_blank) 0 false.

(** The handler with the timers, the mutex and the logger it runs with. *)
Record Responses := mkResponses {
  resp_handler : ResponseHandler; resp_timers : Timers; resp_locked : bool; resp_log : option LogLevel }.
#[export] Instance eta_Responses : Eta Responses := fun s =>
  mkResponses (resp_handler s) (resp_timers s) (resp_locked s) (resp_log s).
#[export, refine] Instance Responses_timers : HasTimers Responses :=
  {| get_timers := resp_timers; set_timers t s := s <| resp_timers := t |> |}.
Proof. by intros. Defined.
#[export, refine] Instance Responses_mutex : HasMutex Responses :=
  {| locked := resp_locked; set_locked b s := s <| resp_locked := b |>; log_min := resp_log |}.
Proof. all: by intros; destruct s. Defined.
Definition on_handler (f : ResponseHandler -> ResponseHandler) : M Responses unit := modify (fun s => s <| resp_handler ::= f |>).

Section responses.
Context (DiagTimer_GetTimestamp : Timeval -> Z).
(** The address of [handle_response_timeout]. *)
Context (handle_response_timeout_address : Z).

Definition is_entry (id : Z) (e : ResponseQueueEntry) : bool := rq_active e && (msg_id e =? id).
Definition find_queue_entry (id : Z) (h : ResponseHandler) : option nat := find_idx (is_entry id) (queue_count h) (queue h).
Definition set_entry (i : nat) (e : ResponseQueueEntry) (h : ResponseHandler) : ResponseHandler := h <| queue ::= <[i := e]> |>.
(** [resp_handler.queue[i]]. *)
Definition entry_at (i : nat) : M Responses ResponseQueueEntry :=
  s ← get; match queue (resp_handler s) !! i with Some e => mret e | None => fault end.

Definition cleanup_queue_entry (i : nat) : M Responses unit :=
  e ← entry_at i;
  (if negb (rs_data (response e) =? 0) then emit "MEMORY_FREE" [rs_data (response e)] else mret tt);;
  on_handler (set_entry i entry_blank);;
  on_handler (fun h => h <| queue_count := shrink (queue_count h) (queue h) |>).

Definition DiagResponse_Init : M Responses bool :=
  s ← get;
  if rh_initialized (resp_handler s) then mret false else
  on_handler (fun _ => handler_zero <| rh_initialized := true |>);;
  mret true.
(** [for (i = 0; i < queue_count; i++)], the count being read again each time. *)
Fixpoint cleanup_loop (n i : nat) : M Responses unit :=
  s ← get;
  if (i <? queue_count (resp_handler s))%nat then
    match n with
    | O => fault
    | S n => e ← entry_at i; (if rq_active e then cleanup_queue_entry i else mret tt);; cleanup_loop n (S i)
    end
  else mret tt.
Definition DiagResponse_Deinit : M Responses unit :=
  s ← get;
  if negb (rh_initialized (resp_handler s)) then mret tt else
  cleanup_loop MAX_PENDING_RESPONSES 0;;
  on_handler (fun _ => handler_zero).

Definition DiagResponse_QueueResponse (id callback context : Z) : M Responses bool :=
  s ← get;
  if negb (rh_initialized (resp_handler s)) || (callback =? 0) then mret false else
  match find_queue_entry id (resp_handler s) with
  | Some _ => Logger_Log LOG_LEVEL_WARNING;; mret false
  | None =>
      match find_free MAX_PENDING_RESPONSES (queue (resp_handler s)) with
      | None => Logger_Log LOG_LEVEL_ERROR;; mret false
      | Some slot =>
          e ← entry_at slot;
          let e := mkQueueEntry id (DiagTimer_GetTimestamp (clock (resp_timers s))) (response e) RESP_STATE_WAITING callback context true in
          on_handler (set_entry slot e);;
          timer_id ← timers_op (DiagTimer_Start TIMER_TYPE_REQUEST RESPONSE_TIMEOUT handle_response_timeout_address id);
          if timer_id =? 0 then
            Logger_Log LOG_LEVEL_ERROR;;
            on_handler (set_entry slot (e <| rq_active := false |>));;
            mret false
          else
            on_handler (fun h => if (queue_count h <=? slot)%nat then h <| queue_count := S slot |> else h);;
            mret true
      end
  end.

(** The callback of a request with a response. *)
Definition answer (e : ResponseQueueEntry) (r : DiagResponse) : Call :=
  call "response" [rq_callback e; rq_context e; rs_id r; rs_service_id r; rs_code r; rs_data r; rs_length r; rs_timestamp r;
    Z.b2z (success r)].
Definition call_back (e : ResponseQueueEntry) (r : DiagResponse) : M Responses unit :=
  if negb (rq_callback e =? 0) then on_machine (fun m => (tt, m <| trace ::= fun t => t ++ [answer e r] |>)) else mret tt.
Definition DiagResponse_HandleResponse (r : option DiagResponse) : M Responses bool :=
  s ← get;
  match r with
  | None => mret false
  | Some r =>
      if negb (rh_initialized (resp_handler s)) then mret false else
      match find_queue_entry (rs_id r) (resp_handler s) with
      | None => Logger_Log LOG_LEVEL_WARNING;; mret false
      | Some i =>
          e ← entry_at i;
          let e := e <| response := r |> <| rq_state := if success r then RESP_STATE_RECEIVED else RESP_STATE_ERROR |> in
          on_handler (set_entry i e);;
          call_back e r;;
          cleanup_queue_entry i;;
          mret true
      end
  end.
Definition DiagResponse_HandleTimeout (id : Z) : M Responses unit :=
  s ← get;
  if negb (rh_initialized (resp_handler s)) then mret tt else
  match find_queue_entry id (resp_handler s) with
  | None => mret tt
  | Some i =>
      e ← entry_at i;
      Logger_Log LOG_LEVEL_WARNING;;
      let e := e <| rq_state := RESP_STATE_TIMEOUT |> in
      on_handler (set_entry i e);;
      s ← get;
      let timeout_response := mkResponse id (rs_service_id (response e)) DIAG_RESP_GENERAL_REJECT 0 0
        (DiagTimer_GetTimestamp (clock (resp_timers s))) false in
      call_back e timeout_response;;
      cleanup_queue_entry i
  end.
Definition handle_response_timeout (timer_id context : Z) : M Responses unit := DiagResponse_HandleTimeout (u32 context).
(** The callbacks of the timers; others leave the program. *)
Definition run_callback (f timer_id context : Z) : M Responses unit :=
  if f =? handle_response_timeout_address then handle_response_timeout timer_id context else emit "timer" [f; timer_id; context].

(** ** Invariant *)

Record handler_wf (h : ResponseHandler) : Prop := {
  hw_init : rh_initialized h = true; hw_length : length (queue h) = MAX_PENDING_RESPONSES;
  hw_count : (queue_count h <= MAX_PENDING_RESPONSES)%nat; hw_free : free_from (queue_count h) (queue h);
  hw_uniq : slots_uniq (queue h);
  hw_blank : Forall (fun e => response e = response_zero /\ (rq_active e = true -> rq_callback e <> 0 /\ is_u32 (msg_id e))) (queue h) }.
(** The requests that wait, by their numbers. *)
Definition pending (s : Responses) : gmap Z ResponseQueueEntry := slot_map (queue (resp_handler s)).
Definition responses_wf (s : Responses) : Prop := handler_wf (resp_handler s) /\ resp_locked s = false.

Lemma find_entry_spec h id : handler_wf h ->
  match find_queue_entry id h with
  | Some i => exists e, queue h !! i = Some e /\ rq_active e = true /\ msg_id e = id /\ slot_map (queue h) !! id = Some e
  | None => slot_map (queue h) !! id = None
  end.
Proof.
  intros [Hi Hl Hc Hf Hu Hb]. unfold find_queue_entry. destruct (find_idx _ _ _) as [i|] eqn:E.
  - apply find_idx_Some in E as (e & He & Hlt & Hp & _). unfold is_entry in Hp. apply andb_true_iff in Hp as [Ha Hid]. tests.
    exists e. split_and!; [done..|]. rewrite <- Hid. exact (slot_map_Some _ i e Hu He Ha).
  - destruct (slot_map (queue h) !! id) as [e|] eqn:Em; [|done]. apply slot_map_inv in Em as (i & He & Ha & Hk); [|done].
    assert (Hlt : (i < queue_count h)%nat) by (by eapply free_from_used).
    apply find_idx_None in E. rewrite Forall_lookup in E. specialize (E i e). rewrite lookup_take_lt in E by done.
    specialize (E He). unfold is_entry in E. cbn in Ha, Hk. rewrite Ha, Hk, Z.eqb_refl in E. done.
Qed.

(** A slot after its request has been called back. *)
Definition cleaned (i : nat) (h : ResponseHandler) : ResponseHandler :=
  let h := set_entry i entry_blank h in h <| queue_count := shrink (queue_count h) (queue h) |>.
Lemma cleaned_wf i e h : handler_wf h -> queue h !! i = Some e -> rq_active e = true ->
  handler_wf (cleaned i h) /\ slot_map (queue (cleaned i h)) = delete (msg_id e) (slot_map (queue h)).
Proof.
  intros [Hi Hl Hc Hf Hu Hb] He Ha. destruct (slot_blank (queue h) i entry_blank e) as [Hu' Hm]; [done..|].
  split; [|exact Hm]. pose proof (shrink_le (queue_count h) (<[i:=entry_blank]> (queue h))). constructor; cbn; try done.
  - by rewrite length_insert.
  - lia.
  - apply shrink_free, free_from_insert; [by right|done].
  - apply Forall_insert; [done|]. by split.
Qed.
Lemma wp_queue_entry (Q : ResponseQueueEntry -> Responses -> Machine -> Prop) i e s m :
  queue (resp_handler s) !! i = Some e -> Q e s m -> wp (entry_at i) Q s m.
Proof. intros He HQ. unfold entry_at. apply wp_bind, wp_get. by rewrite He. Qed.
Definition freed (r : DiagResponse) : list Call := if rs_data r =? 0 then [] else [call "MEMORY_FREE" [rs_data r]].
Lemma cleanup_spec (Q : unit -> Responses -> Machine -> Prop) i e e' s m : queue (resp_handler s) !! i = Some e ->
  Q tt (s <| resp_handler ::= cleaned i |>) (m <| trace ::= fun t => t ++ freed (response e') |>) ->
  wp (cleanup_queue_entry i) Q (s <| resp_handler ::= set_entry i e' |>) m.
Proof.
  intros He HQ. unfold cleanup_queue_entry. apply wp_bind, (wp_queue_entry _ _ e').
  { cbn. rewrite list_lookup_insert_eq; [done|by eapply lookup_lt_Some]. }
  assert (Hs : forall m', wp (on_handler (set_entry i entry_blank);; on_handler (fun h => h <| queue_count := shrink (queue_count h) (queue h) |>))
    (fun _ s' m'' => s' = s <| resp_handler ::= cleaned i |> /\ m'' = m') (s <| resp_handler ::= set_entry i e' |>) m').
  { intros m'. apply wp_bind, wp_modify, wp_modify. split; [|done]. unfold cleaned, set_entry, setf. cbn. by rewrite list_insert_insert_eq. }
  unfold freed in HQ. apply wp_bind. destruct (rs_data (response e') =? 0); cbn [negb].
  - apply wp_ret. eapply wp_mono; [apply Hs|]. intros [] s' m' [-> ->].
    replace m with (m <| trace ::= fun t => t ++ [] |>); [done|]. destruct m; cbn. by rewrite app_nil_r.
  - apply wp_emit. eapply wp_mono; [apply Hs|]. by intros [] s' m' [-> ->].
Qed.
Lemma call_back_spec (Q : unit -> Responses -> Machine -> Prop) e r s m : rq_callback e <> 0 ->
  Q tt s (m <| trace ::= fun t => t ++ [answer e r] |>) -> wp (call_back e r) Q s m.
Proof. intros Hc HQ. unfold call_back. by rewrite (proj2 (Z.eqb_neq _ _)). Qed.

(** ** The operations on the map of waiting requests *)

(** What ends a request [id]: the call, and the request is gone. *)
Definition ends (id : Z) (calls : list Call) (s : Responses) (m : Machine) (s' : Responses) (m' : Machine) : Prop :=
  responses_wf s' /\ pending s' = delete id (pending s) /\ resp_timers s' = resp_timers s /\ resp_log s' = resp_log s /\
  m' = m <| trace ::= fun t => t ++ calls |>.
Definition timeout_response (id : Z) (s : Responses) : DiagResponse :=
  mkResponse id 0 DIAG_RESP_GENERAL_REJECT 0 0 (DiagTimer_GetTimestamp (clock (resp_timers s))) false.
Definition unchanged (s : Responses) (m : Machine) (s' : Responses) (m' : Machine) : Prop := s' = s /\ m' = m.

Lemma handle_response_spec r s m : responses_wf s ->
  wp (DiagResponse_HandleResponse (Some r)) (fun ok s' m' =>
    match pending s !! rs_id r with
    | None => ok = false /\ unchanged s m s' m'
    | Some e => ok = true /\ ends (rs_id r) (answer e r :: freed r) s m s' m'
    end) s m.
Proof.
  intros [Hw Hl]. unfold DiagResponse_HandleResponse. apply wp_bind, wp_get. rewrite (hw_init _ Hw). cbn [negb].
  pose proof (find_entry_spec _ (rs_id r) Hw) as Hf. unfold pending. destruct (find_queue_entry _ _) as [i|].
  - destruct Hf as (e & He & Ha & Hid & ->). pose proof (hw_blank _ Hw) as Hb. rewrite Forall_lookup in Hb.
    destruct (Hb _ _ He) as [_ Hcb]. destruct (Hcb Ha) as [Hcb' _]. apply wp_bind, (wp_queue_entry _ i e); [done|].
    cbv zeta. set (e' := e <| response := r |> <| rq_state := _ |>). apply wp_bind, wp_modify, wp_bind, call_back_spec; [done|].
    apply wp_bind, (cleanup_spec _ i e e'); [done|]. apply wp_ret. split; [done|].
    destruct (cleaned_wf i e _ Hw He Ha) as [Hw' Hm']. rewrite Hid in Hm'.
    split; [by split|]. split_and!; [done|done|done|]. destruct m; cbn. by rewrite <- app_assoc.
  - rewrite Hf. apply wp_bind, wp_log_free; [done|]. apply wp_ret. by split.
Qed.
Lemma handle_timeout_spec id s m : responses_wf s -> is_u32 id ->
  wp (handle_response_timeout 0 id) (fun _ s' m' =>
    match pending s !! id with
    | None => unchanged s m s' m'
    | Some e => ends id [answer e (timeout_response id s)] s m s' m'
    end) s m.
Proof.
  intros [Hw Hl] Hid0. unfold handle_response_timeout, DiagResponse_HandleTimeout. rewrite u32_small by done.
  apply wp_bind, wp_get. rewrite (hw_init _ Hw). cbn [negb].
  pose proof (find_entry_spec _ id Hw) as Hf. unfold pending. destruct (find_queue_entry _ _) as [i|].
  - destruct Hf as (e & He & Ha & Hid & ->). pose proof (hw_blank _ Hw) as Hb. rewrite Forall_lookup in Hb.
    destruct (Hb _ _ He) as [Hz Hcb]. destruct (Hcb Ha) as [Hcb' _]. apply wp_bind, (wp_queue_entry _ i e); [done|].
    apply wp_bind, wp_log_free; [done|]. cbv zeta. set (e' := e <| rq_state := _ |>).
    apply wp_bind, wp_modify, wp_bind, wp_get, wp_bind, call_back_spec; [done|].
    apply (cleanup_spec _ i e e'); [done|]. 
    destruct (cleaned_wf i e _ Hw He Ha) as [Hw' Hm']. rewrite Hid in Hm'.
    split; [by split|]. split_and!; [done|done|done|].
    change (response e') with (response e). rewrite Hz. destruct m; cbn. by rewrite app_nil_r.
  - rewrite Hf. by apply wp_ret.
Qed.

(** A request that starts to wait. *)
Definition waiting (id cb ctx : Z) (s : Responses) : ResponseQueueEntry :=
  mkQueueEntry id (DiagTimer_GetTimestamp (clock (resp_timers s))) response_zero RESP_STATE_WAITING cb ctx true.
Definition next_timer (s : Responses) : Z := next_id (timer_mgr (resp_timers s)).
Definition request_timer (id : Z) (s : Responses) : Timer :=
  started TIMER_TYPE_REQUEST RESPONSE_TIMEOUT handle_response_timeout_address id (resp_timers s).
(** The timers work, their next identifier is fresh, and all of them are of requests. *)
Definition timers_ok (s : Responses) : Prop :=
  DiagTimer.wf (resp_timers s) /\ timer_map (resp_timers s) !! next_timer s = None /\
  Forall (fun t => tm_active t = true -> tm_callback t = handle_response_timeout_address /\ is_u32 (tm_context t))
    (timers (timer_mgr (resp_timers s))).

Lemma handler_add h i x e : handler_wf h -> queue h !! i = Some x -> rq_active x = false -> rq_active e = true ->
  response e = response_zero -> rq_callback e <> 0 -> is_u32 (msg_id e) -> slot_map (queue h) !! msg_id e = None ->
  let h' := set_entry i e h in
  let h' := if (queue_count h' <=? i)%nat then h' <| queue_count := S i |> else h' in
  handler_wf h' /\ slot_map (queue h') = <[msg_id e := e]> (slot_map (queue h)).
Proof.
  intros [Hi Hl Hc Hf Hu Hb] Hx Hxa Ha Hr Hcb Hid Hn h' h''.
  destruct (slot_fill (queue h) i e x) as [Hu' Hm]; [done..|].
  assert (Hilt : (i < length (queue h))%nat) by (by eapply lookup_lt_Some).
  assert (Hq : queue h'' = <[i := e]> (queue h)) by (unfold h''; by case_match).
  assert (Hn' : queue_count h'' = Nat.max (queue_count h) (S i)).
  { unfold h'', h'. cbn. destruct (queue_count h <=? i)%nat eqn:E; tests; cbn; lia. }
  split; [|by rewrite Hq]. constructor; rewrite ?Hq, ?Hn'.
  - unfold h''. by case_match.
  - by rewrite length_insert.
  - lia.
  - apply free_from_insert; [left; lia|]. eapply free_from_mono; [|done]. lia.
  - done.
  - apply Forall_insert; [done|]. by split.
Qed.
(** A free slot that was filled and emptied again. *)
Lemma handler_same h i x e : handler_wf h -> queue h !! i = Some x -> rq_active x = false -> rq_active e = false ->
  response e = response_zero ->
  handler_wf (set_entry i e h) /\ slot_map (queue (set_entry i e h)) = slot_map (queue h).
Proof.
  intros [Hi Hl Hc Hf Hu Hb] Hx Hxa Ha Hr.
  pose proof (used_insert (queue h) i e x Hx) as Hp. cbn [slot_used ResponseQueueEntry_Slot] in Hp. rewrite Ha, Hxa, app_nil_r in Hp. cbn in Hp.
  assert (Hu' : slots_uniq (<[i := e]> (queue h))) by (unfold slots_uniq; by rewrite <- Hp).
  split.
  - constructor; cbn; try done; [by rewrite length_insert|apply free_from_insert; [by right|done]|].
    apply Forall_insert; [done|]. split; [done|congruence].
  - change (queue (set_entry i e h)) with (<[i := e]> (queue h)). unfold slot_map. apply list_to_map_proper; [by rewrite used_keys|by rewrite <- Hp].
Qed.

Lemma queue_response_spec id cb ctx s m : responses_wf s -> timers_ok s -> is_u32 id -> handle_response_timeout_address <> 0 ->
  wp (DiagResponse_QueueResponse id cb ctx) (fun ok s' m' => responses_wf s' /\ m' = m /\ resp_log s' = resp_log s /\
    if decide (cb = 0 \/ is_Some (pending s !! id) \/ size (pending s) = MAX_PENDING_RESPONSES \/
               size (timer_map (resp_timers s)) = MAX_TIMERS)
    then ok = false /\ pending s' = pending s /\ resp_timers s' = resp_timers s
    else ok = true /\ pending s' = <[id := waiting id cb ctx s]> (pending s) /\
      DiagTimer.wf (resp_timers s') /\ timer_map (resp_timers s') = <[next_timer s := request_timer id s]> (timer_map (resp_timers s)) /\
      clock (resp_timers s') = clock (resp_timers s) /\
      last_check (timer_mgr (resp_timers s')) = last_check (timer_mgr (resp_timers s)) /\
      next_timer s' = id_after (next_timer s)) s m.
Proof.
  intros [Hw Hl] (Htw & Hfresh & Hts) Hid Haddr. unfold DiagResponse_QueueResponse. apply wp_bind, wp_get. rewrite (hw_init _ Hw). cbn [negb orb].
  assert (Hsame : forall ok, ok = false -> wp (mret ok) (fun ok s' m' => responses_wf s' /\ m' = m /\ resp_log s' = resp_log s /\
    ok = false /\ pending s' = pending s /\ resp_timers s' = resp_timers s) s m) by (intros ok ->; by apply wp_ret).
  destruct (cb =? 0) eqn:Ecb; tests; [destruct (decide _) as [_|Hn]; [by apply Hsame|exfalso; apply Hn; by left]|].
  pose proof (find_entry_spec _ id Hw) as Hf. fold (pending s) in Hf. destruct (find_queue_entry _ _) as [i|].
  { destruct Hf as (e & _ & _ & _ & He). destruct (decide _) as [_|Hn]; [|exfalso; apply Hn; right; left; by eexists].
    apply wp_bind, wp_log_free; [done|]. by apply Hsame. }
  pose proof (find_free_size MAX_PENDING_RESPONSES _ (hw_uniq _ Hw) (hw_length _ Hw)) as Hfree.
  fold (pending s) in Hfree. destruct (find_free _ _) as [i|].
  2: { destruct (decide _) as [_|Hn]; [|exfalso; apply Hn; by right; right; left]. apply wp_bind, wp_log_free; [done|]. by apply Hsame. }
  destruct Hfree as (Hsz & Hi & x & Hx & Hxa). apply wp_bind, (wp_queue_entry _ i x); [done|]. cbv zeta.
  assert (Hxr : response x = response_zero).
  { pose proof (hw_blank _ Hw) as Hb. rewrite Forall_lookup in Hb. by destruct (Hb _ _ Hx). }
  rewrite Hxr. fold (waiting id cb ctx s). apply wp_bind, wp_modify, wp_bind, wp_timers_op.
  cbn [get_timers set_timers Responses_timers]. match goal with |- context [resp_timers ?z] => change (resp_timers z) with (resp_timers s) end.
  destruct (decide (size (timer_map (resp_timers s)) = MAX_TIMERS)) as [Hfull|Hroom].
  - destruct (decide (cb = 0 \/ _)) as [_|Hn]; [|exfalso; apply Hn; by right; right; right]. rewrite start_full by done. cbn [fst snd]. change (0 =? 0) with true. cbv match.
    apply wp_bind, wp_log_free; [done|]. apply wp_bind, wp_modify, wp_ret.
    destruct (handler_same (resp_handler s) i x ((waiting id cb ctx s) <| rq_active := false |>) Hw Hx Hxa) as [Hw' Hm']; [done|done|].
    assert (Hset : set_entry i ((waiting id cb ctx s) <| rq_active := false |>) (set_entry i (waiting id cb ctx s) (resp_handler s)) =
      set_entry i ((waiting id cb ctx s) <| rq_active := false |>) (resp_handler s)).
    { unfold set_entry, setf. cbn. by rewrite list_insert_insert_eq. }
    match goal with |- responses_wf ?z /\ _ =>
      assert (Hz : resp_handler z = set_entry i ((waiting id cb ctx s) <| rq_active := false |>) (resp_handler s)) by exact Hset end.
    split; [split; [by rewrite Hz|done]|]. split_and!; [done|done|done| |done]. unfold pending. by rewrite Hz.
  - destruct (decide (cb = 0 \/ _)) as [[?|[[? H1]|[H2|?]]]|_]; [done|congruence|unfold pending in *; lia|done|].
    pose proof (free_slot _ Htw) as Hfs. destruct (find_free MAX_TIMERS _) as [k|] eqn:Ek; [|done].
    pose proof (start_slot TIMER_TYPE_REQUEST RESPONSE_TIMEOUT handle_response_timeout_address id (resp_timers s) k Htw
      ltac:(unfold is_u32, RESPONSE_TIMEOUT; lia) ltac:(done) Haddr Hfresh Ek) as Hst.
    destruct (DiagTimer_Start _ _ _ _ (resp_timers s)) as [tid ts]. destruct Hst as (-> & Htw' & Hl' & Hm' & Hc' & Hlc' & Hn').
    cbn [fst snd]. assert (Hn0 : next_id (timer_mgr (resp_timers s)) <> 0) by apply Htw.
    rewrite (proj2 (Z.eqb_neq _ _)) by exact Hn0. apply wp_bind, wp_modify, wp_ret.
    destruct (handler_add (resp_handler s) i x (waiting id cb ctx s) Hw Hx Hxa) as [Hw' Hq']; [done..|].
    split; [by split|]. split_and!; done.
Qed.

(** ** Polling the timers *)

(** The requests [ids] time out one after the other, those that still wait. *)
Fixpoint expire (now : Z) (ids : list Z) (p : gmap Z ResponseQueueEntry) : gmap Z ResponseQueueEntry * list Call :=
  match ids with
  | [] => (p, [])
  | id :: ids =>
      match p !! id with
      | None => expire now ids p
      | Some e =>
          let '(p', calls) := expire now ids (delete id p) in
          (p', answer e (mkResponse id 0 DIAG_RESP_GENERAL_REJECT 0 0 now false) :: calls)
      end
  end.
Lemma expire_app now a b p :
  expire now (a ++ b) p = ((expire now b (expire now a p).1).1, (expire now a p).2 ++ (expire now b (expire now a p).1).2).
Proof.
  revert p. induction a as [|id a IH]; intros p; cbn [expire app fst snd]; [by destruct (expire now b p)|].
  destruct (p !! id); [|apply IH]. rewrite IH. by destruct (expire now a (delete id p)).
Qed.

Definition all_requests (s : Responses) : Prop :=
  Forall (fun t => tm_active t = true -> tm_callback t = handle_response_timeout_address /\ is_u32 (tm_context t))
    (timers (timer_mgr (resp_timers s))).
(** After the timeouts of [ids]. *)
Definition timed_out (ids : list Z) (s : Responses) (m : Machine) (s' : Responses) (m' : Machine) : Prop :=
  let x := expire (DiagTimer_GetTimestamp (clock (resp_timers s))) ids (pending s) in
  responses_wf s' /\ pending s' = x.1 /\ resp_log s' = resp_log s /\ clock (resp_timers s') = clock (resp_timers s) /\
  m' = m <| trace ::= fun t => t ++ x.2 |>.
Lemma timed_out_app a b s m s1 m1 s2 m2 : timed_out a s m s1 m1 -> timed_out b s1 m1 s2 m2 -> timed_out (a ++ b) s m s2 m2.
Proof.
  intros (Hw & Hp & Hl & Hc & ->) (Hw2 & Hp2 & Hl2 & Hc2 & ->). rewrite Hc, Hp in Hp2. unfold timed_out. rewrite expire_app.
  rewrite Hc, Hp. split_and!; [done|done|congruence|congruence|]. cbn [snd]. destruct m; cbn. by rewrite app_assoc.
Qed.
Lemma timed_out_nil s m : responses_wf s -> timed_out [] s m s m.
Proof. intros H. split_and!; try done. cbn. destruct m; cbn. by rewrite app_nil_r. Qed.
Lemma handle_timed_out tid id s m : responses_wf s -> is_u32 id ->
  wp (handle_response_timeout tid id) (fun _ s' m' => timed_out [id] s m s' m' /\ resp_timers s' = resp_timers s) s m.
Proof.
  intros Hw Hid. eapply wp_mono; [by apply (handle_timeout_spec id s m)|]. intros [] s' m' H. unfold timed_out. cbn [expire].
  destruct (pending s !! id) as [e|]; cbn [fst snd].
  - destruct H as (H1 & H2 & H3 & H4 & ->). split; [|done]. split_and!; [done|done|done|congruence|done].
  - destruct H as [-> ->]. split; [|done]. split_and!; try done. destruct m; cbn. by rewrite app_nil_r.
Qed.

Lemma process_due now i t s m : responses_wf s -> DiagTimer.wf (resp_timers s) -> all_requests s ->
  timers (timer_mgr (resp_timers s)) !! i = Some t -> is_due now t = true -> handle_response_timeout_address <> 0 ->
  wp (process_slot run_callback now i) (fun _ s' m' => timed_out [tm_context t] s m s' m' /\
    resp_timers s' = DiagTimer_Stop (tm_id t) (resp_timers s)) s m.
Proof.
  intros Hw Ht Hall Hi Hd Haddr. assert (Ha := is_due_active _ _ Hd).
  unfold all_requests in Hall. rewrite Forall_lookup in Hall. destruct (Hall _ _ Hi Ha) as [Hcb Hctx].
  unfold process_slot, DiagTimer.slot. apply wp_bind, wp_bind, wp_get. cbn [get_timers Responses_timers]. rewrite Hi. apply wp_ret. rewrite Hd.
  apply wp_bind, wp_timers_op. cbn [get_timers set_timers Responses_timers fst snd].
  set (ts := (resp_timers s) <| timer_mgr ::= set_timer i (t <| tm_state := TIMER_STATE_EXPIRED |>) |>).
  set (s1 := s <| resp_timers := ts |>). rewrite Hcb, (proj2 (Z.eqb_neq _ _)) by done. cbn [negb].
  apply wp_bind. unfold run_callback. rewrite Z.eqb_refl.
  eapply wp_mono; [by apply (handle_timed_out (tm_id t) (tm_context t) s1)|]. intros [] s2 m2 [Hto Hts].
  apply wp_bind, wp_bind, wp_get. cbn [get_timers Responses_timers]. rewrite Hts. change (resp_timers s1) with ts.
  change (timers (timer_mgr ts)) with (<[i := t <| tm_state := TIMER_STATE_EXPIRED |>]> (timers (timer_mgr (resp_timers s)))).
  rewrite list_lookup_insert_eq by (by eapply lookup_lt_Some). apply wp_ret, wp_timers_op.
  cbn [get_timers set_timers Responses_timers fst snd]. rewrite Hts. change (resp_timers s1) with ts.
  change (tm_id (t <| tm_state := TIMER_STATE_EXPIRED |>)) with (tm_id t).
  assert (Hstop : DiagTimer_Stop (tm_id t) ts = DiagTimer_Stop (tm_id t) (resp_timers s)) by (by apply stop_expired).
  rewrite Hstop. split; [|done]. destruct Hto as (H1 & H2 & H3 & H4 & H5).
  destruct (stop_slot (resp_timers s) i t Ht Hi Ha) as (_ & _ & _ & Hclk & _).
  split_and!; [exact H1|exact H2|exact H3|exact Hclk|exact H5].
Qed.

Lemma process_loop_responses now n : handle_response_timeout_address <> 0 -> forall i s m, responses_wf s -> DiagTimer.wf (resp_timers s) ->
  all_requests s -> (n + i)%nat = MAX_TIMERS ->
  wp (process_loop run_callback now n i) (fun _ s' m' => DiagTimer.wf (resp_timers s') /\ all_requests s' /\
    last_check (timer_mgr (resp_timers s')) = last_check (timer_mgr (resp_timers s)) /\
    timers (timer_mgr (resp_timers s')) = take i (timers (timer_mgr (resp_timers s))) ++
      (after_poll now <$> drop i (timers (timer_mgr (resp_timers s)))) /\
    timed_out (tm_context <$> due now (drop i (timers (timer_mgr (resp_timers s))))) s m s' m') s m.
Proof.
  intros Haddr. induction n as [|n IH]; intros i s m Hw Ht Hall Hni; cbn [process_loop]; apply wp_bind, wp_get;
    cbn [get_timers Responses_timers]; destruct (i <? timer_count (timer_mgr (resp_timers s)))%nat eqn:Hi; tests.
  1: destruct Ht as ((? & ? & ?) & _); lia.
  1, 3: apply wp_ret; pose proof Ht as ((Hl & Hc & Hd) & _);
    assert (Hd' : Forall (fun t => tm_active t = false) (drop i (timers (timer_mgr (resp_timers s)))))
      by (eapply (free_from_mono _ i) in Hd; [exact Hd|lia]);
    destruct (due_inactive now _ Hd') as [-> ->]; rewrite take_drop; cbn [fmap list_fmap];
    split_and!; try done; by apply timed_out_nil.
  destruct (lookup_lt_is_Some_2 (timers (timer_mgr (resp_timers s))) i) as [t Hit]; [destruct Ht as ((-> & ? & ?) & _); lia|].
  rewrite (drop_S _ _ _ Hit). unfold due at 1. rewrite filter_cons. fold (due now). apply wp_bind.
  destruct (is_due now t) eqn:Edue.
  - rewrite decide_True by done. assert (Ha := is_due_active _ _ Edue).
    eapply wp_mono; [by apply (process_due now i t)|]. intros [] s1 m1 [Hto Hts].
    destruct (stop_slot (resp_timers s) i t Ht Hit Ha) as (Hw' & Hl' & _ & Hc' & Hlc').
    assert (Hall1 : all_requests s1).
    { unfold all_requests. rewrite Hts, Hl'. apply Forall_insert; [exact Hall|done]. }
    eapply wp_mono; [apply (IH (S i) s1 m1); [apply Hto|by rewrite Hts|done|lia]|].
    intros [] s2 m2 (H1 & H2 & H3 & H4 & H5). rewrite Hts, Hl' in H4, H5. rewrite Hts in H3. split_and!; [done|done|congruence| |].
    + rewrite H4, (take_S_r _ _ timer_blank) by (apply list_lookup_insert_eq; by eapply lookup_lt_Some).
      rewrite take_insert_ge, drop_insert_lt by lia. rewrite <- app_assoc. cbn. unfold after_poll at 2. by rewrite Edue.
    + rewrite drop_insert_lt in H5 by lia. rewrite fmap_cons. exact (timed_out_app [_] _ _ _ _ _ _ _ Hto H5).
  - rewrite decide_False by done. unfold process_slot, DiagTimer.slot. apply wp_bind, wp_bind, wp_get.
    cbn [get_timers Responses_timers]. rewrite Hit. apply wp_ret. rewrite Edue. apply wp_ret.
    eapply wp_mono; [apply (IH (S i) s m); [done|done|done|lia]|]. intros [] s2 m2 (H1 & H2 & H3 & H4 & H5).
    split_and!; [done|done|done| |done]. rewrite H4, (take_S_r _ _ t Hit), <- app_assoc. cbn. unfold after_poll at 2. by rewrite Edue.
Qed.

(** The clock moves on, and the application polls the timers. *)
Definition elapse (tv : Timeval) : M Responses unit := modify (fun s => s <| resp_timers ::= fun t => t <| clock := tv |> |>).
Definition poll_responses (tv : Timeval) : M Responses unit := elapse tv;; DiagTimer_Process run_callback.
Definition early (tv : Timeval) (s : Responses) : bool :=
  u32 (u32 (millis tv) - last_check (timer_mgr (resp_timers s))) <? TIMER_CHECK_INTERVAL.
Definition due_requests (tv : Timeval) (s : Responses) : list Z :=
  if early tv s then [] else tm_context <$> due (u32 (millis tv)) (timers (timer_mgr (resp_timers s))).

Lemma all_requests_map s : DiagTimer.wf (resp_timers s) ->
  all_requests s <-> map_Forall (fun _ t => tm_callback t = handle_response_timeout_address /\ is_u32 (tm_context t)) (timer_map (resp_timers s)).
Proof.
  intros Hw. unfold all_requests. rewrite Forall_lookup. split.
  - intros H k t Hk. apply slot_map_inv in Hk as (i & Hi & Ha & _); [|apply Hw]. by eapply H.
  - intros H i t Hi Ha. eapply H. by eapply timer_map_lookup.
Qed.
Lemma poll_responses_spec tv s m : handle_response_timeout_address <> 0 -> responses_wf s -> DiagTimer.wf (resp_timers s) -> all_requests s ->
  wp (poll_responses tv) (fun _ s' m' => DiagTimer.wf (resp_timers s') /\ all_requests s' /\
    responses_wf s' /\ resp_log s' = resp_log s /\ clock (resp_timers s') = tv /\
    pending s' = (expire (DiagTimer_GetTimestamp tv) (due_requests tv s) (pending s)).1 /\
    m' = m <| trace ::= fun t => t ++ (expire (DiagTimer_GetTimestamp tv) (due_requests tv s) (pending s)).2 |>) s m.
Proof.
  intros Haddr Hw Ht Hall. unfold poll_responses, elapse. apply wp_bind, wp_modify.
  match goal with |- wp _ _ ?z _ => set (s1 := z) end. unfold DiagTimer_Process. apply wp_bind, wp_get.
  change (get_timers s1) with (resp_timers s1).
  assert (Ht1 : DiagTimer.wf (resp_timers s1)) by exact Ht.
  change (tm_initialized (timer_mgr (resp_timers s1))) with (tm_initialized (timer_mgr (resp_timers s))).
  destruct Ht as (_ & Hti & _). rewrite Hti. cbn [negb]. cbv zeta.
  change (u32 (get_timestamp (resp_timers s1) - last_check (timer_mgr (resp_timers s1))) <? TIMER_CHECK_INTERVAL) with (early tv s).
  unfold due_requests. destruct (early tv s).
  - apply wp_ret. split_and!; try done. cbn. destruct m; cbn. by rewrite app_nil_r.
  - apply wp_bind, wp_timers_op. cbn [fst snd]. match goal with |- wp _ _ ?z _ => set (s2 := z) end.
    assert (Ht2 : DiagTimer.wf (resp_timers s2)) by exact Ht1.
    change (get_timestamp (resp_timers s1)) with (u32 (millis tv)).
    eapply wp_mono; [apply (process_loop_responses _ MAX_TIMERS Haddr 0 s2); [exact Hw|exact Ht2|exact Hall|done]|].
    intros [] s3 m3 (H1 & H2 & H3 & H4 & (H5 & H6 & H7 & H8 & H9)). rewrite drop_0 in H6, H9.
    change (clock (resp_timers s2)) with tv in *. change (pending s2) with (pending s) in *.
    change (timers (timer_mgr (resp_timers s2))) with (timers (timer_mgr (resp_timers s))) in *. by split_and!.
Qed.

Lemma expire_subset now ids : forall p, (expire now ids p).1 ⊆ p.
Proof.
  induction ids as [|id ids IH]; intros p; cbn [expire]; [done|]. destruct (p !! id); [|apply IH].
  specialize (IH (delete id p)). destruct (expire now ids (delete id p)) as [p' c]. cbn [fst] in *.
  transitivity (delete id p); [exact IH|apply delete_subseteq].
Qed.
Lemma expire_in now ids id e : id ∈ ids -> forall p, p !! id = Some e ->
  answer e (mkResponse id 0 DIAG_RESP_GENERAL_REJECT 0 0 now false) ∈ (expire now ids p).2 /\ (expire now ids p).1 !! id = None.
Proof.
  induction ids as [|id' ids IH]; intros Hin p Hp; [by apply elem_of_nil in Hin|]. cbn [expire].
  destruct (decide (id' = id)) as [->|Hne].
  - rewrite Hp. pose proof (expire_subset now ids (delete id p)) as Hs. destruct (expire now ids (delete id p)) as [p' c]. cbn [fst snd] in *.
    split; [by left|]. destruct (p' !! id) as [x|] eqn:E; [|done]. eapply map_subseteq_spec in Hs; [|exact E]. by rewrite lookup_delete_eq in Hs.
  - assert (Hin' : id ∈ ids) by (apply elem_of_cons in Hin as [?|?]; [congruence|done]). destruct (p !! id') as [x|]; [|by apply IH].
    specialize (IH Hin' (delete id' p)). rewrite lookup_delete_ne in IH by done. destruct (IH Hp) as [H1 H2].
    destruct (expire now ids (delete id' p)). cbn [fst snd] in *. split; [by right|done].
Qed.
(** The timer of a request started at [T0] is due from [T0 + 1000] on. *)
Lemma request_due s T0 t id tv : DiagTimer.wf (resp_timers s) -> timer_map (resp_timers s) !! t = Some
    (mkTimer t TIMER_TYPE_REQUEST RESPONSE_TIMEOUT (u32 T0) TIMER_STATE_RUNNING handle_response_timeout_address id true) ->
  T0 + RESPONSE_TIMEOUT <= millis tv < T0 + 2 ^ 32 -> early tv s = false -> id ∈ due_requests tv s.
Proof.
  intros Hw Ht Hn He. unfold due_requests. rewrite He. apply slot_map_inv in Ht as (i & Hi & _ & _); [|apply Hw].
  apply list_elem_of_fmap. match type of Hi with _ = Some ?x => exists x end. split; [done|]. apply list_elem_of_filter. split; [|by eapply list_elem_of_lookup_2].
  unfold is_due. cbn. unfold RESPONSE_TIMEOUT in *. rewrite u32_diff by lia. apply Z.leb_le. lia.
Qed.
Lemma request_timer_eq id s : request_timer id s =
  mkTimer (next_timer s) TIMER_TYPE_REQUEST RESPONSE_TIMEOUT (u32 (millis (clock (resp_timers s)))) TIMER_STATE_RUNNING handle_response_timeout_address id true.
Proof. done. Qed.

(** ** Properties *)

(** The requests that wait are a finite map of at most sixteen: queueing adds a request
    and its timer or, when the number waits already, the callback is NULL or a table is
    full, changes neither; a response calls the callback of its request once, frees the
    data of the response and removes the request, and one nobody waits for does nothing;
    a timeout likewise, with a general reject that has lost the service. *)
Theorem response_queue_refines s : responses_wf s -> timers_ok s -> handle_response_timeout_address <> 0 ->
  (forall id cb ctx m, is_u32 id -> wp (DiagResponse_QueueResponse id cb ctx) (fun ok s' m' => responses_wf s' /\ m' = m /\
    if decide (cb = 0 \/ is_Some (pending s !! id) \/ size (pending s) = MAX_PENDING_RESPONSES \/
               size (timer_map (resp_timers s)) = MAX_TIMERS)
    then ok = false /\ pending s' = pending s /\ resp_timers s' = resp_timers s
    else ok = true /\ pending s' = <[id := waiting id cb ctx s]> (pending s) /\
      timer_map (resp_timers s') = <[next_timer s := request_timer id s]> (timer_map (resp_timers s))) s m) /\
  (forall r m, wp (DiagResponse_HandleResponse (Some r)) (fun ok s' m' =>
    match pending s !! rs_id r with
    | None => ok = false /\ unchanged s m s' m'
    | Some e => ok = true /\ ends (rs_id r) (answer e r :: freed r) s m s' m'
    end) s m) /\
  (forall id tid m, is_u32 id -> wp (handle_response_timeout tid id) (fun _ s' m' =>
    match pending s !! id with
    | None => unchanged s m s' m'
    | Some e => ends id [answer e (timeout_response id s)] s m s' m'
    end) s m).
Proof.
  intros Hw Ht Haddr. split_and!.
  - intros id cb ctx m Hid. eapply wp_mono; [by apply queue_response_spec|]. intros ok s' m' (H1 & H2 & _ & H4).
    split; [done|]. split; [done|]. destruct (decide _); [done|]. by destruct H4 as (? & ? & _ & ? & _).
  - intros r m. by apply handle_response_spec.
  - intros id tid m Hid. exact (handle_timeout_spec id s m Hw Hid).
Qed.

(** A poll of the timers ends exactly the requests whose timers are due and that still
    wait, in the order of the timers, each with one call of its callback. *)
Theorem response_poll_exact tv s m : handle_response_timeout_address <> 0 -> responses_wf s -> timers_ok s ->
  wp (poll_responses tv) (fun _ s' m' => responses_wf s' /\
    pending s' = (expire (DiagTimer_GetTimestamp tv) (due_requests tv s) (pending s)).1 /\
    m' = m <| trace ::= fun t => t ++ (expire (DiagTimer_GetTimestamp tv) (due_requests tv s) (pending s)).2 |>) s m.
Proof.
  intros Haddr Hw (Ht & _ & Hall). eapply wp_mono; [by apply poll_responses_spec|]. by intros [] s' m' (_ & _ & ? & _ & _ & ? & ?).
Qed.

(** A response does not stop the timer of its request.  If the number is used again,
    the timer of the request that was answered ends the new one: a poll 1000 ms after the
    first request gives the second one up, however little time it had. *)
Theorem stale_timer_ends_request id cb ctx cb2 ctx2 r tv2 tv3 s m :
  handle_response_timeout_address <> 0 -> responses_wf s -> timers_ok s -> is_u32 id -> cb <> 0 -> cb2 <> 0 -> rs_id r = id ->
  pending s !! id = None -> (size (pending s) < MAX_PENDING_RESPONSES)%nat ->
  (S (size (timer_map (resp_timers s))) < MAX_TIMERS)%nat -> timer_map (resp_timers s) !! id_after (next_timer s) = None ->
  millis (clock (resp_timers s)) + RESPONSE_TIMEOUT <= millis tv3 < millis (clock (resp_timers s)) + 2 ^ 32 -> early tv3 s = false ->
  wp (DiagResponse_QueueResponse id cb ctx;; DiagResponse_HandleResponse (Some r);; elapse tv2;;
      ok ← DiagResponse_QueueResponse id cb2 ctx2; poll_responses tv3;; mret ok)
    (fun ok s' m' => ok = true /\ pending s' !! id = None /\ exists e, rq_callback e = cb2 /\ rq_context e = ctx2 /\
       answer e (mkResponse id 0 DIAG_RESP_GENERAL_REJECT 0 0 (DiagTimer_GetTimestamp tv3) false) ∈ trace m') s m.
Proof.
  intros Haddr Hw Ht Hid Hcb Hcb2 Hr Hp Hsz Htsz Hnext Htime Hearly.
  pose proof Ht as (Htw & Hfresh & Hall). apply (all_requests_map s Htw) in Hall.
  apply wp_bind. eapply wp_mono; [by apply (queue_response_spec id cb ctx s m)|]. intros ok s1 m1 (Hw1 & -> & _ & Hq).
  destruct (decide _) as [[?|[[? H1]|[H2|H2]]]|_]; [done|congruence|lia|lia|].
  destruct Hq as (_ & Hp1 & Htw1 & Hm1 & Hc1 & Hlc1 & Hn1). clear ok.
  apply wp_bind. eapply wp_mono; [by apply (handle_response_spec r s1 m)|]. intros ok s2 m2 Hh.
  rewrite Hr, Hp1, lookup_insert_eq in Hh. destruct Hh as (_ & Hw2 & Hp2 & Ht2 & _ & _). clear ok.
  rewrite Hp1, delete_insert_id in Hp2 by done.
  apply wp_bind, wp_modify. match goal with |- wp _ _ ?z _ => set (s3 := z) end.
  assert (Hw3 : responses_wf s3) by exact Hw2.
  assert (Hm3 : timer_map (resp_timers s3) = <[next_timer s := request_timer id s]> (timer_map (resp_timers s))) by (rewrite <- Hm1, <- Ht2; done).
  assert (Hn3 : next_timer s3 = id_after (next_timer s)) by (rewrite <- Hn1; unfold next_timer; by rewrite <- Ht2).
  assert (Htw3 : DiagTimer.wf (resp_timers s3)) by (rewrite <- Ht2 in Htw1; exact Htw1).
  assert (Hne : id_after (next_timer s) <> next_timer s).
  { destruct Htw as (_ & _ & Hu & H0 & _). unfold id_after, next_timer. unfold is_u32 in Hu.
    destruct (decide (next_id (timer_mgr (resp_timers s)) = 2 ^ 32 - 1)) as [->|]; [done|].
    rewrite (u32_small (_ + 1)) by (unfold is_u32; lia). case_match; lia. }
  assert (Hok3 : timers_ok s3).
  { split; [done|]. split; [by rewrite Hn3, Hm3, lookup_insert_ne by done|]. apply (all_requests_map s3 Htw3). rewrite Hm3.
    by apply map_Forall_insert_2. }
  apply wp_bind. eapply wp_mono; [by apply (queue_response_spec id cb2 ctx2 s3 m2)|]. intros ok s4 m4 (Hw4 & -> & _ & Hq).
  change (pending s3) with (pending s2) in Hq. rewrite Hp2, Hm3 in Hq.
  destruct (decide _) as [[?|[[? H1]|[H2|H2]]]|_]; [done|congruence|lia|rewrite map_size_insert_None in H2 by done; lia|].
  destruct Hq as (-> & Hp4 & Htw4 & Hm4 & Hc4 & Hlc4 & _). apply wp_bind.
  assert (Hall4 : all_requests s4).
  { apply (all_requests_map s4 Htw4). rewrite Hm4. apply map_Forall_insert_2; [done|]. by apply map_Forall_insert_2. }
  eapply wp_mono; [by apply (poll_responses_spec tv3 s4 m2)|]. intros [] s5 m5 (_ & _ & _ & _ & _ & Hp5 & ->). apply wp_ret.
  assert (Hdue : id ∈ due_requests tv3 s4).
  { apply (request_due s4 (millis (clock (resp_timers s))) (next_timer s)); [done| |done|].
    - rewrite Hm4, lookup_insert_ne by (by rewrite Hn3). by rewrite lookup_insert_eq, request_timer_eq.
    - unfold early in *. rewrite Hlc4. change (last_check (timer_mgr (resp_timers s3))) with (last_check (timer_mgr (resp_timers s2))).
      by rewrite Ht2, Hlc1. }
  destruct (expire_in (DiagTimer_GetTimestamp tv3) (due_requests tv3 s4) id (waiting id cb2 ctx2 s3) Hdue (pending s4)) as [Hin Hgone].
  { by rewrite Hp4, lookup_insert_eq. }
  split; [done|]. split; [by rewrite Hp5|]. exists (waiting id cb2 ctx2 s3). split_and!; [done|done|].
  apply elem_of_app. by right.
Qed.
End responses.

(** ** Witnesses *)

Definition host_time (tv : Timeval) : Z := u32 (millis tv).
Definition example_responses : Responses :=
  mkResponses (handler_zero <| rh_initialized := true |>) (DiagTimer_Init (mkTimers timer_mgr_zero (mkTimeval 1 0))).2 false
    (Some LOG_LEVEL_DEBUG).
Lemma example_responses_wf : responses_wf example_responses.
Proof.
  split; [|done]. constructor; cbn; [done|done|unfold MAX_PENDING_RESPONSES; lia| | |].
  - by repeat constructor.
  - apply NoDup_nil_2.
  - by repeat constructor.
Qed.
Lemma example_timers_ok : timers_ok 7 example_responses.
Proof.
  destruct (init_wf (mkTimers timer_mgr_zero (mkTimeval 1 0)) eq_refl) as (Hw & Hm & _).
  split; [exact Hw|]. split; [|by repeat constructor]. change (timer_map (resp_timers example_responses) !! 1 = None).
  change (resp_timers example_responses) with (DiagTimer_Init (mkTimers timer_mgr_zero (mkTimeval 1 0))).2. by rewrite Hm.
Qed.

Lemma response_queue_refines_witness :
  wp (DiagResponse_QueueResponse host_time 7 3 5 9) (fun ok s' _ => ok = true /\ is_Some (pending s' !! 3)) example_responses boot.
Proof.
  destruct (response_queue_refines host_time 7 example_responses example_responses_wf example_timers_ok) as (Hq & _ & _); [done|].
  assert (Hp : pending example_responses = ∅) by (vm_compute; reflexivity).
  assert (Ht : timer_map (resp_timers example_responses) = ∅) by (vm_compute; reflexivity).
  eapply wp_mono; [apply (Hq 3 5 9 boot); unfold is_u32; lia|]. intros ok s' m' (_ & _ & H).
  rewrite Hp, Ht in H. destruct (decide _) as [[?|[[? H1]|[H2|H2]]]|_]; [done|done|done|done|].
  destruct H as (-> & -> & _). split; [done|]. by rewrite lookup_insert_eq.
Defined.
Lemma response_poll_exact_witness :
  wp (poll_responses host_time 7 (mkTimeval 3 0)) (fun _ s' m' => pending s' = ∅ /\ m' = boot) example_responses boot.
Proof.
  eapply wp_mono; [apply (response_poll_exact host_time 7 (mkTimeval 3 0) example_responses boot); [done|apply example_responses_wf|apply example_timers_ok]|].
  intros [] s' m' (_ & -> & ->). split; vm_compute; reflexivity.
Defined.
(** The second request has 1 ms. *)
Lemma stale_timer_ends_request_witness :
  wp (DiagResponse_QueueResponse host_time 7 3 5 9;; DiagResponse_HandleResponse (Some (mkResponse 3 0x22 0 0 0 0 true));;
      elapse (mkTimeval 1 999000);; ok ← DiagResponse_QueueResponse host_time 7 3 6 10;
      poll_responses host_time 7 (mkTimeval 2 0);; mret ok)
    (fun ok s' m' => ok = true /\ pending s' !! 3 = None /\ exists e, rq_callback e = 6 /\ rq_context e = 10 /\
       answer e (mkResponse 3 0 DIAG_RESP_GENERAL_REJECT 0 0 2000 false) ∈ trace m') example_responses boot.
Proof.
  assert (Hp : pending example_responses = ∅) by (vm_compute; reflexivity).
  assert (Ht : timer_map (resp_timers example_responses) = ∅) by (vm_compute; reflexivity).
  apply (stale_timer_ends_request host_time 7 3 5 9 6 10); try done.
  - apply example_responses_wf.
  - apply example_timers_ok.
  - rewrite Hp. vm_compute. lia.
  - rewrite Ht. vm_compute. lia.
Defined.
