(* ===== verification/DiagFilter.v ===== *)
(** * Message filters

    [src/runtime/diagnostic/diag_filter.c]: a chain of filters that a message must pass.
    The header of the file is not in the repository: the size of the chain and the results
    of a filter are parameters, and the structures have the members the code uses.  The
    functions have no critical section; the filters the program does not define are
    arbitrary functions of the buffer, the length and the flags of the chain. *)

From S2P Require Import Prelude.

Section filter.
Context (FILTER_CHAIN_SIZE : nat) (FilterResult : Type) (FILTER_ACCEPT FILTER_REJECT : FilterResult).
Context `{EqDecision FilterResult}.

Definition BUFFER_SIZE : nat := 1024.
Inductive FilterFunc := security_filter_ptr | session_filter_ptr | other_filter (f : list Z -> nat -> Z -> FilterResult).
Record FilterConfig := mkFilterConfig { fc_id : Z; fc_type : Z; fc_enabled : bool }.
Record FilterChain := mkChain { filters : list (FilterFunc * FilterConfig); flags : Z }.
Record Filter := mkFilter {
  msg_buffer : list Z; main_chain : FilterChain; last_error : Z; filter_initialized : bool; msg_counts : list Z;
  temp_session : Z }.

Definition chain_of (s : Filter) : list (FilterFunc * FilterConfig) := filters (main_chain s).
Definition set_chain (l : list (FilterFunc * FilterConfig)) (s : Filter) : Filter :=
  mkFilter (msg_buffer s) (mkChain l (flags (main_chain s))) (last_error s) (filter_initialized s) (msg_counts s) (temp_session s).
Definition set_error (e : Z) (s : Filter) : Filter :=
  mkFilter (msg_buffer s) (main_chain s) e (filter_initialized s) (msg_counts s) (temp_session s).
Definition set_buffer (b : list Z) (s : Filter) : Filter :=
  mkFilter b (main_chain s) (last_error s) (filter_initialized s) (msg_counts s) (temp_session s).
Definition count (i : nat) (s : Filter) : Filter :=
  mkFilter (msg_buffer s) (main_chain s) (last_error s) (filter_initialized s) (alter (fun n => u32 (n + 1)) i (msg_counts s))
    (temp_session s).
Definition set_session (x : Z) (s : Filter) : Filter :=
  mkFilter (msg_buffer s) (main_chain s) (last_error s) (filter_initialized s) (msg_counts s) x.
Definition set_main (c : FilterChain) (init : bool) (s : Filter) : Filter :=
  mkFilter (msg_buffer s) c (last_error s) init (msg_counts s) (temp_session s).

(** [!chain->flags & 0x01] is [(!chain->flags) & 0x01]: no flag at all is set. *)
Definition security_filter (data : list Z) (length : nat) (s : Filter) : option (FilterResult * Filter) :=
  if (length <? 2)%nat then Some (FILTER_REJECT, s) else
  sid ← data !! 1%nat;
  if (sid =? 0x27) && (flags (main_chain s) =? 0) then Some (FILTER_REJECT, set_error 0x100 s) else Some (FILTER_ACCEPT, s).
Definition check_session_allowed (session : Z) : bool := session <=? 4.
(** The length is not looked at. *)
Definition session_filter (data : list Z) (length : nat) (s : Filter) : option (FilterResult * Filter) :=
  sid ← data !! 0%nat;
  if negb (sid =? 0x10) then Some (FILTER_ACCEPT, s) else
  session ← data !! 1%nat;
  if negb (check_session_allowed session) then Some (FILTER_REJECT, s) else Some (FILTER_ACCEPT, set_session session s).
Definition run_filter (f : FilterFunc) (data : list Z) (length : nat) (s : Filter) : option (FilterResult * Filter) :=
  match f with
  | security_filter_ptr => security_filter data length s
  | session_filter_ptr => session_filter data length s
  | other_filter f => Some (f data length (flags (main_chain s)), s)
  end.

Definition DiagFilter_AddFilter (filter : option FilterFunc) (config : option FilterConfig) (s : Filter) : bool * Filter :=
  match filter, config with
  | Some filter, Some config =>
      if negb (filter_initialized s) then (false, s) else
      if (FILTER_CHAIN_SIZE <=? length (chain_of s))%nat then (false, s) else
      (true, count 0 (set_chain (chain_of s ++ [(filter, config)]) s))
  | _, _ => (false, s)
  end.
Definition DiagFilter_Init (s : Filter) : bool * Filter :=
  if filter_initialized s then (false, s) else
  let s := set_buffer (replicate BUFFER_SIZE 0) (set_main (mkChain [] 0) (filter_initialized s) s) in
  let s := (DiagFilter_AddFilter (Some security_filter_ptr) (Some (mkFilterConfig 1 1 true)) s).2 in
  (true, set_main (main_chain s) true s).
Definition calculate_checksum (data : list Z) : Z := foldl (fun sum b => u32 (sum + b)) 0 data.
Definition DiagFilter_Deinit (s : Filter) : Filter := set_main (mkChain [] 0) false s.
Definition get_filter_flags (s : Filter) : Z := flags (main_chain s).
Definition set_filter_flags (x : Z) (s : Filter) : Filter := set_main (mkChain (chain_of s) x) (filter_initialized s) s.

(** The loop over the chain: the first result that is not [FILTER_ACCEPT], or none. *)
Fixpoint chain_loop (l : list (FilterFunc * FilterConfig)) (length : nat) (s : Filter) : option (option FilterResult * Filter) :=
  match l with
  | [] => Some (None, s)
  | (f, c) :: l =>
      if negb (fc_enabled c) then chain_loop l length s else
      '(result, s) ← run_filter f (msg_buffer s) length s;
      if decide (result = FILTER_ACCEPT) then chain_loop l length s else Some (Some result, s)
  end.
Definition DiagFilter_Process (data : option (list Z)) (s : Filter) : option (FilterResult * Filter) :=
  match data with
  | None => Some (FILTER_REJECT, s)
  | Some data =>
      if negb (filter_initialized s) || (length data =? 0)%nat then Some (FILTER_REJECT, s) else
      if (BUFFER_SIZE <? length data)%nat then Some (FILTER_REJECT, set_error 0x200 s) else
      let s := set_buffer (data ++ drop (length data) (msg_buffer s)) s in
      '(r, s) ← chain_loop (chain_of s) (length data) s;
      match r with
      | Some result => Some (result, count 2 s)
      | None => Some (FILTER_ACCEPT, count 1 s)
      end
  end.
(** The first filter of the chain with this number. *)
Fixpoint set_enabled (id : Z) (b : bool) (l : list (FilterFunc * FilterConfig)) : list (FilterFunc * FilterConfig) :=
  match l with
  | [] => []
  | (f, c) :: l => if fc_id c =? id then (f, mkFilterConfig (fc_id c) (fc_type c) b) :: l else (f, c) :: set_enabled id b l
  end.
Definition DiagFilter_EnableFilter (id : Z) (s : Filter) : Filter := set_chain (set_enabled id true (chain_of s)) s.
Definition DiagFilter_DisableFilter (id : Z) (s : Filter) : Filter := set_chain (set_enabled id false (chain_of s)) s.

(** ** Specification: the verdict of a filter on a buffer *)

Definition verdict (fl : Z) (buffer : list Z) (n : nat) (f : FilterFunc) : FilterResult :=
  match f with
  | security_filter_ptr =>
      if (n <? 2)%nat || (nth 1 buffer 0 =? 0x27) && (fl =? 0) then FILTER_REJECT else FILTER_ACCEPT
  | session_filter_ptr => if (nth 0 buffer 0 =? 0x10) && (4 <? nth 1 buffer 0) then FILTER_REJECT else FILTER_ACCEPT
  | other_filter f => f buffer n fl
  end.
Definition enabled (l : list (FilterFunc * FilterConfig)) : list FilterFunc := (filter (fun x => fc_enabled x.2 = true) l).*1.
(** The first verdict that is not to accept. *)
Definition chain_verdict (fl : Z) (buffer : list Z) (n : nat) (fs : list FilterFunc) : FilterResult :=
  match list_find (fun f => verdict fl buffer n f <> FILTER_ACCEPT) fs with
  | Some (_, f) => verdict fl buffer n f
  | None => FILTER_ACCEPT
  end.

Lemma run_filter_spec f n s : (2 <= length (msg_buffer s))%nat -> exists s', run_filter f (msg_buffer s) n s =
  Some (verdict (flags (main_chain s)) (msg_buffer s) n f, s') /\ msg_buffer s' = msg_buffer s /\ main_chain s' = main_chain s /\
  msg_counts s' = msg_counts s.
Proof.
  intros Hb. destruct (msg_buffer s) as [|b0 [|b1 buf]] eqn:E; cbn in Hb; [lia|lia|]. rewrite <- E. clear Hb. destruct f as [| |f]; cbn [run_filter verdict].
  - unfold security_filter. rewrite E. cbn [lookup list_lookup mbind option_bind nth]. destruct (n <? 2)%nat; cbn [orb]; [by exists s|].
    destruct (_ && _); by eexists.
  - unfold session_filter, check_session_allowed. rewrite E. cbn [lookup list_lookup mbind option_bind nth].
    destruct (b0 =? 16); cbn [negb andb]; [|by exists s]. rewrite Z.ltb_antisym. destruct (b1 <=? 4); cbn [negb]; by eexists.
  - by exists s.
Qed.
Lemma chain_loop_spec l n : forall s, (2 <= length (msg_buffer s))%nat -> exists r s', chain_loop l n s = Some (r, s') /\
  default FILTER_ACCEPT r = chain_verdict (flags (main_chain s)) (msg_buffer s) n (enabled l) /\ r <> Some FILTER_ACCEPT /\
  msg_buffer s' = msg_buffer s /\ main_chain s' = main_chain s /\ msg_counts s' = msg_counts s.
Proof.
  induction l as [|[f c] l IH]; intros s Hb; cbn [chain_loop]; [by exists None, s|].
  unfold enabled. destruct (fc_enabled c) eqn:Ec; cbn [negb].
  2: { rewrite filter_cons_False by (cbn; congruence). by apply IH. }
  rewrite filter_cons_True by done. cbn [fmap list_fmap fst]. fold (enabled l).
  destruct (run_filter_spec f n s Hb) as (s1 & -> & Hb1 & Hm1 & Hc1). cbn [mbind option_bind].
  unfold chain_verdict. cbn [list_find]. destruct (decide (verdict _ _ _ f = FILTER_ACCEPT)) as [E|E].
  - rewrite decide_False by (intros ?; done). destruct (IH s1) as (r & s' & -> & Hr & Hn & Hb2 & Hm2 & Hc2); [by rewrite Hb1|].
    exists r, s'. split_and!; [done| |done|congruence|congruence|congruence]. rewrite Hr, Hb1, Hm1. unfold chain_verdict.
    by destruct (list_find _ _) as [[i x]|].
  - rewrite decide_True by done. eexists (Some _), s1. split_and!; try done. congruence.
Qed.

(** ** Properties *)

(** A message of 1 to 1024 bytes gets the first verdict of an enabled filter that does
    not accept it, in the order of the chain, on the buffer that holds the message and,
    behind it, what earlier messages left; it is counted as accepted or rejected.  Every
    other message is rejected, and no access leaves the buffer. *)
Theorem filter_process_exact data s : length (msg_buffer s) = BUFFER_SIZE -> exists r s', DiagFilter_Process (Some data) s = Some (r, s') /\
  length (msg_buffer s') = BUFFER_SIZE /\ main_chain s' = main_chain s /\
  if filter_initialized s && (0 <? length data)%nat && (length data <=? BUFFER_SIZE)%nat then
    let buffer := data ++ drop (length data) (msg_buffer s) in
    r = chain_verdict (flags (main_chain s)) buffer (length data) (enabled (chain_of s)) /\ msg_buffer s' = buffer /\
    msg_counts s' = alter (fun n => u32 (n + 1)) (if decide (r = FILTER_ACCEPT) then 1%nat else 2%nat) (msg_counts s)
  else r = FILTER_REJECT /\ msg_counts s' = msg_counts s.
Proof.
  intros Hb. unfold DiagFilter_Process. destruct (filter_initialized s); cbn [negb orb andb]; [|by eexists _, s].
  destruct data as [|d data]; [by eexists _, s|]. cbn [length]. cbn [Nat.eqb]. set (msg := d :: data). fold (length msg).
  change (S (length data)) with (length msg). rewrite Nat.ltb_antisym.
  change (0 <? length msg)%nat with true. cbn [andb].
  destruct (length msg <=? BUFFER_SIZE)%nat eqn:E; cbn [negb]; tests; [|by eexists _, (set_error 0x200 s)].
  set (buffer := msg ++ drop (length msg) (msg_buffer s)).
  assert (Hl : length buffer = BUFFER_SIZE) by (unfold buffer; rewrite length_app, length_drop; lia).
  destruct (chain_loop_spec (chain_of (set_buffer buffer s)) (length msg) (set_buffer buffer s)) as (r & s' & Hr & Hv & Hn & Hb' & Hm & Hc).
  { cbn [msg_buffer set_buffer]. rewrite Hl. unfold BUFFER_SIZE. lia. }
  cbv zeta. rewrite Hr. cbn [mbind option_bind]. cbn [msg_buffer main_chain set_buffer msg_counts] in *.
  destruct r as [r|]; cbn [default] in Hv.
  - exists r, (count 2 s'). split_and!; [done|cbn; by rewrite Hb'|exact Hm|exact Hv|exact Hb'|].
    rewrite decide_False by (intros ->; done). cbn. by rewrite Hc.
  - eexists FILTER_ACCEPT, (count 1 s'). split_and!; [done|cbn; by rewrite Hb'|exact Hm|exact Hv|exact Hb'|].
    rewrite decide_True by done. cbn. by rewrite Hc.
Qed.

(** Initialisation means to install the security filter and does not, because filters
    are refused until it has ended: after it every message of 1 to 1024 bytes is accepted,
    requests for security access included, until the application adds filters of its own. *)
Theorem fresh_chain_accepts data s : filter_initialized s = false -> (0 < length data <= BUFFER_SIZE)%nat ->
  let s1 := (DiagFilter_Init s).2 in
  chain_of s1 = [] /\ exists s2, DiagFilter_Process (Some data) s1 = Some (FILTER_ACCEPT, s2).
Proof.
  intros Hi Hd s1.
  assert (Hc : chain_of s1 = [] /\ filter_initialized s1 = true /\ msg_buffer s1 = replicate BUFFER_SIZE 0).
  { unfold s1, DiagFilter_Init. rewrite Hi. cbn [DiagFilter_AddFilter filter_initialized set_buffer set_main negb snd]. done. }
  destruct Hc as (Hc & Hi1 & Hb). split; [done|].
  destruct (filter_process_exact data s1) as (r & s2 & Hr & _ & _ & H); [by rewrite Hb, length_replicate|].
  rewrite Hi1, (proj2 (Nat.ltb_lt _ _)), (proj2 (Nat.leb_le _ _)) in H by lia. destruct H as (-> & _). rewrite Hr, Hc. by eexists.
Qed.

(** A chain with the session filter decides a request of one byte by the second byte of
    the message before it, which is still in the buffer. *)
Theorem session_filter_stale c before x y s : length (msg_buffer s) = BUFFER_SIZE -> filter_initialized s = true ->
  chain_of s = [(session_filter_ptr, c)] -> fc_enabled c = true -> FILTER_REJECT <> FILTER_ACCEPT -> (2 + length before <= BUFFER_SIZE)%nat ->
  exists r s1 s2, DiagFilter_Process (Some (x :: y :: before)) s = Some (r, s1) /\
    DiagFilter_Process (Some [0x10]) s1 = Some (if 4 <? y then FILTER_REJECT else FILTER_ACCEPT, s2).
Proof.
  intros Hb Hi Hc He Hne Hl. destruct (filter_process_exact (x :: y :: before) s Hb) as (r & s1 & Hr & Hb1 & Hm1 & H).
  rewrite Hi in H. cbn [length] in H. rewrite (proj2 (Nat.leb_le _ _)) in H by lia. destruct H as (_ & Hbuf & _).
  assert (Hi1 : filter_initialized s1 = true).
  { revert Hr. unfold DiagFilter_Process. rewrite Hi. cbn [negb orb length Nat.eqb]. rewrite (proj2 (Nat.ltb_ge _ _)) by lia.
    change (chain_of (set_buffer ?b s)) with (chain_of s). rewrite Hc. cbn [chain_loop]. rewrite He. cbn [negb run_filter].
    unfold session_filter. cbn [msg_buffer set_buffer app lookup list_lookup mbind option_bind].
    repeat (case_match; cbn [mbind option_bind]; try done); intros [= <- <-]; exact Hi. }
  destruct (filter_process_exact [0x10] s1 Hb1) as (r2 & s2 & Hr2 & _ & _ & H). rewrite Hi1 in H.
  change (0 <? length [16])%nat with true in H. change (length [16] <=? BUFFER_SIZE)%nat with true in H. cbn [andb] in H.
  destruct H as (H2 & _). exists r, s1, s2. split; [done|]. rewrite Hr2, H2. do 2 f_equal.
  unfold chain_of in *. rewrite Hm1, Hc, Hbuf. unfold enabled. rewrite filter_cons_True by done. cbn [fmap list_fmap fst filter list_filter].
  match goal with |- chain_verdict ?fl ?b ?n _ = _ =>
    assert (Hv : verdict fl b n session_filter_ptr = if 4 <? y then FILTER_REJECT else FILTER_ACCEPT) by done end.
  unfold chain_verdict. cbn [list_find]. rewrite Hv. destruct (4 <? y).
  - by rewrite decide_True.
  - by rewrite decide_False by (intros E; by apply E).
Qed.
End filter.

(** ** Witnesses *)

Definition example_filter (l : list (FilterFunc bool * FilterConfig)) (init : bool) : Filter bool :=
  mkFilter bool (replicate BUFFER_SIZE 0) (mkChain bool l 0) 0 init [0; 0; 0; 0] 0.
Definition example_config : FilterConfig := mkFilterConfig 2 1 true.

Lemma filter_process_exact_witness : exists s',
  DiagFilter_Process bool true false (Some [0x02; 0x27])
    (example_filter [(session_filter_ptr bool, example_config); (security_filter_ptr bool, example_config)] true) = Some (false, s') /\
  msg_counts bool s' = [0; 0; 1; 0].
Proof.
  destruct (filter_process_exact bool true false [0x02; 0x27]
    (example_filter [(session_filter_ptr bool, example_config); (security_filter_ptr bool, example_config)] true)) as (r & s' & Hr & _ & _ & H);
    [exact (length_replicate _ _)|].
  destruct H as (-> & _ & Hc). exists s'. rewrite Hr, Hc. split; vm_compute; reflexivity.
Defined.
Lemma fresh_chain_accepts_witness : exists s2,
  DiagFilter_Process bool true false (Some [0x02; 0x27; 0x01]) (DiagFilter_Init 8 bool (example_filter [] false)).2 = Some (true, s2).
Proof.
  destruct (fresh_chain_accepts 8 bool true false [0x02; 0x27; 0x01] (example_filter [] false)) as [_ H]; [done|vm_compute; lia|exact H].
Defined.
Lemma session_filter_stale_witness : exists r s1 s2,
  DiagFilter_Process bool true false (Some [0x22; 0xF1]) (example_filter [(session_filter_ptr bool, example_config)] true) = Some (r, s1) /\
  DiagFilter_Process bool true false (Some [0x10]) s1 = Some (false, s2).
Proof.
  apply (session_filter_stale bool true false example_config [] 0x22 0xF1); try done; first [exact (length_replicate _ _)|vm_compute; lia].
Defined.
