(* ===== verification/SecurityAccess.v ===== *)
(** * Security access of concurrent sessions

    [src/runtime/diagnostic/security/security_manager.c]: seed, attempts and delay of up to
    sixteen sessions, under the process-wide mutex.  Seeds and expected keys come from
    [crypto_utils.c], whose context ([Crypto.v]) the state contains; the mutex and the
    logger are the same ones.  [access_clock] is what [Timer_GetMilliseconds] returns. *)

From S2P Require Import Prelude Memory Slots Machine Mutex Crypto.

Definition MAX_SECURITY_CONTEXTS : nat := 16.
Definition SECURITY_CHECK_INTERVAL_MS : Z := 100.
Definition SECURITY_LEVEL_LOCKED : Z := 0.

Record SecurityConfig := mkSecurityConfig {
  delay_time_ms : Z; max_attempts : Z; enable_delay_on_error : bool; require_seed_on_reset : bool; min_key_length : Z;
  max_key_length : Z }.
Record SecurityContext := mkContext {
  ctx_session : Z; requested_level : Z; ctx_seed : Z; attempt_count : Z; last_attempt_time : Z; delay_active : bool }.
#[export] Instance eta_SecurityContext : Eta SecurityContext := fun c =>
  mkContext (ctx_session c) (requested_level c) (ctx_seed c) (attempt_count c) (last_attempt_time c) (delay_active c).
Definition context_zero : SecurityContext := mkContext 0 0 0 0 0 false.
#[export] Instance SecurityContext_slot : Slot SecurityContext :=
  {| slot_used c := negb (ctx_session c =? 0); slot_key := ctx_session |}.
Record SecurityAccess := mkAccess {
  contexts : list SecurityContext; access_config : SecurityConfig; active_contexts : Z; last_check_time : Z;
  access_initialized : bool; access_crypto : CryptoContext; access_clock : Z }.
#[export] Instance eta_SecurityAccess : Eta SecurityAccess := fun s =>
  mkAccess (contexts s) (access_config s) (active_contexts s) (last_check_time s) (access_initialized s) (access_crypto s)
    (access_clock s).
#[export, refine] Instance SecurityAccess_mutex : HasMutex SecurityAccess :=
  {| locked s := locked (access_crypto s); set_locked b s := s <| access_crypto ::= set_locked b |>;
     log_min s := log_min (access_crypto s) |}.
Proof. all: by intros; destruct s as [? ? ? ? ? [] ?]. Defined.
(** [memset(&security_mgr, 0, ...)]. *)
Definition access_clear (s : SecurityAccess) : SecurityAccess :=
  mkAccess (replicate MAX_SECURITY_CONTEXTS context_zero) (mkSecurityConfig 0 0 false false 0 0) 0 0 false (access_crypto s)
    (access_clock s).

Section access.
Context (hw : HwCrypto).

Definition in_crypto {A} (c : M CryptoContext A) : M SecurityAccess A :=
  zoom access_crypto (fun t s => s <| access_crypto := t |>) c.
Definition find_context (id : Z) (s : SecurityAccess) : option nat :=
  find_idx (fun c => ctx_session c =? id) MAX_SECURITY_CONTEXTS (contexts s).
Definition context_at (i : nat) : M SecurityAccess SecurityContext :=
  s ← get; match contexts s !! i with Some c => mret c | None => fault end.
Definition set_context (i : nat) (c : SecurityContext) : M SecurityAccess unit := modify (fun s => s <| contexts ::= <[i := c]> |>).

(** The seed is indeterminate if the generator fails. *)
Definition generate_seed : M SecurityAccess Z :=
  r ← in_crypto (Crypto_GenerateRandom hw 4);
  if (r.1 : bool) && (length r.2 =? 4)%nat then mret (le_value r.2) else fault.
(** Four bytes of the key are read whatever its length. *)
Definition validate_security_key (seed : Z) (key : list Z) : M SecurityAccess bool :=
  s ← get;
  let length := Z.of_nat (length key) in
  if (length <? min_key_length (access_config s)) || (max_key_length (access_config s) <? length) then mret false else
  expected ← in_crypto (Crypto_CalculateKey hw seed);
  if length <? 4 then fault else mret (expected =? le_value (take 4 key)).

Definition Security_Init (config : option SecurityConfig) : M SecurityAccess bool :=
  match config with
  | None => mret false
  | Some config =>
      modify access_clear;;
      modify (fun s => s <| access_config := config |> <| last_check_time := access_clock s |> <| access_initialized := true |>);;
      Logger_Log LOG_LEVEL_INFO;;
      mret true
  end.
Definition Security_Deinit : M SecurityAccess unit := Logger_Log LOG_LEVEL_INFO;; modify access_clear.

(** The context of the session, created in a free slot if there is none; the inner [None]
    is NULL, and the outer one refuses. *)
Definition get_or_create (id : Z) (s : SecurityAccess) : option (option (nat * SecurityAccess)) :=
  match find_context id s with
  | Some i => Some (Some (i, s))
  | None =>
      if Z.of_nat MAX_SECURITY_CONTEXTS <=? active_contexts s then None else
      Some (match find_context 0 s with
            | Some i => Some (i, s <| contexts ::= alter (fun c => c <| ctx_session := id |>) i |>
                                  <| active_contexts ::= fun n => u32 (n + 1) |>)
            | None => None
            end)
  end.
Definition Security_RequestAccess (id level : Z) : M SecurityAccess bool :=
  s ← get;
  if negb (access_initialized s) || (id =? 0) then mret false else
  lock;;
  s ← get;
  match get_or_create id s with
  | None => unlock;; Logger_Log LOG_LEVEL_ERROR;; mret false
  | Some None => fault
  | Some (Some (i, s')) =>
      modify (fun _ => s');;
      c ← context_at i;
      if delay_active c then unlock;; Logger_Log LOG_LEVEL_WARNING;; mret false else
      seed ← generate_seed;
      s ← get;
      set_context i (c <| requested_level := level |> <| ctx_seed := seed |> <| last_attempt_time := access_clock s |>);;
      Logger_Log LOG_LEVEL_INFO;;
      unlock;;
      mret true
  end.
(** The seed, if there is one to give. *)
Definition Security_GetSeed (id : Z) : M SecurityAccess (option Z) :=
  s ← get;
  if negb (access_initialized s) then mret None else
  lock;;
  match find_context id s with
  | None => unlock;; mret None
  | Some i =>
      c ← context_at i;
      if delay_active c then unlock;; mret None else
      Logger_Log LOG_LEVEL_DEBUG;; unlock;; mret (Some (ctx_seed c))
  end.
Definition Security_ValidateKey (id : Z) (key : option (list Z)) : M SecurityAccess bool :=
  s ← get;
  match key with
  | None => mret false
  | Some key =>
      if negb (access_initialized s) then mret false else
      lock;;
      match find_context id s with
      | None => unlock;; mret false
      | Some i =>
          c ← context_at i;
          if delay_active c then unlock;; mret false else
          valid ← validate_security_key (ctx_seed c) key;
          c ← (if valid : bool then
                 Logger_Log LOG_LEVEL_INFO;; mret (c <| attempt_count := 0 |>)
               else
                 let c := c <| attempt_count ::= fun n => u32 (n + 1) |> in
                 Logger_Log LOG_LEVEL_WARNING;;
                 if max_attempts (access_config s) <=? attempt_count c then
                   Logger_Log LOG_LEVEL_ERROR;; mret (c <| delay_active := true |>)
                 else mret c);
          set_context i (c <| last_attempt_time := access_clock s |>);;
          unlock;;
          mret valid
      end
  end.
Definition Security_RevokeAccess (id : Z) : M SecurityAccess bool :=
  s ← get;
  if negb (access_initialized s) then mret false else
  lock;;
  match find_context id s with
  | None => unlock;; mret false
  | Some i =>
      Logger_Log LOG_LEVEL_INFO;;
      set_context i context_zero;;
      modify (fun s => s <| active_contexts ::= fun n => u32 (n - 1) |>);;
      unlock;;
      mret true
  end.
Definition Security_GetCurrentLevel (id : Z) : M SecurityAccess Z :=
  s ← get;
  if negb (access_initialized s) then mret SECURITY_LEVEL_LOCKED else
  lock;;
  match find_context id s with
  | None => unlock;; mret SECURITY_LEVEL_LOCKED
  | Some i =>
      c ← context_at i;
      unlock;;
      mret (if delay_active c then SECURITY_LEVEL_LOCKED else requested_level c)
  end.
Definition Security_IsLevelAllowed (id level : Z) : M SecurityAccess bool :=
  s ← get;
  if negb (access_initialized s) then mret false else
  lock;;
  match find_context id s with
  | None => unlock;; mret false
  | Some i =>
      c ← context_at i;
      unlock;;
      mret (if delay_active c then false else level <=? requested_level c)
  end.
(** The body of the loop of the poll. *)
Definition end_delay (now delay : Z) (c : SecurityContext) : SecurityContext :=
  if negb (ctx_session c =? 0) && delay_active c && (delay <=? u32 (now - last_attempt_time c))
  then c <| delay_active := false |> <| attempt_count := 0 |> else c.
Fixpoint timeout_loop (now : Z) (n i : nat) : M SecurityAccess unit :=
  match n with
  | O => mret tt
  | S n =>
      c ← context_at i;
      s ← get;
      let c' := end_delay now (delay_time_ms (access_config s)) c in
      set_context i c';;
      (if delay_active c && negb (delay_active c') then Logger_Log LOG_LEVEL_INFO else mret tt);;
      timeout_loop now n (S i)
  end.
Definition Security_ProcessTimeouts : M SecurityAccess unit :=
  s ← get;
  if negb (access_initialized s) then mret tt else
  let current_time := access_clock s in
  if u32 (current_time - last_check_time s) <? SECURITY_CHECK_INTERVAL_MS then mret tt else
  lock;;
  modify (fun s => s <| last_check_time := current_time |>);;
  timeout_loop current_time MAX_SECURITY_CONTEXTS 0;;
  unlock.

(** ** The sessions as a map *)

Definition context_map (s : SecurityAccess) : gmap Z SecurityContext := slot_map (contexts s).
(** An initialised manager between calls; the logger writes nothing, and the generator and
    the keys are the software ones. *)
Record access_wf (s : SecurityAccess) : Prop := {
  aw_length : length (contexts s) = MAX_SECURITY_CONTEXTS; aw_init : access_initialized s = true;
  aw_uniq : slots_uniq (contexts s); aw_count : active_contexts s = Z.of_nat (size (context_map s));
  aw_free : Forall (fun c => ctx_session c = 0 -> c = context_zero) (contexts s);
  aw_mutex : crypto_mutex (access_crypto s) = false; aw_quiet : crypto_logger (access_crypto s) = None;
  aw_crypto : crypto_initialized (access_crypto s) = true;
  aw_software : use_hardware_acceleration (crypto_config (access_crypto s)) = false;
  aw_key : key_bytes_ok (crypto_config (access_crypto s)) }.

Lemma find_context_spec id s : access_wf s -> id <> 0 ->
  match find_context id s with
  | Some i => exists c, contexts s !! i = Some c /\ ctx_session c = id /\ context_map s !! id = Some c
  | None => context_map s !! id = None
  end.
Proof.
  intros Hw Hid. unfold find_context. destruct (find_idx _ _ _) as [i|] eqn:E.
  - apply find_idx_Some in E as (c & Hc & _ & Hp & _). tests. exists c. split_and!; [done|done|]. rewrite <- Hp.
    refine (slot_map_Some _ i c (aw_uniq _ Hw) Hc _). cbn. by rewrite (proj2 (Z.eqb_neq _ _)) by congruence.
  - apply find_idx_None in E. destruct (context_map s !! id) as [c|] eqn:Em; [|done].
    apply slot_map_inv in Em as (i & Hc & _ & Hk); [|apply Hw]. rewrite take_ge in E by (by rewrite (aw_length _ Hw)).
    rewrite Forall_lookup in E. specialize (E i c Hc). cbn in E, Hk. by tests.
Qed.
Lemma find_zero s : find_context 0 s = find_free MAX_SECURITY_CONTEXTS (contexts s).
Proof. unfold find_context, find_free, find_idx. f_equal. apply list_find_ext. intros c. cbn. by destruct (ctx_session c =? 0). Qed.

(** The generator of the software: four bytes. *)
Lemma random_bytes_spec n (s : CryptoContext) m : wp (random_bytes n) (fun l s' m' => length l = n /\ Forall is_u8 l /\ m' = m /\
  exists z, s' = s <| software_random_seed := z |>) s m.
Proof.
  revert s. induction n as [|n IH]; intros s; cbn [random_bytes].
  - apply wp_ret. split_and!; [done|done|done|]. exists (software_random_seed s). by destruct s.
  - apply wp_bind, wp_bind, wp_modify, wp_bind, wp_get, wp_ret, wp_bind. eapply wp_mono; [apply IH|].
    intros l s1 m1 (Hl & Hb & -> & z & ->). apply wp_ret. split_and!; [cbn; congruence| |done|by exists z].
    constructor; [|done]. change 255 with (Z.ones 8). unfold is_u8. rewrite Z.land_ones by lia. by apply Z.mod_pos_bound.
Qed.
Lemma le_value_u32 l : length l = 4%nat -> Forall is_u8 l -> is_u32 (le_value l).
Proof.
  intros Hl Hb. destruct l as [|a [|b [|c [|d [|]]]]]; try done. unfold is_u8 in Hb. rewrite !Forall_cons in Hb.
  destruct Hb as (? & ? & ? & ? & _). unfold is_u32. cbn [le_value]. lia.
Qed.
(** What the state keeps when only the generator moves on. *)
Definition reseeded (z : Z) (s : SecurityAccess) : SecurityAccess := s <| access_crypto ::= fun c => c <| software_random_seed := z |> |>.
Lemma seed_spec s m : crypto_initialized (access_crypto s) = true -> use_hardware_acceleration (crypto_config (access_crypto s)) = false ->
  wp generate_seed (fun seed s' m' => is_u32 seed /\ m' = m /\ exists z, s' = reseeded z s) s m.
Proof.
  intros Hi Hs. unfold generate_seed, in_crypto. apply wp_bind, wp_zoom. unfold Crypto_GenerateRandom. apply wp_bind, wp_get.
  rewrite Hi, Hs. cbn [negb orb Nat.eqb]. apply wp_bind. eapply wp_mono; [apply random_bytes_spec|].
  intros l s1 m1 (Hl & Hb & -> & z & ->). apply wp_ret. cbn [fst snd]. rewrite Hl. cbn [Nat.eqb andb]. apply wp_ret.
  split_and!; [by apply le_value_u32|done|]. by exists z.
Qed.

(** ** The operations *)

(** The environment of the table: only the generator moves. *)
Definition same_env (s s' : SecurityAccess) : Prop :=
  access_config s' = access_config s /\ access_clock s' = access_clock s /\ access_initialized s' = access_initialized s /\
  last_check_time s' = last_check_time s /\ exists z, access_crypto s' = (access_crypto s) <| software_random_seed := z |>.
Lemma same_env_refl s : same_env s s.
Proof. split_and!; try done. exists (software_random_seed (access_crypto s)). by destruct (access_crypto s). Qed.
Lemma wf_table s s' : access_wf s -> same_env s s' -> length (contexts s') = MAX_SECURITY_CONTEXTS -> slots_uniq (contexts s') ->
  active_contexts s' = Z.of_nat (size (context_map s')) -> Forall (fun c => ctx_session c = 0 -> c = context_zero) (contexts s') ->
  access_wf s'.
Proof.
  intros [H1 H2 H3 H4 H5 H6 H7 H8 H9 H10] (E1 & E2 & E3 & E4 & z & E5) L U C F.
  constructor; rewrite ?E5; try done. congruence.
Qed.
(** Rewriting the context of a session that exists. *)
Lemma wf_update_context i c c' s s' : access_wf s -> same_env s s' -> contexts s !! i = Some c -> ctx_session c <> 0 -> ctx_session c' = ctx_session c ->
  contexts s' = <[i := c']> (contexts s) -> active_contexts s' = active_contexts s ->
  access_wf s' /\ context_map s' = <[ctx_session c := c']> (context_map s).
Proof.
  intros Hw He Hc Hid Hid' Hl Ha.
  assert (Hu : slot_used c = true) by (cbn; by rewrite (proj2 (Z.eqb_neq _ _))).
  assert (Hu' : slot_used c' = true) by (cbn; rewrite Hid'; exact Hu).
  destruct (slot_update (contexts s) i c' c Hc Hu Hu' Hid' (aw_uniq _ Hw)) as [Hun Hm].
  cbn [slot_key SecurityContext_slot] in Hm. rewrite Hid' in Hm.
  assert (Hm' : context_map s' = <[ctx_session c := c']> (context_map s)) by (unfold context_map; by rewrite Hl).
  split; [|done]. apply (wf_table s); [done|done| |by rewrite Hl| |].
  - rewrite Hl, length_insert. apply Hw.
  - rewrite Ha, (aw_count _ Hw), Hm'. rewrite map_size_insert_Some; [done|].
    exists c. exact (slot_map_Some _ i c (aw_uniq _ Hw) Hc Hu).
  - rewrite Hl. apply Forall_insert; [apply Hw|]. intros H0. congruence.
Qed.
(** A session that gets its context. *)
Lemma wf_create i c c' s s' : access_wf s -> same_env s s' -> contexts s !! i = Some c -> ctx_session c = 0 -> ctx_session c' <> 0 ->
  context_map s !! ctx_session c' = None ->
  contexts s' = <[i := c']> (contexts s) -> active_contexts s' = u32 (active_contexts s + 1) ->
  access_wf s' /\ context_map s' = <[ctx_session c' := c']> (context_map s).
Proof.
  intros Hw He Hc Hid Hid' Hn Hl Ha.
  assert (Hu : slot_used c = false) by (cbn; by rewrite Hid).
  assert (Hu' : slot_used c' = true) by (cbn; by rewrite (proj2 (Z.eqb_neq _ _))).
  destruct (slot_fill (contexts s) i c' c Hc Hu Hu' (aw_uniq _ Hw) Hn) as [Hun Hm].
  assert (Hm' : context_map s' = <[ctx_session c' := c']> (context_map s)) by (unfold context_map; by rewrite Hl).
  split; [|done]. apply (wf_table s); [done|done| |by rewrite Hl| |].
  - rewrite Hl, length_insert. apply Hw.
  - rewrite Ha, (aw_count _ Hw), Hm', map_size_insert_None by done. rewrite u32_small; [lia|].
    pose proof (find_free_size MAX_SECURITY_CONTEXTS _ (aw_uniq _ Hw) (aw_length _ Hw)) as Hf. unfold context_map.
    destruct (find_free _ _); [destruct Hf as [Hf _]|]; unfold is_u32, MAX_SECURITY_CONTEXTS in *; lia.
  - rewrite Hl. apply Forall_insert; [apply Hw|]. intros H0. congruence.
Qed.
Lemma wf_remove i c s s' : access_wf s -> same_env s s' -> contexts s !! i = Some c -> ctx_session c <> 0 ->
  contexts s' = <[i := context_zero]> (contexts s) -> active_contexts s' = u32 (active_contexts s - 1) ->
  access_wf s' /\ context_map s' = delete (ctx_session c) (context_map s).
Proof.
  intros Hw He Hc Hid Hl Ha.
  assert (Hu : slot_used c = true) by (cbn; by rewrite (proj2 (Z.eqb_neq _ _))).
  destruct (slot_blank (contexts s) i context_zero c Hc Hu eq_refl (aw_uniq _ Hw)) as [Hun Hm].
  assert (Hm' : context_map s' = delete (ctx_session c) (context_map s)) by (unfold context_map; by rewrite Hl).
  assert (Hin : context_map s !! ctx_session c = Some c) by (exact (slot_map_Some _ i c (aw_uniq _ Hw) Hc Hu)).
  split; [|done]. apply (wf_table s); [done|done| |by rewrite Hl| |].
  - rewrite Hl, length_insert. apply Hw.
  - rewrite Ha, (aw_count _ Hw), Hm', map_size_delete_Some by (by exists c).
    assert (0 < size (context_map s))%nat by (apply Nat.neq_0_lt_0; intros E; apply map_size_empty_inv in E; rewrite E in Hin; by rewrite lookup_empty in Hin).
    rewrite u32_small; [lia|].
    pose proof (find_free_size MAX_SECURITY_CONTEXTS _ (aw_uniq _ Hw) (aw_length _ Hw)) as Hf. unfold context_map in *.
    destruct (find_free _ _); [destruct Hf as [Hf _]|]; unfold is_u32, MAX_SECURITY_CONTEXTS in *; lia.
  - rewrite Hl. by apply Forall_insert; [apply Hw|].
Qed.

Lemma wp_context_at (Q : SecurityContext -> SecurityAccess -> Machine -> Prop) i c s m : contexts s !! i = Some c -> Q c s m -> wp (context_at i) Q s m.
Proof. intros Hc HQ. unfold context_at. apply wp_bind, wp_get. by rewrite Hc. Qed.
(** Locked and unlocked again. *)
Lemma relock (c : CryptoContext) : crypto_mutex c = false -> set_locked false (set_locked true c) = c.
Proof. destruct c; cbn. by intros ->. Qed.
Definition entered (s : SecurityAccess) : SecurityAccess := s <| access_crypto ::= set_locked true |>.
Lemma wp_lock_access (Q : unit -> SecurityAccess -> Machine -> Prop) s m : access_wf s -> Q tt (entered s) m -> wp lock Q s m.
Proof. intros Hw HQ. apply wp_lock_free; [apply Hw|exact HQ]. Qed.
Lemma wp_quiet level (Q : unit -> SecurityAccess -> Machine -> Prop) s m : crypto_logger (access_crypto s) = None -> Q tt s m -> wp (Logger_Log level) Q s m.
Proof. intros Hq HQ. apply wp_log_silent; [|done]. cbn. by rewrite Hq. Qed.
Lemma left_entered s : access_wf s -> (entered s) <| access_crypto ::= set_locked false |> = s.
Proof. intros Hw. unfold entered. pose proof (aw_mutex _ Hw) as Hm. destruct s as [? ? ? ? ? [] ?]; cbn in *. by subst. Qed.
Lemma wp_leave_access (Q : unit -> SecurityAccess -> Machine -> Prop) s m : access_wf s -> Q tt s m -> wp unlock Q (entered s) m.
Proof. intros Hw HQ. apply wp_unlock_held; [done|]. change (set_locked false (entered s)) with ((entered s) <| access_crypto ::= set_locked false |>). by rewrite left_entered. Qed.

(** The key a session must present. *)
Definition expected_key (s : SecurityAccess) (c : SecurityContext) : Z := derived (crypto_config (access_crypto s)) (ctx_seed c).
Definition key_accepted (s : SecurityAccess) (c : SecurityContext) (key : list Z) : bool :=
  negb ((Z.of_nat (length key) <? min_key_length (access_config s)) || (max_key_length (access_config s) <? Z.of_nat (length key))) &&
  (expected_key s c =? le_value (take 4 key)).
Lemma validate_spec c key s m : access_wf s -> 4 <= min_key_length (access_config s) \/ 4 <= Z.of_nat (length key) ->
  wp (validate_security_key (ctx_seed c) key) (fun ok s' m' => ok = key_accepted s c key /\ s' = entered s /\ m' = m) (entered s) m.
Proof.
  intros Hw Hk. unfold validate_security_key, key_accepted. apply wp_bind, wp_get. cbv zeta. change (access_config (entered s)) with (access_config s).
  destruct (_ || _) eqn:E; cbn [negb andb]; [by apply wp_ret|]. apply orb_false_iff in E as [E1 E2]. tests.
  unfold in_crypto. apply wp_bind, wp_zoom, calculate_derived; [apply Hw|apply Hw|].
  rewrite (proj2 (Z.ltb_ge _ _)) by lia. apply wp_ret. split; [reflexivity|]. split; [by destruct s as [? ? ? ? ? [] ?]|done].
Qed.

Lemma reseed_unlock (c : CryptoContext) z : crypto_mutex c = false ->
  set_locked false ((set_locked true c) <| software_random_seed := z |>) = c <| software_random_seed := z |>.
Proof. destruct c; cbn. by intros ->. Qed.
Lemma insert_alter_same {A} (f : A -> A) i x (l : list A) : <[i := x]> (alter f i l) = <[i := x]> l.
Proof. apply list_eq. intros j. destruct (decide (i = j)) as [<-|Hne].
  - destruct (decide (i < length l)%nat).
    + by rewrite !list_lookup_insert_eq by (by rewrite ?length_alter).
    + by rewrite !lookup_ge_None_2 by (rewrite length_insert, ?length_alter; lia).
  - by rewrite !list_lookup_insert_ne, list_lookup_alter_ne by done.
Qed.

(** The context a request finds or creates. *)
Definition old_context (id : Z) (s : SecurityAccess) : SecurityContext :=
  default (mkContext id 0 0 0 0 false) (context_map s !! id).
Definition request_refused (id : Z) (s : SecurityAccess) : bool :=
  match context_map s !! id with
  | Some c => delay_active c
  | None => bool_decide (size (context_map s) = MAX_SECURITY_CONTEXTS)
  end.
Lemma full_count s : access_wf s -> (Z.of_nat MAX_SECURITY_CONTEXTS <=? active_contexts s) = bool_decide (size (context_map s) = MAX_SECURITY_CONTEXTS) /\
  (size (context_map s) <> MAX_SECURITY_CONTEXTS -> exists i c, find_context 0 s = Some i /\ contexts s !! i = Some c /\ ctx_session c = 0).
Proof.
  intros Hw. pose proof (find_free_size MAX_SECURITY_CONTEXTS _ (aw_uniq _ Hw) (aw_length _ Hw)) as Hf. fold (context_map s) in Hf.
  rewrite find_zero, (aw_count _ Hw). destruct (find_free _ _) as [i|].
  - destruct Hf as (Hlt & _ & c & Hc & Hu). split.
    + rewrite bool_decide_false by lia. apply Z.leb_gt. lia.
    + intros _. exists i, c. split_and!; [done|done|]. cbn in Hu. by tests.
  - split; [|done]. rewrite Hf, bool_decide_true by done. by apply Z.leb_le.
Qed.

(** The part of the request behind the search, for the context [c] in slot [i] of [s1]. *)
Lemma request_tail level i c s1 m (Q : bool -> SecurityAccess -> Machine -> Prop) :
  crypto_mutex (access_crypto s1) = false -> crypto_logger (access_crypto s1) = None -> crypto_initialized (access_crypto s1) = true ->
  use_hardware_acceleration (crypto_config (access_crypto s1)) = false -> contexts s1 !! i = Some c ->
  (if delay_active c then Q false s1 m
   else forall seed z, is_u32 seed -> Q true ((reseeded z s1) <| contexts ::= <[i := c <| requested_level := level |> <| ctx_seed := seed |>
     <| last_attempt_time := access_clock s1 |>]> |>) m) ->
  wp (c ← context_at i;
      if delay_active c then unlock;; Logger_Log LOG_LEVEL_WARNING;; mret false else
      seed ← generate_seed;
      s ← get;
      set_context i (c <| requested_level := level |> <| ctx_seed := seed |> <| last_attempt_time := access_clock s |>);;
      Logger_Log LOG_LEVEL_INFO;;
      unlock;;
      mret true) Q (entered s1) m.
Proof.
  intros Hmu Hq Hi Hs Hc HQ. apply wp_bind, (wp_context_at _ _ c); [done|].
  assert (Hleft : set_locked false (entered s1) = s1) by (unfold entered; destruct s1 as [? ? ? ? ? [] ?]; cbn in *; by subst).
  destruct (delay_active c).
  - apply wp_bind, wp_unlock_held; [done|]. rewrite Hleft. apply wp_bind, wp_quiet; [done|]. by apply wp_ret.
  - apply wp_bind. eapply wp_mono; [by apply seed_spec|]. intros seed s2 m2 (Hu & -> & z & ->). apply wp_bind, wp_get, wp_bind, wp_modify.
    apply wp_bind, wp_quiet; [done|]. apply wp_bind, wp_unlock_held; [done|]. apply wp_ret. specialize (HQ seed z Hu).
    match goal with |- Q true ?x m => match type of HQ with Q true ?y m => replace x with y; [done|] end end.
    destruct s1 as [? ? ? ? ? [] ?]; cbn in *; by subst.
Qed.
Lemma request_spec id level s m : access_wf s -> id <> 0 ->
  wp (Security_RequestAccess id level) (fun ok s' m' => access_wf s' /\ same_env s s' /\ m' = m /\ ok = negb (request_refused id s) /\
    if ok then exists seed, is_u32 seed /\ context_map s' =
      <[id := (old_context id s) <| requested_level := level |> <| ctx_seed := seed |> <| last_attempt_time := access_clock s |>]> (context_map s)
    else context_map s' = context_map s) s m.
Proof.
  intros Hw Hid. unfold Security_RequestAccess. apply wp_bind, wp_get. rewrite (aw_init _ Hw), (proj2 (Z.eqb_neq id 0)) by done. cbn [negb orb].
  apply wp_bind, wp_lock_access; [done|]. apply wp_bind, wp_get. unfold get_or_create.
  change (find_context id (entered s)) with (find_context id s). change (find_context 0 (entered s)) with (find_context 0 s).
  change (active_contexts (entered s)) with (active_contexts s). unfold old_context, request_refused.
  pose proof (find_context_spec id s Hw Hid) as Hf. destruct (find_context id s) as [i|].
  - destruct Hf as (c & Hc & Hcid & ->). cbn [default]. apply wp_bind, wp_modify.
    apply (request_tail level i c s m); [apply Hw|apply Hw|apply Hw|apply Hw|done|].
    destruct (delay_active c); cbn [negb]; [split_and!; [done|apply same_env_refl|done|done|done]|].
    intros seed z Hu. match goal with |- access_wf ?x /\ _ => set (s' := x) end.
    assert (He : same_env s s') by (split_and!; try done; by exists z).
    destruct (wf_update_context i c (c <| requested_level := level |> <| ctx_seed := seed |> <| last_attempt_time := access_clock s |>) s s' Hw He Hc) as [Hw' Hm'];
      [congruence|done|done|done|]. split_and!; [done|done|done|done|]. exists seed. split; [done|]. by rewrite Hm', Hcid.
  - rewrite Hf. cbn [default]. destruct (full_count s Hw) as [-> Hroom]. destruct (bool_decide _) eqn:Eb; cbn [negb].
    + apply wp_bind, wp_leave_access; [done|]. apply wp_bind, wp_quiet; [apply Hw|]. apply wp_ret. split_and!; [done|apply same_env_refl|done..].
    + apply bool_decide_eq_false in Eb. destruct (Hroom Eb) as (i & c & -> & Hc & Hz). apply wp_bind, wp_modify.
      assert (Hcz : c = context_zero) by (pose proof (aw_free _ Hw) as Hfr; rewrite Forall_lookup in Hfr; by eapply Hfr). subst c.
      set (s1 := s <| contexts ::= alter (fun c => c <| ctx_session := id |>) i |> <| active_contexts ::= fun n => u32 (n + 1) |>).
      apply (request_tail level i (context_zero <| ctx_session := id |>) s1 m); [apply Hw|apply Hw|apply Hw|apply Hw| |].
      { unfold s1. cbn. by rewrite list_lookup_alter_eq, Hc. }
      cbn [delay_active context_zero]. cbv iota. intros seed z Hu. match goal with |- access_wf ?x /\ _ => set (s' := x) end.
      assert (He : same_env s s') by (split_and!; try done; by exists z).
      destruct (wf_create i context_zero ((mkContext id 0 0 0 0 false) <| requested_level := level |> <| ctx_seed := seed |>
        <| last_attempt_time := access_clock s |>) s s' Hw He Hc) as [Hw' Hm']; [done|done|done| |done|].
      { unfold s', s1. cbn. by rewrite insert_alter_same. }
      split_and!; [done|done|done|done|]. exists seed. split; [done|]. exact Hm'.
Qed.

(** A context after a key. *)
Definition judged (max now : Z) (ok : bool) (c : SecurityContext) : SecurityContext :=
  (if ok then c <| attempt_count := 0 |>
   else c <| attempt_count ::= fun n => u32 (n + 1) |> <| delay_active := max <=? u32 (attempt_count c + 1) |>)
    <| last_attempt_time := now |>.
Definition key_defined (s : SecurityAccess) (key : list Z) : Prop :=
  4 <= min_key_length (access_config s) \/ 4 <= Z.of_nat (length key).
Lemma validate_key_spec id key s m : access_wf s -> id <> 0 -> key_defined s key ->
  wp (Security_ValidateKey id (Some key)) (fun ok s' m' => access_wf s' /\ same_env s s' /\ m' = m /\
    match context_map s !! id with
    | Some c =>
        if delay_active c then ok = false /\ context_map s' = context_map s
        else ok = key_accepted s c key /\
          context_map s' = <[id := judged (max_attempts (access_config s)) (access_clock s) ok c]> (context_map s)
    | None => ok = false /\ context_map s' = context_map s
    end) s m.
Proof.
  intros Hw Hid Hk. unfold Security_ValidateKey. apply wp_bind, wp_get. rewrite (aw_init _ Hw). cbn [negb].
  apply wp_bind, wp_lock_access; [done|]. pose proof (find_context_spec id s Hw Hid) as Hf.
  destruct (find_context id s) as [i|].
  2: { rewrite Hf. apply wp_bind, wp_leave_access; [done|]. apply wp_ret. split_and!; [done|apply same_env_refl|done..]. }
  destruct Hf as (c & Hc & Hcid & ->). apply wp_bind, (wp_context_at _ _ c); [done|]. destruct (delay_active c) eqn:Ed.
  { apply wp_bind, wp_leave_access; [done|]. apply wp_ret. split_and!; [done|apply same_env_refl|done..]. }
  apply wp_bind. eapply wp_mono; [by apply validate_spec|]. intros ok s1 m1 (-> & -> & ->).
  assert (Htail : forall ok, wp (set_context i (judged (max_attempts (access_config s)) (access_clock s) ok c);; unlock;; mret ok)
    (fun ok' s' m' => access_wf s' /\ same_env s s' /\ m' = m /\ ok' = ok /\
      context_map s' = <[id := judged (max_attempts (access_config s)) (access_clock s) ok' c]> (context_map s)) (entered s) m).
  { intros ok. apply wp_bind, wp_modify, wp_bind, wp_unlock_held; [done|]. apply wp_ret. match goal with |- access_wf ?x /\ _ => set (s' := x) end.
    assert (He : same_env s s').
    { split_and!; try done. exists (software_random_seed (access_crypto s)). pose proof (aw_mutex _ Hw) as Hm. unfold s', entered.
      destruct s as [? ? ? ? ? [] ?]; cbn in *. by subst. }
    destruct (wf_update_context i c (judged (max_attempts (access_config s)) (access_clock s) ok c) s s' Hw He Hc) as [Hw' Hm'];
      [congruence|by unfold judged; destruct ok|done|done|].
    split_and!; [done|done|done|done|]. by rewrite Hm', Hcid. }
  assert (Hq : crypto_logger (access_crypto (entered s)) = None) by apply Hw.
  apply wp_bind. destruct (key_accepted s c key); [specialize (Htail true)|specialize (Htail false)].
  - apply wp_bind, wp_quiet; [done|]. apply wp_ret. exact Htail.
  - cbv zeta. apply wp_bind, wp_quiet; [done|].
    change (attempt_count (c <| attempt_count ::= fun n => u32 (n + 1) |>)) with (u32 (attempt_count c + 1)).
    assert (Hj : forall b, (max_attempts (access_config s) <=? u32 (attempt_count c + 1)) = b ->
      judged (max_attempts (access_config s)) (access_clock s) false c =
        c <| attempt_count ::= fun n => u32 (n + 1) |> <| delay_active := b |> <| last_attempt_time := access_clock s |>).
    { intros b <-. reflexivity. }
    destruct (max_attempts (access_config s) <=? u32 (attempt_count c + 1)) eqn:Emax; rewrite (Hj _ eq_refl) in Htail.
    + apply wp_bind, wp_quiet; [done|]. apply wp_ret. exact Htail.
    + apply wp_ret.
      replace (c <| attempt_count ::= fun n => u32 (n + 1) |>) with (c <| attempt_count ::= fun n => u32 (n + 1) |> <| delay_active := false |>);
        [exact Htail|]. destruct c; cbn in *. by subst.
Qed.
Lemma revoke_spec id s m : access_wf s -> id <> 0 -> wp (Security_RevokeAccess id) (fun ok s' m' => access_wf s' /\ same_env s s' /\ m' = m /\
  ok = bool_decide (is_Some (context_map s !! id)) /\ context_map s' = delete id (context_map s)) s m.
Proof.
  intros Hw Hid. unfold Security_RevokeAccess. apply wp_bind, wp_get. rewrite (aw_init _ Hw). cbn [negb].
  apply wp_bind, wp_lock_access; [done|]. pose proof (find_context_spec id s Hw Hid) as Hf. destruct (find_context id s) as [i|].
  - destruct Hf as (c & Hc & Hcid & Hm). apply wp_bind, wp_quiet; [apply Hw|]. apply wp_bind, wp_modify, wp_bind, wp_modify.
    apply wp_bind, wp_unlock_held; [done|]. apply wp_ret. match goal with |- access_wf ?x /\ _ => set (s' := x) end.
    assert (He : same_env s s').
    { split_and!; try done. exists (software_random_seed (access_crypto s)). pose proof (aw_mutex _ Hw) as Hmu. unfold s', entered.
      destruct s as [? ? ? ? ? [] ?]; cbn in *. by subst. }
    destruct (wf_remove i c s s' Hw He Hc) as [Hw' Hm']; [congruence|done|done|]. rewrite Hcid in Hm'.
    split_and!; [done|done|done| |done]. rewrite bool_decide_true; [done|by exists c].
  - apply wp_bind, wp_leave_access; [done|]. apply wp_ret. rewrite Hf. split_and!; [done|apply same_env_refl|done| |by rewrite delete_id].
    rewrite bool_decide_false; [done|]. by intros [? ?].
Qed.
Lemma allowed_spec id level s m : access_wf s -> id <> 0 -> wp (Security_IsLevelAllowed id level) (fun ok s' m' => s' = s /\ m' = m /\
  ok = match context_map s !! id with Some c => negb (delay_active c) && (level <=? requested_level c) | None => false end) s m.
Proof.
  intros Hw Hid. unfold Security_IsLevelAllowed. apply wp_bind, wp_get. rewrite (aw_init _ Hw). cbn [negb].
  apply wp_bind, wp_lock_access; [done|]. pose proof (find_context_spec id s Hw Hid) as Hf. destruct (find_context id s) as [i|].
  - destruct Hf as (c & Hc & Hcid & ->). apply wp_bind, (wp_context_at _ _ c); [done|]. apply wp_bind, wp_leave_access; [done|]. apply wp_ret.
    split_and!; [done|done|]. by destruct (delay_active c).
  - apply wp_bind, wp_leave_access; [done|]. apply wp_ret. by rewrite Hf.
Qed.
Lemma get_seed_spec id s m : access_wf s -> id <> 0 -> wp (Security_GetSeed id) (fun r s' m' => s' = s /\ m' = m /\
  r = match context_map s !! id with Some c => if delay_active c then None else Some (ctx_seed c) | None => None end) s m.
Proof.
  intros Hw Hid. unfold Security_GetSeed. apply wp_bind, wp_get. rewrite (aw_init _ Hw). cbn [negb].
  apply wp_bind, wp_lock_access; [done|]. pose proof (find_context_spec id s Hw Hid) as Hf. destruct (find_context id s) as [i|].
  - destruct Hf as (c & Hc & Hcid & ->). apply wp_bind, (wp_context_at _ _ c); [done|]. destruct (delay_active c).
    + apply wp_bind, wp_leave_access; [done|]. by apply wp_ret.
    + apply wp_bind, wp_quiet; [apply Hw|]. apply wp_bind, wp_leave_access; [done|]. by apply wp_ret.
  - apply wp_bind, wp_leave_access; [done|]. apply wp_ret. by rewrite Hf.
Qed.

(** ** Properties *)

(** While nothing is logged the manager is a finite map of at most sixteen sessions:
    a request gives its session a new seed and the level it asks for, unless the table is
    full or the session is delayed; a key is accepted exactly if its length is allowed and
    its first four bytes are the key of the seed, clears the attempts, or counts as one and
    delays the session at the limit; revoking removes the session. *)
Theorem security_access_refines id s : access_wf s -> id <> 0 ->
  (forall level m, wp (Security_RequestAccess id level) (fun ok s' m' => access_wf s' /\ same_env s s' /\ m' = m /\ ok = negb (request_refused id s) /\
    if ok then exists seed, is_u32 seed /\ context_map s' =
      <[id := (old_context id s) <| requested_level := level |> <| ctx_seed := seed |> <| last_attempt_time := access_clock s |>]> (context_map s)
    else context_map s' = context_map s) s m) /\
  (forall key m, key_defined s key -> wp (Security_ValidateKey id (Some key)) (fun ok s' m' => access_wf s' /\ same_env s s' /\ m' = m /\
    match context_map s !! id with
    | Some c =>
        if delay_active c then ok = false /\ context_map s' = context_map s
        else ok = key_accepted s c key /\
          context_map s' = <[id := judged (max_attempts (access_config s)) (access_clock s) ok c]> (context_map s)
    | None => ok = false /\ context_map s' = context_map s
    end) s m) /\
  (forall m, wp (Security_RevokeAccess id) (fun ok s' m' => access_wf s' /\ same_env s s' /\ m' = m /\
    ok = bool_decide (is_Some (context_map s !! id)) /\ context_map s' = delete id (context_map s)) s m).
Proof. intros Hw Hid. split_and!; intros; [by apply request_spec|by apply validate_key_spec|by apply revoke_spec]. Qed.

(** Access needs no key: a request that is not refused makes its level allowed at once. *)
Theorem access_without_key id level s m : access_wf s -> id <> 0 -> request_refused id s = false ->
  wp (Security_RequestAccess id level;; Security_IsLevelAllowed id level) (fun ok _ _ => ok = true) s m.
Proof.
  intros Hw Hid Hr. apply wp_bind. eapply wp_mono; [by apply request_spec|]. intros ok s1 m1 (Hw1 & _ & _ & -> & H). rewrite Hr in H. cbn [negb] in H.
  destruct H as (seed & _ & Hm). eapply wp_mono; [by apply allowed_spec|]. intros ok s2 m2 (_ & _ & ->). rewrite Hm, lookup_insert_eq.
  cbn [delay_active requested_level]. change (delay_active _) with (delay_active (old_context id s)) at 1.
  unfold request_refused, old_context in *. destruct (context_map s !! id) as [c|]; cbn [default]; cbn; rewrite Z.leb_refl, ?andb_true_r.
  - by rewrite Hr.
  - done.
Qed.

(** Seed and key fit: a session that requests access, takes its seed and sends the key
    that [crypto_utils.c] derives from it is accepted, if four bytes are an allowed length;
    no other four bytes are. *)
Theorem seed_and_key_fit id level key s m : access_wf s -> id <> 0 -> request_refused id s = false ->
  min_key_length (access_config s) <= 4 <= max_key_length (access_config s) -> length key = 4%nat -> Forall is_u8 key ->
  wp (Security_RequestAccess id level;;
      o ← Security_GetSeed id;
      match o with
      | None => mret None
      | Some seed => k ← in_crypto (Crypto_CalculateKey hw seed); ok ← Security_ValidateKey id (Some key); mret (Some (k, ok))
      end) (fun r _ _ => exists k, r = Some (k, bool_decide (k = le_value key))) s m.
Proof.
  intros Hw Hid Hr Hlen Hkl Hkb. apply wp_bind. eapply wp_mono; [by apply request_spec|]. intros ok s1 m1 (Hw1 & He & -> & -> & H).
  rewrite Hr in H. cbn [negb] in H. destruct H as (seed & Hseed & Hm).
  assert (Hd : delay_active ((old_context id s) <| requested_level := level |> <| ctx_seed := seed |> <| last_attempt_time := access_clock s |>) = false).
  { cbn. unfold request_refused, old_context in *. by destruct (context_map s !! id). }
  set (c := (old_context id s) <| requested_level := level |> <| ctx_seed := seed |> <| last_attempt_time := access_clock s |>) in *.
  apply wp_bind. eapply wp_mono; [by apply get_seed_spec|]. intros o s2 m2 (-> & -> & ->). rewrite Hm, lookup_insert_eq, Hd.
  change (ctx_seed c) with seed. unfold in_crypto. apply wp_bind, wp_zoom, calculate_derived; [apply Hw1|apply Hw1|].
  replace (s1 <| access_crypto := access_crypto s1 |>) with s1 by (by destruct s1). apply wp_bind.
  assert (Hcfg : access_config s1 = access_config s) by apply He.
  eapply wp_mono; [apply (validate_key_spec id key s1 m Hw1 Hid); right; lia|]. intros ok s3 m3 (_ & _ & _ & H).
  rewrite Hm, lookup_insert_eq, Hd in H. destruct H as [-> _]. apply wp_ret. eexists. f_equal. f_equal.
  unfold key_accepted. rewrite Hcfg, Hkl. rewrite (proj2 (Z.ltb_ge _ _)), (proj2 (Z.ltb_ge _ _)) by lia. cbn [orb negb andb].
  rewrite take_ge by lia. unfold expected_key. change (ctx_seed c) with seed.
  destruct (decide (derived (crypto_config (access_crypto s1)) seed = le_value key)) as [->|Hne]; [by rewrite Z.eqb_refl, bool_decide_true|].
  by rewrite bool_decide_false, (proj2 (Z.eqb_neq _ _)).
Qed.

(** Keys one after the other; whether each was accepted. *)
Fixpoint try_keys (id : Z) (keys : list (list Z)) : M SecurityAccess (list bool) :=
  match keys with [] => mret [] | k :: keys => b ← Security_ValidateKey id (Some k); bs ← try_keys id keys; mret (b :: bs) end.
Lemma same_env_trans s s1 s2 : same_env s s1 -> same_env s1 s2 -> same_env s s2.
Proof.
  intros (A1 & A2 & A3 & A4 & z & A5) (B1 & B2 & B3 & B4 & y & B5). split_and!; try congruence. exists y. rewrite B5, A5.
  by destruct (access_crypto s).
Qed.
Lemma same_env_keys s s' c key : same_env s s' -> key_accepted s' c key = key_accepted s c key /\ (key_defined s key -> key_defined s' key).
Proof.
  intros (A1 & _ & _ & _ & z & A5). unfold key_accepted, key_defined, expected_key. rewrite A1, A5. by split.
Qed.
(** Wrong keys: the attempts are counted up to the limit, and from there on the session is
    delayed. *)
Lemma try_wrong id keys : forall c s m, access_wf s -> id <> 0 -> context_map s !! id = Some c ->
  Forall (fun k => key_defined s k /\ key_accepted s c k = false) keys -> 0 <= attempt_count c -> max_attempts (access_config s) < 2 ^ 32 ->
  delay_active c = (max_attempts (access_config s) <=? attempt_count c) -> attempt_count c <= max_attempts (access_config s) ->
  wp (try_keys id keys) (fun bs s' m' => access_wf s' /\ same_env s s' /\ bs = replicate (length keys) false /\ exists c',
    context_map s' !! id = Some c' /\ delay_active c' = (max_attempts (access_config s) <=? attempt_count c + Z.of_nat (length keys))) s m.
Proof.
  induction keys as [|k keys IH]; intros c s m Hw Hid Hm Hk H0 Hmax Hd Hle; cbn [try_keys].
  - apply wp_ret. split_and!; [done|apply same_env_refl|done|]. exists c. by rewrite Z.add_0_r.
  - apply Forall_cons in Hk as [[Hkd Hkw] Hks]. apply wp_bind. eapply wp_mono; [by apply (validate_key_spec id k s m Hw Hid)|].
    intros b s1 m1 (Hw1 & He1 & -> & H). rewrite Hm in H.
    assert (Hb : b = false /\ exists c1, context_map s1 !! id = Some c1 /\ ctx_seed c1 = ctx_seed c /\
      attempt_count c1 = Z.min (max_attempts (access_config s)) (attempt_count c + 1) /\
      delay_active c1 = (max_attempts (access_config s) <=? attempt_count c1)).
    { destruct (delay_active c) eqn:Edc.
      - destruct H as [-> Hm1]. split; [done|]. exists c. rewrite Hm1, Edc. symmetry in Hd. tests. split_and!; [done|done|lia|].
        symmetry. apply Z.leb_le. lia.
      - destruct H as [-> Hm1]. rewrite Hkw in *. split; [done|]. eexists. rewrite Hm1, lookup_insert_eq. split; [done|].
        symmetry in Hd. tests. assert (Hu : u32 (attempt_count c + 1) = attempt_count c + 1) by (apply u32_small; unfold is_u32; lia).
        split_and!; [done|cbn; rewrite Hu; lia|cbn; by rewrite Hu]. }
    destruct Hb as (-> & c1 & Hm1 & Hseed & Ha1 & Hd1).
    assert (Hcfg : access_config s1 = access_config s) by apply He1.
    apply wp_bind. eapply wp_mono; [apply (IH c1 s1 m Hw1 Hid Hm1)|].
    + eapply Forall_impl; [exact Hks|]. intros k' [Hd' Hk']. destruct (same_env_keys s s1 c1 k' He1) as [Hk1 Hkd1]. split; [by apply Hkd1|].
      rewrite Hk1. unfold key_accepted, expected_key in *. by rewrite Hseed.
    + lia.
    + by rewrite Hcfg.
    + by rewrite Hcfg.
    + rewrite Hcfg. lia.
    + intros bs s2 m2 (Hw2 & He2 & -> & c' & Hm2 & Hd2). apply wp_ret. split_and!; [done|by eapply same_env_trans|done|].
      exists c'. split; [done|]. rewrite Hd2, Hcfg, Ha1. cbn [length]. apply eq_true_iff_eq. rewrite !Z.leb_le. lia.
Qed.

(** The lockout: as many wrong keys as allowed delay the session, and then the right
    key is refused - but the session may revoke its access and request it again, which
    forgets the attempts and the delay. *)
Theorem lockout_bypassed id level keys key c s m : access_wf s -> id <> 0 -> context_map s !! id = Some c -> delay_active c = false ->
  attempt_count c = 0 -> 0 < max_attempts (access_config s) < 2 ^ 32 -> Z.of_nat (length keys) = max_attempts (access_config s) ->
  Forall (fun k => key_defined s k /\ key_accepted s c k = false) keys -> key_defined s key ->
  wp (bs ← try_keys id keys; b ← Security_ValidateKey id (Some key); Security_RevokeAccess id;; r ← Security_RequestAccess id level;
      mret (bs, b, r))
    (fun x s' _ => x = (replicate (length keys) false, false, true) /\ exists c', context_map s' !! id = Some c' /\ delay_active c' = false /\
       attempt_count c' = 0) s m.
Proof.
  intros Hw Hid Hm Hd Ha Hmax Hlen Hk Hkd. apply wp_bind. eapply wp_mono; [apply (try_wrong id keys c s m); try done; [lia|lia| |lia]|].
  { rewrite Hd, Ha. symmetry. apply Z.leb_gt. lia. }
  intros bs s1 m1 (Hw1 & He1 & -> & c1 & Hm1 & Hd1). rewrite Ha, Hlen, Z.add_0_l, Z.leb_refl in Hd1. apply wp_bind.
  eapply wp_mono; [apply (validate_key_spec id key s1 m1 Hw1 Hid); by apply (same_env_keys s s1 c key He1)|].
  intros b s2 m2 (Hw2 & He2 & -> & H). rewrite Hm1, Hd1 in H. destruct H as [-> Hm2]. apply wp_bind.
  eapply wp_mono; [by apply (revoke_spec id s2 m1)|]. intros r s3 m3 (Hw3 & He3 & -> & _ & Hm3). apply wp_bind.
  eapply wp_mono; [by apply (request_spec id level s3 m1)|]. intros ok s4 m4 (Hw4 & He4 & -> & -> & H). apply wp_ret.
  assert (Hn : context_map s3 !! id = None) by (by rewrite Hm3, lookup_delete_eq).
  assert (Hr : request_refused id s3 = false).
  { unfold request_refused. rewrite Hn. apply bool_decide_eq_false. rewrite Hm3, map_size_delete_Some by (rewrite Hm2; by exists c1).
    pose proof (find_free_size MAX_SECURITY_CONTEXTS _ (aw_uniq _ Hw2) (aw_length _ Hw2)) as Hf. fold (context_map s2) in Hf.
    unfold MAX_SECURITY_CONTEXTS in *. destruct (find_free _ _); [destruct Hf as [Hf _]|]; lia. }
  rewrite Hr in *. cbn [negb] in *. destruct H as (seed & _ & Hm4). split; [done|]. eexists. rewrite Hm4, lookup_insert_eq. split; [done|].
  unfold old_context. rewrite Hn. by split.
Qed.

(** Revoking session 0 finds a free context and lowers the count of sessions: with no
    session open it wraps, and every later request is refused as if the table were full. *)
Theorem revoke_zero id level s m : access_wf s -> context_map s = ∅ -> id <> 0 ->
  wp (Security_RevokeAccess 0;; Security_RequestAccess id level) (fun ok s' _ => ok = false /\ active_contexts s' = 2 ^ 32 - 1) s m.
Proof.
  intros Hw He Hid. destruct (full_count s Hw) as [_ Hroom]. destruct Hroom as (i & c & Hf & Hc & Hz); [by rewrite He, map_size_empty|].
  apply wp_bind. unfold Security_RevokeAccess. apply wp_bind, wp_get. rewrite (aw_init _ Hw). cbn [negb].
  apply wp_bind, wp_lock_access; [done|]. rewrite Hf. apply wp_bind, wp_quiet; [apply Hw|]. apply wp_bind, wp_modify, wp_bind, wp_modify.
  apply wp_bind, wp_unlock_held; [done|]. apply wp_ret. match goal with |- wp _ _ ?x _ => set (s1 := x) end.
  assert (Ha : active_contexts s1 = 2 ^ 32 - 1).
  { change (active_contexts s1) with (u32 (active_contexts s - 1)). rewrite (aw_count _ Hw), He, map_size_empty. done. }
  assert (Hn : find_context id s1 = None).
  { unfold find_context. change (contexts s1) with (<[i := context_zero]> (contexts s)). apply find_idx_None, Forall_take, Forall_insert.
    - pose proof (find_context_spec id s Hw Hid) as Hs. rewrite He in Hs. destruct (find_context id s) as [j|] eqn:E.
      + destruct Hs as (c' & _ & _ & H). by rewrite lookup_empty in H.
      + apply find_idx_None in E. by rewrite take_ge in E by (by rewrite (aw_length _ Hw)).
    - cbn. by apply Z.eqb_neq. }
  assert (Hmu : crypto_mutex (access_crypto s1) = false /\ crypto_logger (access_crypto s1) = None).
  { split; [done|]. exact (aw_quiet _ Hw). }
  assert (Hi1 : access_initialized s1 = true) by exact (aw_init _ Hw).
  unfold Security_RequestAccess. apply wp_bind, wp_get. rewrite Hi1, (proj2 (Z.eqb_neq id 0)) by done. cbn [negb orb].
  apply wp_bind, wp_lock_free; [apply Hmu|]. apply wp_bind, wp_get. unfold get_or_create.
  change (find_context id (set_locked true s1)) with (find_context id s1). rewrite Hn.
  change (active_contexts (set_locked true s1)) with (active_contexts s1). rewrite Ha. cbn [Z.leb].
  replace (Z.of_nat MAX_SECURITY_CONTEXTS <=? 2 ^ 32 - 1) with true by done.
  apply wp_bind, wp_unlock_held; [done|]. apply wp_bind, wp_quiet; [apply Hmu|]. apply wp_ret. by split.
Qed.

(** Once the logger writes entries of level INFO the first request blocks for ever: it
    logs under the mutex that the logger takes. *)
Theorem request_blocks id level s0 level0 m : access_wf s0 -> id <> 0 -> request_refused id s0 = false ->
  level_code level0 <= level_code LOG_LEVEL_INFO ->
  Security_RequestAccess id level (s0 <| access_crypto ::= fun c => c <| crypto_logger := Some level0 |> |>) m = None.
Proof.
  intros Hw Hid Hr Hl. set (s := s0 <| access_crypto ::= fun c => c <| crypto_logger := Some level0 |> |>).
  assert (Hlogs : logs (Some level0) LOG_LEVEL_INFO = true) by (unfold logs; by apply Z.leb_le).
  assert (Hi : access_initialized s = true) by exact (aw_init _ Hw). assert (Hmu : locked s = false) by exact (aw_mutex _ Hw).
  unfold Security_RequestAccess. apply undefined_bind, wp_get. rewrite Hi, (proj2 (Z.eqb_neq id 0)) by done. cbn [negb orb].
  apply undefined_bind, wp_lock_free; [done|]. apply undefined_bind, wp_get.
  assert (Htail : forall i c s1, contexts s1 !! i = Some c -> delay_active c = false -> access_crypto s1 = set_locked true (access_crypto s) ->
    (c ← context_at i;
     if delay_active c then unlock;; Logger_Log LOG_LEVEL_WARNING;; mret false else
     seed ← generate_seed;
     s ← get;
     set_context i (c <| requested_level := level |> <| ctx_seed := seed |> <| last_attempt_time := access_clock s |>);;
     Logger_Log LOG_LEVEL_INFO;; unlock;; mret true) s1 m = None).
  { intros i c s1 Hc Hd Hcr. apply undefined_bind, (wp_context_at _ _ c); [done|]. rewrite Hd. apply undefined_bind.
    eapply wp_mono; [apply (seed_spec s1 m); rewrite Hcr; apply Hw|]. intros seed s2 m2 (_ & -> & z & ->).
    apply undefined_bind, wp_get, undefined_bind, wp_modify, undefined_bind', log_held_blocks.
    - cbn. by rewrite Hcr.
    - match goal with |- logs (log_min ?x) _ = _ => change (log_min x) with (crypto_logger (access_crypto s1)) end. by rewrite Hcr. }
  unfold get_or_create. change (find_context id (set_locked true s)) with (find_context id s0).
  change (find_context 0 (set_locked true s)) with (find_context 0 s0). change (active_contexts (set_locked true s)) with (active_contexts s0).
  unfold request_refused in Hr. pose proof (find_context_spec id s0 Hw Hid) as Hf. destruct (find_context id s0) as [i|].
  - destruct Hf as (c & Hc & _ & Hm). rewrite Hm in Hr. apply undefined_bind, wp_modify. by apply (Htail i c).
  - rewrite Hf in Hr. destruct (full_count s0 Hw) as [-> Hroom]. rewrite Hr. apply bool_decide_eq_false in Hr.
    destruct (Hroom Hr) as (i & c & -> & Hc & Hz). apply undefined_bind, wp_modify.
    assert (Hcz : c = context_zero) by (pose proof (aw_free _ Hw) as Hfr; rewrite Forall_lookup in Hfr; by eapply Hfr). subst c.
    apply (Htail i (context_zero <| ctx_session := id |>)); [|done|done].
    match goal with |- contexts ?x !! i = _ => change (contexts x) with (alter (fun c => c <| ctx_session := id |>) i (contexts s0)) end.
    by rewrite list_lookup_alter_eq, Hc.
Qed.

Lemma end_delay_session now d c : ctx_session (end_delay now d c) = ctx_session c.
Proof. unfold end_delay. by case_match. Qed.
Lemma timeout_loop_spec now d n : forall i s m, (n + i)%nat = length (contexts s) -> crypto_logger (access_crypto s) = None ->
  delay_time_ms (access_config s) = d ->
  wp (timeout_loop now n i) (fun _ s' m' => m' = m /\
    s' = s <| contexts := take i (contexts s) ++ (end_delay now d <$> drop i (contexts s)) |>) s m.
Proof.
  induction n as [|n IH]; intros i s m Hn Hq Hd; cbn [timeout_loop].
  - apply wp_ret. split; [done|]. rewrite drop_ge, take_ge by lia. cbn. rewrite app_nil_r. by destruct s.
  - destruct (lookup_lt_is_Some_2 (contexts s) i) as [c Hc]; [lia|]. apply wp_bind, (wp_context_at _ _ c); [done|].
    apply wp_bind, wp_get. cbv zeta. rewrite Hd. apply wp_bind, wp_modify. match goal with |- wp _ _ ?x _ => set (s1 := x) end.
    assert (Hlog : forall Q : unit -> SecurityAccess -> Machine -> Prop, Q tt s1 m ->
      wp (if delay_active c && negb (delay_active (end_delay now d c)) then Logger_Log LOG_LEVEL_INFO else mret tt) Q s1 m).
    { intros Q HQ. destruct (_ && _); [by apply wp_quiet|by apply wp_ret]. }
    apply wp_bind, Hlog. assert (Hl1 : contexts s1 = <[i := end_delay now d c]> (contexts s)) by done.
    eapply wp_mono; [apply (IH (S i) s1 m); [rewrite Hl1, length_insert; lia|done|done]|]. intros [] s2 m2 [-> ->]. split; [done|].
    rewrite Hl1. rewrite (drop_S (contexts s) c i) by done. cbn [fmap list_fmap].
    rewrite (take_S_r _ _ (end_delay now d c)) by (apply list_lookup_insert_eq; lia). rewrite take_insert_ge, drop_insert_lt by lia.
    by rewrite <- app_assoc.
Qed.
Lemma end_delay_map now d l : slots_uniq l -> slot_map (end_delay now d <$> l) = end_delay now d <$> slot_map l.
Proof.
  intros Hu. assert (Hused : used (end_delay now d <$> l) = end_delay now d <$> used l).
  { clear Hu. induction l as [|c l IH]; [done|]. unfold used in *. cbn [fmap list_fmap]. rewrite !filter_cons.
    assert (Hs : slot_used (end_delay now d c) = slot_used c) by (cbn; by rewrite end_delay_session).
    rewrite Hs. case_decide; [by rewrite IH|done]. }
  unfold slot_map. rewrite Hused, <- list_to_map_fmap, <- !list_fmap_compose. f_equal.
  apply list_fmap_ext. intros j c _. cbn. by rewrite end_delay_session.
Qed.

(** The poll ends exactly the delays that have lasted their time, with the attempts
    forgotten, at most every 100 ms, and changes no other session. *)
Theorem access_timeouts_exact s m : access_wf s -> wp Security_ProcessTimeouts (fun _ s' m' => m' = m /\
  context_map s' = if u32 (access_clock s - last_check_time s) <? SECURITY_CHECK_INTERVAL_MS then context_map s
                   else end_delay (access_clock s) (delay_time_ms (access_config s)) <$> context_map s) s m.
Proof.
  intros Hw. unfold Security_ProcessTimeouts. apply wp_bind, wp_get. rewrite (aw_init _ Hw). cbn [negb]. cbv zeta.
  destruct (_ <? _); [by apply wp_ret|]. apply wp_bind, wp_lock_access; [done|]. apply wp_bind, wp_modify.
  match goal with |- wp _ _ ?x _ => set (s1 := x) end. assert (Hl1 : contexts s1 = contexts s) by done. apply wp_bind.
  eapply wp_mono; [apply (timeout_loop_spec (access_clock s) (delay_time_ms (access_config s)) MAX_SECURITY_CONTEXTS 0 s1 m)|].
  - by rewrite Hl1, (aw_length _ Hw).
  - exact (aw_quiet _ Hw).
  - done.
  - intros [] s2 m2 [-> ->]. apply wp_unlock_held; [done|]. split; [done|]. unfold context_map. cbn [contexts set_locked SecurityAccess_mutex].
    rewrite take_0, drop_0, Hl1. cbn [app]. by apply end_delay_map, Hw.
Qed.
End access.

(** ** Witnesses *)

Definition example_security : SecurityConfig := mkSecurityConfig 5000 2 true true 4 8.
Definition example_access (l : list SecurityContext) : SecurityAccess :=
  mkAccess (l ++ replicate (MAX_SECURITY_CONTEXTS - length l) context_zero) example_security (Z.of_nat (length l)) 0 true example_crypto 9000.
Lemma example_access_wf a t d : access_wf (example_access [mkContext 3 1 0x1234 a t d]).
Proof.
  constructor; try done.
  - apply NoDup_singleton.
  - cbn [contexts example_access app]. constructor; [done|]. by repeat constructor.
  - split; [reflexivity|]. apply Forall_replicate. vm_compute. split; congruence.
Qed.
Lemma example_access_empty : access_wf (example_access []) /\ context_map (example_access []) = ∅.
Proof.
  split; [|vm_compute; reflexivity]. constructor; try done.
  - apply NoDup_nil_2.
  - by repeat constructor.
  - split; [reflexivity|]. apply Forall_replicate. vm_compute. split; congruence.
Qed.
(** A session with the seed 0x1234; its key is the seed exclusive-or four bytes 0x5A. *)
Definition example_session : SecurityContext := mkContext 3 1 0x1234 0 0 false.
Lemma example_session_map : context_map (example_access [example_session]) !! 3 = Some example_session.
Proof. vm_compute. reflexivity. Qed.

Lemma security_access_refines_witness :
  wp (Security_ValidateKey no_hw 3 (Some (le_bytes 4 (Z.lxor 0x1234 0x5A5A5A5A)))) (fun ok _ _ => ok = true) (example_access [example_session]) boot.
Proof.
  assert (Hw : access_wf (example_access [example_session])) by (apply example_access_wf).
  destruct (security_access_refines no_hw 3 (example_access [example_session]) Hw) as (_ & Hv & _); [done|].
  eapply wp_mono; [apply Hv; left; cbn; lia|]. intros ok s' m' (_ & _ & _ & H). rewrite example_session_map in H. cbn [delay_active example_session] in H.
  destruct H as [-> _]. vm_compute. reflexivity.
Defined.
Lemma access_without_key_witness :
  wp (Security_RequestAccess no_hw 4 2;; Security_IsLevelAllowed 4 2) (fun ok _ _ => ok = true) (example_access []) boot.
Proof.
  apply (access_without_key no_hw 4 2 (example_access []) boot); [apply example_access_empty|done|].
  unfold request_refused. by rewrite (proj2 example_access_empty).
Defined.
Lemma seed_and_key_fit_witness :
  wp (Security_RequestAccess no_hw 4 2;;
      o ← Security_GetSeed 4;
      match o with
      | None => mret None
      | Some seed => k ← in_crypto (Crypto_CalculateKey no_hw seed); ok ← Security_ValidateKey no_hw 4 (Some [1; 2; 3; 4]); mret (Some (k, ok))
      end) (fun r _ _ => exists k, r = Some (k, bool_decide (k = 0x04030201))) (example_access []) boot.
Proof.
  apply (seed_and_key_fit no_hw 4 2 [1; 2; 3; 4] (example_access []) boot); [apply example_access_empty|done| |cbn; lia|done|].
  - unfold request_refused. by rewrite (proj2 example_access_empty).
  - repeat constructor; vm_compute; congruence.
Defined.
Lemma lockout_bypassed_witness :
  wp (bs ← try_keys no_hw 3 [[0; 0; 0; 0]; [1; 1; 1; 1]]; b ← Security_ValidateKey no_hw 3 (Some (le_bytes 4 (Z.lxor 0x1234 0x5A5A5A5A)));
      Security_RevokeAccess 3;; r ← Security_RequestAccess no_hw 3 2; mret (bs, b, r))
    (fun x s' _ => x = ([false; false], false, true) /\ exists c', context_map s' !! 3 = Some c' /\ delay_active c' = false /\ attempt_count c' = 0)
    (example_access [example_session]) boot.
Proof.
  apply (lockout_bypassed no_hw 3 2 [[0; 0; 0; 0]; [1; 1; 1; 1]] _ example_session (example_access [example_session]) boot).
  - apply example_access_wf.
  - done.
  - apply example_session_map.
  - done.
  - done.
  - cbn. lia.
  - done.
  - apply Forall_cons; split; [split; [left; cbn; lia|vm_compute; reflexivity]|].
    apply Forall_singleton. split; [left; cbn; lia|vm_compute; reflexivity].
  - left. cbn. lia.
Defined.
Lemma revoke_zero_witness :
  wp (Security_RevokeAccess 0;; Security_RequestAccess no_hw 4 2) (fun ok s' _ => ok = false /\ active_contexts s' = 2 ^ 32 - 1) (example_access []) boot.
Proof. apply (revoke_zero no_hw 4 2 (example_access []) boot); [apply example_access_empty|apply example_access_empty|done]. Defined.
Lemma request_blocks_witness :
  Security_RequestAccess no_hw 4 2 ((example_access []) <| access_crypto ::= fun c => c <| crypto_logger := Some LOG_LEVEL_DEBUG |> |>) boot = None.
Proof.
  apply (request_blocks no_hw 4 2 (example_access []) LOG_LEVEL_DEBUG boot); [apply example_access_empty|done| |done].
  unfold request_refused. by rewrite (proj2 example_access_empty).
Defined.
Lemma access_timeouts_exact_witness : wp Security_ProcessTimeouts (fun _ s' _ =>
  context_map s' !! 3 = Some (mkContext 3 1 0x1234 0 1000 false)) (example_access [mkContext 3 1 0x1234 2 1000 true]) boot.
Proof.
  assert (Hw : access_wf (example_access [mkContext 3 1 0x1234 2 1000 true])) by (apply example_access_wf).
  eapply wp_mono; [apply (access_timeouts_exact _ boot Hw)|]. intros [] s' m' [_ ->]. vm_compute. reflexivity.
Defined.
