(* ===== verification/DataItems.v ===== *)
(** * Cached data items of the add-ons

    [diagnostic/data/diag_data_manager.c]: up to 256 data items of up to 64 bytes, found by
    number, under the process-wide mutex of [Mutex.v].  The bytes of an item stay where the
    application keeps them, in the byte memory [data_memory]; the manager reads and writes
    them through the item's address, 0 being NULL, and keeps a copy if caching is enabled.

    A [void *] of a caller is the list of bytes it points to; copying more bytes than it has
    is undefined.  Validators and callbacks are named by a number, 0 for NULL; [validate]
    says what a validator answers, and callbacks are recorded and do not call back.
    [data_clock] is what [Timer_GetMilliseconds] returns. *)

From S2P Require Import Prelude Memory Machine Tables Mutex.

Definition MAX_DATA_ITEMS : nat := 256.
(** The buffers for one value. *)
Definition MAX_VALUE : nat := 64.
Definition CACHE_CHECK_MS : Z := 100.

(** [DATA_TYPE_OTHER] is any value outside the enumeration. *)
Inductive DataType :=
| DATA_TYPE_UINT8 | DATA_TYPE_UINT16 | DATA_TYPE_UINT32 | DATA_TYPE_INT8 | DATA_TYPE_INT16 | DATA_TYPE_INT32
| DATA_TYPE_FLOAT | DATA_TYPE_STRING | DATA_TYPE_OTHER.
Record DiagDataItem := mkItem {
  item_id : Z; item_type : DataType; item_data : Z; item_size : Z; item_validator : Z; item_callback : Z }.
Record DiagDataConfig := mkDataConfig {
  max_items : Z; enable_validation : bool; enable_callbacks : bool; enable_caching : bool; cache_timeout_ms : Z }.
Record DataItemEntry := mkEntry { item : DiagDataItem; last_update_time : Z; is_cached : bool; cache_data : list Z }.
#[export] Instance eta_DataItemEntry : Eta DataItemEntry := fun e =>
  mkEntry (item e) (last_update_time e) (is_cached e) (cache_data e).
#[export] Instance DataItemEntry_key : Keyed DataItemEntry := fun e => item_id (item e).
Definition entry_zero : DataItemEntry := mkEntry (mkItem 0 DATA_TYPE_UINT8 0 0 0 0) 0 false (replicate MAX_VALUE 0).

(** [data_mgr], the memory of the application, the mutex, the logger and the clock. *)
Record DataItems := mkDataItems {
  config : DiagDataConfig; items : list DataItemEntry; item_count : nat; last_cache_check : Z; initialized : bool;
  data_memory : gmap Z Z; data_mutex : bool; data_logger : option LogLevel; data_clock : Z }.
#[export] Instance eta_DataItems : Eta DataItems := fun s =>
  mkDataItems (config s) (items s) (item_count s) (last_cache_check s) (initialized s) (data_memory s) (data_mutex s)
    (data_logger s) (data_clock s).
#[export, refine] Instance DataItems_mutex : HasMutex DataItems :=
  {| locked := data_mutex; set_locked b s := s <| data_mutex := b |>; log_min := data_logger |}.
Proof. all: by intros; destruct s. Defined.

Definition config_zero : DiagDataConfig := mkDataConfig 0 false false false 0.
(** [memset(&data_mgr, 0, ...)]. *)
Definition data_clear (s : DataItems) : DataItems :=
  s <| config := config_zero |> <| items := replicate MAX_DATA_ITEMS entry_zero |> <| item_count := 0%nat |>
    <| last_cache_check := 0 |> <| initialized := false |>.

Definition validate_data_size (type : DataType) (size : Z) : bool :=
  match type with
  | DATA_TYPE_UINT8 | DATA_TYPE_INT8 => size =? 1
  | DATA_TYPE_UINT16 | DATA_TYPE_INT16 => size =? 2
  | DATA_TYPE_UINT32 | DATA_TYPE_INT32 | DATA_TYPE_FLOAT => size =? 4
  | DATA_TYPE_STRING => (0 <? size) && (size <=? 64)
  | DATA_TYPE_OTHER => false
  end.

(** The two halves of [memcpy]: the first [n] bytes of a buffer, and a buffer after bytes
    were written to its start. *)
Definition fetch (n : nat) (src : list Z) : option (list Z) := if (n <=? length src)%nat then Some (take n src) else None.
Definition store (bytes dst : list Z) : option (list Z) :=
  if (length bytes <=? length dst)%nat then Some (bytes ++ drop (length bytes) dst) else None.
Definition lift {A} (o : option A) : M DataItems A := match o with Some a => mret a | None => fault end.
Definition set_entry (i : nat) (e : DataItemEntry) : M DataItems unit := modify (fun s => s <| items ::= <[i := e]> |>).

Section data_items.
Context (validate : Z -> list Z -> Z -> bool).

Definition DiagData_Init (cfg : option DiagDataConfig) : M DataItems bool :=
  match cfg with
  | None => mret false
  | Some cfg =>
      if Z.of_nat MAX_DATA_ITEMS <? max_items cfg then mret false else
      modify data_clear;;
      modify (fun s => s <| config := cfg |> <| last_cache_check := data_clock s |> <| initialized := true |>);;
      Logger_Log LOG_LEVEL_INFO;;
      mret true
  end.
Definition DiagData_Deinit : M DataItems unit := Logger_Log LOG_LEVEL_INFO;; modify data_clear.

Definition DiagData_RegisterItem (it : option DiagDataItem) : M DataItems bool :=
  s ← get;
  match it with
  | None => mret false
  | Some it =>
      if negb (initialized s) || (item_data it =? 0) || (max_items (config s) <=? Z.of_nat (item_count s)) then mret false else
      lock;;
      match find_key (item_id it) (item_count s) (items s) with
      | Some _ => unlock;; Logger_Log LOG_LEVEL_ERROR;; mret false
      | None =>
          if negb (validate_data_size (item_type it) (item_size it)) then unlock;; Logger_Log LOG_LEVEL_ERROR;; mret false else
          entry ← lift (items s !! item_count s);
          set_entry (item_count s) (entry <| item := it |> <| last_update_time := data_clock s |> <| is_cached := false |>);;
          modify (fun s => s <| item_count ::= S |>);;
          Logger_Log LOG_LEVEL_INFO;;
          unlock;;
          mret true
      end
  end.
Definition DiagData_UnregisterItem (id : Z) : M DataItems bool :=
  s ← get;
  if negb (initialized s) then mret false else
  lock;;
  match find_key id (item_count s) (items s) with
  | None => unlock;; mret false
  | Some i =>
      (if (i <? item_count s - 1)%nat then last ← lift (items s !! (item_count s - 1)%nat); set_entry i last else mret tt);;
      modify (fun s => s <| item_count ::= fun n => (n - 1)%nat |>);;
      Logger_Log LOG_LEVEL_INFO;;
      unlock;;
      mret true
  end.

(** The bytes of an item in the memory of the application. *)
Definition item_bytes (mem : gmap Z Z) (it : DiagDataItem) : option (list Z) := read_mem mem (item_data it) (Z.to_nat (item_size it)).
(** [size] says that the pointer to the size is not NULL; the answer is the caller's buffer
    and the size, [None] for [false]. *)
Definition DiagData_ReadItem (id : Z) (data : option (list Z)) (size : bool) : M DataItems (option (list Z * Z)) :=
  s ← get;
  match data with
  | None => mret None
  | Some data =>
      if negb (initialized s) || negb size then mret None else
      lock;;
      match find_key id (item_count s) (items s) with
      | None => unlock;; mret None
      | Some i =>
          entry ← lift (items s !! i);
          bytes ← lift (if is_cached entry && enable_caching (config s)
                        then fetch (Z.to_nat (item_size (item entry))) (cache_data entry)
                        else item_bytes (data_memory s) (item entry));
          data ← lift (store bytes data);
          unlock;;
          mret (Some (data, item_size (item entry)))
      end
  end.
Definition DiagData_WriteItem (id : Z) (data : option (list Z)) (size : Z) : M DataItems bool :=
  s ← get;
  match data with
  | None => mret false
  | Some data =>
      if negb (initialized s) then mret false else
      lock;;
      match find_key id (item_count s) (items s) with
      | None => unlock;; mret false
      | Some i =>
          entry ← lift (items s !! i);
          let it := item entry in
          if negb (size =? item_size it) then unlock;; Logger_Log LOG_LEVEL_ERROR;; mret false else
          if enable_validation (config s) && negb (item_validator it =? 0) && negb (validate (item_validator it) data size)
          then unlock;; Logger_Log LOG_LEVEL_ERROR;; mret false else
          let calls := enable_callbacks (config s) && negb (item_callback it =? 0) in
          old_data ← (if calls then
                        old ← lift (item_bytes (data_memory s) it);
                        if (length old <=? MAX_VALUE)%nat then mret old else fault
                      else mret []);
          bytes ← lift (fetch (Z.to_nat size) data);
          mem ← lift (write_mem (data_memory s) (item_data it) bytes);
          modify (fun s => s <| data_memory := mem |>);;
          set_entry i (entry <| last_update_time := data_clock s |> <| is_cached := false |>);;
          callback calls "callback" (item_callback it :: old_data ++ bytes);;
          Logger_Log LOG_LEVEL_DEBUG;;
          unlock;;
          mret true
      end
  end.

(** The body of the loop of the poll. *)
Definition cache_entry (now timeout : Z) (mem : gmap Z Z) (e : DataItemEntry) : option DataItemEntry :=
  if negb (is_cached e) || (timeout <=? u32 (now - last_update_time e)) then
    bytes ← item_bytes mem (item e);
    cache ← store bytes (cache_data e);
    Some (e <| cache_data := cache |> <| is_cached := true |> <| last_update_time := now |>)
  else Some e.
Fixpoint cache_loop (now : Z) (n i : nat) : M DataItems unit :=
  match n with
  | O => mret tt
  | S n =>
      s ← get;
      e ← lift (items s !! i);
      e ← lift (cache_entry now (cache_timeout_ms (config s)) (data_memory s) e);
      set_entry i e;;
      cache_loop now n (S i)
  end.
Definition DiagData_ProcessCache : M DataItems unit :=
  s ← get;
  if negb (initialized s) || negb (enable_caching (config s)) then mret tt else
  let current_time := data_clock s in
  if u32 (current_time - last_cache_check s) <? CACHE_CHECK_MS then mret tt else
  lock;;
  modify (fun s => s <| last_cache_check := current_time |>);;
  cache_loop current_time (item_count s) 0;;
  unlock.
End data_items.

(** ** The items as a map

    The abstract state: the items by number with the time of the last change and the copy,
    if there is one; the memory, the clock and the time of the last poll that did something. *)

Record Shown := mkShown { shown_item : DiagDataItem; shown_time : Z; shown_copy : option (list Z) }.
#[export] Instance eta_Shown : Eta Shown := fun e => mkShown (shown_item e) (shown_time e) (shown_copy e).
Record Abs := mkAbs { a_items : gmap Z Shown; a_memory : gmap Z Z; a_clock : Z; a_check : Z }.
#[export] Instance eta_Abs : Eta Abs := fun a => mkAbs (a_items a) (a_memory a) (a_clock a) (a_check a).

Definition shown (e : DataItemEntry) : Shown :=
  mkShown (item e) (last_update_time e)
    (if is_cached e then Some (take (Z.to_nat (item_size (item e))) (cache_data e)) else None).
Definition abs (s : DataItems) : Abs :=
  mkAbs (shown <$> tbl (item_count s) (items s)) (data_memory s) (data_clock s) (last_cache_check s).

Definition item_ok (mem : gmap Z Z) (it : DiagDataItem) : Prop :=
  validate_data_size (item_type it) (item_size it) = true /\ item_data it <> 0 /\
  mapped mem (item_data it) (Z.to_nat (item_size it)).
Record data_wf (s : DataItems) : Prop := {
  dw_free : data_mutex s = false; dw_init : initialized s = true; dw_length : length (items s) = MAX_DATA_ITEMS;
  dw_count : Z.of_nat (item_count s) <= max_items (config s) <= Z.of_nat MAX_DATA_ITEMS;
  dw_uniq : tbl_uniq (item_count s) (items s);
  dw_caches : Forall (fun e => length (cache_data e) = MAX_VALUE) (items s);
  dw_items : Forall (fun e => item_ok (data_memory s) (item e)) (take (item_count s) (items s));
  dw_quiet : logs (data_logger s) LOG_LEVEL_INFO = false }.

Lemma valid_size type size : validate_data_size type size = true -> 1 <= size <= Z.of_nat MAX_VALUE.
Proof. unfold MAX_VALUE. destruct type; cbn; intros; tests; lia. Qed.
Lemma quiet_below s : logs (data_logger s) LOG_LEVEL_INFO = false -> logs (data_logger s) LOG_LEVEL_DEBUG = false.
Proof. by destruct (data_logger s) as [[]|]. Qed.

Lemma store_fits bytes dst : (length bytes <= length dst)%nat -> store bytes dst = Some (bytes ++ drop (length bytes) dst).
Proof. intros Hl. unfold store. by rewrite (proj2 (Nat.leb_le _ _)). Qed.
Lemma fetch_fits n src : (n <= length src)%nat -> fetch n src = Some (take n src).
Proof. intros Hl. unfold fetch. by rewrite (proj2 (Nat.leb_le _ _)). Qed.
Lemma length_stored (bytes dst : list Z) : (length bytes <= length dst)%nat -> length (bytes ++ drop (length bytes) dst) = length dst.
Proof. intros Hl. rewrite length_app, length_drop. lia. Qed.

Section data_proofs.
Context (validate : Z -> list Z -> Z -> bool).
Implicit Types s : DataItems.

(** [OpElapse] is the clock going on, [OpApplication] the application changing its data. *)
Inductive DataOp :=
| OpRegister (it : DiagDataItem) | OpUnregister (id : Z) | OpRead (id : Z) (buf : list Z) | OpWrite (id : Z) (data : list Z) (size : Z)
| OpPoll | OpElapse (ms : Z) | OpApplication (a : Z) (bytes : list Z).
Inductive DataOut := Done (b : bool) | Value (v : option (list Z * Z)) | Nothing.
Definition data_exec (op : DataOp) : M DataItems DataOut :=
  match op with
  | OpRegister it => b ← DiagData_RegisterItem (Some it); mret (Done b)
  | OpUnregister id => b ← DiagData_UnregisterItem id; mret (Done b)
  | OpRead id buf => v ← DiagData_ReadItem id (Some buf) true; mret (Value v)
  | OpWrite id data size => b ← DiagData_WriteItem validate id (Some data) size; mret (Done b)
  | OpPoll => DiagData_ProcessCache;; mret Nothing
  | OpElapse ms => modify (fun s => s <| data_clock ::= fun t => u32 (t + ms) |>);; mret Nothing
  | OpApplication a bytes =>
      s ← get; mem ← lift (write_mem (data_memory s) a bytes); modify (fun s => s <| data_memory := mem |>);; mret Nothing
  end.

(** The pointers of a call lead to enough bytes. *)
Definition op_ok (op : DataOp) (a : Abs) : Prop :=
  match op with
  | OpRegister it => mapped (a_memory a) (item_data it) (Z.to_nat (item_size it))
  | OpRead id buf => forall e, a_items a !! id = Some e -> item_size (shown_item e) <= Z.of_nat (length buf)
  | OpWrite id data size => size <= Z.of_nat (length data)
  | OpApplication p bytes => mapped (a_memory a) p (length bytes)
  | _ => True
  end.

(** What a read gives. *)
Definition value (c : DiagDataConfig) (a : Abs) (e : Shown) : list Z :=
  match shown_copy e with
  | Some copy => if enable_caching c then copy else default [] (item_bytes (a_memory a) (shown_item e))
  | None => default [] (item_bytes (a_memory a) (shown_item e))
  end.
Definition refresh (c : DiagDataConfig) (a : Abs) (e : Shown) : Shown :=
  if bool_decide (shown_copy e = None) || (cache_timeout_ms c <=? u32 (a_clock a - shown_time e))
  then mkShown (shown_item e) (a_clock a) (item_bytes (a_memory a) (shown_item e)) else e.
Definition rejected (c : DiagDataConfig) (it : DiagDataItem) (data : list Z) (size : Z) : bool :=
  negb (size =? item_size it) ||
  (enable_validation c && negb (item_validator it =? 0) && negb (validate (item_validator it) data size)).
Definition write_calls (c : DiagDataConfig) (a : Abs) (it : DiagDataItem) (bytes : list Z) : list Call :=
  if enable_callbacks c && negb (item_callback it =? 0)
  then [call "callback" (item_callback it :: default [] (item_bytes (a_memory a) it) ++ bytes)] else [].
Definition memory_after (mem : gmap Z Z) (p : Z) (bytes : list Z) : gmap Z Z := default mem (write_mem mem p bytes).

Definition data_spec (op : DataOp) (c : DiagDataConfig) (a : Abs) : DataOut * Abs * list Call :=
  match op with
  | OpRegister it =>
      if negb (item_data it =? 0) && (Z.of_nat (size (a_items a)) <? max_items c) && bool_decide (a_items a !! item_id it = None) &&
         validate_data_size (item_type it) (item_size it)
      then (Done true, a <| a_items ::= <[item_id it := mkShown it (a_clock a) None]> |>, [])
      else (Done false, a, [])
  | OpUnregister id => (Done (bool_decide (is_Some (a_items a !! id))), a <| a_items ::= delete id |>, [])
  | OpRead id buf =>
      (Value (e ← a_items a !! id;
              Some (value c a e ++ drop (Z.to_nat (item_size (shown_item e))) buf, item_size (shown_item e))), a, [])
  | OpWrite id data size =>
      match a_items a !! id with
      | None => (Done false, a, [])
      | Some e =>
          if rejected c (shown_item e) data size then (Done false, a, []) else
          let bytes := take (Z.to_nat size) data in
          (Done true,
           a <| a_memory := memory_after (a_memory a) (item_data (shown_item e)) bytes |>
             <| a_items ::= <[id := mkShown (shown_item e) (a_clock a) None]> |>,
           write_calls c a (shown_item e) bytes)
      end
  | OpPoll =>
      if enable_caching c && (CACHE_CHECK_MS <=? u32 (a_clock a - a_check a))
      then (Nothing, a <| a_items := refresh c a <$> a_items a |> <| a_check := a_clock a |>, [])
      else (Nothing, a, [])
  | OpElapse ms => (Nothing, a <| a_clock ::= fun t => u32 (t + ms) |>, [])
  | OpApplication p bytes => (Nothing, a <| a_memory := memory_after (a_memory a) p bytes |>, [])
  end.

Definition data_conforms (op : DataOp) s (m : Machine) (out : DataOut) s' (m' : Machine) : Prop :=
  data_wf s' /\ config s' = config s /\
  exists calls, (out, abs s', calls) = data_spec op (config s) (abs s) /\ m' = m <| trace ::= fun t => t ++ calls |>.

Lemma no_calls op s s' m out : data_wf s' -> config s' = config s -> (out, abs s', []) = data_spec op (config s) (abs s) ->
  data_conforms op s m out s' m.
Proof. intros Hw Hc Ho. split_and!; try done. exists []. split; [done|]. destruct m. cbn. by rewrite app_nil_r. Qed.
Lemma items_unlocked s : data_mutex s = false -> set_locked false (set_locked true s) = s.
Proof. intros Hf. destruct s. cbn in *. by subst. Qed.
Lemma wp_lift_item {A} (o : option A) a Q s m : o = Some a -> Q a s m -> wp (lift o) Q s m.
Proof. by intros ->. Qed.
(** Leaving without a change. *)
Lemma refuse_conforms {A} op (a : A) (f : A -> DataOut) s m : data_wf s -> (f a, abs s, []) = data_spec op (config s) (abs s) ->
  wp (unlock;; mret a) (fun x => wp (mret (f x)) (data_conforms op s m)) (set_locked true s) m.
Proof.
  intros Hw Ho. apply wp_bind, wp_unlock_held; [done|]. rewrite items_unlocked by apply Hw.
  apply wp_ret, wp_ret, no_calls; done.
Qed.
Lemma refuse_logged {A} op level (a : A) (f : A -> DataOut) s m : data_wf s -> (f a, abs s, []) = data_spec op (config s) (abs s) ->
  wp (unlock;; Logger_Log level;; mret a) (fun x => wp (mret (f x)) (data_conforms op s m)) (set_locked true s) m.
Proof.
  intros Hw Ho. apply wp_bind, wp_unlock_held; [done|]. rewrite items_unlocked by apply Hw.
  apply wp_bind, wp_log_free; [apply Hw|]. apply wp_ret, wp_ret, no_calls; done.
Qed.

Lemma live_data_entry s i e : data_wf s -> (i < item_count s)%nat -> items s !! i = Some e ->
  item_ok (data_memory s) (item e) /\ length (cache_data e) = MAX_VALUE /\ 1 <= item_size (item e) <= Z.of_nat MAX_VALUE.
Proof.
  intros Hw Hi He. assert (Hok : item_ok (data_memory s) (item e)).
  { apply (proj1 (Forall_lookup _ _) (dw_items _ Hw) i). by apply lookup_take_Some. }
  split; [done|]. split; [by apply (proj1 (Forall_lookup _ _) (dw_caches _ Hw) i)|]. by eapply valid_size, Hok.
Qed.
Lemma find_entry s id : data_wf s ->
  match find_key id (item_count s) (items s) with
  | Some i => exists e, items s !! i = Some e /\ (i < item_count s)%nat /\ a_items (abs s) !! id = Some (shown e) /\ key e = id
  | None => a_items (abs s) !! id = None
  end.
Proof.
  intros Hw. cbn. rewrite lookup_fmap, tbl_lookup by apply Hw. destruct (find_key _ _ _) as [i|] eqn:E; [|done].
  destruct (find_key_Some _ _ _ _ E) as (e & He & Hi & Hk). exists e. cbn. by rewrite He.
Qed.
Lemma live_bytes s i e : data_wf s -> (i < item_count s)%nat -> items s !! i = Some e ->
  exists bytes, item_bytes (data_memory s) (item e) = Some bytes /\ length bytes = Z.to_nat (item_size (item e)).
Proof. intros Hw Hi He. destruct (live_data_entry s i e Hw Hi He) as [(_ & _ & Hm) _]. by apply read_mem_mapped. Qed.

Lemma read_ok id buf s m : data_wf s -> op_ok (OpRead id buf) (abs s) ->
  wp (data_exec (OpRead id buf)) (data_conforms (OpRead id buf) s m) s m.
Proof.
  intros Hw Hok. pose proof (find_entry s id Hw) as Hf. cbn [data_exec]. unfold DiagData_ReadItem.
  apply wp_bind, wp_bind, wp_get. rewrite (dw_init _ Hw). cbn [negb orb]. apply wp_bind, wp_lock_free; [apply Hw|].
  destruct (find_key _ _ _) as [i|].
  - destruct Hf as (e & He & Hi & Hm & Hk). destruct (live_data_entry s i e Hw Hi He) as (_ & Hl & Hsz).
    destruct (live_bytes s i e Hw Hi He) as (bytes & Hb & Hbl). specialize (Hok _ Hm). cbn in Hok.
    apply wp_bind. eapply wp_lift_item; [exact He|].
    assert (Hv : exists v, length v = Z.to_nat (item_size (item e)) /\ v = value (config s) (abs s) (shown e) /\
      (if is_cached e && enable_caching (config s) then fetch (Z.to_nat (item_size (item e))) (cache_data e)
       else item_bytes (data_memory s) (item e)) = Some v).
    { unfold value. cbn. rewrite Hb. destruct (is_cached e), (enable_caching _); cbn; [|by exists bytes..].
      rewrite fetch_fits by (unfold MAX_VALUE in *; lia). eexists. split_and!; [|done|done]. rewrite length_take. unfold MAX_VALUE in *. lia. }
    destruct Hv as (v & Hvl & -> & Hv). apply wp_bind. eapply wp_lift_item; [exact Hv|].
    apply wp_bind. eapply wp_lift_item; [apply store_fits; lia|]. apply wp_bind, wp_unlock_held; [done|]. rewrite items_unlocked by apply Hw.
    apply wp_ret, wp_ret, no_calls; [done|done|]. cbn [data_spec]. by rewrite Hm, Hvl.
  - apply (refuse_conforms (OpRead id buf) None Value); [done|]. cbn [data_spec]. by rewrite Hf.
Qed.

Lemma elapse_ok ms s m : data_wf s -> wp (data_exec (OpElapse ms)) (data_conforms (OpElapse ms) s m) s m.
Proof. intros []. apply wp_bind, wp_modify, wp_ret, no_calls; done. Qed.

(** The memory changes, the places where the items are stay. *)
Lemma memory_changed s mem : data_wf s -> (forall k, is_Some (data_memory s !! k) -> is_Some (mem !! k)) -> data_wf (s <| data_memory := mem |>).
Proof.
  intros [H1 H2 H3 H4 H5 H6 H7 H8] Hd. constructor; try done. eapply Forall_impl; [exact H7|].
  intros e (Hv & Hn & Hm). split_and!; [done|done|]. by eapply only_mapped.
Qed.
Lemma application_ok p bytes s m : data_wf s -> op_ok (OpApplication p bytes) (abs s) ->
  wp (data_exec (OpApplication p bytes)) (data_conforms (OpApplication p bytes) s m) s m.
Proof.
  intros Hw Hok. cbn [data_exec]. apply wp_bind, wp_get, wp_bind. destruct (write_mem_spec _ _ _ Hok) as (mem & Hm & _ & _ & Hd).
  cbn in Hm, Hd. eapply wp_lift_item; [exact Hm|]. apply wp_bind, wp_modify, wp_ret, no_calls; [by apply memory_changed|done|].
  cbn [data_spec]. unfold memory_after. cbn. by rewrite Hm.
Qed.

(** Rewriting a live entry, its item the same. *)
Lemma entry_changed s i e e' : data_wf s -> (i < item_count s)%nat -> items s !! i = Some e -> item e' = item e ->
  length (cache_data e') = MAX_VALUE ->
  data_wf (s <| items ::= <[i := e']> |>) /\
  abs (s <| items ::= <[i := e']> |>) = (abs s) <| a_items ::= <[key e := shown e']> |>.
Proof.
  intros Hw Hi He Hit Hl. assert (Hk : key e' = key e) by (unfold key, DataItemEntry_key; congruence).
  destruct (tbl_update (item_count s) (items s) i e' e (dw_uniq _ Hw) He Hi Hk) as [Hu Ht]. split.
  - pose proof Hw as []. constructor; cbn; rewrite ?length_insert; auto.
    + by apply Forall_insert.
    + rewrite take_insert_lt by done. apply Forall_insert; [done|]. rewrite Hit. by apply (live_data_entry s i e Hw Hi He).
  - unfold abs. cbn [item_count items setf data_memory data_clock last_cache_check a_items].
    change (tbl (item_count s) _) with (tbl (item_count s) (<[i := e']> (items s))) at 1. by rewrite Ht, fmap_insert, Hk.
Qed.

(** The abstract effect of a write that is accepted. *)
Lemma write_ok id data size s m : data_wf s -> op_ok (OpWrite id data size) (abs s) ->
  wp (data_exec (OpWrite id data size)) (data_conforms (OpWrite id data size) s m) s m.
Proof.
  intros Hw Hok. pose proof (find_entry s id Hw) as Hf. cbn [data_exec]. unfold DiagData_WriteItem.
  apply wp_bind, wp_bind, wp_get. rewrite (dw_init _ Hw). cbn [negb]. apply wp_bind, wp_lock_free; [apply Hw|].
  destruct (find_key _ _ _) as [i|]; [|apply (refuse_conforms (OpWrite id data size) false Done); [done|cbn [data_spec]; by rewrite Hf]].
  destruct Hf as (e & He & Hi & Hm & Hk). destruct (live_data_entry s i e Hw Hi He) as ((Hv & Hn & Hmap) & Hl & Hsz).
  apply wp_bind. eapply wp_lift_item; [exact He|]. cbv zeta.
  destruct (size =? item_size (item e)) eqn:Es; cbn [negb].
  2:{ apply (refuse_logged (OpWrite id data size) _ false Done); [done|]. cbn [data_spec]. rewrite Hm. unfold rejected. cbn [shown_item shown]. by rewrite Es. }
  tests. subst size. destruct (enable_validation _ && _ && _) eqn:Ev.
  { apply (refuse_logged (OpWrite id data _) _ false Done); [done|]. cbn [data_spec]. rewrite Hm. unfold rejected. cbn [shown_item shown].
    by rewrite Ev, orb_true_r. }
  destruct (live_bytes s i e Hw Hi He) as (old & Ho & Hol). cbn in Hok. set (bytes := take (Z.to_nat (item_size (item e))) data).
  assert (Hbl : length bytes = Z.to_nat (item_size (item e))) by (unfold bytes; rewrite length_take; lia).
  destruct (write_mem_spec (data_memory s) (item_data (item e)) bytes) as (mem & Hmem & _ & _ & Hd); [by rewrite Hbl|].
  set (calls := enable_callbacks (config s) && negb (item_callback (item e) =? 0)).
  apply wp_bind. assert (Hold : forall Q s' m', Q (if calls then old else []) s' m' ->
    wp (if calls then o ← lift (item_bytes (data_memory s) (item e)); if (length o <=? MAX_VALUE)%nat then mret o else fault else mret []) Q s' m').
  { intros Q s' m' HQ. destruct calls; [|by apply wp_ret]. apply wp_bind. eapply wp_lift_item; [exact Ho|].
    rewrite (proj2 (Nat.leb_le _ _)) by lia. by apply wp_ret. }
  apply Hold, wp_bind. eapply wp_lift_item; [apply fetch_fits; lia|]. fold bytes.
  apply wp_bind. eapply wp_lift_item; [exact Hmem|].
  apply wp_bind, wp_modify, wp_bind, wp_modify, wp_bind, wp_callback.
  apply wp_bind, wp_log_silent; [apply (quiet_below s), Hw|]. apply wp_bind, wp_unlock_held; [done|].
  apply wp_ret, wp_ret.
  set (e' := e <| last_update_time := data_clock s |> <| is_cached := false |>).
  destruct (entry_changed (s <| data_memory := mem |>) i e e') as [Hw' Ha']; [by apply memory_changed|done|done|done|done|].
  match goal with |- data_conforms _ _ _ _ ?x _ => replace x with (s <| data_memory := mem |> <| items ::= <[i := e']> |>) end.
  2:{ pose proof (dw_free _ Hw). destruct s. cbn in *. by subst. }
  split_and!; [done|done|]. eexists. split; [|reflexivity]. cbn [data_spec]. rewrite Hm. unfold rejected. cbn [shown_item shown].
  rewrite Z.eqb_refl, Ev. cbn [negb orb]. cbv zeta. fold bytes. rewrite Ha', Hk. unfold memory_after, write_calls. cbn.
  rewrite Hmem. fold calls. destruct calls; [|done]. by rewrite Ho.
Qed.

Lemma unregister_ok id s m : data_wf s -> wp (data_exec (OpUnregister id)) (data_conforms (OpUnregister id) s m) s m.
Proof.
  intros Hw. pose proof (find_entry s id Hw) as Hf. cbn [data_exec]. unfold DiagData_UnregisterItem.
  apply wp_bind, wp_bind, wp_get. rewrite (dw_init _ Hw). cbn [negb]. apply wp_bind, wp_lock_free; [apply Hw|].
  destruct (find_key _ _ _) as [i|] eqn:Ek.
  2:{ apply (refuse_conforms (OpUnregister id) false Done); [done|]. cbn [data_spec]. rewrite Hf. unfold abs. cbn. do 3 f_equal. by rewrite delete_id. }
  destruct Hf as (e & He & Hi & Hm & Hk). pose proof Hw as [].
  destruct (lookup_lt_is_Some_2 (items s) (item_count s - 1)) as [y Hy]; [lia|].
  assert (Hstep : forall Q, Q tt ((set_locked true s) <| items ::= <[i := y]> |>) m ->
    wp (if (i <? item_count s - 1)%nat then last ← lift (items s !! (item_count s - 1)%nat); set_entry i last else mret tt) Q (set_locked true s) m).
  { intros Q HQ. destruct (_ <? _)%nat eqn:El; tests.
    - apply wp_bind. eapply wp_lift_item; [exact Hy|]. by apply wp_modify.
    - apply wp_ret. assert (i = item_count s - 1)%nat as Heq by lia.
      replace (set_locked true s) with ((set_locked true s) <| items ::= <[i := y]> |>); [done|].
      destruct s. cbn in *. f_equal. rewrite Heq. by apply list_insert_id. }
  apply wp_bind, Hstep, wp_bind, wp_modify, wp_bind, wp_log_silent; [done|].
  apply wp_bind, wp_unlock_held; [done|]. apply wp_ret, wp_ret.
  destruct (tbl_swap_remove id (item_count s) (items s) i y) as [Hu Ht]; [lia|done|done|done|].
  set (s1 := s <| items ::= <[i := y]> |> <| item_count ::= fun n => (n - 1)%nat |>).
  match goal with |- data_conforms _ _ _ _ ?x _ => replace x with s1 end. 2:{ unfold s1. destruct s. cbn in *. by subst. }
  apply no_calls; [|done|].
  - constructor; cbn [items item_count data_mutex initialized config data_memory data_logger setf s1]; rewrite ?length_insert; auto; [lia| |].
    + apply Forall_insert; [done|]. by apply (Forall_lookup_1 _ _ _ _ dw_caches0 Hy).
    + apply Forall_lookup. intros j x [Hj Hjn]%lookup_take_Some. destruct (decide (i = j)) as [->|Hne].
      * rewrite list_lookup_insert_eq in Hj by lia. injection Hj as <-. by apply (live_data_entry s (item_count s - 1) y Hw); [lia|].
      * rewrite list_lookup_insert_ne in Hj by done. apply (live_data_entry s j x Hw); [lia|done].
  - cbn [data_spec]. rewrite Hm. rewrite bool_decide_eq_true_2 by eauto. unfold abs, s1.
    cbn [item_count items setf data_memory data_clock last_cache_check a_items].
    change (tbl (item_count s - 1) _) with (tbl (item_count s - 1) (<[i := y]> (items s))). by rewrite Ht, fmap_delete.
Qed.

Lemma register_item_ok it s m : data_wf s -> op_ok (OpRegister it) (abs s) ->
  wp (data_exec (OpRegister it)) (data_conforms (OpRegister it) s m) s m.
Proof.
  intros Hw Hmap. pose proof (find_entry s (item_id it) Hw) as Hf. pose proof Hw as [].
  assert (Hsz : size (a_items (abs s)) = item_count s) by (cbn; rewrite map_size_fmap; apply tbl_size; [done|lia]).
  cbn [data_exec]. unfold DiagData_RegisterItem. apply wp_bind, wp_bind, wp_get. rewrite dw_init0. cbn [negb orb].
  assert (Hspec : data_spec (OpRegister it) (config s) (abs s) =
    if negb (item_data it =? 0) && (Z.of_nat (item_count s) <? max_items (config s)) && bool_decide (a_items (abs s) !! item_id it = None) &&
       validate_data_size (item_type it) (item_size it)
    then (Done true, (abs s) <| a_items ::= <[item_id it := mkShown it (a_clock (abs s)) None]> |>, []) else (Done false, abs s, []))
    by (cbn [data_spec]; by rewrite Hsz).
  destruct (_ || _) eqn:E.
  { apply wp_ret, wp_ret, no_calls; [done|done|]. rewrite Hspec. apply orb_true_iff in E as [E|E].
    - by rewrite E.
    - tests. by rewrite (proj2 (Z.ltb_ge _ _)), andb_false_r by lia. }
  apply orb_false_iff in E as [E1 E2]. rewrite E1 in Hspec. tests. rewrite (proj2 (Z.ltb_lt _ _)) in Hspec by lia. cbn [negb andb] in Hspec.
  apply wp_bind, wp_lock_free; [done|]. destruct (find_key (item_id it) _ _) as [i|] eqn:Ek.
  { destruct Hf as (e & _ & _ & Hm & _). apply (refuse_logged (OpRegister it) _ false Done); [done|]. rewrite Hspec, Hm. done. }
  rewrite bool_decide_eq_true_2 in Hspec by done. destruct (validate_data_size _ _) eqn:Hv; cbn [negb andb] in *.
  2:{ apply (refuse_logged (OpRegister it) _ false Done); [done|]. by rewrite Hspec. }
  destruct (lookup_lt_is_Some_2 (items s) (item_count s)) as [e He]; [lia|].
  set (x := e <| item := it |> <| last_update_time := data_clock s |> <| is_cached := false |>).
  destruct (tbl_push (item_count s) (items s) x) as [Hu Ht]; [lia|done|exact Ek|].
  apply wp_bind. eapply wp_lift_item; [exact He|].
  apply wp_bind, wp_modify, wp_bind, wp_modify, wp_bind, wp_log_silent; [done|].
  apply wp_bind, wp_unlock_held; [done|]. apply wp_ret, wp_ret.
  set (s1 := s <| items ::= <[item_count s := x]> |> <| item_count ::= S |>).
  match goal with |- data_conforms _ _ _ _ ?z _ => replace z with s1 end. 2:{ unfold s1. destruct s. cbn in *. by subst. }
  apply no_calls; [|done|].
  - constructor; cbn [items item_count data_mutex initialized config data_memory data_logger setf s1]; rewrite ?length_insert; auto; [lia| |].
    + apply Forall_insert; [done|]. by apply (Forall_lookup_1 _ _ _ _ dw_caches0 He).
    + rewrite take_push by lia. apply Forall_app. split; [done|]. apply Forall_singleton. done.
  - rewrite Hspec. unfold abs, s1. cbn [item_count items setf data_memory data_clock last_cache_check].
    change (tbl (S (item_count s)) _) with (tbl (S (item_count s)) (<[item_count s := x]> (items s))). by rewrite Ht, fmap_insert.
Qed.

(** ** The poll *)

Definition cached_now (now timeout : Z) (mem : gmap Z Z) (e : DataItemEntry) : DataItemEntry := default e (cache_entry now timeout mem e).
Fixpoint map_from (f : DataItemEntry -> DataItemEntry) (n i : nat) (l : list DataItemEntry) : list DataItemEntry :=
  match n with O => l | S n => map_from f n (S i) (alter f i l) end.
Lemma lookup_map_from f n i j l : map_from f n i l !! j = if bool_decide (i <= j < i + n)%nat then f <$> l !! j else l !! j.
Proof.
  revert i l. induction n as [|n IH]; intros i l; cbn [map_from].
  - by rewrite bool_decide_eq_false_2 by lia.
  - rewrite IH. destruct (decide (i = j)) as [->|Hne].
    + rewrite bool_decide_eq_false_2, bool_decide_eq_true_2 by lia. apply list_lookup_alter_eq.
    + rewrite list_lookup_alter_ne by done. repeat case_bool_decide; [done|lia|lia|done].
Qed.
Lemma take_map_from f n l : take n (map_from f n 0 l) = f <$> take n l.
Proof.
  apply list_eq. intros j. rewrite list_lookup_fmap. destruct (decide (j < n)%nat).
  - rewrite !lookup_take_lt, lookup_map_from, bool_decide_eq_true_2 by lia. done.
  - by rewrite !lookup_take_ge by lia.
Qed.
Lemma length_map_from f n i l : length (map_from f n i l) = length l.
Proof. revert i l. induction n as [|n IH]; intros i l; [done|]. cbn [map_from]. by rewrite IH, length_alter. Qed.
Lemma tbl_map f n (l l' : list DataItemEntry) : (forall e, key (f e) = key e) -> take n l' = f <$> take n l ->
  (key <$> take n l') = (key <$> take n l) /\ tbl n l' = f <$> tbl n l.
Proof.
  intros Hf Ht. unfold tbl. rewrite Ht. split.
  - rewrite <- list_fmap_compose. apply list_fmap_ext. intros j e _. apply Hf.
  - rewrite <- list_to_map_fmap, <- !list_fmap_compose. f_equal. apply list_fmap_ext. intros j e _. cbn. by rewrite Hf.
Qed.

Lemma cache_entry_ok now timeout mem e : item_ok mem (item e) -> length (cache_data e) = MAX_VALUE ->
  cache_entry now timeout mem e = Some (cached_now now timeout mem e) /\
  length (cache_data (cached_now now timeout mem e)) = MAX_VALUE /\
  shown (cached_now now timeout mem e) =
    if bool_decide (shown_copy (shown e) = None) || (timeout <=? u32 (now - last_update_time e))
    then mkShown (item e) now (item_bytes mem (item e)) else shown e.
Proof.
  intros (Hv & _ & Hm) Hl. apply valid_size in Hv. destruct (read_mem_mapped _ _ _ Hm) as (bytes & Hb & Hbl).
  unfold cached_now, cache_entry. fold (item_bytes mem (item e)) in Hb.
  replace (bool_decide (shown_copy (shown e) = None)) with (negb (is_cached e)) by (cbn; by destruct (is_cached e)).
  destruct (_ || _); [|done]. rewrite Hb. cbn [mbind option_bind]. rewrite store_fits by lia. cbn [mbind option_bind default]. split; [done|].
  split; [cbn; by rewrite length_stored by lia|]. unfold shown. cbn. by rewrite <- Hbl, take_app_length.
Qed.
Lemma key_cached_now now timeout mem e : key (cached_now now timeout mem e) = key e.
Proof.
  unfold cached_now, cache_entry. destruct (_ || _); [|done]. destruct (item_bytes _ _); [|done]. cbn.
  by destruct (store _ _).
Qed.
Lemma cache_loop_spec now n i s m :
  (forall j e, (i <= j < i + n)%nat -> items s !! j = Some e ->
    cache_entry now (cache_timeout_ms (config s)) (data_memory s) e = Some (cached_now now (cache_timeout_ms (config s)) (data_memory s) e)) ->
  (i + n <= length (items s))%nat ->
  wp (cache_loop now n i) (fun _ s' m' => m' = m /\
    s' = s <| items ::= map_from (cached_now now (cache_timeout_ms (config s)) (data_memory s)) n i |>) s m.
Proof.
  revert i s. induction n as [|n IH]; intros i s Hok Hn; cbn [cache_loop]; [apply wp_ret; by destruct s|].
  destruct (lookup_lt_is_Some_2 (items s) i) as [e He]; [lia|].
  apply wp_bind, wp_get, wp_bind. eapply wp_lift_item; [exact He|]. apply wp_bind. eapply wp_lift_item; [apply (Hok i); [lia|done]|].
  apply wp_bind, wp_modify. set (f := cached_now _ _ _) in *.
  replace (s <| items ::= <[i := f e]> |>) with (s <| items ::= alter f i |>).
  2:{ destruct s. cbn in *. f_equal. apply list_eq. intros j. destruct (decide (i = j)) as [->|].
      - rewrite list_lookup_alter_eq, He, list_lookup_insert_eq by (eapply lookup_lt_Some; exact He). done.
      - by rewrite list_lookup_alter_ne, list_lookup_insert_ne by done. }
  eapply wp_mono; [apply IH|].
  - intros j e' Hj He'. cbn in He'. rewrite list_lookup_alter_ne in He' by lia. apply (Hok j); [lia|done].
  - cbn. rewrite length_alter. lia.
  - intros [] s' m' [-> ->]. done.
Qed.
Lemma poll_ok s m : data_wf s -> wp (data_exec OpPoll) (data_conforms OpPoll s m) s m.
Proof.
  intros Hw. cbn [data_exec]. unfold DiagData_ProcessCache. apply wp_bind, wp_bind, wp_get. rewrite (dw_init _ Hw). cbn [negb orb].
  assert (Hsame : forall b, b = enable_caching (config s) && (CACHE_CHECK_MS <=? u32 (data_clock s - last_cache_check s)) -> b = false ->
    data_conforms OpPoll s m Nothing s m).
  { intros b Hb ->. apply no_calls; [done|done|]. cbn [data_spec]. cbn [abs a_clock a_check]. by rewrite <- Hb. }
  destruct (enable_caching (config s)) eqn:Ec; cbn [negb orb]; [|by apply wp_ret, wp_ret, (Hsame false)].
  cbv zeta. destruct (u32 _ <? CACHE_CHECK_MS) eqn:Ee.
  { apply wp_ret, wp_ret, (Hsame false); [|done]. tests. symmetry. apply Z.leb_gt. done. }
  apply wp_bind, wp_lock_free; [apply Hw|]. apply wp_bind, wp_modify, wp_bind. pose proof Hw as [].
  set (f := cached_now (data_clock s) (cache_timeout_ms (config s)) (data_memory s)).
  eapply wp_mono; [apply cache_loop_spec|].
  - intros j e Hj He. destruct (live_data_entry s j e Hw ltac:(lia) He) as (H1 & H2 & _). by apply cache_entry_ok.
  - cbn. lia.
  - intros [] s' m' [-> ->]. apply wp_unlock_held; [done|]. apply wp_ret.
    set (s1 := s <| last_cache_check := data_clock s |> <| items ::= map_from f (item_count s) 0 |>).
    match goal with |- data_conforms _ _ _ _ ?x _ => replace x with s1 end. 2:{ unfold s1. destruct s. cbn in *. by subst. }
    pose proof (take_map_from f (item_count s) (items s)) as Ht.
    destruct (tbl_map f (item_count s) (items s) _ (key_cached_now _ _ _) Ht) as [Hk Hm].
    assert (Hlive : forall j e, take (item_count s) (items s) !! j = Some e -> item_ok (data_memory s) (item e) /\ length (cache_data e) = MAX_VALUE).
    { intros j e [He Hj]%lookup_take_Some. by destruct (live_data_entry s j e Hw Hj He) as (? & ? & _). }
    assert (Hitem : forall e, item (f e) = item e).
    { intros e. unfold f, cached_now, cache_entry. destruct (_ || _); [|done]. destruct (item_bytes _ _); [|done]. cbn. by destruct (store _ _). }
    apply no_calls; [|done|].
    + constructor; cbn [items item_count data_mutex initialized config data_memory data_logger setf s1]; auto.
      * by rewrite length_map_from.
      * unfold tbl_uniq. by rewrite Hk.
      * apply Forall_lookup. intros j e. rewrite lookup_map_from. case_bool_decide.
        -- intros (e0 & He0 & ->)%fmap_Some. apply cache_entry_ok; apply (Hlive j); by apply lookup_take_Some; split; [|lia].
        -- intros He. by apply (Forall_lookup_1 _ _ _ _ dw_caches0 He).
      * rewrite Ht. apply Forall_lookup. intros j e. rewrite list_lookup_fmap. intros (e0 & He0 & ->)%fmap_Some.
        rewrite Hitem. by apply (Hlive j).
    + cbn [data_spec]. cbn [abs a_clock a_check]. rewrite Ec, (proj2 (Z.leb_le _ _)) by (tests; lia). cbn [andb].
      unfold abs, s1. cbn [item_count items setf data_memory data_clock last_cache_check a_items a_memory].
      do 3 f_equal. rewrite Hm. apply map_eq. intros k. rewrite !lookup_fmap. destruct (tbl _ _ !! k) as [e|] eqn:He; [|done]. cbn.
      f_equal. pose proof (find_entry s k Hw) as Hf. rewrite tbl_lookup in He by done. destruct (find_key k _ _) as [i|]; [|done].
      destruct Hf as (e' & He' & Hi & _). cbn in He. assert (e' = e) as -> by congruence.
      destruct (live_data_entry s i e Hw Hi He') as (H1 & H2 & _). by apply cache_entry_ok.
Qed.

Lemma data_op_ok op s m : data_wf s -> op_ok op (abs s) -> wp (data_exec op) (data_conforms op s m) s m.
Proof.
  intros Hw Hok. destruct op; [by apply register_item_ok|by apply unregister_ok|by apply read_ok|by apply write_ok|by apply poll_ok|
    by apply elapse_ok|by apply application_ok].
Qed.

(** ** Runs *)

Fixpoint data_run (ops : list DataOp) : M DataItems (list DataOut) :=
  match ops with [] => mret [] | op :: ops => out ← data_exec op; outs ← data_run ops; mret (out :: outs) end.
Fixpoint spec_run (ops : list DataOp) (c : DiagDataConfig) (a : Abs) : list DataOut * Abs * list Call :=
  match ops with
  | [] => ([], a, [])
  | op :: ops =>
      let '(out, a, calls) := data_spec op c a in
      let '(outs, a, calls') := spec_run ops c a in
      (out :: outs, a, calls ++ calls')
  end.
(** A condition on every operation of a run, in the state it meets. *)
Fixpoint along (P : DataOp -> Abs -> Prop) (ops : list DataOp) (c : DiagDataConfig) (a : Abs) : Prop :=
  match ops with [] => True | op :: ops => P op a /\ along P ops c (data_spec op c a).1.2 end.
Definition data_run_post (ops : list DataOp) s (m : Machine) (outs : list DataOut) s' (m' : Machine) : Prop :=
  data_wf s' /\ config s' = config s /\
  exists calls, (outs, abs s', calls) = spec_run ops (config s) (abs s) /\ m' = m <| trace ::= fun t => t ++ calls |>.

Lemma data_run_ok ops s m : data_wf s -> along op_ok ops (config s) (abs s) -> wp (data_run ops) (data_run_post ops s m) s m.
Proof.
  revert s m. induction ops as [|op ops IH]; intros s m Hw Hok; cbn [data_run].
  - apply wp_ret. split_and!; [done|done|]. exists []. split; [done|]. destruct m. cbn. by rewrite app_nil_r.
  - destruct Hok as [Hop Hok]. apply wp_bind. eapply wp_mono; [by apply data_op_ok|]. intros out s1 m1 (Hw1 & Hc1 & calls & Ho & ->).
    rewrite <- Ho in Hok. cbn [fst snd] in Hok. apply wp_bind. eapply wp_mono; [apply IH; [done|by rewrite Hc1]|].
    intros outs s2 m2 (Hw2 & Hc2 & calls' & Ho' & ->). apply wp_ret. rewrite Hc1 in Ho', Hc2. split_and!; [done|done|].
    exists (calls ++ calls'). cbn [spec_run]. rewrite <- Ho, <- Ho'. split; [done|]. destruct m. cbn. by rewrite app_assoc.
Qed.

(** A step that leaves the bytes of an item alone. *)
Definition spares (id : Z) (it : DiagDataItem) (op : DataOp) (a : Abs) : Prop :=
  match op with
  | OpUnregister i => i <> id
  | OpWrite i _ size => i <> id /\ forall e, a_items a !! i = Some e -> size = item_size (shown_item e) ->
      disjoint (item_data (shown_item e)) (item_data it) (Z.to_nat (Z.max size (item_size it)))
  | OpApplication p bytes => disjoint p (item_data it) (Nat.max (length bytes) (Z.to_nat (item_size it)))
  | _ => True
  end.
Definition holds (id : Z) (it : DiagDataItem) (bytes : list Z) (a : Abs) : Prop :=
  item_bytes (a_memory a) it = Some bytes /\
  exists e, a_items a !! id = Some e /\ shown_item e = it /\ (shown_copy e = None \/ shown_copy e = Some bytes).

Lemma only_at_more mem mem' p n k : (n <= k)%nat -> only_at mem mem' p n -> only_at mem mem' p k.
Proof. intros Hn Ho j Hj. apply Ho. lia. Qed.
Lemma memory_spared mem p (new : list Z) q n : mapped mem p (length new) -> disjoint p q (Nat.max (length new) n) ->
  read_mem (memory_after mem p new) q n = read_mem mem q n.
Proof.
  intros Hm Hd. destruct (write_mem_spec mem p new Hm) as (mem' & Hw & _ & Ho & _). unfold memory_after. rewrite Hw. cbn.
  apply read_mem_ext. intros k Hk. apply Ho. destruct Hd; lia.
Qed.
Lemma spares_holds id it bytes op s : data_wf s -> op_ok op (abs s) -> spares id it op (abs s) -> holds id it bytes (abs s) ->
  holds id it bytes (data_spec op (config s) (abs s)).1.2.
Proof.
  intros Hw Hok Hs (Hb & e & He & Hit & Hc). destruct op as [it'|i|i buf|i data size| |ms|p new]; cbn [data_spec].
  - destruct (_ && _) eqn:E; [|by split; [|exists e]]. split; [done|]. exists e. split_and!; [|done|done]. cbn.
    assert (Hn : a_items (abs s) !! item_id it' = None) by (apply andb_true_iff in E as [[_ E]%andb_true_iff _]; by apply bool_decide_eq_true in E).
    rewrite lookup_insert_ne; [done|]. intros <-. cbn in *. congruence.
  - split; [done|]. exists e. split_and!; [|done|done]. change (delete i (a_items (abs s)) !! id = Some e). by rewrite lookup_delete_ne.
  - by split; [|exists e].
  - destruct Hs as [Hne Hd]. destruct (a_items (abs s) !! i) as [e'|] eqn:He'; [|by split; [|exists e]].
    destruct (rejected _ _ _ _) eqn:Er; [by split; [|exists e]|]. cbn in Hok.
    apply orb_false_iff in Er as [Er _]. apply negb_false_iff in Er. tests. subst size. specialize (Hd _ eq_refl eq_refl).
    pose proof (find_entry s i Hw) as Hf. destruct (find_key _ _ _) as [j|]; [|congruence].
    destruct Hf as (x & Hx & Hj & Hm & _). assert (e' = shown x) as -> by congruence. destruct (live_data_entry s j x Hw Hj Hx) as ((_ & _ & Hmap) & _ & Hsz).
    cbn [shown_item shown] in *. split.
    + cbn. unfold item_bytes. rewrite memory_spared; [exact Hb| |]; rewrite length_take, Nat.min_l by lia; [exact Hmap|].
      replace (Nat.max _ _) with (Z.to_nat (Z.max (item_size (item x)) (item_size it))) by lia. exact Hd.
    + exists e. split_and!; [|done|done]. cbn. rewrite lookup_insert_ne by done. exact He.
  - destruct (_ && _); [|by split; [|exists e]]. split; [done|]. exists (refresh (config s) (abs s) e). cbn [a_items setf fst snd].
    rewrite lookup_fmap, He. split; [done|]. unfold refresh. destruct (_ || _); [|done]. cbn. split; [done|]. right. by rewrite Hit.
  - by split; [|exists e].
  - split; [|exists e; by split_and!]. cbn. unfold item_bytes. rewrite memory_spared; [exact Hb|exact Hok|exact Hs].
Qed.
Lemma run_holds id it bytes ops s m : data_wf s -> along (fun op a => op_ok op a /\ spares id it op a) ops (config s) (abs s) ->
  holds id it bytes (abs s) ->
  wp (data_run ops) (fun _ s' _ => data_wf s' /\ config s' = config s /\ holds id it bytes (abs s')) s m.
Proof.
  revert s m. induction ops as [|op ops IH]; intros s m Hw Hok Hh; cbn [data_run]; [by apply wp_ret|].
  destruct Hok as [[Hop Hsp] Hok]. apply wp_bind. eapply wp_mono; [by apply data_op_ok|]. intros out s1 m1 (Hw1 & Hc1 & calls & Ho & ->).
  pose proof (spares_holds id it bytes op s Hw Hop Hsp Hh) as Hh1. rewrite <- Ho in Hh1, Hok. cbn [fst snd] in Hh1, Hok.
  apply wp_bind. eapply wp_mono; [apply IH; [done|by rewrite Hc1|done]|]. intros outs s2 m2 (Hw2 & Hc2 & Hh2). apply wp_ret. split_and!; [done|congruence|done].
Qed.
Lemma holds_read id it bytes buf s m : data_wf s -> holds id it bytes (abs s) -> item_size it <= Z.of_nat (length buf) ->
  wp (DiagData_ReadItem id (Some buf) true)
    (fun v _ _ => v = Some (bytes ++ drop (Z.to_nat (item_size it)) buf, item_size it)) s m.
Proof.
  intros Hw (Hb & e & He & Hit & Hc) Hbuf.
  assert (Hok : op_ok (OpRead id buf) (abs s)) by (intros e' He'; assert (e' = e) as -> by congruence; by rewrite Hit).
  pose proof (data_op_ok (OpRead id buf) s m Hw Hok) as H. cbn [data_exec] in H. unfold wp, mbind, M_bind in H |- *.
  destruct (DiagData_ReadItem _ _ _ s m) as [[[v s'] m']|]; [|done]. cbn in H. destruct H as (_ & _ & calls & Ho & _).
  cbn [data_spec] in Ho. rewrite He in Ho. cbn in Ho. injection Ho as -> _ _. unfold value. rewrite Hit. do 2 f_equal.
  assert (Hdef : default [] (item_bytes (a_memory (abs s)) it) = bytes) by (by rewrite Hb).
  destruct Hc as [->| ->]; [by rewrite Hdef|]. destruct (enable_caching _); by rewrite ?Hdef.
Qed.

(** A copy outlives what the application does. *)
Definition elapsed (op : DataOp) : Z := match op with OpElapse ms => ms | _ => 0 end.
Definition total (ops : list DataOp) : Z := foldr (fun op t => elapsed op + t) 0 ops.
Definition keeps_copy (id : Z) (op : DataOp) : Prop :=
  match op with OpUnregister i | OpWrite i _ _ => i <> id | OpElapse ms => 0 <= ms | _ => True end.
Definition copied (id : Z) (e : Shown) (copy : list Z) (a : Abs) : Prop := a_items a !! id = Some e /\ shown_copy e = Some copy.
Lemma keeps_copied id e copy op c a : keeps_copy id op -> copied id e copy a ->
  u32 (a_clock a - shown_time e) + elapsed op < cache_timeout_ms c <= 2 ^ 32 ->
  let a' := (data_spec op c a).1.2 in
  copied id e copy a' /\ u32 (a_clock a' - shown_time e) = u32 (a_clock a - shown_time e) + elapsed op.
Proof.
  intros Hk [He Hc] Ht. destruct op as [it'|i|i buf|i data size| |ms|p new]; cbn [data_spec elapsed] in *; rewrite ?Z.add_0_r in *.
  - destruct (_ && _) eqn:E; [|done]. apply andb_true_iff in E as [[_ E]%andb_true_iff _]. apply bool_decide_eq_true in E.
    split; [|done]. split; [|done]. cbn. rewrite lookup_insert_ne; [done|congruence].
  - split; [|done]. split; [|done]. cbn. by rewrite lookup_delete_ne.
  - done.
  - destruct (a_items a !! i) as [e'|]; [|done]. destruct (rejected _ _ _ _); [done|]. split; [|done]. split; [|done]. cbn. by rewrite lookup_insert_ne.
  - destruct (_ && _); [|done]. split; [|done]. split; [|done]. cbn. rewrite lookup_fmap, He. cbn. f_equal. unfold refresh.
    rewrite bool_decide_eq_false_2 by (by rewrite Hc). by rewrite (proj2 (Z.leb_gt _ _)) by lia.
  - split; [done|]. cbn. unfold u32 in *. rewrite Zminus_mod_idemp_l. replace (a_clock a + ms - shown_time e) with (a_clock a - shown_time e + ms) by lia.
    rewrite <- Zplus_mod_idemp_l. apply Z.mod_small. pose proof (Z.mod_pos_bound (a_clock a - shown_time e) (2 ^ 32) ltac:(lia)). cbn [keeps_copy] in Hk. lia.
  - done.
Qed.
Lemma elapsed_nonneg id ops : Forall (keeps_copy id) ops -> 0 <= total ops.
Proof. induction 1 as [|op ops Hop _ IH]; [done|]. change (0 <= elapsed op + total ops). destruct op; cbn in Hop |- *; lia. Qed.
Lemma run_copied id e copy ops s m : data_wf s -> along op_ok ops (config s) (abs s) -> Forall (keeps_copy id) ops -> copied id e copy (abs s) ->
  u32 (data_clock s - shown_time e) + total ops < cache_timeout_ms (config s) <= 2 ^ 32 ->
  wp (data_run ops) (fun _ s' _ => data_wf s' /\ config s' = config s /\ copied id e copy (abs s')) s m.
Proof.
  revert s m. induction ops as [|op ops IH]; intros s m Hw Hok Hk Hc Ht; cbn [data_run]; [by apply wp_ret|].
  destruct Hok as [Hop Hok]. apply Forall_cons in Hk as [Hk Hks]. apply wp_bind. eapply wp_mono; [by apply data_op_ok|].
  intros out s1 m1 (Hw1 & Hc1 & calls & Ho & ->). cbn [total foldr] in Ht. fold (total ops) in Ht. pose proof (elapsed_nonneg id ops Hks) as Hn.
  destruct (keeps_copied id e copy op (config s) (abs s) Hk Hc) as [Hc' Ha']; [cbn; lia|]. rewrite <- Ho in Hc', Ha', Hok. cbn [fst snd] in Hc', Ha', Hok.
  apply wp_bind. eapply wp_mono; [apply IH; [done|by rewrite Hc1|done|done|rewrite Hc1; cbn in Ha'; lia]|].
  intros outs s2 m2 (Hw2 & Hc2 & Hh2). apply wp_ret. split_and!; [done|congruence|done].
Qed.
(** What a read of a live item gives. *)
Lemma read_value id e buf s m : data_wf s -> a_items (abs s) !! id = Some e -> item_size (shown_item e) <= Z.of_nat (length buf) ->
  wp (DiagData_ReadItem id (Some buf) true)
    (fun v _ _ => v = Some (value (config s) (abs s) e ++ drop (Z.to_nat (item_size (shown_item e))) buf, item_size (shown_item e))) s m.
Proof.
  intros Hw He Hbuf. assert (Hok : op_ok (OpRead id buf) (abs s)) by (intros e' He'; by assert (e' = e) as -> by congruence).
  pose proof (data_op_ok (OpRead id buf) s m Hw Hok) as H. cbn [data_exec] in H. unfold wp, mbind, M_bind in H |- *.
  destruct (DiagData_ReadItem _ _ _ s m) as [[[v s'] m']|]; [|done]. cbn in H. destruct H as (_ & _ & calls & Ho & _).
  cbn [data_spec] in Ho. rewrite He in Ho. cbn in Ho. by injection Ho as -> _ _.
Qed.

(** ** Theorems *)

(** Every sequence of registrations, removals, reads, writes, polls, passing time and
    changes of its data by the application answers, and leaves the items, the memory and
    the callbacks, as the map from numbers to items and copies does. *)
Theorem data_items_refine ops s m : data_wf s -> along op_ok ops (config s) (abs s) -> wp (data_run ops) (data_run_post ops s m) s m.
Proof. apply data_run_ok. Qed.

(** A value written to an item is read back, whatever happens in between, polls that
    copy it included, if the item is not removed or written and nothing else overlaps it. *)
Theorem written_value_read id data size ops buf e s m :
  data_wf s -> a_items (abs s) !! id = Some e -> rejected (config s) (shown_item e) data size = false ->
  size <= Z.of_nat (length data) ->
  along (fun op a => op_ok op a /\ spares id (shown_item e) op a) ops (config s) (data_spec (OpWrite id data size) (config s) (abs s)).1.2 ->
  size <= Z.of_nat (length buf) ->
  wp (DiagData_WriteItem validate id (Some data) size;; data_run ops;; DiagData_ReadItem id (Some buf) true)
    (fun v _ _ => v = Some (take (Z.to_nat size) data ++ drop (Z.to_nat size) buf, size)) s m.
Proof.
  intros Hw He Hr Hd Hops Hbuf. pose proof (data_op_ok (OpWrite id data size) s m Hw Hd) as H. cbn [data_exec] in H.
  apply wp_bind. unfold wp at 1. unfold wp, mbind, M_bind in H. destruct (DiagData_WriteItem _ _ _ _ s m) as [[[b s1] m1]|]; [|done].
  cbn in H. destruct H as (Hw1 & Hc1 & calls & Ho & ->). rewrite <- Ho in Hops. cbn [fst snd] in Hops.
  assert (Hsize : size = item_size (shown_item e)) by (apply orb_false_iff in Hr as [Hr _]; apply negb_false_iff in Hr; by tests).
  assert (Hh : holds id (shown_item e) (take (Z.to_nat size) data) (abs s1)).
  { cbn [data_spec] in Ho. rewrite He, Hr in Ho. pose proof (f_equal (fun x => x.1.2) Ho) as Ha. cbn [fst snd] in Ha. rewrite Ha. split.
    - cbn. unfold item_bytes, memory_after. pose proof (find_entry s id Hw) as Hf. destruct (find_key _ _ _) as [j|]; [|congruence].
      destruct Hf as (x & Hx & Hj & Hm & _). assert (e = shown x) as -> by congruence. destruct (live_data_entry s j x Hw Hj Hx) as ((_ & _ & Hmap) & _ & _).
      assert (Hl : length (take (Z.to_nat size) data) = Z.to_nat (item_size (item x))) by (rewrite length_take; cbn in Hsize; lia).
      destruct (write_mem_spec (data_memory s) (item_data (item x)) (take (Z.to_nat size) data)) as (mem & Hmm & Hrd & _); [by rewrite Hl|].
      cbn [shown_item shown]. rewrite Hmm. cbn. by rewrite <- Hl.
    - eexists. split; [cbn; by rewrite lookup_insert_eq|]. split; [done|by left]. }
  apply wp_bind. eapply wp_mono; [apply (run_holds id (shown_item e) (take (Z.to_nat size) data) ops s1); [done|by rewrite Hc1|exact Hh]|].
  intros outs s2 m2 (Hw2 & _ & Hh2). eapply wp_mono; [apply (holds_read _ _ _ buf _ _ Hw2 Hh2); lia|]. intros v ? ? ->. by rewrite Hsize.
Qed.

(** A copy hides the application's changes: until the timeout has passed since it was
    taken every read gives the copy, whatever the application stored in the meantime. *)
Theorem cached_value_lags id e copy ops buf s m :
  data_wf s -> enable_caching (config s) = true -> copied id e copy (abs s) ->
  u32 (data_clock s - shown_time e) + total ops < cache_timeout_ms (config s) <= 2 ^ 32 ->
  Forall (keeps_copy id) ops -> along op_ok ops (config s) (abs s) -> item_size (shown_item e) <= Z.of_nat (length buf) ->
  wp (data_run ops;; DiagData_ReadItem id (Some buf) true)
    (fun v _ _ => v = Some (copy ++ drop (Z.to_nat (item_size (shown_item e))) buf, item_size (shown_item e))) s m.
Proof.
  intros Hw Hen Hc Ht Hk Hok Hbuf. apply wp_bind. eapply wp_mono; [by apply (run_copied id e copy)|].
  intros outs s1 m1 (Hw1 & Hc1 & He & Hcp). eapply wp_mono; [by apply (read_value id e)|]. intros v ? ? ->.
  unfold value. by rewrite Hcp, Hc1, Hen.
Qed.

(** A poll at least 100 ms after the last one renews a copy that is as old as the
    timeout: the read after it gives what the application has stored. *)
Theorem poll_renews_copy id e buf s m :
  data_wf s -> enable_caching (config s) = true -> a_items (abs s) !! id = Some e ->
  CACHE_CHECK_MS <= u32 (data_clock s - last_cache_check s) -> cache_timeout_ms (config s) <= u32 (data_clock s - shown_time e) ->
  item_size (shown_item e) <= Z.of_nat (length buf) ->
  wp (DiagData_ProcessCache;; DiagData_ReadItem id (Some buf) true)
    (fun v _ _ => exists bytes, item_bytes (data_memory s) (shown_item e) = Some bytes /\
      v = Some (bytes ++ drop (Z.to_nat (item_size (shown_item e))) buf, item_size (shown_item e))) s m.
Proof.
  intros Hw Hen He Hchk Hage Hbuf. pose proof (data_op_ok OpPoll s m Hw I) as H. cbn [data_exec] in H.
  apply wp_bind. unfold wp at 1. unfold wp, mbind, M_bind in H. destruct (DiagData_ProcessCache s m) as [[[[] s1] m1]|]; [|done].
  cbn in H. destruct H as (Hw1 & Hc1 & calls & Ho & ->). cbn [data_spec] in Ho. rewrite Hen in Ho. cbn [abs a_clock a_check andb] in Ho.
  rewrite (proj2 (Z.leb_le _ _)) in Ho by done. pose proof (f_equal (fun x => x.1.2) Ho) as Ha. cbn [fst snd] in Ha.
  assert (Hb : exists bytes, item_bytes (data_memory s) (shown_item e) = Some bytes).
  { pose proof (find_entry s id Hw) as Hf. destruct (find_key _ _ _) as [j|]; [|congruence]. destruct Hf as (x & Hx & Hj & Hm & _).
    assert (e = shown x) as -> by congruence. destruct (live_bytes s j x Hw Hj Hx) as (b & Hb & _). by exists b. }
  destruct Hb as [bytes Hb]. eapply wp_mono; [apply (read_value id (refresh (config s) (abs s) e)); [done| |]|].
  - rewrite Ha. cbn [a_items setf]. by rewrite lookup_fmap, He.
  - unfold refresh. by destruct (_ || _).
  - intros v ? ? ->. exists bytes. split; [done|]. unfold refresh. cbn [abs a_clock]. rewrite (proj2 (Z.leb_le (cache_timeout_ms _) _)) by done.
    rewrite orb_true_r. unfold value. cbn [shown_copy shown_item]. rewrite Hc1, Hen. cbn [a_memory abs]. rewrite Hb. done.
Qed.

(** Once the logger writes entries of level INFO, registering an item that is accepted
    and removing an item that exists never return. *)
Theorem data_logging_blocks it i s m :
  initialized s = true -> data_mutex s = false -> logs (data_logger s) LOG_LEVEL_INFO = true ->
  item_data it <> 0 -> Z.of_nat (item_count s) < max_items (config s) -> (item_count s < length (items s))%nat ->
  find_key (item_id it) (item_count s) (items s) = None -> validate_data_size (item_type it) (item_size it) = true ->
  (i < item_count s)%nat -> (exists e, items s !! i = Some e /\ find_key (item_id (item e)) (item_count s) (items s) = Some i) ->
  DiagData_RegisterItem (Some it) s m = None /\
  forall e, items s !! i = Some e -> DiagData_UnregisterItem (item_id (item e)) s m = None.
Proof.
  intros Hi Hm Hl Hd Hc Hlen Hf Hv Hlt (e & He & Hfe).
  assert (Hblock : forall A (k : unit -> M DataItems A) s' m', data_mutex s' = true -> data_logger s' = data_logger s ->
    (Logger_Log LOG_LEVEL_INFO ≫= k) s' m' = None).
  { intros A k s' m' Hm' Hl'. apply undefined_bind'. apply log_held_blocks; [exact Hm'|]. cbn. by rewrite Hl'. }
  destruct (lookup_lt_is_Some_2 (items s) (item_count s)) as [x Hx]; [done|]. split.
  - unfold DiagData_RegisterItem. apply undefined_bind, wp_get. rewrite Hi, (proj2 (Z.eqb_neq _ _)), (proj2 (Z.leb_gt _ _)) by done. cbn [negb orb].
    apply undefined_bind, wp_lock_free; [done|]. rewrite Hf, Hv. cbn [negb]. apply undefined_bind. eapply wp_lift_item; [exact Hx|].
    apply undefined_bind, wp_modify, undefined_bind, wp_modify. by apply Hblock.
  - intros e' He'. assert (e' = e) as -> by congruence. unfold DiagData_UnregisterItem. apply undefined_bind, wp_get. rewrite Hi. cbn [negb].
    apply undefined_bind, wp_lock_free; [done|]. rewrite Hfe. apply undefined_bind. destruct (_ <? _)%nat.
    + destruct (lookup_lt_is_Some_2 (items s) (item_count s - 1)) as [y Hy]; [lia|]. apply wp_bind. eapply wp_lift_item; [exact Hy|].
      apply wp_modify, undefined_bind, wp_modify. by apply Hblock.
    + apply wp_ret, undefined_bind, wp_modify. by apply Hblock.
Qed.
End data_proofs.

(** ** Concrete runs *)

Definition low_only : Z -> list Z -> Z -> bool := fun _ data _ => match data with b :: _ => b <? 128 | [] => false end.
Definition speed_item : DiagDataItem := mkItem 1 DATA_TYPE_UINT16 100 2 1 7.
Definition name_item : DiagDataItem := mkItem 2 DATA_TYPE_STRING 200 3 0 0.
Definition gear_item : DiagDataItem := mkItem 3 DATA_TYPE_UINT8 300 1 0 0.
Definition example_items : list DataItemEntry :=
  [mkEntry speed_item 0 false (replicate 64 0); mkEntry name_item 0 true ([65; 66; 67] ++ replicate 61 0)].
Definition example_config : DiagDataConfig := mkDataConfig 4 true true true 500.
(** Two items, the second copied at time 0; the copy is of an earlier name. *)
Definition example_data : DataItems :=
  mkDataItems example_config (example_items ++ replicate 254 entry_zero) 2 0 true
    (list_to_map [(100, 1); (101, 2); (200, 70); (201, 71); (202, 72); (300, 5)]) false None 150.
(** The conditions on a run, computed. *)
Definition mappedb (mem : gmap Z Z) (p : Z) (n : nat) : bool :=
  forallb (fun k => bool_decide (is_Some (mem !! (p + Z.of_nat k)))) (seq 0 n).
Lemma mappedb_ok mem p n : mappedb mem p n = true -> mapped mem p n.
Proof.
  intros H k Hk. unfold mappedb in H. rewrite forallb_forall in H. specialize (H (Z.to_nat (k - p))).
  replace (p + Z.of_nat (Z.to_nat (k - p))) with k in H by lia. apply bool_decide_eq_true in H; [done|]. apply in_seq. lia.
Qed.
Definition op_okb (op : DataOp) (a : Abs) : bool :=
  match op with
  | OpRegister it => mappedb (a_memory a) (item_data it) (Z.to_nat (item_size it))
  | OpRead id buf => match a_items a !! id with Some e => item_size (shown_item e) <=? Z.of_nat (length buf) | None => true end
  | OpWrite id data size => size <=? Z.of_nat (length data)
  | OpApplication p bytes => mappedb (a_memory a) p (length bytes)
  | _ => true
  end.
Lemma op_okb_ok op a : op_okb op a = true -> op_ok op a.
Proof.
  destruct op; cbn; intros H; try done; try (by apply mappedb_ok); try (by apply Z.leb_le).
  intros e He. rewrite He in H. by apply Z.leb_le.
Qed.
Fixpoint alongb (validate : Z -> list Z -> Z -> bool) (P : DataOp -> Abs -> bool) (ops : list DataOp) (c : DiagDataConfig) (a : Abs) : bool :=
  match ops with [] => true | op :: ops => P op a && alongb validate P ops c (data_spec validate op c a).1.2 end.
Lemma alongb_ok validate (P : DataOp -> Abs -> bool) (R : DataOp -> Abs -> Prop) ops c a :
  (forall op a, P op a = true -> R op a) -> alongb validate P ops c a = true -> along validate R ops c a.
Proof.
  intros HP. revert a. induction ops as [|op ops IH]; intros a; cbn [alongb along]; [done|].
  intros [H1 H2]%andb_true_iff. split; [by apply HP|by apply IH].
Qed.

Lemma example_data_items_wf : data_wf example_data.
Proof.
  constructor; try reflexivity.
  - split; [by apply Z.leb_le|by apply Z.leb_le].
  - vm_compute. repeat constructor; set_solver.
  - cbn [items example_data]. apply Forall_app. split; [by repeat constructor|]. by apply Forall_replicate.
  - change (take (item_count example_data) (items example_data)) with example_items. unfold example_items.
    apply Forall_cons. split; [|apply Forall_singleton]; split_and!; try done; by apply mappedb_ok.
Qed.

Definition example_ops : list DataOp :=
  [OpRegister gear_item; OpWrite 1 [10; 20] 2; OpRead 1 [0; 0; 0]; OpWrite 1 [200; 20] 2; OpRead 2 [0; 0; 0]; OpPoll;
   OpApplication 300 [9]; OpRead 3 [0]; OpElapse 500; OpPoll; OpRead 3 [0]; OpRead 2 [0; 0; 0]; OpUnregister 2; OpRead 2 []].
(** Witness of [data_items_refine]: a write that is validated, one that is not, and copies
    before and after they are renewed. *)
Lemma data_items_refine_witness :
  wp (data_run low_only example_ops)
    (fun outs _ m' => outs = [Done true; Done true; Value (Some ([10; 20; 0], 2)); Done false; Value (Some ([65; 66; 67], 3)); Nothing;
       Nothing; Value (Some ([5], 1)); Nothing; Nothing; Value (Some ([9], 1)); Value (Some ([70; 71; 72], 3)); Done true; Value None] /\
       trace m' = [call "callback" [7; 1; 2; 10; 20]]) example_data boot.
Proof.
  eapply wp_mono; [apply (data_items_refine low_only example_ops)|].
  - apply example_data_items_wf.
  - apply (alongb_ok _ op_okb); [apply op_okb_ok|]. by vm_compute.
  - intros outs s' m' (_ & _ & calls & Ho & ->).
    pose proof (f_equal (fun x => (x.1.1, x.2)) Ho) as H. cbn [fst snd] in H.
    assert (Hc : (fun x : list DataOut * Abs * list Call => (x.1.1, x.2)) (spec_run low_only example_ops (config example_data) (abs example_data)) =
      ([Done true; Done true; Value (Some ([10; 20; 0], 2)); Done false; Value (Some ([65; 66; 67], 3)); Nothing;
        Nothing; Value (Some ([5], 1)); Nothing; Nothing; Value (Some ([9], 1)); Value (Some ([70; 71; 72], 3)); Done true; Value None],
       [call "callback" [7; 1; 2; 10; 20]])) by (by vm_compute).
    cbv beta in Hc. rewrite Hc in H. by injection H as -> ->.
Defined.

(** Witness of [written_value_read]: the value is copied by a poll and the copy renewed. *)
Lemma written_value_read_witness :
  wp (DiagData_WriteItem low_only 1 (Some [10; 20]) 2;; data_run low_only [OpPoll; OpApplication 200 [1; 2]; OpElapse 700; OpPoll];;
      DiagData_ReadItem 1 (Some [0; 0; 0]) true)
    (fun v _ _ => v = Some ([10; 20; 0], 2)) example_data boot.
Proof.
  apply (written_value_read low_only 1 [10; 20] 2 _ [0; 0; 0] (shown (mkEntry speed_item 0 false (replicate 64 0)))).
  - apply example_data_items_wf.
  - by vm_compute.
  - reflexivity.
  - cbn. lia.
  - apply (alongb_ok _ (fun op a => op_okb op a && match op with
      | OpApplication p bytes => 100 + Z.of_nat (length bytes `max` 2) <=? p | OpPoll | OpElapse _ => true | _ => false end)).
    + intros op a [H1 H2]%andb_true_iff. split; [by apply op_okb_ok|]. destruct op; try done. right. cbn in *.
      by apply Z.leb_le in H2.
    + by vm_compute.
  - cbn. lia.
Defined.

(** Witness of [cached_value_lags]: the name the application stored is not seen for 300 ms. *)
Lemma cached_value_lags_witness :
  wp (data_run low_only [OpPoll; OpApplication 200 [80; 81; 82]; OpElapse 300; OpPoll];; DiagData_ReadItem 2 (Some [0; 0; 0]) true)
    (fun v _ _ => v = Some ([65; 66; 67], 3)) example_data boot.
Proof.
  apply (cached_value_lags low_only 2 (mkShown name_item 0 (Some [65; 66; 67])) [65; 66; 67]
    [OpPoll; OpApplication 200 [80; 81; 82]; OpElapse 300; OpPoll] [0; 0; 0]).
  - apply example_data_items_wf.
  - reflexivity.
  - by vm_compute.
  - split; [by vm_compute|]. by apply Z.leb_le; vm_compute.
  - repeat (apply Forall_cons; split; [cbn; lia || done|]). apply Forall_nil. done.
  - apply (alongb_ok _ op_okb); [apply op_okb_ok|]. by vm_compute.
  - cbn. lia.
Defined.

(** Witness of [poll_renews_copy]. *)
Lemma poll_renews_copy_witness :
  wp (DiagData_ProcessCache;; DiagData_ReadItem 2 (Some [0; 0; 0]) true) (fun v _ _ => v = Some ([70; 71; 72], 3))
    (example_data <| data_clock := 600 |>) boot.
Proof.
  eapply wp_mono; [apply (poll_renews_copy low_only 2 (mkShown name_item 0 (Some [65; 66; 67])) [0; 0; 0])|].
  - pose proof example_data_items_wf as []. by constructor.
  - reflexivity.
  - by vm_compute.
  - by apply Z.leb_le; vm_compute.
  - by apply Z.leb_le; vm_compute.
  - cbn. lia.
  - intros v ? ? (bytes & Hb & ->). vm_compute in Hb. by injection Hb as <-.
Defined.

(** Witness of [data_logging_blocks]. *)
Lemma data_logging_blocks_witness :
  let s := example_data <| data_logger := Some LOG_LEVEL_INFO |> in
  DiagData_RegisterItem (Some gear_item) s boot = None /\
  forall e, items s !! 1%nat = Some e -> DiagData_UnregisterItem (item_id (item e)) s boot = None.
Proof.
  intros s. apply (data_logging_blocks gear_item 1 s boot); try reflexivity; try (by apply Z.ltb_lt); try done.
  - by apply Nat.ltb_lt; vm_compute.
  - cbn. lia.
  - eexists. split; [reflexivity|]. by vm_compute.
Defined.
