(* ===== verification/Averages.v ===== *)
(** * Running averages

    The average that [timing_monitor.c] and [perf_monitor.c] of the add-ons keep: the new
    average is computed from the old one, in 32-bit arithmetic and rounded down at every
    step.  This file relates it to the mean of the samples. *)

From S2P Require Import Prelude.

(** [avg = (avg * (n - 1) + d) / n], where [n] counts the sample [d]; dividing by zero is
    undefined. *)
Definition average_step (avg n d : Z) : option Z :=
  if n =? 0 then None else Some (u32 (u32 (avg * u32 (n - 1)) + d) / n).
(** The average of the samples, the first one first, after [k] samples with average [avg]. *)
Fixpoint average_from (k avg : Z) (samples : list Z) : option Z :=
  match samples with
  | [] => Some avg
  | d :: samples => avg ← average_step avg (k + 1) d; average_from (k + 1) avg samples
  end.
Definition average (samples : list Z) : option Z := average_from 0 0 samples.
Definition sum (l : list Z) : Z := foldr Z.add 0 l.

Lemma average_from_app k avg l l' : average_from k avg (l ++ l') = a ← average_from k avg l; average_from (k + Z.of_nat (length l)) a l'.
Proof.
  revert k avg. induction l as [|d l IH]; intros k avg; cbn [average_from app]; [simpl; by rewrite Z.add_0_r|].
  destruct (average_step _ _ _) as [a|]; [|done]. cbn [mbind option_bind]. rewrite IH. by replace (k + 1 + Z.of_nat (length l)) with (k + Z.of_nat (length (d :: l))) by (cbn [length]; lia).
Qed.
(** One more sample. *)
Lemma average_snoc l d : average (l ++ [d]) = a ← average l; average_step a (Z.of_nat (length l) + 1) d.
Proof.
  unfold average. rewrite average_from_app. destruct (average_from 0 0 l) as [a|]; [|done]. cbn [mbind option_bind average_from].
  rewrite Z.add_0_l. by destruct (average_step _ _ _).
Qed.
Lemma sum_app l l' : sum (l ++ l') = sum l + sum l'.
Proof. unfold sum. induction l as [|d l IH]; [done|]. cbn. lia. Qed.

Lemma average_defined_from k avg l : 0 <= k -> exists a, average_from k avg l = Some a.
Proof.
  revert k avg. induction l as [|d l IH]; intros k avg Hk; cbn [average_from]; [by eexists|].
  unfold average_step. rewrite (proj2 (Z.eqb_neq _ _)) by lia. cbn. apply IH. lia.
Qed.
Lemma average_defined l : exists a, average l = Some a.
Proof. by apply average_defined_from. Qed.

(** Without a wrap the step is exact, and the average stays between the samples. *)
Lemma average_step_exact a n d lo hi :
  0 < n -> 0 <= lo <= hi -> lo <= d <= hi -> (1 < n -> lo <= a <= hi) -> n * hi < 2 ^ 32 -> n < 2 ^ 32 ->
  exists b, average_step a n d = Some b /\ lo <= b <= hi /\ n * b <= a * (n - 1) + d < n * b + n.
Proof.
  intros Hn Hlo Hd Ha Hb Hn32. unfold average_step. rewrite (proj2 (Z.eqb_neq _ _)) by lia. rewrite (u32_small (n - 1)) by (unfold is_u32; lia).
  assert (Hp : lo * (n - 1) <= a * (n - 1) <= hi * (n - 1)).
  { destruct (decide (n = 1)) as [->|]; [lia|]. specialize (Ha ltac:(lia)). split; apply Z.mul_le_mono_nonneg_r; lia. }
  assert (0 <= lo * (n - 1)) by (apply Z.mul_nonneg_nonneg; lia).
  rewrite (u32_small (a * _)), u32_small by (unfold is_u32; lia). eexists. split; [done|].
  pose proof (Z.div_mod (a * (n - 1) + d) n ltac:(lia)). pose proof (Z.mod_pos_bound (a * (n - 1) + d) n ltac:(lia)).
  split; [|lia]. split.
  - apply Z.div_le_lower_bound; [lia|]. lia.
  - apply Z.div_le_upper_bound; [lia|]. lia.
Qed.
(** The average is at most the mean, and below it by less than half the number of samples. *)
Lemma average_bounds lo hi l :
  0 <= lo <= hi -> Forall (fun d => lo <= d <= hi) l -> Z.of_nat (length l) * hi < 2 ^ 32 -> Z.of_nat (length l) < 2 ^ 32 ->
  exists a, average l = Some a /\ (l <> [] -> lo <= a <= hi) /\
    let n := Z.of_nat (length l) in 2 * (n * a) <= 2 * sum l <= 2 * (n * a) + n * (n - 1).
Proof.
  intros Hlo Hl. induction l as [|d l IH] using rev_ind; intros Hb Hn.
  - exists 0. split; [done|]. split; [done|]. by vm_compute.
  - apply Forall_app in Hl as [Hl Hd]. apply Forall_cons in Hd as [Hd _]. rewrite length_app in Hb, Hn. cbn [length] in Hb, Hn.
    destruct IH as (a & Ha & Hr & Hs); [done|nia|lia|]. rewrite average_snoc, Ha. cbn [mbind option_bind].
    destruct (average_step_exact a (Z.of_nat (length l) + 1) d lo hi) as (b & Hb1 & Hb2 & Hb3); [lia|done|done| |lia|lia|].
    { intros H1. apply Hr. destruct l; [cbn in H1; lia|done]. }
    exists b. split; [done|]. split; [done|]. rewrite sum_app, length_app. cbn [length sum foldr]. cbv zeta in Hs |- *. nia.
Qed.
(** A mean that grows by one sample after another is never reached. *)
Lemma average_stuck a n : 0 <= a -> (Z.of_nat n + 1) * (a + 1) < 2 ^ 32 -> average (a :: replicate n (a + 1)) = Some a.
Proof.
  intros Ha. induction n as [|n IH]; intros Hb.
  - assert (Ha' : is_u32 a) by (unfold is_u32; lia). unfold average. cbn [average_from replicate]. unfold average_step.
    rewrite Z.mul_0_l. change (u32 0) with 0. rewrite Z.add_0_l, u32_small by done. cbn. by rewrite Z.div_1_r.
  - rewrite replicate_S_end, app_comm_cons, average_snoc, IH by nia. cbn [mbind option_bind length]. rewrite length_replicate.
    unfold average_step. rewrite (proj2 (Z.eqb_neq _ _)) by lia. rewrite (u32_small (_ - 1)) by (unfold is_u32; nia).
    rewrite (u32_small (a * _)), u32_small by (unfold is_u32; nia). f_equal. symmetry. apply (Z.div_unique _ _ _ 1); nia.
Qed.

(** ** Extremes

    The least and the greatest sample, starting from the largest number and 0. *)

Lemma foldr_min_snoc a l d : foldr Z.min a (l ++ [d]) = Z.min (foldr Z.min a l) d.
Proof. induction l as [|x l IH]; cbn; [lia|]. rewrite IH. lia. Qed.
Lemma foldr_max_snoc a l d : foldr Z.max a (l ++ [d]) = Z.max (foldr Z.max a l) d.
Proof. induction l as [|x l IH]; cbn; [lia|]. rewrite IH. lia. Qed.
Lemma extremes_bound l : l <> [] -> Forall is_u32 l ->
  0 <= foldr Z.min UINT32_MAX l <= foldr Z.max 0 l /\ Forall (fun d => foldr Z.min UINT32_MAX l <= d <= foldr Z.max 0 l) l.
Proof.
  intros Hne Hu. assert (Hr : Forall (fun d => foldr Z.min UINT32_MAX l <= d <= foldr Z.max 0 l) l).
  { apply Forall_forall. intros d Hd. clear -Hd. induction Hd as [l|x l Hd IH]; cbn; lia. }
  split; [|done]. split.
  - clear -Hu. induction Hu as [|x l Hx _ IH]; cbn; [done|]. unfold is_u32 in Hx. lia.
  - destruct l as [|d l]; [done|]. apply Forall_cons in Hr as [? _]. lia.
Qed.
