(* ===== verification/TimingMonitor.v ===== *)
(** * Execution times

    [diagnostic/timing/timing_monitor.c]: minimum, maximum, running average and violations
    of four kinds of execution times, under the process-wide mutex of [Mutex.v].
    [timing_clock] is what [Timer_GetMicroseconds] returns; the average is that of
    [Averages.v]. *)

From S2P Require Import Prelude Machine Mutex Averages.

Definition TIMING_SERVICE_HANDLER : nat := 0.
Definition TIMING_SECURITY_CHECK : nat := 1.
Definition TIMING_DATA_TRANSFER : nat := 2.
Definition TIMING_ROUTINE_EXECUTION : nat := 3.
Definition TIMING_COUNT : nat := 4.

Record TimingStats := mkStats {
  min_time_us : Z; max_time_us : Z; avg_time_us : Z; last_time_us : Z; total_samples : Z; violations : Z }.
#[export] Instance eta_TimingStats : Eta TimingStats := fun t =>
  mkStats (min_time_us t) (max_time_us t) (avg_time_us t) (last_time_us t) (total_samples t) (violations t).
Record TimingConfig := mkTimingConfig {
  warning_threshold_us : Z; error_threshold_us : Z; enable_monitoring : bool; log_violations : bool; max_samples : Z }.
(** [timing_monitor], the mutex, the logger and the clock. *)
Record TimingMonitor := mkTiming {
  config : TimingConfig; stats : list TimingStats; start_times : list Z; measurements_active : list bool; initialized : bool;
  timing_mutex : bool; timing_logger : option LogLevel; timing_clock : Z }.
#[export] Instance eta_TimingMonitor : Eta TimingMonitor := fun s =>
  mkTiming (config s) (stats s) (start_times s) (measurements_active s) (initialized s) (timing_mutex s) (timing_logger s) (timing_clock s).
#[export, refine] Instance TimingMonitor_mutex : HasMutex TimingMonitor :=
  {| locked := timing_mutex; set_locked b s := s <| timing_mutex := b |>; log_min := timing_logger |}.
Proof. all: by intros; destruct s. Defined.

Definition stats_zero : TimingStats := mkStats 0 0 0 0 0 0.
(** [memset(&timing_monitor, 0, ...)]. *)
Definition timing_clear (s : TimingMonitor) : TimingMonitor :=
  s <| config := mkTimingConfig 0 0 false false 0 |> <| stats := replicate TIMING_COUNT stats_zero |>
    <| start_times := replicate TIMING_COUNT 0 |> <| measurements_active := replicate TIMING_COUNT false |> <| initialized := false |>.
Definition lift {A} (o : option A) : M TimingMonitor A := match o with Some a => mret a | None => fault end.

Definition Timing_Init (cfg : option TimingConfig) : M TimingMonitor bool :=
  match cfg with
  | None => mret false
  | Some cfg =>
      modify timing_clear;;
      modify (fun s => s <| config := cfg |> <| stats ::= fmap (fun t => t <| min_time_us := UINT32_MAX |>) |> <| initialized := true |>);;
      Logger_Log LOG_LEVEL_INFO;;
      mret true
  end.
Definition Timing_Deinit : M TimingMonitor unit := Logger_Log LOG_LEVEL_INFO;; modify timing_clear.

Definition Timing_StartMeasurement (metric : nat) : M TimingMonitor unit :=
  s ← get;
  if negb (initialized s) || (TIMING_COUNT <=? metric)%nat then mret tt else
  lock;;
  active ← lift (measurements_active s !! metric);
  if active : bool then Logger_Log LOG_LEVEL_WARNING;; unlock else
  modify (fun s => s <| start_times ::= <[metric := timing_clock s]> |> <| measurements_active ::= <[metric := true]> |>);;
  unlock.

Definition Timing_GetStats (metric : nat) : M TimingMonitor (option TimingStats) :=
  s ← get;
  if negb (initialized s) || (TIMING_COUNT <=? metric)%nat then mret None else
  lock;;
  t ← lift (stats s !! metric);
  unlock;;
  mret (Some t).
(** [last_time_us] stays. *)
Definition stats_reset (t : TimingStats) : TimingStats :=
  t <| min_time_us := UINT32_MAX |> <| max_time_us := 0 |> <| avg_time_us := 0 |> <| total_samples := 0 |> <| violations := 0 |>.
Definition Timing_ResetStats (metric : nat) : M TimingMonitor unit :=
  s ← get;
  if negb (initialized s) || (TIMING_COUNT <=? metric)%nat then mret tt else
  lock;;
  t ← lift (stats s !! metric);
  modify (fun s => s <| stats ::= <[metric := stats_reset t]> |>);;
  unlock.

(** The statistics after one more duration. *)
Definition add_sample (cfg : TimingConfig) (duration : Z) (t : TimingStats) : option TimingStats :=
  let t := if duration <? min_time_us t then t <| min_time_us := duration |> else t in
  let t := if max_time_us t <? duration then t <| max_time_us := duration |> else t in
  let t := t <| total_samples ::= fun n => u32 (n + 1) |> in
  let t := t <| last_time_us := duration |> in
  avg ← average_step (avg_time_us t) (total_samples t) duration;
  let t := t <| avg_time_us := avg |> in
  Some (if error_threshold_us cfg <? duration then t <| violations ::= fun n => u32 (n + 1) |> else t).
Definition log_violation (cfg : TimingConfig) (duration : Z) : M TimingMonitor unit :=
  if error_threshold_us cfg <? duration then (if log_violations cfg then Logger_Log LOG_LEVEL_ERROR else mret tt)
  else if warning_threshold_us cfg <? duration then (if log_violations cfg then Logger_Log LOG_LEVEL_WARNING else mret tt)
  else mret tt.
Definition Timing_StopMeasurement (metric : nat) : M TimingMonitor unit :=
  s ← get;
  if negb (initialized s) || (TIMING_COUNT <=? metric)%nat then mret tt else
  lock;;
  active ← lift (measurements_active s !! metric);
  if negb active then Logger_Log LOG_LEVEL_WARNING;; unlock else
  started ← lift (start_times s !! metric);
  let duration := u32 (timing_clock s - started) in
  t ← lift (stats s !! metric);
  t ← lift (add_sample (config s) duration t);
  modify (fun s => s <| stats ::= <[metric := t]> |>);;
  log_violation (config s) duration;;
  modify (fun s => s <| measurements_active ::= <[metric := false]> |>);;
  (if (0 <? max_samples (config s)) && (max_samples (config s) <=? total_samples t) then Timing_ResetStats metric else mret tt);;
  unlock.

(** ** What the statistics summarise

    The abstract state of a kind: the time a measurement started, if one runs, and the
    durations since the last reset, and the last one, which a reset does not forget. *)

Record Measured := mkMeasured { running_since : option Z; samples : list Z; last : Z }.
Definition summary (cfg : TimingConfig) (k : Measured) (avg : Z) : TimingStats :=
  mkStats (foldr Z.min UINT32_MAX (samples k)) (foldr Z.max 0 (samples k)) avg (last k) (Z.of_nat (length (samples k)))
    (Z.of_nat (length (filter (fun d => error_threshold_us cfg < d) (samples k)))).
Definition measured (s : TimingMonitor) (metric : nat) (k : Measured) : Prop :=
  exists avg, average (samples k) = Some avg /\ stats s !! metric = Some (summary (config s) k avg) /\
    measurements_active s !! metric = Some (bool_decide (is_Some (running_since k))) /\
    (forall t, running_since k = Some t -> start_times s !! metric = Some t).
(** The samples are fewer than the limit. *)
Definition below_limit (cfg : TimingConfig) (n : nat) : Prop :=
  Z.of_nat n < 2 ^ 32 /\ (0 < max_samples cfg -> Z.of_nat n < max_samples cfg).
Record timing_wf (s : TimingMonitor) (ks : list Measured) : Prop := {
  tw_free : timing_mutex s = false; tw_init : initialized s = true; tw_length : length ks = TIMING_COUNT;
  tw_lengths : length (stats s) = TIMING_COUNT /\ length (start_times s) = TIMING_COUNT /\ length (measurements_active s) = TIMING_COUNT;
  tw_measured : forall i k, ks !! i = Some k -> measured s i k;
  tw_quiet : logs (timing_logger s) LOG_LEVEL_ERROR = false }.

Inductive TimingOp := OpStart (metric : nat) | OpStop (metric : nat) | OpReset (metric : nat) | OpElapse (us : Z).
Definition timing_exec (op : TimingOp) : M TimingMonitor unit :=
  match op with
  | OpStart metric => Timing_StartMeasurement metric
  | OpStop metric => Timing_StopMeasurement metric
  | OpReset metric => Timing_ResetStats metric
  | OpElapse us => modify (fun s => s <| timing_clock ::= fun t => u32 (t + us) |>)
  end.
(** A nested start and a stop without a start change nothing. *)
Definition step_measured (now : Z) (op : TimingOp) (k : Measured) : Measured :=
  match op, running_since k with
  | OpStart _, None => mkMeasured (Some now) (samples k) (last k)
  | OpStop _, Some t => mkMeasured None (samples k ++ [u32 (now - t)]) (u32 (now - t))
  | OpReset _, r => mkMeasured r [] (last k)
  | _, _ => k
  end.
Definition target (op : TimingOp) : option nat := match op with OpStart i | OpStop i | OpReset i => Some i | OpElapse _ => None end.
Definition timing_spec (now : Z) (op : TimingOp) (ks : list Measured) : list Measured :=
  match target op with Some i => alter (step_measured now op) i ks | None => ks end.

(** ** The operations *)

Lemma wp_lift_timing {A} (o : option A) a Q s m : o = Some a -> Q a s m -> wp (lift o) Q s m.
Proof. by intros ->. Qed.
Lemma quiet_warning (s : TimingMonitor) : logs (timing_logger s) LOG_LEVEL_ERROR = false -> logs (log_min s) LOG_LEVEL_WARNING = false.
Proof. cbn. by destruct (timing_logger s) as [[]|]. Qed.
(** [add_sample] adds one sample to the summary. *)
Lemma add_sample_summary cfg k k' avg d : average (samples k) = Some avg -> samples k' = samples k ++ [d] -> last k' = d ->
  Z.of_nat (length (samples k')) < 2 ^ 32 ->
  exists avg', average (samples k') = Some avg' /\ add_sample cfg d (summary cfg k avg) = Some (summary cfg k' avg').
Proof.
  intros Ha Hs Hl Hn. rewrite Hs, average_snoc, Ha. cbn [mbind option_bind]. rewrite Hs, length_app in Hn. cbn [length] in Hn.
  assert (Hc : u32 (Z.of_nat (length (samples k)) + 1) = Z.of_nat (length (samples k)) + 1) by (apply u32_small; unfold is_u32; lia).
  destruct (average_step avg (Z.of_nat (length (samples k)) + 1) d) as [b|] eqn:Eb.
  2:{ unfold average_step in Eb. by rewrite (proj2 (Z.eqb_neq _ _)) in Eb by lia. }
  exists b. split; [done|]. unfold add_sample, summary. rewrite Hs, Hl, foldr_min_snoc, foldr_max_snoc, filter_app, !length_app.
  set (mn := foldr Z.min _ _). set (mx := foldr Z.max _ _).
  replace (if d <? min_time_us _ then _ else _) with ((summary cfg k avg) <| min_time_us := Z.min mn d |>).
  2:{ cbn. fold mn mx. destruct (d <? mn) eqn:E; tests; unfold summary; cbn; fold mn mx; f_equal; lia. }
  replace (if max_time_us _ <? d then _ else _) with ((summary cfg k avg) <| min_time_us := Z.min mn d |> <| max_time_us := Z.max mx d |>).
  2:{ cbn. fold mn mx. destruct (mx <? d) eqn:E; tests; unfold summary; cbn; fold mn mx; f_equal; lia. }
  cbn [summary total_samples avg_time_us setf min_time_us max_time_us last_time_us violations length]. rewrite Hc, Eb. cbn [mbind option_bind].
  assert (Hv : Z.of_nat (length (filter (fun d => error_threshold_us cfg < d) (samples k))) <= Z.of_nat (length (samples k)))
    by (apply Nat2Z.inj_le, length_filter).
  f_equal. destruct (_ <? d) eqn:E; tests; cbn.
  - rewrite decide_True by done. cbn [length]. f_equal; [lia|]. rewrite u32_small by (unfold is_u32; lia). lia.
  - rewrite decide_False by lia. cbn [length]. f_equal; lia.
Qed.

(** One kind changes, the others stay. *)
Lemma timing_update i k f s s' ks : timing_wf s ks -> ks !! i = Some k ->
  config s' = config s -> timing_mutex s' = false -> initialized s' = true -> timing_logger s' = timing_logger s ->
  length (stats s') = TIMING_COUNT /\ length (start_times s') = TIMING_COUNT /\ length (measurements_active s') = TIMING_COUNT ->
  (forall j, j <> i -> stats s' !! j = stats s !! j /\ start_times s' !! j = start_times s !! j /\
    measurements_active s' !! j = measurements_active s !! j) ->
  measured s' i (f k) -> timing_wf s' (alter f i ks).
Proof.
  intros [H1 H2 H3 H4 H5 H6] Hk Hc Hm Hi Hlg Hl Hj Hi'. constructor; [done|done|by rewrite length_alter|done| |by rewrite Hlg].
  intros j kj. destruct (decide (j = i)) as [->|Hne].
  - rewrite list_lookup_alter_eq, Hk. by intros [= <-].
  - rewrite list_lookup_alter_ne by done. intros Hkj. destruct (H5 j kj Hkj) as (avg & Ha & Hst & Hac & Hru). destruct (Hj j Hne) as (E1 & E2 & E3).
    exists avg. rewrite Hc, E1, E3. split_and!; [done..|]. intros t Ht. rewrite E2. by apply Hru.
Qed.
Lemma timing_same (f : Measured -> Measured) i k s ks : timing_wf s ks -> ks !! i = Some k -> f k = k -> timing_wf s (alter f i ks).
Proof.
  intros Hw Hk Hf. replace (alter f i ks) with ks; [done|]. symmetry. apply list_eq. intros j. destruct (decide (i = j)) as [<-|].
  - by rewrite list_lookup_alter_eq, Hk; cbn; rewrite Hf.
  - by rewrite list_lookup_alter_ne.
Qed.
(** The mutex taken and released. *)
Lemma timing_unlocked s : timing_mutex s = false -> set_locked false (set_locked true s) = s.
Proof. intros Hf. destruct s. cbn in *. by subst. Qed.

Definition step_ok (op : TimingOp) (cfg : TimingConfig) (ks : list Measured) : Prop :=
  match op with
  | OpStop i => forall k, ks !! i = Some k -> is_Some (running_since k) -> below_limit cfg (S (length (samples k)))
  | _ => True
  end.
Definition timing_post (op : TimingOp) s (m : Machine) (ks : list Measured) (_ : unit) s' (m' : Machine) : Prop :=
  m' = m /\ config s' = config s /\ timing_clock s' = (match op with OpElapse us => u32 (timing_clock s + us) | _ => timing_clock s end) /\
  timing_wf s' (timing_spec (timing_clock s) op ks).

Lemma reset_ok i s m ks : timing_wf s ks -> wp (timing_exec (OpReset i)) (timing_post (OpReset i) s m ks) s m.
Proof.
  intros Hw. cbn [timing_exec]. unfold Timing_ResetStats, timing_post, timing_spec, target. apply wp_bind, wp_get. rewrite (tw_init _ _ Hw). cbn [negb orb].
  destruct (_ <=? i)%nat eqn:E; tests.
  { apply wp_ret. split_and!; [done..|]. rewrite alter_beyond; [done|]. by rewrite (tw_length _ _ Hw). }
  destruct (lookup_lt_is_Some_2 ks i) as [k Hk]; [by rewrite (tw_length _ _ Hw)|]. destruct (tw_measured _ _ Hw i k Hk) as (avg & Ha & Hst & Hac & Hru).
  apply wp_bind, wp_lock_free; [apply Hw|]. apply wp_bind. eapply wp_lift_timing; [exact Hst|]. apply wp_bind, wp_modify, wp_unlock_held; [done|].
  split_and!; [done..|]. pose proof (tw_lengths _ _ Hw) as (L1 & L2 & L3). apply (timing_update i k _ s); try done; [exact (tw_init _ _ Hw)|..].
  - cbn. by rewrite length_insert.
  - intros j Hj. cbn. by rewrite list_lookup_insert_ne.
  - exists 0. cbn. rewrite list_lookup_insert_eq by lia. unfold step_measured. by destruct (running_since k); split_and!.
Qed.
Lemma start_ok i s m ks : timing_wf s ks -> wp (timing_exec (OpStart i)) (timing_post (OpStart i) s m ks) s m.
Proof.
  intros Hw. cbn [timing_exec]. unfold Timing_StartMeasurement, timing_post, timing_spec, target. apply wp_bind, wp_get. rewrite (tw_init _ _ Hw). cbn [negb orb].
  destruct (_ <=? i)%nat eqn:E; tests.
  { apply wp_ret. split_and!; [done..|]. rewrite alter_beyond; [done|]. by rewrite (tw_length _ _ Hw). }
  destruct (lookup_lt_is_Some_2 ks i) as [k Hk]; [by rewrite (tw_length _ _ Hw)|]. destruct (tw_measured _ _ Hw i k Hk) as (avg & Ha & Hst & Hac & Hru).
  apply wp_bind, wp_lock_free; [apply Hw|]. apply wp_bind. eapply wp_lift_timing; [exact Hac|].
  destruct (running_since k) as [t|] eqn:Er; [rewrite bool_decide_eq_true_2 by eauto|rewrite bool_decide_eq_false_2 by (by intros [])].
  - apply wp_bind, wp_log_silent; [apply quiet_warning, Hw|]. apply wp_unlock_held; [done|]. rewrite timing_unlocked by apply Hw.
    split_and!; [done..|]. apply (timing_same _ i k); [done|done|]. unfold step_measured. by rewrite Er.
  - apply wp_bind, wp_modify, wp_unlock_held; [done|]. split_and!; [done..|]. pose proof (tw_lengths _ _ Hw) as (L1 & L2 & L3).
    apply (timing_update i k _ s); try done; [exact (tw_init _ _ Hw)|..].
    + cbn. by rewrite !length_insert.
    + intros j Hj. cbn. by rewrite !list_lookup_insert_ne.
    + exists avg. unfold step_measured. rewrite Er. cbn. rewrite !list_lookup_insert_eq by lia. split_and!; [done..|]. by intros t [= ->].
Qed.

Lemma wp_log_violation cfg d (Q : unit -> TimingMonitor -> Machine -> Prop) s m :
  logs (timing_logger s) LOG_LEVEL_ERROR = false -> Q tt s m -> wp (log_violation cfg d) Q s m.
Proof.
  intros Hq HQ. unfold log_violation. destruct (_ <? d); [|destruct (_ <? d)]; [destruct (log_violations cfg)..|]; try (by apply wp_ret).
  - by apply wp_log_silent.
  - by apply wp_log_silent; [apply quiet_warning|].
Qed.
(** What a stop does before it looks at the limit. *)
Definition stopped (i : nat) (t : TimingStats) (s : TimingMonitor) : TimingMonitor :=
  s <| stats ::= <[i := t]> |> <| measurements_active ::= <[i := false]> |>.
Lemma stop_until_limit i k t (Q : unit -> TimingMonitor -> Machine -> Prop) s m ks :
  timing_wf s ks -> ks !! i = Some k -> running_since k = Some t -> Z.of_nat (S (length (samples k))) < 2 ^ 32 ->
  (forall k' avg', k' = step_measured (timing_clock s) (OpStop i) k -> average (samples k') = Some avg' ->
    wp ((if (0 <? max_samples (config s)) && (max_samples (config s) <=? Z.of_nat (length (samples k')))
         then Timing_ResetStats i else mret tt);; unlock) Q (stopped i (summary (config s) k' avg') (set_locked true s)) m) ->
  wp (Timing_StopMeasurement i) Q s m.
Proof.
  intros Hw Hk Hr Hn HQ. unfold Timing_StopMeasurement. apply wp_bind, wp_get. rewrite (tw_init _ _ Hw).
  assert (Hi : (i < TIMING_COUNT)%nat) by (rewrite <- (tw_length _ _ Hw); eapply lookup_lt_Some, Hk).
  rewrite (proj2 (Nat.leb_gt _ _)) by done. cbn [negb orb]. destruct (tw_measured _ _ Hw i k Hk) as (avg & Ha & Hst & Hac & Hru).
  apply wp_bind, wp_lock_free; [apply Hw|]. apply wp_bind. eapply wp_lift_timing; [exact Hac|]. rewrite Hr, bool_decide_eq_true_2 by eauto. cbn [negb].
  apply wp_bind. eapply wp_lift_timing; [by apply Hru|]. cbv zeta. apply wp_bind. eapply wp_lift_timing; [exact Hst|].
  set (k' := step_measured (timing_clock s) (OpStop i) k) in *.
  assert (Hk' : k' = mkMeasured None (samples k ++ [u32 (timing_clock s - t)]) (u32 (timing_clock s - t))) by (unfold k', step_measured; by rewrite Hr).
  destruct (add_sample_summary (config s) k k' avg (u32 (timing_clock s - t))) as (avg' & Ha' & Hadd); [done|by rewrite Hk'|by rewrite Hk'| |].
  { rewrite Hk'. cbn [samples]. rewrite length_app. cbn [length]. lia. }
  apply wp_bind. eapply wp_lift_timing; [exact Hadd|]. apply wp_bind, wp_modify, wp_bind, wp_log_violation; [apply Hw|].
  apply wp_bind, wp_modify. by apply (HQ k').
Qed.
Lemma stop_ok i s m ks : timing_wf s ks -> step_ok (OpStop i) (config s) ks -> wp (timing_exec (OpStop i)) (timing_post (OpStop i) s m ks) s m.
Proof.
  intros Hw Hok. cbn [timing_exec]. unfold timing_post, timing_spec, target. destruct (ks !! i) as [k|] eqn:Hk.
  2:{ unfold Timing_StopMeasurement. apply wp_bind, wp_get. apply lookup_ge_None in Hk. pose proof (tw_length _ _ Hw) as Hl.
      rewrite (tw_init _ _ Hw), (proj2 (Nat.leb_le _ _)) by lia. apply wp_ret. split_and!; [done..|]. by rewrite alter_beyond. }
  destruct (running_since k) as [t|] eqn:Hr.
  2:{ destruct (tw_measured _ _ Hw i k Hk) as (avg & Ha & Hst & Hac & Hru). unfold Timing_StopMeasurement. apply wp_bind, wp_get.
      rewrite (tw_init _ _ Hw), (proj2 (Nat.leb_gt _ _)) by (rewrite <- (tw_length _ _ Hw); eapply lookup_lt_Some, Hk). cbn [negb orb].
      apply wp_bind, wp_lock_free; [apply Hw|]. apply wp_bind. eapply wp_lift_timing; [exact Hac|].
      rewrite Hr, bool_decide_eq_false_2 by (by intros []). cbn [negb]. apply wp_bind, wp_log_silent; [apply quiet_warning, Hw|].
      apply wp_unlock_held; [done|]. rewrite timing_unlocked by apply Hw. split_and!; [done..|]. apply (timing_same _ i k); [done|done|].
      unfold step_measured. by rewrite Hr. }
  destruct (Hok k Hk) as [Hn Hlim]; [by rewrite Hr; eauto|]. eapply stop_until_limit; [done|done|done|done|]. intros k' avg' Hk' Ha'.
  assert (Hlen : length (samples k') = S (length (samples k))).
  { rewrite Hk'. unfold step_measured. rewrite Hr. cbn [samples]. rewrite length_app. cbn [length]. lia. }
  replace (_ && _) with false.
  2:{ symmetry. apply andb_false_iff. rewrite Hlen. destruct (0 <? max_samples (config s)) eqn:E; [right|by left]. tests. apply Z.leb_gt. by apply Hlim. }
  apply wp_bind, wp_ret, wp_unlock_held; [done|]. split_and!; [done..|]. pose proof (tw_lengths _ _ Hw) as (L1 & L2 & L3).
  assert (Hi : (i < TIMING_COUNT)%nat) by (rewrite <- (tw_length _ _ Hw); eapply lookup_lt_Some, Hk).
  apply (timing_update i k _ s); try done; [exact (tw_init _ _ Hw)|cbn; by rewrite !length_insert| |].
  - intros j Hj. cbn. by rewrite !list_lookup_insert_ne.
  - rewrite <- Hk'. exists avg'. split; [done|]. cbn. rewrite !list_lookup_insert_eq by lia. split; [done|].
    rewrite Hk'. unfold step_measured. rewrite Hr. by split.
Qed.
Lemma timing_op_ok op s m ks : timing_wf s ks -> step_ok op (config s) ks -> wp (timing_exec op) (timing_post op s m ks) s m.
Proof.
  intros Hw Hok. destruct op; [by apply start_ok|by apply stop_ok|by apply reset_ok|].
  apply wp_modify. split_and!; [done..|]. by destruct Hw.
Qed.

(** ** Runs *)

Fixpoint timing_run (ops : list TimingOp) : M TimingMonitor unit :=
  match ops with [] => mret tt | op :: ops => timing_exec op;; timing_run ops end.
Definition clock_after (now : Z) (op : TimingOp) : Z := match op with OpElapse us => u32 (now + us) | _ => now end.
Fixpoint measured_run (now : Z) (ops : list TimingOp) (ks : list Measured) : list Measured :=
  match ops with [] => ks | op :: ops => measured_run (clock_after now op) ops (timing_spec now op ks) end.
Fixpoint run_ok (now : Z) (cfg : TimingConfig) (ops : list TimingOp) (ks : list Measured) : Prop :=
  match ops with [] => True | op :: ops => step_ok op cfg ks /\ run_ok (clock_after now op) cfg ops (timing_spec now op ks) end.
Lemma timing_run_ok ops s m ks : timing_wf s ks -> run_ok (timing_clock s) (config s) ops ks ->
  wp (timing_run ops) (fun _ s' m' => m' = m /\ config s' = config s /\ timing_wf s' (measured_run (timing_clock s) ops ks)) s m.
Proof.
  revert s m ks. induction ops as [|op ops IH]; intros s m ks Hw Hok; cbn [timing_run]; [by apply wp_ret|].
  destruct Hok as [Hop Hok]. apply wp_bind. eapply wp_mono; [by apply (timing_op_ok op s m ks)|]. intros [] s1 m1 (-> & Hc & Hcl & Hw1).
  assert (Hcl' : timing_clock s1 = clock_after (timing_clock s) op) by (rewrite Hcl; by destruct op).
  eapply wp_mono; [apply (IH s1 m _ Hw1); by rewrite Hcl', Hc|]. intros [] s2 m2 (-> & Hc2 & Hw2).
  split_and!; [done|congruence|]. cbn [measured_run]. by rewrite <- Hcl'.
Qed.

Lemma get_stats_spec i k s m ks : timing_wf s ks -> ks !! i = Some k ->
  wp (Timing_GetStats i) (fun r s' m' => s' = s /\ m' = m /\ exists avg, average (samples k) = Some avg /\ r = Some (summary (config s) k avg)) s m.
Proof.
  intros Hw Hk. unfold Timing_GetStats. apply wp_bind, wp_get.
  rewrite (tw_init _ _ Hw), (proj2 (Nat.leb_gt _ _)) by (rewrite <- (tw_length _ _ Hw); eapply lookup_lt_Some, Hk). cbn [negb orb].
  destruct (tw_measured _ _ Hw i k Hk) as (avg & Ha & Hst & _). apply wp_bind, wp_lock_free; [apply Hw|]. apply wp_bind. eapply wp_lift_timing; [exact Hst|].
  apply wp_bind, wp_unlock_held; [done|]. apply wp_ret. rewrite timing_unlocked by apply Hw. split_and!; [done..|]. by exists avg.
Qed.
(** A measurement of an idle kind, [us] microseconds long. *)
Definition measurement (i : nat) (us : Z) : list TimingOp := [OpStart i; OpElapse us; OpStop i].
Lemma timing_run_app ops ops' s m :
  timing_run (ops ++ ops') s m = (timing_run ops;; timing_run ops') s m.
Proof.
  revert s m. induction ops as [|op ops IH]; intros s m; cbn [timing_run app]; [done|]. unfold mbind, M_bind.
  destruct (timing_exec op s m) as [[[[] s1] m1]|]; [|done]. apply IH.
Qed.
Lemma measurement_runs i k us s m ks : timing_wf s ks -> ks !! i = Some k -> running_since k = None -> 0 <= us < 2 ^ 32 ->
  wp (timing_run [OpStart i; OpElapse us]) (fun _ s' m' => m' = m /\ config s' = config s /\ timing_clock s' = u32 (timing_clock s + us) /\
    exists ks', timing_wf s' ks' /\ ks' !! i = Some (mkMeasured (Some (timing_clock s)) (samples k) (last k))) s m.
Proof.
  intros Hw Hk Hr Hus. cbn [timing_run]. apply wp_bind. eapply wp_mono; [by apply (timing_op_ok (OpStart i) s m ks)|]. intros [] s1 m1 (-> & Hc1 & Hcl1 & Hw1).
  apply wp_bind. eapply wp_mono; [by apply (timing_op_ok (OpElapse us) s1 m _ Hw1)|]. intros [] s2 m2 (-> & Hc2 & Hcl2 & Hw2). apply wp_ret.
  split_and!; [done|congruence|congruence|]. eexists. split; [exact Hw2|]. cbn. rewrite list_lookup_alter_eq, Hk. cbn. unfold step_measured. by rewrite Hr.
Qed.
Lemma duration_u32 now us : 0 <= us < 2 ^ 32 -> u32 (u32 (now + us) - now) = us.
Proof. apply u32_elapsed. Qed.
Lemma measurements_run i k s m ks us : timing_wf s ks -> ks !! i = Some k -> running_since k = None -> Forall (fun d => 0 <= d < 2 ^ 32) us ->
  below_limit (config s) (length (samples k) + length us) ->
  wp (timing_run (mjoin (measurement i <$> us))) (fun _ s' m' => m' = m /\ config s' = config s /\
    exists ks', timing_wf s' ks' /\ exists k', ks' !! i = Some k' /\ running_since k' = None /\ samples k' = samples k ++ us) s m.
Proof.
  revert k s ks. induction us as [|d us IH]; intros k s ks Hw Hk Hr Hd Hlim.
  - apply wp_ret. split_and!; [done..|]. exists ks. split; [done|]. exists k. by rewrite app_nil_r.
  - apply Forall_cons in Hd as [Hd Hds]. cbn [length] in Hlim. unfold wp.
    rewrite fmap_cons. change (mjoin (measurement i d :: (measurement i <$> us))) with ([OpStart i; OpElapse d] ++ ([OpStop i] ++ mjoin (measurement i <$> us))).
    rewrite timing_run_app. apply wp_bind. eapply wp_mono; [by apply (measurement_runs i k d s m ks)|].
    intros [] s1 m1 (-> & Hc1 & Hcl1 & ks1 & Hw1 & Hk1). cbn [app timing_run]. apply wp_bind.
    eapply wp_mono; [apply (timing_op_ok (OpStop i) s1 m ks1 Hw1)|].
    { intros k1 Hk1' _. rewrite Hk1 in Hk1'. injection Hk1' as <-. cbn [samples]. rewrite Hc1.
      destruct Hlim as [L1 L2]. split; [lia|]. intros Hm. specialize (L2 Hm). lia. }
    intros [] s2 m2 (-> & Hc2 & Hcl2 & Hw2).
    eapply wp_mono; [eapply (IH (mkMeasured None (samples k ++ [d]) d) s2 _ Hw2); [|done|done|]|].
    + cbn. rewrite list_lookup_alter_eq, Hk1. cbn. unfold step_measured. cbn. by rewrite Hcl1, duration_u32.
    + cbn [samples]. rewrite length_app, Hc2, Hc1. cbn [length]. by replace (length (samples k) + 1 + length us)%nat with (length (samples k) + S (length us))%nat by lia.
    + intros [] s3 m3 (-> & Hc3 & ks3 & Hw3 & k3 & Hk3 & Hr3 & Hs3). split_and!; [done|congruence|]. exists ks3. split; [done|]. exists k3.
      split_and!; [done|done|]. rewrite Hs3. cbn [samples]. by rewrite <- app_assoc.
Qed.

(** ** Theorems *)

(** Along every run of starts, stops, resets and passing time, nested starts and stops
    without a start included, the statistics summarise the durations since the last reset:
    least, greatest, last, number, violations and running average. *)
Theorem timing_refines ops i s m ks : timing_wf s ks -> run_ok (timing_clock s) (config s) ops ks -> (i < TIMING_COUNT)%nat ->
  wp (timing_run ops;; Timing_GetStats i) (fun r _ m' => m' = m /\ exists k avg,
    measured_run (timing_clock s) ops ks !! i = Some k /\ average (samples k) = Some avg /\ r = Some (summary (config s) k avg)) s m.
Proof.
  intros Hw Hok Hi. apply wp_bind. eapply wp_mono; [by apply timing_run_ok|]. intros [] s1 m1 (-> & Hc & Hw1).
  destruct (lookup_lt_is_Some_2 (measured_run (timing_clock s) ops ks) i) as [k Hk]; [by rewrite (tw_length _ _ Hw1)|].
  eapply wp_mono; [by apply (get_stats_spec i k s1 m _ Hw1)|]. intros r s2 m2 (-> & -> & avg & Ha & ->). split; [done|]. exists k, avg. by rewrite Hc.
Qed.

(** The reported average lies between the least and the greatest sample; it is at most
    the mean and less than half the number of samples below it, if the sum of as many of
    the greatest fits 32 bits. *)
Theorem timing_average_bounds i k s m ks : timing_wf s ks -> ks !! i = Some k -> samples k <> [] -> Forall is_u32 (samples k) ->
  Z.of_nat (length (samples k)) * foldr Z.max 0 (samples k) < 2 ^ 32 -> Z.of_nat (length (samples k)) < 2 ^ 32 ->
  wp (Timing_GetStats i) (fun r _ _ => exists t, r = Some t /\ min_time_us t <= avg_time_us t <= max_time_us t /\
    2 * (total_samples t * avg_time_us t) <= 2 * sum (samples k) <= 2 * (total_samples t * avg_time_us t) + total_samples t * (total_samples t - 1)) s m.
Proof.
  intros Hw Hk Hne Hu Hb Hn. eapply wp_mono; [by apply (get_stats_spec i k s m ks)|]. intros r s1 m1 (-> & -> & avg & Ha & ->).
  destruct (extremes_bound _ Hne Hu) as [Hlo Hr].
  destruct (average_bounds _ _ _ Hlo Hr Hb Hn) as (a & Ha' & Hrange & Hsum). assert (a = avg) as -> by congruence.
  eexists. split; [done|]. split; [by apply Hrange|exact Hsum].
Qed.

(** With a limit on the number of samples, measurements below it return, and the
    measurement that reaches it never does: it resets the statistics under the mutex it
    holds. *)
Theorem sample_limit_blocks i k s m ks us d : timing_wf s ks -> ks !! i = Some k -> running_since k = None -> samples k = [] ->
  Forall (fun d => 0 <= d < 2 ^ 32) us -> 0 <= d < 2 ^ 32 -> max_samples (config s) < 2 ^ 32 ->
  Z.of_nat (length us) + 1 = max_samples (config s) ->
  wp (timing_run (mjoin (measurement i <$> us))) (fun _ _ _ => True) s m /\
  timing_run (mjoin (measurement i <$> us) ++ measurement i d) s m = None.
Proof.
  intros Hw Hk Hr Hs Hus Hd Hmax Hl.
  assert (Hlim : below_limit (config s) (length (samples k) + length us)) by (rewrite Hs; cbn [length]; split; lia).
  pose proof (measurements_run i k s m ks us Hw Hk Hr Hus Hlim) as Hrun. split; [by eapply wp_mono|].
  rewrite timing_run_app. apply undefined_bind. eapply wp_mono; [exact Hrun|]. intros [] s1 m1 (-> & Hc1 & ks1 & Hw1 & k1 & Hk1 & Hr1 & Hs1).
  rewrite Hs in Hs1. cbn [app] in Hs1. change (measurement i d) with ([OpStart i; OpElapse d] ++ [OpStop i]). rewrite timing_run_app. apply undefined_bind.
  eapply wp_mono; [by apply (measurement_runs i k1 d s1 m ks1)|]. intros [] s2 m2 (-> & Hc2 & Hcl2 & ks2 & Hw2 & Hk2). rewrite Hs1 in Hk2.
  cbn [timing_run timing_exec]. apply undefined_bind'.
  unfold Timing_StopMeasurement. apply undefined_bind, wp_get. destruct (tw_measured _ _ Hw2 i _ Hk2) as (avg & Ha & Hst & Hac & Hru). cbn [running_since] in *.
  rewrite (tw_init _ _ Hw2), (proj2 (Nat.leb_gt _ _)) by (rewrite <- (tw_length _ _ Hw2); eapply lookup_lt_Some, Hk2). cbn [negb orb].
  apply undefined_bind, wp_lock_free; [apply Hw2|]. apply undefined_bind. eapply wp_lift_timing; [exact Hac|]. rewrite bool_decide_eq_true_2 by eauto. cbn [negb].
  apply undefined_bind. eapply wp_lift_timing; [by apply Hru|]. cbv zeta. apply undefined_bind. eapply wp_lift_timing; [exact Hst|].
  set (dur := u32 (timing_clock s2 - timing_clock s1)).
  destruct (add_sample_summary (config s2) (mkMeasured (Some (timing_clock s1)) us (last k1)) (mkMeasured None (us ++ [dur]) dur) avg dur) as (avg' & _ & Hadd);
    [done|done|done|cbn [samples]; rewrite length_app; cbn [length]; lia|].
  apply undefined_bind. eapply wp_lift_timing; [exact Hadd|]. apply undefined_bind, wp_modify, undefined_bind, wp_log_violation; [apply Hw2|].
  apply undefined_bind, wp_modify, undefined_bind'. cbn [summary total_samples samples]. rewrite length_app. cbn [length]. rewrite Hc2, Hc1.
  rewrite (proj2 (Z.ltb_lt _ _)), (proj2 (Z.leb_le _ _)) by lia. cbn [andb]. unfold Timing_ResetStats. apply undefined_bind, wp_get.
  match goal with |- context [initialized ?x] => change (initialized x) with (initialized s2) end. rewrite (tw_init _ _ Hw2), (proj2 (Nat.leb_gt _ _)) by (rewrite <- (tw_length _ _ Hw2); eapply lookup_lt_Some, Hk2).
  by apply undefined_bind', lock_held_blocks.
Qed.

(** A measurement is exact across the wrap-around of the microsecond counter. *)
Theorem duration_exact i k us s m ks : timing_wf s ks -> ks !! i = Some k -> running_since k = None -> 0 <= us < 2 ^ 32 ->
  below_limit (config s) (S (length (samples k))) ->
  wp (timing_run (measurement i us);; Timing_GetStats i) (fun r _ _ => exists t, r = Some t /\ last_time_us t = us /\
    total_samples t = Z.of_nat (length (samples k)) + 1) s m.
Proof.
  intros Hw Hk Hr Hus Hlim. assert (Hi : (i < TIMING_COUNT)%nat) by (rewrite <- (tw_length _ _ Hw); eapply lookup_lt_Some, Hk).
  assert (Hrun : measured_run (timing_clock s) (measurement i us) ks !! i = Some (mkMeasured None (samples k ++ [us]) us)).
  { cbn. rewrite !list_lookup_alter_eq, Hk. cbn. unfold step_measured. rewrite Hr. cbn. by rewrite duration_u32. }
  assert (Hok : run_ok (timing_clock s) (config s) (measurement i us) ks).
  { cbn. split_and!; [done|done| |done]. intros k1. rewrite list_lookup_alter_eq, Hk. cbn. intros [= <-] _. unfold step_measured. by rewrite Hr. }
  apply wp_bind. eapply wp_mono; [by apply timing_run_ok|]. intros [] s1 m1 (-> & Hc & Hw1).
  eapply wp_mono; [exact (get_stats_spec i _ s1 m _ Hw1 Hrun)|]. intros r s2 m2 (-> & -> & avg & Ha & ->). eexists. split; [done|]. split; [done|].
  cbn [total_samples summary samples]. rewrite length_app. cbn [length]. lia.
Qed.

(** ** Concrete runs *)

(** Initialised, a measurement of the service handler and one of a data transfer done. *)
Definition example_timing (max : Z) : TimingMonitor :=
  mkTiming (mkTimingConfig 50 100 true true max)
    [mkStats 40 40 40 40 1 0; mkStats UINT32_MAX 0 0 0 0 0; mkStats 120 120 120 120 1 1; mkStats UINT32_MAX 0 0 0 0 0]
    [0; 0; 60; 0] [false; false; false; false] true false None (2 ^ 32 - 10).
Definition example_kinds : list Measured :=
  [mkMeasured None [40] 40; mkMeasured None [] 0; mkMeasured None [120] 120; mkMeasured None [] 0].
Lemma example_timing_wf max : timing_wf (example_timing max) example_kinds.
Proof.
  constructor; try done. intros [|[|[|[|i]]]] k; try done; intros [= <-]; eexists; (split; [reflexivity|]); by split_and!.
Qed.
Definition example_timing_ops : list TimingOp :=
  measurement TIMING_SERVICE_HANDLER 110 ++ [OpStop TIMING_SECURITY_CHECK; OpStart TIMING_DATA_TRANSFER; OpElapse 30; OpStart TIMING_DATA_TRANSFER;
    OpStop TIMING_DATA_TRANSFER; OpReset TIMING_SECURITY_CHECK].
(** Witness of [timing_refines], across the wrap-around of the counter. *)
Lemma timing_refines_witness :
  wp (timing_run example_timing_ops;; Timing_GetStats TIMING_SERVICE_HANDLER)
    (fun r _ _ => r = Some (mkStats 40 110 75 110 2 1)) (example_timing 0) boot /\
  wp (timing_run example_timing_ops;; Timing_GetStats TIMING_DATA_TRANSFER)
    (fun r _ _ => r = Some (mkStats 30 120 75 30 2 1)) (example_timing 0) boot.
Proof.
  assert (Hok : run_ok (timing_clock (example_timing 0)) (config (example_timing 0)) example_timing_ops example_kinds).
  { cbn. split_and!; try done; intros k Hk _; injection Hk as <-; split; try done; by apply Z.ltb_lt. }
  split; (eapply wp_mono; [apply (timing_refines _ _ _ _ example_kinds (example_timing_wf 0) Hok); by apply Nat.ltb_lt|]);
    intros r s m (_ & k & avg & Hk & Ha & ->); vm_compute in Hk; injection Hk as <-; vm_compute in Ha; by injection Ha as <-.
Defined.

(** Witness of [timing_average_bounds]. *)
Lemma timing_average_bounds_witness :
  wp (Timing_GetStats TIMING_DATA_TRANSFER) (fun r _ _ => exists t, r = Some t /\ min_time_us t <= avg_time_us t <= max_time_us t /\
    2 * (total_samples t * avg_time_us t) <= 2 * 120 <= 2 * (total_samples t * avg_time_us t) + total_samples t * (total_samples t - 1))
    (example_timing 0) boot.
Proof.
  apply (timing_average_bounds TIMING_DATA_TRANSFER (mkMeasured None [120] 120) _ _ example_kinds).
  - apply example_timing_wf.
  - reflexivity.
  - done.
  - apply Forall_singleton. unfold is_u32. lia.
  - cbn. lia.
  - cbn. lia.
Defined.

(** Witness of [sample_limit_blocks]: the third measurement of three. *)
Lemma sample_limit_blocks_witness :
  wp (timing_run (mjoin (measurement TIMING_SECURITY_CHECK <$> [5; 7]))) (fun _ _ _ => True) (example_timing 3) boot /\
  timing_run (mjoin (measurement TIMING_SECURITY_CHECK <$> [5; 7]) ++ measurement TIMING_SECURITY_CHECK 9) (example_timing 3) boot = None.
Proof.
  apply (sample_limit_blocks TIMING_SECURITY_CHECK (mkMeasured None [] 0) _ _ example_kinds); try done; try lia.
  - apply example_timing_wf.
  - repeat (apply Forall_cons; split; [lia|]). by apply Forall_nil.
Defined.

(** Witness of [duration_exact]. *)
Lemma duration_exact_witness :
  wp (timing_run (measurement TIMING_ROUTINE_EXECUTION 4000000000);; Timing_GetStats TIMING_ROUTINE_EXECUTION)
    (fun r _ _ => exists t, r = Some t /\ last_time_us t = 4000000000 /\ total_samples t = 1) (example_timing 5) boot.
Proof.
  apply (duration_exact TIMING_ROUTINE_EXECUTION (mkMeasured None [] 0) 4000000000 _ _ example_kinds).
  - apply example_timing_wf.
  - reflexivity.
  - reflexivity.
  - lia.
  - split; cbn; lia.
Defined.
