(* ===== verification/Resources.v ===== *)
(** * Resource budgets

    [diagnostic/resource/resource_manager.c]: total, use and peak of four resources and a
    moving average of the processor load, under the process-wide mutex of [Mutex.v].
    [resource_clock] is what [Timer_GetMilliseconds] returns; what [OS_GetCPUUsage], which
    the repository does not contain, answers is an argument of the poll. *)

From S2P Require Import Prelude Machine Mutex Averages.

Definition RESOURCE_MEMORY : nat := 0.
Definition RESOURCE_CPU : nat := 1.
Definition RESOURCE_FLASH : nat := 2.
Definition RESOURCE_NETWORK : nat := 3.
Definition RESOURCE_COUNT : nat := 4.
Definition CPU_SAMPLES : nat := 10.

Record ResourceStats := mkResource { total : Z; used : Z; peak : Z; threshold : Z }.
#[export] Instance eta_ResourceStats : Eta ResourceStats := fun r => mkResource (total r) (used r) (peak r) (threshold r).
Record ResourceConfig := mkResourceConfig {
  memory_limit : Z; cpu_threshold : Z; flash_write_limit : Z; network_bandwidth : Z; enable_monitoring : bool; check_interval_ms : Z }.
(** [resource_mgr], the mutex, the logger and the clock. *)
Record ResourceManager := mkResources {
  config : ResourceConfig; stats : list ResourceStats; last_check_time : Z; cpu_usage_samples : list Z; sample_index : nat;
  initialized : bool; resource_mutex : bool; resource_logger : option LogLevel; resource_clock : Z }.
#[export] Instance eta_ResourceManager : Eta ResourceManager := fun s =>
  mkResources (config s) (stats s) (last_check_time s) (cpu_usage_samples s) (sample_index s) (initialized s) (resource_mutex s)
    (resource_logger s) (resource_clock s).
#[export, refine] Instance ResourceManager_mutex : HasMutex ResourceManager :=
  {| locked := resource_mutex; set_locked b s := s <| resource_mutex := b |>; log_min := resource_logger |}.
Proof. all: by intros; destruct s. Defined.

(** [memset(&resource_mgr, 0, ...)]. *)
Definition resource_clear (s : ResourceManager) : ResourceManager :=
  s <| config := mkResourceConfig 0 0 0 0 false 0 |> <| stats := replicate RESOURCE_COUNT (mkResource 0 0 0 0) |> <| last_check_time := 0 |>
    <| cpu_usage_samples := replicate CPU_SAMPLES 0 |> <| sample_index := 0%nat |> <| initialized := false |>.
Definition lift {A} (o : option A) : M ResourceManager A := match o with Some a => mret a | None => fault end.
Definition set_stats (type : nat) (r : ResourceStats) : M ResourceManager unit := modify (fun s => s <| stats ::= <[type := r]> |>).

(** 80 % of the total, in 32 bits. *)
Definition initial_stats (total : Z) : ResourceStats := mkResource total 0 0 (u32 (total * 80) / 100).
Definition Resource_Init (cfg : option ResourceConfig) : M ResourceManager bool :=
  match cfg with
  | None => mret false
  | Some cfg =>
      modify resource_clear;;
      modify (fun s => s <| config := cfg |>
        <| stats := initial_stats <$> [memory_limit cfg; 100; flash_write_limit cfg; network_bandwidth cfg] |>
        <| last_check_time := resource_clock s |> <| initialized := true |>);;
      Logger_Log LOG_LEVEL_INFO;;
      mret true
  end.
Definition Resource_Deinit : M ResourceManager unit := Logger_Log LOG_LEVEL_INFO;; modify resource_clear.

Definition refuses (s : ResourceManager) (type : nat) : bool := negb (initialized s) || (RESOURCE_COUNT <=? type)%nat.
Definition take_amount (amount : Z) (r : ResourceStats) : ResourceStats :=
  let r := r <| used ::= fun u => u32 (u + amount) |> in
  if peak r <? used r then r <| peak := used r |> else r.
Definition Resource_Allocate (type : nat) (amount : Z) : M ResourceManager bool :=
  s ← get;
  if refuses s type then mret false else
  lock;;
  r ← lift (stats s !! type);
  if total r <? u32 (used r + amount) then Logger_Log LOG_LEVEL_ERROR;; unlock;; mret false else
  let r := take_amount amount r in
  set_stats type r;;
  (if threshold r <=? used r then Logger_Log LOG_LEVEL_WARNING else mret tt);;
  unlock;;
  mret true.
Definition Resource_Release (type : nat) (amount : Z) : M ResourceManager unit :=
  s ← get;
  if refuses s type then mret tt else
  lock;;
  r ← lift (stats s !! type);
  (if used r <? amount then Logger_Log LOG_LEVEL_WARNING;; set_stats type (r <| used := 0 |>)
   else set_stats type (r <| used ::= fun u => u32 (u - amount) |>));;
  unlock.
Definition Resource_IsAvailable (type : nat) (amount : Z) : M ResourceManager bool :=
  s ← get;
  if refuses s type then mret false else
  lock;;
  r ← lift (stats s !! type);
  unlock;;
  mret (u32 (used r + amount) <=? total r).
Definition Resource_GetStats (type : nat) : M ResourceManager (option ResourceStats) :=
  s ← get;
  if refuses s type then mret None else
  lock;;
  r ← lift (stats s !! type);
  unlock;;
  mret (Some r).
Definition Resource_ResetStats (type : nat) : M ResourceManager unit :=
  s ← get;
  if refuses s type then mret tt else
  lock;;
  r ← lift (stats s !! type);
  set_stats type (r <| peak := used r |>);;
  unlock.

(** The loop over the thresholds: only messages. *)
Fixpoint warn_loop (rs : list ResourceStats) : M ResourceManager unit :=
  match rs with
  | [] => mret tt
  | r :: rs => (if threshold r <=? used r then Logger_Log LOG_LEVEL_WARNING else mret tt);; warn_loop rs
  end.
Definition cpu_stats (avg : Z) (r : ResourceStats) : ResourceStats :=
  let r := r <| used := avg |> in if peak r <? avg then r <| peak := avg |> else r.
Definition Resource_ProcessUsage (OS_GetCPUUsage : Z) : M ResourceManager unit :=
  s ← get;
  if negb (initialized s) || negb (enable_monitoring (config s)) then mret tt else
  let current_time := resource_clock s in
  if u32 (current_time - last_check_time s) <? check_interval_ms (config s) then mret tt else
  lock;;
  modify (fun s => s <| last_check_time := current_time |>);;
  _ ← lift (cpu_usage_samples s !! sample_index s);
  modify (fun s => s <| cpu_usage_samples ::= <[sample_index s := OS_GetCPUUsage]> |> <| sample_index ::= fun i => ((i + 1) mod 10)%nat |>);;
  s ← get;
  let avg_cpu_usage := foldl (fun a x => u32 (a + x)) 0 (cpu_usage_samples s) / 10 in
  r ← lift (stats s !! RESOURCE_CPU);
  set_stats RESOURCE_CPU (cpu_stats avg_cpu_usage r);;
  s ← get;
  warn_loop (stats s);;
  unlock.

(** ** Budgets

    What the resources promise: a request is granted exactly when it fits into what is
    left, in exact arithmetic, and the processor load is the mean of the last ten samples. *)

Record Budgets := mkBudgets { b_stats : list ResourceStats; b_window : list Z; b_check : Z; b_clock : Z }.
#[export] Instance eta_Budgets : Eta Budgets := fun b => mkBudgets (b_stats b) (b_window b) (b_check b) (b_clock b).
(** The last ten samples, the oldest first. *)
Definition window (s : ResourceManager) : list Z := drop (sample_index s) (cpu_usage_samples s) ++ take (sample_index s) (cpu_usage_samples s).
Definition abs (s : ResourceManager) : Budgets := mkBudgets (stats s) (window s) (last_check_time s) (resource_clock s).

Inductive ResourceOp :=
| OpAllocate (type : nat) (amount : Z) | OpRelease (type : nat) (amount : Z) | OpAvailable (type : nat) (amount : Z) | OpReset (type : nat)
| OpPoll (usage : Z) | OpElapse (ms : Z).
Definition resource_exec (op : ResourceOp) : M ResourceManager (option bool) :=
  match op with
  | OpAllocate type amount => b ← Resource_Allocate type amount; mret (Some b)
  | OpRelease type amount => Resource_Release type amount;; mret None
  | OpAvailable type amount => b ← Resource_IsAvailable type amount; mret (Some b)
  | OpReset type => Resource_ResetStats type;; mret None
  | OpPoll usage => Resource_ProcessUsage usage;; mret None
  | OpElapse ms => modify (fun s => s <| resource_clock ::= fun t => u32 (t + ms) |>);; mret None
  end.
Definition granted (amount : Z) (r : ResourceStats) : ResourceStats := mkResource (total r) (used r + amount) (Z.max (peak r) (used r + amount)) (threshold r).
Definition fits (b : Budgets) (type : nat) (amount : Z) : bool :=
  match b_stats b !! type with Some r => used r + amount <=? total r | None => false end.
Definition resource_spec (cfg : ResourceConfig) (op : ResourceOp) (b : Budgets) : option bool * Budgets :=
  match op with
  | OpAllocate type amount =>
      (Some (fits b type amount), if fits b type amount then b <| b_stats ::= alter (granted amount) type |> else b)
  | OpRelease type amount => (None, b <| b_stats ::= alter (fun r => r <| used := Z.max 0 (used r - amount) |>) type |>)
  | OpAvailable type amount => (Some (fits b type amount), b)
  | OpReset type => (None, b <| b_stats ::= alter (fun r => r <| peak := used r |>) type |>)
  | OpPoll usage =>
      if enable_monitoring cfg && (check_interval_ms cfg <=? u32 (b_clock b - b_check b)) then
        let w := drop 1 (b_window b) ++ [usage] in
        (None, mkBudgets (alter (fun r => mkResource (total r) (sum w / 10) (Z.max (peak r) (sum w / 10)) (threshold r)) RESOURCE_CPU (b_stats b))
                 w (b_clock b) (b_clock b))
      else (None, b)
  | OpElapse ms => (None, b <| b_clock ::= fun t => u32 (t + ms) |>)
  end.
(** No sum wraps. *)
Definition op_fits (op : ResourceOp) (b : Budgets) : Prop :=
  match op with
  | OpAllocate type amount | OpAvailable type amount => 0 <= amount /\ forall r, b_stats b !! type = Some r -> used r + amount < 2 ^ 32
  | OpRelease _ amount => 0 <= amount
  | OpPoll usage => 0 <= usage <= 100
  | _ => True
  end.
Record resources_wf (s : ResourceManager) : Prop := {
  rw_free : resource_mutex s = false; rw_init : initialized s = true; rw_stats : length (stats s) = RESOURCE_COUNT;
  rw_samples : length (cpu_usage_samples s) = CPU_SAMPLES; rw_index : (sample_index s < CPU_SAMPLES)%nat;
  rw_loads : Forall (fun x => 0 <= x <= 100) (cpu_usage_samples s);
  rw_used : Forall (fun r => 0 <= used r <= total r /\ used r <= peak r /\ total r < 2 ^ 32) (stats s);
  rw_cpu : exists r, stats s !! RESOURCE_CPU = Some r /\ total r = 100;
  rw_quiet : logs (resource_logger s) LOG_LEVEL_ERROR = false }.

(** ** The operations *)

Lemma wp_lift_resource {A} (o : option A) a Q s m : o = Some a -> Q a s m -> wp (lift o) Q s m.
Proof. by intros ->. Qed.
Lemma resource_unlocked s : resource_mutex s = false -> set_locked false (set_locked true s) = s.
Proof. intros Hf. destruct s. cbn in *. by subst. Qed.
Lemma quiet_warnings (s : ResourceManager) : logs (resource_logger s) LOG_LEVEL_ERROR = false -> logs (log_min s) LOG_LEVEL_WARNING = false.
Proof. cbn. by destruct (resource_logger s) as [[]|]. Qed.
Lemma alter_insert {A} (f : A -> A) i (l : list A) x : l !! i = Some x -> alter f i l = <[i := f x]> l.
Proof.
  intros Hx. apply list_eq. intros j. destruct (decide (i = j)) as [<-|].
  - rewrite list_lookup_alter_eq, Hx, list_lookup_insert_eq by (eapply lookup_lt_Some, Hx). done.
  - by rewrite list_lookup_alter_ne, list_lookup_insert_ne.
Qed.
Lemma alter_out {A} (f : A -> A) i (l : list A) : l !! i = None -> alter f i l = l.
Proof.
  intros Hi. apply list_eq. intros j. destruct (decide (i = j)) as [<-|]; [|by rewrite list_lookup_alter_ne].
  by rewrite list_lookup_alter_eq, Hi.
Qed.

Definition resource_post (op : ResourceOp) s (m : Machine) (out : option bool) s' (m' : Machine) : Prop :=
  m' = m /\ config s' = config s /\ resources_wf s' /\ (out, abs s') = resource_spec (config s) op (abs s).

(** A resource with new figures. *)
Lemma stats_changed s type r r' : resources_wf s -> stats s !! type = Some r -> total r' = total r -> 0 <= used r' <= total r -> used r' <= peak r' ->
  resources_wf (s <| stats ::= <[type := r']> |>).
Proof.
  intros [] Hr Ht Hu Hp. assert (Hr' : total r < 2 ^ 32) by apply (proj1 (Forall_lookup _ _) rw_used0 _ _ Hr).
  constructor; cbn [resource_mutex initialized stats cpu_usage_samples sample_index resource_logger setf]; try done.
  - by rewrite length_insert.
  - apply Forall_insert; [done|]. rewrite Ht. split_and!; lia.
  - destruct rw_cpu0 as (c & Hc & Hct). destruct (decide (type = RESOURCE_CPU)) as [->|].
    + exists r'. rewrite list_lookup_insert_eq by (eapply lookup_lt_Some, Hc). split; [done|]. rewrite Ht. by assert (c = r) as <- by congruence.
    + exists c. by rewrite list_lookup_insert_ne.
Qed.
Lemma type_cases s type : resources_wf s ->
  (refuses s type = true /\ stats s !! type = None) \/
  (refuses s type = false /\ exists r, stats s !! type = Some r /\ 0 <= used r <= total r /\ used r <= peak r /\ total r < 2 ^ 32).
Proof.
  intros []. unfold refuses. rewrite rw_init0. cbn [negb orb]. destruct (_ <=? type)%nat eqn:E; tests.
  - left. split; [done|]. apply lookup_ge_None_2. lia.
  - right. split; [done|]. destruct (lookup_lt_is_Some_2 (stats s) type) as [r Hr]; [lia|]. exists r. split; [done|].
    destruct (proj1 (Forall_lookup _ _) rw_used0 _ _ Hr) as (? & ? & ?). done.
Qed.

Lemma allocate_ok type amount s m : resources_wf s -> op_fits (OpAllocate type amount) (abs s) ->
  wp (resource_exec (OpAllocate type amount)) (resource_post (OpAllocate type amount) s m) s m.
Proof.
  intros Hw [Ha Hfit]. cbn [resource_exec]. unfold Resource_Allocate, resource_post. cbn [resource_spec]. unfold fits. cbn [abs b_stats].
  apply wp_bind, wp_bind, wp_get. destruct (type_cases s type Hw) as [[-> Hn]|(-> & r & Hr & Hu & Hp & Ht)].
  { apply wp_ret, wp_ret. by rewrite Hn. }
  specialize (Hfit r Hr). apply wp_bind, wp_lock_free; [apply Hw|]. apply wp_bind. eapply wp_lift_resource; [exact Hr|].
  rewrite Hr, u32_small by (unfold is_u32; lia). rewrite Z.ltb_antisym. destruct (_ <=? total r) eqn:E; cbn [negb]; tests.
  - cbv zeta. assert (Hg : take_amount amount r = granted amount r).
    { unfold take_amount, granted. cbn. rewrite u32_small by (unfold is_u32; lia). destruct (_ <? _) eqn:E'; cbn; tests; f_equal; lia. }
    rewrite Hg. apply wp_bind, wp_modify, wp_bind.
    assert (Hlog : forall Q (s' : ResourceManager) m', resource_logger s' = resource_logger s -> Q tt s' m' ->
      wp (if threshold (granted amount r) <=? used (granted amount r) then Logger_Log LOG_LEVEL_WARNING else mret tt) Q s' m').
    { intros Q s' m' Hl HQ. destruct (_ <=? _); [|by apply wp_ret]. apply wp_log_silent; [|done]. apply quiet_warnings. rewrite Hl. apply Hw. }
    apply Hlog; [done|]. apply wp_bind, wp_unlock_held; [done|]. apply wp_ret, wp_ret.
    match goal with |- context [resources_wf ?x] => replace x with (s <| stats ::= <[type := granted amount r]> |>) end.
    2:{ pose proof (rw_free _ Hw). destruct s. cbn in *. by subst. }
    split_and!; [done|done| |].
    + apply (stats_changed s type r); [done|done|done|cbn; lia|cbn; lia].
    + unfold abs. cbn [b_stats setf stats window]. by rewrite (alter_insert _ _ _ r).
  - apply wp_bind, wp_log_silent; [apply Hw|]. apply wp_bind, wp_unlock_held; [done|]. apply wp_ret, wp_ret. rewrite resource_unlocked by apply Hw. done.
Qed.
Lemma release_ok type amount s m : resources_wf s -> op_fits (OpRelease type amount) (abs s) ->
  wp (resource_exec (OpRelease type amount)) (resource_post (OpRelease type amount) s m) s m.
Proof.
  intros Hw Ha. cbn in Ha. cbn [resource_exec]. unfold Resource_Release, resource_post. cbn [resource_spec].
  apply wp_bind, wp_bind, wp_get. destruct (type_cases s type Hw) as [[-> Hn]|(-> & r & Hr & Hu & Hp & Ht)].
  { apply wp_ret, wp_ret. split_and!; [done..|]. unfold abs. cbn [b_stats setf]. by rewrite alter_out. }
  apply wp_bind, wp_lock_free; [apply Hw|]. apply wp_bind. eapply wp_lift_resource; [exact Hr|].
  set (r' := r <| used := Z.max 0 (used r - amount) |>).
  assert (Hset : forall (Q : unit -> ResourceManager -> Machine -> Prop), Q tt (set_locked true s <| stats ::= <[type := r']> |>) m ->
    wp (if used r <? amount then Logger_Log LOG_LEVEL_WARNING;; set_stats type (r <| used := 0 |>)
        else set_stats type (r <| used ::= fun u => u32 (u - amount) |>)) Q (set_locked true s) m).
  { intros Q HQ. unfold r' in HQ. destruct (_ <? _) eqn:E; tests.
    - apply wp_bind, wp_log_silent; [apply quiet_warnings, Hw|]. apply wp_modify. by rewrite Z.max_l in HQ by lia.
    - apply wp_modify. rewrite Z.max_r in HQ by lia. cbn [setf] in HQ |- *. by rewrite u32_small by (unfold is_u32; lia). }
  apply wp_bind, Hset, wp_unlock_held; [done|]. apply wp_ret.
  match goal with |- context [resources_wf ?x] => replace x with (s <| stats ::= <[type := r']> |>) end.
  2:{ pose proof (rw_free _ Hw). destruct s. cbn in *. by subst. }
  split_and!; [done|done| |].
  - apply (stats_changed s type r); [done|done|done|cbn; lia|cbn; lia].
  - unfold abs. cbn [b_stats setf stats window]. by rewrite (alter_insert _ _ _ r).
Qed.
Lemma available_ok type amount s m : resources_wf s -> op_fits (OpAvailable type amount) (abs s) ->
  wp (resource_exec (OpAvailable type amount)) (resource_post (OpAvailable type amount) s m) s m.
Proof.
  intros Hw [Ha Hfit]. cbn [resource_exec]. unfold Resource_IsAvailable, resource_post. cbn [resource_spec]. unfold fits. cbn [abs b_stats].
  apply wp_bind, wp_bind, wp_get. destruct (type_cases s type Hw) as [[-> Hn]|(-> & r & Hr & Hu & Hp & Ht)].
  { apply wp_ret, wp_ret. by rewrite Hn. }
  specialize (Hfit r Hr). apply wp_bind, wp_lock_free; [apply Hw|]. apply wp_bind. eapply wp_lift_resource; [exact Hr|].
  apply wp_bind, wp_unlock_held; [done|]. apply wp_ret, wp_ret. rewrite resource_unlocked by apply Hw. rewrite Hr, u32_small by (unfold is_u32; lia). done.
Qed.
Lemma reset_stats_ok type s m : resources_wf s -> wp (resource_exec (OpReset type)) (resource_post (OpReset type) s m) s m.
Proof.
  intros Hw. cbn [resource_exec]. unfold Resource_ResetStats, resource_post. cbn [resource_spec].
  apply wp_bind, wp_bind, wp_get. destruct (type_cases s type Hw) as [[-> Hn]|(-> & r & Hr & Hu & Hp & Ht)].
  { apply wp_ret, wp_ret. split_and!; [done..|]. unfold abs. cbn [b_stats setf]. by rewrite alter_out. }
  apply wp_bind, wp_lock_free; [apply Hw|]. apply wp_bind. eapply wp_lift_resource; [exact Hr|].
  apply wp_bind, wp_modify, wp_unlock_held; [done|]. apply wp_ret.
  match goal with |- context [resources_wf ?x] => replace x with (s <| stats ::= <[type := r <| peak := used r |>]> |>) end.
  2:{ pose proof (rw_free _ Hw). destruct s. cbn in *. by subst. }
  split_and!; [done|done| |].
  - apply (stats_changed s type r); [done|done|done|cbn; lia|cbn; lia].
  - unfold abs. cbn [b_stats setf stats window]. by rewrite (alter_insert _ _ _ r).
Qed.

(** ** The moving average *)

Lemma window_push l i (v : Z) : length l = CPU_SAMPLES -> (i < CPU_SAMPLES)%nat ->
  drop ((i + 1) mod 10) (<[i := v]> l) ++ take ((i + 1) mod 10) (<[i := v]> l) = drop 1 (drop i l ++ take i l) ++ [v].
Proof.
  unfold CPU_SAMPLES. intros Hl Hi. do 10 (destruct l as [|? l]; [done|]). destruct l; [|done].
  do 10 (destruct i as [|i]; [done|]). lia.
Qed.
Lemma sum_rotate i (l : list Z) : sum (drop i l ++ take i l) = sum l.
Proof. rewrite <- (take_drop i l) at 3. rewrite !sum_app. lia. Qed.
Lemma sum_loads l : Forall (fun x => 0 <= x <= 100) l -> 0 <= sum l <= 100 * Z.of_nat (length l).
Proof. induction 1 as [|x l Hx _ IH]; [done|]. change (sum (x :: l)) with (x + sum l). cbn [length]. lia. Qed.
Lemma loads_sum l a : Forall (fun x => 0 <= x <= 100) l -> 0 <= a -> a + 100 * Z.of_nat (length l) < 2 ^ 32 -> foldl (fun a x => u32 (a + x)) a l = a + sum l.
Proof.
  intros Hl. revert a. induction Hl as [|x l Hx Hl IH]; intros a Ha Hb; [cbn; lia|]. change (sum (x :: l)) with (x + sum l).
  cbn [foldl length] in *. rewrite u32_small by (unfold is_u32; lia). rewrite IH by lia. lia.
Qed.
Lemma wp_warn_loop rs (Q : unit -> ResourceManager -> Machine -> Prop) s m :
  logs (resource_logger s) LOG_LEVEL_ERROR = false -> Q tt s m -> wp (warn_loop rs) Q s m.
Proof.
  intros Hq HQ. induction rs as [|r rs IH]; cbn [warn_loop]; [done|]. apply wp_bind.
  destruct (_ <=? _); [apply wp_log_silent; [by apply quiet_warnings|]|apply wp_ret]; exact IH.
Qed.
Lemma poll_usage_ok usage s m : resources_wf s -> op_fits (OpPoll usage) (abs s) ->
  wp (resource_exec (OpPoll usage)) (resource_post (OpPoll usage) s m) s m.
Proof.
  intros Hw Hu. cbn in Hu. cbn [resource_exec]. unfold Resource_ProcessUsage, resource_post. cbn [resource_spec].
  pose proof Hw as [H1 H2 H3 H4 H5 H6 H7 (r & Hr & Ht) H9].
  apply wp_bind, wp_bind, wp_get. rewrite H2. cbn [negb orb]. destruct (enable_monitoring _); cbn [negb andb]; [|by apply wp_ret, wp_ret].
  cbv zeta. cbn [abs b_clock b_check]. rewrite Z.ltb_antisym. destruct (_ <=? u32 _); cbn [negb]; [|by apply wp_ret, wp_ret].
  destruct (lookup_lt_is_Some_2 (cpu_usage_samples s) (sample_index s)) as [x Hx]; [by rewrite H4|].
  apply wp_bind, wp_lock_free; [done|]. apply wp_bind, wp_modify, wp_bind. eapply wp_lift_resource; [exact Hx|].
  apply wp_bind, wp_modify, wp_bind, wp_get, wp_bind. eapply wp_lift_resource; [exact Hr|]. apply wp_bind, wp_modify, wp_bind, wp_get, wp_bind.
  apply wp_warn_loop; [done|]. apply wp_unlock_held; [done|]. apply wp_ret.
  set (l' := <[sample_index s := usage]> (cpu_usage_samples s)).
  match goal with |- context [foldl _ 0 (cpu_usage_samples ?x)] => change (cpu_usage_samples x) with l' end.
  assert (Hl' : length l' = CPU_SAMPLES) by (unfold l'; by rewrite length_insert).
  assert (Hloads : Forall (fun x => 0 <= x <= 100) l') by (by apply Forall_insert).
  rewrite loads_sum, Z.add_0_l by (rewrite ?Hl'; unfold CPU_SAMPLES; done || lia). pose proof (sum_loads l' Hloads) as Hs. rewrite Hl' in Hs.
  set (s1 := s <| last_check_time := resource_clock s |> <| cpu_usage_samples := l' |> <| sample_index ::= fun i => ((i + 1) mod 10)%nat |>).
  assert (Hw1 : resources_wf s1).
  { constructor; try done; [|by exists r]. cbn. apply (Nat.mod_upper_bound _ 10). done. }
  set (r' := mkResource (total r) (sum l' / 10) (Z.max (peak r) (sum l' / 10)) (threshold r)).
  assert (Hr' : cpu_stats (sum l' / 10) r = r').
  { unfold cpu_stats, r'. cbn. destruct (_ <? _) eqn:E; cbn; tests; f_equal; lia. }
  rewrite Hr'. match goal with |- context [resources_wf ?x] => replace x with (s1 <| stats ::= <[RESOURCE_CPU := r']> |>) end.
  2:{ unfold s1. destruct s. cbn in *. by subst. }
  assert (Hd : 0 <= sum l' / 10 <= 100) by (unfold CPU_SAMPLES in Hs; split; [apply Z.div_pos; lia|apply Z.div_le_upper_bound; lia]).
  split_and!; [done|done| |].
  - apply (stats_changed s1 RESOURCE_CPU r); [done|done|done|cbn [used r']; rewrite Ht; exact Hd|apply Z.le_max_r].
  - unfold abs. cbn [b_window]. unfold window. cbn [stats cpu_usage_samples sample_index last_check_time resource_clock setf s1].
    pose proof (window_push (cpu_usage_samples s) (sample_index s) usage H4 H5) as Hp. fold l' in Hp. rewrite <- Hp, sum_rotate.
    by rewrite (alter_insert _ _ _ r).
Qed.
Lemma resource_op_ok op s m : resources_wf s -> op_fits op (abs s) -> wp (resource_exec op) (resource_post op s m) s m.
Proof.
  intros Hw Hok. destruct op; [by apply allocate_ok|by apply release_ok|by apply available_ok|by apply reset_stats_ok|by apply poll_usage_ok|].
  apply wp_bind, wp_modify, wp_ret. split_and!; [done|done| |done]. by destruct Hw.
Qed.

(** ** Runs *)

Fixpoint resource_run (ops : list ResourceOp) : M ResourceManager (list (option bool)) :=
  match ops with [] => mret [] | op :: ops => out ← resource_exec op; outs ← resource_run ops; mret (out :: outs) end.
Fixpoint budget_run (cfg : ResourceConfig) (ops : list ResourceOp) (b : Budgets) : list (option bool) * Budgets :=
  match ops with
  | [] => ([], b)
  | op :: ops => let '(out, b) := resource_spec cfg op b in let '(outs, b) := budget_run cfg ops b in (out :: outs, b)
  end.
Fixpoint run_fits (cfg : ResourceConfig) (ops : list ResourceOp) (b : Budgets) : Prop :=
  match ops with [] => True | op :: ops => op_fits op b /\ run_fits cfg ops (resource_spec cfg op b).2 end.
Lemma resource_run_ok ops s m : resources_wf s -> run_fits (config s) ops (abs s) ->
  wp (resource_run ops) (fun outs s' m' => m' = m /\ config s' = config s /\ resources_wf s' /\ (outs, abs s') = budget_run (config s) ops (abs s)) s m.
Proof.
  revert s m. induction ops as [|op ops IH]; intros s m Hw Hok; cbn [resource_run]; [by apply wp_ret|]. destruct Hok as [Hop Hok].
  apply wp_bind. eapply wp_mono; [by apply resource_op_ok|]. intros out s1 m1 (-> & Hc & Hw1 & Ho). rewrite <- Ho in Hok. cbn [snd] in Hok.
  apply wp_bind. eapply wp_mono; [apply IH; [done|by rewrite Hc]|]. intros outs s2 m2 (-> & Hc2 & Hw2 & Ho2). apply wp_ret.
  split_and!; [done|congruence|done|]. cbn [budget_run]. rewrite <- Ho, <- Hc, <- Ho2. done.
Qed.
(** The processor load after a list of polls, each of them in time. *)
Definition timely_polls (cfg : ResourceConfig) (usages : list Z) : list ResourceOp :=
  mjoin ((fun u => [OpElapse (check_interval_ms cfg); OpPoll u]) <$> usages).
Definition last_ten (l : list Z) : list Z := drop (length l - 10) l.

(** ** Theorems *)

(** Along every run of requests, releases, polls and passing time in which no sum
    exceeds 32 bits, a request is granted exactly when it fits into what is left, use and
    peak are those of the grants, and use never exceeds the total. *)
Theorem resources_refine ops s m : resources_wf s -> run_fits (config s) ops (abs s) ->
  wp (resource_run ops) (fun outs s' _ => (outs, abs s') = budget_run (config s) ops (abs s) /\
    Forall (fun r => 0 <= used r <= total r /\ used r <= peak r) (stats s')) s m.
Proof.
  intros Hw Hok. eapply wp_mono; [by apply resource_run_ok|]. intros outs s' m' (_ & _ & Hw' & Ho). split; [done|].
  eapply Forall_impl; [apply Hw'|]. naive_solver.
Qed.

(** A request so large that the sum wraps is granted, and leaves less in use than
    there was: what had been allocated is forgotten. *)
Theorem oversized_request_granted type amount r s m : resources_wf s -> stats s !! type = Some r ->
  2 ^ 32 - used r <= amount < 2 ^ 32 ->
  wp (Resource_Allocate type amount) (fun b s' _ => b = true /\ exists r', stats s' !! type = Some r' /\
    used r' = used r + amount - 2 ^ 32 /\ used r' < used r) s m.
Proof.
  intros Hw Hr Ha. unfold Resource_Allocate. apply wp_bind, wp_get. destruct (type_cases s type Hw) as [[_ Hn]|(-> & r0 & Hr0 & Hu & Hp & Ht)]; [congruence|].
  assert (r0 = r) as -> by congruence. apply wp_bind, wp_lock_free; [apply Hw|]. apply wp_bind. eapply wp_lift_resource; [exact Hr|].
  assert (Hs : u32 (used r + amount) = used r + amount - 2 ^ 32).
  { unfold u32. symmetry. apply (Z.mod_unique_pos _ _ 1); lia. }
  rewrite Hs, (proj2 (Z.ltb_ge _ _)) by lia. cbv zeta. apply wp_bind, wp_modify, wp_bind.
  assert (Hlog : forall Q (s' : ResourceManager) m', resource_logger s' = resource_logger s -> Q tt s' m' ->
    wp (if threshold (take_amount amount r) <=? used (take_amount amount r) then Logger_Log LOG_LEVEL_WARNING else mret tt) Q s' m').
  { intros Q s' m' Hl HQ. destruct (_ <=? _); [|by apply wp_ret]. apply wp_log_silent; [|done]. apply quiet_warnings. rewrite Hl. apply Hw. }
  apply Hlog; [done|]. apply wp_bind, wp_unlock_held; [done|]. apply wp_ret. split; [done|]. exists (take_amount amount r).
  assert (Hused : used (take_amount amount r) = used r + amount - 2 ^ 32) by (unfold take_amount; cbn; rewrite Hs; by destruct (_ <? _)).
  split_and!; [|done|lia]. cbn. apply list_lookup_insert_eq. eapply lookup_lt_Some, Hr.
Qed.

(** The warning threshold is 80 % of the total exactly if eighty times the total fits
    32 bits; otherwise it is smaller. *)
Theorem thresholds_exact cfg s m : 0 <= memory_limit cfg < 2 ^ 32 -> resource_logger s = None ->
  wp (Resource_Init (Some cfg)) (fun b s' _ => b = true /\ exists r, stats s' !! RESOURCE_MEMORY = Some r /\ total r = memory_limit cfg /\
    (memory_limit cfg * 80 < 2 ^ 32 -> threshold r = memory_limit cfg * 80 / 100) /\
    (2 ^ 32 <= memory_limit cfg * 80 -> threshold r < memory_limit cfg * 80 / 100)) s m.
Proof.
  intros Hl Hq. unfold Resource_Init. apply wp_bind, wp_modify, wp_bind, wp_modify, wp_bind, wp_log_silent; [cbn; by rewrite Hq|]. apply wp_ret.
  split; [done|]. exists (initial_stats (memory_limit cfg)). split_and!; [done|done| |]; cbn [threshold initial_stats].
  - intros Hb. by rewrite u32_small by (unfold is_u32; lia).
  - intros Hb. pose proof (u32_range (memory_limit cfg * 80)) as Hr. unfold is_u32 in Hr.
    assert (Hle : u32 (memory_limit cfg * 80) <= memory_limit cfg * 80 - 2 ^ 32).
    { unfold u32. pose proof (Z.div_mod (memory_limit cfg * 80) (2 ^ 32) ltac:(lia)).
      assert (1 <= memory_limit cfg * 80 / 2 ^ 32) by (apply Z.div_le_lower_bound; lia). lia. }
    apply Z.div_lt_upper_bound; [lia|]. pose proof (Z.mul_div_le (memory_limit cfg * 80) 100 ltac:(lia)).
    pose proof (Z.mod_pos_bound (memory_limit cfg * 80) 100 ltac:(lia)). pose proof (Z.div_mod (memory_limit cfg * 80) 100 ltac:(lia)). lia.
Qed.

Lemma polls_window cfg usages b : enable_monitoring cfg = true -> 0 <= check_interval_ms cfg < 2 ^ 32 -> b_check b = b_clock b -> is_u32 (b_clock b) ->
  length (b_window b) = CPU_SAMPLES -> Forall (fun x => 0 <= x <= 100) usages ->
  run_fits cfg (timely_polls cfg usages) b /\ b_window (budget_run cfg (timely_polls cfg usages) b).2 = last_ten (b_window b ++ usages) /\
  (usages <> [] -> forall r, b_stats b !! RESOURCE_CPU = Some r -> exists r', b_stats (budget_run cfg (timely_polls cfg usages) b).2 !! RESOURCE_CPU = Some r' /\
    used r' = sum (last_ten (b_window b ++ usages)) / 10).
Proof.
  intros Hen Hint. revert b. induction usages as [|u usages IH]; intros b Hc Hu32 Hlen Hus.
  { split; [done|]. split; [|done]. cbn. unfold last_ten. by rewrite app_nil_r, Hlen. }
  apply Forall_cons in Hus as [Hu Hus].
  set (w := drop 1 (b_window b) ++ [u]). assert (Hw : length w = CPU_SAMPLES) by (unfold w, CPU_SAMPLES in *; rewrite length_app, length_drop, Hlen; done).
  set (clk := u32 (b_clock b + check_interval_ms cfg)).
  set (b1 := mkBudgets (alter (fun r => mkResource (total r) (sum w / 10) (Z.max (peak r) (sum w / 10)) (threshold r)) RESOURCE_CPU (b_stats b)) w clk clk).
  assert (Hstep : (resource_spec cfg (OpPoll u) (resource_spec cfg (OpElapse (check_interval_ms cfg)) b).2).2 = b1).
  { cbn [resource_spec snd]. cbn [b_clock b_check setf]. fold clk. rewrite Hen, Hc. unfold clk at 1. rewrite u32_elapsed by lia.
    by rewrite (proj2 (Z.leb_le _ _)) by lia. }
  assert (Hten : last_ten (w ++ usages) = last_ten (b_window b ++ u :: usages)).
  { unfold last_ten. rewrite !length_app, Hw, Hlen. cbn [length]. unfold w, CPU_SAMPLES in *. destruct (b_window b) as [|x l]; [done|].
    cbn [drop]. rewrite drop_0, <- app_assoc. cbn [app]. by replace (10 + S (length usages) - 10)%nat with (S (10 + length usages - 10))%nat by lia. }
  destruct (IH b1) as (R1 & R2 & R3); [done|apply u32_range|done|done|].
  change (timely_polls cfg (u :: usages)) with (OpElapse (check_interval_ms cfg) :: OpPoll u :: timely_polls cfg usages). split.
  - split; [done|]. split; [done|]. rewrite <- Hstep in R1. exact R1.
  - assert (Hrun : (budget_run cfg (OpElapse (check_interval_ms cfg) :: OpPoll u :: timely_polls cfg usages) b).2 = (budget_run cfg (timely_polls cfg usages) b1).2).
    { rewrite <- Hstep. cbn [budget_run]. destruct (resource_spec cfg (OpElapse _) b) as [o1 b2]. cbn [snd].
      destruct (resource_spec cfg (OpPoll u) b2) as [o2 b3]. cbn [snd]. by destruct (budget_run cfg (timely_polls cfg usages) b3). }
    rewrite Hrun, R2, <- Hten. split; [done|]. intros _ r Hr. destruct usages as [|u' usages'].
    + eexists. split; [cbn; rewrite list_lookup_alter_eq, Hr; done|]. cbn [used]. f_equal. unfold last_ten. by rewrite app_nil_r, Hw.
    + apply (R3 ltac:(done) (mkResource (total r) (sum w / 10) (Z.max (peak r) (sum w / 10)) (threshold r))).
      cbn [b_stats b1]. by rewrite list_lookup_alter_eq, Hr.
Qed.

(** After polls in time the processor load is a tenth of the sum of the last ten
    samples; until ten have been taken the missing ones count as the zeros they start with. *)
Theorem cpu_load_exact usages s m : resources_wf s -> enable_monitoring (config s) = true -> 0 <= check_interval_ms (config s) < 2 ^ 32 ->
  last_check_time s = resource_clock s -> is_u32 (resource_clock s) -> Forall (fun x => 0 <= x <= 100) usages -> usages <> [] ->
  wp (resource_run (timely_polls (config s) usages);; Resource_GetStats RESOURCE_CPU)
    (fun r _ _ => exists r', r = Some r' /\ used r' = sum (last_ten (window s ++ usages)) / 10) s m.
Proof.
  intros Hw Hen Hint Hc Hu Hus Hne.
  assert (Hwl : length (window s) = CPU_SAMPLES).
  { unfold window. pose proof (rw_samples _ Hw). pose proof (rw_index _ Hw). rewrite length_app, length_drop, length_take. lia. }
  destruct (polls_window (config s) usages (abs s)) as (R1 & R2 & R3); try done. destruct (rw_cpu _ Hw) as (r & Hr & _). specialize (R3 Hne r Hr).
  destruct R3 as (r' & Hr' & Hu').
  apply wp_bind. eapply wp_mono; [by apply resource_run_ok|]. intros outs s1 m1 (-> & Hc1 & Hw1 & Ho). rewrite <- Ho in Hr'. cbn in Hr'.
  unfold Resource_GetStats. apply wp_bind, wp_get. destruct (type_cases s1 RESOURCE_CPU Hw1) as [[_ Hn]|(-> & r0 & Hr0 & _)]; [congruence|].
  apply wp_bind, wp_lock_free; [apply Hw1|]. apply wp_bind. eapply wp_lift_resource; [exact Hr'|]. apply wp_bind, wp_unlock_held; [done|]. apply wp_ret.
  exists r'. by rewrite Hu'.
Qed.

(** Once the logger writes errors, a request that does not fit never returns. *)
Theorem refused_request_blocks type amount r s m : initialized s = true -> resource_mutex s = false -> (type < RESOURCE_COUNT)%nat ->
  stats s !! type = Some r -> total r < u32 (used r + amount) -> logs (resource_logger s) LOG_LEVEL_ERROR = true ->
  Resource_Allocate type amount s m = None.
Proof.
  intros Hi Hm Ht Hr Ha Hl. unfold Resource_Allocate. apply undefined_bind, wp_get. unfold refuses. rewrite Hi, (proj2 (Nat.leb_gt _ _)) by done.
  cbn [negb orb]. apply undefined_bind, wp_lock_free; [done|]. apply undefined_bind. eapply wp_lift_resource; [exact Hr|].
  rewrite (proj2 (Z.ltb_lt _ _)) by done. by apply undefined_bind', log_held_blocks.
Qed.

(** ** Concrete runs *)

Definition example_resource_config : ResourceConfig := mkResourceConfig 1000 90 50 200 true 100.
Definition example_resources : ResourceManager :=
  mkResources example_resource_config (initial_stats <$> [1000; 100; 50; 200]) 7 (replicate 10 0) 0 true false None 7.
Lemma example_resources_wf : resources_wf example_resources.
Proof.
  constructor; try done.
  - by apply Nat.ltb_lt.
  - by apply Forall_replicate.
  - repeat (apply Forall_cons; split; [vm_compute; split_and!; congruence|]). by apply Forall_nil.
  - by eexists.
Qed.
Definition example_resource_ops : list ResourceOp :=
  [OpAllocate RESOURCE_MEMORY 600; OpAllocate RESOURCE_MEMORY 500; OpAvailable RESOURCE_MEMORY 400; OpRelease RESOURCE_MEMORY 200;
   OpAllocate RESOURCE_MEMORY 500; OpReset RESOURCE_MEMORY; OpRelease RESOURCE_MEMORY 2000; OpAllocate 9 1; OpElapse 100; OpPoll 50].
(** Witness of [resources_refine]. *)
Lemma resources_refine_witness :
  wp (resource_run example_resource_ops) (fun outs s' _ =>
    outs = [Some true; Some false; Some true; None; Some true; None; None; Some false; None; None] /\
    stats s' = [mkResource 1000 0 900 800; mkResource 100 5 5 80; mkResource 50 0 0 40; mkResource 200 0 0 160]) example_resources boot.
Proof.
  eapply wp_mono; [apply (resources_refine example_resource_ops); [apply example_resources_wf|]|].
  - cbn. split_and!; try done; try lia; intros r [= <-]; cbn; lia.
  - intros outs s' m' [Ho _]. pose proof (f_equal (fun x => (x.1, b_stats x.2)) Ho) as H. cbn [fst snd abs b_stats] in H.
    assert (Hc : (fun x : list (option bool) * Budgets => (x.1, b_stats x.2))
        (budget_run (config example_resources) example_resource_ops (abs example_resources)) =
      ([Some true; Some false; Some true; None; Some true; None; None; Some false; None; None],
       [mkResource 1000 0 900 800; mkResource 100 5 5 80; mkResource 50 0 0 40; mkResource 200 0 0 160])) by (by vm_compute).
    cbv beta in Hc. rewrite Hc in H. by injection H as -> ->.
Defined.

(** Witness of [oversized_request_granted]: all but one of the bytes in use forgotten. *)
Lemma oversized_request_granted_witness :
  wp (Resource_Allocate RESOURCE_MEMORY (2 ^ 32 - 599)) (fun b s' _ => b = true /\ exists r', stats s' !! RESOURCE_MEMORY = Some r' /\
    used r' = 600 + (2 ^ 32 - 599) - 2 ^ 32 /\ used r' < 600) (example_resources <| stats ::= <[0%nat := mkResource 1000 600 600 800]> |>) boot.
Proof.
  apply (oversized_request_granted RESOURCE_MEMORY _ (mkResource 1000 600 600 800)).
  - apply (stats_changed _ RESOURCE_MEMORY (mkResource 1000 0 0 800)); [apply example_resources_wf|done|done|cbn; lia|cbn; lia].
  - reflexivity.
  - cbn. lia.
Defined.

(** Witness of [thresholds_exact]: a limit of 64 MiB. *)
Lemma thresholds_exact_witness :
  wp (Resource_Init (Some (mkResourceConfig 67108864 90 50 200 true 100))) (fun b s' _ => b = true /\ exists r, stats s' !! RESOURCE_MEMORY = Some r /\
    total r = 67108864 /\ (67108864 * 80 < 2 ^ 32 -> threshold r = 67108864 * 80 / 100) /\
    (2 ^ 32 <= 67108864 * 80 -> threshold r < 67108864 * 80 / 100)) example_resources boot.
Proof. apply (thresholds_exact (mkResourceConfig 67108864 90 50 200 true 100)); [cbn; lia|done]. Defined.

(** Witness of [cpu_load_exact]. *)
Lemma cpu_load_exact_witness :
  wp (resource_run (timely_polls example_resource_config (replicate 12 60));; Resource_GetStats RESOURCE_CPU)
    (fun r _ _ => exists r', r = Some r' /\ used r' = sum (last_ten (replicate 10 0 ++ replicate 12 60)) / 10) example_resources boot.
Proof.
  apply (cpu_load_exact (replicate 12 60) example_resources boot).
  - apply example_resources_wf.
  - reflexivity.
  - cbn. lia.
  - reflexivity.
  - unfold is_u32. cbn. lia.
  - by apply Forall_replicate.
  - discriminate.
Defined.

(** Witness of [refused_request_blocks]. *)
Lemma refused_request_blocks_witness :
  Resource_Allocate RESOURCE_FLASH 51 (example_resources <| resource_logger := Some LOG_LEVEL_INFO |>) boot = None.
Proof.
  apply (refused_request_blocks RESOURCE_FLASH 51 (mkResource 50 0 0 40)); try reflexivity. by apply Nat.ltb_lt.
Defined.
