(* ===== verification/ErrorHistory.v ===== *)
(** * Error history

    [diagnostic/error/error_handler.c]: a ring of the last errors and a count for each
    severity, under the process-wide mutex of [Mutex.v].  Pointers are numbers, 0 for NULL;
    the callback is recorded with the code and the severity and does not call back.
    [error_clock] is what [Timer_GetMilliseconds] returns. *)

From S2P Require Import Prelude Machine Mutex.

Definition MAX_ERROR_HISTORY : nat := 100.
Definition ERROR_SEVERITY_INFO : nat := 0.
Definition ERROR_SEVERITY_WARNING : nat := 1.
Definition ERROR_SEVERITY_ERROR : nat := 2.
Definition ERROR_SEVERITY_FATAL : nat := 3.

Record ErrorInfo := mkError {
  error_code : Z; error_severity : nat; error_module : Z; error_description : Z; error_timestamp : Z; error_context : Z }.
Record ErrorHandlerConfig := mkErrorConfig {
  enable_callbacks : bool; log_errors : bool; auto_reset : bool; max_stored_errors : nat; global_callback : bool }.
#[export] Instance eta_ErrorHandlerConfig : Eta ErrorHandlerConfig := fun c =>
  mkErrorConfig (enable_callbacks c) (log_errors c) (auto_reset c) (max_stored_errors c) (global_callback c).
Definition error_zero : ErrorInfo := mkError 0 0 0 0 0 0.
(** [error_handler], the mutex, the logger and the clock. *)
Record ErrorHandler := mkHandler {
  config : ErrorHandlerConfig; error_history : list ErrorInfo; error_count : Z; error_index : nat; severity_counts : list Z;
  initialized : bool; error_mutex : bool; error_logger : option LogLevel; error_clock : Z }.
#[export] Instance eta_ErrorHandler : Eta ErrorHandler := fun s =>
  mkHandler (config s) (error_history s) (error_count s) (error_index s) (severity_counts s) (initialized s) (error_mutex s)
    (error_logger s) (error_clock s).
#[export, refine] Instance ErrorHandler_mutex : HasMutex ErrorHandler :=
  {| locked := error_mutex; set_locked b s := s <| error_mutex := b |>; log_min := error_logger |}.
Proof. all: by intros; destruct s. Defined.

(** [memset(&error_handler, 0, ...)]. *)
Definition handler_clear (s : ErrorHandler) : ErrorHandler :=
  s <| config := mkErrorConfig false false false 0 false |> <| error_history := replicate MAX_ERROR_HISTORY error_zero |>
    <| error_count := 0 |> <| error_index := 0%nat |> <| severity_counts := replicate 4 0 |> <| initialized := false |>.
Definition lift {A} (o : option A) : M ErrorHandler A := match o with Some a => mret a | None => fault end.

Definition Error_Init (cfg : option ErrorHandlerConfig) : M ErrorHandler bool :=
  match cfg with
  | None => mret false
  | Some cfg =>
      modify handler_clear;;
      modify (fun s => s <| config := if (MAX_ERROR_HISTORY <? max_stored_errors cfg)%nat
                                      then cfg <| max_stored_errors := MAX_ERROR_HISTORY |> else cfg |> <| initialized := true |>);;
      Logger_Log LOG_LEVEL_INFO;;
      mret true
  end.
Definition Error_Deinit : M ErrorHandler unit := Logger_Log LOG_LEVEL_INFO;; modify handler_clear.

Definition severity_level (severity : nat) : LogLevel :=
  match severity with O => LOG_LEVEL_INFO | S O => LOG_LEVEL_WARNING | S (S (S (S _))) => LOG_LEVEL_INFO | _ => LOG_LEVEL_ERROR end.
(** The remainder by zero is undefined. *)
Definition next_index (i n : nat) : option nat := if (n =? 0)%nat then None else Some ((i + 1) mod n)%nat.
(** The reset after a fatal error is a comment. *)
Definition Error_ReportWithContext (code : Z) (severity : nat) (module description context : Z) : M ErrorHandler unit :=
  s ← get;
  if negb (initialized s) || (module =? 0) || (description =? 0) || (ERROR_SEVERITY_FATAL <? severity)%nat then mret tt else
  lock;;
  let error := mkError code severity module description (error_clock s) context in
  _ ← lift (error_history s !! error_index s);
  n ← lift (severity_counts s !! severity);
  modify (fun s => s <| error_history ::= <[error_index s := error]> |> <| error_count ::= fun n => u32 (n + 1) |>
                     <| severity_counts ::= <[severity := u32 (n + 1)]> |>);;
  i ← lift (next_index (error_index s) (max_stored_errors (config s)));
  modify (fun s => s <| error_index := i |>);;
  (if log_errors (config s) then Logger_Log (severity_level severity) else mret tt);;
  callback (enable_callbacks (config s) && global_callback (config s)) "global_callback" [code; Z.of_nat severity];;
  unlock.
Definition Error_Report (code : Z) (severity : nat) (module description : Z) : M ErrorHandler unit :=
  Error_ReportWithContext code severity module description 0.
(** The only function that does not take the mutex. *)
Definition Error_GetCount (severity : nat) : M ErrorHandler Z :=
  s ← get;
  if negb (initialized s) || (ERROR_SEVERITY_FATAL <? severity)%nat then mret 0 else lift (severity_counts s !! severity).
Definition Error_GetLastError : M ErrorHandler (option ErrorInfo) :=
  s ← get;
  if negb (initialized s) || (error_count s =? 0) then mret None else
  lock;;
  let last_index := (if error_index s =? 0 then max_stored_errors (config s) - 1 else error_index s - 1)%nat in
  error ← lift (error_history s !! last_index);
  unlock;;
  mret (Some error).
Definition Error_ClearAll : M ErrorHandler unit :=
  s ← get;
  if negb (initialized s) then mret tt else
  lock;;
  modify (fun s => s <| error_history ::= fun h => replicate (max_stored_errors (config s)) error_zero ++ drop (max_stored_errors (config s)) h |>
                     <| severity_counts := replicate 4 0 |> <| error_count := 0 |> <| error_index := 0%nat |>);;
  unlock;;
  Logger_Log LOG_LEVEL_INFO.

(** ** The errors since the last clearing

    [holds s errors]: the handler stands for this list, the oldest error first. *)

Definition count_severity (severity : nat) (errors : list ErrorInfo) : nat := length (filter (fun e => error_severity e = severity) errors).
Record holds (s : ErrorHandler) (errors : list ErrorInfo) : Prop := {
  hd_free : error_mutex s = false; hd_init : initialized s = true; hd_length : length (error_history s) = MAX_ERROR_HISTORY;
  hd_max : (0 < max_stored_errors (config s) <= MAX_ERROR_HISTORY)%nat;
  hd_index : error_index s = (length errors mod max_stored_errors (config s))%nat;
  hd_count : error_count s = u32 (Z.of_nat (length errors));
  hd_severities : severity_counts s = (fun v => u32 (Z.of_nat (count_severity v errors))) <$> seq 0 4;
  hd_ring : forall i e, errors !! i = Some e -> (length errors <= i + max_stored_errors (config s))%nat ->
    error_history s !! (i mod max_stored_errors (config s))%nat = Some e }.

Inductive ErrorOp := OpReport (code : Z) (severity : nat) (module description context : Z) | OpClear | OpElapse (ms : Z).
Definition error_exec (op : ErrorOp) : M ErrorHandler unit :=
  match op with
  | OpReport code severity module description context => Error_ReportWithContext code severity module description context
  | OpClear => Error_ClearAll
  | OpElapse ms => modify (fun s => s <| error_clock ::= fun t => u32 (t + ms) |>)
  end.
Definition accepted (severity : nat) (module description : Z) : bool :=
  negb (module =? 0) && negb (description =? 0) && (severity <=? ERROR_SEVERITY_FATAL)%nat.
(** The errors and the calls after a step at this time. *)
Definition error_spec (cfg : ErrorHandlerConfig) (now : Z) (op : ErrorOp) (errors : list ErrorInfo) : list ErrorInfo * list Call :=
  match op with
  | OpReport code severity module description context =>
      if accepted severity module description
      then (errors ++ [mkError code severity module description now context],
            if enable_callbacks cfg && global_callback cfg then [call "global_callback" [code; Z.of_nat severity]] else [])
      else (errors, [])
  | OpClear => ([], [])
  | OpElapse _ => (errors, [])
  end.
Definition clock_after (now : Z) (op : ErrorOp) : Z := match op with OpElapse ms => u32 (now + ms) | _ => now end.
(** The logger writes nothing. *)
Definition silent (s : ErrorHandler) : Prop := error_logger s = None.
Definition error_post (op : ErrorOp) s (m : Machine) (errors : list ErrorInfo) (_ : unit) s' (m' : Machine) : Prop :=
  holds s' (error_spec (config s) (error_clock s) op errors).1 /\ silent s' /\ config s' = config s /\ error_clock s' = clock_after (error_clock s) op /\
  m' = m <| trace ::= fun t => t ++ (error_spec (config s) (error_clock s) op errors).2 |>.

Lemma wp_lift_error {A} (o : option A) a Q s m : o = Some a -> Q a s m -> wp (lift o) Q s m.
Proof. by intros ->. Qed.
Lemma trace_unchanged m : m = m <| trace ::= fun t => t ++ [] |>.
Proof. destruct m. cbn. by rewrite app_nil_r. Qed.

Lemma count_snoc v errors e : count_severity v (errors ++ [e]) = (count_severity v errors + (if decide (error_severity e = v) then 1 else 0))%nat.
Proof. unfold count_severity. rewrite filter_app, length_app. f_equal. cbn. by destruct (decide _). Qed.

Lemma report_ok code severity module description context s m errors : holds s errors -> silent s ->
  let op := OpReport code severity module description context in wp (error_exec op) (error_post op s m errors) s m.
Proof.
  intros [H1 H2 H3 H4 H5 H6 H7 H8] Hq op. cbn [error_exec op]. unfold Error_ReportWithContext, error_post. cbn [error_spec clock_after op].
  apply wp_bind, wp_get. rewrite H2. cbn [negb orb].
  replace ((module =? 0) || (description =? 0) || (ERROR_SEVERITY_FATAL <? severity)%nat) with (negb (accepted severity module description)).
  2:{ unfold accepted. rewrite !negb_andb, !negb_involutive. f_equal. symmetry. apply Nat.ltb_antisym. }
  destruct (accepted severity module description) eqn:Ea; cbn [negb].
  2:{ apply wp_ret. split_and!; [by constructor|done..|apply trace_unchanged]. }
  assert (Hsev : (severity < 4)%nat) by (unfold accepted, ERROR_SEVERITY_FATAL in Ea; tests; lia).
  apply wp_bind, wp_lock_free; [done|]. cbv zeta. set (e := mkError _ _ _ _ _ _). set (n := max_stored_errors (config s)) in *.
  pose proof (Nat.mod_upper_bound (length errors) n ltac:(lia)) as Hlt.
  destruct (lookup_lt_is_Some_2 (error_history s) (error_index s)) as [x Hx]; [lia|].
  assert (Hc : severity_counts s !! severity = Some (u32 (Z.of_nat (count_severity severity errors)))).
  { rewrite H7, list_lookup_fmap, lookup_seq_lt by lia. done. }
  apply wp_bind. eapply wp_lift_error; [exact Hx|]. apply wp_bind. eapply wp_lift_error; [exact Hc|]. apply wp_bind, wp_modify, wp_bind.
  eapply wp_lift_error. { unfold next_index. rewrite (proj2 (Nat.eqb_neq _ _)) by lia. done. }
  apply wp_bind, wp_modify, wp_bind.
  assert (Hlog : forall Q (s' : ErrorHandler) m', error_logger s' = None -> Q tt s' m' ->
    wp (if log_errors (config s) then Logger_Log (severity_level severity) else mret tt) Q s' m').
  { intros Q s' m' Hl HQ. destruct (log_errors _); [|by apply wp_ret]. apply wp_log_silent; [cbn; by rewrite Hl|done]. }
  apply Hlog; [done|]. apply wp_bind, wp_callback, wp_unlock_held; [done|]. split_and!; [|done..]. cbn [fst]. constructor; try done.
  - cbn. by rewrite length_insert.
  - cbn. fold n. rewrite H5, length_app. cbn [length]. apply Nat.Div0.add_mod_idemp_l.
  - cbn. rewrite H6, u32_succ, length_app. cbn [length]. f_equal. lia.
  - cbn [severity_counts setf set_locked ErrorHandler_mutex]. apply list_eq. intros j. rewrite H7. destruct (decide (j = severity)) as [->|Hne].
    + rewrite list_lookup_insert_eq by done. rewrite list_lookup_fmap, lookup_seq_lt by lia. cbn [fmap option_fmap option_map].
      rewrite count_snoc, decide_True by done. rewrite u32_succ. do 2 f_equal. cbn [Nat.add]. lia.
    + rewrite list_lookup_insert_ne by done. rewrite !list_lookup_fmap. destruct (decide (j < 4)%nat).
      * rewrite lookup_seq_lt by lia. cbn [fmap option_fmap option_map]. rewrite count_snoc, decide_False by (cbn; lia). do 3 f_equal. lia.
      * by rewrite !lookup_seq_ge by lia.
  - cbn [error_history config setf set_locked ErrorHandler_mutex]. fold n. rewrite H5. apply ring_push; [lia|done].
Qed.
Lemma clear_ok s m errors : holds s errors -> silent s -> wp (error_exec OpClear) (error_post OpClear s m errors) s m.
Proof.
  intros [H1 H2 H3 H4 H5 H6 H7 H8] Hq. cbn [error_exec]. unfold Error_ClearAll, error_post. cbn [error_spec clock_after].
  apply wp_bind, wp_get. rewrite H2. cbn [negb]. apply wp_bind, wp_lock_free; [done|]. apply wp_bind, wp_modify, wp_bind, wp_unlock_held; [done|].
  apply wp_log_silent; [cbn; by rewrite Hq|]. split_and!; [|done..|apply trace_unchanged]. constructor; try done.
  - cbn. rewrite length_app, length_replicate, length_drop. lia.
  - cbn [error_index config length setf]. symmetry. apply Nat.Div0.mod_0_l.
Qed.
Lemma error_op_ok op s m errors : holds s errors -> silent s -> wp (error_exec op) (error_post op s m errors) s m.
Proof.
  intros Hh Hq. destruct op; [by apply report_ok|by apply clear_ok|]. apply wp_modify. split_and!; [by destruct Hh|done..|apply trace_unchanged].
Qed.

(** ** Runs *)

Fixpoint error_run (ops : list ErrorOp) : M ErrorHandler unit :=
  match ops with [] => mret tt | op :: ops => error_exec op;; error_run ops end.
Fixpoint errors_after (cfg : ErrorHandlerConfig) (now : Z) (ops : list ErrorOp) (errors : list ErrorInfo) : list ErrorInfo * list Call :=
  match ops with
  | [] => (errors, [])
  | op :: ops =>
      let '(errors, calls) := error_spec cfg now op errors in
      let '(errors, calls') := errors_after cfg (clock_after now op) ops errors in
      (errors, calls ++ calls')
  end.
Lemma error_run_ok ops s m errors : holds s errors -> silent s ->
  wp (error_run ops) (fun _ s' m' => holds s' (errors_after (config s) (error_clock s) ops errors).1 /\ silent s' /\ config s' = config s /\
    m' = m <| trace ::= fun t => t ++ (errors_after (config s) (error_clock s) ops errors).2 |>) s m.
Proof.
  revert s m errors. induction ops as [|op ops IH]; intros s m errors Hh Hq; cbn [error_run]; [apply wp_ret; split_and!; try done; apply trace_unchanged|].
  apply wp_bind. eapply wp_mono; [by apply error_op_ok|]. intros [] s1 m1 (Hh1 & Hq1 & Hc1 & Hcl1 & ->).
  eapply wp_mono; [by apply IH|]. cbn [errors_after]. rewrite Hc1, Hcl1. destruct (error_spec _ _ _ _) as [es calls]. cbn [fst snd] in *.
  destruct (errors_after _ _ _ _) as [es' calls']. cbn [fst snd]. intros [] s2 m2 (Hh2 & Hq2 & Hc2 & ->). split_and!; [done|done|done|].
  destruct m. cbn. by rewrite app_assoc.
Qed.
Lemma last_error_spec s m errors : holds s errors -> u32 (Z.of_nat (length errors)) <> 0 ->
  wp Error_GetLastError (fun r s' m' => r = list.last errors /\ s' = s /\ m' = m) s m.
Proof.
  intros [H1 H2 H3 H4 H5 H6 H7 H8] Hn. unfold Error_GetLastError. apply wp_bind, wp_get.
  rewrite H2, H6, (proj2 (Z.eqb_neq _ _)) by done. cbn [negb orb]. apply wp_bind, wp_lock_free; [done|]. cbv zeta.
  destruct errors as [|e errors _] using rev_ind; [done|].
  rewrite length_app in H5. cbn [length] in H5. set (n := max_stored_errors (config s)) in *. set (k := length errors) in *.
  assert (Hlast : (if error_index s =? 0 then n - 1 else error_index s - 1)%nat = (k mod n)%nat).
  { rewrite H5. pose proof (Nat.div_mod k n ltac:(lia)) as E1. pose proof (Nat.mod_upper_bound k n ltac:(lia)) as L1.
    pose proof (Nat.div_mod (k + 1) n ltac:(lia)) as E2. pose proof (Nat.mod_upper_bound (k + 1) n ltac:(lia)) as L2.
    destruct (_ =? 0)%nat eqn:E; tests.
    - rewrite E in E2. assert ((k + 1) / n = k / n + 1)%nat; [|nia]. nia.
    - assert ((k + 1) / n = k / n)%nat; [|nia]. nia. }
  rewrite Hlast. apply wp_bind. eapply wp_lift_error.
  { apply H8; [|rewrite length_app; cbn [length]; fold k; lia]. unfold k. rewrite lookup_app_r, Nat.sub_diag by lia. done. }
  apply wp_bind, wp_unlock_held; [done|]. apply wp_ret. split_and!; [by rewrite last_snoc| |done]. destruct s. cbn in *. by subst.
Qed.
Lemma get_count_spec v s m errors : holds s errors -> (v <= ERROR_SEVERITY_FATAL)%nat ->
  wp (Error_GetCount v) (fun r s' m' => r = u32 (Z.of_nat (count_severity v errors)) /\ s' = s /\ m' = m) s m.
Proof.
  intros [] Hv. unfold Error_GetCount, ERROR_SEVERITY_FATAL in *. apply wp_bind, wp_get. rewrite hd_init0, (proj2 (Nat.ltb_ge _ _)) by done.
  cbn [negb orb]. eapply wp_lift_error; [|done]. rewrite hd_severities0, list_lookup_fmap, lookup_seq_lt by lia. done.
Qed.

(** ** Theorems *)

(** Along every run of reports, clearings and passing time the handler holds the last
    errors since the clearing: the last one is returned, the counts are those of the
    severities, and every accepted report is handed to the callback once, in order. *)
Theorem error_history_refines ops v s m errors : holds s errors -> silent s -> (v <= ERROR_SEVERITY_FATAL)%nat ->
  let es := (errors_after (config s) (error_clock s) ops errors).1 in
  Z.of_nat (length es) < 2 ^ 32 ->
  wp (error_run ops;; e ← Error_GetLastError; n ← Error_GetCount v; mret (e, n))
    (fun r _ m' => r = (list.last es, Z.of_nat (count_severity v es)) /\
      trace m' = trace m ++ (errors_after (config s) (error_clock s) ops errors).2) s m.
Proof.
  intros Hh Hq Hv es Hn. apply wp_bind. eapply wp_mono; [by apply error_run_ok|]. fold es. intros [] s1 m1 (Hh1 & Hq1 & Hc1 & ->).
  assert (Hcnt : Z.of_nat (count_severity v es) < 2 ^ 32).
  { pose proof (length_filter (fun e => error_severity e = v) es) as Hle. unfold count_severity. lia. }
  assert (Hu : is_u32 (Z.of_nat (length es))) by (unfold is_u32; lia).
  assert (Hlast : forall m', wp Error_GetLastError (fun r s' m'' => r = list.last es /\ s' = s1 /\ m'' = m') s1 m').
  { intros m'. destruct (decide (es = [])) as [He|He].
    - unfold Error_GetLastError. apply wp_bind, wp_get. rewrite (hd_count _ _ Hh1), He. change (u32 (Z.of_nat (length [])) =? 0) with true.
      rewrite orb_true_r. by apply wp_ret.
    - apply last_error_spec; [done|]. rewrite u32_small by done. destruct es; [done|cbn [length]; lia]. }
  apply wp_bind. eapply wp_mono; [apply Hlast|]. intros r s2 m2 (-> & -> & ->). apply wp_bind.
  eapply wp_mono; [by apply (get_count_spec v s1 _ es)|]. intros n s3 m3 (-> & -> & ->). apply wp_ret. by rewrite u32_small by (unfold is_u32; lia).
Qed.

(** With room for no error at all the first report is undefined: the index is taken
    modulo zero. *)
Theorem no_room_undefined code severity module description context s m :
  initialized s = true -> error_mutex s = false -> max_stored_errors (config s) = 0%nat -> accepted severity module description = true ->
  Error_ReportWithContext code severity module description context s m = None.
Proof.
  intros Hi Hm Hmax Ha. unfold Error_ReportWithContext. apply undefined_bind, wp_get. rewrite Hi. unfold accepted in Ha. tests.
  rewrite !(proj2 (Z.eqb_neq _ _)), (proj2 (Nat.ltb_ge _ _)) by done. cbn [negb orb]. apply undefined_bind, wp_lock_free; [done|]. cbv zeta.
  destruct (error_history s !! error_index s) as [x|] eqn:Ex; [|by apply undefined_bind'].
  apply undefined_bind. eapply wp_lift_error; [done|]. destruct (severity_counts s !! severity) as [n|] eqn:En; [|by apply undefined_bind'].
  apply undefined_bind. eapply wp_lift_error; [done|]. apply undefined_bind, wp_modify, undefined_bind'. unfold next_index. by rewrite Hmax.
Qed.

(** After 2^32 reports the history is full and [Error_GetLastError] says that there is
    no error. *)
Theorem full_count_hides_errors code severity module description context s m :
  initialized s = true -> error_mutex s = false -> silent s -> error_count s = UINT32_MAX ->
  (error_index s < max_stored_errors (config s) <= length (error_history s))%nat -> length (severity_counts s) = 4%nat ->
  accepted severity module description = true ->
  wp (Error_ReportWithContext code severity module description context;; Error_GetLastError)
    (fun r s' _ => r = None /\ error_history s' !! error_index s = Some (mkError code severity module description (error_clock s) context)) s m.
Proof.
  intros Hi Hm Hq Hn Hidx Hlen Ha. assert (Hsev : (severity < 4)%nat) by (unfold accepted, ERROR_SEVERITY_FATAL in Ha; tests; lia).
  destruct (lookup_lt_is_Some_2 (error_history s) (error_index s)) as [x Hx]; [lia|].
  destruct (lookup_lt_is_Some_2 (severity_counts s) severity) as [n Hc]; [lia|].
  apply wp_bind. unfold Error_ReportWithContext. apply wp_bind, wp_get. rewrite Hi. unfold accepted in Ha. tests.
  rewrite !(proj2 (Z.eqb_neq _ _)), (proj2 (Nat.ltb_ge _ _)) by done. cbn [negb orb]. apply wp_bind, wp_lock_free; [done|]. cbv zeta.
  apply wp_bind. eapply wp_lift_error; [exact Hx|]. apply wp_bind. eapply wp_lift_error; [exact Hc|]. apply wp_bind, wp_modify, wp_bind.
  eapply wp_lift_error. { unfold next_index. rewrite (proj2 (Nat.eqb_neq _ _)) by lia. done. }
  apply wp_bind, wp_modify, wp_bind.
  assert (Hlog : forall Q (s' : ErrorHandler) m', error_logger s' = None -> Q tt s' m' ->
    wp (if log_errors (config s) then Logger_Log (severity_level severity) else mret tt) Q s' m').
  { intros Q s' m' Hl HQ. destruct (log_errors _); [|by apply wp_ret]. apply wp_log_silent; [cbn; by rewrite Hl|done]. }
  apply Hlog; [done|]. apply wp_bind, wp_callback, wp_unlock_held; [done|]. unfold Error_GetLastError. apply wp_bind, wp_get.
  match goal with |- context [error_count ?x =? 0] => change (error_count x) with (u32 (error_count s + 1)) end. rewrite Hn.
  change (u32 (UINT32_MAX + 1) =? 0) with true. rewrite orb_true_r. apply wp_ret. split; [done|]. cbn. apply list_lookup_insert_eq. lia.
Qed.

(** With [log_errors] and a logger that writes entries of its level, a report never
    returns: the logger takes the mutex the handler holds. *)
Theorem report_log_blocks code severity module description context s m errors :
  holds s errors -> log_errors (config s) = true -> logs (error_logger s) (severity_level severity) = true -> accepted severity module description = true ->
  Error_ReportWithContext code severity module description context s m = None.
Proof.
  intros [H1 H2 H3 H4 H5 H6 H7 H8] Hl Hlog Ha. unfold Error_ReportWithContext. apply undefined_bind, wp_get. rewrite H2. unfold accepted in Ha.
  assert (Hsev : (severity < 4)%nat) by (unfold ERROR_SEVERITY_FATAL in Ha; tests; lia). tests.
  rewrite !(proj2 (Z.eqb_neq _ _)), (proj2 (Nat.ltb_ge _ _)) by done. cbn [negb orb]. apply undefined_bind, wp_lock_free; [done|]. cbv zeta.
  pose proof (Nat.mod_upper_bound (length errors) (max_stored_errors (config s)) ltac:(lia)) as Hlt.
  destruct (lookup_lt_is_Some_2 (error_history s) (error_index s)) as [x Hx]; [lia|].
  apply undefined_bind. eapply wp_lift_error; [exact Hx|]. destruct (severity_counts s !! severity) as [n|] eqn:En; [|by apply undefined_bind'].
  apply undefined_bind. eapply wp_lift_error; [done|]. apply undefined_bind, wp_modify, undefined_bind. eapply wp_lift_error.
  { unfold next_index. rewrite (proj2 (Nat.eqb_neq _ _)) by lia. done. }
  apply undefined_bind, wp_modify, undefined_bind'. rewrite Hl. by apply log_held_blocks.
Qed.

(** ** Concrete runs *)

Definition example_handler : ErrorHandler :=
  mkHandler (mkErrorConfig true true true 2 true) (replicate 100 error_zero) 0 0 [0; 0; 0; 0] true false None 5.
Lemma example_handler_holds : holds example_handler [].
Proof. constructor; try done. split; [by apply Nat.ltb_lt|by apply Nat.leb_le]. Qed.
Definition example_reports : list ErrorOp :=
  [OpReport 1 ERROR_SEVERITY_FATAL 10 20 0; OpElapse 3; OpReport 2 ERROR_SEVERITY_WARNING 10 21 0; OpReport 3 4 10 20 0; OpReport 4 ERROR_SEVERITY_FATAL 0 20 0;
   OpReport 5 ERROR_SEVERITY_FATAL 11 22 7].
(** Witness of [error_history_refines]: three of five reports are accepted. *)
Lemma error_history_refines_witness :
  wp (error_run example_reports;; e ← Error_GetLastError; n ← Error_GetCount ERROR_SEVERITY_FATAL; mret (e, n))
    (fun r _ m' => r = (Some (mkError 5 3 11 22 8 7), 2) /\
      trace m' = [call "global_callback" [1; 3]; call "global_callback" [2; 1]; call "global_callback" [5; 3]]) example_handler boot.
Proof.
  eapply wp_mono; [apply (error_history_refines example_reports ERROR_SEVERITY_FATAL example_handler boot []); [apply example_handler_holds|done|done|]|].
  - by vm_compute.
  - intros r s' m' [-> ->]. by vm_compute.
Defined.

(** Witness of [no_room_undefined]. *)
Lemma no_room_undefined_witness :
  Error_ReportWithContext 1 ERROR_SEVERITY_INFO 10 20 0 (example_handler <| config := mkErrorConfig false false false 0 false |>) boot = None.
Proof. by apply no_room_undefined. Defined.

(** Witness of [full_count_hides_errors]. *)
Lemma full_count_hides_errors_witness :
  wp (Error_ReportWithContext 9 ERROR_SEVERITY_ERROR 10 20 0;; Error_GetLastError)
    (fun r s' _ => r = None /\ error_history s' !! 0%nat = Some (mkError 9 2 10 20 5 0)) (example_handler <| error_count := UINT32_MAX |>) boot.
Proof.
  eapply wp_mono; [apply (full_count_hides_errors 9 ERROR_SEVERITY_ERROR 10 20 0 (example_handler <| error_count := UINT32_MAX |>) boot)|]; try reflexivity.
  - split; [by apply Nat.ltb_lt|by apply Nat.leb_le].
  - intros r s m [-> H]. split; [reflexivity|exact H].
Defined.

(** Witness of [report_log_blocks]. *)
Lemma report_log_blocks_witness :
  Error_ReportWithContext 1 ERROR_SEVERITY_FATAL 10 20 0 (example_handler <| error_logger := Some LOG_LEVEL_ERROR |>) boot = None.
Proof.
  apply (report_log_blocks _ _ _ _ _ _ _ []); try done. pose proof example_handler_holds as []. by constructor.
Defined.
