(* ===== verification/DiagServices.v ===== *)
(** * Service handlers of the add-ons

    [diagnostic/services/diag_services.c]: one function for each UDS service, over the
    session, security, communication and routine managers ([SessionManager.v],
    [SecurityManager.v], [CommManager.v], [RoutineManager.v]), whose statics the state
    contains.  The functions of the data and memory managers these handlers call, the
    second session timeout, power control and the memory map are in no file of the
    repository: [External] is their interface, [Limits] the constants.

    A [UdsMessage] is that of [UdsTypes.v]; reading or writing beyond the bytes behind its
    pointer is undefined.  The response codes have the names of the source, three of which
    no header defines.  [NVIC_SystemReset] does not return: a handler that reaches it has no
    answer. *)

From S2P Require Import Prelude Machine UdsTypes Memory Tables SecurityState SessionManager RoutineManager CommManager SecurityManager.

Inductive UdsResponseCode :=
| UDS_RESPONSE_OK | UDS_RESPONSE_INVALID_FORMAT | UDS_RESPONSE_SUB_FUNCTION_NOT_SUPPORTED | UDS_RESPONSE_CONDITIONS_NOT_CORRECT
| UDS_RESPONSE_INVALID_KEY | UDS_RESPONSE_REQUEST_OUT_OF_RANGE.
#[export] Instance UdsResponseCode_eq_dec : EqDecision UdsResponseCode.
Proof. solve_decision. Defined.

Definition UDS_SESSION_EXTENDED : Z := 0x03.
Definition UDS_SESSION_SAFETY : Z := 0x04.
Definition SECURITY_LEVEL_PROGRAMMING : Z := 0x01.
Definition SECURITY_LEVEL_EXTENDED : Z := 0x03.
Definition SECURITY_LEVEL_SAFETY : Z := 0x05.

(** What the repository does not contain. *)
Record Limits := mkLimits {
  MEMORY_START_ADDRESS : Z; MEMORY_END_ADDRESS : Z; MAX_MEMORY_BLOCK_SIZE : Z; MAX_DID_SIZE : nat; protected_ranges : list (Z * Z) }.
Class External (X : Type) := {
  Session_Manager_GetP2StarTimeout : M X Z;
  Data_Manager_GetDataIdentifier : Z -> M X bool;
  Data_Manager_ReadDataById : Z -> M X (option (list Z));
  Data_Manager_WriteDataById : Z -> list Z -> M X bool;
  Data_Manager_SavePermanentData : M X unit;
  Data_Manager_Reset : M X unit;
  Memory_Manager_GetMaxBlockSize : M X Z;
  Memory_Manager_StartDownload : Z -> Z -> Z -> M X bool;
  Memory_Manager_TransferBlock : Z -> list Z -> M X bool;
  Memory_Manager_CompleteTransfer : M X bool;
  Memory_Manager_ReadMemory : Z -> Z -> M X (option (list Z));
  Memory_Manager_Reset : M X unit;
  System_PowerDown : M X unit;
  System_PowerUp : M X unit;
  Timer_DelayMs : Z -> M X unit;
  System_EnableRapidPowerdown : M X bool;
  System_DisableRapidPowerdown : M X bool }.

(** The managers; the session manager is the one the routine manager asks. *)
Record Services (X : Type) := mkServices { sv_routine : RoutineCtx; sv_security : SecurityManager; sv_comm : CommManager; sv_ext : X }.
#[global] Arguments mkServices {X}. #[global] Arguments sv_routine {X}. #[global] Arguments sv_security {X}.
#[global] Arguments sv_comm {X}. #[global] Arguments sv_ext {X}.
#[export] Instance eta_Services X : Eta (Services X) := fun s => mkServices (sv_routine s) (sv_security s) (sv_comm s) (sv_ext s).

Section services.
Context {X : Type} `{External X} (SystemCoreClock : Z) (limits : Limits).

Definition in_session {A} (c : M SessionManager A) : M (Services X) A :=
  zoom (fun s => rm_session (sv_routine s)) (fun t s => s <| sv_routine ::= fun r => r <| rm_session := t |> |>) c.
Definition in_routine {A} (c : M RoutineCtx A) : M (Services X) A := zoom sv_routine (fun t s => s <| sv_routine := t |>) c.
Definition in_security {A} (c : M SecurityManager A) : M (Services X) A := zoom sv_security (fun t s => s <| sv_security := t |>) c.
Definition in_comm {A} (c : M CommManager A) : M (Services X) A := zoom sv_comm (fun t s => s <| sv_comm := t |>) c.
Definition in_ext {A} (c : M X A) : M (Services X) A := zoom sv_ext (fun t s => s <| sv_ext := t |>) c.
Definition lift {A} (o : option A) : M (Services X) A := match o with Some a => mret a | None => fault end.

(** [request->data[i]], [&request->data[i]] with a length, [response->data[i] = v] and
    [memcpy] to [&response->data[i]]. *)
Definition byte_at (request : UdsMessage) (i : nat) : option Z := d ← msg_data request; d !! i.
Definition bytes_from (request : UdsMessage) (i : nat) (n : nat) : option (list Z) :=
  d ← msg_data request; if (i + n <=? length d)%nat then Some (take n (drop i d)) else None.
Definition put_bytes (i : nat) (bytes : list Z) (response : UdsMessage) : option UdsMessage :=
  d ← msg_data response;
  if (i + length bytes <=? length d)%nat
  then Some (response <| msg_data := Some (take i d ++ bytes ++ drop (i + length bytes) d) |>) else None.
Definition put_length (n : Z) (response : UdsMessage) : UdsMessage := response <| msg_length := u16 n |>.

(** The answer: the code and the response as it is left. *)
Definition Answer : Type := (UdsResponseCode * UdsMessage)%type.
Definition answer (code : UdsResponseCode) (response : UdsMessage) : M (Services X) Answer := mret (code, response).

(** ** Helpers *)

(** [(address + size) <= end] is computed in 32 bits. *)
Definition inside_protected (address size : Z) (r : Z * Z) : bool := (r.1 <=? address) && (u32 (address + size) <=? r.2).
Definition validate_memory_range (address size : Z) : bool :=
  if (address <? MEMORY_START_ADDRESS limits) || (MEMORY_END_ADDRESS limits <? u32 (address + size)) || (MAX_MEMORY_BLOCK_SIZE limits <? size)
  then false else negb (existsb (inside_protected address size) (protected_ranges limits)).
Definition validate_data_identifier (did : Z) : M (Services X) bool := in_ext (Data_Manager_GetDataIdentifier did).
Definition validate_routine_id (rid : Z) : M (Services X) bool := r ← in_routine (Routine_Manager_GetRoutine rid); mret (bool_decide (is_Some r)).
Definition validate_io_parameters (control_type length : Z) : bool :=
  if control_type =? 0x00 then length =? 0 else if control_type =? 0x01 then length =? 0 else
  if control_type =? 0x02 then length =? 0 else if control_type =? 0x03 then 1 <=? length else false.

(** [None]: the processor was reset. *)
Definition System_PerformHardReset : M (Services X) (option bool) :=
  in_ext Data_Manager_SavePermanentData;;
  _ ← in_comm (Comm_Manager_ControlCommunication 0xFF COMM_CONTROL_DISABLE_RX_TX);
  _ ← in_security (Security_Manager_LockLevel 0xFF);
  _ ← in_session (Session_Manager_ChangeSession UDS_SESSION_DEFAULT);
  emit "NVIC_SystemReset" [];;
  mret None.
Definition System_PerformKeyReset : M (Services X) bool :=
  in_ext Data_Manager_SavePermanentData;;
  in_ext System_PowerDown;; in_ext (Timer_DelayMs 100);; in_ext System_PowerUp;;
  mret true.
Definition System_PerformSoftReset : M (Services X) bool :=
  _ ← in_session (Session_Manager_ChangeSession UDS_SESSION_DEFAULT);
  _ ← in_security (Security_Manager_LockLevel 0xFF);
  in_routine Routine_Manager_AbortAll;;
  in_ext Memory_Manager_Reset;; in_ext Data_Manager_Reset;;
  mret true.

(** ** The handlers *)

(** A session that needs a level. *)
Definition change_if_unlocked (level session : Z) : M (Services X) bool :=
  unlocked ← in_security (Security_Manager_IsLevelUnlocked level);
  if unlocked : bool then in_session (Session_Manager_ChangeSession session) else mret false.
(** [None]: the session type is not supported. *)
Definition select_session (session_type : Z) : M (Services X) (option bool) :=
  if session_type =? UDS_SESSION_DEFAULT then b ← in_session (Session_Manager_ChangeSession UDS_SESSION_DEFAULT); mret (Some b)
  else if session_type =? UDS_SESSION_PROGRAMMING then b ← change_if_unlocked SECURITY_LEVEL_PROGRAMMING UDS_SESSION_PROGRAMMING; mret (Some b)
  else if session_type =? UDS_SESSION_EXTENDED then b ← change_if_unlocked SECURITY_LEVEL_EXTENDED UDS_SESSION_EXTENDED; mret (Some b)
  else if session_type =? UDS_SESSION_SAFETY then b ← change_if_unlocked SECURITY_LEVEL_SAFETY UDS_SESSION_SAFETY; mret (Some b)
  else mret None.
Definition handle_diagnostic_session_control (request response : UdsMessage) : M (Services X) Answer :=
  if msg_length request <? 2 then answer UDS_RESPONSE_INVALID_FORMAT response else
  session_type ← lift (byte_at request 1);
  success ← select_session session_type;
  match success with
  | None => answer UDS_RESPONSE_SUB_FUNCTION_NOT_SUPPORTED response
  | Some false => answer UDS_RESPONSE_CONDITIONS_NOT_CORRECT response
  | Some true =>
      response ← lift (put_bytes 0 [session_type] response);
      p2 ← in_session Session_Manager_GetP2Timeout;
      response ← lift (put_bytes 1 [u8 (Z.shiftr p2 8)] response);
      p2 ← in_session Session_Manager_GetP2Timeout;
      response ← lift (put_bytes 2 [Z.land p2 0xFF] response);
      p2s ← in_ext Session_Manager_GetP2StarTimeout;
      response ← lift (put_bytes 3 [u8 (Z.shiftr p2s 8)] response);
      p2s ← in_ext Session_Manager_GetP2StarTimeout;
      response ← lift (put_bytes 4 [Z.land p2s 0xFF] response);
      answer UDS_RESPONSE_OK (put_length 5 response)
  end.

(** The inner [None] is a reset, the outer one a type that is not supported. *)
Definition perform_reset (reset_type : Z) : M (Services X) (option (option bool)) :=
  if reset_type =? 0x01 then b ← System_PerformHardReset; mret (Some b)
  else if reset_type =? 0x02 then b ← System_PerformKeyReset; mret (Some (Some b))
  else if reset_type =? 0x03 then b ← System_PerformSoftReset; mret (Some (Some b))
  else if reset_type =? 0x04 then b ← in_ext System_EnableRapidPowerdown; mret (Some (Some b))
  else if reset_type =? 0x05 then b ← in_ext System_DisableRapidPowerdown; mret (Some (Some b))
  else mret None.
Definition handle_ecu_reset (request response : UdsMessage) : M (Services X) (option Answer) :=
  if msg_length request <? 2 then mret (Some (UDS_RESPONSE_INVALID_FORMAT, response)) else
  reset_type ← lift (byte_at request 1);
  success ← perform_reset reset_type;
  match success with
  | None => mret (Some (UDS_RESPONSE_SUB_FUNCTION_NOT_SUPPORTED, response))
  | Some None => mret None
  | Some (Some false) => mret (Some (UDS_RESPONSE_CONDITIONS_NOT_CORRECT, response))
  | Some (Some true) =>
      response ← lift (put_bytes 0 [reset_type] response);
      mret (Some (UDS_RESPONSE_OK, put_length 1 response))
  end.

(** [ts1], [ts2] and [ts] are the timestamps of the state machine ([SecurityManager.v]);
    [seed_length] is 0, so the manager is offered a buffer without room. *)
Definition handle_security_access (ts1 ts2 ts : Z) (request response : UdsMessage) : M (Services X) Answer :=
  if msg_length request <? 2 then answer UDS_RESPONSE_INVALID_FORMAT response else
  sub ← lift (byte_at request 1);
  let security_level := Z.land sub 0xFE in
  if Z.land sub 0x01 =? 0x01 then
    seed ← in_security (Security_Manager_RequestSeed SystemCoreClock ts1 ts2 security_level (Some []));
    match seed with
    | None => answer UDS_RESPONSE_CONDITIONS_NOT_CORRECT response
    | Some seed =>
        response ← lift (put_bytes 0 [sub] response);
        response ← lift (put_bytes 1 seed response);
        answer UDS_RESPONSE_OK (put_length (Z.of_nat (length seed) + 1) response)
    end
  else
    if msg_length request <? 3 then answer UDS_RESPONSE_INVALID_FORMAT response else
    key ← lift (bytes_from request 2 (Z.to_nat (msg_length request - 2)));
    valid ← in_security (Security_Manager_ValidateKey SystemCoreClock ts security_level (Some key));
    if negb valid then answer UDS_RESPONSE_INVALID_KEY response else
    response ← lift (put_bytes 0 [sub] response);
    answer UDS_RESPONSE_OK (put_length 1 response).

Definition control_of (control_type : Z) : option CommControlType :=
  if control_type =? 0x00 then Some COMM_CONTROL_ENABLE_RX_TX else if control_type =? 0x01 then Some COMM_CONTROL_ENABLE_RX_DISABLE_TX else
  if control_type =? 0x02 then Some COMM_CONTROL_DISABLE_RX_ENABLE_TX else if control_type =? 0x03 then Some COMM_CONTROL_DISABLE_RX_TX else None.
Definition handle_communication_control (request response : UdsMessage) : M (Services X) Answer :=
  if msg_length request <? 3 then answer UDS_RESPONSE_INVALID_FORMAT response else
  control_type ← lift (byte_at request 1);
  comm_type ← lift (byte_at request 2);
  match control_of control_type with
  | None => answer UDS_RESPONSE_SUB_FUNCTION_NOT_SUPPORTED response
  | Some control =>
      _ ← in_comm (Comm_Manager_ControlCommunication comm_type control);
      response ← lift (put_bytes 0 [control_type] response);
      answer UDS_RESPONSE_OK (put_length 1 response)
  end.

Definition be16 (hi lo : Z) : Z := Z.lor (Z.shiftl hi 8) lo.
Definition handle_read_data_by_id (request response : UdsMessage) : M (Services X) Answer :=
  if msg_length request <? 3 then answer UDS_RESPONSE_INVALID_FORMAT response else
  hi ← lift (byte_at request 1);
  lo ← lift (byte_at request 2);
  known ← validate_data_identifier (be16 hi lo);
  if negb known then answer UDS_RESPONSE_REQUEST_OUT_OF_RANGE response else
  data ← in_ext (Data_Manager_ReadDataById (be16 hi lo));
  match data with
  | None => answer UDS_RESPONSE_CONDITIONS_NOT_CORRECT response
  | Some data =>
      if (MAX_DID_SIZE limits <? length data)%nat then fault else
      response ← lift (put_bytes 0 [hi] response);
      response ← lift (put_bytes 1 [lo] response);
      response ← lift (put_bytes 2 data response);
      answer UDS_RESPONSE_OK (put_length (Z.of_nat (length data) + 2) response)
  end.
Definition handle_write_data_by_id (request response : UdsMessage) : M (Services X) Answer :=
  if msg_length request <? 4 then answer UDS_RESPONSE_INVALID_FORMAT response else
  hi ← lift (byte_at request 1);
  lo ← lift (byte_at request 2);
  known ← validate_data_identifier (be16 hi lo);
  if negb known then answer UDS_RESPONSE_REQUEST_OUT_OF_RANGE response else
  data ← lift (bytes_from request 3 (Z.to_nat (msg_length request - 3)));
  written ← in_ext (Data_Manager_WriteDataById (be16 hi lo) data);
  if negb written then answer UDS_RESPONSE_CONDITIONS_NOT_CORRECT response else
  response ← lift (put_bytes 0 [hi] response);
  response ← lift (put_bytes 1 [lo] response);
  answer UDS_RESPONSE_OK (put_length 2 response).

(** The result is zeroed: no bytes. *)
Definition control_routine (sub routine_id : Z) (request : UdsMessage) : M (Services X) (option (bool * RoutineResult)) :=
  let result := mkResult 0 [] in
  if sub =? 0x01 then
    data ← lift (bytes_from request 4 (Z.to_nat (msg_length request - 4)));
    b ← in_routine (Routine_Manager_StartRoutine routine_id data);
    mret (Some (b, result))
  else if sub =? 0x02 then b ← in_routine (Routine_Manager_StopRoutine routine_id); mret (Some (b, result))
  else if sub =? 0x03 then
    r ← in_routine (Routine_Manager_GetResult routine_id (Some result));
    mret (Some (r.1, match r.2 with Some result => result | None => result end))
  else mret None.
Definition handle_routine_control (request response : UdsMessage) : M (Services X) Answer :=
  if msg_length request <? 4 then answer UDS_RESPONSE_INVALID_FORMAT response else
  sub ← lift (byte_at request 1);
  hi ← lift (byte_at request 2);
  lo ← lift (byte_at request 3);
  known ← validate_routine_id (be16 hi lo);
  if negb known then answer UDS_RESPONSE_REQUEST_OUT_OF_RANGE response else
  out ← control_routine sub (be16 hi lo) request;
  match out with
  | None => answer UDS_RESPONSE_SUB_FUNCTION_NOT_SUPPORTED response
  | Some (false, _) => answer UDS_RESPONSE_CONDITIONS_NOT_CORRECT response
  | Some (true, result) =>
      response ← lift (put_bytes 0 [sub] response);
      response ← lift (put_bytes 1 [hi] response);
      response ← lift (put_bytes 2 [lo] response);
      if (sub =? 0x03) && (0 <? length (result_data result))%nat then
        response ← lift (put_bytes 3 (result_data result) response);
        answer UDS_RESPONSE_OK (put_length (Z.of_nat (length (result_data result)) + 3) response)
      else answer UDS_RESPONSE_OK (put_length 3 response)
  end.

(** [value = (value << 8) | data[i]], in 32 bits. *)
Definition shift_in (value byte : Z) : Z := Z.lor (u32 (Z.shiftl value 8)) byte.
Definition number_at (request : UdsMessage) (i n : nat) : option Z := bytes ← bytes_from request i n; Some (foldl shift_in 0 bytes).
Definition high_nibble (b : Z) : nat := Z.to_nat (Z.land (Z.shiftr b 4) 0x0F).
Definition low_nibble (b : Z) : nat := Z.to_nat (Z.land b 0x0F).
Definition handle_request_download (request response : UdsMessage) : M (Services X) Answer :=
  if msg_length request <? 4 then answer UDS_RESPONSE_INVALID_FORMAT response else
  sizes ← lift (byte_at request 1);
  let address_size := high_nibble sizes in
  let length_size := low_nibble sizes in
  format ← lift (byte_at request 2);
  if msg_length request <? Z.of_nat (3 + address_size + length_size) then answer UDS_RESPONSE_INVALID_FORMAT response else
  address ← lift (number_at request 3 address_size);
  size ← lift (number_at request (3 + address_size) length_size);
  if negb (validate_memory_range address size) then answer UDS_RESPONSE_REQUEST_OUT_OF_RANGE response else
  max_block_length ← in_ext Memory_Manager_GetMaxBlockSize;
  started ← in_ext (Memory_Manager_StartDownload address size format);
  if negb started then answer UDS_RESPONSE_CONDITIONS_NOT_CORRECT response else
  response ← lift (put_bytes 0 [u8 (Z.shiftr max_block_length 8)] response);
  response ← lift (put_bytes 1 [Z.land max_block_length 0xFF] response);
  answer UDS_RESPONSE_OK (put_length 2 response).
Definition handle_transfer_data (request response : UdsMessage) : M (Services X) Answer :=
  if msg_length request <? 2 then answer UDS_RESPONSE_INVALID_FORMAT response else
  block_sequence ← lift (byte_at request 1);
  data ← lift (bytes_from request 2 (Z.to_nat (msg_length request - 2)));
  taken ← in_ext (Memory_Manager_TransferBlock block_sequence data);
  if negb taken then answer UDS_RESPONSE_REQUEST_OUT_OF_RANGE response else
  response ← lift (put_bytes 0 [block_sequence] response);
  answer UDS_RESPONSE_OK (put_length 1 response).
Definition handle_request_transfer_exit (request response : UdsMessage) : M (Services X) Answer :=
  completed ← in_ext Memory_Manager_CompleteTransfer;
  if negb completed then answer UDS_RESPONSE_CONDITIONS_NOT_CORRECT response else answer UDS_RESPONSE_OK (put_length 0 response).
Definition handle_tester_present (request response : UdsMessage) : M (Services X) Answer :=
  if msg_length request <? 2 then answer UDS_RESPONSE_INVALID_FORMAT response else
  sub ← lift (byte_at request 1);
  if negb (sub =? 0x00) then answer UDS_RESPONSE_SUB_FUNCTION_NOT_SUPPORTED response else
  in_session Session_Manager_UpdateActivity;;
  response ← lift (put_bytes 0 [sub] response);
  answer UDS_RESPONSE_OK (put_length 1 response).
(** The first byte of the response is not set. *)
Definition handle_read_memory_by_address (request response : UdsMessage) : M (Services X) Answer :=
  if msg_length request <? 4 then answer UDS_RESPONSE_INVALID_FORMAT response else
  sizes ← lift (byte_at request 1);
  let address_size := high_nibble sizes in
  let length_size := low_nibble sizes in
  if negb (msg_length request =? Z.of_nat (3 + address_size + length_size)) then answer UDS_RESPONSE_INVALID_FORMAT response else
  address ← lift (number_at request 2 address_size);
  size ← lift (number_at request (2 + address_size) length_size);
  if negb (validate_memory_range address size) then answer UDS_RESPONSE_REQUEST_OUT_OF_RANGE response else
  memory ← in_ext (Memory_Manager_ReadMemory address size);
  match memory with
  | None => answer UDS_RESPONSE_CONDITIONS_NOT_CORRECT response
  | Some memory =>
      response ← lift (put_bytes 1 memory response);
      answer UDS_RESPONSE_OK (put_length (size + 1) response)
  end.

(** The service of a request. *)
Inductive Service :=
| SessionControl | EcuReset | SecurityAccess (ts1 ts2 ts : Z) | CommunicationControl | ReadDataById | WriteDataById | RoutineControl
| RequestDownload | TransferData | RequestTransferExit | TesterPresent | ReadMemoryByAddress.
Definition answered (c : M (Services X) Answer) : M (Services X) (option Answer) := a ← c; mret (Some a).
Definition serve (service : Service) (request response : UdsMessage) : M (Services X) (option Answer) :=
  match service with
  | SessionControl => answered (handle_diagnostic_session_control request response)
  | EcuReset => handle_ecu_reset request response
  | SecurityAccess ts1 ts2 ts => answered (handle_security_access ts1 ts2 ts request response)
  | CommunicationControl => answered (handle_communication_control request response)
  | ReadDataById => answered (handle_read_data_by_id request response)
  | WriteDataById => answered (handle_write_data_by_id request response)
  | RoutineControl => answered (handle_routine_control request response)
  | RequestDownload => answered (handle_request_download request response)
  | TransferData => answered (handle_transfer_data request response)
  | RequestTransferExit => answered (handle_request_transfer_exit request response)
  | TesterPresent => answered (handle_tester_present request response)
  | ReadMemoryByAddress => answered (handle_read_memory_by_address request response)
  end.
Fixpoint serve_all (requests : list (Service * UdsMessage * UdsMessage)) : M (Services X) (list (option Answer)) :=
  match requests with
  | [] => mret []
  | (service, request, response) :: requests => a ← serve service request response; l ← serve_all requests; mret (a :: l)
  end.
End services.


Ltac keeps_step :=
  match goal with
  | |- keeps _ (mret _) => apply keeps_ret
  | |- keeps _ get => apply keeps_get
  | |- keeps _ fault => apply keeps_fault
  | |- keeps _ (on_machine _) => apply keeps_machine
  | |- keeps _ (emit _ _) => apply keeps_emit
  | |- keeps _ (callback _ _ _) => apply keeps_callback
  | |- keeps _ (modify _) => apply keeps_modify; intros
  | |- keeps _ (_ ≫= _) => apply keeps_bind; [|intros]
  | |- keeps _ enter => apply keeps_enter; intros
  | |- keeps _ exit => apply keeps_exit; intros
  | |- keeps _ (match ?x with _ => _ end) => destruct x
  | _ => first [by eauto 2 with keeps | reflexivity]
  end.
Ltac keeps_solve := repeat keeps_step.
Create HintDb keeps.

(** ** The routine manager does not change the session *)

Definition session_of (s : SessionManager) : Z := active_session (sm_state s).
Definition routine_session (c : RoutineCtx) : Z := session_of (rm_session c).
Lemma keeps_zoom_session {A} (c : M SessionManager A) : keeps session_of c ->
  keeps routine_session (zoom rm_session (fun s c => c <| rm_session := s |>) c).
Proof. intros Hc s m. apply wlp_zoom. eapply wlp_mono; [apply Hc|]. intros a t m' Ht. exact Ht. Qed.
Lemma keeps_get_state : keeps routine_session (zoom rm_session (fun s c => c <| rm_session := s |>) Session_Manager_GetState).
Proof. apply keeps_zoom_session. unfold Session_Manager_GetState. keeps_solve. Qed.
Lemma keeps_on_rm f : keeps routine_session (on_rm f).
Proof. unfold on_rm. keeps_solve. Qed.
Lemma keeps_routine_at i : keeps routine_session (routine_at i).
Proof. unfold routine_at. keeps_solve. Qed.
Lemma keeps_instance_at i : keeps routine_session (instance_at i).
Proof. unfold instance_at. keeps_solve. Qed.
#[export] Hint Resolve keeps_get_state keeps_on_rm keeps_routine_at keeps_instance_at : keeps.
Lemma keeps_set_instance i x : keeps routine_session (set_instance i x).
Proof. unfold set_instance. keeps_solve. Qed.
Lemma keeps_find_routine id : keeps routine_session (find_routine id).
Proof. unfold find_routine. keeps_solve. Qed.
Lemma keeps_find_active id : keeps routine_session (find_active_routine id).
Proof. unfold find_active_routine. keeps_solve. Qed.
Lemma keeps_free i : keeps routine_session (free_routine_instance i).
Proof. unfold free_routine_instance. keeps_solve. Qed.
Lemma keeps_allocate : keeps routine_session allocate_routine_instance.
Proof. unfold allocate_routine_instance. keeps_solve. Qed.
Lemma keeps_maybe_stop r : keeps routine_session (maybe_stop r).
Proof. unfold maybe_stop, call_stop. keeps_solve. Qed.
#[export] Hint Resolve keeps_set_instance keeps_find_routine keeps_find_active keeps_free keeps_allocate keeps_maybe_stop : keeps.
Lemma keeps_start_routine id data : keeps routine_session (Routine_Manager_StartRoutine id data).
Proof. unfold Routine_Manager_StartRoutine, start_instance, call_start. keeps_solve. Qed.
Lemma keeps_stop_routine id : keeps routine_session (Routine_Manager_StopRoutine id).
Proof. unfold Routine_Manager_StopRoutine, call_stop. keeps_solve. Qed.
Lemma keeps_get_result id r : keeps routine_session (Routine_Manager_GetResult id r).
Proof. unfold Routine_Manager_GetResult, call_get_result. keeps_solve. Qed.
Lemma keeps_get_routine id : keeps routine_session (Routine_Manager_GetRoutine id).
Proof. unfold Routine_Manager_GetRoutine. keeps_solve. Qed.
Lemma keeps_abort_loop n : keeps routine_session (abort_loop n).
Proof.
  induction n as [|n IH]; unfold abort_loop; fold abort_loop; keeps_solve.
Qed.
Lemma keeps_abort_all : keeps routine_session Routine_Manager_AbortAll.
Proof. pose proof keeps_abort_loop. unfold Routine_Manager_AbortAll. keeps_solve. Qed.
#[export] Hint Resolve keeps_start_routine keeps_stop_routine keeps_get_result keeps_get_routine keeps_abort_all : keeps.

(** ** Levels that nobody can unlock *)

Definition shut (e : SecurityLevelEntry) : Prop :=
  state (entry_state e) = SECURITY_STATE_LOCKED \/ state (entry_state e) = SECURITY_STATE_DELAY_ACTIVE.
Definition shut_state (x : option SecurityStateContext) : Prop :=
  match x with Some c => state c = SECURITY_STATE_LOCKED \/ state c = SECURITY_STATE_DELAY_ACTIVE | None => True end.
Definition all_shut (s : SecurityManager) : Prop := Forall shut (levels s).

Lemma wlp_on_state {A} i (c : M Ctx A) (R : A -> Prop) s m : all_shut s ->
  (forall x, shut_state x -> wlp c (fun a x' _ => R a /\ shut_state x') x m) ->
  wlp (on_state i c) (fun a s' _ => R a /\ all_shut s') s m.
Proof.
  intros Hs Hc. unfold on_state. apply wlp_zoom. eapply wlp_mono; [apply Hc|].
  - destruct (levels s !! i) as [e|] eqn:E; [|done]. by apply (proj1 (Forall_lookup _ _) Hs _ _ E).
  - intros a [x|] m' [HR Hx]; [|done]. split; [done|]. unfold all_shut. cbn. apply Forall_alter; [done|]. intros e _ _. exact Hx.
Qed.
Lemma shut_get_state i s m : all_shut s ->
  wlp (on_state i Security_State_GetState) (fun st s' _ => st <> SECURITY_STATE_UNLOCKED /\ all_shut s') s m.
Proof.
  intros Hs. apply wlp_on_state; [done|]. intros [c|] Hx; unfold Security_State_GetState, wlp; cbn; (split; [|exact Hx]); [|done].
  cbn in Hx |- *. by destruct Hx as [-> | ->].
Qed.
Lemma shut_validate clk ts key i s m : all_shut s ->
  wlp (on_state i (Security_State_ValidateKey clk ts key)) (fun b s' _ => b = false /\ all_shut s') s m.
Proof.
  intros Hs. apply wlp_on_state; [done|]. intros [c|] Hx; unfold Security_State_ValidateKey; apply wlp_bind, wlp_get; [|by apply wlp_ret].
  rewrite decide_False by (destruct Hx as [-> | ->]; done). by apply wlp_ret.
Qed.
Lemma shut_lock i s m : all_shut s -> wlp (on_state i Security_State_Lock) (fun _ s' _ => True /\ all_shut s') s m.
Proof.
  intros Hs. apply wlp_on_state; [done|]. intros [c|] Hx; unfold Security_State_Lock, wlp; cbn; split; try done. by left.
Qed.
Lemma shut_enter (Q : unit -> SecurityManager -> Machine -> Prop) s m : all_shut s -> (forall s' m', all_shut s' -> Q tt s' m') -> wlp enter Q s m.
Proof. intros Hs HQ. unfold wlp, enter. destruct (enter_critical _ _). by apply HQ. Qed.
Lemma shut_exit (Q : unit -> SecurityManager -> Machine -> Prop) s m : all_shut s -> (forall s' m', all_shut s' -> Q tt s' m') -> wlp exit Q s m.
Proof. intros Hs HQ. unfold wlp, exit. destruct (exit_critical _ _). by apply HQ. Qed.
Lemma shut_callback b n l (Q : unit -> SecurityManager -> Machine -> Prop) s m : all_shut s -> (forall m', Q tt s m') -> wlp (callback b n l) Q s m.
Proof. intros Hs HQ. by destruct b; apply HQ. Qed.

Lemma level_unlocked_shut lvl s m : all_shut s -> wlp (Security_Manager_IsLevelUnlocked lvl) (fun b s' _ => b = false /\ all_shut s') s m.
Proof.
  intros Hs. unfold Security_Manager_IsLevelUnlocked. apply wlp_bind, wlp_get. destruct (negb _); [by apply wlp_ret|].
  apply wlp_bind, shut_enter; [done|]. intros s1 m1 H1. apply wlp_bind. unfold find_security_level. apply wlp_bind, wlp_get, wlp_ret. apply wlp_bind.
  eapply (wlp_mono _ (fun b s' _ => b = false /\ all_shut s')).
  - destruct (find_key _ _ _) as [i|]; [|by apply wlp_ret]. apply wlp_bind. eapply wlp_mono; [by apply shut_get_state|].
    intros st s2 m2 [Hst H2]. apply wlp_ret. split; [|done]. by apply bool_decide_eq_false.
  - intros b s2 m2 [-> H2]. apply wlp_bind, shut_exit; [done|]. intros s3 m3 H3. by apply wlp_ret.
Qed.
Lemma validate_key_shut clk ts lvl key s m : all_shut s -> wlp (Security_Manager_ValidateKey clk ts lvl key) (fun b s' _ => b = false /\ all_shut s') s m.
Proof.
  intros Hs. unfold Security_Manager_ValidateKey. apply wlp_bind, wlp_get. destruct key as [key|]; [|by apply wlp_ret].
  destruct (_ || _); [by apply wlp_ret|]. apply wlp_bind, shut_enter; [done|]. intros s1 m1 H1. apply wlp_bind. unfold find_security_level. apply wlp_bind, wlp_get, wlp_ret.
  destruct (find_key _ _ _) as [i|].
  2:{ apply wlp_bind, shut_exit; [done|]. intros s2 m2 H2. by apply wlp_ret. }
  cbv zeta. apply wlp_bind. eapply wlp_mono; [by apply shut_validate|]. intros b s2 m2 [-> H2]. unfold key_verdict. apply wlp_bind, wlp_bind.
  eapply wlp_mono; [by apply shut_get_state|]. intros st s3 m3 [_ H3].
  assert (Hv : forall lvl v (Q : unit -> SecurityManager -> Machine -> Prop), (forall m', Q tt s3 m') -> wlp (violation lvl v) Q s3 m3).
  { intros lvl' v Q HQ. unfold violation. apply wlp_bind, wlp_get. by apply shut_callback. }
  destruct (decide _); apply Hv; intros m4; apply wlp_bind, shut_exit; try done; intros s5 m5 H5; by apply wlp_ret.
Qed.
Lemma lock_level_shut lvl s m : all_shut s -> wlp (Security_Manager_LockLevel lvl) (fun _ s' _ => all_shut s') s m.
Proof.
  intros Hs. unfold Security_Manager_LockLevel. apply wlp_bind, wlp_get. destruct (negb _); [by apply wlp_ret|].
  apply wlp_bind, shut_enter; [done|]. intros s1 m1 H1. apply wlp_bind. unfold find_security_level. apply wlp_bind, wlp_get, wlp_ret.
  destruct (find_key _ _ _) as [i|].
  2:{ apply wlp_bind, shut_exit; [done|]. intros s2 m2 H2. by apply wlp_ret. }
  apply wlp_bind. eapply wlp_mono; [by apply shut_lock|]. intros b s2 m2 [_ H2]. apply wlp_bind, wlp_get, wlp_bind.
  eapply (wlp_mono _ (fun _ s' _ => all_shut s')); [by destruct (_ && _)|]. intros [] s3 m3 H3. apply wlp_bind, shut_exit; [done|].
  intros s4 m4 H4. by apply wlp_ret.
Qed.

(** ** The handlers on shut levels *)

Lemma change_session_to n s m : wlp (Session_Manager_ChangeSession n) (fun b s' _ => session_of s' = if b : bool then n else session_of s) s m.
Proof.
  unfold Session_Manager_ChangeSession. apply wlp_bind, wlp_get. destruct (negb _); [by apply wlp_ret|].
  apply wlp_bind. eapply wlp_mono; [apply (keeps_enter session_of); done|]. intros [] s1 m1 H1.
  assert (Hexit : forall (b : bool) s2 m2, session_of s2 = (if b then n else session_of s) ->
    wlp (exit;; mret b) (fun b s' _ => session_of s' = if b : bool then n else session_of s) s2 m2).
  { intros b s2 m2 H2. apply wlp_bind. eapply wlp_mono; [apply (keeps_exit session_of); done|]. intros [] s3 m3 H3. apply wlp_ret. congruence. }
  destruct (session_locked _); [by apply Hexit|]. destruct (validate_session_transition _ _) as [[]|]; [|by apply Hexit|done].
  apply wlp_bind. apply (wlp_mono _ (fun _ s' _ => session_of s' = n)); [done|]. intros [] s2 m2 H2.
  assert (Hk : forall (c : M SessionManager unit), keeps session_of c -> forall s3 m3, session_of s3 = n ->
    wlp c (fun _ s' _ => session_of s' = n) s3 m3).
  { intros c Hc s3 m3 H3. eapply wlp_mono; [apply Hc|]. intros. congruence. }
  apply wlp_bind. eapply wlp_mono; [apply (keeps_machine session_of)|]. intros t s3 m3 H3. cbv beta in H3.
  apply wlp_bind. eapply wlp_mono; [apply (Hk (sm_set _)); [unfold sm_set; keeps_solve|congruence]|]. intros [] s4 m4 H4. cbv zeta.
  apply wlp_bind. eapply wlp_mono; [apply (Hk (sm_set _)); [unfold sm_set; keeps_solve|done]|]. intros [] s5 m5 H5.
  apply wlp_bind. eapply wlp_mono; [apply Hk; [keeps_solve|done]|]. intros [] s6 m6 H6.
  apply wlp_bind. eapply wlp_mono; [apply Hk; [keeps_solve|done]|]. intros [] s7 m7 H7.
  apply wlp_bind. eapply wlp_mono; [apply (Hk _); [|done]|].
  { unfold start_s3, start. destruct (0 <? _); keeps_solve. }
  intros [] s8 m8 H8. by apply Hexit.
Qed.

Section confined.
Context {X : Type} `{External X} (clk : Z) (limits : Limits).

(** The default session, and no level that is open or waits for a key. *)
Definition confined (s : Services X) : Prop := routine_session (sv_routine s) = UDS_SESSION_DEFAULT /\ all_shut (sv_security s).
Definition safe {A} (c : M (Services X) A) : Prop := forall s m, confined s -> wlp c (fun _ s' _ => confined s') s m.

Lemma safe_ret {A} (a : A) : safe (mret a).
Proof. by intros s m. Qed.
Lemma safe_bind {A B} (c : M (Services X) A) (k : A -> M (Services X) B) : safe c -> (forall a, safe (k a)) -> safe (c ≫= k).
Proof. intros Hc Hk s m Hs. apply wlp_bind. eapply wlp_mono; [by apply Hc|]. intros a s' m' Hs'. by apply Hk. Qed.
Lemma safe_lift {A} (o : option A) : safe (lift o).
Proof. intros s m Hs. by destruct o. Qed.
Lemma safe_emit n l : safe (emit n l).
Proof. by intros s m. Qed.
Lemma safe_ext {A} (c : M X A) : safe (in_ext c).
Proof. intros s m Hs. apply wlp_zoom. unfold wlp. by destruct (c _ m) as [[[a t] m']|]. Qed.
Lemma safe_comm {A} (c : M CommManager A) : safe (in_comm c).
Proof. intros s m Hs. apply wlp_zoom. unfold wlp. by destruct (c _ m) as [[[a t] m']|]. Qed.
Lemma safe_routine {A} (c : M RoutineCtx A) : keeps routine_session c -> safe (in_routine c).
Proof. intros Hc s m [Hs Hl]. apply wlp_zoom. eapply wlp_mono; [apply Hc|]. intros a t m' Ht. split; [cbn; congruence|done]. Qed.
Lemma safe_session {A} (c : M SessionManager A) : keeps session_of c -> safe (in_session c).
Proof. intros Hc s m [Hs Hl]. apply wlp_zoom. eapply wlp_mono; [apply Hc|]. intros a t m' Ht. split; [|done]. cbn. unfold routine_session in *. cbn. congruence. Qed.
Lemma safe_default : safe (in_session (Session_Manager_ChangeSession UDS_SESSION_DEFAULT)).
Proof.
  intros s m [Hs Hl]. apply wlp_zoom. eapply wlp_mono; [apply change_session_to|]. intros b t m' Ht. split; [|done].
  unfold routine_session in *. cbn. by destruct b; congruence.
Qed.
Lemma safe_security {A} (c : M SecurityManager A) : (forall s m, all_shut s -> wlp c (fun _ s' _ => all_shut s') s m) -> safe (in_security c).
Proof. intros Hc s m [Hs Hl]. apply wlp_zoom. eapply wlp_mono; [by apply Hc|]. intros a t m' Ht. by split. Qed.
Lemma safe_lock lvl : safe (in_security (Security_Manager_LockLevel lvl)).
Proof. apply safe_security. intros. by apply lock_level_shut. Qed.
Lemma safe_validate ts lvl key : safe (in_security (Security_Manager_ValidateKey clk ts lvl key)).
Proof. apply safe_security. intros s m Hs. eapply wlp_mono; [by apply validate_key_shut|]. by intros b s' m' [_ ?]. Qed.
Lemma no_room_no_seed ts1 ts2 lvl s m : Security_Manager_RequestSeed clk ts1 ts2 lvl (Some []) s m = Some (None, s, m).
Proof. unfold Security_Manager_RequestSeed, get, mbind, M_bind. cbn. by rewrite orb_true_r. Qed.
Lemma safe_seed ts1 ts2 lvl : safe (in_security (Security_Manager_RequestSeed clk ts1 ts2 lvl (Some []))).
Proof. apply safe_security. intros s m Hs. unfold wlp. by rewrite no_room_no_seed. Qed.
Lemma safe_if_unlocked level session : safe (change_if_unlocked level session).
Proof.
  intros s m [Hs Hl]. unfold change_if_unlocked. apply wlp_bind, wlp_zoom. eapply wlp_mono; [by apply level_unlocked_shut|]. intros b t m' [-> Ht].
  by apply wlp_ret.
Qed.
End confined.

Ltac safe_step :=
  match goal with
  | |- safe (mret _) => apply safe_ret
  | |- safe (answer _ _) => apply safe_ret
  | |- safe (lift _) => apply safe_lift
  | |- safe (emit _ _) => apply safe_emit
  | |- safe fault => intros ???; exact I
  | |- safe (in_ext _) => apply safe_ext
  | |- safe (in_comm _) => apply safe_comm
  | |- safe (in_session (Session_Manager_ChangeSession UDS_SESSION_DEFAULT)) => apply safe_default
  | |- safe (in_session _) => apply safe_session; [keeps_solve]
  | |- safe (in_routine _) => apply safe_routine; [keeps_solve]
  | |- safe (in_security (Security_Manager_LockLevel _)) => apply safe_lock
  | |- safe (in_security (Security_Manager_ValidateKey _ _ _ _)) => apply safe_validate
  | |- safe (in_security (Security_Manager_RequestSeed _ _ _ _ _)) => apply safe_seed
  | |- safe (change_if_unlocked _ _) => apply safe_if_unlocked
  | |- safe (_ ≫= _) => apply safe_bind; [|intros]
  | |- safe (match ?x with _ => _ end) => destruct x
  | |- safe (let _ := _ in _) => cbv zeta
  end.
Ltac safe_solve := repeat safe_step.

Lemma serve_safe {X} `{External X} clk limits service request response : safe (serve clk limits service request response).
Proof.
  destruct service; cbn [serve]; unfold answered, handle_diagnostic_session_control, select_session, handle_ecu_reset, perform_reset,
    System_PerformHardReset, System_PerformKeyReset, System_PerformSoftReset, handle_security_access, handle_communication_control,
    handle_read_data_by_id, handle_write_data_by_id, validate_data_identifier, handle_routine_control, control_routine, validate_routine_id,
    handle_request_download, handle_transfer_data, handle_request_transfer_exit, handle_tester_present, Session_Manager_UpdateActivity,
    Session_Manager_GetP2Timeout, start_s3, start, sm_set, handle_read_memory_by_address; safe_solve.
Qed.

(** ** Requests with an address and a size *)

(** The byte that says how long the two numbers are. *)
Definition format_byte (address_size length_size : nat) : Z := Z.of_nat address_size * 16 + Z.of_nat length_size.
Lemma format_halves a l : (a < 16)%nat -> (l < 16)%nat -> high_nibble (format_byte a l) = a /\ low_nibble (format_byte a l) = l.
Proof.
  intros Ha Hl. unfold high_nibble, low_nibble, format_byte. rewrite high_half by (unfold is_u8; lia). rewrite low_half.
  rewrite Z.div_add_l, Z.div_small, Z.add_0_r by lia. rewrite Z.add_comm, Z.mod_add, Z.mod_small by lia. by rewrite !Nat2Z.id.
Qed.
Lemma bytes_between (request : UdsMessage) d pre bytes post : msg_data request = Some d -> d = pre ++ bytes ++ post ->
  bytes_from request (length pre) (length bytes) = Some bytes.
Proof.
  intros Hd ->. unfold bytes_from. rewrite Hd. cbn [mbind option_bind]. rewrite !length_app, (proj2 (Nat.leb_le _ _)) by lia.
  by rewrite drop_app_length, take_app_length.
Qed.
Lemma number_between request d pre n z post : msg_data request = Some d -> d = pre ++ be_bytes n z ++ post -> 0 <= z < 256 ^ Z.of_nat n -> is_u32 z ->
  number_at request (length pre) n = Some z.
Proof.
  intros Hd Hp Hz Hu. unfold number_at. pose proof (bytes_between request d pre (be_bytes n z) post Hd Hp) as Hb. rewrite length_be_bytes in Hb.
  rewrite Hb. cbn [mbind option_bind]. f_equal. etrans; [exact (fold_be_bytes n z Hz)|]. by apply u32_small.
Qed.
(** A service identifier, the format byte, [extra] bytes, the two numbers, and the rest. *)
Definition range_request (sid : Z) (extra : list Z) (a l : nat) (address size : Z) (rest : list Z) : UdsMessage :=
  let d := [sid; format_byte a l] ++ extra ++ be_bytes a address ++ be_bytes l size ++ rest in
  mkUdsMessage sid 0 (Some d) (Z.of_nat (length d)).
Lemma range_length sid extra a l address size rest :
  msg_length (range_request sid extra a l address size rest) = Z.of_nat (2 + length extra + a + l + length rest).
Proof. unfold range_request. cbn [msg_length]. rewrite !length_app, !length_be_bytes. cbn [length]. f_equal. lia. Qed.
Lemma range_numbers sid extra a l address size rest : 0 <= address < 256 ^ Z.of_nat a -> 0 <= size < 256 ^ Z.of_nat l -> is_u32 address -> is_u32 size ->
  number_at (range_request sid extra a l address size rest) (2 + length extra) a = Some address /\
  number_at (range_request sid extra a l address size rest) (2 + length extra + a) l = Some size.
Proof.
  intros Ha Hl Hua Hul. split.
  - replace (2 + length extra)%nat with (length ([sid; format_byte a l] ++ extra)) by (rewrite length_app; done).
    eapply number_between; [reflexivity| |done|done]. by rewrite <- app_assoc.
  - replace (2 + length extra + a)%nat with (length ([sid; format_byte a l] ++ extra ++ be_bytes a address)) by (rewrite !length_app, length_be_bytes; cbn [length]; lia).
    eapply number_between; [reflexivity| |done|done]. by rewrite <- !app_assoc.
Qed.

Section theorems.
Context {X : Type} `{External X} (clk : Z) (limits : Limits).
Implicit Types s : Services X.

Lemma wp_lift_service {A} (o : option A) a Q s m : o = Some a -> Q a s m -> wp (lift o) Q s m.
Proof. by intros ->. Qed.
Lemma wp_in_ext {A} (c : M X A) (a : A) (Q : A -> Services X -> Machine -> Prop) s m :
  wp c (fun r _ _ => r = a) (sv_ext s) m -> (forall x m', Q a (s <| sv_ext := x |>) m') -> wp (in_ext c) Q s m.
Proof. intros Hc HQ. apply wp_zoom. eapply wp_mono; [exact Hc|]. intros r x m' ->. apply HQ. Qed.

(** The answers that give a tester more than it has. *)
Definition asks_more (service : Service) (request : UdsMessage) : Prop :=
  match service with
  | SessionControl => byte_at request 1 <> Some UDS_SESSION_DEFAULT
  | SecurityAccess _ _ _ => True
  | _ => False
  end.
Definition refused (a : option Answer) : Prop := match a with Some (code, _) => code <> UDS_RESPONSE_OK | None => False end.
Lemma select_refused t s m : t <> UDS_SESSION_DEFAULT -> confined s ->
  wlp (select_session t) (fun b _ _ => b <> Some true) s m.
Proof.
  intros Ht [_ Hs]. unfold select_session. rewrite (proj2 (Z.eqb_neq _ _)) by done.
  assert (Hc : forall level session, wlp (b ← change_if_unlocked level session; mret (Some b)) (fun b _ _ => b <> Some true) s m).
  { intros level session. unfold change_if_unlocked. apply wlp_bind, wlp_bind, wlp_zoom. eapply wlp_mono; [by apply level_unlocked_shut|].
    intros b x m' [-> _]. by apply wlp_ret. }
  destruct (_ =? _); [apply Hc|]. destruct (_ =? _); [apply Hc|]. destruct (_ =? _); [apply Hc|]. by apply wlp_ret.
Qed.
Lemma serve_refused service request response s m : confined s -> asks_more service request ->
  wlp (serve clk limits service request response) (fun a _ _ => refused a) s m.
Proof.
  intros Hs Hm. destruct service; try done; cbn [serve]; unfold answered; apply wlp_bind.
  - unfold handle_diagnostic_session_control, answer. destruct (_ <? 2); [by apply wlp_ret|]. apply wlp_bind.
    destruct (byte_at request 1) as [t|] eqn:Et; [|done]. apply wlp_ret, wlp_bind. cbn in Hm. eapply wlp_mono; [apply select_refused; [congruence|done]|].
    intros [[]|] s' m' Hb; [done|by apply wlp_ret|by apply wlp_ret].
  - unfold handle_security_access, answer. destruct (_ <? 2); [by apply wlp_ret|]. apply wlp_bind. destruct (byte_at request 1) as [sub|]; [|done].
    apply wlp_ret. cbv zeta. destruct (_ =? 0x01).
    + apply wlp_bind, wlp_zoom. unfold wlp at 1. rewrite no_room_no_seed. by apply wlp_ret.
    + destruct (_ <? 3); [by apply wlp_ret|]. apply wlp_bind. destruct (bytes_from _ _ _) as [key|]; [|done]. apply wlp_ret.
      apply wlp_bind, wlp_zoom. destruct Hs as [_ Hs]. eapply wlp_mono; [by apply validate_key_shut|]. intros b x m' [-> _]. by apply wlp_ret.
Qed.

(** From the default session with all levels locked no sequence of requests, to
    whatever services and with whatever data, leads to another session or unlocks a level,
    and every request for either is refused: access is never possible. *)
Theorem services_locked_out requests s m answers s' m' :
  confined s -> serve_all clk limits requests s m = Some (answers, s', m') ->
  confined s' /\ Forall2 (fun r a => asks_more r.1.1 r.1.2 -> refused a) requests answers.
Proof.
  revert s m answers. induction requests as [|[[service request] response] requests IH]; intros s m answers Hs Hr; cbn [serve_all] in Hr.
  - by injection Hr as <- <- <-.
  - unfold mbind, M_bind in Hr. pose proof (serve_safe clk limits service request response s m Hs) as Hsafe.
    pose proof (serve_refused service request response s m Hs) as Href. unfold wlp in *.
    destruct (serve clk limits service request response s m) as [[[a s1] m1]|]; [|done].
    destruct (serve_all clk limits requests s1 m1) as [[[l s2] m2]|] eqn:E; [|done]. injection Hr as <- <- <-.
    destruct (IH s1 m1 l Hsafe E) as [H1 H2]. split; [done|]. by constructor.
Qed.

(** A request for a seed of any level is refused whatever the state of the level: the
    security manager is told that there is no room for the seed. *)
Theorem seed_never_given ts1 ts2 ts request response sub s m :
  2 <= msg_length request -> byte_at request 1 = Some sub -> Z.odd sub = true ->
  wp (handle_security_access clk ts1 ts2 ts request response) (fun a s' m' => a = (UDS_RESPONSE_CONDITIONS_NOT_CORRECT, response) /\ s' = s /\ m' = m) s m.
Proof.
  intros Hl Hb Ho. unfold handle_security_access, answer. rewrite (proj2 (Z.ltb_ge _ _)) by done. apply wp_bind. eapply wp_lift_service; [exact Hb|]. cbv zeta.
  replace (Z.land sub 0x01 =? 0x01) with true.
  2:{ symmetry. change 0x01 with (Z.ones 1) at 1. rewrite Z.land_ones by lia. change (2 ^ 1) with 2. rewrite Zmod_odd, Ho. done. }
  apply wp_bind, wp_zoom. unfold wp at 1. rewrite no_room_no_seed. apply wp_ret. split_and!; [done| |done]. by destruct s.
Qed.

(** A download is started with exactly the address, the size and the format of the
    request, whatever the widths of the two numbers. *)
Theorem download_decoded sid format a l address size rest response d max s m :
  (a < 16)%nat -> (l < 16)%nat -> (1 <= a + l)%nat -> is_u32 address -> is_u32 size -> 0 <= address < 256 ^ Z.of_nat a -> 0 <= size < 256 ^ Z.of_nat l ->
  validate_memory_range limits address size = true -> msg_data response = Some d -> (2 <= length d)%nat ->
  wp Memory_Manager_GetMaxBlockSize (fun r _ _ => r = max) (sv_ext s) m ->
  (forall x m', wp (Memory_Manager_StartDownload address size format) (fun r _ _ => r = true) x m') ->
  wp (handle_request_download limits (range_request sid [format] a l address size rest) response) (fun r s' _ =>
    r = (UDS_RESPONSE_OK, mkUdsMessage (service_id response) (sub_function response)
          (Some (u8 (Z.shiftr max 8) :: Z.land max 0xFF :: drop 2 d)) 2)) s m.
Proof.
  intros Ha Hl Hal Hua Hul Hba Hbl Hv Hd Hdl Hmax Hstart. set (request := range_request _ _ _ _ _ _ _).
  destruct (format_halves a l Ha Hl) as [Hhi Hlo]. destruct (range_numbers sid [format] a l address size rest Hba Hbl Hua Hul) as [Hna Hnl].
  pose proof (range_length sid [format] a l address size rest) as Hlen. cbn [length] in Hlen, Hna, Hnl. unfold handle_request_download. fold request in Hlen, Hna, Hnl.
  rewrite Hlen, (proj2 (Z.ltb_ge _ _)) by lia. apply wp_bind. eapply (wp_lift_service _ (format_byte a l)); [done|]. cbv zeta. rewrite Hhi, Hlo.
  apply wp_bind. eapply (wp_lift_service _ format); [done|]. rewrite (proj2 (Z.ltb_ge _ _)) by lia.
  apply wp_bind. eapply wp_lift_service; [exact Hna|]. apply wp_bind. eapply wp_lift_service; [exact Hnl|]. rewrite Hv. cbn [negb].
  apply wp_bind. eapply wp_in_ext; [exact Hmax|]. intros x m1. apply wp_bind. eapply wp_in_ext; [apply Hstart|]. intros x2 m2. cbn [negb].
  destruct d as [|d0 [|d1 d]]; [cbn in Hdl; lia..|].
  apply wp_bind. eapply wp_lift_service; [unfold put_bytes; rewrite Hd; reflexivity|]. apply wp_bind. eapply wp_lift_service; [unfold put_bytes; reflexivity|].
  apply wp_ret. cbn. by rewrite drop_0.
Qed.

(** Reading memory: a request as long as its two numbers need is refused, and one with
    a byte more is answered with the bytes of exactly that range behind a first byte that
    is not set. *)
Theorem read_memory_decoded sid a l address size pad response d0 d memory s m :
  (a < 16)%nat -> (l < 16)%nat -> (2 <= a + l)%nat -> is_u32 address -> is_u32 size -> 0 <= address < 256 ^ Z.of_nat a -> 0 <= size < 256 ^ Z.of_nat l ->
  validate_memory_range limits address size = true -> msg_data response = Some (d0 :: d) -> (length memory <= length d)%nat ->
  wp (Memory_Manager_ReadMemory address size) (fun r _ _ => r = Some memory) (sv_ext s) m ->
  wp (handle_read_memory_by_address limits (range_request sid [] a l address size []) response)
    (fun r s' m' => r = (UDS_RESPONSE_INVALID_FORMAT, response) /\ s' = s /\ m' = m) s m /\
  wp (handle_read_memory_by_address limits (range_request sid [] a l address size [pad]) response)
    (fun r _ _ => r = (UDS_RESPONSE_OK, mkUdsMessage (service_id response) (sub_function response)
       (Some (d0 :: memory ++ drop (length memory) d)) (u16 (size + 1)))) s m.
Proof.
  intros Ha Hl Hal Hua Hul Hba Hbl Hv Hd Hdl Hmem. destruct (format_halves a l Ha Hl) as [Hhi Hlo]. split.
  - set (request := range_request _ _ _ _ _ _ _). pose proof (range_length sid [] a l address size []) as Hlen. cbn [length] in Hlen.
    unfold handle_read_memory_by_address, answer. fold request in Hlen. rewrite Hlen. destruct (_ <? 4); [by apply wp_ret|].
    apply wp_bind. eapply (wp_lift_service _ (format_byte a l)); [done|]. cbv zeta. rewrite Hhi, Hlo, (proj2 (Z.eqb_neq _ _)) by lia. by apply wp_ret.
  - set (request := range_request _ _ _ _ _ _ _). pose proof (range_length sid [] a l address size [pad]) as Hlen. cbn [length] in Hlen.
    destruct (range_numbers sid [] a l address size [pad] Hba Hbl Hua Hul) as [Hna Hnl]. cbn [length] in Hna, Hnl.
    unfold handle_read_memory_by_address, answer. fold request in Hlen, Hna, Hnl. rewrite Hlen, (proj2 (Z.ltb_ge _ _)) by lia.
    apply wp_bind. eapply (wp_lift_service _ (format_byte a l)); [done|]. cbv zeta. rewrite Hhi, Hlo.
    replace (Z.of_nat (2 + 0 + a + l + 1) =? Z.of_nat (3 + a + l)) with true by (symmetry; apply Z.eqb_eq; lia). cbn [negb].
    apply wp_bind. eapply wp_lift_service; [exact Hna|]. apply wp_bind. eapply wp_lift_service; [exact Hnl|]. rewrite Hv. cbn [negb].
    apply wp_bind. eapply wp_in_ext; [exact Hmem|]. intros x m'. apply wp_bind. eapply wp_lift_service.
    { unfold put_bytes. rewrite Hd. cbn [mbind option_bind]. rewrite (proj2 (Nat.leb_le _ _)) by (cbn [length]; lia). reflexivity. }
    apply wp_ret. unfold put_length. cbn. done.
Qed.

(** Without a wrap of the end the check accepts exactly the ranges inside the memory,
    not longer than a block, that lie in no protected range as a whole. *)
Theorem service_range_exact address size : 0 <= address -> 0 <= size -> address + size < 2 ^ 32 ->
  validate_memory_range limits address size = true <->
  MEMORY_START_ADDRESS limits <= address /\ address + size <= MEMORY_END_ADDRESS limits /\ size <= MAX_MEMORY_BLOCK_SIZE limits /\
  Forall (fun r => ~ (r.1 <= address /\ address + size <= r.2)) (protected_ranges limits).
Proof.
  intros Ha Hs Hw. unfold validate_memory_range, inside_protected. rewrite u32_small by (unfold is_u32; lia).
  destruct (_ || _) eqn:E.
  - split; [done|]. intros (H1 & H2 & H3 & _). repeat (apply orb_true_iff in E as [E|E]); tests; lia.
  - apply orb_false_iff in E as [E E3]. apply orb_false_iff in E as [E1 E2]. tests. rewrite negb_true_iff, <- not_true_iff_false, existsb_exists.
    rewrite Forall_forall. split.
    + intros Hn. split_and!; [done..|]. intros r Hr [H1 H2]. apply Hn. exists r. split; [by apply list_elem_of_In|]. by rewrite !(proj2 (Z.leb_le _ _)).
    + intros (_ & _ & _ & Hn) (r & Hr & Hp). apply andb_true_iff in Hp as [H1 H2]. tests. apply (Hn r); [by apply list_elem_of_In|done].
Qed.

(** The check lets protected bytes through: the range that begins one byte before a
    protected one is accepted, and so is any whose end wraps round to an address within
    the memory. *)
Theorem range_check_leaks lo hi address size :
  (MEMORY_START_ADDRESS limits < lo -> 0 < lo < hi -> lo + 1 <= MEMORY_END_ADDRESS limits < 2 ^ 32 -> 2 <= MAX_MEMORY_BLOCK_SIZE limits ->
   Forall (fun r => ~ (r.1 <= lo - 1 /\ lo + 1 <= r.2)) (protected_ranges limits) ->
   validate_memory_range limits (lo - 1) 2 = true) /\
  (MEMORY_START_ADDRESS limits <= address < 2 ^ 32 -> 2 ^ 32 <= address + size -> size <= MAX_MEMORY_BLOCK_SIZE limits -> size < 2 ^ 32 ->
   address + size - 2 ^ 32 <= MEMORY_END_ADDRESS limits -> Forall (fun r => address < r.1) (protected_ranges limits) ->
   validate_memory_range limits address size = true).
Proof.
  split.
  - intros H1 H2 H3 H4 H5. apply (service_range_exact (lo - 1) 2); [lia..|]. split_and!; [lia|lia|lia|]. eapply Forall_impl; [exact H5|]. intros r Hr [? ?]. apply Hr. lia.
  - intros H1 H2 H3 H4 H5 H6. unfold validate_memory_range, inside_protected.
    assert (Hu : u32 (address + size) = address + size - 2 ^ 32) by (unfold u32; symmetry; apply (Z.mod_unique_pos _ _ 1); lia).
    rewrite Hu, !(proj2 (Z.ltb_ge _ _)) by lia. cbn [orb]. apply negb_true_iff, not_true_iff_false. rewrite existsb_exists. intros (r & Hr & Hp).
    rewrite Forall_forall in H6. specialize (H6 r (proj2 (list_elem_of_In _ _) Hr)). apply andb_true_iff in Hp as [Hp _]. tests. lia.
Qed.

(** Control of the communication of a channel that does not exist is acknowledged,
    although no channel changes. *)
Theorem control_always_acknowledged sid ct channel control response d0 d s m :
  control_of ct = Some control -> msg_data response = Some (d0 :: d) ->
  find_key channel (channel_count (sv_comm s)) (channels (sv_comm s)) = None ->
  wp (handle_communication_control (mkUdsMessage sid 0 (Some [sid; ct; channel]) 3) response)
    (fun a s' _ => a = (UDS_RESPONSE_OK, mkUdsMessage (service_id response) (sub_function response) (Some (ct :: d)) 1) /\
       channel_states (sv_comm s') = channel_states (sv_comm s)) s m.
Proof.
  intros Hc Hd Hf. unfold handle_communication_control, answer. cbn [msg_length]. change (3 <? 3) with false. cbv iota.
  apply wp_bind. eapply (wp_lift_service _ ct); [done|]. apply wp_bind. eapply (wp_lift_service _ channel); [done|]. rewrite Hc.
  apply wp_bind, wp_zoom.
  apply (wp_mono _ (fun _ t _ => channel_states t = channel_states (sv_comm s))).
  - unfold Comm_Manager_ControlCommunication. apply wp_bind, wp_get. destruct (negb _); [by apply wp_ret|]. apply wp_bind. unfold wp at 1, enter.
    destruct (enter_critical _ _) as [k m1]. unfold find_channel_state, find_channel. apply wp_bind, wp_bind, wp_bind, wp_get, wp_ret. cbn [channels channel_count set_crit CommManager_critical setf].
    rewrite Hf. apply wp_ret, wp_bind. unfold wp, exit. destruct (exit_critical _ _) as [k2 m2]. done.
  - intros b t m' Ht. apply wp_bind. eapply wp_lift_service; [unfold put_bytes; rewrite Hd; reflexivity|]. apply wp_ret.
    split; [cbn; by rewrite drop_0|exact Ht].
Qed.
End theorems.

(** ** A bench

    A unit with a few bytes of memory and two identifiers in place of the functions the
    repository does not contain. *)

Record Bench := mkBench { bench_memory : gmap Z Z; bench_data : gmap Z (list Z); bench_download : option (Z * Z * Z) }.
#[export] Instance Bench_external : External Bench := {|
  Session_Manager_GetP2StarTimeout := mret 5000;
  Data_Manager_GetDataIdentifier did := b ← get; mret (bool_decide (is_Some (bench_data b !! did)));
  Data_Manager_ReadDataById did := b ← get; mret (bench_data b !! did);
  Data_Manager_WriteDataById did bytes := modify (fun b => mkBench (bench_memory b) (<[did := bytes]> (bench_data b)) (bench_download b));; mret true;
  Data_Manager_SavePermanentData := mret tt;
  Data_Manager_Reset := mret tt;
  Memory_Manager_GetMaxBlockSize := mret 258;
  Memory_Manager_StartDownload address size format :=
    modify (fun b => mkBench (bench_memory b) (bench_data b) (Some (address, size, format)));; mret true;
  Memory_Manager_TransferBlock _ _ := mret true;
  Memory_Manager_CompleteTransfer := mret true;
  Memory_Manager_ReadMemory address size := b ← get; mret (read_mem (bench_memory b) address (Z.to_nat size));
  Memory_Manager_Reset := mret tt;
  System_PowerDown := mret tt;
  System_PowerUp := mret tt;
  Timer_DelayMs _ := mret tt;
  System_EnableRapidPowerdown := mret true;
  System_DisableRapidPowerdown := mret true |}.
Definition bench_limits : Limits := mkLimits 0x1000 0x2000 256 64 [(0x1800, 0x1900)].
Definition bench : Bench := mkBench (list_to_map [(0x1100, 7); (0x1101, 8); (0x17FF, 1); (0x1800, 2)]) {[0xF190 := [65; 66]]} None.
(** The default session; levels 1, 2 and 3 locked. *)
Definition bench_services : Services Bench :=
  mkServices
    (mkRoutineCtx routine_manager_zero
      (mkSessionManager (mkSessionConfig 50 500 0 false false false false) (mkSessionState UDS_SESSION_DEFAULT 0 0 0 false false) timer_zero timer_zero true cs_zero))
    (mkSecurityManager security_config_zero
      ((fun l => mkEntry (mkLevel l 0 0) (mkSecurity l SECURITY_STATE_LOCKED 0 0 0 0)) <$> [1; 2; 3]) 3 0 true cs_zero)
    comm_manager_zero bench.
Lemma bench_confined : confined bench_services.
Proof. split; [reflexivity|]. repeat (apply Forall_cons; split; [by left|]). by apply Forall_nil. Qed.
Definition bench_response : UdsMessage := mkUdsMessage 0 0 (Some (replicate 8 255)) 0.
Definition ask (bytes : list Z) : UdsMessage := mkUdsMessage 0 0 (Some bytes) (Z.of_nat (length bytes)).
Definition bench_requests : list (Service * UdsMessage * UdsMessage) :=
  [(SecurityAccess 1 2 3, ask [0x27; 1], bench_response); (SecurityAccess 1 2 3, ask [0x27; 2; 1; 2; 3; 4], bench_response);
   (SessionControl, ask [0x10; 2], bench_response); (SessionControl, ask [0x10; 1], bench_response); (ReadDataById, ask [0x22; 0xF1; 0x90], bench_response)].
Definition bench_outcome : option (list (option Answer) * Services Bench * Machine) :=
  serve_all 16 bench_limits bench_requests bench_services boot.
(** Witness of [services_locked_out]: the requests are answered, those for more with refusals. *)
Lemma services_locked_out_witness :
  match bench_outcome with
  | Some (answers, s', _) => confined s' /\ answers =
      [Some (UDS_RESPONSE_CONDITIONS_NOT_CORRECT, bench_response); Some (UDS_RESPONSE_INVALID_KEY, bench_response);
       Some (UDS_RESPONSE_CONDITIONS_NOT_CORRECT, bench_response);
       Some (UDS_RESPONSE_OK, mkUdsMessage 0 0 (Some [1; 0; 50; 19; 136; 255; 255; 255]) 5);
       Some (UDS_RESPONSE_OK, mkUdsMessage 0 0 (Some [0xF1; 0x90; 65; 66; 255; 255; 255; 255]) 4)]
  | None => False
  end.
Proof.
  assert (Ha : (fun x => x.1.1) <$> bench_outcome = Some
    [Some (UDS_RESPONSE_CONDITIONS_NOT_CORRECT, bench_response); Some (UDS_RESPONSE_INVALID_KEY, bench_response);
     Some (UDS_RESPONSE_CONDITIONS_NOT_CORRECT, bench_response);
     Some (UDS_RESPONSE_OK, mkUdsMessage 0 0 (Some [1; 0; 50; 19; 136; 255; 255; 255]) 5);
     Some (UDS_RESPONSE_OK, mkUdsMessage 0 0 (Some [0xF1; 0x90; 65; 66; 255; 255; 255; 255]) 4)]) by (vm_compute; reflexivity).
  destruct bench_outcome as [[[answers s'] m']|] eqn:E; [|discriminate Ha]. split; [|by injection Ha].
  exact (proj1 (services_locked_out 16 bench_limits bench_requests bench_services boot answers s' m' bench_confined E)).
Defined.

(** Witness of [seed_never_given]. *)
Lemma seed_never_given_witness :
  wp (handle_security_access 16 1 2 3 (ask [0x27; 3]) bench_response)
    (fun a s' m' => a = (UDS_RESPONSE_CONDITIONS_NOT_CORRECT, bench_response) /\ s' = bench_services /\ m' = boot) bench_services boot.
Proof. apply (seed_never_given 16 1 2 3 (ask [0x27; 3]) bench_response 3); [cbn; lia|reflexivity|reflexivity]. Defined.

(** Witness of [download_decoded]: a three-byte address and a two-byte size. *)
Lemma download_decoded_witness :
  wp (handle_request_download bench_limits (range_request 0x34 [0x00] 3 2 0x1234 0x80 []) bench_response)
    (fun r _ _ => r = (UDS_RESPONSE_OK, mkUdsMessage 0 0 (Some [1; 2; 255; 255; 255; 255; 255; 255]) 2)) bench_services boot.
Proof.
  apply (download_decoded bench_limits 0x34 0x00 3 2 0x1234 0x80 [] bench_response (replicate 8 255) 258);
    try (unfold is_u32; cbn; lia); try reflexivity.
Defined.

(** Witness of [read_memory_decoded]. *)
Lemma read_memory_decoded_witness :
  wp (handle_read_memory_by_address bench_limits (range_request 0x23 [] 2 1 0x1100 2 []) bench_response)
    (fun r s' m' => r = (UDS_RESPONSE_INVALID_FORMAT, bench_response) /\ s' = bench_services /\ m' = boot) bench_services boot /\
  wp (handle_read_memory_by_address bench_limits (range_request 0x23 [] 2 1 0x1100 2 [0]) bench_response)
    (fun r _ _ => r = (UDS_RESPONSE_OK, mkUdsMessage 0 0 (Some [255; 7; 8; 255; 255; 255; 255; 255]) 3)) bench_services boot.
Proof.
  apply (read_memory_decoded bench_limits 0x23 2 1 0x1100 2 0 bench_response 255 (replicate 7 255) [7; 8]);
    try (unfold is_u32; cbn; lia); try reflexivity.
Defined.

(** Witness of [service_range_exact]. *)
Lemma service_range_exact_witness : validate_memory_range bench_limits 0x1100 2 = true /\ validate_memory_range bench_limits 0x1800 2 = false.
Proof.
  split.
  - apply (service_range_exact bench_limits 0x1100 2); [lia..|]. split_and!; [cbn; lia..|]. apply Forall_singleton. cbn. lia.
  - apply not_true_iff_false. intros Hv. apply (service_range_exact bench_limits 0x1800 2) in Hv; [|lia..]. destruct Hv as (_ & _ & _ & Hv).
    apply Forall_cons in Hv as [Hv _]. apply Hv. cbn. lia.
Defined.

(** Witness of [range_check_leaks]: a byte below a protected range together with its first
    one, and 256 bytes from the last address on, with a memory that begins at 0. *)
Lemma range_check_leaks_witness :
  validate_memory_range bench_limits 0x17FF 2 = true /\ validate_memory_range (mkLimits 0x1000 0x2000 256 64 []) (2 ^ 32 - 1) 256 = true.
Proof.
  split.
  - apply (proj1 (range_check_leaks bench_limits 0x1800 0x1900 0 0)); cbn; try lia. apply Forall_singleton. cbn. lia.
  - apply (proj2 (range_check_leaks (mkLimits 0x1000 0x2000 256 64 []) 0 0 (2 ^ 32 - 1) 256)); cbn; try lia. by apply Forall_nil.
Defined.

(** Witness of [control_always_acknowledged]. *)
Lemma control_always_acknowledged_witness :
  wp (handle_communication_control (mkUdsMessage 0x28 0 (Some [0x28; 3; 9]) 3) bench_response)
    (fun a s' _ => a = (UDS_RESPONSE_OK, mkUdsMessage 0 0 (Some (3 :: replicate 7 255)) 1) /\
       channel_states (sv_comm s') = channel_states (sv_comm bench_services)) bench_services boot.
Proof. apply (control_always_acknowledged 0x28 3 9 COMM_CONTROL_DISABLE_RX_TX bench_response 255 (replicate 7 255)); reflexivity. Defined.
