(* ===== verification/PerfMonitor.v ===== *)
(** * Performance metrics

    [diagnostic/performance/perf_monitor.c]: current value, minimum, maximum, running
    average and violations of five metrics with a ring of their last values, under the
    process-wide mutex of [Mutex.v].  The average is that of [Averages.v]; [perf_clock] is
    what [Timer_GetMilliseconds] returns; [available] says which of the allocations of
    [Perf_Init] succeed and [live_buffers] counts the buffers that are allocated.
    [calculate_metric_trend] is in no file of the repository and a parameter. *)

From S2P Require Import Prelude Machine Mutex Averages.

Definition PERF_METRIC_CPU_USAGE : nat := 0.
Definition PERF_METRIC_MEMORY_USAGE : nat := 1.
Definition PERF_METRIC_RESPONSE_TIME : nat := 2.
Definition PERF_METRIC_QUEUE_LENGTH : nat := 3.
Definition PERF_METRIC_ERROR_RATE : nat := 4.
Definition PERF_METRIC_COUNT : nat := 5.
Definition MAX_HISTORY_ENTRIES : nat := 1000.

Record PerfStats := mkPerfStats {
  current_value : Z; min_value : Z; max_value : Z; avg_value : Z; total_samples : Z; threshold_violations : Z }.
#[export] Instance eta_PerfStats : Eta PerfStats := fun t =>
  mkPerfStats (current_value t) (min_value t) (max_value t) (avg_value t) (total_samples t) (threshold_violations t).
Record PerfConfig := mkPerfConfig {
  sampling_interval_ms : Z; warning_thresholds : list Z; error_thresholds : list Z; enable_logging : bool; max_history_size : nat }.
Record MetricHistoryEntry := mkHistoryEntry { timestamp : Z; value : Z }.
(** [history] is [None] for NULL; a slot never written is [None]. *)
Record MetricData := mkMetricData {
  stats : PerfStats; history : option (list (option MetricHistoryEntry)); history_size : nat; history_index : nat }.
#[export] Instance eta_MetricData : Eta MetricData := fun d =>
  mkMetricData (stats d) (history d) (history_size d) (history_index d).
(** [perf_monitor], the mutex, the logger, the clock and the allocated buffers. *)
Record PerfMonitor := mkPerf {
  config : PerfConfig; metrics : list MetricData; last_process_time : Z; initialized : bool;
  perf_mutex : bool; perf_logger : option LogLevel; perf_clock : Z; live_buffers : nat }.
#[export] Instance eta_PerfMonitor : Eta PerfMonitor := fun s =>
  mkPerf (config s) (metrics s) (last_process_time s) (initialized s) (perf_mutex s) (perf_logger s) (perf_clock s) (live_buffers s).
#[export, refine] Instance PerfMonitor_mutex : HasMutex PerfMonitor :=
  {| locked := perf_mutex; set_locked b s := s <| perf_mutex := b |>; log_min := perf_logger |}.
Proof. all: by intros; destruct s. Defined.

Definition stats_zero : PerfStats := mkPerfStats 0 0 0 0 0 0.
(** [memset(&perf_monitor, 0, ...)]. *)
Definition perf_clear (s : PerfMonitor) : PerfMonitor :=
  s <| config := mkPerfConfig 0 (replicate PERF_METRIC_COUNT 0) (replicate PERF_METRIC_COUNT 0) false 0 |>
    <| metrics := replicate PERF_METRIC_COUNT (mkMetricData stats_zero None 0 0) |> <| last_process_time := 0 |> <| initialized := false |>.
Definition lift {A} (o : option A) : M PerfMonitor A := match o with Some a => mret a | None => fault end.

Definition Perf_Deinit : M PerfMonitor unit :=
  s ← get;
  if negb (initialized s) then mret tt else
  modify (fun s => s <| live_buffers ::= fun n => (n - length (filter (fun d => is_Some (history d)) (metrics s)))%nat |>);;
  Logger_Log LOG_LEVEL_INFO;;
  modify perf_clear.

Section init.
Context (available : nat -> bool).

(** The loop over the metrics; it ends early when an allocation fails. *)
Fixpoint allocate_loop (size n i : nat) : M PerfMonitor bool :=
  match n with
  | O => mret true
  | S n =>
      if negb (available i) then mret false else
      modify (fun s => s <| live_buffers ::= S |>
        <| metrics ::= alter (fun d => d <| history := Some (replicate size None) |> <| history_size := size |>
                                         <| stats ::= fun t => t <| min_value := UINT32_MAX |> |>) i |>);;
      allocate_loop size n (S i)
  end.
Definition Perf_Init (cfg : option PerfConfig) : M PerfMonitor bool :=
  match cfg with
  | None => mret false
  | Some cfg =>
      modify perf_clear;;
      modify (fun s => s <| config := cfg |>);;
      let size := if (MAX_HISTORY_ENTRIES <? max_history_size cfg)%nat then MAX_HISTORY_ENTRIES else max_history_size cfg in
      ok ← allocate_loop size PERF_METRIC_COUNT 0;
      if negb ok then Perf_Deinit;; mret false else
      modify (fun s => s <| last_process_time := perf_clock s |> <| initialized := true |>);;
      Logger_Log LOG_LEVEL_INFO;;
      mret true
  end.
End init.

(** The history with one more entry; the index is reduced modulo the size. *)
Definition push_history (now v : Z) (d : MetricData) : option MetricData :=
  h ← history d;
  if negb (history_index d <? length h)%nat || (history_size d =? 0)%nat then None else
  Some (d <| history := Some (<[history_index d := Some (mkHistoryEntry now v)]> h) |>
          <| history_index := ((history_index d + 1) mod history_size d)%nat |>).
Definition add_value (v : Z) (t : PerfStats) : option PerfStats :=
  let t := if v <? min_value t then t <| min_value := v |> else t in
  let t := if max_value t <? v then t <| max_value := v |> else t in
  let t := t <| total_samples ::= fun n => u32 (n + 1) |> in
  avg ← average_step (avg_value t) (total_samples t) v;
  Some (t <| avg_value := avg |>).
Definition set_metric (i : nat) (d : MetricData) : M PerfMonitor unit := modify (fun s => s <| metrics ::= <[i := d]> |>).
Definition check_thresholds (metric : nat) (v : Z) (d : MetricData) : M PerfMonitor unit :=
  s ← get;
  error ← lift (error_thresholds (config s) !! metric);
  if error <? v then
    set_metric metric (d <| stats ::= fun t => t <| threshold_violations ::= fun n => u32 (n + 1) |> |>);;
    (if enable_logging (config s) then Logger_Log LOG_LEVEL_ERROR else mret tt)
  else
  warning ← lift (warning_thresholds (config s) !! metric);
  if warning <? v then (if enable_logging (config s) then Logger_Log LOG_LEVEL_WARNING else mret tt) else mret tt.
Definition Perf_UpdateMetric (metric : nat) (v : Z) : M PerfMonitor unit :=
  s ← get;
  if negb (initialized s) || (PERF_METRIC_COUNT <=? metric)%nat then mret tt else
  lock;;
  d ← lift (metrics s !! metric);
  d ← lift (push_history (perf_clock s) v (d <| stats ::= fun t => t <| current_value := v |> |>));
  t ← lift (add_value v (stats d));
  set_metric metric (d <| stats := t |>);;
  check_thresholds metric v (d <| stats := t |>);;
  unlock.

Definition Perf_GetStats (metric : nat) : M PerfMonitor (option PerfStats) :=
  s ← get;
  if negb (initialized s) || (PERF_METRIC_COUNT <=? metric)%nat then mret None else
  lock;;
  d ← lift (metrics s !! metric);
  unlock;;
  mret (Some (stats d)).
(** The entries of the history stay. *)
Definition Perf_ResetStats (metric : nat) : M PerfMonitor unit :=
  s ← get;
  if negb (initialized s) || (PERF_METRIC_COUNT <=? metric)%nat then mret tt else
  lock;;
  d ← lift (metrics s !! metric);
  set_metric metric (d <| stats := stats_zero <| min_value := UINT32_MAX |> |> <| history_index := 0%nat |>);;
  unlock.

Section poll.
Context (calculate_metric_trend : MetricData -> Z).

Fixpoint trend_loop (n i : nat) : M PerfMonitor unit :=
  match n with
  | O => mret tt
  | S n =>
      s ← get;
      d ← lift (metrics s !! i);
      warning ← lift (warning_thresholds (config s) !! i);
      (if warning <? calculate_metric_trend d then Logger_Log LOG_LEVEL_WARNING else mret tt);;
      trend_loop n (S i)
  end.
Definition Perf_ProcessMetrics : M PerfMonitor unit :=
  s ← get;
  if negb (initialized s) then mret tt else
  if u32 (perf_clock s - last_process_time s) <? sampling_interval_ms (config s) then mret tt else
  lock;;
  modify (fun s' => s' <| last_process_time := perf_clock s |>);;
  trend_loop PERF_METRIC_COUNT 0;;
  unlock.
End poll.

(** ** What is recorded

    The abstract state of a metric: the values since the last reset with their times. *)

Definition summary (error : Z) (l : list MetricHistoryEntry) (avg : Z) : PerfStats :=
  let vs := value <$> l in
  mkPerfStats (from_option value 0 (last l)) (foldr Z.min UINT32_MAX vs) (foldr Z.max 0 vs) avg (Z.of_nat (length l))
    (Z.of_nat (length (filter (fun v => error < v) vs))).
(** The ring holds the newest entries. *)
Definition in_ring (d : MetricData) (l : list MetricHistoryEntry) : Prop :=
  exists h, history d = Some h /\ length h = history_size d /\ forall j e, l !! j = Some e -> (length l <= j + history_size d)%nat ->
    h !! (j mod history_size d)%nat = Some (Some e).
Record recorded (error : Z) (d : MetricData) (l : list MetricHistoryEntry) : Prop := {
  rc_size : (0 < history_size d <= MAX_HISTORY_ENTRIES)%nat;
  rc_index : history_index d = (length l mod history_size d)%nat;
  rc_ring : in_ring d l;
  rc_stats : exists avg, average (value <$> l) = Some avg /\ stats d = summary error l avg }.
Record perf_wf (s : PerfMonitor) (ls : list (list MetricHistoryEntry)) : Prop := {
  pw_free : perf_mutex s = false; pw_init : initialized s = true;
  pw_lengths : length ls = PERF_METRIC_COUNT /\ length (metrics s) = PERF_METRIC_COUNT;
  pw_thresholds : length (warning_thresholds (config s)) = PERF_METRIC_COUNT /\ length (error_thresholds (config s)) = PERF_METRIC_COUNT;
  pw_recorded : forall i d l error, metrics s !! i = Some d -> ls !! i = Some l -> error_thresholds (config s) !! i = Some error -> recorded error d l }.

(** A trend that follows the value. *)
Definition current_of (d : MetricData) : Z := current_value (stats d).
Inductive PerfOp := OpUpdate (metric : nat) (v : Z) | OpReset (metric : nat) | OpElapse (ms : Z) | OpPoll (trend : MetricData -> Z).
Definition perf_exec (op : PerfOp) : M PerfMonitor unit :=
  match op with
  | OpUpdate metric v => Perf_UpdateMetric metric v
  | OpReset metric => Perf_ResetStats metric
  | OpElapse ms => modify (fun s => s <| perf_clock ::= fun t => u32 (t + ms) |>)
  | OpPoll trend => Perf_ProcessMetrics trend
  end.
Definition perf_spec (now : Z) (op : PerfOp) (ls : list (list MetricHistoryEntry)) : list (list MetricHistoryEntry) :=
  match op with
  | OpUpdate metric v => alter (fun l => l ++ [mkHistoryEntry now v]) metric ls
  | OpReset metric => alter (fun _ => []) metric ls
  | _ => ls
  end.

(** ** The operations *)

Lemma wp_lift_perf {A} (o : option A) a Q s m : o = Some a -> Q a s m -> wp (lift o) Q s m.
Proof. by intros ->. Qed.
Lemma perf_unlocked s : perf_mutex s = false -> set_locked false (set_locked true s) = s.
Proof. intros Hf. destruct s. cbn in *. by subst. Qed.
Lemma quiet_below_error (o : option LogLevel) : logs o LOG_LEVEL_ERROR = false -> logs o LOG_LEVEL_WARNING = false.
Proof. by destruct o as [[]|]. Qed.
(** A valid metric has its parts. *)
Lemma perf_metric s ls i : perf_wf s ls -> (i < PERF_METRIC_COUNT)%nat -> exists d l error warning,
  metrics s !! i = Some d /\ ls !! i = Some l /\ error_thresholds (config s) !! i = Some error /\
  warning_thresholds (config s) !! i = Some warning /\ recorded error d l.
Proof.
  intros Hw Hi. destruct (pw_lengths _ _ Hw) as [L1 L2]. destruct (pw_thresholds _ _ Hw) as [L3 L4].
  destruct (lookup_lt_is_Some_2 (metrics s) i) as [d Hd]; [lia|]. destruct (lookup_lt_is_Some_2 ls i) as [l Hl]; [lia|].
  destruct (lookup_lt_is_Some_2 (error_thresholds (config s)) i) as [e He]; [lia|].
  destruct (lookup_lt_is_Some_2 (warning_thresholds (config s)) i) as [w Hwt]; [lia|].
  exists d, l, e, w. split_and!; try done. by eapply pw_recorded.
Qed.
(** One metric changes, the others stay. *)
Lemma perf_update i d l s s' ls : perf_wf s ls -> config s' = config s -> initialized s' = true -> perf_mutex s' = false ->
  metrics s' = <[i := d]> (metrics s) -> (forall error, error_thresholds (config s) !! i = Some error -> recorded error d l) ->
  perf_wf s' (<[i := l]> ls).
Proof.
  intros Hw Hc Hi Hf Hm Hr. destruct (pw_lengths _ _ Hw) as [L1 L2]. constructor; [done|done|by rewrite Hm, !length_insert|by rewrite Hc; apply Hw|].
  intros j dj lj error. rewrite Hm, Hc. destruct (decide (i = j)) as [<-|Hne].
  - intros [(_ & <- & _)|[? _]]%list_lookup_insert_Some; [|done]. intros [(_ & <- & _)|[? _]]%list_lookup_insert_Some; [|done]. apply Hr.
  - rewrite !list_lookup_insert_ne by done. apply Hw.
Qed.

(** The ring and the statistics after one more value. *)
Lemma push_recorded error d l now v cv : recorded error d l ->
  exists d', push_history now v (d <| stats ::= fun t => t <| current_value := cv |> |>) = Some d' /\
    stats d' = (stats d) <| current_value := cv |> /\ history_size d' = history_size d /\
    history_index d' = (length (l ++ [mkHistoryEntry now v]) mod history_size d)%nat /\ in_ring d' (l ++ [mkHistoryEntry now v]).
Proof.
  intros [Hs Hi (h & Hh & Hl & Hr) _]. unfold push_history. cbn. rewrite Hh. cbn.
  pose proof (Nat.mod_upper_bound (length l) (history_size d) ltac:(lia)) as Hlt.
  rewrite Hi, Hl, (proj2 (Nat.ltb_lt _ _)), (proj2 (Nat.eqb_neq _ _)) by lia. cbn. eexists. split; [done|]. cbn.
  split_and!; [done|done| |].
  - rewrite length_app. cbn [length]. apply Nat.Div0.add_mod_idemp_l.
  - eexists. split; [done|]. split; [by rewrite length_insert|]. cbn. intros j e He Hj.
    rewrite <- (length_fmap Some). apply ring_push; [lia| |change [Some (mkHistoryEntry now v)] with (Some <$> [mkHistoryEntry now v]); by rewrite <- fmap_app, list_lookup_fmap, He|].
    + intros i x. rewrite list_lookup_fmap, length_fmap. intros (e' & He' & ->)%fmap_Some Hij. by apply Hr.
    + rewrite length_app, length_fmap in *. exact Hj.
Qed.
Lemma add_value_summary error l now v avg t : average (value <$> l) = Some avg -> Z.of_nat (S (length l)) < 2 ^ 32 ->
  t = (summary error l avg) <| current_value := v |> ->
  exists avg', average (value <$> l ++ [mkHistoryEntry now v]) = Some avg' /\
    add_value v t = Some ((summary error (l ++ [mkHistoryEntry now v]) avg') <| threshold_violations := threshold_violations (summary error l avg) |>).
Proof.
  intros Ha Hn ->. rewrite fmap_app. cbn [fmap list_fmap value]. rewrite average_snoc, Ha, length_fmap. cbn [mbind option_bind].
  assert (Hc : u32 (Z.of_nat (length l) + 1) = Z.of_nat (length l) + 1) by (apply u32_small; unfold is_u32; lia).
  destruct (average_step avg (Z.of_nat (length l) + 1) v) as [b|] eqn:Eb.
  2:{ unfold average_step in Eb. by rewrite (proj2 (Z.eqb_neq _ _)) in Eb by lia. }
  exists b. split; [done|]. unfold add_value, summary. rewrite fmap_app, last_snoc, length_app. cbn [fmap list_fmap value length from_option].
  rewrite foldr_min_snoc, foldr_max_snoc. set (vs := value <$> l). set (mn := foldr Z.min _ _). set (mx := foldr Z.max _ _).
  cbn [current_value min_value max_value avg_value total_samples threshold_violations setf].
  replace (if v <? mn then _ else _) with ((summary error l avg) <| current_value := v |> <| min_value := Z.min mn v |>).
  2:{ destruct (v <? mn) eqn:E; tests; unfold summary; cbn; fold vs mn mx; f_equal; lia. }
  replace (if max_value _ <? v then _ else _)
    with ((summary error l avg) <| current_value := v |> <| min_value := Z.min mn v |> <| max_value := Z.max mx v |>).
  2:{ cbn. fold vs mn mx. destruct (mx <? v) eqn:E; tests; unfold summary; cbn; fold vs mn mx; f_equal; lia. }
  cbn [summary total_samples avg_value setf current_value min_value max_value threshold_violations]. rewrite Hc, Eb. cbn. do 2 f_equal. lia.
Qed.
(** The violation is counted last. *)
Definition violated (error v : Z) (d : MetricData) : MetricData :=
  if error <? v then d <| stats ::= fun t => t <| threshold_violations ::= fun n => u32 (n + 1) |> |> else d.
Lemma violated_recorded error d d1 l now v avg : recorded error d l -> Z.of_nat (S (length l)) < 2 ^ 32 ->
  let l' := l ++ [mkHistoryEntry now v] in
  history_size d1 = history_size d -> history_index d1 = (length l' mod history_size d)%nat -> in_ring d1 l' ->
  average (value <$> l') = Some avg ->
  stats d1 = (summary error l' avg) <| threshold_violations := threshold_violations (summary error l 0) |> ->
  recorded error (violated error v d1) l'.
Proof.
  intros Hr Hn l' Hs Hi Hg Ha Ht.
  assert (Hparts : history_size (violated error v d1) = history_size d1 /\ history_index (violated error v d1) = history_index d1 /\
    history (violated error v d1) = history d1) by (unfold violated; by destruct (_ <? _)).
  destruct Hparts as (E1 & E2 & E3). constructor.
  - rewrite E1, Hs. apply Hr.
  - by rewrite E2, E1, Hs.
  - unfold in_ring. by rewrite E1, E3.
  - exists avg. split; [done|]. unfold l', violated, summary in *. rewrite fmap_app, filter_app, !length_app in *. cbn [fmap list_fmap value length] in *.
    assert (Hv : Z.of_nat (length (filter (fun v => error < v) (value <$> l))) <= Z.of_nat (length l))
      by (rewrite <- (length_fmap value l); apply Nat2Z.inj_le, length_filter).
    destruct (_ <? _) eqn:E; tests; cbn [stats setf]; rewrite Ht; cbn; [rewrite decide_True by done|rewrite decide_False by lia]; cbn [length]; f_equal; [|lia].
    rewrite u32_small by (unfold is_u32; lia). lia.
Qed.
Lemma thresholds_quiet i v d error warning (Q : unit -> PerfMonitor -> Machine -> Prop) s m :
  error_thresholds (config s) !! i = Some error -> warning_thresholds (config s) !! i = Some warning ->
  enable_logging (config s) = false \/ logs (perf_logger s) LOG_LEVEL_ERROR = false ->
  Q tt (if error <? v then s <| metrics ::= <[i := violated error v d]> |> else s) m -> wp (check_thresholds i v d) Q s m.
Proof.
  intros He Hwt Hq HQ. unfold check_thresholds. apply wp_bind, wp_get, wp_bind. eapply wp_lift_perf; [done|]. unfold violated in HQ. destruct (error <? v).
  - apply wp_bind, wp_modify. destruct (enable_logging (config s)) eqn:El; [|by apply wp_ret].
    destruct Hq as [|Hq]; [done|]. by apply wp_log_silent.
  - apply wp_bind. eapply wp_lift_perf; [done|]. destruct (_ <? _); [|by apply wp_ret].
    destruct (enable_logging (config s)) eqn:El; [|by apply wp_ret]. destruct Hq as [|Hq]; [done|]. by apply wp_log_silent; [apply quiet_below_error|].
Qed.

(** An update up to the thresholds. *)
Lemma update_until_thresholds i v (Q : unit -> PerfMonitor -> Machine -> Prop) s m ls l : perf_wf s ls -> ls !! i = Some l ->
  Z.of_nat (S (length l)) < 2 ^ 32 ->
  (forall d error, error_thresholds (config s) !! i = Some error -> recorded error (violated error v d) (l ++ [mkHistoryEntry (perf_clock s) v]) ->
    wp (check_thresholds i v d;; unlock) Q (s <| perf_mutex := true |> <| metrics ::= <[i := d]> |>) m) ->
  wp (Perf_UpdateMetric i v) Q s m.
Proof.
  intros Hw Hl Hn HQ. assert (Hi : (i < PERF_METRIC_COUNT)%nat).
  { destruct (pw_lengths _ _ Hw) as [<- _]. by eapply lookup_lt_Some. }
  destruct (perf_metric s ls i Hw Hi) as (d & l' & error & warning & Hd & Hl' & He & Hwt & Hr). replace l' with l in * by congruence.
  unfold Perf_UpdateMetric. apply wp_bind, wp_get. rewrite (pw_init _ _ Hw), (proj2 (Nat.leb_gt _ _)) by done. cbn [negb orb].
  apply wp_bind, wp_lock_free; [apply Hw|]. apply wp_bind. eapply wp_lift_perf; [exact Hd|].
  destruct (push_recorded error d l (perf_clock s) v v Hr) as (d' & Hp & Ht & Hs & Hx & Hg). apply wp_bind. eapply wp_lift_perf; [exact Hp|].
  destruct (rc_stats _ _ _ Hr) as (avg & Ha & Hst). rewrite Hst in Ht.
  destruct (add_value_summary error l (perf_clock s) v avg _ Ha Hn Ht) as (avg' & Ha' & Hadd). apply wp_bind. eapply wp_lift_perf; [exact Hadd|].
  apply wp_bind, wp_modify. apply (HQ _ error); [done|]. eapply (violated_recorded error d _ l _ v avg'); [done|done|done|done|done|done|done].
Qed.

(** What has room for another value in every metric, and a logger that keeps silent. *)
Definition step_ok (op : PerfOp) (ls : list (list MetricHistoryEntry)) : Prop :=
  match op with OpUpdate i _ => forall l, ls !! i = Some l -> Z.of_nat (S (length l)) < 2 ^ 32 | _ => True end.
Definition perf_post (op : PerfOp) s (m : Machine) ls (_ : unit) s' (m' : Machine) : Prop :=
  m' = m /\ config s' = config s /\ perf_logger s' = perf_logger s /\
  perf_clock s' = (match op with OpElapse ms => u32 (perf_clock s + ms) | _ => perf_clock s end) /\
  perf_wf s' (perf_spec (perf_clock s) op ls).

Lemma update_ok i v s m ls : perf_wf s ls -> logs (perf_logger s) LOG_LEVEL_ERROR = false -> step_ok (OpUpdate i v) ls ->
  wp (perf_exec (OpUpdate i v)) (perf_post (OpUpdate i v) s m ls) s m.
Proof.
  intros Hw Hq Hok. cbn [perf_exec]. unfold perf_post, perf_spec. destruct (ls !! i) as [l|] eqn:Hl.
  2:{ apply lookup_ge_None in Hl. destruct (pw_lengths _ _ Hw) as [L1 _]. unfold Perf_UpdateMetric. apply wp_bind, wp_get.
      rewrite (pw_init _ _ Hw), (proj2 (Nat.leb_le _ _)) by lia. apply wp_ret. rewrite alter_beyond by done. by split_and!. }
  eapply update_until_thresholds; [done|done|by apply Hok|]. intros d error He Hr.
  assert (Hi : (i < PERF_METRIC_COUNT)%nat) by (destruct (pw_lengths _ _ Hw) as [<- _]; by eapply lookup_lt_Some).
  destruct (perf_metric s ls i Hw Hi) as (_ & _ & _ & warning & _ & _ & _ & Hwt & _).
  apply wp_bind. eapply thresholds_quiet; [exact He|exact Hwt|by right|]. apply wp_unlock_held; [by destruct (_ <? _)|].
  replace (alter _ i ls) with (<[i := l ++ [mkHistoryEntry (perf_clock s) v]]> ls)
    by (symmetry; by apply (alter_as_insert (fun l => l ++ [mkHistoryEntry (perf_clock s) v]))).
  assert (Hm : forall e', error_thresholds (config s) !! i = Some e' -> recorded e' (violated error v d) (l ++ [mkHistoryEntry (perf_clock s) v])).
  { intros e' He'. by replace e' with error by congruence. }
  unfold violated in *. destruct (error <? v); (split_and!; [done..|]); eapply (perf_update i _ _ s); try done; try apply Hw.
  cbn. by rewrite list_insert_insert_eq.
Qed.
Lemma metric_reset_ok i s m ls : perf_wf s ls -> wp (perf_exec (OpReset i)) (perf_post (OpReset i) s m ls) s m.
Proof.
  intros Hw. cbn [perf_exec]. unfold Perf_ResetStats, perf_post, perf_spec. apply wp_bind, wp_get. rewrite (pw_init _ _ Hw). cbn [negb orb].
  destruct (_ <=? i)%nat eqn:E; tests.
  { apply wp_ret. destruct (pw_lengths _ _ Hw) as [L1 _]. rewrite alter_beyond by lia. by split_and!. }
  destruct (perf_metric s ls i Hw) as (d & l & error & warning & Hd & Hl & He & Hwt & Hr); [done|].
  apply wp_bind, wp_lock_free; [apply Hw|]. apply wp_bind. eapply wp_lift_perf; [exact Hd|]. apply wp_bind, wp_modify, wp_unlock_held; [done|].
  split_and!; [done..|]. rewrite (alter_as_insert _ _ _ _ Hl). eapply (perf_update i _ _ s); try done; try apply Hw.
  intros e' _. destruct (rc_ring _ _ _ Hr) as (h & Hh & Hlen & _). constructor; cbn; [apply Hr|by rewrite Nat.Div0.mod_0_l|by exists h|by exists 0].
Qed.
(** The poll looks at the metrics one by one. *)
Lemma trend_loop_quiet trend n i (Q : unit -> PerfMonitor -> Machine -> Prop) s m : (i + n <= length (metrics s))%nat ->
  (i + n <= length (warning_thresholds (config s)))%nat -> logs (perf_logger s) LOG_LEVEL_WARNING = false -> Q tt s m -> wp (trend_loop trend n i) Q s m.
Proof.
  revert i. induction n as [|n IH]; intros i H1 H2 Hq HQ; cbn [trend_loop]; [by apply wp_ret|]. apply wp_bind, wp_get.
  destruct (lookup_lt_is_Some_2 (metrics s) i) as [d Hd]; [lia|]. destruct (lookup_lt_is_Some_2 (warning_thresholds (config s)) i) as [w Hw]; [lia|].
  apply wp_bind. eapply wp_lift_perf; [exact Hd|]. apply wp_bind. eapply wp_lift_perf; [exact Hw|]. apply wp_bind.
  destruct (_ <? _); [apply wp_log_silent; [done|]|apply wp_ret]; apply IH; try done; lia.
Qed.
Lemma metric_poll_ok trend s m ls : perf_wf s ls -> logs (perf_logger s) LOG_LEVEL_ERROR = false -> wp (perf_exec (OpPoll trend)) (perf_post (OpPoll trend) s m ls) s m.
Proof.
  intros Hw Hq. cbn [perf_exec]. unfold Perf_ProcessMetrics, perf_post, perf_spec. apply wp_bind, wp_get. rewrite (pw_init _ _ Hw). cbn [negb].
  destruct (_ <? _); [by apply wp_ret|]. apply wp_bind, wp_lock_free; [apply Hw|]. apply wp_bind, wp_modify, wp_bind.
  destruct (pw_lengths _ _ Hw) as [L1 L2]. destruct (pw_thresholds _ _ Hw) as [L3 L4].
  apply trend_loop_quiet; [cbn; lia|cbn; lia|by apply quiet_below_error|]. apply wp_unlock_held; [done|]. split_and!; [done..|].
  destruct Hw. by constructor.
Qed.
Lemma perf_op_ok op s m ls : perf_wf s ls -> logs (perf_logger s) LOG_LEVEL_ERROR = false -> step_ok op ls -> wp (perf_exec op) (perf_post op s m ls) s m.
Proof.
  intros Hw Hq Hok. destruct op; [by apply update_ok|by apply metric_reset_ok| |by apply metric_poll_ok].
  apply wp_modify. split_and!; [done..|]. by destruct Hw.
Qed.

(** ** Runs *)

Fixpoint perf_run (ops : list PerfOp) : M PerfMonitor unit :=
  match ops with [] => mret tt | op :: ops => perf_exec op;; perf_run ops end.
Definition clock_after (now : Z) (op : PerfOp) : Z := match op with OpElapse ms => u32 (now + ms) | _ => now end.
Fixpoint recorded_run (now : Z) (ops : list PerfOp) (ls : list (list MetricHistoryEntry)) : list (list MetricHistoryEntry) :=
  match ops with [] => ls | op :: ops => recorded_run (clock_after now op) ops (perf_spec now op ls) end.
Fixpoint run_ok (now : Z) (ops : list PerfOp) (ls : list (list MetricHistoryEntry)) : Prop :=
  match ops with [] => True | op :: ops => step_ok op ls /\ run_ok (clock_after now op) ops (perf_spec now op ls) end.
Lemma perf_run_ok ops s m ls : perf_wf s ls -> logs (perf_logger s) LOG_LEVEL_ERROR = false -> run_ok (perf_clock s) ops ls ->
  wp (perf_run ops) (fun _ s' m' => m' = m /\ config s' = config s /\ perf_wf s' (recorded_run (perf_clock s) ops ls)) s m.
Proof.
  revert s m ls. induction ops as [|op ops IH]; intros s m ls Hw Hq Hok; cbn [perf_run]; [by apply wp_ret|].
  destruct Hok as [Hop Hok]. apply wp_bind. eapply wp_mono; [by apply (perf_op_ok op s m ls)|]. intros [] s1 m1 (-> & Hc & Hlg & Hcl & Hw1).
  assert (Hcl' : perf_clock s1 = clock_after (perf_clock s) op) by (rewrite Hcl; by destruct op).
  eapply wp_mono; [apply (IH s1 m _ Hw1); [by rewrite Hlg|by rewrite Hcl']|]. intros [] s2 m2 (-> & Hc2 & Hw2).
  split_and!; [done|congruence|]. cbn [recorded_run]. by rewrite <- Hcl'.
Qed.

(** ** Allocation *)

(** The first metric whose buffer is refused. *)
Definition first_refused (available : nat -> bool) : option nat :=
  fst <$> list_find (fun i => available i = false) (seq 0 PERF_METRIC_COUNT).
(** The buffers of the first [k] metrics are there, the others are not. *)
Definition allocated (size k : nat) (s : PerfMonitor) : Prop :=
  length (metrics s) = PERF_METRIC_COUNT /\
  forall i d, metrics s !! i = Some d -> d = if decide (i < k)%nat
    then mkMetricData (stats_zero <| min_value := UINT32_MAX |>) (Some (replicate size None)) size 0 else mkMetricData stats_zero None 0 0.
Lemma allocate_loop_spec available size n i s m : (i + n = PERF_METRIC_COUNT)%nat -> allocated size i s ->
  wp (allocate_loop available size n i) (fun ok s' m' => m' = m /\ config s' = config s /\ initialized s' = initialized s /\ perf_mutex s' = perf_mutex s /\
    perf_logger s' = perf_logger s /\
    exists k, (i <= k <= PERF_METRIC_COUNT)%nat /\ allocated size k s' /\ live_buffers s' = (live_buffers s + (k - i))%nat /\ ok = bool_decide (k = PERF_METRIC_COUNT) /\
      (forall j, (i <= j < k)%nat -> available j = true) /\ (k < PERF_METRIC_COUNT -> available k = false)%nat) s m.
Proof.
  revert i s. induction n as [|n IH]; intros i s Hin Ha; cbn [allocate_loop].
  - apply wp_ret. split_and!; [done..|]. exists i. assert (i = PERF_METRIC_COUNT) as -> by lia. split_and!; [lia|lia|done|lia|done|lia|lia].
  - destruct (available i) eqn:Ei; cbn [negb].
    + apply wp_bind, wp_modify. eapply wp_mono; [apply IH; [lia|]|].
      * destruct Ha as [Hl Ha]. split; [cbn; by rewrite length_alter|]. intros j d. cbn. destruct (decide (j = i)) as [->|Hne].
        -- rewrite list_lookup_alter_eq. destruct (metrics s !! i) as [d0|] eqn:Ed; [|done]. cbn. intros [= <-]. rewrite (Ha i d0 Ed).
           rewrite decide_False, decide_True by lia. done.
        -- rewrite list_lookup_alter_ne by done. intros Hd. rewrite (Ha j d Hd). destruct (decide (j < i)%nat), (decide (j < S i)%nat); try done; lia.
      * intros ok s' m' (-> & Hc & Hi & Hf & Hlg & k & Hk & Hal & Hlive & Hok & Hav & Hno). split_and!; [done..|]. exists k. split_and!; [lia|lia|done| |done| |done].
        -- rewrite Hlive. cbn. lia.
        -- intros j Hj. destruct (decide (j = i)) as [->|]; [done|]. apply Hav. lia.
    + apply wp_ret. split_and!; [done..|]. exists i. split_and!; [lia|lia|done|lia| |lia|done]. symmetry. apply bool_decide_eq_false. lia.
Qed.
Lemma cleared_allocated size s : allocated size 0 (perf_clear s).
Proof. split; [done|]. intros i d. cbn [perf_clear metrics setf]. intros [-> _]%lookup_replicate. done. Qed.
Lemma first_refused_spec available k : (k <= PERF_METRIC_COUNT)%nat -> (forall j, (j < k)%nat -> available j = true) ->
  (k < PERF_METRIC_COUNT -> available k = false)%nat -> first_refused available = if decide (k = PERF_METRIC_COUNT) then None else Some k.
Proof.
  intros Hk Hav Hno. unfold first_refused. destruct (list_find _ _) as [[i x]|] eqn:E; cbn.
  - apply list_find_Some in E as (Hx & Hf & Hmin). apply lookup_seq in Hx as [-> Hi]. cbn in Hf.
    destruct (decide (k = i)) as [->|]; [rewrite decide_False by lia; done|].
    destruct (decide (i < k)%nat) as [Hlt|]; [by rewrite Hav in Hf by done|].
    exfalso. apply (Hmin k k); [apply lookup_seq; cbn; lia|lia|apply Hno; lia].
  - rewrite decide_True; [done|]. apply list_find_None in E. destruct (decide (k = PERF_METRIC_COUNT)); [done|]. exfalso.
    rewrite Forall_forall in E. apply (E k); [apply elem_of_seq; cbn; lia|apply Hno; lia].
Qed.
Lemma live_of_all size s : allocated size PERF_METRIC_COUNT s -> length (filter (fun d => is_Some (history d)) (metrics s)) = PERF_METRIC_COUNT.
Proof.
  intros [Hl Ha]. assert (Hall : Forall (fun d => is_Some (history d)) (metrics s)).
  { apply Forall_lookup_2. intros i d Hd. rewrite (Ha i d Hd), decide_True by (rewrite <- Hl; by eapply lookup_lt_Some). by eexists. }
  rewrite <- Hl. clear -Hall. induction Hall as [|d ds Hd _ IH]; [done|]. rewrite filter_cons_True by done. cbn. by rewrite IH.
Qed.

(** ** Theorems *)

(** Along every run of updates, resets, polls and passing time the statistics of a metric
    summarise its values since the last reset: current, least, greatest, number, violations
    and running average; its ring holds the newest of them with their times, and no access
    leaves the ring. *)
Theorem perf_refines ops i s m ls : perf_wf s ls -> logs (perf_logger s) LOG_LEVEL_ERROR = false -> run_ok (perf_clock s) ops ls -> (i < PERF_METRIC_COUNT)%nat ->
  wp (perf_run ops;; Perf_GetStats i) (fun r s' m' => m' = m /\ exists l d error avg,
    recorded_run (perf_clock s) ops ls !! i = Some l /\ metrics s' !! i = Some d /\ error_thresholds (config s) !! i = Some error /\
    average (value <$> l) = Some avg /\ r = Some (summary error l avg) /\ in_ring d l) s m.
Proof.
  intros Hw Hq Hok Hi. apply wp_bind. eapply wp_mono; [by apply perf_run_ok|]. intros [] s1 m1 (-> & Hc & Hw1).
  destruct (perf_metric s1 _ i Hw1 Hi) as (d & l & error & warning & Hd & Hl & He & Hwt & Hr).
  unfold Perf_GetStats. apply wp_bind, wp_get. rewrite (pw_init _ _ Hw1), (proj2 (Nat.leb_gt _ _)) by done. cbn [negb orb].
  apply wp_bind, wp_lock_free; [apply Hw1|]. apply wp_bind. eapply wp_lift_perf; [exact Hd|]. apply wp_bind, wp_unlock_held; [done|]. apply wp_ret.
  rewrite perf_unlocked by apply Hw1. split; [done|]. destruct (rc_stats _ _ _ Hr) as (avg & Ha & Hst). exists l, d, error, avg.
  split_and!; [done|done|by rewrite <- Hc|done|by rewrite Hst|apply Hr].
Qed.

(** Between the extremes: the reported average lies between the least and the greatest
    value, at most the mean and less than half the number of values below it. *)
Theorem perf_average_bounds i l s m ls : perf_wf s ls -> ls !! i = Some l -> l <> [] -> Forall is_u32 (value <$> l) ->
  Z.of_nat (length l) * foldr Z.max 0 (value <$> l) < 2 ^ 32 -> Z.of_nat (length l) < 2 ^ 32 ->
  wp (Perf_GetStats i) (fun r _ _ => exists t, r = Some t /\ min_value t <= avg_value t <= max_value t /\
    2 * (total_samples t * avg_value t) <= 2 * sum (value <$> l) <= 2 * (total_samples t * avg_value t) + total_samples t * (total_samples t - 1)) s m.
Proof.
  intros Hw Hl Hne Hu Hb Hn. assert (Hi : (i < PERF_METRIC_COUNT)%nat) by (destruct (pw_lengths _ _ Hw) as [<- _]; by eapply lookup_lt_Some).
  destruct (perf_metric s ls i Hw Hi) as (d & l' & error & warning & Hd & Hl' & _ & _ & Hr). replace l' with l in * by congruence.
  unfold Perf_GetStats. apply wp_bind, wp_get. rewrite (pw_init _ _ Hw), (proj2 (Nat.leb_gt _ _)) by done. cbn [negb orb].
  apply wp_bind, wp_lock_free; [apply Hw|]. apply wp_bind. eapply wp_lift_perf; [exact Hd|]. apply wp_bind, wp_unlock_held; [done|]. apply wp_ret.
  assert (Hne' : value <$> l <> []) by (by destruct l). destruct (extremes_bound _ Hne' Hu) as [Hlo Hra]. rewrite <- (length_fmap value) in Hb, Hn.
  destruct (average_bounds _ _ _ Hlo Hra Hb Hn) as (a & Ha & Hrange & Hsum). destruct (rc_stats _ _ _ Hr) as (avg & Ha' & Hst). assert (a = avg) as -> by congruence.
  exists (stats d). rewrite Hst. split; [done|]. split; [by apply Hrange|]. cbn [total_samples avg_value summary]. rewrite <- (length_fmap value l). exact Hsum.
Qed.

(** With logging enabled and a logger that writes errors, a value above the error
    threshold is never recorded: the call does not return. *)
Theorem violation_log_blocks i v s m ls l error : perf_wf s ls -> ls !! i = Some l -> Z.of_nat (S (length l)) < 2 ^ 32 ->
  error_thresholds (config s) !! i = Some error -> error < v -> enable_logging (config s) = true -> logs (perf_logger s) LOG_LEVEL_ERROR = true ->
  Perf_UpdateMetric i v s m = None.
Proof.
  intros Hw Hl Hn He Hv Hlog Hq.
  assert (Hblock : forall d s', config s' = config s -> perf_logger s' = perf_logger s -> perf_mutex s' = true -> (check_thresholds i v d;; unlock) s' m = None).
  { intros d s' Hc Hlg Hm. apply undefined_bind'. unfold check_thresholds. apply undefined_bind, wp_get, undefined_bind.
    eapply wp_lift_perf; [by rewrite Hc|]. rewrite (proj2 (Z.ltb_lt _ _)) by done. apply undefined_bind, wp_modify. rewrite Hc, Hlog.
    apply log_held_blocks; [exact Hm|]. cbn. by rewrite Hlg. }
  assert (Hi : (i < PERF_METRIC_COUNT)%nat) by (destruct (pw_lengths _ _ Hw) as [<- _]; by eapply lookup_lt_Some).
  destruct (perf_metric s ls i Hw Hi) as (d & l' & error' & warning & Hd & Hl' & _ & _ & Hr). replace l' with l in * by congruence.
  unfold Perf_UpdateMetric. apply undefined_bind, wp_get. rewrite (pw_init _ _ Hw), (proj2 (Nat.leb_gt _ _)) by done. cbn [negb orb].
  apply undefined_bind, wp_lock_free; [apply Hw|]. apply undefined_bind. eapply wp_lift_perf; [exact Hd|].
  destruct (push_recorded error' d l (perf_clock s) v v Hr) as (d' & Hp & Ht & _). apply undefined_bind. eapply wp_lift_perf; [exact Hp|].
  destruct (rc_stats _ _ _ Hr) as (avg & Ha & Hst). rewrite Hst in Ht.
  destruct (add_value_summary error' l (perf_clock s) v avg _ Ha Hn Ht) as (avg' & _ & Hadd). apply undefined_bind. eapply wp_lift_perf; [exact Hadd|].
  apply undefined_bind, wp_modify. by apply Hblock.
Qed.

(** While the logger writes warnings, a poll returns exactly if it is not due or no trend
    is above the warning threshold of its metric. *)
Theorem poll_returns_iff trend s m ls : perf_wf s ls -> logs (perf_logger s) LOG_LEVEL_WARNING = true ->
  is_Some (Perf_ProcessMetrics trend s m) <->
  u32 (perf_clock s - last_process_time s) < sampling_interval_ms (config s) \/
  forall i d warning, metrics s !! i = Some d -> warning_thresholds (config s) !! i = Some warning -> trend d <= warning.
Proof.
  intros Hw Hq. assert (Hstart : Perf_ProcessMetrics trend s m =
    (if u32 (perf_clock s - last_process_time s) <? sampling_interval_ms (config s) then mret tt else
     lock;; modify (fun s' => s' <| last_process_time := perf_clock s |>);; trend_loop trend PERF_METRIC_COUNT 0;; unlock) s m).
  { unfold Perf_ProcessMetrics. unfold mbind at 1, M_bind at 1, get at 1. by rewrite (pw_init _ _ Hw). }
  rewrite Hstart. clear Hstart.
  destruct (_ <? _) eqn:E; tests; [split; [by left|by eexists]|].
  destruct (pw_lengths _ _ Hw) as [L1 L2]. destruct (pw_thresholds _ _ Hw) as [L3 L4].
  set (s1 := s <| perf_mutex := true |> <| last_process_time := perf_clock s |>).
  assert (Hloop : forall n i, (i + n = PERF_METRIC_COUNT)%nat ->
    trend_loop trend n i s1 m = if decide (Forall (fun p => trend p.1 <= p.2) (drop i (zip (metrics s) (warning_thresholds (config s)))))
      then Some (tt, s1, m) else None).
  { induction n as [|n IH]; intros i Hi; cbn [trend_loop].
    - rewrite drop_ge by (rewrite length_zip_with; lia). by rewrite decide_True by constructor.
    - destruct (lookup_lt_is_Some_2 (metrics s) i) as [d Hd]; [lia|]. destruct (lookup_lt_is_Some_2 (warning_thresholds (config s)) i) as [w Hwt]; [lia|].
      assert (Hz : zip (metrics s) (warning_thresholds (config s)) !! i = Some (d, w)) by (by apply lookup_zip_with_Some; exists d, w).
      rewrite (drop_S _ _ _ Hz). unfold mbind, M_bind, get. cbn [metrics config setf s1]. unfold s1 at 1 2. cbn [metrics config setf]. rewrite Hd, Hwt. cbn [lift].
      unfold mret at 1 2, M_ret at 1 2. destruct (w <? trend d) eqn:Et; tests.
      + rewrite log_held_blocks by done. rewrite decide_False; [done|]. intros [Hf _]%Forall_cons. cbn in Hf. lia.
      + unfold mret at 1, M_ret at 1. fold s1. rewrite IH by lia. destruct (decide _) as [Hf|Hf].
        * rewrite decide_True; [done|]. constructor; [done|exact Hf].
        * rewrite decide_False; [done|]. by intros [_ ?]%Forall_cons. }
  assert (Hrun : (lock;; modify (fun s' => s' <| last_process_time := perf_clock s |>);; trend_loop trend PERF_METRIC_COUNT 0;; unlock) s m =
    (trend_loop trend PERF_METRIC_COUNT 0;; unlock) s1 m).
  { unfold mbind, M_bind, lock, get, modify. cbn [locked PerfMonitor_mutex]. unfold mbind, M_bind. by rewrite (pw_free _ _ Hw). }
  rewrite Hrun. unfold mbind, M_bind. rewrite (Hloop PERF_METRIC_COUNT 0%nat) by done. rewrite drop_0. destruct (decide _) as [Hf|Hf].
  - split; [|by eexists]. intros _. right. intros i d w Hd Hwt. rewrite Forall_lookup in Hf. apply (Hf i (d, w)). by apply lookup_zip_with_Some; exists d, w.
  - split; [by intros []|]. intros [Hlt|Hall]; [lia|]. exfalso. apply Hf, Forall_lookup_2. intros i [d w] (d' & w' & [= <- <-] & Hd & Hwt)%lookup_zip_with_Some.
    by apply (Hall i).
Qed.

(** Buffers that are lost: initialising succeeds exactly when every allocation does, and
    then deinitialising frees the buffers; if the allocation of a metric is refused, the
    buffers of the metrics before it stay allocated for ever. *)
Theorem refused_buffer_leaks available cfg s m : perf_mutex s = false ->
  wp (ok ← Perf_Init available (Some cfg); Perf_Deinit;; mret ok) (fun ok s' _ => initialized s' = false /\
    match first_refused available with
    | None => ok = true /\ live_buffers s' = live_buffers s
    | Some i => ok = false /\ live_buffers s' = (live_buffers s + i)%nat
    end) s m.
Proof.
  intros Hm. unfold Perf_Init. apply wp_bind, wp_bind, wp_modify, wp_bind, wp_modify. cbv zeta. match goal with |- context [allocate_loop _ ?z _ _] => set (size := z) end.
  apply wp_bind. eapply wp_mono; [apply (allocate_loop_spec available size PERF_METRIC_COUNT 0%nat); [done|exact (cleared_allocated size s)]|].
  intros ok s1 m1 (-> & Hc & Hi & Hf & Hlg & k & Hk & Hal & Hlive & -> & Hav & Hno).
  change (perf_mutex s1 = perf_mutex s) in Hf. rewrite Hm in Hf.
  rewrite (first_refused_spec available k); [|lia|intros j Hj; apply Hav; lia|done]. change (initialized s1 = false) in Hi. change (live_buffers s1 = (live_buffers s + (k - 0))%nat) in Hlive.
  destruct (decide (k = PERF_METRIC_COUNT)) as [->|Hne].
  - rewrite bool_decide_eq_true_2 by done. cbn [negb]. apply wp_bind, wp_modify, wp_bind, wp_log_free; [done|]. apply wp_ret.
    unfold Perf_Deinit. apply wp_bind, wp_bind, wp_get. cbn [initialized setf negb]. apply wp_bind, wp_modify, wp_bind, wp_log_free; [done|].
    apply wp_modify, wp_ret. split; [done|]. split; [done|]. cbn [live_buffers perf_clear setf metrics]. rewrite (live_of_all size) by done. lia.
  - rewrite bool_decide_eq_false_2 by done. cbn [negb]. unfold Perf_Deinit. apply wp_bind, wp_bind, wp_get. rewrite Hi. cbn [negb]. apply wp_ret, wp_ret.
    apply wp_bind, wp_bind, wp_get. rewrite Hi. apply wp_ret, wp_ret. split_and!; [done|done|lia].
Qed.

(** With a history of no entries initialising succeeds and the first value of any metric
    is written through an empty buffer. *)
Theorem empty_history_undefined available cfg i v s m : perf_mutex s = false -> (forall j, available j = true) -> max_history_size cfg = 0%nat ->
  (i < PERF_METRIC_COUNT)%nat ->
  wp (Perf_Init available (Some cfg)) (fun ok _ _ => ok = true) s m /\ (Perf_Init available (Some cfg);; Perf_UpdateMetric i v) s m = None.
Proof.
  intros Hm Hav Hsz Hi.
  assert (Hinit : wp (Perf_Init available (Some cfg)) (fun ok s' m' => ok = true /\ initialized s' = true /\ perf_mutex s' = false /\ allocated 0 PERF_METRIC_COUNT s') s m).
  { unfold Perf_Init. apply wp_bind, wp_modify, wp_bind, wp_modify. cbv zeta. rewrite Hsz. apply wp_bind.
    eapply wp_mono; [apply (allocate_loop_spec available 0%nat PERF_METRIC_COUNT 0%nat); [done|exact (cleared_allocated 0 s)]|].
    intros ok s1 m1 (-> & Hc & Hi1 & Hf & Hlg & k & Hk & Hal & Hlive & -> & _ & Hno).
    change (perf_mutex s1 = perf_mutex s) in Hf. rewrite Hm in Hf.
    assert (k = PERF_METRIC_COUNT) as -> by (destruct (decide (k = PERF_METRIC_COUNT)); [done|]; assert (available k = false) by (apply Hno; lia); by rewrite Hav in *).
    rewrite bool_decide_eq_true_2 by done. cbn [negb]. apply wp_bind, wp_modify, wp_bind, wp_log_free; [done|]. apply wp_ret.
    split_and!; [done|done|exact Hf|exact Hal]. }
  split; [eapply wp_mono; [exact Hinit|]; by intros ? ? ? [-> _]|]. apply undefined_bind. eapply wp_mono; [exact Hinit|]. intros ok s1 m1 (_ & Hi1 & Hf1 & Hal & Ha).
  unfold Perf_UpdateMetric. apply undefined_bind, wp_get. rewrite Hi1, (proj2 (Nat.leb_gt _ _)) by done. cbn [negb orb].
  apply undefined_bind, wp_lock_free; [done|]. destruct (lookup_lt_is_Some_2 (metrics s1) i) as [d Hd]; [lia|].
  apply undefined_bind. eapply wp_lift_perf; [exact Hd|]. rewrite (Ha i d Hd), decide_True by done. by apply undefined_bind'.
Qed.

(** ** Concrete runs *)

(** Initialised with room for two entries, no value recorded. *)
Definition example_config (logging : bool) (size : nat) : PerfConfig := mkPerfConfig 100 [50; 50; 50; 50; 50] [90; 90; 90; 90; 90] logging size.
Definition example_perf (logging : bool) (logger : option LogLevel) : PerfMonitor :=
  mkPerf (example_config logging 2) (replicate PERF_METRIC_COUNT (mkMetricData (stats_zero <| min_value := UINT32_MAX |>) (Some [None; None]) 2 0))
    0 true false logger 1000 5.
Lemma example_wf logging logger : perf_wf (example_perf logging logger) (replicate PERF_METRIC_COUNT []).
Proof.
  constructor; [done..|]. intros i d l error [-> _]%lookup_replicate [-> _]%lookup_replicate _. constructor; [cbn; unfold MAX_HISTORY_ENTRIES; lia|done| |by exists 0].
  exists [None; None]. split_and!; [done|done|]. by intros j e.
Qed.

Lemma perf_refines_witness :
  let ops := [OpUpdate 0 95; OpElapse 10; OpUpdate 0 41; OpUpdate 0 20; OpPoll current_of; OpReset 1; OpUpdate 1 7] in
  perf_wf (example_perf true None) (replicate PERF_METRIC_COUNT []) /\
  recorded_run 1000 ops (replicate PERF_METRIC_COUNT []) !! 0%nat = Some [mkHistoryEntry 1000 95; mkHistoryEntry 1010 41; mkHistoryEntry 1010 20] /\
  wp (perf_run ops;; Perf_GetStats 0) (fun r s' m' => m' = boot /\ exists l d error avg,
    recorded_run (perf_clock (example_perf true None)) ops (replicate PERF_METRIC_COUNT []) !! 0%nat = Some l /\ metrics s' !! 0%nat = Some d /\
    error_thresholds (config (example_perf true None)) !! 0%nat = Some error /\
    average (value <$> l) = Some avg /\ r = Some (summary error l avg) /\ in_ring d l) (example_perf true None) boot.
Proof.
  split; [apply example_wf|]. split; [by vm_compute|]. apply perf_refines; [apply example_wf|done| |by vm_compute; lia].
  repeat (split; [first [exact I|intros l Hl; vm_compute in Hl; injection Hl as <-; by vm_compute]|]). exact I.
Defined.

(** Three values of the queue length. *)
Definition example_values : list MetricHistoryEntry := [mkHistoryEntry 900 30; mkHistoryEntry 910 40; mkHistoryEntry 920 95].
Definition example_recorded : PerfMonitor :=
  (example_perf true (Some LOG_LEVEL_WARNING)) <| metrics := <[PERF_METRIC_QUEUE_LENGTH :=
    mkMetricData (mkPerfStats 95 30 95 55 3 1) (Some [Some (mkHistoryEntry 920 95); Some (mkHistoryEntry 910 40)]) 2 1]> (metrics (example_perf true None)) |>.
Lemma example_recorded_wf : perf_wf example_recorded (<[PERF_METRIC_QUEUE_LENGTH := example_values]> (replicate PERF_METRIC_COUNT [])).
Proof.
  eapply (perf_update _ _ _ (example_perf true (Some LOG_LEVEL_WARNING))); [apply example_wf|done..|]. intros error [= <-].
  constructor; [cbn; unfold MAX_HISTORY_ENTRIES; lia|done| |by exists 55]. eexists. split_and!; [done|done|].
  intros [|[|[|j]]] e; cbn; intros [= <-] Hj; try done; cbn in Hj; lia.
Qed.
Lemma perf_average_bounds_witness :
  perf_wf example_recorded (<[PERF_METRIC_QUEUE_LENGTH := example_values]> (replicate PERF_METRIC_COUNT [])) /\
  wp (Perf_GetStats PERF_METRIC_QUEUE_LENGTH) (fun r _ _ => exists t, r = Some t /\ min_value t <= avg_value t <= max_value t /\
    2 * (total_samples t * avg_value t) <= 2 * sum (value <$> example_values) <= 2 * (total_samples t * avg_value t) + total_samples t * (total_samples t - 1))
    example_recorded boot.
Proof.
  split; [apply example_recorded_wf|]. eapply (perf_average_bounds _ example_values); [apply example_recorded_wf|done|done| |by vm_compute|by vm_compute].
  cbn. repeat constructor; by vm_compute.
Defined.
Lemma violation_log_blocks_witness :
  perf_wf example_recorded (<[PERF_METRIC_QUEUE_LENGTH := example_values]> (replicate PERF_METRIC_COUNT [])) /\
  logs (perf_logger example_recorded) LOG_LEVEL_ERROR = true /\ Perf_UpdateMetric PERF_METRIC_QUEUE_LENGTH 91 example_recorded boot = None.
Proof.
  split; [apply example_recorded_wf|]. split; [done|].
  eapply (violation_log_blocks _ _ _ _ _ example_values 90); [apply example_recorded_wf|done|by vm_compute|done|lia|done|done].
Defined.
Lemma poll_returns_iff_witness :
  perf_wf example_recorded (<[PERF_METRIC_QUEUE_LENGTH := example_values]> (replicate PERF_METRIC_COUNT [])) /\
  (is_Some (Perf_ProcessMetrics current_of example_recorded boot) <->
   u32 (perf_clock example_recorded - last_process_time example_recorded) < sampling_interval_ms (config example_recorded) \/
   forall i d warning, metrics example_recorded !! i = Some d -> warning_thresholds (config example_recorded) !! i = Some warning -> current_of d <= warning) /\
  Perf_ProcessMetrics current_of example_recorded boot = None.
Proof.
  split; [apply example_recorded_wf|]. split; [|by vm_compute]. eapply poll_returns_iff; [apply example_recorded_wf|done].
Defined.
Lemma refused_buffer_leaks_witness :
  let s := example_perf false None in
  first_refused (fun i => negb (i =? 3)%nat) = Some 3%nat /\ perf_mutex s = false /\
  wp (ok ← Perf_Init (fun i => negb (i =? 3)%nat) (Some (config s)); Perf_Deinit;; mret ok) (fun ok s' _ => initialized s' = false /\
    match first_refused (fun i => negb (i =? 3)%nat) with
    | None => ok = true /\ live_buffers s' = live_buffers s
    | Some i => ok = false /\ live_buffers s' = (live_buffers s + i)%nat
    end) s boot.
Proof. split; [done|]. split; [done|]. by apply refused_buffer_leaks. Defined.
Lemma empty_history_undefined_witness :
  let s := example_perf false None in
  wp (Perf_Init (fun _ => true) (Some (example_config false 0))) (fun ok _ _ => ok = true) s boot /\
  (Perf_Init (fun _ => true) (Some (example_config false 0));; Perf_UpdateMetric PERF_METRIC_ERROR_RATE 1) s boot = None.
Proof. apply empty_history_undefined; [done|done|done|]. unfold PERF_METRIC_ERROR_RATE, PERF_METRIC_COUNT. lia. Defined.
