(* ===== verification/LogFile.v ===== *)
(** * The log file

    [diagnostic/logging/diag_logger.c]: entries above a level are formatted and written to
    the console and to a file, which is rotated through numbered backups when it has grown
    enough.  [Mutex.v] models of this logger only that it takes the process-wide mutex;
    this file has the rest and shows that the two agree.

    The C library as used here: [disk] is the file system, a map from names to contents;
    [fopen] for writing empties the file and may be refused ([writable]); [rename] replaces
    an existing file, as on POSIX, and does nothing if there is nothing to rename; [console]
    is what was printed.  [date_text] is [strftime] of [localtime], cut to the 31 characters
    that fit its array.  A message is the text [vsnprintf] gives.  A [log_buffer] is the text
    up to its terminator.  Integers are little-endian. *)

From Stdlib Require Import Ascii String.
From stdpp Require Import pretty.
From S2P Require Import Prelude Memory Machine Mutex.

#[local] Open Scope string_scope.
#[local] Open Scope Z_scope.

Definition LOG_BUFFER_SIZE : nat := 512.

Record LoggerConfig := mkLoggerConfig {
  filename : string; max_file_size : Z; max_backup_files : nat; console_output : bool;
  min_level : LogLevel; include_timestamp : bool; include_session_id : bool }.
#[export] Instance eta_LoggerConfig : Eta LoggerConfig := fun c =>
  mkLoggerConfig (filename c) (max_file_size c) (max_backup_files c) (console_output c) (min_level c) (include_timestamp c) (include_session_id c).
Record LogEntry := mkLogEntry {
  session_id : Z; timestamp : Z; level : LogLevel; module : string; message : string; data : list Z }.
(** [logger_ctx] without its queue, which nothing uses; [file] is the name of the open file.
    The mutex, the C library's files and the time follow. *)
Record LoggerContext := mkLogger {
  file : option string; config : LoggerConfig; current_file_size : Z; log_buffer : string; initialized : bool;
  logger_mutex : bool; disk : gmap string string; console : string; writable : string -> bool; now : Z }.
#[export] Instance eta_LoggerContext : Eta LoggerContext := fun s =>
  mkLogger (file s) (config s) (current_file_size s) (log_buffer s) (initialized s) (logger_mutex s) (disk s) (console s) (writable s) (now s).
#[export, refine] Instance LoggerContext_mutex : HasMutex LoggerContext :=
  {| locked := logger_mutex; set_locked b s := s <| logger_mutex := b |>;
     log_min s := if initialized s then Some (min_level (config s)) else None |}.
Proof. all: by intros; destruct s. Defined.

Definition lift {A} (o : option A) : M LoggerContext A := match o with Some a => mret a | None => fault end.

(** ** Text *)

Definition level_string (l : LogLevel) : string :=
  match l with
  | LOG_LEVEL_DEBUG => "DEBUG" | LOG_LEVEL_INFO => "INFO" | LOG_LEVEL_WARNING => "WARNING"
  | LOG_LEVEL_ERROR => "ERROR" | LOG_LEVEL_CRITICAL => "CRITICAL"
  end.
Definition newline : string := String (ascii_of_nat 10) "".
(** The conversions of a format, all of them [%s], take the arguments in turn; arguments that
    are left over are ignored, a conversion without an argument is undefined. *)
Fixpoint sprintf (format : string) (args : list string) : option string :=
  match format with
  | EmptyString => Some ""
  | String "%" (String "s" rest) => match args with [] => None | a :: args => t ← sprintf rest args; Some (a +:+ t) end
  | String c rest => t ← sprintf rest args; Some (String c t)
  end.
(** [snprintf(log_buffer + at, LOG_BUFFER_SIZE - at, ...)] of a text: the buffer and what the
    call returns, the length of the whole text. *)
Definition snprintf_at (buffer : string) (at_ : nat) (text : string) : option (string * nat) :=
  if (LOG_BUFFER_SIZE <? at_)%nat then None else
  if (at_ =? LOG_BUFFER_SIZE)%nat then Some (buffer, String.length text) else
  Some (substring 0 at_ buffer +:+ substring 0 (LOG_BUFFER_SIZE - at_ - 1) text, String.length text).
Definition hex_digit (d : Z) : string := default "" (["0"; "1"; "2"; "3"; "4"; "5"; "6"; "7"; "8"; "9"; "A"; "B"; "C"; "D"; "E"; "F"] !! Z.to_nat d).
(** ["%02X "]. *)
Definition hex_byte (b : Z) : string := hex_digit (Z.shiftr b 4) +:+ hex_digit (Z.land b 15) +:+ " ".
(** The characters up to the first zero. *)
Fixpoint c_text (bytes : list Z) : string :=
  match bytes with [] => "" | b :: bytes => if b =? 0 then "" else String (ascii_of_nat (Z.to_nat b)) (c_text bytes) end.
(** [(char* )&entry->session_id]: the text goes on through the following members up to a zero
    byte, which the level has. *)
Definition session_text (entry : LogEntry) : string :=
  c_text (le_bytes 4 (session_id entry) ++ le_bytes 4 (timestamp entry) ++ le_bytes 4 (level_code (level entry))).
Fixpoint hex_dump (bytes : list Z) (written : nat) (buffer : string) : option (string * nat) :=
  match bytes with
  | [] => Some (buffer, written)
  | b :: bytes =>
      if (written <? LOG_BUFFER_SIZE - 3)%nat
      then r ← snprintf_at buffer written (hex_byte b); hex_dump bytes (written + r.2)%nat r.1
      else Some (buffer, written)
  end.

Section logger.
Context (date_text : Z -> string).

(** The seven arguments of the two formats, which have six conversions. *)
Definition format_args (cfg : LoggerConfig) (entry : LogEntry) : list string :=
  [if include_timestamp cfg then substring 0 31 (date_text (timestamp entry)) else "";
   level_string (level entry); module entry;
   if include_session_id cfg then " [Session " else "";
   if include_session_id cfg then session_text entry else "";
   if include_session_id cfg then "]" else "";
   message entry].
(** The line in the buffer and its length as the calls of [snprintf] report it. *)
Definition format_entry (cfg : LoggerConfig) (entry : LogEntry) : option (string * nat) :=
  match data entry with
  | _ :: _ =>
      text ← sprintf "%s [%s] %s%s%s: %s - " (format_args cfg entry);
      r ← snprintf_at "" 0 text;
      r ← hex_dump (data entry) r.2 r.1;
      r' ← snprintf_at r.1 r.2 newline;
      Some (r'.1, (r.2 + r'.2)%nat)
  | [] => text ← sprintf ("%s [%s] %s%s%s: %s" +:+ newline) (format_args cfg entry); snprintf_at "" 0 text
  end.

(** ** Files *)

Definition rename (old new : string) (d : gmap string string) : gmap string string :=
  match d !! old with Some text => <[new := text]> (delete old d) | None => d end.
(** ["%s.%d"]. *)
Definition backup (name : string) (i : nat) : string := name +:+ "." +:+ pretty i.
(** [for (int i = max_backup_files - 1; i >= 1; i--)]. *)
Fixpoint rotate_loop (name : string) (i : nat) (d : gmap string string) : gmap string string :=
  match i with O => d | S i' => rotate_loop name i' (rename (backup name i) (backup name (S i)) d) end.
(** [fopen(name, "w")]. *)
Definition open_file (name : string) : M LoggerContext bool :=
  s ← get;
  if writable s name then modify (fun s => s <| file := Some name |> <| disk ::= <[name := ""]> |>);; mret true
  else modify (fun s => s <| file := None |>);; mret false.
Definition rotate_log_file : M LoggerContext bool :=
  s ← get;
  match file s with
  | None => mret false
  | Some _ =>
      let name := filename (config s) in
      let n := max_backup_files (config s) in
      modify (fun s => s <| disk ::= fun d => rename name (backup name 1) (rotate_loop name (n - 1) (delete (backup name n) d)) |>);;
      ok ← open_file name;
      if negb ok then mret false else
      modify (fun s => s <| current_file_size := 0 |>);;
      mret true
  end.

(** ** Entries *)

(** [fprintf(logger_ctx.file, "%s", logger_ctx.log_buffer)]; without a file it is undefined. *)
Definition print_file : M LoggerContext unit :=
  s ← get;
  match file s with
  | None => fault
  | Some name => modify (fun s => s <| disk ::= alter (fun text => text +:+ log_buffer s) name |>)
  end.
Definition write_log_entry (entry : LogEntry) : M LoggerContext unit :=
  s ← get;
  if negb (initialized s) then mret tt else
  lock;;
  r ← lift (format_entry (config s) entry);
  modify (fun s => s <| log_buffer := r.1 |>);;
  (if console_output (config s) then modify (fun s => s <| console ::= fun text => text +:+ log_buffer s |>) else mret tt);;
  (match file s with
   | None => mret tt
   | Some _ =>
       modify (fun s => s <| current_file_size ::= fun n => u32 (n + Z.of_nat r.2) |>);;
       s ← get;
       (if max_file_size (config s) <=? current_file_size s then rotate_log_file;; mret tt else mret tt);;
       print_file
   end);;
  unlock.

Definition logger_zero (s : LoggerContext) : LoggerContext :=
  s <| file := None |> <| config := mkLoggerConfig "" 0 0 false LOG_LEVEL_DEBUG false false |> <| current_file_size := 0 |>
    <| log_buffer := "" |> <| initialized := false |>.
Definition Logger_Init (cfg : option LoggerConfig) : M LoggerContext bool :=
  match cfg with
  | None => mret false
  | Some cfg =>
      modify (fun s => (logger_zero s) <| config := cfg |>);;
      ok ← (if bool_decide (filename cfg = "") then mret true else open_file (filename cfg));
      if negb ok then mret false else
      modify (fun s => s <| initialized := true |>);;
      mret true
  end.
Definition Logger_Deinit : M LoggerContext unit := modify logger_zero.

(** Whether an entry is below the level, or the logger not initialised. *)
Definition ignored (l : LogLevel) (s : LoggerContext) : bool := negb (initialized s) || (level_code l <? level_code (min_level (config s))).
Definition Logger_Log (l : LogLevel) (mod_name text : string) : M LoggerContext unit :=
  s ← get;
  if ignored l s then mret tt else
  write_log_entry (mkLogEntry 0 (now s) l (substring 0 31 mod_name) (substring 0 255 text) []).
(** [length] bytes behind [bytes]; reading past them is undefined. *)
Definition Logger_LogHex (l : LogLevel) (mod_name : string) (bytes : list Z) (length : nat) (text : string) : M LoggerContext unit :=
  s ← get;
  if ignored l s then mret tt else
  let length := if (128 <? length)%nat then 128%nat else length in
  if (List.length bytes <? length)%nat then fault else
  write_log_entry (mkLogEntry 0 (now s) l (substring 0 31 mod_name) (substring 0 255 text) (take length bytes)).
Definition Logger_LogSession (id : Z) (l : LogLevel) (mod_name text : string) : M LoggerContext unit :=
  s ← get;
  if ignored l s then mret tt else
  write_log_entry (mkLogEntry id (now s) l (substring 0 31 mod_name) (substring 0 255 text) []).

Definition level_of (code : Z) : option LogLevel :=
  [LOG_LEVEL_DEBUG; LOG_LEVEL_INFO; LOG_LEVEL_WARNING; LOG_LEVEL_ERROR; LOG_LEVEL_CRITICAL] !! Z.to_nat code.
Definition set_config (f : LoggerConfig -> LoggerConfig) : M LoggerContext unit := modify (fun s => s <| config ::= f |>).
(** Of a number as the enumeration's unsigned type has it. *)
Definition Logger_SetLevel (code : Z) : M LoggerContext bool :=
  if level_code LOG_LEVEL_CRITICAL <? code then mret false else
  l ← lift (level_of code);
  set_config (fun c => c <| min_level := l |>);;
  mret true.
(** [strncpy] takes 63 characters of the name. *)
Definition Logger_EnableFileOutput (name : option string) : M LoggerContext bool :=
  match name with
  | None => mret false
  | Some name =>
      if bool_decide (name = "") then mret false else
      ok ← open_file name;
      if negb ok then mret false else
      set_config (fun c => c <| filename := substring 0 63 name |>);;
      modify (fun s => s <| current_file_size := 0 |>);;
      mret true
  end.
Definition Logger_EnableConsoleOutput (enable : bool) : M LoggerContext bool :=
  set_config (fun c => c <| console_output := enable |>);; mret true.
(** Every entry has been flushed when it was written. *)
Definition Logger_Flush : M LoggerContext unit := mret tt.
End logger.

(** ** Strings *)

Lemma append_cons c a b : String c a +:+ b = String c (a +:+ b).
Proof. done. Qed.
Lemma length_append a b : String.length (a +:+ b) = (String.length a + String.length b)%nat.
Proof. induction a as [|c a IH]; [done|]. rewrite append_cons. cbn. by rewrite IH. Qed.
Lemma append_assoc a b c : (a +:+ b) +:+ c = a +:+ (b +:+ c).
Proof. induction a as [|x a IH]; [done|]. by rewrite !append_cons, IH. Qed.
Lemma append_nil a : a +:+ "" = a.
Proof. induction a as [|x a IH]; [done|]. by rewrite append_cons, IH. Qed.
Lemma substring_full n s : (String.length s <= n)%nat -> substring 0 n s = s.
Proof.
  revert s. induction n as [|n IH]; intros [|c s] Hn; cbn in *; try done; [lia|]. by rewrite IH by lia.
Qed.
Lemma length_substring n s : (String.length (substring 0 n s) <= n)%nat.
Proof. revert s. induction n as [|n IH]; intros [|c s]; cbn; [lia..|]. specialize (IH s). lia. Qed.
Lemma length_c_text l : (String.length (c_text l) <= length l)%nat.
Proof. induction l as [|b l IH]; cbn; [lia|]. destruct (b =? 0); cbn; lia. Qed.
Lemma length_session e : (String.length (session_text e) <= 12)%nat.
Proof. unfold session_text. etransitivity; [apply length_c_text|]. by rewrite !length_app, !length_le_bytes. Qed.
Lemma length_level l : (String.length (level_string l) <= 8)%nat.
Proof. destruct l; cbn; lia. Qed.
Lemma length_hex_digit d : 0 <= d < 16 -> String.length (hex_digit d) = 1%nat.
Proof.
  intros Hd. unfold hex_digit. assert (Hn : (Z.to_nat d < 16)%nat) by lia. revert Hn. generalize (Z.to_nat d) as n. intros n Hn.
  do 16 (destruct n as [|n]; [done|]). lia.
Qed.
Lemma length_hex_byte b : is_u8 b -> String.length (hex_byte b) = 3%nat.
Proof.
  intros Hb. unfold is_u8 in Hb. unfold hex_byte. rewrite !length_append, !length_hex_digit; [done|..].
  - change 15 with (Z.ones 4). rewrite Z.land_ones by lia. apply Z.mod_pos_bound. lia.
  - rewrite Z.shiftr_div_pow2 by lia. split; [by apply Z.div_pos; lia|]. apply Z.div_lt_upper_bound; lia.
Qed.
Lemma backup_inj f i j : backup f i = backup f j -> i = j.
Proof. unfold backup. intros H. do 2 apply (inj (String.append _)) in H. by apply (inj pretty) in H. Qed.
Lemma backup_ne f i : backup f i <> f.
Proof. intros H%(f_equal String.length). unfold backup in H. rewrite !length_append in H. change (String.length ".") with 1%nat in H. lia. Qed.

(** ** The line of an entry *)

Definition hexes (bytes : list Z) : string := foldr (fun b text => hex_byte b +:+ text) "" bytes.
(** Where the message should be stands what closes the session. *)
Definition line_of (date_text : Z -> string) (cfg : LoggerConfig) (e : LogEntry) : string :=
  (if include_timestamp cfg then substring 0 31 (date_text (timestamp e)) else "") +:+ " [" +:+ level_string (level e) +:+ "] " +:+ module e +:+
  (if include_session_id cfg then " [Session " +:+ session_text e +:+ ": ]" else ": ") +:+
  (match data e with [] => "" | _ => " - " +:+ hexes (data e) end) +:+ newline.
(** What the logging functions put into an entry. *)
Definition entry_ok (e : LogEntry) : Prop := (String.length (module e) <= 31)%nat /\ (length (data e) <= 128)%nat /\ Forall is_u8 (data e).

Lemma length_hexes l : Forall is_u8 l -> String.length (hexes l) = (3 * length l)%nat.
Proof.
  induction 1 as [|b l Hb _ IH]; [done|]. change (hexes (b :: l)) with (hex_byte b +:+ hexes l).
  rewrite length_append, length_hex_byte, IH by done. cbn [length]. lia.
Qed.
Lemma snprintf_appends buffer text n : n = String.length buffer -> (n + String.length text < LOG_BUFFER_SIZE)%nat ->
  snprintf_at buffer n text = Some (buffer +:+ text, String.length text).
Proof.
  intros -> Hb. unfold snprintf_at. destruct (_ <? _)%nat eqn:E1; tests; [lia|]. destruct (_ =? _)%nat eqn:E2; tests; [lia|].
  by rewrite !substring_full by lia.
Qed.
Lemma hex_dump_appends l buffer n : Forall is_u8 l -> n = String.length buffer -> (n + 3 * length l + 3 < LOG_BUFFER_SIZE)%nat ->
  hex_dump l n buffer = Some (buffer +:+ hexes l, (n + 3 * length l)%nat).
Proof.
  intros Hl. revert buffer n. induction Hl as [|b l Hb Hl IH]; intros buffer n Hn Hsize; cbn [hex_dump length] in *.
  - change (hexes []) with "". rewrite append_nil. by rewrite Nat.mul_0_r, Nat.add_0_r.
  - destruct (_ <? _)%nat eqn:E; tests; [|lia]. pose proof (length_hex_byte b Hb) as H3.
    rewrite snprintf_appends by (rewrite ?H3; lia). cbn [mbind option_bind fst snd]. rewrite IH.
    + change (hexes (b :: l)) with (hex_byte b +:+ hexes l). rewrite append_assoc, H3. do 2 f_equal. lia.
    + rewrite length_append. lia.
    + rewrite H3. lia.
Qed.
Lemma head_bound date_text cfg e : entry_ok e ->
  (String.length ((if include_timestamp cfg then substring 0 31 (date_text (timestamp e)) else "") +:+ " [" +:+ level_string (level e) +:+ "] " +:+ module e +:+
   (if include_session_id cfg then " [Session " +:+ session_text e +:+ ": ]" else ": ")) <= 99)%nat.
Proof.
  intros (Hm & _ & _). pose proof (length_session e) as Hs. pose proof (length_level (level e)) as Hlv.
  pose proof (length_substring 31 (date_text (timestamp e))) as Ht. rewrite !length_append.
  change (String.length " [") with 2%nat. change (String.length "] ") with 2%nat.
  assert (String.length (if include_timestamp cfg then substring 0 31 (date_text (timestamp e)) else "") <= 31)%nat by (destruct (include_timestamp cfg); [done|cbn; lia]).
  assert (String.length (if include_session_id cfg then " [Session " +:+ session_text e +:+ ": ]" else ": ") <= 25)%nat; [|lia].
  destruct (include_session_id cfg); [|cbn; lia]. rewrite !length_append. change (String.length " [Session ") with 10%nat. change (String.length ": ]") with 3%nat. lia.
Qed.
(** The buffer holds the whole line. *)
Lemma format_entry_line date_text cfg e : entry_ok e ->
  format_entry date_text cfg e = Some (line_of date_text cfg e, String.length (line_of date_text cfg e)) /\ (String.length (line_of date_text cfg e) < LOG_BUFFER_SIZE)%nat.
Proof.
  intros He. pose proof (head_bound date_text cfg e He) as Hh. destruct He as (Hm & Hd & Hb).
  set (head := _ +:+ " [" +:+ _) in Hh.
  assert (Hline : line_of date_text cfg e = head +:+ (match data e with [] => "" | _ => " - " +:+ hexes (data e) end) +:+ newline).
  { unfold line_of, head. by rewrite !append_assoc. }
  pose proof (length_hexes _ Hb) as Hx. unfold format_entry. destruct (data e) as [|b l] eqn:Ed.
  - assert (Hp : sprintf ("%s [%s] %s%s%s: %s" +:+ newline) (format_args date_text cfg e) = Some (head +:+ newline)).
    { unfold head, format_args. rewrite !append_assoc. destruct (include_session_id cfg); [|done]. by rewrite !append_assoc. }
    rewrite Hp. cbn [mbind option_bind]. change ("" +:+ newline) with newline in Hline. rewrite Hline.
    assert (Hl : (String.length (head +:+ newline) <= 100)%nat) by (rewrite length_append; change (String.length newline) with 1%nat; lia).
    rewrite snprintf_appends by (unfold LOG_BUFFER_SIZE; done || lia). split; [done|]. unfold LOG_BUFFER_SIZE. lia.
  - assert (Hp : sprintf "%s [%s] %s%s%s: %s - " (format_args date_text cfg e) = Some (head +:+ " - ")).
    { unfold head, format_args. rewrite !append_assoc. destruct (include_session_id cfg); [|done]. by rewrite !append_assoc. }
    rewrite Hp. cbn [mbind option_bind].
    assert (Hl : (String.length (head +:+ " - ") <= 102)%nat) by (rewrite length_append; change (String.length " - ") with 3%nat; lia).
    rewrite snprintf_appends by (unfold LOG_BUFFER_SIZE; done || lia). cbn [mbind option_bind fst snd]. change ("" +:+ ?x) with x.
    rewrite hex_dump_appends by (unfold LOG_BUFFER_SIZE; done || lia). cbn [mbind option_bind fst snd].
    rewrite snprintf_appends; [| |unfold LOG_BUFFER_SIZE; change (String.length newline) with 1%nat; lia].
    2:{ by rewrite !length_append, Hx. }
    cbn [mbind option_bind fst snd]. rewrite Hline, !length_append, !append_assoc, Hx. change (String.length " - ") with 3%nat.
    change (String.length newline) with 1%nat. unfold LOG_BUFFER_SIZE. rewrite length_append in Hl. change (String.length " - ") with 3%nat in Hl.
    split; [do 2 f_equal; lia|lia].
Qed.

(** ** Rotation *)

Lemma rename_lookup old new d name : old <> new ->
  rename old new d !! name = if decide (name = old) then None else if decide (name = new) then (match d !! old with Some t => Some t | None => d !! new end) else d !! name.
Proof.
  intros Hne. unfold rename. destruct (d !! old) as [t|] eqn:E.
  - destruct (decide (name = old)) as [->|]; [by rewrite lookup_insert_ne, lookup_delete_eq|].
    destruct (decide (name = new)) as [->|]; [by rewrite lookup_insert_eq|]. by rewrite lookup_insert_ne, lookup_delete_ne.
  - destruct (decide (name = old)) as [->|]; [done|]. by destruct (decide (name = new)) as [->|].
Qed.
(** The backups move up by one, if the last of them has gone. *)
Lemma rotate_loop_spec f i d : d !! backup f (S i) = None ->
  (forall j, (1 <= j <= i)%nat -> rotate_loop f i d !! backup f (S j) = d !! backup f j) /\ rotate_loop f i d !! backup f 1 = None /\
  (forall name, (forall j, (1 <= j <= S i)%nat -> name <> backup f j) -> rotate_loop f i d !! name = d !! name).
Proof.
  revert d. induction i as [|i IH]; intros d Hd; cbn [rotate_loop].
  - split_and!; [lia|done|done].
  - assert (Hne : forall a b, a <> b -> backup f a <> backup f b) by (intros a b Hab H; by apply backup_inj in H).
    set (d1 := rename _ _ d). assert (H1 : forall name, d1 !! name = if decide (name = backup f (S i)) then None
      else if decide (name = backup f (S (S i))) then d !! backup f (S i) else d !! name).
    { intros name. unfold d1. rewrite rename_lookup by (apply Hne; lia). rewrite Hd. by destruct (d !! backup f (S i)). }
    destruct (IH d1) as (I1 & I2 & I3); [by rewrite H1, decide_True|]. split_and!; [|done|].
    + intros j Hj. destruct (decide (j = S i)) as [->|Hji].
      * rewrite I3; [by rewrite H1, decide_False, decide_True by (try apply Hne; done || lia)|]. intros j' Hj'. apply Hne. lia.
      * rewrite I1 by lia. by rewrite H1, !decide_False by (apply Hne; lia).
    + intros name Hn. rewrite I3; [by rewrite H1, !decide_False by (apply Hn; lia)|]. intros j Hj. apply Hn. lia.
Qed.
(** What a rotation does to the files before the new one is opened. *)
Definition rotated (f : string) (n : nat) (d : gmap string string) : gmap string string :=
  rename f (backup f 1) (rotate_loop f (n - 1) (delete (backup f n) d)).
Lemma rotated_spec f n d text : d !! f = Some text ->
  rotated f n d !! f = None /\ rotated f n d !! backup f 1 = Some text /\
  (forall j, (1 <= j < n)%nat -> rotated f n d !! backup f (S j) = d !! backup f j) /\
  (forall name, name <> f -> (forall j, (j <= Nat.max 1 n)%nat -> name <> backup f j) -> rotated f n d !! name = d !! name).
Proof.
  intros Hf. assert (Hb : forall i, f <> backup f i) by (intros i H; by apply (backup_ne f i)).
  assert (Hne : forall a b, a <> b -> backup f a <> backup f b) by (intros a b Hab H; by apply backup_inj in H).
  unfold rotated. set (d0 := delete (backup f n) d). assert (Hloop : rotate_loop f (n - 1) d0 !! f = Some text /\
    (forall j, (1 <= j < n)%nat -> rotate_loop f (n - 1) d0 !! backup f (S j) = d !! backup f j) /\
    (forall name, name <> f -> (forall j, (j <= Nat.max 1 n)%nat -> name <> backup f j) -> rotate_loop f (n - 1) d0 !! name = d !! name)).
  { destruct n as [|n].
    - change (0 - 1)%nat with 0%nat. cbn [rotate_loop]. split_and!; [unfold d0; by rewrite lookup_delete_ne|lia|]. intros name Hn Hj. unfold d0.
      rewrite lookup_delete_ne; [done|]. intros E. by apply (Hj 0%nat); [lia|].
    - replace (S n - 1)%nat with n by lia. destruct (rotate_loop_spec f n d0) as (I1 & I2 & I3); [unfold d0; by rewrite lookup_delete_eq|]. split_and!.
      + rewrite I3; [unfold d0; by rewrite lookup_delete_ne|]. intros j _. apply Hb.
      + intros j Hj. rewrite I1 by lia. unfold d0. rewrite lookup_delete_ne; [done|]. apply Hne. lia.
      + intros name Hn Hj. rewrite I3 by (intros j Hj'; apply Hj; lia). unfold d0. rewrite lookup_delete_ne; [done|]. intros E. by apply (Hj (S n)); [lia|]. }
  destruct Hloop as (L1 & L2 & L3). split_and!.
  - by rewrite rename_lookup, decide_True.
  - rewrite rename_lookup, decide_False, decide_True by done. by rewrite L1.
  - intros j Hj. rewrite rename_lookup, !decide_False by (try apply Hne; done || lia). by apply L2.
  - intros name Hn Hj. rewrite rename_lookup, !decide_False by (try apply Hj; done || lia). by apply L3.
Qed.

(** Without a current file the other files stay as well. *)
Lemma rotated_others f n d name : name <> f -> (forall j, name <> backup f j) -> rotated f n d !! name = d !! name.
Proof.
  intros Hn Hj. assert (Hloop : forall i d, rotate_loop f i d !! name = d !! name).
  { induction i as [|i IH]; intros d'; cbn [rotate_loop]; [done|]. rewrite IH, rename_lookup by (intros E; apply backup_inj in E; lia). by rewrite !decide_False. }
  unfold rotated. rewrite rename_lookup by (intros E; by apply (backup_ne f 1)). by rewrite !decide_False, Hloop, lookup_delete_ne.
Qed.

(** ** What the files hold

    The abstract log: the text of the current file, the number of bytes it counts as, the
    backups with the newest first, and what was printed.  At least one backup is kept. *)

Record Log := mkLog {
  lg_config : LoggerConfig; lg_now : Z; lg_current : string; lg_size : Z; lg_backups : list (option string); lg_console : string }.
#[export] Instance eta_Log : Eta Log := fun g => mkLog (lg_config g) (lg_now g) (lg_current g) (lg_size g) (lg_backups g) (lg_console g).
Definition kept_backups (cfg : LoggerConfig) : nat := Nat.max 1 (max_backup_files cfg).
(** One more line. The first line of a file is not counted. *)
Definition log_line (line : string) (g : Log) : Log :=
  let size := u32 (lg_size g + Z.of_nat (String.length line)) in
  let g := if console_output (lg_config g) then g <| lg_console ::= fun text => text +:+ line |> else g in
  if max_file_size (lg_config g) <=? size
  then g <| lg_backups := Some (lg_current g) :: take (kept_backups (lg_config g) - 1) (lg_backups g) |> <| lg_current := line |> <| lg_size := 0 |>
  else g <| lg_current ::= fun text => text +:+ line |> <| lg_size := size |>.
Record log_wf (s : LoggerContext) (g : Log) : Prop := {
  lw_free : logger_mutex s = false; lw_init : initialized s = true;
  lw_config : config s = lg_config g; lw_now : now s = lg_now g;
  lw_file : file s = Some (filename (config s)); lw_writable : writable s (filename (config s)) = true;
  lw_size : current_file_size s = lg_size g; lw_console : console s = lg_console g;
  lw_current : disk s !! filename (config s) = Some (lg_current g);
  lw_length : length (lg_backups g) = kept_backups (config s);
  lw_backups : forall i b, lg_backups g !! i = Some b -> disk s !! backup (filename (config s)) (S i) = b }.
(** Files the logger has nothing to do with. *)
Definition other_file (cfg : LoggerConfig) (name : string) : Prop :=
  name <> filename cfg /\ forall j, (j <= kept_backups cfg)%nat -> name <> backup (filename cfg) j.
Definition others_kept (cfg : LoggerConfig) (s s' : LoggerContext) : Prop := forall name, other_file cfg name -> disk s' !! name = disk s !! name.

Lemma wp_lift_log {A} (o : option A) a Q s m : o = Some a -> Q a s m -> wp (lift o) Q s m.
Proof. by intros ->. Qed.

(** The file is written to, without a rotation and with one. *)
Lemma append_wf s g line : log_wf s g ->
  log_wf (s <| disk ::= alter (fun text => text +:+ line) (filename (config s)) |>) (g <| lg_current ::= fun text => text +:+ line |>).
Proof.
  intros Hw. destruct Hw. constructor; cbn; try done.
  - by rewrite lookup_alter_eq, lw_current0.
  - intros i b Hb. rewrite lookup_alter_ne; [by apply lw_backups0|]. intros E. by apply (backup_ne (filename (config s)) (S i)).
Qed.
Lemma rotate_wf s g : log_wf s g ->
  log_wf (s <| disk := <[filename (config s) := ""]> (rotated (filename (config s)) (max_backup_files (config s)) (disk s)) |> <| current_file_size := 0 |>)
    (g <| lg_backups := Some (lg_current g) :: take (kept_backups (lg_config g) - 1) (lg_backups g) |> <| lg_current := "" |> <| lg_size := 0 |>).
Proof.
  intros Hw. set (f := filename (config s)). destruct (rotated_spec f (max_backup_files (config s)) (disk s) (lg_current g)) as (R1 & R2 & R3 & R4); [apply Hw|].
  pose proof (lw_length _ _ Hw) as Hl. rewrite (lw_config _ _ Hw) in Hl. unfold kept_backups in *. destruct Hw. constructor; cbn; try done.
  - fold f. by rewrite lookup_insert_eq.
  - unfold kept_backups. rewrite length_take, Hl, lw_config0. lia.
  - fold f. intros i b Hb. rewrite lookup_insert_ne by (intros E; by apply (backup_ne f (S i))). destruct i as [|i]; cbn in Hb.
    + injection Hb as <-. exact R2.
    + apply lookup_take_Some in Hb as [Hb Hi]. rewrite <- lw_config0 in Hi. rewrite R3 by lia. by apply lw_backups0.
Qed.

Section runs.
Context (date_text : Z -> string).

Lemma entry_written e s g m : log_wf s g -> entry_ok e ->
  wp (write_log_entry date_text e) (fun _ s' m' => m' = m /\ log_wf s' (log_line (line_of date_text (lg_config g) e) g) /\ others_kept (config s) s s') s m.
Proof.
  intros Hw He. unfold write_log_entry. apply wp_bind, wp_get. rewrite (lw_init _ _ Hw). cbn [negb]. apply wp_bind, wp_lock_free; [apply Hw|].
  destruct (format_entry_line date_text (config s) e He) as [Hf _]. apply wp_bind. eapply wp_lift_log; [exact Hf|]. cbn [fst snd].
  apply wp_bind, wp_modify. rewrite (lw_config _ _ Hw). set (line := line_of date_text (lg_config g) e) in *. rewrite (lw_file _ _ Hw).
  set (g1 := if console_output (lg_config g) then g <| lg_console ::= fun text => text +:+ line |> else g).
  (* the state after printing, with the mutex released *)
  assert (Hprint : forall Q : unit -> LoggerContext -> Machine -> Prop,
    (forall s1, log_wf (s1 <| logger_mutex := false |>) g1 -> logger_mutex s1 = true -> log_buffer s1 = line -> config s1 = config s -> disk s1 = disk s -> Q tt s1 m) ->
    wp (if console_output (lg_config g) then modify (fun s => s <| console ::= fun text => text +:+ log_buffer s |>) else mret tt) Q
      ((set_locked true s) <| log_buffer := line |>) m).
  { intros Q HQ. unfold g1 in HQ. destruct (console_output (lg_config g)); [apply wp_modify|apply wp_ret]; apply HQ; try done; destruct Hw; constructor; cbn; try done.
    by rewrite lw_console0. }
  apply wp_bind, Hprint. clear Hprint. intros s1 Hw1 Hm1 Hb1 Hc1 Hd1.
  assert (Hcfg : lg_config g1 = lg_config g) by (unfold g1; by destruct (console_output _)).
  assert (Hcs : config s1 = lg_config g) by (rewrite Hc1; apply Hw).
  assert (Hsz : current_file_size s1 = lg_size g) by (pose proof (lw_size _ _ Hw1) as H; cbn in H; rewrite H; unfold g1; by destruct (console_output _)).
  assert (Hothers : forall text, others_kept (config s) s (s1 <| disk ::= alter text (filename (config s1)) |>)).
  { intros text name [Hn _]. cbn. by rewrite Hc1, lookup_alter_ne, Hd1. }
  unfold log_line. fold g1. rewrite Hcfg, <- Hsz, <- Hcs. rewrite <- Hcs in Hcfg.
  apply wp_bind, wp_bind, wp_modify, wp_bind, wp_get. cbn [max_file_size config current_file_size setf]. set (size := u32 _). apply wp_bind.
  pose proof (lw_file _ _ Hw1) as Hfile. cbn in Hfile. destruct (max_file_size (config s1) <=? size).
  - unfold rotate_log_file. apply wp_bind, wp_bind, wp_get. cbn [file setf]. rewrite Hfile. apply wp_bind, wp_modify, wp_bind. unfold open_file. apply wp_bind, wp_get.
    pose proof (lw_writable _ _ Hw1) as Hwr. cbn in Hwr. cbn [writable config setf]. rewrite Hwr.
    apply wp_bind, wp_modify, wp_ret. cbn [negb]. apply wp_bind, wp_modify, wp_ret, wp_ret. unfold print_file. apply wp_bind, wp_get. cbn [file setf]. apply wp_modify.
    apply wp_unlock_held; [exact Hm1|]. split; [done|]. pose proof (append_wf _ _ line (rotate_wf _ _ Hw1)) as Hfin. split.
    + rewrite Hcfg in Hfin. cbn in Hfin |- *. rewrite Hb1, Hfile in *. destruct Hfin. by constructor.
    + intros name [Hn Hj]. rewrite Hc1 in Hn, Hj. cbn. rewrite Hc1, Hd1, lookup_alter_ne, lookup_insert_ne by congruence.
      destruct (rotated_spec (filename (config s)) (max_backup_files (config s)) (disk s) (lg_current g)) as (_ & _ & _ & R4); [apply Hw|]. exact (R4 name Hn Hj).
  - apply wp_ret. unfold print_file. apply wp_bind, wp_get. cbn [file setf]. rewrite Hfile.
    apply wp_modify, wp_unlock_held; [exact Hm1|]. split; [done|]. pose proof (append_wf _ _ line Hw1) as Hfin. split.
    + cbn in Hfin |- *. rewrite Hb1, Hfile in *. destruct Hfin. by constructor.
    + rewrite <- Hc1 in Hothers. exact (Hothers _).
Qed.

(** The calls; time passes between them. *)
Inductive LogOp :=
| OpLog (l : LogLevel) (mod_name text : string)
| OpHex (l : LogLevel) (mod_name : string) (bytes : list Z) (text : string)
| OpSession (id : Z) (l : LogLevel) (mod_name text : string)
| OpSetLevel (code : Z) | OpConsole (enable : bool) | OpFlush | OpTime (t : Z).
Definition log_exec (op : LogOp) : M LoggerContext unit :=
  match op with
  | OpLog l mod_name text => Logger_Log date_text l mod_name text
  | OpHex l mod_name bytes text => Logger_LogHex date_text l mod_name bytes (length bytes) text
  | OpSession id l mod_name text => Logger_LogSession date_text id l mod_name text
  | OpSetLevel code => Logger_SetLevel code;; mret tt
  | OpConsole enable => Logger_EnableConsoleOutput enable;; mret tt
  | OpFlush => Logger_Flush
  | OpTime t => modify (fun s => s <| now := t |>)
  end.
(** The entry a call writes, if it is not below the level. *)
Definition entry_of (op : LogOp) (t : Z) : option LogEntry :=
  match op with
  | OpLog l mod_name text => Some (mkLogEntry 0 t l (substring 0 31 mod_name) (substring 0 255 text) [])
  | OpHex l mod_name bytes text => Some (mkLogEntry 0 t l (substring 0 31 mod_name) (substring 0 255 text) (take 128 bytes))
  | OpSession id l mod_name text => Some (mkLogEntry id t l (substring 0 31 mod_name) (substring 0 255 text) [])
  | _ => None
  end.
Definition line_for (op : LogOp) (g : Log) : option string :=
  e ← entry_of op (lg_now g);
  if level_code (level e) <? level_code (min_level (lg_config g)) then None else Some (line_of date_text (lg_config g) e).
Definition log_step (op : LogOp) (g : Log) : Log :=
  match line_for op g with
  | Some line => log_line line g
  | None =>
      match op with
      | OpSetLevel code => if level_code LOG_LEVEL_CRITICAL <? code then g
          else g <| lg_config ::= fun c => c <| min_level := default (min_level c) (level_of code) |> |>
      | OpConsole enable => g <| lg_config ::= fun c => c <| console_output := enable |> |>
      | OpTime t => g <| lg_now := t |>
      | _ => g
      end
  end.
Definition op_ok (op : LogOp) : Prop := match op with OpHex _ _ bytes _ => Forall is_u8 bytes | _ => True end.
End runs.

(** ** Runs *)

Section theorems.
Context (date_text : Z -> string).

Lemma entry_of_ok op t e : op_ok op -> entry_of op t = Some e -> entry_ok e.
Proof.
  intros Hok He. assert (Hm : forall x, (String.length (substring 0 31 x) <= 31)%nat) by (intros; apply length_substring).
  destruct op; cbn in He; try done; injection He as <-; (split; [apply Hm|]; cbn [data]; split; [try (cbn; lia)|try done]).
  - rewrite length_take. lia.
  - by apply Forall_take.
Qed.
(** The functions that log, in one form. *)
Lemma log_exec_entry op s m e : entry_of op (now s) = Some e ->
  log_exec date_text op s m = (if ignored (level e) s then mret tt else write_log_entry date_text e) s m.
Proof.
  intros He. destruct op; cbn in He; try done; injection He as <-; try done.
  cbn [log_exec]. unfold Logger_LogHex. unfold mbind at 1, M_bind at 1, get at 1. cbn [level]. destruct (ignored _ s); [done|].
  destruct (_ <? length bytes)%nat eqn:E; tests.
  - destruct (_ <? 128)%nat eqn:E'; tests; [lia|done].
  - destruct (_ <? length bytes)%nat eqn:E'; tests; [lia|]. by rewrite !take_ge by lia.
Qed.
Lemma same_files op g : filename (lg_config (log_step date_text op g)) = filename (lg_config g) /\ kept_backups (lg_config (log_step date_text op g)) = kept_backups (lg_config g).
Proof.
  unfold log_step. destruct (line_for _ op g) as [line|].
  - unfold log_line. destruct (console_output _); cbn; by destruct (_ <=? _).
  - destruct op; try done. by destruct (_ <? _).
Qed.
Lemma log_op_ok op s g m : log_wf s g -> op_ok op ->
  wp (log_exec date_text op) (fun _ s' m' => m' = m /\ log_wf s' (log_step date_text op g) /\ others_kept (config s) s s') s m.
Proof.
  intros Hw Hok. destruct (entry_of op (now s)) as [e|] eqn:He.
  - unfold wp. rewrite (log_exec_entry op s m e He). unfold ignored, log_step, line_for. rewrite (lw_init _ _ Hw), <- (lw_now _ _ Hw), He, <- (lw_config _ _ Hw).
    cbn [negb orb mbind option_bind]. destruct (_ <? _).
    + destruct op; try done; by apply wp_ret.
    + rewrite (lw_config _ _ Hw). eapply wp_mono; [apply entry_written; [done|by eapply entry_of_ok]|]. intros [] s' m' (-> & Hw' & Ho). by rewrite (lw_config _ _ Hw) in Ho.
  - unfold log_step, line_for. rewrite <- (lw_now _ _ Hw), He. cbn [mbind option_bind]. destruct op; try done; cbn [log_exec].
    + unfold Logger_SetLevel, set_config. destruct (_ <? code) eqn:Ec; tests; [by apply wp_bind, wp_ret, wp_ret|].
      assert (Hl : exists l, level_of code = Some l).
      { unfold level_of. apply lookup_lt_is_Some_2. change (level_code LOG_LEVEL_CRITICAL) with 4 in Ec. cbn. lia. }
      destruct Hl as [l Hl]. apply wp_bind, wp_bind. eapply wp_lift_log; [exact Hl|]. apply wp_bind, wp_modify, wp_ret, wp_ret. split; [done|]. split; [|by intros ? _].
      rewrite Hl. destruct Hw. constructor; cbn; try done. by rewrite lw_config0.
    + apply wp_bind. unfold Logger_EnableConsoleOutput, set_config. apply wp_bind, wp_modify, wp_ret, wp_ret. split; [done|]. split; [|by intros ? _].
      destruct Hw. constructor; cbn; try done. by rewrite lw_config0.
    + apply wp_modify. split; [done|]. split; [|by intros ? _]. by destruct Hw.
Qed.
Fixpoint log_run (ops : list LogOp) : M LoggerContext unit := match ops with [] => mret tt | op :: ops => log_exec date_text op;; log_run ops end.
Definition log_steps (ops : list LogOp) (g : Log) : Log := foldl (fun g op => log_step date_text op g) g ops.
Lemma log_run_ok ops s g m : log_wf s g -> Forall op_ok ops ->
  wp (log_run ops) (fun _ s' m' => m' = m /\ log_wf s' (log_steps ops g) /\ others_kept (config s) s s') s m.
Proof.
  intros Hw Hok. revert s g m Hw. induction Hok as [|op ops Hop _ IH]; intros s g m Hw; cbn [log_run]; [by apply wp_ret|].
  apply wp_bind. eapply wp_mono; [by apply log_op_ok|]. intros [] s1 m1 (-> & Hw1 & Ho1). eapply wp_mono; [by apply IH|].
  intros [] s2 m2 (-> & Hw2 & Ho2). split_and!; [done|done|]. intros name Hn. rewrite Ho2, Ho1; [done|done|].
  destruct (same_files op g) as [E1 E2]. destruct Hn as [Hn Hj]. unfold other_file. rewrite (lw_config _ _ Hw1), E1, E2, <- (lw_config _ _ Hw). done.
Qed.

(** ** What is kept *)

Definition joined (l : list string) : string := foldr String.append "" l.
Fixpoint lines_of (ops : list LogOp) (g : Log) : list string :=
  match ops with
  | [] => []
  | op :: ops => match line_for date_text op g with Some line => line :: lines_of ops (log_step date_text op g) | None => lines_of ops (log_step date_text op g) end
  end.
Lemma joined_app l l' : joined (l ++ l') = joined l +:+ joined l'.
Proof. induction l as [|a l IH]; [done|]. cbn [app]. change (joined (a :: ?x)) with (a +:+ joined x). by rewrite IH, append_assoc. Qed.
(** The files so far, the newest first, of which the last ones are kept. *)
Definition files_are (text : string) (older : list string) (g : Log) : Prop :=
  text = joined (rev older) +:+ lg_current g /\ lg_backups g = take (kept_backups (lg_config g)) ((Some <$> older) ++ replicate (kept_backups (lg_config g)) None).
Lemma log_line_files line g text older : files_are text older g -> exists older', files_are (text +:+ line) older' (log_line line g).
Proof.
  intros [-> Hb]. unfold files_are, log_line. set (g1 := if console_output _ then _ else g).
  assert (H1 : lg_current g1 = lg_current g /\ lg_backups g1 = lg_backups g /\ lg_config g1 = lg_config g) by (unfold g1; by destruct (console_output _)).
  destruct H1 as (E1 & E2 & E3). destruct (_ <=? _).
  - exists (lg_current g :: older). cbn. rewrite E1, E2, E3, joined_app. cbn [joined foldr]. rewrite append_nil. split; [done|].
    set (k := kept_backups (lg_config g)) in *. assert (Hk : (0 < k)%nat) by (unfold k, kept_backups; lia). rewrite Hb, take_take. destruct k as [|k]; [lia|].
    replace (S k - 1)%nat with k by lia. rewrite Nat.min_l by lia. done.
  - exists older. cbn. rewrite E1, E2, E3. split; [by rewrite append_assoc|done].
Qed.
Lemma log_steps_files ops g text older : files_are text older g -> exists older', files_are (text +:+ joined (lines_of ops g)) older' (log_steps ops g).
Proof.
  revert g text older. induction ops as [|op ops IH]; intros g text older Hf; cbn [lines_of]; [exists older; by rewrite append_nil|].
  assert (Hstep : exists older', files_are (text +:+ default "" (line_for date_text op g)) older' (log_step date_text op g)).
  { unfold log_step. destruct (line_for date_text op g) as [line|]; [by eapply log_line_files|]. exists older. cbn [default]. rewrite append_nil.
    destruct op; try done. by destruct (_ <? _). }
  destruct Hstep as [older' Hstep]. destruct (IH _ _ _ Hstep) as [older2 H2]. exists older2. change (log_steps (op :: ops) g) with (log_steps ops (log_step date_text op g)).
  destruct (line_for date_text op g); cbn [default from_option id] in H2; [|by rewrite append_nil in H2]. change (joined (?a :: ?b)) with (a +:+ joined b). by rewrite append_assoc in H2.
Qed.

(** ** Size *)

Definition longest : Z := Z.of_nat LOG_BUFFER_SIZE - 1.
Definition bounded (max : Z) (g : Log) : Prop :=
  0 <= lg_size g /\ (lg_size g < max \/ lg_size g = 0) /\ Z.of_nat (String.length (lg_current g)) <= lg_size g + longest /\
  Forall (fun b => forall text, b = Some text -> Z.of_nat (String.length text) <= max + longest) (lg_backups g).
Lemma log_line_bounded max line g : bounded max g -> max_file_size (lg_config g) = max -> 0 <= max -> max + longest < 2 ^ 32 ->
  Z.of_nat (String.length line) <= longest -> bounded max (log_line line g).
Proof.
  intros (H0 & Hs & Hc & Hb) Hmax Hm0 Hm Hl. unfold bounded, log_line. set (g1 := if console_output _ then _ else g).
  assert (H1 : lg_current g1 = lg_current g /\ lg_backups g1 = lg_backups g /\ lg_size g1 = lg_size g) by (unfold g1; by destruct (console_output _)).
  destruct H1 as (E1 & E2 & E3). unfold longest, LOG_BUFFER_SIZE in *.
  assert (Hu : u32 (lg_size g + Z.of_nat (String.length line)) = lg_size g + Z.of_nat (String.length line)).
  { destruct Hs as [Hs|Hs]; apply u32_small; unfold is_u32; lia. }
  rewrite Hu. assert (Hcm : max_file_size (lg_config g1) = max) by (unfold g1; by destruct (console_output _)). rewrite Hcm.
  destruct (_ <=? _) eqn:E; tests; cbn; rewrite ?E1, ?E2.
  - split_and!; [lia|by right|lia|]. constructor; [intros text [= <-]; lia|]. by apply Forall_take.
  - rewrite length_append. split_and!; [lia|left; lia|lia|done].
Qed.
Lemma log_steps_bounded max ops g : Forall op_ok ops -> bounded max g -> max_file_size (lg_config g) = max -> 0 <= max -> max + longest < 2 ^ 32 ->
  bounded max (log_steps ops g).
Proof.
  intros Hok. revert g. induction Hok as [|op ops Hop _ IH]; intros g Hb Hmax Hm0 Hm; [done|].
  change (log_steps (op :: ops) g) with (log_steps ops (log_step date_text op g)).
  assert (Hcm : max_file_size (lg_config (log_step date_text op g)) = max).
  { unfold log_step. destruct (line_for _ op g) as [line|]; [unfold log_line; destruct (console_output _); cbn; by destruct (_ <=? _)|].
    destruct op; try done. by destruct (_ <? _). }
  apply IH; try done. unfold log_step, line_for. destruct (entry_of op (lg_now g)) as [e|] eqn:He; cbn [mbind option_bind].
  - destruct (_ <? _); [by destruct op|]. apply log_line_bounded; try done.
    destruct (format_entry_line date_text (lg_config g) e) as [_ Hlen]; [by eapply entry_of_ok|]. unfold longest. lia.
  - destruct op; try done. by destruct (_ <? _).
Qed.
End theorems.

(** ** Theorems *)

(** Along every run of logging, setting the level, console output and passing time the
    current file, its counted size, the backups and the console hold what the abstract log
    says, the mutex is free after every call, and no other file is touched. *)
Theorem log_refines date_text ops s g m : log_wf s g -> Forall op_ok ops ->
  wp (log_run date_text ops) (fun _ s' m' => m' = m /\ log_wf s' (log_steps date_text ops g) /\ others_kept (config s) s s') s m.
Proof. apply log_run_ok. Qed.

(** Nothing is lost but whole old files: what a run writes to an empty log is, in order,
    the text of the older files and of the current one, and backup [i] holds the [i]-th
    newest of the older files. *)
Theorem rotation_keeps_newest date_text ops s g m : log_wf s g -> Forall op_ok ops -> lg_current g = "" -> Forall (eq None) (lg_backups g) ->
  wp (log_run date_text ops) (fun _ s' _ => exists older text, disk s' !! filename (config s) = Some text /\
    joined (lines_of date_text ops g) = joined (rev older) +:+ text /\
    forall i, (i < kept_backups (config s))%nat -> disk s' !! backup (filename (config s)) (S i) = older !! i) s m.
Proof.
  intros Hw Hok Hc Hb. assert (Hf : files_are "" [] g).
  { split; [by rewrite Hc|]. cbn [fmap list_fmap app]. rewrite take_ge by (by rewrite length_replicate). rewrite <- (lw_config _ _ Hw), <- (lw_length _ _ Hw).
    clear -Hb. induction Hb as [|b l <- _ IH]; [done|]. cbn. by f_equal. }
  destruct (log_steps_files date_text ops g "" [] Hf) as (older & Ht & Hbk). eapply wp_mono; [by apply log_run_ok|]. intros [] s' m' (-> & Hw' & _).
  assert (Hsame : filename (config s') = filename (config s) /\ kept_backups (config s') = kept_backups (config s)).
  { rewrite (lw_config _ _ Hw'), (lw_config _ _ Hw). clear. revert g. induction ops as [|op ops IH]; intros g; [done|].
    change (log_steps date_text (op :: ops) g) with (log_steps date_text ops (log_step date_text op g)). destruct (IH (log_step date_text op g)) as [-> ->]. apply same_files. }
  destruct Hsame as [E1 E2]. exists older, (lg_current (log_steps date_text ops g)). rewrite <- E1, <- E2. split_and!; [apply Hw'|exact Ht|].
  intros i Hi. rewrite <- (lw_config _ _ Hw') in Hbk. destruct (lookup_lt_is_Some_2 (lg_backups (log_steps date_text ops g)) i) as [b Hlk]; [by rewrite (lw_length _ _ Hw')|].
  rewrite (lw_backups _ _ Hw' i b Hlk). rewrite Hbk, lookup_take in Hlk. destruct (decide _); [|lia]. apply lookup_app_Some in Hlk as [Hlk|[Hlen Hlk]].
  - rewrite list_lookup_fmap in Hlk. apply fmap_Some in Hlk as (x & Hx & ->). by rewrite Hx.
  - apply lookup_replicate in Hlk as [-> _]. rewrite length_fmap in Hlen. by rewrite lookup_ge_None_2.
Qed.

(** No message is ever written: whatever the text, the three functions do the same. The
    formats have six conversions for seven arguments. *)
Theorem message_never_written date_text l mod_name t t' id bytes n s m :
  Logger_Log date_text l mod_name t s m = Logger_Log date_text l mod_name t' s m /\
  Logger_LogHex date_text l mod_name bytes n t s m = Logger_LogHex date_text l mod_name bytes n t' s m /\
  Logger_LogSession date_text id l mod_name t s m = Logger_LogSession date_text id l mod_name t' s m.
Proof.
  assert (Hw : forall i u md d s, write_log_entry date_text (mkLogEntry i u l md (substring 0 255 t) d) s m = write_log_entry date_text (mkLogEntry i u l md (substring 0 255 t') d) s m).
  { intros i u md d s0. assert (Hf : forall cfg, format_entry date_text cfg (mkLogEntry i u l md (substring 0 255 t) d) = format_entry date_text cfg (mkLogEntry i u l md (substring 0 255 t') d)).
    { intros cfg. unfold format_entry, format_args. cbn [data timestamp level module message]. by destruct d, (include_session_id cfg). }
    unfold write_log_entry, mbind, M_bind, get. by rewrite Hf. }
  unfold Logger_Log, Logger_LogHex, Logger_LogSession. unfold mbind, M_bind, get. split_and!; (destruct (ignored l s); [done|]); [apply Hw| |apply Hw].
  cbv zeta. match goal with |- context [(length bytes <? ?k)%nat] => destruct (length bytes <? k)%nat end; [done|apply Hw].
Qed.

(** The line of an entry fits the buffer: nothing of it is cut off and its length is what
    the file is said to have grown by. *)
Theorem line_fits date_text cfg id t l mod_name text bytes : Forall is_u8 bytes ->
  let e := mkLogEntry id t l (substring 0 31 mod_name) (substring 0 255 text) (take 128 bytes) in
  format_entry date_text cfg e = Some (line_of date_text cfg e, String.length (line_of date_text cfg e)) /\
  Z.of_nat (String.length (line_of date_text cfg e)) <= longest.
Proof.
  intros Hb e. destruct (format_entry_line date_text cfg e) as [Hf Hlen].
  - split; [apply length_substring|]. split; [cbn; rewrite length_take; lia|by apply Forall_take].
  - split; [done|]. unfold longest. lia.
Qed.

(** A file grows beyond the limit by at most one buffer, because the line that starts it
    is not counted. *)
Theorem file_size_bound date_text ops s g m : log_wf s g -> Forall op_ok ops -> 0 <= max_file_size (config s) -> max_file_size (config s) + longest < 2 ^ 32 ->
  lg_current g = "" -> lg_size g = 0 -> Forall (eq None) (lg_backups g) ->
  wp (log_run date_text ops) (fun _ s' _ => forall name text, name = filename (config s) \/ (exists i, (1 <= i <= kept_backups (config s))%nat /\ name = backup (filename (config s)) i) ->
    disk s' !! name = Some text -> Z.of_nat (String.length text) <= max_file_size (config s) + longest) s m.
Proof.
  intros Hw Hok Hm0 Hm Hc Hs Hb. assert (Hbd : bounded (max_file_size (config s)) g).
  { split_and!; [lia|by right|rewrite Hc, Hs; by vm_compute|]. eapply Forall_impl; [exact Hb|]. by intros b <- text. }
  eapply wp_mono; [by apply log_run_ok|]. intros [] s' m' (-> & Hw' & _).
  destruct (log_steps_bounded date_text _ ops g Hok Hbd) as (H0 & Hsz & Hcur & Hbk); [by rewrite (lw_config _ _ Hw)|done|done|].
  assert (Hsame : filename (config s') = filename (config s) /\ kept_backups (config s') = kept_backups (config s)).
  { rewrite (lw_config _ _ Hw'), (lw_config _ _ Hw). clear. revert g. induction ops as [|op ops IH]; intros g; [done|].
    change (log_steps date_text (op :: ops) g) with (log_steps date_text ops (log_step date_text op g)). destruct (IH (log_step date_text op g)) as [-> ->]. apply same_files. }
  destruct Hsame as [E1 E2]. intros name text [->|(i & Hi & ->)] Ht.
  - rewrite <- E1, (lw_current _ _ Hw') in Ht. injection Ht as <-. lia.
  - destruct i as [|i]; [lia|]. destruct (lookup_lt_is_Some_2 (lg_backups (log_steps date_text ops g)) i) as [b Hlk]; [rewrite (lw_length _ _ Hw'); lia|].
    rewrite <- E1, (lw_backups _ _ Hw' i b Hlk) in Ht. rewrite Forall_lookup in Hbk. by apply (Hbk i b Hlk).
Qed.

(** What [Mutex.v] says of this logger: with the mutex free or held, [Logger_Log] returns
    exactly if the one there does. *)
Theorem logger_mutex_agrees date_text l mod_name t s g m held : log_wf s g ->
  is_Some (Logger_Log date_text l mod_name t (s <| logger_mutex := held |>) m) <->
  is_Some (Mutex.Logger_Log l (s <| logger_mutex := held |>) m).
Proof.
  intros Hw. assert (Hl : logs (log_min (s <| logger_mutex := held |>)) l = negb (ignored l s)).
  { cbn. rewrite (lw_init _ _ Hw). unfold ignored. rewrite (lw_init _ _ Hw). cbn. rewrite Z.leb_antisym. done. }
  assert (Hmx : Mutex.Logger_Log l (s <| logger_mutex := held |>) m =
    (if logs (log_min (s <| logger_mutex := held |>)) l then lock;; unlock else mret tt) (s <| logger_mutex := held |>) m) by done.
  rewrite Hmx, Hl. clear Hmx.
  pose proof (log_exec_entry date_text (OpLog l mod_name t) (s <| logger_mutex := held |>) m _ eq_refl) as He. cbn [log_exec] in He. rewrite He. cbn [level entry_of].
  change (ignored l (s <| logger_mutex := held |>)) with (ignored l s). destruct (ignored l s); cbn [negb]; [split; by eexists|].
  destruct held.
  - assert (Hblock : forall e, write_log_entry date_text e (s <| logger_mutex := true |>) m = None).
    { intros e. unfold write_log_entry. apply undefined_bind, wp_get. cbn [initialized setf]. rewrite (lw_init _ _ Hw). cbn [negb]. by apply undefined_bind', lock_held_blocks. }
    rewrite Hblock. assert (Hlk : (lock;; unlock) (s <| logger_mutex := true |>) m = None) by (by apply undefined_bind', lock_held_blocks). by rewrite Hlk.
  - replace (s <| logger_mutex := false |>) with s by (destruct s; cbn in *; f_equal; apply Hw).
    assert (Hok : entry_ok (mkLogEntry 0 (now s) l (substring 0 31 mod_name) (substring 0 255 t) [])) by (split; [apply length_substring|by split; [cbn; lia|]]).
    split; intros _.
    + assert (Hlk : wp (lock;; unlock) (fun _ _ _ => True) s m) by (apply wp_bind, wp_lock_free; [apply Hw|]; by apply wp_unlock_held).
      unfold wp in Hlk. destruct ((lock;; unlock) s m) as [[[[] ?] ?]|]; [by eexists|done].
    + pose proof (entry_written date_text _ s g m Hw Hok) as Hwr. unfold wp in Hwr. destruct (write_log_entry _ _ s m) as [[[[] ?] ?]|]; [by eexists|done].
Qed.

(** If the file cannot be opened again after a rotation, the line is printed to a file
    that is NULL. *)
Theorem refused_reopen_undefined date_text e s g m : log_wf s g -> entry_ok e ->
  max_file_size (config s) <= u32 (lg_size g + Z.of_nat (String.length (line_of date_text (config s) e))) ->
  write_log_entry date_text e (s <| writable := fun _ => false |>) m = None.
Proof.
  intros Hw He Hsz. unfold write_log_entry. apply undefined_bind, wp_get. cbn [initialized setf]. rewrite (lw_init _ _ Hw). cbn [negb].
  apply undefined_bind, wp_lock_free; [apply Hw|]. destruct (format_entry_line date_text (config s) e He) as [Hf _]. apply undefined_bind. eapply wp_lift_log; [exact Hf|].
  cbn [fst snd]. apply undefined_bind, wp_modify. cbn [config file setf]. rewrite (lw_file _ _ Hw). apply undefined_bind.
  assert (Hp : forall Q : unit -> LoggerContext -> Machine -> Prop, forall s0, (forall s1, file s1 = file s0 -> config s1 = config s0 -> current_file_size s1 = current_file_size s0 -> writable s1 = writable s0 -> Q tt s1 m) ->
    wp (if console_output (config s) then modify (fun s => s <| console ::= fun text => text +:+ log_buffer s |>) else mret tt) Q s0 m).
  { intros Q s0 HQ. by destruct (console_output _); [apply wp_modify|apply wp_ret]; apply HQ. }
  apply Hp. cbn. intros s1 Hfile Hcfg Hsize Hwr. apply undefined_bind'. apply undefined_bind, wp_modify, undefined_bind, wp_get. cbn [max_file_size config current_file_size setf].
  rewrite Hcfg, Hsize, (lw_size _ _ Hw), (proj2 (Z.leb_le _ _)) by done. apply undefined_bind. unfold rotate_log_file. apply wp_bind, wp_bind, wp_get. cbn [file setf]. rewrite Hfile.
  apply wp_bind, wp_modify, wp_bind. unfold open_file. apply wp_bind, wp_get. cbn [writable setf]. rewrite Hwr. apply wp_bind, wp_modify, wp_ret. cbn [negb]. apply wp_ret, wp_ret. done.
Qed.

(** A write that rotates, whatever file is open. *)
Lemma write_rotating date_text e s m : logger_mutex s = false -> initialized s = true -> is_Some (file s) -> writable s (filename (config s)) = true -> entry_ok e ->
  max_file_size (config s) <= u32 (current_file_size s + Z.of_nat (String.length (line_of date_text (config s) e))) ->
  wp (write_log_entry date_text e) (fun _ s' _ => file s' = Some (filename (config s)) /\
    disk s' = alter (fun text => text +:+ line_of date_text (config s) e) (filename (config s))
      (<[filename (config s) := ""]> (rotated (filename (config s)) (max_backup_files (config s)) (disk s)))) s m.
Proof.
  intros Hm Hi [name Hf] Hwr He Hsz. unfold write_log_entry. apply wp_bind, wp_get. rewrite Hi. cbn [negb]. apply wp_bind, wp_lock_free; [exact Hm|].
  destruct (format_entry_line date_text (config s) e He) as [Hfm _]. apply wp_bind. eapply wp_lift_log; [exact Hfm|]. cbn [fst snd]. apply wp_bind, wp_modify.
  rewrite Hf. apply wp_bind.
  eapply (wp_mono _ (fun _ s1 _ => logger_mutex s1 = true /\ log_buffer s1 = line_of date_text (config s) e /\ file s1 = Some name /\ config s1 = config s /\
    writable s1 = writable s /\ current_file_size s1 = current_file_size s /\ disk s1 = disk s)).
  { by destruct (console_output _); [apply wp_modify|apply wp_ret]. }
  intros _ s1 m1 (Hm1 & Hb1 & Hf1 & Hc1 & Hw1 & Hs1 & Hd1). apply wp_bind, wp_bind, wp_modify, wp_bind, wp_get. cbn [max_file_size config current_file_size setf].
  rewrite Hc1, Hs1, (proj2 (Z.leb_le _ _)) by done. apply wp_bind, wp_bind. unfold rotate_log_file. apply wp_bind, wp_get. cbn [file setf]. rewrite Hf1.
  apply wp_bind, wp_modify, wp_bind. unfold open_file. apply wp_bind, wp_get. cbn [writable config setf]. rewrite Hw1, Hwr. apply wp_bind, wp_modify, wp_ret.
  cbn [negb]. apply wp_bind, wp_modify, wp_ret, wp_ret. unfold print_file. apply wp_bind, wp_get. cbn [file setf]. apply wp_modify, wp_unlock_held; [exact Hm1|].
  split; [done|]. cbn. by rewrite Hb1, Hd1.
Qed.

(** A name of more than 63 characters is not the name that is rotated: the file stays as
    it is, and the log goes on in a file with the first 63 characters of its name. *)
Theorem long_name_not_rotated date_text name e s m : logger_mutex s = false -> initialized s = true -> (63 < String.length name)%nat -> entry_ok e ->
  (forall n, writable s n = true) -> disk s !! substring 0 63 name = None ->
  max_file_size (config s) <= Z.of_nat (String.length (line_of date_text ((config s) <| filename := substring 0 63 name |>) e)) ->
  wp (Logger_EnableFileOutput (Some name);; write_log_entry date_text e) (fun _ s' _ => file s' = Some (substring 0 63 name) /\
    (name <> substring 0 63 name -> (forall i, name <> backup (substring 0 63 name) i) -> disk s' !! name = Some "") /\
    disk s' !! substring 0 63 name = Some (line_of date_text ((config s) <| filename := substring 0 63 name |>) e)) s m.
Proof.
  intros Hm Hi Hlong He Hwr Hd Hsz. set (short := substring 0 63 name) in *. set (cfg := (config s) <| filename := short |>) in *.
  assert (Hne : name <> short).
  { intros E. apply (f_equal String.length) in E. unfold short in E. pose proof (length_substring 63 name). lia. }
  destruct (format_entry_line date_text cfg e He) as [_ Hlen]. unfold LOG_BUFFER_SIZE in Hlen.
  apply wp_bind. eapply (wp_mono _ (fun _ s1 _ => logger_mutex s1 = false /\ initialized s1 = true /\ file s1 = Some name /\ config s1 = cfg /\
    (forall n, writable s1 n = true) /\ current_file_size s1 = 0 /\ disk s1 = <[name := ""]> (disk s))).
  - unfold Logger_EnableFileOutput, open_file, set_config. rewrite bool_decide_eq_false_2 by (intros ->; cbn in Hlong; lia).
    apply wp_bind, wp_bind, wp_get. rewrite Hwr. apply wp_bind, wp_modify, wp_ret. cbn [negb]. by apply wp_bind, wp_modify, wp_bind, wp_modify, wp_ret.
  - intros _ s1 m1 (Hm1 & Hi1 & Hf1 & Hc1 & Hw1 & Hs1 & Hd1). eapply wp_mono; [apply (write_rotating date_text e s1); try done|].
    + rewrite Hc1, Hs1, Z.add_0_l, u32_small by (unfold is_u32; lia). exact Hsz.
    + rewrite Hc1, Hd1. change (filename cfg) with short. intros _ s2 m2 [Hf2 Hd2]. rewrite Hd2. split; [done|].
      split; [|by rewrite lookup_alter_eq, lookup_insert_eq]. intros _ Hb. rewrite lookup_alter_ne, lookup_insert_ne by done.
      by rewrite rotated_others, lookup_insert_eq.
Qed.

(** ** Concrete runs *)

Definition example_date (t : Z) : string := "2024-01-01 00:00:0" +:+ pretty t.
(** Two backups, rotation from 40 bytes on. *)
Definition example_config : LoggerConfig := mkLoggerConfig "diag.log" 40 2 true LOG_LEVEL_INFO true true.
Definition example_logger : LoggerContext :=
  mkLogger (Some "diag.log") example_config 0 "" true false {[ "diag.log" := ""; "other" := "text" ]} "" (fun _ => true) 1.
Definition example_log : Log := mkLog example_config 1 "" 0 [None; None] "".
Lemma example_log_wf : log_wf example_logger example_log.
Proof. constructor; try done. intros [|[|i]] b; cbn; intros [= <-]; by vm_compute. Qed.
Definition example_ops : list LogOp :=
  [OpLog LOG_LEVEL_INFO "UDS" "request"; OpLog LOG_LEVEL_DEBUG "UDS" "bytes"; OpHex LOG_LEVEL_ERROR "CAN" [18; 52; 255] "frame";
   OpTime 2; OpSession 65 LOG_LEVEL_WARNING "SESSION" "expired"; OpLog LOG_LEVEL_CRITICAL "OS" "stack"].
Lemma example_ops_ok : Forall op_ok example_ops.
Proof. repeat constructor; by vm_compute. Qed.

Lemma log_refines_witness :
  log_wf example_logger example_log /\
  lg_current (log_steps example_date example_ops example_log) = "2024-01-01 00:00:02 [CRITICAL] OS [Session : ]" +:+ newline /\
  wp (log_run example_date example_ops) (fun _ s' m' => m' = boot /\ log_wf s' (log_steps example_date example_ops example_log) /\
    others_kept (config example_logger) example_logger s') example_logger boot.
Proof. split; [apply example_log_wf|]. split; [by vm_compute|]. apply log_refines; [apply example_log_wf|apply example_ops_ok]. Defined.
Lemma rotation_keeps_newest_witness :
  log_wf example_logger example_log /\
  length (lines_of example_date example_ops example_log) = 4%nat /\
  wp (log_run example_date example_ops) (fun _ s' _ => exists older text, disk s' !! filename (config example_logger) = Some text /\
    joined (lines_of example_date example_ops example_log) = joined (rev older) +:+ text /\
    forall i, (i < kept_backups (config example_logger))%nat -> disk s' !! backup (filename (config example_logger)) (S i) = older !! i) example_logger boot.
Proof.
  split; [apply example_log_wf|]. split; [by vm_compute|].
  apply (rotation_keeps_newest example_date example_ops example_logger example_log); [apply example_log_wf|apply example_ops_ok|done|by repeat constructor].
Defined.
Lemma line_fits_witness :
  let e := mkLogEntry 65 2 LOG_LEVEL_ERROR (substring 0 31 "CAN") (substring 0 255 "frame") (take 128 [18; 52; 255]) in
  line_of example_date example_config e = "2024-01-01 00:00:02 [ERROR] CAN [Session A: ] - 12 34 FF " +:+ newline /\
  format_entry example_date example_config e = Some (line_of example_date example_config e, String.length (line_of example_date example_config e)) /\
  Z.of_nat (String.length (line_of example_date example_config e)) <= longest.
Proof. split; [by vm_compute|]. apply line_fits. repeat constructor; by vm_compute. Defined.
Lemma file_size_bound_witness :
  log_wf example_logger example_log /\
  wp (log_run example_date example_ops) (fun _ s' _ => forall name text,
    name = filename (config example_logger) \/ (exists i, (1 <= i <= kept_backups (config example_logger))%nat /\ name = backup (filename (config example_logger)) i) ->
    disk s' !! name = Some text -> Z.of_nat (String.length text) <= max_file_size (config example_logger) + longest) example_logger boot.
Proof.
  split; [apply example_log_wf|].
  apply (file_size_bound example_date example_ops example_logger example_log);
    [apply example_log_wf|apply example_ops_ok|done|by vm_compute|done|done|by repeat constructor].
Defined.
Lemma logger_mutex_agrees_witness :
  log_wf example_logger example_log /\
  (is_Some (Logger_Log example_date LOG_LEVEL_ERROR "OS" "stack" (example_logger <| logger_mutex := true |>) boot) <->
   is_Some (Mutex.Logger_Log LOG_LEVEL_ERROR (example_logger <| logger_mutex := true |>) boot)) /\
  Logger_Log example_date LOG_LEVEL_ERROR "OS" "stack" (example_logger <| logger_mutex := true |>) boot = None.
Proof.
  split; [apply example_log_wf|]. split; [|by vm_compute].
  apply (logger_mutex_agrees example_date LOG_LEVEL_ERROR "OS" "stack" example_logger example_log boot true), example_log_wf.
Defined.
Lemma refused_reopen_undefined_witness :
  let e := mkLogEntry 0 1 LOG_LEVEL_ERROR "CAN" "frame" [18; 52; 255] in
  log_wf example_logger example_log /\ entry_ok e /\
  write_log_entry example_date e (example_logger <| writable := fun _ => false |>) boot = None.
Proof.
  assert (He : entry_ok (mkLogEntry 0 1 LOG_LEVEL_ERROR "CAN" "frame" [18; 52; 255])) by (split_and!; [cbn; lia|cbn; lia|repeat constructor; by vm_compute]).
  split; [apply example_log_wf|]. split; [exact He|]. apply (refused_reopen_undefined example_date _ _ example_log); [apply example_log_wf|exact He|by vm_compute].
Defined.
Definition long_name : string := "/var/log/vehicle/control-units/engine/diagnostics/unit-0001-session-0001.log".
Lemma long_name_not_rotated_witness :
  let e := mkLogEntry 0 1 LOG_LEVEL_ERROR "CAN" "frame" [] in
  substring 0 63 long_name = "/var/log/vehicle/control-units/engine/diagnostics/unit-0001-ses" /\
  wp (Logger_EnableFileOutput (Some long_name);; write_log_entry example_date e) (fun _ s' _ => file s' = Some (substring 0 63 long_name) /\
    (long_name <> substring 0 63 long_name -> (forall i, long_name <> backup (substring 0 63 long_name) i) -> disk s' !! long_name = Some "") /\
    disk s' !! substring 0 63 long_name = Some (line_of example_date ((config example_logger) <| filename := substring 0 63 long_name |>) e)) example_logger boot.
Proof.
  split; [by vm_compute|]. apply long_name_not_rotated; [done|done|by apply Nat.leb_le; vm_compute| |done|by vm_compute|by vm_compute].
  split_and!; [cbn; lia|cbn; lia|constructor].
Defined.
