(* ===== verification/DiagLogger.v ===== *)
(** * Buffered logger of the core

    [src/runtime/diagnostic/diag_logger.c]: entries are collected in a buffer of 32 and given
    to up to eight callbacks when the buffer is full, after an error and at the end.  What a
    callback does is an interface: [on_log] changes the caller's own state [X] and lists the
    entries the callback logs itself, which is how the logger is entered again while it
    flushes.  The recursion of [flush_buffer] through such a callback is bounded by a fuel;
    [None] is running out of it or an undefined callback.  [DiagTimer_GetTimestamp], which no
    file defines, gives [log_time].  The functions have no critical section. *)

From Stdlib Require Import String.
From S2P Require Import Prelude Slots Registry.

#[local] Open Scope string_scope.
#[local] Open Scope list_scope.
#[local] Open Scope Z_scope.

Definition MAX_LOG_CALLBACKS : nat := 8.
Definition LOG_BUFFER_SIZE : nat := 32.
Definition LOG_LEVEL_NONE : Z := 0.
Definition LOG_LEVEL_ERROR : Z := 1.
Definition LOG_LEVEL_WARNING : Z := 2.
Definition LOG_LEVEL_INFO : Z := 3.
Definition LOG_LEVEL_DEBUG : Z := 4.
Definition LOG_LEVEL_TRACE : Z := 5.

Record DiagLogEntry := mkLogEntry {
  le_timestamp : Z; le_level : Z; le_category : Z; le_sequence : Z; le_message : string; le_data : list Z }.
(** A callback is the address of a function, 0 is NULL. *)
Record LogCallback := mkCallback { lc_callback : Z; lc_context : Z; lc_active : bool }.
#[export] Instance eta_LogCallback : Eta LogCallback := fun c => mkCallback (lc_callback c) (lc_context c) (lc_active c).
#[export] Instance LogCallback_slot : Slot LogCallback := {| slot_used := lc_active; slot_key := lc_callback |}.
(** A call of [DiagLogger_Log]; the text is what [vsnprintf] makes of the arguments. *)
Record LogCall := mkCall { call_level : Z; call_category : Z; call_text : string }.
Class LogSink (X : Type) := on_log : Z -> Z -> DiagLogEntry -> X -> option (X * list LogCall).

(** [logger], the time and the state of the callbacks. *)
Record LoggerContext (X : Type) := mkLogger {
  current_level : Z; callbacks : list LogCallback; callback_count : nat; sequence_number : Z;
  buffer : list DiagLogEntry; buffer_index : nat; initialized : bool; log_time : Z; sink : X }.
#[global] Arguments mkLogger {X}. #[global] Arguments current_level {X}. #[global] Arguments callbacks {X}.
#[global] Arguments callback_count {X}. #[global] Arguments sequence_number {X}. #[global] Arguments buffer {X}.
#[global] Arguments buffer_index {X}. #[global] Arguments initialized {X}. #[global] Arguments log_time {X}. #[global] Arguments sink {X}.
#[export] Instance eta_LoggerContext X : Eta (LoggerContext X) := fun s =>
  mkLogger (current_level s) (callbacks s) (callback_count s) (sequence_number s) (buffer s) (buffer_index s) (initialized s) (log_time s) (sink s).

Definition callback_zero : LogCallback := mkCallback 0 0 false.
Definition entry_zero : DiagLogEntry := mkLogEntry 0 0 0 0 "" [].

Section logger.
Context {X : Type} `{LogSink X}.

(** The callbacks of one entry, in the order of the slots; [log] is how a callback logs. *)
Fixpoint deliver (log : LogCall -> LoggerContext X -> option (LoggerContext X)) (cs : list LogCallback) (e : DiagLogEntry) (s : LoggerContext X)
    : option (LoggerContext X) :=
  match cs with
  | [] => Some s
  | c :: cs =>
      if lc_active c && negb (lc_callback c =? 0) then
        r ← on_log (lc_callback c) (lc_context c) e (sink s);
        s ← foldl (fun (o : option (LoggerContext X)) call => o ≫= log call) (Some (s <| sink := r.1 |>)) r.2;
        deliver log cs e s
      else deliver log cs e s
  end.
(** The loop of [flush_buffer] from entry [i] on; a callback that logs may add entries. *)
Fixpoint flush_loop (fuel : nat) (i : nat) (s : LoggerContext X) : option (LoggerContext X) :=
  match fuel with
  | O => None
  | S fuel =>
      let buffer_log e s :=
        s ← (if (LOG_BUFFER_SIZE <=? buffer_index s)%nat then flush_loop fuel 0 s else Some s);
        Some (s <| buffer ::= <[buffer_index s := e]> |> <| buffer_index ::= S |>) in
      let log call s :=
        if negb (initialized s) || (current_level s <? call_level call) then Some s else
        let e := mkLogEntry (log_time s) (call_level call) (call_category call) (sequence_number s) (String.substring 0 255 (call_text call)) [] in
        s ← buffer_log e (s <| sequence_number ::= fun n => u32 (n + 1) |>);
        if call_level call =? LOG_LEVEL_ERROR then flush_loop fuel 0 s else Some s in
      if (i <? buffer_index s)%nat then
        e ← buffer s !! i;
        s ← deliver log (take (callback_count s) (callbacks s)) e s;
        flush_loop fuel (S i) s
      else Some (s <| buffer_index := 0%nat |>)
  end.
Definition flush_buffer (fuel : nat) (s : LoggerContext X) : option (LoggerContext X) :=
  if negb (initialized s) then Some s else flush_loop fuel 0 s.
Definition buffer_log (fuel : nat) (e : DiagLogEntry) (s : LoggerContext X) : option (LoggerContext X) :=
  s ← (if (LOG_BUFFER_SIZE <=? buffer_index s)%nat then flush_buffer fuel s else Some s);
  Some (s <| buffer ::= <[buffer_index s := e]> |> <| buffer_index ::= S |>).

Definition logger_zero (s : LoggerContext X) : LoggerContext X :=
  mkLogger 0 (replicate MAX_LOG_CALLBACKS callback_zero) 0 0 (replicate LOG_BUFFER_SIZE entry_zero) 0 false (log_time s) (sink s).
Definition DiagLogger_Init (s : LoggerContext X) : bool * LoggerContext X :=
  if initialized s then (false, s) else (true, (logger_zero s) <| current_level := LOG_LEVEL_INFO |> <| initialized := true |>).
Definition DiagLogger_Deinit (fuel : nat) (s : LoggerContext X) : option (LoggerContext X) :=
  if negb (initialized s) then Some s else s ← flush_buffer fuel s; Some (logger_zero s).
Definition DiagLogger_SetLevel (level : Z) (s : LoggerContext X) : LoggerContext X :=
  if negb (initialized s) then s else s <| current_level := level |>.
Definition DiagLogger_GetLevel (s : LoggerContext X) : Z := if initialized s then current_level s else LOG_LEVEL_NONE.

(** A known callback gets the new context, another the first free slot if there is one. *)
Definition DiagLogger_RegisterCallback (callback context : Z) (s : LoggerContext X) : LoggerContext X :=
  if negb (initialized s) || (callback =? 0) then s else
  match find_idx (fun c => lc_callback c =? callback) (callback_count s) (callbacks s) with
  | Some i => s <| callbacks ::= alter (fun c => c <| lc_context := context |> <| lc_active := true |>) i |>
  | None =>
      match find_free MAX_LOG_CALLBACKS (callbacks s) with
      | None => s
      | Some i => s <| callbacks ::= <[i := mkCallback callback context true]> |>
                    <| callback_count ::= fun n => if (n <=? i)%nat then S i else n |>
      end
  end.
Definition DiagLogger_UnregisterCallback (callback : Z) (s : LoggerContext X) : LoggerContext X :=
  if negb (initialized s) || (callback =? 0) then s else
  match find_idx (fun c => lc_callback c =? callback) (callback_count s) (callbacks s) with
  | None => s
  | Some i =>
      let cs := <[i := callback_zero]> (callbacks s) in
      s <| callbacks := cs |> <| callback_count := shrink (callback_count s) cs |>
  end.

(** An entry that is admitted gets the next number; after an error the buffer is flushed. *)
Definition log_entry (fuel : nat) (level category : Z) (text : string) (data : list Z) (s : LoggerContext X) : option (LoggerContext X) :=
  let e := mkLogEntry (log_time s) level category (sequence_number s) (String.substring 0 255 text) data in
  s ← buffer_log fuel e (s <| sequence_number ::= fun n => u32 (n + 1) |>);
  if level =? LOG_LEVEL_ERROR then flush_buffer fuel s else Some s.
Definition DiagLogger_Log (fuel : nat) (level category : Z) (text : option string) (s : LoggerContext X) : option (LoggerContext X) :=
  match text with
  | None => Some s
  | Some text => if negb (initialized s) || (current_level s <? level) then Some s else log_entry fuel level category text [] s
  end.
(** [length] bytes behind [data]; 64 of them are kept. *)
Definition DiagLogger_LogHex (fuel : nat) (level category : Z) (text : option string) (data : option (list Z)) (length : nat) (s : LoggerContext X)
    : option (LoggerContext X) :=
  match text, data with
  | Some text, Some data =>
      if negb (initialized s) || (current_level s <? level) || (length =? 0)%nat then Some s else
      let n := Nat.min length 64 in
      if (List.length data <? n)%nat then None else log_entry fuel level category text (take n data) s
  | _, _ => Some s
  end.
End logger.

(** ** The callbacks as a map *)

Definition callback_map {X} (s : LoggerContext X) : gmap Z LogCallback := slot_map (callbacks s).
Record logger_wf {X} (s : LoggerContext X) : Prop := {
  gw_init : initialized s = true;
  gw_table : table_wf MAX_LOG_CALLBACKS (callbacks s) (callback_count s);
  gw_buffer : length (buffer s) = LOG_BUFFER_SIZE;
  gw_index : (buffer_index s <= LOG_BUFFER_SIZE)%nat }.
(** What registration does not touch. *)
Definition entries_frame {X} (s s' : LoggerContext X) : Prop :=
  current_level s' = current_level s /\ sequence_number s' = sequence_number s /\ buffer s' = buffer s /\ buffer_index s' = buffer_index s /\
  log_time s' = log_time s /\ sink s' = sink s.

Section tables.
Context {X : Type}.
Implicit Types (s : LoggerContext X).

Lemma register_callback_spec h ctx s : logger_wf s -> h <> 0 ->
  let s' := DiagLogger_RegisterCallback h ctx s in
  logger_wf s' /\ entries_frame s s' /\
  callback_map s' = if bool_decide (is_Some (callback_map s !! h)) || (size (callback_map s) <? MAX_LOG_CALLBACKS)%nat
                    then <[h := mkCallback h ctx true]> (callback_map s) else callback_map s.
Proof.
  intros [Hi Ht Hb Hx] Hh. unfold DiagLogger_RegisterCallback, callback_map. rewrite Hi, (proj2 (Z.eqb_neq _ _)) by done. cbn [negb orb].
  pose proof (table_find MAX_LOG_CALLBACKS _ _ h Ht Hh) as Hf. change (slot_key ?c) with (lc_callback c) in Hf. destruct (find_idx _ _ _) as [i|].
  - destruct Hf as (c & Hc & _ & Ha & Hk & Hm). rewrite Hm, bool_decide_eq_true_2 by eauto. cbn [orb].
    destruct (table_update MAX_LOG_CALLBACKS _ _ i c (c <| lc_context := ctx |> <| lc_active := true |>) Ht Hc Ha) as [Ht' Hm']; [done|done|].
    match goal with |- logger_wf ?z /\ _ => set (s1 := z) end.
    assert (Hs1 : callbacks s1 = <[i := c <| lc_context := ctx |> <| lc_active := true |>]> (callbacks s)).
    { by apply (alter_as_insert (fun c => c <| lc_context := ctx |> <| lc_active := true |>) i c). }
    split_and!; [constructor; try done; by rewrite Hs1|done|]. rewrite Hs1, Hm'. change (slot_key c) with (lc_callback c) in *. rewrite Hk. f_equal. destruct c. cbn in *. by subst.
  - rewrite Hf, bool_decide_eq_false_2 by (by intros []). cbn [orb].
    pose proof (find_free_size MAX_LOG_CALLBACKS (callbacks s) (tb_uniq _ _ _ Ht) (tb_length _ _ _ Ht)) as Hfree. destruct (find_free _ _) as [i|].
    + destruct Hfree as (Hlt & Hi8 & c & Hc & Ha). rewrite (proj2 (Nat.ltb_lt _ _)) by done.
      destruct (table_fill MAX_LOG_CALLBACKS _ _ i c (mkCallback h ctx true) Ht Hc Ha) as [Ht' Hm']; [done|exact Hh|exact Hf|].
      split_and!; [by constructor|done|exact Hm'].
    + rewrite Hfree, Nat.ltb_irrefl. split_and!; [by constructor|done|done].
Qed.
Lemma unregister_callback_spec h s : logger_wf s -> h <> 0 ->
  let s' := DiagLogger_UnregisterCallback h s in
  logger_wf s' /\ entries_frame s s' /\ callback_map s' = delete h (callback_map s).
Proof.
  intros [Hi Ht Hb Hx] Hh. unfold DiagLogger_UnregisterCallback, callback_map. rewrite Hi, (proj2 (Z.eqb_neq _ _)) by done. cbn [negb orb].
  pose proof (table_find MAX_LOG_CALLBACKS _ _ h Ht Hh) as Hf. change (slot_key ?c) with (lc_callback c) in Hf. destruct (find_idx _ _ _) as [i|].
  - destruct Hf as (c & Hc & _ & Ha & Hk & Hm).
    destruct (table_blank MAX_LOG_CALLBACKS _ _ i c callback_zero Ht Hc Ha) as [Ht' Hm']; [done|done|]. change (slot_key c) with (lc_callback c) in *. rewrite Hk in Hm'.
    split_and!; [by constructor|done|exact Hm'].
  - split_and!; [by constructor|done|]. by rewrite delete_id.
Qed.
End tables.

(** ** Flushing to callbacks that do not log *)

(** A sink whose callbacks log nothing and always return. *)
Class QuietSink X `{LogSink X} := { quiet_log : Z -> Z -> DiagLogEntry -> X -> X; quiet_on_log h ctx e x : on_log h ctx e x = Some (quiet_log h ctx e x, []) }.

Section quiet.
Context {X : Type} `{QuietSink X}.
Implicit Types (s : LoggerContext X).

Definition reached (c : LogCallback) : bool := lc_active c && negb (lc_callback c =? 0).
Definition give (cs : list LogCallback) (e : DiagLogEntry) (x : X) : X :=
  foldl (fun x c => if reached c then quiet_log (lc_callback c) (lc_context c) e x else x) x cs.
Definition give_all (cs : list LogCallback) (es : list DiagLogEntry) (x : X) : X := foldl (fun x e => give cs e x) x es.
Lemma deliver_quiet log cs e s : deliver log cs e s = Some (s <| sink ::= give cs e |>).
Proof.
  revert s. induction cs as [|c cs IH]; intros s; cbn [deliver]; [by destruct s|]. change (lc_active c && negb (lc_callback c =? 0)) with (reached c).
  unfold give. cbn [foldl]. destruct (reached c); [|apply IH]. rewrite quiet_on_log. cbn. by rewrite IH.
Qed.
(** Enough fuel is one more than the entries left. *)
Lemma flush_loop_quiet fuel i s : logger_wf s -> (buffer_index s - i < fuel)%nat ->
  flush_loop fuel i s = Some (s <| sink ::= give_all (take (callback_count s) (callbacks s)) (drop i (take (buffer_index s) (buffer s))) |> <| buffer_index := 0%nat |>).
Proof.
  revert i s. induction fuel as [|fuel IH]; intros i s Hw Hf; [lia|]. cbn [flush_loop]. pose proof (gw_index _ Hw) as Hi. pose proof (gw_buffer _ Hw) as Hb.
  destruct (i <? buffer_index s)%nat eqn:E; tests.
  - destruct (lookup_lt_is_Some_2 (buffer s) i) as [e He]; [lia|]. rewrite He. cbn [mbind option_bind]. rewrite deliver_quiet. cbn [mbind option_bind].
    rewrite IH; [|by destruct Hw; constructor|cbn; lia]. cbn. assert (Ht : take (buffer_index s) (buffer s) !! i = Some e) by (by rewrite lookup_take_lt).
    by rewrite (drop_S _ _ _ Ht).
  - rewrite drop_ge by (rewrite length_take; lia). by destruct s.
Qed.
Lemma flush_quiet fuel s : logger_wf s -> (LOG_BUFFER_SIZE < fuel)%nat ->
  flush_buffer fuel s = Some (s <| sink ::= give_all (take (callback_count s) (callbacks s)) (take (buffer_index s) (buffer s)) |> <| buffer_index := 0%nat |>).
Proof.
  intros Hw Hf. unfold flush_buffer. rewrite (gw_init _ Hw). cbn [negb]. rewrite flush_loop_quiet; [by rewrite drop_0|done|]. pose proof (gw_index _ Hw). lia.
Qed.
End quiet.

(** ** What a callback sees

    The sink that keeps a trace: which callback was given which entry with which context. *)

#[export] Instance trace_sink : LogSink (list (Z * Z * DiagLogEntry)) := fun h ctx e tr => Some (tr ++ [(h, ctx, e)], []).
#[export] Instance trace_quiet : QuietSink (list (Z * Z * DiagLogEntry)) := {| quiet_log h ctx e tr := tr ++ [(h, ctx, e)]; quiet_on_log h ctx e tr := eq_refl |}.
(** The entries a callback was given, in order, and those that wait. *)
Definition seen (h : Z) (tr : (list (Z * Z * DiagLogEntry))) : list DiagLogEntry := snd <$> filter (fun p => p.1.1 = h) tr.
Definition waiting {X} (s : LoggerContext X) : list DiagLogEntry := take (buffer_index s) (buffer s).
Definition registered {X} (h : Z) (s : LoggerContext X) : Prop := is_Some (callback_map s !! h).

Lemma seen_app h tr tr' : seen h (tr ++ tr') = seen h tr ++ seen h tr'.
Proof. unfold seen. by rewrite filter_app, fmap_app. Qed.
Lemma seen_give_other h cs e tr : h ∉ lc_callback <$> used cs -> seen h (give cs e tr) = seen h tr.
Proof.
  revert tr. induction cs as [|c cs IH]; intros tr Hn; [done|]. unfold give. cbn [foldl]. unfold used in Hn. rewrite filter_cons in Hn.
  change (slot_used c) with (lc_active c) in Hn. unfold reached. destruct (lc_active c) eqn:Ea; cbn [andb].
  - rewrite decide_True in Hn by done. rewrite fmap_cons, not_elem_of_cons in Hn. destruct Hn as [Hne Hn].
    destruct (lc_callback c =? 0); cbn [negb]; [by apply IH|]. unfold give in IH. rewrite IH by done. cbn [quiet_log trace_quiet].
    rewrite seen_app. unfold seen at 2. rewrite filter_cons, decide_False by (cbn; congruence). by rewrite app_nil_r.
  - rewrite decide_False in Hn by done. by apply IH.
Qed.
(** A registered callback is given an entry once. *)
Lemma seen_give h cs e tr : slots_uniq cs -> h ∈ lc_callback <$> used cs -> h <> 0 -> seen h (give cs e tr) = seen h tr ++ [e].
Proof.
  revert tr. induction cs as [|c cs IH]; intros tr Hu Hin Hh; [by apply elem_of_nil in Hin|]. unfold give. cbn [foldl]. unfold slots_uniq, used in *.
  rewrite filter_cons in Hu, Hin. change (slot_used c) with (lc_active c) in *. unfold reached. destruct (lc_active c) eqn:Ea; cbn [andb].
  - rewrite decide_True, fmap_cons in Hu, Hin by done. apply NoDup_cons in Hu as [Hn Hu]. change (slot_key c) with (lc_callback c) in Hn.
    destruct (decide (lc_callback c = h)) as [<-|Hne].
    + rewrite (proj2 (Z.eqb_neq _ _)) by done. cbn [negb quiet_log trace_quiet]. change (foldl _ ?x cs) with (give cs e x).
      rewrite seen_give_other by exact Hn. rewrite seen_app. unfold seen at 2. by rewrite filter_cons, decide_True.
    + apply elem_of_cons in Hin as [->|Hin]; [done|]. destruct (lc_callback c =? 0); cbn [negb]; [by apply IH|].
      unfold give in IH. rewrite IH by done. cbn [quiet_log trace_quiet]. rewrite seen_app. unfold seen at 2. rewrite filter_cons, decide_False by done.
      by rewrite app_nil_r.
  - rewrite decide_False in Hu, Hin by done. by apply IH.
Qed.
Lemma seen_give_all h cs es tr : slots_uniq cs -> h ∈ lc_callback <$> used cs -> h <> 0 -> seen h (give_all cs es tr) = seen h tr ++ es.
Proof.
  intros Hu Hin Hh. unfold give_all. revert tr. induction es as [|e es IH]; intros tr; cbn [foldl]; [by rewrite app_nil_r|].
  rewrite IH, seen_give by done. by rewrite <- app_assoc.
Qed.

(** ** Runs *)

Inductive LoggerOp :=
| OpLog (level category : Z) (text : string)
| OpHex (level category : Z) (text : string) (data : list Z)
| OpSetLevel (level : Z) | OpRegister (h ctx : Z) | OpUnregister (h : Z) | OpTime (t : Z).
Section runs.
Context {X : Type} `{LogSink X}.
Definition logger_exec (fuel : nat) (op : LoggerOp) (s : LoggerContext X) : option (LoggerContext X) :=
  match op with
  | OpLog level category text => DiagLogger_Log fuel level category (Some text) s
  | OpHex level category text data => DiagLogger_LogHex fuel level category (Some text) (Some data) (length data) s
  | OpSetLevel level => Some (DiagLogger_SetLevel level s)
  | OpRegister h ctx => Some (DiagLogger_RegisterCallback h ctx s)
  | OpUnregister h => Some (DiagLogger_UnregisterCallback h s)
  | OpTime t => Some (s <| log_time := t |>)
  end.
Fixpoint logger_run (fuel : nat) (ops : list LoggerOp) (s : LoggerContext X) : option (LoggerContext X) :=
  match ops with [] => Some s | op :: ops => s ← logger_exec fuel op s; logger_run fuel ops s end.
End runs.
(** The level, the next number and the time, and the entry an operation adds. *)
Record Clockwork := mkClockwork { cw_level : Z; cw_sequence : Z; cw_time : Z }.
Definition admitted (op : LoggerOp) (c : Clockwork) : option DiagLogEntry :=
  let entry level category text data :=
    if cw_level c <? level then None else Some (mkLogEntry (cw_time c) level category (cw_sequence c) (String.substring 0 255 text) data) in
  match op with
  | OpLog level category text => entry level category text []
  | OpHex level category text data => if (length data =? 0)%nat then None else entry level category text (take 64 data)
  | _ => None
  end.
Definition next_clockwork (op : LoggerOp) (c : Clockwork) : Clockwork :=
  match op with
  | OpSetLevel level => mkClockwork level (cw_sequence c) (cw_time c)
  | OpTime t => mkClockwork (cw_level c) (cw_sequence c) t
  | _ => match admitted op c with Some _ => mkClockwork (cw_level c) (u32 (cw_sequence c + 1)) (cw_time c) | None => c end
  end.
Fixpoint admitted_run (ops : list LoggerOp) (c : Clockwork) : list DiagLogEntry :=
  match ops with [] => [] | op :: ops => option_list (admitted op c) ++ admitted_run ops (next_clockwork op c) end.
Definition clockwork {X} (s : LoggerContext X) : Clockwork := mkClockwork (current_level s) (sequence_number s) (log_time s).

Section trace.
Implicit Types (s : LoggerContext (list (Z * Z * DiagLogEntry))).

(** Flushing shows what waits to every registered callback. *)
Lemma flush_seen fuel s : logger_wf s -> (LOG_BUFFER_SIZE < fuel)%nat -> exists s', flush_buffer fuel s = Some s' /\ logger_wf s' /\
  callback_map s' = callback_map s /\ clockwork s' = clockwork s /\ buffer_index s' = 0%nat /\
  (forall h, h <> 0 -> registered h s -> seen h (sink s') = seen h (sink s) ++ waiting s) /\
  (forall h, h <> 0 -> ~ registered h s -> seen h (sink s') = seen h (sink s)).
Proof.
  intros Hw Hf. rewrite flush_quiet by done. eexists. split; [done|]. pose proof (gw_table _ Hw) as Ht. pose proof (table_used_take _ _ _ Ht) as Hut.
  assert (Hut' : slots_uniq (take (callback_count s) (callbacks s))) by (unfold slots_uniq; rewrite Hut; apply Ht).
  split; [destruct Hw; constructor; cbn; try done; lia|]. split_and!; [done|done|done| |].
  - intros h Hh [c Hc]. cbn. apply seen_give_all; [done| |done]. rewrite Hut. apply slot_map_inv in Hc as (i & Hi & Ha & Hk); [|apply Ht].
    apply list_elem_of_fmap. exists c. split; [done|]. by eapply used_lookup.
  - intros h Hh Hn. cbn. generalize (take (buffer_index s) (buffer s)) as es, (sink s) as tr. unfold give_all.
    induction es as [|e es IH]; intros tr; cbn [foldl]; [done|]. rewrite IH. apply seen_give_other. rewrite Hut. intros Hin. apply Hn.
    unfold registered, callback_map. destruct (slot_map (callbacks s) !! h) as [c|] eqn:Em; [by eexists|]. by apply slot_map_None in Em.
Qed.
Lemma entry_seen fuel level category text data s : logger_wf s -> (LOG_BUFFER_SIZE < fuel)%nat ->
  let e := mkLogEntry (log_time s) level category (sequence_number s) (String.substring 0 255 text) data in
  exists s', log_entry fuel level category text data s = Some s' /\ logger_wf s' /\ callback_map s' = callback_map s /\
  clockwork s' = mkClockwork (current_level s) (u32 (sequence_number s + 1)) (log_time s) /\
  (level = LOG_LEVEL_ERROR -> waiting s' = []) /\
  (forall h, h <> 0 -> registered h s -> seen h (sink s') ++ waiting s' = seen h (sink s) ++ waiting s ++ [e]) /\
  (forall h, h <> 0 -> ~ registered h s -> seen h (sink s') = seen h (sink s)).
Proof.
  intros Hw Hf e. unfold log_entry, buffer_log. fold e. set (s0 := s <| sequence_number ::= fun n => u32 (n + 1) |>).
  assert (Hw0 : logger_wf s0) by (by destruct Hw).
  (* room in the buffer *)
  assert (Hroom : exists s1, (if (LOG_BUFFER_SIZE <=? buffer_index s0)%nat then flush_buffer fuel s0 else Some s0) = Some s1 /\ logger_wf s1 /\
    callback_map s1 = callback_map s /\ clockwork s1 = clockwork s0 /\ (buffer_index s1 < LOG_BUFFER_SIZE)%nat /\
    (forall h, h <> 0 -> registered h s -> seen h (sink s1) ++ waiting s1 = seen h (sink s) ++ waiting s) /\
    (forall h, h <> 0 -> ~ registered h s -> seen h (sink s1) = seen h (sink s))).
  { destruct (_ <=? _)%nat eqn:E; tests.
    - destruct (flush_seen fuel s0 Hw0 Hf) as (s1 & -> & Hw1 & Hm1 & Hc1 & Hi1 & Hr1 & Hn1). exists s1. split_and!; try done; [unfold LOG_BUFFER_SIZE; lia|].
      intros h Hh Hr. rewrite (Hr1 h Hh Hr). unfold waiting at 2. rewrite Hi1. by rewrite app_nil_r.
    - exists s0. by split_and!. }
  destruct Hroom as (s1 & -> & Hw1 & Hm1 & Hc1 & Hi1 & Hr1 & Hn1). cbn [mbind option_bind].
  set (s2 := s1 <| buffer ::= <[buffer_index s1 := e]> |> <| buffer_index ::= S |>).
  assert (Hw2 : logger_wf s2) by (destruct Hw1; constructor; cbn; first [done|by rewrite length_insert|lia]).
  assert (Hwait : waiting s2 = waiting s1 ++ [e]).
  { unfold waiting, s2. cbn. rewrite (take_S_r _ _ e) by (apply list_lookup_insert_eq; rewrite (gw_buffer _ Hw1); lia). by rewrite take_insert_ge by lia. }
  assert (Hr2 : forall h, h <> 0 -> registered h s -> seen h (sink s2) ++ waiting s2 = seen h (sink s) ++ waiting s ++ [e]).
  { intros h Hh Hr. rewrite Hwait. change (sink s2) with (sink s1). by rewrite app_assoc, (Hr1 h Hh Hr), <- app_assoc. }
  assert (Hc2 : clockwork s2 = mkClockwork (current_level s) (u32 (sequence_number s + 1)) (log_time s)) by (exact Hc1).
  destruct (level =? LOG_LEVEL_ERROR) eqn:E; tests.
  - destruct (flush_seen fuel s2 Hw2 Hf) as (s3 & -> & Hw3 & Hm3 & Hc3 & Hi3 & Hr3 & Hn3). exists s3. split_and!; try done.
    + by rewrite Hm3, <- Hm1.
    + by rewrite Hc3.
    + intros _. unfold waiting. by rewrite Hi3.
    + intros h Hh Hr. rewrite Hr3; [|done|unfold registered in *; change (callback_map s2) with (callback_map s1); by rewrite Hm1]. unfold waiting at 2. rewrite Hi3. rewrite app_nil_r. by apply Hr2.
    + intros h Hh Hr. rewrite Hn3; [by apply Hn1|done|]. unfold registered in *. change (callback_map s2) with (callback_map s1). by rewrite Hm1.
  - exists s2. split_and!; try done.
Qed.

(** One operation. *)
Definition keeps_callback (h : Z) (op : LoggerOp) : Prop := op <> OpUnregister h.
Lemma log_register_keeps h k ctx s : logger_wf s -> registered h s -> registered h (DiagLogger_RegisterCallback k ctx s).
Proof.
  intros Hw Hr. destruct (decide (k = 0)) as [->|Hk]; [unfold DiagLogger_RegisterCallback; by rewrite (gw_init _ Hw)|].
  destruct (register_callback_spec k ctx s Hw Hk) as (_ & _ & Hm). unfold registered. rewrite Hm. destruct (_ || _); [|done].
  destruct (decide (k = h)) as [->|]; [rewrite lookup_insert_eq; by eexists|by rewrite lookup_insert_ne].
Qed.
Lemma logger_op_ok fuel op s : logger_wf s -> (LOG_BUFFER_SIZE < fuel)%nat -> exists s', logger_exec fuel op s = Some s' /\ logger_wf s' /\
  clockwork s' = next_clockwork op (clockwork s) /\
  (forall h, h <> 0 -> registered h s -> keeps_callback h op -> registered h s' /\
    seen h (sink s') ++ waiting s' = seen h (sink s) ++ waiting s ++ option_list (admitted op (clockwork s))) /\
  (forall h, h <> 0 -> ~ registered h s -> (forall ctx, op <> OpRegister h ctx) -> ~ registered h s' /\ seen h (sink s') = seen h (sink s)).
Proof.
  intros Hw Hf. pose proof (gw_init _ Hw) as Hi.
  assert (Hlog : forall level category text data, exists s', (if current_level s <? level then Some s else log_entry fuel level category text data s) = Some s' /\ logger_wf s' /\
    clockwork s' = (if current_level s <? level then clockwork s else mkClockwork (current_level s) (u32 (sequence_number s + 1)) (log_time s)) /\
    (forall h, h <> 0 -> registered h s -> registered h s' /\ seen h (sink s') ++ waiting s' = seen h (sink s) ++ waiting s ++
      option_list (if current_level s <? level then None else Some (mkLogEntry (log_time s) level category (sequence_number s) (String.substring 0 255 text) data))) /\
    (forall h, h <> 0 -> ~ registered h s -> ~ registered h s' /\ seen h (sink s') = seen h (sink s))).
  { intros level category text data. destruct (_ <? _); [exists s; split_and!; try done; intros h _ ?; by rewrite ?app_nil_r|].
    destruct (entry_seen fuel level category text data s Hw Hf) as (s' & -> & Hw' & Hm & Hc & _ & Hr & Hn). exists s'. unfold registered. rewrite Hm. split_and!; [done..| |].
    - intros h Hh Hre. split; [done|]. by apply Hr.
    - intros h Hh Hre. split; [done|]. by apply Hn. }
  destruct op as [level category text|level category text data|level|k ctx|k|t]; cbn [logger_exec].
  - unfold DiagLogger_Log. rewrite Hi. cbn [negb orb]. destruct (Hlog level category text []) as (s' & Hs & Hw' & Hc & Hr & Hn). exists s'.
    split_and!; [done|done| | |].
    + rewrite Hc. cbn [next_clockwork admitted clockwork cw_level]. by destruct (_ <? _).
    + intros h Hh Hre _. by apply Hr.
    + intros h Hh Hre _. by apply Hn.
  - unfold DiagLogger_LogHex. rewrite Hi. cbn [negb orb]. unfold next_clockwork, admitted. destruct (length data =? 0)%nat eqn:E0.
    + rewrite orb_true_r. exists s. split_and!; try done. intros h _ ? _. by rewrite ?app_nil_r.
    + rewrite orb_false_r. destruct (Hlog level category text (take (Nat.min (length data) 64) data)) as (s' & Hs & Hw' & Hc & Hr & Hn). exists s'.
      rewrite (proj2 (Nat.ltb_ge _ _)) by lia.
      assert (Ht : take (Nat.min (length data) 64) data = take 64 data).
      { destruct (decide (length data <= 64)%nat); [by rewrite !take_ge by lia|by rewrite Nat.min_r by lia]. }
      rewrite Ht in *. split_and!; [done|done| | |].
      * rewrite Hc. cbn [clockwork cw_level]. by destruct (_ <? _).
      * intros h Hh Hre _. by apply Hr.
      * intros h Hh Hre _. by apply Hn.
  - unfold DiagLogger_SetLevel. rewrite Hi. eexists. split_and!; [done|by destruct Hw|done| |done]. intros h _ ? _. by rewrite ?app_nil_r.
  - eexists. split; [done|]. destruct (decide (k = 0)) as [->|Hk].
    + unfold DiagLogger_RegisterCallback. rewrite Hi. split_and!; [done|done| |done]. intros h _ ? _. by rewrite ?app_nil_r.
    + destruct (register_callback_spec k ctx s Hw Hk) as (Hw' & (F1 & F2 & F3 & F4 & F5 & F6) & Hm). split_and!; [done| | |].
      * unfold clockwork. by rewrite F1, F2, F5.
      * intros h Hh Hr _. split; [by apply log_register_keeps|]. unfold waiting. by rewrite F3, F4, F6, app_nil_r.
      * intros h Hh Hr Hne. rewrite F6. split; [|done]. unfold registered in *. rewrite Hm. destruct (_ || _); [|done].
        rewrite lookup_insert_ne; [done|]. intros ->. by apply (Hne ctx).
  - eexists. split; [done|]. destruct (decide (k = 0)) as [->|Hk].
    + unfold DiagLogger_UnregisterCallback. rewrite Hi. split_and!; [done|done| |done]. intros h _ ? _. by rewrite ?app_nil_r.
    + destruct (unregister_callback_spec k s Hw Hk) as (Hw' & (F1 & F2 & F3 & F4 & F5 & F6) & Hm). split_and!; [done| | |].
      * unfold clockwork. by rewrite F1, F2, F5.
      * intros h Hh Hr Hne. split; [|unfold waiting; by rewrite F3, F4, F6, app_nil_r]. unfold registered in *. rewrite Hm, lookup_delete_ne; [done|]. intros ->. by apply Hne.
      * intros h Hh Hr _. rewrite F6. split; [|done]. unfold registered in *. rewrite Hm. destruct (decide (k = h)) as [->|]; [rewrite lookup_delete_eq; by intros []|by rewrite lookup_delete_ne].
  - eexists. split_and!; [done|by destruct Hw|done| |done]. intros h _ ? _. by rewrite ?app_nil_r.
Qed.
End trace.

(** ** A callback that logs *)

Section reentrant.
Context {X : Type} `{LogSink X}.
Implicit Types (s : LoggerContext X).

(** Whatever it is given, [h] logs something the level admits (or does not return). *)
Definition chatty (h level : Z) : Prop :=
  forall ctx e x, match on_log h ctx e x with Some (_, call :: _) => call_level call <= level | Some (_, []) => False | None => True end.
(** What no call of the logger during a flush changes. *)
Record flushing (h : Z) s : Prop := {
  fl_init : initialized s = true;
  fl_chatty : chatty h (current_level s);
  fl_reached : exists c, c ∈ take (callback_count s) (callbacks s) /\ reached c = true /\ lc_callback c = h }.
(** Undefined, or grown by at least [n] entries. *)
Definition stuck_or_grown (h : Z) (n : nat) s (o : option (LoggerContext X)) : Prop :=
  match o with
  | None => True
  | Some s' => flushing h s' /\ callbacks s' = callbacks s /\ callback_count s' = callback_count s /\ current_level s' = current_level s /\
      (buffer_index s + n <= buffer_index s')%nat
  end.
Lemma stuck_bind h n k s o (f : LoggerContext X -> option (LoggerContext X)) : stuck_or_grown h n s o ->
  (forall s', o = Some s' -> flushing h s' -> callbacks s' = callbacks s -> callback_count s' = callback_count s -> stuck_or_grown h k s' (f s')) ->
  stuck_or_grown h (n + k) s (o ≫= f).
Proof.
  destruct o as [s1|]; [|done]. intros (Hfl & Hcs & Hcc & Hlv & Hn) Hf. cbn [mbind option_bind]. specialize (Hf s1 eq_refl Hfl Hcs Hcc).
  destruct (f s1) as [s2|]; [|done]. destruct Hf as (Hfl2 & Hcs2 & Hcc2 & Hlv2 & Hn2). split_and!; [done|congruence..|lia].
Qed.
Lemma grown_mono h n k s o : (k <= n)%nat -> stuck_or_grown h n s o -> stuck_or_grown h k s o.
Proof. destruct o as [s'|]; [|done]. intros Hk (H1 & H2 & H3 & H4 & H5). split_and!; [done..|lia]. Qed.

Definition grows (h : Z) (log : LogCall -> LoggerContext X -> option (LoggerContext X)) : Prop :=
  forall s call, flushing h s -> stuck_or_grown h (if call_level call <=? current_level s then 1 else 0) s (log call s).
Lemma calls_grow h log calls s o n : grows h log -> stuck_or_grown h n s o ->
  stuck_or_grown h n s (foldl (fun (o : option (LoggerContext X)) call => o ≫= log call) o calls).
Proof.
  intros Hg. revert o. induction calls as [|call calls IH]; intros o Ho; cbn [foldl]; [done|]. apply IH.
  replace n with (n + 0)%nat by lia. eapply stuck_bind; [exact Ho|]. intros s' _ Hfl _ _. eapply grown_mono; [|by apply Hg]. lia.
Qed.
Lemma deliver_grows h log cs e s : grows h log -> flushing h s ->
  stuck_or_grown h (if bool_decide (Exists (fun c => reached c = true /\ lc_callback c = h) cs) then 1 else 0) s (deliver log cs e s).
Proof.
  intros Hg. revert s. induction cs as [|c cs IH]; intros s Hfl; cbn [deliver].
  - rewrite bool_decide_eq_false_2 by (by intros ?%Exists_nil). split_and!; try done. lia.
  - change (lc_active c && negb (lc_callback c =? 0)) with (reached c). destruct (reached c) eqn:Er.
    + destruct (on_log _ _ e (sink s)) as [[x calls]|] eqn:Eo; [|done]. cbn [mbind option_bind fst snd].
      assert (Hfl0 : flushing h (s <| sink := x |>)) by (by destruct Hfl).
      assert (H0 : stuck_or_grown h 0 s (Some (s <| sink := x |>))) by (split_and!; try done; cbn; lia).
      (* what the callback itself logs *)
      assert (Hc : stuck_or_grown h (if bool_decide (lc_callback c = h) then 1 else 0) s
        (foldl (fun (o : option (LoggerContext X)) call => o ≫= log call) (Some (s <| sink := x |>)) calls)).
      { destruct (decide (lc_callback c = h)) as [Eh|Eh]; [rewrite bool_decide_eq_true_2 by done|rewrite bool_decide_eq_false_2 by done; by apply calls_grow]. pose proof (fl_chatty _ _ Hfl (lc_context c) e (sink s)) as Hch. rewrite <- Eh, Eo in Hch.
        destruct calls as [|call calls]; [done|]. cbn [foldl]. apply calls_grow; [done|]. change 1%nat with (0 + 1)%nat. eapply stuck_bind; [exact H0|].
        intros s' [= <-] Hfl' _ _. pose proof (Hg _ call Hfl') as Hgr. cbn [current_level setf] in Hgr. by rewrite (proj2 (Z.leb_le _ _)) in Hgr. }
      eapply grown_mono; [|eapply stuck_bind; [exact Hc|intros s' _ Hfl' _ _; by apply IH]].
      match goal with |- ((if bool_decide ?P then _ else _) <= _)%nat => destruct (decide P) as [E1|E1]; [rewrite (bool_decide_eq_true_2 P E1)|rewrite (bool_decide_eq_false_2 P E1); lia] end.
      apply Exists_cons in E1 as [[_ E1]|E1]; [rewrite (bool_decide_eq_true_2 (lc_callback c = h)) by done; lia|].
      rewrite (bool_decide_eq_true_2 (Exists _ cs)) by done. lia.
    + eapply grown_mono; [|by apply IH].
      match goal with |- ((if bool_decide ?P then _ else _) <= _)%nat => destruct (decide P) as [E1|E1]; [rewrite (bool_decide_eq_true_2 P E1)|rewrite (bool_decide_eq_false_2 P E1); lia] end.
      apply Exists_cons in E1 as [[E1 _]|E1]; [congruence|]. by rewrite bool_decide_eq_true_2.
Qed.
(** No fuel is enough. *)
Lemma flush_never_ends h fuel i s : flushing h s -> (i < buffer_index s)%nat -> flush_loop fuel i s = None.
Proof.
  revert i s. induction fuel as [|fuel IH]; intros i s Hfl Hi; [done|]. cbn [flush_loop]. cbv zeta. rewrite (proj2 (Nat.ltb_lt _ _)) by done.
  destruct (buffer s !! i) as [e|]; [|done]. cbn [mbind option_bind]. match goal with |- deliver ?l _ _ _ ≫= _ = _ => set (log := l) end.
  assert (Hg : grows h log).
  { intros s1 call Hfl1. unfold log. rewrite (fl_init _ _ Hfl1). cbn [negb orb]. destruct (current_level s1 <? call_level call) eqn:El; tests.
    { rewrite (proj2 (Z.leb_gt _ _)) by done. split_and!; try done. lia. }
    rewrite (proj2 (Z.leb_le _ _)) by done. destruct (_ <=? _)%nat eqn:Efull; tests.
    { rewrite (IH 0%nat); [done|by destruct Hfl1|]. cbn in Efull |- *. unfold LOG_BUFFER_SIZE in Efull. lia. }
    cbn [mbind option_bind]. destruct (_ =? LOG_LEVEL_ERROR).
    { rewrite (IH 0%nat); [done|by destruct Hfl1|cbn; lia]. }
    split_and!; [by destruct Hfl1|done|done|done|cbn; lia]. }
  pose proof (deliver_grows h log (take (callback_count s) (callbacks s)) e s Hg Hfl) as Hd. rewrite bool_decide_eq_true_2 in Hd.
  2:{ destruct (fl_reached _ _ Hfl) as (c & Hc & Hrc & Hk). apply Exists_exists. by exists c. }
  destruct (deliver log _ e s) as [s'|]; [|done]. destruct Hd as (Hfl' & _ & _ & _ & Hn). cbn [mbind option_bind]. apply IH; [done|lia].
Qed.
End reentrant.

(** ** Theorems *)

(** Every entry reaches every registered callback once and in order: along every run in
    which a callback stays registered, what it has been given and what waits in the buffer
    are what they were before and the entries the run added. *)
Theorem registered_sees_all fuel ops h (s : LoggerContext (list (Z * Z * DiagLogEntry))) : logger_wf s -> h <> 0 -> registered h s -> Forall (keeps_callback h) ops ->
  (LOG_BUFFER_SIZE < fuel)%nat ->
  exists s', logger_run fuel ops s = Some s' /\ logger_wf s' /\
    seen h (sink s') ++ waiting s' = seen h (sink s) ++ waiting s ++ admitted_run ops (clockwork s).
Proof.
  intros Hw Hh Hr Hops Hf. revert s Hw Hr. induction Hops as [|op ops Hop _ IH]; intros s Hw Hr; cbn [logger_run admitted_run].
  - exists s. by rewrite app_nil_r.
  - destruct (logger_op_ok fuel op s Hw Hf) as (s1 & -> & Hw1 & Hc1 & Hr1 & _). destruct (Hr1 h Hh Hr Hop) as [Hr1' Hs1].
    destruct (IH s1 Hw1 Hr1') as (s2 & Hrun & Hw2 & Hs2). exists s2. split_and!; [done|done|]. rewrite Hs2, Hc1, app_assoc, Hs1. by rewrite <- !app_assoc.
Qed.

(** After an error, and when the logger is shut down, nothing waits: every registered
    callback has been given everything. *)
Theorem error_seen_at_once fuel category text h (s : LoggerContext (list (Z * Z * DiagLogEntry))) : logger_wf s -> h <> 0 -> registered h s ->
  LOG_LEVEL_ERROR <= current_level s -> (LOG_BUFFER_SIZE < fuel)%nat ->
  (exists s', DiagLogger_Log fuel LOG_LEVEL_ERROR category (Some text) s = Some s' /\
    seen h (sink s') = seen h (sink s) ++ waiting s ++ [mkLogEntry (log_time s) LOG_LEVEL_ERROR category (sequence_number s) (String.substring 0 255 text) []]) /\
  (exists s', DiagLogger_Deinit fuel s = Some s' /\ seen h (sink s') = seen h (sink s) ++ waiting s).
Proof.
  intros Hw Hh Hr Hl Hf. split.
  - unfold DiagLogger_Log. rewrite (gw_init _ Hw), (proj2 (Z.ltb_ge _ _)) by done. cbn [negb orb].
    destruct (entry_seen fuel LOG_LEVEL_ERROR category text [] s Hw Hf) as (s' & Hs & Hw' & _ & _ & Hwait & Hsee & _). exists s'. split; [done|].
    rewrite <- (Hsee h Hh Hr), (Hwait eq_refl). by rewrite app_nil_r.
  - unfold DiagLogger_Deinit. rewrite (gw_init _ Hw). cbn [negb]. destruct (flush_seen fuel s Hw Hf) as (s' & -> & _ & _ & _ & _ & Hsee & _). eexists. split; [done|].
    by apply Hsee.
Qed.

(** A callback that is removed never sees what waits at that moment, nor anything else
    while it is not registered again. *)
Theorem removed_callback_misses fuel ops h (s : LoggerContext (list (Z * Z * DiagLogEntry))) : logger_wf s -> h <> 0 ->
  Forall (fun op => forall ctx, op <> OpRegister h ctx) ops -> (LOG_BUFFER_SIZE < fuel)%nat ->
  exists s', logger_run fuel (OpUnregister h :: ops) s = Some s' /\ seen h (sink s') = seen h (sink s).
Proof.
  intros Hw Hh Hops Hf. cbn [logger_run logger_exec]. cbn [mbind option_bind].
  destruct (unregister_callback_spec h s Hw Hh) as (Hw1 & (_ & _ & _ & _ & _ & F6) & Hm). set (s1 := DiagLogger_UnregisterCallback h s) in *.
  assert (Hn : ~ registered h s1) by (unfold registered; rewrite Hm, lookup_delete_eq; by intros []). rewrite <- F6. clearbody s1. clear Hm F6.
  revert s1 Hw1 Hn. induction Hops as [|op ops Hop _ IH]; intros s1 Hw1 Hn; cbn [logger_run]; [by exists s1|].
  destruct (logger_op_ok fuel op s1 Hw1 Hf) as (s2 & -> & Hw2 & _ & _ & Hn2). destruct (Hn2 h Hh Hn Hop) as [Hn' Hs']. rewrite <- Hs'. by apply IH.
Qed.

(** The callbacks are a finite map of at most eight addresses: registering inserts or
    replaces, or does nothing when the map is full, removing deletes. *)
Theorem log_callbacks_refine {X} h ctx (s : LoggerContext X) : logger_wf s -> h <> 0 ->
  logger_wf (DiagLogger_RegisterCallback h ctx s) /\ logger_wf (DiagLogger_UnregisterCallback h s) /\
  callback_map (DiagLogger_RegisterCallback h ctx s) =
    (if bool_decide (is_Some (callback_map s !! h)) || (size (callback_map s) <? MAX_LOG_CALLBACKS)%nat
     then <[h := mkCallback h ctx true]> (callback_map s) else callback_map s) /\
  callback_map (DiagLogger_UnregisterCallback h s) = delete h (callback_map s).
Proof.
  intros Hw Hh. destruct (register_callback_spec h ctx s Hw Hh) as (H1 & _ & H2). by destruct (unregister_callback_spec h s Hw Hh) as (H3 & _ & H4).
Qed.

(** A callback that logs what the level admits is called without end: the first error
    that is logged never returns, however much fuel there is. *)
Theorem logging_callback_never_returns {X} `{LogSink X} fuel h category text (s : LoggerContext X) : logger_wf s -> h <> 0 ->
  registered h s -> chatty h (current_level s) -> LOG_LEVEL_ERROR <= current_level s ->
  DiagLogger_Log fuel LOG_LEVEL_ERROR category (Some text) s = None.
Proof.
  intros Hw Hh [c Hc] Hch Hl. unfold DiagLogger_Log. rewrite (gw_init _ Hw), (proj2 (Z.ltb_ge _ _)) by done. cbn [negb orb].
  assert (Hfl : flushing h (s <| sequence_number ::= fun n => u32 (n + 1) |>)).
  { constructor; [apply Hw|exact Hch|]. apply slot_map_inv in Hc as (i & Hi & Ha & Hk); [|apply Hw]. exists c. split.
    - apply list_elem_of_lookup. exists i. apply lookup_take_Some. split; [done|]. eapply free_from_used; [apply (gw_table _ Hw)|done|done].
    - unfold reached. change (slot_used c) with (lc_active c) in Ha. change (slot_key c) with (lc_callback c) in Hk. by rewrite Ha, Hk, (proj2 (Z.eqb_neq _ _)). }
  unfold log_entry, buffer_log, flush_buffer. rewrite (fl_init _ _ Hfl). cbn [negb]. destruct (_ <=? _)%nat eqn:E; tests.
  - rewrite (flush_never_ends h); [done|done|]. cbn in E |- *. unfold LOG_BUFFER_SIZE in E. lia.
  - cbn [mbind option_bind]. change (LOG_LEVEL_ERROR =? LOG_LEVEL_ERROR) with true. cbn iota. rewrite (flush_never_ends h); [|by destruct Hfl|cbn; lia].
    match goal with |- context [negb (initialized ?z)] => change (initialized z) with (initialized s) end. by rewrite (gw_init _ Hw).
Qed.

(** ** Concrete runs *)

(** Initialised, the callback at address 100 registered. *)
Definition example_slots : list LogCallback := mkCallback 100 7 true :: replicate 7 callback_zero.
Definition example_logger {X} (x : X) : LoggerContext X :=
  mkLogger LOG_LEVEL_INFO example_slots 1 5 (replicate LOG_BUFFER_SIZE entry_zero) 0 true 1000 x.
Lemma example_table : table_wf MAX_LOG_CALLBACKS example_slots 1.
Proof.
  constructor; [done|unfold MAX_LOG_CALLBACKS; lia| |by repeat constructor|by repeat constructor].
  change (NoDup [100]). apply NoDup_singleton.
Qed.
Lemma example_logger_wf {X} (x : X) : logger_wf (example_logger x).
Proof. constructor; [done|apply example_table|done|cbn; unfold LOG_BUFFER_SIZE; lia]. Qed.
Lemma example_registered {X} (x : X) : registered 100 (example_logger x).
Proof. by eexists. Qed.
Definition example_trace : LoggerContext (list (Z * Z * DiagLogEntry)) := example_logger [].
Definition example_ops : list LoggerOp :=
  [OpLog LOG_LEVEL_INFO 0 "started"; OpRegister 200 9; OpTime 1010; OpLog LOG_LEVEL_DEBUG 1 "hidden"; OpHex LOG_LEVEL_WARNING 5 "frame" [1; 2];
   OpUnregister 200; OpLog LOG_LEVEL_ERROR 6 "lost"; OpLog LOG_LEVEL_INFO 0 "waits"].

Lemma registered_sees_all_witness :
  admitted_run example_ops (clockwork example_trace) =
    [mkLogEntry 1000 3 0 5 "started" []; mkLogEntry 1010 2 5 6 "frame" [1; 2]; mkLogEntry 1010 1 6 7 "lost" []; mkLogEntry 1010 3 0 8 "waits" []] /\
  exists s', logger_run 40 example_ops example_trace = Some s' /\ logger_wf s' /\
    seen 100 (sink s') ++ waiting s' = seen 100 (sink example_trace) ++ waiting example_trace ++ admitted_run example_ops (clockwork example_trace).
Proof.
  split; [by vm_compute|]. apply registered_sees_all; [apply example_logger_wf|done|apply example_registered|repeat constructor; discriminate|unfold LOG_BUFFER_SIZE; lia].
Defined.
Lemma error_seen_at_once_witness :
  let s := example_trace in
  (exists s', DiagLogger_Log 40 LOG_LEVEL_ERROR 6 (Some "lost") s = Some s' /\
    seen 100 (sink s') = seen 100 (sink s) ++ waiting s ++ [mkLogEntry (log_time s) LOG_LEVEL_ERROR 6 (sequence_number s) (String.substring 0 255 "lost") []]) /\
  (exists s', DiagLogger_Deinit 40 s = Some s' /\ seen 100 (sink s') = seen 100 (sink s) ++ waiting s).
Proof. apply error_seen_at_once; [apply example_logger_wf|done|apply example_registered|done|unfold LOG_BUFFER_SIZE; lia]. Defined.
(** An entry waits. *)
Definition example_waiting : LoggerContext (list (Z * Z * DiagLogEntry)) :=
  example_trace <| buffer ::= <[0%nat := mkLogEntry 1000 3 0 4 "waits" []]> |> <| buffer_index := 1%nat |>.
Lemma removed_callback_misses_witness :
  waiting example_waiting = [mkLogEntry 1000 3 0 4 "waits" []] /\
  exists s', logger_run 40 [OpUnregister 100; OpLog LOG_LEVEL_ERROR 6 "lost"] example_waiting = Some s' /\ seen 100 (sink s') = seen 100 (sink example_waiting).
Proof.
  split; [done|]. apply removed_callback_misses; [|done|repeat constructor; discriminate|unfold LOG_BUFFER_SIZE; lia].
  constructor; [done|apply example_table|done|cbn; unfold LOG_BUFFER_SIZE; lia].
Defined.
Lemma log_callbacks_refine_witness :
  let s := example_logger tt in
  logger_wf (DiagLogger_RegisterCallback 200 9 s) /\ logger_wf (DiagLogger_UnregisterCallback 200 s) /\
  callback_map (DiagLogger_RegisterCallback 200 9 s) =
    (if bool_decide (is_Some (callback_map s !! 200)) || (size (callback_map s) <? MAX_LOG_CALLBACKS)%nat
     then <[200 := mkCallback 200 9 true]> (callback_map s) else callback_map s) /\
  callback_map (DiagLogger_UnregisterCallback 200 s) = delete 200 (callback_map s).
Proof. apply log_callbacks_refine; [apply example_logger_wf|done]. Defined.
(** A callback that reports every entry it gets. *)
Definition echo_sink : LogSink unit := fun _ _ _ x => Some (x, [mkCall LOG_LEVEL_INFO 7 "received"]).
Lemma logging_callback_never_returns_witness :
  @chatty unit echo_sink 100 (current_level (example_logger tt)) /\
  @DiagLogger_Log unit echo_sink 1000 LOG_LEVEL_ERROR 6 (Some "lost") (example_logger tt) = None.
Proof.
  split; [intros ctx e x; cbn; lia|]. apply (@logging_callback_never_returns unit echo_sink 1000 100); [apply example_logger_wf|done|apply example_registered|intros ctx e x; cbn; lia|done].
Defined.
