(* ===== verification/CoreSecurity.v ===== *)
(** * Security access of the core

    [src/runtime/diagnostic/diag_security.c]: a seed computed from the time, a key computed
    from the seed, a count of attempts and a timer of [DiagTimer.v].  The functions have no
    critical section, so they are functions of the state; log entries are left out.
    [DiagTimer_GetTimestamp], which no file defines, and the address of the callback are
    parameters.  [DiagSecurity_HandleTimeout], which the callback calls, is declared and
    defined nowhere: nothing here says what happens when the timer fires.  Keys and seeds are
    little-endian bytes. *)

From S2P Require Import Prelude Memory Slots Machine DiagTimer.

Definition SEED_MAGIC_1 : Z := 0xDEADBEEF.
Definition SEED_MAGIC_2 : Z := 0xCAFEBABE.
Definition MAX_ACCESS_ATTEMPTS : Z := 3.
Definition KEY_MAGIC_1 : Z := 0x12345678.
Definition KEY_MAGIC_2 : Z := 0x87654321.
Definition DIAG_SEC_LOCKED : Z := 0.

Inductive DiagSecurityState :=
| SECURITY_STATE_LOCKED | SECURITY_STATE_SEED_REQUESTED | SECURITY_STATE_KEY_PENDING | SECURITY_STATE_UNLOCKED | SECURITY_STATE_ERROR.
#[export] Instance DiagSecurityState_eq_dec : EqDecision DiagSecurityState.
Proof. solve_decision. Defined.
(** [sec_mgr] and the timers. *)
Record SecurityManager := mkSecurity {
  sec_state : DiagSecurityState; current_level : Z; timeout_ms : Z; timer_id : Z; attempt_count : Z; last_seed : Z; initialized : bool; sec_timers : Timers }.
#[export] Instance eta_SecurityManager : Eta SecurityManager := fun s =>
  mkSecurity (sec_state s) (current_level s) (timeout_ms s) (timer_id s) (attempt_count s) (last_seed s) (initialized s) (sec_timers s).

Section security.
Context (DiagTimer_GetTimestamp : Timeval -> Z) (security_timeout_callback : Z).

Definition security_zero (s : SecurityManager) : SecurityManager := mkSecurity SECURITY_STATE_LOCKED DIAG_SEC_LOCKED 0 0 0 0 false (sec_timers s).
(** The delay of ten milliseconds is left out. *)
Definition DiagSecurity_Init (timeout : Z) (s : SecurityManager) : bool * SecurityManager :=
  if initialized s then (false, s)
  else (true, (security_zero s) <| timeout_ms := timeout |> <| sec_state := SECURITY_STATE_LOCKED |> <| initialized := true |>).
Definition stop_timer (s : SecurityManager) : SecurityManager :=
  if timer_id s =? 0 then s else s <| sec_timers ::= DiagTimer_Stop (timer_id s) |>.
Definition DiagSecurity_Deinit (s : SecurityManager) : SecurityManager :=
  if negb (initialized s) then s else security_zero (stop_timer s).

Definition calculate_key (seed : Z) : Z :=
  let key := Z.lxor seed KEY_MAGIC_1 in
  let key := Z.lor (u32 (Z.shiftl key 13)) (Z.shiftr key 19) in
  let key := Z.lxor key KEY_MAGIC_2 in
  Z.lor (Z.shiftr key 7) (u32 (Z.shiftl key 25)).
(** [length] is the number of bytes the caller gives. *)
Definition DiagSecurity_ValidateKey (key : option (list Z)) (s : SecurityManager) : bool :=
  match key with
  | None => false
  | Some key => (length key =? 4)%nat && (le_value key =? calculate_key (last_seed s))
  end.
Definition DiagSecurity_GenerateSeed (s : SecurityManager) : option (list Z) * SecurityManager :=
  if negb (initialized s) then (None, s) else
  let new_seed := u32 (Z.lxor (DiagTimer_GetTimestamp (clock (sec_timers s))) SEED_MAGIC_1 + SEED_MAGIC_2) in
  (Some (le_bytes 4 new_seed), s <| last_seed := new_seed |> <| sec_state := SECURITY_STATE_KEY_PENDING |>).

Definition start_timer (ms : Z) (s : SecurityManager) : SecurityManager :=
  let r := DiagTimer_Start TIMER_TYPE_SECURITY ms security_timeout_callback 0 (sec_timers s) in
  s <| timer_id := r.1 |> <| sec_timers := r.2 |>.
Definition DiagSecurity_Access (level : Z) (key : option (list Z)) (s : SecurityManager) : bool * SecurityManager :=
  if negb (initialized s) || bool_decide (key = None) || bool_decide (key = Some []) then (false, s) else
  if MAX_ACCESS_ATTEMPTS <=? attempt_count s then (false, s <| sec_state := SECURITY_STATE_ERROR |>) else
  let s := s <| attempt_count ::= fun n => u32 (n + 1) |> in
  if negb (bool_decide (sec_state s = SECURITY_STATE_KEY_PENDING)) then (false, s) else
  if negb (DiagSecurity_ValidateKey key s) then
    (false, if MAX_ACCESS_ATTEMPTS <=? attempt_count s then start_timer (u32 (timeout_ms s * 2)) s else s)
  else
  let s := s <| current_level := level |> <| sec_state := SECURITY_STATE_UNLOCKED |> <| attempt_count := 0 |> in
  (true, start_timer (timeout_ms s) (stop_timer s)).

(** The number of attempts stays. *)
Definition reset_security_state (s : SecurityManager) : SecurityManager :=
  s <| sec_state := SECURITY_STATE_LOCKED |> <| current_level := DIAG_SEC_LOCKED |> <| last_seed := 0 |>.
Definition DiagSecurity_Lock (s : SecurityManager) : bool * SecurityManager :=
  if bool_decide (sec_state s = SECURITY_STATE_LOCKED) then (true, s) else
  (true, reset_security_state (if timer_id s =? 0 then s else (stop_timer s) <| timer_id := 0 |>)).

(** ** The key *)

Definition rotate_left (k x : Z) : Z := Z.lor (u32 (Z.shiftl x k)) (Z.shiftr x (32 - k)).
Lemma rotate_testbit k x i : is_u32 x -> 0 <= k < 32 -> 0 <= i < 32 -> Z.testbit (rotate_left k x) i = Z.testbit x ((i - k) mod 32).
Proof.
  intros Hx Hk Hi. unfold rotate_left, u32. rewrite Z.lor_spec, Z.mod_pow2_bits_low by lia. rewrite Z.shiftl_spec, Z.shiftr_spec by lia.
  destruct (decide (k <= i)).
  - rewrite (Z.mod_small (i - k)) by lia. destruct (decide (k = 0)) as [->|].
    + replace (i + (32 - 0)) with (i + 32) by lia. replace (Z.testbit x (i + 32)) with false; [by rewrite orb_false_r|].
      unfold is_u32 in Hx. rewrite <- (Z.mod_small x (2 ^ 32)) by lia. by rewrite Z.mod_pow2_bits_high by lia.
    + replace (Z.testbit x (i + (32 - k))) with false; [by rewrite orb_false_r|].
      unfold is_u32 in Hx. rewrite <- (Z.mod_small x (2 ^ 32)) by lia. by rewrite Z.mod_pow2_bits_high by lia.
  - rewrite Z.testbit_neg_r by lia. cbn [orb]. f_equal. apply (Z.mod_unique _ _ (-1)); lia.
Qed.
Lemma rotate_u32 k x : is_u32 x -> 0 <= k < 32 -> is_u32 (rotate_left k x).
Proof.
  intros Hx Hk. unfold is_u32 in *. assert (Hn : 0 <= rotate_left k x).
  { unfold rotate_left. apply Z.lor_nonneg. split; [apply u32_range|]. apply Z.shiftr_nonneg. lia. }
  split; [done|]. destruct (decide (rotate_left k x = 0)) as [->|]; [lia|]. apply Z.log2_lt_pow2; [lia|]. unfold rotate_left in *.
  pose proof (u32_range (Z.shiftl x k)) as Hu. unfold is_u32 in Hu. rewrite Z.log2_lor by (try lia; apply Z.shiftr_nonneg; lia).
  assert (Hs : 0 <= Z.shiftr x (32 - k) < 2 ^ 32).
  { rewrite Z.shiftr_div_pow2 by lia. split; [apply Z.div_pos; lia|]. apply Z.div_lt_upper_bound; [lia|]. assert (1 <= 2 ^ (32 - k)) by (apply (Z.pow_le_mono_r 2 0); lia). nia. }
  apply Z.max_lub_lt.
  - destruct (decide (u32 (Z.shiftl x k) = 0)) as [->|]; [done|]. apply Z.log2_lt_pow2; lia.
  - destruct (decide (Z.shiftr x (32 - k) = 0)) as [->|]; [done|]. apply Z.log2_lt_pow2; lia.
Qed.
Lemma rotate_inj k x y : is_u32 x -> is_u32 y -> 0 <= k < 32 -> rotate_left k x = rotate_left k y -> x = y.
Proof.
  intros Hx Hy Hk Heq. apply Z.bits_inj'. intros i Hi. destruct (decide (i < 32)).
  - assert (Hm : 0 <= (i + k) mod 32 < 32) by (apply Z.mod_pos_bound; lia).
    assert (Hi' : ((i + k) mod 32 - k) mod 32 = i).
    { rewrite Zminus_mod_idemp_l. replace (i + k - k) with i by lia. apply Z.mod_small. lia. }
    rewrite <- Hi', <- !rotate_testbit by done. by rewrite Heq.
  - unfold is_u32 in *. rewrite <- (Z.mod_small x (2 ^ 32)), <- (Z.mod_small y (2 ^ 32)) by lia. by rewrite !Z.mod_pow2_bits_high by lia.
Qed.
Lemma key_rotates seed : calculate_key seed = rotate_left 25 (Z.lxor (rotate_left 13 (Z.lxor seed KEY_MAGIC_1)) KEY_MAGIC_2).
Proof. unfold calculate_key, rotate_left. cbv zeta. by rewrite Z.lor_comm. Qed.
Lemma magic_u32 : is_u32 KEY_MAGIC_1 /\ is_u32 KEY_MAGIC_2.
Proof. by split; vm_compute. Qed.
Lemma level_key_u32 seed : is_u32 seed -> is_u32 (calculate_key seed).
Proof. intros Hs. rewrite key_rotates. destruct magic_u32. apply rotate_u32; [|lia]. apply lxor_u32; [apply rotate_u32; [by apply lxor_u32|lia]|done]. Qed.
Lemma calculate_key_inj a b : is_u32 a -> is_u32 b -> calculate_key a = calculate_key b -> a = b.
Proof.
  intros Ha Hb. rewrite !key_rotates. destruct magic_u32 as [M1 M2]. assert (Hx : forall z, is_u32 z -> is_u32 (Z.lxor z KEY_MAGIC_1)) by (intros; by apply lxor_u32).
  intros H1%rotate_inj; [|apply lxor_u32; [apply rotate_u32; [by apply Hx|lia]|done]..|lia].
  assert (H2 : forall x y m, Z.lxor x m = Z.lxor y m -> x = y).
  { intros x y m E. apply (f_equal (fun z => Z.lxor z m)) in E. by rewrite !Z.lxor_assoc, Z.lxor_nilpotent, !Z.lxor_0_r in E. }
  apply H2, rotate_inj, H2 in H1; [done|by apply Hx|by apply Hx|lia].
Qed.

(** ** Runs *)

Inductive SecurityOp := OpInit (timeout : Z) | OpSeed | OpAccess (level : Z) (key : option (list Z)) | OpLock | OpClock (tv : Timeval).
Definition security_exec (op : SecurityOp) (s : SecurityManager) : bool * SecurityManager :=
  match op with
  | OpInit timeout => DiagSecurity_Init timeout s
  | OpSeed => let r := DiagSecurity_GenerateSeed s in (bool_decide (is_Some r.1), r.2)
  | OpAccess level key => DiagSecurity_Access level key s
  | OpLock => DiagSecurity_Lock s
  | OpClock tv => (true, s <| sec_timers ::= fun t => t <| clock := tv |> |>)
  end.
Fixpoint security_run (ops : list SecurityOp) (s : SecurityManager) : list bool * SecurityManager :=
  match ops with
  | [] => ([], s)
  | op :: ops => let r := security_exec op s in let r' := security_run ops r.2 in (r.1 :: r'.1, r'.2)
  end.
Definition is_access (op : SecurityOp) : Prop := match op with OpAccess _ _ => True | _ => False end.
Definition used_up (s : SecurityManager) : Prop := initialized s = true /\ MAX_ACCESS_ATTEMPTS <= attempt_count s.

Lemma start_timer_parts ms s : let s' := start_timer ms s in
  sec_state s' = sec_state s /\ current_level s' = current_level s /\ attempt_count s' = attempt_count s /\ last_seed s' = last_seed s /\
  initialized s' = initialized s /\ timeout_ms s' = timeout_ms s.
Proof. done. Qed.
Lemma stop_timer_parts s : let s' := stop_timer s in
  sec_state s' = sec_state s /\ current_level s' = current_level s /\ attempt_count s' = attempt_count s /\ last_seed s' = last_seed s /\
  initialized s' = initialized s /\ timeout_ms s' = timeout_ms s /\ timer_id s' = timer_id s.
Proof. unfold stop_timer. by destruct (_ =? 0). Qed.
Lemma used_up_step op s : used_up s ->
  used_up (security_exec op s).2 /\ (is_access op -> (security_exec op s).1 = false) /\
  (current_level (security_exec op s).2 = current_level s \/ current_level (security_exec op s).2 = DIAG_SEC_LOCKED).
Proof.
  intros [Hi Ha]. destruct op as [timeout| |level key| |tv]; cbn [security_exec is_access].
  - unfold DiagSecurity_Init. rewrite Hi. by split_and!; [..|left].
  - unfold DiagSecurity_GenerateSeed. rewrite Hi. by split_and!; [..|left].
  - unfold DiagSecurity_Access. rewrite Hi. cbn [negb orb]. destruct (_ || _); [by split_and!; [..|left]|].
    rewrite (proj2 (Z.leb_le _ _)) by done. by split_and!; [..|left].
  - unfold DiagSecurity_Lock. destruct (bool_decide _); [by split_and!; [..|left]|]. destruct (stop_timer_parts s) as (_ & _ & E3 & _ & E5 & _ & _).
    destruct (timer_id s =? 0); cbn; split_and!; try done; try (by right); unfold used_up; cbn; [by rewrite E5, E3..].
  - by split_and!; [..|left].
Qed.

(** What the timers must be for a start to succeed. *)
Definition can_start (s : SecurityManager) : Prop :=
  DiagTimer.wf (sec_timers s) /\ timer_map (sec_timers s) !! next_id (timer_mgr (sec_timers s)) = None /\ (size (timer_map (sec_timers s)) < MAX_TIMERS)%nat.
Lemma start_timer_map ms s : can_start s -> is_u32 ms -> ms <> 0 -> security_timeout_callback <> 0 ->
  let s' := start_timer ms s in
  DiagTimer.wf (sec_timers s') /\ timer_id s' = next_id (timer_mgr (sec_timers s)) /\ timer_id s' <> 0 /\
  timer_map (sec_timers s') = <[timer_id s' := started TIMER_TYPE_SECURITY ms security_timeout_callback 0 (sec_timers s)]> (timer_map (sec_timers s)).
Proof.
  intros (Hw & Hfresh & Hsz) Hms H0 Hcb. pose proof (free_slot _ Hw) as Hf. destruct (find_free _ _) as [i|] eqn:Ei; [|lia].
  pose proof (start_slot TIMER_TYPE_SECURITY ms security_timeout_callback 0 (sec_timers s) i Hw Hms H0 Hcb Hfresh Ei) as Hs. unfold start_timer.
  destruct (DiagTimer_Start _ _ _ _ _) as [id ts]. destruct Hs as (-> & Hw' & _ & Hm & _). cbn. split_and!; [done|done|apply Hw|done].
Qed.
End security.

(** The branches of an access. *)
Lemma access_branches cb level key s : initialized s = true -> key <> [] -> 0 <= attempt_count s <= MAX_ACCESS_ATTEMPTS ->
  let r := DiagSecurity_Access cb level (Some key) s in
  let granted := bool_decide (attempt_count s < MAX_ACCESS_ATTEMPTS /\ sec_state s = SECURITY_STATE_KEY_PENDING /\
                              length key = 4%nat /\ le_value key = calculate_key (last_seed s)) in
  r.1 = granted /\ last_seed r.2 = last_seed s /\
  if granted then sec_state r.2 = SECURITY_STATE_UNLOCKED /\ current_level r.2 = level /\ attempt_count r.2 = 0
  else current_level r.2 = current_level s /\ attempt_count r.2 = Z.min MAX_ACCESS_ATTEMPTS (attempt_count s + 1) /\
       sec_state r.2 = if MAX_ACCESS_ATTEMPTS <=? attempt_count s then SECURITY_STATE_ERROR else sec_state s.
Proof.
  intros Hi Hk Ha. unfold DiagSecurity_Access, MAX_ACCESS_ATTEMPTS in *. cbv zeta. rewrite Hi, (bool_decide_eq_false_2 (Some key = None)), (bool_decide_eq_false_2 (Some key = Some []))
    by (try done; intros [= ->]; done). cbn [negb orb]. destruct (3 <=? attempt_count s) eqn:E; tests.
  { rewrite bool_decide_eq_false_2 by lia. cbn. split_and!; try done. lia. }
  assert (Hu : u32 (attempt_count s + 1) = attempt_count s + 1) by (apply u32_small; unfold is_u32; lia).
  cbn [sec_state setf]. destruct (decide (sec_state s = SECURITY_STATE_KEY_PENDING)) as [Hp|Hp].
  2:{ rewrite (bool_decide_eq_false_2 (sec_state s = _)), bool_decide_eq_false_2 by (done || tauto). cbn [negb]. cbn. rewrite Hu. split_and!; try done. lia. }
  rewrite (bool_decide_eq_true_2 (sec_state s = _)) by done. cbn [negb]. unfold DiagSecurity_ValidateKey. cbn [last_seed setf].
  destruct (length key =? 4)%nat eqn:El; [destruct (le_value key =? calculate_key (last_seed s)) eqn:Ek|]; cbn [andb negb]; tests.
  - rewrite bool_decide_eq_true_2 by (split_and!; done || lia). match goal with |- context [stop_timer ?z] => set (s1 := z) end.
    destruct (stop_timer_parts s1) as (E1 & E2 & E3 & E4 & _). destruct (start_timer_parts cb (timeout_ms s1) (stop_timer s1)) as (F1 & F2 & F3 & F4 & _). cbn [fst snd].
    rewrite F1, F2, F3, F4, E1, E2, E3, E4. by split_and!.
  - rewrite bool_decide_eq_false_2 by tauto. cbn [fst snd attempt_count setf]. rewrite Hu. destruct (3 <=? attempt_count s + 1); cbn; rewrite ?Hu; split_and!; try done; lia.
  - rewrite bool_decide_eq_false_2 by tauto. cbn [fst snd attempt_count setf]. rewrite Hu. destruct (3 <=? attempt_count s + 1); cbn; rewrite ?Hu; split_and!; try done; lia.
Qed.

Lemma core_access_key cb level key s : initialized s = true -> key <> [] -> 0 <= attempt_count s < MAX_ACCESS_ATTEMPTS -> sec_state s = SECURITY_STATE_KEY_PENDING ->
  let r := DiagSecurity_Access cb level (Some key) s in
  (r.1 = true <-> length key = 4%nat /\ le_value key = calculate_key (last_seed s)) /\ (r.1 = true -> current_level r.2 = level).
Proof.
  intros Hi Hk Ha Hp r. destruct (access_branches cb level key s Hi Hk) as (H1 & _ & H3); [unfold MAX_ACCESS_ATTEMPTS in *; lia|]. fold r in H1, H3.
  rewrite H1. split.
  - rewrite bool_decide_eq_true. split; [by intros (_ & _ & ?)|]. intros ?. split_and!; [lia|done|tauto|tauto].
  - intros Hg. rewrite Hg in H3. tauto.
Qed.

(** ** Theorems *)

(** Access is given exactly if fewer than three attempts have been counted, a seed was
    given and not yet answered, and the key has four bytes and is that of the seed: then the
    level asked for is the current one and the count starts again; otherwise the level stays
    and an attempt that was not refused for its number is counted. *)
Theorem core_access_exact cb level key s : initialized s = true -> key <> [] -> 0 <= attempt_count s <= MAX_ACCESS_ATTEMPTS ->
  let r := DiagSecurity_Access cb level (Some key) s in
  let granted := bool_decide (attempt_count s < MAX_ACCESS_ATTEMPTS /\ sec_state s = SECURITY_STATE_KEY_PENDING /\
                              length key = 4%nat /\ le_value key = calculate_key (last_seed s)) in
  r.1 = granted /\ last_seed r.2 = last_seed s /\
  if granted then sec_state r.2 = SECURITY_STATE_UNLOCKED /\ current_level r.2 = level /\ attempt_count r.2 = 0
  else current_level r.2 = current_level s /\ attempt_count r.2 = Z.min MAX_ACCESS_ATTEMPTS (attempt_count s + 1) /\
       sec_state r.2 = if MAX_ACCESS_ATTEMPTS <=? attempt_count s then SECURITY_STATE_ERROR else sec_state s.
Proof. apply access_branches. Qed.

(** Seed and key: after a seed the four bytes of its key unlock whatever level is asked
    for, and no other four bytes do. *)
Theorem core_seed_and_key stamp cb level key s : initialized s = true -> 0 <= attempt_count s < MAX_ACCESS_ATTEMPTS -> length key = 4%nat -> Forall is_u8 key ->
  exists seed s1, DiagSecurity_GenerateSeed stamp s = (Some seed, s1) /\
  ((DiagSecurity_Access cb level (Some key) s1).1 = true <-> key = le_bytes 4 (calculate_key (le_value seed))) /\
  ((DiagSecurity_Access cb level (Some key) s1).1 = true -> current_level (DiagSecurity_Access cb level (Some key) s1).2 = level).
Proof.
  intros Hi Ha Hl Hb. unfold DiagSecurity_GenerateSeed. rewrite Hi. cbn [negb]. set (seed := u32 _). eexists _, _. split; [done|].
  set (s1 := s <| last_seed := seed |> <| sec_state := SECURITY_STATE_KEY_PENDING |>).
  assert (Hu : is_u32 seed) by apply u32_range. assert (Hv : le_value (le_bytes 4 seed) = seed) by (apply le_value_bytes; exact Hu).
  destruct (core_access_key cb level key s1) as [H1 H2]; [done|by intros ->|exact Ha|done|]. rewrite Hv. split; [|exact H2]. rewrite H1.
  assert (Hk : is_u32 (calculate_key seed)) by (by apply level_key_u32). split.
  - intros [_ Hkey]. change (last_seed s1) with seed in Hkey. rewrite <- Hkey, <- Hl. symmetry. by apply le_bytes_value.
  - intros ->. split; [apply length_le_bytes|]. by apply le_value_bytes.
Qed.

(** After three attempts nothing but [DiagSecurity_Deinit] helps: along every run of
    seeds, accesses, locks and initialisations no access is given, and the level stays what
    it is or becomes locked. *)
Theorem core_lockout_permanent stamp cb ops s : used_up s ->
  let r := security_run stamp cb ops s in
  (forall i op, ops !! i = Some op -> is_access op -> r.1 !! i = Some false) /\ used_up r.2 /\
  (current_level r.2 = current_level s \/ current_level r.2 = DIAG_SEC_LOCKED).
Proof.
  revert s. induction ops as [|op ops IH]; intros s Hu; cbn [security_run]; [by split_and!; [..|left]|].
  destruct (used_up_step stamp cb op s Hu) as (Hu1 & Hacc & Hlv). destruct (IH _ Hu1) as (H1 & H2 & H3). cbn [fst snd]. split_and!; [|done|].
  - intros [|i] o Ho Ha; cbn in Ho |- *; [injection Ho as ->; by rewrite Hacc|by eapply H1].
  - destruct H3 as [->|H3]; [done|by right].
Qed.

(** Attempts are counted where no key is expected: without a seed, three accesses with
    any keys, the right one included, use the attempts up. *)
Theorem unasked_keys_lock_out stamp cb s l1 l2 l3 k1 k2 k3 : initialized s = true -> attempt_count s = 0 -> sec_state s <> SECURITY_STATE_KEY_PENDING ->
  k1 <> [] -> k2 <> [] -> k3 <> [] ->
  let r := security_run stamp cb [OpAccess l1 (Some k1); OpAccess l2 (Some k2); OpAccess l3 (Some k3)] s in
  r.1 = [false; false; false] /\ used_up r.2.
Proof.
  intros Hi Ha Hp H1 H2 H3.
  assert (Hstep : forall l k s n, initialized s = true -> attempt_count s = n -> 0 <= n < MAX_ACCESS_ATTEMPTS -> sec_state s <> SECURITY_STATE_KEY_PENDING -> k <> [] ->
    DiagSecurity_Access cb l (Some k) s = (false, s <| attempt_count := n + 1 |>)).
  { intros l k s' n Hi' <- Hn Hp' Hk. unfold DiagSecurity_Access. cbv zeta. rewrite Hi', (bool_decide_eq_false_2 (Some k = None)), (bool_decide_eq_false_2 (Some k = Some []))
      by (try done; intros [= ->]; done). cbn [negb orb]. rewrite (proj2 (Z.leb_gt _ _)) by lia. cbn [sec_state setf]. rewrite bool_decide_eq_false_2 by done. cbn [negb].
    f_equal. unfold setf. cbn. by rewrite u32_small by (unfold is_u32, MAX_ACCESS_ATTEMPTS in *; lia). }
  cbn [security_run security_exec]. unfold MAX_ACCESS_ATTEMPTS in *.
  rewrite (Hstep l1 k1 s 0) by (done || lia). cbn [fst snd]. rewrite (Hstep l2 k2 _ 1) by (done || lia). cbn [fst snd].
  rewrite (Hstep l3 k3 _ 2) by (done || lia). split; [done|]. unfold used_up, MAX_ACCESS_ATTEMPTS. cbn. split; [done|lia].
Qed.

(** The seed is the time: two seeds are equal exactly if they were given at the same
    millisecond of the 32-bit counter, so a recorded key opens again when it comes round. *)
Theorem seed_is_the_time stamp s s' seed seed' s1 s1' : DiagSecurity_GenerateSeed stamp s = (Some seed, s1) -> DiagSecurity_GenerateSeed stamp s' = (Some seed', s1') ->
  is_u32 (stamp (clock (sec_timers s))) -> is_u32 (stamp (clock (sec_timers s'))) ->
  seed = seed' <-> stamp (clock (sec_timers s)) = stamp (clock (sec_timers s')).
Proof.
  unfold DiagSecurity_GenerateSeed. destruct (initialized s); [|done]. destruct (initialized s'); [|done]. cbn [negb].
  set (t := stamp (clock (sec_timers s))). set (t' := stamp (clock (sec_timers s'))). intros H1 H2 Ht Ht'.
  assert (Hs : seed = le_bytes 4 (u32 (Z.lxor t SEED_MAGIC_1 + SEED_MAGIC_2))) by congruence.
  assert (Hs' : seed' = le_bytes 4 (u32 (Z.lxor t' SEED_MAGIC_1 + SEED_MAGIC_2))) by congruence. rewrite Hs, Hs'. clear H1 H2 Hs Hs'. split; [|by intros ->].
  intros E. apply (f_equal le_value) in E. rewrite !le_value_bytes in E by apply u32_range.
  assert (Hm : is_u32 SEED_MAGIC_1) by (by vm_compute). pose proof (lxor_u32 _ _ Ht Hm) as Hx. pose proof (lxor_u32 _ _ Ht' Hm) as Hx'.
  assert (E' : Z.lxor t SEED_MAGIC_1 = Z.lxor t' SEED_MAGIC_1).
  { pose proof (u32_diff (Z.lxor t SEED_MAGIC_1 + SEED_MAGIC_2) (Z.lxor t' SEED_MAGIC_1 + SEED_MAGIC_2)) as D1.
    pose proof (u32_diff (Z.lxor t' SEED_MAGIC_1 + SEED_MAGIC_2) (Z.lxor t SEED_MAGIC_1 + SEED_MAGIC_2)) as D2. rewrite E, Z.sub_diag in D1. rewrite E, Z.sub_diag in D2.
    change (u32 0) with 0 in *. unfold is_u32 in *. destruct (Z.le_gt_cases (Z.lxor t' SEED_MAGIC_1) (Z.lxor t SEED_MAGIC_1)); [specialize (D1 ltac:(lia)); lia|specialize (D2 ltac:(lia)); lia]. }
  apply (f_equal (fun z => Z.lxor z SEED_MAGIC_1)) in E'. by rewrite !Z.lxor_assoc, Z.lxor_nilpotent, !Z.lxor_0_r in E'.
Qed.

(** The third wrong key forgets a timer: the timer that ran for the session is neither
    stopped nor remembered, and stays when the component is shut down. *)
Theorem lockout_leaks_timer cb level key s t : initialized s = true -> attempt_count s = 2 -> sec_state s = SECURITY_STATE_KEY_PENDING ->
  key <> [] -> ~ (length key = 4%nat /\ le_value key = calculate_key (last_seed s)) ->
  can_start s -> cb <> 0 -> u32 (timeout_ms s * 2) <> 0 -> timer_map (sec_timers s) !! timer_id s = Some t ->
  let s1 := (DiagSecurity_Access cb level (Some key) s).2 in
  timer_id s1 <> timer_id s /\ timer_map (sec_timers (DiagSecurity_Deinit s1)) = timer_map (sec_timers s).
Proof.
  intros Hi Ha Hp Hk Hwrong Hcs Hcb H0 Ht. unfold DiagSecurity_Access. cbv zeta.
  rewrite Hi, (bool_decide_eq_false_2 (Some key = None)), (bool_decide_eq_false_2 (Some key = Some [])) by (try done; intros [= ->]; done). cbn [negb orb].
  unfold MAX_ACCESS_ATTEMPTS. rewrite Ha. change (3 <=? 2) with false. cbv iota. set (s0 := s <| attempt_count ::= _ |>). change (sec_state s0) with (sec_state s).
  rewrite Hp, bool_decide_eq_true_2 by done. cbn [negb].
  assert (Hv : DiagSecurity_ValidateKey (Some key) s0 = false).
  { unfold DiagSecurity_ValidateKey. change (last_seed s0) with (last_seed s). apply andb_false_iff. destruct (decide (length key = 4%nat)) as [El|El].
    - right. apply Z.eqb_neq. tauto.
    - left. by apply Nat.eqb_neq. }
  rewrite Hv. cbn [negb fst snd]. change (attempt_count s0) with (u32 (attempt_count s + 1)). rewrite Ha. change (3 <=? u32 (2 + 1)) with true. cbv iota.
  change (timeout_ms s0) with (timeout_ms s).
  destruct (start_timer_map cb (u32 (timeout_ms s * 2)) s0) as (Hw1 & Hid & Hne & Hm1); [exact Hcs|apply u32_range|done|done|].
  set (s1 := start_timer _ _ _) in *. change (sec_timers s0) with (sec_timers s) in *. destruct Hcs as (Hw & Hfresh & _). split.
  { intros E. rewrite <- Hid, E, Ht in Hfresh. done. }
  unfold DiagSecurity_Deinit. change (initialized s1) with (initialized s). rewrite Hi. cbn [negb]. unfold stop_timer.
  rewrite (proj2 (Z.eqb_neq _ _)) by done. change (timer_map (DiagTimer_Stop (timer_id s1) (sec_timers s1)) = timer_map (sec_timers s)).
  destruct (stop_wf (timer_id s1) (sec_timers s1) Hw1) as [_ ->]. rewrite Hm1. rewrite delete_insert_id; [done|]. by rewrite Hid.
Qed.

(** ** Concrete runs *)

(** Initialised with a timeout of one second at 2000 ms; one timer runs. *)
Definition example_timers : Timers := (DiagTimer_Start TIMER_TYPE_SECURITY 1000 9 0 (DiagTimer_Init (mkTimers timer_mgr_zero (mkTimeval 2 0))).2).2.
Definition example_security (st : DiagSecurityState) (n seed : Z) : SecurityManager := mkSecurity st 1 1000 1 n seed true example_timers.
Lemma example_timers_run : timer_run 1 example_timers.
Proof. apply run_start; [by apply run_init|by vm_compute]. Qed.
(** The milliseconds of the clock. *)
Definition get_timestamp_of (tv : Timeval) : Z := u32 (millis tv).
Definition example_key : list Z := le_bytes 4 (calculate_key 77).

Lemma core_access_exact_witness :
  let s := example_security SECURITY_STATE_KEY_PENDING 2 77 in
  let r := DiagSecurity_Access 9 3 (Some example_key) s in
  r.1 = true /\
  let granted := bool_decide (attempt_count s < MAX_ACCESS_ATTEMPTS /\ sec_state s = SECURITY_STATE_KEY_PENDING /\
                              length example_key = 4%nat /\ le_value example_key = calculate_key (last_seed s)) in
  r.1 = granted /\ last_seed r.2 = last_seed s /\
  if granted then sec_state r.2 = SECURITY_STATE_UNLOCKED /\ current_level r.2 = 3 /\ attempt_count r.2 = 0
  else current_level r.2 = current_level s /\ attempt_count r.2 = Z.min MAX_ACCESS_ATTEMPTS (attempt_count s + 1) /\
       sec_state r.2 = if MAX_ACCESS_ATTEMPTS <=? attempt_count s then SECURITY_STATE_ERROR else sec_state s.
Proof. split; [by vm_compute|]. apply core_access_exact; [done|done|by split]. Defined.
Lemma core_seed_and_key_witness :
  let s := example_security SECURITY_STATE_LOCKED 0 0 in
  exists seed s1, DiagSecurity_GenerateSeed get_timestamp_of s = (Some seed, s1) /\
  ((DiagSecurity_Access 9 4 (Some example_key) s1).1 = true <-> example_key = le_bytes 4 (calculate_key (le_value seed))) /\
  ((DiagSecurity_Access 9 4 (Some example_key) s1).1 = true -> current_level (DiagSecurity_Access 9 4 (Some example_key) s1).2 = 4).
Proof. apply core_seed_and_key; [done|by split|done|repeat constructor; by vm_compute]. Defined.
Definition example_attempts : list SecurityOp := [OpInit 500; OpSeed; OpAccess 1 (Some example_key); OpLock; OpSeed; OpAccess 2 (Some [1; 2; 3; 4])].
Lemma core_lockout_permanent_witness :
  let s := example_security SECURITY_STATE_UNLOCKED 3 77 in
  let r := security_run get_timestamp_of 9 example_attempts s in
  used_up s /\ current_level r.2 = DIAG_SEC_LOCKED /\
  (forall i op, example_attempts !! i = Some op -> is_access op -> r.1 !! i = Some false) /\ used_up r.2 /\
  (current_level r.2 = current_level s \/ current_level r.2 = DIAG_SEC_LOCKED).
Proof. split; [by split|]. split; [by vm_compute|]. apply core_lockout_permanent. by split. Defined.
Lemma unasked_keys_lock_out_witness :
  let r := security_run get_timestamp_of 9 [OpAccess 1 (Some example_key); OpAccess 1 (Some example_key); OpAccess 1 (Some example_key)]
             (example_security SECURITY_STATE_LOCKED 0 77) in
  r.1 = [false; false; false] /\ used_up r.2.
Proof. by apply unasked_keys_lock_out. Defined.
Lemma seed_is_the_time_witness :
  let s := example_security SECURITY_STATE_LOCKED 0 0 in let s' := example_security SECURITY_STATE_UNLOCKED 0 0 in
  (DiagSecurity_GenerateSeed get_timestamp_of s).1 = (DiagSecurity_GenerateSeed get_timestamp_of s').1 /\
  forall seed seed' s1 s1', DiagSecurity_GenerateSeed get_timestamp_of s = (Some seed, s1) -> DiagSecurity_GenerateSeed get_timestamp_of s' = (Some seed', s1') ->
    (seed = seed' <-> get_timestamp_of (clock (sec_timers s)) = get_timestamp_of (clock (sec_timers s'))).
Proof.
  split; [by vm_compute|]. intros seed seed' s1 s1' H1 H2. eapply seed_is_the_time; [exact H1|exact H2|by vm_compute|by vm_compute].
Defined.
Lemma lockout_leaks_timer_witness :
  let s := example_security SECURITY_STATE_KEY_PENDING 2 77 in
  let s1 := (DiagSecurity_Access 9 1 (Some [1; 2; 3; 4]) s).2 in
  is_Some (timer_map (sec_timers s) !! timer_id s) /\
  timer_id s1 <> timer_id s /\ timer_map (sec_timers (DiagSecurity_Deinit s1)) = timer_map (sec_timers s).
Proof.
  split; [by eexists|]. eapply lockout_leaks_timer; [done|done|done|done| | |done|by vm_compute|by vm_compute].
  - intros [_ E]. by vm_compute in E.
  - destruct (timer_run_below 1 example_timers example_timers_run) as (Hw & Hb & _); [lia|]. split; [exact Hw|]. split; [by vm_compute|apply Nat.ltb_lt; by vm_compute].
Defined.
